(* ===== verification/_CoqProject ===== *)
-Q . S2P
Prelude.v
Effects.v
PyList.v
PyStr.v
PyDate.v
PyFloat.v
PyVal.v
Urls.v
PyJson.v
JsonDump.v
UserConfig.v
Media.v
UsenetCompat.v
Magnet.v
NzbUrls.v
NzbStorage.v
Redis.v
CacheStatus.v
StreamFilter.v
StreamSort.v
Regex.v
TemplateLexer.v
TemplateParser.v
TemplateEval.v
TaskQueue.v
SourceHealth.v
EpisodeParser.v
FileSelection.v
LzString.v
CircuitBreaker.v
Retry.v
RedisWrapper.v
ProfileCrypto.v
ProfileMask.v
ProfileContext.v
UserSecrets.v
Profiles.v
Middleware.v
DebridClient.v
TelegramFileId.v
Network.v
DebridProviders.v
ProviderFlow.v
UsenetSelection.v
Torbox.v
RealDebrid.v
Playback.v
PlaybackRuns.v
PlaybackService.v
TelegramPlayback.v
Session.v
Community.v
CommunitySpec.v
CommunityInvariants.v
MetadataSuggestions.v
EpisodeSuggestions.v
StreamSuggestions.v
Votes.v
CommunityFrames.v
Contributions.v
CommunityRuns.v
