(* ===== verification/Prelude.v ===== *)
(** * MediaFusion: a verification library for the Python server

    MediaFusion serves streams to media players.  For a title it collects
    torrent, Usenet, Telegram, HTTP and other streams, drops those the user
    does not want, asks which of them the user's debrid providers have cached,
    sorts and caps them, renders their names with templates, and when one is
    played picks the file inside it.  A user's preferences live in profiles,
    whose secrets are encrypted, masked for the browser and carried in links.
    Scrapers and other background tasks fill the database, and users correct and
    extend it with suggestions and contributions.  This library models that core
    as the source has it, under src/python-deprecated/, and proves it correct.

    ** Files

    Python itself:
    - Prelude: this header, [outcome] (a call that returns or raises) and the
      tactics [case_test] and [zbool];
    - Effects: calls that read and change a state and return or raise;
    - PyList, PyStr, PyDate, PyFloat, PyVal: lists ([sorted] as a stable sort),
      ASCII strings, dates, IEEE doubles, and dynamically typed values;
    - PyJson, JsonDump: [json.loads], its scanner and its parser, and
      [json.dumps], which they invert;
    - Regex: a backtracking matcher with the order of Python's [re];
    - Urls: [urllib.parse], taking links apart, putting them together, quoting
      and reading query strings;
    - Session: db/database.py, a session as committed and working tables, and
      the logic of the handlers that use one.

    Choosing what a user sees:
    - UserConfig: db/schemas/config.py ([UserData], [StreamingProvider]) and
      tables of utils/const.py: credentials, validators, migrations, the active
      providers;
    - Media: db/schemas/media.py, the streams and their files;
    - UsenetCompat: workers/providers/usenet_compatibility.py;
    - NzbUrls: utils/usenet_url_resolver.py and the credentials in NZB links;
    - NzbStorage: utils/nzb_storage.py, signed links of stored NZB files;
    - Magnet: magnet links of utils/torrent.py;
    - Redis: the server's commands as a class with laws, and an instance;
    - CacheStatus: workers/providers/cache_helpers.py;
    - StreamFilter, StreamSort: utils/parser.py, from the input list of streams
      to the merged lists of the providers.

    Profiles and requests:
    - ProfileCrypto, ProfileMask: utils/profile_crypto.py, the secrets taken
      out of a profile, encrypted, put back, and masked for the browser;
    - ProfileContext: utils/profile_context.py, the configuration a request
      is served with;
    - UserSecrets: utils/crypto.py, the secret string in a link, its caches and
      their lifetimes, and the older encryption of user data;
    - Profiles: api/routers/user/profiles.py, the handlers that change
      profiles, on the tables they read and write;
    - Middleware: api/middleware.py, api/exception_handlers.py and
      utils/wrappers.py, what surrounds every route.

    Playing and presenting:
    - EpisodeParser, FileSelection: workers/providers/parser.py, the file of a
      torrent or Usenet download, and the update of a torrent's metadata;
    - TemplateLexer, TemplateParser, TemplateEval: utils/template_engine.py;
    - LzString: utils/lzstring.py, the decoder of shared hash lists.

    Debrid providers, under workers/providers/:
    - DebridClient: debrid_client.py, the client every provider's client
      extends: its requests, retries, session, waiting loop and token coding;
    - DebridProviders: what nine clients override (realdebrid, torbox,
      alldebrid, debrider, easydebrid, offcloud, debridlink, premiumize and
      stremthru, the file client.py of each);
    - ProviderFlow: the values of an answer, the choice of a file by
      parser.py as a method of a client, [asyncio.gather];
    - UsenetSelection: usenet_file_selection.py;
    - Torbox, RealDebrid: torbox/ and realdebrid/, every call of the client
      and every function of utils.py, from a stream to its playable link.

    Playing a stream, which composes these parts:
    - Network: utils/network.py, the client's address and MediaFlow links;
    - Playback: api/routers/streaming/playback.py and the lock of
      utils/lock.py, the torrent and Usenet routes as a machine;
    - PlaybackRuns: any number of playback requests at once;
    - PlaybackService: what a playback gets from its service, and the torrent
      route with the flow of TorBox in it;
    - TelegramFileId: utils/telegram_file_id.py, the document in a file_id;
    - TelegramPlayback: the Telegram routes of playback.py, as a machine of
      requests that share the table of copies, the lock and the chats.

    Running in the background:
    - TaskQueue: workers/task_queue.py;
    - SourceHealth: workers/scrapers/source_health.py;
    - CircuitBreaker: the breaker and batch loop of utils/network.py;
    - RedisWrapper: db/redis_database.py, the client that answers a default
      when Redis fails;
    - Retry: db/retry_utils.py.

    The community:
    - Community: the tables (db/models/), roles (api/rbac.py and
      api/routers/user/auth.py), the settings of contributions
      (api/routers/admin/contribution_settings.py), points and the life every
      suggestion shares;
    - MetadataSuggestions, EpisodeSuggestions, StreamSuggestions:
      suggestions.py, episode_suggestions.py and stream_suggestions.py of
      api/routers/content/, each with every change an approval applies;
    - Contributions: contributions.py and anonymous_utils.py there;
    - Votes: voting.py there, with db/crud/stream_community.py: votes, ratings
      and likes, and the signals of a stream;
    - CommunitySpec: the steps the tables may make, [community_step], and that
      the shared operations make them; CommunityInvariants: what these steps
      preserve; CommunityFrames: what an applied change leaves alone;
      CommunityRuns: the requests of all routers served one after another.

    Definitions keep the source's names without the leading underscore; a
    class is a record, a method a function on it, a mutated object is passed
    and returned.  The clients of Redis (CacheStatus, StreamSort, TaskQueue,
    SourceHealth) are proved against the class [Redis.Redis]; their witnesses
    run on [Redis.store].  Interleavings are steps: [TaskQueue.queue_step] for
    the queue, [CircuitBreaker.round_step] for a task group,
    [SourceHealth.proc_step] for the commands of concurrent recordings,
    [UserSecrets.step] for the requests and the clock that the caches of
    secrets see, [CommunitySpec.community_step] for the requests that change
    the tables of the community, [PlaybackRuns.moves] for playback
    requests, [TelegramPlayback.fmoves] for those of Telegram videos.

    ** Theorems

    - Filtering and sorting (StreamFilter, StreamSort): what is kept is exactly
      what meets every preference, every other stream is counted once; the
      order, the caps and the merging of providers; who may play a stream.
    - Configuration, Usenet and cache (UserConfig, UsenetCompat, CacheStatus):
      validators reject exactly what they should, a Usenet stream only goes to
      a provider its source belongs to, a cache entry lives seven days.
    - Profile secrets (ProfileCrypto, ProfileMask): taking the secrets out and
      putting them back gives the profile, when no entry of it is named twice
      and no short name is used ([short_password_renamed]); nothing sensitive
      stays outside;
      unmasking what was masked gives the secrets, and a mask hides them;
      [removal_shifts_tokens] states a defect.
    - Profiles, ProfileContext: no sequence of calls exceeds five profiles or
      leaves two defaults, and no handler touches another user's;
      [api_key_stored_in_clear], [new_default_not_seen],
      [config_names_the_user] and the lemma [concurrent_creations_exceed]
      state defects.
    - UserSecrets: a link decrypts to what was encrypted; the caches stay
      within their bounds, and a deleted profile's link stops working within
      their lifetime, except as the lemma [stale_link_survives] states.
    - Middleware: a private instance answers only who has its key, the access
      log holds no secret of a link, the cache of responses is transparent;
      [transient_retry_is_dead] and [rate_limit_never_resets] state defects.
    - File selection: the index returned is valid and is a requested or a video
      file, the requested episode is found, and when a torrent is blocked.
      Two theorems state defects: [trusted_selection_shifted] and
      [episode_never_not_found].
    - Task queue: what every exit of an execution leaves, the interval guard, the
      bound on recent tasks, retries; [interrupted_recorded_success] and
      [invalid_crontab_strands] state defects.
    - Templates: the lexer loses nothing, the parser inverts an unparser and
      loses nothing on bad input, evaluation terminates, no path names private
      data ([whole_dictionary_prints_private] is the way around), escaping is
      safe, the cache is transparent.
    - SourceHealth: a recording alone keeps the counters consistent;
      [concurrent_decay_overcounts] states a race.
    - LzString: decoding inverts every encoding of the format and terminates.
    - CircuitBreaker, Retry: invariants and recovery of a breaker, no item lost
      under any schedule, termination; which errors are retried, how often and
      with what delays.
    - DebridClient, DebridProviders: a request ends within two attempts, the
      session is closed however the body ends, the waiting loop is bounded and
      answers the first status that was waited for;
      [retry_repeats_request] states what a retry repeats, and
      [retry_leaves_the_api], [retries_without_bound] and the lemma
      [retry_unwraps_twice] state defects of the clients that override it.
    - UsenetSelection, Torbox, RealDebrid: the file chosen is a file of the
      list; a torrent the account has is played without waiting; playing ends
      within a number of requests computed from the retries; the pages of an
      account's list are read to the end; the lemma [lost_list_is_empty] states
      a defect.
    - NzbUrls, NzbStorage, Magnet: a stored link carries no credentials and a
      user's link the user's own, except a link that does not split
      ([unsplit_link_keeps_credentials]); a signed link downloads its file until it
      expires and no other signature does; a magnet link reads back, a base32
      hash in the spelling of whichever parser reads it.
    - Playback, PlaybackRuns, PlaybackService: a request is answered with what
      its service gives and leaves its lock free, the same request is answered
      the same for an hour, two requests do not ask a service for one link at a
      time while their locks last, and a torrent that the user's TorBox account
      has is played from the file the selection picks; the
      examples [waiter_asks_again], [key_without_provider] and
      [film_plays_first_file] state defects.
    - TelegramFileId, TelegramPlayback: a file_id gives its document back, and
      a video is sent to a user once while no lock runs out; the lemma
      [by_id_never_plays] and the examples [number_sign_hides_the_query] and
      [slow_answer_sends_twice] state defects.
    - RedisWrapper: for commands that read or can be repeated, a call through
      breaker and retries is an atomic call among other clients' actions
      ([sadd_answers_zero] and [lpush_not_atomic] are commands for which it is
      not); its breaker never opens and its checks cannot tell a failure from an absent
      key.
    - Community: every request refines the abstract steps, whose decisions
      fix the points they bring ([settlement]); from the steps follow that points, levels, reviewers and limits stay consistent, that decisions
      are final and roles unchanged; an approved change touches its media or
      stream only, and a review applies what the request asked for; an
      anonymous contribution does not depend on who sent it; a lookup ends
      unless it is that of an unknown link.  [failed_change_is_rewarded], [media_lookup_ends_iff] and
      the examples [trust_without_review], [rejection_counts_an_edit],
      [second_report_blocks], [corrections_pile_up] and
      [episode_link_of_another_stream] state defects.
    - Votes: the table of votes implements the map of the users' last opinions,
      and the batch of signals agrees with the count of one stream;
      [ratings_always_fail], [rating_fails_and_likes] and [zero_votes_down]
      state defects.

    ** Fuel

    Recursion that is not structural has fuel computed from the input and a
    theorem or lemma that it is enough: [TemplateEval.evaluate_unfold],
    [TemplateParser.parse_block_enough], [LzString.decompress_terminates],
    [Retry.walk_from], [StreamSort.round_robin_perm],
    [UserSecrets.run_phase_enough].  The fuel of [DebridClient.make_request] is
    Python's recursion limit: a retry calls the overridden method again, and
    [make_request_ends] shows what depth the base class needs.  The waiting
    loop [DebridClient.poll] is structural in the number of polls.  The fuel of
    [Contributions.contribution_media] is the recursion limit too:
    [media_lookup_ends_iff] shows that four calls are enough or none is.  A starred expression
    in [Regex.mtch] makes at most as many rounds as there are characters, since
    a round that consumes nothing ends it.

    ** Not modelled

    Strings are ASCII, so Unicode case mapping and digits are out; [int] of
    more than 4300 digits raises as in Python.  Parameters stand for code
    outside the repository or for input and output: the providers' and
    database's answers, title parsing ([PTT]), [dateparser], SHA-256, user
    patterns of [re.compile], the task broker, cron intervals and the clock.
    Redis calls either all succeed or all raise within one operation of
    CacheStatus, StreamSort and the interval guard; TaskQueue's record calls
    and the commands of SourceHealth succeed, the final EXPIRE of the latter is
    left out; in RedisWrapper every command may fail.  TelegramPlayback counts
    the sends Telegram acknowledges; a delivered message whose answer is lost,
    and failures of the database after a send, are left out.  AES, gzip and UUIDs are
    parameters with the laws a round trip needs.  A database call of Profiles
    is one atomic step, replicas never lag and [updated_at]
    changes even when an update changes nothing;
    Middleware serves one request at a time, and so do the routers of the
    community.  A row changed by a handler is flushed at once, an identifier in
    a path fits its column, the cache of canonical IDs and the media shown
    beside a suggestion are left out; fetching unknown media, the importers and
    the attributes of a stream outside its editable fields are parameters that
    change contents only.  What aiohttp answers to a request
    is a parameter; the requests that [asyncio.gather] starts together run one
    after the other.  Logging is left out, except the
    access log.  In Playback the flows of the services are a
    parameter and the record of a playback in the database is its request.
    The other HTTP routes, database queries, scrapers, the
    flows of the other providers, the conversion of foreign templates, the
    conversations of the Telegram bot, and the Rust and TypeScript parts of
    the repository are not modelled. *)

From Stdlib Require Export Ascii ZArith Lia.
From stdpp Require Export prelude gmap strings sorting.

(** ** Results of fallible Python code

    A Python call either returns a value or raises; [outcome E A] is that
    alternative, with stdpp's monadic notation ([x ← m; k]). *)

Inductive outcome (E A : Type) : Type :=
  | Ret (a : A)
  | Raise (e : E).
Arguments Ret {E A} a.
Arguments Raise {E A} e.

#[export] Instance outcome_ret E : MRet (outcome E) := fun A a => Ret a.
#[export] Instance outcome_bind E : MBind (outcome E) :=
  fun A B f m => match m with Ret a => f a | Raise e => Raise e end.
#[export] Instance outcome_fmap E : FMap (outcome E) :=
  fun A B f m => match m with Ret a => Ret (f a) | Raise e => Raise e end.

Definition is_ret {E A} (m : outcome E A) : bool :=
  match m with Ret _ => true | Raise _ => false end.

(** ** Tactics *)

(** Case analysis on the boolean or option a goal branches on, keeping the
    equation. *)
Ltac case_test :=
  match goal with
  | |- context [if ?b then _ else _] => let E := fresh "Eb" in destruct b eqn:E
  | |- context [match ?o with Some _ => _ | None => _ end] =>
      let E := fresh "Eo" in destruct o eqn:E
  end.

(** Boolean tests on [Z] turned into propositions, everywhere. *)
Ltac zbool :=
  repeat match goal with
  | H : (_ && _)%bool = true |- _ => apply andb_true_iff in H as [? ?]
  | H : (_ || _)%bool = false |- _ => apply orb_false_iff in H as [? ?]
  | H : negb _ = true |- _ => apply negb_true_iff in H
  | H : negb _ = false |- _ => apply negb_false_iff in H
  | H : (_ <? _)%Z = true |- _ => apply Z.ltb_lt in H
  | H : (_ <? _)%Z = false |- _ => apply Z.ltb_ge in H
  | H : (_ <=? _)%Z = true |- _ => apply Z.leb_le in H
  | H : (_ <=? _)%Z = false |- _ => apply Z.leb_gt in H
  | H : (_ =? _)%Z = true |- _ => apply Z.eqb_eq in H
  | H : (_ =? _)%Z = false |- _ => apply Z.eqb_neq in H
  end.
