(* ===== verification/Effects.v ===== *)
(** * Effectful Python code

    [M S E A] is a call that reads and changes a state of type [S] and returns
    a value of type [A] or raises an [E]; the state survives an exception.
    [triple] is its logic. *)

From S2P Require Export Prelude.

Definition M (S E A : Type) : Type := S -> outcome E A * S.

#[export] Instance M_ret {S E} : MRet (M S E) := fun A a s => (Ret a, s).
#[export] Instance M_bind {S E} : MBind (M S E) :=
  fun A B f m s => match m s with (Ret a, s) => f a s | (Raise e, s) => (Raise e, s) end.

Section Effects.
Context {S E : Type}.

Definition throw {A} (e : E) : M S E A := fun s => (Raise e, s).
Definition lift {A} (o : outcome E A) : M S E A := fun s => (o, s).
Definition get : M S E S := fun s => (Ret s, s).
Definition modify (f : S -> S) : M S E unit := fun s => (Ret tt, f s).

(** [try: m except E as e: handle(e)], for the exceptions [p] accepts. *)
Definition catch {A} (m : M S E A) (p : E -> bool) (handle : E -> M S E A) : M S E A :=
  fun s => match m s with (Raise e, s') => if p e then handle e s' else (Raise e, s') | r => r end.

(** [m], then [after] whether [m] returns or raises. *)
Definition finally {A} (m : M S E A) (after : M S E unit) : M S E A :=
  fun s => match m s with
           | (Ret a, s') => (after ≫= fun _ => mret a) s'
           | (Raise e, s') => (after ≫= fun _ => throw e) s'
           end.

(** [for x in l: body(x)] *)
Fixpoint for_loop {A} (body : A -> M S E unit) (l : list A) : M S E unit :=
  match l with [] => mret tt | x :: l => body x ≫= fun _ => for_loop body l end.

Lemma bind_lift_state {A B} (m : M S E A) (f : A -> outcome E B) s : ((m ≫= fun a => lift (f a)) s).2 = (m s).2.
Proof. unfold mbind, M_bind. by destruct (m s) as [[a|e] s']. Qed.

(** ** Triples

    [triple P m Q R]: from a state in [P], [m] returns with [Q] or raises
    with [R]. *)
Definition triple {A} (P : S -> Prop) (m : M S E A) (Q : A -> S -> Prop) (R : E -> S -> Prop) : Prop :=
  forall s, P s -> match m s with (Ret a, s') => Q a s' | (Raise e, s') => R e s' end.

Lemma triple_ret {A} (Q : A -> S -> Prop) R a : triple (Q a) (mret a : M S E A) Q R.
Proof. by intros s Hs. Qed.

Lemma triple_throw {A} (Q : A -> S -> Prop) (R : E -> S -> Prop) e : triple (R e) (throw e : M S E A) Q R.
Proof. by intros s Hs. Qed.

Lemma triple_bind {A B} P (m : M S E A) (f : A -> M S E B) Q1 Q R :
  triple P m Q1 R -> (forall a, triple (Q1 a) (f a) Q R) -> triple P (m ≫= f) Q R.
Proof.
  intros Hm Hf s Hs. specialize (Hm s Hs). unfold mbind, M_bind. destruct (m s) as [[a|e] s']; [|done].
  by apply Hf.
Qed.

Lemma triple_catch {A} P (m : M S E A) p h Q R1 R :
  triple P m Q R1 ->
  (forall e, p e = true -> triple (R1 e) (h e) Q R) -> (forall e s, p e = false -> R1 e s -> R e s) ->
  triple P (catch m p h) Q R.
Proof.
  intros Hm Hh Hn s Hs. specialize (Hm s Hs). unfold catch. destruct (m s) as [[a|e] s']; [done|].
  destruct (p e) eqn:Ep; [by apply (Hh e Ep s')|by apply Hn].
Qed.

Lemma triple_conseq {A} (P P' : S -> Prop) (m : M S E A) (Q Q' : A -> S -> Prop) (R R' : E -> S -> Prop) :
  triple P' m Q' R' -> (forall s, P s -> P' s) -> (forall a s, Q' a s -> Q a s) -> (forall e s, R' e s -> R e s) ->
  triple P m Q R.
Proof.
  intros Hm HP HQ HR s Hs. specialize (Hm s (HP s Hs)). destruct (m s) as [[a|e] s']; [by apply HQ|by apply HR].
Qed.

Lemma triple_lift {A} P (o : outcome E A) (Q : A -> S -> Prop) (R : E -> S -> Prop) :
  (forall s, P s -> match o with Ret a => Q a s | Raise e => R e s end) -> triple P (lift o) Q R.
Proof. intros H s Hs. specialize (H s Hs). by destruct o. Qed.

Lemma triple_modify (P : S -> Prop) f (Q : unit -> S -> Prop) R :
  (forall s, P s -> Q tt (f s)) -> triple P (modify f) Q R.
Proof. intros H s Hs. by apply H. Qed.

(** A loop whose body keeps [P]. *)
Lemma triple_for_loop {A} (body : A -> M S E unit) P R l :
  (forall x, x ∈ l -> triple P (body x) (fun _ => P) R) -> triple P (for_loop body l) (fun _ => P) R.
Proof.
  induction l as [|x l IH]; intros H; [by intros s Hs|]. cbn [for_loop].
  eapply triple_bind; [apply H; by left|]. intros []. apply IH. intros y Hy. apply H. by right.
Qed.
End Effects.
