(* ===== verification/PyList.v ===== *)
(** * Python's list operations shared by the components

    [sorted] with a key (a stable sort), order-preserving deduplication and
    [list.index]. *)

From S2P Require Export Prelude.

(** ** [sorted]: stable, by a boolean order *)

Section Sorting.
Context {A : Type} (leb : A -> A -> bool).

Fixpoint insert_by (x : A) (l : list A) : list A :=
  match l with
  | [] => [x]
  | y :: l' => if leb x y then x :: l else y :: insert_by x l'
  end.

Fixpoint sort_by (l : list A) : list A :=
  match l with
  | [] => []
  | x :: l => insert_by x (sort_by l)
  end.

Lemma insert_by_perm x l : insert_by x l ≡ₚ x :: l.
Proof. induction l as [|y l IH]; simpl; [done|]. destruct (leb x y); [done|]. rewrite IH. by constructor. Qed.

Lemma sort_by_perm l : sort_by l ≡ₚ l.
Proof. induction l as [|x l IH]; simpl; [done|]. by rewrite insert_by_perm, IH. Qed.

Lemma sort_by_elem x l : x ∈ sort_by l <-> x ∈ l.
Proof. by rewrite sort_by_perm. Qed.

Lemma sort_by_length l : length (sort_by l) = length l.
Proof. by rewrite sort_by_perm. Qed.

Lemma sort_by_nil l : sort_by l = [] -> l = [].
Proof. intros H. apply length_zero_iff_nil. by rewrite <- sort_by_length, H. Qed.

Context (leb_total : forall x y, leb x y = true \/ leb y x = true)
        (leb_trans : forall x y z, leb x y = true -> leb y z = true -> leb x z = true).

Abbreviation ordered := (StronglySorted (fun x y => leb x y = true)).

Lemma insert_by_sorted x l : ordered l -> ordered (insert_by x l).
Proof.
  induction 1 as [|y l Hs IH Hy]; simpl; [by repeat constructor|].
  destruct (leb x y) eqn:E.
  - constructor; [by constructor|]. constructor; [done|].
    eapply Forall_impl; [exact Hy|]. intros z. by apply leb_trans.
  - constructor; [done|]. rewrite insert_by_perm. constructor; [|done].
    destruct (leb_total x y); congruence.
Qed.

Lemma sort_by_sorted l : ordered (sort_by l).
Proof. induction l as [|x l IH]; simpl; [constructor|]. by apply insert_by_sorted. Qed.

(** Elements equivalent to [x] keep their order. *)
Definition same_rank (x y : A) : bool := leb x y && leb y x.

Lemma insert_by_stable x y l :
  List.filter (same_rank x) (insert_by y l) = List.filter (same_rank x) (y :: l).
Proof.
  induction l as [|z l IH]; simpl; [done|]. destruct (leb y z) eqn:E; [done|].
  cbn [List.filter]. rewrite IH. cbn [List.filter].
  destruct (same_rank x y) eqn:Ey, (same_rank x z) eqn:Ez; try done.
  unfold same_rank in *. apply andb_true_iff in Ey as [? ?], Ez as [? ?].
  rewrite (leb_trans y x z) in E; done.
Qed.

Lemma sort_by_stable x l : List.filter (same_rank x) (sort_by l) = List.filter (same_rank x) l.
Proof.
  induction l as [|y l IH]; simpl; [done|]. rewrite insert_by_stable. simpl. by rewrite IH.
Qed.

(** The head of a sorted list comes no later than any element. *)
Lemma sort_by_head x l' l y : sort_by l = x :: l' -> y ∈ l -> leb x y = true.
Proof.
  intros E Hy. pose proof (sort_by_sorted l) as Hs. rewrite E in Hs.
  apply StronglySorted_inv in Hs as [_ HF]. apply sort_by_elem in Hy. rewrite E in Hy.
  apply elem_of_cons in Hy as [->|Hy]; [by destruct (leb_total x x)|].
  rewrite Forall_forall in HF. by apply HF.
Qed.
End Sorting.

(** A sorted list of equivalent elements only is unchanged. *)
Lemma sort_by_ext {A} (f g : A -> A -> bool) l : (forall x y, f x y = g x y) -> sort_by f l = sort_by g l.
Proof.
  intros H. induction l as [|x l IH]; simpl; [done|]. rewrite IH.
  generalize (sort_by g l) as m. induction m as [|y m IHm]; simpl; [done|]. by rewrite H, IHm.
Qed.

(** The order of a key. *)
Definition by_key {A} (key : A -> Z) (x y : A) : bool := (key x <=? key y)%Z.
Definition by_key_desc {A} (key : A -> Z) (x y : A) : bool := (key y <=? key x)%Z.

Lemma by_key_total {A} (key : A -> Z) x y : by_key key x y = true \/ by_key key y x = true.
Proof. unfold by_key. lia. Qed.
Lemma by_key_trans {A} (key : A -> Z) x y z :
  by_key key x y = true -> by_key key y z = true -> by_key key x z = true.
Proof. unfold by_key. lia. Qed.
Lemma by_key_desc_total {A} (key : A -> Z) x y : by_key_desc key x y = true \/ by_key_desc key y x = true.
Proof. unfold by_key_desc. lia. Qed.
Lemma by_key_desc_trans {A} (key : A -> Z) x y z :
  by_key_desc key x y = true -> by_key_desc key y z = true -> by_key_desc key x z = true.
Proof. unfold by_key_desc. lia. Qed.
#[export] Hint Resolve by_key_total by_key_trans by_key_desc_total by_key_desc_trans : core.

(** ** Lexicographic order on key tuples of equal length *)

Fixpoint tuple_leb (a b : list Z) : bool :=
  match a, b with
  | [], _ => true
  | _ :: _, [] => false
  | x :: a, y :: b => if (x =? y)%Z then tuple_leb a b else (x <? y)%Z
  end.

Lemma tuple_leb_total a : forall b, tuple_leb a b = true \/ tuple_leb b a = true.
Proof.
  induction a as [|x a IH]; intros [|y b]; simpl; try by auto.
  destruct (x =? y)%Z eqn:E, (y =? x)%Z eqn:E'; try lia. apply IH.
Qed.

Lemma tuple_leb_trans a : forall b c, tuple_leb a b = true -> tuple_leb b c = true -> tuple_leb a c = true.
Proof.
  induction a as [|x a IH]; intros [|y b] [|z c]; simpl; try done.
  destruct (x =? y)%Z eqn:E1, (y =? z)%Z eqn:E2, (x =? z)%Z eqn:E3; try lia. apply IH.
Qed.

(** ** Order-preserving deduplication *)

Section Uniq.
Context {A : Type} `{EqDecision A}.

Fixpoint uniq_from (seen : list A) (l : list A) : list A :=
  match l with
  | [] => []
  | x :: l => if decide (x ∈ seen) then uniq_from seen l else x :: uniq_from (x :: seen) l
  end.
Definition uniq : list A -> list A := uniq_from [].

Lemma uniq_from_elem x l : forall seen, x ∈ uniq_from seen l <-> x ∈ l /\ x ∉ seen.
Proof.
  induction l as [|y l IH]; intros seen; simpl; [set_solver|].
  destruct (decide (y ∈ seen)); [rewrite IH; set_solver|].
  rewrite elem_of_cons, IH. destruct (decide (x = y)); set_solver.
Qed.

Lemma uniq_elem x l : x ∈ uniq l <-> x ∈ l.
Proof. unfold uniq. rewrite uniq_from_elem. set_solver. Qed.

Lemma uniq_from_NoDup l : forall seen, NoDup (uniq_from seen l).
Proof.
  induction l as [|y l IH]; intros seen; simpl; [constructor|].
  case_decide; [done|]. constructor; [|done]. rewrite uniq_from_elem. set_solver.
Qed.
Lemma uniq_NoDup l : NoDup (uniq l).
Proof. apply uniq_from_NoDup. Qed.

Lemma uniq_from_id l : forall seen, NoDup l -> (forall x, x ∈ l -> x ∉ seen) -> uniq_from seen l = l.
Proof.
  induction l as [|y l IH]; intros seen Hl Hs; simpl; [done|].
  apply NoDup_cons in Hl as [Hy Hl]. rewrite decide_False by (apply Hs; set_solver).
  f_equal. apply IH; [done|]. intros x Hx. apply not_elem_of_cons. split; [set_solver|]. apply Hs. set_solver.
Qed.
Lemma uniq_id l : NoDup l -> uniq l = l.
Proof. intros. apply uniq_from_id; set_solver. Qed.

Lemma uniq_from_sublist l : forall seen, uniq_from seen l `sublist_of` l.
Proof. induction l as [|y l IH]; intros seen; simpl; [done|]. case_decide; by constructor. Qed.
Lemma uniq_sublist l : uniq l `sublist_of` l.
Proof. apply uniq_from_sublist. Qed.

(** [l.index(x)], [None] where Python raises [ValueError]. *)
Fixpoint index_of (x : A) (l : list A) : option nat :=
  match l with
  | [] => None
  | y :: l => if decide (x = y) then Some 0%nat else S <$> index_of x l
  end.

Lemma index_of_Some x l i : index_of x l = Some i -> l !! i = Some x /\ (i < length l)%nat.
Proof.
  revert i. induction l as [|y l IH]; intros i; simpl; [done|].
  case_decide as E; [intros [= <-]; subst; split; [done|simpl; lia]|].
  destruct (index_of x l) as [j|]; [|done]. intros [= <-]. destruct (IH j eq_refl). split; [done|simpl; lia].
Qed.
Lemma index_of_None x l : index_of x l = None <-> x ∉ l.
Proof.
  induction l as [|y l IH]; simpl; [set_solver|]. case_decide; [set_solver|].
  rewrite fmap_None, IH. set_solver.
Qed.
End Uniq.

Definition memb {A} `{EqDecision A} (x : A) (l : list A) : bool := bool_decide (x ∈ l).

Lemma memb_true {A} `{EqDecision A} (x : A) l : memb x l = true <-> x ∈ l.
Proof. unfold memb. by rewrite bool_decide_eq_true. Qed.
Lemma memb_false {A} `{EqDecision A} (x : A) l : memb x l = false <-> x ∉ l.
Proof. unfold memb. by rewrite bool_decide_eq_false. Qed.

(** ** Filtering *)

Lemma filter_sublist {A} (p : A -> bool) l : List.filter p l `sublist_of` l.
Proof. induction l as [|x l IH]; simpl; [done|]. destruct (p x); by constructor. Qed.

Lemma filter_elem {A} (p : A -> bool) x l : x ∈ List.filter p l <-> x ∈ l /\ p x = true.
Proof. by rewrite !list_elem_of_In, filter_In. Qed.

#[export] Instance filter_Permutation {A} (p : A -> bool) : Proper (Permutation ==> Permutation) (List.filter p).
Proof.
  induction 1 as [|x l k _ IH|x y l|l1 l2 l3 _ IH1 _ IH2]; simpl; [done|..|by etransitivity].
  - destruct (p x); [by constructor|done].
  - destruct (p x), (p y); try done. constructor.
Qed.

Lemma StronglySorted_impl {A} (R R' : A -> A -> Prop) l :
  (forall x y, R x y -> R' x y) -> StronglySorted R l -> StronglySorted R' l.
Proof.
  intros H. induction 1 as [|x l Hs IH HF]; constructor; [done|]. eapply Forall_impl; [exact HF|]. auto.
Qed.
