(* ===== verification/PyStr.v ===== *)
(** * Python's [str] operations, as far as the server uses them

    A string is a Rocq [string] of ASCII code points: case mapping, [isalpha],
    [isdigit] and [isspace] are Python's on that range.  Positions into a
    string are replaced by the suffix that starts there. *)

From stdpp Require Export pretty.
From S2P Require Export Prelude.
Local Open Scope string_scope.
Local Open Scope Z_scope.

(** ** Characters *)

Definition code (c : ascii) : Z := Z.of_N (N_of_ascii c).
Definition in_range (lo hi : Z) (c : ascii) : bool := (lo <=? code c) && (code c <=? hi).

Definition is_lower := in_range 97 122.
Definition is_upper := in_range 65 90.
Definition is_alpha (c : ascii) : bool := is_lower c || is_upper c.
Definition is_digit := in_range 48 57.
(** [str.isspace] and the regular expression class [\s]: tab to carriage
    return, the four separators 0x1c to 0x1f, and the space. *)
Definition is_space (c : ascii) : bool := in_range 9 13 c || in_range 28 32 c.
(** The regular expression class [\w]. *)
Definition is_word (c : ascii) : bool := is_alpha c || is_digit c || Ascii.eqb c "_".

Definition of_code (z : Z) : ascii := ascii_of_N (Z.to_N z).
Definition char_lower (c : ascii) : ascii := if is_upper c then of_code (code c + 32) else c.
Definition char_upper (c : ascii) : ascii := if is_lower c then of_code (code c - 32) else c.

(** ** Whole-string maps and tests *)

Fixpoint str_map (f : ascii -> ascii) (s : string) : string :=
  match s with "" => "" | String c s => String (f c) (str_map f s) end.

Definition lower : string -> string := str_map char_lower.
Definition upper : string -> string := str_map char_upper.

Fixpoint str_all (p : ascii -> bool) (s : string) : bool :=
  match s with "" => true | String c s => p c && str_all p s end.

Fixpoint str_any (p : ascii -> bool) (s : string) : bool :=
  match s with "" => false | String c s => p c || str_any p s end.

Fixpoint str_filter (p : ascii -> bool) (s : string) : string :=
  match s with
  | "" => ""
  | String c s => if p c then String c (str_filter p s) else str_filter p s
  end.

(** [s.isdigit()]: false on the empty string. *)
Definition isdigit (s : string) : bool :=
  match s with "" => false | _ => str_all is_digit s end.

(** [c in s] for a character [c]. *)
Notation str_has c := (str_any (Ascii.eqb c)).

Definition str_empty (s : string) : bool := match s with "" => true | _ => false end.

Definition slen (s : string) : Z := Z.of_nat (String.length s).

(** ** Prefixes, suffixes, substrings *)

Fixpoint startswith (p s : string) : bool :=
  match p, s with
  | "", _ => true
  | String a p, String b s => Ascii.eqb a b && startswith p s
  | _, "" => false
  end.

Fixpoint str_rev_app (s acc : string) : string :=
  match s with "" => acc | String c s => str_rev_app s (String c acc) end.
Definition str_rev (s : string) : string := str_rev_app s "".

Definition endswith (p s : string) : bool := startswith (str_rev p) (str_rev s).

Fixpoint str_drop (n : nat) (s : string) : string :=
  match n, s with
  | S n, String _ s => str_drop n s
  | _, _ => s
  end.

Fixpoint str_take (n : nat) (s : string) : string :=
  match n, s with
  | S n, String c s => String c (str_take n s)
  | _, _ => ""
  end.

(** [s[:n]] with Python's reading of a negative bound. *)
Definition slice_to (n : Z) (s : string) : string :=
  str_take (Z.to_nat (if n <? 0 then slen s + n else n)) s.

(** [s[1:-1]] *)
Definition slice_inner (s : string) : string :=
  str_take (String.length s - 2) (str_drop 1 s).

(** [sub in s] *)
Fixpoint contains (sub s : string) : bool :=
  startswith sub s || match s with "" => false | String _ s => contains sub s end.

(** [s.find(sub)] as the text before the first occurrence and the text from it
    on. *)
Fixpoint find_split (sub s : string) : option (string * string) :=
  if startswith sub s then Some ("", s)
  else match s with
       | "" => None
       | String c s' =>
           match find_split sub s' with
           | Some (a, b) => Some (String c a, b)
           | None => None
           end
       end.

(** [s.split(sep, 1)]: the pieces around the first separator. *)
Definition split1 (sep s : string) : list string :=
  match find_split sep s with
  | Some (a, b) => [a; str_drop (String.length sep) b]
  | None => [s]
  end.

(** [s.split(c)] for a one-character separator. *)
Fixpoint split_char (c : ascii) (s : string) : list string :=
  match s with
  | "" => [""]
  | String d s =>
      if Ascii.eqb d c then "" :: split_char c s
      else match split_char c s with
           | w :: ws => String d w :: ws
           | [] => [String d ""]
           end
  end.

(** [s.split()]: maximal runs of non-space characters. *)
Fixpoint split_ws_aux (cur : string) (s : string) : list string :=
  match s with
  | "" => if str_empty cur then [] else [cur]
  | String c s =>
      if is_space c
      then (if str_empty cur then split_ws_aux "" s else cur :: split_ws_aux "" s)
      else split_ws_aux (cur +:+ String c "") s
  end.
Definition split_ws (s : string) : list string := split_ws_aux "" s.

Fixpoint join (sep : string) (l : list string) : string :=
  match l with
  | [] => ""
  | [w] => w
  | w :: l => w +:+ sep +:+ join sep l
  end.

(** ** Stripping *)

Fixpoint lstrip_of (p : ascii -> bool) (s : string) : string :=
  match s with
  | "" => ""
  | String c s' => if p c then lstrip_of p s' else s
  end.

Fixpoint rstrip_of (p : ascii -> bool) (s : string) : string :=
  match s with
  | "" => ""
  | String c s' =>
      match rstrip_of p s' with
      | "" => if p c then "" else String c ""
      | t => String c t
      end
  end.

Definition strip_of p (s : string) : string := rstrip_of p (lstrip_of p s).
Definition strip : string -> string := strip_of is_space.
(** [s.strip(chars)] *)
Definition strip_chars (chars : string) : string -> string :=
  strip_of (fun c => str_any (Ascii.eqb c) chars).

(** ** Replacement: [s.replace(old, new)]

    Non-overlapping, left to right; an empty [old] matches before every
    character and at the end.  [skip] counts the characters of a match still
    to be dropped. *)

Fixpoint replace_from (old new : string) (skip : nat) (s : string) : string :=
  match s with
  | "" => ""
  | String c s' =>
      match skip with
      | S skip => replace_from old new skip s'
      | O =>
          if startswith old s
          then new +:+ replace_from old new (String.length old - 1) s'
          else String c (replace_from old new 0 s')
      end
  end.

Fixpoint interleave_str (new s : string) : string :=
  match s with "" => new | String c s => new +:+ String c (interleave_str new s) end.

Definition replace (old new s : string) : string :=
  if str_empty old then interleave_str new s else replace_from old new 0 s.

(** One-character replacement as a map of characters to strings. *)
Fixpoint str_flat_map (f : ascii -> string) (s : string) : string :=
  match s with "" => "" | String c s => f c +:+ str_flat_map f s end.

(** [s.title()]: the first letter of every run of letters in upper case, the
    others in lower case. *)
Fixpoint title_from (prev_cased : bool) (s : string) : string :=
  match s with
  | "" => ""
  | String c s =>
      String (if prev_cased then char_lower c else char_upper c) (title_from (is_alpha c) s)
  end.
Definition title : string -> string := title_from false.

(** ** Integers *)

Definition digit_val (c : ascii) : Z := code c - 48.

(** Digits with single underscores between them, as [int] and [float] accept
    them; [prev] says the last character was a digit. *)
Fixpoint digits_from (prev : bool) (acc : Z) (s : string) : option (Z * nat * string) :=
  match s with
  | String c s' =>
      if is_digit c then
        match digits_from true (10 * acc + digit_val c) s' with
        | Some (v, n, r) => Some (v, S n, r)
        | None => None
        end
      else if Ascii.eqb c "_" && prev then
        match s' with
        | String d _ => if is_digit d then digits_from false acc s' else Some (acc, O, s)
        | "" => Some (acc, O, s)
        end
      else Some (acc, O, s)
  | "" => Some (acc, O, "")
  end.

(** The sign of [int(s)] and [float(s)]. *)
Definition sign_of (s : string) : bool * string :=
  match s with
  | String "-" s' => (true, s')
  | String "+" s' => (false, s')
  | _ => (false, s)
  end.

Inductive py_exn :=
  | ValueError
  | TypeError
  | OverflowError
  | IndexError
  | KeyError
  | ConnectionError
  | AttributeError
  | RecursionError.

#[export] Instance py_exn_eq_dec : EqDecision py_exn.
Proof. solve_decision. Defined.

(** [int(s)] for a string; CPython refuses more than 4300 digits. *)
Definition int_of_string (s : string) : outcome py_exn Z :=
  let '(neg, body) := sign_of (strip s) in
  match digits_from false 0 body with
  | Some (v, S n, "") =>
      if Z.of_nat (S n) <=? 4300 then Ret (if neg : bool then - v else v) else Raise ValueError
  | _ => Raise ValueError
  end.

(** [str(z)] *)
Definition str_of_int (z : Z) : string := pretty z.

(** [f"{n:02d}"] for a non-negative number. *)
Definition pad2 (z : Z) : string := if z <? 10 then "0" +:+ str_of_int z else str_of_int z.

(** A fact about every character, checked one by one. *)
Ltac ascii_cases := let c := fresh in intros c; destruct c as [[] [] [] [] [] [] [] []]; done.

(** ** Concatenation *)

Lemma str_app_nil (b : string) : "" +:+ b = b.
Proof. done. Qed.
Lemma str_app_cons x (a b : string) : String x a +:+ b = String x (a +:+ b).
Proof. done. Qed.
Create Rewrite HintDb pystr.
#[export] Hint Rewrite str_app_nil str_app_cons : pystr.
Ltac str_simpl := repeat (progress (simpl; autorewrite with pystr)).

Lemma str_app_nil_r (a : string) : a +:+ "" = a.
Proof. induction a as [|x a IH]; str_simpl; [done|by rewrite IH]. Qed.
Lemma str_app_assoc (a b c : string) : (a +:+ b) +:+ c = a +:+ b +:+ c.
Proof. induction a as [|x a IH]; str_simpl; [done|by rewrite IH]. Qed.
Lemma str_length_app (a b : string) :
  String.length (a +:+ b) = (String.length a + String.length b)%nat.
Proof. induction a as [|x a IH]; str_simpl; [done|by rewrite IH]. Qed.
#[export] Hint Rewrite str_app_nil_r str_app_assoc str_length_app : pystr.

Lemma str_drop_app n (a b : string) : n = String.length a -> str_drop n (a +:+ b) = b.
Proof. intros ->. induction a; simpl; [by destruct b|done]. Qed.
Lemma str_take_app n (a b : string) : n = String.length a -> str_take n (a +:+ b) = a.
Proof. intros ->. induction a as [|x a IH]; simpl; [by destruct b|by rewrite IH]. Qed.

Lemma str_app_inj_l (a b c : string) : a +:+ b = a +:+ c -> b = c.
Proof. induction a as [|x a IH]; [done|]. rewrite !str_app_cons. intros [= H]. auto. Qed.

Lemma str_app_inj_r (a b c : string) : a +:+ c = b +:+ c -> a = b.
Proof.
  intros H. assert (Hl : String.length a = String.length b) by (apply (f_equal String.length) in H; rewrite !str_length_app in H; lia).
  apply (f_equal (str_take (String.length a))) in H. by rewrite str_take_app, Hl, str_take_app in H.
Qed.

Lemma str_all_app p (a b : string) : str_all p (a +:+ b) = str_all p a && str_all p b.
Proof. induction a as [|x a IH]; str_simpl; [done|by rewrite IH, andb_assoc]. Qed.

Lemma str_any_app p (a b : string) : str_any p (a +:+ b) = str_any p a || str_any p b.
Proof. induction a as [|x a IH]; str_simpl; [done|by rewrite IH, orb_assoc]. Qed.

Lemma str_all_impl (p q : ascii -> bool) s : (forall c, p c = true -> q c = true) -> str_all p s = true -> str_all q s = true.
Proof. intros H. induction s as [|c s IH]; [done|]. cbn. rewrite !andb_true_iff. intros [Hc Hs]. auto. Qed.

Lemma str_all_map p f s : str_all p (str_map f s) = str_all (fun c => p (f c)) s.
Proof. induction s as [|c s IH]; [done|]. cbn. by rewrite IH. Qed.

Lemma str_map_same p f s : (forall c, p c = true -> f c = c) -> str_all p s = true -> str_map f s = s.
Proof. intros H. induction s as [|c s IH]; [done|]. cbn. intros [Hc Hs]%andb_true_iff. by rewrite H, IH. Qed.

Lemma str_filter_id p s : str_all p s = true -> str_filter p s = s.
Proof. induction s as [|c s IH]; [done|]. cbn. intros [-> Hs]%andb_true_iff. by rewrite IH. Qed.

(** ** Splitting at a character *)

Lemma split_char_cons a s : split_char a s <> [].
Proof. destruct s as [|c s]; simpl; [done|]. destruct (Ascii.eqb c a); [done|]. by destruct (split_char a s). Qed.

Lemma split_char_app c (a b : string) : str_any (Ascii.eqb c) a = false -> split_char c (a +:+ String c b) = a :: split_char c b.
Proof.
  induction a as [|x a IH]; intros H; [rewrite str_app_nil; cbn; by rewrite Ascii.eqb_refl|].
  cbn in H. apply orb_false_iff in H as [H1 H2]. rewrite str_app_cons. cbn. by rewrite Ascii.eqb_sym, H1, IH.
Qed.

Lemma split_char_none c (a : string) : str_any (Ascii.eqb c) a = false -> split_char c a = [a].
Proof.
  induction a as [|x a IH]; intros H; cbn; [done|].
  cbn in H. apply orb_false_iff in H as [H1 H2]. rewrite Ascii.eqb_sym, H1. by rewrite IH.
Qed.

Lemma split_char_some c s : str_any (Ascii.eqb c) s = true -> (2 <= length (split_char c s))%nat.
Proof.
  induction s as [|a s IH]; [done|]. cbn. rewrite (Ascii.eqb_sym a c). intros [Ha|Hs]%orb_true_iff.
  - rewrite Ha. cbn. pose proof (split_char_cons c s). destruct (split_char c s); [done|]. cbn. lia.
  - specialize (IH Hs). destruct (Ascii.eqb c a); destruct (split_char c s); cbn in *; lia.
Qed.

(** ** Stripping *)

Lemma rstrip_cons p c s : p c = false -> exists t, rstrip_of p (String c s) = String c t.
Proof. intros H. simpl. destruct (rstrip_of p s) as [|d t]; [rewrite H|]; by eexists. Qed.

Lemma rstrip_rstrip p s : rstrip_of p (rstrip_of p s) = rstrip_of p s.
Proof.
  induction s as [|c s IH]; simpl; [done|].
  destruct (rstrip_of p s) as [|d t] eqn:E.
  - destruct (p c) eqn:Ec; simpl; [done|by rewrite Ec].
  - cbn [rstrip_of] in IH |- *. by rewrite IH.
Qed.

Lemma lstrip_cases p s : lstrip_of p s = "" \/ exists c t, lstrip_of p s = String c t /\ p c = false.
Proof. induction s as [|c s IH]; simpl; [by left|]. destruct (p c) eqn:E; [done|]. right. by exists c, s. Qed.

Lemma strip_strip s : strip (strip s) = strip s.
Proof.
  unfold strip, strip_of. destruct (lstrip_cases is_space s) as [->|(c & t & -> & Hc)]; [done|].
  destruct (rstrip_cons is_space c t Hc) as [r Hr]. rewrite Hr. cbn [lstrip_of]. rewrite Hc.
  by rewrite <- Hr, rstrip_rstrip.
Qed.

(** ** [int(str(z))] *)

Lemma digit_char (d : N) : (d < 10)%N ->
  is_digit (pretty_N_char d) = true /\ digit_val (pretty_N_char d) = Z.of_N d.
Proof.
  intros H. assert (d ∈ [0;1;2;3;4;5;6;7;8;9]%N) as Hd.
  { destruct (decide (d ∈ [0;1;2;3;4;5;6;7;8;9]%N)) as [|Hn]; [done|]. exfalso. revert Hn.
    rewrite !not_elem_of_cons. lia. }
  repeat (apply elem_of_cons in Hd as [->|Hd]; [by split|]). set_solver.
Qed.

(** The digits of [n] in front of [s]: the value and their number. *)
Lemma digits_from_pretty (n : N) : forall s : string,
  exists k : nat, (n = 0%N -> k = O) /\ (n <> 0%N -> (0 < k)%nat /\ 10 ^ (Z.of_nat k - 1) <= Z.of_N n) /\
  forall acc b, digits_from b acc (pretty_N_go n s) =
    match digits_from (if decide (n = 0%N) then b else true) (acc * 10 ^ Z.of_nat k + Z.of_N n) s with
    | Some (v, m, r) => Some (v, (k + m)%nat, r)
    | None => None
    end.
Proof.
  induction (N.lt_wf_0 n) as [n _ IH]. intros s. destruct (decide (n = 0%N)) as [->|Hn].
  - exists 0%nat. split_and!; [done|done|]. intros acc b. rewrite pretty_N_go_0.
    replace (acc * 10 ^ Z.of_nat 0 + Z.of_N 0) with acc by lia. by destruct (digits_from b acc s) as [[[? ?] ?]|].
  - rewrite pretty_N_go_step by lia.
    destruct (IH (n / 10)%N (N.div_lt n 10 ltac:(lia) ltac:(lia)) (String (pretty_N_char (n mod 10)) s))
      as (k & Hk0 & Hk & Hd).
    destruct (digit_char (n mod 10)%N) as [Hdig Hval]; [apply N.mod_lt; lia|].
    pose proof (N.div_mod n 10 ltac:(lia)) as Hdm.
    exists (S k). split_and!; [done| |].
    + intros _. split; [lia|]. replace (Z.of_nat (S k) - 1) with (Z.of_nat k) by lia.
      destruct (decide (n / 10 = 0)%N) as [Hz|Hz]; [rewrite (Hk0 Hz); simpl; lia|].
      destruct (Hk Hz) as [Hk1 Hk2].
      replace (Z.of_nat k) with (1 + (Z.of_nat k - 1)) by lia. rewrite Z.pow_add_r by lia.
      change (10 ^ 1) with 10. remember (10 ^ (Z.of_nat k - 1)) as w. clear -Hdm Hk2.
      revert Hdm Hk2. generalize (n / 10)%N, (n mod 10)%N. intros. lia.
    + intros acc b. rewrite Hd. cbn [digits_from]. rewrite Hdig, Hval.
      assert (10 * (acc * 10 ^ Z.of_nat k + Z.of_N (n / 10)) + Z.of_N (n mod 10) =
              acc * 10 ^ Z.of_nat (S k) + Z.of_N n) as ->.
      { replace (Z.of_nat (S k)) with (1 + Z.of_nat k) by lia. rewrite Z.pow_add_r by lia.
        change (10 ^ 1) with 10. clear -Hdm. revert Hdm. generalize (n / 10)%N, (n mod 10)%N.
        intros q r ->. rewrite N2Z.inj_add, N2Z.inj_mul. ring. }
      destruct (digits_from true _ s) as [[[? ?] ?]|]; [|done]. do 2 f_equal. f_equal. lia.
Qed.

Lemma pretty_N_go_first (n : N) : forall s, n <> 0%N -> exists c t, pretty_N_go n s = String c t /\ is_digit c = true.
Proof.
  induction (N.lt_wf_0 n) as [n _ IH]. intros s Hn. rewrite pretty_N_go_step by lia.
  destruct (decide (n / 10 = 0)%N) as [->|Hz].
  - rewrite pretty_N_go_0. do 2 eexists. split; [done|]. apply digit_char, N.mod_lt. lia.
  - apply (IH (n / 10)%N); [apply N.div_lt; lia|done].
Qed.

Lemma pretty_N_go_all p (n : N) : (forall c, is_digit c = true -> p c = true) ->
  forall s, str_all p s = true -> str_all p (pretty_N_go n s) = true.
Proof.
  intros Hp. induction (N.lt_wf_0 n) as [n _ IH]. intros s Hs. destruct (decide (n = 0%N)) as [->|Hn].
  - by rewrite pretty_N_go_0.
  - rewrite pretty_N_go_step by lia. apply IH; [apply N.div_lt; lia|].
    cbn [str_all]. rewrite Hs, andb_true_r. apply Hp, digit_char, N.mod_lt. lia.
Qed.

Lemma rstrip_none p s : str_all (fun c => negb (p c)) s = true -> rstrip_of p s = s.
Proof.
  induction s as [|c s IH]; simpl; [done|]. intros [Hc Hs]%andb_true_iff. rewrite (IH Hs).
  destruct s; [|done]. by destruct (p c).
Qed.

Lemma strip_digits c s :
  is_digit c = true -> str_all is_digit s = true -> strip (String c s) = String c s.
Proof.
  assert (forall d, is_digit d = true -> negb (is_space d) = true) as H.
  { intros d. unfold is_digit, is_space, in_range. lia. }
  intros Hc Hs. unfold strip, strip_of. cbn [lstrip_of].
  destruct (is_space c) eqn:E; [specialize (H c Hc); rewrite E in H; done|].
  apply rstrip_none. cbn [str_all]. rewrite H by done. simpl.
  clear E Hc. induction s as [|d s IH]; simpl in *; [done|].
  apply andb_true_iff in Hs as [? ?]. rewrite H by done. by apply IH.
Qed.

(** [int] reads back what [str] prints, up to the digit limit. *)
Lemma int_of_string_str_of_int z : 0 <= z -> z < 10 ^ 4300 -> int_of_string (str_of_int z) = Ret z.
Proof.
  intros H0 Hz. destruct z as [|p|p]; [done| |done].
  unfold str_of_int. change (pretty (Z.pos p)) with (pretty_N_go (N.pos p) "").
  destruct (pretty_N_go_first (N.pos p) "" ltac:(done)) as (c & t & E & Hc).
  assert (str_all is_digit (String c t) = true) as Ha by (rewrite <- E; by apply pretty_N_go_all).
  cbn [str_all] in Ha. apply andb_true_iff in Ha as [_ Ha].
  destruct (digits_from_pretty (N.pos p) "") as (k & _ & Hk & Hd). specialize (Hd 0 false).
  destruct (Hk ltac:(done)) as [Hk1 Hk2].
  rewrite E in Hd |- *. unfold int_of_string. rewrite (strip_digits _ _ Hc Ha).
  assert (sign_of (String c t) = (false, String c t)) as ->.
  { revert Hc. clear. unfold sign_of. by destruct c as [[] [] [] [] [] [] [] []]. }
  rewrite Hd. cbn [digits_from]. destruct k as [|k]; [by inversion Hk1|]. rewrite Nat.add_0_r.
  assert (Z.of_nat (S k) - 1 < 4300) as Hlt.
  { apply (Z.pow_lt_mono_r_iff 10); [done|done|]. eapply Z.le_lt_trans; [exact Hk2|exact Hz]. }
  clear Hz. destruct (Z.of_nat (S k) <=? 4300) eqn:EL; [done|zbool; lia].
Qed.

(** [str] of an integer has digits and perhaps a sign. *)
Lemma str_of_int_all p z : (forall c, is_digit c = true -> p c = true) -> p "-"%char = true -> str_all p (str_of_int z) = true.
Proof.
  intros Hp Hd. unfold str_of_int. assert (H : forall q : positive, str_all p (pretty_N_go (N.pos q) "") = true)
    by (intros q; by apply pretty_N_go_all).
  destruct z as [|q|q]; [cbn; by rewrite Hp|exact (H q)|].
  change (pretty (Z.neg q)) with (String "-" (pretty_N_go (N.pos q) "")). cbn [str_all]. by rewrite Hd, H.
Qed.

Lemma str_of_int_inj a b : str_of_int a = str_of_int b -> a = b.
Proof. apply (inj pretty). Qed.
