(* ===== verification/PyDate.v ===== *)
(** * Calendar dates: [datetime.date]

    The proleptic Gregorian calendar, [date.fromisoformat] (CPython 3.11 and
    later: calendar dates and week dates, with or without dashes) and
    [date.isoformat]. *)

From S2P Require Export PyStr.
Local Open Scope string_scope.
Local Open Scope Z_scope.

Definition date : Type := Z * Z * Z.

Definition leap (y : Z) : bool := (y mod 4 =? 0) && (negb (y mod 100 =? 0) || (y mod 400 =? 0)).
Definition month_lengths (y : Z) : list Z := [31; if leap y then 29 else 28; 31; 30; 31; 30; 31; 31; 30; 31; 30; 31].
Definition days_in_month (y m : Z) : Z := nth (Z.to_nat (m - 1)) (month_lengths y) 0.
Definition days_in_year (y : Z) : Z := if leap y then 366 else 365.

(** [date(y, m, d)] *)
Definition valid_date (x : date) : bool :=
  let '(y, m, d) := x in
  (1 <=? y) && (y <=? 9999) && (1 <=? m) && (m <=? 12) && (1 <=? d) && (d <=? days_in_month y m).
Definition new_date (x : date) : outcome py_exn date := if valid_date x then Ret x else Raise ValueError.

(** Days before January 1st of a year; day 1 is a Monday. *)
Definition days_before_year (y : Z) : Z := let p := y - 1 in p * 365 + p / 4 - p / 100 + p / 400.
(** The weekday of January 1st, Monday is 0. *)
Definition first_weekday (y : Z) : Z := days_before_year y mod 7.

(** The month and the day of a day of the year, counted from 0. *)
Fixpoint month_day (lengths : list Z) (m n : Z) : Z * Z :=
  match lengths with
  | [] => (m, n + 1)
  | l :: lengths => if n <? l then (m, n + 1) else month_day lengths (m + 1) (n - l)
  end.
Definition day_of_year (y n : Z) : date := let '(m, d) := month_day (month_lengths y) 1 n in (y, m, d).

(** The Monday of week 1, as a day of the year: the week of January 4th. *)
Definition week1_monday (y : Z) : Z := let w := first_weekday y in if w <=? 3 then - w else 7 - w.
Definition has_week_53 (y : Z) : bool := (first_weekday y =? 3) || ((first_weekday y =? 2) && leap y).

Definition iso_to_ymd (y week day : Z) : outcome py_exn date :=
  if ((1 <=? week) && (week <=? 52) || ((week =? 53) && has_week_53 y)) && (1 <=? day) && (day <=? 7) && (1 <=? y)
  then
    let n := week1_monday y + (week - 1) * 7 + (day - 1) in
    Ret (if n <? 0 then day_of_year (y - 1) (n + days_in_year (y - 1))
         else if n <? days_in_year y then day_of_year y n
         else day_of_year (y + 1) (n - days_in_year y))
  else Raise ValueError.

(** Exactly [n] digits, and what follows. *)
Fixpoint parse_digits (n : nat) (acc : Z) (s : string) : option (Z * string) :=
  match n with
  | O => Some (acc, s)
  | S n =>
      match s with
      | String c s => if is_digit c then parse_digits n (10 * acc + digit_val c) s else None
      | "" => None
      end
  end.

(** A dash, if dashes are used. *)
Definition separator (uses : bool) (s : string) : option string :=
  if uses then match s with String "-" s => Some s | _ => None end else Some s.

Definition parse_calendar (y : Z) (uses : bool) (s : string) : outcome py_exn date :=
  match parse_digits 2 0 s with
  | Some (m, s) =>
      match separator uses s with
      | Some s => match parse_digits 2 0 s with Some (d, "") => new_date (y, m, d) | _ => Raise ValueError end
      | None => Raise ValueError
      end
  | None => Raise ValueError
  end.

Definition parse_week (y : Z) (uses : bool) (s : string) : outcome py_exn date :=
  match parse_digits 2 0 s with
  | Some (w, "") => x ← iso_to_ymd y w 1; new_date x
  | Some (w, s) =>
      match separator uses s with
      | Some s => match parse_digits 1 0 s with Some (d, "") => x ← iso_to_ymd y w d; new_date x | _ => Raise ValueError end
      | None => Raise ValueError
      end
  | None => Raise ValueError
  end.

(** The lengths of [YYYYWww], [YYYYMMDD] and [YYYY-Www] or [YYYYWwwD], and
    [YYYY-MM-DD] or [YYYY-Www-D]. *)
Definition iso_length (n : Z) : bool := (n =? 7) || (n =? 8) || (n =? 10).

Definition date_fromisoformat (s : string) : outcome py_exn date :=
  if negb (iso_length (slen s)) then Raise ValueError
  else
    match parse_digits 4 0 s with
    | Some (y, s) =>
        let uses := match s with String "-" _ => true | _ => false end in
        let s := match s with String "-" s => s | _ => s end in
        match s with
        | String "W" s => parse_week y uses s
        | _ => parse_calendar y uses s
        end
    | None => Raise ValueError
    end.

Definition pad4 (z : Z) : string :=
  (if z <? 10 then "000" else if z <? 100 then "00" else if z <? 1000 then "0" else "") +:+ str_of_int z.
Definition isoformat (x : date) : string := let '(y, m, d) := x in pad4 y +:+ "-" +:+ pad2 m +:+ "-" +:+ pad2 d.

Example iso_dates :
  map date_fromisoformat ["2024-02-29"; "20231231"; "2020-W53-7"; "2026W01"; "2024W011"] =
  [Ret (2024, 2, 29); Ret (2023, 12, 31); Ret (2021, 1, 3); Ret (2025, 12, 29); Ret (2024, 1, 1)].
Proof. vm_compute. reflexivity. Qed.

Example iso_rejects :
  map (fun s => is_ret (date_fromisoformat s))
    [""; "2023-02-29"; "2023-13-01"; "2021-W53-1"; "2024-1-01"; "2024-0101"; "0000-01-01"; "20240101 "; "2024-W01-8"; "+024-01-01"] =
  repeat false 10.
Proof. vm_compute. reflexivity. Qed.
