(* ===== verification/PyFloat.v ===== *)
(** * Python's [float]: IEEE binary64, its parser and its printers

    Arithmetic is the Standard Library's executable specification
    ([SpecFloat], precision 53, exponent bound 1024); [float(s)], [repr] and
    the [.1f] format are exact decimal conversions on it. *)

From Stdlib Require Export SpecFloat.
From S2P Require Export PyStr.
Local Open Scope string_scope.
Local Open Scope Z_scope.

Abbreviation float := spec_float.

Definition f_mul : float -> float -> float := SFmul 53 1024.
Definition f_div : float -> float -> float := SFdiv 53 1024.

(** Rounding of an exact integer. *)
Definition f_round (z : Z) : float := binary_normalize 53 1024 z 0 false.

(** [float(z)] for an [int]: too large an integer raises. *)
Definition float_of_int (z : Z) : outcome py_exn float :=
  match f_round z with
  | S754_infinity _ => Raise OverflowError
  | f => Ret f
  end.

Definition f_leb (x y : float) : bool := SFleb x y.
Definition f_ltb (x y : float) : bool := SFltb x y.
Definition f_eqb (x y : float) : bool := SFeqb x y.

(** The double nearest to [m * 10^k], for [m >= 0]. *)
Definition f_of_dec (neg : bool) (m k : Z) : float :=
  match m with
  | Zpos p =>
      if 0 <=? k then
        match m * 10 ^ k with
        | Zpos q => binary_normalize 53 1024 (if neg then Zneg q else Zpos q) 0 false
        | _ => S754_zero neg
        end
      else
        match 10 ^ (- k) with
        | Zpos q => f_div (S754_finite neg p 0) (S754_finite false q 0)
        | _ => S754_nan
        end
  | _ => S754_zero neg
  end.

(** ** [float(s)] for a string *)

(** The exponent part: nothing, or [e], an optional sign and digits. *)
Definition parse_exponent (s : string) : option Z :=
  match s with
  | "" => Some 0
  | String c s' =>
      if Ascii.eqb (char_lower c) "e" then
        let '(neg, body) := sign_of s' in
        match digits_from false 0 body with
        | Some (v, S _, "") => Some (if neg : bool then - v else v)
        | _ => None
        end
      else None
  end.

(** Digits, a point, digits, exponent; the digits of one of the two parts may
    be missing. *)
Definition parse_decimal (neg : bool) (s : string) : option float :=
  match digits_from false 0 s with
  | Some (ip, n, String "." r) =>
      match digits_from false ip r with
      | Some (m, k, r') =>
          match n, k, parse_exponent r' with
          | O, O, _ => None
          | _, _, Some e => Some (f_of_dec neg m (e - Z.of_nat k))
          | _, _, None => None
          end
      | None => None
      end
  | Some (m, S _, r) =>
      match parse_exponent r with
      | Some e => Some (f_of_dec neg m e)
      | None => None
      end
  | _ => None
  end.

Definition float_of_string (s : string) : outcome py_exn float :=
  let '(neg, body) := sign_of (strip s) in
  let b := lower body in
  if String.eqb b "inf" || String.eqb b "infinity" then Ret (S754_infinity neg)
  else if String.eqb b "nan" then Ret S754_nan
  else match parse_decimal neg body with
       | Some f => Ret f
       | None => Raise ValueError
       end.

(** ** Exact value of a finite double as a fraction *)

Definition frac_of (m : positive) (e : Z) : Z * Z :=
  if 0 <=? e then (Zpos m * 2 ^ e, 1) else (Zpos m, 2 ^ (- e)).

(** [int(x)]: truncation toward zero. *)
Definition trunc (x : float) : outcome py_exn Z :=
  match x with
  | S754_zero _ => Ret 0
  | S754_finite s m e =>
      let '(n, d) := frac_of m e in
      Ret (if s then - (n / d) else n / d)
  | S754_infinity _ => Raise OverflowError
  | S754_nan => Raise ValueError
  end.

(** Nearest integer to [n / d], ties to even. *)
Definition round_half_even (n d : Z) : Z :=
  let q := n / d in
  let r := 2 * (n mod d) in
  if r <? d then q
  else if d <? r then q + 1
  else if Z.even q then q else q + 1.

(** [f"{x:.1f}"] *)
Definition format_1f (x : float) : string :=
  match x with
  | S754_nan => "nan"
  | S754_infinity s => if s then "-inf" else "inf"
  | S754_zero s => if s then "-0.0" else "0.0"
  | S754_finite s m e =>
      let '(n, d) := frac_of m e in
      let t := round_half_even (10 * n) d in
      (if s then "-" else "") +:+ str_of_int (t / 10) +:+ "." +:+ str_of_int (t mod 10)
  end.

(** ** [repr(x)]: the shortest decimal that reads back as [x] *)

Definition ndigits (z : Z) : Z := slen (str_of_int z).

(** [floor (log10 (n / d))] for positive [n] and [d]. *)
Definition log10_floor (n d : Z) : Z :=
  if d <=? n then ndigits (n / d) - 1
  else - ndigits ((d + n - 1) / n - 1).

(** The decimals of [k] significant digits next to [n / d], the nearer
    first: [(digits, exponent)]. *)
Definition dec_candidates (n d p : Z) (k : Z) : list (Z * Z) :=
  let q := p - k + 1 in
  let '(a, b) := if 0 <=? q then (n, d * 10 ^ q) else (n * 10 ^ (- q), d) in
  let lo := a / b in
  let r := a mod b in
  if r =? 0 then [(lo, q)]
  else if 2 * r <? b then [(lo, q); (lo + 1, q)]
  else if b <? 2 * r then [(lo + 1, q); (lo, q)]
  else if Z.even lo then [(lo, q); (lo + 1, q)] else [(lo + 1, q); (lo, q)].

Definition reads_back (m : positive) (e : Z) (c : Z * Z) : bool :=
  f_eqb (f_of_dec false (fst c) (snd c)) (S754_finite false m e).

Fixpoint shortest (m : positive) (e n d p : Z) (fuel : nat) (k : Z) : Z * Z :=
  match fuel with
  | O => (0, 0)
  | S fuel =>
      match List.find (reads_back m e) (dec_candidates n d p k) with
      | Some c => c
      | None => shortest m e n d p fuel (k + 1)
      end
  end.

Fixpoint zeros (n : nat) : string :=
  match n with O => "" | S n => String "0" (zeros n) end.

(** Digits [ds] with the decimal point after [decpt] of them, in Python's
    [repr] layout. *)
Definition layout (ds : string) (decpt : Z) : string :=
  let len := slen ds in
  if (decpt <=? -4) || (16 <? decpt) then
    let x := decpt - 1 in
    str_take 1 ds +:+
    (if 1 <? len then "." +:+ str_drop 1 ds else "") +:+
    (if x <? 0 then "e-" else "e+") +:+ pad2 (Z.abs x)
  else if decpt <=? 0 then "0." +:+ zeros (Z.to_nat (- decpt)) +:+ ds
  else if len <=? decpt then ds +:+ zeros (Z.to_nat (decpt - len)) +:+ ".0"
  else str_take (Z.to_nat decpt) ds +:+ "." +:+ str_drop (Z.to_nat decpt) ds.

Definition float_repr (x : float) : string :=
  match x with
  | S754_nan => "nan"
  | S754_infinity s => if s then "-inf" else "inf"
  | S754_zero s => if s then "-0.0" else "0.0"
  | S754_finite s m e =>
      let '(n, d) := frac_of m e in
      let '(v, q) := shortest m e n d (log10_floor n d) 17 1 in
      let ds := str_of_int v in
      (if s then "-" else "") +:+
      layout (rstrip_of (Ascii.eqb "0") ds) (slen ds + q)
  end.
