(* ===== verification/PyVal.v ===== *)
(** * Dynamically typed Python values

    The values a template context holds: [None], booleans, integers, floats,
    strings, lists and dictionaries with string keys (an association list in
    insertion order), with [bool], [str], [repr], [int], [float] and [len]. *)

From S2P Require Export PyFloat.
Local Open Scope string_scope.
Local Open Scope Z_scope.

Set Warnings "-register-all".

Inductive value : Type :=
  | VNone
  | VBool (b : bool)
  | VInt (z : Z)
  | VFloat (f : float)
  | VStr (s : string)
  | VList (l : list value)
  | VDict (d : list (string * value)).

(** [d.get(k)]: [None] in Rocq for a missing key. *)
Fixpoint dict_get {A} (k : string) (d : list (string * A)) : option A :=
  match d with
  | [] => None
  | (k', v) :: d => if String.eqb k k' then Some v else dict_get k d
  end.

(** [d[k] = v]: in place for an existing key, appended otherwise. *)
Fixpoint dict_set {A} (k : string) (v : A) (d : list (string * A)) : list (string * A) :=
  match d with
  | [] => [(k, v)]
  | (k', v') :: d => if String.eqb k k' then (k', v) :: d else (k', v') :: dict_set k v d
  end.

(** [d.pop(k, None)] *)
Fixpoint dict_pop {A} (k : string) (d : list (string * A)) : list (string * A) :=
  match d with
  | [] => []
  | (k', v) :: d => if String.eqb k k' then d else (k', v) :: dict_pop k d
  end.

(** [d.update(e)] *)
Definition dict_update {A} (d e : list (string * A)) : list (string * A) :=
  foldl (fun d kv => dict_set kv.1 kv.2 d) d e.

(** Induction over the values inside a value. *)
Lemma value_rect' (P : value -> Prop) :
  (forall v, match v with VList _ | VDict _ => False | _ => True end -> P v) ->
  (forall l, Forall P l -> P (VList l)) ->
  (forall d, Forall (fun kv => P kv.2) d -> P (VDict d)) ->
  forall v, P v.
Proof.
  intros Hleaf Hlist Hdict. fix IH 1. intros [| | | | |l|d]; try by apply Hleaf.
  - apply Hlist. induction l as [|v l IHl]; constructor; [apply IH|apply IHl].
  - apply Hdict. induction d as [|[k v] d IHd]; constructor; [apply IH|apply IHd].
Qed.

Definition is_float_zero (f : float) : bool :=
  match f with S754_zero _ => true | _ => false end.

(** [bool(v)] *)
Definition truthy (v : value) : bool :=
  match v with
  | VNone => false
  | VBool b => b
  | VInt z => negb (z =? 0)
  | VFloat f => negb (is_float_zero f)
  | VStr s => negb (str_empty s)
  | VList l => match l with [] => false | _ => true end
  | VDict d => match d with [] => false | _ => true end
  end.

(** ** [repr] and [str] *)

Definition hex_digit (z : Z) : ascii := of_code (if z <? 10 then 48 + z else 87 + z).

Definition repr_char (quote c : ascii) : string :=
  if Ascii.eqb c quote || Ascii.eqb c "\" then String "\" (String c "")
  else if code c =? 9 then "\t"
  else if code c =? 10 then "\n"
  else if code c =? 13 then "\r"
  else if (code c <? 32) || (code c =? 127)
       then "\x" +:+ String (hex_digit (code c / 16)) (String (hex_digit (code c mod 16)) "")
  else String c "".

Definition double_quote : ascii := of_code 34.
Definition single_quote : ascii := of_code 39.

Definition str_repr (s : string) : string :=
  let q := if str_any (Ascii.eqb single_quote) s && negb (str_any (Ascii.eqb double_quote) s)
           then double_quote else single_quote in
  String q (str_flat_map (repr_char q) s +:+ String q "").

Fixpoint repr (v : value) : string :=
  match v with
  | VNone => "None"
  | VBool b => if b then "True" else "False"
  | VInt z => str_of_int z
  | VFloat f => float_repr f
  | VStr s => str_repr s
  | VList l => "[" +:+ join ", " (map repr l) +:+ "]"
  | VDict d => "{" +:+ join ", " (map (fun kv => str_repr kv.1 +:+ ": " +:+ repr kv.2) d) +:+ "}"
  end.

Definition str (v : value) : string :=
  match v with VStr s => s | _ => repr v end.

(** ** Conversions *)

(** [int(v)] *)
Definition to_int (v : value) : outcome py_exn Z :=
  match v with
  | VBool b => Ret (if b then 1 else 0)
  | VInt z => Ret z
  | VFloat f => trunc f
  | VStr s => int_of_string s
  | VNone | VList _ | VDict _ => Raise TypeError
  end.

(** [float(v)] *)
Definition to_float (v : value) : outcome py_exn float :=
  match v with
  | VBool b => Ret (f_round (if b then 1 else 0))
  | VInt z => float_of_int z
  | VFloat f => Ret f
  | VStr s => float_of_string s
  | VNone | VList _ | VDict _ => Raise TypeError
  end.

(** [len(v)] *)
Definition py_len (v : value) : outcome py_exn Z :=
  match v with
  | VStr s => Ret (slen s)
  | VList l => Ret (Z.of_nat (length l))
  | VDict d => Ret (Z.of_nat (length d))
  | _ => Raise TypeError
  end.

(** ** Lookups *)

Lemma dict_get_set {A} k k' (v : A) d :
  dict_get k (dict_set k' v d) = if String.eqb k k' then Some v else dict_get k d.
Proof.
  induction d as [|[k2 v2] d IH]; simpl; [done|].
  destruct (String.eqb k' k2) eqn:E2; simpl.
  - apply String.eqb_eq in E2 as ->. by destruct (String.eqb k k2).
  - rewrite IH. destruct (String.eqb k k') eqn:E; [|done].
    apply String.eqb_eq in E as ->. by rewrite E2.
Qed.

Lemma dict_get_app {A} k (d e : list (string * A)) :
  dict_get k (d ++ e)%list = match dict_get k d with Some v => Some v | None => dict_get k e end.
Proof. induction d as [|[k' v] d IH]; simpl; [done|]. by destruct (String.eqb k k'). Qed.

Lemma dict_get_update {A} k (e : list (string * A)) : forall d,
  dict_get k (dict_update d e) = match dict_get k (rev e) with Some v => Some v | None => dict_get k d end.
Proof.
  unfold dict_update. induction e as [|[k' v] e IH]; intros d; cbn [foldl rev]; [done|].
  rewrite IH, dict_get_app, dict_get_set. cbn [fst snd dict_get].
  destruct (dict_get k (rev e)); [done|]. by destruct (String.eqb k k').
Qed.

Lemma dict_set_nonempty {A} k (v : A) d : dict_set k v d <> [].
Proof. destruct d as [|[k' v'] d]; simpl; [done|]. by destruct (String.eqb k k'). Qed.

(** ** Subscripts: [k in v], [v[k]], [v[k] = x] and [del v[k]] for a string [k] *)

Definition dict_has {A} (k : string) (d : list (string * A)) : bool :=
  match dict_get k d with Some _ => true | None => false end.

Definition py_contains (k : string) (v : value) : outcome py_exn bool :=
  match v with
  | VDict d => Ret (dict_has k d)
  | VStr s => Ret (contains k s)
  | VList l => Ret (existsb (fun x => match x with VStr s => String.eqb k s | _ => false end) l)
  | _ => Raise TypeError
  end.

Definition py_getitem (k : string) (v : value) : outcome py_exn value :=
  match v with
  | VDict d => match dict_get k d with Some x => Ret x | None => Raise KeyError end
  | _ => Raise TypeError
  end.

Definition py_setitem (k : string) (x v : value) : outcome py_exn value :=
  match v with VDict d => Ret (VDict (dict_set k x d)) | _ => Raise TypeError end.

Definition py_delitem (k : string) (v : value) : outcome py_exn value :=
  match v with
  | VDict d => if dict_has k d then Ret (VDict (dict_pop k d)) else Raise KeyError
  | _ => Raise TypeError
  end.

(** The keys of a dictionary are distinct. *)
Definition uniq_keys {A} (d : list (string * A)) : Prop := NoDup d.*1.

Lemma dict_get_None {A} k (d : list (string * A)) : dict_get k d = None <-> k ∉ d.*1.
Proof.
  induction d as [|[k' v] d IH]; simpl; [set_solver|]. destruct (String.eqb k k') eqn:E.
  - apply String.eqb_eq in E as ->. set_solver.
  - apply String.eqb_neq in E. rewrite IH. set_solver.
Qed.

Lemma dict_get_pop {A} k k' (d : list (string * A)) :
  uniq_keys d -> dict_get k (dict_pop k' d) = if String.eqb k k' then None else dict_get k d.
Proof.
  unfold uniq_keys. induction d as [|[k2 v] d IH]; simpl; intros Hd; [by destruct (String.eqb k k')|].
  apply NoDup_cons in Hd as [Hn Hd]. destruct (String.eqb k' k2) eqn:E2; simpl.
  - apply String.eqb_eq in E2 as ->. destruct (String.eqb k k2) eqn:E; [|done].
    apply String.eqb_eq in E as ->. by apply dict_get_None.
  - rewrite (IH Hd). destruct (String.eqb k k2) eqn:E; [|done].
    apply String.eqb_eq in E as ->. by rewrite String.eqb_sym, E2.
Qed.

Lemma dict_pop_keys {A} k (d : list (string * A)) : (dict_pop k d).*1 `sublist_of` d.*1.
Proof. induction d as [|[k' v] d IH]; simpl; [done|]. destruct (String.eqb k k'); simpl; by constructor. Qed.

Lemma dict_set_keys {A} k (v : A) d : (dict_set k v d).*1 = if dict_has k d then d.*1 else (d.*1 ++ [k])%list.
Proof.
  unfold dict_has. induction d as [|[k' v'] d IH]; [done|]. cbn [dict_set dict_get].
  destruct (String.eqb k k') eqn:E; [done|]. rewrite !fmap_cons, IH. by destruct (dict_get k d).
Qed.

Lemma uniq_keys_pop {A} k (d : list (string * A)) : uniq_keys d -> uniq_keys (dict_pop k d).
Proof. unfold uniq_keys. intros H. eapply sublist_NoDup; [exact H|apply dict_pop_keys]. Qed.

Lemma uniq_keys_set {A} k (v : A) d : uniq_keys d -> uniq_keys (dict_set k v d).
Proof.
  unfold uniq_keys. rewrite dict_set_keys. unfold dict_has. destruct (dict_get k d) eqn:E; [done|].
  intros H. apply NoDup_app. apply dict_get_None in E. split_and!; [done|set_solver|apply NoDup_singleton].
Qed.

(** ** Equality of Python values: dictionaries are compared by their lookups *)

Inductive veq : value -> value -> Prop :=
  | veq_refl v : veq v v
  | veq_list l l' : Forall2 veq l l' -> veq (VList l) (VList l')
  | veq_dict d d' : (forall k, option_Forall2 veq (dict_get k d) (dict_get k d')) -> veq (VDict d) (VDict d').

Lemma opt_veq_refl o : option_Forall2 veq o o.
Proof. destruct o; constructor. apply veq_refl. Qed.
#[export] Hint Resolve veq_refl opt_veq_refl : core.

Lemma dict_set_new {A} k (v : A) d : k ∉ d.*1 -> dict_set k v d = (d ++ [(k, v)])%list.
Proof.
  induction d as [|[k' v'] d IH]; simpl; [done|]. intros [Hk Hd]%not_elem_of_cons.
  rewrite (proj2 (String.eqb_neq k k') Hk). by rewrite IH.
Qed.
