(* ===== verification/Urls.v ===== *)
(** * URLs ([urllib.parse] and [os.path] of the standard library)

    [urlsplit], [urlunsplit], [urljoin] with an absolute path, the quoting of
    query strings and [splitext], on URLs whose characters, also behind their
    percent escapes, are ASCII.  The validity test of a bracketed host, which
    differs between Python versions, is the parameter [bracketed_ok]. *)

From S2P Require Export PyVal PyList.
Local Open Scope string_scope.
Local Open Scope Z_scope.

(** ** Characters and parts of strings *)

Definition is_c0_or_space (c : ascii) : bool := code c <=? 32.
Definition url_removed (c : ascii) : bool := (code c =? 9) || (code c =? 10) || (code c =? 13).
Definition is_scheme_char (c : ascii) : bool :=
  is_alpha c || is_digit c || str_any (Ascii.eqb c) "+-.".

(** [s.partition(sep)] and [s.rpartition(sep)] for one character. *)
Fixpoint partition (sep : ascii) (s : string) : string * bool * string :=
  match s with
  | "" => ("", false, "")
  | String c s' =>
      if Ascii.eqb c sep then ("", true, s')
      else let '(a, f, b) := partition sep s' in (String c a, f, b)
  end.
Definition after_last (sep : ascii) (s : string) : string :=
  List.last (split_char sep s) "".

Fixpoint until_any (stop s : string) : string :=
  match s with
  | "" => ""
  | String c s => if str_any (Ascii.eqb c) stop then "" else String c (until_any stop s)
  end.
Fixpoint from_any (stop s : string) : string :=
  match s with
  | "" => ""
  | String c s' => if str_any (Ascii.eqb c) stop then s else from_any stop s'
  end.

(** ** Splitting *)

Record split_url := mkUrl { scheme : string; netloc : string; path : string; query : string; fragment : string }.

(** The scheme, when there is one, and what follows it. *)
Definition split_scheme (url : string) : option (string * string) :=
  match url with
  | String c _ =>
      let '(sch, found, rest) := partition ":" url in
      if found && is_alpha c && str_all is_scheme_char sch && negb (str_empty sch) then Some (lower sch, rest) else None
  | "" => None
  end.

(** The characters that [urlsplit] drops. *)
Definition url_cleaned (url : string) : string := str_filter (fun c => negb (url_removed c)) (lstrip_of is_c0_or_space url).

Section Url.
Context (bracketed_ok : string -> bool).

(** The bracket checks of [urlsplit] on the network location. *)
Definition netloc_ok (netloc : string) : bool :=
  let o := str_has "[" netloc in
  let c := str_has "]" netloc in
  if o && c then
    let hostport := after_last "@" netloc in
    let '(before, have, br) := partition "[" hostport in
    if have then
      let '(host, _, port) := partition "]" br in
      str_empty before && (str_empty port || startswith ":" port) && bracketed_ok host
    else let '(host, _, _) := partition ":" hostport in bracketed_ok host
  else negb (o || c).

Definition host_of_netloc (netloc : string) : option string :=
  let hostport := after_last "@" netloc in
  let '(_, have, br) := partition "[" hostport in
  let '(host, _, _) := if have then partition "]" br else partition ":" hostport in
  if str_empty host then None
  else let '(h, pct, zone) := partition "%" host in
       Some (lower h +:+ (if pct then "%" else "") +:+ zone).

Definition split_path (sch loc rest : string) : split_url :=
  let '(rest, _, frag) := partition "#" rest in
  let '(p, _, q) := partition "?" rest in
  mkUrl sch loc p q frag.

(** What follows the scheme. *)
Definition split_rest (sch url : string) : outcome py_exn split_url :=
  if startswith "//" url then
    let url := str_drop 2 url in
    let loc := until_any "/?#" url in
    if netloc_ok loc then Ret (split_path sch loc (from_any "/?#" url)) else Raise ValueError
  else Ret (split_path sch "" url).

Definition urlsplit (url : string) : outcome py_exn split_url :=
  let url := url_cleaned url in
  let '(sch, url) := default ("", url) (split_scheme url) in
  split_rest sch url.

Definition url_hostname (u : string) : outcome py_exn (option string) :=
  u ← urlsplit u; Ret (host_of_netloc (netloc u)).

Definition uses_netloc : list string :=
  [""; "ftp"; "http"; "gopher"; "nntp"; "telnet"; "imap"; "wais"; "file"; "mms"; "https"; "shttp"; "snews"; "prospero";
   "rtsp"; "rtsps"; "rtspu"; "rsync"; "svn"; "svn+ssh"; "sftp"; "nfs"; "git"; "git+ssh"; "ws"; "wss"; "itms-services"].

Definition with_part (mark : string) (part : string) : string := if str_empty part then "" else mark +:+ part.

Definition url_body (u : split_url) : string :=
  let p := path u in
  if negb (str_empty (netloc u)) then
    "//" +:+ netloc u +:+ (if negb (str_empty p) && negb (startswith "/" p) then "/" +:+ p else p)
  else if startswith "//" p then "//" +:+ p
  else if negb (str_empty (scheme u)) && memb (scheme u) uses_netloc && (str_empty p || startswith "/" p) then "//" +:+ p
  else p.
Definition url_tail (u : split_url) : string := with_part "?" (query u) +:+ with_part "#" (fragment u).

Definition urlunsplit (u : split_url) : string :=
  (if str_empty (scheme u) then "" else scheme u +:+ ":") +:+ url_body u +:+ url_tail u.

(** [urljoin(base, url)] for a path [url] that starts with a slash, has no
    empty or dot segments and no query or fragment. *)
Definition uses_relative : list string :=
  [""; "ftp"; "http"; "gopher"; "nntp"; "imap"; "wais"; "file"; "https"; "shttp"; "mms"; "prospero"; "rtsp"; "rtsps";
   "rtspu"; "sftp"; "svn"; "svn+ssh"; "ws"; "wss"].
Definition urljoin_path (base p : string) : outcome py_exn string :=
  if str_empty base then Ret p
  else
    u ← urlsplit base;
    if negb (memb (scheme u) uses_relative) then Ret p
    else Ret (urlunsplit (mkUrl (scheme u) (netloc u) p "" "")).
End Url.

(** ** Quoting *)

Definition url_safe (c : ascii) : bool := is_alpha c || is_digit c || str_any (Ascii.eqb c) "_.-~".
Definition hex_upper (z : Z) : ascii := of_code (if z <? 10 then 48 + z else 55 + z).
Definition percent (c : ascii) : string := String "%" (String (hex_upper (code c / 16)) (String (hex_upper (code c mod 16)) "")).

(** [quote_plus(s)] *)
Definition quote_plus_char (c : ascii) : string :=
  if url_safe c then String c "" else if Ascii.eqb c " " then "+" else percent c.
Definition quote_plus : string -> string := str_flat_map quote_plus_char.

Definition hex_value (c : ascii) : option Z :=
  let z := code c in
  if is_digit c then Some (z - 48)
  else if (97 <=? z) && (z <=? 102) then Some (z - 87)
  else if (65 <=? z) && (z <=? 70) then Some (z - 55)
  else None.

(** [unquote(s.replace("+", " "))] *)
Fixpoint unquote_plus (s : string) : string :=
  match s with
  | "" => ""
  | String c s' =>
      if Ascii.eqb c "%" then
        match s' with
        | String a (String b s'') =>
            match hex_value a, hex_value b with
            | Some x, Some y => String (of_code (16 * x + y)) (unquote_plus s'')
            | _, _ => String c (unquote_plus s')
            end
        | _ => String c (unquote_plus s')
        end
      else String (if Ascii.eqb c "+" then " "%char else c) (unquote_plus s')
  end.

Definition urlencode (l : list (string * string)) : string :=
  PyStr.join "&" (map (fun kv => quote_plus kv.1 +:+ "=" +:+ quote_plus kv.2) l).

(** [parse_qsl(s, keep_blank_values=True)] *)
Definition parse_qsl (s : string) : list (string * string) :=
  omap (fun item => if str_empty item then None
                    else let '(k, _, v) := partition "=" item in Some (unquote_plus k, unquote_plus v)) (split_char "&" s).

(** [os.path.splitext(s)[-1]]: what follows the last dot of the last segment,
    unless only dots come before it. *)
Definition splitext (s : string) : string :=
  let name := after_last "/" s in
  let stem := lstrip_of (Ascii.eqb ".") name in
  if str_has "." stem then "." +:+ after_last "." stem else "".

Example splitext_examples :
  map splitext ["https://h/a.b/c.mkv"; "https://h/c.mkv?token=x"; "a/.hidden"; "a/..x.y"; "plain"; "a.b/c"] =
  [".mkv"; ".mkv?token=x"; ""; ".y"; ""; ""].
Proof. reflexivity. Qed.

Example urlencode_example : urlencode [("api_password", "a b&c"); ("d", "https://h/x?y=1")] =
  "api_password=a+b%26c&d=https%3A%2F%2Fh%2Fx%3Fy%3D1".
Proof. reflexivity. Qed.

Example urlsplit_example : urlsplit (fun _ => true) "HTTPS://user:pw@h.org/a;b?x=1#f" =
  Ret (mkUrl "https" "user:pw@h.org" "/a;b" "x=1" "f").
Proof. reflexivity. Qed.

Example urljoin_example : map (fun b => urljoin_path (fun _ => true) b "/proxy/stream") ["https://m.org/base/x?y"; "m.org"; "foo:x"] =
  [Ret "https://m.org/proxy/stream"; Ret "/proxy/stream"; Ret "/proxy/stream"].
Proof. reflexivity. Qed.

(** ** Lemmas on parts of strings *)

Lemma str_has_app c (a b : string) : str_has c (a +:+ b) = str_has c a || str_has c b.
Proof. apply str_any_app. Qed.

Lemma partition_app sep (a b : string) : str_has sep a = false -> partition sep (a +:+ String sep b) = (a, true, b).
Proof.
  induction a as [|c a IH]; intros H; [rewrite str_app_nil; cbn; by rewrite Ascii.eqb_refl|].
  cbn in H. apply orb_false_iff in H as [H1 H2]. rewrite str_app_cons. cbn. by rewrite Ascii.eqb_sym, H1, IH.
Qed.

Lemma partition_none sep (a : string) : str_has sep a = false -> partition sep a = (a, false, "").
Proof.
  induction a as [|c a IH]; intros H; cbn; [done|].
  cbn in H. apply orb_false_iff in H as [H1 H2]. rewrite Ascii.eqb_sym, H1. by rewrite IH.
Qed.

Lemma partition_spec sep s :
  let '(a, f, b) := partition sep s in
  str_has sep a = false /\ s = (if f then a +:+ String sep b else a) /\ (f = false -> b = "").
Proof.
  induction s as [|c s IH]; cbn; [done|]. destruct (Ascii.eqb c sep) eqn:E.
  - apply Ascii.eqb_eq in E as ->. done.
  - destruct (partition sep s) as [[a f] b]. destruct IH as (H1 & -> & H3). cbn.
    rewrite Ascii.eqb_sym, E. split; [done|]. split; [by destruct f|done].
Qed.

Lemma str_has_all c s : str_has c s = negb (str_all (fun x => negb (Ascii.eqb c x)) s).
Proof. induction s as [|x s IH]; [done|]. cbn. rewrite IH. by destruct (Ascii.eqb c x). Qed.

Lemma str_all_lacks p c s : str_all p s = true -> p c = false -> str_has c s = false.
Proof.
  intros Hs Hc. rewrite str_has_all. apply negb_false_iff. revert Hs. apply str_all_impl. intros x Hx.
  destruct (Ascii.eqb c x) eqn:E; [|done]. apply Ascii.eqb_eq in E as ->. congruence.
Qed.

Lemma after_last_cons c x s :
  after_last c (String x s) = if str_has c s then after_last c s else if Ascii.eqb x c then s else String x s.
Proof.
  unfold after_last. cbn [split_char]. destruct (str_has c s) eqn:E.
  - apply split_char_some in E. destruct (split_char c s) as [|a [|b l]]; cbn in E; [lia..|]. by destruct (Ascii.eqb x c).
  - rewrite split_char_none by done. by destruct (Ascii.eqb x c).
Qed.

(** What follows the last occurrence of a character. *)
Lemma after_last_spec c s : str_has c s = true ->
  str_has c (after_last c s) = false /\ exists pre, s = pre +:+ String c (after_last c s).
Proof.
  induction s as [|x s IH]; [done|]. intros H. rewrite after_last_cons. destruct (str_has c s) eqn:E.
  - destruct (IH eq_refl) as [H1 [pre Hpre]]. split; [done|]. exists (String x pre). by rewrite str_app_cons, <- Hpre.
  - cbn in H. rewrite E, orb_false_r in H. rewrite Ascii.eqb_sym, H. apply Ascii.eqb_eq in H as ->. split; [done|]. by exists "".
Qed.

Lemma after_last_app c a s : str_has c s = false -> after_last c (a +:+ String c s) = s.
Proof.
  intros Hs. induction a as [|x a IH]; [by rewrite str_app_nil, after_last_cons, Hs, Ascii.eqb_refl|].
  rewrite str_app_cons, after_last_cons, str_any_app. cbn [str_any]. by rewrite Ascii.eqb_refl, orb_true_r.
Qed.

(** ** Query strings *)

(** The characters of a query string that [urlencode] makes. *)
Definition query_char (c : ascii) : bool := url_safe c || str_any (Ascii.eqb c) "%+".

Lemma quote_plus_char_ok c : str_all query_char (quote_plus_char c) = true.
Proof. destruct c as [[] [] [] [] [] [] [] []]; reflexivity. Qed.

Lemma unquote_quote_char c r : unquote_plus (quote_plus_char c +:+ r) = String c (unquote_plus r).
Proof. destruct c as [[] [] [] [] [] [] [] []]; reflexivity. Qed.

Lemma quote_plus_ok s : str_all query_char (quote_plus s) = true.
Proof.
  induction s as [|c s IH]; [done|]. unfold quote_plus in *. cbn [str_flat_map].
  by rewrite str_all_app, quote_plus_char_ok, IH.
Qed.

Lemma unquote_quote s : unquote_plus (quote_plus s) = s.
Proof.
  induction s as [|c s IH]; [done|]. unfold quote_plus in *. cbn [str_flat_map]. by rewrite unquote_quote_char, IH.
Qed.

(** A query string of items written as they are. *)
Definition raw_query (l : list (string * string)) : string := PyStr.join "&" (map (fun kv => kv.1 +:+ "=" +:+ kv.2) l).

Lemma raw_query_cons k v l : raw_query ((k, v) :: l) = k +:+ "=" +:+ v +:+ match l with [] => "" | _ => "&" +:+ raw_query l end.
Proof. destruct l; unfold raw_query; cbn [map PyStr.join]; by rewrite ?str_app_nil_r, ?str_app_assoc. Qed.

Definition plain_item (kv : string * string) : Prop :=
  str_has "&" kv.1 = false /\ str_has "&" kv.2 = false /\ str_has "=" kv.1 = false.

(** [parse_qsl] reads the items and decodes them. *)
Lemma parse_raw_query l : Forall plain_item l ->
  parse_qsl (raw_query l) = map (fun kv => (unquote_plus kv.1, unquote_plus kv.2)) l.
Proof.
  unfold parse_qsl, raw_query. set (item := fun kv : string * string => kv.1 +:+ "=" +:+ kv.2).
  assert (Hitem : forall kv, plain_item kv -> str_has "&" (item kv) = false).
  { intros kv (H1 & H2 & _). unfold item. by rewrite !str_any_app, H1, H2. }
  assert (Hread : forall kv, plain_item kv ->
            (if str_empty (item kv) then None
             else let '(k, _, v) := partition "=" (item kv) in Some (unquote_plus k, unquote_plus v))
            = Some (unquote_plus kv.1, unquote_plus kv.2)).
  { intros [k v] (_ & _ & H). unfold item. cbn [fst snd]. replace (str_empty _) with false by by destruct k.
    change ("=" +:+ v) with (String "=" v). by rewrite partition_app. }
  destruct l as [|x l]; [done|]. revert x. induction l as [|y l IH]; intros x [Hx HF]%Forall_cons; cbn [map PyStr.join].
  - rewrite split_char_none by auto. cbn [omap list_omap]. by rewrite Hread.
  - change ("&" +:+ ?r) with (String "&" r). rewrite split_char_app by auto. cbn [omap list_omap]. rewrite Hread by done.
    f_equal. by apply (IH y).
Qed.

(** What [urlencode] makes, [parse_qsl] reads back. *)
Lemma parse_urlencode l : parse_qsl (urlencode l) = l.
Proof.
  assert (Hraw : urlencode l = raw_query (map (fun kv => (quote_plus kv.1, quote_plus kv.2)) l)).
  { unfold urlencode, raw_query. by rewrite map_map. }
  rewrite Hraw, parse_raw_query.
  - rewrite map_map. rewrite <- (map_id l) at 2. apply map_ext. intros [k v]. cbn. by rewrite !unquote_quote.
  - apply Forall_forall. intros ? ([k v] & -> & _)%list_elem_of_fmap.
    split; [|split]; apply (str_all_lacks query_char); try apply quote_plus_ok; done.
Qed.

(** A text without escapes decodes to itself. *)
Lemma unquote_plain s : str_has "%" s = false -> str_has "+" s = false -> unquote_plus s = s.
Proof.
  induction s as [|c s IH]; [done|]. cbn [str_any]. rewrite (Ascii.eqb_sym _ c), (Ascii.eqb_sym _ c).
  intros [H1 H2]%orb_false_iff [H3 H4]%orb_false_iff. cbn [unquote_plus]. rewrite H1, H3. f_equal. auto.
Qed.

Lemma urlencode_lacks c l : query_char c = false -> Ascii.eqb c "&" = false -> Ascii.eqb c "=" = false ->
  str_has c (urlencode l) = false.
Proof.
  intros Hc H1 H2. unfold urlencode. set (item := fun kv : string * string => _).
  assert (Hi : forall kv, str_has c (item kv) = false).
  { intros kv. unfold item. rewrite !str_has_app.
    rewrite (str_all_lacks _ c _ (quote_plus_ok kv.1)), (str_all_lacks _ c _ (quote_plus_ok kv.2)) by done.
    cbn. by rewrite Ascii.eqb_sym, Ascii.eqb_sym, H2. }
  destruct l as [|x l]; [done|]. revert x. induction l as [|y l IH]; intros x; [apply Hi|].
  change (str_has c (item x +:+ "&" +:+ PyStr.join "&" (map item (y :: l))) = false).
  rewrite !str_has_app, Hi, IH. cbn. by rewrite H1.
Qed.

(** ** Splitting what was put together *)

Definition lacks_any (stop s : string) : bool := str_all (fun c => negb (str_any (Ascii.eqb c) stop)) s.
Definition clean (s : string) : bool := str_all (fun c => negb (url_removed c)) s.
(** Nothing, or a first character among these. *)
Definition at_mark (stop s : string) : bool := match s with String c _ => str_any (Ascii.eqb c) stop | "" => true end.
Definition is_scheme (s : string) : bool :=
  match s with String c _ => is_alpha c | "" => false end && str_all is_scheme_char s && String.eqb (lower s) s.
(** A path that stands alone is not taken for a scheme. *)
Definition bare (p : string) : bool :=
  match p with String c _ => negb (is_c0_or_space c) | "" => true end
  && match split_scheme p with Some _ => false | None => true end.

Record well_formed (u : split_url) : Prop := {
  wf_scheme : scheme u = "" \/ is_scheme (scheme u) = true;
  wf_netloc : lacks_any "/?#" (netloc u) = true;
  wf_path : lacks_any "?#" (path u) = true;
  wf_after : netloc u <> "" -> path u = "" \/ startswith "/" (path u) = true;
  wf_query : lacks_any "#" (query u) = true;
  wf_clean : clean (netloc u) && clean (path u) && clean (query u) && clean (fragment u) = true;
  wf_bare : scheme u = "" -> netloc u = "" -> bare (path u) = true }.

Lemma until_from_app stop (a b : string) : lacks_any stop a = true -> at_mark stop b = true ->
  until_any stop (a +:+ b) = a /\ from_any stop (a +:+ b) = b.
Proof.
  intros Ha Hb. induction a as [|c a IH].
  - rewrite str_app_nil. destruct b as [|c b]; [done|]. cbn in *. by rewrite Hb.
  - cbn in Ha. apply andb_true_iff in Ha as [Hc Ha]. apply negb_true_iff in Hc.
    rewrite str_app_cons. cbn. rewrite Hc. destruct (IH Ha) as [-> ->]. done.
Qed.

Lemma until_from_spec stop s :
  lacks_any stop (until_any stop s) = true /\ at_mark stop (from_any stop s) = true /\ s = until_any stop s +:+ from_any stop s.
Proof.
  induction s as [|c s (H1 & H2 & H3)]; [done|]. cbn. destruct (str_any (Ascii.eqb c) stop) eqn:E.
  - cbn. by rewrite E, str_app_nil.
  - unfold lacks_any in *. cbn. rewrite E, H1. split; [done|]. split; [done|]. by rewrite str_app_cons, <- H3.
Qed.

Lemma clean_app a b : clean (a +:+ b) = clean a && clean b.
Proof. apply str_all_app. Qed.
Lemma lacks_app stop a b : lacks_any stop (a +:+ b) = lacks_any stop a && lacks_any stop b.
Proof. apply str_all_app. Qed.

Lemma lacks_has stop c s : lacks_any stop s = true -> str_any (Ascii.eqb c) stop = true -> str_has c s = false.
Proof. intros Hs Hc. eapply str_all_lacks; [exact Hs|]. cbn. by rewrite Hc. Qed.

Lemma has_lacks c s : str_has c s = false -> lacks_any (String c "") s = true.
Proof.
  intros H. rewrite str_has_all in H. apply negb_false_iff in H. revert H. apply str_all_impl. intros x Hx. cbn.
  rewrite Ascii.eqb_sym in Hx. by rewrite orb_false_r.
Qed.

Lemma str_all_filter p s : str_all p (str_filter p s) = true.
Proof. induction s as [|c s IH]; [done|]. cbn. destruct (p c) eqn:E; cbn; [by rewrite E|done]. Qed.

Definition starts_well (s : string) : bool := match s with String c _ => negb (is_c0_or_space c) | "" => true end.

Lemma url_cleaned_id s : clean s = true -> starts_well s = true -> url_cleaned s = s.
Proof.
  intros Hc Hs. unfold url_cleaned. destruct s as [|c s]; [done|]. cbn in Hs. apply negb_true_iff in Hs.
  cbn [lstrip_of]. rewrite Hs. by apply str_filter_id.
Qed.

Lemma removed_is_c0 c : url_removed c = true -> is_c0_or_space c = true.
Proof. unfold url_removed, is_c0_or_space. lia. Qed.

Lemma url_cleaned_ok s : clean (url_cleaned s) = true /\ starts_well (url_cleaned s) = true.
Proof.
  split; [apply str_all_filter|]. unfold url_cleaned.
  destruct (lstrip_cases is_c0_or_space s) as [-> | (c & t & -> & Hc)]; [done|]. cbn.
  destruct (url_removed c) eqn:E; [|cbn; by rewrite Hc]. apply removed_is_c0 in E. congruence.
Qed.

Lemma partition_skip sep (a b : string) : str_has sep a = false ->
  partition sep (a +:+ b) = let '(x, f, y) := partition sep b in (a +:+ x, f, y).
Proof.
  induction a as [|c a IH]; intros H.
  - rewrite str_app_nil. destruct (partition sep b) as [[x f] y]. by rewrite str_app_nil.
  - cbn in H. apply orb_false_iff in H as [H1 H2]. rewrite str_app_cons. cbn. rewrite Ascii.eqb_sym, H1, (IH H2).
    destruct (partition sep b) as [[x f] y]. by rewrite str_app_cons.
Qed.

Lemma split_scheme_bare p r : split_scheme p = None -> at_mark "?#" r = true -> split_scheme (p +:+ r) = None.
Proof.
  intros Hp Hr. destruct r as [|m r]; [by rewrite str_app_nil_r|].
  assert (Hm : is_alpha m = false /\ is_scheme_char m = false /\ Ascii.eqb m ":" = false).
  { cbn in Hr. rewrite orb_false_r in Hr. apply orb_true_iff in Hr as [E|E]; apply Ascii.eqb_eq in E as ->; done. }
  destruct Hm as (Hm1 & Hm2 & Hm3). destruct p as [|c p].
  - rewrite str_app_nil. cbn [split_scheme]. destruct (partition ":" (String m r)) as [[a f] b]. by rewrite Hm1, andb_false_r.
  - unfold split_scheme in *. rewrite str_app_cons. rewrite <- (str_app_cons c p).
    pose proof (partition_spec ":" (String c p)) as Hs. destruct (partition ":" (String c p)) as [[a f] b] eqn:Ep.
    destruct Hs as (Ha & Hs & Hb). destruct f.
    + rewrite Hs, str_app_assoc, str_app_cons, partition_app by done. destruct (_ && _); [done|done].
    + specialize (Hb eq_refl) as ->. rewrite Hs. rewrite partition_skip by done. cbn [partition]. rewrite Hm3.
      destruct (partition ":" r) as [[x g] y]. rewrite str_all_app. cbn [str_all]. rewrite Hm2. cbn [andb].
      by rewrite !andb_false_r.
Qed.

Lemma lower_char_alpha c : is_alpha (char_lower c) = is_alpha c.
Proof. destruct c as [[] [] [] [] [] [] [] []]; reflexivity. Qed.
Lemma lower_char_scheme c : is_scheme_char (char_lower c) = is_scheme_char c.
Proof. destruct c as [[] [] [] [] [] [] [] []]; reflexivity. Qed.
Lemma lower_char_lower c : char_lower (char_lower c) = char_lower c.
Proof. destruct c as [[] [] [] [] [] [] [] []]; reflexivity. Qed.

Lemma lower_scheme_chars s : str_all is_scheme_char (lower s) = str_all is_scheme_char s.
Proof. induction s as [|c s IH]; [done|]. cbn. by rewrite lower_char_scheme, <- IH. Qed.
Lemma lower_lower s : lower (lower s) = lower s.
Proof. induction s as [|c s IH]; [done|]. cbn. rewrite lower_char_lower. f_equal. apply IH. Qed.

Lemma lower_scheme s : match s with String c _ => is_alpha c | "" => false end = true -> str_all is_scheme_char s = true ->
  is_scheme (lower s) = true.
Proof.
  intros H1 H2. unfold is_scheme. rewrite lower_scheme_chars, H2, lower_lower, String.eqb_refl.
  destruct s as [|c s]; [done|]. cbn. by rewrite lower_char_alpha, H1.
Qed.

(** The parts of a text, whatever the brackets of its network location. *)
Definition rest_parts (sch url : string) : split_url :=
  if startswith "//" url then
    let url := str_drop 2 url in split_path sch (until_any "/?#" url) (from_any "/?#" url)
  else split_path sch "" url.
Definition url_parts (s : string) : split_url :=
  let url := url_cleaned s in
  let '(sch, rest) := default ("", url) (split_scheme url) in rest_parts sch rest.

Section Split.
Context (bracketed_ok : string -> bool).

Lemma split_scheme_some url sch rest : split_scheme url = Some (sch, rest) ->
  is_scheme sch = true /\ exists a, url = a +:+ ":" +:+ rest.
Proof.
  destruct url as [|c url]; [done|]. unfold split_scheme. pose proof (partition_spec ":" (String c url)) as Hs.
  destruct (partition ":" (String c url)) as [[a f] b]. destruct Hs as (_ & Hs & _).
  destruct (f && is_alpha c && str_all is_scheme_char a && negb (str_empty a)) eqn:E; [|done]. intros [= <- <-].
  rewrite !andb_true_iff in E. destruct E as [[[-> Hc] Ha] Hne]. split.
  - apply lower_scheme; [|done]. destruct a as [|x a]; [done|]. rewrite str_app_cons in Hs. by injection Hs as -> _.
  - exists a. exact Hs.
Qed.

Lemma lacks_two a b s : lacks_any (String a "") s = true -> lacks_any (String b "") s = true ->
  lacks_any (String a (String b "")) s = true.
Proof.
  unfold lacks_any. induction s as [|c s IH]; [done|]. cbn. rewrite !orb_false_r, !negb_orb.
  intros [-> H1]%andb_true_iff [-> H2]%andb_true_iff. cbn. auto.
Qed.

Lemma partition_clean sep s : clean s = true ->
  let '(a, _, b) := partition sep s in clean a = true /\ clean b = true.
Proof.
  intros H. pose proof (partition_spec sep s) as Hs. destruct (partition sep s) as [[a f] b]. destruct Hs as (_ & -> & Hb).
  destruct f; [|by rewrite Hb]. rewrite clean_app in H. apply andb_true_iff in H as [-> H]. cbn in H.
  apply andb_true_iff in H. tauto.
Qed.

Lemma partition_rest sep s : let '(a, f, b) := partition sep s in exists r, s = a +:+ r /\ at_mark (String sep "") r = true.
Proof.
  pose proof (partition_spec sep s) as Hs. destruct (partition sep s) as [[a f] b]. destruct Hs as (_ & -> & _).
  destruct f; [exists (String sep b) | exists ""]; [cbn; by rewrite Ascii.eqb_refl | by rewrite str_app_nil_r].
Qed.

(** The parts of a path with its query and fragment. *)
Lemma split_path_parts sch loc rest u : split_path sch loc rest = u ->
  scheme u = sch /\ netloc u = loc /\ lacks_any "?#" (path u) = true /\ lacks_any "#" (query u) = true /\
  exists r, rest = path u +:+ r /\ at_mark "?#" r = true.
Proof.
  unfold split_path. pose proof (partition_spec "#" rest) as H1. pose proof (partition_rest "#" rest) as R1.
  destruct (partition "#" rest) as [[a f] b]. destruct H1 as (Ha & _ & _). destruct R1 as (r1 & Hr & Hm).
  pose proof (partition_spec "?" a) as H2. destruct (partition "?" a) as [[p g] q].
  destruct H2 as (Hp & Hq & Hn). intros <-. cbn [scheme netloc path query].
  assert (str_has "#" p = false /\ str_has "#" q = false) as [Hp2 Hq2].
  { destruct g; [|by rewrite (Hn eq_refl), <- Hq]. rewrite Hq in Ha. rewrite str_has_app in Ha. apply orb_false_iff in Ha.
    exact Ha. }
  split; [done|]. split; [done|]. split; [by apply lacks_two; apply has_lacks|]. split; [by apply has_lacks|].
  destruct g; subst a rest.
  - exists (String "?" q +:+ r1). by rewrite str_app_assoc.
  - exists r1. split; [done|]. destruct r1 as [|c r1]; [done|]. cbn in *. rewrite orb_false_r in Hm |- *. by rewrite Hm, orb_true_r.
Qed.

Lemma split_path_clean sch loc rest : clean rest = true ->
  let u := split_path sch loc rest in clean (path u) && clean (query u) && clean (fragment u) = true.
Proof.
  intros H. unfold split_path. pose proof (partition_clean "#" rest H) as H1.
  destruct (partition "#" rest) as [[a f] b]. destruct H1 as [Ha Hb]. pose proof (partition_clean "?" a Ha) as H2.
  destruct (partition "?" a) as [[p g] q]. destruct H2 as [Hp Hq]. cbn [path query fragment]. by rewrite Hp, Hq, Hb.
Qed.

Lemma tail_at_mark u : at_mark "?#" (url_tail u) = true.
Proof. unfold url_tail, with_part. by destruct (query u); destruct (fragment u). Qed.

Lemma at_mark_slash r : at_mark "?#" r = true -> at_mark "/?#" r = true.
Proof. destruct r as [|c r]; [done|]. cbn. rewrite !orb_false_r. intros ->. by rewrite orb_true_r. Qed.

Lemma split_path_tail u sch loc : lacks_any "?#" (path u) = true -> lacks_any "#" (query u) = true ->
  split_path sch loc (path u +:+ url_tail u) = mkUrl sch loc (path u) (query u) (fragment u).
Proof.
  intros Hp Hq. unfold split_path, url_tail, with_part.
  assert (Hpf := lacks_has _ "#" _ Hp eq_refl). assert (Hpq := lacks_has _ "?" _ Hp eq_refl).
  assert (Hqf := lacks_has _ "#" _ Hq eq_refl).
  assert (Hb : str_has "#" (path u +:+ (if str_empty (query u) then "" else "?" +:+ query u)) = false).
  { rewrite str_has_app, Hpf. by destruct (str_empty (query u)). }
  rewrite <- str_app_assoc.
  assert (Hpart : partition "#" ((path u +:+ (if str_empty (query u) then "" else "?" +:+ query u))
                                  +:+ (if str_empty (fragment u) then "" else "#" +:+ fragment u))
                  = (path u +:+ (if str_empty (query u) then "" else "?" +:+ query u), negb (str_empty (fragment u)), fragment u)).
  { destruct (fragment u) as [|c f]; cbn [str_empty negb].
    - rewrite str_app_nil_r. by apply partition_none.
    - by apply partition_app. }
  rewrite Hpart. destruct (query u) as [|c q]; cbn [str_empty].
  - rewrite str_app_nil_r, partition_none by done. done.
  - change ("?" +:+ String c q) with (String "?" (String c q)). by rewrite partition_app.
Qed.

Lemma startswith_app_slash p r : at_mark "?#" r = true -> startswith "//" p = false -> startswith "//" (p +:+ r) = false.
Proof.
  intros Hr Hp. destruct p as [|a [|b p]].
  - rewrite str_app_nil. destruct r as [|c r]; [done|]. destruct c as [[] [] [] [] [] [] [] []]; done.
  - rewrite str_app_cons, str_app_nil. destruct r as [|c r]; [done|].
    destruct c as [[] [] [] [] [] [] [] []]; try done; cbn; by rewrite andb_false_r.
  - rewrite !str_app_cons. exact Hp.
Qed.

(** What follows the scheme reads back as the same parts. *)
Lemma rest_parts_body u : well_formed u -> rest_parts (scheme u) (url_body u +:+ url_tail u) = u.
Proof.
  intros W. assert (Hu : u = mkUrl (scheme u) (netloc u) (path u) (query u) (fragment u)) by by destruct u.
  assert (Hpath : forall a b, split_path a b (path u +:+ url_tail u) = mkUrl a b (path u) (query u) (fragment u)).
  { intros a b. apply split_path_tail; apply W. }
  assert (Hloc : forall loc, lacks_any "/?#" loc = true ->
             path u = "" \/ startswith "/" (path u) = true ->
             rest_parts (scheme u) (("//" +:+ loc +:+ path u) +:+ url_tail u)
             = mkUrl (scheme u) loc (path u) (query u) (fragment u)).
  { intros loc H1 H3. unfold rest_parts. rewrite !str_app_assoc.
    change ("//" +:+ ?x) with (String "/" (String "/" x)). cbn [startswith str_drop].
    assert (Hm : at_mark "/?#" (path u +:+ url_tail u) = true).
    { destruct (path u) as [|c p]; [apply at_mark_slash, tail_at_mark|]. destruct H3 as [?|H3]; [done|].
      apply andb_true_iff in H3 as [E _]. apply Ascii.eqb_eq in E as <-. done. }
    destruct (until_from_app _ _ _ H1 Hm) as [-> ->]. change (startswith _ _) with true. cbn iota. by rewrite Hpath. }
  unfold url_body. destruct (str_empty (netloc u)) eqn:En; cbn [negb].
  - assert (Hn0 : netloc u = "") by by destruct (netloc u). rewrite Hn0 in Hu.
    assert (Hslash : startswith "//" (path u) = true -> startswith "/" (path u) = true).
    { destruct (path u) as [|c p]; [done|]. intros [E _]%andb_true_iff. apply andb_true_iff. split; [exact E|by destruct p]. }
    destruct (startswith "//" (path u)) eqn:E2.
    + change ("//" +:+ path u) with ("//" +:+ "" +:+ path u). by rewrite Hloc by auto.
    + destruct (_ && _ && (_ || _)) eqn:E3.
      * change ("//" +:+ path u) with ("//" +:+ "" +:+ path u). rewrite Hloc; [done..|].
        apply andb_true_iff in E3 as [_ E3]. apply orb_true_iff in E3 as [E3|E3]; [left; by destruct (path u)|by right].
      * unfold rest_parts. rewrite startswith_app_slash by (done || apply tail_at_mark). by rewrite Hpath, <- Hu.
  - assert (Hne : netloc u <> "") by by destruct (netloc u).
    replace (negb (str_empty (path u)) && negb (startswith "/" (path u))) with false
      by (destruct (wf_after u W Hne) as [-> | ->]; by rewrite ?andb_false_r).
    rewrite Hloc; [by rewrite <- Hu|apply W|by apply W].
Qed.

Lemma scheme_char_kept c : is_scheme_char c = true -> negb (url_removed c) = true.
Proof. by destruct c as [[] [] [] [] [] [] [] []]. Qed.
Lemma alpha_no_space c : is_alpha c = true -> is_c0_or_space c = false.
Proof. by destruct c as [[] [] [] [] [] [] [] []]. Qed.
Lemma alpha_not_slash c : is_alpha c = true -> Ascii.eqb c "/" = false.
Proof. by destruct c as [[] [] [] [] [] [] [] []]. Qed.

Lemma tail_clean u : clean (query u) && clean (fragment u) = true -> clean (url_tail u) = true.
Proof.
  intros [Hq Hf]%andb_true_iff. unfold url_tail, with_part. rewrite clean_app.
  destruct (str_empty (query u)), (str_empty (fragment u)); rewrite ?clean_app, ?Hq, ?Hf; done.
Qed.

Lemma body_clean u : clean (netloc u) && clean (path u) = true -> clean (url_body u) = true.
Proof.
  intros [Hn Hp]%andb_true_iff. unfold url_body.
  repeat match goal with |- context [if ?b then _ else _] => destruct b end; rewrite ?clean_app, ?Hn, ?Hp; done.
Qed.

(** Without a scheme the text starts with two slashes or with the path. *)
Lemma body_first u : scheme u = "" -> (exists x, url_body u = "//" +:+ x) \/ (netloc u = "" /\ url_body u = path u).
Proof.
  intros Hs. unfold url_body. destruct (str_empty (netloc u)) eqn:En; cbn [negb]; [|by left; eexists].
  rewrite Hs. cbn [str_empty negb andb]. destruct (startswith "//" (path u)); [by left; eexists|].
  right. by destruct (netloc u).
Qed.

Lemma split_scheme_prefix sch rest : is_scheme sch = true -> split_scheme (sch +:+ ":" +:+ rest) = Some (sch, rest).
Proof.
  unfold is_scheme. intros [[Ha Hc]%andb_true_iff Hl]%andb_true_iff. destruct sch as [|c sch]; [done|].
  apply String.eqb_eq in Hl. rewrite str_app_cons. unfold split_scheme. rewrite <- str_app_cons.
  change (":" +:+ rest) with (String ":" rest). rewrite partition_app by by apply (str_all_lacks _ _ _ Hc).
  by rewrite Ha, Hc, Hl.
Qed.

(** What is put together is clean and starts with no space. *)
Lemma urlunsplit_clean u : well_formed u -> clean (urlunsplit u) = true /\ starts_well (urlunsplit u) = true.
Proof.
  intros W. pose proof (wf_clean u W) as Hc. rewrite !andb_true_iff in Hc. destruct Hc as [[[Hc1 Hc2] Hc3] Hc4].
  assert (Hbody : clean (url_body u +:+ url_tail u) = true).
  { rewrite clean_app, body_clean, tail_clean by by rewrite ?Hc1, ?Hc2, ?Hc3, ?Hc4. done. }
  unfold urlunsplit. destruct (str_empty (scheme u)) eqn:Es.
  - assert (Hs : scheme u = "") by by destruct (scheme u). rewrite str_app_nil. split; [done|].
    destruct (body_first u Hs) as [[x ->]|[Hl ->]]; [by rewrite str_app_assoc|].
    pose proof (wf_bare u W Hs Hl) as Hb. unfold bare in Hb. apply andb_true_iff in Hb as [Hb1 _].
    destruct (path u); [|exact Hb1]. rewrite str_app_nil. unfold url_tail, with_part.
    by destruct (query u), (fragment u).
  - assert (Hs : is_scheme (scheme u) = true) by (destruct (wf_scheme u W) as [E|E]; [by rewrite E in Es|done]).
    unfold is_scheme in Hs. rewrite !andb_true_iff in Hs. destruct Hs as [[H1 H2] _]. rewrite str_app_assoc. split.
    + rewrite !clean_app, <- clean_app, Hbody, andb_true_r. revert H2. apply str_all_impl, scheme_char_kept.
    + destruct (scheme u) as [|c x]; [done|]. rewrite str_app_cons. cbn. by rewrite alpha_no_space.
Qed.

(** What is put together splits into the same parts. *)
Lemma url_parts_urlunsplit u : well_formed u -> url_parts (urlunsplit u) = u.
Proof.
  intros W. destruct (urlunsplit_clean u W) as [H1 H2]. unfold url_parts. rewrite url_cleaned_id by done. clear H1 H2.
  unfold urlunsplit. destruct (str_empty (scheme u)) eqn:Es.
  - assert (Hs : scheme u = "") by by destruct (scheme u). rewrite str_app_nil.
    assert (H : split_scheme (url_body u +:+ url_tail u) = None).
    { destruct (body_first u Hs) as [[x ->]|[Hl ->]].
      - rewrite str_app_assoc. change ("//" +:+ ?y) with (String "/" (String "/" y)). unfold split_scheme.
        destruct (partition _ _) as [[a f] b]. cbn [is_alpha]. by rewrite andb_false_r.
      - pose proof (wf_bare u W Hs Hl) as Hb. unfold bare in Hb. apply andb_true_iff in Hb as [_ Hb2].
        apply split_scheme_bare; [by destruct (split_scheme (path u))|apply tail_at_mark]. }
    rewrite H. cbn [default]. rewrite <- Hs at 1. by apply rest_parts_body.
  - assert (Hs : is_scheme (scheme u) = true) by (destruct (wf_scheme u W) as [E|E]; [by rewrite E in Es|done]).
    rewrite str_app_assoc, split_scheme_prefix by done. by apply rest_parts_body.
Qed.

Lemma split_scheme_app p r : split_scheme (p +:+ r) = None -> split_scheme p = None.
Proof.
  destruct p as [|c p]; [done|]. unfold split_scheme. rewrite str_app_cons, <- str_app_cons.
  pose proof (partition_spec ":" (String c p)) as Hs. destruct (partition ":" (String c p)) as [[a f] b].
  destruct Hs as (Ha & Hs & _). destruct f; [|done]. rewrite Hs, str_app_assoc, str_app_cons, partition_app by done.
  cbn [andb]. by destruct (_ && _).
Qed.

Lemma bare_slash p : startswith "/" p = true -> bare p = true.
Proof.
  destruct p as [|c p]; [done|]. intros [E _]%andb_true_iff. apply Ascii.eqb_eq in E as <-. unfold bare, split_scheme.
  destruct (partition _ _) as [[a f] b]. cbn [is_alpha]. by rewrite andb_false_r.
Qed.

Lemma bare_prefix p r : starts_well (p +:+ r) = true -> split_scheme (p +:+ r) = None -> bare p = true.
Proof.
  intros H1 H2%split_scheme_app. unfold bare. rewrite H2, andb_true_r. by destruct p.
Qed.

Lemma split_path_slash p r : lacks_any "?#" p = true -> at_mark "/?#" (p +:+ r) = true -> p = "" \/ startswith "/" p = true.
Proof.
  destruct p as [|c p]; [by left|]. rewrite str_app_cons. cbn [lacks_any str_all at_mark str_any]. intros [H1 _]%andb_true_iff H2.
  right. apply negb_true_iff in H1. rewrite !orb_false_r in H1, H2. rewrite H1, orb_false_r in H2. apply Ascii.eqb_eq in H2 as ->. by destruct p.
Qed.

Lemma split_path_well_formed sch loc tl u : split_path sch loc tl = u ->
  sch = "" \/ is_scheme sch = true -> lacks_any "/?#" loc = true -> clean loc = true -> clean tl = true ->
  at_mark "/?#" tl = true \/ (loc = "" /\ (sch = "" -> starts_well tl = true /\ split_scheme tl = None)) -> well_formed u.
Proof.
  intros Hu Hsch Hl Hc1 Hc2 Hm. pose proof (split_path_clean sch loc tl Hc2) as Hpc. rewrite Hu in Hpc. cbn zeta in Hpc.
  destruct (split_path_parts _ _ _ _ Hu) as (E1 & E2 & E3 & E4 & r & -> & E6). rewrite !andb_true_iff in Hpc.
  split; rewrite ?E1, ?E2; auto.
  - intros Hne. destruct Hm as [Hm|[? _]]; [|done]. by apply (split_path_slash _ r).
  - rewrite !andb_true_iff. tauto.
  - intros Hs _. destruct Hm as [Hm|[_ Hm]].
    + destruct (split_path_slash _ r E3 Hm) as [->|]; [done|by apply bare_slash].
    + destruct (Hm Hs) as [H1 H2]. by apply (bare_prefix _ r).
Qed.

(** The parts of a text are well formed. *)
Lemma url_parts_wf s : well_formed (url_parts s).
Proof.
  unfold url_parts. destruct (url_cleaned_ok s) as [Hc Hs]. set (url := url_cleaned s) in *. clearbody url.
  assert (Hsch : forall sch rest, default ("", url) (split_scheme url) = (sch, rest) ->
            clean rest = true /\ (sch = "" \/ is_scheme sch = true) /\ (sch = "" -> starts_well rest = true /\ split_scheme rest = None)).
  { intros sch rest. destruct (split_scheme url) as [[a b]|] eqn:E; cbn [default]; intros [= <- <-]; [|auto].
    apply split_scheme_some in E as [Hi [x ->]]. rewrite !clean_app, !andb_true_iff in Hc.
    split; [tauto|]. split; [by right|]. by intros ->. }
  destruct (default _ _) as [sch rest]. destruct (Hsch _ _ eq_refl) as (Hcl & Hsc & Hnone). unfold rest_parts.
  destruct (startswith "//" rest) eqn:E.
  - destruct (until_from_spec "/?#" (str_drop 2 rest)) as (H1 & H2 & H3).
    assert (Hd : clean (str_drop 2 rest) = true).
    { destruct rest as [|a [|b rest]]; [done..|]. cbn in Hcl. rewrite !andb_true_iff in Hcl. tauto. }
    rewrite H3, clean_app, andb_true_iff in Hd. eapply split_path_well_formed; [done|tauto..].
  - eapply split_path_well_formed; [done|tauto..].
Qed.

Lemma netloc_split_path sch loc rest : netloc (split_path sch loc rest) = loc.
Proof. unfold split_path. destruct (partition "#" rest) as [[a f] b]. by destruct (partition "?" a) as [[p g] q]. Qed.

(** [urlsplit] gives the parts unless it refuses the network location. *)
Lemma urlsplit_parts s :
  urlsplit bracketed_ok s = if netloc_ok bracketed_ok (netloc (url_parts s)) then Ret (url_parts s) else Raise ValueError.
Proof.
  unfold urlsplit, url_parts. destruct (default _ _) as [sch rest]. unfold split_rest, rest_parts.
  destruct (startswith "//" rest); by rewrite netloc_split_path.
Qed.

Lemma urlsplit_ret s u : urlsplit bracketed_ok s = Ret u -> u = url_parts s /\ well_formed u.
Proof. rewrite urlsplit_parts. destruct (netloc_ok _ _); [|done]. intros [= <-]. split; [done|apply url_parts_wf]. Qed.

Lemma urlsplit_urlunsplit u v : well_formed u -> urlsplit bracketed_ok (urlunsplit u) = Ret v -> v = u.
Proof. intros W [-> _]%urlsplit_ret. by apply url_parts_urlunsplit. Qed.
End Split.

(** ** Spaces at the end *)

Definition spaced (a b : string) : Prop := exists w, str_all is_space w = true /\ b = a +:+ w.

Lemma spaced_refl a : spaced a a.
Proof. exists "". by rewrite str_app_nil_r. Qed.
Lemma spaced_app a w : str_all is_space w = true -> spaced a (a +:+ w).
Proof. by exists w. Qed.

Lemma spaces_lack c w : str_all is_space w = true -> is_space c = false -> str_has c w = false.
Proof. apply str_all_lacks. Qed.

Lemma partition_spaced sep s w : str_has sep w = false ->
  partition sep (s +:+ w) = let '(a, f, b) := partition sep s in if f then (a, true, b +:+ w) else (a +:+ w, false, "").
Proof.
  intros Hw. pose proof (partition_spec sep s) as Hs. destruct (partition sep s) as [[a f] b]. destruct Hs as (Ha & -> & _).
  destruct f; [by rewrite str_app_assoc, str_app_cons, partition_app|]. apply partition_none. by rewrite str_has_app, Ha, Hw.
Qed.

Lemma query_spaced sch loc s w : str_all is_space w = true ->
  spaced (query (split_path sch loc s)) (query (split_path sch loc (s +:+ w))).
Proof.
  intros Hw. unfold split_path. rewrite partition_spaced by by apply spaces_lack.
  destruct (partition "#" s) as [[a f] b]. destruct f.
  - destruct (partition "?" a) as [[p g] q]. apply spaced_refl.
  - rewrite partition_spaced by by apply spaces_lack.
    pose proof (partition_spec "?" a) as H. destruct (partition "?" a) as [[p g] q]. destruct H as (_ & _ & Hq).
    destruct g; cbn [query]; [by apply spaced_app|]. rewrite Hq by done. apply spaced_refl.
Qed.

Lemma until_from_lacks stop s : lacks_any stop s = true -> until_any stop s = s /\ from_any stop s = "".
Proof. intros H. destruct (until_from_app stop s "" H eq_refl) as [H1 H2]. by rewrite str_app_nil_r in H1, H2. Qed.

Lemma until_from_spaced stop s w : lacks_any stop w = true ->
  (until_any stop (s +:+ w) = until_any stop s +:+ w /\ from_any stop (s +:+ w) = "" /\ from_any stop s = "") \/
  (until_any stop (s +:+ w) = until_any stop s /\ from_any stop (s +:+ w) = from_any stop s +:+ w).
Proof.
  intros Hw. destruct (until_from_spec stop s) as (H1 & H2 & H3). rewrite H3 at 1 3 5 7.
  destruct (from_any stop s) as [|c r] eqn:E.
  - left. rewrite str_app_nil_r. destruct (until_from_lacks stop (until_any stop s +:+ w)) as [-> ->]; [|done].
    by rewrite lacks_app, H1.
  - right. rewrite str_app_assoc. apply until_from_app; [done|]. by rewrite str_app_cons.
Qed.

(** Spaces at the end of a text end up at the end of one of its parts. *)
Lemma rest_parts_spaced sch s w : str_all is_space w = true ->
  spaced (netloc (rest_parts sch s)) (netloc (rest_parts sch (s +:+ w))) /\
  spaced (query (rest_parts sch s)) (query (rest_parts sch (s +:+ w))).
Proof.
  intros Hw. unfold rest_parts.
  assert (Hst : startswith "//" (s +:+ w) = startswith "//" s /\ (startswith "//" s = true -> str_drop 2 (s +:+ w) = str_drop 2 s +:+ w)).
  { assert (Hsl : startswith "/" w = false).
    { destruct w as [|c w]; [done|]. cbn in Hw. apply andb_true_iff in Hw as [Hw _].
      destruct c as [[] [] [] [] [] [] [] []]; done. }
    destruct s as [|a [|b s]]; [rewrite str_app_nil|rewrite str_app_cons, str_app_nil|done].
    - split; [|done]. destruct w as [|c w]; [done|]. apply andb_false_iff in Hsl as [Hsl|Hsl]; [|by destruct w].
      apply andb_false_iff. by left.
    - split; [|by rewrite andb_false_r || (intros [_ ?]%andb_true_iff)].
      change (Ascii.eqb "/" a && startswith "/" w = Ascii.eqb "/" a && false). by rewrite Hsl. }
  destruct Hst as [-> Hd]. destruct (startswith "//" s) eqn:E; [|rewrite !netloc_split_path; split; [apply spaced_refl|by apply query_spaced]].
  rewrite Hd by done. rewrite !netloc_split_path.
  assert (Hl : lacks_any "/?#" w = true).
  { revert Hw. apply str_all_impl. by intros [[] [] [] [] [] [] [] []]. }
  destruct (until_from_spaced "/?#" (str_drop 2 s) w Hl) as [(-> & -> & ->)|(-> & ->)].
  - split; [by apply spaced_app|apply spaced_refl].
  - split; [apply spaced_refl|by apply query_spaced].
Qed.

Lemma split_scheme_spaced s w : str_all is_space w = true -> s <> "" ->
  split_scheme (s +:+ w) = (fun p => (p.1, p.2 +:+ w)) <$> split_scheme s.
Proof.
  intros Hw Hs. destruct s as [|c s]; [done|]. unfold split_scheme. rewrite str_app_cons, <- str_app_cons.
  rewrite partition_spaced by by apply spaces_lack. destruct (partition ":" (String c s)) as [[a f] b].
  destruct f; [|done]. by destruct (_ && _).
Qed.

Lemma url_parts_spaced s w : clean (s +:+ w) = true -> starts_well (s +:+ w) = true -> str_all is_space w = true ->
  spaced (netloc (url_parts s)) (netloc (url_parts (s +:+ w))) /\ spaced (query (url_parts s)) (query (url_parts (s +:+ w))).
Proof.
  intros Hc Hs Hw. destruct s as [|c s].
  - destruct w as [|c w]; [split; apply spaced_refl|]. exfalso. rewrite str_app_nil in Hs. cbn in Hs, Hw.
    apply andb_true_iff in Hw as [Hw _]. by destruct c as [[] [] [] [] [] [] [] []].
  - unfold url_parts. rewrite (url_cleaned_id (String c s +:+ w)) by done. rewrite clean_app in Hc.
    apply andb_true_iff in Hc as [Hc _]. rewrite (url_cleaned_id (String c s)) by done.
    rewrite split_scheme_spaced by done. destruct (split_scheme (String c s)) as [[a b]|]; by apply rest_parts_spaced.
Qed.

Lemma rstrip_spec p s : exists w, str_all p w = true /\ s = rstrip_of p s +:+ w.
Proof.
  induction s as [|c s [w [Hw Hs]]]; [by exists ""|]. cbn. destruct (rstrip_of p s) as [|d t].
  - rewrite str_app_nil in Hs. subst s. destruct (p c) eqn:E; [exists (String c w); cbn; by rewrite E|by exists w].
  - exists w. split; [done|]. by rewrite str_app_cons, <- Hs.
Qed.

(** Stripping a clean text only drops spaces at its end. *)
Lemma strip_spaced s : starts_well s = true -> exists w, str_all is_space w = true /\ s = strip s +:+ w.
Proof.
  intros Hs. unfold strip, strip_of. destruct s as [|c s]; [by exists ""|]. cbn [lstrip_of].
  replace (is_space c) with false; [apply rstrip_spec|]. cbn in Hs. by destruct c as [[] [] [] [] [] [] [] []].
Qed.
