(* ===== verification/PyJson.v ===== *)
(** * [json.loads]

    The decoder of Python's [json] module on strings of ASCII characters, as
    the provider clients use it on the text of an error page.  The scanner
    is a state machine over the characters, the parser a machine over tokens
    with a stack of open arrays and objects, so neither needs fuel.  An escape
    of a character beyond ASCII stays as it is written. *)

From S2P Require Export PyVal.
Local Open Scope string_scope.
Local Open Scope Z_scope.

(** ** Tokens *)

Inductive token :=
  | TPunct (c : ascii)
  | TStr (s : string)
  | TWord (w : string).

(** The state of the scanner; accumulators are reversed. *)
Inductive lex_state :=
  | Between
  | InStr (acc : string)
  | InEsc (acc : string)
  | InHex (acc digits : string)
  | InWord (acc : string).

Definition is_json_space (c : ascii) : bool :=
  (code c =? 32) || (code c =? 9) || (code c =? 10) || (code c =? 13).
Definition is_punct (c : ascii) : bool := str_any (Ascii.eqb c) "{}[]:,".
Definition is_word_char (c : ascii) : bool := is_alpha c || is_digit c || str_any (Ascii.eqb c) "+-.".

(** A character between tokens: the tokens it completes and the next state. *)
Definition begin_token (c : ascii) : option (list token * lex_state) :=
  if is_json_space c then Some ([], Between)
  else if is_punct c then Some ([TPunct c], Between)
  else if Ascii.eqb c double_quote then Some ([], InStr "")
  else if is_word_char c then Some ([], InWord (String c ""))
  else None.

(** The character of a one-letter escape. *)
Definition escape_of (c : ascii) : option ascii :=
  if str_any (Ascii.eqb c) (String double_quote "\/") then Some c
  else if Ascii.eqb c "b" then Some (of_code 8)
  else if Ascii.eqb c "f" then Some (of_code 12)
  else if Ascii.eqb c "n" then Some (of_code 10)
  else if Ascii.eqb c "r" then Some (of_code 13)
  else if Ascii.eqb c "t" then Some (of_code 9)
  else None.

Definition hex_val (c : ascii) : option Z :=
  if is_digit c then Some (code c - 48)
  else if in_range 97 102 c then Some (code c - 87)
  else if in_range 65 70 c then Some (code c - 55)
  else None.

Definition hex_number (s : string) : option Z :=
  (fix go acc s :=
     match s with
     | "" => Some acc
     | String c s => match hex_val c with Some v => go (16 * acc + v) s | None => None end
     end) 0 s.

(** The accumulator after four hexadecimal digits (given reversed). *)
Definition unicode_escape (acc digits : string) : option string :=
  match hex_number (str_rev digits) with
  | Some n => Some (if n <? 128 then String (of_code n) acc else digits +:+ "u\" +:+ acc)
  | None => None
  end.

Definition lex_step (st : lex_state) (c : ascii) : option (list token * lex_state) :=
  match st with
  | Between => begin_token c
  | InStr acc =>
      if Ascii.eqb c double_quote then Some ([TStr (str_rev acc)], Between)
      else if Ascii.eqb c "\" then Some ([], InEsc acc)
      else if code c <? 32 then None
      else Some ([], InStr (String c acc))
  | InEsc acc =>
      if Ascii.eqb c "u" then Some ([], InHex acc "")
      else match escape_of c with Some d => Some ([], InStr (String d acc)) | None => None end
  | InHex acc digits =>
      let digits := String c digits in
      if slen digits =? 4
      then match unicode_escape acc digits with Some acc => Some ([], InStr acc) | None => None end
      else Some ([], InHex acc digits)
  | InWord acc =>
      if is_word_char c then Some ([], InWord (String c acc))
      else match begin_token c with Some (l, st) => Some (TWord (str_rev acc) :: l, st) | None => None end
  end.

Fixpoint scan (st : lex_state) (s : string) : option (list token) :=
  match s with
  | "" => match st with Between => Some [] | InWord acc => Some [TWord (str_rev acc)] | _ => None end
  | String c s =>
      match lex_step st c with
      | Some (l, st) => match scan st s with Some ts => Some (l ++ ts)%list | None => None end
      | None => None
      end
  end.

(** ** Scalars *)

(** The digits a string starts with, and the rest. *)
Fixpoint span_digits (s : string) : string * string :=
  match s with
  | String c s' => if is_digit c then let '(a, r) := span_digits s' in (String c a, r) else ("", s)
  | "" => ("", "")
  end.

(** An optional minus sign and an integer without leading zeros: the rest after
    it. *)
Definition number_int (w : string) : option string :=
  let w := match w with String "-" w => w | _ => w end in
  match span_digits w with
  | ("", _) => None
  | (String "0" "", r) => Some r
  | (String "0" _, _) => None
  | (_, r) => Some r
  end.

(** An optional fraction. *)
Definition number_frac (w : string) : option string :=
  match w with
  | String "." w => match span_digits w with ("", _) => None | (_, r) => Some r end
  | _ => Some w
  end.

(** An optional exponent. *)
Definition number_exp (w : string) : option string :=
  match w with
  | String c w' =>
      if Ascii.eqb c "e" || Ascii.eqb c "E" then
        let w' := match w' with String "-" w' | String "+" w' => w' | _ => w' end in
        match span_digits w' with ("", _) => None | (_, r) => Some r end
      else Some w
  | "" => Some ""
  end.

(** A constant or a number: an [int] without fraction and exponent, a [float]
    otherwise. *)
Definition scalar (w : string) : option value :=
  if String.eqb w "null" then Some VNone
  else if String.eqb w "true" then Some (VBool true)
  else if String.eqb w "false" then Some (VBool false)
  else if String.eqb w "NaN" || String.eqb w "Infinity" || String.eqb w "-Infinity" then
    match float_of_string w with Ret f => Some (VFloat f) | Raise _ => None end
  else
    match number_int w with
    | None => None
    | Some "" => match int_of_string w with Ret z => Some (VInt z) | Raise _ => None end
    | Some r =>
        match number_frac r with
        | None => None
        | Some r =>
            match number_exp r with
            | Some "" => match float_of_string w with Ret f => Some (VFloat f) | Raise _ => None end
            | _ => None
            end
        end
    end.

(** ** Arrays and objects *)

(** An open array (reversed), or an open object with the key being read. *)
Inductive frame :=
  | Arr (acc : list value)
  | Obj (acc : list (string * value)) (key : string).

(** What the parser expects: a value (or the end of an empty array), a key (or
    the end of an empty object), a colon, or what follows a value. *)
Inductive expect :=
  | ExpValue (may_close : bool)
  | ExpKey (may_close : bool)
  | ExpColon
  | After (v : value).

Definition parse_step (t : token) (e : expect) (stk : list frame) : option (expect * list frame) :=
  match e, t, stk with
  | ExpValue _, TStr s, _ => Some (After (VStr s), stk)
  | ExpValue _, TWord w, _ => match scalar w with Some v => Some (After v, stk) | None => None end
  | ExpValue _, TPunct "[", _ => Some (ExpValue true, Arr [] :: stk)
  | ExpValue _, TPunct "{", _ => Some (ExpKey true, Obj [] "" :: stk)
  | ExpValue true, TPunct "]", Arr acc :: stk => Some (After (VList (rev acc)), stk)
  | ExpKey _, TStr k, Obj acc _ :: stk => Some (ExpColon, Obj acc k :: stk)
  | ExpKey true, TPunct "}", Obj acc _ :: stk => Some (After (VDict acc), stk)
  | ExpColon, TPunct ":", _ => Some (ExpValue false, stk)
  | After v, TPunct ",", Arr acc :: stk => Some (ExpValue false, Arr (v :: acc) :: stk)
  | After v, TPunct "]", Arr acc :: stk => Some (After (VList (rev (v :: acc))), stk)
  | After v, TPunct ",", Obj acc k :: stk => Some (ExpKey false, Obj (dict_set k v acc) "" :: stk)
  | After v, TPunct "}", Obj acc k :: stk => Some (After (VDict (dict_set k v acc)), stk)
  | _, _, _ => None
  end.

Fixpoint parse_tokens (ts : list token) (e : expect) (stk : list frame) : option value :=
  match ts with
  | [] => match e, stk with After v, [] => Some v | _, _ => None end
  | t :: ts => match parse_step t e stk with Some (e, stk) => parse_tokens ts e stk | None => None end
  end.

(** [json.loads(s)]; a [JSONDecodeError] is a [ValueError]. *)
Definition json_loads (s : string) : outcome py_exn value :=
  match scan Between s with
  | Some ts => match parse_tokens ts (ExpValue false) [] with Some v => Ret v | None => Raise ValueError end
  | None => Raise ValueError
  end.

(** ** Examples *)

(** [q s] is [s] in double quotes. *)
Definition q (s : string) : string := String double_quote (s +:+ String double_quote "").

Example loads_object :
  json_loads (" {" +:+ q "error" +:+ ": " +:+ q "BAD_\u0054OKEN" +:+ ", " +:+ q "n" +:+ " :[1,-2.5e1 ,null, {}, []]}") =
  Ret (VDict [("error", VStr "BAD_TOKEN");
              ("n", VList [VInt 1; VFloat (f_round (-25)); VNone; VDict []; VList []])]).
Proof. vm_compute. reflexivity. Qed.

Example loads_rejects :
  map (fun s => is_ret (json_loads s)) [""; "[1,]"; "{,}"; "01"; "1."; "[1 2]"; "<html>"; "[1"; "nul"; "{}{}"; "-"; "[,1]"] =
  repeat false 12.
Proof. vm_compute. reflexivity. Qed.
