(* ===== verification/JsonDump.v ===== *)
(** * [json.dumps]

    The encoder of Python's [json] module with its default separators, on the
    values [json_loads] reads; a character beyond ASCII is written as it is,
    where Python writes an escape that reads back as the same character.  What
    is encoded decodes to the same value ([loads_dumps]). *)

From S2P Require Export PyJson.
Local Open Scope string_scope.
Local Open Scope Z_scope.

Definition hex4 (z : Z) : string :=
  "\u00" +:+ String (hex_digit (z / 16)) (String (hex_digit (z mod 16)) "").

Definition json_char (c : ascii) : string :=
  if Ascii.eqb c double_quote then String "\" (String double_quote "")
  else if Ascii.eqb c "\" then "\\"
  else if code c =? 10 then "\n"
  else if code c =? 13 then "\r"
  else if code c =? 9 then "\t"
  else if code c =? 12 then "\f"
  else if code c =? 8 then "\b"
  else if (code c <? 32) || (code c =? 127) then hex4 (code c)
  else String c "".

Definition json_string (s : string) : string := String double_quote (str_flat_map json_char s +:+ String double_quote "").

Definition json_float (f : float) : string :=
  match f with
  | S754_nan => "NaN"
  | S754_infinity s => if s then "-Infinity" else "Infinity"
  | _ => float_repr f
  end.

Fixpoint json_dumps (v : value) : string :=
  match v with
  | VNone => "null"
  | VBool b => if b then "true" else "false"
  | VInt z => str_of_int z
  | VFloat f => json_float f
  | VStr s => json_string s
  | VList l => "[" +:+ join ", " (map json_dumps l) +:+ "]"
  | VDict d => "{" +:+ join ", " (map (fun kv => json_string kv.1 +:+ ": " +:+ json_dumps kv.2) d) +:+ "}"
  end.

Example dumps_object :
  json_dumps (VDict [("a", VList [VInt (-5); VNone; VBool true]); ("b", VStr (String (of_code 31) ("x" +:+ String double_quote "y")));
                     ("c", VDict [])]) =
  "{" +:+ q "a" +:+ ": [-5, null, true], " +:+ q "b" +:+ ": " +:+ q ("\u001fx\" +:+ String double_quote "y") +:+ ", "
  +:+ q "c" +:+ ": {}}".
Proof. vm_compute. reflexivity. Qed.

(** ** Values that survive: no floats, distinct keys, integers within the digit
    limit *)

Fixpoint encodable (v : value) : Prop :=
  match v with
  | VFloat _ => False
  | VInt z => Z.abs z < 10 ^ 4300
  | VList l => foldr (fun v P => encodable v /\ P) True l
  | VDict d => uniq_keys d /\ foldr (fun kv P => encodable kv.2 /\ P) True d
  | _ => True
  end.

(** The tokens of a value, and of the items that follow a first one. *)
Definition comma : token := TPunct ",".
Definition more_items {A} (f : A -> list token) (l : list A) : list token := concat (map (fun x => comma :: f x) l).
Definition items {A} (f : A -> list token) (l : list A) : list token :=
  match l with [] => [] | x :: l => (f x ++ more_items f l)%list end.

Fixpoint tokens (v : value) : list token :=
  match v with
  | VStr s => [TStr s]
  | VList l => TPunct "[" :: (items tokens l ++ [TPunct "]"])%list
  | VDict d => TPunct "{" :: (items (fun kv => TStr kv.1 :: TPunct ":" :: tokens kv.2) d ++ [TPunct "}"])%list
  | _ => [TWord (json_dumps v)]
  end.

(** ** Scanning *)

(** What may follow a word. *)
Definition ends_word (s : string) : Prop :=
  match s with "" => True | String c _ => is_word_char c = false /\ begin_token c <> None end.

Lemma scan_word acc w r : str_all is_word_char w = true -> ends_word r ->
  scan (InWord acc) (w +:+ r) = option_map (cons (TWord (str_rev (str_rev_app w acc)))) (scan Between r).
Proof.
  revert acc. induction w as [|c w IH]; intros acc Hw Hr.
  - str_simpl. destruct r as [|c r]; [done|]. destruct Hr as [Hc Hb]. cbn [scan lex_step]. rewrite Hc.
    destruct (begin_token c) as [[l st]|]; [|done]. cbn. by destruct (scan st r).
  - cbn [str_all] in Hw. apply andb_true_iff in Hw as [Hc Hw]. rewrite str_app_cons. cbn [scan lex_step]. rewrite Hc.
    rewrite IH by done. cbn [str_rev_app]. by destruct (scan Between r).
Qed.

Lemma str_rev_app_twice (w : string) : forall acc acc', str_rev_app (str_rev_app w acc) acc' = str_rev_app acc (w +:+ acc').
Proof. induction w as [|c w IH]; intros acc acc'; [done|]. cbn [str_rev_app]. by rewrite IH, str_app_cons. Qed.

Lemma str_rev_twice (w : string) : str_rev (str_rev_app w "") = w.
Proof. unfold str_rev. rewrite str_rev_app_twice. by str_simpl. Qed.

(** A step of the scanner that completes no token. *)
Lemma scan_silent st st' c s : lex_step st c = Some ([], st') -> scan st (String c s) = scan st' s.
Proof. intros E. cbn [scan]. rewrite E. by destruct (scan st' s). Qed.

Lemma scan_begin_word c w r : is_word_char c = true -> str_all is_word_char w = true -> ends_word r ->
  scan Between (String c w +:+ r) = option_map (cons (TWord (String c w))) (scan Between r).
Proof.
  intros Hc Hw Hr. rewrite str_app_cons. etransitivity.
  - apply (scan_silent _ (InWord (String c ""))). revert Hc. clear. by destruct c as [[] [] [] [] [] [] [] []].
  - rewrite scan_word by done. change (str_rev_app w (String c "")) with (str_rev_app (String c w) "").
    by rewrite str_rev_twice.
Qed.

Lemma scan_json_char acc c r : scan (InStr acc) (json_char c +:+ r) = scan (InStr (String c acc)) r.
Proof.
  destruct c as [[] [] [] [] [] [] [] []];
    repeat (etransitivity; [apply scan_silent; vm_compute; reflexivity|]); reflexivity.
Qed.

Lemma scan_json_string s r : scan Between (json_string s +:+ r) = option_map (cons (TStr s)) (scan Between r).
Proof.
  unfold json_string. rewrite str_app_cons, str_app_assoc. etransitivity; [by apply scan_silent|].
  assert (H : forall s acc, scan (InStr acc) (str_flat_map json_char s +:+ String double_quote "" +:+ r) =
                            scan (InStr (str_rev_app s acc)) (String double_quote "" +:+ r)).
  { clear s. induction s as [|c s IH]; intros acc; [done|]. cbn [str_flat_map str_rev_app].
    by rewrite str_app_assoc, scan_json_char, IH. }
  rewrite H, str_app_cons, str_app_nil. cbn [scan lex_step]. cbn. rewrite str_rev_twice. by destruct (scan Between r).
Qed.

Lemma scan_punct c r : is_punct c = true -> scan Between (String c r) = option_map (cons (TPunct c)) (scan Between r).
Proof.
  intros H. assert (E : begin_token c = Some ([TPunct c], Between)).
  { revert H. clear. by destruct c as [[] [] [] [] [] [] [] []]. }
  cbn [scan lex_step]. rewrite E. by destruct (scan Between r).
Qed.

Lemma scan_space r : scan Between (String " " r) = scan Between r.
Proof. by apply scan_silent. Qed.

(** [int] of what [str] prints, also below zero, and its spelling. *)
Lemma str_of_int_word z : exists c w, str_of_int z = String c w /\ is_word_char c = true /\ str_all is_word_char w = true.
Proof.
  assert (Hd : forall c, is_digit c = true -> is_word_char c = true).
  { intros c H. unfold is_word_char. by rewrite H, orb_true_r. }
  assert (Hp : forall p, str_all is_word_char (pretty_N_go (N.pos p) "") = true) by (intros p; by apply pretty_N_go_all).
  unfold str_of_int. destruct z as [|p|p]; [by exists "0"%char, ""|..].
  - change (pretty (Z.pos p)) with (pretty_N_go (N.pos p) "").
    destruct (pretty_N_go_first (N.pos p) "" ltac:(done)) as (c & t & E & Hc). specialize (Hp p). rewrite E in Hp |- *.
    exists c, t. split; [done|]. by apply andb_true_iff in Hp.
  - exists "-"%char, (pretty_N_go (N.pos p) ""). done.
Qed.

(** Scanning what is encoded gives its tokens. *)
Definition scans (s : string) (l : list token) : Prop :=
  forall r, ends_word r -> scan Between (s +:+ r) = option_map (app l) (scan Between r).

Lemma scans_items {A} (f : A -> string) (g : A -> list token) l r :
  Forall (fun x => scans (f x) (g x)) l -> ends_word r ->
  scan Between (join ", " (map f l) +:+ r) = option_map (app (items g l)) (scan Between r).
Proof.
  intros Hl Hr. destruct l as [|x l]; [cbn; rewrite str_app_nil; by destruct (scan Between r)|].
  apply Forall_cons in Hl as [Hx Hl]. cbn [items]. revert x Hx.
  induction Hl as [|y l Hy Hl IH]; intros x Hx.
  - cbn [map join more_items concat]. rewrite app_nil_r. by apply Hx.
  - change (join ", " (map f (x :: y :: l))) with (f x +:+ ", " +:+ join ", " (map f (y :: l))).
    rewrite !str_app_assoc. rewrite Hx by done. rewrite (str_app_cons ","), scan_punct by done.
    rewrite str_app_cons, scan_space, str_app_nil, (IH y Hy). destruct (scan Between r) as [ts|]; [|done].
    cbn. unfold more_items, comma. cbn. rewrite <- !app_assoc. cbn. by rewrite <- !app_assoc.
Qed.

Lemma scans_value v : encodable v -> scans (json_dumps v) (tokens v).
Proof.
  induction v as [v Hleaf|l IH|d IH] using value_rect'; intros Hv r Hr.
  - destruct v as [|b|z|f|s|l|d]; try done; cbn [json_dumps tokens].
    + by apply (scan_begin_word "n" "ull").
    + destruct b; [by apply (scan_begin_word "t" "rue")|by apply (scan_begin_word "f" "alse")].
    + destruct (str_of_int_word z) as (c & w & -> & Hc & Hw). by apply scan_begin_word.
    + by apply scan_json_string.
  - cbn [json_dumps tokens]. rewrite !str_app_assoc, str_app_cons, str_app_nil, scan_punct by done.
    rewrite (scans_items _ tokens); [|..|done].
    + rewrite str_app_cons, str_app_nil, scan_punct by done. destruct (scan Between r); [|done]. cbn. by rewrite <- app_assoc.
    + clear Hr. cbn [encodable] in Hv. induction IH as [|v l Hx HF IHl]; [constructor|]. destruct Hv as [Hv Hl].
      constructor; [by apply Hx|by apply IHl].
  - cbn [json_dumps tokens]. rewrite !str_app_assoc, str_app_cons, str_app_nil, scan_punct by done.
    rewrite (scans_items _ (fun kv => TStr kv.1 :: TPunct ":" :: tokens kv.2)); [|..|done].
    + rewrite str_app_cons, str_app_nil, scan_punct by done. destruct (scan Between r); [|done]. cbn. by rewrite <- app_assoc.
    + clear Hr. cbn [encodable] in Hv. destruct Hv as [_ Hv].
      induction IH as [|[k v] d Hx HF IHd]; [constructor|]. destruct Hv as [Hv Hd].
      constructor; [|by apply IHd]. intros r' Hr'. cbn [fst snd]. rewrite !str_app_assoc.
      rewrite scan_json_string, str_app_cons, scan_punct by done. rewrite str_app_cons, scan_space, str_app_nil.
      rewrite (Hx Hv r' Hr' : scan Between (json_dumps v +:+ _) = _). by destruct (scan Between r').
Qed.

(** ** Scalars *)

Lemma pretty_first_digit (n : N) : forall s, n <> 0%N -> exists c t, pretty_N_go n s = String c t /\ c <> "0"%char /\ is_digit c = true.
Proof.
  induction (N.lt_wf_0 n) as [n _ IH]. intros s Hn. rewrite pretty_N_go_step by lia.
  destruct (decide (n / 10 = 0)%N) as [Hz|Hz].
  - rewrite Hz, pretty_N_go_0. do 2 eexists. split; [done|].
    assert (n < 10)%N by (apply N.div_small_iff; [lia|done]). rewrite N.mod_small by done.
    split; [|by apply digit_char]. intros E. destruct (digit_char n ltac:(done)) as [_ Hv]. rewrite E in Hv. change (digit_val "0") with 0 in Hv. lia.
  - apply (IH (n / 10)%N); [apply N.div_lt; lia|done].
Qed.

Lemma span_all_digits s : str_all is_digit s = true -> span_digits s = (s, "").
Proof. induction s as [|c s IH]; [done|]. cbn. intros [-> H]%andb_true_iff. by rewrite (IH H). Qed.

Lemma pretty_number (p : positive) :
  number_int (pretty_N_go (N.pos p) "") = Some "" /\ number_int (String "-" (pretty_N_go (N.pos p) "")) = Some "".
Proof.
  destruct (pretty_first_digit (N.pos p) "" ltac:(done)) as (c & t & E & Hc & Hd).
  assert (Ha : str_all is_digit (pretty_N_go (N.pos p) "") = true) by (by apply pretty_N_go_all).
  rewrite E in Ha |- *. pose proof (span_all_digits _ Ha) as Hs.
  assert (H : match span_digits (String c t) with
              | ("", _) => None | (String "0" "", r) => Some r | (String "0" _, _) => None | (_, r) => Some r end = Some "").
  { rewrite Hs. destruct c as [[] [] [] [] [] [] [] []]; done || by destruct t. }
  split; [|exact H]. unfold number_int. revert H. clear -Hd. destruct c as [[] [] [] [] [] [] [] []]; done.
Qed.

Lemma int_of_string_neg (p : positive) : Z.pos p < 10 ^ 4300 ->
  int_of_string (String "-" (pretty_N_go (N.pos p) "")) = Ret (Z.neg p).
Proof.
  intros Hp. pose proof (int_of_string_str_of_int (Z.pos p) ltac:(done) Hp) as H.
  change (str_of_int (Z.pos p)) with (pretty_N_go (N.pos p) "") in H.
  destruct (pretty_N_go_first (N.pos p) "" ltac:(done)) as (c & t & E & Hc).
  assert (Ha : str_all is_digit (pretty_N_go (N.pos p) "") = true) by (by apply pretty_N_go_all).
  rewrite E in Ha, H |- *. cbn [str_all] in Ha. apply andb_true_iff in Ha as [_ Ha].
  pose proof (strip_digits c t Hc Ha) as Hs.
  assert (Hn : strip (String "-" (String c t)) = String "-" (String c t)).
  { unfold strip, strip_of in Hs |- *. cbn [lstrip_of] in Hs |- *. change (is_space "-") with false. cbn iota.
    destruct (is_space c) eqn:Es; [revert Es Hc; clear; unfold is_space, is_digit, in_range; lia|].
    change (rstrip_of is_space (String "-" (String c t))) with
      (match rstrip_of is_space (String c t) with "" => if is_space "-" then "" else "-" | s => String "-" s end).
    by rewrite Hs. }
  unfold int_of_string in H |- *. rewrite Hs in H. rewrite Hn. cbn [sign_of].
  assert (sign_of (String c t) = (false, String c t)) as Hsg.
  { revert Hc. clear. unfold sign_of. by destruct c as [[] [] [] [] [] [] [] []]. }
  rewrite Hsg in H. destruct (digits_from false 0 (String c t)) as [[[v n] r]|]; [|done].
  destruct n as [|n]; [done|]. destruct r; [|done]. destruct (_ <=? 4300); [|done]. by injection H as ->.
Qed.

Lemma scalar_int z : Z.abs z < 10 ^ 4300 -> scalar (str_of_int z) = Some (VInt z).
Proof.
  assert (H0 : forall w, number_int w = Some "" -> (exists c t, w = String c t /\ (is_digit c = true \/ c = "-"%char)) ->
    forall z, int_of_string w = Ret z -> str_all (fun c => is_digit c || Ascii.eqb c "-") w = true -> scalar w = Some (VInt z)).
  { intros w Hn _ z' Hz Ha. unfold scalar.
    assert (Hw : forall c t, is_digit c || Ascii.eqb c "-" = false -> String.eqb w (String c t) = false).
    { intros c t Hc. apply String.eqb_neq. intros ->. cbn [str_all] in Ha. by rewrite Hc in Ha. }
    assert (Hm : String.eqb w "-Infinity" = false) by (apply String.eqb_neq; intros ->; done).
    rewrite !Hw by done. rewrite Hm. cbn [orb]. by rewrite Hn, Hz. }
  assert (Hall : forall p, str_all (fun c => is_digit c || Ascii.eqb c "-") (pretty_N_go (N.pos p) "") = true).
  { intros p. apply pretty_N_go_all; [|done]. by intros c ->. }
  intros Hz. destruct z as [|p|p]; [done|..]; destruct (pretty_number p) as [H1 H2].
  - change (str_of_int (Z.pos p)) with (pretty_N_go (N.pos p) ""). apply H0; [done|..|apply Hall].
    + destruct (pretty_N_go_first (N.pos p) "" ltac:(done)) as (c & t & E & Hc). eauto.
    + change (pretty_N_go (N.pos p) "") with (str_of_int (Z.pos p)). by apply int_of_string_str_of_int.
  - change (str_of_int (Z.neg p)) with (String "-" (pretty_N_go (N.pos p) "")). apply H0; [done|by eauto|by apply int_of_string_neg|].
    cbn [str_all]. by rewrite Hall.
Qed.

(** ** Parsing *)

Definition parses (v : value) : Prop :=
  forall ts b stk, parse_tokens (tokens v ++ ts)%list (ExpValue b) stk = parse_tokens ts (After v) stk.

Lemma parse_list_items l v acc ts stk : Forall parses l ->
  parse_tokens (more_items tokens l ++ TPunct "]" :: ts)%list (After v) (Arr acc :: stk) =
  parse_tokens ts (After (VList (rev acc ++ v :: l))) stk.
Proof.
  intros Hl. revert v acc. induction Hl as [|x l Hx Hl IH]; intros v acc.
  - cbn. reflexivity.
  - unfold more_items. cbn [map concat]. rewrite <- !app_comm_cons, <- app_assoc. cbn [parse_tokens parse_step comma].
    rewrite Hx, IH. cbn [rev]. by rewrite <- app_assoc.
Qed.

Lemma parse_dict_items d k v acc ts stk : Forall (fun kv => parses kv.2) d -> uniq_keys (acc ++ (k, v) :: d)%list ->
  parse_tokens (more_items (fun kv => TStr kv.1 :: TPunct ":" :: tokens kv.2) d ++ TPunct "}" :: ts)%list
    (After v) (Obj acc k :: stk) =
  parse_tokens ts (After (VDict (acc ++ (k, v) :: d))) stk.
Proof.
  intros Hd. revert k v acc. induction Hd as [|[k' v'] d Hx Hd IH]; intros k v acc Hu.
  - cbn. rewrite dict_set_new; [done|]. unfold uniq_keys in Hu. rewrite fmap_app in Hu. apply NoDup_app in Hu as (_ & Hn & _).
    intros Hk. by apply (Hn k); [|left].
  - unfold more_items. cbn [map concat fst snd]. rewrite <- !app_comm_cons, <- app_assoc. cbn [parse_tokens parse_step comma].
    rewrite dict_set_new.
    + rewrite Hx, IH; [by rewrite <- app_assoc|by rewrite <- app_assoc].
    + unfold uniq_keys in Hu. rewrite fmap_app in Hu. apply NoDup_app in Hu as (_ & Hn & _).
      intros Hk. by apply (Hn k); [|left].
Qed.

Lemma parses_value v : encodable v -> parses v.
Proof.
  induction v as [v Hleaf|l IH|d IH] using value_rect'; intros Hv ts b stk.
  - destruct v as [|[]|z|f|s|l|d]; try done; destruct b; try done;
      cbn [tokens json_dumps app parse_tokens parse_step]; by rewrite scalar_int.
  - assert (Hl : Forall parses l).
    { clear -IH Hv. cbn [encodable] in Hv. induction IH as [|v l Hx HF IHl]; [constructor|]. destruct Hv as [Hv Hl].
      constructor; [by apply Hx|by apply IHl]. }
    cbn [tokens]. rewrite <- app_comm_cons, <- app_assoc. cbn [parse_tokens parse_step]. rewrite Tauto.if_same.
    destruct Hl as [|x l Hx Hl]; [done|]. cbn [items]. rewrite <- app_assoc, Hx.
    change ([TPunct "]"] ++ ts)%list with (TPunct "]" :: ts). by rewrite parse_list_items.
  - destruct Hv as [Hu Hv]. assert (Hd : Forall (fun kv => parses kv.2) d).
    { clear -IH Hv. induction IH as [|v l Hx HF IHl]; [constructor|]. destruct Hv as [Hv Hl].
      constructor; [by apply Hx|by apply IHl]. }
    cbn [tokens]. rewrite <- app_comm_cons, <- app_assoc. cbn [parse_tokens parse_step]. rewrite Tauto.if_same.
    destruct Hd as [|[k x] d Hx Hd]; [done|]. cbn [items fst snd]. rewrite <- !app_comm_cons, <- app_assoc.
    cbn [parse_tokens parse_step]. rewrite Hx.
    change ([TPunct "}"] ++ ts)%list with (TPunct "}" :: ts). by rewrite (parse_dict_items d k x []).
Qed.

Theorem loads_dumps v : encodable v -> json_loads (json_dumps v) = Ret v.
Proof.
  intros Hv. unfold json_loads. rewrite <- (str_app_nil_r (json_dumps v)), (scans_value v Hv "") by done.
  cbn [scan option_map]. by rewrite (parses_value v Hv []).
Qed.
