(* ===== verification/UserConfig.v ===== *)
(** * User configuration (db/schemas/config.py, utils/const.py)

    The part of [UserData] and [StreamingProvider] that decides which streams a
    user sees: provider credentials and lookup, field validators, migrations.
    Optional fields are [option]; nested credential objects are reduced to
    whether they are present. *)

From S2P Require Export PyVal PyList.
Local Open Scope string_scope.
Local Open Scope Z_scope.

(** ** Constants *)

Definition RESOLUTIONS : list (option string) :=
  [Some "4k"; Some "2160p"; Some "1440p"; Some "1080p"; Some "720p"; Some "576p"; Some "480p";
   Some "360p"; Some "240p"; None].

Definition QUALITY_GROUPS : list (string * list (option string)) :=
  [("BluRay/UHD", [Some "BluRay"; Some "BluRay REMUX"; Some "BRRip"; Some "BDRip"; Some "UHDRip";
                   Some "REMUX"; Some "BLURAY"]);
   ("WEB/HD", [Some "WEB-DL"; Some "WEB-DLRip"; Some "WEBRip"; Some "HDRip"; Some "WEBMux"]);
   ("DVD/TV/SAT", [Some "DVD"; Some "DVDRip"; Some "HDTV"; Some "SATRip"; Some "TVRip"; Some "PPVRip";
                   Some "PDTV"]);
   ("CAM/Screener", [Some "CAM"; Some "TeleSync"; Some "TeleCine"; Some "SCR"]);
   ("Unknown", [None])].

Definition SUPPORTED_QUALITIES : list (option string) := flat_map snd QUALITY_GROUPS.

Definition HDR_FORMATS_FILTERS : list string :=
  ["HDR10"; "HDR10+"; "Dolby Vision"; "HLG"; "SDR"; "Unknown"].

Definition HDR_FORMAT_ALIASES : list (string * string) :=
  [("hdr10", "HDR10"); ("hdr 10", "HDR10"); ("hdr-10", "HDR10"); ("hdr10+", "HDR10+");
   ("hdr10plus", "HDR10+"); ("hdr 10+", "HDR10+"); ("dv", "Dolby Vision"); ("dovi", "Dolby Vision");
   ("dovi.", "Dolby Vision"); ("dolby vision", "Dolby Vision"); ("dolby-vision", "Dolby Vision");
   ("hlg", "HLG"); ("sdr", "SDR"); ("hdr", "HDR10"); ("uhdr", "HDR10")].

Definition LANGUAGES_FILTERS : list (option string) :=
  map Some ["English"; "Tamil"; "Hindi"; "Malayalam"; "Kannada"; "Telugu"; "Chinese"; "Russian"; "Arabic";
   "Japanese"; "Korean"; "Taiwanese"; "Latino"; "French"; "Spanish"; "Portuguese"; "Italian"; "German";
   "Ukrainian"; "Polish"; "Czech"; "Thai"; "Indonesian"; "Vietnamese"; "Dutch"; "Bengali"; "Turkish";
   "Greek"; "Swedish"; "Romanian"; "Hungarian"; "Finnish"; "Norwegian"; "Danish"; "Hebrew";
   "Lithuanian"; "Punjabi"; "Marathi"; "Gujarati"; "Bhojpuri"; "Nepali"; "Urdu"; "Tagalog"; "Filipino";
   "Malay"; "Mongolian"; "Armenian"; "Georgian"] ++ [None].

Definition TORRENT_SORTING_PRIORITY : list string :=
  ["cached"; "resolution"; "quality"; "language"; "size"; "seeders"; "created_at"].

(** ** Provider credentials *)

Definition STREAMING_SERVICE_REQUIREMENTS : list (string * list (list string)) :=
  [("pikpak", [["email"; "password"]]);
   ("qbittorrent", [["qbittorrent_config"]]);
   ("stremthru", [["url"; "token"]]);
   ("seedr", [["token"]; ["email"; "password"]]);
   ("p2p", [[]]);
   ("sabnzbd", [["sabnzbd_config"]]);
   ("nzbget", [["nzbget_config"]]);
   ("nzbdav", [["nzbdav_config"]]);
   ("easynews", [["easynews_config"]]);
   ("stremio_nntp", [[]]);
   ("default", [["token"]])].

Definition get_service_auth_options (service : string) : list (list string) :=
  default [["token"]] (dict_get service STREAMING_SERVICE_REQUIREMENTS).

Definition provider_auth_satisfied (service : string) (has_field : string -> bool) : bool :=
  existsb (forallb has_field) (get_service_auth_options service).

(** The loop of [provider_first_missing_field]: [None] once an option is
    complete, otherwise the shortest list of missing fields so far. *)
Fixpoint best_missing_from (has_field : string -> bool) (best : option (list string))
    (options : list (list string)) : option (list string) :=
  match options with
  | [] => best
  | option :: options =>
      let missing := List.filter (fun f => negb (has_field f)) option in
      match missing, best with
      | [], _ => None
      | _, None => best_missing_from has_field (Some missing) options
      | _, Some b =>
          best_missing_from has_field
            (if (length missing <? length b)%nat then Some missing else best) options
      end
  end.

Definition provider_first_missing_field (service : string) (has_field : string -> bool) : option string :=
  let options := get_service_auth_options service in
  if existsb (fun o : list string => match o with [] => true | _ => false end) options then None
  else match best_missing_from has_field None options with
       | Some (f :: _) => Some f
       | _ => None
       end.

Record StreamingProvider := mkProvider {
  name : string;
  service : string;
  stremthru_store_name : option string;
  url : option string;
  token : option string;
  email : option string;
  password : option string;
  configs : list string;  (* the nested configuration fields that are set *)
  only_show_cached_streams : bool;
  priority : Z;
  enabled : bool;
  use_mediaflow : bool;
}.

(** [getattr(self, field, None) is not None] *)
Definition has_field (p : StreamingProvider) (field : string) : bool :=
  if String.eqb field "token" then bool_decide (is_Some (token p))
  else if String.eqb field "email" then bool_decide (is_Some (email p))
  else if String.eqb field "password" then bool_decide (is_Some (password p))
  else if String.eqb field "url" then bool_decide (is_Some (url p))
  else memb field (configs p).

(** [StreamingProvider.validate_token_or_username_password]: the message of the
    error it raises. *)
Inductive provider_error :=
  | Disabled (service : string)
  | FieldRequired (field : string)
  | CredentialsRequired.

Definition validate_provider (disabled_providers : list string) (p : StreamingProvider) :
    outcome provider_error StreamingProvider :=
  if memb (service p) disabled_providers then Raise (Disabled (service p))
  else if negb (provider_auth_satisfied (service p) (has_field p)) then
    match provider_first_missing_field (service p) (has_field p) with
    | Some missing => Raise (if str_empty missing then CredentialsRequired else FieldRequired missing)
    | None => Raise CredentialsRequired
    end
  else Ret p.

Lemma best_missing_None has_field options : forall best,
  best_missing_from has_field best options = None <->
  (best = None /\ options = []) \/ existsb (forallb has_field) options = true.
Proof.
  assert (forall o, List.filter (fun f => negb (has_field f)) o = [] <-> forallb has_field o = true) as Hf.
  { induction o as [|f o IH]; simpl; [done|]. destruct (has_field f); simpl; [exact IH|done]. }
  induction options as [|o options IH]; intros best; simpl.
  - split; [intros ->; by left|]. by intros [[? _]|?].
  - destruct (List.filter _ o) as [|f m] eqn:E.
    + apply Hf in E. rewrite E. simpl. split; [by right|done].
    + assert (forallb has_field o = false) as Ho.
      { destruct (forallb has_field o) eqn:Eo; [|done]. apply Hf in Eo. congruence. }
      rewrite Ho. simpl. destruct best as [b|].
      * rewrite IH. split; [|by intros [[? _]|?]; auto; right].
        intros [[? _]|?]; [by case_match|by right].
      * rewrite IH. split; [intros [[? _]|?]; [done|by right]|intros [[_ ?]|?]; [done|by right]].
Qed.

Lemma best_missing_nonempty has_field options : forall best m,
  (forall b, best = Some b -> b <> []) -> best_missing_from has_field best options = Some m -> m <> [].
Proof.
  induction options as [|o options IH]; intros best m Hb; simpl; [by apply Hb|].
  destruct (List.filter _ o) as [|f l]; [done|]. destruct best as [b|]; apply IH; intros b' Hb'.
  - destruct (length (f :: l) <? length b)%nat; [by simplify_eq|by apply Hb].
  - by simplify_eq.
Qed.

Lemma auth_options_nonempty svc : get_service_auth_options svc <> [].
Proof. unfold get_service_auth_options, STREAMING_SERVICE_REQUIREMENTS. simpl. by repeat case_match. Qed.

Lemma first_missing_spec svc has :
  provider_first_missing_field svc has = None <-> provider_auth_satisfied svc has = true.
Proof.
  unfold provider_first_missing_field, provider_auth_satisfied.
  pose proof (auth_options_nonempty svc) as Hne. revert Hne.
  generalize (get_service_auth_options svc) as options. intros options Hne.
  destruct (existsb _ options) eqn:E.
  - split; [intros _|done]. apply existsb_exists in E as (o & Ho & Hoe). apply existsb_exists.
    exists o. by destruct o.
  - pose proof (best_missing_None has options None) as HN.
    destruct (best_missing_from has None options) as [[|f m]|] eqn:Em.
    + exfalso. by apply (best_missing_nonempty has options None [] ltac:(done) Em).
    + split; [done|]. intros Hs. destruct HN as [_ HN]. discriminate HN. by right.
    + split; [intros _|done]. by destruct (proj1 HN eq_refl) as [[_ ?]|?].
Qed.

Lemma best_missing_from_in has options : forall best m f,
  best_missing_from has best options = Some m -> In f m ->
  (exists b, best = Some b /\ In f b) \/ (has f = false /\ exists o, In o options /\ In f o).
Proof.
  induction options as [|o options IH]; intros best m f; simpl; [intros -> ?; left; by exists m|].
  destruct (List.filter _ o) as [|g l] eqn:E; [done|]. intros Hm Hf.
  assert (In f (g :: l) -> has f = false /\ exists o', (o = o' \/ In o' options) /\ In f o') as Ho.
  { intros Hb. rewrite <- E in Hb. apply filter_In in Hb as [? Hn%negb_true_iff].
    split; [done|]. exists o. auto. }
  destruct best as [b|];
    (destruct (IH _ _ _ Hm Hf) as [(b' & Hb' & Hin)|(? & o' & ? & ?)];
      [|right; split; [done|]; exists o'; auto]).
  - destruct (length (g :: l) <? length b)%nat; simplify_eq; [right; by apply Ho|left; eauto].
  - simplify_eq. right. by apply Ho.
Qed.

Lemma first_missing_missing svc has f :
  provider_first_missing_field svc has = Some f ->
  has f = false /\ exists o, In o (get_service_auth_options svc) /\ In f o.
Proof.
  unfold provider_first_missing_field. destruct (existsb _ _); [done|].
  destruct (best_missing_from _ _ _) as [[|g m]|] eqn:E; try done. intros [= <-].
  eapply best_missing_from_in in E as [(? & ? & _)|?]; [done|done|by left].
Qed.

(** Every field named by a requirement has a name, so the generic message of
    [validate_provider] is never used. *)
Lemma validate_provider_never_generic disabled p :
  validate_provider disabled p <> Raise CredentialsRequired.
Proof.
  unfold validate_provider. case_match; [done|].
  destruct (provider_auth_satisfied _ _) eqn:E; simpl; [done|].
  destruct (provider_first_missing_field _ _) as [f|] eqn:Ef.
  - assert (str_empty f = false) as ->; [|done].
    revert Ef. unfold provider_first_missing_field, get_service_auth_options, STREAMING_SERVICE_REQUIREMENTS.
    simpl. repeat (case_match; simpl; try done; try (by intros; simplify_eq)).
  - apply first_missing_spec in Ef. congruence.
Qed.

(** Credential validation is exact and its message is useful: a provider is
    rejected exactly when its service is disabled or no authentication option
    of the service is complete, and in the second case the error names a field
    of one of the service's options that is not set. *)
Theorem validate_provider_exact (disabled : list string) (p : StreamingProvider) :
  match validate_provider disabled p with
  | Ret q => q = p /\ memb (service p) disabled = false /\
             provider_auth_satisfied (service p) (has_field p) = true
  | Raise (Disabled s) => s = service p /\ memb s disabled = true
  | Raise (FieldRequired f) =>
      provider_auth_satisfied (service p) (has_field p) = false /\ has_field p f = false /\
      exists o, In o (get_service_auth_options (service p)) /\ In f o
  | Raise CredentialsRequired => False
  end.
Proof.
  pose proof (validate_provider_never_generic disabled p) as Hg. revert Hg.
  unfold validate_provider. destruct (memb (service p) disabled) eqn:Ed; [done|].
  destruct (provider_auth_satisfied _ _) eqn:Es; simpl; [done|].
  destruct (provider_first_missing_field _ _) as [f|] eqn:Ef; [|done].
  destruct (str_empty f); [done|]. intros _. split; [done|]. by apply first_missing_missing.
Qed.

(** ** [UserData] *)

Inductive size_limit :=
  | IntLimit (z : Z)
  | FloatLimit (f : float).

Inductive grouping := Mixed | Separate.
Inductive filter_mode := FilterDisabled | FilterInclude | FilterExclude.
#[export] Instance filter_mode_eq_dec : EqDecision filter_mode.
Proof. solve_decision. Defined.

Inductive sort_direction := Asc | Desc.
Record SortingOption := mkSortingOption { sort_key : string; direction : sort_direction }.

Record CatalogConfig := mkCatalogConfig { catalog_id : string; catalog_enabled : bool }.

Record NewznabIndexer := mkIndexer { indexer_name : option string; indexer_url : option string; indexer_enabled : bool;
  indexer_api_key : option string }.

Record UserData := mkUserData {
  streaming_providers : list StreamingProvider;
  streaming_provider : option StreamingProvider;
  catalog_configs : list CatalogConfig;
  selected_catalogs : list string;
  selected_resolutions : list (option string);
  max_size : size_limit;
  min_size : Z;
  max_streams_per_resolution : Z;
  torrent_sorting_priority : list SortingOption;
  language_sorting : list (option string);
  quality_filter : list string;
  hdr_filter : list string;
  max_streams : Z;
  provider_grouping : grouping;
  stream_name_filter_mode : filter_mode;
  stream_name_filter_patterns : list string;
  stream_name_filter_use_regex : bool;
  newznab_indexers : list NewznabIndexer;
}.

Definition default_user_data : UserData :=
  mkUserData [] None [] [] RESOLUTIONS (FloatLimit (S754_infinity false)) 0 10
    (map (fun k => mkSortingOption k Desc) TORRENT_SORTING_PRIORITY) LANGUAGES_FILTERS
    (map fst QUALITY_GROUPS) HDR_FORMATS_FILTERS 25 Separate FilterDisabled [] false [].

(** ** Field validators *)

Definition parse_max_size (v : value) : outcome py_exn size_limit :=
  match v with
  | VFloat f => Ret (FloatLimit f)
  | VInt z => Ret (IntLimit z)
  | VBool b => Ret (IntLimit (if b then 1 else 0))
  | VStr s =>
      if String.eqb s "inf" then Ret (FloatLimit (S754_infinity false))
      else if isdigit s then IntLimit <$> int_of_string s
      else Raise ValueError
  | _ => Raise ValueError
  end.

Definition parse_min_size (v : value) : outcome py_exn Z :=
  match v with
  | VBool _ | VInt _ | VFloat _ => Z.max 0 <$> to_int v
  | VStr s => if isdigit s then Z.max 0 <$> int_of_string s else Ret 0
  | _ => Ret 0
  end.

Definition validate_max_streams (v : Z) : Z := Z.max 1 (Z.min v 100).

Definition all_in {A} `{EqDecision A} (allowed v : list A) : outcome py_exn (list A) :=
  if forallb (fun x => memb x allowed) v then Ret v else Raise ValueError.

Definition validate_selected_resolutions (v : list (option string)) := all_in RESOLUTIONS v.
Definition validate_quality_filter (v : list string) := all_in (map fst QUALITY_GROUPS) v.
Definition validate_hdr_filter (v : list string) := all_in HDR_FORMATS_FILTERS v.
Definition validate_language_sorting (v : list (option string)) := all_in LANGUAGES_FILTERS v.

Definition MAX_STREAM_NAME_FILTER_PATTERNS : nat := 10.
Definition MAX_STREAM_NAME_FILTER_PATTERN_LENGTH : Z := 120.

(** One raw pattern: kept, stripped, when it is a string of acceptable length. *)
Definition clean_pattern (v : value) : option string :=
  match v with
  | VStr s =>
      let p := strip s in
      if str_empty p || (MAX_STREAM_NAME_FILTER_PATTERN_LENGTH <? slen p) then None else Some p
  | _ => None
  end.

Definition validate_stream_name_filter_patterns (v : value) : list string :=
  match v with
  | VList l => uniq (omap clean_pattern (take MAX_STREAM_NAME_FILTER_PATTERNS l))
  | _ => []
  end.

Definition DISALLOWED_STREAM_FILTER_REGEX_TOKENS : list string := ["(?="; "(?!"; "(?<="; "(?<!"].

(** [DISALLOWED_STREAM_FILTER_REGEX_PATTERN.search]: a backslash and a digit
    from 1 to 9. *)
Fixpoint has_backreference (s : string) : bool :=
  match s with
  | "" => false
  | String c s' =>
      (Ascii.eqb c "\" && match s' with String d _ => in_range 49 57 d | "" => false end)
      || has_backreference s'
  end.

Definition regex_pattern_safe (p : string) : bool :=
  negb (existsb (fun t => contains t p) DISALLOWED_STREAM_FILTER_REGEX_TOKENS) && negb (has_backreference p).

Section Validation.
(** [re.compile(pattern, re.IGNORECASE)] succeeds. *)
Context (compiles : string -> bool).

Definition validate_stream_name_filter_regex_safety (u : UserData) : UserData :=
  if stream_name_filter_use_regex u then
    mkUserData (streaming_providers u) (streaming_provider u) (catalog_configs u) (selected_catalogs u)
      (selected_resolutions u) (max_size u) (min_size u) (max_streams_per_resolution u)
      (torrent_sorting_priority u) (language_sorting u) (quality_filter u) (hdr_filter u) (max_streams u)
      (provider_grouping u) (stream_name_filter_mode u)
      (List.filter (fun p => regex_pattern_safe p && compiles p) (stream_name_filter_patterns u))
      (stream_name_filter_use_regex u) (newznab_indexers u)
  else u.
End Validation.

Definition is_sorting_option_present (key : string) (u : UserData) : bool :=
  existsb (fun s => String.eqb (sort_key s) key) (torrent_sorting_priority u).

Definition get_sorting_direction (key : string) (u : UserData) : sort_direction :=
  match List.find (fun s => String.eqb (sort_key s) key) (torrent_sorting_priority u) with
  | Some s => direction s
  | None => Desc
  end.

(** ** Migrations run after construction *)

Definition migrate_to_multi_provider (u : UserData) : UserData :=
  match streaming_provider u, streaming_providers u with
  | Some p, [] =>
      mkUserData [p] (streaming_provider u) (catalog_configs u) (selected_catalogs u)
        (selected_resolutions u) (max_size u) (min_size u) (max_streams_per_resolution u)
        (torrent_sorting_priority u) (language_sorting u) (quality_filter u) (hdr_filter u) (max_streams u)
        (provider_grouping u) (stream_name_filter_mode u) (stream_name_filter_patterns u)
        (stream_name_filter_use_regex u) (newznab_indexers u)
  | _, _ => u
  end.

Definition migrate_to_catalog_configs (u : UserData) : UserData :=
  match selected_catalogs u, catalog_configs u with
  | _ :: _, [] =>
      mkUserData (streaming_providers u) (streaming_provider u)
        (map (fun c => mkCatalogConfig c true) (selected_catalogs u)) []
        (selected_resolutions u) (max_size u) (min_size u) (max_streams_per_resolution u)
        (torrent_sorting_priority u) (language_sorting u) (quality_filter u) (hdr_filter u) (max_streams u)
        (provider_grouping u) (stream_name_filter_mode u) (stream_name_filter_patterns u)
        (stream_name_filter_use_regex u) (newznab_indexers u)
  | _, _ => u
  end.

Definition model_post_init (u : UserData) : UserData :=
  migrate_to_catalog_configs (migrate_to_multi_provider u).

Definition get_catalog_config (id : string) (u : UserData) : option CatalogConfig :=
  List.find (fun c => String.eqb (catalog_id c) id) (catalog_configs u).
Definition get_enabled_catalog_ids (u : UserData) : list string :=
  map catalog_id (List.filter catalog_enabled (catalog_configs u)).
Definition is_catalog_enabled (id : string) (u : UserData) : bool :=
  match get_catalog_config id u with Some c => catalog_enabled c | None => false end.

(** ** Provider lookup *)

(** [default_nzbdav_url] and [default_nzbdav_api_key] of the settings.  An
    operator who sets them has not put [nzbdav] in [disabled_providers], so the
    injected provider passes its own validation. *)
Record NzbdavDefaults := mkNzbdav { default_nzbdav_url : option string; default_nzbdav_api_key : option string }.

Definition str_truthy (o : option string) : bool :=
  match o with Some s => negb (str_empty s) | None => false end.

Definition operator_nzbdav : StreamingProvider :=
  mkProvider "operator-nzbdav" "nzbdav" None None None None None ["nzbdav_config"] false 100 true true.

Definition configured_providers (u : UserData) : list StreamingProvider :=
  match streaming_providers u with
  | [] => match streaming_provider u with Some p => [p] | None => [] end
  | ps => List.filter enabled ps
  end.

Definition get_active_providers (s : NzbdavDefaults) (u : UserData) : list StreamingProvider :=
  let providers := configured_providers u in
  let providers :=
    if str_truthy (default_nzbdav_url s) && str_truthy (default_nzbdav_api_key s)
       && negb (existsb (fun p => String.eqb (service p) "nzbdav") providers)
    then (providers ++ [operator_nzbdav])%list else providers in
  sort_by (by_key priority) providers.

Definition get_primary_provider (s : NzbdavDefaults) (u : UserData) : option StreamingProvider :=
  match get_active_providers s u with [] => None | p :: _ => Some p end.

Definition service_shorthands : list (string * string) :=
  [("rd", "realdebrid"); ("ad", "alldebrid"); ("pm", "premiumize"); ("dl", "debridlink"); ("tb", "torbox");
   ("pk", "pikpak"); ("oc", "offcloud"); ("st", "stremthru"); ("ed", "easydebrid"); ("qb", "qbittorrent")].

Definition by_name (n : string) (p : StreamingProvider) : bool := String.eqb (name p) n.
Definition by_service (sv : option string) (p : StreamingProvider) : bool :=
  match sv with Some sv => String.eqb (service p) sv | None => false end.

(** First of two optional results. *)
Definition or_else {A} (a b : option A) : option A := match a with Some _ => a | None => b end.

Definition get_provider_by_name (s : NzbdavDefaults) (n : string) (u : UserData) : option StreamingProvider :=
  let target := dict_get n service_shorthands in
  or_else (List.find (fun p => by_name n p && enabled p) (streaming_providers u))
  (or_else (List.find (fun p => by_service target p && enabled p) (streaming_providers u))
  (or_else (if String.eqb n "default" then streaming_provider u else None)
  (or_else (match streaming_provider u with
            | Some p => if by_service target p then Some p else None
            | None => None
            end)
  (or_else (List.find (by_name n) (get_active_providers s u))
           (List.find (by_service target) (get_active_providers s u)))))).

Definition has_any_provider (u : UserData) : bool :=
  match streaming_providers u, streaming_provider u with [], None => false | _, _ => true end.

(** ** Properties *)

Lemma clean_pattern_ok v q :
  clean_pattern v = Some q ->
  strip q = q /\ q <> "" /\ slen q <= MAX_STREAM_NAME_FILTER_PATTERN_LENGTH.
Proof.
  destruct v as [| | | |s| |]; try done. simpl. destruct (str_empty (strip s)) eqn:E; simpl; [done|].
  destruct (_ <? _) eqn:EL; [done|]. intros [= <-]. zbool.
  split_and!; [apply strip_strip|intros H; by rewrite H in E|lia].
Qed.

Lemma clean_pattern_fixed q :
  strip q = q -> q <> "" -> slen q <= MAX_STREAM_NAME_FILTER_PATTERN_LENGTH -> clean_pattern (VStr q) = Some q.
Proof.
  intros H1 H2 H3. simpl. rewrite H1. destruct (str_empty q) eqn:E; [by destruct q|]. simpl.
  destruct (_ <? _) eqn:EL; [zbool; lia|done].
Qed.

Lemma omap_length {A B} (f : A -> option B) l : (length (omap f l) <= length l)%nat.
Proof. induction l as [|x l IH]; csimpl; [done|]. destruct (f x); simpl; lia. Qed.

Lemma omap_fixed {A B} (f : A -> option B) (g : B -> A) l :
  Forall (fun x => f (g x) = Some x) l -> omap f (map g l) = l.
Proof. induction 1 as [|x l Hx _ IH]; csimpl; [done|]. by rewrite Hx, IH. Qed.

Lemma patterns_normal v :
  let ps := validate_stream_name_filter_patterns v in
  NoDup ps /\ (length ps <= MAX_STREAM_NAME_FILTER_PATTERNS)%nat /\
  Forall (fun p => strip p = p /\ p <> "" /\ slen p <= MAX_STREAM_NAME_FILTER_PATTERN_LENGTH) ps.
Proof.
  intros ps. unfold ps, validate_stream_name_filter_patterns.
  destruct v as [| | | | |l|]; try (split_and!; [constructor|simpl; lia|constructor]).
  split_and!; [apply uniq_NoDup| |].
  - etrans; [apply sublist_length, uniq_sublist|]. etrans; [apply omap_length|].
    rewrite length_take. lia.
  - apply Forall_forall. intros p Hp. rewrite uniq_elem in Hp. apply list_elem_of_omap in Hp as (x & _ & Hx).
    by eapply clean_pattern_ok.
Qed.

(** Stream-name filter patterns are normalised: whatever value a client
    sends, at most ten patterns remain, pairwise distinct, stripped, not empty
    and no longer than 120 characters, and validating the result again changes
    nothing. *)
Theorem filter_patterns_normalised (v : value) :
  let ps := validate_stream_name_filter_patterns v in
  NoDup ps /\ (length ps <= MAX_STREAM_NAME_FILTER_PATTERNS)%nat /\
  Forall (fun p => strip p = p /\ p <> "" /\ slen p <= MAX_STREAM_NAME_FILTER_PATTERN_LENGTH) ps /\
  validate_stream_name_filter_patterns (VList (map VStr ps)) = ps.
Proof.
  destruct (patterns_normal v) as (H1 & H2 & H3). split_and!; [done|done|done|].
  cbn [validate_stream_name_filter_patterns]. rewrite take_ge by (by rewrite length_map).
  rewrite omap_fixed; [by apply uniq_id|].
  eapply Forall_impl; [exact H3|]. intros p (? & ? & ?). by apply clean_pattern_fixed.
Qed.

(** ** Active providers *)

Lemma active_perm s u :
  exists extra, get_active_providers s u ≡ₚ (configured_providers u ++ extra)%list /\
    (extra = [] \/ extra = [operator_nzbdav]).
Proof.
  unfold get_active_providers.
  destruct (_ && _).
  - exists [operator_nzbdav]. split; [by rewrite sort_by_perm|by right].
  - exists []. split; [by rewrite sort_by_perm, app_nil_r|by left].
Qed.

(** The active providers are the enabled ones (and possibly the operator's
    default), ordered by priority; providers of equal priority keep the user's
    order, and the primary provider has the least priority value. *)
Theorem active_providers_ordered (s : NzbdavDefaults) (u : UserData) :
  StronglySorted (fun p q => priority p <= priority q) (get_active_providers s u) /\
  (forall p, p ∈ configured_providers u -> p ∈ get_active_providers s u) /\
  (forall pr, priority operator_nzbdav <> pr ->
     List.filter (fun p => priority p =? pr) (get_active_providers s u) =
     List.filter (fun p => priority p =? pr) (configured_providers u)) /\
  (forall p q, get_primary_provider s u = Some p -> q ∈ get_active_providers s u -> priority p <= priority q).
Proof.
  split_and!.
  - eapply StronglySorted_impl; [|apply (sort_by_sorted (by_key priority)); eauto].
    unfold by_key. simpl. lia.
  - intros p Hp. destruct (active_perm s u) as (extra & -> & _). set_solver.
  - intros pr Hpr. unfold get_active_providers.
    assert (forall l, List.filter (fun p => priority p =? pr) (sort_by (by_key priority) l) =
                      List.filter (fun p => priority p =? pr) l) as Hs.
    { intros l. pose (x := mkProvider "" "" None None None None None [] false pr true true).
      rewrite !(List.filter_ext (fun p => priority p =? pr) (same_rank (by_key priority) x));
        [apply sort_by_stable; eauto| |]; intros p; unfold same_rank, by_key; simpl; lia. }
    rewrite Hs. destruct (_ && _); [|done]. rewrite List.filter_app. cbn [List.filter].
    destruct (priority operator_nzbdav =? pr) eqn:E; [zbool; lia|]. by rewrite app_nil_r.
  - unfold get_primary_provider. intros p q Hp Hq.
    destruct (get_active_providers s u) as [|p' l] eqn:E; [done|]. injection Hp as ->.
    assert (by_key priority p q = true) as Hk; [|unfold by_key in Hk; lia].
    unfold get_active_providers in E. rewrite <- E in Hq. rewrite sort_by_elem in Hq.
    eapply sort_by_head; [eauto|eauto|exact E|done].
Qed.

Definition sample_provider (n sv : string) (pr : Z) : StreamingProvider :=
  mkProvider n sv None None (Some "t") None None [] false pr true true.

Lemma active_providers_ordered_witness :
  let u := mkUserData [sample_provider "a" "torbox" 5; sample_provider "b" "realdebrid" 1; sample_provider "c" "seedr" 5]
             None [] [] RESOLUTIONS (IntLimit 0) 0 10 [] [] [] [] 25 Separate FilterDisabled [] false [] in
  let s := mkNzbdav None None in
  map name (get_active_providers s u) = ["b"; "a"; "c"] /\
  List.filter (fun p => priority p =? 5) (get_active_providers s u) =
    [sample_provider "a" "torbox" 5; sample_provider "c" "seedr" 5].
Proof.
  intros u s. split; [vm_compute; reflexivity|].
  rewrite (proj1 (proj2 (proj2 (active_providers_ordered s u))) 5 ltac:(discriminate)).
  vm_compute. reflexivity.
Defined.

(** ** Migrations *)

(** Loading a legacy configuration keeps what it meant: the migrations are
    idempotent, every catalog the user had selected is enabled and nothing
    else is (when no per-catalog configuration existed), and an enabled legacy
    provider yields the same active providers as before. *)
Theorem migrations_preserve (s : NzbdavDefaults) (u : UserData) :
  model_post_init (model_post_init u) = model_post_init u /\
  (catalog_configs u = [] ->
     get_enabled_catalog_ids (model_post_init u) = selected_catalogs u /\
     forall c, is_catalog_enabled c (model_post_init u) = memb c (selected_catalogs u)) /\
  (forall p, streaming_provider u = Some p -> enabled p = true ->
     get_active_providers s (model_post_init u) = get_active_providers s u).
Proof.
  destruct u as [ps op ccs scs r mx mn mr tp ls qf hf ms g fm pats rx nz].
  split_and!.
  - by destruct op, ps, scs, ccs.
  - simpl. intros ->. 
    assert (catalog_configs (model_post_init (mkUserData ps op [] scs r mx mn mr tp ls qf hf ms g fm pats rx nz)) =
            map (fun c => mkCatalogConfig c true) scs) as E by (by destruct op, ps, scs).
    unfold get_enabled_catalog_ids, is_catalog_enabled, get_catalog_config. rewrite E. clear E.
    split; [|intros c]; induction scs as [|x scs IH]; simpl; try done; [by rewrite IH|].
    destruct (String.eqb x c) eqn:Ec; simpl.
    + apply String.eqb_eq in Ec as ->. symmetry. apply memb_true. set_solver.
    + apply String.eqb_neq in Ec. rewrite IH. apply bool_decide_ext. set_solver.
  - intros p [= ->] Hp. unfold get_active_providers, configured_providers.
    destruct ps as [|q ps], scs, ccs; simpl; try rewrite Hp; done.
Qed.

Lemma migrations_preserve_witness :
  let u := mkUserData [] (Some (sample_provider "a" "torbox" 5)) [] ["tmdb"; "trakt"]
             RESOLUTIONS (IntLimit 0) 0 10 [] [] [] [] 25 Separate FilterDisabled [] false [] in
  get_enabled_catalog_ids (model_post_init u) = ["tmdb"; "trakt"] /\
  get_active_providers (mkNzbdav None None) (model_post_init u) = get_active_providers (mkNzbdav None None) u.
Proof.
  intros u. destruct (migrations_preserve (mkNzbdav None None) u) as (_ & H1 & H2).
  split; [apply (proj1 (H1 eq_refl))|apply (H2 _ eq_refl eq_refl)].
Defined.
