(* ===== verification/Media.v ===== *)
(** * Streams and their files (db/schemas/media.py)

    The fields of [TorrentStreamData], [UsenetStreamData] and the other stream
    schemas that filtering, sorting and file selection read.  An attribute a
    class may lack is an [option]; times are microseconds since the epoch.
    [filtered_*] and [cached] are the working attributes
    [filter_streams_by_user_preferences] adds to its copies. *)

From S2P Require Export PyVal PyList.
Local Open Scope string_scope.
Local Open Scope Z_scope.

Record StreamFileData := mkFile {
  file_index : Z;
  filename : string;
  file_size : Z;
  file_type : string;
  season_number : option Z;
  episode_number : option Z;
}.

Record StreamData := mkStream {
  stream_name : string;
  stream_size : option Z;
  torrent_type : option string;
  info_hash : option string;
  resolution : option string;
  quality : option string;
  hdr_formats : list string;
  languages : list string;
  seeders : option Z;
  created_at : option Z;
  files : option (list StreamFileData);  (* None: the class has no get_file_for_episode *)
  source : option string;
  indexer : option string;
  nzb_url : option string;
  filtered_resolution : option string;
  filtered_quality : option string;
  filtered_hdr_formats : list string;
  filtered_languages : list (option string);
  cached : bool;
}.

(** [model_copy] followed by the assignments of the working attributes. *)
Definition with_filtered (s : StreamData) (r q : option string) (h : list string)
    (l : list (option string)) (c : bool) : StreamData :=
  mkStream (stream_name s) (stream_size s) (torrent_type s) (info_hash s) (resolution s) (quality s)
    (hdr_formats s) (languages s) (seeders s) (created_at s) (files s) (source s) (indexer s) (nzb_url s)
    r q h l c.

(** [stream.cached = c] *)
Definition set_cached (c : bool) (s : StreamData) : StreamData :=
  with_filtered s (filtered_resolution s) (filtered_quality s) (filtered_hdr_formats s) (filtered_languages s) c.

Definition size_or_0 (s : StreamData) : Z := default 0 (stream_size s).

(** [get_episode_files] and [get_file_for_episode] *)
Definition get_episode_files (season episode : Z) (fs : list StreamFileData) : list StreamFileData :=
  List.filter (fun f => bool_decide (season_number f = Some season) && bool_decide (episode_number f = Some episode)) fs.

Definition get_file_for_episode (season episode : Z) (fs : list StreamFileData) : option StreamFileData :=
  match sort_by (by_key_desc file_size) (get_episode_files season episode fs) with
  | [] => None
  | f :: _ => Some f
  end.

(** [get_video_files] and [get_main_file] *)
Definition get_video_files (fs : list StreamFileData) : list StreamFileData :=
  sort_by (by_key_desc file_size) (List.filter (fun f => String.eqb (file_type f) "video") fs).
Definition get_main_file (fs : list StreamFileData) : option StreamFileData :=
  match get_video_files fs with [] => None | f :: _ => Some f end.

(** The first file of a descending sort is the largest, and the earliest of the
    largest. *)
Lemma largest_first fs f l :
  sort_by (by_key_desc file_size) fs = f :: l ->
  f ∈ fs /\ (forall g, g ∈ fs -> file_size g <= file_size f).
Proof.
  intros E. split; [apply (sort_by_elem (by_key_desc file_size)); rewrite E; set_solver|].
  intros g Hg. assert (by_key_desc file_size f g = true) as H by (eapply sort_by_head; eauto).
  unfold by_key_desc in H. lia.
Qed.

(** The file chosen for an episode is the largest of the files linked to
    that season and episode, the first such in the stream's order, and one is
    chosen exactly when some file is linked. *)
Theorem file_for_episode_largest (season episode : Z) (fs : list StreamFileData) :
  match get_file_for_episode season episode fs with
  | None => forall g, g ∈ fs -> season_number g = Some season -> episode_number g <> Some episode
  | Some f =>
      f ∈ fs /\ season_number f = Some season /\ episode_number f = Some episode /\
      (forall g, g ∈ fs -> season_number g = Some season -> episode_number g = Some episode ->
         file_size g <= file_size f) /\
      exists rest, List.filter (fun g => file_size g =? file_size f) (get_episode_files season episode fs) = f :: rest
  end.
Proof.
  unfold get_file_for_episode.
  assert (forall g, g ∈ get_episode_files season episode fs <->
            g ∈ fs /\ season_number g = Some season /\ episode_number g = Some episode) as He.
  { intros g. unfold get_episode_files. rewrite filter_elem, andb_true_iff, !bool_decide_eq_true. done. }
  destruct (sort_by _ _) as [|f l] eqn:E.
  - apply sort_by_nil in E. intros g Hg Hs Hep. assert (g ∈ get_episode_files season episode fs) as H by (by apply He).
    rewrite E in H. set_solver.
  - destruct (largest_first _ _ _ E) as [Hf Hmax]. apply He in Hf as (? & ? & ?). split_and!; try done.
    + intros g ? ? ?. apply Hmax, He. done.
    + exists (List.filter (fun g => file_size g =? file_size f) l).
      rewrite !(List.filter_ext (fun g => file_size g =? file_size f) (same_rank (by_key_desc file_size) f));
        [|intros g; unfold same_rank, by_key_desc; lia..].
      rewrite <- (sort_by_stable (by_key_desc file_size)) by eauto. rewrite E. cbn [List.filter].
      assert (same_rank (by_key_desc file_size) f f = true) as -> by (unfold same_rank, by_key_desc; lia). done.
Qed.
