(* ===== verification/UsenetCompat.v ===== *)
(** * Which Usenet streams a provider may play
    (workers/providers/usenet_compatibility.py)

    The validity test of a bracketed host is a parameter, as in Urls.  Sets of two candidates are lists: they are only searched. *)

From S2P Require Export Urls Media UserConfig.
Local Open Scope string_scope.
Local Open Scope Z_scope.

Section Compat.
Context (bracketed_ok : string -> bool).

(** ** The compatibility rules *)

Definition PROVIDER_BOUND_SOURCE_MARKERS : list (string * list string) :=
  [("easynews", ["easynews"]); ("torbox", ["torbox"])].

Definition STRICT_INDEXER_BOUND_USENET_PROVIDERS : list string :=
  ["sabnzbd"; "nzbget"; "nzbdav"; "stremio_nntp"].

Definition normalize_text (v : option string) : string := lower (strip (default "" v)).

Definition extract_hostname (u : option string) : outcome py_exn (option string) :=
  match u with
  | None | Some "" => Ret None
  | Some u =>
      h ← url_hostname bracketed_ok (strip u);
      Ret match h with
          | None | Some "" => None
          | Some h => Some (lower h)
          end
  end.

Definition stream_source_candidates (s : StreamData) : list string :=
  [normalize_text (source s); normalize_text (indexer s)].

Definition matches_source_markers (candidates markers : list string) : bool :=
  existsb (fun c => negb (str_empty c) && existsb (fun m => contains m c) markers) candidates.

Definition matches_host_markers (hostname : option string) (markers : list string) : bool :=
  match hostname with
  | Some h => negb (str_empty h) && existsb (fun m => contains m h) markers
  | None => false
  end.

(** The public indexers: key and normalised source name, and the hosts of
    their sites. *)
Definition public_indexers : list (string * string) :=
  [("binsearch", "Binsearch"); ("nzbindex", "NZBIndex")].
Definition public_usenet_nzb_hosts : list string :=
  ["www.binsearch.info"; "binsearch.info"; "www.nzbindex.com"; "nzbindex.com"].

Definition stream_matches_public_usenet_indexer (scrap_public : bool) (candidates : list string)
    (host : option string) : bool :=
  scrap_public &&
  (existsb (fun d => memb d.1 candidates ||
       (negb (str_empty (normalize_text (Some d.2))) && memb (normalize_text (Some d.2)) candidates))
     public_indexers
   || match host with
      | Some h => negb (str_empty h) && memb (lower h) public_usenet_nzb_hosts
      | None => false
      end).

(** Names and hosts of the enabled indexers; a malformed URL raises. *)
Fixpoint enabled_newznab_signatures (l : list NewznabIndexer) :
    outcome py_exn (list string * list string) :=
  match l with
  | [] => Ret ([], [])
  | i :: l =>
      if indexer_enabled i then
        h ← extract_hostname (indexer_url i);
        rest ← enabled_newznab_signatures l;
        let n := normalize_text (indexer_name i) in
        Ret ((if str_empty n then rest.1 else n :: rest.1),
             match h with Some h => h :: rest.2 | None => rest.2 end)
      else enabled_newznab_signatures l
  end.

Definition host_in (host : option string) (hosts : list string) : bool :=
  match host with Some h => negb (str_empty h) && memb h hosts | None => false end.

Inductive mismatch := SourceMismatch | NoIndexerConfigured | IndexerMismatch.

(** [is_usenet_stream_compatible]: [None] when compatible, or the kind of the
    message it returns. *)
Definition is_usenet_stream_compatible (scrap_public : bool) (s : StreamData) (svc : string)
    (indexers : list NewznabIndexer) : outcome py_exn (option mismatch) :=
  if negb (str_truthy (nzb_url s)) then Ret None
  else
    let candidates := stream_source_candidates s in
    host ← extract_hostname (nzb_url s);
    if match dict_get svc PROVIDER_BOUND_SOURCE_MARKERS with
       | Some markers => negb (matches_source_markers candidates markers || matches_host_markers host markers)
       | None => false
       end
    then Ret (Some SourceMismatch)
    else if negb (memb svc STRICT_INDEXER_BOUND_USENET_PROVIDERS) then Ret None
    else
      sig ← enabled_newznab_signatures indexers;
      let '(names, hosts) := sig in
      if existsb (fun c => negb (str_empty c) && memb c names) candidates then Ret None
      else if host_in host hosts then Ret None
      else if stream_matches_public_usenet_indexer scrap_public candidates host then Ret None
      else match names, hosts with
           | [], [] => Ret (Some NoIndexerConfigured)
           | _, _ => Ret (Some IndexerMismatch)
           end.

(** ** Properties *)

#[local] Arguments dict_get : simpl never.
#[local] Arguments memb : simpl never.
#[local] Arguments existsb : simpl never.
#[local] Arguments matches_source_markers : simpl never.
#[local] Arguments stream_matches_public_usenet_indexer : simpl never.

(** The names and hosts the enabled indexers contribute. *)
Definition contributes_name (n : string) (i : NewznabIndexer) : Prop :=
  indexer_enabled i = true /\ normalize_text (indexer_name i) = n /\ n <> "".
Definition contributes_host (h : string) (i : NewznabIndexer) : Prop :=
  indexer_enabled i = true /\ extract_hostname (indexer_url i) = Ret (Some h).

Lemma signatures_lists l names hosts :
  enabled_newznab_signatures l = Ret (names, hosts) ->
  names = List.filter (fun n => negb (str_empty n))
            (map (fun i => normalize_text (indexer_name i)) (List.filter indexer_enabled l)) /\
  hosts = omap (fun i => match extract_hostname (indexer_url i) with Ret h => h | Raise _ => None end)
            (List.filter indexer_enabled l).
Proof.
  revert names hosts. induction l as [|i l IH]; intros names hosts; simpl; [by intros [= <- <-]|].
  destruct (indexer_enabled i); [|apply IH].
  destruct (extract_hostname (indexer_url i)) as [oh|] eqn:Eh; [|done]. simpl.
  destruct (enabled_newznab_signatures l) as [[ns hs]|]; [|done]. intros [= <- <-].
  destruct (IH ns hs eq_refl) as [-> ->]. csimpl. rewrite Eh.
  split; [by destruct (str_empty _)|by destruct oh].
Qed.

Lemma signatures_spec l names hosts :
  enabled_newznab_signatures l = Ret (names, hosts) ->
  (forall n, n ∈ names <-> exists i, i ∈ l /\ contributes_name n i) /\
  (forall h, h ∈ hosts <-> exists i, i ∈ l /\ contributes_host h i).
Proof.
  intros H. destruct (signatures_lists _ _ _ H) as [-> ->]. split; intros x.
  - rewrite filter_elem, list_elem_of_fmap. setoid_rewrite filter_elem. unfold contributes_name. split.
    + intros [(i & -> & ? & ?) Hx]. exists i. split_and!; try done. by destruct (normalize_text _).
    + intros (i & ? & ? & <- & ?). split; [by exists i|]. by destruct (normalize_text _).
  - rewrite list_elem_of_omap. setoid_rewrite filter_elem. unfold contributes_host. split.
    + intros (i & [? ?] & Hx). exists i. split_and!; try done. by destruct (extract_hostname _); subst.
    + intros (i & ? & ? & Hx). exists i. by rewrite Hx.
Qed.

(** A stream is served by a source when its source or indexer name contains
    the marker, or its host does. *)
Definition from_family (s : StreamData) (markers : list string) : Prop :=
  exists m, m ∈ markers /\
    ((exists c, c ∈ stream_source_candidates s /\ contains m c = true) \/
     (exists h, extract_hostname (nzb_url s) = Ret (Some h) /\ contains m h = true)).

Definition from_enabled_indexer (s : StreamData) (indexers : list NewznabIndexer) : Prop :=
  (exists i, i ∈ indexers /\ exists n, n ∈ stream_source_candidates s /\ contributes_name n i) \/
  (exists i, i ∈ indexers /\ exists h, extract_hostname (nzb_url s) = Ret (Some h) /\ h <> "" /\ contributes_host h i).

Lemma existsb_elem {A} (p : A -> bool) l : existsb p l = true <-> exists x, x ∈ l /\ p x = true.
Proof. rewrite existsb_exists. by setoid_rewrite list_elem_of_In. Qed.

Lemma source_markers_sound s markers host :
  extract_hostname (nzb_url s) = Ret host ->
  matches_source_markers (stream_source_candidates s) markers || matches_host_markers host markers = true ->
  from_family s markers.
Proof.
  intros Hh [H|H]%orb_true_iff.
  - apply existsb_elem in H as (c & Hc & [_ H]%andb_true_iff).
    apply existsb_elem in H as (m & Hm & H). exists m. eauto.
  - destruct host as [h|]; [|done]. apply andb_true_iff in H as [_ H].
    apply existsb_elem in H as (m & Hm & H). exists m. eauto.
Qed.

Lemma host_in_elem host hosts : host_in host hosts = true -> exists h, host = Some h /\ h <> "" /\ h ∈ hosts.
Proof.
  destruct host as [h|]; simpl; [|done]. intros [H1 H2%memb_true]%andb_true_iff.
  exists h. split_and!; [done|by intros ->|done].
Qed.

(** [C4] Usenet source isolation: a stream with an NZB address that is offered
    to a provider bound to a source family comes from that family, and one
    offered to a downloader-style provider comes from an enabled indexer of
    the user (by normalised name or host) or, only when the operator scrapes
    public indexers, from one of those.  Disabled indexers allow nothing. *)
Theorem usenet_isolation (scrap_public : bool) (s : StreamData) (svc : string) (indexers : list NewznabIndexer) :
  is_usenet_stream_compatible scrap_public s svc indexers = Ret None ->
  str_truthy (nzb_url s) = true ->
  (forall markers, dict_get svc PROVIDER_BOUND_SOURCE_MARKERS = Some markers -> from_family s markers) /\
  (svc ∈ STRICT_INDEXER_BOUND_USENET_PROVIDERS ->
     from_enabled_indexer s indexers \/
     (scrap_public = true /\ exists host, extract_hostname (nzb_url s) = Ret host /\
        stream_matches_public_usenet_indexer true (stream_source_candidates s) host = true)).
Proof.
  unfold is_usenet_stream_compatible. intros H Hn. rewrite Hn in H. simpl in H.
  destruct (extract_hostname (nzb_url s)) as [host|] eqn:Eh; [|done]. simpl in H.
  split.
  - intros markers Hm. rewrite Hm in H. destruct (_ || _) eqn:E in H; [|done].
    by eapply source_markers_sound.
  - intros Hs. destruct (match dict_get _ _ with Some _ => _ | None => _ end); [done|].
    apply memb_true in Hs. rewrite Hs in H. simpl in H.
    destruct (enabled_newznab_signatures indexers) as [[names hosts]|] eqn:Es; [|done]. simpl in H.
    destruct (signatures_spec _ _ _ Es) as [Hnames Hhosts].
    destruct (existsb _ (stream_source_candidates s)) eqn:Ec.
    + left. left. assert (exists c, c ∈ stream_source_candidates s /\ c ∈ names) as (c & ? & Hc).
      { apply (existsb_elem (fun c => negb (str_empty c) && memb c names)) in Ec as (c & ? & [_ ?%memb_true]%andb_true_iff). eauto. }
      apply Hnames in Hc as (i & ? & ?). eauto.
    + destruct (host_in host hosts) eqn:Ei.
      * left. right. apply host_in_elem in Ei as (h & -> & ? & Hh). apply Hhosts in Hh as (i & ? & ?). eauto 8.
      * destruct (stream_matches_public_usenet_indexer _ _ _) eqn:Ep; [|by destruct names, hosts].
        right. assert (scrap_public = true) as -> by (by destruct scrap_public). eauto.
Qed.

(** Adding indexers never takes a stream away: what is compatible with some
    indexers stays compatible when more are configured (with well-formed
    addresses), whatever their order. *)
Theorem more_indexers_more_streams (scrap_public : bool) (s : StreamData) (svc : string)
    (indexers more : list NewznabIndexer) :
  indexers ⊆ more -> is_ret (enabled_newznab_signatures more) = true ->
  is_usenet_stream_compatible scrap_public s svc indexers = Ret None ->
  is_usenet_stream_compatible scrap_public s svc more = Ret None.
Proof.
  intros Hsub Hret. unfold is_usenet_stream_compatible. destruct (negb _); [done|].
  destruct (extract_hostname (nzb_url s)) as [host|]; [|done]. simpl.
  destruct (match dict_get _ _ with Some _ => _ | None => _ end); [done|].
  destruct (negb _); [done|].
  destruct (enabled_newznab_signatures more) as [[names' hosts']|] eqn:Em; [|done].
  destruct (enabled_newznab_signatures indexers) as [[names hosts]|] eqn:Es; [|done]. simpl.
  destruct (signatures_spec _ _ _ Es) as [Hn Hh], (signatures_spec _ _ _ Em) as [Hn' Hh'].
  assert (forall c, memb c names = true -> memb c names' = true) as Hnn.
  { intros c. rewrite !memb_true, Hn, Hn'. intros (i & ? & ?). exists i. split; [by apply Hsub|done]. }
  destruct (existsb _ (stream_source_candidates s)) eqn:Ec.
  { intros _. apply existsb_elem in Ec as (c & Hc & [Hc1 Hc2]%andb_true_iff).
    assert (existsb (fun c => negb (str_empty c) && memb c names') (stream_source_candidates s) = true) as ->; [|done].
    apply existsb_elem. exists c. by rewrite Hc1, Hnn. }
  intros H. destruct (existsb (fun c => negb (str_empty c) && memb c names') (stream_source_candidates s)); [done|].
  destruct (host_in host hosts) eqn:Ei.
  - apply host_in_elem in Ei as (h & -> & Hne & Hin). unfold host_in at 1.
    assert (memb h hosts' = true) as ->.
    { apply memb_true, Hh'. apply Hh in Hin as (i & ? & ?). exists i. split; [by apply Hsub|done]. }
    by destruct h.
  - destruct (host_in host hosts'); [done|]. destruct (stream_matches_public_usenet_indexer _ _ _); [done|].
    by destruct names, hosts.
Qed.
End Compat.

Definition nzb_stream (src u : string) : StreamData :=
  mkStream "n" (Some 1) None None None None [] [] None None (Some []) (Some src) (Some src) (Some u)
    None None [] [] false.

Definition geek : NewznabIndexer := mkIndexer (Some "NZBGeek") (Some "https://api.nzbgeek.info/") true None.

Lemma usenet_isolation_witness :
  from_enabled_indexer (fun _ => true) (nzb_stream "x" "https://api.NZBgeek.info/get/1") [geek] \/
  (false = true /\ exists host,
     extract_hostname (fun _ => true) (Some "https://api.NZBgeek.info/get/1") = Ret host /\
     stream_matches_public_usenet_indexer true (stream_source_candidates (nzb_stream "x" "https://api.NZBgeek.info/get/1")) host = true).
Proof.
  apply (proj2 (usenet_isolation (fun _ => true) false (nzb_stream "x" "https://api.NZBgeek.info/get/1") "nzbget" [geek]
           ltac:(vm_compute; reflexivity) ltac:(vm_compute; reflexivity))).
  apply memb_true. vm_compute. reflexivity.
Defined.

Lemma more_indexers_more_streams_witness :
  is_usenet_stream_compatible (fun _ => true) false (nzb_stream "nzbgeek " "http://other/") "sabnzbd"
    [mkIndexer None None true None; geek] = Ret None.
Proof.
  apply (more_indexers_more_streams (fun _ => true) false (nzb_stream "nzbgeek " "http://other/") "sabnzbd" [geek]).
  - set_solver.
  - vm_compute. reflexivity.
  - vm_compute. reflexivity.
Defined.
