(* ===== verification/Magnet.v ===== *)
(** * Magnet links (utils/torrent.py)

    Making a magnet link from an info hash and trackers, and reading one back.
    torf's [Magnet.from_string] is a parameter: the info hash and the trackers,
    or [None] for its [TorfError]; then the program parses the link itself.  What
    the round trip takes of torf is [torf_reads_links].
    Links are ASCII, as in Urls. *)

From S2P Require Export Urls.
Local Open Scope string_scope.
Local Open Scope Z_scope.

Definition VALID_TRACKER_SCHEMES : list string := ["http://"; "https://"; "udp://"; "wss://"].
Definition MAX_MAGNET_TRACKERS : nat := 30.

Definition is_hex_char (c : ascii) : bool := is_digit c || in_range 97 102 c || in_range 65 70 c.
Definition is_base32_char (c : ascii) : bool := is_upper c || in_range 50 55 c.

(** [_INFO_HASH_HEX_RE.fullmatch] and [_INFO_HASH_BASE32_RE.fullmatch]: in both
    patterns a [$] may leave a newline, but [fullmatch] does not. *)
Definition is_hex_hash (s : string) : bool := (String.length s =? 40)%nat && str_all is_hex_char s.
Definition is_base32_hash (s : string) : bool := (String.length s =? 32)%nat && str_all is_base32_char s.

Definition valid_tracker (t : string) : bool := existsb (fun s => startswith s t) VALID_TRACKER_SCHEMES.
Definition filter_valid_trackers (trackers : list string) : list string := List.filter valid_tracker trackers.

(** [b32decode(s).hex()] of 32 characters of the alphabet. *)
Definition base32_value (c : ascii) : Z := if is_digit c then code c - 24 else code c - 65.
Fixpoint base32_number (acc : Z) (s : string) : Z :=
  match s with "" => acc | String c s => base32_number (32 * acc + base32_value c) s end.
Fixpoint hex_digits (n : nat) (z : Z) (acc : string) : string :=
  match n with O => acc | S n => hex_digits n (z / 16) (String (hex_digit (z mod 16)) acc) end.
Definition b32decode_hex (s : string) : string := hex_digits 40 (base32_number 0 s) "".

(** [quote(s, safe="")] *)
Definition quote_char (c : ascii) : string := if url_safe c then String c "" else percent c.
Definition quote : string -> string := str_flat_map quote_char.

(** [xt.split(":", 2)[-1]] for a text with two colons. *)
Definition after_two_colons (xt : string) : string :=
  let '(_, _, r) := partition ":" xt in let '(_, _, r) := partition ":" r in r.

Section Magnet.
Context (bracketed_ok : string -> bool) (magnet_from_string : string -> option (string * list string)).

(** One [xt] value: the hash it carries. *)
Definition hash_of_xt (xt : string) : option string :=
  if negb (startswith "urn:btih:" (lower xt)) then None
  else
    let candidate := strip (after_two_colons xt) in
    if is_hex_hash candidate then Some (lower candidate)
    else if is_base32_hash (upper candidate) then
      let normalized := b32decode_hex (upper candidate) in
      if is_hex_hash normalized then Some (lower normalized) else None
    else None.

Fixpoint first_hash (xts : list string) : option string :=
  match xts with
  | [] => None
  | xt :: xts => match hash_of_xt xt with Some h => Some h | None => first_hash xts end
  end.

Definition values_of (k : string) (items : list (string * string)) : list string :=
  map snd (List.filter (fun kv => String.eqb k kv.1) items).
Definition stripped (l : list string) : list string := List.filter (fun s => negb (str_empty s)) (map strip l).

(** The parse after torf gave up. *)
Definition parse_by_hand (magnet_link : string) : string * list string :=
  match urlsplit bracketed_ok (strip magnet_link) with
  | Raise _ => ("", [])
  | Ret parsed =>
      if negb (String.eqb (lower (scheme parsed)) "magnet") then ("", [])
      else
        let items := parse_qsl (query parsed) in
        let trackers := filter_valid_trackers (stripped (values_of "tr" items)) in
        match first_hash (stripped (values_of "xt" items)) with Some h => (h, trackers) | None => ("", []) end
  end.

Definition parse_magnet (magnet_link : string) : string * list string :=
  match magnet_from_string magnet_link with
  | Some (infohash, tr) => (lower infohash, filter_valid_trackers tr)
  | None => parse_by_hand magnet_link
  end.

Definition get_info_hash_from_magnet (magnet_link : string) : string := (parse_magnet magnet_link).1.

Definition normalize_info_hash_for_magnet (info_hash : string) : string :=
  let normalized := strip info_hash in
  if str_empty normalized then ""
  else
    let normalized :=
      if startswith "magnet:?" (lower normalized) then
        let parsed_hash := (parse_magnet normalized).1 in
        if str_empty parsed_hash then normalized else parsed_hash
      else normalized in
    if is_hex_hash normalized then lower normalized
    else if is_base32_hash (upper normalized) then upper normalized
    else "".

(** The trackers a link gets. *)
Definition magnet_trackers (trackers : list string) : list string :=
  take MAX_MAGNET_TRACKERS (uniq (filter_valid_trackers (stripped trackers))).

Definition convert_info_hash_to_magnet (info_hash : string) (trackers : list string) : outcome py_exn string :=
  let h := normalize_info_hash_for_magnet info_hash in
  if str_empty h then Raise ValueError
  else Ret ("magnet:?xt=urn:btih:" +:+ h
            +:+ fold_right (fun t r => "&tr=" +:+ quote t +:+ r) "" (magnet_trackers trackers)).
End Magnet.

Example base32_example :
  b32decode_hex "ABCDEFGHIJKLMNOPQRSTUVWXYZ234567" = "00443214c74254b635cf84653a56d7c675be77df".
Proof. vm_compute. reflexivity. Qed.

(** ** Lemmas *)

Lemma quote_char_ok c : str_all (fun c => url_safe c || Ascii.eqb c "%") (quote_char c) = true.
Proof. revert c. ascii_cases. Qed.

Lemma quote_ok s : str_all (fun c => url_safe c || Ascii.eqb c "%") (quote s) = true.
Proof.
  induction s as [|c s IH]; [done|]. unfold quote in *. cbn [str_flat_map]. by rewrite str_all_app, quote_char_ok, IH.
Qed.

Lemma unquote_quote_all s : unquote_plus (quote s) = s.
Proof.
  induction s as [|c s IH]; [done|]. unfold quote in *. cbn [str_flat_map].
  assert (H : forall r, unquote_plus (quote_char c +:+ r) = String c (unquote_plus r))
    by (intros r; destruct c as [[] [] [] [] [] [] [] []]; reflexivity).
  by rewrite H, IH.
Qed.

Lemma strip_no_space s : str_all (fun c => negb (is_space c)) s = true -> strip s = s.
Proof.
  intros H. unfold strip, strip_of. destruct s as [|c s]; [done|]. pose proof H as Hc. cbn in Hc.
  apply andb_true_iff in Hc as [Hc _]. apply negb_true_iff in Hc. cbn [lstrip_of]. rewrite Hc. by apply rstrip_none.
Qed.

Definition is_hash_char (c : ascii) : bool := is_alpha c || is_digit c.

Lemma hex_hash_char c : is_hex_char c = true -> is_hash_char c = true.
Proof. revert c. ascii_cases. Qed.
Lemma base32_hash_char c : is_base32_char c = true -> is_hash_char c = true.
Proof. revert c. ascii_cases. Qed.

Lemma lower_length s : String.length (lower s) = String.length s.
Proof. induction s as [|c s IH]; [done|]. cbn. by f_equal. Qed.

Lemma lower_hex s : is_hex_hash s = true -> is_hex_hash (lower s) = true.
Proof.
  unfold is_hex_hash. rewrite lower_length. intros [-> H]%andb_true_iff. unfold lower. rewrite str_all_map.
  revert H. apply str_all_impl. ascii_cases.
Qed.

Lemma hex_digits_all p n z acc : Forall (fun d => p (hex_digit d) = true) (seqZ 0 16) -> str_all p acc = true ->
  str_all p (hex_digits n z acc) = true /\ String.length (hex_digits n z acc) = (n + String.length acc)%nat.
Proof.
  intros HF. revert z acc. induction n as [|n IH]; intros z acc Ha; [done|]. cbn [hex_digits].
  destruct (IH (z / 16) (String (hex_digit (z mod 16)) acc)) as [H1 H2].
  - cbn [str_all]. rewrite Ha, andb_true_r. rewrite Forall_forall in HF. apply HF, elem_of_seqZ.
    pose proof (Z.mod_pos_bound z 16). lia.
  - split; [done|]. rewrite H2. cbn. lia.
Qed.

Lemma b32decode_hash s : is_hex_hash (b32decode_hex s) = true.
Proof.
  unfold is_hex_hash, b32decode_hex. destruct (hex_digits_all is_hex_char 40 (base32_number 0 s) "") as [-> ->]; [by repeat constructor|done..].
Qed.

(** The hash a link holds, as [parse_magnet] reports it. *)
Definition hash_in_link (h : string) : string := if is_hex_hash h then h else lower (b32decode_hex h).

Lemma lower_upper_base32 s : is_base32_hash s = true -> upper s = s.
Proof.
  unfold is_base32_hash. intros [_ H]%andb_true_iff. revert H. apply str_map_same. ascii_cases.
Qed.

Section Laws.
Context (bracketed_ok : string -> bool) (magnet_from_string : string -> option (string * list string)).
Notation normalize := (normalize_info_hash_for_magnet bracketed_ok magnet_from_string).
Notation convert := (convert_info_hash_to_magnet bracketed_ok magnet_from_string).

Lemma normalize_cases info_hash : let h := normalize info_hash in
  h = "" \/ (is_hex_hash h = true /\ lower h = h) \/ (is_hex_hash h = false /\ is_base32_hash h = true).
Proof.
  unfold normalize_info_hash_for_magnet. cbv zeta. destruct (str_empty (strip info_hash)); [by left|].
  set (n := if startswith _ _ then _ else _). clearbody n. destruct (is_hex_hash n) eqn:E.
  - right. left. split; [by apply lower_hex|apply lower_lower].
  - destruct (is_base32_hash (upper n)) eqn:E2; [|by left]. right. right. split; [|done].
    unfold is_base32_hash in E2. unfold is_hex_hash. apply andb_true_iff in E2 as [E2 _].
    apply Nat.eqb_eq in E2. by rewrite E2.
Qed.

Lemma hash_of_own_xt info_hash : let h := normalize info_hash in h <> "" ->
  str_all is_hash_char h = true /\ hash_of_xt ("urn:btih:" +:+ h) = Some (hash_in_link h).
Proof.
  intros h Hne. destruct (normalize_cases info_hash) as [|[[H1 H2]|[H1 H2]]]; [done| |]; fold h in H1, H2.
  - assert (Ha : str_all is_hash_char h = true).
    { unfold is_hex_hash in H1. apply andb_true_iff in H1 as [_ H1]. revert H1. apply str_all_impl, hex_hash_char. }
    split; [done|]. unfold hash_of_xt. change (startswith "urn:btih:" (lower ("urn:btih:" +:+ h))) with (startswith "" (lower h)).
    replace (startswith "" (lower h)) with true by by destruct (lower h).
    change (after_two_colons ("urn:btih:" +:+ h)) with h. rewrite strip_no_space by (revert Ha; apply str_all_impl; ascii_cases).
    cbn [negb]. unfold hash_in_link. by rewrite H1, H2.
  - assert (Ha : str_all is_hash_char h = true).
    { unfold is_base32_hash in H2. apply andb_true_iff in H2 as [_ H2]. revert H2. apply str_all_impl, base32_hash_char. }
    split; [done|]. unfold hash_of_xt. change (startswith "urn:btih:" (lower ("urn:btih:" +:+ h))) with (startswith "" (lower h)).
    replace (startswith "" (lower h)) with true by by destruct (lower h).
    change (after_two_colons ("urn:btih:" +:+ h)) with h. rewrite strip_no_space by (revert Ha; apply str_all_impl; ascii_cases).
    cbn [negb]. unfold hash_in_link. rewrite lower_upper_base32, H1, H2, b32decode_hash by done. done.
Qed.

(** The query of the link. *)
Definition magnet_items (h : string) (trackers : list string) : list (string * string) :=
  ("xt", "urn:btih:" +:+ h) :: map (fun t => ("tr", quote t)) trackers.

Lemma link_query h ts :
  "xt=urn:btih:" +:+ h +:+ fold_right (fun t r => "&tr=" +:+ quote t +:+ r) "" ts = raw_query (magnet_items h ts).
Proof.
  unfold magnet_items. rewrite raw_query_cons. rewrite !str_app_assoc.
  change ("xt=urn:btih:" +:+ ?r) with ("xt" +:+ "=" +:+ "urn:btih:" +:+ r). do 4 f_equal.
  induction ts as [|t ts IH]; [done|]. cbn [map fold_right]. rewrite raw_query_cons.
  change ("&tr=" +:+ quote t +:+ ?r) with ("&" +:+ "tr" +:+ "=" +:+ quote t +:+ r). do 4 f_equal. rewrite IH.
  by destruct ts.
Qed.

Lemma items_plain h ts : str_all is_hash_char h = true -> Forall plain_item (magnet_items h ts).
Proof.
  intros Hh. constructor.
  - split; [done|]. split; [|done]. cbn [snd]. rewrite str_any_app, (str_all_lacks _ "&" _ Hh) by done. done.
  - apply Forall_forall. intros ? (t & -> & _)%list_elem_of_fmap. split; [done|]. split; [|done].
    apply (str_all_lacks _ _ _ (quote_ok t)). done.
Qed.

Lemma items_decoded h ts : str_all is_hash_char h = true ->
  parse_qsl (raw_query (magnet_items h ts)) = ("xt", "urn:btih:" +:+ h) :: map (fun t => ("tr", t)) ts.
Proof.
  intros Hh. rewrite parse_raw_query by by apply items_plain. unfold magnet_items. cbn [map fst snd]. f_equal.
  - f_equal. apply unquote_plain; rewrite str_any_app, (str_all_lacks _ _ _ Hh) by done; done.
  - rewrite map_map. apply map_ext. intros t. cbn [fst snd]. by rewrite unquote_quote_all.
Qed.

Definition link_char (c : ascii) : bool := url_safe c || str_has c "%=&:".

Lemma raw_query_chars p l : p "&"%char = true -> p "="%char = true ->
  Forall (fun kv => str_all p kv.1 && str_all p kv.2 = true) l -> str_all p (raw_query l) = true.
Proof.
  intros H1 H2. induction 1 as [|[k v] l H HF IH]; [done|]. rewrite raw_query_cons. cbn [fst snd] in H.
  apply andb_true_iff in H as [Hk Hv]. rewrite !str_all_app, Hk, Hv. cbn. rewrite H2. destruct l; [done|].
  rewrite str_all_app, IH. cbn. by rewrite H1.
Qed.

Lemma link_chars h ts : str_all is_hash_char h = true -> str_all link_char (raw_query (magnet_items h ts)) = true.
Proof.
  intros Hh. apply raw_query_chars; [done..|]. constructor.
  - cbn [fst snd]. rewrite str_all_app. replace (str_all link_char h) with true; [done|]. symmetry. revert Hh.
    apply str_all_impl. ascii_cases.
  - apply Forall_forall. intros ? (t & -> & _)%list_elem_of_fmap. cbn [fst snd]. apply andb_true_iff. split; [done|].
    eapply str_all_impl; [|apply quote_ok]. ascii_cases.
Qed.

Lemma values_of_items x ts : let l := ("xt", x) :: map (fun t => ("tr", t)) ts in
  values_of "tr" l = ts /\ values_of "xt" l = [x].
Proof.
  split.
  - induction ts as [|t ts IH]; [done|]. unfold values_of in *. cbn in *. by rewrite IH.
  - induction ts as [|t ts IH]; [done|]. exact IH.
Qed.

Lemma stripped_id l : Forall (fun s => strip s = s /\ s <> "") l -> stripped l = l.
Proof.
  unfold stripped. induction 1 as [|s l [H1 H2] _ IH]; [done|]. cbn. rewrite H1, IH. by destruct s.
Qed.

Lemma magnet_trackers_ok trackers :
  Forall (fun s => strip s = s /\ s <> "") (magnet_trackers trackers) /\ filter_valid_trackers (magnet_trackers trackers) = magnet_trackers trackers.
Proof.
  assert (H : Forall (fun s => (strip s = s /\ s <> "") /\ valid_tracker s = true) (magnet_trackers trackers)).
  { apply Forall_forall. intros s Hs. unfold magnet_trackers in Hs. apply elem_of_take in Hs as (i & Hs & _).
    apply list_elem_of_lookup_2 in Hs. rewrite uniq_elem in Hs. apply list_elem_of_In, filter_In in Hs as [Hs Hv]. split; [|done]. unfold stripped in Hs.
    apply filter_In in Hs as [Hs Hn]. apply in_map_iff in Hs as (t & <- & _). split; [apply strip_strip|]. by destruct (strip t). }
  split; [by eapply Forall_impl; [exact H|intros s [? _]]|]. unfold filter_valid_trackers.
  induction H as [|s l [_ Hv] _ IH]; [done|]. cbn [List.filter]. by rewrite Hv, IH.
Qed.

(** The parts of a link that the program makes. *)
Lemma link_parts h ts : str_all is_hash_char h = true ->
  exists p, urlsplit bracketed_ok (strip ("magnet:?xt=urn:btih:" +:+ h +:+ fold_right (fun t r => "&tr=" +:+ quote t +:+ r) "" ts)) = Ret p /\
    scheme p = "magnet" /\ fragment p = "" /\ parse_qsl (query p) = ("xt", "urn:btih:" +:+ h) :: map (fun t => ("tr", t)) ts.
Proof.
  intros Hh. pose proof (link_chars h ts Hh) as Hc.
  change ("magnet:?xt=urn:btih:" +:+ ?r) with ("magnet:?" +:+ "xt=urn:btih:" +:+ r). rewrite link_query.
  set (q := raw_query (magnet_items h ts)) in *.
  assert (Hl : str_all (fun c => negb (is_space c)) ("magnet:?" +:+ q) = true).
  { rewrite str_all_app. change (true && str_all (fun c => negb (is_space c)) q = true). cbn [andb]. revert Hc. apply str_all_impl. ascii_cases. }
  assert (Hq : q <> "") by (unfold q, magnet_items; by rewrite raw_query_cons).
  set (u := mkUrl "magnet" "" "" q ""). assert (Hu : urlunsplit u = "magnet:?" +:+ q).
  { unfold urlunsplit, url_tail, with_part. cbn [scheme netloc path query fragment u]. destruct q; [done|]. cbn [str_empty].
    by rewrite str_app_nil_r. }
  assert (W : well_formed u).
  { split; cbn [scheme netloc path query fragment u]; try done; [by right| |].
    - revert Hc. apply str_all_impl. ascii_cases.
    - change (clean q && true = true). rewrite andb_true_r. revert Hc. apply str_all_impl. ascii_cases. }
  exists u. rewrite strip_no_space by done. rewrite <- Hu, urlsplit_parts, url_parts_urlunsplit by done.
  cbn [netloc u netloc_ok]. change (netloc_ok bracketed_ok "") with true. do 3 (split; [done|]).
  cbn [query]. unfold q. by apply items_decoded.
Qed.

(** What the code relies on of torf's [Magnet.from_string]: from a link whose query
    is one [xt] that names a BitTorrent info hash, followed by distinct trackers,
    none of them empty or with a space, it reads this hash as it is spelled and
    these trackers, when it accepts the link at all. *)
Definition torf_reads_links : Prop := forall link p h ts i tr,
  magnet_from_string link = Some (i, tr) -> urlsplit bracketed_ok (strip link) = Ret p -> scheme p = "magnet" -> fragment p = "" ->
  parse_qsl (query p) = ("xt", "urn:btih:" +:+ h) :: map (fun t => ("tr", t)) ts ->
  NoDup ts -> Forall (fun t => t <> "" /\ str_has " " t = false) ts -> i = h /\ tr = ts.

(** [C13] A magnet link that the program makes is read back by its own parser: the
    trackers that went into the link, which are the first thirty distinct valid
    ones, and the hash.  A hexadecimal hash is read as it is in the link; a base32
    hash is read as its 40 hexadecimal digits when torf refuses the link, and in
    lower case, still in base32, when torf accepts it.  Of torf the theorem takes
    [torf_reads_links], and a tracker with a space in it only in a link torf
    refuses. *)
Theorem magnet_roundtrip (info_hash link : string) (trackers : list string)
    (H : convert info_hash trackers = Ret link) (Htorf : torf_reads_links)
    (Hsp : magnet_from_string link = None \/ Forall (fun t => str_has " " t = false) (magnet_trackers trackers)) :
  let h := normalize info_hash in
  parse_magnet bracketed_ok magnet_from_string link =
    (if is_hex_hash h then h
     else match magnet_from_string link with Some _ => lower h | None => lower (b32decode_hex h) end,
     magnet_trackers trackers).
Proof.
  cbv zeta. unfold convert_info_hash_to_magnet in H. pose proof (normalize_cases info_hash) as Hn. cbv zeta in Hn.
  pose proof (hash_of_own_xt info_hash) as Hx. cbv zeta in Hx. set (h := normalize info_hash) in *.
  destruct (str_empty h) eqn:Eh; [done|]. assert (Hne : h <> "") by (intros E; by rewrite E in Eh).
  destruct (Hx Hne) as [Hh Hx']. clear Hx. injection H as <-. destruct (magnet_trackers_ok trackers) as [H1 H2].
  assert (Hnd : NoDup (magnet_trackers trackers)) by (eapply sublist_NoDup; [apply uniq_NoDup|apply sublist_take]).
  set (ts := magnet_trackers trackers) in *. destruct (link_parts h ts Hh) as (p & Hp & Hs & Hf & Hq).
  set (link := _ +:+ _) in *. unfold parse_magnet. destruct (magnet_from_string link) as [[i tr]|] eqn:Et.
  - destruct Hsp as [|Hsp]; [done|]. destruct (Htorf _ _ _ _ _ _ Et Hp Hs Hf Hq Hnd) as [-> ->].
    { apply Forall_and. split; [|done]. eapply Forall_impl; [exact H1|]. by intros t [_ Ht]. }
    rewrite H2. destruct (is_hex_hash h) eqn:E; [|done]. by destruct Hn as [|[[_ ->]|[]]].
  - unfold parse_by_hand. rewrite Hp, Hs, Hq. change (String.eqb (lower "magnet") "magnet") with true. cbn [negb].
    destruct (values_of_items ("urn:btih:" +:+ h) ts) as [-> ->]. rewrite (stripped_id ts H1), H2, stripped_id.
    + cbn [first_hash]. by rewrite Hx'.
    + constructor; [|done]. split; [|done]. apply strip_no_space. rewrite str_all_app. cbn [andb].
      change (true && str_all (fun c => negb (is_space c)) h = true). revert Hh. apply str_all_impl. ascii_cases.
Qed.
End Laws.

(** ** Witness *)

(** A reader of links as torf reads them, which refuses a link with another
    parameter or another scheme. *)
Definition reads_xt_tr (link : string) : option (string * list string) :=
  match urlsplit (fun _ => true) (strip link) with
  | Ret p =>
      match parse_qsl (query p) with
      | ("xt", xt) :: items =>
          if String.eqb (scheme p) "magnet" && startswith "urn:btih:" xt && forallb (fun kv => String.eqb kv.1 "tr") items
          then Some (after_two_colons xt, map snd items) else None
      | _ => None
      end
  | Raise _ => None
  end.

Definition no_torf : string -> option (string * list string) := fun _ => None.

Lemma reads_xt_tr_law : torf_reads_links (fun _ => true) reads_xt_tr.
Proof.
  intros link p h ts i tr H Hp Hs _ Hq _ _. unfold reads_xt_tr in H. rewrite Hp, Hq, Hs in H. cbn [andb] in H.
  replace (startswith _ _) with true in H by by destruct h. cbn [String.eqb Ascii.eqb Bool.eqb andb] in H.
  destruct (forallb _ _); [|done]. injection H as <- <-. split; [done|]. rewrite map_map. cbn. by rewrite map_id.
Qed.

Lemma magnet_roundtrip_witness :
  let link := "magnet:?xt=urn:btih:ABCDEFGHIJKLMNOPQRSTUVWXYZ234567&tr=udp%3A%2F%2Ft.example%3A80%2Fa%26b&tr=https%3A%2F%2Ft.example%2F" in
  let trackers := ["udp://t.example:80/a&b"; " https://t.example/ "; "*udp://bad"; ""; "https://t.example/"] in
  (convert_info_hash_to_magnet (fun _ => true) reads_xt_tr " abcdefghijklmnopqrstuvwxyz234567" trackers = Ret link /\
   parse_magnet (fun _ => true) reads_xt_tr link =
     ("abcdefghijklmnopqrstuvwxyz234567", ["udp://t.example:80/a&b"; "https://t.example/"])) /\
  (convert_info_hash_to_magnet (fun _ => true) no_torf " abcdefghijklmnopqrstuvwxyz234567" trackers = Ret link /\
   parse_magnet (fun _ => true) no_torf link =
     ("00443214c74254b635cf84653a56d7c675be77df", ["udp://t.example:80/a&b"; "https://t.example/"])).
Proof.
  cbv zeta. split; (split; [vm_compute; reflexivity|]).
  - etransitivity; [eapply (magnet_roundtrip (fun _ => true) reads_xt_tr " abcdefghijklmnopqrstuvwxyz234567" _
      ["udp://t.example:80/a&b"; " https://t.example/ "; "*udp://bad"; ""; "https://t.example/"]);
      [vm_compute; reflexivity|apply reads_xt_tr_law|right; vm_compute; repeat constructor]|].
    vm_compute. reflexivity.
  - etransitivity; [eapply (magnet_roundtrip (fun _ => true) no_torf " abcdefghijklmnopqrstuvwxyz234567" _
      ["udp://t.example:80/a&b"; " https://t.example/ "; "*udp://bad"; ""; "https://t.example/"]);
      [vm_compute; reflexivity|by intros ? ? ? ? ? ?|by left]|].
    vm_compute. reflexivity.
Defined.
