(* ===== verification/NzbUrls.v ===== *)
(** * Credentials in NZB links
    (utils/url_safety.py, utils/usenet_url_resolver.py)

    What is stored of an NZB link carries no credentials; when a user plays a
    stream, the link gets the API key of the user's own indexer.  The validity
    test of a bracketed host is a parameter, as in Urls. *)

From S2P Require Export Urls Media UserConfig UsenetCompat.
Local Open Scope string_scope.
Local Open Scope Z_scope.

Definition SENSITIVE_QUERY_KEYS : list string :=
  ["apikey"; "api_key"; "token"; "auth"; "authorization"; "passkey"; "password"; "pwd"; "username"; "user"; "rsskey";
   "key"; "secret"].

(** [(key or "").strip().lower() in SENSITIVE_QUERY_KEYS] *)
Definition sensitive_key (k : string) : bool := memb (lower (strip k)) SENSITIVE_QUERY_KEYS.

(** [stream.nzb_url = u] *)
Definition set_nzb_url (u : option string) (s : StreamData) : StreamData :=
  mkStream (stream_name s) (stream_size s) (torrent_type s) (info_hash s) (resolution s) (quality s)
    (hdr_formats s) (languages s) (seeders s) (created_at s) (files s) (source s) (indexer s) u
    (filtered_resolution s) (filtered_quality s) (filtered_hdr_formats s) (filtered_languages s) (cached s).

Section NzbUrls.
Context (bracketed_ok : string -> bool).

(** ** utils/url_safety.py *)

(** The checks and the first statements the three functions share:
    [Some raw] when there is something to look at. *)
Definition raw_url (u : option string) : option string :=
  match u with
  | None | Some "" => None
  | Some u => match strip u with "" => None | r => Some r end
  end.

Definition url_has_userinfo (u : option string) : bool :=
  match raw_url u with
  | None => false
  | Some r => match urlsplit bracketed_ok r with Raise _ => false | Ret p => str_has "@" (netloc p) end
  end.

Definition url_has_sensitive_query_params (u : option string) : bool :=
  match raw_url u with
  | None => false
  | Some r => match urlsplit bracketed_ok r with
              | Raise _ => false
              | Ret p => existsb (fun kv => sensitive_key kv.1) (parse_qsl (query p))
              end
  end.

(** The parts with the user information and the sensitive parameters dropped. *)
Definition sanitized_parts (p : split_url) : split_url :=
  let loc := if str_has "@" (netloc p) then after_last "@" (netloc p) else netloc p in
  let items := List.filter (fun kv => negb (sensitive_key kv.1)) (parse_qsl (query p)) in
  mkUrl (scheme p) loc (path p) (urlencode items) (fragment p).

Definition sanitize_nzb_url (u : option string) : option string :=
  match raw_url u with
  | None => None
  | Some r => match urlsplit bracketed_ok r with
              | Raise _ => Some r
              | Ret p => Some (urlunsplit (sanitized_parts p))
              end
  end.

(** ** utils/usenet_url_resolver.py *)

Definition extract_host (v : option string) : string :=
  match strip (default "" v) with
  | "" => ""
  | raw => match url_hostname bracketed_ok raw with Ret h => lower (default "" h) | Raise _ => "" end
  end.

Definition find_matching_newznab_indexer (s : StreamData) (indexers : list NewznabIndexer) : option NewznabIndexer :=
  let enabled := List.filter indexer_enabled indexers in
  let candidates := [normalize_text (indexer s); normalize_text (source s)] in
  match List.find (fun i => memb (normalize_text (indexer_name i)) candidates) enabled with
  | Some i => Some i
  | None =>
      let host := extract_host (nzb_url s) in
      if str_empty host then None
      else List.find (fun i => String.eqb (extract_host (indexer_url i)) host) enabled
  end.

(** The dict of the parameters that are kept. *)
Definition kept_params (q : string) : list (string * string) :=
  fold_left (fun d kv => if sensitive_key kv.1 then d else dict_set kv.1 kv.2 d) (parse_qsl q) [].

Definition scoped_params (q : string) (i : NewznabIndexer) : list (string * string) :=
  let d := kept_params q in
  match indexer_api_key i with
  | Some k => if str_empty k then d else dict_set "apikey" k d
  | None => d
  end.

Definition scoped_parts (p ip : split_url) (i : NewznabIndexer) : split_url :=
  mkUrl (if str_empty (scheme p) then scheme ip else scheme p)
        (if str_empty (netloc ip) then netloc p else netloc ip)
        (path p) (urlencode (scoped_params (query p) i)) (fragment p).

Definition build_user_scoped_nzb_url (s : StreamData) (indexers : list NewznabIndexer) : outcome py_exn (option string) :=
  match sanitize_nzb_url (nzb_url s) with
  | None | Some "" => Ret None
  | Some safe =>
      match find_matching_newznab_indexer s indexers with
      | None => Ret (Some safe)
      | Some i =>
          match urlsplit bracketed_ok safe with
          | Raise _ => Ret (Some safe)
          | Ret p =>
              ip ← urlsplit bracketed_ok (strip (default "None" (indexer_url i)));
              Ret (Some (urlunsplit (scoped_parts p ip i)))
          end
      end
  end.

(** An exception leaves the streams before it changed; the caller sees only
    the exception. *)
Definition apply_user_scoped_nzb_urls (streams : list StreamData) (indexers : list NewznabIndexer) :
    outcome py_exn (list StreamData) :=
  mapM (fun s => u ← build_user_scoped_nzb_url s indexers; Ret (set_nzb_url u s)) streams.
End NzbUrls.

(** ** Lemmas *)

Lemma urlencode_all p l : (forall c, p c = false -> query_char c = false /\ Ascii.eqb c "&" = false /\ Ascii.eqb c "=" = false) ->
  str_all p (urlencode l) = true.
Proof.
  intros Hp. assert (H : forall c, p c = false -> str_has c (urlencode l) = false).
  { intros c Hc. destruct (Hp c Hc) as (H1 & H2 & H3). by apply urlencode_lacks. }
  revert H. generalize (urlencode l). intros s. induction s as [|c s IH]; intros H; [done|]. cbn.
  destruct (p c) eqn:E; [|specialize (H c E); cbn in H; by rewrite Ascii.eqb_refl in H].
  apply IH. intros d Hd. specialize (H d Hd). cbn in H. apply orb_false_iff in H. tauto.
Qed.

Lemma urlencode_clean l : clean (urlencode l) = true /\ lacks_any "#" (urlencode l) = true.
Proof. split; apply urlencode_all; ascii_cases. Qed.

Lemma urlencode_no_space l : str_all (fun c => negb (is_space c)) (urlencode l) = true.
Proof. apply urlencode_all. ascii_cases. Qed.

Lemma spaced_has c a b : spaced a b -> str_has c b = false -> str_has c a = false.
Proof. intros (w & _ & ->). rewrite str_any_app. intros [H _]%orb_false_iff. exact H. Qed.

Lemma spaced_no_space a b : spaced a b -> str_all (fun c => negb (is_space c)) b = true -> a = b.
Proof.
  intros (w & Hw & ->). rewrite str_all_app. intros [_ H]%andb_true_iff. destruct w as [|c w]; [by rewrite str_app_nil_r|].
  exfalso. cbn in Hw, H. by destruct (is_space c).
Qed.

(** Changing the network location and the query keeps the parts well formed. *)
Lemma well_formed_with p loc q : well_formed p -> lacks_any "/?#" loc = true -> clean loc = true ->
  (netloc p = "" -> loc = "") -> well_formed (mkUrl (scheme p) loc (path p) (urlencode q) (fragment p)).
Proof.
  intros W H1 H2 H3. destruct (urlencode_clean q) as [Hq1 Hq2]. pose proof (wf_clean p W) as Hc.
  split; cbn [scheme netloc path query fragment]; try (by apply W); try done.
  - intros Hl. apply (wf_after p W). by intros E%H3.
  - rewrite H2, Hq1. rewrite !andb_true_iff in Hc |- *. tauto.
  - intros Hs Hl. destruct (netloc p) eqn:E; [by apply (wf_bare p W)|].
    destruct (wf_after p W) as [-> | H]; [congruence|done|by apply bare_slash].
Qed.

Lemma sanitized_well_formed p : well_formed p ->
  well_formed (sanitized_parts p) /\ str_has "@" (netloc (sanitized_parts p)) = false.
Proof.
  intros W. unfold sanitized_parts. destruct (str_has "@" (netloc p)) eqn:E; cbn zeta iota; cbn [netloc].
  - destruct (after_last_spec "@" (netloc p) E) as [H1 [pre H2]]. split; [|done].
    pose proof (wf_netloc p W) as Hl. pose proof (wf_clean p W) as Hc. rewrite H2 in Hl, Hc. rewrite !andb_true_iff in Hc.
    destruct Hc as [[[Hc _] _] _]. rewrite clean_app in Hc. rewrite lacks_app in Hl. apply andb_true_iff in Hc as [_ Hc], Hl as [_ Hl].
    apply well_formed_with; [done|by apply andb_true_iff in Hl as [_ Hl]|by apply andb_true_iff in Hc as [_ Hc]|].
    intros E0. by rewrite E0 in E.
  - split; [|done]. pose proof (wf_clean p W) as Hc. rewrite !andb_true_iff in Hc. apply well_formed_with; [done|apply W|tauto|done].
Qed.

Lemma sanitized_params p : Forall (fun kv => sensitive_key kv.1 = false) (parse_qsl (query (sanitized_parts p))).
Proof.
  cbn [sanitized_parts query]. rewrite parse_urlencode. apply Forall_forall. intros kv.
  rewrite list_elem_of_In, filter_In. intros [_ H]. by apply negb_true_iff in H.
Qed.

(** ** What is stored carries no credentials *)

Section Sanitized.
Context (bracketed_ok : string -> bool).

(** [C9]  A sanitized link has no user information and no sensitive query
    parameter, as the functions that look for them see it: they strip the link
    and split it again, and answer no for a link that does not split. *)
Theorem sanitized_url_carries_no_credentials (u : option string) (v : string)
    (H : sanitize_nzb_url bracketed_ok u = Some v) :
  url_has_userinfo bracketed_ok (Some v) = false /\ url_has_sensitive_query_params bracketed_ok (Some v) = false.
Proof.
  unfold sanitize_nzb_url in H. destruct (raw_url u) as [r|] eqn:Er; [|done].
  destruct (urlsplit bracketed_ok r) as [p|e] eqn:Ep.
  - injection H as <-. apply urlsplit_ret in Ep as [_ W]. destruct (sanitized_well_formed p W) as [W' Hat].
    set (v := urlunsplit _). destruct (urlunsplit_clean _ W') as [Hc Hs]. fold v in Hc, Hs.
    destruct (strip_spaced v Hs) as (w & Hw & Hv). rewrite Hv in Hc, Hs.
    destruct (url_parts_spaced _ _ Hc Hs Hw) as [Hl Hq]. rewrite <- Hv in Hl, Hq. unfold v in Hl at 2, Hq at 2.
    rewrite url_parts_urlunsplit in Hl, Hq by done. apply spaced_no_space in Hq; [|apply urlencode_no_space].
    unfold url_has_userinfo, url_has_sensitive_query_params.
    destruct (raw_url (Some v)) as [r'|] eqn:Er'; [|done].
    assert (r' = strip v) as ->. { unfold raw_url in Er'. destruct v as [|c v']; [done|]. destruct (strip (String c v')); congruence. }
    destruct (urlsplit bracketed_ok (strip v)) as [p'|] eqn:E; [|done]. apply urlsplit_ret in E as [-> _].
    split; [by apply (spaced_has _ _ _ Hl)|]. rewrite Hq. apply not_true_iff_false. intros (kv & Hin & Hk)%existsb_exists.
    pose proof (sanitized_params p) as HF. rewrite Forall_forall in HF. apply list_elem_of_In in Hin. apply HF in Hin. congruence.
  - injection H as <-. assert (Hr : strip r = r /\ r <> "").
    { unfold raw_url in Er. destruct u as [[|c u]|]; [done| |done]. destruct (strip (String c u)) eqn:E; [done|].
      injection Er as <-. by rewrite <- E, strip_strip, E. }
    unfold url_has_userinfo, url_has_sensitive_query_params, raw_url. destruct Hr as [Hr Hne].
    destruct r as [|c r]; [done|]. rewrite Hr. by rewrite Ep.
Qed.
End Sanitized.

(** ** What a user's link carries *)

(** A path without a leading slash gets one after a network location. *)
Definition rooted (u : split_url) : split_url :=
  if negb (str_empty (netloc u)) && negb (str_empty (path u)) && negb (startswith "/" (path u))
  then mkUrl (scheme u) (netloc u) ("/" +:+ path u) (query u) (fragment u) else u.

Lemma urlunsplit_rooted u : urlunsplit (rooted u) = urlunsplit u.
Proof.
  unfold rooted. destruct (_ && _ && _) eqn:E; [|done]. rewrite !andb_true_iff in E. destruct E as [[H1 H2] H3].
  unfold urlunsplit, url_body, url_tail. cbn [scheme netloc path query fragment]. rewrite H1, H2, H3.
  change (startswith "/" ("/" +:+ path u)) with (startswith "" (path u)). by destruct (path u).
Qed.

Lemma dict_set_in {A} k (v : A) d kv : kv ∈ dict_set k v d -> kv = (k, v) \/ kv ∈ d.
Proof.
  induction d as [|[k' v'] d IH]; cbn; [set_solver|]. destruct (String.eqb_spec k k') as [->|_]; set_solver.
Qed.

Lemma kept_params_safe q : Forall (fun kv => sensitive_key kv.1 = false) (kept_params q).
Proof.
  unfold kept_params. assert (H : Forall (fun kv : string * string => sensitive_key kv.1 = false) []) by constructor.
  revert H. generalize (@nil (string * string)). induction (parse_qsl q) as [|kv l IH]; intros d H; [done|]. cbn [fold_left].
  apply IH. destruct (sensitive_key kv.1) eqn:E; [done|]. apply Forall_forall. intros x [-> | Hx]%dict_set_in; [done|].
  rewrite Forall_forall in H. by apply H.
Qed.

Definition credentials (q : string) : list (string * string) := List.filter (fun kv => sensitive_key kv.1) (parse_qsl q).

Lemma filter_sensitive_none (l : list (string * string)) : Forall (fun kv => sensitive_key kv.1 = false) l ->
  List.filter (fun kv => sensitive_key kv.1) l = [].
Proof. induction 1 as [|kv l H _ IH]; [done|]. cbn [List.filter]. by rewrite H. Qed.

(** The key of an indexer, as a query parameter. *)
Definition own_key (i : NewznabIndexer) : list (string * string) :=
  match indexer_api_key i with Some (String _ _ as k) => [("apikey", k)] | _ => [] end.

Lemma scoped_credentials q i : credentials (urlencode (scoped_params q i)) = own_key i.
Proof.
  unfold credentials. rewrite parse_urlencode. unfold scoped_params, own_key. pose proof (kept_params_safe q) as Hk.
  destruct (indexer_api_key i) as [[|c k]|]; cbn [str_empty]; try by apply filter_sensitive_none.
  rewrite dict_set_new.
  - rewrite List.filter_app, filter_sensitive_none by done. reflexivity.
  - rewrite Forall_forall in Hk. intros (kv & E & Hin)%list_elem_of_fmap. apply Hk in Hin. rewrite <- E in Hin. vm_compute in Hin. done.
Qed.

Section Scoped.
Context (bracketed_ok : string -> bool).

(** An enabled indexer with the name or the host of a stream. *)
Definition indexer_of (s : StreamData) (indexers : list NewznabIndexer) (i : NewznabIndexer) : Prop :=
  i ∈ indexers /\ indexer_enabled i = true /\
  (normalize_text (indexer_name i) = normalize_text (indexer s) \/
   normalize_text (indexer_name i) = normalize_text (source s) \/
   (extract_host bracketed_ok (indexer_url i) = extract_host bracketed_ok (nzb_url s) /\
    extract_host bracketed_ok (nzb_url s) <> "")).

Lemma find_matching_sound s indexers i : find_matching_newznab_indexer bracketed_ok s indexers = Some i ->
  indexer_of s indexers i.
Proof.
  unfold find_matching_newznab_indexer. destruct (List.find _ _) as [j|] eqn:E.
  - intros [= ->]. apply find_some in E as [Hin Hm]. apply filter_In in Hin as [Hin He].
    apply bool_decide_eq_true in Hm. split; [by apply list_elem_of_In|]. split; [done|]. set_solver.
  - destruct (str_empty _) eqn:Eh; [done|]. intros [Hin Hm]%find_some. apply filter_In in Hin as [Hin He].
    apply String.eqb_eq in Hm. split; [by apply list_elem_of_In|]. split; [done|]. right. right. split; [done|].
    intros E0. by rewrite E0 in Eh.
Qed.

Lemma scoped_well_formed p ip i : well_formed p -> well_formed ip -> well_formed (rooted (scoped_parts p ip i)).
Proof.
  intros W Wi. destruct (urlencode_clean (scoped_params (query p) i)) as [Hq1 Hq2].
  pose proof (wf_clean p W) as Hc. pose proof (wf_clean ip Wi) as Hci. rewrite !andb_true_iff in Hc, Hci.
  set (loc := if str_empty (netloc ip) then netloc p else netloc ip).
  assert (Hloc : lacks_any "/?#" loc = true /\ clean loc = true).
  { subst loc. destruct (str_empty (netloc ip)); split; [apply W|tauto|apply Wi|tauto]. }
  assert (Hs : forall sch, sch = (if str_empty (scheme p) then scheme ip else scheme p) -> sch = "" \/ is_scheme sch = true).
  { intros sch ->. destruct (str_empty (scheme p)); [apply Wi|apply W]. }
  unfold rooted, scoped_parts. cbn [scheme netloc path query fragment]. fold loc.
  destruct (negb (str_empty loc) && negb (str_empty (path p)) && negb (startswith "/" (path p))) eqn:E;
    split; cbn [scheme netloc path query fragment]; try (by apply Hs); try tauto.
  - change (lacks_any "?#" (path p) = true). apply W.
  - change (clean ("/" +:+ path p)) with (clean (path p)). rewrite !andb_true_iff. tauto.
  - intros _ El. by rewrite El in E.
  - apply W.
  - intros Hne. destruct (path p) as [|c t]; [by left|right]. cbn [str_empty negb] in E. rewrite andb_true_r in E.
    apply andb_false_iff in E as [E|E]; [by destruct loc|by apply negb_false_iff].
  - rewrite !andb_true_iff. tauto.
  - intros Hsch El. subst loc. assert (netloc ip = "" /\ netloc p = "") as [Ei Ep].
    { destruct (netloc ip); [done|]. cbn in El. done. }
    apply (wf_bare p W); [|done]. by destruct (scheme p).
Qed.

(** What is stored of a link that splits is the link put together again from its
    sanitized parts; a link that does not split is stored as it is, stripped. *)
Lemma sanitize_cases (u : option string) (safe : string) (H : sanitize_nzb_url bracketed_ok u = Some safe) :
  (raw_url u = Some safe /\ exists e, urlsplit bracketed_ok safe = Raise e) \/
  exists p, well_formed p /\ safe = urlunsplit p /\ credentials (query p) = [] /\ str_has "@" (netloc p) = false.
Proof.
  unfold sanitize_nzb_url in H. destruct (raw_url u) as [r|]; [|done]. destruct (urlsplit bracketed_ok r) as [p|e] eqn:Er.
  - injection H as <-. apply urlsplit_ret in Er as [_ W]. destruct (sanitized_well_formed p W) as [W' Hat].
    right. exists (sanitized_parts p). split; [done|]. split; [done|]. split; [|done]. apply filter_sensitive_none, sanitized_params.
  - injection H as <-. left. split; [done|]. by exists e.
Qed.

(** The parts of a link: it is put together from them, and splitting it gives no
    others. *)
Definition parts_of (v : string) (p : split_url) : Prop :=
  v = urlunsplit p /\ forall q, urlsplit bracketed_ok v = Ret q -> q = p.

Lemma parts_of_well_formed p : well_formed p -> parts_of (urlunsplit p) p.
Proof. intros W. split; [done|]. intros q Hq. by apply urlsplit_urlunsplit in Hq. Qed.

(** [C10]  The link of a user's playback, whatever link is stored: either it has
    no credential in its query and no user information; or the only credential
    in its query is the API key of an enabled indexer of that user that has the
    stream's name or host, and its network location is that indexer's, or the
    stored one without user information when the indexer's URL has none; or the
    stored link cannot be split (an unclosed bracket in its host), and then the
    link is the stored one, stripped, with whatever credentials it has. *)
Theorem user_scoped_url_carries_own_key (s : StreamData) (indexers : list NewznabIndexer) (v : string)
    (H : build_user_scoped_nzb_url bracketed_ok s indexers = Ret (Some v)) :
  (raw_url (nzb_url s) = Some v /\ exists e, urlsplit bracketed_ok v = Raise e) \/
  exists p, parts_of v p /\
    ((credentials (query p) = [] /\ str_has "@" (netloc p) = false) \/
     exists i ip, indexer_of s indexers i /\ urlsplit bracketed_ok (strip (default "None" (indexer_url i))) = Ret ip /\
       credentials (query p) = own_key i /\
       (netloc p = netloc ip \/ (netloc ip = "" /\ str_has "@" (netloc p) = false))).
Proof.
  unfold build_user_scoped_nzb_url in H. destruct (sanitize_nzb_url _ _) as [safe|] eqn:Es; [|done].
  apply sanitize_cases in Es as Hs. set (goal := _ \/ _).
  assert (Hsafe : Ret (Some safe) = Ret (Some v) :> outcome py_exn _ -> goal).
  { intros [= <-]. destruct Hs as [Hs | (p & W & -> & Hp)]; [by left|]. right. exists p. split; [by apply parts_of_well_formed|by left]. }
  destruct safe as [|c safe]; [done|]. set (sf := String c safe) in *.
  destruct (find_matching_newznab_indexer _ _ _) as [i|] eqn:Ei; [|by apply Hsafe].
  destruct (urlsplit bracketed_ok sf) as [q|e] eqn:Eq; [|by apply Hsafe]. clear Hsafe.
  destruct Hs as [[_ [e He]] | (p & W & E & _ & Hat)]; [congruence|]. rewrite E in Eq.
  apply urlsplit_urlunsplit in Eq as ->; [|done]. cbn [mbind outcome_bind] in H.
  destruct (urlsplit bracketed_ok (strip _)) as [ip|e] eqn:Eip; [|done]. injection H as <-.
  apply urlsplit_ret in Eip as Wi. destruct Wi as [_ Wi]. right. exists (rooted (scoped_parts p ip i)).
  rewrite <- urlunsplit_rooted. split; [by apply parts_of_well_formed, scoped_well_formed|]. right. exists i, ip.
  split; [by apply find_matching_sound|]. split; [done|].
  assert (Hr : forall u, query (rooted u) = query u /\ netloc (rooted u) = netloc u) by (intros u; unfold rooted; by destruct (_ && _)).
  destruct (Hr (scoped_parts p ip i)) as [-> ->]. split; [apply scoped_credentials|]. cbn [scoped_parts netloc].
  destruct (netloc ip); [right|left]; done.
Qed.
End Scoped.

(** ** Witnesses *)

Definition any_host : string -> bool := fun _ => true.
Definition nzb_link : string := "https://user:pw@api.nzbgeek.info/getnzb?id=42&APIKey=theirs&t=get#top".
Definition geek_nzb : StreamData := nzb_stream "NZBGeek" nzb_link.
Definition my_geek : NewznabIndexer := mkIndexer (Some "NZBGeek") (Some "https://api.nzbgeek.info/api") true (Some "mine").

Lemma sanitized_url_carries_no_credentials_witness :
  sanitize_nzb_url any_host (Some nzb_link) = Some "https://api.nzbgeek.info/getnzb?id=42&t=get#top" /\
  url_has_userinfo any_host (Some nzb_link) = true /\
  url_has_userinfo any_host (Some "https://api.nzbgeek.info/getnzb?id=42&t=get#top") = false /\
  url_has_sensitive_query_params any_host (Some "https://api.nzbgeek.info/getnzb?id=42&t=get#top") = false.
Proof.
  split; [vm_compute; reflexivity|]. split; [vm_compute; reflexivity|].
  apply (sanitized_url_carries_no_credentials any_host (Some nzb_link)). vm_compute. reflexivity.
Defined.

Lemma user_scoped_url_carries_own_key_witness :
  let v := "https://api.nzbgeek.info/getnzb?id=42&t=get&apikey=mine#top" in
  build_user_scoped_nzb_url any_host geek_nzb [my_geek] = Ret (Some v) /\
  ((raw_url (nzb_url geek_nzb) = Some v /\ exists e, urlsplit any_host v = Raise e) \/
   exists p, parts_of any_host v p /\
     ((credentials (query p) = [] /\ str_has "@" (netloc p) = false) \/
      exists i ip, indexer_of any_host geek_nzb [my_geek] i /\
        urlsplit any_host (strip (default "None" (indexer_url i))) = Ret ip /\ credentials (query p) = own_key i /\
        (netloc p = netloc ip \/ (netloc ip = "" /\ str_has "@" (netloc p) = false)))).
Proof.
  cbv zeta. split; [vm_compute; reflexivity|].
  apply (user_scoped_url_carries_own_key any_host). vm_compute. reflexivity.
Defined.

(** An indexer whose URL has no scheme has no network location: its key goes to
    the host of the stored link.  A link that does not split keeps its
    credentials. *)
Example key_to_the_links_host :
  build_user_scoped_nzb_url any_host (nzb_stream "NZBGeek" "https://other.example/getnzb?id=1")
    [mkIndexer (Some "NZBGeek") (Some "api.nzbgeek.info") true (Some "mine")]
  = Ret (Some "https://other.example/getnzb?id=1&apikey=mine").
Proof. vm_compute. reflexivity. Qed.

Example unsplit_link_keeps_credentials :
  sanitize_nzb_url any_host (Some "https://user:pw@[::1/getnzb?apikey=theirs")
  = Some "https://user:pw@[::1/getnzb?apikey=theirs".
Proof. vm_compute. reflexivity. Qed.
