(* ===== verification/NzbStorage.v ===== *)
(** * Stored NZB files and their signed links
    (utils/nzb_storage.py and download_nzb_file of
    api/routers/content/nzb_import.py)

    [NZBStorage] is the interface of the storage backends, [StorageLaws] what
    they promise; the local disk and the object store are its instances, and the
    download route is proved against the interface.  HMAC-SHA256, gzip and the
    object store are parameters.  Times are microseconds; a guid has no slash or
    null, as the route that carries it ensures, and the disk does not fail. *)

From S2P Require Export Urls Effects.
From stdpp Require Export gmap.
Local Open Scope string_scope.
Local Open Scope Z_scope.

(** ** Storage *)

Inductive storage_exn := BadGzip | StoreFailed | SignatureNotAscii | HTTPException (status : Z) (detail : string).

Definition simple_guid (g : string) : bool := negb (str_has "/" g).

(** [NZBStorage] *)
Class NZBStorage (X : Type) := {
  store : string -> string -> M X storage_exn unit;
  retrieve : string -> M X storage_exn (option string) }.

Class StorageLaws (X : Type) `{NZBStorage X} : Prop := {
  retrieve_pure g x : (retrieve g x).2 = x;
  retrieve_stored g c x x' : store g c x = (Ret tt, x') -> (retrieve g x').1 = Ret (Some c);
  retrieve_other g g' c x x' : simple_guid g = true -> simple_guid g' = true -> g <> g' ->
    store g c x = (Ret tt, x') -> (retrieve g' x').1 = (retrieve g' x).1 }.

Section Gzip.
Context (compress : string -> string) (decompress : string -> outcome storage_exn string).

(** [LocalNZBStorage]: the files of the disk by their path. *)
Definition disk := gmap string string.

Definition LOCAL_NZB_DIR : string := "data/nzb/".

Definition local_store (guid content : string) : M disk storage_exn unit :=
  modify (fun d => <[LOCAL_NZB_DIR +:+ guid +:+ ".nzb.gz" := compress content]> d).

Definition local_retrieve (guid : string) : M disk storage_exn (option string) := fun d =>
  match d !! (LOCAL_NZB_DIR +:+ guid +:+ ".nzb.gz") with
  | Some b => (c ← decompress b; Ret (Some c), d)
  | None => (Ret (d !! (LOCAL_NZB_DIR +:+ guid +:+ ".nzb")), d)
  end.

Definition LocalNZBStorage : NZBStorage disk := {| store := local_store; retrieve := local_retrieve |}.

(** [S3NZBStorage]: [put_object] and [get_object] of the object store. *)
Context {S3 : Type} (put_object : string -> string -> M S3 storage_exn unit)
  (get_object : S3 -> string -> outcome storage_exn string).

Definition s3_get_key (guid : string) : string := "nzb/" +:+ guid +:+ ".nzb.gz".

Definition s3_store (guid content : string) : M S3 storage_exn unit := put_object (s3_get_key guid) (compress content).

Definition s3_retrieve (guid : string) : M S3 storage_exn (option string) := fun x =>
  match (b ← get_object x (s3_get_key guid); decompress b) with
  | Ret c => (Ret (Some c), x)
  | Raise _ => (Ret None, x)
  end.

Definition S3NZBStorage : NZBStorage S3 := {| store := s3_store; retrieve := s3_retrieve |}.

(** What the code relies on. *)
Context (gzip_ok : forall c, decompress (compress c) = Ret c).
Context (put_get : forall k b x x', put_object k b x = (Ret tt, x') -> get_object x' k = Ret b).
Context (put_frame : forall k k' b x x', k <> k' -> put_object k b x = (Ret tt, x') -> get_object x' k' = get_object x k').

Lemma gz_not_nzb (a b : string) : a +:+ ".nzb" <> b +:+ ".nzb.gz".
Proof.
  intros H. assert (Hl : String.length a = (String.length b + 3)%nat).
  { apply (f_equal String.length) in H. rewrite !str_length_app in H. cbn in H. lia. }
  change (b +:+ ".nzb.gz") with (b +:+ (".nz" +:+ "b.gz")) in H. rewrite <- str_app_assoc in H.
  apply (f_equal (str_drop (String.length a))) in H. rewrite !str_drop_app in H; [done|rewrite str_length_app; cbn; lia|done].
Qed.

Lemma local_laws : @StorageLaws disk LocalNZBStorage.
Proof.
  split; cbn.
  - intros g x. unfold local_retrieve. by destruct (x !! _).
  - intros g c x x' [= <-]. unfold local_retrieve, disk in *. rewrite lookup_insert_eq. cbn. by rewrite gzip_ok.
  - intros g g' c x x' _ _ Hne [= <-]. unfold local_retrieve, disk in *.
    rewrite !lookup_insert_ne; [by destruct (x !! _)| |].
    + intros E%str_app_inj_l. by apply (gz_not_nzb g' g).
    + intros E%str_app_inj_l%str_app_inj_r. done.
Qed.

Lemma s3_laws : @StorageLaws S3 S3NZBStorage.
Proof.
  split; cbn.
  - intros g x. unfold s3_retrieve. by destruct (_ ≫= _).
  - intros g c x x' Hp. unfold s3_store in Hp. unfold s3_retrieve. rewrite (put_get _ _ _ _ Hp). cbn. by rewrite gzip_ok.
  - intros g g' c x x' _ _ Hne Hp. unfold s3_store in Hp. unfold s3_retrieve.
    rewrite (put_frame _ (s3_get_key g') _ _ _) with (2 := Hp); [by destruct (_ ≫= _)|].
    unfold s3_get_key. intros E%str_app_inj_l%str_app_inj_r. done.
Qed.
End Gzip.

(** ** Signed links *)

Section Links.
(** [hmac.new(key, message, hashlib.sha256).hexdigest()] and the settings. *)
Context (hmac_sha256 : string -> string -> string) (secret_key host_url : string) (nzb_download_url_expiry : Z).

Definition signed_message (guid : string) (expires : Z) : string := guid +:+ ":" +:+ str_of_int expires.

Definition compute_signature (guid : string) (expires : Z) : string := hmac_sha256 secret_key (signed_message guid expires).

(** The query of the link. *)
Definition signed_query (guid : string) (expires : Z) : string :=
  "expires=" +:+ str_of_int expires +:+ "&sig=" +:+ compute_signature guid expires.

Definition generate_signed_nzb_url (now : Z) (guid : string) (expires_in : option Z) : string :=
  let expires := now / 1000000 + default nzb_download_url_expiry expires_in in
  host_url +:+ "/api/v1/import/nzb/" +:+ guid +:+ "/download?" +:+ signed_query guid expires.

(** [hmac.compare_digest] refuses strings that are not ASCII. *)
Definition compare_digest (a b : string) : outcome storage_exn bool :=
  if str_all (fun c => code c <? 128) a && str_all (fun c => code c <? 128) b then Ret (String.eqb a b)
  else Raise SignatureNotAscii.

Definition verify_nzb_signature (now : Z) (guid : string) (expires : Z) (sig : string) : outcome storage_exn bool :=
  if expires * 1000000 <? now then Ret false else compare_digest sig (compute_signature guid expires).

(** [download_nzb_file]: the content of the answer. *)
Definition download_nzb_file {X} `{NZBStorage X} (now : Z) (guid : string) (expires : option Z) (sig : option string) :
    M X storage_exn string :=
  match expires, sig with
  | Some e, Some s =>
      ok ← lift (verify_nzb_signature now guid e s);
      if ok : bool then
        content ← retrieve guid;
        match content with
        | Some c => mret c
        | None => throw (HTTPException 404 "NZB file not found.")
        end
      else throw (HTTPException 403 "Invalid or expired download link.")
  | _, _ => throw (HTTPException 403 "Missing signature parameters.")
  end.

(** ** Properties of the links *)

Definition is_hex (c : ascii) : bool := is_digit c || in_range 97 102 c.

Lemma int_chars z : str_all (fun c => is_digit c || Ascii.eqb c "-") (str_of_int z) = true.
Proof. apply str_of_int_all; [|done]. by intros c ->. Qed.

(** A message belongs to one guid and one expiry: the last colon splits it. *)
Lemma signed_message_inj g e g' e' : signed_message g e = signed_message g' e' -> g = g' /\ e = e'.
Proof.
  unfold signed_message. change (":" +:+ ?x) with (String ":" x). intros H.
  assert (Hn : forall z, str_has ":" (str_of_int z) = false) by (intros z; by apply (str_all_lacks _ _ _ (int_chars z))).
  assert (He : str_of_int e = str_of_int e').
  { rewrite <- (after_last_app ":" g (str_of_int e)), H by done. by apply after_last_app. }
  split; [|by apply str_of_int_inj]. rewrite He in H. by apply str_app_inj_r in H.
Qed.

(** [C12]  What the download route serves is the stored file of the guid in the
    link, before the link expires, for a signature of this guid and this expiry;
    a signature made for another guid or expiry is accepted only when two
    different messages have the same HMAC. *)
Theorem download_needs_own_signature {X} `{NZBStorage X} now g e s (x x' : X) c
    (Hd : download_nzb_file now g (Some e) (Some s) x = (Ret c, x')) :
  now <= e * 1000000 /\ retrieve g x = (Ret (Some c), x') /\ s = compute_signature g e /\
  forall g' e', s = compute_signature g' e' ->
    (g' = g /\ e' = e) \/
    (signed_message g' e' <> signed_message g e /\
     hmac_sha256 secret_key (signed_message g' e') = hmac_sha256 secret_key (signed_message g e)).
Proof.
  unfold download_nzb_file, verify_nzb_signature, compare_digest, lift, throw, mbind, M_bind in Hd.
  destruct (Z.ltb_spec (e * 1000000) now) as [|Hle]; [done|]. destruct (str_all _ s && _); [|done].
  destruct (String.eqb_spec s (compute_signature g e)) as [->|]; [|done].
  split; [done|]. destruct (retrieve g x) as [[[c'|]|] x1]; try done. injection Hd as -> ->.
  split; [done|]. split; [done|]. intros g' e' Hs.
  destruct (decide (signed_message g' e' = signed_message g e)) as [E|E]; [left; by apply signed_message_inj|by right].
Qed.

Lemma query_of_link g e : (forall k m, str_all is_hex (hmac_sha256 k m) = true) ->
  parse_qsl (signed_query g e) = [("expires", str_of_int e); ("sig", compute_signature g e)].
Proof.
  intros Hhex. assert (Hsig : str_all is_hex (compute_signature g e) = true) by apply Hhex.
  change (signed_query g e) with (raw_query [("expires", str_of_int e); ("sig", compute_signature g e)]).
  rewrite parse_raw_query.
  - cbn [map fst snd]. rewrite (unquote_plain (str_of_int e)), (unquote_plain (compute_signature g e));
      first [done | by apply (str_all_lacks _ _ _ Hsig) | by apply (str_all_lacks _ _ _ (int_chars e))].
  - repeat constructor; first [done | by apply (str_all_lacks _ _ _ Hsig) | by apply (str_all_lacks _ _ _ (int_chars e))].
Qed.

(** [C11]  A link made for a stored file downloads it until it expires: the
    query of the link reads back as the expiry and the signature with which the
    route answers the stored content. *)
Theorem signed_link_downloads {X} `{StorageLaws X} now t g exp (c : string) (x x' : X)
    (Hhex : forall k m, str_all is_hex (hmac_sha256 k m) = true)
    (Hhost : str_has "?" host_url = false) (Hg : str_has "?" g = false)
    (He : 0 <= now / 1000000 + exp < 10 ^ 4300) (Ht : t <= (now / 1000000 + exp) * 1000000)
    (Hst : store g c x = (Ret tt, x')) :
  exists link q e s, generate_signed_nzb_url now g (Some exp) = link /\
    Urls.partition "?" link = (host_url +:+ "/api/v1/import/nzb/" +:+ g +:+ "/download", true, q) /\
    parse_qsl q = [("expires", e); ("sig", s)] /\
    (e ← int_of_string e; Ret (download_nzb_file t g (Some e) (Some s) x')) = Ret (Ret c, x').
Proof.
  set (e := now / 1000000 + exp) in *.
  exists (generate_signed_nzb_url now g (Some exp)), (signed_query g e), (str_of_int e), (compute_signature g e).
  split; [done|]. split; [|split; [by apply query_of_link|]].
  - assert (El : generate_signed_nzb_url now g (Some exp)
              = (host_url +:+ "/api/v1/import/nzb/" +:+ g +:+ "/download") +:+ String "?" (signed_query g e))
      by (unfold generate_signed_nzb_url; rewrite !str_app_assoc; reflexivity).
    rewrite El. apply partition_app. by rewrite !str_any_app, Hhost, Hg.
  - clearbody e. destruct He as [He1 He2]. rewrite int_of_string_str_of_int by assumption. clear He1 He2.
    cbn [mbind outcome_bind]. f_equal.
    unfold download_nzb_file, verify_nzb_signature, compare_digest.
    destruct (Z.ltb_spec (e * 1000000) t); [lia|].
    assert (Ha : str_all (fun c => code c <? 128) (compute_signature g e) = true) by
      (apply (str_all_impl is_hex); [ascii_cases|apply Hhex]).
    rewrite Ha, String.eqb_refl. cbn. unfold mbind, M_bind, lift. cbn.
    pose proof (retrieve_stored g c x x' Hst) as Hr. pose proof (retrieve_pure g x') as Hp.
    destruct (retrieve g x') as [o x2]. cbn in Hr, Hp. by subst.
Qed.
End Links.

(** ** Witnesses *)

(** A toy HMAC and a gzip that only marks. *)
Definition toy_hmac (k m : string) : string := str_flat_map (fun c => String (hex_digit (code c mod 16)) "") (m +:+ k).
Definition mark (c : string) : string := "gz:" +:+ c.
Definition unmark (b : string) : outcome storage_exn string :=
  if startswith "gz:" b then Ret (str_drop 3 b) else Raise BadGzip.

Lemma toy_hmac_hex k m : str_all is_hex (toy_hmac k m) = true.
Proof.
  unfold toy_hmac. generalize (m +:+ k). intros s. induction s as [|c s IH]; [done|]. cbn [str_flat_map].
  rewrite str_all_app, IH, andb_true_r. revert c. ascii_cases.
Qed.

Lemma unmark_mark c : unmark (mark c) = Ret c.
Proof. done. Qed.

Definition toy_disk : disk := (local_store mark "0a1b" "<nzb/>" ∅).2.

Lemma signed_link_downloads_witness :
  exists link q e s,
    generate_signed_nzb_url toy_hmac "key" "https://mf.example" 3600 1700000000000000 "0a1b" (Some 3600) = link /\
    Urls.partition "?" link = ("https://mf.example/api/v1/import/nzb/0a1b/download", true, q) /\
    parse_qsl q = [("expires", e); ("sig", s)] /\
    (e ← int_of_string e;
     Ret (download_nzb_file (H := LocalNZBStorage mark unmark) toy_hmac "key" 1700003600000000 "0a1b" (Some e) (Some s) toy_disk))
    = Ret (Ret "<nzb/>", toy_disk).
Proof.
  refine (@signed_link_downloads toy_hmac "key" "https://mf.example" 3600 disk (LocalNZBStorage mark unmark) (local_laws mark unmark unmark_mark)
    1700000000000000 1700003600000000 "0a1b" 3600 "<nzb/>" ∅ toy_disk toy_hmac_hex _ _ _ _ _);
    [reflexivity|reflexivity| |vm_compute; congruence|reflexivity].
  split; [vm_compute; congruence|]. apply Z.lt_trans with (2 ^ 64); [reflexivity|].
  apply Z.lt_le_trans with (10 ^ 20); [reflexivity|]. apply Z.pow_le_mono_r; lia.
Defined.

Lemma download_needs_own_signature_witness :
  let sig := compute_signature toy_hmac "key" "0a1b" 1700003600 in
  let d := download_nzb_file (H := LocalNZBStorage mark unmark) toy_hmac "key" 1700003600000000 "0a1b" (Some 1700003600) (Some sig) toy_disk in
  d = (Ret "<nzb/>", toy_disk) /\ 1700003600000000 <= 1700003600 * 1000000 /\
  local_retrieve unmark "0a1b" toy_disk = (Ret (Some "<nzb/>"), toy_disk).
Proof.
  assert (Hd : download_nzb_file (H := LocalNZBStorage mark unmark) toy_hmac "key" 1700003600000000 "0a1b" (Some 1700003600)
            (Some (compute_signature toy_hmac "key" "0a1b" 1700003600)) toy_disk = (Ret "<nzb/>", toy_disk)) by (vm_compute; reflexivity).
  split; [exact Hd|]. destruct (download_needs_own_signature _ _ _ _ _ _ _ _ _ Hd) as (H1 & H2 & _). split; [exact H1|exact H2].
Defined.

(** A signature for another file, an expired link, and a signature that is not
    ASCII: the last raises instead of answering 403. *)
Example refused_links :
  map (fun r => (r toy_disk).1)
    [download_nzb_file (H := LocalNZBStorage mark unmark) toy_hmac "key" 1700003600000000 "0a1b" (Some 1700003600)
       (Some (compute_signature toy_hmac "key" "ffff" 1700003600));
     download_nzb_file (H := LocalNZBStorage mark unmark) toy_hmac "key" 1700003600000001 "0a1b" (Some 1700003600)
       (Some (compute_signature toy_hmac "key" "0a1b" 1700003600));
     download_nzb_file (H := LocalNZBStorage mark unmark) toy_hmac "key" 1700003600000000 "0a1b" (Some 1700003600)
       (Some (String (of_code 195) (String (of_code 169) "")))] =
  [Raise (HTTPException 403 "Invalid or expired download link."); Raise (HTTPException 403 "Invalid or expired download link.");
   Raise SignatureNotAscii].
Proof. vm_compute. reflexivity. Qed.
