(* ===== verification/Redis.v ===== *)
(** * The Redis server as an interface

    What the server relies on of Redis, as a class of operations with laws
    taken from the Redis command reference; clients are proved against the
    class and [store] is an instance of it.  Each operation's laws say what it
    does to the four kinds of keys: strings with expiry (GET, SET, DEL,
    EXISTS), hashes, lists and sets.  The program keeps a key to one kind, so
    no WRONGTYPE errors arise.  A string value is a text, a JSON document
    ([json.dumps] of a value, which [json.loads] reads back) or a time stamp in
    microseconds. *)

From S2P Require Export PyVal PyList.
Local Open Scope string_scope.
Local Open Scope Z_scope.

Inductive blob :=
  | BText (s : string)
  | BJson (v : value)
  | BTime (us : Z).

Class Redis (R : Type) := {
  kv_get : Z -> R -> string -> option blob;
  hash_get : R -> string -> string -> option string;
  list_get : R -> string -> list string;
  set_has : R -> string -> string -> bool;

  kv_set : Z -> string -> blob -> option Z -> R -> R;
  kv_del : string -> R -> R;
  hset : string -> list (string * string) -> R -> R;
  hdel : string -> list string -> R -> R;
  lpush : string -> string -> R -> R;
  ltrim : string -> nat -> R -> R;  (* LTRIM key 0 (n-1) *)
  sadd : string -> string -> R -> R;
  srem : string -> string -> R -> R;

  (** What is there later was there before: keys only expire. *)
  kv_get_earlier : forall t t' k v r, t <= t' -> kv_get t' r k = Some v -> kv_get t r k = Some v;
  kv_get_set : forall now t k v ex k' r,
    now <= t ->
    kv_get t (kv_set now k v ex r) k' =
      if String.eqb k k'
      then match ex with Some e => if now + e <=? t then None else Some v | None => Some v end
      else kv_get t r k';
  kv_get_del : forall t k k' r, kv_get t (kv_del k r) k' = if String.eqb k k' then None else kv_get t r k';
  kv_get_hset : forall t k m k' r, kv_get t (hset k m r) k' = kv_get t r k';
  kv_get_hdel : forall t k m k' r, kv_get t (hdel k m r) k' = kv_get t r k';
  kv_get_lpush : forall t k x k' r, kv_get t (lpush k x r) k' = kv_get t r k';
  kv_get_ltrim : forall t k n k' r, kv_get t (ltrim k n r) k' = kv_get t r k';
  kv_get_sadd : forall t k x k' r, kv_get t (sadd k x r) k' = kv_get t r k';
  kv_get_srem : forall t k x k' r, kv_get t (srem k x r) k' = kv_get t r k';

  hash_get_set : forall now k v ex k' f r, hash_get (kv_set now k v ex r) k' f = hash_get r k' f;
  hash_get_del : forall k k' f r, hash_get (kv_del k r) k' f = hash_get r k' f;
  hash_get_hset : forall k m k' f r,
    hash_get (hset k m r) k' f =
      if String.eqb k k' then match dict_get f (rev m) with Some v => Some v | None => hash_get r k' f end
      else hash_get r k' f;
  hash_get_hdel : forall k m k' f r,
    hash_get (hdel k m r) k' f = if String.eqb k k' && memb f m then None else hash_get r k' f;
  hash_get_lpush : forall k x k' f r, hash_get (lpush k x r) k' f = hash_get r k' f;
  hash_get_ltrim : forall k n k' f r, hash_get (ltrim k n r) k' f = hash_get r k' f;
  hash_get_sadd : forall k x k' f r, hash_get (sadd k x r) k' f = hash_get r k' f;
  hash_get_srem : forall k x k' f r, hash_get (srem k x r) k' f = hash_get r k' f;

  list_get_set : forall now k v ex k' r, list_get (kv_set now k v ex r) k' = list_get r k';
  list_get_del : forall k k' r, list_get (kv_del k r) k' = list_get r k';
  list_get_hset : forall k m k' r, list_get (hset k m r) k' = list_get r k';
  list_get_hdel : forall k m k' r, list_get (hdel k m r) k' = list_get r k';
  list_get_lpush : forall k x k' r,
    list_get (lpush k x r) k' = if String.eqb k k' then x :: list_get r k' else list_get r k';
  list_get_ltrim : forall k n k' r,
    list_get (ltrim k n r) k' = if String.eqb k k' then take n (list_get r k') else list_get r k';
  list_get_sadd : forall k x k' r, list_get (sadd k x r) k' = list_get r k';
  list_get_srem : forall k x k' r, list_get (srem k x r) k' = list_get r k';

  set_has_set : forall now k v ex k' x r, set_has (kv_set now k v ex r) k' x = set_has r k' x;
  set_has_del : forall k k' x r, set_has (kv_del k r) k' x = set_has r k' x;
  set_has_hset : forall k m k' x r, set_has (hset k m r) k' x = set_has r k' x;
  set_has_hdel : forall k m k' x r, set_has (hdel k m r) k' x = set_has r k' x;
  set_has_lpush : forall k y k' x r, set_has (lpush k y r) k' x = set_has r k' x;
  set_has_ltrim : forall k n k' x r, set_has (ltrim k n r) k' x = set_has r k' x;
  set_has_sadd : forall k y k' x r,
    set_has (sadd k y r) k' x = (String.eqb k k' && String.eqb y x) || set_has r k' x;
  set_has_srem : forall k y k' x r,
    set_has (srem k y r) k' x = negb (String.eqb k k' && String.eqb y x) && set_has r k' x;
}.

Create Rewrite HintDb redis.
#[export] Hint Rewrite @kv_get_del @kv_get_hset @kv_get_hdel @kv_get_lpush @kv_get_ltrim @kv_get_sadd @kv_get_srem
  @hash_get_set @hash_get_del @hash_get_hset @hash_get_hdel @hash_get_lpush @hash_get_ltrim @hash_get_sadd
  @hash_get_srem @list_get_set @list_get_del @list_get_hset @list_get_hdel @list_get_lpush @list_get_ltrim
  @list_get_sadd @list_get_srem @set_has_set @set_has_del @set_has_hset @set_has_hdel @set_has_lpush
  @set_has_ltrim @set_has_sadd @set_has_srem : redis.

(** ** An executable instance *)

Record store := mkStore {
  st_kv : gmap string (blob * option Z);
  st_hash : gmap string (gmap string string);
  st_list : gmap string (list string);
  st_set : gmap string (gset string);
}.

Definition empty_store : store := mkStore ∅ ∅ ∅ ∅.

Definition store_hash (s : store) (k : string) : gmap string string := default ∅ (st_hash s !! k).
Definition store_list (s : store) (k : string) : list string := default [] (st_list s !! k).
Definition store_set (s : store) (k : string) : gset string := default ∅ (st_set s !! k).

Lemma lookup_insert_default {A} (m : gmap string A) k k' (x d : A) :
  default d (<[k := x]> m !! k') = if String.eqb k k' then x else default d (m !! k').
Proof.
  destruct (String.eqb k k') eqn:E.
  - apply String.eqb_eq in E as ->. by rewrite lookup_insert_eq.
  - apply String.eqb_neq in E. by rewrite lookup_insert_ne.
Qed.

Lemma foldl_insert_lookup (m : list (string * string)) f : forall (h : gmap string string),
  foldl (fun h kv => <[kv.1 := kv.2]> h) h m !! f =
  match dict_get f (rev m) with Some v => Some v | None => h !! f end.
Proof.
  induction m as [|[k v] m IH]; intros h; simpl; [done|].
  rewrite IH, dict_get_app. simpl. destruct (dict_get f (rev m)); [done|].
  destruct (String.eqb f k) eqn:E.
  - apply String.eqb_eq in E as ->. by rewrite lookup_insert_eq.
  - apply String.eqb_neq in E. by rewrite lookup_insert_ne.
Qed.

Lemma foldl_delete_lookup (m : list string) f : forall (h : gmap string string),
  foldl (fun h k => delete k h) h m !! f = if memb f m then None else h !! f.
Proof.
  induction m as [|k m IH]; intros h; cbn [foldl]; [done|]. rewrite IH.
  destruct (memb f m) eqn:E.
  - apply memb_true in E. assert (memb f (k :: m) = true) as -> by (apply memb_true; set_solver). done.
  - apply memb_false in E. destruct (decide (k = f)) as [->|Hk].
    + assert (memb f (f :: m) = true) as -> by (apply memb_true; set_solver). by rewrite lookup_delete_eq.
    + assert (memb f (k :: m) = false) as -> by (apply memb_false; set_solver). by rewrite lookup_delete_ne.
Qed.

Lemma store_set_insert a b c m k k' x :
  store_set (mkStore a b c (<[k := x]> m)) k' = if String.eqb k k' then x else default ∅ (m !! k').
Proof. apply lookup_insert_default. Qed.

#[export, refine] Instance store_redis : Redis store := {|
  kv_get t s k :=
    match st_kv s !! k with
    | Some (v, Some e) => if e <=? t then None else Some v
    | Some (v, None) => Some v
    | None => None
    end;
  hash_get s k f := store_hash s k !! f;
  list_get := store_list;
  set_has s k x := bool_decide (x ∈ store_set s k);
  kv_set now k v ex s :=
    mkStore (<[k := (v, (fun e => now + e) <$> ex)]> (st_kv s)) (st_hash s) (st_list s) (st_set s);
  kv_del k s := mkStore (delete k (st_kv s)) (st_hash s) (st_list s) (st_set s);
  hset k m s :=
    mkStore (st_kv s) (<[k := foldl (fun h kv => <[kv.1 := kv.2]> h) (store_hash s k) m]> (st_hash s))
      (st_list s) (st_set s);
  hdel k m s :=
    mkStore (st_kv s) (<[k := foldl (fun h f => delete f h) (store_hash s k) m]> (st_hash s))
      (st_list s) (st_set s);
  lpush k x s := mkStore (st_kv s) (st_hash s) (<[k := x :: store_list s k]> (st_list s)) (st_set s);
  ltrim k n s := mkStore (st_kv s) (st_hash s) (<[k := take n (store_list s k)]> (st_list s)) (st_set s);
  sadd k x s := mkStore (st_kv s) (st_hash s) (st_list s) (<[k := {[x]} ∪ store_set s k]> (st_set s));
  srem k x s := mkStore (st_kv s) (st_hash s) (st_list s) (<[k := store_set s k ∖ {[x]}]> (st_set s));
|}.
Proof.
  all: try done.
  - intros t t' k v r Ht. simpl. destruct (st_kv r !! k) as [[b [e|]]|]; [|done..].
    destruct (Z.leb_spec e t'), (Z.leb_spec e t); try done; lia.
  - intros now t k v ex k' r Ht. simpl. destruct (String.eqb k k') eqn:E.
    + apply String.eqb_eq in E as ->. rewrite lookup_insert_eq. by destruct ex.
    + apply String.eqb_neq in E. by rewrite lookup_insert_ne.
  - intros t k k' r. simpl. destruct (String.eqb k k') eqn:E.
    + apply String.eqb_eq in E as ->. by rewrite lookup_delete_eq.
    + apply String.eqb_neq in E. by rewrite lookup_delete_ne.
  - intros k m k' f r. unfold store_hash at 1. simpl. rewrite lookup_insert_default.
    destruct (String.eqb k k') eqn:E; [|done]. apply String.eqb_eq in E as ->. exact (foldl_insert_lookup m f _).
  - intros k m k' f r. unfold store_hash at 1. simpl. rewrite lookup_insert_default.
    destruct (String.eqb k k') eqn:E; [|done]. apply String.eqb_eq in E as ->. exact (foldl_delete_lookup m f _).
  - intros k x k' r. unfold store_list at 1. simpl. rewrite lookup_insert_default.
    destruct (String.eqb k k') eqn:E; [|done]. by apply String.eqb_eq in E as ->.
  - intros k n k' r. unfold store_list at 1. simpl. rewrite lookup_insert_default.
    destruct (String.eqb k k') eqn:E; [|done]. by apply String.eqb_eq in E as ->.
  - intros k y k' x r. cbn beta iota. rewrite store_set_insert.
    destruct (String.eqb k k') eqn:E; simpl; [|done]. apply String.eqb_eq in E as ->.
    destruct (String.eqb y x) eqn:Ey; simpl.
    + apply String.eqb_eq in Ey as ->. apply bool_decide_eq_true. set_solver.
    + apply String.eqb_neq in Ey. apply bool_decide_ext. set_solver.
  - intros k y k' x r. cbn beta iota. rewrite store_set_insert.
    destruct (String.eqb k k') eqn:E; simpl; [|done]. apply String.eqb_eq in E as ->.
    destruct (String.eqb y x) eqn:Ey; simpl.
    + apply String.eqb_eq in Ey as ->. apply bool_decide_eq_false. set_solver.
    + apply String.eqb_neq in Ey. apply bool_decide_ext. set_solver.
Defined.
