(* ===== verification/CacheStatus.v ===== *)
(** * Debrid cache status (workers/providers/cache_helpers.py)

    Which info hashes a provider has cached, kept in a Redis hash of expiry
    times, and the marker that a check was made recently.  Times are seconds;
    [up] is false when the Redis calls raise.  The SHA-256 digest and the
    public MediaFusion host are parameters. *)

From S2P Require Export Redis UserConfig.
Local Open Scope string_scope.
Local Open Scope Z_scope.

Definition CACHE_KEY_PREFIX : string := "debrid_cache:".
Definition EXPIRY_DAYS : Z := 7.
Definition CACHE_CHECK_PREFIX : string := "debrid_checked:".
Definition CACHE_CHECK_TTL : Z := 1800.
Definition GLOBAL_CACHE_CHECK_PROVIDERS : list string := ["torbox"; "stremthru"; "offcloud"; "premiumize"].

Record cache_settings := mkCacheSettings {
  store_stremthru_magnet_cache : bool;
  sync_debrid_cache_streams : bool;
  mediafusion_url : bool;  (* set and not empty *)
}.

Definition get_cache_service_name (p : StreamingProvider) : string :=
  match stremthru_store_name p with
  | Some n => if String.eqb (service p) "stremthru" && negb (str_empty n) then n else service p
  | None => service p
  end.

Section CacheStatus.
Context {R : Type} `{Redis R}.

Definition get_provider_user_hash (sha256_hex : string -> string) (p : StreamingProvider) : string :=
  let raw :=
    if str_truthy (token p) then default "" (token p)
    else if str_truthy (email p) && str_truthy (password p)
    then default "" (email p) +:+ default "" (password p)
    else service p in
  str_take 10 (sha256_hex raw).

Definition build_cache_check_key (sha256_hex : string -> string) (p : StreamingProvider) (media_id : string) : string :=
  let svc := get_cache_service_name p in
  if memb svc GLOBAL_CACHE_CHECK_PROVIDERS
  then CACHE_CHECK_PREFIX +:+ svc +:+ ":" +:+ media_id
  else CACHE_CHECK_PREFIX +:+ svc +:+ ":" +:+ get_provider_user_hash sha256_hex p +:+ ":" +:+ media_id.

Definition is_cache_check_done (sha256_hex : string -> string) (now : Z) (p : StreamingProvider) (media_id : string) (r : R) : bool :=
  match kv_get now r (build_cache_check_key sha256_hex p media_id) with Some _ => true | None => false end.

Definition mark_cache_check_done (sha256_hex : string -> string) (now : Z) (p : StreamingProvider) (media_id : string) (r : R) : R :=
  kv_set now (build_cache_check_key sha256_hex p media_id) (BText "1") (Some CACHE_CHECK_TTL) r.

(** ** Recording cached hashes *)

Definition cache_key (svc : string) : string := CACHE_KEY_PREFIX +:+ svc.

(** [dict.fromkeys(info_hashes, timestamp)] *)
Definition cache_data (info_hashes : list string) (timestamp : Z) : list (string * string) :=
  map (fun h => (h, str_of_int timestamp)) (uniq info_hashes).

(** The state of Redis, and the hashes submitted to the public host. *)
Definition store_cached_info_hashes (s : cache_settings) (up : bool) (now : Z) (p : StreamingProvider)
    (info_hashes : list string) (service_override : option string) (r : R) : R * list string :=
  match info_hashes with
  | [] => (r, [])
  | _ =>
      if String.eqb (service p) "stremthru" && negb (store_stremthru_magnet_cache s) then (r, [])
      else
        let svc := if str_truthy service_override then default "" service_override
                   else get_cache_service_name p in
        if up then
          (hset (cache_key svc) (cache_data info_hashes (now + EXPIRY_DAYS * 86400)) r,
           if sync_debrid_cache_streams s then info_hashes else [])
        else (r, [])
  end.

(** ** Reading the status back *)

(** One hash and the field Redis returned for it. *)
Inductive freshness := Fresh | Stale | Missing.
Definition classify (now : Z) (field : option string) : freshness :=
  match field with
  | None => Missing
  | Some t => match int_of_string t with
              | Ret expiry => if now <? expiry then Fresh else Stale
              | Raise _ => Stale
              end
  end.
Definition is_fresh (f : freshness) : bool := match f with Fresh => true | _ => false end.
Definition is_stale (f : freshness) : bool := match f with Stale => true | _ => false end.

(** [MediaFusionCacheClient.fetch_cache_status]: [response] is the decoded
    ["cached_status"] of the reply, [None] when the request fails; what it
    reports as cached is stored. *)
Definition fetch_cache_status (s : cache_settings) (up : bool) (now : Z) (p : StreamingProvider)
    (info_hashes : list string) (response : option (list (string * bool))) (r : R) : R * list (string * bool) :=
  if (match info_hashes with [] => true | _ => false end) || negb (mediafusion_url s) then (r, [])
  else match response with
       | None => (r, [])
       | Some status =>
           let cached_hashes := map fst (List.filter snd status) in
           ((store_cached_info_hashes s up now p cached_hashes None r).1, status)
       end.

Definition false_for (hs : list string) (d : list (string * bool)) : list (string * bool) :=
  foldl (fun d h => dict_set h false d) d hs.

Definition get_cached_status (s : cache_settings) (up : bool) (now : Z) (p : StreamingProvider)
    (info_hashes : list string) (response : option (list (string * bool))) (r : R) : R * list (string * bool) :=
  match info_hashes with
  | [] => (r, [])
  | _ =>
      if up then
        let key := cache_key (get_cache_service_name p) in
        let state h := classify now (hash_get r key h) in
        let result := foldl (fun d h => dict_set h true d) [] (List.filter (fun h => is_fresh (state h)) info_hashes) in
        let expired := List.filter (fun h => is_stale (state h)) info_hashes in
        let needed := List.filter (fun h => negb (is_fresh (state h))) info_hashes in
        let r := match expired with [] => r | _ => hdel key expired r end in
        match needed with
        | _ :: _ =>
            if sync_debrid_cache_streams s then
              let '(r, status) := fetch_cache_status s up now p needed response r in
              (r, dict_update result status)
            else (r, false_for needed result)
        | [] => (r, false_for needed result)
        end
      else (r, false_for info_hashes [])
  end.

(** [cleanup_service_cache]: [pages] are the batches HSCAN returns, the last
    one with cursor 0. *)
Definition field_expired (now : Z) (t : string) : bool :=
  match int_of_string t with Ret e => e <=? now | Raise _ => true end.

Fixpoint cleanup_pages (now : Z) (key : string) (pages : list (list (string * string)))
    (expired : list string) (r : R) : R :=
  match pages with
  | [] => r
  | page :: pages =>
      let expired := (expired ++ map fst (List.filter (fun kv => field_expired now kv.2) page))%list in
      let last := match pages with [] => true | _ => false end in
      if (match expired with [] => false | _ => true end) && ((1000 <=? Z.of_nat (length expired)) || last)
      then cleanup_pages now key pages [] (hdel key expired r)
      else cleanup_pages now key pages expired r
  end.

Definition cleanup_service_cache (up : bool) (now : Z) (svc : string)
    (pages : list (list (string * string))) (r : R) : R :=
  if up then cleanup_pages now (cache_key svc) pages [] r else r.

(** ** Lemmas on the result dictionary *)

Lemma dict_get_set_all {A} k (v : A) hs : forall d,
  dict_get k (foldl (fun d h => dict_set h v d) d hs) = if memb k hs then Some v else dict_get k d.
Proof.
  induction hs as [|h hs IH]; intros d; cbn [foldl]; [done|].
  rewrite IH, dict_get_set. destruct (memb k hs) eqn:E.
  - apply memb_true in E. assert (memb k (h :: hs) = true) as -> by (apply memb_true; set_solver). done.
  - apply memb_false in E. destruct (String.eqb k h) eqn:Eh.
    + apply String.eqb_eq in Eh as ->.
      assert (memb h (h :: hs) = true) as -> by (apply memb_true; set_solver). done.
    + apply String.eqb_neq in Eh.
      assert (memb k (h :: hs) = false) as -> by (apply memb_false; set_solver). done.
Qed.

Lemma dict_get_map_const k (t : string) hs :
  dict_get k (map (fun h => (h, t)) hs) = if memb k hs then Some t else None.
Proof.
  induction hs as [|h hs IH]; simpl; [done|]. rewrite IH. destruct (String.eqb k h) eqn:E.
  - apply String.eqb_eq in E as ->. assert (memb h (h :: hs) = true) as -> by (apply memb_true; set_solver). done.
  - apply String.eqb_neq in E. unfold memb. by rewrite (bool_decide_ext (k ∈ h :: hs) (k ∈ hs)) by set_solver.
Qed.

(** ** Properties *)

(** What a lookup without the public host reports for each requested hash. *)
Lemma status_local s now p hs resp r h :
  sync_debrid_cache_streams s = false -> h ∈ hs ->
  dict_get h (get_cached_status s true now p hs resp r).2 =
  Some (is_fresh (classify now (hash_get r (cache_key (get_cache_service_name p)) h))).
Proof.
  intros Hs Hh. unfold get_cached_status. destruct hs as [|h0 hs']; [set_solver|].
  set (hs := h0 :: hs') in *. rewrite Hs.
  set (state := fun h => classify now (hash_get r (cache_key (get_cache_service_name p)) h)).
  match goal with |- dict_get h ?t.2 = _ =>
    assert (t.2 = false_for (List.filter (fun h => negb (is_fresh (state h))) hs)
              (foldl (fun d h => dict_set h true d) [] (List.filter (fun h => is_fresh (state h)) hs))) as -> end.
  { by destruct (List.filter (fun h => negb _) hs). }
  unfold false_for. rewrite !dict_get_set_all. cbn [dict_get]. fold (state h).
  destruct (is_fresh (state h)) eqn:E.
  - assert (memb h (List.filter (fun h => negb (is_fresh (state h))) hs) = false) as ->
      by (apply memb_false; rewrite filter_elem, E; naive_solver).
    assert (memb h (List.filter (fun h => is_fresh (state h)) hs) = true) as ->
      by (apply memb_true; by rewrite filter_elem). done.
  - assert (memb h (List.filter (fun h => negb (is_fresh (state h))) hs) = true) as ->
      by (apply memb_true; by rewrite filter_elem, E). done.
Qed.

Lemma stored_field s now p hs override r svc h :
  (String.eqb (service p) "stremthru" && negb (store_stremthru_magnet_cache s)) = false ->
  svc = (if str_truthy override then default "" override else get_cache_service_name p) ->
  h ∈ hs ->
  hash_get (store_cached_info_hashes s true now p hs override r).1 (cache_key svc) h =
  Some (str_of_int (now + EXPIRY_DAYS * 86400)).
Proof.
  intros Hst -> Hh. unfold store_cached_info_hashes. destruct hs as [|h0 hs']; [set_solver|].
  rewrite Hst. cbn [fst]. rewrite hash_get_hset, String.eqb_refl. unfold cache_data.
  rewrite <- map_rev, dict_get_map_const.
  assert (memb h (rev (uniq (h0 :: hs'))) = true) as ->; [|done].
  apply memb_true. rewrite list_elem_of_In, <- in_rev, <- list_elem_of_In. by apply uniq_elem.
Qed.

(** Cached status lasts exactly seven days: a hash recorded as cached for a
    provider is reported cached at every moment before the expiry and not
    cached from then on, whatever else is asked in the same request, when no
    public host is consulted. *)
Theorem cached_for_seven_days (s : cache_settings) (now t : Z) (p : StreamingProvider)
    (stored asked : list string) (resp : option (list (string * bool))) (h : string) (r : R) :
  sync_debrid_cache_streams s = false ->
  (String.eqb (service p) "stremthru" && negb (store_stremthru_magnet_cache s)) = false ->
  0 <= now -> now + EXPIRY_DAYS * 86400 < 10 ^ 4300 -> h ∈ stored -> h ∈ asked ->
  dict_get h (get_cached_status s true t p asked resp
                (store_cached_info_hashes s true now p stored None r).1).2 =
  Some (t <? now + EXPIRY_DAYS * 86400).
Proof.
  intros Hs Hst Hn Hmax Hh Ha. rewrite status_local by done.
  rewrite (stored_field s now p stored None r _ h Hst eq_refl Hh). unfold classify.
  rewrite int_of_string_str_of_int; [|unfold EXPIRY_DAYS; clear Hmax; lia|exact Hmax].
  by destruct (t <? _).
Qed.

Lemma status_only_deletes_stale s up now p hs resp r key f :
  sync_debrid_cache_streams s = false ->
  hash_get (get_cached_status s up now p hs resp r).1 key f =
  if up && String.eqb (cache_key (get_cache_service_name p)) key && memb f hs &&
     is_stale (classify now (hash_get r key f))
  then None else hash_get r key f.
Proof.
  intros Hs. unfold get_cached_status. destruct hs as [|h0 hs'];
    [by rewrite andb_false_r|]. set (hs := h0 :: hs'). rewrite Hs. destruct up; [|done].
  set (state := fun h => classify now (hash_get r (cache_key (get_cache_service_name p)) h)).
  match goal with |- hash_get ?t.1 _ _ = _ =>
    assert (t.1 = match List.filter (fun h => is_stale (state h)) hs with
                  | [] => r | _ => hdel (cache_key (get_cache_service_name p))
                                     (List.filter (fun h => is_stale (state h)) hs) r end) as -> end.
  { by destruct (List.filter (fun h => negb _) hs), (List.filter _ hs). }
  set (expired := List.filter (fun h => is_stale (state h)) hs).
  assert (forall r', match expired with [] => r | _ => hdel (cache_key (get_cache_service_name p)) expired r end = r' ->
    hash_get r' key f = if String.eqb (cache_key (get_cache_service_name p)) key && memb f expired then None else hash_get r key f) as Hr.
  { intros r' <-. destruct expired eqn:E; [by rewrite andb_false_r|]. rewrite <- E. by rewrite hash_get_hdel. }
  rewrite (Hr _ eq_refl). cbn [andb]. destruct (String.eqb _ key) eqn:Ek; [|done]. cbn [andb].
  apply String.eqb_eq in Ek. assert (memb f expired = memb f hs && is_stale (classify now (hash_get r key f))) as ->; [|done].
  unfold expired, state, memb. rewrite Ek. apply eq_true_iff_eq.
  by rewrite andb_true_iff, !bool_decide_eq_true, filter_elem.
Qed.

(** Reading the status only ever deletes entries that have expired or are
    unreadable, among those asked for; all others stay as they were. *)
Theorem status_keeps_live_entries (s : cache_settings) (up : bool) (now : Z) (p : StreamingProvider)
    (hs : list string) (resp : option (list (string * bool))) (r : R) (key f : string) :
  sync_debrid_cache_streams s = false ->
  let r' := (get_cached_status s up now p hs resp r).1 in
  (is_stale (classify now (hash_get r key f)) = false -> hash_get r' key f = hash_get r key f) /\
  (up = true -> f ∈ hs -> key = cache_key (get_cache_service_name p) ->
     is_stale (classify now (hash_get r' key f)) = false).
Proof.
  intros Hs r'. unfold r'. rewrite (status_only_deletes_stale s up now p hs resp r key f Hs). split.
  - intros ->. by rewrite andb_false_r.
  - intros -> Hf ->. rewrite String.eqb_refl. apply memb_true in Hf as ->. cbn [andb].
    destruct (is_stale (classify now (hash_get r _ f))) eqn:E; [done|exact E].
Qed.

(** ** Cleanup *)

Lemma cleanup_pages_get now key pages : forall expired r f,
  pages <> [] ->
  hash_get (cleanup_pages now key pages expired r) key f =
  if memb f expired || existsb (fun kv => String.eqb kv.1 f && field_expired now kv.2) (concat pages)
  then None else hash_get r key f.
Proof.
  induction pages as [|page pages IH]; intros expired r f Hp; [done|]. cbn [cleanup_pages concat].
  set (ex := (expired ++ _)%list).
  assert (memb f ex = memb f expired || existsb (fun kv => String.eqb kv.1 f && field_expired now kv.2) page) as Hex.
  { apply eq_true_iff_eq. rewrite orb_true_iff, !memb_true, existsb_exists. unfold ex.
    rewrite elem_of_app, list_elem_of_fmap. setoid_rewrite filter_elem. setoid_rewrite andb_true_iff.
    setoid_rewrite String.eqb_eq. setoid_rewrite <- list_elem_of_In. naive_solver. }
  rewrite existsb_app, orb_assoc, <- Hex. clear Hex.
  destruct (_ && _) eqn:Ed.
  - assert (forall r', hash_get r' key f = (if memb f ex then None else hash_get r key f) ->
      hash_get (cleanup_pages now key pages [] r') key f =
      if memb f ex || existsb (fun kv => String.eqb kv.1 f && field_expired now kv.2) (concat pages) then None
      else hash_get r key f) as Hgo.
    { intros r' Hr'. destruct pages as [|pg pages]; [simpl; by rewrite orb_false_r|].
      rewrite IH by done. rewrite Hr'. change (memb f []) with false. simpl. by destruct (memb f ex), (existsb _ _). }
    apply Hgo. by rewrite hash_get_hdel, String.eqb_refl.
  - destruct pages as [|pg pages]; [|by apply IH].
    rewrite orb_true_r, andb_true_r in Ed. destruct ex; [done|done].
Qed.

(** Cleanup removes exactly the expired or unreadable entries HSCAN
    reported, over any division into pages, and nothing else. *)
Theorem cleanup_removes_expired (now : Z) (svc : string) (pages : list (list (string * string)))
    (r : R) (f : string) :
  pages <> [] ->
  hash_get (cleanup_service_cache true now svc pages r) (cache_key svc) f =
  if existsb (fun kv => String.eqb kv.1 f && field_expired now kv.2) (concat pages)
  then None else hash_get r (cache_key svc) f.
Proof. intros Hp. unfold cleanup_service_cache. by rewrite cleanup_pages_get. Qed.

(** The marker of a completed check is seen for thirty minutes and by that
    provider, credentials and media only: it is present until the time to live
    has passed, absent after, and markers under other keys are not affected. *)
Theorem check_marker_lifetime (sha256_hex : string -> string) (now t : Z) (p q : StreamingProvider) (m n : string) (r : R) :
  now <= t ->
  is_cache_check_done sha256_hex t q n (mark_cache_check_done sha256_hex now p m r) =
  if String.eqb (build_cache_check_key sha256_hex p m) (build_cache_check_key sha256_hex q n)
  then t <? now + CACHE_CHECK_TTL else is_cache_check_done sha256_hex t q n r.
Proof.
  intros Ht. unfold is_cache_check_done, mark_cache_check_done. rewrite kv_get_set by done.
  destruct (String.eqb _ _); [|done].
  destruct (now + CACHE_CHECK_TTL <=? t) eqn:E, (t <? now + CACHE_CHECK_TTL) eqn:E'; zbool; try done; lia.
Qed.
End CacheStatus.

(** ** Witnesses on the executable store *)

Definition rd : StreamingProvider := mkProvider "rd" "realdebrid" None None (Some "tok") None None [] false 0 true true.
Definition local_settings : cache_settings := mkCacheSettings true false false.

Lemma cached_for_seven_days_witness :
  dict_get "h" (get_cached_status local_settings true 604799 rd ["x"; "h"] None
     (store_cached_info_hashes local_settings true 0 rd ["h"; "g"] None empty_store).1).2 = Some true /\
  dict_get "h" (get_cached_status local_settings true 604800 rd ["h"] None
     (store_cached_info_hashes local_settings true 0 rd ["h"; "g"] None empty_store).1).2 = Some false.
Proof.
  assert (0 + EXPIRY_DAYS * 86400 < 10 ^ 4300) as Hmax by (vm_compute; reflexivity).
  assert ("h" ∈ ["h"; "g"]) by (apply memb_true; reflexivity).
  assert ("h" ∈ ["x"; "h"]) by (apply memb_true; reflexivity).
  assert ("h" ∈ ["h"]) by (apply memb_true; reflexivity).
  split; (etransitivity; [apply cached_for_seven_days; try done|reflexivity]).
Defined.

Lemma status_keeps_live_entries_witness :
  let r := hset "debrid_cache:realdebrid" [("a", "50"); ("b", "200"); ("c", "x")] empty_store in
  let r' := (get_cached_status local_settings true 100 rd ["a"; "b"] None r).1 in
  hash_get r' "debrid_cache:realdebrid" "b" = Some "200".
Proof.
  intros r r'.
  exact (proj1 (status_keeps_live_entries local_settings true 100 rd ["a"; "b"] None r
           "debrid_cache:realdebrid" "b" eq_refl) eq_refl).
Defined.

Lemma cleanup_removes_expired_witness :
  let r := hset "debrid_cache:rd" [("a", "50"); ("b", "200")] empty_store in
  hash_get (cleanup_service_cache true 100 "rd" [[("a", "50")]; [("b", "200")]] r) (cache_key "rd") "a" = None.
Proof. intros r. rewrite (cleanup_removes_expired 100 "rd" [[("a", "50")]; [("b", "200")]] r "a" ltac:(discriminate)). reflexivity. Defined.

Lemma check_marker_lifetime_witness :
  is_cache_check_done (fun s => s) 1799 rd "tt1" (mark_cache_check_done (fun s => s) 0 rd "tt1" empty_store) = true.
Proof. rewrite (check_marker_lifetime (fun s => s) 0 1799 rd rd "tt1" "tt1" empty_store ltac:(lia)). reflexivity. Defined.
