(* ===== verification/StreamFilter.v ===== *)
(** * Stream filtering (utils/parser.py)

    [filter_streams_by_user_preferences]: every stream of the input is either
    kept, with its working attributes set on a copy, or counted under exactly
    one reason.  User-supplied regular expressions ([re.compile]) and the adult
    title parser are parameters. *)

From S2P Require Export UsenetCompat.
Local Open Scope string_scope.
Local Open Scope Z_scope.

(** ** HDR tags *)

Definition hdr_normalize_token_key (token : string) : string := PyStr.join " " (split_ws (lower (strip token))).

Definition resolve_hdr_token_to_filter_value (token : string) : option string :=
  let stripped := strip token in
  if str_empty stripped then None
  else
    let key := hdr_normalize_token_key stripped in
    if String.eqb key "unknown" then Some "Unknown"
    else match dict_get key HDR_FORMAT_ALIASES with
         | Some mapped => Some mapped
         | None => if memb stripped HDR_FORMATS_FILTERS then Some stripped else None
         end.

Definition normalized_hdr_filter_and_display (raw_formats : list string) : list string * list string :=
  let raw := List.filter (fun t => negb (str_empty t)) (map strip raw_formats) in
  match raw with
  | [] => (["Unknown"], [])
  | _ =>
      let resolved := map resolve_hdr_token_to_filter_value raw in
      let unmapped := existsb (fun o => match o with None => true | Some _ => false end) resolved in
      let filter_formats := uniq (omap id resolved) in
      let filter_formats :=
        if unmapped && negb (memb "Unknown" filter_formats) then (filter_formats ++ ["Unknown"])%list
        else filter_formats in
      (filter_formats, List.filter (fun h => negb (String.eqb h "Unknown")) filter_formats)
  end.

(** ** Episode from a Stremio id *)

Definition season_episode_from_stremio_video_id (id : string) : option Z * option Z :=
  let parts := split_char ":" id in
  match rev parts with
  | e :: s :: _ :: _ =>
      match int_of_string e, int_of_string s with
      | Ret episode, Ret season => (Some season, Some episode)
      | _, _ => (None, None)
      end
  | _ => (None, None)
  end.

Definition sort_size_bytes_for_stream (s : StreamData) (season episode : option Z) : Z :=
  let total := size_or_0 s in
  match season, episode, files s with
  | Some season, Some episode, Some fs =>
      match get_file_for_episode season episode fs with
      | Some f => if 0 <? file_size f then file_size f else total
      | None => total
      end
  | _, _, _ => total
  end.

(** ** Filtering *)

(** [size > max_size] for an [int] or [float] limit. *)
Definition exceeds (size : Z) (limit : size_limit) : bool :=
  match limit with
  | IntLimit z => z <? size
  | FloatLimit f =>
      match f with
      | S754_nan => false
      | S754_infinity neg => neg
      | S754_zero _ => 0 <? size
      | S754_finite neg m e => let '(n, d) := frac_of m e in (if neg then - n else n) <? size * d
      end
  end.

Inductive reason :=
  | RequiresStreamingProvider
  | RequiresPrivateTrackerSupport
  | ResolutionNotSelected
  | MaxSizeExceeded
  | MinSizeNotMet
  | QualityNotSelected
  | HDRNotSelected
  | LanguageNotSelected
  | Strict18KeywordFilter
  | StreamNameFilter
  | NoCachedStreams
  | ProviderIndexerMismatch.

#[export] Instance reason_eq_dec : EqDecision reason.
Proof. solve_decision. Defined.

Definition SUPPORTED_PRIVATE_TRACKER_STREAMING_PROVIDERS : list string := ["debridlink"; "qbittorrent"; "torbox"].

Inductive name_patterns :=
  | Regexes (l : list (string -> bool))
  | Keywords (l : list string).

Section StreamFilter.
Context (re_compile : string -> option (string -> bool))
        (bracketed_ok : string -> bool)
        (is_contain_18_plus_keywords : string -> bool)
        (scrap_public : bool)
        (nzbdav : NzbdavDefaults).

(** The patterns in force; those that do not compile are ignored. *)
Definition compiled_name_patterns (u : UserData) : name_patterns :=
  let safe := List.filter (fun p => slen p <=? MAX_STREAM_NAME_FILTER_PATTERN_LENGTH)
                (take MAX_STREAM_NAME_FILTER_PATTERNS (stream_name_filter_patterns u)) in
  match stream_name_filter_mode u with
  | FilterDisabled => Keywords []
  | _ => if stream_name_filter_use_regex u then Regexes (omap re_compile safe) else Keywords (map lower safe)
  end.

Definition no_patterns (p : name_patterns) : bool :=
  match p with Regexes [] | Keywords [] => true | _ => false end.

Definition matches_any (p : name_patterns) (name : string) : bool :=
  match p with
  | Regexes l => existsb (fun re => re name) l
  | Keywords l => existsb (fun k => contains k (lower name)) l
  end.

Definition name_rejected (u : UserData) (name : string) : bool :=
  let pats := compiled_name_patterns u in
  if bool_decide (stream_name_filter_mode u <> FilterDisabled) && negb (no_patterns pats) then
    match stream_name_filter_mode u with
    | FilterInclude => negb (matches_any pats name)
    | FilterExclude => matches_any pats name
    | FilterDisabled => false
    end
  else false.

(** [const.QUALITY_GROUPS[group]] for every group; an unknown group raises. *)
Fixpoint quality_filter_set (groups : list string) : outcome py_exn (list (option string)) :=
  match groups with
  | [] => Ret []
  | g :: groups =>
      match dict_get g QUALITY_GROUPS with
      | None => Raise KeyError
      | Some qs => rest ← quality_filter_set groups; Ret (qs ++ rest)%list
      end
  end.

Definition resolve_primary (override : option StreamingProvider) (u : UserData) : option StreamingProvider :=
  match override with Some p => Some p | None => get_primary_provider nzbdav u end.

(** The working copy of a stream. *)
Definition prepare (s : StreamData) : StreamData :=
  with_filtered s
    (if memb (resolution s) RESOLUTIONS then resolution s else None)
    (if memb (quality s) SUPPORTED_QUALITIES then quality s else None)
    (normalized_hdr_filter_and_display (hdr_formats s)).1
    (match map Some (List.filter (fun l => memb (Some l) LANGUAGES_FILTERS) (languages s)) with
     | [] => [None]
     | l => l
     end)
    false.

(** The provider requirements of torrents that are not public. *)
Definition provider_reject (primary : option StreamingProvider) (s : StreamData) : option reason :=
  let tt := default "public" (torrent_type s) in
  if String.eqb tt "public" then None
  else match primary with
       | None => Some RequiresStreamingProvider
       | Some p =>
           if negb (String.eqb tt "web-seed")
              && negb (memb (service p) SUPPORTED_PRIVATE_TRACKER_STREAMING_PROVIDERS)
           then Some RequiresPrivateTrackerSupport else None
       end.

(** The tests on the working copy, in order. *)
Definition preference_reject (u : UserData) (qualities : list (option string)) (s : StreamData) : option reason :=
  if negb (memb (filtered_resolution s) (selected_resolutions u)) then Some ResolutionNotSelected
  else if exceeds (size_or_0 s) (max_size u) then Some MaxSizeExceeded
  else if (0 <? min_size u) && (0 <? size_or_0 s) && (size_or_0 s <? min_size u) then Some MinSizeNotMet
  else if negb (memb (filtered_quality s) qualities) then Some QualityNotSelected
  else if negb (existsb (fun h => memb h (hdr_filter u)) (filtered_hdr_formats s)) then Some HDRNotSelected
  else if negb (existsb (fun l => memb l (language_sorting u)) (filtered_languages s)) then Some LanguageNotSelected
  else if is_contain_18_plus_keywords (stream_name s) then Some Strict18KeywordFilter
  else if name_rejected u (stream_name s) then Some StreamNameFilter
  else None.

(** One turn of the filtering loop. *)
Definition examine (primary : option StreamingProvider) (u : UserData) (qualities : list (option string))
    (s : StreamData) : StreamData + reason :=
  match provider_reject primary s with
  | Some r => inr r
  | None =>
      let s := prepare s in
      match preference_reject u qualities s with
      | Some r => inr r
      | None => inl s
      end
  end.

(** The kept streams in order, and the reasons of the others. *)
Fixpoint filter_loop (primary : option StreamingProvider) (u : UserData) (qualities : list (option string))
    (streams : list StreamData) : list StreamData * list reason :=
  match streams with
  | [] => ([], [])
  | s :: streams =>
      let '(kept, reasons) := filter_loop primary u qualities streams in
      match examine primary u qualities s with
      | inl s => (s :: kept, reasons)
      | inr r => (kept, r :: reasons)
      end
  end.

(** The compatibility pass over Usenet streams; a malformed address raises. *)
Fixpoint usenet_pass (p : StreamingProvider) (u : UserData) (streams : list StreamData) :
    outcome py_exn (list StreamData * list reason) :=
  match streams with
  | [] => Ret ([], [])
  | s :: streams =>
      m ← is_usenet_stream_compatible bracketed_ok scrap_public s (service p) (newznab_indexers u);
      rest ← usenet_pass p u streams;
      Ret match m with
          | None => (s :: rest.1, rest.2)
          | Some _ => (rest.1, ProviderIndexerMismatch :: rest.2)
          end
  end.

(** [filtered_reasons] as the multiset it counts. *)
Definition count (r : reason) (l : list reason) : nat := length (List.filter (fun x => bool_decide (x = r)) l).

Definition filter_streams_by_user_preferences (streams : list StreamData) (u : UserData)
    (provider_override : option StreamingProvider) (is_usenet : bool) :
    outcome py_exn (list StreamData * list reason) :=
  qualities ← quality_filter_set (quality_filter u);
  let primary := resolve_primary provider_override u in
  pass ← match primary with
         | Some p => if is_usenet then usenet_pass p u streams else Ret (streams, [])
         | None => Ret (streams, [])
         end;
  let '(kept, reasons) := filter_loop primary u qualities pass.1 in
  Ret (kept, (pass.2 ++ reasons)%list).

(** ** What the user's preferences mean *)

Definition shown_resolution (s : StreamData) : option string :=
  if memb (resolution s) RESOLUTIONS then resolution s else None.
Definition shown_quality (s : StreamData) : option string :=
  if memb (quality s) SUPPORTED_QUALITIES then quality s else None.

Record acceptable (primary : option StreamingProvider) (u : UserData) (s : StreamData) : Prop := {
  acc_provider :
    default "public" (torrent_type s) = "public" \/
    exists p, primary = Some p /\
      (default "public" (torrent_type s) = "web-seed" \/ service p ∈ SUPPORTED_PRIVATE_TRACKER_STREAMING_PROVIDERS);
  acc_resolution : shown_resolution s ∈ selected_resolutions u;
  acc_max : exceeds (size_or_0 s) (max_size u) = false;
  acc_min : min_size u <= 0 \/ size_or_0 s <= 0 \/ min_size u <= size_or_0 s;
  acc_quality : exists g qs, g ∈ quality_filter u /\ dict_get g QUALITY_GROUPS = Some qs /\ shown_quality s ∈ qs;
  acc_hdr : exists h, h ∈ (normalized_hdr_filter_and_display (hdr_formats s)).1 /\ h ∈ hdr_filter u;
  acc_language :
    (exists l, l ∈ languages s /\ Some l ∈ LANGUAGES_FILTERS /\ Some l ∈ language_sorting u) \/
    ((forall l, l ∈ languages s -> Some l ∉ LANGUAGES_FILTERS) /\ None ∈ language_sorting u);
  acc_adult : is_contain_18_plus_keywords (stream_name s) = false;
  acc_name : name_rejected u (stream_name s) = false;
}.

Lemma quality_set_elem groups : forall qualities q,
  quality_filter_set groups = Ret qualities ->
  q ∈ qualities <-> exists g qs, g ∈ groups /\ dict_get g QUALITY_GROUPS = Some qs /\ q ∈ qs.
Proof.
  induction groups as [|g groups IH]; intros qualities q; cbn [quality_filter_set].
  - intros [= <-]. split; [set_solver|]. intros (g & qs & Hg & _). set_solver.
  - destruct (dict_get g QUALITY_GROUPS) as [qs|] eqn:Eg; [|done].
    destruct (quality_filter_set groups) as [rest|]; [|done]. intros [= <-].
    rewrite elem_of_app, (IH rest q eq_refl). split.
    + intros [Hq|(g' & qs' & ? & ? & ?)]; [exists g, qs|exists g', qs']; set_solver.
    + intros (g' & qs' & [->|Hg']%elem_of_cons & He & Hq); [left; congruence|right; eauto].
Qed.

Lemma provider_reject_None primary s :
  provider_reject primary s = None <->
  default "public" (torrent_type s) = "public" \/
  exists p, primary = Some p /\
    (default "public" (torrent_type s) = "web-seed" \/ service p ∈ SUPPORTED_PRIVATE_TRACKER_STREAMING_PROVIDERS).
Proof.
  unfold provider_reject. generalize (default "public" (torrent_type s)) as tt. intros tt.
  destruct (String.eqb_spec tt "public") as [->|Hp]; [split; auto|].
  destruct primary as [p|]; [|split; [done|intros [?|(? & ? & _)]; done]].
  destruct (String.eqb_spec tt "web-seed") as [->|Hw]; simpl; [split; eauto|].
  destruct (memb _ _) eqn:Em; simpl.
  - apply memb_true in Em. split; eauto.
  - apply memb_false in Em. split; [done|]. intros [?|(q & [= <-] & [?|?])]; done.
Qed.

Lemma languages_selected (langs : list string) (sel : list (option string)) :
  existsb (fun l => memb l sel)
    (match map Some (List.filter (fun l => memb (Some l) LANGUAGES_FILTERS) langs) with [] => [None] | l => l end) = true <->
  (exists l, l ∈ langs /\ Some l ∈ LANGUAGES_FILTERS /\ Some l ∈ sel) \/
  ((forall l, l ∈ langs -> Some l ∉ LANGUAGES_FILTERS) /\ None ∈ sel).
Proof.
  assert (forall l, l ∈ List.filter (fun l => memb (Some l) LANGUAGES_FILTERS) langs <-> l ∈ langs /\ Some l ∈ LANGUAGES_FILTERS) as Hf.
  { intros l. by rewrite filter_elem, memb_true. }
  rewrite existsb_elem. setoid_rewrite memb_true.
  destruct (List.filter _ langs) as [|l0 ls] eqn:E.
  - simpl. split.
    + intros (x & Hx & Hs). apply list_elem_of_singleton in Hx as ->. right. split; [|done].
      intros l Hl Hk. by apply (not_elem_of_nil l), Hf.
    + intros [(l & Hl & Hk & _)|[_ Hn]]; [by destruct (not_elem_of_nil l); apply Hf|].
      exists None. split; [by apply list_elem_of_singleton|done].
  - change (map Some (l0 :: ls)) with (Some l0 :: map Some ls). split.
    + intros (x & Hx & Hs). left. change (x ∈ Some <$> (l0 :: ls)) in Hx.
      apply list_elem_of_fmap in Hx as (l & -> & Hl). exists l. apply Hf in Hl as [? ?]. done.
    + intros [(l & Hl & Hk & Hs)|[Hno _]].
      * exists (Some l). split; [|done]. change (Some l ∈ Some <$> (l0 :: ls)).
        apply list_elem_of_fmap. exists l. split; [done|]. by apply Hf.
      * destruct (proj1 (Hf l0) ltac:(set_solver)) as [H1 H2]. by destruct (Hno l0 H1).
Qed.

Lemma preference_reject_None u qualities s :
  quality_filter_set (quality_filter u) = Ret qualities ->
  preference_reject u qualities (prepare s) = None <->
  shown_resolution s ∈ selected_resolutions u /\
  exceeds (size_or_0 s) (max_size u) = false /\
  (min_size u <= 0 \/ size_or_0 s <= 0 \/ min_size u <= size_or_0 s) /\
  shown_quality s ∈ qualities /\
  (exists h, h ∈ (normalized_hdr_filter_and_display (hdr_formats s)).1 /\ h ∈ hdr_filter u) /\
  ((exists l, l ∈ languages s /\ Some l ∈ LANGUAGES_FILTERS /\ Some l ∈ language_sorting u) \/
   ((forall l, l ∈ languages s -> Some l ∉ LANGUAGES_FILTERS) /\ None ∈ language_sorting u)) /\
  is_contain_18_plus_keywords (stream_name s) = false /\
  name_rejected u (stream_name s) = false.
Proof.
  intros Hq. unfold preference_reject.
  change (filtered_resolution (prepare s)) with (shown_resolution s).
  change (filtered_quality (prepare s)) with (shown_quality s).
  change (filtered_hdr_formats (prepare s)) with (normalized_hdr_filter_and_display (hdr_formats s)).1.
  change (size_or_0 (prepare s)) with (size_or_0 s). change (stream_name (prepare s)) with (stream_name s).
  rewrite <- languages_selected. unfold prepare. cbn [with_filtered filtered_languages].
  assert (existsb (fun h => memb h (hdr_filter u)) (normalized_hdr_filter_and_display (hdr_formats s)).1 = true <->
    exists h, h ∈ (normalized_hdr_filter_and_display (hdr_formats s)).1 /\ h ∈ hdr_filter u) as <-.
  { rewrite existsb_elem. by setoid_rewrite memb_true. }
  rewrite <- !memb_true.
  assert (forall (r : reason) (P : Prop), ~ P -> Some r = None <-> P) as Hno by (by intros; split).
  destruct (memb (shown_resolution s) _); cbn [negb]; [|apply Hno; by intros [? _]].
  destruct (exceeds _ _); [apply Hno; by intros (_ & ? & _)|].
  destruct ((0 <? min_size u) && (0 <? size_or_0 s) && (size_or_0 s <? min_size u)) eqn:Em;
    [zbool; apply Hno; intros (_ & _ & ? & _); lia|].
  assert (min_size u <= 0 \/ size_or_0 s <= 0 \/ min_size u <= size_or_0 s) by lia. clear Em.
  destruct (memb (shown_quality s) _); cbn [negb]; [|apply Hno; by intros (_ & _ & _ & ? & _)].
  destruct (existsb (fun h => memb h (hdr_filter u)) _); cbn [negb]; [|apply Hno; by intros (_ & _ & _ & _ & ? & _)].
  destruct (existsb (fun l => memb l (language_sorting u)) _); cbn [negb]; [|apply Hno; by intros (_ & _ & _ & _ & _ & ? & _)].
  destruct (is_contain_18_plus_keywords _); [apply Hno; by intros (_ & _ & _ & _ & _ & _ & ? & _)|].
  destruct (name_rejected _ _); [apply Hno; by intros (_ & _ & _ & _ & _ & _ & _ & ?)|].
  done.
Qed.

(** The decision of one turn is the specification's. *)
Lemma examine_spec primary u qualities s :
  quality_filter_set (quality_filter u) = Ret qualities ->
  (acceptable primary u s <-> examine primary u qualities s = inl (prepare s)).
Proof.
  intros Hq. unfold examine.
  pose proof (provider_reject_None primary s) as Hp. pose proof (preference_reject_None u qualities s Hq) as Hr.
  rewrite (quality_set_elem _ _ _ Hq) in Hr.
  destruct (provider_reject primary s).
  - split; [|done]. intros Ha. assert (Some r = None) by (apply Hp, (acc_provider _ _ _ Ha)). done.
  - destruct (preference_reject u qualities (prepare s)).
    + split; [|done]. intros []. assert (Some r = None) by (apply Hr; done). done.
    + split; [done|]. intros _. destruct (proj1 Hp eq_refl); destruct (proj1 Hr eq_refl) as (?&?&?&?&?&?&?&?);
        constructor; try done; auto.
Qed.

Lemma examine_inl primary u qualities s s' : examine primary u qualities s = inl s' -> s' = prepare s.
Proof.
  unfold examine. destruct (provider_reject primary s); [done|].
  destruct (preference_reject u qualities (prepare s)); [done|]. by intros [= <-].
Qed.

(** [kept] lists, in order and once each, the working copies of the acceptable
    streams. *)
Inductive keeps (ok : StreamData -> Prop) : list StreamData -> list StreamData -> Prop :=
  | keeps_nil : keeps ok [] []
  | keeps_yes s l kept : ok s -> keeps ok l kept -> keeps ok (s :: l) (prepare s :: kept)
  | keeps_no s l kept : ~ ok s -> keeps ok l kept -> keeps ok (s :: l) kept.

Lemma filter_loop_spec primary u qualities streams :
  quality_filter_set (quality_filter u) = Ret qualities ->
  let '(kept, reasons) := filter_loop primary u qualities streams in
  keeps (acceptable primary u) streams kept /\
  (length kept + length reasons = length streams)%nat.
Proof.
  intros Hq. induction streams as [|s streams IH]; cbn [filter_loop]; [split; [constructor|done]|].
  destruct (filter_loop primary u qualities streams) as [kept reasons]. destruct IH as [IH1 IH2].
  pose proof (examine_spec primary u qualities s Hq) as He.
  destruct (examine primary u qualities s) as [s'|r] eqn:E.
  - pose proof (examine_inl _ _ _ _ _ E) as ->. split; [|simpl; lia]. constructor; [by apply He|done].
  - split; [|simpl; lia]. apply keeps_no; [|done]. intros Ha. by apply He in Ha.
Qed.

Lemma usenet_pass_spec p u streams : forall kept reasons,
  usenet_pass p u streams = Ret (kept, reasons) ->
  kept = List.filter (fun s => match is_usenet_stream_compatible bracketed_ok scrap_public s (service p) (newznab_indexers u) with
                               | Ret None => true | _ => false end) streams /\
  (length kept + length reasons = length streams)%nat.
Proof.
  induction streams as [|s streams IH]; intros kept reasons; cbn [usenet_pass List.filter]; [by intros [= <- <-]|].
  destruct (is_usenet_stream_compatible _ _ _ _ _) as [m|]; [|done]. simpl.
  destruct (usenet_pass p u streams) as [[k rs]|]; [|done]. simpl. intros H.
  destruct (IH k rs eq_refl) as [-> ?]. destruct m; simplify_eq; simpl; split; try done; lia.
Qed.

(** The streams the preference loop sees: with a Usenet request and a provider,
    the compatible ones. *)
Definition offered (primary : option StreamingProvider) (is_usenet : bool) (u : UserData) (s : StreamData) : bool :=
  match primary with
  | Some p =>
      if is_usenet
      then match is_usenet_stream_compatible bracketed_ok scrap_public s (service p) (newznab_indexers u) with
           | Ret None => true | _ => false end
      else true
  | None => true
  end.

Lemma filter_true {A} (l : list A) : List.filter (fun _ => true) l = l.
Proof. induction l as [|x l IH]; simpl; [done|by rewrite IH]. Qed.

(** [C1] Filtering keeps exactly what the user accepts and accounts for the
    rest: the result lists, in order, the working copies of the offered
    streams that meet every preference (provider, resolution, size, quality,
    HDR, language, adult and name rules) and of no others, and every stream of
    the input is either kept or counted under one reason. *)
Theorem filter_keeps_acceptable (streams : list StreamData) (u : UserData)
    (override : option StreamingProvider) (is_usenet : bool) (kept : list StreamData) (reasons : list reason) :
  filter_streams_by_user_preferences streams u override is_usenet = Ret (kept, reasons) ->
  let primary := resolve_primary override u in
  keeps (acceptable primary u) (List.filter (offered primary is_usenet u) streams) kept /\
  (length kept + length reasons = length streams)%nat.
Proof.
  unfold filter_streams_by_user_preferences.
  destruct (quality_filter_set (quality_filter u)) as [qualities|] eqn:Eq; [|done]. cbn [mbind outcome_bind].
  set (primary := resolve_primary override u). intros H. unfold offered.
  assert (exists ks rs rs', (length ks + length rs' = length streams)%nat /\
    ks = List.filter (offered primary is_usenet u) streams /\
    filter_loop primary u qualities ks = (kept, rs) /\ reasons = (rs' ++ rs)%list) as (ks & rs & rs' & HL & Hks & Hl & ->).
  { unfold offered. destruct primary as [p|]; [destruct is_usenet|].
    - destruct (usenet_pass p u streams) as [[ks rs']|] eqn:Eu; [|done]. cbn [mbind outcome_bind fst snd] in H.
      destruct (filter_loop (Some p) u qualities ks) as [k rs] eqn:El. injection H as <- <-.
      apply usenet_pass_spec in Eu as [-> ?]. do 3 eexists. split_and!; done.
    - cbn [mbind outcome_bind fst snd] in H. destruct (filter_loop (Some p) u qualities streams) as [k rs] eqn:El. injection H as <- <-.
      exists streams, rs, []. rewrite filter_true. by split_and!.
    - cbn [mbind outcome_bind fst snd] in H. destruct (filter_loop None u qualities streams) as [k rs] eqn:El. injection H as <- <-.
      exists streams, rs, []. rewrite filter_true. split_and!; try done. }
  pose proof (filter_loop_spec primary u qualities ks Eq) as Hs. rewrite Hl in Hs. destruct Hs as [Hk HL'].
  unfold offered in Hks. rewrite <- Hks. split; [done|]. rewrite length_app. lia.
Qed.
End StreamFilter.

(** ** HDR normalisation *)

Lemma resolve_hdr_supported t v : resolve_hdr_token_to_filter_value t = Some v -> v ∈ HDR_FORMATS_FILTERS.
Proof.
  unfold resolve_hdr_token_to_filter_value. destruct (str_empty _); [done|].
  destruct (String.eqb _ "unknown"); [intros [= <-]; apply memb_true; reflexivity|].
  destruct (dict_get _ HDR_FORMAT_ALIASES) as [m|] eqn:E.
  - intros [= <-]. revert E. generalize (hdr_normalize_token_key (strip t)) as k. intros k.
    assert (Forall (fun kv => snd kv ∈ HDR_FORMATS_FILTERS) HDR_FORMAT_ALIASES) as HF.
    { unfold HDR_FORMAT_ALIASES. repeat (constructor; [apply memb_true; reflexivity|]). constructor. }
    induction HF as [|[k' v'] d Hv _ IH]; simpl; [done|]. destruct (String.eqb k k'); [by intros [= <-]|done].
  - destruct (memb _ _) eqn:Em; [|done]. intros [= <-]. by apply memb_true.
Qed.

(** A non-blank token the normaliser does not know. *)
Definition unrecognised (t : string) : Prop :=
  strip t <> "" /\ resolve_hdr_token_to_filter_value (strip t) = None.
Definition recognised_as (t v : string) : Prop :=
  strip t <> "" /\ resolve_hdr_token_to_filter_value (strip t) = Some v.

Lemma raw_tokens_elem formats t :
  t ∈ List.filter (fun t => negb (str_empty t)) (map strip formats) <->
  exists f, f ∈ formats /\ t = strip f /\ t <> "".
Proof.
  rewrite filter_elem. change (map strip formats) with (strip <$> formats). rewrite list_elem_of_fmap. split.
  - intros [(f & -> & Hf) Hne]. exists f. split_and!; [done|done|]. by intros E; rewrite E in Hne.
  - intros (f & Hf & -> & Hne). split; [by exists f|]. by destruct (strip f).
Qed.

(** What the tokens resolve to. *)
Lemma resolved_elem formats o :
  o ∈ map resolve_hdr_token_to_filter_value (List.filter (fun t => negb (str_empty t)) (map strip formats)) <->
  exists t, t ∈ formats /\ strip t <> "" /\ resolve_hdr_token_to_filter_value (strip t) = o.
Proof.
  change (map resolve_hdr_token_to_filter_value ?l) with (resolve_hdr_token_to_filter_value <$> l).
  rewrite list_elem_of_fmap. split.
  - intros (t & -> & (f & Hf & -> & Hne)%raw_tokens_elem). by exists f.
  - intros (f & Hf & Hne & <-). exists (strip f). split; [done|]. apply raw_tokens_elem. by exists f.
Qed.

Lemma resolved_base formats v :
  v ∈ uniq (omap id (map resolve_hdr_token_to_filter_value
        (List.filter (fun t => negb (str_empty t)) (map strip formats)))) <->
  exists t, t ∈ formats /\ recognised_as t v.
Proof.
  rewrite uniq_elem, list_elem_of_omap. unfold id, recognised_as. split.
  - intros (o & (t & Ht)%resolved_elem & ->). by exists t.
  - intros (t & Ht). exists (Some v). split; [|done]. apply resolved_elem. by exists t.
Qed.

Lemma resolved_unmapped formats :
  existsb (fun o => match o with None => true | Some _ => false end)
    (map resolve_hdr_token_to_filter_value (List.filter (fun t => negb (str_empty t)) (map strip formats))) = true <->
  exists t, t ∈ formats /\ unrecognised t.
Proof.
  rewrite existsb_elem. unfold unrecognised. split.
  - intros (o & (t & Ht & Hne & <-)%resolved_elem & Ho). exists t. by destruct (resolve_hdr_token_to_filter_value (strip t)).
  - intros (t & Ht). exists None. split; [|done]. apply resolved_elem. by exists t.
Qed.

(** HDR tags for matching are canonical and never empty: they are distinct
    supported formats; a known format is listed exactly when some token means
    it; Unknown is listed exactly when there is no usable token, a token is not
    recognised or one says so; and the display list is the same list without
    Unknown. *)
Theorem hdr_formats_canonical (formats : list string) :
  let '(matching, display) := normalized_hdr_filter_and_display formats in
  matching <> [] /\ NoDup matching /\ (forall h, h ∈ matching -> h ∈ HDR_FORMATS_FILTERS) /\
  display = List.filter (fun h => negb (String.eqb h "Unknown")) matching /\
  (forall h, h <> "Unknown" -> h ∈ matching <-> exists t, t ∈ formats /\ recognised_as t h) /\
  ("Unknown" ∈ matching <->
     (forall t, t ∈ formats -> strip t = "") \/ (exists t, t ∈ formats /\ unrecognised t) \/
     exists t, t ∈ formats /\ recognised_as t "Unknown").
Proof.
  unfold normalized_hdr_filter_and_display.
  pose proof (raw_tokens_elem formats) as Hraw.
  pose proof (resolved_base formats) as Hbase. pose proof (resolved_unmapped formats) as Hun.
  set (raw := List.filter _ (map strip formats)) in *. clearbody raw.
  set (resolved := map resolve_hdr_token_to_filter_value raw) in *.
  set (unmapped := existsb _ resolved) in *. set (base := uniq (omap id resolved)) in *.
  assert (NoDup base) as Hnd by apply uniq_NoDup.
  assert (forall v, v ∈ base -> v ∈ HDR_FORMATS_FILTERS) as Hsup.
  { intros v (t & _ & _ & Ht)%Hbase. by eapply resolve_hdr_supported. }
  destruct raw as [|t0 raw'].
  { assert (forall t, t ∈ formats -> strip t = "") as Hblank.
    { intros t Ht. destruct (decide (strip t = "")); [done|].
      destruct (not_elem_of_nil (strip t)). apply Hraw. by exists t. }
    split_and!; [done|apply NoDup_singleton| |done| |].
    - intros h Hh. apply list_elem_of_singleton in Hh as ->. apply memb_true. reflexivity.
    - intros h Hh. rewrite list_elem_of_singleton. split; [done|]. intros (t & Ht & Hne & _).
      by destruct Hne; apply Hblank.
    - rewrite list_elem_of_singleton. split; [by left|done]. }
  assert (~ forall t, t ∈ formats -> strip t = "") as Hnb.
  { intros Hb. destruct (proj1 (Hraw t0) ltac:(set_solver)) as (f & Hf & -> & Hne). by apply Hne, Hb. }
  assert ("Unknown" ∈ HDR_FORMATS_FILTERS) as HuS by (apply memb_true; reflexivity).
  assert (base <> [] \/ unmapped = true) as Hsome.
  { unfold unmapped, base, resolved. cbn [map existsb omap list_omap].
    destruct (resolve_hdr_token_to_filter_value t0) as [v|]; [left|by right].
    simpl. unfold uniq. cbn [uniq_from]. rewrite decide_False by set_solver. done. }
  destruct (unmapped && negb (memb "Unknown" base)) eqn:Eu.
  - apply andb_true_iff in Eu as [Eu1 Eu2%negb_true_iff%memb_false].
    split_and!; [by destruct base| | |done| |].
    + apply NoDup_app. split_and!; [done| |apply NoDup_singleton]. intros x Hx Hs. apply list_elem_of_singleton in Hs as ->. done.
    + intros h. rewrite elem_of_app, list_elem_of_singleton. intros [Hh| ->]; auto.
    + intros h Hh. rewrite elem_of_app, list_elem_of_singleton, Hbase. naive_solver.
    + rewrite elem_of_app, list_elem_of_singleton. split; [intros _; right; left; by apply Hun|by right].
  - split_and!; [|done|done|done|by intros; apply Hbase|].
    + destruct Hsome as [?|Hu]; [done|]. rewrite Hu in Eu. simpl in Eu.
      apply negb_false_iff, memb_true in Eu. intros Hb. rewrite Hb in Eu. set_solver.
    + rewrite Hbase, <- Hun. split; [auto|]. intros [?|[Hu|?]]; [done| |done].
      rewrite Hu in Eu. simpl in Eu. apply negb_false_iff, memb_true in Eu. by apply Hbase.
Qed.

(** ** Witnesses *)

Definition torrent (n res q : string) (size : Z) (langs : list string) : StreamData :=
  mkStream n (Some size) (Some "public") (Some n) (Some res) (Some q) [] langs (Some 5) (Some 0) (Some [])
    None None None None None [] [] false.

Definition no_nzbdav : NzbdavDefaults := mkNzbdav None None.

Lemma filter_keeps_acceptable_witness :
  let u := default_user_data in
  let streams := [torrent "a" "1080p" "WEB-DL" 100 ["English"]; torrent "b" "8k" "XYZ" 100 ["Klingon"];
                  mkStream "c" None (Some "private") (Some "c") (Some "720p") None [] [] None None None None None None
                    None None [] [] false] in
  exists kept reasons,
    filter_streams_by_user_preferences (fun _ => None) (fun _ => true) (fun _ => false) false no_nzbdav
      streams u None false = Ret (kept, reasons) /\
    map stream_name kept = ["a"; "b"] /\ reasons = [RequiresStreamingProvider] /\
    keeps (acceptable (fun _ => None) (fun _ => false) None u) streams kept.
Proof.
  intros u streams. do 2 eexists. split_and!; [vm_compute; reflexivity|reflexivity|reflexivity|].
  apply (proj1 (filter_keeps_acceptable (fun _ => None) (fun _ => true) (fun _ => false) false no_nzbdav
    streams u None false _ [RequiresStreamingProvider] ltac:(vm_compute; reflexivity))).
Defined.
