(* ===== verification/StreamSort.v ===== *)
(** * Stream ordering, caps and provider merging (utils/parser.py)

    [filter_and_sort_streams]: cache status, the user's sort order, the caps
    per resolution and in total; and the parts of [parse_stream_data] that
    choose the providers and merge their lists.  The providers' cache check
    functions are network calls and a parameter; [up] is false when Redis calls
    raise. *)

From S2P Require Export StreamFilter CacheStatus.
Local Open Scope string_scope.
Local Open Scope Z_scope.

(** ** Cache status *)

(** Services with an entry in [mapper.CACHE_UPDATE_FUNCTIONS]. *)
Definition CACHE_UPDATE_FUNCTIONS : list string :=
  ["alldebrid"; "debridlink"; "offcloud"; "pikpak"; "realdebrid"; "seedr"; "torbox"; "premiumize"; "qbittorrent";
   "stremthru"; "easydebrid"; "debrider"].

(** What a provider's cache check did: the [cached] attributes it assigned,
    stream by stream as far as it got, and the service name it returned unless
    it raised. *)
Record check_result := mkCheck { flags : list bool; outcome_of_check : outcome unit (option string) }.

Definition hash_of (s : StreamData) : string := default "" (info_hash s).

Definition update_from_redis (statuses : list (string * bool)) (streams : list StreamData) : list StreamData :=
  map (fun s => set_cached (default false (dict_get (hash_of s) statuses)) s) streams.

(** The assignments of the provider's check reach the uncached streams, in
    order; streams it did not reach keep their attribute. *)
Fixpoint apply_flags (fl : list bool) (streams : list StreamData) : list StreamData :=
  match streams with
  | [] => []
  | s :: streams =>
      if cached s then s :: apply_flags fl streams
      else match fl with
           | [] => s :: apply_flags [] streams
           | b :: fl => set_cached b s :: apply_flags fl streams
           end
  end.

Section StreamSort.
Context {R : Type} `{Redis R}.
Context (sha256_hex : string -> string)
        (provider_check : string -> list StreamData -> check_result)
        (extra_field : string -> StreamData -> option (option Z)).

Definition check_cache (cs : cache_settings) (up : bool) (now : Z) (p : StreamingProvider) (video_id : string)
    (response : option (list (string * bool))) (streams : list StreamData) (r : R) :
    outcome py_exn (list StreamData * R) :=
  let '(r, statuses) := get_cached_status cs up now p (map hash_of streams) response r in
  let streams := update_from_redis statuses streams in
  let uncached := List.filter (fun s => negb (cached s)) streams in
  match uncached with
  | [] => Ret (streams, r)
  | _ =>
      if negb up then Raise ConnectionError
      else if is_cache_check_done sha256_hex now p video_id r then Ret (streams, r)
      else
        let '(streams, r) :=
          if memb (service p) CACHE_UPDATE_FUNCTIONS then
            let res := provider_check (service p) uncached in
            let streams' := apply_flags (flags res) streams in
            match outcome_of_check res with
            | Ret service_name =>
                (* the streams that were uncached before the check and are cached now *)
                let hashes := map hash_of (List.filter cached
                                (apply_flags (flags res) uncached)) in
                (streams', match hashes with
                           | [] => r
                           | _ => (store_cached_info_hashes cs up now p hashes service_name r).1
                           end)
            | Raise _ => (streams', r)
            end
          else (streams, r) in
        Ret (streams, mark_cache_check_done sha256_hex now p video_id r)
  end.

(** ** The sort key *)

Definition datetime_min : Z := -62135596800 * 1000000.

Definition resolution_rank (u : UserData) (s : StreamData) : Z :=
  Z.of_nat (default (length (selected_resolutions u)) (index_of (filtered_resolution s) (selected_resolutions u))).

(** The first group of the user's list that contains a quality. *)
Fixpoint group_rank (groups : list string) (q : option string) : nat :=
  match groups with
  | [] => 0%nat
  | g :: groups =>
      match dict_get g QUALITY_GROUPS with
      | Some qs => if memb q qs then 0%nat else S (group_rank groups q)
      | None => S (group_rank groups q)
      end
  end.

Definition quality_rank (u : UserData) (s : StreamData) : Z :=
  match index_of (filtered_quality s) (map Some (quality_filter u)) with
  | Some i => Z.of_nat i
  | None => Z.of_nat (group_rank (quality_filter u) (filtered_quality s))
  end.

Definition language_rank (u : UserData) (s : StreamData) : Z :=
  let ranks := omap (fun l => index_of l (language_sorting u)) (filtered_languages s) in
  match ranks with
  | [] => Z.of_nat (length (language_sorting u))
  | i :: l => Z.of_nat (foldl Nat.min i l)
  end.

Definition multiplier (d : sort_direction) : Z := match d with Asc => 1 | Desc => -1 end.

Definition key_value (u : UserData) (season episode : option Z) (s : StreamData) (o : SortingOption) : Z :=
  let m := multiplier (direction o) in
  let key := sort_key o in
  if String.eqb key "cached" then m * (if cached s then 1 else 0)
  else if String.eqb key "resolution" then m * - resolution_rank u s
  else if String.eqb key "quality" then m * - quality_rank u s
  else if String.eqb key "size" then m * sort_size_bytes_for_stream s season episode
  else if String.eqb key "seeders" then m * default 0 (seeders s)
  else if String.eqb key "created_at" then m * default datetime_min (created_at s)
  else if String.eqb key "language" then m * - language_rank u s
  else match extra_field key s with
       | Some v => m * default 0 v
       | None => 0
       end.

Definition dynamic_sort_key (u : UserData) (season episode : option Z) (s : StreamData) : list Z :=
  map (key_value u season episode s) (torrent_sorting_priority u).

Definition sorts_before (u : UserData) (season episode : option Z) (a b : StreamData) : bool :=
  tuple_leb (dynamic_sort_key u season episode a) (dynamic_sort_key u season episode b).

(** ** Caps *)

Fixpoint limit_per_resolution (cap : Z) (counts : gmap (option string) Z) (streams : list StreamData) : list StreamData :=
  match streams with
  | [] => []
  | s :: streams =>
      let count := default 0 (counts !! filtered_resolution s) in
      if count <? cap
      then s :: limit_per_resolution cap (<[filtered_resolution s := count + 1]> counts) streams
      else limit_per_resolution cap counts streams
  end.

(** [l[:n]] *)
Definition slice_list {A} (n : Z) (l : list A) : list A :=
  take (Z.to_nat (if n <? 0 then Z.of_nat (length l) + n else n)) l.

Definition sort_and_cap (u : UserData) (video_id : string) (disable_total_stream_cap : bool)
    (streams : list StreamData) : list StreamData :=
  let '(season, episode) := season_episode_from_stremio_video_id video_id in
  let sorted := sort_by (sorts_before u season episode) streams in
  let limited := limit_per_resolution (max_streams_per_resolution u) ∅ sorted in
  if disable_total_stream_cap then limited else slice_list (max_streams u) limited.

(** What follows the filtering, the primary provider resolved. *)
Definition select_and_sort (cs : cache_settings) (up : bool) (now : Z) (primary : option StreamingProvider)
    (u : UserData) (video_id : string) (disable_total_stream_cap : bool)
    (response : option (list (string * bool))) (filtered : list StreamData) (reasons : list reason) (r : R) :
    outcome py_exn (list StreamData * list reason * R) :=
  match filtered with
  | [] => Ret ([], reasons, r)
  | first :: _ =>
      match primary, info_hash first with
      | Some p, Some _ =>
          checked ← check_cache cs up now p video_id response filtered r;
          let '(filtered, r) := checked in
          if only_show_cached_streams p then
            match List.filter cached filtered with
            | [] => Ret (filtered, (reasons ++ repeat NoCachedStreams (length filtered))%list, r)
            | cached_streams => Ret (sort_and_cap u video_id disable_total_stream_cap cached_streams, reasons, r)
            end
          else Ret (sort_and_cap u video_id disable_total_stream_cap filtered, reasons, r)
      | _, _ => Ret (sort_and_cap u video_id disable_total_stream_cap filtered, reasons, r)
      end
  end.

Context (re_compile : string -> option (string -> bool))
        (bracketed_ok : string -> bool)
        (is_contain_18_plus_keywords : string -> bool)
        (scrap_public : bool)
        (nzbdav : NzbdavDefaults).

Definition filter_and_sort_streams (cs : cache_settings) (up : bool) (now : Z) (streams : list StreamData)
    (u : UserData) (video_id : string) (provider_override : option StreamingProvider)
    (disable_total_stream_cap is_usenet : bool) (response : option (list (string * bool))) (r : R) :
    outcome py_exn (list StreamData * list reason * R) :=
  f ← filter_streams_by_user_preferences re_compile bracketed_ok is_contain_18_plus_keywords scrap_public nzbdav
        streams u provider_override is_usenet;
  select_and_sort cs up now (resolve_primary nzbdav provider_override u) u video_id disable_total_stream_cap
    response f.1 f.2 r.

(** ** Properties of sorting and caps *)

Lemma sorts_before_total u a b x y : sorts_before u a b x y = true \/ sorts_before u a b y x = true.
Proof. apply tuple_leb_total. Qed.
Lemma sorts_before_trans u a b x y z :
  sorts_before u a b x y = true -> sorts_before u a b y z = true -> sorts_before u a b x z = true.
Proof. apply tuple_leb_trans. Qed.

Definition count_res (q : option string) (l : list StreamData) : Z :=
  Z.of_nat (length (List.filter (fun s => bool_decide (filtered_resolution s = q)) l)).

(** The streams of a resolution the cap lets through are the first ones. *)
Lemma limit_spec cap streams q : forall counts,
  List.filter (fun s => bool_decide (filtered_resolution s = q)) (limit_per_resolution cap counts streams) =
  take (Z.to_nat (cap - default 0 (counts !! q))) (List.filter (fun s => bool_decide (filtered_resolution s = q)) streams).
Proof.
  induction streams as [|s streams IH]; intros counts; cbn [limit_per_resolution]; [cbn [List.filter]; by rewrite take_nil|].
  destruct (decide (filtered_resolution s = q)) as [Hq|Hq].
  - cbn [List.filter]. rewrite (bool_decide_eq_true_2 _ Hq). rewrite Hq.
    destruct (default 0 (counts !! q) <? cap) eqn:E; zbool.
    + cbn [List.filter]. rewrite (bool_decide_eq_true_2 _ Hq), IH, lookup_insert_eq. cbn [default].
      replace (Z.to_nat (cap - default 0 (counts !! q))) with (S (Z.to_nat (cap - (default 0 (counts !! q) + 1)))) by lia.
      done.
    + rewrite IH. by replace (Z.to_nat (cap - default 0 (counts !! q))) with 0%nat by lia.
  - cbn [List.filter]. rewrite (bool_decide_eq_false_2 _ Hq).
    destruct (_ <? cap); cbn [List.filter]; [rewrite (bool_decide_eq_false_2 _ Hq)|]; rewrite IH;
      [|done]. by rewrite lookup_insert_ne.
Qed.

Lemma limit_sublist cap streams : forall counts, limit_per_resolution cap counts streams `sublist_of` streams.
Proof. induction streams as [|s l IH]; intros counts; cbn [limit_per_resolution]; [done|]. case_match; by constructor. Qed.

Lemma StronglySorted_sublist {A} (Rel : A -> A -> Prop) l l' :
  l `sublist_of` l' -> StronglySorted Rel l' -> StronglySorted Rel l.
Proof.
  induction 1 as [|x l l' Hs IH|x l l' Hs IH]; intros Hl; [done| |].
  - apply StronglySorted_inv in Hl as [? HF]. constructor; [auto|].
    rewrite Forall_forall in HF |- *. intros y Hy. apply HF. by eapply elem_of_sublist.
  - apply StronglySorted_inv in Hl as [? _]. auto.
Qed.

(** [C2] The streams returned after filtering are in the user's order and under
    the user's caps: sorted by the key tuple of the sorting priorities; of
    each resolution exactly the first ones of the stable sort, up to the
    per-resolution cap (when the total cap is off); at most [max_streams] in
    all; each of them one of the filtered streams. *)
Theorem sorted_and_capped (u : UserData) (video_id : string) (streams : list StreamData) :
  let '(season, episode) := season_episode_from_stremio_video_id video_id in
  let sorted := sort_by (sorts_before u season episode) streams in
  let uncapped := sort_and_cap u video_id true streams in
  let out := sort_and_cap u video_id false streams in
  sorted ≡ₚ streams /\
  StronglySorted (fun a b => sorts_before u season episode a b = true) uncapped /\
  (forall x, List.filter (same_rank (sorts_before u season episode) x) sorted =
             List.filter (same_rank (sorts_before u season episode) x) streams) /\
  (forall q, List.filter (fun s => bool_decide (filtered_resolution s = q)) uncapped =
             take (Z.to_nat (max_streams_per_resolution u))
                  (List.filter (fun s => bool_decide (filtered_resolution s = q)) sorted)) /\
  (1 <= max_streams u -> out = take (Z.to_nat (max_streams u)) uncapped /\ Z.of_nat (length out) <= max_streams u).
Proof.
  unfold sort_and_cap. destruct (season_episode_from_stremio_video_id video_id) as [season episode].
  cbn zeta. split_and!.
  - apply sort_by_perm.
  - eapply StronglySorted_sublist; [apply limit_sublist|].
    apply sort_by_sorted; [apply sorts_before_total|apply sorts_before_trans].
  - intros x. apply sort_by_stable. apply sorts_before_trans.
  - intros q. rewrite limit_spec, lookup_empty. cbn [default]. by rewrite Z.sub_0_r.
  - intros Hm. unfold slice_list. destruct (max_streams u <? 0) eqn:E; [zbool; lia|].
    split; [done|]. rewrite length_take. lia.
Qed.

Lemma update_from_redis_length st l : length (update_from_redis st l) = length l.
Proof. apply length_map. Qed.
Lemma apply_flags_length l : forall fl, length (apply_flags fl l) = length l.
Proof. induction l as [|s l IH]; intros fl; simpl; [done|]. destruct (cached s); [simpl; by rewrite IH|]. destruct fl; simpl; by rewrite IH. Qed.

Lemma check_cache_length cs up now p video_id resp filtered r checked r' :
  check_cache cs up now p video_id resp filtered r = Ret (checked, r') -> length checked = length filtered.
Proof.
  unfold check_cache. destruct (get_cached_status _ _ _ _ _ _ _) as [r1 st].
  destruct (List.filter _ _); [intros H1; injection H1 as <- _; apply update_from_redis_length|].
  destruct (negb up); [done|].
  destruct (is_cache_check_done _ _ _ _ _); [intros H1; injection H1 as <- _; apply update_from_redis_length|].
  destruct (memb _ _); [|intros H1; injection H1 as <- _; apply update_from_redis_length].
  destruct (outcome_of_check _); intros H1; injection H1 as <- _; by rewrite apply_flags_length, update_from_redis_length.
Qed.

(** The cached-only fallback: when a provider is set to show cached streams
    only and the check finds none of the filtered streams cached, all of them
    are returned, whatever the caps, counted as uncached. *)
Theorem cached_only_fallback (cs : cache_settings) (up : bool) (now : Z) (p : StreamingProvider) (u : UserData)
    (video_id : string) (cap_off : bool) (resp : option (list (string * bool)))
    (filtered checked : list StreamData) (reasons : list reason) (r r' : R) :
  (exists first rest h, filtered = first :: rest /\ info_hash first = Some h) ->
  only_show_cached_streams p = true ->
  check_cache cs up now p video_id resp filtered r = Ret (checked, r') ->
  List.filter cached checked = [] ->
  select_and_sort cs up now (Some p) u video_id cap_off resp filtered reasons r =
    Ret (checked, (reasons ++ repeat NoCachedStreams (length filtered))%list, r') /\
  length checked = length filtered.
Proof.
  intros (first & rest & h & -> & Hh) Ho Hc Hn.
  pose proof (check_cache_length _ _ _ _ _ _ _ _ _ _ Hc) as HL.
  split; [|done]. unfold select_and_sort. rewrite Hh, Hc. cbn [mbind outcome_bind]. by rewrite Ho, Hn, HL.
Qed.
End StreamSort.

(** ** Providers of a request ([parse_stream_data]) *)

Definition GET_VIDEO_URL_FUNCTIONS : list string :=
  ["alldebrid"; "debridlink"; "offcloud"; "pikpak"; "premiumize"; "qbittorrent"; "realdebrid"; "seedr"; "torbox";
   "stremthru"; "easydebrid"; "debrider"].
Definition USENET_CAPABLE_PROVIDERS : list string :=
  ["torbox"; "debrider"; "sabnzbd"; "nzbget"; "nzbdav"; "easynews"; "stremio_nntp"].

Inductive stream_kind := KTorrent | KUsenet | KTelegram | KHttp | KYoutube.

(** The provider list; [None] for an immediate empty answer.  A [None] entry is
    playback without a debrid provider. *)
Definition provider_list (disabled_providers : list string) (kind : stream_kind)
    (active : list StreamingProvider) : option (list (option StreamingProvider)) :=
  match kind with
  | KTelegram | KHttp | KYoutube => Some [None]
  | KUsenet =>
      match List.filter (fun p => memb (service p) USENET_CAPABLE_PROVIDERS) active with
      | [] => None
      | ps => Some (map Some ps)
      end
  | KTorrent =>
      match List.filter (fun p => memb (service p) GET_VIDEO_URL_FUNCTIONS) active with
      | (_ :: _) as ps => Some (map Some ps)
      | [] =>
          if existsb (fun p => String.eqb (service p) "p2p") active then Some [None]
          else match active with
               | _ :: _ => None
               | [] => Some (if memb "p2p" disabled_providers then [] else [None])
               end
      end
  end.

(** ** Merging the providers' lists *)

(** One round: the next element of every list that has one, and the lists that
    were not exhausted. *)
Definition round_heads {A} (ls : list (list A)) : list A :=
  omap (fun l => match l with [] => None | x :: _ => Some x end) ls.
Definition round_rest {A} (ls : list (list A)) : list (list A) :=
  omap (fun l => match l with [] => None | _ :: t => Some t end) ls.

Fixpoint round_robin {A} (fuel : nat) (ls : list (list A)) : list A :=
  match fuel, ls with
  | _, [] => []
  | O, _ => []
  | S fuel, _ => round_heads ls ++ round_robin fuel (round_rest ls)
  end.

(** Enough rounds for the longest list and the one that finds it exhausted. *)
Definition max_length {A} (ls : list (list A)) : nat := foldr (fun l n => Nat.max (length l) n) 0%nat ls.

Definition combine_providers {A} (g : grouping) (results : list (list A)) : list A :=
  let per_provider := List.filter (fun l : list A => match l with [] => false | _ => true end) results in
  match g with
  | Mixed => if (1 <? length per_provider)%nat then round_robin (S (max_length per_provider)) per_provider
             else concat per_provider
  | Separate => concat per_provider
  end.

(** The answer when nothing is left to show. *)
Inductive answer (A : Type) :=
  | Entries (l : list A)
  | NoProviderMessage
  | FilteredMessage (reasons : list reason).
Arguments Entries {A} l.
Arguments NoProviderMessage {A}.
Arguments FilteredMessage {A} reasons.

Definition final_answer {A} (return_rich is_telegram : bool) (active : list StreamingProvider)
    (last_reasons : list reason) (entries : list A) : answer A :=
  match entries with
  | _ :: _ => Entries entries
  | [] =>
      if return_rich then Entries []
      else match active with
           | [] => if is_telegram then FilteredMessage last_reasons else NoProviderMessage
           | _ => FilteredMessage last_reasons
           end
  end.

(** ** Properties of the selection and of the merge *)

(** A request is only served by providers that can play it: torrents by
    providers with a torrent playback function, Usenet streams by
    Usenet-capable ones, each at most as often as it is active, in priority
    order; playback without a provider is offered for torrents only when the
    user chose P2P, or has no provider at all and P2P is not disabled. *)
Theorem provider_list_capable (disabled : list string) (kind : stream_kind) (active : list StreamingProvider)
    (ps : list (option StreamingProvider)) :
  provider_list disabled kind active = Some ps ->
  (forall p, Some p ∈ ps -> p ∈ active /\
     (kind = KTorrent /\ service p ∈ GET_VIDEO_URL_FUNCTIONS \/ kind = KUsenet /\ service p ∈ USENET_CAPABLE_PROVIDERS)) /\
  omap id ps `sublist_of` active /\
  (None ∈ ps -> kind = KTorrent ->
     (forall p, p ∈ active -> service p ∉ GET_VIDEO_URL_FUNCTIONS) /\
     ((exists p, p ∈ active /\ service p = "p2p") \/ active = [] /\ "p2p" ∉ disabled)) /\
  (None ∈ ps -> kind <> KUsenet).
Proof.
  assert (forall (l : list StreamingProvider) p, Some p ∈ map Some l <-> p ∈ l) as Hin.
  { intros l p. change (Some p ∈ Some <$> l <-> p ∈ l). rewrite list_elem_of_fmap. naive_solver. }
  assert (forall l : list StreamingProvider, None ∉ map Some l) as Hnone.
  { intros l. change (None ∉ Some <$> l). rewrite list_elem_of_fmap. naive_solver. }
  assert (forall l : list StreamingProvider, omap id (map Some l) = l) as Homap.
  { induction l as [|x l IH]; csimpl; [done|by rewrite IH]. }
  assert (forall l : list StreamingProvider, Some (map Some l) = Some ps ->
    (forall p, p ∈ l -> p ∈ active /\
     (kind = KTorrent /\ service p ∈ GET_VIDEO_URL_FUNCTIONS \/ kind = KUsenet /\ service p ∈ USENET_CAPABLE_PROVIDERS)) ->
    l `sublist_of` active ->
    (forall p, Some p ∈ ps -> p ∈ active /\
     (kind = KTorrent /\ service p ∈ GET_VIDEO_URL_FUNCTIONS \/ kind = KUsenet /\ service p ∈ USENET_CAPABLE_PROVIDERS)) /\
    omap id ps `sublist_of` active /\ None ∉ ps) as Hsome.
  { intros l [= <-] Hl Hs. split_and!; [intros p; rewrite Hin; apply Hl|by rewrite Homap|apply Hnone]. }
  assert ([None] = ps -> (forall p, Some p ∉ ps) /\ omap id ps `sublist_of` active) as Hp2p.
  { intros <-. split; [|apply sublist_nil_l]. intros p Hp. by apply list_elem_of_singleton in Hp. }
  destruct kind; cbn [provider_list]; intros H.
  3-5: injection H as H; destruct (Hp2p H) as [H1 H2]; split_and!; try done; intros p Hp; by apply H1 in Hp.
  - destruct (List.filter _ active) as [|q qs] eqn:E.
    + assert (forall p, p ∈ active -> service p ∉ GET_VIDEO_URL_FUNCTIONS) as Hno.
      { intros p Hp Hs. assert (p ∈ List.filter (fun p => memb (service p) GET_VIDEO_URL_FUNCTIONS) active) as Hf
          by (by rewrite filter_elem, memb_true). rewrite E in Hf. set_solver. }
      destruct (existsb _ active) eqn:Ep.
      * injection H as H. destruct (Hp2p H) as [H1 H2]. split_and!; [by intros p Hp%H1|done| |done].
        intros _ _. split; [done|]. left. apply existsb_elem in Ep as (p & ? & ?%String.eqb_eq). eauto.
      * destruct active; [|done]. destruct (memb "p2p" disabled) eqn:Ed.
        { injection H as <-. split_and!; [set_solver|done|set_solver|done]. }
        injection H as H. destruct (Hp2p H) as [H1 H2]. apply memb_false in Ed.
        split_and!; [by intros p Hp%H1|done|auto|done].
    + destruct (Hsome (q :: qs) H) as (H1 & H2 & H3); [|rewrite <- E; apply filter_sublist|split_and!; done].
      intros p. rewrite <- E, filter_elem, memb_true. naive_solver.
  - destruct (List.filter _ active) as [|q qs] eqn:E; [done|].
    destruct (Hsome (q :: qs) H) as (H1 & H2 & H3); [|rewrite <- E; apply filter_sublist|split_and!; done].
    intros p. rewrite <- E, filter_elem, memb_true. naive_solver.
Qed.

(** The element of every list at a position, for the lists long enough. *)
Definition column {A} (ls : list (list A)) (j : nat) : list A := omap (fun l => l !! j) ls.

Lemma column_0 {A} (ls : list (list A)) : column ls 0 = round_heads ls.
Proof. induction ls as [|[|x l] ls IH]; unfold column, round_heads in *; csimpl; [done|done|by rewrite IH]. Qed.
Lemma column_S {A} (ls : list (list A)) j : column ls (S j) = column (round_rest ls) j.
Proof. induction ls as [|[|x l] ls IH]; unfold column, round_rest in *; csimpl; [done|done|by rewrite IH]. Qed.
Lemma max_length_rest {A} (ls : list (list A)) : max_length (round_rest ls) = pred (max_length ls).
Proof.
  induction ls as [|[|x l] ls IH]; unfold round_rest in *; csimpl; [done|done|].
  cbn [max_length foldr length]. change (foldr _ 0%nat ?m) with (max_length m). rewrite IH. lia.
Qed.

Lemma max_length_0 {A} (ls : list (list A)) :
  max_length ls = 0%nat -> round_heads ls = [] /\ round_rest ls = [] /\ concat ls = [].
Proof.
  induction ls as [|[|x l] ls IH]; unfold round_heads, round_rest in *; csimpl; [done|apply IH|].
  cbn [max_length foldr length]. lia.
Qed.

Lemma round_robin_nil {A} n : round_robin n ([] : list (list A)) = [].
Proof. by destruct n. Qed.

Lemma round_robin_columns {A} n : forall ls : list (list A),
  (max_length ls < n)%nat -> round_robin n ls = concat (map (column ls) (seq 0 (max_length ls))).
Proof.
  induction n as [|n IH]; intros ls Hn; [lia|]. destruct ls as [|l ls]; [done|].
  set (m := l :: ls) in *. change (round_robin (S n) m) with (round_heads m ++ round_robin n (round_rest m))%list.
  destruct (max_length m) as [|k] eqn:Ek.
  - destruct (max_length_0 m Ek) as (-> & -> & _). by rewrite round_robin_nil.
  - rewrite IH by (rewrite max_length_rest; lia). rewrite max_length_rest, Ek. cbn [pred seq map concat].
    rewrite column_0. f_equal. f_equal. rewrite <- seq_shift, map_map. apply map_ext. intros j. by rewrite column_S.
Qed.

Lemma round_perm {A} (ls : list (list A)) : (round_heads ls ++ concat (round_rest ls))%list ≡ₚ concat ls.
Proof.
  induction ls as [|[|x l] ls IH]; unfold round_heads, round_rest in *; csimpl; [done|done|].
  constructor. rewrite <- IH. rewrite !app_assoc. by rewrite (Permutation_app_comm l).
Qed.

Lemma round_robin_perm {A} n : forall ls : list (list A), (max_length ls < n)%nat -> round_robin n ls ≡ₚ concat ls.
Proof.
  induction n as [|n IH]; intros ls Hn; [lia|]. destruct ls as [|l ls]; [done|].
  set (m := l :: ls) in *. change (round_robin (S n) m) with (round_heads m ++ round_robin n (round_rest m))%list.
  destruct (decide (max_length m = 0)%nat) as [Hz|Hz].
  - destruct (max_length_0 m Hz) as (-> & -> & ->). by rewrite round_robin_nil.
  - rewrite IH by (rewrite max_length_rest; lia). apply round_perm.
Qed.

(** [C3] Merging the providers' lists loses and repeats nothing: in both
    groupings the result is a permutation of all entries; the separate
    grouping concatenates in provider order, and the mixed one is the
    round-robin: first entries of all providers, then second entries, and so
    on, each round in provider order. *)
Theorem combine_providers_complete {A : Type} (g : grouping) (results : list (list A)) :
  combine_providers g results ≡ₚ concat results /\
  (g = Separate -> combine_providers g results = concat results) /\
  (g = Mixed -> combine_providers g results =
     concat (map (column results) (seq 0 (max_length results)))).
Proof.
  set (ne := fun l : list A => match l with [] => false | _ => true end).
  assert (concat (List.filter ne results) = concat results) as Hc.
  { induction results as [|[|x l] rs IH]; simpl; [done|done|by rewrite IH]. }
  assert (max_length (List.filter ne results) = max_length results) as Hm.
  { clear Hc. induction results as [|[|x l] rs IH]; simpl in *; [done|by apply IH|].
    cbn [max_length foldr length]. f_equal. by apply IH. }
  assert (forall j, column (List.filter ne results) j = column results j) as Hcol.
  { intros j. unfold column. clear Hc Hm. induction results as [|[|x l] rs IH]; csimpl; [done| |].
    - rewrite <- IH. done.
    - by rewrite IH. }
  assert (max_length results <= max_length results)%nat as _ by lia.
  assert (round_robin (S (max_length (List.filter ne results))) (List.filter ne results) =
    concat (map (column results) (seq 0 (max_length results)))) as Hrr.
  { rewrite round_robin_columns by lia. rewrite Hm. f_equal. apply map_ext. exact Hcol. }
  unfold combine_providers. fold ne. split_and!.
  - destruct g; [|by rewrite Hc]. destruct (1 <? _)%nat; [|by rewrite Hc].
    rewrite round_robin_perm by lia. by rewrite Hc.
  - intros ->. exact Hc.
  - intros ->. destruct (1 <? length (List.filter ne results))%nat eqn:El; [exact Hrr|].
    rewrite <- Hrr. apply Nat.ltb_ge in El.
    destruct (List.filter ne results) as [|l [|l' ls]]; [done| |simpl in El; lia].
    rewrite round_robin_columns by lia. cbn [max_length foldr]. rewrite Nat.max_0_r. cbn [concat]. rewrite app_nil_r.
    clear. unfold column. cbn. induction l as [|x l IH]; [done|]. cbn [length seq map concat]. cbn.
    f_equal. rewrite <- seq_shift, map_map. exact IH.
Qed.

(** A user without providers loses direct P2P when the operator configures
    a default NzbDAV: the injected provider counts as the user's, so torrents
    are answered with nothing although P2P is enabled and no torrent-capable
    provider exists. *)
Theorem injected_nzbdav_hides_p2p (disabled : list string) (u : UserData) (s : NzbdavDefaults) :
  configured_providers u = [] -> "p2p" ∉ disabled ->
  str_truthy (default_nzbdav_url s) && str_truthy (default_nzbdav_api_key s) = true ->
  provider_list disabled KTorrent (get_active_providers s u) = None /\
  provider_list disabled KTorrent (get_active_providers (mkNzbdav None None) u) = Some [None].
Proof.
  intros Hu Hd Hs. unfold get_active_providers. rewrite Hu, Hs. split; [done|].
  simpl. by apply memb_false in Hd as ->.
Qed.

(** ** Witnesses *)

Definition cached_only : StreamingProvider := mkProvider "rd" "realdebrid" None None (Some "tok") None None [] true 0 true true.

Lemma sorted_and_capped_example :
  map stream_name (sort_and_cap (fun _ _ => None) default_user_data "tt1" false
    (map prepare [torrent "a" "1080p" "WEB-DL" 100 ["English"]; torrent "b" "2160p" "WEB-DL" 100 ["English"];
                  torrent "c" "2160p" "WEB-DL" 300 ["Tamil"]])) = ["b"; "c"; "a"].
Proof. vm_compute. reflexivity. Qed.

Lemma cached_only_fallback_witness :
  let streams := map prepare [torrent "a" "1080p" "WEB-DL" 100 []; torrent "b" "2160p" "WEB-DL" 100 []] in
  let run := check_cache (fun s => s) (fun _ _ => mkCheck [] (Raise tt)) local_settings true 0 cached_only "tt1" None
               streams empty_store in
  exists checked r', run = Ret (checked, r') /\
    select_and_sort (fun s => s) (fun _ _ => mkCheck [] (Raise tt)) (fun _ _ => None) local_settings true 0
      (Some cached_only) default_user_data "tt1" false None streams [] empty_store =
    Ret (checked, repeat NoCachedStreams 2, r').
Proof.
  intros streams run. do 2 eexists. split; [vm_compute; reflexivity|].
  refine (proj1 (cached_only_fallback (fun s => s) (fun _ _ => mkCheck [] (Raise tt)) (fun _ _ => None)
    local_settings true 0 cached_only default_user_data "tt1" false None streams _ [] empty_store _ _ eq_refl _ _)).
  - do 3 eexists. split; reflexivity.
  - vm_compute. reflexivity.
  - reflexivity.
Defined.

Lemma provider_list_capable_witness :
  [rd] `sublist_of` [rd; sample_provider "n" "nzbget" 1].
Proof.
  apply (proj1 (proj2 (provider_list_capable [] KTorrent [rd; sample_provider "n" "nzbget" 1] [Some rd]
    ltac:(vm_compute; reflexivity)))).
Defined.

Lemma injected_nzbdav_hides_p2p_witness :
  provider_list [] KTorrent (get_active_providers (mkNzbdav (Some "http://nas") (Some "key")) default_user_data) = None.
Proof.
  apply (injected_nzbdav_hides_p2p [] default_user_data (mkNzbdav (Some "http://nas") (Some "key")));
    [reflexivity|apply memb_false; reflexivity|reflexivity].
Defined.
