(* ===== verification/Regex.v ===== *)
(** * Regular expressions: the part of Python's [re] the server uses

    A backtracking matcher in continuation-passing style with [re]'s order of
    alternatives: a greedy star tries one more iteration first, a lazy one
    tries to stop first.  A position is the character before it and the rest
    of the string.  Groups record the text they consumed, latest first. *)

From S2P Require Export PyStr.
Local Open Scope string_scope.

Inductive rx : Type :=
  | Eps
  | Chr (p : ascii -> bool)
  | Seq (a b : rx)
  | Alt (a b : rx)
  | Star (greedy : bool) (a : rx)
  | Grp (n : nat) (a : rx)
  | Behind (p : ascii -> bool)
  | NotBehind (p : ascii -> bool)
  | NotAhead (p : ascii -> bool)
  | Bol
  | Eol.

Definition captures := list (nat * string).

Section Matcher.
Context {X : Type}.

Fixpoint mtch (r : rx) (k : option ascii -> string -> captures -> option X)
    (prev : option ascii) (s : string) (c : captures) {struct r} : option X :=
  match r with
  | Eps => k prev s c
  | Chr p =>
      match s with
      | String a s' => if p a then k (Some a) s' c else None
      | "" => None
      end
  | Seq a b => mtch a (mtch b k) prev s c
  | Alt a b =>
      match mtch a k prev s c with
      | Some x => Some x
      | None => mtch b k prev s c
      end
  | Star greedy a =>
      (fix loop (fuel : nat) (prev : option ascii) (s : string) (c : captures) : option X :=
         match fuel with
         | O => k prev s c
         | S fuel =>
             let more :=
               mtch a (fun p' s' c' =>
                 if (String.length s' <? String.length s)%nat then loop fuel p' s' c' else None)
                 prev s c in
             if greedy
             then match more with Some x => Some x | None => k prev s c end
             else match k prev s c with Some x => Some x | None => more end
         end) (String.length s) prev s c
  | Grp n a =>
      mtch a (fun p' s' c' => k p' s' ((n, str_take (String.length s - String.length s') s) :: c')) prev s c
  | Behind p => match prev with Some a => if p a then k prev s c else None | None => None end
  | NotBehind p => match prev with Some a => if p a then None else k prev s c | None => k prev s c end
  | NotAhead p => match s with String a _ => if p a then None else k prev s c | "" => k prev s c end
  | Bol => match prev with None => k prev s c | Some _ => None end
  | Eol =>
      match s with
      | "" => k prev s c
      | String a "" => if code a =? 10 then k prev s c else None
      | _ => None
      end
  end%Z.
End Matcher.

(** ** Notations of the pattern language *)

Definition lit_char (a : ascii) : rx := Chr (Ascii.eqb a).
(** A character under [re.IGNORECASE]. *)
Definition lit_char_i (a : ascii) : rx := Chr (fun b => Ascii.eqb (char_lower a) (char_lower b)).

Fixpoint lit (s : string) : rx :=
  match s with "" => Eps | String a s => Seq (lit_char a) (lit s) end.
Fixpoint lit_i (s : string) : rx :=
  match s with "" => Eps | String a s => Seq (lit_char_i a) (lit_i s) end.

Definition Plus (greedy : bool) (a : rx) : rx := Seq a (Star greedy a).
Definition Opt (a : rx) : rx := Alt a Eps.
(** [a{1,2}] *)
Definition OneTwo (a : rx) : rx := Seq a (Opt a).
(** [.]: any character but a newline. *)
Definition Dot : rx := Chr (fun a => negb (code a =? 10)%Z).

Fixpoint capture (n : nat) (c : captures) : option string :=
  match c with
  | [] => None
  | (m, t) :: c => if (n =? m)%nat then Some t else capture n c
  end.
Definition group (n : nat) (c : captures) : string := default "" (capture n c).

(** [pattern.match(s, pos)]: the groups and what follows the match. *)
Definition match_at (r : rx) (prev : option ascii) (s : string) : option (captures * string) :=
  mtch (Grp 0 r) (fun _ s' c => Some (c, s')) prev s [].

(** [pattern.search]: the text before the first match, the groups (0 is the
    whole match) and the text after it. *)
Fixpoint search_from (r : rx) (prev : option ascii) (s : string) : option (string * captures * string) :=
  match match_at r prev s with
  | Some (c, rest) => Some ("", c, rest)
  | None =>
      match s with
      | "" => None
      | String a s' =>
          match search_from r (Some a) s' with
          | Some (pre, c, rest) => Some (String a pre, c, rest)
          | None => None
          end
      end
  end.
Definition search (r : rx) (s : string) : option (string * captures * string) := search_from r None s.

(** The last character of a text, the [prev] of what follows it. *)
Fixpoint last_char (prev : option ascii) (s : string) : option ascii :=
  match s with "" => prev | String a s => last_char (Some a) s end.

(** [re.split(pattern, s)] for a pattern that matches no empty text; the
    number of pieces is bounded by the length. *)
Fixpoint re_split_fuel (fuel : nat) (r : rx) (prev : option ascii) (s : string) : list string :=
  match fuel with
  | O => [s]
  | S fuel =>
      match search_from r prev s with
      | None => [s]
      | Some (pre, c, rest) =>
          pre :: re_split_fuel fuel r (last_char (last_char prev pre) (group 0 c)) rest
      end
  end.
Definition re_split (r : rx) (s : string) : list string :=
  re_split_fuel (String.length s) r None s.

(** [pattern.finditer(s)] for a pattern that matches no empty text: the start
    and the groups of each match. *)
Fixpoint finditer_fuel (fuel : nat) (r : rx) (prev : option ascii) (pos : nat) (s : string) : list (nat * captures) :=
  match fuel with
  | O => []
  | S fuel =>
      match search_from r prev s with
      | None => []
      | Some (pre, c, rest) =>
          let start := (pos + String.length pre)%nat in
          (start, c) :: finditer_fuel fuel r (last_char (last_char prev pre) (group 0 c))
                          (start + String.length (group 0 c)) rest
      end
  end.
Definition finditer (r : rx) (s : string) : list (nat * captures) := finditer_fuel (String.length s) r None 0 s.

(** ** A match consumes a prefix, at least as long as the pattern's minimum *)

Fixpoint min_len (r : rx) : nat :=
  match r with
  | Chr _ => 1
  | Seq a b => min_len a + min_len b
  | Alt a b => min_len a `min` min_len b
  | Grp _ a => min_len a
  | _ => 0
  end.

(** The continuation is reached with the rest of the string after a prefix of
    at least [n] characters. *)
Definition consumes {X} (n : nat) (k : option ascii -> string -> captures -> option X) (s : string) (x : X) : Prop :=
  exists prev pre rest c, s = pre +:+ rest /\ (n <= String.length pre)%nat /\ k prev rest c = Some x.

Lemma consumes_now {X} (k : option ascii -> string -> captures -> option X) prev s c x :
  k prev s c = Some x -> consumes 0 k s x.
Proof. exists prev, "", s, c. by split_and!; [|simpl; lia|]. Qed.

Lemma consumes_weaken {X} n m (k : option ascii -> string -> captures -> option X) s x :
  (n <= m)%nat -> consumes m k s x -> consumes n k s x.
Proof. intros ? (p & pre & r & c & ? & ? & ?). exists p, pre, r, c. split_and!; [done|lia|done]. Qed.

Lemma consumes_trans {X} n m (k k' : option ascii -> string -> captures -> option X) s x :
  consumes n k' s x -> (forall prev r c, k' prev r c = Some x -> consumes m k r x) ->
  consumes (n + m) k s x.
Proof.
  intros (p & pre & r & c & -> & L & H) Hk.
  destruct (Hk _ _ _ H) as (p' & pre' & r' & c' & -> & L' & H').
  exists p', (pre +:+ pre'), r', c'. str_simpl. split_and!; [done|lia|done].
Qed.

Lemma mtch_consumes {X} r : forall (k : option ascii -> string -> captures -> option X) prev s c x,
  mtch r k prev s c = Some x -> consumes (min_len r) k s x.
Proof.
  induction r as [|p|a IHa b IHb|a IHa b IHb|g a IHa|n a IHa|p|p|p| |];
    intros k prev s c x; simpl; intros H; try by eapply consumes_now.
  - destruct s as [|y s]; [done|]. destruct (p y); [|done].
    exists (Some y), (String y ""), s, c. by split_and!; [|simpl; lia|].
  - eapply consumes_trans; eauto.
  - destruct (mtch a k prev s c) eqn:E; [injection H as ->; apply IHa in E|apply IHb in H];
      (eapply consumes_weaken; [|done]); lia.
  - match type of H with ?loop _ _ _ _ = _ => set (F := loop) in H end.
    assert (forall n prev s c, F n prev s c = Some x -> consumes 0 k s x) as HF; [|by eapply HF].
    induction n as [|n IHn]; intros prev' s' c' Hn; simpl in Hn; [by eapply consumes_now|].
    set (more := mtch a _ prev' s' c') in Hn.
    assert (more = Some x -> consumes 0 k s' x) as Hmore.
    { intros Hm. apply IHa in Hm. change 0%nat with (0 + 0)%nat.
      eapply consumes_trans; [eapply consumes_weaken; [|done]; lia|].
      intros p1 s1 c1. cbv beta. destruct (Nat.ltb _ _); [apply IHn|done]. }
    destruct g; [destruct more as [y|]|destruct (k prev' s' c') eqn:Ek];
      simplify_eq; solve [by apply Hmore | by eapply consumes_now].
  - apply IHa in H. rewrite <- (Nat.add_0_r (min_len a)). eapply consumes_trans; [exact H|].
    intros p1 r1 c1 Hk. cbv beta in Hk. eapply consumes_now. exact Hk.
  - repeat case_match; try done; by eapply consumes_now.
  - repeat case_match; try done; by eapply consumes_now.
  - repeat case_match; try done; by eapply consumes_now.
  - repeat case_match; try done; by eapply consumes_now.
  - repeat case_match; try done; by eapply consumes_now.
Qed.

Lemma match_at_consumes r prev s c rest :
  match_at r prev s = Some (c, rest) ->
  exists pre, s = pre +:+ rest /\ (min_len r <= String.length pre)%nat.
Proof.
  intros H. apply mtch_consumes in H as (p & pre & r' & c' & ? & ? & [= _ ->]). by exists pre.
Qed.

Lemma search_consumes r : forall s prev pre c rest,
  search_from r prev s = Some (pre, c, rest) ->
  exists m, s = pre +:+ m +:+ rest /\ (min_len r <= String.length m)%nat.
Proof.
  induction s as [|a s IH]; intros prev pre c rest; simpl;
    destruct (match_at r prev _) as [[c0 r0]|] eqn:E.
  - intros [= <- <- <-]. by apply match_at_consumes in E.
  - done.
  - intros [= <- <- <-]. by apply match_at_consumes in E.
  - destruct (search_from r (Some a) s) as [[[pre1 c1] r1]|] eqn:Es; [|done].
    intros [= <- <- <-]. destruct (IH _ _ _ _ Es) as (m & -> & L). by exists m.
Qed.

(** The pieces of a split are no longer than the string, and strictly shorter
    when there are several. *)
Lemma re_split_shorter r : (0 < min_len r)%nat -> forall fuel prev s,
  re_split_fuel fuel r prev s = [s] \/
  Forall (fun w => String.length w < String.length s)%nat (re_split_fuel fuel r prev s).
Proof.
  intros Hr. induction fuel as [|fuel IH]; intros prev s; simpl; [by left|].
  destruct (search_from r prev s) as [[[pre c] rest]|] eqn:E; [right|by left].
  apply search_consumes in E as (m & -> & L). str_simpl.
  constructor; [lia|].
  destruct (IH (last_char (last_char prev pre) (group 0 c)) rest) as [->|H];
    [constructor; [lia|done]|].
  eapply Forall_impl; [exact H|]. simpl. lia.
Qed.
