(* ===== verification/TemplateLexer.v ===== *)
(** * Stream templates, part 1: tokens and lexer (utils/template_engine.py)

    The positions of [Lexer.tokenize] are replaced by the suffix of the
    template that starts there; the five compiled patterns are regular
    expressions of [Regex]. *)

From S2P Require Export Regex.
Local Open Scope string_scope.

(** A modifier and its optional argument text. *)
Definition modifier : Type := string * option string.

Inductive token : Type :=
  | TextToken (text : string)
  | VariableToken (path : string) (modifiers : list modifier)
  | IfToken (condition : string)
  | ElifToken (condition : string)
  | ElseToken
  | EndIfToken.

(** ** Patterns *)

Definition is_ident_start (c : ascii) : bool := is_alpha c || Ascii.eqb c "_".
Definition is_path_char (c : ascii) : bool := is_word c || Ascii.eqb c ".".

Definition VARIABLE_PATTERN : rx :=
  Seq (lit "{")
    (Seq (Grp 1 (Seq (Chr is_ident_start)
                  (Seq (Star true (Chr is_path_char))
                       (Opt (Seq (lit "|") (Plus true (Chr (fun c => negb (Ascii.eqb c "}")))))))))
         (lit "}")).

(** [{if cond}] and [{elif cond}]: the keyword, spaces, and as little text as
    possible up to a closing brace on the same line. *)
Definition keyword_pattern (kw : string) : rx :=
  Seq (lit "{") (Seq (lit_i kw) (Seq (Plus true (Chr is_space))
    (Seq (Grp 1 (Plus false Dot)) (lit "}")))).
Definition IF_PATTERN : rx := keyword_pattern "if".
Definition ELIF_PATTERN : rx := keyword_pattern "elif".
Definition ELSE_PATTERN : rx := Seq (lit "{") (Seq (lit_i "else") (lit "}")).
Definition ENDIF_PATTERN : rx := Seq (lit "{/") (Seq (lit_i "if") (lit "}")).

(** [r"(\w+)\((.+)\)$"] *)
Definition MODIFIER_PATTERN : rx :=
  Seq (Grp 1 (Plus true (Chr is_word))) (Seq (lit "(") (Seq (Grp 2 (Plus true Dot)) (Seq (lit ")") Eol))).

(** ** [_smart_split]: split outside quotes and parentheses *)

Record split_state := mkSplit {
  sp_depth : Z;
  sp_single : bool;
  sp_double : bool;
}.

Definition quote1 : ascii := of_code 39.
Definition quote2 : ascii := of_code 34.

(** One character: the new state and whether the character is a delimiter
    that ends the current part. *)
Definition split_step (delimiter c : ascii) (st : split_state) : split_state * bool :=
  let quoted := (sp_single st || sp_double st)%bool in
  if Ascii.eqb c quote1 && negb (sp_double st)
  then (mkSplit (sp_depth st) (negb (sp_single st)) (sp_double st), false)
  else if Ascii.eqb c quote2 && negb (sp_single st)
  then (mkSplit (sp_depth st) (sp_single st) (negb (sp_double st)), false)
  else if Ascii.eqb c "(" && negb quoted
  then (mkSplit (sp_depth st + 1) (sp_single st) (sp_double st), false)
  else if Ascii.eqb c ")" && negb quoted
  then (mkSplit (sp_depth st - 1) (sp_single st) (sp_double st), false)
  else if Ascii.eqb c delimiter && (sp_depth st =? 0)%Z && negb quoted
  then (st, true)
  else (st, false).

Fixpoint smart_split_from (delimiter : ascii) (st : split_state) (current s : string) : list string :=
  match s with
  | "" => if str_empty current then [] else [current]
  | String c s =>
      match split_step delimiter c st with
      | (st', true) => current :: smart_split_from delimiter st' "" s
      | (st', false) => smart_split_from delimiter st' (current +:+ String c "") s
      end
  end.

Definition smart_split (s : string) (delimiter : ascii) : list string :=
  smart_split_from delimiter (mkSplit 0 false false) "" s.

(** ** [_parse_variable] *)

Definition parse_modifier (mod_str : string) : modifier :=
  let mod_str := strip mod_str in
  match match_at MODIFIER_PATTERN None mod_str with
  | Some (c, _) => (group 1 c, Some (group 2 c))
  | None => (mod_str, None)
  end.

Definition parse_variable (content : string) : outcome py_exn (string * list modifier) :=
  match smart_split content "|" with
  | [] => Raise IndexError
  | path :: mods => Ret (strip path, map parse_modifier mods)
  end.

(** ** [tokenize] *)

(** The text up to the next opening brace, and the rest. *)
Fixpoint text_run (s : string) : string * string :=
  match s with
  | "" => ("", "")
  | String c s' =>
      if Ascii.eqb c "{" then ("", s)
      else let '(t, r) := text_run s' in (String c t, r)
  end.

(** The token at the start of a non-empty string, and what follows it. *)
Definition next_token (s : string) : outcome py_exn (token * string) :=
  match match_at IF_PATTERN None s with
  | Some (c, r) => Ret (IfToken (strip (group 1 c)), r)
  | None =>
  match match_at ELIF_PATTERN None s with
  | Some (c, r) => Ret (ElifToken (strip (group 1 c)), r)
  | None =>
  match match_at ELSE_PATTERN None s with
  | Some (_, r) => Ret (ElseToken, r)
  | None =>
  match match_at ENDIF_PATTERN None s with
  | Some (_, r) => Ret (EndIfToken, r)
  | None =>
  match s with
  | String "{" s' =>
      match match_at VARIABLE_PATTERN None s with
      | Some (c, r) =>
          match parse_variable (group 1 c) with
          | Ret (path, mods) => Ret (VariableToken path mods, r)
          | Raise e => Raise e
          end
      | None => Ret (TextToken "{", s')
      end
  | _ => let '(t, r) := text_run s in Ret (TextToken t, r)
  end end end end end.

Fixpoint tokenize_fuel (fuel : nat) (s : string) : outcome py_exn (list token) :=
  match fuel, s with
  | _, "" => Ret []
  | O, _ => Ret []
  | S fuel, _ =>
      match next_token s with
      | Raise e => Raise e
      | Ret (t, r) =>
          match tokenize_fuel fuel r with
          | Raise e => Raise e
          | Ret ts => Ret (t :: ts)
          end
      end
  end.

Definition tokenize (template : string) : outcome py_exn (list token) :=
  tokenize_fuel (String.length template) template.

(** ** Lexing is total and loses no text *)

Lemma lit_exact {X} w : forall (k : option ascii -> string -> captures -> option X) prev s c x,
  mtch (lit w) k prev s c = Some x -> exists prev' s', s = w +:+ s' /\ k prev' s' c = Some x.
Proof.
  induction w as [|a w IH]; intros k prev s c x H; simpl in H; [by exists prev, s|].
  destruct s as [|b s]; [done|]. destruct (Ascii.eqb a b) eqn:E; [|done].
  apply Ascii.eqb_eq in E as ->.
  destruct (IH _ _ _ _ _ H) as (p & s' & -> & Hk). by exists p, s'.
Qed.

(** A pattern that opens and closes with literal braces. *)
Definition braced (piece : string) : Prop := exists body, piece = "{" +:+ body +:+ "}".

Lemma braced_match {X} (a : rx) (k : option ascii -> string -> captures -> option X) prev s c x :
  mtch (Seq (lit "{") (Seq a (lit "}"))) k prev s c = Some x ->
  exists p piece r c', s = piece +:+ r /\ braced piece /\ k p r c' = Some x.
Proof.
  intros H. change (mtch (lit "{") (mtch a (mtch (lit "}") k)) prev s c = Some x) in H.
  apply lit_exact in H as (p1 & s1 & -> & H).
  apply mtch_consumes in H as (p2 & pre & s2 & c2 & -> & _ & H).
  apply lit_exact in H as (p3 & s3 & -> & H).
  exists p3, ("{" +:+ pre +:+ "}"), s3, c2. split_and!; [|by eexists|done].
  by str_simpl.
Qed.

(** [Seq] may be reassociated: both sides run the same continuations. *)
Lemma seq_assoc {X} a b c0 (k : option ascii -> string -> captures -> option X) prev s c :
  mtch (Seq a (Seq b c0)) k prev s c = mtch (Seq (Seq a b) c0) k prev s c.
Proof. done. Qed.

Lemma braced_token a s c r :
  match_at (Seq (lit "{") (Seq a (lit "}"))) None s = Some (c, r) ->
  exists piece, s = piece +:+ r /\ braced piece.
Proof.
  unfold match_at. cbn [mtch]. intros H.
  change (mtch (Seq (lit "{") (Seq a (lit "}")))
    (fun p' s' c' => Some ((0%nat, str_take (String.length s - String.length s') s) :: c', s'))
    None s [] = Some (c, r)) in H.
  apply braced_match in H as (p & piece & r' & c' & -> & Hb & [= _ ->]). by exists piece.
Qed.

Lemma keyword_token kw s c r :
  match_at (keyword_pattern kw) None s = Some (c, r) -> exists piece, s = piece +:+ r /\ braced piece.
Proof.
  intros H. by apply (braced_token (Seq (lit_i kw) (Seq (Plus true (Chr is_space)) (Grp 1 (Plus false Dot))))) in H.
Qed.

Lemma endif_token s c r :
  match_at ENDIF_PATTERN None s = Some (c, r) -> exists piece, s = piece +:+ r /\ braced piece.
Proof. intros H. by apply (braced_token (Seq (lit "/") (lit_i "if"))) in H. Qed.

(** The first group of a matched variable is not empty, so its first part
    exists. *)
Lemma smart_split_nonempty delimiter : forall s st current,
  str_empty current = false \/ str_empty s = false -> smart_split_from delimiter st current s <> [].
Proof.
  induction s as [|c s IH]; intros st current [H|H]; simpl; try rewrite H; try done;
    destruct (split_step delimiter c st) as [st' []]; try done; apply IH; left; by destruct current.
Qed.

Lemma grouped_nonempty a s c r :
  (0 < min_len a)%nat -> match_at (Seq (lit "{") (Seq (Grp 1 a) (lit "}"))) None s = Some (c, r) ->
  str_empty (group 1 c) = false.
Proof.
  intros Ha H. unfold match_at in H. cbn [mtch] in H.
  match type of H with ?m = _ =>
    change (mtch (lit "{") (mtch (Grp 1 a) (mtch (lit "}")
      (fun _ s' c' => Some ((0%nat, str_take (String.length s - String.length s') s) :: c', s'))))
      None s [] = Some (c, r)) in H end.
  apply lit_exact in H as (p1 & s1 & -> & H). cbn [mtch] in H.
  apply mtch_consumes in H as (p2 & pre & s2 & c2 & -> & L & H).
  apply lit_exact in H as (p3 & s3 & -> & [= <- _]).
  unfold group. cbn [capture Nat.eqb default]. simpl.
  rewrite str_take_app; [destruct pre; [simpl in L; lia|done]|].
  str_simpl. lia.
Qed.

Lemma parse_variable_total content :
  str_empty content = false -> exists v, parse_variable content = Ret v.
Proof.
  intros Hc. unfold parse_variable, smart_split.
  destruct (smart_split_from _ _ _ _) eqn:E; [|by eexists].
  by apply smart_split_nonempty in E; [|right].
Qed.

Lemma text_run_app s : let '(t, r) := text_run s in s = t +:+ r.
Proof.
  induction s as [|c s IH]; simpl; [done|].
  destruct (Ascii.eqb c "{"); [done|]. destruct (text_run s) as [t r]. by str_simpl; rewrite IH.
Qed.

(** What a token is of the template: its own text, or a braced piece. *)
Definition covers (t : token) (piece : string) : Prop :=
  match t with
  | TextToken text => piece = text
  | _ => braced piece
  end.

Lemma next_token_covers s :
  s <> "" ->
  exists t piece r, next_token s = Ret (t, r) /\ s = piece +:+ r /\ piece <> "" /\ covers t piece.
Proof.
  intros Hs. unfold next_token.
  assert (forall piece, braced piece -> piece <> "") as Hb by (by intros ? [? ->]).
  destruct (match_at IF_PATTERN None s) as [[c r]|] eqn:E1.
  { destruct (keyword_token _ _ _ _ E1) as (q & ? & ?). exists (IfToken (strip (group 1 c))), q, r; auto. }
  destruct (match_at ELIF_PATTERN None s) as [[c r]|] eqn:E2.
  { destruct (keyword_token _ _ _ _ E2) as (q & ? & ?). exists (ElifToken (strip (group 1 c))), q, r; auto. }
  destruct (match_at ELSE_PATTERN None s) as [[c r]|] eqn:E3.
  { destruct (braced_token (lit_i "else") _ _ _ E3) as (q & ? & ?). exists ElseToken, q, r; auto. }
  destruct (match_at ENDIF_PATTERN None s) as [[c r]|] eqn:E4.
  { destruct (endif_token _ _ _ E4) as (q & ? & ?). exists EndIfToken, q, r; auto. }
  clear E1 E2 E3 E4.
  destruct s as [|a s']; [done|]. destruct (Ascii.eqb a "{") eqn:Ea.
  - apply Ascii.eqb_eq in Ea as ->.
    destruct (match_at VARIABLE_PATTERN None _) as [[c r]|] eqn:E.
    + assert (0 < 1)%nat as L by lia.
      destruct (parse_variable_total (group 1 c)) as [[path mods] Hv];
        [by eapply grouped_nonempty; [|exact E]; simpl; lia|].
      destruct (braced_token _ _ _ _ E) as (q & ? & ?).
      exists (VariableToken path mods), q, r. rewrite Hv; auto.
    + by exists (TextToken "{"), "{", s'.
  - destruct (text_run (String a s')) as [t r] eqn:Et.
    exists (TextToken t), t, r. pose proof (text_run_app (String a s')) as Hr.
    simpl in *. rewrite Ea in Et. rewrite Ea in Hr. destruct (text_run s') as [t1 r1]. simplify_eq.
    split_and!; try done.
    destruct a as [[] [] [] [] [] [] [] []]; try done; simpl in Ea; done.
Qed.

Definition str_concat (l : list string) : string := foldr String.append "" l.

Lemma tokenize_fuel_covers fuel : forall s,
  (String.length s <= fuel)%nat ->
  exists ts pieces, tokenize_fuel fuel s = Ret ts /\ s = str_concat pieces /\ Forall2 covers ts pieces.
Proof.
  induction fuel as [|fuel IH]; intros s Hs.
  - exists [], []. by destruct s; [|simpl in Hs; lia].
  - destruct (decide (s = "")) as [->|Hne]; [by exists [], []|].
    destruct (next_token_covers s Hne) as (t & piece & r & Hn & Hsr & Hp & Hc).
    destruct (IH r) as (ts & pieces & Ht & Hcat & HF).
    { rewrite Hsr, str_length_app in Hs. destruct piece; [done|simpl in Hs; lia]. }
    exists (t :: ts), (piece :: pieces). simpl. rewrite Hn, Ht.
    split_and!; [by destruct s|by rewrite Hsr, Hcat|by constructor].
Qed.

(** The lexer is total and loses no text: every template is split into
    consecutive pieces, one per token, whose concatenation is the template; a
    text token carries its piece verbatim and every other token comes from a
    piece in braces. *)
Theorem tokenize_lossless (template : string) :
  exists ts pieces, tokenize template = Ret ts /\ template = str_concat pieces /\ Forall2 covers ts pieces.
Proof. by apply tokenize_fuel_covers. Qed.

Lemma text_run_plain s : str_any (fun c => Ascii.eqb c "{") s = false -> text_run s = (s, "").
Proof.
  induction s as [|c s IH]; cbn [str_any text_run]; [done|]. intros [H1 H2]%orb_false_iff.
  by rewrite H1, IH.
Qed.
