(* ===== verification/TemplateParser.v ===== *)
(** * Stream templates, part 2: from tokens to the syntax tree

    [Parser._parse_block] of utils/template_engine.py: its position in the
    token list is the list of tokens still to come, its three flags are
    arguments.  The loops become recursion on a fuel that [parse] sets to the
    number of tokens; [parse_block_enough] shows any larger fuel gives the
    same result. *)

From S2P Require Export TemplateLexer.

Set Warnings "-register-all".

Inductive node : Type :=
  | TextNode (text : string)
  | VariableNode (path : string) (modifiers : list modifier)
  | IfNode (condition : string) (true_branch : list node)
      (elif_branches : list (string * list node)) (false_branch : list node).

(** The flags [stop_at_elif], [stop_at_else] and [stop_at_endif]. *)
Record stops := mkStops { stop_elif : bool; stop_else : bool; stop_endif : bool }.
Definition no_stop : stops := mkStops false false false.
Definition stop_all : stops := mkStops true true true.
Definition stop_end : stops := mkStops false false true.

Definition cons_node (n : node) (r : list node * list token) : list node * list token :=
  (n :: r.1, r.2).

(** [{else}] and its block, when the parser stopped there. *)
Definition else_part (block : stops -> list token -> list node * list token) (ts : list token) :=
  match ts with
  | ElseToken :: r => block stop_end r
  | _ => ([], ts)
  end.

Definition skip_endif (ts : list token) : list token :=
  match ts with EndIfToken :: r => r | _ => ts end.

Fixpoint parse_block (fuel : nat) (st : stops) (ts : list token) {struct fuel} : list node * list token :=
  match fuel with
  | O => ([], ts)
  | S fuel =>
      match ts with
      | [] => ([], [])
      | TextToken t :: ts' => cons_node (TextNode t) (parse_block fuel st ts')
      | VariableToken p m :: ts' => cons_node (VariableNode p m) (parse_block fuel st ts')
      | IfToken c :: ts' =>
          let '(tb, r1) := parse_block fuel stop_all ts' in
          let '(el, r2) := parse_elifs fuel r1 in
          let '(fb, r3) := else_part (parse_block fuel) r2 in
          cons_node (IfNode c tb el fb) (parse_block fuel st (skip_endif r3))
      | ElifToken _ :: ts' => if stop_elif st then ([], ts) else parse_block fuel st ts'
      | ElseToken :: ts' => if stop_else st then ([], ts) else parse_block fuel st ts'
      | EndIfToken :: ts' => if stop_endif st then ([], ts) else parse_block fuel st ts'
      end
  end
with parse_elifs (fuel : nat) (ts : list token) {struct fuel} : list (string * list node) * list token :=
  match fuel with
  | O => ([], ts)
  | S fuel =>
      match ts with
      | ElifToken c :: ts' =>
          let '(body, r1) := parse_block fuel stop_all ts' in
          let '(el, r2) := parse_elifs fuel r1 in
          ((c, body) :: el, r2)
      | _ => ([], ts)
      end
  end.

Definition parse (tokens : list token) : list node :=
  (parse_block (length tokens) no_stop tokens).1.

(** ** The fuel is enough *)

Lemma else_part_length b ts :
  (forall st ts, length (b st ts).2 <= length ts)%nat -> (length (else_part b ts).2 <= length ts)%nat.
Proof. intros Hb. destruct ts as [|[] ts]; simpl; try lia. specialize (Hb stop_end ts). lia. Qed.

Lemma skip_endif_length ts : (length (skip_endif ts) <= length ts)%nat.
Proof. destruct ts as [|[] ts]; simpl; lia. Qed.

Lemma parse_lengths fuel :
  (forall st ts, length (parse_block fuel st ts).2 <= length ts)%nat /\
  (forall ts, length (parse_elifs fuel ts).2 <= length ts)%nat.
Proof.
  induction fuel as [|fuel [IHb IHe]]; [by split|]. split.
  - intros st [|t ts]; simpl; [done|].
    destruct t; simpl; try (specialize (IHb st ts); lia);
      try (case_match; simpl; [lia|specialize (IHb st ts); lia]).
    pose proof (IHb stop_all ts). destruct (parse_block fuel stop_all ts) as [tb r1]; simpl in *.
    pose proof (IHe r1). destruct (parse_elifs fuel r1) as [el r2]; simpl in *.
    pose proof (else_part_length _ r2 IHb). destruct (else_part (parse_block fuel) r2) as [fb r3]; simpl in *.
    specialize (IHb st (skip_endif r3)). pose proof (skip_endif_length r3). lia.
  - intros [|t ts]; simpl; [done|]. destruct t; simpl; try lia.
    pose proof (IHb stop_all ts). destruct (parse_block fuel stop_all ts) as [b r1]; simpl in *.
    pose proof (IHe r1). destruct (parse_elifs fuel r1) as [el r2]; simpl in *. lia.
Qed.

Lemma parse_block_length fuel st ts : (length (parse_block fuel st ts).2 <= length ts)%nat.
Proof. apply parse_lengths. Qed.
Lemma parse_elifs_length fuel ts : (length (parse_elifs fuel ts).2 <= length ts)%nat.
Proof. apply parse_lengths. Qed.

Lemma parse_enough f : forall g, (f <= g)%nat ->
  (forall st ts, length ts <= f -> parse_block g st ts = parse_block f st ts)%nat /\
  (forall ts, length ts <= f -> parse_elifs g ts = parse_elifs f ts)%nat.
Proof.
  induction f as [|f IH]; intros g Hg.
  - split; intros; destruct ts; simpl in *; try lia; destruct g; done.
  - destruct g as [|g]; [lia|]. destruct (IH g) as [IHb IHe]; [lia|]. split.
    + intros st [|t ts] Hl; simpl in *; [done|].
      destruct t; try (by rewrite IHb by lia).
      rewrite IHb by lia. pose proof (parse_block_length f stop_all ts).
      destruct (parse_block f stop_all ts) as [tb r1]; simpl in *.
      rewrite IHe by lia. pose proof (parse_elifs_length f r1).
      destruct (parse_elifs f r1) as [el r2]; simpl in *.
      assert (else_part (parse_block g) r2 = else_part (parse_block f) r2) as ->.
      { destruct r2 as [|[] r2]; simpl in *; try done. apply IHb. lia. }
      pose proof (else_part_length (parse_block f) r2 (parse_block_length f)).
      destruct (else_part (parse_block f) r2) as [fb r3]; simpl in *.
      pose proof (skip_endif_length r3). by rewrite IHb by lia.
    + intros [|t ts] Hl; simpl in *; [done|]. destruct t; try done.
      rewrite IHb by lia. pose proof (parse_block_length f stop_all ts).
      destruct (parse_block f stop_all ts) as [b r1]; simpl in *. by rewrite IHe by lia.
Qed.

(** The parser without its fuel, and the equations it satisfies. *)
Definition block (st : stops) (ts : list token) : list node * list token :=
  parse_block (length ts) st ts.
Definition elifs (ts : list token) : list (string * list node) * list token :=
  parse_elifs (length ts) ts.
Arguments block : simpl never.
Arguments elifs : simpl never.

Lemma parse_block_enough fuel st ts : (length ts <= fuel)%nat -> parse_block fuel st ts = block st ts.
Proof. intros. by apply (parse_enough (length ts) fuel). Qed.
Lemma parse_elifs_enough fuel ts : (length ts <= fuel)%nat -> parse_elifs fuel ts = elifs ts.
Proof. intros. by apply (parse_enough (length ts) fuel). Qed.

Lemma block_text st t ts : block st (TextToken t :: ts) = cons_node (TextNode t) (block st ts).
Proof. done. Qed.
Lemma block_variable st p m ts :
  block st (VariableToken p m :: ts) = cons_node (VariableNode p m) (block st ts).
Proof. done. Qed.
Lemma block_if st c ts :
  block st (IfToken c :: ts) =
    let '(tb, r1) := block stop_all ts in
    let '(el, r2) := elifs r1 in
    let '(fb, r3) := else_part block r2 in
    cons_node (IfNode c tb el fb) (block st (skip_endif r3)).
Proof.
  unfold block at 1. simpl. fold (block stop_all ts).
  pose proof (parse_block_length (length ts) stop_all ts). fold (block stop_all ts) in H.
  destruct (block stop_all ts) as [tb r1]; simpl in *.
  rewrite parse_elifs_enough by lia. pose proof (parse_elifs_length (length r1) r1).
  fold (elifs r1) in H0. destruct (elifs r1) as [el r2]; simpl in *.
  assert (else_part (parse_block (length ts)) r2 = else_part block r2) as ->.
  { destruct r2 as [|[] r2]; simpl in *; try done. apply parse_block_enough. lia. }
  pose proof (else_part_length block r2 (fun st ts => parse_block_length (length ts) st ts)).
  destruct (else_part block r2) as [fb r3]; simpl in *.
  pose proof (skip_endif_length r3). by rewrite parse_block_enough by lia.
Qed.
Lemma elifs_cons c ts :
  elifs (ElifToken c :: ts) =
    let '(body, r1) := block stop_all ts in
    let '(el, r2) := elifs r1 in ((c, body) :: el, r2).
Proof.
  unfold elifs at 1. simpl. fold (block stop_all ts).
  pose proof (parse_block_length (length ts) stop_all ts). fold (block stop_all ts) in H.
  destruct (block stop_all ts) as [b r1]; simpl in *. by rewrite parse_elifs_enough by lia.
Qed.

(** ** Writing a tree back as tokens *)

Definition else_tokens (fb : list token) : list token :=
  match fb with [] => [] | _ => ElseToken :: fb end.

Fixpoint unparse_node (n : node) : list token :=
  match n with
  | TextNode t => [TextToken t]
  | VariableNode p m => [VariableToken p m]
  | IfNode c tb el fb =>
      IfToken c :: flat_map unparse_node tb ++
      flat_map (fun b => ElifToken b.1 :: flat_map unparse_node b.2) el ++
      else_tokens (flat_map unparse_node fb) ++ [EndIfToken]
  end.
Definition unparse (ns : list node) : list token := flat_map unparse_node ns.
Arguments unparse : simpl never.

Lemma unparse_cons n ns : unparse (n :: ns) = unparse_node n ++ unparse ns.
Proof. done. Qed.
Lemma unparse_nil_inv ns : unparse ns = [] -> ns = [].
Proof. by destruct ns as [|[] ns]. Qed.

(** A control token ends the enclosing branch. *)
Definition ends_branch (ts : list token) : Prop :=
  match ts with ElifToken _ :: _ | ElseToken :: _ | EndIfToken :: _ => True | _ => False end.

Lemma block_ends_branch ts : ends_branch ts -> block stop_all ts = ([], ts).
Proof. by destruct ts as [|[] ts]. Qed.

Definition reads_block (ns : list node) : Prop := forall st rest,
  block st (unparse ns ++ rest) = (ns ++ (block st rest).1, (block st rest).2).

Lemma reads_branch ns rest : reads_block ns -> ends_branch rest -> block stop_all (unparse ns ++ rest) = (ns, rest).
Proof. intros H Hr. rewrite (H stop_all rest), block_ends_branch by done. simpl. by rewrite app_nil_r. Qed.

Definition elif_tokens (el : list (string * list node)) : list token :=
  flat_map (fun b => ElifToken b.1 :: unparse b.2) el.

Lemma elif_tokens_ends el rest : ends_branch rest -> ends_branch (elif_tokens el ++ rest).
Proof. by destruct el. Qed.

Lemma reads_elifs el rest :
  Forall (fun b => reads_block b.2) el ->
  match rest with ElseToken :: _ | EndIfToken :: _ => True | _ => False end ->
  elifs (elif_tokens el ++ rest) = (el, rest).
Proof.
  intros Hel Hr. assert (ends_branch rest) by (by destruct rest as [|[] ?]).
  induction Hel as [|[c b] el Hb _ IH]; simpl.
  - by destruct rest as [|[] ?].
  - rewrite <- app_assoc, elifs_cons, reads_branch, IH; [done|done|by apply elif_tokens_ends].
Qed.

Lemma reads_else fb rest :
  reads_block fb ->
  let ts := else_tokens (unparse fb) ++ EndIfToken :: rest in
  match ts with ElseToken :: _ | EndIfToken :: _ => True | _ => False end /\
  else_part block ts = (fb, EndIfToken :: rest).
Proof.
  intros H. simpl. destruct (unparse fb) as [|t ts] eqn:E; simpl.
  - by apply unparse_nil_inv in E as ->.
  - split; [done|]. specialize (H stop_end (EndIfToken :: rest)). rewrite E in H.
    etrans; [exact H|]. change (block stop_end (EndIfToken :: rest)) with ([] : list node, EndIfToken :: rest).
    simpl. by rewrite app_nil_r.
Qed.

Lemma reads_if c tb el fb st rest :
  reads_block tb -> Forall (fun b => reads_block b.2) el -> reads_block fb ->
  block st (unparse_node (IfNode c tb el fb) ++ rest) = cons_node (IfNode c tb el fb) (block st rest).
Proof.
  intros Ht He Hf. destruct (reads_else fb rest Hf) as [Hs Hfb].
  change (unparse_node (IfNode c tb el fb))
    with (IfToken c :: unparse tb ++ elif_tokens el ++ else_tokens (unparse fb) ++ [EndIfToken]).
  simpl. rewrite block_if, <- !app_assoc. simpl.
  assert (ends_branch (else_tokens (unparse fb) ++ EndIfToken :: rest)) by (by destruct (unparse fb)).
  rewrite reads_branch by (try done; by apply elif_tokens_ends).
  rewrite reads_elifs by done. by rewrite Hfb.
Qed.

Lemma in_elif_length el c b : In (c, b) el -> (length (unparse b) < length (elif_tokens el))%nat.
Proof.
  induction el as [|[c' b'] el IH]; simpl; [done|]. rewrite length_app. intros [[= -> ->]|H]; [lia|].
  specialize (IH H). lia.
Qed.

Lemma reads_all n : forall ns, (length (unparse ns) < n)%nat -> reads_block ns.
Proof.
  induction n as [|n IH]; intros ns Hn; [lia|].
  induction ns as [|m ns IHns]; intros st rest; [exact (surjective_pairing _)|].
  rewrite unparse_cons, length_app in Hn.
  assert (block st (unparse ns ++ rest) = (ns ++ (block st rest).1, (block st rest).2)) as Hns
    by (apply IHns; lia).
  rewrite unparse_cons, <- app_assoc.
  destruct m as [t|p md|c tb el fb]; [cbn [unparse_node app]; by rewrite block_text, Hns|cbn [unparse_node app]; by rewrite block_variable, Hns|].
  assert (length (unparse_node (IfNode c tb el fb)) =
    S (length (unparse tb) + (length (elif_tokens el) + (length (else_tokens (unparse fb)) + 1))))%nat as HL.
  { change (unparse_node (IfNode c tb el fb))
      with (IfToken c :: unparse tb ++ elif_tokens el ++ else_tokens (unparse fb) ++ [EndIfToken]).
    simpl. by rewrite !length_app. }
  assert (length (unparse fb) <= length (else_tokens (unparse fb)))%nat by (destruct (unparse fb); simpl; lia).
  rewrite reads_if, Hns; [done|apply IH; lia| |apply IH; lia].
  apply Forall_forall. intros [c' b] Hb%list_elem_of_In. pose proof (in_elif_length _ _ _ Hb). apply IH. simpl. lia.
Qed.

(** Parsing inverts printing: the tokens of any syntax tree (nested
    conditionals, any number of elif branches, else present exactly when its
    body is not empty) parse back to that tree. *)
Theorem parse_unparse (ns : list node) : parse (unparse ns) = ns.
Proof.
  unfold parse. change (parse_block (length (unparse ns)) no_stop (unparse ns)) with (block no_stop (unparse ns)).
  rewrite <- (app_nil_r (unparse ns)), (reads_all _ ns (Nat.lt_succ_diag_r _)).
  simpl. by rewrite app_nil_r.
Qed.

(** ** Malformed input *)

Lemma block_no_stop_consumes n : forall ts, (length ts <= n)%nat -> (block no_stop ts).2 = [].
Proof.
  induction n as [|n IH]; intros [|t ts] Hn; simpl in Hn; try done; [lia|].
  assert ((block no_stop ts).2 = []) as Hts by (apply IH; lia).
  destruct t; try done.
  rewrite block_if. pose proof (parse_block_length (length ts) stop_all ts).
  fold (block stop_all ts) in H. destruct (block stop_all ts) as [tb r1]; simpl in H.
  pose proof (parse_elifs_length (length r1) r1). fold (elifs r1) in H0.
  destruct (elifs r1) as [el r2]; simpl in H0.
  pose proof (else_part_length block r2 (fun st ts => parse_block_length (length ts) st ts)).
  destruct (else_part block r2) as [fb r3]; simpl in *.
  pose proof (skip_endif_length r3). apply IH. lia.
Qed.

(** The text and variable tokens of a token list, and of a tree in reading
    order. *)
Definition is_leaf (t : token) : bool :=
  match t with TextToken _ | VariableToken _ _ => true | _ => false end.
Definition token_leaves (ts : list token) : list token := List.filter is_leaf ts.
Definition node_leaves (n : node) : list token := token_leaves (unparse_node n).
Definition tree_leaves (ns : list node) : list token := token_leaves (unparse ns).

Lemma token_leaves_app a b : token_leaves (a ++ b) = token_leaves a ++ token_leaves b.
Proof. apply List.filter_app. Qed.
Lemma tree_leaves_cons n ns : tree_leaves (n :: ns) = node_leaves n ++ tree_leaves ns.
Proof. apply token_leaves_app. Qed.
Lemma else_tokens_leaves fb : token_leaves (else_tokens fb) = token_leaves fb.
Proof. by destruct fb. Qed.
Lemma skip_endif_leaves ts : token_leaves (skip_endif ts) = token_leaves ts.
Proof. by destruct ts as [|[] ts]. Qed.

Lemma if_leaves c tb el fb :
  node_leaves (IfNode c tb el fb) = tree_leaves tb ++ token_leaves (elif_tokens el) ++ tree_leaves fb.
Proof.
  unfold node_leaves.
  change (unparse_node (IfNode c tb el fb))
    with (IfToken c :: unparse tb ++ elif_tokens el ++ else_tokens (unparse fb) ++ [EndIfToken]).
  simpl. rewrite !token_leaves_app, else_tokens_leaves. simpl. by rewrite app_nil_r.
Qed.

Definition keeps_leaves (ts : list token) : Prop :=
  (forall st, token_leaves ts = tree_leaves (block st ts).1 ++ token_leaves (block st ts).2) /\
  token_leaves ts = token_leaves (elif_tokens (elifs ts).1) ++ token_leaves (elifs ts).2.

Lemma keeps_leaves_if c ts :
  (forall ts', (length ts' <= length ts)%nat -> keeps_leaves ts') ->
  forall st, token_leaves ts =
    tree_leaves (block st (IfToken c :: ts)).1 ++ token_leaves (block st (IfToken c :: ts)).2.
Proof.
  intros IH st. rewrite block_if. pose proof (parse_block_length (length ts) stop_all ts).
  fold (block stop_all ts) in H. rewrite (proj1 (IH ts (le_n _)) stop_all).
  destruct (block stop_all ts) as [tb r1]; simpl in *.
  rewrite (proj2 (IH r1 H)). pose proof (parse_elifs_length (length r1) r1). fold (elifs r1) in H0.
  destruct (elifs r1) as [el r2]; simpl in *.
  assert (token_leaves r2 = tree_leaves (else_part block r2).1 ++ token_leaves (else_part block r2).2) as ->.
  { destruct r2 as [|[] r2]; simpl in *; try done. apply (IH r2). lia. }
  pose proof (else_part_length block r2 (fun st ts => parse_block_length (length ts) st ts)).
  destruct (else_part block r2) as [fb r3]; simpl in *.
  pose proof (skip_endif_length r3). rewrite tree_leaves_cons, if_leaves, <- !app_assoc.
  by rewrite <- (proj1 (IH (skip_endif r3) ltac:(lia)) st), skip_endif_leaves.
Qed.

Lemma keeps_leaves_elif c ts :
  (forall ts', (length ts' <= length ts)%nat -> keeps_leaves ts') ->
  token_leaves ts =
    token_leaves (elif_tokens (elifs (ElifToken c :: ts)).1) ++ token_leaves (elifs (ElifToken c :: ts)).2.
Proof.
  intros IH. rewrite elifs_cons. pose proof (parse_block_length (length ts) stop_all ts).
  fold (block stop_all ts) in H. rewrite (proj1 (IH ts (le_n _)) stop_all) at 1.
  destruct (block stop_all ts) as [b r1]; simpl in *.
  rewrite (proj2 (IH r1 H)). destruct (elifs r1) as [el r2]; simpl.
  by rewrite token_leaves_app, <- app_assoc.
Qed.

Lemma block_keeps_leaves n : forall ts, (length ts <= n)%nat -> keeps_leaves ts.
Proof.
  induction n as [|n IH]; intros [|t ts] Hn; simpl in Hn; try (by split); [lia|].
  assert (forall ts', (length ts' <= length ts)%nat -> keeps_leaves ts') as IH' by (intros; apply IH; lia).
  destruct (IH' ts (le_n _)) as [Hts _]. split; [intros st|].
  - destruct t; try by apply (keeps_leaves_if _ _ IH' st).
    + rewrite block_text. cbn [cons_node fst snd]. rewrite tree_leaves_cons.
      change (TextToken text :: token_leaves ts = TextToken text :: (tree_leaves (block st ts).1 ++ token_leaves (block st ts).2)).
      by rewrite <- (Hts st).
    + rewrite block_variable. cbn [cons_node fst snd]. rewrite tree_leaves_cons.
      change (VariableToken path modifiers :: token_leaves ts =
        VariableToken path modifiers :: (tree_leaves (block st ts).1 ++ token_leaves (block st ts).2)).
      by rewrite <- (Hts st).
    + unfold block. simpl. destruct (stop_elif st); [done|]. apply (Hts st).
    + unfold block. simpl. destruct (stop_else st); [done|]. apply (Hts st).
    + unfold block. simpl. destruct (stop_endif st); [done|]. apply (Hts st).
  - destruct t; try done. by apply (keeps_leaves_elif _ _ IH').
Qed.

(** The parser is total on malformed input and drops no content: whatever
    the control tokens (unclosed conditionals, stray elif, else or end
    markers), every token is consumed and the text and variable tokens of the
    input appear in the tree, all of them and in order. *)
Theorem parse_keeps_content (ts : list token) :
  (parse_block (length ts) no_stop ts).2 = [] /\ tree_leaves (parse ts) = token_leaves ts.
Proof.
  assert ((block no_stop ts).2 = []) as H by (by apply (block_no_stop_consumes (length ts))).
  split; [exact H|].
  destruct (block_keeps_leaves _ ts (le_n _)) as [Hk _].
  by rewrite (Hk no_stop), H, app_nil_r.
Qed.
