(* ===== verification/TemplateEval.v ===== *)
(** * Stream templates, part 3: evaluation (utils/template_engine.py)

    Modifiers, [ConditionEvaluator], [CompiledTemplate] and the template
    cache.  A context is a dictionary of [PyVal] values; a call that raises in
    the code is a [Raise] here.  [evaluate] recurses on pieces of the
    condition, so its fuel is the length of the condition plus one, and
    [evaluate_unfold] states the equation of the code without fuel. *)

From S2P Require Export TemplateParser PyVal.
Local Open Scope string_scope.
Local Open Scope Z_scope.

Definition context : Type := list (string * value).

(** ** Security limits *)

Definition MAX_TEMPLATE_LENGTH : Z := 10000.

Definition FORBIDDEN_PATHS : list string :=
  ["__class__"; "__bases__"; "__mro__"; "__subclasses__"; "__init__"; "__new__"; "__del__";
   "__dict__"; "__slots__"; "__getattr__"; "__setattr__"; "__delattr__"; "__getattribute__";
   "__globals__"; "__code__"; "__builtins__"; "__import__"; "__call__"; "__reduce__";
   "__reduce_ex__"; "__module__"; "__weakref__"; "__doc__"; "__annotations__"; "__wrapped__";
   "__self__"; "__func__"; "_sa_instance_state"].

Definition forbidden (part : string) : bool :=
  existsb (String.eqb part) FORBIDDEN_PATHS || startswith "_" part.

(** ** Formatting helpers *)

Definition byte_units : list string := ["B"; "KB"; "MB"; "GB"; "TB"; "PB"].

(** The division loop of [format_bytes]: the units still available after the
    current one bound it. *)
Fixpoint scale_units (base v : float) (u : string) (us : list string) : string :=
  match us with
  | u' :: us' => if f_leb base v then scale_units base (f_div v base) u' us' else format_1f v +:+ " " +:+ u
  | [] => format_1f v +:+ " " +:+ u
  end.

Definition format_bytes (size : Z) : outcome py_exn string :=
  if size =? 0 then Ret "0 B"
  else v ← float_of_int size; Ret (scale_units (f_round 1000) v "B" (tail byte_units)).

Definition format_time (seconds : Z) : string :=
  if seconds <=? 0 then ""
  else
    let hours := seconds / 3600 in
    let minutes := (seconds mod 3600) / 60 in
    let secs := seconds mod 60 in
    if 0 <? hours then pad2 hours +:+ ":" +:+ pad2 minutes +:+ ":" +:+ pad2 secs
    else pad2 minutes +:+ ":" +:+ pad2 secs.

Definition quot_entity : string := "&quot;".

Definition escape_html (text : string) : string :=
  if str_empty text then ""
  else
    replace (String quote1 "") "&#x27;"
      (replace (String quote2 "") quot_entity
        (replace ">" "&gt;" (replace "<" "&lt;" (replace "&" "&amp;" text)))).

(** ** Modifiers *)

Definition is_number (v : value) : bool :=
  match v with VBool _ | VInt _ | VFloat _ => true | _ => false end.
Definition is_none (v : value) : bool := match v with VNone => true | _ => false end.

Definition if_truthy (v : value) (r : outcome py_exn value) : outcome py_exn value :=
  if truthy v then r else Ret (VStr "").

(** The entries of [MODIFIERS]; [None] for a name that is not one. *)
Definition apply_plain (name : string) (v : value) : option (outcome py_exn value) :=
  if String.eqb name "bytes" then Some (if_truthy v (z ← to_int v; VStr <$> format_bytes z))
  else if String.eqb name "time" then Some (if_truthy v (z ← to_int v; Ret (VStr (format_time z))))
  else if String.eqb name "upper" then Some (if_truthy v (Ret (VStr (upper (str v)))))
  else if String.eqb name "lower" then Some (if_truthy v (Ret (VStr (lower (str v)))))
  else if String.eqb name "title" then Some (if_truthy v (Ret (VStr (title (str v)))))
  else if String.eqb name "first" then
    Some (Ret match v with VList (x :: _) => x | _ => VStr "" end)
  else if String.eqb name "last" then
    Some (Ret match v with VList (x :: l) => List.last l x | _ => VStr "" end)
  else if String.eqb name "reverse" then
    Some (Ret match v with VStr s => VStr (str_rev s) | VList l => VList (rev l) | _ => v end)
  else if String.eqb name "length" then
    Some (if truthy v then VInt <$> py_len v else Ret (VInt 0))
  else if String.eqb name "exists" then
    Some (Ret (VBool (negb (is_none v) && (if is_number v then true else truthy v))))
  else if String.eqb name "escape" || String.eqb name "e" then
    Some (if_truthy v (Ret (VStr (escape_html (str v)))))
  else None.

Definition join_modifier (v : value) (arg : string) : string :=
  if negb (truthy v) then ""
  else
    let sep :=
      if str_empty arg then ", "
      else
        let arg := strip arg in
        let q1 := String quote1 "" in
        let q2 := String quote2 "" in
        if (startswith q1 arg && endswith q1 arg) || (startswith q2 arg && endswith q2 arg)
        then slice_inner arg else arg in
    match v with VList l => join sep (map str l) | _ => str v end.

Definition truncate_modifier (v : value) (arg : string) : string :=
  if negb (truthy v) then ""
  else
    match int_of_string arg with
    | Ret length =>
        let s := str v in
        if length <? slen s then slice_to length s +:+ "..." else s
    | Raise _ => str v
    end.

Definition quotes : string := String quote1 (String quote2 "").

Definition replace_modifier (v : value) (arg : string) : string :=
  if negb (truthy v) then ""
  else
    match split1 "," arg with
    | [old; new] => replace (strip_chars quotes (strip old)) (strip_chars quotes (strip new)) (str v)
    | _ => str v
    end.

(** The entries of [MODIFIERS_WITH_ARGS]. *)
Definition apply_with_arg (name arg : string) (v : value) : option value :=
  if String.eqb name "join" then Some (VStr (join_modifier v arg))
  else if String.eqb name "truncate" then Some (VStr (truncate_modifier v arg))
  else if String.eqb name "replace" then Some (VStr (replace_modifier v arg))
  else None.

(** One modifier; an unknown name is skipped. *)
Definition apply_modifier (v : value) (m : modifier) : outcome py_exn value :=
  let name := lower m.1 in
  match apply_with_arg name (default "" m.2) v with
  | Some v' => Ret v'
  | None => match apply_plain name v with Some r => r | None => Ret v end
  end.

Fixpoint apply_chain (v : value) (ms : list modifier) : outcome py_exn value :=
  match ms with
  | [] => Ret v
  | m :: ms => v' ← apply_modifier v m; apply_chain v' ms
  end.

Definition show (v : value) : string :=
  match v with
  | VList l => join ", " (map str l)
  | VBool _ => ""
  | VNone => ""
  | _ => str v
  end.

Definition apply_modifiers (v : value) (ms : list modifier) : outcome py_exn string :=
  match v with
  | VNone => Ret ""
  | _ => show <$> apply_chain v ms
  end.

(** ** Values in a context *)

(** [CompiledTemplate._get_value], [VNone] for Python's [None]. *)
Fixpoint get_path (parts : list string) (v : value) : value :=
  match parts with
  | [] => v
  | part :: parts =>
      if forbidden part then VNone
      else match v with
           | VDict d =>
               match dict_get part d with
               | None | Some VNone => VNone
               | Some w => get_path parts w
               end
           | _ => VNone
           end
  end.
Definition get_value (path : string) (ctx : context) : value :=
  get_path (split_char "." path) (VDict ctx).

(** [_get_value_with_exists]: [None] when the path is blocked or missing. *)
Fixpoint get_path_with_exists (parts : list string) (v : value) : option value :=
  match parts with
  | [] => Some v
  | part :: parts =>
      if forbidden part then None
      else match v with
           | VDict d =>
               match dict_get part d with
               | None => None
               | Some w => get_path_with_exists parts w
               end
           | _ => None
           end
  end.
Definition get_value_with_exists (path : string) (ctx : context) : option value :=
  get_path_with_exists (split_char "." path) (VDict ctx).

(** ** [ConditionEvaluator] *)

Definition OPERATORS : list string := [">="; "<="; "!="; "="; ">"; "<"; "~"; "$"; "^"].

Definition quoted_by (q : ascii) (e : string) : bool :=
  startswith (String q "") e && endswith (String q "") e.

(** The attempt to read a number: [None] when the code falls through. *)
Definition number_literal (e : string) : option value :=
  if contains "." e && negb (str_any is_alpha e) then
    match float_of_string e with Ret f => Some (VFloat f) | Raise _ => None end
  else if isdigit e || (startswith "-" e && isdigit (str_drop 1 e)) then
    match int_of_string e with Ret z => Some (VInt z) | Raise _ => None end
  else None.

Definition resolve_value (expr : string) (ctx : context) : value :=
  let expr := strip expr in
  if quoted_by quote2 expr || quoted_by quote1 expr then VStr (slice_inner expr)
  else match number_literal expr with
  | Some v => v
  | None =>
      if String.eqb (lower expr) "true" then VBool true
      else if String.eqb (lower expr) "false" then VBool false
      else if contains "." expr then default VNone (get_value_with_exists expr ctx)
      else match dict_get expr ctx with
           | Some v => v
           | None => VStr expr
           end
  end.

Definition fold_str (v : value) : string :=
  match v with VNone => "" | _ => lower (str v) end.

Definition num_of (v : value) : outcome py_exn float :=
  match v with VNone => Ret (f_round 0) | _ => to_float v end.

(** The numeric comparisons: [ValueError] and [TypeError] give [False], any
    other exception leaves [evaluate]. *)
Definition compare_num (cmp : float -> float -> bool) (l r : value) : outcome py_exn bool :=
  match (x ← num_of l; y ← num_of r; Ret (cmp x y)) with
  | Raise ValueError | Raise TypeError => Ret false
  | o => o
  end.

Definition compare (left op right : string) (ctx : context) : outcome py_exn bool :=
  let l := resolve_value left ctx in
  let r := resolve_value right ctx in
  let ls := fold_str l in
  let rs := fold_str r in
  if String.eqb op "=" then Ret (String.eqb ls rs)
  else if String.eqb op "!=" then Ret (negb (String.eqb ls rs))
  else if String.eqb op "~" then Ret (contains rs ls)
  else if String.eqb op "$" then Ret (startswith rs ls)
  else if String.eqb op "^" then Ret (endswith rs ls)
  else if String.eqb op ">" then compare_num (fun x y => f_ltb y x) l r
  else if String.eqb op "<" then compare_num f_ltb l r
  else if String.eqb op ">=" then compare_num (fun x y => f_leb y x) l r
  else if String.eqb op "<=" then compare_num f_leb l r
  else Ret false.

Definition is_truthy (v : value) : bool :=
  match v with VStr s => negb (str_empty (strip s)) | _ => truthy v end.

(** The first operator of the list that occurs, with its two sides. *)
Fixpoint find_operator (ops : list string) (condition : string) : option (string * string * string) :=
  match ops with
  | [] => None
  | op :: ops =>
      if contains op condition then
        match split1 op condition with
        | [l; r] => Some (strip l, op, strip r)
        | _ => find_operator ops condition
        end
      else find_operator ops condition
  end.

Definition logical (kw : string) : rx :=
  Seq (Plus true (Chr is_space)) (Seq (lit_i kw) (Plus true (Chr is_space))).

Fixpoint all_of (ev : string -> outcome py_exn bool) (l : list string) : outcome py_exn bool :=
  match l with
  | [] => Ret true
  | c :: l => b ← ev c; if b : bool then all_of ev l else Ret false
  end.
Fixpoint any_of (ev : string -> outcome py_exn bool) (l : list string) : outcome py_exn bool :=
  match l with
  | [] => Ret false
  | c :: l => b ← ev c; if b : bool then Ret true else any_of ev l
  end.

(** One call of [evaluate], its recursive calls passed as [ev]. *)
Definition evaluate_step (ctx : context) (ev : string -> outcome py_exn bool) (condition : string) :
    outcome py_exn bool :=
  let condition := strip condition in
  match re_split (logical "and") condition with
  | a :: b :: l => all_of ev (a :: b :: l)
  | _ =>
  match re_split (logical "or") condition with
  | a :: b :: l => any_of ev (a :: b :: l)
  | _ =>
      if startswith "not " condition then negb <$> ev (str_drop 4 condition)
      else match find_operator OPERATORS condition with
           | Some (l, op, r) => compare l op r ctx
           | None => Ret (is_truthy (resolve_value condition ctx))
           end
  end end.

Fixpoint evaluate_fuel (fuel : nat) (ctx : context) (condition : string) : outcome py_exn bool :=
  match fuel with
  | O => Ret false
  | S fuel => evaluate_step ctx (evaluate_fuel fuel ctx) condition
  end.
Definition evaluate (condition : string) (ctx : context) : outcome py_exn bool :=
  evaluate_fuel (S (String.length condition)) ctx condition.

(** ** [CompiledTemplate] *)

Fixpoint render_node (ctx : context) (n : node) {struct n} : outcome py_exn string :=
  match n with
  | TextNode text => Ret text
  | VariableNode path ms => apply_modifiers (get_value path ctx) ms
  | IfNode c tb el fb =>
      let raw := fix raw (ns : list node) : outcome py_exn string :=
        match ns with
        | [] => Ret ""
        | n :: ns => s ← render_node ctx n; t ← raw ns; Ret (s +:+ t)
        end in
      b ← evaluate c ctx;
      if b : bool then raw tb
      else (fix branches (l : list (string * list node)) : outcome py_exn string :=
              match l with
              | [] => raw fb
              | (c, body) :: l => b ← evaluate c ctx; if b : bool then raw body else branches l
              end) el
  end.

Fixpoint render_nodes_raw (ctx : context) (ns : list node) : outcome py_exn string :=
  match ns with
  | [] => Ret ""
  | n :: ns => s ← render_node ctx n; t ← render_nodes_raw ctx ns; Ret (s +:+ t)
  end.

Definition newline : ascii := of_code 10.
Definition nonblank (line : string) : bool := negb (str_empty (strip line)).

Definition clean_lines (output : string) : string :=
  join (String newline "") (List.filter nonblank (split_char newline output)).

Definition render_nodes (ns : list node) (ctx : context) : outcome py_exn string :=
  clean_lines <$> render_nodes_raw ctx ns.

Definition render (ast : list node) (ctx : context) : outcome py_exn string := render_nodes ast ctx.

(** ** Public interface, with the module-level cache as state *)

Definition compile_template (template : string) : outcome py_exn (list node) :=
  if MAX_TEMPLATE_LENGTH <? slen template then Raise ValueError
  else ts ← tokenize template; Ret (parse ts).

Definition template_cache : Type := gmap string (list node).

Definition get_compiled_template (template : string) (cache : template_cache) :
    outcome py_exn (list node) * template_cache :=
  match cache !! template with
  | Some ast => (Ret ast, cache)
  | None =>
      match compile_template template with
      | Ret ast => (Ret ast, <[template := ast]> cache)
      | Raise e => (Raise e, cache)
      end
  end.

Definition render_template (template : string) (ctx : context) (cache : template_cache) :
    outcome py_exn string * template_cache :=
  let '(compiled, cache) := get_compiled_template template cache in
  (ast ← compiled; render ast ctx, cache).

Definition clear_cache (cache : template_cache) : template_cache := ∅.

(** ** The recursion of [evaluate] ends *)

Lemma lstrip_length p s : (String.length (lstrip_of p s) <= String.length s)%nat.
Proof. induction s as [|c s IH]; simpl; [done|]. destruct (p c); simpl; lia. Qed.
Lemma rstrip_length p s : (String.length (rstrip_of p s) <= String.length s)%nat.
Proof. induction s as [|c s IH]; simpl; [done|]. destruct (rstrip_of p s); [destruct (p c)|]; simpl in *; lia. Qed.
Lemma strip_length s : (String.length (strip s) <= String.length s)%nat.
Proof. unfold strip, strip_of. pose proof (rstrip_length is_space (lstrip_of is_space s)).
  pose proof (lstrip_length is_space s). lia. Qed.

Lemma logical_pieces kw s a b l :
  re_split (logical kw) s = a :: b :: l ->
  Forall (fun w => String.length w < String.length s)%nat (a :: b :: l).
Proof.
  intros E. unfold re_split in E.
  destruct (re_split_shorter (logical kw) ltac:(simpl; lia) (String.length s) None s) as [H|H];
    rewrite E in H; [done|exact H].
Qed.

Lemma all_of_ext ev ev' l : Forall (fun w => ev w = ev' w) l -> all_of ev l = all_of ev' l.
Proof. induction 1 as [|w l Hw _ IH]; simpl; [done|]. by rewrite Hw, IH. Qed.
Lemma any_of_ext ev ev' l : Forall (fun w => ev w = ev' w) l -> any_of ev l = any_of ev' l.
Proof. induction 1 as [|w l Hw _ IH]; simpl; [done|]. by rewrite Hw, IH. Qed.

(** A call depends on its recursive calls at shorter conditions only. *)
Lemma evaluate_step_ext ctx ev ev' c :
  (forall w, (String.length w < String.length c)%nat -> ev w = ev' w) ->
  evaluate_step ctx ev c = evaluate_step ctx ev' c.
Proof.
  intros H. unfold evaluate_step. pose proof (strip_length c) as L.
  assert (forall l : list string, Forall (fun w => String.length w < String.length (strip c))%nat l ->
            Forall (fun w => ev w = ev' w) l) as HF.
  { intros l Hl. eapply Forall_impl; [exact Hl|]. intros w Hw. simpl in Hw. apply H. lia. }
  destruct (re_split (logical "and") (strip c)) as [|a [|b l]] eqn:E1;
    try (by apply all_of_ext, HF; eapply logical_pieces);
  (destruct (re_split (logical "or") (strip c)) as [|a' [|b' l']] eqn:E2;
    try (by apply any_of_ext, HF; eapply logical_pieces));
  (destruct (startswith "not " (strip c)) eqn:En; [|done];
   rewrite H; [done|];
   destruct (strip c) as [|c1 [|c2 [|c3 [|c4 s]]]]; simpl in *; rewrite ?andb_false_r in En; try done; lia).
Qed.

Lemma evaluate_enough ctx : forall f g c,
  (String.length c < f)%nat -> (String.length c < g)%nat ->
  evaluate_fuel f ctx c = evaluate_fuel g ctx c.
Proof.
  induction f as [|f IH]; intros g c Hf Hg; [lia|]. destruct g as [|g]; [lia|]. simpl.
  apply evaluate_step_ext. intros w Hw. apply IH; lia.
Qed.

(** Evaluating a condition terminates and satisfies the recursion the code
    is written as: with its recursive calls made on the condition's own
    pieces, [evaluate] is one unfolding of [ConditionEvaluator.evaluate], and
    any fuel above the condition's length computes it. *)
Theorem evaluate_unfold (ctx : context) (c : string) :
  evaluate c ctx = evaluate_step ctx (fun w => evaluate w ctx) c /\
  forall extra, evaluate_fuel (S (String.length c) + extra) ctx c = evaluate c ctx.
Proof.
  split.
  - unfold evaluate at 1. simpl. apply evaluate_step_ext. intros w Hw. apply evaluate_enough; lia.
  - intros extra. apply evaluate_enough; lia.
Qed.

(** ** Paths never leave the public part of the context *)

(** The context without the entries a path may not name, at any depth. *)
Fixpoint public (v : value) : value :=
  match v with
  | VList l => VList (map public l)
  | VDict d =>
      VDict ((fix go (d : list (string * value)) :=
        match d with
        | [] => []
        | (k, w) :: d => if forbidden k then go d else (k, public w) :: go d
        end) d)
  | _ => v
  end.

Fixpoint public_dict (d : context) : context :=
  match d with
  | [] => []
  | (k, w) :: d => if forbidden k then public_dict d else (k, public w) :: public_dict d
  end.

Lemma public_VDict d : public (VDict d) = VDict (public_dict d).
Proof. done. Qed.

Lemma dict_get_public k d :
  forbidden k = false -> dict_get k (public_dict d) = public <$> dict_get k d.
Proof.
  intros Hk. induction d as [|[k' w] d IH]; simpl; [done|].
  destruct (forbidden k') eqn:E; simpl; destruct (String.eqb k k') eqn:Ek; try done.
  apply String.eqb_eq in Ek. congruence.
Qed.

Lemma get_path_public parts : forall v, get_path parts (public v) = public (get_path parts v).
Proof.
  induction parts as [|p parts IH]; intros v; cbn [get_path]; [done|].
  destruct (forbidden p) eqn:Ep; [done|].
  destruct v as [| | | | | |d]; try done. rewrite public_VDict.
  rewrite (dict_get_public p d Ep). destruct (dict_get p d) as [w|]; simpl; [|done].
  destruct w; done || apply IH.
Qed.

Lemma get_path_forbidden parts : forall v, existsb forbidden parts = true -> get_path parts v = VNone.
Proof.
  induction parts as [|p parts IH]; intros v; simpl; [done|].
  destruct (forbidden p); simpl; [done|]. intros H. destruct v; try done.
  destruct (dict_get p d) as [[]|]; try done; by apply IH.
Qed.

Lemma get_path_with_exists_eq parts : forall v,
  get_path parts v = default VNone (get_path_with_exists parts v).
Proof.
  induction parts as [|p parts IH]; intros v; simpl; [done|].
  destruct (forbidden p); [done|]. destruct v as [| | | | | |d]; try done.
  destruct (dict_get p d) as [w|]; [|done]. rewrite <- IH. destruct w; try done. by destruct parts; simpl; [|case_match].
Qed.

Definition scalar (v : value) : bool := match v with VList _ | VDict _ => false | _ => true end.
Lemma public_scalar v : scalar v = true -> public v = v.
Proof. by destruct v. Qed.

(** [C20] What a template variable's path can name.  A variable whose path names
    a forbidden or underscore segment renders as nothing whatever its modifiers;
    for every path, the value read in the context without such entries (removed
    from the dictionaries at every depth) is the value read in the context with
    them, less the entries inside that value; so a variable whose value is no
    list and no dictionary renders the same without them, while a dictionary
    that is printed whole is printed with them
    ([whole_dictionary_prints_private]); and a dotted operand of a condition
    reads exactly what the variable of the same path would. *)
Theorem variables_are_public (path : string) (ms : list modifier) (ctx : context) :
  (existsb forbidden (split_char "." path) = true ->
     render_node ctx (VariableNode path ms) = Ret "") /\
  get_value path (public_dict ctx) = public (get_value path ctx) /\
  (scalar (get_value path ctx) = true ->
     render_node (public_dict ctx) (VariableNode path ms) = render_node ctx (VariableNode path ms)) /\
  default VNone (get_value_with_exists path ctx) = get_value path ctx.
Proof.
  assert (get_value path (public_dict ctx) = public (get_value path ctx)) as Hp
    by (unfold get_value; rewrite <- public_VDict; apply get_path_public).
  split_and!.
  - intros H. simpl. unfold get_value. by rewrite get_path_forbidden.
  - exact Hp.
  - intros H. simpl. by rewrite Hp, public_scalar.
  - unfold get_value, get_value_with_exists. by rewrite <- get_path_with_exists_eq.
Qed.

Definition sample_context : context :=
  [("stream", VDict [("name", VStr "Film"); ("_sa_instance_state", VStr "internal"); ("size", VInt 5368709120)]);
   ("seconds", VInt 3725)].

Lemma variables_are_public_witness :
  render_node sample_context (VariableNode "stream._sa_instance_state" [("upper", None)]) = Ret "" /\
  render_node (public_dict sample_context) (VariableNode "stream.size" [("bytes", None)]) = Ret "5.4 GB".
Proof.
  split.
  - apply (proj1 (variables_are_public "stream._sa_instance_state" [("upper", None)] sample_context)).
    vm_compute. reflexivity.
  - rewrite (proj1 (proj2 (proj2 (variables_are_public "stream.size" [("bytes", None)] sample_context)))
               ltac:(vm_compute; reflexivity)).
    vm_compute. reflexivity.
Defined.

(** The guards test the path only: a variable that names a dictionary prints all
    of it. *)
Example whole_dictionary_prints_private :
  render_node [("stream", VDict [("name", VStr "Film"); ("_token", VStr "abc")])] (VariableNode "stream" [])
  = Ret "{'name': 'Film', '_token': 'abc'}" /\
  render_node (public_dict [("stream", VDict [("name", VStr "Film"); ("_token", VStr "abc")])]) (VariableNode "stream" [])
  = Ret "{'name': 'Film'}".
Proof. split; vm_compute; reflexivity. Qed.

(** ** HTML escaping *)

Definition escape_char (c : ascii) : string :=
  if Ascii.eqb c "&" then "&amp;"
  else if Ascii.eqb c "<" then "&lt;"
  else if Ascii.eqb c ">" then "&gt;"
  else if Ascii.eqb c quote2 then quot_entity
  else if Ascii.eqb c quote1 then "&#x27;"
  else String c "".

Lemma replace_char a new s :
  replace (String a "") new s = str_flat_map (fun c => if Ascii.eqb c a then new else String c "") s.
Proof.
  unfold replace. simpl. induction s as [|c s IH]; simpl; [done|].
  rewrite (Ascii.eqb_sym a c). destruct (Ascii.eqb c a); simpl; by rewrite IH; str_simpl.
Qed.

Lemma str_flat_map_app f a b : str_flat_map f (a +:+ b) = str_flat_map f a +:+ str_flat_map f b.
Proof. induction a as [|c a IH]; str_simpl; [done|]. by rewrite IH. Qed.

Lemma str_flat_map_comp f g s :
  str_flat_map g (str_flat_map f s) = str_flat_map (fun c => str_flat_map g (f c)) s.
Proof. induction s as [|c s IH]; simpl; [done|]. by rewrite str_flat_map_app, IH. Qed.

Lemma str_flat_map_ext f g s : (forall c, f c = g c) -> str_flat_map f s = str_flat_map g s.
Proof. intros H. induction s as [|c s IH]; simpl; [done|]. by rewrite H, IH. Qed.

(** The five passes amount to one pass with one entity per character. *)
Lemma escape_html_flat s : escape_html s = str_flat_map escape_char s.
Proof.
  unfold escape_html. destruct (str_empty s) eqn:E; [by destruct s|].
  rewrite !replace_char, !str_flat_map_comp. apply str_flat_map_ext. intros c. unfold escape_char.
  destruct (Ascii.eqb c "&") eqn:E1; [done|].
  simpl. destruct (Ascii.eqb c "<") eqn:E2; [done|].
  simpl. destruct (Ascii.eqb c ">") eqn:E3; [done|].
  simpl. destruct (Ascii.eqb c quote2) eqn:E4; [done|].
  simpl. by destruct (Ascii.eqb c quote1) eqn:E5.
Qed.

(** Reading the five entities back. *)
Definition entity_at (s : string) : option (ascii * nat) :=
  if startswith "&amp;" s then Some ("&"%char, 5%nat)
  else if startswith "&lt;" s then Some ("<"%char, 4%nat)
  else if startswith "&gt;" s then Some (">"%char, 4%nat)
  else if startswith quot_entity s then Some (quote2, 6%nat)
  else if startswith "&#x27;" s then Some (quote1, 6%nat)
  else None.

Fixpoint unescape_from (skip : nat) (s : string) : string :=
  match s with
  | "" => ""
  | String c s' =>
      match skip with
      | S skip => unescape_from skip s'
      | O =>
          match entity_at s with
          | Some (d, n) => String d (unescape_from (n - 1) s')
          | None => String c (unescape_from 0 s')
          end
      end
  end.

Lemma entity_at_plain c s : Ascii.eqb c "&" = false -> entity_at (String c s) = None.
Proof. intros E. unfold entity_at, quot_entity. cbn [startswith]. by rewrite (Ascii.eqb_sym "&" c), E. Qed.

Lemma unescape_escape_char c s :
  unescape_from 0 (escape_char c +:+ s) = String c (unescape_from 0 s).
Proof.
  unfold escape_char.
  destruct (Ascii.eqb c "&") eqn:E1; [by apply Ascii.eqb_eq in E1 as ->|].
  destruct (Ascii.eqb c "<") eqn:E2; [by apply Ascii.eqb_eq in E2 as ->|].
  destruct (Ascii.eqb c ">") eqn:E3; [by apply Ascii.eqb_eq in E3 as ->|].
  destruct (Ascii.eqb c quote2) eqn:E4; [by apply Ascii.eqb_eq in E4 as ->|].
  destruct (Ascii.eqb c quote1) eqn:E5; [by apply Ascii.eqb_eq in E5 as ->|].
  rewrite str_app_cons, str_app_nil. cbn [unescape_from]. by rewrite entity_at_plain.
Qed.

Definition html_plain (c : ascii) : bool :=
  negb (Ascii.eqb c "<" || Ascii.eqb c ">" || Ascii.eqb c quote1 || Ascii.eqb c quote2).

Lemma escape_char_plain c : str_all html_plain (escape_char c) = true.
Proof.
  unfold escape_char, html_plain.
  destruct (Ascii.eqb c "&") eqn:E1; [done|]. destruct (Ascii.eqb c "<") eqn:E2; [done|].
  destruct (Ascii.eqb c ">") eqn:E3; [done|]. destruct (Ascii.eqb c quote2) eqn:E4; [done|].
  destruct (Ascii.eqb c quote1) eqn:E5; [done|]. simpl. by rewrite E2, E3, E4, E5.
Qed.

(** Escaping makes text inert and loses nothing: the output holds no angle
    bracket and no quote, and reading its entities back gives the text, so
    distinct texts stay distinct and every ampersand starts an entity. *)
Theorem escape_html_safe (text : string) :
  str_all html_plain (escape_html text) = true /\ unescape_from 0 (escape_html text) = text.
Proof.
  rewrite escape_html_flat. split; induction text as [|c s IH]; cbn [str_flat_map]; try done.
  - by rewrite str_all_app, escape_char_plain, IH.
  - by rewrite unescape_escape_char, IH.
Qed.

(** ** Blank lines *)

Definition free_of (a : ascii) (s : string) : bool := negb (str_any (Ascii.eqb a) s).

Lemma split_char_free a s : Forall (fun w => free_of a w = true) (split_char a s).
Proof.
  unfold free_of. induction s as [|c s IH]; simpl; [by repeat constructor|].
  destruct (Ascii.eqb c a) eqn:E; [by constructor|].
  rewrite Ascii.eqb_sym in E.
  destruct (split_char a s) as [|w ws]; [by repeat constructor; simpl; rewrite E|].
  apply Forall_cons in IH as [Hw Hws]. constructor; [|done]. simpl. by rewrite E.
Qed.

(** Splitting undoes joining with a separator the pieces do not contain. *)
Lemma split_char_join a l :
  l <> [] -> Forall (fun w => free_of a w = true) l -> split_char a (join (String a "") l) = l.
Proof.
  intros Hl HF. induction HF as [|w l Hw HF IH]; [done|]. destruct l as [|w' l].
  - apply split_char_none, negb_true_iff. done.
  - change (join (String a "") (w :: w' :: l)) with (w +:+ String a (join (String a "") (w' :: l))).
    rewrite split_char_app by by apply negb_true_iff. by rewrite IH.
Qed.

(** The lines of a text; the empty text has none. *)
Definition lines (s : string) : list string :=
  if str_empty s then [] else split_char newline s.

Lemma lines_clean s : lines (clean_lines s) = List.filter nonblank (lines s).
Proof.
  unfold clean_lines, lines at 2. destruct (str_empty s) eqn:E; [by destruct s|].
  pose proof (split_char_free newline s) as HF.
  assert (Forall (fun w => free_of newline w = true) (List.filter nonblank (split_char newline s))) as HF'.
  { apply Forall_forall. intros x [Hx _]%list_elem_of_In%filter_In.
    rewrite Forall_forall in HF. by apply HF, list_elem_of_In. }
  destruct (List.filter nonblank (split_char newline s)) as [|w l] eqn:Ef; [done|].
  unfold lines. rewrite split_char_join by done.
  assert (nonblank w = true) as Hw.
  { assert (In w (List.filter nonblank (split_char newline s))) as [_ ?]%filter_In by (rewrite Ef; by left). done. }
  destruct w as [|c w]; [done|]. by destruct l.
Qed.

Lemma filter_all {A} (p : A -> bool) l : List.filter p (List.filter p l) = List.filter p l.
Proof.
  induction l as [|x l IH]; simpl; [done|]. destruct (p x) eqn:E; simpl; [by rewrite E, IH|done].
Qed.

Lemma clean_lines_def s : clean_lines s = join (String newline "") (List.filter nonblank (lines s)).
Proof. unfold clean_lines, lines. by destruct s. Qed.

(** A rendered template has exactly the non-blank lines of the text its
    nodes produce, in order and unchanged, and cleaning it again changes
    nothing. *)
Theorem render_drops_blank_lines (ast : list node) (ctx : context) (out : string) :
  render ast ctx = Ret out ->
  exists raw, render_nodes_raw ctx ast = Ret raw /\
    lines out = List.filter nonblank (lines raw) /\ clean_lines out = out.
Proof.
  unfold render, render_nodes. destruct (render_nodes_raw ctx ast) as [raw|e]; [|done].
  intros [= <-]. exists raw. split_and!; [done|apply lines_clean|].
  by rewrite clean_lines_def, lines_clean, filter_all, <- clean_lines_def.
Qed.

Definition two_lines : string := "a" +:+ String newline (" " +:+ String newline "b").

Lemma render_drops_blank_lines_witness :
  exists raw, render_nodes_raw [] [TextNode two_lines] = Ret raw /\
    lines ("a" +:+ String newline "b") = List.filter nonblank (lines raw) /\
    clean_lines ("a" +:+ String newline "b") = "a" +:+ String newline "b".
Proof. apply (render_drops_blank_lines [TextNode two_lines] []). vm_compute. reflexivity. Defined.

(** ** The cache is invisible *)

Inductive cache_call :=
  | CallRender (template : string) (ctx : context)
  | CallClear.

(** The results of a sequence of calls to the public interface. *)
Fixpoint run_calls (calls : list cache_call) (cache : template_cache) : list (outcome py_exn string) :=
  match calls with
  | [] => []
  | CallRender t ctx :: calls =>
      let '(r, cache) := render_template t ctx cache in r :: run_calls calls cache
  | CallClear :: calls => run_calls calls (clear_cache cache)
  end.

Definition render_uncached (t : string) (ctx : context) : outcome py_exn string :=
  ast ← compile_template t; render ast ctx.

Definition direct_results (calls : list cache_call) : list (outcome py_exn string) :=
  omap (fun c => match c with CallRender t ctx => Some (render_uncached t ctx) | CallClear => None end) calls.

(** Every cached tree is the compilation of its key. *)
Definition cache_ok (cache : template_cache) : Prop :=
  map_Forall (fun t ast => compile_template t = Ret ast) cache.

Lemma get_compiled_template_ok t cache :
  cache_ok cache ->
  (get_compiled_template t cache).1 = compile_template t /\ cache_ok (get_compiled_template t cache).2.
Proof.
  intros H. unfold get_compiled_template. destruct (cache !! t) as [ast|] eqn:E.
  - by rewrite (H _ _ E).
  - destruct (compile_template t) as [ast|e] eqn:Ec; [|done]. split; [done|]. by apply map_Forall_insert_2.
Qed.

(** The template cache is transparent: from any cache of compiled
    templates, a sequence of renderings and cache clearings gives the results
    of compiling afresh each time, errors included; failed compilations are not
    cached. *)
Theorem cache_transparent (calls : list cache_call) (cache : template_cache) :
  cache_ok cache -> run_calls calls cache = direct_results calls.
Proof.
  revert cache. induction calls as [|[t ctx|] calls IH]; intros cache H; simpl; [done| |].
  - unfold render_template. destruct (get_compiled_template_ok t cache H) as [H1 H2].
    destruct (get_compiled_template t cache) as [r cache']. simpl in *. subst r. by rewrite IH.
  - apply IH. apply map_Forall_empty.
Qed.

Lemma cache_transparent_witness :
  run_calls [CallRender "{x|upper}!" [("x", VStr "ab")]; CallRender "{x|upper}!" [("x", VStr "c")]; CallClear;
             CallRender "{x}" []] ∅
  = [Ret "AB!"; Ret "C!"; Ret ""].
Proof. rewrite (cache_transparent _ ∅ (map_Forall_empty _)). vm_compute. reflexivity. Defined.

(** ** Text without braces *)

Lemma open_brace_fails a c s : Ascii.eqb c "{" = false -> match_at (Seq (lit "{") a) None (String c s) = None.
Proof. intros E. unfold match_at. cbn [mtch lit lit_char]. by rewrite (Ascii.eqb_sym "{" c), E. Qed.

Lemma tokenize_plain t :
  str_any (fun c => Ascii.eqb c "{") t = false -> t <> "" -> tokenize t = Ret [TextToken t].
Proof.
  intros H Hne. pose proof (text_run_plain t H) as Hr.
  destruct t as [|c t]; [done|]. simpl in H. apply orb_false_iff in H as [Hc _].
  unfold tokenize. cbn [String.length tokenize_fuel]. unfold next_token.
  unfold IF_PATTERN, ELIF_PATTERN, keyword_pattern, ELSE_PATTERN.
  rewrite !open_brace_fails by done.
  assert (match_at ENDIF_PATTERN None (String c t) = None) as ->
    by (unfold match_at, ENDIF_PATTERN; cbn [mtch lit lit_char]; by rewrite (Ascii.eqb_sym "{" c), Hc).
  cbn [text_run] in Hr |- *. rewrite Hc in Hr |- *. destruct (text_run t) as [t1 r1]. simplify_eq.
  assert (tokenize_fuel (String.length t) "" = Ret []) as Ht by (by destruct t).
  destruct c as [[] [] [] [] [] [] [] []]; first [by rewrite Ht|done].
Qed.

(** A template without an opening brace renders to itself, blank lines
    removed, in every context. *)
Theorem plain_template_renders (t : string) (ctx : context) :
  str_any (fun c => Ascii.eqb c "{") t = false -> slen t <= MAX_TEMPLATE_LENGTH ->
  render_uncached t ctx = Ret (clean_lines t).
Proof.
  intros H HL. unfold render_uncached, compile_template.
  destruct (MAX_TEMPLATE_LENGTH <? slen t) eqn:E; [zbool; lia|].
  destruct (decide (t = "")) as [->|Hne]; [done|].
  rewrite tokenize_plain by done. unfold render, render_nodes. simpl. by rewrite str_app_nil_r.
Qed.

Lemma plain_template_renders_witness : render_uncached two_lines [] = Ret (clean_lines two_lines).
Proof. apply plain_template_renders; [reflexivity|vm_compute; discriminate]. Defined.
