(* ===== verification/TaskQueue.v ===== *)
(** * Background tasks (workers/task_queue.py)

    Task records in Redis, enqueueing, retry, the minimum-interval guard and
    the execution of an actor.  Times are microseconds.  The broker's [kiq],
    the cron interval computation, [datetime.isoformat] and the actor bodies
    are parameters; a body is any transformation of Redis with a result. *)

From S2P Require Export Redis.
Local Open Scope string_scope.
Local Open Scope Z_scope.

Definition TASKIQ_QUEUE_PREFIX : string := "mediafusion:taskiq".
Definition TASK_MANAGER_PROCESSING_TIME_BUFFER_SECONDS : Z := 10.
Definition TASK_CANCELLATION_KEY_PREFIX : string := "mediafusion:taskiq:cancelled".
Definition TASK_CANCELLATION_TTL_SECONDS : Z := 24 * 60 * 60.
Definition TASK_DETAILS_KEY_PREFIX : string := "mediafusion:taskiq:task".
Definition TASK_RECENT_TASKS_KEY : string := "mediafusion:taskiq:tasks:recent".
Definition TASK_RUNNING_TASKS_KEY : string := "mediafusion:taskiq:tasks:running".
Definition TASK_DETAILS_TTL_SECONDS : Z := 7 * 24 * 60 * 60.
Definition TASK_RECENT_TASKS_MAX : nat := 2000.
Definition INTERNAL_TASK_ID_KWARG : string := "_taskiq_task_id".

Definition seconds (s : Z) : Z := s * 1000000.

Record ActorRegistration := mkRegistration {
  reg_name : string;
  reg_queue_name : string;
  reg_priority : Z;
  time_limit_ms : value;  (* None, an int or a float *)
  max_retries : option Z;
  minimum_run_interval : option Z;  (* fn._minimum_run_interval, microseconds *)
}.

Definition resolve_runtime_queue_name (single_worker_mode : bool) (queue_name : string) : string :=
  if single_worker_mode then "default" else queue_name.
Definition get_taskiq_queue_name (single_worker_mode : bool) (queue_name : string) : string :=
  TASKIQ_QUEUE_PREFIX +:+ ":" +:+ resolve_runtime_queue_name single_worker_mode queue_name.
Definition get_task_cancellation_key (task_id : string) : string := TASK_CANCELLATION_KEY_PREFIX +:+ ":" +:+ task_id.
Definition get_task_details_key (task_id : string) : string := TASK_DETAILS_KEY_PREFIX +:+ ":" +:+ task_id.

(** ** Payloads *)

Definition safe_json_map (f : value -> value) (d : list (string * value)) : list (string * value) :=
  map (fun kv => (kv.1, f kv.2)) d.

(** [_safe_json_value]: [levels] is 5 minus the depth; below that, [None]. *)
Fixpoint safe_json_value (levels : nat) (v : value) : value :=
  match levels with
  | O => VNone
  | S levels =>
      match v with
      | VList l => VList (map (safe_json_value levels) l)
      | VDict d => VDict (safe_json_map (safe_json_value levels) d)
      | _ => v
      end
  end.

Definition build_args_payload (args : list value) : list value := map (safe_json_value 5) args.
Definition build_kwargs_payload (kwargs : list (string * value)) : list (string * value) :=
  safe_json_map (safe_json_value 5) kwargs.

(** [_safe_preview]: [levels] is 3 minus the depth. *)
Fixpoint safe_preview (levels : nat) (v : value) : value :=
  match levels with
  | O => VStr "..."
  | S levels =>
      match v with
      | VStr s => if slen s <=? 240 then v else VStr (str_take 237 s +:+ "...")
      | VList l => VList (map (safe_preview levels) (take 20 l))
      | VDict d => VDict (safe_json_map (safe_preview levels) (take 20 d))
      | _ => v
      end
  end.
Definition build_args_preview (args : list value) : list value := map (safe_preview 3) args.
Definition build_kwargs_preview (kwargs : list (string * value)) : list (string * value) :=
  safe_json_map (safe_preview 3) kwargs.

(** [math.ceil] of a double. *)
Definition ceil_f (x : float) : outcome py_exn Z :=
  match x with
  | S754_zero _ => Ret 0
  | S754_finite s m e => let '(n, d) := frac_of m e in Ret (- ((if s then n else - n) / d))
  | S754_infinity _ => Raise OverflowError
  | S754_nan => Raise ValueError
  end.

Definition time_limit_to_timeout_seconds (limit : value) : outcome py_exn (option Z) :=
  let ceil_of (x : float) := z ← ceil_f (f_div x (f_round 1000)); Ret (Some (Z.max z 1)) in
  match limit with
  | VInt z => if z <=? 0 then Ret None else x ← float_of_int z; ceil_of x
  | VFloat (S754_infinity _) => Ret None
  | VFloat x => if f_leb x (f_round 0) then Ret None else ceil_of x
  | VBool b => Ret (if b then Some 1 else None)
  | VNone => Ret None
  | _ => Raise TypeError
  end.

(** [_build_taskiq_task_labels] *)
Definition build_taskiq_task_labels (limit : value) (retries : option Z) : outcome py_exn (list (string * value)) :=
  timeout ← time_limit_to_timeout_seconds limit;
  Ret ((match timeout with Some t => [("timeout", VInt t)] | None => [] end) ++
       (match retries with Some n => [("retry_on_error", VBool true); ("max_retries", VInt (Z.max n 0))] | None => [] end))%list.

(** ** Task records *)

Definition setdefault (k : string) (v : value) (d : list (string * value)) : list (string * value) :=
  match dict_get k d with Some _ => d | None => dict_set k v d end.

(** What a details key holds, decoded; anything but a JSON object is empty. *)
Definition decode_record (b : option blob) : list (string * value) :=
  match b with Some (BJson (VDict d)) => d | _ => [] end.

Inductive queue_exn :=
  | TaskRetryError (msg : string)
  | TaskCancelledError (msg : string)
  | EnqueueFailed (cls msg : string)
  | InvalidCrontab
  | ActorError (cls msg : string).

Record message := mkMessage { m_actor : string; m_queue : string; m_task_id : string;
  m_args : list value; m_kwargs : list (string * value) }.

(** What running an actor's function does: return, raise an [Exception] (with
    [cancelled] for [TaskCancelledError]), or raise a [BaseException] that is
    not an [Exception], such as [asyncio.CancelledError]. *)
Inductive actor_result :=
  | Returned (v : value)
  | RaisedException (cls msg : string) (cancelled : bool)
  | RaisedBaseException (cls msg : string).

Record TaskExecutionContext := mkContext { task_key : string; min_interval : Z; set_cache_expiry : bool }.

Section TaskQueue.
Context {R : Type} `{Redis R}.
Context (isoformat : Z -> string) (cron_interval : string -> option Z) (single_worker_mode : bool).

Definition is_task_cancel_requested (now : Z) (task_id : string) (r : R) : bool :=
  match kv_get now r (get_task_cancellation_key task_id) with Some _ => true | None => false end.

Definition get_task_record (now : Z) (task_id : string) (r : R) : option (list (string * value)) :=
  match kv_get now r (get_task_details_key task_id) with
  | Some (BJson (VDict d)) => Some d
  | _ => None
  end.

Definition upsert_task_record (now : Z) (task_id : string) (payload : list (string * value)) (r : R) : R :=
  let key := get_task_details_key task_id in
  let record := decode_record (kv_get now r key) in
  let is_new_record := match record with [] => true | _ => false end in
  let record := setdefault "task_id" (VStr task_id) record in
  let record := dict_update record payload in
  let record := setdefault "created_at" (VStr (isoformat now)) record in
  let record := dict_set "updated_at" (VStr (isoformat now)) record in
  let r := kv_set now key (BJson (VDict record)) (Some (seconds TASK_DETAILS_TTL_SECONDS)) r in
  if is_new_record
  then ltrim TASK_RECENT_TASKS_KEY TASK_RECENT_TASKS_MAX (lpush TASK_RECENT_TASKS_KEY task_id r)
  else r.

Definition request_task_cancellation (now : Z) (task_id reason : string) (r : R) : R :=
  let r := kv_set now (get_task_cancellation_key task_id) (BText reason)
             (Some (seconds TASK_CANCELLATION_TTL_SECONDS)) r in
  upsert_task_record now task_id
    [("cancellation_requested", VBool true); ("cancellation_reason", VStr reason);
     ("cancellation_requested_at", VStr (isoformat now))] r.

(** The synchronous variant only sets the marker. *)
Definition request_task_cancellation_sync (now : Z) (task_id reason : string) (r : R) : R :=
  kv_set now (get_task_cancellation_key task_id) (BText reason) (Some (seconds TASK_CANCELLATION_TTL_SECONDS)) r.

(** [list_task_records], for a non-negative [offset] and a positive [limit]. *)
Definition list_task_records (now : Z) (limit offset : nat) (r : R) : list (list (string * value)) :=
  omap (fun id => get_task_record now id r) (take limit (drop offset (list_get r TASK_RECENT_TASKS_KEY))).

(** ** Enqueueing *)

Definition opt_int (o : option Z) : value := match o with Some z => VInt z | None => VNone end.

Definition base_payload (reg : ActorRegistration) (task_id status : string) : list (string * value) :=
  [("task_id", VStr task_id); ("actor_name", VStr (reg_name reg)); ("queue_name", VStr (reg_queue_name reg));
   ("priority", VInt (reg_priority reg)); ("status", VStr status)].
Definition args_payload (reg : ActorRegistration) (args : list value) (kwargs : list (string * value)) :
    list (string * value) :=
  [("args_preview", VList (build_args_preview args)); ("kwargs_preview", VDict (build_kwargs_preview kwargs));
   ("args_payload", VList (build_args_payload args)); ("kwargs_payload", VDict (build_kwargs_payload kwargs));
   ("max_retries", opt_int (max_retries reg)); ("time_limit_ms", time_limit_ms reg)].

(** [_send_taskiq_message]: [kiq_error] is the class and text of the exception
    [kiq] raises, if any. *)
Definition send_taskiq_message (now : Z) (reg : ActorRegistration) (args : list value)
    (kwargs : list (string * value)) (task_id : string) (kiq_error : option (string * string)) (r : R) :
    outcome queue_exn string * R * list message :=
  let sanitized := dict_pop INTERNAL_TASK_ID_KWARG kwargs in
  let r := upsert_task_record now task_id
             (base_payload reg task_id "queued" ++ args_payload reg args sanitized) r in
  let send_kwargs := dict_set INTERNAL_TASK_ID_KWARG (VStr task_id) kwargs in
  match kiq_error with
  | None =>
      (Ret task_id, r,
       [mkMessage (reg_name reg) (get_taskiq_queue_name single_worker_mode (reg_queue_name reg)) task_id args send_kwargs])
  | Some (cls, msg) =>
      (Raise (EnqueueFailed cls msg),
       upsert_task_record now task_id
         [("status", VStr "enqueue_failed"); ("finished_at", VStr (isoformat now));
          ("error_type", VStr cls); ("error_message", VStr (str_take 500 msg))] r, [])
  end.

(** [_enqueue_actor_job] up to the delayed send, which is a later
    [send_taskiq_message] with the same id. *)
Definition enqueue_actor_job (now : Z) (reg : ActorRegistration) (args : list value)
    (kwargs : list (string * value)) (delay_ms : option Z) (fresh_id : string)
    (kiq_error : option (string * string)) (r : R) : outcome queue_exn string * R * list message :=
  match delay_ms with
  | Some d =>
      if 0 <? d then
        let sanitized := dict_pop INTERNAL_TASK_ID_KWARG kwargs in
        (Ret fresh_id,
         upsert_task_record now fresh_id
           (base_payload reg fresh_id "scheduled" ++
            [("created_at", VStr (isoformat now)); ("scheduled_for_ms", VInt d)] ++
            args_payload reg args sanitized) r, [])
      else send_taskiq_message now reg args kwargs fresh_id kiq_error r
  | None => send_taskiq_message now reg args kwargs fresh_id kiq_error r
  end.

(** [retry_task_by_id] over the registry of actors. *)
Definition retry_task_by_id (now : Z) (registry : list (string * ActorRegistration)) (task_id fresh_id : string)
    (kiq_error : option (string * string)) (r : R) : outcome queue_exn string * R * list message :=
  match get_task_record now task_id r with
  | None | Some [] => (Raise (TaskRetryError ("Task '" +:+ task_id +:+ "' not found.")), r, [])
  | Some record =>
      let actor_name := default VNone (dict_get "actor_name" record) in
      if negb (truthy actor_name) then (Raise (TaskRetryError ("Task '" +:+ task_id +:+ "' has no actor information.")), r, [])
      else match dict_get (str actor_name) registry with
           | None => (Raise (TaskRetryError ("Actor '" +:+ str actor_name +:+ "' is not registered.")), r, [])
           | Some reg =>
               match default (VList []) (dict_get "args_payload" record),
                     default (VDict []) (dict_get "kwargs_payload" record) with
               | VList args, VDict kwargs => send_taskiq_message now reg args kwargs fresh_id kiq_error r
               | VList _, _ => (Raise (TaskRetryError ("Task '" +:+ task_id +:+ "' has invalid kwargs payload.")), r, [])
               | _, _ => (Raise (TaskRetryError ("Task '" +:+ task_id +:+ "' has invalid args payload.")), r, [])
               end
           end
  end.

(** ** The minimum-interval guard *)

Definition build_task_key (task_name : string) (args : list value) (kwargs : list (string * value)) : string :=
  match dict_get "spider_name" kwargs with
  | Some v =>
      if truthy v then "background_tasks:run_spider:spider_name=" +:+ str v
      else
        let args_str := PyStr.join "_" (map str args) in
        let kwargs_str := PyStr.join "_" (map (fun kv => kv.1 +:+ "=" +:+ str kv.2)
                            (sort_by (fun a b => String.leb a.1 b.1) kwargs)) in
        rstrip_of (Ascii.eqb "_") ("background_tasks:" +:+ task_name +:+ ":" +:+ args_str +:+ "_" +:+ kwargs_str)
  | None =>
      let args_str := PyStr.join "_" (map str args) in
      let kwargs_str := PyStr.join "_" (map (fun kv => kv.1 +:+ "=" +:+ str kv.2)
                          (sort_by (fun a b => String.leb a.1 b.1) kwargs)) in
      rstrip_of (Ascii.eqb "_") ("background_tasks:" +:+ task_name +:+ ":" +:+ args_str +:+ "_" +:+ kwargs_str)
  end.

(** The interval in force, whether the key expires with it, and the arguments
    the key is built from. *)
Definition guard_interval (reg : ActorRegistration) (kwargs : list (string * value)) :
    outcome queue_exn (option Z * bool * list (string * value)) :=
  match dict_get "crontab_expression" kwargs with
  | Some v =>
      if truthy v then
        match cron_interval (str v) with
        | Some i => Ret (Some i, false, dict_pop "crontab_expression" kwargs)
        | None => Raise InvalidCrontab
        end
      else Ret (minimum_run_interval reg, match minimum_run_interval reg with Some i => negb (i =? 0) | None => false end, kwargs)
  | None => Ret (minimum_run_interval reg, match minimum_run_interval reg with Some i => negb (i =? 0) | None => false end, kwargs)
  end.

(** [int(min_interval.total_seconds())] *)
Definition expiry_of (ctx : TaskExecutionContext) : option Z :=
  if set_cache_expiry ctx then Some (Z.quot (min_interval ctx) 1000000) else None.

(** SET with an expiry that is not positive is an error of Redis. *)
Definition set_last_run (up : bool) (now : Z) (ctx : TaskExecutionContext) (r : R) : option R :=
  if up && match expiry_of ctx with Some e => 0 <? e | None => true end
  then Some (kv_set now (task_key ctx) (BTime now) (seconds <$> expiry_of ctx) r)
  else None.

(** [_prepare_task_execution]: whether to skip, the context, and Redis. *)
Definition prepare_task_execution (up : bool) (now : Z) (reg : ActorRegistration) (args : list value)
    (kwargs : list (string * value)) (r : R) : outcome queue_exn (bool * option TaskExecutionContext * R) :=
  let force_run := match dict_get "force_run" kwargs with Some v => truthy v | None => false end in
  let kwargs_for_key := dict_pop "force_run" kwargs in
  if force_run then Ret (false, None, r)
  else
    g ← guard_interval reg kwargs_for_key;
    let '(interval, expires, kwargs_for_key) := g in
    match interval with
    | None => Ret (false, None, r)
    | Some i =>
        if i =? 0 then Ret (false, None, r)
        else
          let ctx := mkContext (build_task_key (reg_name reg) args kwargs_for_key) i expires in
          if negb up then Ret (false, None, r)
          else match kv_get now r (task_key ctx) with
               | Some (BTime last_run) =>
                   if now - last_run <? i - seconds TASK_MANAGER_PROCESSING_TIME_BUFFER_SECONDS
                   then Ret (true, None, r)
                   else match set_last_run up now ctx r with
                        | Some r => Ret (false, Some ctx, r)
                        | None => Ret (false, None, r)
                        end
               | Some _ => Ret (false, None, r)
               | None => match set_last_run up now ctx r with
                         | Some r => Ret (false, Some ctx, r)
                         | None => Ret (false, None, r)
                         end
               end
    end.

(** [_finalize_task_execution]; [failed] when an exception was recorded. *)
Definition finalize_task_execution (up : bool) (now : Z) (ctx : option TaskExecutionContext) (failed : bool) (r : R) : R :=
  match ctx with
  | None => r
  | Some ctx =>
      if failed then (if up then kv_del (task_key ctx) r else r)
      else default r (set_last_run up now ctx r)
  end.

(** ** [_execute_actor] *)

Definition status_payload (now : Z) (res : actor_result) (duration : value) : list (string * value) :=
  match res with
  | RaisedException cls msg cancelled =>
      [("status", VStr (if cancelled then "cancelled" else "error")); ("finished_at", VStr (isoformat now));
       ("duration_ms", duration); ("error_type", VStr cls); ("error_message", VStr (str_take 500 msg))]
  | Returned _ | RaisedBaseException _ _ =>
      [("status", VStr "success"); ("finished_at", VStr (isoformat now)); ("duration_ms", duration);
       ("error_type", VNone); ("error_message", VNone)]
  end.

Definition recorded_exception (res : actor_result) : bool :=
  match res with RaisedException _ _ _ => true | _ => false end.

Definition result_of (res : actor_result) : outcome queue_exn value :=
  match res with
  | Returned v => Ret v
  | RaisedException cls msg cancelled => Raise (if cancelled then TaskCancelledError msg else ActorError cls msg)
  | RaisedBaseException cls msg => Raise (ActorError cls msg)
  end.

(** The work after the function has ended, in the [finally] block. *)
Definition finish (up : bool) (now : Z) (task_id : option string) (ctx : option TaskExecutionContext)
    (res : actor_result) (duration : value) (r : R) : R :=
  let r := finalize_task_execution up now ctx (recorded_exception res) r in
  match task_id with
  | Some id =>
      let r := upsert_task_record now id (status_payload now res duration) r in
      let r := srem TASK_RUNNING_TASKS_KEY id r in
      kv_del (get_task_cancellation_key id) r
  | None => r
  end.

(** The task id the code acts on: an empty one counts as none. *)
Definition task_id_of (kwargs : list (string * value)) : option string :=
  match dict_get INTERNAL_TASK_ID_KWARG kwargs with
  | Some (VStr id) => if str_empty id then None else Some id
  | _ => None
  end.

(** The bookkeeping before the guard. *)
Definition start (now pid : Z) (task_id : option string) (r : R) : R :=
  match task_id with
  | Some id =>
      upsert_task_record now id
        [("status", VStr "running"); ("started_at", VStr (isoformat now)); ("worker_pid", VInt pid)]
        (sadd TASK_RUNNING_TASKS_KEY id r)
  | None => r
  end.

(** What the code before the function's call comes to: an end, or a call with
    its arguments and context. *)
Inductive begun :=
  | Ended (o : outcome queue_exn value) (r : R)
  | Called (ctx : option TaskExecutionContext) (r : R).

Definition cancelled_message (id : string) : string := "Task " +:+ id +:+ " was cancelled before execution.".

Definition begin_actor (up : bool) (now pid : Z) (reg : ActorRegistration) (args : list value)
    (kwargs : list (string * value)) (r : R) : begun :=
  let task_id := task_id_of kwargs in
  let kwargs := dict_pop INTERNAL_TASK_ID_KWARG kwargs in
  if match task_id with Some id => is_task_cancel_requested now id r | None => false end then
    let id := default "" task_id in
    Ended (Raise (TaskCancelledError (cancelled_message id)))
      (upsert_task_record now id
         [("status", VStr "cancelled"); ("started_at", VStr (isoformat now)); ("finished_at", VStr (isoformat now));
          ("error_type", VStr "TaskCancelledError"); ("error_message", VStr (cancelled_message id))] r)
  else
    let r := start now pid task_id r in
    match prepare_task_execution up now reg args kwargs r with
    | Raise e => Ended (Raise e) r
    | Ret (true, _, r) =>
        Ended (Ret VNone)
          match task_id with
          | Some id =>
              srem TASK_RUNNING_TASKS_KEY id
                (upsert_task_record now id [("status", VStr "skipped"); ("finished_at", VStr (isoformat now))] r)
          | None => r
          end
    | Ret (false, ctx, r) => Called ctx r
    end.

(** [t0] is the time of the start and of the guard, [t1] of the end; [up] says
    whether the guard's Redis calls succeed; [body] runs the function. *)
Definition execute_actor (up : bool) (t0 t1 pid : Z) (reg : ActorRegistration) (args : list value)
    (kwargs : list (string * value)) (body : list value -> list (string * value) -> R -> R * actor_result)
    (duration : value) (r : R) : outcome queue_exn value * R :=
  match begin_actor up t0 pid reg args kwargs r with
  | Ended o r => (o, r)
  | Called ctx r =>
      let '(r, res) := body args (dict_pop INTERNAL_TASK_ID_KWARG kwargs) r in
      (result_of res, finish up t1 (task_id_of kwargs) ctx res duration r)
  end.

(** ** Lemmas on records *)

Lemma keys_apart id id' : String.eqb (get_task_cancellation_key id) (get_task_details_key id') = false.
Proof. reflexivity. Qed.
Lemma keys_apart' id id' : String.eqb (get_task_details_key id) (get_task_cancellation_key id') = false.
Proof. reflexivity. Qed.

Definition bookkeeping : list string := ["task_id"; "created_at"; "updated_at"].

Lemma dict_get_setdefault k k' v d : k <> k' -> dict_get k (setdefault k' v d) = dict_get k d.
Proof.
  intros Hk. unfold setdefault. destruct (dict_get k' d); [done|]. rewrite dict_get_set.
  by apply String.eqb_neq in Hk as ->.
Qed.

(** The record an upsert writes. *)
Definition new_record (now : Z) (id : string) (payload old : list (string * value)) : list (string * value) :=
  dict_set "updated_at" (VStr (isoformat now))
    (setdefault "created_at" (VStr (isoformat now)) (dict_update (setdefault "task_id" (VStr id) old) payload)).

Lemma new_record_get now id payload old k :
  k ∉ bookkeeping ->
  dict_get k (new_record now id payload old) =
  match dict_get k (rev payload) with Some v => Some v | None => dict_get k old end.
Proof.
  unfold bookkeeping. rewrite !not_elem_of_cons. intros (H1 & H2 & H3 & _). unfold new_record.
  rewrite dict_get_set. apply String.eqb_neq in H3 as ->.
  rewrite dict_get_setdefault by done. rewrite dict_get_update. by rewrite dict_get_setdefault.
Qed.

Lemma upsert_kv now t id payload r key :
  now <= t ->
  kv_get t (upsert_task_record now id payload r) key =
  if String.eqb (get_task_details_key id) key
  then if now + seconds TASK_DETAILS_TTL_SECONDS <=? t then None
       else Some (BJson (VDict (new_record now id payload (decode_record (kv_get now r (get_task_details_key id))))))
  else kv_get t r key.
Proof.
  intros Ht. unfold upsert_task_record.
  destruct (match decode_record _ with [] => true | _ => false end); autorewrite with redis; by rewrite kv_get_set.
Qed.

Lemma upsert_record now t id payload r :
  now <= t < now + seconds TASK_DETAILS_TTL_SECONDS ->
  get_task_record t id (upsert_task_record now id payload r) =
  Some (new_record now id payload (decode_record (kv_get now r (get_task_details_key id)))).
Proof.
  intros Ht. unfold get_task_record. rewrite upsert_kv by lia. rewrite String.eqb_refl.
  destruct (_ <=? t) eqn:E; [zbool; lia|done].
Qed.

Lemma upsert_list now id payload r :
  list_get (upsert_task_record now id payload r) TASK_RECENT_TASKS_KEY =
  match decode_record (kv_get now r (get_task_details_key id)) with
  | [] => take TASK_RECENT_TASKS_MAX (id :: list_get r TASK_RECENT_TASKS_KEY)
  | _ => list_get r TASK_RECENT_TASKS_KEY
  end.
Proof. unfold upsert_task_record. destruct (decode_record _); autorewrite with redis; done. Qed.

Lemma upsert_set now id payload r k x :
  set_has (upsert_task_record now id payload r) k x = set_has r k x.
Proof. unfold upsert_task_record. destruct (decode_record _); autorewrite with redis; done. Qed.

(** ** Workers interleaving *)

(** One step of any process: enqueueing, cancelling, the beginning of an
    execution up to the function's call, or its end.  The function itself is
    the steps in between. *)
Inductive queue_step : R -> R -> Prop :=
  | step_enqueue now reg args kwargs delay id err r :
      queue_step r (enqueue_actor_job now reg args kwargs delay id err r).1.2
  | step_send now reg args kwargs id err r :
      queue_step r (send_taskiq_message now reg args kwargs id err r).1.2
  | step_retry now registry id fresh err r :
      queue_step r (retry_task_by_id now registry id fresh err r).1.2
  | step_cancel now id reason r :
      queue_step r (request_task_cancellation now id reason r)
  | step_cancel_sync now id reason r :
      queue_step r (request_task_cancellation_sync now id reason r)
  | step_begin up now pid reg args kwargs r :
      queue_step r (match begin_actor up now pid reg args kwargs r with Ended _ r' | Called _ r' => r' end)
  | step_finish up now id ctx res duration r :
      queue_step r (finish up now id ctx res duration r).

Definition recent_bounded (r : R) : Prop :=
  (length (list_get r TASK_RECENT_TASKS_KEY) <= TASK_RECENT_TASKS_MAX)%nat.

Lemma upsert_bounded now id payload r : recent_bounded r -> recent_bounded (upsert_task_record now id payload r).
Proof.
  unfold recent_bounded. rewrite upsert_list. destruct (decode_record _); [|done].
  intros _. rewrite length_take. lia.
Qed.

Lemma send_bounded now reg args kwargs id err r :
  recent_bounded r -> recent_bounded (send_taskiq_message now reg args kwargs id err r).1.2.
Proof. intros Hr. unfold send_taskiq_message. destruct err as [[]|]; cbn [fst snd]; auto using upsert_bounded. Qed.

Lemma set_last_run_list up now ctx r r' k : set_last_run up now ctx r = Some r' -> list_get r' k = list_get r k.
Proof. unfold set_last_run. destruct (up && _); [|done]. intros [= <-]. by autorewrite with redis. Qed.

Lemma prepare_list up now reg args kwargs r skip ctx r' k :
  prepare_task_execution up now reg args kwargs r = Ret (skip, ctx, r') -> list_get r' k = list_get r k.
Proof.
  unfold prepare_task_execution. destruct (match dict_get "force_run" kwargs with Some _ => _ | None => _ end);
    [by intros [= <- <- <-]|].
  destruct (guard_interval _ _) as [[[i e] kw]|]; [|done]. cbn [mbind outcome_bind].
  destruct i as [i|]; [|by intros [= <- <- <-]]. destruct (i =? 0); [by intros [= <- <- <-]|].
  destruct (negb up); [by intros [= <- <- <-]|].
  destruct (kv_get _ _ _) as [[]|]; try (by intros [= <- <- <-]);
    try (destruct (_ <? _); [by intros [= <- <- <-]|]);
    (destruct (set_last_run _ _ _ _) eqn:E; [|by intros [= <- <- <-]]);
    intros [= <- <- <-]; by eapply set_last_run_list.
Qed.

Lemma start_bounded now pid id r : recent_bounded r -> recent_bounded (start now pid id r).
Proof.
  intros Hr. destruct id; [|done]. apply upsert_bounded. unfold recent_bounded. by autorewrite with redis.
Qed.

Lemma begin_bounded up now pid reg args kwargs r :
  recent_bounded r ->
  recent_bounded (match begin_actor up now pid reg args kwargs r with Ended _ r' | Called _ r' => r' end).
Proof.
  intros Hr. unfold begin_actor. destruct (match task_id_of kwargs with Some _ => _ | None => _ end);
    [by apply upsert_bounded|].
  pose proof (start_bounded now pid (task_id_of kwargs) r Hr) as Hs.
  destruct (prepare_task_execution _ _ _ _ _ _) as [[[skip ctx] r']|] eqn:E; [|done].
  assert (recent_bounded r') as Hr' by (unfold recent_bounded; by rewrite (prepare_list _ _ _ _ _ _ _ _ _ _ E)).
  destruct skip; [|done]. destruct (task_id_of kwargs); [|done].
  unfold recent_bounded. autorewrite with redis. by apply upsert_bounded.
Qed.

Lemma finish_bounded up now id ctx res duration r :
  recent_bounded r -> recent_bounded (finish up now id ctx res duration r).
Proof.
  intros Hr. assert (recent_bounded (finalize_task_execution up now ctx (recorded_exception res) r)) as Hf.
  { unfold finalize_task_execution. destruct ctx as [ctx|]; [|done]. destruct (recorded_exception res).
    - destruct up; [|done]. unfold recent_bounded. by autorewrite with redis.
    - destruct (set_last_run _ _ _ _) eqn:E; [|done]. unfold recent_bounded. cbn. by rewrite (set_last_run_list _ _ _ _ _ _ E). }
  unfold finish. destruct id; [|done]. unfold recent_bounded. autorewrite with redis. by apply upsert_bounded.
Qed.

(** The list of recent tasks stays bounded: under any interleaving of
    enqueueing, retries, cancellations and concurrent executions it never
    holds more than 2000 ids. *)
Theorem recent_tasks_bounded (r r' : R) :
  recent_bounded r -> rtc queue_step r r' -> recent_bounded r'.
Proof.
  intros Hr Hs. induction Hs as [|x y z Hxy _ IH]; [done|]. apply IH. clear IH. destruct Hxy.
  - unfold enqueue_actor_job. destruct delay as [d|]; [|by apply send_bounded].
    destruct (0 <? d); [by apply upsert_bounded|by apply send_bounded].
  - by apply send_bounded.
  - unfold retry_task_by_id. destruct (get_task_record _ _ _) as [[|kv d]|]; try done.
    destruct (negb _); [done|]. destruct (dict_get _ registry); [|done].
    destruct (default (VList []) (dict_get "args_payload" (kv :: d))),
      (default (VDict []) (dict_get "kwargs_payload" (kv :: d))); try done; by apply send_bounded.
  - apply upsert_bounded. unfold recent_bounded. by autorewrite with redis.
  - unfold request_task_cancellation_sync, recent_bounded. by autorewrite with redis.
  - by apply begin_bounded.
  - by apply finish_bounded.
Qed.

(** ** What an execution records *)

Definition recorded_status (res : actor_result) : string :=
  match res with
  | RaisedException _ _ true => "cancelled"
  | RaisedException _ _ false => "error"
  | Returned _ | RaisedBaseException _ _ => "success"
  end.

Definition status_of (now : Z) (id : string) (r : R) : option value :=
  match get_task_record now id r with Some d => dict_get "status" d | None => None end.

Lemma status_after_upsert now t id payload r v :
  now <= t < now + seconds TASK_DETAILS_TTL_SECONDS ->
  dict_get "status" (rev payload) = Some v ->
  status_of t id (upsert_task_record now id payload r) = Some v.
Proof.
  intros Ht Hv. unfold status_of. rewrite upsert_record by done. rewrite new_record_get, Hv; [done|].
  apply memb_false. reflexivity.
Qed.

Lemma status_frame t id r r' :
  (forall key, String.eqb (get_task_details_key id) key = true -> kv_get t r' key = kv_get t r key) ->
  status_of t id r' = status_of t id r.
Proof. intros Hk. unfold status_of, get_task_record. by rewrite Hk by apply String.eqb_refl. Qed.

Lemma finish_effect up now t id ctx res duration r :
  now <= t < now + seconds TASK_DETAILS_TTL_SECONDS ->
  let r' := finish up now (Some id) ctx res duration r in
  status_of t id r' = Some (VStr (recorded_status res)) /\
  set_has r' TASK_RUNNING_TASKS_KEY id = false /\
  is_task_cancel_requested t id r' = false.
Proof.
  intros Ht. cbn zeta. unfold finish. split_and!.
  - rewrite (status_frame t id (upsert_task_record now id (status_payload now res duration)
      (finalize_task_execution up now ctx (recorded_exception res) r))).
    + apply status_after_upsert; [done|]. by destruct res as [| ? ? []|].
    + intros key Hk. autorewrite with redis. apply String.eqb_eq in Hk as <-. by rewrite keys_apart.
  - autorewrite with redis. by rewrite !String.eqb_refl.
  - unfold is_task_cancel_requested. autorewrite with redis. by rewrite String.eqb_refl.
Qed.

Lemma guard_raises reg kwargs e : guard_interval reg kwargs = Raise e -> e = InvalidCrontab.
Proof.
  unfold guard_interval. destruct (dict_get "crontab_expression" _) as [v|]; [|done].
  destruct (truthy v); [|done]. destruct (cron_interval _); [done|]. by intros [= <-].
Qed.

Lemma prepare_raises up now reg args kwargs r e :
  prepare_task_execution up now reg args kwargs r = Raise e -> e = InvalidCrontab.
Proof.
  unfold prepare_task_execution. destruct (match dict_get "force_run" _ with Some _ => _ | None => _ end); [done|].
  destruct (guard_interval _ _) as [[[i ex] kw]|e'] eqn:Eg; cbn [mbind outcome_bind].
  - destruct i as [i|]; [|done]. destruct (i =? 0); [done|]. destruct (negb up); [done|].
    destruct (kv_get _ _ _) as [[]|]; try done; try (destruct (_ <? _); [done|]); by destruct (set_last_run _ _ _ _).
  - intros [= <-]. by eapply guard_raises.
Qed.

(** [C18] Every execution with a task id, and the record it leaves.  When
    cancellation was requested, the function is not called, the record says
    cancelled and the running set is as before.  When the guard discards the run,
    the function is not called, the record says skipped and the id is out of the
    running set.  When the function is called, the record's final status is the
    one of its result, whatever it did, the id is out of the running set and the
    cancellation marker is gone.  The one exception: an invalid crontab expression
    raises after the id was entered, and then the id stays in the running set
    with the status running. *)
Theorem execution_accounted (up : bool) (t0 t1 t pid : Z) (reg : ActorRegistration) (args : list value)
    (kwargs : list (string * value)) (body : list value -> list (string * value) -> R -> R * actor_result)
    (duration : value) (id : string) (r : R) :
  task_id_of kwargs = Some id -> t0 <= t1 -> t1 <= t < t0 + seconds TASK_DETAILS_TTL_SECONDS ->
  let '(o, r') := execute_actor up t0 t1 pid reg args kwargs body duration r in
  match begin_actor up t0 pid reg args kwargs r with
  | Called ctx r1 =>
      let res := (body args (dict_pop INTERNAL_TASK_ID_KWARG kwargs) r1).2 in
      is_task_cancel_requested t0 id r = false /\ o = result_of res /\
      status_of t id r' = Some (VStr (recorded_status res)) /\
      set_has r' TASK_RUNNING_TASKS_KEY id = false /\ is_task_cancel_requested t id r' = false
  | Ended (Raise (TaskCancelledError m)) _ =>
      o = Raise (TaskCancelledError m) /\ is_task_cancel_requested t0 id r = true /\ status_of t id r' = Some (VStr "cancelled") /\
      set_has r' TASK_RUNNING_TASKS_KEY id = set_has r TASK_RUNNING_TASKS_KEY id
  | Ended (Ret _) _ =>
      o = Ret VNone /\ status_of t id r' = Some (VStr "skipped") /\ set_has r' TASK_RUNNING_TASKS_KEY id = false
  | Ended (Raise _) _ =>
      o = Raise InvalidCrontab /\ is_task_cancel_requested t0 id r = false /\
      status_of t id r' = Some (VStr "running") /\ set_has r' TASK_RUNNING_TASKS_KEY id = true
  end.
Proof.
  intros Hid H01 Ht. unfold execute_actor, begin_actor. rewrite Hid.
  destruct (is_task_cancel_requested t0 id r) eqn:Ec.
  { split_and!; [done|done| |by rewrite upsert_set]. apply status_after_upsert; [lia|done]. }
  destruct (prepare_task_execution _ _ _ _ _ _) as [[[skip ctx] r1]|e] eqn:Ep.
  - destruct skip.
    + split_and!; [done| |autorewrite with redis; by rewrite !String.eqb_refl].
      rewrite (status_frame t id (upsert_task_record t0 id
        [("status", VStr "skipped"); ("finished_at", VStr (isoformat t0))] r1)).
      * apply status_after_upsert; [lia|done].
      * intros key _. by autorewrite with redis.
    + destruct (body args _ r1) as [r2 res]. cbn [snd]. split; [done|]. split; [done|].
      apply finish_effect. lia.
  - rewrite (prepare_raises _ _ _ _ _ _ _ Ep). split_and!; [done|done| |]; unfold start.
    + apply status_after_upsert; [lia|done].
    + rewrite upsert_set. autorewrite with redis. by rewrite !String.eqb_refl.
Qed.

(** A task interrupted by a [BaseException], such as the cancellation of
    its asyncio task, is recorded as a success although the call raises. *)
Theorem interrupted_recorded_success (up : bool) (t0 t1 pid : Z) (reg : ActorRegistration) (args : list value)
    (kwargs : list (string * value)) (body : list value -> list (string * value) -> R -> R * actor_result)
    (duration : value) (id cls msg : string) (ctx : option TaskExecutionContext) (r r1 : R) :
  task_id_of kwargs = Some id -> t0 <= t1 < t0 + seconds TASK_DETAILS_TTL_SECONDS ->
  begin_actor up t0 pid reg args kwargs r = Called ctx r1 ->
  (body args (dict_pop INTERNAL_TASK_ID_KWARG kwargs) r1).2 = RaisedBaseException cls msg ->
  let '(o, r') := execute_actor up t0 t1 pid reg args kwargs body duration r in
  is_ret o = false /\ status_of t1 id r' = Some (VStr "success").
Proof.
  intros Hid Ht Hb Hres. unfold execute_actor. rewrite Hb, Hid.
  destruct (body _ _ r1) as [r2 res]. cbn [snd] in Hres. subst res. split; [done|].
  apply (finish_effect up t1 t1 id ctx (RaisedBaseException cls msg)). lia.
Qed.

(** An invalid cron expression strands the task: the guard raises after the
    id was added to the running set and before the clean-up, so the id stays
    there with status running. *)
Theorem invalid_crontab_strands (up : bool) (t0 t1 pid : Z) (reg : ActorRegistration) (args : list value)
    (kwargs : list (string * value)) (body : list value -> list (string * value) -> R -> R * actor_result)
    (duration : value) (id : string) (cron : string) (r : R) :
  task_id_of kwargs = Some id -> is_task_cancel_requested t0 id r = false ->
  dict_get "force_run" (dict_pop INTERNAL_TASK_ID_KWARG kwargs) = None ->
  dict_get "crontab_expression" (dict_pop "force_run" (dict_pop INTERNAL_TASK_ID_KWARG kwargs)) = Some (VStr cron) ->
  cron <> "" -> cron_interval cron = None ->
  let '(o, r') := execute_actor up t0 t1 pid reg args kwargs body duration r in
  o = Raise InvalidCrontab /\ set_has r' TASK_RUNNING_TASKS_KEY id = true /\
  status_of t0 id r' = Some (VStr "running").
Proof.
  intros Hid Hc Hf Hk Hne Hi. unfold execute_actor, begin_actor. rewrite Hid, Hc.
  unfold prepare_task_execution. rewrite Hf. unfold guard_interval. rewrite Hk.
  assert (truthy (VStr cron) = true) as -> by (by destruct cron). cbn [str]. rewrite Hi. cbn [mbind outcome_bind].
  split_and!; [done| |].
  - unfold start. rewrite upsert_set. autorewrite with redis. by rewrite !String.eqb_refl.
  - unfold start. apply status_after_upsert; [unfold seconds, TASK_DETAILS_TTL_SECONDS; lia|done].
Qed.

(** ** The minimum-interval guard *)

(** The key, interval and expiry of a guarded call. *)
Definition guard_context (reg : ActorRegistration) (args : list value) (kwargs : list (string * value)) :
    option TaskExecutionContext :=
  match guard_interval reg (dict_pop "force_run" kwargs) with
  | Ret (Some i, ex, kw) => if i =? 0 then None else Some (mkContext (build_task_key (reg_name reg) args kw) i ex)
  | _ => None
  end.

Definition forced (kwargs : list (string * value)) : bool :=
  match dict_get "force_run" kwargs with Some v => truthy v | None => false end.

Lemma prepare_guarded now reg args kwargs ctx r :
  forced kwargs = false -> guard_context reg args kwargs = Some ctx ->
  seconds 1 <= min_interval ctx ->
  prepare_task_execution true now reg args kwargs r =
  match kv_get now r (task_key ctx) with
  | Some (BTime last_run) =>
      if now - last_run <? min_interval ctx - seconds TASK_MANAGER_PROCESSING_TIME_BUFFER_SECONDS
      then Ret (true, None, r)
      else Ret (false, Some ctx, kv_set now (task_key ctx) (BTime now) (seconds <$> expiry_of ctx) r)
  | Some _ => Ret (false, None, r)
  | None => Ret (false, Some ctx, kv_set now (task_key ctx) (BTime now) (seconds <$> expiry_of ctx) r)
  end.
Proof.
  unfold forced, guard_context, prepare_task_execution. intros -> Hg Hi.
  destruct (guard_interval _ _) as [[[i ex] kw]|]; [|done]. cbn [mbind outcome_bind].
  destruct i as [i|]; [|done]. destruct (i =? 0); [done|]. injection Hg as <-. cbn [negb task_key min_interval] in *.
  assert (forall r, set_last_run true now (mkContext (build_task_key (reg_name reg) args kw) i ex) r =
    Some (kv_set now (build_task_key (reg_name reg) args kw) (BTime now)
      (seconds <$> expiry_of (mkContext (build_task_key (reg_name reg) args kw) i ex)) r)) as Hset.
  { intros r'. unfold set_last_run, expiry_of. cbn. destruct ex; [|done].
    assert (0 < Z.quot i 1000000) as Hq by (apply Z.quot_str_pos; unfold seconds in Hi; lia).
    destruct (0 <? Z.quot i 1000000) eqn:E; [done|zbool; lia]. }
  destruct (kv_get _ _ _) as [[]|]; by rewrite ?Hset.
Qed.

(** The interval guard: after a guarded task has run successfully, another
    call with the same key is discarded as long as less than the interval
    minus ten seconds has passed since the end of the run, and is let through
    from then on; after a failure, or with [force_run], it is let through at
    once. *)
Theorem interval_guard (reg : ActorRegistration) (args : list value) (kwargs kwargs' : list (string * value))
    (args' : list value) (ctx : TaskExecutionContext) (t1 t : Z) (res : actor_result) (r : R) :
  guard_context reg args kwargs = Some ctx -> guard_context reg args' kwargs' = Some ctx ->
  forced kwargs' = false -> seconds 1 <= min_interval ctx -> t1 <= t ->
  let r1 := finalize_task_execution true t1 (Some ctx) (recorded_exception res) r in
  let too_early := negb (recorded_exception res) &&
        (t - t1 <? min_interval ctx - seconds TASK_MANAGER_PROCESSING_TIME_BUFFER_SECONDS) in
  (exists ctx' r2, prepare_task_execution true t reg args' kwargs' r1 = Ret (too_early, ctx', r2) /\
     (too_early = true -> r2 = r1) /\ (too_early = false -> ctx' = Some ctx)) /\
  (forall kwargs'', forced kwargs'' = true ->
     prepare_task_execution true t reg args' kwargs'' r1 = Ret (false, None, r1)).
Proof.
  intros _ Hg Hf Hi Ht r1 too_early. split; cycle 1.
  { intros kw Hk. unfold prepare_task_execution, forced in *. by rewrite Hk. }
  rewrite (prepare_guarded _ _ _ _ _ _ Hf Hg Hi). unfold r1, too_early, finalize_task_execution.
  destruct (recorded_exception res); cbn [negb andb].
  { rewrite kv_get_del, String.eqb_refl. by do 2 eexists. }
  assert (0 < Z.quot (min_interval ctx) 1000000) as Hq by (apply Z.quot_str_pos; unfold seconds in Hi; lia).
  assert (set_last_run true t1 ctx r = Some (kv_set t1 (task_key ctx) (BTime t1) (seconds <$> expiry_of ctx) r)) as Hset.
  { unfold set_last_run, expiry_of. destruct (set_cache_expiry ctx); [|done].
    cbn. destruct (0 <? _) eqn:E; [done|zbool; lia]. }
  rewrite Hset. cbn [default from_option id]. rewrite kv_get_set by done. rewrite String.eqb_refl.
  unfold seconds, TASK_MANAGER_PROCESSING_TIME_BUFFER_SECONDS, expiry_of in *.
  destruct (set_cache_expiry ctx); cbn [fmap option_fmap option_map].
  - pose proof (Z.quot_rem' (min_interval ctx) 1000000). pose proof (Z.rem_bound_pos (min_interval ctx) 1000000).
    destruct (_ <=? t) eqn:E.
    + zbool. destruct (t - t1 <? _) eqn:E'; [zbool; lia|]. by do 2 eexists.
    + destruct (t - t1 <? _); by do 2 eexists.
  - destruct (t - t1 <? _); by do 2 eexists.
Qed.

(** ** Retrying a recorded task *)

(** Nesting of a value. *)
Fixpoint height (v : value) : nat :=
  match v with
  | VList l => S (foldr (fun v n => Nat.max (height v) n) 0%nat l)
  | VDict d => S (foldr (fun kv n => Nat.max (height kv.2) n) 0%nat d)
  | _ => 1
  end.

Lemma safe_json_shallow n : forall v, (height v <= n)%nat -> safe_json_value n v = v.
Proof.
  induction n as [|n IH]; intros v Hv; [by destruct v; simpl in Hv; lia|].
  destruct v as [| | | | |l|d]; try done; cbn [safe_json_value height] in *; f_equal.
  - induction l as [|x l IHl]; [done|]. cbn [foldr map] in *. rewrite IH by lia. f_equal. apply IHl. lia.
  - unfold safe_json_map. induction d as [|[k x] d IHd]; [done|]. cbn [foldr map fst snd] in *. rewrite IH by lia.
    f_equal. apply IHd. lia.
Qed.

(** The part of a record a retry reads. *)
Definition retry_keys : list string := ["actor_name"; "args_payload"; "kwargs_payload"].
Definition queued_payload (reg : ActorRegistration) (args : list value) (kwargs : list (string * value)) (id : string) :
    list (string * value) :=
  (base_payload reg id "queued" ++ args_payload reg args (dict_pop INTERNAL_TASK_ID_KWARG kwargs))%list.

Lemma retry_keys_kept now id payload old k :
  k ∈ retry_keys ->
  dict_get k (new_record now id payload old) =
  match dict_get k (rev payload) with Some v => Some v | None => dict_get k old end.
Proof.
  intros Hk. apply new_record_get. revert Hk. unfold retry_keys. rewrite !elem_of_cons.
  intros [->|[->|[->|?]]]; [apply memb_false; reflexivity..|set_solver].
Qed.

Lemma queued_payload_keys reg args kwargs id k :
  k ∈ retry_keys -> exists v, dict_get k (rev (queued_payload reg args kwargs id)) = Some v.
Proof. unfold retry_keys. rewrite !elem_of_cons. intros [->|[->|[->|?]]]; [by eexists..|set_solver]. Qed.

(** What the record of an enqueued task holds, also when enqueueing failed. *)
Lemma sent_record t0 t reg args kwargs id err r k :
  t0 <= t < t0 + seconds TASK_DETAILS_TTL_SECONDS -> k ∈ retry_keys ->
  exists d, get_task_record t id (send_taskiq_message t0 reg args kwargs id err r).1.2 = Some d /\ d <> [] /\
    dict_get k d = dict_get k (rev (queued_payload reg args kwargs id)).
Proof.
  intros Ht Hk. assert (forall now pl old, new_record now id pl old <> []) as Hnn by (intros; apply dict_set_nonempty).
  destruct (queued_payload_keys reg args kwargs id k Hk) as [v Hv].
  unfold send_taskiq_message. fold (queued_payload reg args kwargs id). destruct err as [[cls msg]|]; cbn [fst snd].
  - eexists. split; [by apply upsert_record|]. split; [done|]. rewrite retry_keys_kept by done.
    assert (dict_get k (rev [("status", VStr "enqueue_failed"); ("finished_at", VStr (isoformat t0));
      ("error_type", VStr cls); ("error_message", VStr (str_take 500 msg))]) = None) as ->.
    { revert Hk. unfold retry_keys. rewrite !elem_of_cons. intros [->|[->|[->|?]]]; [done..|set_solver]. }
    rewrite upsert_kv, String.eqb_refl by lia.
    destruct (_ <=? t0) eqn:E; [zbool; unfold seconds, TASK_DETAILS_TTL_SECONDS in E; lia|]. cbn [decode_record].
    by rewrite retry_keys_kept, Hv by done.
  - eexists. split; [by apply upsert_record|]. split; [done|]. by rewrite retry_keys_kept, Hv by done.
Qed.

(** Retrying repeats the task: after an enqueueing recorded the task,
    retrying it within the record's lifetime sends the same actor, queue and
    arguments under the new id, with the stored JSON-safe form of the
    arguments, which is the arguments themselves when they are nested at most
    five deep. *)
Theorem retry_resends (t0 t : Z) (reg : ActorRegistration) (registry : list (string * ActorRegistration))
    (args : list value) (kwargs : list (string * value)) (id fresh : string) (err : option (string * string)) (r : R) :
  dict_get (reg_name reg) registry = Some reg -> reg_name reg <> "" ->
  t0 <= t < t0 + seconds TASK_DETAILS_TTL_SECONDS ->
  let '(_, r1, _) := send_taskiq_message t0 reg args kwargs id err r in
  let kw := build_kwargs_payload (dict_pop INTERNAL_TASK_ID_KWARG kwargs) in
  let '(o, _, sent) := retry_task_by_id t registry id fresh None r1 in
  o = Ret fresh /\
  sent = [mkMessage (reg_name reg) (get_taskiq_queue_name single_worker_mode (reg_queue_name reg)) fresh
            (build_args_payload args) (dict_set INTERNAL_TASK_ID_KWARG (VStr fresh) kw)] /\
  (Forall (fun v => height v <= 5)%nat args -> build_args_payload args = args).
Proof.
  intros Hreg Hne Ht.
  assert (Forall (fun v => height v <= 5)%nat args -> build_args_payload args = args) as Hargs.
  { intros HF. unfold build_args_payload. induction HF as [|v l Hv _ IH]; [done|]. cbn [map].
    by rewrite safe_json_shallow, IH. }
  pose proof (sent_record t0 t reg args kwargs id err r) as Hrec.
  destruct (send_taskiq_message t0 reg args kwargs id err r) as [[o1 r1] s1]. cbn [fst snd] in Hrec. cbn zeta.
  destruct (Hrec "actor_name" Ht) as (d & Hd & Hne' & Ha); [by apply memb_true|].
  destruct (Hrec "args_payload" Ht) as (d1 & Hd1 & _ & Hp); [by apply memb_true|].
  destruct (Hrec "kwargs_payload" Ht) as (d2 & Hd2 & _ & Hkw); [by apply memb_true|].
  rewrite Hd in Hd1, Hd2. injection Hd1 as <-. injection Hd2 as <-. unfold retry_task_by_id. rewrite Hd.
  destruct d as [|kv d]; [done|]. rewrite Ha, Hp, Hkw.
  change (dict_get "actor_name" (rev (queued_payload reg args kwargs id))) with (Some (VStr (reg_name reg))).
  change (dict_get "args_payload" (rev (queued_payload reg args kwargs id))) with (Some (VList (build_args_payload args))).
  change (dict_get "kwargs_payload" (rev (queued_payload reg args kwargs id)))
    with (Some (VDict (build_kwargs_payload (dict_pop INTERNAL_TASK_ID_KWARG kwargs)))).
  cbn [default from_option Datatypes.id]. assert (truthy (VStr (reg_name reg)) = true) as -> by (by destruct (reg_name reg)).
  cbn [negb str]. rewrite Hreg. done.
Qed.
End TaskQueue.

(** ** Instances at concrete inputs *)

Definition iso_example (t : Z) : string := str_of_int t.
Definition cron_example (s : string) : option Z := if String.eqb s "0 * * * *" then Some (seconds 3600) else None.
Definition actor_example : ActorRegistration :=
  mkRegistration "run_spider" "scrapy" 5 (VInt 3600000) (Some 3) (Some (seconds 60)).
Definition kwargs_example : list (string * value) := [(INTERNAL_TASK_ID_KWARG, VStr "t1"); ("spider_name", VStr "tgx")].
Definition body_example (args : list value) (kwargs : list (string * value)) (r : store) : store * actor_result :=
  (kv_set (seconds 1) "seen" (BText "yes") None r, Returned (VInt 7)).
Definition interrupted_example (args : list value) (kwargs : list (string * value)) (r : store) : store * actor_result :=
  (r, RaisedBaseException "CancelledError" "").

Lemma recent_tasks_bounded_witness :
  let r := (enqueue_actor_job iso_example false 0 actor_example [] kwargs_example None "t1" None empty_store).1.2 in
  list_get r TASK_RECENT_TASKS_KEY = ["t1"] /\ recent_bounded r.
Proof.
  intros r. split; [vm_compute; reflexivity|].
  refine (recent_tasks_bounded iso_example cron_example false empty_store r _ _).
  - apply Nat.le_0_l.
  - apply rtc_once. apply step_enqueue.
Defined.

Lemma execution_accounted_witness :
  let '(o, r') := execute_actor iso_example cron_example true 0 (seconds 2) 41 actor_example [] kwargs_example
                    body_example (VInt 2) empty_store in
  o = Ret (VInt 7) /\ status_of (seconds 3) "t1" r' = Some (VStr "success") /\
  set_has r' TASK_RUNNING_TASKS_KEY "t1" = false.
Proof.
  pose proof (execution_accounted iso_example cron_example true 0 (seconds 2) (seconds 3) 41 actor_example []
    kwargs_example body_example (VInt 2) "t1" empty_store eq_refl ltac:(done) ltac:(done)) as Hw.
  destruct (execute_actor _ _ _ _ _ _ _ _ _ _ _ _) as [o r'].
  destruct (begin_actor _ _ _ _ _ _ _ _) eqn:E; [vm_compute in E; discriminate E|].
  destruct Hw as (_ & Ho & Hs & Hr & _). by split_and!.
Defined.

Lemma interrupted_recorded_success_witness :
  let '(o, r') := execute_actor iso_example cron_example true 0 (seconds 2) 41 actor_example [] kwargs_example
                    interrupted_example (VInt 2) empty_store in
  is_ret o = false /\ status_of (seconds 2) "t1" r' = Some (VStr "success").
Proof.
  destruct (begin_actor iso_example cron_example true 0 41 actor_example [] kwargs_example empty_store) as [|ctx r1] eqn:E;
    [vm_compute in E; discriminate E|].
  exact (interrupted_recorded_success iso_example cron_example true 0 (seconds 2) 41 actor_example [] kwargs_example
    interrupted_example (VInt 2) "t1" "CancelledError" "" ctx empty_store r1 eq_refl ltac:(done) E eq_refl).
Defined.

Lemma invalid_crontab_strands_witness :
  let '(o, r') := execute_actor iso_example cron_example true 0 (seconds 2) 41 actor_example []
                    [(INTERNAL_TASK_ID_KWARG, VStr "t1"); ("crontab_expression", VStr "every day")]
                    body_example (VInt 2) empty_store in
  o = Raise InvalidCrontab /\ set_has r' TASK_RUNNING_TASKS_KEY "t1" = true /\
  status_of 0 "t1" r' = Some (VStr "running").
Proof.
  exact (invalid_crontab_strands iso_example cron_example true 0 (seconds 2) 41 actor_example []
    [(INTERNAL_TASK_ID_KWARG, VStr "t1"); ("crontab_expression", VStr "every day")] body_example (VInt 2) "t1"
    "every day" empty_store eq_refl eq_refl eq_refl eq_refl ltac:(done) eq_refl).
Defined.

Lemma interval_guard_witness :
  let ctx := mkContext "background_tasks:run_spider:spider_name=tgx" (seconds 60) true in
  let r := finalize_task_execution true 0 (Some ctx) false empty_store in
  (exists ctx' r2, prepare_task_execution cron_example true (seconds 49) actor_example []
     [("spider_name", VStr "tgx")] r = Ret (true, ctx', r2)) /\
  (exists ctx' r2, prepare_task_execution cron_example true (seconds 50) actor_example []
     [("spider_name", VStr "tgx")] r = Ret (false, ctx', r2)).
Proof.
  intros ctx r.
  pose proof (fun t (H : 0 <= t) => interval_guard cron_example actor_example [] [("spider_name", VStr "tgx")] [("spider_name", VStr "tgx")] []
    ctx 0 t (Returned VNone) empty_store eq_refl eq_refl eq_refl ltac:(done) H) as Hw.
  split.
  - destruct (Hw (seconds 49) ltac:(done)) as [(c & r2 & E & _) _]. exists c, r2. exact E.
  - destruct (Hw (seconds 50) ltac:(done)) as [(c & r2 & E & _) _]. exists c, r2. exact E.
Defined.

Lemma retry_resends_witness :
  let '(_, r1, _) := send_taskiq_message iso_example false 0 actor_example [VStr "tgx"] [] "t1" None empty_store in
  let '(o, _, sent) := retry_task_by_id iso_example false (seconds 10) [("run_spider", actor_example)] "t1" "t2" None r1 in
  o = Ret "t2" /\ map m_args sent = [[VStr "tgx"]].
Proof.
  pose proof (retry_resends iso_example false 0 (seconds 10) actor_example [("run_spider", actor_example)]
    [VStr "tgx"] [] "t1" "t2" None empty_store eq_refl ltac:(done) ltac:(done)) as Hw.
  destruct (send_taskiq_message _ _ _ _ _ _ _ _ _) as [[o1 r1] s1]. cbn zeta in Hw.
  destruct (retry_task_by_id _ _ _ _ _ _ _ _) as [[o r2] sent].
  destruct Hw as (Ho & -> & _). split; [exact Ho|reflexivity].
Defined.
