(* ===== verification/SourceHealth.v ===== *)
(** * Health of the public indexers (workers/scrapers/source_health.py)

    Counters of a source in a Redis hash.  [record_source_outcome] is a process
    that performs one Redis command a step, so that several can interleave;
    run alone it is the sequential function.  The commands are those of a Redis
    that works: the retries and the swallowed errors of RedisWrapper, and the
    EXPIRE at the end, which changes no counter, are left out.  The decay factor
    is a double. *)

From S2P Require Export Redis Regex.
Local Open Scope string_scope.
Local Open Scope Z_scope.

Definition METRICS_KEY_PREFIX : string := "public_indexer_source_health:".
Definition DEFAULT_HEALTH_BUCKET : string := "general".

(** ** Keys *)

Definition is_scope_char (c : ascii) : bool := is_lower c || is_digit c || Ascii.eqb c "_" || Ascii.eqb c "-".

(** [re.sub(r"[^a-z0-9_-]+", "-", s)]: each run of other characters becomes one
    dash. *)
Fixpoint dash_runs (in_run : bool) (s : string) : string :=
  match s with
  | "" => ""
  | String c s =>
      if is_scope_char c then String c (dash_runs false s)
      else if in_run then dash_runs true s else String "-" (dash_runs true s)
  end.

Definition sanitize_scope_component (raw : string) : string := strip_chars "-" (dash_runs false (lower (strip raw))).

Record scope_settings := mkScope { scope_mode : string; custom_scope : string;
  env : string -> option string  (* [os.getenv] *) }.

(** [a or b] on [os.getenv] results. *)
Definition env_or (s : scope_settings) (name : string) (other : string) : string :=
  match env s name with Some v => if str_empty v then other else v | None => other end.

Definition resolve_scope (s : scope_settings) : option string :=
  let mode := lower (strip (if str_empty (scope_mode s) then "global" else scope_mode s)) in
  let mode := if existsb (String.eqb mode) ["global"; "pod"; "custom"] then mode else "global" in
  if String.eqb mode "global" then None
  else
    let raw := if String.eqb mode "pod"
               then env_or s "PUBLIC_INDEXERS_SOURCE_HEALTH_SCOPE" (env_or s "POD_NAME" (env_or s "HOSTNAME" ""))
               else custom_scope s in
    let sanitized := sanitize_scope_component raw in
    Some (if str_empty sanitized then "default" else sanitized).

Definition metrics_key (s : scope_settings) (source_key health_bucket : string) : string :=
  let source := lower (strip source_key) in
  let bucket := sanitize_scope_component health_bucket in
  let bucket := if str_empty bucket then DEFAULT_HEALTH_BUCKET else bucket in
  match resolve_scope s with
  | None => METRICS_KEY_PREFIX +:+ bucket +:+ ":" +:+ source
  | Some scope => METRICS_KEY_PREFIX +:+ scope +:+ ":" +:+ bucket +:+ ":" +:+ source
  end.

(** ** Counters *)

Definition parse_counter (raw : option string) : Z :=
  match raw with
  | None => 0
  | Some s => match int_of_string s with Ret z => z | Raise _ => 0 end
  end.

Record SourceHealthSnapshot := mkSnapshot { total : Z; success : Z; timeout : Z; challenge_solved : Z; consecutive_success : Z }.

(** Python reads back integers of at most 4300 digits. *)
Definition max_int : Z := 10 ^ 4300.
Lemma read_back z : 0 <= z < max_int -> int_of_string (str_of_int z) = Ret z.
Proof. intros [H0 H1]. by apply int_of_string_str_of_int. Qed.
Lemma max_int_large : 1 < max_int.
Proof. vm_compute. reflexivity. Qed.
#[local] Opaque max_int.

(** [part / whole], exact as the code's for counters below 2^53. *)
Definition rate (part whole : Z) : outcome py_exn float :=
  if whole <=? 0 then Ret (f_round 0)
  else x ← float_of_int part; y ← float_of_int whole; Ret (f_div x y).

Section Health.
Context {R : Type} `{Redis R}.
Context (key : string) (decay_factor : float) (soft_cap : Z).

Definition counter (r : R) (field : string) : Z := parse_counter (hash_get r key field).

(** [get_source_health]; an absent hash has no fields, so all counters are 0. *)
Definition get_source_health (r : R) : SourceHealthSnapshot :=
  mkSnapshot (counter r "total") (counter r "success") (counter r "timeout") (counter r "challenge_solved")
    (counter r "consecutive_success").

Definition is_source_within_budget (min_samples : Z) (min_success_rate max_timeout_rate : float) (r : R) : outcome py_exn bool :=
  let s := get_source_health r in
  if total s <? Z.max 1 min_samples then Ret true
  else
    sr ← rate (success s) (total s);
    if f_leb min_success_rate sr then tr ← rate (timeout s) (total s); Ret (f_leb tr max_timeout_rate)
    else Ret false.

(** HINCRBY: an error when the field holds no integer. *)
Definition hincrby (field : string) (n : Z) (r : R) : outcome py_exn (Z * R) :=
  z ← match hash_get r key field with None => Ret 0 | Some s => int_of_string s end;
  Ret (z + n, hset key [(field, str_of_int (z + n))] r).

Definition bump (on : bool) (field : string) (r : R) : outcome py_exn R :=
  if on then x ← hincrby field 1 r; Ret x.2 else Ret r.

(** [int(value * decay_factor)] *)
Definition scaled (z : Z) : outcome py_exn Z := x ← float_of_int z; trunc (f_mul x decay_factor).

(** The mapping [_decay_source_counters] writes for what it has read. *)
Definition decayed (s : SourceHealthSnapshot) : outcome py_exn (list (string * string)) :=
  t ← scaled (total s); sc ← scaled (success s); ti ← scaled (timeout s); ch ← scaled (challenge_solved s);
  let t := Z.max 1 t in
  Ret [("total", str_of_int t); ("success", str_of_int (Z.min t (Z.max 0 sc)));
       ("timeout", str_of_int (Z.min t (Z.max 0 ti))); ("challenge_solved", str_of_int (Z.min t (Z.max 0 ch)));
       ("consecutive_success", str_of_int (Z.min (Z.max 0 (consecutive_success s)) t))].

(** ** [record_source_outcome] as a process *)

Record outcome_args := mkArgs { ok : bool; timed_out : bool; challenge : bool }.

(** The command to perform next; [new_total] is what the first HINCRBY
    returned. *)
Inductive pc :=
  | IncrTotal
  | IncrSuccess (new_total : Z)
  | IncrTimeout (new_total : Z)
  | IncrChallenge (new_total : Z)
  | SetStreak (new_total : Z)
  | ReadForDecay
  | WriteDecayed (mapping : list (string * string))
  | Finished.

Definition proc_step (a : outcome_args) (p : pc) (r : R) : outcome py_exn (pc * R) :=
  match p with
  | IncrTotal => x ← hincrby "total" 1 r; Ret (IncrSuccess x.1, x.2)
  | IncrSuccess t => r ← bump (ok a) "success" r; Ret (IncrTimeout t, r)
  | IncrTimeout t => r ← bump (timed_out a) "timeout" r; Ret (IncrChallenge t, r)
  | IncrChallenge t => r ← bump (challenge a) "challenge_solved" r; Ret (SetStreak t, r)
  | SetStreak t =>
      r ← (if ok a && negb (timed_out a) then bump true "consecutive_success" r
           else Ret (hset key [("consecutive_success", "0")] r));
      Ret (if soft_cap <=? t then ReadForDecay else Finished, r)
  | ReadForDecay =>
      let s := get_source_health r in
      if total s <=? 0 then Ret (Finished, r)
      else m ← decayed s; Ret (WriteDecayed m, r)
  | WriteDecayed m => Ret (Finished, hset key m r)
  | Finished => Ret (Finished, r)
  end.

Fixpoint run_proc (n : nat) (a : outcome_args) (p : pc) (r : R) : outcome py_exn (pc * R) :=
  match n with
  | O => Ret (p, r)
  | S n => x ← proc_step a p r; run_proc n a x.1 x.2
  end.

(** Alone, seven commands at most. *)
Definition record_source_outcome (a : outcome_args) (r : R) : outcome py_exn R :=
  x ← run_proc 7 a IncrTotal r; Ret x.2.

(** Several calls at once: the schedule says which one makes each step. *)
Fixpoint interleave (schedule : list nat) (procs : list (outcome_args * pc)) (r : R) :
    outcome py_exn (list (outcome_args * pc) * R) :=
  match schedule with
  | [] => Ret (procs, r)
  | i :: schedule =>
      match procs !! i with
      | None => interleave schedule procs r
      | Some (a, p) => x ← proc_step a p r; interleave schedule (<[i := (a, x.1)]> procs) x.2
      end
  end.

(** ** Alone, a call keeps the counters consistent *)

Definition part_fields : list string := ["success"; "timeout"; "challenge_solved"; "consecutive_success"].
Definition sane (r : R) : Prop := Forall (fun f => 0 <= counter r f <= counter r "total") part_fields.

Lemma counter_set r f f' z : 0 <= z < max_int ->
  counter (hset key [(f, str_of_int z)] r) f' = if String.eqb f' f then z else counter r f'.
Proof.
  intros Hz. unfold counter. rewrite hash_get_hset, String.eqb_refl. cbn [rev app dict_get].
  destruct (String.eqb f' f); [|done]. unfold parse_counter. by rewrite read_back.
Qed.

Lemma hincrby_counter f f' r x r' : 0 <= counter r f -> counter r f + 1 < max_int ->
  hincrby f 1 r = Ret (x, r') ->
  x = counter r f + 1 /\ counter r' f' = if String.eqb f' f then counter r f + 1 else counter r f'.
Proof.
  intros H0 H1 Hi. assert ((x, r') = (counter r f + 1, hset key [(f, str_of_int (counter r f + 1))] r)) as [= -> ->].
  { unfold hincrby in Hi. unfold counter. destruct (hash_get r key f) as [s|]; cbn [parse_counter mbind outcome_bind] in *;
      [destruct (int_of_string s) as [z|]; [|done]|]; cbn [mbind outcome_bind] in Hi; by injection Hi as <- <-. }
  split; [done|]. apply counter_set. lia.
Qed.

Lemma bump_counter on f f' r r' : 0 <= counter r f -> counter r f + 1 < max_int ->
  bump on f r = Ret r' -> counter r' f' = if on && String.eqb f' f then counter r f + 1 else counter r f'.
Proof.
  intros H0 H1. unfold bump. destruct on; [|by intros [= <-]].
  destruct (hincrby f 1 r) as [[x r1]|] eqn:E; [|done]. intros [= <-].
  by apply (hincrby_counter f f' r x r1 H0 H1) in E as [_ ->].
Qed.

Lemma counter_decayed s m r v : decayed s = Ret m -> scaled (total s) = Ret v -> v < max_int ->
  counter (hset key m r) "total" = Z.max 1 v /\
  Forall (fun f => 0 <= counter (hset key m r) f <= Z.max 1 v) part_fields.
Proof.
  unfold decayed. intros Hm Ht Hv. rewrite Ht in Hm. cbn [mbind outcome_bind] in Hm.
  destruct (scaled (success s)) as [sc|]; [|done]. destruct (scaled (timeout s)) as [ti|]; [|done].
  destruct (scaled (challenge_solved s)) as [ch|]; [|done]. cbn [mbind outcome_bind] in Hm. injection Hm as <-.
  pose proof max_int_large. unfold counter.
  assert (forall z, 0 <= z <= Z.max 1 v -> parse_counter (Some (str_of_int z)) = z) as Hp.
  { intros z Hz. unfold parse_counter. rewrite read_back; [done|lia]. }
  split; [rewrite hash_get_hset, String.eqb_refl; apply Hp; lia|].
  repeat constructor; rewrite hash_get_hset, String.eqb_refl; cbn [rev app dict_get String.eqb Ascii.eqb Bool.eqb andb];
    rewrite Hp; lia.
Qed.

(** The commands before the decay, as a whole. *)
Definition increments (a : outcome_args) (r : R) : outcome py_exn R :=
  x ← hincrby "total" 1 r;
  r ← bump (ok a) "success" x.2;
  r ← bump (timed_out a) "timeout" r;
  r ← bump (challenge a) "challenge_solved" r;
  if ok a && negb (timed_out a) then bump true "consecutive_success" r
  else Ret (hset key [("consecutive_success", "0")] r).

Lemma increments_sane a r r' : sane r -> 0 <= counter r "total" -> counter r "total" + 1 < max_int ->
  increments a r = Ret r' -> sane r' /\ counter r' "total" = counter r "total" + 1.
Proof.
  unfold sane, part_fields. rewrite !Forall_cons. intros (Hs & Ht & Hc & Hk & _) H0 H1. unfold increments.
  destruct (hincrby "total" 1 r) as [[x r1]|] eqn:E1; [|done]. cbn [mbind outcome_bind snd].
  assert (forall f, counter r1 f = if String.eqb f "total" then counter r "total" + 1 else counter r f) as F1
    by (intros f; by apply (hincrby_counter "total" f r x r1)).
  destruct (bump (ok a) "success" r1) as [r2|] eqn:E2; [|done]. cbn [mbind outcome_bind].
  assert (counter r1 "success" = counter r "success") as G1 by by rewrite F1.
  assert (forall f, counter r2 f = if ok a && String.eqb f "success" then counter r "success" + 1 else counter r1 f) as F2
    by (intros f; rewrite (bump_counter (ok a) "success" f r1 r2) by (exact E2 || lia); by rewrite G1).
  assert (counter r2 "timeout" = counter r "timeout") as G2 by (rewrite F2, F1; by destruct (ok a)).
  destruct (bump (timed_out a) "timeout" r2) as [r3|] eqn:E3; [|done]. cbn [mbind outcome_bind].
  assert (forall f, counter r3 f = if timed_out a && String.eqb f "timeout" then counter r "timeout" + 1 else counter r2 f) as F3
    by (intros f; rewrite (bump_counter (timed_out a) "timeout" f r2 r3) by (exact E3 || lia); by rewrite G2).
  assert (counter r3 "challenge_solved" = counter r "challenge_solved") as G3
    by (rewrite F3, F2, F1; by destruct (ok a), (timed_out a)).
  destruct (bump (challenge a) "challenge_solved" r3) as [r4|] eqn:E4; [|done]. cbn [mbind outcome_bind].
  assert (forall f, counter r4 f = if challenge a && String.eqb f "challenge_solved" then counter r "challenge_solved" + 1 else counter r3 f) as F4
    by (intros f; rewrite (bump_counter (challenge a) "challenge_solved" f r3 r4) by (exact E4 || lia); by rewrite G3).
  assert (counter r4 "consecutive_success" = counter r "consecutive_success") as Fs
    by (rewrite F4, F3, F2, F1; by destruct (ok a), (timed_out a), (challenge a)).
  intros E5. assert (forall f, counter r' f = if String.eqb f "consecutive_success"
    then if ok a && negb (timed_out a) then counter r "consecutive_success" + 1 else 0 else counter r4 f) as F5.
  { intros f. destruct (ok a && negb (timed_out a)).
    - rewrite (bump_counter true "consecutive_success" f r4 r') by (exact E5 || lia). by rewrite Fs.
    - injection E5 as <-. change "0" with (str_of_int 0). rewrite counter_set by (pose proof max_int_large; lia). done. }
  assert (counter r' "total" = counter r "total" + 1) as Hn
    by (rewrite F5, F4, F3, F2, F1; by destruct (ok a), (timed_out a), (challenge a)).
  split; [|done]. rewrite Hn. split_and!; try done;
    rewrite F5, ?F4, ?F3, ?F2, ?F1; clear - Hs Ht Hc Hk H0;
    destruct (ok a), (timed_out a), (challenge a); cbn [String.eqb Ascii.eqb Bool.eqb andb negb]; lia.
Qed.

Lemma record_increments a r :
  record_source_outcome a r =
  match hincrby "total" 1 r, increments a r with
  | Ret (t, _), Ret r' =>
      if soft_cap <=? t then
        if total (get_source_health r') <=? 0 then Ret r'
        else m ← decayed (get_source_health r'); Ret (hset key m r')
      else Ret r'
  | Raise e, _ | _, Raise e => Raise e
  end.
Proof.
  unfold record_source_outcome, increments. cbn [run_proc proc_step].
  destruct (hincrby "total" 1 r) as [[t r1]|]; [|done]. cbn [mbind outcome_bind fst snd proc_step].
  destruct (bump (ok a) "success" r1) as [r2|]; [|done]. cbn [mbind outcome_bind fst snd proc_step].
  destruct (bump (timed_out a) "timeout" r2) as [r3|]; [|done]. cbn [mbind outcome_bind fst snd proc_step].
  destruct (bump (challenge a) "challenge_solved" r3) as [r4|]; [|done]. cbn [mbind outcome_bind fst snd proc_step].
  destruct (if ok a && negb (timed_out a) then _ else _) as [r5|]; [|done]. cbn [mbind outcome_bind fst snd proc_step].
  destruct (soft_cap <=? t); cbn [mbind outcome_bind fst snd proc_step]; [|done].
  destruct (total (get_source_health r5) <=? 0); cbn [mbind outcome_bind fst snd proc_step]; [done|].
  by destruct (decayed _).
Qed.

(** [C40] Recording an outcome with no other call in between keeps the counters
    consistent: successes, timeouts, solved challenges and the success streak
    stay between 0 and the total, also through a decay, and the total grows by
    one or, at the cap, is the decayed one and at least 1. *)
Theorem health_counters_sane (a : outcome_args) (r r' : R) :
  sane r -> 0 <= counter r "total" -> counter r "total" + 1 < max_int ->
  (forall v, scaled (counter r "total" + 1) = Ret v -> v < max_int) ->
  record_source_outcome a r = Ret r' ->
  sane r' /\
  (counter r "total" + 1 < soft_cap -> counter r' "total" = counter r "total" + 1) /\
  (soft_cap <= counter r "total" + 1 ->
     exists v, scaled (counter r "total" + 1) = Ret v /\ counter r' "total" = Z.max 1 v).
Proof.
  intros Hs H0 H1 Hv. rewrite record_increments.
  pose proof (fun x r' => hincrby_counter "total" "total" r x r' H0 H1) as Ht.
  destruct (hincrby "total" 1 r) as [[t r1]|] eqn:E; [|done]. destruct (Ht t r1 eq_refl) as [-> _]. clear Ht.
  destruct (increments a r) as [r2|] eqn:Ei; [|done]. destruct (increments_sane a r r2 Hs H0 H1 Ei) as [Hs2 Ht2].
  destruct (soft_cap <=? counter r "total" + 1) eqn:Ec; zbool.
  - assert (total (get_source_health r2) = counter r "total" + 1) as Htot by exact Ht2. rewrite Htot.
    destruct (counter r "total" + 1 <=? 0) eqn:Ez; zbool; [lia|].
    destruct (decayed (get_source_health r2)) as [m|] eqn:Ed; [|done]. intros [= <-].
    destruct (scaled (counter r "total" + 1)) as [v|] eqn:Esc.
    + destruct (counter_decayed _ m r2 v Ed) as [Hd Hparts]; [by rewrite Htot|by apply Hv|].
      split; [unfold sane; by rewrite Hd|]. split; [lia|]. intros _. by exists v.
    + unfold decayed in Ed. rewrite Htot, Esc in Ed. done.
  - intros [= <-]. split; [done|]. split; [done|lia].
Qed.
End Health.

(** ** Several calls at once *)

Definition health_key : string := "public_indexer_source_health:general:tgx".
Definition half : float := f_of_dec false 5 (-1).
Definition all_ok : outcome_args := mkArgs true false false.
Definition successes (n : string) : store :=
  hset health_key [("total", n); ("success", n); ("consecutive_success", n)] empty_store.

(** Two calls count their attempt, a third one reaches the cap and decays, the
    two go on. *)
Definition late_successes : list nat := ([1; 2] ++ repeat 0 7 ++ repeat 1 4 ++ repeat 2 4)%nat%list.

(** Recordings that overlap a decay can break it: the attempts of the two
    calls are scaled down while their successes are added afterwards, and a
    source with nothing but successes ends with a success rate of 11/10. *)
Theorem concurrent_decay_overcounts :
  match interleave health_key half 20 late_successes (replicate 3 (all_ok, IncrTotal)) (successes "17") with
  | Ret (procs, r) =>
      procs = replicate 3 (all_ok, Finished) /\
      counter health_key (successes "17") "success" = counter health_key (successes "17") "total" /\
      counter health_key r "success" = 11 /\ counter health_key r "total" = 10
  | Raise _ => False
  end.
Proof. vm_compute. split_and!; reflexivity. Qed.

Lemma health_counters_sane_witness :
  match record_source_outcome health_key half 20 all_ok (successes "19") with
  | Ret r => sane health_key r /\ counter health_key r "total" = 10
  | Raise _ => False
  end.
Proof.
  destruct (record_source_outcome health_key half 20 all_ok (successes "19")) as [r|] eqn:E; [|vm_compute in E; discriminate E].
  assert (sane health_key (successes "19")) as Hs by (repeat constructor; vm_compute; discriminate).
  assert (scaled half 20 = Ret 10) as Hd by (vm_compute; reflexivity).
  destruct (health_counters_sane health_key half 20 all_ok (successes "19") r Hs) as (H1 & _ & H2);
    [vm_compute; discriminate|vm_compute; reflexivity| |exact E|].
  - change (counter health_key (successes "19") "total" + 1) with 20. rewrite Hd. intros v [= <-]. vm_compute. reflexivity.
  - split; [exact H1|]. change (counter health_key (successes "19") "total" + 1) with 20 in H2.
    destruct H2 as (v & Hv & ->); [discriminate|]. rewrite Hd in Hv. by injection Hv as <-.
Defined.
