(* ===== verification/EpisodeParser.v ===== *)
(** * Season and episode from a file name (workers/providers/parser.py,
    utils/validation_helper.py, utils/runtime_const.py)

    The fixed patterns, the guard against hashes and the fallback parser. *)

From S2P Require Export Regex.
Local Open Scope string_scope.

(** ** Names *)

(** [os.path.basename]: what follows the last slash. *)
Definition basename (s : string) : string := List.last (split_char "/" s) "".

Definition video_suffixes : list string :=
  [".mp4"; ".mkv"; ".webm"; ".m4v"; ".mov"; ".m3u8"; ".m3u"; ".mpd"; ".ts"; ".mts"; ".m2ts"; ".m2t"; ".mpeg"; ".mpg";
   ".mp2"; ".m2v"; ".m4p"; ".avi"; ".wmv"; ".flv"; ".f4v"; ".ogv"; ".ogm"; ".rm"; ".rmvb"; ".asf"; ".divx"; ".3gp";
   ".3g2"; ".vob"; ".ifo"; ".bdmv"; ".hevc"; ".av1"; ".vp8"; ".vp9"; ".mxf"; ".dav"; ".swf"; ".nsv"; ".strm"; ".mvi";
   ".vid"; ".amv"; ".m4s"; ".mqv"; ".nuv"; ".wtv"; ".dvr-ms"; ".pls"; ".cue"; ".dash"; ".hls"; ".ismv"; ".m4f";
   ".mp4v"; ".gif"; ".gifv"; ".apng"].

Definition is_video_file (filename : string) : bool :=
  existsb (fun e => endswith e (lower filename)) video_suffixes.

(** ** The patterns *)

Definition d : rx := Chr is_digit.
Definition d12 : rx := OneTwo d.
Definition d2 : rx := Seq d d.
Definition d4 : rx := Seq d2 d2.
Definition one_of (chars : string) : rx := Chr (fun a => str_any (Ascii.eqb a) chars).
Definition ws : rx := Chr is_space.
Definition seqs (l : list rx) : rx := foldr Seq Eps l.
Definition lazy_any : rx := Star false Dot.

(** A pattern with what it extracts from a match, given the default season. *)
Definition extractor := captures -> option Z -> outcome py_exn (option Z * option Z).

Definition both : extractor := fun c _ =>
  s ← int_of_string (group 1 c); e ← int_of_string (group 2 c); Ret (Some s, Some e).
Definition episode_only : extractor := fun c default_season =>
  e ← int_of_string (group 1 c); Ret (default_season, Some e).

Definition SEASON_EPISODE_PATTERNS : list (string * rx * extractor) :=
  [("standard", seqs [one_of "sS"; Grp 1 d12; one_of "eE"; Grp 2 d12], both);
   ("separator_x", seqs [NotBehind is_word; Grp 1 d12; one_of "xX"; Grp 2 d12; NotAhead is_word], both);
   ("text_based", seqs [one_of "sS"; lit "eason"; Plus true ws; Grp 1 d12; lazy_any; one_of "eE"; lit "pisode";
                        Plus true ws; Grp 2 d12], both);
   ("season_ep", seqs [Alt (Seq (one_of "sS") (lit "eason")) (Seq (one_of "sS") (lit "eries"));
                       Star true (Chr (fun a => Ascii.eqb a "." || is_space a || Ascii.eqb a "-")); Grp 1 d12; lazy_any;
                       Opt (Alt (Seq (one_of "eE") (lit "p")) (Seq (one_of "eE") (lit "pisode")));
                       Star true (Chr (fun a => Ascii.eqb a "." || is_space a || Ascii.eqb a "-")); Grp 2 d12], both);
   ("no_separator", seqs [lit_i "S"; Grp 1 d12; lit_i "E"; Grp 2 d12], both);
   ("simple_episode", seqs [Behind is_space; Grp 1 d12; Alt ws (Alt Eol (lit "."))], episode_only);
   ("bracketed", seqs [one_of "[("; Opt (one_of "sS"); Grp 1 d12; Opt (Chr (fun a => Ascii.eqb a "." || is_space a));
                       one_of "eExX"; Grp 2 d12; one_of "])"], both);
   ("period_sep", seqs [NotBehind is_word; Grp 1 d12; lit "."; Grp 2 d2; NotAhead is_word], both);
   ("episode_only", seqs [one_of "_-"; one_of "eE"; Opt (lit "p"); Grp 1 d12], episode_only);
   ("absolute_ep", seqs [one_of "eE"; lit_i "p"; Opt (lit_i "isode"); Chr (fun a => Ascii.eqb a "." || is_space a);
                         Grp 1 (Seq d (Opt (Seq d (Opt d)))); NotAhead is_word], episode_only);
   ("zero_padded", seqs [NotBehind is_digit; Grp 1 (Seq d (Plus true d)); NotAhead is_digit], episode_only)].

Definition ANIME_PATTERNS : list (string * rx * extractor) :=
  [("standalone_episode", seqs [Alt Bol (Alt ws (Alt (lit "[") (lit "("))); Grp 1 d12;
                                Alt ws (Alt Eol (Alt (lit "]") (lit ")")))], episode_only)].

Definition dated (sep : rx) : rx := seqs [d4; sep; d2; sep; d2].
Definition dated_last (sep : rx) : rx := seqs [d2; sep; d2; sep; d4].
Definition DATE_STR_REGEX : rx :=
  foldr Alt (dated_last (Plus true ws))
    [dated (lit "."); dated (lit "-"); dated (lit "_"); dated (Plus true ws);
     dated_last (lit "."); dated_last (lit "-"); dated_last (lit "_")].

(** ** The fallback parser *)

Definition bracket_regex (match_str : string) : rx :=
  seqs [lit "["; Star true (Chr (fun a => negb (Ascii.eqb a "]"))); lit match_str;
        Star true (Chr (fun a => negb (Ascii.eqb a "["))); lit "]"].

Definition is_likely_hash (match_str filename : string) : bool :=
  if negb (contains match_str filename) then false
  else
    let in_bracket :=
      match search (bracket_regex match_str) filename with
      | Some (_, c, _) => (10 <? slen (group 0 c))%Z && str_any is_alpha (group 0 c)
      | None => false
      end in
    in_bracket || str_any is_alpha match_str.

Definition extension_regex : rx :=
  seqs [lit "."; foldr Alt (lit "flv") (map lit ["mkv"; "mp4"; "avi"; "mov"; "wmv"]); Eol].

Definition base_filename (filename : string) : string :=
  match search extension_regex (basename filename) with
  | Some (pre, _, rest) => pre +:+ rest
  | None => basename filename
  end.

(** The first loop: the first pattern with a match, except a likely hash. *)
Fixpoint try_patterns (patterns : list (string * rx * extractor)) (base : string) (default_season : option Z) :
    outcome py_exn (option (option Z * option Z)) :=
  match patterns with
  | [] => Ret None
  | (name, regex, extract) :: patterns =>
      match search regex base with
      | Some (_, c, _) =>
          if String.eqb name "simple_episode" && is_likely_hash (group 0 c) base
          then try_patterns patterns base default_season
          else r ← extract c default_season; Ret (Some r)
      | None => try_patterns patterns base default_season
      end
  end.

(** The second loop, over the matches of one pattern. *)
Fixpoint try_matches (matches : list (nat * captures)) (extract : extractor) (base : string) (default_season : option Z) :
    outcome py_exn (option (option Z * option Z)) :=
  match matches with
  | [] => Ret None
  | (pos, c) :: matches =>
      if is_likely_hash (group 0 c) base then try_matches matches extract base default_season
      else if (5 <? pos)%nat then
        n ← int_of_string (group 1 c);
        if (n <? 100)%Z then r ← extract c default_season; Ret (Some r)
        else try_matches matches extract base default_season
      else try_matches matches extract base default_season
  end.

Fixpoint try_anime (patterns : list (string * rx * extractor)) (base : string) (default_season : option Z) :
    outcome py_exn (option Z * option Z) :=
  match patterns with
  | [] => Ret (None, None)
  | (_, regex, extract) :: patterns =>
      r ← try_matches (finditer regex base) extract base default_season;
      match r with Some r => Ret r | None => try_anime patterns base default_season end
  end.

Definition fallback_parse_season_episode (filename : string) (default_season : option Z) :
    outcome py_exn (option Z * option Z) :=
  let base := base_filename filename in
  r ← try_patterns SEASON_EPISODE_PATTERNS base default_season;
  match r with Some r => Ret r | None => try_anime ANIME_PATTERNS base default_season end.

(** ** The standard tag *)

Definition standard : rx := seqs [one_of "sS"; Grp 1 d12; one_of "eE"; Grp 2 d12].
Definition is_s (a : ascii) : bool := str_any (Ascii.eqb a) "sS".
Definition is_e (a : ascii) : bool := str_any (Ascii.eqb a) "eE".

Lemma search_standard_skip a prev s :
  is_s a = false ->
  search_from standard prev (String a s) =
  match search_from standard (Some a) s with Some (pre, c, rest) => Some (String a pre, c, rest) | None => None end.
Proof.
  intros Ha. cbn [search_from]. assert (match_at standard prev (String a s) = None) as ->; [|done].
  unfold match_at, standard, is_s in *. cbn [seqs foldr mtch one_of] in *. by rewrite Ha.
Qed.

Lemma length_sub2 n : (S (S n) - n = 2)%nat.
Proof. lia. Qed.

Lemma match_standard_tag prev s a b e c d' suf :
  is_s s = true -> is_digit a = true -> is_digit b = true -> is_e e = true -> is_digit c = true -> is_digit d' = true ->
  exists c0, match_at standard prev (String s (String a (String b (String e (String c (String d' suf)))))) = Some (c0, suf) /\
    group 1 c0 = String a (String b "") /\ group 2 c0 = String c (String d' "").
Proof.
  intros Hs Ha Hb He Hc Hd. unfold match_at, standard, is_s, is_e in *.
  cbn [seqs foldr mtch one_of d12 OneTwo Opt d] in *. rewrite Hs, Ha, Hb, He, Hc, Hd.
  eexists. split; [reflexivity|]. unfold group. cbn [capture Nat.eqb default String.length].
  rewrite !length_sub2. done.
Qed.

Lemma int_of_two_digits a b : is_digit a = true -> is_digit b = true ->
  int_of_string (String a (String b "")) = Ret (10 * digit_val a + digit_val b)%Z.
Proof.
  intros Ha Hb. destruct a as [[][][][][][][][]]; try discriminate; destruct b as [[][][][][][][][]]; try discriminate; reflexivity.
Qed.

(** A name with a tag such as [S02E05] parses to its two numbers, whatever
    else it holds, when no other [s] comes before the tag. *)
Theorem standard_tag_parsed (name pre suf : string) (s a b e c d' : ascii) (default_season : option Z) :
  base_filename name = (pre +:+ String s (String a (String b (String e (String c (String d' suf))))))%string ->
  str_all (fun x => negb (is_s x)) pre = true -> is_s s = true -> is_e e = true ->
  is_digit a = true -> is_digit b = true -> is_digit c = true -> is_digit d' = true ->
  fallback_parse_season_episode name default_season =
  Ret (Some (10 * digit_val a + digit_val b)%Z, Some (10 * digit_val c + digit_val d')%Z).
Proof.
  intros Hbase Hpre Hs He Ha Hb Hc Hd. unfold fallback_parse_season_episode. rewrite Hbase.
  assert (forall prev, exists p c0, search_from standard prev
    (pre +:+ String s (String a (String b (String e (String c (String d' suf)))))) = Some (p, c0, suf) /\
    group 1 c0 = String a (String b "") /\ group 2 c0 = String c (String d' "")) as Hsearch.
  { clear Hbase. induction pre as [|x pre IH]; intros prev.
    - destruct (match_standard_tag prev s a b e c d' suf) as (c0 & Hm & Hg); try done.
      exists "", c0. split; [|done]. rewrite str_app_nil. cbn [search_from]. by rewrite Hm.
    - cbn [str_all] in Hpre. apply andb_true_iff in Hpre as [Hx Hpre]. apply negb_true_iff in Hx.
      destruct (IH Hpre (Some x)) as (p & c0 & Hm & Hg). exists (String x p), c0. split; [|done].
      rewrite str_app_cons, search_standard_skip by done. by rewrite Hm. }
  destruct (Hsearch None) as (p & c0 & Hm & Hg1 & Hg2).
  unfold SEASON_EPISODE_PATTERNS. cbn [try_patterns]. fold standard. unfold search. rewrite Hm.
  change (String.eqb "standard" "simple_episode") with false. cbn [andb].
  unfold both. rewrite Hg1, Hg2, !int_of_two_digits by done. done.
Qed.

Lemma standard_tag_parsed_witness :
  fallback_parse_season_episode "dl/A.Big.2019.s02E05.1080p.mkv" (Some 1%Z) = Ret (Some 2%Z, Some 5%Z).
Proof.
  exact (standard_tag_parsed "dl/A.Big.2019.s02E05.1080p.mkv" "A.Big.2019." ".1080p" "s" "0" "2" "E" "0" "5" (Some 1%Z)
           eq_refl eq_refl eq_refl eq_refl eq_refl eq_refl eq_refl eq_refl).
Defined.
