(* ===== verification/FileSelection.v ===== *)
(** * Choosing the file of a torrent or usenet download
    (workers/providers/parser.py)

    The processors over the file list of a provider, the metadata update of a
    torrent stream and the two selection functions.  The title parser [PTT],
    [dateparser], the series metadata read from the database, the redis lock
    of the annotation requests, the persistence of a stream and the provider's
    file size callback are parameters. *)

From S2P Require Export EpisodeParser PyList PyVal.
Local Open Scope string_scope.
Local Open Scope Z_scope.

Inductive selection_exn :=
  | ProviderException (message video_file_name : string)
  | PythonError (e : py_exn)
  | PersistError.

(** ** Data *)

(** A file of the provider's list; the size may be filled in later. *)
Record provider_file := mkFile { file_name : string; file_size : option Z }.

Record FileInfo := mkFileInfo { index : nat; filename : string; size : Z; is_video : bool }.

(** The value of a date field of an episode. *)
Inductive date_field :=
  | DateTime (day : string)  (* [.date().isoformat()] *)
  | Date (day : string)  (* [.isoformat()] *)
  | OtherValue.

Record Episode := mkEpisode { episode_number : Z; released : option date_field; air_date : option date_field;
  release_date : option date_field }.
Record Season := mkSeason { season_number : Z; season_episodes : list Episode }.
(** [None] for an attribute that is missing or [None]. *)
Record SeriesMetadata := mkMetadata { seasons : option (list Season); series_metadata : option (option (list Season)) }.

Record StreamFileData := mkStreamFile { sf_index : nat; sf_filename : string; sf_size : Z; sf_type : string;
  sf_season : option Z; sf_episode : option Z }.

(** The fields of [TorrentStreamData] the selection reads and writes. *)
Record TorrentStream := mkStream { info_hash : string; stream_name : string; meta_id : string; is_blocked : bool;
  stream_size : Z; files : list StreamFileData }.

Record ptt_result := mkParsed { ptt_seasons : list Z; ptt_episodes : list Z; ptt_date : option string }.

Definition normalize_episode_date (value : option date_field) : option string :=
  match value with
  | None | Some OtherValue => None
  | Some (DateTime day) | Some (Date day) => Some day
  end.

Definition get_episode_date (e : Episode) : option string :=
  match List.filter (fun s => negb (str_empty s)) (omap normalize_episode_date [released e; air_date e; release_date e]) with
  | day :: _ => Some day
  | [] => None
  end.

Definition get_metadata_seasons (m : option SeriesMetadata) : list Season :=
  match m with
  | None => []
  | Some m =>
      match seasons m with
      | Some ((_ :: _) as l) => l
      | _ => default [] (default None (series_metadata m))
      end
  end.

(** [FileInfo.from_torrent_file] *)
Definition from_torrent_file (idx : nat) (f : provider_file) : outcome selection_exn FileInfo :=
  match file_size f with
  | Some sz => Ret (mkFileInfo idx (basename (file_name f)) sz (is_video_file (basename (file_name f))))
  | None => Raise (PythonError KeyError)
  end.

(** [_process_files] from index [idx] on: the video files. *)
Fixpoint process_files (idx : nat) (l : list provider_file) : outcome selection_exn (list FileInfo) :=
  match l with
  | [] => Ret []
  | f :: l =>
      info ← from_torrent_file idx f;
      rest ← process_files (S idx) l;
      Ret (if is_video info then info :: rest else rest)
  end.

(** The processor of a torrent or a usenet download; [episodes] is only used
    for torrents.  The cache of [get_video_files] is invisible: the file
    infos never change. *)
Record Processor := mkProcessor { file_infos : list FileInfo; episodes : option (list StreamFileData);
  metadata : option SeriesMetadata }.

Definition new_processor (l : list provider_file) : outcome selection_exn Processor :=
  infos ← process_files 0 l; Ret (mkProcessor infos None None).

Definition get_video_files (p : Processor) : list FileInfo := List.filter is_video (file_infos p).

(** Python's [max(..., key=...)]: the first of the largest. *)
Fixpoint max_by_size (best : FileInfo) (l : list FileInfo) : FileInfo :=
  match l with
  | [] => best
  | f :: l => max_by_size (if size best <? size f then f else best) l
  end.
Definition get_largest_video_file (p : Processor) : option FileInfo :=
  match get_video_files p with f :: l => Some (max_by_size f l) | [] => None end.

Definition find_file_by_name (name : string) (p : Processor) : option FileInfo :=
  List.find (fun f => String.eqb (filename f) name) (file_infos p).

(** Not [None] and not zero. *)
Definition truthy_int (z : option Z) : bool := match z with Some z => negb (z =? 0) | None => false end.

Section Selection.
Context (parse_title : string -> ptt_result) (parse_date : string -> option string)
  (get_series_data_by_id : string -> option SeriesMetadata).

(** ** Season and episode of a file *)

(** The date to look for: the parser's, else the one in the file name. *)
Definition date_of (name : string) (parsed : ptt_result) : outcome selection_exn (option string) :=
  match ptt_date parsed with
  | Some (String _ _ as day) => Ret (Some day)
  | other =>
      match search DATE_STR_REGEX name with
      | Some (_, c, _) =>
          match parse_date (group 0 c) with
          | Some day => Ret (Some day)
          | None => Raise (PythonError AttributeError)
          end
      | None => Ret other
      end
  end.

(** The first episode of that day. *)
Definition find_by_date (day : string) (l : list Season) : option (Z * Z) :=
  head (flat_map (fun s => omap (fun e =>
    if bool_decide (get_episode_date e = Some day) then Some (season_number s, episode_number e) else None)
    (season_episodes s)) l).

Definition lift {A} (o : outcome py_exn A) : outcome selection_exn A :=
  match o with Ret x => Ret x | Raise e => Raise (PythonError e) end.

(** [_parse_season_episode_info], the same text in both processors; the
    processor only changes by loading the metadata. *)
Definition parse_season_episode_info (f : FileInfo) (title mid : string) (default_season : option Z) (p : Processor) :
    outcome selection_exn (option Z * option Z) * Processor :=
  let parsed := parse_title (filename f) in
  match ptt_seasons parsed, ptt_episodes parsed with
  | s :: _, e :: _ => (Ret (Some s, Some e), p)
  | [], e :: _ => (Ret (default_season, Some e), p)
  | _, [] =>
      let title_parsed := parse_title title in
      match ptt_seasons title_parsed, ptt_episodes title_parsed with
      | [s], [e] => (Ret (Some s, Some e), p)
      | _, _ =>
          match date_of (filename f) parsed with
          | Raise e => (Raise e, p)
          | Ret (Some (String _ _ as day)) =>
              let p := match metadata p with
                       | Some _ => p
                       | None => mkProcessor (file_infos p) (episodes p) (get_series_data_by_id mid)
                       end in
              match find_by_date day (get_metadata_seasons (metadata p)) with
              | Some (s, e) => (Ret (Some s, Some e), p)
              | None => (Ret (None, None), p)
              end
          | Ret _ => (lift (fallback_parse_season_episode (filename f) default_season), p)
          end
      end
  end.

(** The loop of [find_specific_episode]. *)
Fixpoint find_parsed (l : list FileInfo) (season episode : Z) (title mid : string) (p : Processor) :
    outcome selection_exn (option FileInfo) * Processor :=
  match l with
  | [] => (Ret None, p)
  | f :: l =>
      match parse_season_episode_info f title mid (Some season) p with
      | (Raise e, p) => (Raise e, p)
      | (Ret (s, e), p) =>
          if bool_decide (s = Some season) && bool_decide (e = Some episode) then (Ret (Some f), p)
          else find_parsed l season episode title mid p
      end
  end.

(** The lookup in the cached episodes. *)
Definition find_cached (season episode : Z) (p : Processor) : option FileInfo :=
  match List.find (fun e => bool_decide (sf_season e = Some season) && bool_decide (sf_episode e = Some episode)
                            && (sf_index e <? length (file_infos p))%nat) (default [] (episodes p)) with
  | Some e => file_infos p !! sf_index e
  | None => None
  end.

(** [TorrentFileProcessor.find_specific_episode] *)
Definition find_specific_episode (season episode : Z) (title mid : string) (p : Processor) :
    outcome selection_exn (option FileInfo) * Processor :=
  match find_cached season episode p with
  | Some f => (Ret (Some f), p)
  | None =>
      let video_files := get_video_files p in
      match find_parsed video_files season episode title mid p with
      | (Ret None, p) => (Ret (head video_files), p)
      | r => r
      end
  end.

(** [UsenetFileProcessor.find_specific_episode] *)
Definition find_specific_episode_usenet (season episode : Z) (title mid : string) (p : Processor) :
    outcome selection_exn (option FileInfo) * Processor :=
  let video_files := get_video_files p in
  match find_parsed video_files season episode title mid p with
  | (Ret None, p) => (Ret (match video_files with [f] => Some f | _ => None end), p)
  | r => r
  end.

Fixpoint parse_episodes (l : list FileInfo) (title mid : string) (default_season : option Z) (p : Processor) :
    outcome selection_exn (list StreamFileData) * Processor :=
  match l with
  | [] => (Ret [], p)
  | f :: l =>
      match parse_season_episode_info f title mid default_season p with
      | (Raise e, p) => (Raise e, p)
      | (Ret (s, e), p) =>
          let '(rest, p) := parse_episodes l title mid default_season p in
          (rest ← rest;
           Ret (if truthy_int s && truthy_int e
                then mkStreamFile (index f) (filename f) (size f) "video" s e :: rest else rest), p)
      end
  end.

Definition parse_all_episodes (title mid : string) (default_season : option Z) (p : Processor) :
    outcome selection_exn (list StreamFileData) * Processor :=
  match parse_episodes (get_video_files p) title mid default_season p with
  | (Ret l, p) => (Ret l, mkProcessor (file_infos p) (Some l) (metadata p))
  | (Raise e, p) => (Raise e, p)
  end.

(** ** The metadata update of a torrent stream *)

(** What is stored: the blocked flag, the total size and, when there are any,
    the files. *)
Record saved_update := mkSaved { s_hash : string; s_blocked : bool; s_total_size : Z; s_files : list StreamFileData }.

Record World := mkWorld { stream : TorrentStream; saved : list saved_update; annotations : list string }.

Definition set_blocked (s : TorrentStream) : TorrentStream :=
  mkStream (info_hash s) (stream_name s) (meta_id s) true (stream_size s) (files s).
Definition set_files (l : list StreamFileData) (s : TorrentStream) : TorrentStream :=
  mkStream (info_hash s) (stream_name s) (meta_id s) (is_blocked s) (stream_size s) l.
Definition set_size (z : Z) (s : TorrentStream) : TorrentStream :=
  mkStream (info_hash s) (stream_name s) (meta_id s) (is_blocked s) z (files s).
Definition with_stream (s : TorrentStream) (w : World) : World := mkWorld s (saved w) (annotations w).

Context (persists : saved_update -> bool) (annotation_lock_free : bool).

Definition snapshot (s : TorrentStream) : saved_update := mkSaved (info_hash s) (is_blocked s) (stream_size s) (files s).

Definition save_torrent_stream (w : World) : outcome selection_exn World :=
  if persists (snapshot (stream w))
  then Ret (mkWorld (stream w) (snapshot (stream w) :: saved w) (annotations w))
  else Raise PersistError.

Definition stream_file_of (f : FileInfo) (file_type : string) : StreamFileData :=
  mkStreamFile (index f) (filename f) (size f) file_type None None.

(** [_request_annotation] *)
Definition request_annotation (infos : list FileInfo) (w : World) : outcome selection_exn World * World :=
  let w := with_stream (set_files (map (fun f =>
             stream_file_of f (if is_video_file (filename f) then "video" else "other")) infos) (stream w)) w in
  match save_torrent_stream w with
  | Ret w => (Ret (mkWorld (stream w) (saved w) (info_hash (stream w) :: annotations w)), w)
  | Raise e => (Raise e, w)
  end.

(** Saving inside the [try]: the in-memory stream keeps its changes when the
    save fails. *)
Definition saved_or (w : World) (result : bool) : bool * World :=
  match save_torrent_stream w with Ret w => (result, w) | Raise _ => (false, w) end.

Definition sum_sizes (l : list FileInfo) : Z := foldr (fun f n => size f + n) 0 l.

(** The stream after a successful parse of a series. *)
Definition series_stream (eps : list StreamFileData) (p : Processor) (s : TorrentStream) : TorrentStream :=
  let s := set_files eps s in
  let total := sum_sizes (get_video_files p) in
  if stream_size s <? total then set_size total s else s.

(** The existing file of a single-file stream, with the parsed name and size. *)
Definition refresh_file (f : FileInfo) (is_index_trustable : bool) (old : StreamFileData) : StreamFileData :=
  mkStreamFile (if is_index_trustable then index f else sf_index old) (filename f) (size f) (sf_type old)
    (sf_season old) (sf_episode old).

Definition update_torrent_streams_metadata (season : option Z) (is_index_trustable : bool) (p : Processor) (w : World) :
    bool * Processor * World :=
  if negb annotation_lock_free then (false, p, w)
  else
    match season with
    | None =>
        match get_largest_video_file p with
        | None => let '(b, w) := saved_or (with_stream (set_blocked (stream w)) w) false in (b, p, w)
        | Some f =>
            let file := mkStreamFile (if is_index_trustable then index f else 0%nat) (filename f) (size f) "video" None None in
            let '(b, w) := saved_or (with_stream (set_size (size f) (set_files [file] (stream w))) w) true in (b, p, w)
        end
    | Some _ =>
        match get_video_files p with
        | [] => let '(b, w) := saved_or (with_stream (set_blocked (stream w)) w) false in (b, p, w)
        | videos =>
            match parse_all_episodes (stream_name (stream w)) (meta_id (stream w)) season p with
            | (Raise _, p) => (false, p, w)
            | (Ret [], p) =>
                match videos, files (stream w) with
                | [f], [old] =>
                    let '(b, w) := saved_or (with_stream (series_stream [refresh_file f is_index_trustable old] p (stream w)) w) true in
                    (b, p, w)
                | _, _ =>
                    match request_annotation (file_infos p) w with
                    | (Ret w, _) => (false, p, w)
                    | (Raise _, w) => (false, p, w)
                    end
                end
            | (Ret eps, p) =>
                let '(b, w) := saved_or (with_stream (series_stream eps p (stream w)) w) true in (b, p, w)
            end
        end
    end.

(** ** Selection *)

Fixpoint find_basename (name : string) (idx : nat) (l : list provider_file) : option nat :=
  match l with
  | [] => None
  | f :: l => if String.eqb (basename (file_name f)) name then Some idx else find_basename name (S idx) l
  end.

(** The quick match on a requested, non-empty file name. *)
Definition quick_match (name : option string) (l : list provider_file) : option nat :=
  match name with
  | Some name => if str_empty name then None else find_basename name 0 l
  | None => None
  end.

Definition no_video_blocked : selection_exn :=
  ProviderException "No valid video files found in torrent. Torrent has been blocked." "no_matching_file.mp4".
Definition no_video : selection_exn := ProviderException "No valid video files found in torrent" "no_matching_file.mp4".
Definition episode_not_found : selection_exn :=
  ProviderException "Found video files but couldn't match season/episode. Annotation has been requested." "episode_not_found.mp4".
Definition no_valid_video : selection_exn :=
  ProviderException "No valid video file found in torrent" "no_matching_file.mp4".

(** The last part of the selection, on a processor with video files. *)
Definition select_video (season episode : option Z) (title mid : string) (p : Processor) : outcome selection_exn nat :=
  match season, episode with
  | Some s, Some e =>
      if truthy_int season && truthy_int episode then
        f ← (find_specific_episode s e title mid p).1;
        match f with Some f => Ret (index f) | None => Raise episode_not_found end
      else match get_largest_video_file p with Some f => Ret (index f) | None => Raise no_valid_video end
  | _, _ => match get_largest_video_file p with Some f => Ret (index f) | None => Raise no_valid_video end
  end.

Definition select_file_index_from_torrent (l : list provider_file) (name : option string) (season episode : option Z)
    (file_size_callback : option (list provider_file -> list provider_file))
    (is_filename_trustable is_index_trustable : bool) (w : World) : outcome selection_exn nat * World :=
  match quick_match name l with
  | Some idx => (Ret idx, w)
  | None =>
      let l := match file_size_callback with Some f => f l | None => l end in
      match new_processor l with
      | Raise e => (Raise e, w)
      | Ret p =>
          match get_video_files p with
          | [] =>
              if is_filename_trustable then
                let w := with_stream (set_blocked (stream w)) w in
                match save_torrent_stream w with
                | Ret w => (Raise no_video_blocked, w)
                | Raise e => (Raise e, w)
                end
              else (Raise no_video, w)
          | _ =>
              let '(p, w) := if is_filename_trustable
                             then let '(_, p, w) := update_torrent_streams_metadata season is_index_trustable p w in (p, w)
                             else (p, w) in
              (select_video season episode (stream_name (stream w)) (meta_id (stream w)) p, w)
          end
      end
  end.

Definition no_usenet_files : selection_exn := ProviderException "No files found in Usenet download" "no_matching_file.mp4".
Definition no_usenet_video : selection_exn :=
  ProviderException "No valid video files found in Usenet download" "no_matching_file.mp4".
Definition no_valid_usenet_video : selection_exn :=
  ProviderException "No valid video file found in Usenet download" "no_matching_file.mp4".

Definition largest_or_none (p : Processor) : outcome selection_exn nat :=
  match get_largest_video_file p with Some f => Ret (index f) | None => Raise no_valid_usenet_video end.

Definition select_file_index_from_usenet_stream (l : list provider_file) (title mid : string) (name : option string)
    (season episode : option Z) : outcome selection_exn nat :=
  match l with
  | [] => Raise no_usenet_files
  | _ =>
      match quick_match name l with
      | Some idx => Ret idx
      | None =>
          p ← new_processor l;
          match get_video_files p with
          | [] => Raise no_usenet_video
          | _ =>
              match season, episode with
              | Some s, Some e =>
                  if truthy_int season && truthy_int episode then
                    f ← (find_specific_episode_usenet s e title mid p).1;
                    match f with Some f => Ret (index f) | None => largest_or_none p end
                  else largest_or_none p
              | _, _ => largest_or_none p
              end
          end
      end
  end.

(** ** Lemmas: the processor *)

(** Each info describes the file at its index, and is a video. *)
Definition describes (k : nat) (l : list provider_file) (f : FileInfo) : Prop :=
  exists pf, l !! (index f - k)%nat = Some pf /\ (k <= index f)%nat /\ filename f = basename (file_name pf) /\
    is_video f = true /\ is_video_file (filename f) = true.

Lemma process_files_describes l : forall k infos,
  process_files k l = Ret infos -> Forall (describes k l) infos.
Proof.
  induction l as [|pf l IH]; intros k infos; simpl; [by intros [= <-]|].
  destruct (from_torrent_file k pf) as [info|] eqn:E; [|done]. cbn [mbind outcome_bind].
  destruct (process_files (S k) l) as [rest|] eqn:Er; [|done]. cbn [mbind outcome_bind].
  assert (Forall (describes k (pf :: l)) rest) as Hrest.
  { eapply Forall_impl; [by apply IH|]. intros f (pf' & Hl & Hk & Hf). exists pf'. split_and!; try lia; try apply Hf.
    by replace (index f - k)%nat with (S (index f - S k)) by lia. }
  intros [= <-]. destruct (is_video info) eqn:Ev; [|done]. constructor; [|done].
  unfold from_torrent_file in E. destruct (file_size pf); [|done]. injection E as <-. cbn in Ev.
  exists pf. cbn. by rewrite Nat.sub_diag.
Qed.

Lemma process_files_videos k l infos : process_files k l = Ret infos -> List.filter is_video infos = infos.
Proof.
  intros H. apply process_files_describes in H.
  induction H as [|f infos (pf & _ & _ & _ & Hv & _) _ IH]; [done|]. cbn. by rewrite Hv, IH.
Qed.

Lemma new_processor_infos l p : new_processor l = Ret p ->
  process_files 0 l = Ret (file_infos p) /\ get_video_files p = file_infos p /\ episodes p = None /\ metadata p = None.
Proof.
  unfold new_processor. destruct (process_files 0 l) as [infos|] eqn:E; [|done]. intros [= <-].
  split_and!; try done. unfold get_video_files. cbn. by eapply process_files_videos.
Qed.

(** It is the first of the largest: those before it are smaller. *)
Lemma max_by_size_first l : forall best, exists pre post, best :: l = (pre ++ max_by_size best l :: post)%list /\
  Forall (fun f => size f < size (max_by_size best l)) pre /\ Forall (fun f => size f <= size (max_by_size best l)) post.
Proof.
  induction l as [|f l IH]; intros best; cbn [max_by_size]; [by exists [], []|].
  destruct (IH (if size best <? size f then f else best)) as (pre & post & E & Hpre & Hpost).
  destruct (size best <? size f) eqn:El; zbool.
  - exists (best :: pre), post. rewrite E. split_and!; try done. constructor; [|done].
    destruct pre as [|g pre]; injection E as E' _; [by rewrite <- E'|]. inversion Hpre as [|? ? Hg]; subst. lia.
  - destruct pre as [|g pre']; injection E as E' E2.
    + exists [], (f :: post). rewrite <- E', E2. split_and!; try done. rewrite <- E' in Hpost. constructor; [lia|done].
    + apply Forall_cons in Hpre as [Hg Hr]. rewrite <- E' in Hg. exists (best :: f :: pre'), post. split; [cbn; by rewrite <- E2|]. split; [|done].
      constructor; [lia|]. by constructor; [lia|].
Qed.

Lemma max_by_size_spec l best :
  max_by_size best l ∈ best :: l /\ Forall (fun f => size f <= size (max_by_size best l)) (best :: l).
Proof.
  destruct (max_by_size_first l best) as (pre & post & E & Hpre & Hpost). rewrite E. split; [set_solver|].
  apply Forall_app. split; [|by constructor]. eapply Forall_impl; [exact Hpre|]. intros f ?. cbn beta in *. lia.
Qed.

Lemma largest_elem p f : get_largest_video_file p = Some f -> f ∈ get_video_files p.
Proof.
  unfold get_largest_video_file. destruct (get_video_files p) as [|g l]; [done|]. intros [= <-].
  apply max_by_size_spec.
Qed.

Lemma largest_some p : get_video_files p <> [] -> exists f, get_largest_video_file p = Some f.
Proof. unfold get_largest_video_file. destruct (get_video_files p); [done|eauto]. Qed.

(** ** Lemmas: parsing only loads the metadata *)

Definition metadata_of (mid : string) (p p' : Processor) : Prop :=
  file_infos p' = file_infos p /\ episodes p' = episodes p /\
  (metadata p' = metadata p \/ metadata p = None /\ metadata p' = get_series_data_by_id mid).

Lemma metadata_of_refl mid p : metadata_of mid p p.
Proof. split_and!; auto. Qed.

Lemma metadata_of_trans mid p1 p2 p3 : metadata_of mid p1 p2 -> metadata_of mid p2 p3 -> metadata_of mid p1 p3.
Proof.
  intros (H1 & H2 & H3) (H4 & H5 & H6). split_and!; [congruence..|].
  destruct H3 as [H3|[H3 H3']], H6 as [H6|[H6 H6']]; rewrite ?H6, ?H6'; intuition congruence.
Qed.

Lemma parse_info_metadata f title mid ds p : metadata_of mid p (parse_season_episode_info f title mid ds p).2.
Proof.
  unfold parse_season_episode_info.
  destruct (ptt_seasons (parse_title (filename f))), (ptt_episodes (parse_title (filename f))); try apply metadata_of_refl;
    (destruct (ptt_seasons (parse_title title)) as [|? [|]], (ptt_episodes (parse_title title)) as [|? [|]];
     try apply metadata_of_refl; (destruct (date_of _ _) as [[[|a w]|]|]; try apply metadata_of_refl;
     destruct (metadata p) eqn:Em; destruct (find_by_date _ _) as [[]|]; try apply metadata_of_refl; split_and!; auto)).
Qed.

(** A processor whose metadata is not loaded, or is that of the series. *)
Definition fresh_metadata (mid : string) (p : Processor) : Prop :=
  metadata p = None \/ metadata p = get_series_data_by_id mid.

Lemma fresh_after mid p p' : fresh_metadata mid p -> metadata_of mid p p' -> fresh_metadata mid p'.
Proof. intros [H|H] (_ & _ & [Hm|[_ Hm]]); unfold fresh_metadata; rewrite Hm, ?H; auto. Qed.

(** The result does not depend on whether the metadata is loaded. *)
Lemma parse_info_result f title mid ds p p' :
  fresh_metadata mid p -> fresh_metadata mid p' ->
  (parse_season_episode_info f title mid ds p').1 = (parse_season_episode_info f title mid ds p).1.
Proof.
  intros Hp Hp'. unfold parse_season_episode_info.
  assert (forall p, fresh_metadata mid p ->
    metadata (match metadata p with Some _ => p | None => mkProcessor (file_infos p) (episodes p) (get_series_data_by_id mid) end) =
    get_series_data_by_id mid) as Hload by (intros q [Hq|Hq]; destruct (metadata q) eqn:Eq; cbn; congruence).
  destruct (ptt_seasons (parse_title (filename f))), (ptt_episodes (parse_title (filename f))); try done;
    (destruct (ptt_seasons (parse_title title)) as [|? [|]], (ptt_episodes (parse_title title)) as [|? [|]]; try done;
     (destruct (date_of _ _) as [[[|a w]|]|]; try done; rewrite (Hload p Hp), (Hload p' Hp');
      by destruct (find_by_date _ _) as [[]|])).
Qed.

(** What a video's name, with the stream's title, parses to on a fresh processor. *)
Definition parsed (title mid : string) (ds : option Z) (f : FileInfo) : outcome selection_exn (option Z * option Z) :=
  (parse_season_episode_info f title mid ds (mkProcessor [] None None)).1.

Definition is_episode (title mid : string) (s e : Z) (f : FileInfo) : bool :=
  match parsed title mid (Some s) f with
  | Ret (s', e') => bool_decide (s' = Some s) && bool_decide (e' = Some e)
  | Raise _ => false
  end.

Lemma parse_info_parsed f title mid ds p :
  fresh_metadata mid p -> (parse_season_episode_info f title mid ds p).1 = parsed title mid ds f.
Proof. intros Hp. unfold parsed. apply parse_info_result; [by left|done]. Qed.

(** ** Lemmas: finding and updating *)

Lemma find_parsed_elem l s e title mid : forall p f,
  (find_parsed l s e title mid p).1 = Ret (Some f) -> f ∈ l.
Proof.
  induction l as [|g l IH]; intros p f; cbn [find_parsed]; [done|].
  destruct (parse_season_episode_info g title mid (Some s) p) as [[[s' e']|] p'] eqn:E; [|done].
  destruct (_ && _); [intros [= <-]; set_solver|]. intros H. apply IH in H. set_solver.
Qed.

Lemma find_parsed_spec l s e title mid : forall p,
  fresh_metadata mid p -> Forall (fun f => is_ret (parsed title mid (Some s) f) = true) l ->
  (find_parsed l s e title mid p).1 = Ret (List.find (is_episode title mid s e) l).
Proof.
  induction l as [|f l IH]; intros p Hp Hl; cbn [find_parsed List.find]; [done|].
  inversion Hl as [|? ? Hf Hl']; subst. unfold is_episode at 1.
  pose proof (parse_info_parsed f title mid (Some s) p Hp) as Hpar.
  pose proof (parse_info_metadata f title mid (Some s) p) as Hmd.
  destruct (parse_season_episode_info f title mid (Some s) p) as [o p']. cbn [fst snd] in *. rewrite <- Hpar in *.
  destruct o as [[s' e']|]; [|done]. destruct (_ && _); [done|]. apply IH; [by eapply fresh_after|done].
Qed.

(** Only Python's own errors come out of parsing. *)
Definition python_error (o : selection_exn) : Prop := exists e, o = PythonError e.

Lemma parse_info_errors f title mid ds p e :
  (parse_season_episode_info f title mid ds p).1 = Raise e -> python_error e.
Proof.
  assert (forall A (o : outcome py_exn A) e', lift o = Raise e' -> python_error e') as Hlift.
  { intros A [] e'; [done|]. intros [= <-]. by eexists. }
  unfold parse_season_episode_info, date_of.
  destruct (ptt_seasons (parse_title (filename f))), (ptt_episodes (parse_title (filename f))); try done;
    (destruct (ptt_seasons (parse_title title)) as [|? [|]], (ptt_episodes (parse_title title)) as [|? [|]]; try done;
     destruct (ptt_date (parse_title (filename f))) as [[|a w]|];
     try (destruct (search DATE_STR_REGEX (filename f)) as [[[? c] ?]|]; [destruct (parse_date (group 0 c)) as [[|]|]|]);
     try (by apply Hlift); try (by intros [= <-]; eexists); destruct (find_by_date _ _) as [[]|]; done).
Qed.

Lemma find_parsed_errors l s e title mid : forall p x,
  (find_parsed l s e title mid p).1 = Raise x -> python_error x.
Proof.
  induction l as [|g l IH]; intros p x; cbn [find_parsed]; [done|].
  pose proof (parse_info_errors g title mid (Some s) p) as Hpe.
  destruct (parse_season_episode_info g title mid (Some s) p) as [[[s' e']|] p']; [|intros [= <-]; by apply Hpe].
  destruct (_ && _); [done|]. apply IH.
Qed.

Lemma parse_episodes_infos l title mid ds : forall p, metadata_of mid p (parse_episodes l title mid ds p).2.
Proof.
  induction l as [|f l IH]; intros p; cbn [parse_episodes]; [apply metadata_of_refl|].
  pose proof (parse_info_metadata f title mid ds p) as Hm.
  destruct (parse_season_episode_info f title mid ds p) as [[[s' e']|] p']; [|done].
  specialize (IH p'). destruct (parse_episodes l title mid ds p'). by eapply metadata_of_trans.
Qed.

Lemma parse_all_infos title mid ds p : file_infos (parse_all_episodes title mid ds p).2 = file_infos p.
Proof.
  unfold parse_all_episodes. pose proof (parse_episodes_infos (get_video_files p) title mid ds p) as (H & _).
  by destruct (parse_episodes _ _ _ _ _) as [[]].
Qed.

Lemma saved_or_stream w b : stream (saved_or w b).2 = stream w.
Proof. unfold saved_or, save_torrent_stream. by destruct (persists _). Qed.

(** The update keeps the file infos, and a stream with a video is not blocked. *)
Lemma update_keeps season trust p w b p' w' :
  update_torrent_streams_metadata season trust p w = (b, p', w') ->
  file_infos p' = file_infos p /\ stream_name (stream w') = stream_name (stream w) /\
  meta_id (stream w') = meta_id (stream w) /\
  (get_video_files p <> [] -> is_blocked (stream w') = is_blocked (stream w)).
Proof.
  assert (forall w1 b1 b2 w2 (q : Processor), stream_name (stream w1) = stream_name (stream w) ->
    meta_id (stream w1) = meta_id (stream w) -> file_infos q = file_infos p ->
    (get_video_files p <> [] -> is_blocked (stream w1) = is_blocked (stream w)) ->
    (let '(b, w) := saved_or w1 b1 in (b, q, w)) = (b2, p', w2) ->
    file_infos p' = file_infos p /\ stream_name (stream w2) = stream_name (stream w) /\
    meta_id (stream w2) = meta_id (stream w) /\ (get_video_files p <> [] -> is_blocked (stream w2) = is_blocked (stream w))) as Hsave.
  { intros w1 b1 b2 w2 q H1 H2 H3 H4 H. pose proof (saved_or_stream w1 b1) as Hs.
    destruct (saved_or w1 b1) as [b' w1']. injection H as <- <- <-. cbn in Hs. rewrite Hs. done. }
  assert (forall eps q s, stream_name (series_stream eps q s) = stream_name s /\ meta_id (series_stream eps q s) = meta_id s /\
    is_blocked (series_stream eps q s) = is_blocked s) as Hser.
  { intros eps q s. unfold series_stream. by destruct (_ <? _). }
  unfold update_torrent_streams_metadata. destruct annotation_lock_free; cbn [negb]; [|by intros [= <- <- <-]].
  destruct season as [s|].
  - destruct (get_video_files p) as [|f l] eqn:Ev; [by apply Hsave|].
    pose proof (parse_all_infos (stream_name (stream w)) (meta_id (stream w)) (Some s) p) as Hi.
    destruct (parse_all_episodes _ _ _ _) as [[[|e0 eps]|] q]; cbn [snd] in Hi; [|apply Hsave; try done; try intros _; cbn; apply Hser|by intros [= <- <- <-]].
    assert (forall r : bool * Processor * World,
      r = match request_annotation (file_infos q) w with (Ret w, _) => (false, q, w) | (Raise _, w) => (false, q, w) end ->
      r = (b, p', w') -> file_infos p' = file_infos p /\ stream_name (stream w') = stream_name (stream w) /\
      meta_id (stream w') = meta_id (stream w) /\ (f :: l <> [] -> is_blocked (stream w') = is_blocked (stream w))) as Hreq.
    { intros r -> H. unfold request_annotation, save_torrent_stream in H. cbn in H. destruct (persists _); injection H as <- <- <-; done. }
    destruct l as [|g l]; [destruct (files (stream w)) as [|old [|]]|]; try (intros H; by eapply Hreq).
    apply Hsave; try done; try intros _; cbn; apply Hser.
  - unfold get_largest_video_file. destruct (get_video_files p) as [|f l]; apply Hsave; done.
Qed.

(** ** What the selection returns *)

Lemma find_basename_spec name l : forall k idx,
  find_basename name k l = Some idx ->
  exists pf, l !! (idx - k)%nat = Some pf /\ (k <= idx)%nat /\ basename (file_name pf) = name.
Proof.
  induction l as [|pf l IH]; intros k idx; cbn [find_basename]; [done|].
  destruct (String.eqb _ _) eqn:E.
  - intros [= <-]. exists pf. rewrite Nat.sub_diag. apply String.eqb_eq in E. done.
  - intros H. apply IH in H as (pf' & Hl & Hk & Hb). exists pf'. split_and!; [|lia|done].
    by replace (idx - k)%nat with (S (idx - S k)) by lia.
Qed.

(** A file that the selection may return for a requested name. *)
Definition acceptable (name : option string) (pf : provider_file) : Prop :=
  (exists n, name = Some n /\ n <> "" /\ basename (file_name pf) = n) \/
  is_video_file (basename (file_name pf)) = true.

Lemma quick_match_acceptable name l idx : quick_match name l = Some idx ->
  exists pf, l !! idx = Some pf /\ acceptable name pf.
Proof.
  unfold quick_match. destruct name as [n|]; [|done]. destruct n as [|a n]; [done|]. cbn [str_empty].
  intros (pf & Hl & _ & Hb)%find_basename_spec. rewrite Nat.sub_0_r in Hl. exists pf. split; [done|]. left. by eexists.
Qed.

Lemma select_video_elem season episode title mid p idx :
  select_video season episode title mid p = Ret idx ->
  exists f, f ∈ file_infos p /\ index f = idx.
Proof.
  assert (forall f, f ∈ get_video_files p -> f ∈ file_infos p) as Hin by (intros f Hf; by apply filter_elem in Hf as [? _]).
  assert (match get_largest_video_file p with Some f => Ret (index f) | None => Raise no_valid_video end = Ret idx ->
    exists f, f ∈ file_infos p /\ index f = idx) as Hlarge.
  { destruct (get_largest_video_file p) as [f|] eqn:E; [|done]. intros [= <-]. eauto using largest_elem. }
  unfold select_video. destruct season as [s|], episode as [e|]; try done.
  destruct (_ && _); [|done]. unfold find_specific_episode.
  destruct (find_cached s e p) as [f|] eqn:Ec.
  - intros [= <-]. exists f. split; [|done]. unfold find_cached in Ec.
    destruct (List.find _ _) as [x|]; [|done]. by eapply list_elem_of_lookup_2.
  - pose proof (find_parsed_elem (get_video_files p) s e title mid p) as Hp.
    destruct (find_parsed _ _ _ _ _ _) as [[[f|]|] p'] eqn:Ef; [| |done].
    + intros [= <-]. exists f. split; [by apply Hin, (Hp f)|done].
    + destruct (get_video_files p) as [|f l]; [done|]. intros [= <-]. exists f. split; [apply Hin; set_solver|done].
Qed.

Lemma largest_or_none_elem p idx : largest_or_none p = Ret idx -> exists f, f ∈ get_video_files p /\ index f = idx.
Proof.
  unfold largest_or_none. destruct (get_largest_video_file p) as [f|] eqn:E; [|done].
  intros [= <-]. eauto using largest_elem.
Qed.

(** An index of the processor's files is acceptable. *)
Lemma infos_acceptable l p f name : new_processor l = Ret p -> f ∈ file_infos p ->
  exists pf, l !! index f = Some pf /\ acceptable name pf.
Proof.
  intros (Hi & _)%new_processor_infos Hf. apply process_files_describes in Hi. rewrite Forall_forall in Hi.
  destruct (Hi f Hf) as (pf & Hl & _ & Hn & _ & Hv). rewrite Nat.sub_0_r in Hl. exists pf. split; [done|].
  right. by rewrite <- Hn.
Qed.

(** The torrent selection returns the index of a file of the list. *)
Lemma selected_index_in_list (l : list provider_file) (name : option string) (season episode : option Z)
    (cb : option (list provider_file -> list provider_file)) (trust itrust : bool) (w : World) (idx : nat) :
  (forall f, cb = Some f -> map file_name (f l) = map file_name l) ->
  (select_file_index_from_torrent l name season episode cb trust itrust w).1 = Ret idx ->
  exists pf, l !! idx = Some pf /\ acceptable name pf.
Proof.
  intros Hcb H.
  unfold select_file_index_from_torrent in H. destruct (quick_match name l) eqn:Eq.
  { injection H as <-. by apply quick_match_acceptable. }
  set (l' := match cb with Some f => f l | None => l end) in H.
  assert (map file_name l' = map file_name l) as Hn by (destruct cb; [by apply Hcb|done]).
  assert (forall p f, new_processor l' = Ret p -> f ∈ file_infos p -> exists pf, l !! index f = Some pf /\ acceptable name pf) as Hfin.
  { intros p f Hp Hf. destruct (infos_acceptable _ _ _ name Hp Hf) as (pf' & Hl' & Ha).
    assert (map file_name l !! index f = Some (file_name pf')) as Hm by (rewrite <- Hn; by apply list_lookup_fmap_Some_2).
    apply list_lookup_fmap_Some in Hm as (pf & Hpf & Hl). exists pf. split; [done|].
    unfold acceptable in *. by rewrite <- Hpf. }
  destruct (new_processor l') as [p|] eqn:Ep; [|done].
  destruct (get_video_files p) as [|g gs].
  + destruct trust; [|done]. cbn in H. by destruct (save_torrent_stream _).
  + destruct trust.
    * destruct (update_torrent_streams_metadata season itrust p w) as [[b p'] w'] eqn:Eu.
      cbn in H. apply select_video_elem in H as (f & Hf & <-).
      apply update_keeps in Eu as (Hi & _). rewrite Hi in Hf. by eapply Hfin.
    * cbn in H. apply select_video_elem in H as (f & Hf & <-). by eapply Hfin.
Qed.

(** [C14] The index either selection returns is one of the provider's list, of a
    file with the requested base name or of a video file, whatever the titles
    parse to, also after a metadata update; the size callback only has to keep
    the names. *)
Theorem selected_index_valid (l : list provider_file) (name : option string) (season episode : option Z)
    (cb : option (list provider_file -> list provider_file)) (trust itrust : bool) (w : World) (title mid : string) (idx : nat) :
  (forall f, cb = Some f -> map file_name (f l) = map file_name l) ->
  (select_file_index_from_torrent l name season episode cb trust itrust w).1 = Ret idx \/
  select_file_index_from_usenet_stream l title mid name season episode = Ret idx ->
  exists pf, l !! idx = Some pf /\ acceptable name pf.
Proof.
  intros Hcb [H|H].
  - by apply (selected_index_in_list l name season episode cb trust itrust w).
  - unfold select_file_index_from_usenet_stream in H. destruct l as [|x l]; [done|].
    destruct (quick_match name (x :: l)) eqn:Eq.
    { injection H as <-. by apply quick_match_acceptable. }
    destruct (new_processor (x :: l)) as [p|] eqn:Ep; [|done]. cbn [mbind outcome_bind] in H.
    assert (exists f, f ∈ get_video_files p /\ index f = idx) as (f & Hf & <-).
    { destruct (get_video_files p) as [|g gs] eqn:Ev; [done|]. rewrite <- Ev in *.
      destruct season as [s|], episode as [e|]; try by apply largest_or_none_elem.
      destruct (_ && _); [|by apply largest_or_none_elem]. unfold find_specific_episode_usenet in H.
      pose proof (find_parsed_elem (get_video_files p) s e title mid p) as Hp.
      destruct (find_parsed _ _ _ _ _ _) as [[[f|]|] p'] eqn:Ef; [| |done].
      - injection H as <-. eauto.
      - cbn [fst mbind outcome_bind] in H.
        assert (forall h, get_video_files p = [h] -> h ∈ get_video_files p) as Hone by (intros h ->; set_solver).
        destruct (get_video_files p) as [|h [|h' t]] eqn:Ev'; [by apply largest_or_none_elem in H|
          injection H as <-; exists h; auto|rewrite <- Ev'; by apply largest_or_none_elem]. }
    eapply infos_acceptable; [done|]. by apply filter_elem in Hf as [? _].
Qed.

(** [C15] Without a metadata update, and when no file has the requested name,
    asking for an episode returns the first video, in the provider's order,
    that parses to this season and episode; when none does, the torrent
    selection returns the first video, whatever their number (the comment at
    this fallback speaks of torrents with one video only), and the usenet
    selection the first of the largest: every video before it is smaller, none
    after it is larger. *)
Theorem requested_episode_selected (l : list provider_file) (name : option string) (s e : Z) (itrust : bool) (w : World)
    (videos : list FileInfo) :
  quick_match name l = None -> process_files 0 l = Ret videos -> videos <> [] -> s <> 0 -> e <> 0 ->
  let title := stream_name (stream w) in
  let mid := meta_id (stream w) in
  Forall (fun f => is_ret (parsed title mid (Some s) f) = true) videos ->
  let torrent := (select_file_index_from_torrent l name (Some s) (Some e) None false itrust w).1 in
  let usenet := select_file_index_from_usenet_stream l title mid name (Some s) (Some e) in
  match List.find (is_episode title mid s e) videos with
  | Some f => torrent = Ret (index f) /\ usenet = Ret (index f)
  | None =>
      torrent = Ret (default 0%nat (index <$> head videos)) /\
      exists pre f post, videos = (pre ++ f :: post)%list /\ Forall (fun g => size g < size f) pre /\
        Forall (fun g => size g <= size f) post /\ usenet = Ret (index f)
  end.
Proof.
  intros Hq Hp Hne Hs He title mid Hpar torrent usenet.
  assert (get_video_files (mkProcessor videos None None) = videos) as Hv by (by eapply process_files_videos).
  assert (truthy_int (Some s) && truthy_int (Some e) = true) as Ht.
  { cbn. destruct (s =? 0) eqn:E1, (e =? 0) eqn:E2; zbool; done. }
  pose proof (find_parsed_spec videos s e title mid (mkProcessor videos None None) ltac:(by left) Hpar) as Hf.
  assert (torrent = Ret (default 0%nat (index <$> match List.find (is_episode title mid s e) videos with
            Some f => Some f | None => head videos end))) as ->.
  { unfold torrent, select_file_index_from_torrent. rewrite Hq. unfold new_processor. rewrite Hp.
    cbn [mbind outcome_bind]. rewrite Hv. destruct videos as [|v vs]; [done|]. cbn [fst].
    unfold select_video. rewrite Ht. unfold find_specific_episode. rewrite Hv. fold title mid.
    change (find_cached s e _) with (@None FileInfo). cbn iota.
    destruct (find_parsed _ _ _ _ _ _) as [o p']. cbn [fst] in Hf. subst o.
    by destruct (List.find _ _). }
  assert (usenet = match List.find (is_episode title mid s e) videos with
            Some f => Ret (index f)
          | None => match videos with v :: vs => Ret (index (max_by_size v vs)) | [] => Raise no_usenet_video end end) as ->.
  { unfold usenet, select_file_index_from_usenet_stream. rewrite Hq. destruct l as [|x l]; [by injection Hp as <-|].
    unfold new_processor. rewrite Hp. cbn [mbind outcome_bind]. rewrite Hv. destruct videos as [|v vs]; [done|].
    rewrite Ht. unfold find_specific_episode_usenet. rewrite Hv.
    destruct (find_parsed _ _ _ _ _ _) as [o p']. cbn [fst] in Hf. subst o.
    destruct (List.find _ _); [done|]. unfold largest_or_none, get_largest_video_file. rewrite Hv. by destruct vs. }
  destruct (List.find _ _); [done|]. split; [done|]. destruct videos as [|v vs]; [done|].
  destruct (max_by_size_first vs v) as (pre & post & E & Hpre & Hpost). by exists pre, (max_by_size v vs), post.
Qed.

(** The selection in a torrent never reports a missing episode: as soon as
    there is a video file, a request for an episode that no file matches falls
    back to the first video, so neither [episode_not_found] nor the last
    exception of the function can be raised. *)
Theorem episode_never_not_found (l : list provider_file) (name : option string) (season episode : option Z)
    (cb : option (list provider_file -> list provider_file)) (trust itrust : bool) (w : World) :
  let o := (select_file_index_from_torrent l name season episode cb trust itrust w).1 in
  o <> Raise episode_not_found /\ o <> Raise no_valid_video.
Proof.
  assert (forall p title mid x, get_video_files p <> [] -> select_video season episode title mid p = Raise x -> python_error x) as Hsel.
  { intros p title mid x Hv. destruct (largest_some p Hv) as [f Hf]. unfold select_video. rewrite Hf.
    destruct season as [s|], episode as [e|]; try done. destruct (_ && _); [|done].
    unfold find_specific_episode. destruct (find_cached s e p); [done|].
    pose proof (find_parsed_errors (get_video_files p) s e title mid p) as He.
    destruct (find_parsed _ _ _ _ _ _) as [[[g|]|y] p']; [done| |intros [= <-]; by apply He].
    by destruct (get_video_files p). }
  assert (forall l p e, process_files l p = Raise e -> python_error e) as Hproc.
  { intros k l'. revert k. induction l' as [|pf l' IH]; intros k x; simpl; [done|]. unfold from_torrent_file.
    destruct (file_size pf); cbn; [|intros [= <-]; by eexists].
    specialize (IH (S k)). destruct (process_files (S k) l'); [done|]. intros [= <-]. by apply IH. }
  assert (forall o : outcome selection_exn nat, (forall x, o = Raise x -> python_error x \/ x = PersistError \/ x = no_video \/
    x = no_video_blocked) -> o <> Raise episode_not_found /\ o <> Raise no_valid_video) as Hgoal.
  { intros o Ho. split; intros ->; destruct (Ho _ eq_refl) as [[? ?]|[?|[?|?]]]; discriminate. }
  apply Hgoal. intros x. unfold select_file_index_from_torrent. destruct (quick_match name l); [done|].
  unfold new_processor. destruct (process_files 0 _) as [infos|y] eqn:Ep; cbn [mbind outcome_bind];
    [|intros [= <-]; left; by eapply Hproc].
  pose proof (process_files_videos _ _ _ Ep) as Hv.
  set (p := mkProcessor infos None None). destruct (get_video_files p) as [|v vs] eqn:Ev.
  { destruct trust; [unfold save_torrent_stream; destruct (persists _)|]; intros [= <-]; auto. }
  destruct trust; [|intros H; left; eapply Hsel; [|exact H]; by rewrite Ev].
  destruct (update_torrent_streams_metadata season itrust p w) as [[b p'] w'] eqn:Eu. intros H. left.
  eapply Hsel; [|exact H]. apply update_keeps in Eu as (Hi & _). unfold get_video_files in *. by rewrite Hi, Ev.
Qed.

(** A torrent is blocked exactly when the provider's list is trusted, no
    file has the requested name and no file of it is a video. *)
Theorem blocked_only_without_video (l : list provider_file) (name : option string) (season episode : option Z)
    (cb : option (list provider_file -> list provider_file)) (trust itrust : bool) (w : World) :
  is_blocked (stream w) = false ->
  let w' := (select_file_index_from_torrent l name season episode cb trust itrust w).2 in
  is_blocked (stream w') = true <->
  trust = true /\ quick_match name l = None /\
  process_files 0 (match cb with Some f => f l | None => l end) = Ret [].
Proof.
  intros Hb w'. unfold w', select_file_index_from_torrent. clear w'.
  destruct (quick_match name l); [cbn; rewrite Hb; naive_solver|].
  unfold new_processor. destruct (process_files 0 _) as [infos|y] eqn:Ep; cbn [mbind outcome_bind];
    [|cbn; rewrite Hb; naive_solver].
  pose proof (process_files_videos _ _ _ Ep) as Hv.
  set (p := mkProcessor infos None None). destruct (get_video_files p) as [|v vs] eqn:Ev.
  - destruct trust; [|cbn; rewrite Hb; naive_solver].
    assert (infos = []) as -> by (rewrite <- Hv; exact Ev).
    unfold save_torrent_stream. destruct (persists _); cbn; naive_solver.
  - assert (infos <> []) as Hne by (intros ->; done).
    destruct trust; [|cbn; rewrite Hb; naive_solver].
    destruct (update_torrent_streams_metadata season itrust p w) as [[b p'] w'] eqn:Eu.
    apply update_keeps in Eu as (_ & _ & _ & Hblk). cbn. rewrite Hblk, Hb by (by rewrite Ev). naive_solver.
Qed.

(** Wrong episode after a metadata update: with a text file before two
    videos of a season, asking for the first episode selects the second video
    when the metadata is updated first (the cached entries carry indexes of
    the whole torrent and are used in the list of videos), and the first one
    when it is not. *)
Theorem trusted_selection_shifted (f0 f1 f2 : provider_file) (z0 z1 z2 : Z) (s e1 e2 : Z) (d1 d2 : option string)
    (itrust : bool) (w : World) :
  annotation_lock_free = true ->
  file_size f0 = Some z0 -> file_size f1 = Some z1 -> file_size f2 = Some z2 ->
  is_video_file (basename (file_name f0)) = false ->
  is_video_file (basename (file_name f1)) = true -> is_video_file (basename (file_name f2)) = true ->
  parse_title (basename (file_name f1)) = mkParsed [s] [e1] d1 ->
  parse_title (basename (file_name f2)) = mkParsed [s] [e2] d2 ->
  s <> 0 -> e1 <> 0 -> e2 <> 0 ->
  (select_file_index_from_torrent [f0; f1; f2] None (Some s) (Some e1) None true itrust w).1 = Ret 2%nat /\
  (select_file_index_from_torrent [f0; f1; f2] None (Some s) (Some e1) None false itrust w).1 = Ret 1%nat.
Proof.
  intros Hlock Hz0 Hz1 Hz2 Hv0 Hv1 Hv2 Hp1 Hp2 Hs He1 He2.
  assert (forall z, z <> 0 -> (z =? 0) = false) as Hnz by (intros z Hz; by apply Z.eqb_neq).
  set (i1 := mkFileInfo 1 (basename (file_name f1)) z1 true).
  set (i2 := mkFileInfo 2 (basename (file_name f2)) z2 true).
  assert (new_processor [f0; f1; f2] = Ret (mkProcessor [i1; i2] None None)) as Hnew.
  { unfold new_processor. cbn. unfold from_torrent_file. rewrite Hz0, Hz1, Hz2, Hv0, Hv1, Hv2. done. }
  assert (forall title mid ds p, parse_season_episode_info i1 title mid ds p = (Ret (Some s, Some e1), p)) as Hi1.
  { intros. unfold parse_season_episode_info. cbn [filename i1]. by rewrite Hp1. }
  assert (forall title mid ds p, parse_season_episode_info i2 title mid ds p = (Ret (Some s, Some e2), p)) as Hi2.
  { intros. unfold parse_season_episode_info. cbn [filename i2]. by rewrite Hp2. }
  assert (truthy_int (Some s) = true /\ truthy_int (Some e1) = true /\ truthy_int (Some e2) = true) as (Ts & Te1 & Te2)
    by (cbn; by rewrite !Hnz).
  unfold select_file_index_from_torrent. cbn [quick_match]. rewrite Hnew. split.
  - assert (exists b w', update_torrent_streams_metadata (Some s) itrust (mkProcessor [i1; i2] None None) w =
      (b, mkProcessor [i1; i2] (Some [mkStreamFile 1 (filename i1) z1 "video" (Some s) (Some e1);
                                      mkStreamFile 2 (filename i2) z2 "video" (Some s) (Some e2)]) None, w')) as (b & w' & ->).
    { unfold update_torrent_streams_metadata. rewrite Hlock. cbn [negb].
      change (get_video_files _) with [i1; i2]. cbn iota. unfold parse_all_episodes.
      change (get_video_files _) with [i1; i2]. cbn [parse_episodes]. rewrite Hi1, Hi2. rewrite Ts, Te1, Te2.
      cbn [andb mbind outcome_bind file_infos metadata]. destruct (saved_or _ _) as [b w']. by exists b, w'. }
    cbn [get_video_files file_infos List.filter is_video fst snd]. unfold select_video. rewrite Ts, Te1. cbn [andb].
    unfold find_specific_episode.
    match goal with |- context [find_cached s e1 ?p] => assert (find_cached s e1 p = Some i2) as -> end; [|done].
    unfold find_cached. cbn [default from_option episodes List.find sf_season sf_episode sf_index file_infos length Datatypes.id]. rewrite (bool_decide_eq_true_2 (Some s = Some s)), (bool_decide_eq_true_2 (Some e1 = Some e1)) by done. done.
  - cbn [get_video_files file_infos List.filter is_video fst snd]. unfold select_video. rewrite Ts, Te1. cbn [andb].
    unfold find_specific_episode. change (find_cached s e1 _) with (@None FileInfo). cbn iota zeta.
    change (get_video_files _) with [i1; i2]. cbn [find_parsed]. rewrite Hi1. by rewrite !bool_decide_eq_true_2.
Qed.
End Selection.

(** ** Instances at concrete inputs *)

Definition ptt_example (name : string) : ptt_result :=
  if contains "E01" name then mkParsed [1] [1] None
  else if contains "E02" name then mkParsed [1] [2] None else mkParsed [] [] None.
Definition world_example : World := mkWorld (mkStream "ab12" "Show S01" "tt1" false 10 []) [] [].
Definition pack_example : list provider_file :=
  [mkFile "Show/readme.txt" (Some 1); mkFile "Show/Show.E01.mkv" (Some 5); mkFile "Show/Show.E02.mkv" (Some 7)].
Definition select_example (l : list provider_file) (e : Z) (trust : bool) : outcome selection_exn nat * World :=
  select_file_index_from_torrent ptt_example (fun _ => None) (fun _ => None) (fun _ => true) true
    l None (Some 1) (Some e) None trust true world_example.

Lemma selected_index_valid_witness :
  exists pf, pack_example !! 1%nat = Some pf /\ acceptable None pf.
Proof.
  apply (selected_index_valid ptt_example (fun _ => None) (fun _ => None) (fun _ => true) true pack_example None
           (Some 1) (Some 1) None false true world_example "Show S01" "tt1" 1%nat); [discriminate|].
  left. vm_compute. reflexivity.
Defined.

(** Two of the videos are the largest. *)
Definition larger_pack : list provider_file := (pack_example ++ [mkFile "Show/Show.E03.mkv" (Some 7)])%list.

Lemma requested_episode_selected_witness :
  let videos := [mkFileInfo 1 "Show.E01.mkv" 5 true; mkFileInfo 2 "Show.E02.mkv" 7 true; mkFileInfo 3 "Show.E03.mkv" 7 true] in
  let usenet e := select_file_index_from_usenet_stream ptt_example (fun _ => None) (fun _ => None) larger_pack "Show S01" "tt1" None (Some 1) (Some e) in
  ((select_example larger_pack 2 false).1 = Ret 2%nat /\ usenet 2 = Ret 2%nat) /\
  (select_example larger_pack 9 false).1 = Ret 1%nat /\
  exists pre f post, videos = (pre ++ f :: post)%list /\ Forall (fun g => size g < size f) pre /\
    Forall (fun g => size g <= size f) post /\ usenet 9 = Ret (index f).
Proof.
  cbv zeta. pose proof (fun e He => requested_episode_selected ptt_example (fun _ => None) (fun _ => None) (fun _ => true) true
    larger_pack None 1 e true world_example
    [mkFileInfo 1 "Show.E01.mkv" 5 true; mkFileInfo 2 "Show.E02.mkv" 7 true; mkFileInfo 3 "Show.E03.mkv" 7 true]
    eq_refl eq_refl ltac:(discriminate) ltac:(discriminate) He
    ltac:(repeat constructor)) as Hw.
  split; [exact (Hw 2 ltac:(discriminate))|exact (Hw 9 ltac:(discriminate))].
Defined.

Lemma blocked_only_without_video_witness :
  is_blocked (stream (select_example [mkFile "readme.txt" (Some 1)] 1 true).2) = true /\
  is_blocked (stream (select_example pack_example 1 true).2) <> true.
Proof.
  pose proof (fun l => blocked_only_without_video ptt_example (fun _ => None) (fun _ => None) (fun _ => true) true
    l None (Some 1) (Some 1) None true true world_example eq_refl) as Hw.
  split; [apply (Hw [mkFile "readme.txt" (Some 1)]); by split_and!|].
  intros H. apply (Hw pack_example) in H as (_ & _ & H). vm_compute in H. discriminate H.
Defined.

Lemma trusted_selection_shifted_witness :
  (select_example pack_example 1 true).1 = Ret 2%nat /\ (select_example pack_example 1 false).1 = Ret 1%nat.
Proof.
  exact (trusted_selection_shifted ptt_example (fun _ => None) (fun _ => None) (fun _ => true) true
    (mkFile "Show/readme.txt" (Some 1)) (mkFile "Show/Show.E01.mkv" (Some 5)) (mkFile "Show/Show.E02.mkv" (Some 7))
    1 5 7 1 1 2 None None true world_example
    eq_refl eq_refl eq_refl eq_refl eq_refl eq_refl eq_refl eq_refl eq_refl
    ltac:(discriminate) ltac:(discriminate) ltac:(discriminate)).
Defined.
