(* ===== verification/LzString.v ===== *)
(** * The lz-string decoder (utils/lzstring.py)

    The bit reader, the dictionary loop and the decoding of a URI component,
    and a reference encoder of the format, for any choice of dictionary
    matches, that the decoder inverts.  Texts are lists of code points. *)

From S2P Require Export PyStr PyList.
Local Open Scope Z_scope.

Definition URI_SAFE_ALPHABET : string := "ABCDEFGHIJKLMNOPQRSTUVWXYZabcdefghijklmnopqrstuvwxyz0123456789+-$".

(** [_get_base_value]; its table is a cache of this lookup. *)
Definition get_base_value (alphabet : string) (character : ascii) : outcome py_exn Z :=
  match index_of character (String.list_ascii_of_string alphabet) with
  | Some i => Ret (Z.of_nat i)
  | None => Raise KeyError
  end.

Definition get_next_value (s : string) (i : nat) : outcome py_exn Z :=
  match String.get i s with Some c => get_base_value URI_SAFE_ALPHABET c | None => Raise IndexError end.

Definition reset_value : Z := 32.

(** ** The bit reader *)

Record reader := mkReader { data_val : Z; data_position : Z; data_index : nat }.

(** One round of [read_bits]: the masked bit and the reader after it. *)
Definition read_bit (s : string) (r : reader) : outcome py_exn (Z * reader) :=
  let resb := Z.land (data_val r) (data_position r) in
  let position := Z.shiftr (data_position r) 1 in
  if position =? 0 then
    v ← (if (data_index r <? String.length s)%nat then get_next_value s (data_index r) else Ret 0);
    Ret (resb, mkReader v reset_value (S (data_index r)))
  else Ret (resb, mkReader (data_val r) position (data_index r)).

(** [read_bits] with [n] rounds left. *)
Fixpoint read_bits_from (s : string) (n : nat) (power bits : Z) (r : reader) : outcome py_exn (Z * reader) :=
  match n with
  | O => Ret (bits, r)
  | S n =>
      x ← read_bit s r;
      let '(resb, r) := x in
      read_bits_from s n (Z.shiftl power 1) (if 0 <? resb then Z.lor bits power else bits) r
  end.
Definition read_bits (s : string) (bit_count : nat) (r : reader) : outcome py_exn (Z * reader) :=
  read_bits_from s bit_count 1 0 r.

(** ** The decoder *)

Record decoder := mkDecoder { dictionary : gmap Z (list Z); dict_size : Z; enlarge_in : Z; num_bits : nat;
  current : list Z; result : list (list Z); input : reader }.

(** The dictionary growth check, made after each new entry. *)
Definition widen (enlarge : Z) (bits : nat) : Z * nat :=
  if enlarge =? 0 then (Z.shiftl 1 (Z.of_nat bits), S bits) else (enlarge, bits).

(** A literal of [k] bits becomes an entry and the code read. *)
Definition literal (s : string) (k : nat) (st : decoder) : outcome py_exn (Z * decoder) :=
  x ← read_bits s k (input st);
  let '(c, r) := x in
  Ret (dict_size st, mkDecoder (<[dict_size st := [c]]> (dictionary st)) (dict_size st + 1) (enlarge_in st - 1)
                      (num_bits st) (current st) (result st) r).

(** The rest of an iteration, once the code is known; [None] for an invalid
    code. *)
Definition expand (c_code : Z) (st : decoder) : outcome py_exn (option decoder) :=
  let '(enlarge, bits) := widen (enlarge_in st) (num_bits st) in
  let entry :=
    match dictionary st !! c_code with
    | Some e => Ret (Some e)
    | None => if c_code =? dict_size st
              then match current st with [] => Raise IndexError | x :: _ => Ret (Some (current st ++ [x])) end
              else Ret None
    end in
  e ← entry;
  match e with
  | None => Ret None
  | Some [] => Raise IndexError
  | Some ((x :: _) as e) =>
      let '(enlarge, bits) := widen (enlarge - 1) bits in
      Ret (Some (mkDecoder (<[dict_size st := current st ++ [x]]> (dictionary st)) (dict_size st + 1) enlarge bits
                   e (result st ++ [e]) (input st)))
  end.

Inductive progress := Done (text : list Z) | More (st : decoder).

(** One iteration of [while True]. *)
Definition step (s : string) (st : decoder) : outcome py_exn progress :=
  if (String.length s <? data_index (input st))%nat then Ret (Done [])
  else
    x ← read_bits s (num_bits st) (input st);
    let '(c_code, r) := x in
    let st := mkDecoder (dictionary st) (dict_size st) (enlarge_in st) (num_bits st) (current st) (result st) r in
    if c_code =? 2 then Ret (Done (concat (result st)))
    else
      y ← (if c_code =? 0 then literal s 8 st else if c_code =? 1 then literal s 16 st else Ret (c_code, st));
      let '(c_code, st) := y in
      o ← expand c_code st;
      Ret (match o with Some st => More st | None => Done [] end).

(** [None] when the fuel is not enough. *)
Fixpoint run (s : string) (fuel : nat) (st : decoder) : option (outcome py_exn (list Z)) :=
  match fuel with
  | O => None
  | S fuel =>
      match step s st with
      | Raise e => Some (Raise e)
      | Ret (Done text) => Some (Ret text)
      | Ret (More st) => run s fuel st
      end
  end.

Definition initial_decoder (c : Z) (r : reader) : decoder :=
  mkDecoder (<[3 := [c]]> (<[0 := []]> (<[1 := []]> (<[2 := []]> ∅)))) 4 4 3 [c] [[c]] r.

Definition decompress_fuel (s : string) : nat := S (S (2 * String.length s)).

Definition decompress (s : string) : option (outcome py_exn (list Z)) :=
  let start :=
    v ← get_next_value s 0;
    x ← read_bits s 2 (mkReader v reset_value 1);
    let '(next_code, r) := x in
    if next_code =? 0 then y ← read_bits s 8 r; Ret (Some y)
    else if next_code =? 1 then y ← read_bits s 16 r; Ret (Some y)
    else if next_code =? 2 then Ret None
    else Raise ValueError in
  match start with
  | Raise e => Some (Raise e)
  | Ret None => Some (Ret [])
  | Ret (Some (c, r)) => run s (decompress_fuel s) (initial_decoder c r)
  end.

Definition decompress_from_encoded_uri_component (compressed : option string) : option (outcome py_exn (list Z)) :=
  match compressed with
  | None | Some "" => Some (Ret [])
  | Some s =>
      match decompress (str_map (fun c => if Ascii.eqb c " " then "+"%char else c) s) with
      | Some (Raise _) => Some (Raise ValueError)
      | o => o
      end
  end%string.

(** ** The reader consumes one bit per round *)

(** [c] bits consumed. *)
Definition at_bit (c : nat) (r : reader) : Prop :=
  data_index r = S (c / 6) /\ data_position r = 2 ^ (5 - Z.of_nat (c mod 6)).

Lemma at_bit_next c : (c mod 6 < 5)%nat -> (S c / 6 = c / 6 /\ S c mod 6 = S (c mod 6))%nat.
Proof.
  intros H. pose proof (Nat.div_mod_eq c 6). split; symmetry;
    [apply (Nat.div_unique _ _ _ (S (c mod 6)))|apply (Nat.mod_unique _ _ (c / 6))]; lia.
Qed.
Lemma at_bit_wrap c : (c mod 6 = 5)%nat -> (S c / 6 = S (c / 6) /\ S c mod 6 = 0)%nat.
Proof.
  intros H. pose proof (Nat.div_mod_eq c 6). split; symmetry;
    [apply (Nat.div_unique _ _ _ 0)|apply (Nat.mod_unique _ _ (S (c / 6)))]; lia.
Qed.

Lemma shiftr_pow k : 0 < k -> Z.shiftr (2 ^ k) 1 = 2 ^ (k - 1).
Proof.
  intros Hk. rewrite Z.shiftr_div_pow2 by lia. replace k with (Z.succ (k - 1)) at 1 by lia.
  rewrite Z.pow_succ_r by lia. change (2 ^ 1) with 2. rewrite Z.mul_comm. by apply Z.div_mul.
Qed.

Lemma read_bit_at s c r resb r' : at_bit c r -> read_bit s r = Ret (resb, r') -> at_bit (S c) r'.
Proof.
  intros [Hi Hp]. unfold read_bit. rewrite Hp. pose proof (Nat.mod_upper_bound c 6 ltac:(lia)).
  destruct (decide (c mod 6 = 5)%nat) as [E|E].
  - rewrite E. change (Z.shiftr (2 ^ (5 - Z.of_nat 5)) 1) with 0. cbn [Z.eqb].
    destruct (if (_ <? _)%nat then _ else _); [|done]. intros [= _ <-]. destruct (at_bit_wrap c E) as [H1 H2].
    split; cbn [data_index data_position]; rewrite ?H1, ?H2; [by rewrite Hi|done].
  - destruct (at_bit_next c ltac:(lia)) as [H1 H2]. rewrite shiftr_pow by lia.
    replace (5 - Z.of_nat (c mod 6) - 1) with (5 - Z.of_nat (S (c mod 6))) by lia.
    assert ((2 ^ (5 - Z.of_nat (S (c mod 6))) =? 0) = false) as ->
      by (apply Z.eqb_neq; pose proof (Z.pow_pos_nonneg 2 (5 - Z.of_nat (S (c mod 6)))); lia).
    intros [= _ <-]. split; cbn [data_index data_position]; rewrite ?H1, ?H2; [by rewrite Hi|done].
Qed.

Lemma read_bits_at s n : forall power bits c r x r',
  at_bit c r -> read_bits_from s n power bits r = Ret (x, r') -> at_bit (c + n) r'.
Proof.
  induction n as [|n IH]; intros power bits c r x r' Hc; cbn [read_bits_from].
  - intros [= _ <-]. by rewrite Nat.add_0_r.
  - destruct (read_bit s r) as [[resb r1]|] eqn:E; [|done]. cbn [mbind outcome_bind].
    intros H. rewrite <- Nat.add_succ_comm. eapply IH; [|exact H]. by eapply read_bit_at.
Qed.

(** ** Termination *)

Lemma widen_bits e b : (b <= (widen e b).2)%nat.
Proof. unfold widen. destruct (e =? 0); cbn; lia. Qed.

Lemma expand_keeps code st st' : expand code st = Ret (Some st') ->
  input st' = input st /\ (num_bits st <= num_bits st')%nat.
Proof.
  unfold expand. pose proof (widen_bits (enlarge_in st) (num_bits st)) as H1.
  destruct (widen (enlarge_in st) (num_bits st)) as [en b]. cbn in H1.
  destruct (match dictionary st !! code with Some _ => _ | None => _ end) as [[[|x e]|]|]; try done. cbn.
  pose proof (widen_bits (en - 1) b) as H2. destruct (widen (en - 1) b) as [en' b']. cbn in H2.
  intros [= <-]. cbn. split; [done|lia].
Qed.

Lemma step_consumes s st st' c :
  at_bit c (input st) -> step s st = Ret (More st') ->
  (c < 6 * String.length s)%nat /\ (num_bits st <= num_bits st')%nat /\
  exists c', at_bit c' (input st') /\ (c + num_bits st <= c')%nat.
Proof.
  intros Hc. unfold step. destruct (_ <? _)%nat eqn:E; [done|]. apply Nat.ltb_ge in E.
  assert (c < 6 * String.length s)%nat as Hlt.
  { destruct Hc as [Hi _]. rewrite Hi in E. pose proof (Nat.div_mod_eq c 6).
    pose proof (Nat.mod_upper_bound c 6 ltac:(lia)). lia. }
  destruct (read_bits s (num_bits st) (input st)) as [[code r]|] eqn:Er; [|done]. cbn [mbind outcome_bind].
  apply (read_bits_at _ _ _ _ c) in Er; [|done].
  destruct (code =? 2); [done|].
  set (st1 := mkDecoder _ _ _ _ _ _ r).
  assert (forall k y st2, literal s k st1 = Ret (y, st2) -> at_bit (c + num_bits st + k) (input st2) /\ num_bits st2 = num_bits st) as Hlit.
  { intros k y st2. unfold literal. destruct (read_bits s k (input st1)) as [[x r2]|] eqn:Ek; [|done].
    intros [= _ <-]. cbn. split; [|done]. by eapply read_bits_at. }
  assert (forall y st2, (if code =? 0 then literal s 8 st1 else if code =? 1 then literal s 16 st1 else Ret (code, st1)) = Ret (y, st2) ->
    num_bits st2 = num_bits st /\ exists c', at_bit c' (input st2) /\ (c + num_bits st <= c')%nat) as Hcode.
  { intros y st2. destruct (code =? 0); [|destruct (code =? 1)].
    - intros [? ?]%Hlit. split; [done|]. eexists. split; [done|lia].
    - intros [? ?]%Hlit. split; [done|]. eexists. split; [done|lia].
    - intros [= _ <-]. split; [done|]. eexists. split; [done|lia]. }
  destruct (if code =? 0 then _ else _) as [[y st2]|] eqn:E2; [|done]. cbn [mbind outcome_bind].
  destruct (Hcode _ _ eq_refl) as (Hn & c' & Hc' & Hle).
  destruct (expand y st2) as [[st3|]|] eqn:E3; [|done..]. cbn [mbind outcome_bind]. intros [= <-].
  apply expand_keeps in E3 as [Hin Hnb]. split; [done|]. split; [lia|]. exists c'. by rewrite Hin.
Qed.

Lemma run_enough s : forall fuel st c,
  at_bit c (input st) -> (3 <= num_bits st)%nat -> (6 * String.length s <= c + 3 * fuel)%nat ->
  run s (S fuel) st <> None.
Proof.
  induction fuel as [|fuel IH]; intros st c Hc Hb Hf; cbn [run].
  - destruct (step s st) as [[text|st']|] eqn:E; try done.
    apply step_consumes with (c := c) in E as (Hlt & _); [lia|done].
  - destruct (step s st) as [[text|st']|] eqn:E; try done.
    apply step_consumes with (c := c) in E as (_ & Hn & c' & Hc' & Hle); [|done].
    apply (IH st' c'); [done|lia..].
Qed.

(** The decoder's loop ends on every input, valid or not: two iterations
    per character and two more always suffice. *)
Theorem decompress_terminates (compressed : option string) :
  decompress_from_encoded_uri_component compressed <> None.
Proof.
  assert (forall s, decompress s <> None) as Hd.
  { intros s. unfold decompress. destruct (get_next_value s 0) as [v|]; [|done]. cbn [mbind outcome_bind].
    assert (at_bit 0 (mkReader v reset_value 1)) as H0 by done.
    destruct (read_bits s 2 (mkReader v reset_value 1)) as [[code r]|] eqn:E; [|done]. cbn [mbind outcome_bind].
    apply read_bits_at with (c := 0%nat) in E; [|done].
    assert (forall k x r', read_bits s k r = Ret (x, r') -> run s (decompress_fuel s) (initial_decoder x r') <> None) as Hrun.
    { intros k x r' Hk. apply read_bits_at with (c := 2%nat) in Hk; [|done].
      apply (run_enough s _ _ (2 + k)); [done|cbn; lia|cbn; lia]. }
    destruct (code =? 0); [|destruct (code =? 1); [|by destruct (code =? 2)]].
    - destruct (read_bits s 8 r) as [[x r']|] eqn:Ek; [|done]. cbn. by eapply Hrun.
    - destruct (read_bits s 16 r) as [[x r']|] eqn:Ek; [|done]. cbn. by eapply Hrun. }
  unfold decompress_from_encoded_uri_component. destruct compressed as [[|a s]|]; [done| |done].
  specialize (Hd (str_map (fun c => if Ascii.eqb c " " then "+"%char else c) (String a s))).
  by destruct (decompress _) as [[]|].
Qed.

(** ** A reference encoder

    A text is the literal of its first character and then references to known
    entries or literals, each a code of the current width, low bit first, and
    the end code 2.  [choose] picks the entry, if any, that the rest of the
    text is to begin with; the last known entry is the one the decoder has not
    completed yet. *)

Definition to_bits (n : nat) (x : Z) : list bool := map (fun i => Z.testbit x (Z.of_nat i)) (seq 0 n).

Definition literal_code (c : Z) : Z := if c <? 256 then 0 else 1.
Definition literal_width (c : Z) : nat := if c <? 256 then 8 else 16.

(** The width of a code when [entries] are known: the next code fits. *)
Definition width (entries : list (list Z)) : nat := S (Z.to_nat (Z.log2 (3 + Z.of_nat (length entries)))).

Section Encoder.
Context (choose : list (list Z) -> list Z -> option nat).

Fixpoint encode_from (fuel : nat) (entries : list (list Z)) (w : list Z) (text : list Z) : list bool :=
  match fuel, text with
  | S fuel, c :: rest =>
      let known := entries ++ [w ++ take 1 w] in
      match choose known text with
      | Some i =>
          let e := nth i known [] in
          to_bits (width entries) (3 + Z.of_nat i) ++
          encode_from fuel (entries ++ [w ++ take 1 e]) e (drop (length e) text)
      | None =>
          to_bits (width entries) (literal_code c) ++ to_bits (literal_width c) c ++
          encode_from fuel (entries ++ [[c]; w ++ [c]]) [c] rest
      end
  | _, _ => to_bits (width entries) 2
  end.

Definition encode_bits (text : list Z) : list bool :=
  match text with
  | [] => to_bits 2 2
  | c :: rest =>
      to_bits 2 (literal_code c) ++ to_bits (literal_width c) c ++ encode_from (length rest) [[c]] [c] rest
  end.

(** Six bits to a character, the first one the most significant. *)
Definition sextet (bits : list bool) (q : nat) : Z :=
  foldl (fun v k => 2 * v + Z.b2z (nth (6 * q + k) bits false)) 0 (seq 0 6).
Definition sextet_char (v : Z) : ascii :=
  nth (Z.to_nat v) (String.list_ascii_of_string URI_SAFE_ALPHABET) "A"%char.

Definition compress_to_encoded_uri_component (text : list Z) : string :=
  let bits := encode_bits text in
  String.string_of_list_ascii (map (fun q => sextet_char (sextet bits q)) (seq 0 (S (length bits / 6)))).

End Encoder.

(** The longest entry that the text begins with, the first among equals. *)
Fixpoint is_prefix (e text : list Z) : bool :=
  match e, text with
  | [], _ => true
  | x :: e, y :: text => (x =? y) && is_prefix e text
  | _, [] => false
  end.

Fixpoint choose_longest_from (i : nat) (best : option (nat * nat)) (known : list (list Z)) (text : list Z) : option nat :=
  match known with
  | [] => fst <$> best
  | e :: known =>
      let better := match best with Some (_, n) => (n <? length e)%nat | None => (0 <? length e)%nat end in
      choose_longest_from (S i) (if better && is_prefix e text then Some (i, length e) else best) known text
  end.
Definition choose_longest : list (list Z) -> list Z -> option nat := choose_longest_from 0 None.

(** ** The reader on a stream of bits *)

(** The characters of [s] carry [bits], then zeros. *)
Definition carries (s : string) (bits : list bool) : Prop :=
  (length bits <= 6 * String.length s)%nat /\
  forall q, (q < String.length s)%nat -> exists v, get_next_value s q = Ret v /\
    forall k, (k < 6)%nat -> Z.testbit v (5 - Z.of_nat k) = nth (6 * q + k) bits false.

(** The reader has consumed [c] bits and the rest of its character is in
    [data_val]. *)
Definition on_stream (bits : list bool) (c : nat) (r : reader) : Prop :=
  at_bit c r /\
  forall k, (c mod 6 <= k < 6)%nat -> Z.testbit (data_val r) (5 - Z.of_nat k) = nth (6 * (c / 6) + k) bits false.

Lemma land_pow v j : 0 <= j -> (0 <? Z.land v (2 ^ j)) = Z.testbit v j.
Proof.
  intros Hj. assert (Z.land v (2 ^ j) = if Z.testbit v j then 2 ^ j else 0) as ->.
  { apply Z.bits_inj'. intros i Hi. rewrite Z.land_spec, Z.pow2_bits_eqb by done.
    destruct (Z.eqb_spec j i) as [->|Hn].
    - destruct (Z.testbit v i); [by rewrite Z.pow2_bits_true|by rewrite Z.bits_0].
    - rewrite andb_false_r. destruct (Z.testbit v j); [by rewrite Z.pow2_bits_false by lia|by rewrite Z.bits_0]. }
  destruct (Z.testbit v j); [|done]. apply Z.ltb_lt. by apply Z.pow_pos_nonneg.
Qed.

Lemma read_bit_stream s bits c r : carries s bits -> on_stream bits c r ->
  exists resb r', read_bit s r = Ret (resb, r') /\ (0 <? resb) = nth c bits false /\ on_stream bits (S c) r'.
Proof.
  intros [Hlen Hs] [[Hi Hp] Hv]. pose proof (Nat.mod_upper_bound c 6 ltac:(lia)) as Hm.
  pose proof (Nat.div_mod_eq c 6) as Hd.
  assert ((0 <? Z.land (data_val r) (data_position r)) = nth c bits false) as Hb.
  { rewrite Hp, land_pow by lia. rewrite Hv by lia. by rewrite <- Hd. }
  unfold read_bit. rewrite Hp in *. destruct (decide (c mod 6 = 5)%nat) as [E|E].
  - destruct (at_bit_wrap c E) as [H1 H2]. rewrite E. change (Z.shiftr (2 ^ (5 - Z.of_nat 5)) 1) with 0. cbn [Z.eqb].
    rewrite <- E. destruct (data_index r <? String.length s)%nat eqn:El.
    + apply Nat.ltb_lt in El. destruct (Hs _ El) as (v & -> & Hbits). cbn [mbind outcome_bind].
      do 2 eexists. split; [done|]. split; [done|]. split; [split; cbn [data_index data_position]; rewrite ?H1, ?H2; [by rewrite Hi|done]|].
      rewrite H1, H2. intros k Hk. cbn [data_val]. rewrite Hbits by lia. by rewrite Hi.
    + apply Nat.ltb_ge in El. cbn [mbind outcome_bind].
      do 2 eexists. split; [done|]. split; [done|]. split; [split; cbn [data_index data_position]; rewrite ?H1, ?H2; [by rewrite Hi|done]|].
      rewrite H1, H2. intros k Hk. cbn [data_val]. rewrite Z.bits_0, nth_overflow; [done|]. rewrite <- Hi. lia.
  - destruct (at_bit_next c ltac:(lia)) as [H1 H2]. rewrite shiftr_pow by lia.
    replace (5 - Z.of_nat (c mod 6) - 1) with (5 - Z.of_nat (S (c mod 6))) by lia.
    assert ((2 ^ (5 - Z.of_nat (S (c mod 6))) =? 0) = false) as ->
      by (apply Z.eqb_neq; pose proof (Z.pow_pos_nonneg 2 (5 - Z.of_nat (S (c mod 6)))); lia).
    do 2 eexists. split; [done|]. split; [done|]. split; [split; cbn [data_index data_position]; rewrite ?H1, ?H2; [by rewrite Hi|done]|].
    rewrite H1, H2. intros k Hk. cbn [data_val]. apply Hv. lia.
Qed.

Lemma lor_step acc x j : 0 <= j ->
  Z.lor (if Z.testbit x 0 then Z.lor acc (2 ^ j) else acc) (Z.shiftl (Z.shiftr x 1) (j + 1)) = Z.lor acc (Z.shiftl x j).
Proof.
  intros Hj. apply Z.bits_inj'. intros i Hi. rewrite !Z.lor_spec, !Z.shiftl_spec by lia.
  assert (Z.testbit (if Z.testbit x 0 then Z.lor acc (2 ^ j) else acc) i = Z.testbit acc i || (Z.testbit x 0 && (j =? i))) as ->.
  { destruct (Z.testbit x 0); [by rewrite Z.lor_spec, Z.pow2_bits_eqb|by rewrite orb_false_r]. }
  destruct (Z.eqb_spec j i) as [->|Hn].
  - rewrite Z.sub_diag, andb_true_r, (Z.testbit_neg_r _ (i - (i + 1))) by lia. by rewrite orb_false_r.
  - rewrite andb_false_r, orb_false_r. destruct (decide (i < j)).
    + by rewrite (Z.testbit_neg_r _ (i - (j + 1))), (Z.testbit_neg_r _ (i - j)) by lia.
    + rewrite Z.shiftr_spec by lia. by replace (i - (j + 1) + 1) with (i - j) by lia.
Qed.

Lemma read_bits_stream s bits n : forall j acc x c r,
  carries s bits -> on_stream bits c r -> 0 <= j -> 0 <= x < 2 ^ Z.of_nat n ->
  (forall i, (i < n)%nat -> nth (c + i) bits false = Z.testbit x (Z.of_nat i)) ->
  exists r', read_bits_from s n (2 ^ j) acc r = Ret (Z.lor acc (Z.shiftl x j), r') /\ on_stream bits (c + n) r'.
Proof.
  induction n as [|n IH]; intros j acc x c r Hs Hr Hj Hx Hbits; cbn [read_bits_from].
  - exists r. rewrite Nat.add_0_r. split; [|done]. assert (x = 0) as -> by (cbn in Hx; lia).
    by rewrite Z.shiftl_0_l, Z.lor_0_r.
  - destruct (read_bit_stream s bits c r Hs Hr) as (resb & r1 & -> & Hb & Hr1). cbn [mbind outcome_bind].
    rewrite Hb. pose proof (Hbits 0%nat ltac:(lia)) as H0. rewrite Nat.add_0_r in H0. rewrite H0.
    rewrite Z.shiftl_mul_pow2 by lia. rewrite <- Z.pow_add_r by lia.
    destruct (IH (j + 1) (if Z.testbit x 0 then Z.lor acc (2 ^ j) else acc) (Z.shiftr x 1) (S c) r1) as (r' & Hread & Hr');
      [done|done|lia| | |].
    + rewrite Z.shiftr_div_pow2 by lia. rewrite Nat2Z.inj_succ, Z.pow_succ_r in Hx by lia. change (2 ^ 1) with 2.
      split; [apply Z.div_pos; lia|apply Z.div_lt_upper_bound; lia].
    + intros i Hi. replace (S c + i)%nat with (c + S i)%nat by lia. rewrite Hbits by lia. rewrite Z.shiftr_spec by lia. f_equal. lia.
    + exists r'. rewrite <- Nat.add_succ_comm. split; [|done]. change (Z.of_nat 0) with 0. rewrite Hread. by rewrite lor_step.
Qed.

Lemma to_bits_length n x : length (to_bits n x) = n.
Proof. unfold to_bits. by rewrite length_map, length_seq. Qed.

Lemma to_bits_nth n x i : (i < n)%nat -> nth i (to_bits n x) false = Z.testbit x (Z.of_nat i).
Proof.
  intros Hi. unfold to_bits. rewrite (nth_indep _ false (Z.testbit x (Z.of_nat 0))) by (by rewrite length_map, length_seq).
  rewrite (map_nth (fun i => Z.testbit x (Z.of_nat i))). by rewrite seq_nth by done.
Qed.

(** Reading a code that comes next in the stream. *)
Lemma read_code s bits c r n x tl :
  carries s bits -> on_stream bits c r -> drop c bits = to_bits n x ++ tl -> 0 <= x < 2 ^ Z.of_nat n ->
  exists r', read_bits s n r = Ret (x, r') /\ on_stream bits (c + n) r' /\ drop (c + n) bits = tl.
Proof.
  intros Hs Hr Hd Hx.
  destruct (read_bits_stream s bits n 0 0 x c r Hs Hr) as (r' & Hread & Hr'); [lia|done| |].
  - intros i Hi. rewrite <- nth_skipn. rewrite Hd, app_nth1 by (by rewrite to_bits_length). by apply to_bits_nth.
  - exists r'. split; [unfold read_bits; rewrite Z.lor_0_l, Z.shiftl_0_r in Hread; exact Hread|]. split; [done|].
    rewrite <- drop_drop, Hd. rewrite drop_app_length'; [done|by rewrite to_bits_length].
Qed.

(** ** The decoder follows the encoder *)

(** The width in use leaves room for every code up to the next one. *)
Definition sized (size en : Z) (nb : nat) : Prop := 1 <= en <= size /\ 4 <= size /\ size + en = 2 ^ Z.of_nat nb.

Lemma widen_sized size en nb : sized size en nb -> sized (size + 1) (widen (en - 1) nb).1 (widen (en - 1) nb).2.
Proof.
  intros (He & Hs & Hn). unfold widen. destruct (en - 1 =? 0) eqn:E; zbool; cbn [fst snd].
  - unfold sized. rewrite Z.shiftl_mul_pow2, Z.mul_1_l, Nat2Z.inj_succ, Z.pow_succ_r by lia. lia.
  - unfold sized. lia.
Qed.

Lemma sized_width entries en nb : sized (3 + Z.of_nat (length entries)) en nb -> width entries = nb.
Proof.
  intros (He & Hs & Hn). destruct nb as [|nb]; [cbn in Hn; lia|]. unfold width. f_equal.
  rewrite (Z.log2_unique _ (Z.of_nat nb)); [lia..|]. rewrite Nat2Z.inj_succ in Hn. rewrite Z.pow_succ_r in * by lia. lia.
Qed.

Lemma widen_id en nb : 1 <= en -> widen en nb = (en, nb).
Proof. intros He. unfold widen. by destruct (en =? 0) eqn:E; zbool; [lia|]. Qed.

Lemma widen_literal_sized size en nb : sized size en nb ->
  sized (size + 2) (widen ((widen (en - 1) nb).1 - 1) (widen (en - 1) nb).2).1
                   (widen ((widen (en - 1) nb).1 - 1) (widen (en - 1) nb).2).2.
Proof.
  intros H. replace (size + 2) with (size + 1 + 1) by lia. by apply widen_sized, widen_sized.
Qed.

Record follows (bits : list bool) (entries : list (list Z)) (w : list Z) (en : Z) (nb : nat) (c : nat) (st : decoder) : Prop :=
  mkFollows {
    f_dict : forall i : nat, dictionary st !! (3 + Z.of_nat i) = entries !! i;
    f_size : dict_size st = 3 + Z.of_nat (length entries);
    f_en : enlarge_in st = en;
    f_bits : num_bits st = nb;
    f_current : current st = w;
    f_sized : sized (dict_size st) en nb;
    f_entries : Forall (fun e => e <> []) entries;
    f_w : w <> [];
    f_input : on_stream bits c (input st);
  }.

Lemma add_entry (d : gmap Z (list Z)) entries e (i : nat) :
  (forall i : nat, d !! (3 + Z.of_nat i) = entries !! i) ->
  <[3 + Z.of_nat (length entries) := e]> d !! (3 + Z.of_nat i) = (entries ++ [e]) !! i.
Proof.
  intros Hd. destruct (decide (i = length entries)) as [->|Hn].
  - rewrite lookup_insert_eq. by rewrite lookup_app_r, Nat.sub_diag by lia.
  - rewrite lookup_insert_ne by lia. rewrite Hd. destruct (decide (i < length entries)%nat).
    + by rewrite lookup_app_l.
    + rewrite lookup_app_r by lia. rewrite lookup_ge_None_2 by lia.
      by rewrite (lookup_ge_None_2 [e]) by (cbn; lia).
Qed.

(** A reference to an entry, possibly the one being completed. *)
Lemma expand_reference bits entries w en nb c st (i : nat) e :
  follows bits entries w en nb c st -> (entries ++ [w ++ take 1 w]) !! i = Some e -> e <> [] ->
  exists st', expand (3 + Z.of_nat i) st = Ret (Some st') /\
    follows bits (entries ++ [w ++ take 1 e]) e (widen (en - 1) nb).1 (widen (en - 1) nb).2 c st' /\
    result st' = result st ++ [e].
Proof.
  intros [Hd Hsz Hen Hnb Hcur Hs He Hw Hin] Hi Hne. unfold expand. rewrite Hen, Hnb, widen_id by apply Hs.
  assert (match dictionary st !! (3 + Z.of_nat i) with
    | Some e => Ret (Some e)
    | None => if 3 + Z.of_nat i =? dict_size st
              then match current st with [] => Raise IndexError | x :: _ => Ret (Some (current st ++ [x])) end
              else Ret None
    end = Ret (E := py_exn) (Some e)) as ->.
  { rewrite Hd. apply lookup_app_Some in Hi as [Hi|[Hle Hi]]; [by rewrite Hi|].
    rewrite lookup_ge_None_2 by lia. assert (i = length entries) as ->.
    { apply lookup_lt_Some in Hi. cbn in Hi. lia. }
    rewrite Nat.sub_diag in Hi. injection Hi as <-. rewrite Hsz, Z.eqb_refl, Hcur. by destruct w. }
  cbn [mbind outcome_bind]. destruct e as [|x e]; [done|].
  pose proof (widen_sized _ _ _ Hs) as Hs'. destruct (widen (en - 1) nb) as [en' nb']. cbn [fst snd] in *.
  eexists. split; [done|]. split; [|done]. split; cbn [dictionary dict_size enlarge_in num_bits current input]; try done.
  - intros j. rewrite Hsz, Hcur. by apply add_entry.
  - rewrite Hsz, length_app. cbn. lia.
  - apply Forall_app_2; [done|]. constructor; [|done]. by destruct w.
Qed.

(** A literal. *)
Lemma expand_literal s bits entries w en nb c st x tl :
  carries s bits -> follows bits entries w en nb c st -> 0 <= x < 65536 ->
  drop c bits = to_bits (literal_width x) x ++ tl ->
  exists code st1 st',
    literal s (literal_width x) st = Ret (code, st1) /\ expand code st1 = Ret (Some st') /\
    follows bits (entries ++ [[x]; w ++ [x]]) [x]
      (widen ((widen (en - 1) nb).1 - 1) (widen (en - 1) nb).2).1 (widen ((widen (en - 1) nb).1 - 1) (widen (en - 1) nb).2).2
      (c + literal_width x) st' /\
    result st' = result st ++ [[x]] /\ drop (c + literal_width x) bits = tl.
Proof.
  intros Hcar [Hd Hsz Hen Hnb Hcur Hs He Hw Hin] Hx Hdrop. unfold literal.
  destruct (read_code s bits c (input st) (literal_width x) x tl Hcar Hin Hdrop) as (r' & -> & Hr' & Htl).
  { unfold literal_width. destruct (x <? 256) eqn:E; zbool; cbn; lia. }
  cbn [mbind outcome_bind]. pose proof (widen_literal_sized _ _ _ Hs) as Hs2.
  do 3 eexists. split; [reflexivity|]. split.
  { unfold expand. cbn [dictionary dict_size enlarge_in num_bits current input result]. rewrite Hen, Hnb.
    rewrite (surjective_pairing (widen (en - 1) nb)). rewrite lookup_insert_eq. cbn [mbind outcome_bind].
    rewrite (surjective_pairing (widen (_ - 1) _)). reflexivity. }
  split; [|done].
  split; cbn [dictionary dict_size enlarge_in num_bits current input]; try done.
  - intros j. rewrite Hsz, Hcur. change [[x]; w ++ [x]] with ([[x]] ++ [w ++ [x]]). rewrite app_assoc.
    replace (3 + Z.of_nat (length entries) + 1) with (3 + Z.of_nat (length (entries ++ [[x]]))) by (rewrite length_app; cbn; lia).
    apply add_entry. intros k. by apply add_entry.
  - rewrite Hsz, length_app. cbn. lia.
  - by replace (dict_size st + 1 + 1) with (dict_size st + 2) by lia.
  - apply Forall_app_2; [done|]. repeat constructor; [done|by destruct w].
Qed.

Section Roundtrip.
Context (choose : list (list Z) -> list Z -> option nat).
(** What is chosen is a known entry that the text begins with. *)
Context (choose_ok : forall known text i, choose known text = Some i ->
  exists e rest, known !! i = Some e /\ e <> [] /\ text = e ++ rest).

Lemma literal_code_fits x nb size en : sized size en nb -> 0 <= literal_code x < 2 ^ Z.of_nat nb.
Proof. intros (He & Hs & Hn). unfold literal_code. destruct (x <? 256); lia. Qed.

Lemma stream_left s bits c tl n x : carries s bits -> drop c bits = to_bits (S n) x ++ tl -> (c < 6 * String.length s)%nat.
Proof.
  intros [Hl _] Hd. assert (length (drop c bits) > 0)%nat as H by (rewrite Hd, length_app, to_bits_length; lia).
  rewrite length_drop in H. lia.
Qed.

(** The loop goes on while a code is left. *)
Lemma code_left s bits entries w en nb c st x tl :
  carries s bits -> follows bits entries w en nb c st -> drop c bits = to_bits nb x ++ tl ->
  (String.length s <? data_index (input st))%nat = false.
Proof.
  intros Hcar Hf Hd. destruct (f_sized _ _ _ _ _ _ _ Hf) as (He & Hs & Hpow).
  destruct nb as [|m]; [cbn in Hpow; lia|]. apply Nat.ltb_ge. pose proof (stream_left _ _ _ _ _ _ Hcar Hd).
  destruct (f_input _ _ _ _ _ _ _ Hf) as [[-> _] _]. apply Nat.Div0.div_lt_upper_bound. lia.
Qed.

Lemma step_end s bits entries w en nb c st tl :
  carries s bits -> follows bits entries w en nb c st -> drop c bits = to_bits nb 2 ++ tl ->
  step s st = Ret (Done (concat (result st))).
Proof.
  intros Hcar Hf Hd. destruct (f_sized _ _ _ _ _ _ _ Hf) as (He & Hs & Hpow).
  unfold step. rewrite (code_left _ _ _ _ _ _ _ _ _ _ Hcar Hf Hd), (f_bits _ _ _ _ _ _ _ Hf).
  by destruct (read_code s bits c (input st) nb 2 tl Hcar (f_input _ _ _ _ _ _ _ Hf) Hd ltac:(lia)) as (r' & -> & _).
Qed.

Lemma step_reference s bits entries w en nb c st (i : nat) e tl :
  carries s bits -> follows bits entries w en nb c st -> (entries ++ [w ++ take 1 w]) !! i = Some e -> e <> [] ->
  drop c bits = to_bits nb (3 + Z.of_nat i) ++ tl ->
  exists st', step s st = Ret (More st') /\
    follows bits (entries ++ [w ++ take 1 e]) e (widen (en - 1) nb).1 (widen (en - 1) nb).2 (c + nb) st' /\
    result st' = result st ++ [e] /\ drop (c + nb) bits = tl.
Proof.
  intros Hcar Hf Hi Hne Hd. destruct (f_sized _ _ _ _ _ _ _ Hf) as (He & Hs & Hpow).
  assert (i <= length entries)%nat as Hle by (apply lookup_lt_Some in Hi; rewrite length_app in Hi; cbn in Hi; lia).
  pose proof (f_size _ _ _ _ _ _ _ Hf) as Hsz.
  destruct (read_code s bits c (input st) nb (3 + Z.of_nat i) _ Hcar (f_input _ _ _ _ _ _ _ Hf) Hd ltac:(lia)) as (r' & Hread & Hr' & Hd').
  set (st1 := mkDecoder (dictionary st) (dict_size st) (enlarge_in st) (num_bits st) (current st) (result st) r').
  assert (follows bits entries w en nb (c + nb) st1) as Hf1 by (destruct Hf; by split).
  destruct (expand_reference _ _ _ _ _ _ _ _ _ Hf1 Hi Hne) as (st2 & Hexp & Hf2 & Hres).
  exists st2. split; [|done]. unfold step. rewrite <- (f_bits _ _ _ _ _ _ _ Hf) in Hread.
  rewrite (code_left _ _ _ _ _ _ _ _ _ _ Hcar Hf Hd), Hread. cbn [mbind outcome_bind]. fold st1.
  assert (forall k, k < 3 -> (3 + Z.of_nat i =? k) = false) as Hk by (intros; apply Z.eqb_neq; lia).
  rewrite !Hk by lia. cbn [mbind outcome_bind]. by rewrite Hexp.
Qed.

Lemma step_literal s bits entries w en nb c st x tl :
  carries s bits -> follows bits entries w en nb c st -> 0 <= x < 65536 ->
  drop c bits = to_bits nb (literal_code x) ++ to_bits (literal_width x) x ++ tl ->
  exists st' en' nb' c', step s st = Ret (More st') /\
    follows bits (entries ++ [[x]; w ++ [x]]) [x] en' nb' c' st' /\
    result st' = result st ++ [[x]] /\ drop c' bits = tl.
Proof.
  intros Hcar Hf Hx Hd.
  destruct (read_code s bits c (input st) nb (literal_code x) _ Hcar (f_input _ _ _ _ _ _ _ Hf) Hd) as (r' & Hread & Hr' & Hd');
    [eapply literal_code_fits, (f_sized _ _ _ _ _ _ _ Hf)|].
  set (st1 := mkDecoder (dictionary st) (dict_size st) (enlarge_in st) (num_bits st) (current st) (result st) r').
  assert (follows bits entries w en nb (c + nb) st1) as Hf1 by (destruct Hf; by split).
  destruct (expand_literal s _ _ _ _ _ _ _ x _ Hcar Hf1 Hx Hd') as (code & st2 & st3 & Hlit & Hexp & Hf3 & Hres & Hd3).
  exists st3. do 3 eexists. split; [|done]. unfold step. rewrite <- (f_bits _ _ _ _ _ _ _ Hf) in Hread.
  rewrite (code_left _ _ _ _ _ _ _ _ _ _ Hcar Hf Hd), Hread. cbn [mbind outcome_bind]. fold st1.
  unfold literal_code, literal_width in *. destruct (x <? 256); cbn [Z.eqb Pos.eqb]; rewrite Hlit; cbn [mbind outcome_bind]; by rewrite Hexp.
Qed.

(** The bits of a text after its first character are decoded to it. *)
Lemma run_decodes s bits pad : carries s bits -> forall fuel text entries w en nb c st,
  follows bits entries w en nb c st -> (length text <= fuel)%nat -> Forall (fun x => 0 <= x < 65536) text ->
  drop c bits = encode_from choose fuel entries w text ++ pad ->
  exists n, run s n st = Some (Ret (concat (result st) ++ text)).
Proof.
  intros Hcar. induction fuel as [|fuel IH]; intros text entries w en nb c st Hf Hlen Hr Hd;
    (assert (width entries = nb) as Hwidth
      by (apply (sized_width entries en); rewrite <- (f_size _ _ _ _ _ _ _ Hf); apply (f_sized _ _ _ _ _ _ _ Hf)));
    destruct text as [|x rest];
    try (exists 1%nat; cbn [run encode_from] in *; rewrite Hwidth in Hd; by rewrite (step_end _ _ _ _ _ _ _ _ _ Hcar Hf Hd), app_nil_r);
    [cbn in Hlen; lia|].
  cbn [encode_from] in Hd. rewrite Hwidth in Hd.
  assert (forall st' text', step s st = Ret (More st') -> (exists n, run s n st' = Some (Ret (concat (result st') ++ text'))) ->
    concat (result st') ++ text' = concat (result st) ++ x :: rest ->
    exists n, run s n st = Some (Ret (concat (result st) ++ x :: rest))) as Hgo
    by (intros st' text' E [n Hn] <-; exists (S n); cbn [run]; by rewrite E).
  destruct (choose (entries ++ [w ++ take 1 w]) (x :: rest)) as [i|] eqn:Ec.
  - destruct (choose_ok _ _ _ Ec) as (e & rest' & Hi & Hne & Htext). rewrite (nth_lookup_Some _ _ _ _ Hi), <- app_assoc in Hd.
    destruct (step_reference _ _ _ _ _ _ _ _ _ _ _ Hcar Hf Hi Hne Hd) as (st' & Hstep & Hf' & Hres & Hd').
    rewrite Htext, drop_app_length in Hd'. rewrite Htext in Hlen, Hr, Hgo. rewrite Htext.
    eapply Hgo; [exact Hstep|eapply (IH rest' _ _ _ _ _ _ Hf'); [|by apply Forall_app in Hr as [_ Hr]|exact Hd']|].
    + rewrite length_app in Hlen. destruct e; [done|]. cbn in Hlen. lia.
    + rewrite Hres, concat_app. cbn [concat]. by rewrite app_nil_r, <- app_assoc.
  - rewrite <- !app_assoc in Hd. inversion Hr as [|? ? Hx Hr']; subst x0 l.
    destruct (step_literal _ _ _ _ _ _ _ _ _ _ Hcar Hf Hx Hd) as (st' & en' & nb' & c' & Hstep & Hf' & Hres & Hd').
    eapply Hgo; [exact Hstep|eapply (IH rest _ _ _ _ _ _ Hf'); [cbn in Hlen; lia|done|exact Hd']|].
    rewrite Hres, concat_app. cbn [concat]. by rewrite app_nil_r, <- app_assoc.
Qed.

Lemma run_agrees s n : forall m st o, run s n st = Some o -> run s m st <> None -> run s m st = Some o.
Proof.
  induction n as [|n IH]; intros [|m] st o; cbn [run]; try done.
  destruct (step s st) as [[text|st']|]; [done| |done]. by apply IH.
Qed.

(** ** The encoded string carries the encoder's bits *)

Lemma get_list (l : list ascii) i : String.get i (String.string_of_list_ascii l) = l !! i.
Proof. revert i. induction l as [|a l IH]; intros [|i]; cbn; auto. Qed.

Lemma length_of_list (l : list ascii) : String.length (String.string_of_list_ascii l) = length l.
Proof. induction l as [|a l IH]; cbn; auto. Qed.

Lemma pack_bits (f : nat -> bool) :
  let v := foldl (fun v k => 2 * v + Z.b2z (f k)) 0 (seq 0 6) in
  0 <= v < 64 /\ forall k, (k < 6)%nat -> Z.testbit v (5 - Z.of_nat k) = f k.
Proof.
  cbn [seq foldl].
  destruct (f 0%nat) eqn:E0, (f 1%nat) eqn:E1, (f 2%nat) eqn:E2, (f 3%nat) eqn:E3, (f 4%nat) eqn:E4, (f 5%nat) eqn:E5;
    (split; [cbn; lia|]); intros k Hk; do 6 (destruct k as [|k]; [rewrite ?E0, ?E1, ?E2, ?E3, ?E4, ?E5; reflexivity|]); lia.
Qed.

Lemma sextet_bits bits q : 0 <= sextet bits q < 64 /\
  forall k, (k < 6)%nat -> Z.testbit (sextet bits q) (5 - Z.of_nat k) = nth (6 * q + k) bits false.
Proof. apply (pack_bits (fun k => nth (6 * q + k) bits false)). Qed.

Lemma sextet_value v : 0 <= v < 64 -> get_base_value URI_SAFE_ALPHABET (sextet_char v) = Ret v.
Proof.
  intros Hv. assert (forallb (fun n => match get_base_value URI_SAFE_ALPHABET (sextet_char (Z.of_nat n)) with
    Ret z => z =? Z.of_nat n | Raise _ => false end) (seq 0 64) = true) as Hall by (vm_compute; reflexivity).
  rewrite forallb_forall in Hall. specialize (Hall (Z.to_nat v)). rewrite Z2Nat.id in Hall by lia.
  destruct (get_base_value URI_SAFE_ALPHABET (sextet_char v)) as [z|].
  - f_equal. apply Z.eqb_eq, Hall, in_seq. lia.
  - assert (false = true) as Hf; [apply Hall, in_seq; lia|done].
Qed.

Lemma sextet_char_not_space v : Ascii.eqb (sextet_char v) " " = false.
Proof.
  unfold sextet_char. destruct (nth_in_or_default (Z.to_nat v) (String.list_ascii_of_string URI_SAFE_ALPHABET) "A"%char) as [H|H];
    [|by rewrite H].
  assert (forallb (fun a => negb (Ascii.eqb a " ")) (String.list_ascii_of_string URI_SAFE_ALPHABET) = true) as Hall
    by (vm_compute; reflexivity).
  rewrite forallb_forall in Hall. apply Hall in H. by apply negb_true_iff in H.
Qed.

Lemma compress_carries text : carries (compress_to_encoded_uri_component choose text) (encode_bits choose text).
Proof.
  unfold compress_to_encoded_uri_component. set (bits := encode_bits choose text).
  set (N := S (length bits / 6)). unfold carries. rewrite length_of_list, length_map, length_seq. split.
  - unfold N. pose proof (Nat.div_mod_eq (length bits) 6). pose proof (Nat.mod_upper_bound (length bits) 6 ltac:(lia)). lia.
  - intros q Hq. exists (sextet bits q). destruct (sextet_bits bits q) as [Hr Hb]. split; [|done].
    unfold get_next_value. rewrite get_list. assert (map (fun q => sextet_char (sextet bits q)) (seq 0 N) !! q = Some (sextet_char (sextet bits q))) as ->.
    { change (map ?f ?l) with (f <$> l). rewrite list_lookup_fmap, lookup_seq_lt by done. done. }
    by apply sextet_value.
Qed.

Lemma compress_no_space text :
  str_map (fun c => if Ascii.eqb c " " then "+"%char else c) (compress_to_encoded_uri_component choose text) =
  compress_to_encoded_uri_component choose text.
Proof.
  unfold compress_to_encoded_uri_component. generalize (seq 0 (S (length (encode_bits choose text) / 6))).
  intros l. induction l as [|q l IH]; [done|]. cbn [map String.string_of_list_ascii str_map].
  by rewrite sextet_char_not_space, IH.
Qed.

(** [C19] The decoder inverts the format: a text of 16-bit units, encoded with
    any choice of matching dictionary entries, decodes to itself. *)
Theorem decompress_compress (text : list Z) :
  Forall (fun x => 0 <= x < 65536) text ->
  decompress_from_encoded_uri_component (Some (compress_to_encoded_uri_component choose text)) = Some (Ret text).
Proof.
  intros Hr. pose proof (compress_carries text) as Hcar. pose proof (compress_no_space text) as Hsp.
  unfold decompress_from_encoded_uri_component.
  set (s := compress_to_encoded_uri_component choose text) in *. set (bits := encode_bits choose text) in *.
  assert (decompress s = Some (Ret text)) as Hd.
  { unfold decompress. destruct Hcar as [Hlen Hq]. destruct (Hq 0%nat) as (v & Hv & Hbits); [unfold s, compress_to_encoded_uri_component; cbn; lia|].
    rewrite Hv. cbn [mbind outcome_bind].
    assert (on_stream bits 0 (mkReader v reset_value 1)) as H0 by (split; [done|]; intros k Hk; apply Hbits; lia).
    assert (carries s bits) as Hcar by done. clear Hlen Hq.
    destruct text as [|x rest].
    - destruct (read_code s bits 0 _ 2 2 [] Hcar H0 eq_refl ltac:(cbn; lia)) as (r & -> & _). done.
    - destruct (read_code s bits 0 _ 2 (literal_code x) (to_bits (literal_width x) x ++ encode_from choose (length rest) [[x]] [x] rest)
        Hcar H0 eq_refl) as (r & -> & Hr1 & Hd1); [unfold literal_code; destruct (x <? 256); cbn; lia|].
      cbn [mbind outcome_bind]. inversion Hr as [|? ? Hx Hrest]; subst.
      destruct (read_code s bits 2 r (literal_width x) x _ Hcar Hr1 Hd1) as (r' & Hread & Hr2 & Hd2).
      { unfold literal_width. destruct (x <? 256) eqn:E; zbool; cbn; lia. }
      assert (run s (decompress_fuel s) (initial_decoder x r') = Some (Ret (x :: rest))) as Hrun.
      { destruct (run_decodes s bits [] Hcar (length rest) rest [[x]] [x] 4 3 (2 + literal_width x) (initial_decoder x r')) as (n & Hn);
          [|lia|done|by rewrite app_nil_r|].
        - split; try done; try (repeat constructor; done). intros [|i]; [done|].
          unfold initial_decoder. cbn [dictionary]. rewrite !lookup_insert_ne by lia. by rewrite lookup_empty.
        - eapply run_agrees; [exact Hn|]. apply (run_enough s _ _ (2 + literal_width x)); [by destruct Hr2|cbn; lia|].
          unfold decompress_fuel. lia. }
      unfold literal_code, literal_width in *. destruct (x <? 256); cbn [Z.eqb]; rewrite Hread; cbn [mbind outcome_bind]; exact Hrun. }
  rewrite Hsp, Hd. destruct s eqn:Es; [|done]. by vm_compute in Hd.
Qed.
End Roundtrip.

Lemma is_prefix_spec e : forall text, is_prefix e text = true -> exists rest, text = e ++ rest.
Proof.
  induction e as [|x e IH]; intros text H; [by exists text|]. destruct text as [|y text]; [done|]. cbn in H.
  zbool. subst. destruct (IH text) as [rest ->]; [done|]. by exists rest.
Qed.

(** The greedy choice is one of the valid ones. *)
Lemma choose_longest_ok known text i : choose_longest known text = Some i ->
  exists e rest, known !! i = Some e /\ e <> [] /\ text = e ++ rest.
Proof.
  unfold choose_longest. assert (forall k best l j, (forall b, best = Some b -> (exists e rest,
      known !! b.1 = Some e /\ e <> [] /\ text = e ++ rest)) -> l = drop k known ->
    choose_longest_from k best l text = Some j -> exists e rest, known !! j = Some e /\ e <> [] /\ text = e ++ rest) as H.
  { intros k best l. revert k best. induction l as [|e l IH]; intros k best j Hb Hl; cbn [choose_longest_from].
    - destruct best as [b|]; [|done]. intros [= <-]. by apply Hb.
    - assert (known !! k = Some e /\ l = drop (S k) known) as [Hk Hl'].
      { split; [by rewrite <- (Nat.add_0_r k), <- lookup_drop, <- Hl|].
        rewrite <- Nat.add_1_r, <- drop_drop, <- Hl. done. }
      apply IH; [|done]. intros b. destruct (_ && is_prefix e text) eqn:E; [|apply Hb]. intros [= <-]. zbool.
      destruct (is_prefix_spec e text) as [rest Hrest]; [done|]. exists e, rest. split_and!; [done| |done].
      intros ->. destruct best as [[? ?]|]; done. }
  intros Hc. eapply H; [| |exact Hc]; done.
Qed.

Lemma decompress_compress_witness :
  decompress_from_encoded_uri_component (Some (compress_to_encoded_uri_component choose_longest [97; 98; 97; 98; 97; 98; 1234])) =
  Some (Ret [97; 98; 97; 98; 97; 98; 1234]).
Proof. apply (decompress_compress choose_longest choose_longest_ok). repeat constructor; done. Defined.

(** The encoding of "hello" by the JavaScript library. *)
Example decompress_hello :
  decompress_from_encoded_uri_component (Some "BYUwNmD2Q"%string) = Some (Ret (map code (String.list_ascii_of_string "hello"))).
Proof. vm_compute. reflexivity. Qed.
