(* ===== verification/CircuitBreaker.v ===== *)
(** * The circuit breaker of the scrapers and its batch loop: utils/network.py

    [CircuitBreaker] is the class of that name as a record, its methods are
    functions on it; [batch_process_with_circuit_breaker] is a step relation
    for one task group (start, reject, finish in any order) inside a relation
    for the retry loop of one batch and for the list of batches.

    Times of the event loop's clock are integers (ticks). *)

From S2P Require Import Prelude.
Local Open Scope Z_scope.

(** ** State *)

Inductive cb_state := CLOSED | OPEN | HALF_OPEN.

#[export] Instance cb_state_eq_dec : EqDecision cb_state.
Proof. solve_decision. Defined.

Record CircuitBreaker := mkCB {
  failure_threshold : Z;
  recovery_timeout : Z;
  half_open_attempts : Z;
  state : cb_state;
  failures : Z;
  successful_attempts : Z;
  last_failure_time : option Z;
}.

Definition new_breaker (threshold timeout attempts : Z) : CircuitBreaker :=
  mkCB threshold timeout attempts CLOSED 0 0 None.

(** The assignments of the methods: the three parameters never change. *)
Definition update (cb : CircuitBreaker) st f s t : CircuitBreaker :=
  mkCB (failure_threshold cb) (recovery_timeout cb) (half_open_attempts cb) st f s t.

(** ** Methods *)

(** [self.last_failure_time and (current_time - self.last_failure_time) >= ...]:
    Python's [and] makes a time of 0 false as well as [None]. *)
Definition timeout_elapsed (now : Z) (cb : CircuitBreaker) : bool :=
  match last_failure_time cb with
  | None => false
  | Some t => negb (t =? 0) && (recovery_timeout cb <=? now - t)
  end.

Definition is_closed (now : Z) (cb : CircuitBreaker) : bool * CircuitBreaker :=
  match state cb with
  | CLOSED => (true, cb)
  | HALF_OPEN => (true, cb)
  | OPEN =>
      if timeout_elapsed now cb
      then (true, update cb HALF_OPEN 0 0 (last_failure_time cb))
      else (false, cb)
  end.

Definition reset (cb : CircuitBreaker) : CircuitBreaker := update cb CLOSED 0 0 None.

Definition record_failure (now : Z) (cb : CircuitBreaker) : CircuitBreaker :=
  let f := failures cb + 1 in
  update cb (if failure_threshold cb <=? f then OPEN else state cb) f 0 (Some now).

Definition record_success (cb : CircuitBreaker) : CircuitBreaker :=
  match state cb with
  | HALF_OPEN =>
      let s := successful_attempts cb + 1 in
      if half_open_attempts cb <=? s then reset cb
      else update cb HALF_OPEN (failures cb) s (last_failure_time cb)
  | CLOSED => update cb CLOSED 0 0 (last_failure_time cb)
  | OPEN => cb
  end.

(** ** [call]: admission, the awaited function, and the recorded outcome.

    The coroutine can be suspended between the two halves, so they are
    separate transitions; [call] is their composition when nothing
    interleaves. *)

Section Call.
Context {R E : Type}.

Inductive task_result :=
  | Value (r : R)
  | Failed (e : E)
  | BreakerOpen.

Definition call_exit (now : Z) (out : outcome E R) (cb : CircuitBreaker)
    : task_result * CircuitBreaker :=
  match out with
  | Ret r => (Value r, record_success cb)
  | Raise e => (Failed e, record_failure now cb)
  end.

Definition call (now1 now2 : Z) (out : outcome E R) (cb : CircuitBreaker)
    : task_result * CircuitBreaker :=
  let '(ok, cb1) := is_closed now1 cb in
  if ok then call_exit now2 out cb1 else (BreakerOpen, cb1).
End Call.
Arguments task_result : clear implicits.

(** ** The events a breaker goes through, and what holds after any of them *)

Inductive cb_event :=
  | EvAdmit (now : Z)
  | EvSuccess
  | EvFailure (now : Z)
  | EvReset.

Definition cb_apply (cb : CircuitBreaker) (e : cb_event) : CircuitBreaker :=
  match e with
  | EvAdmit now => snd (is_closed now cb)
  | EvSuccess => record_success cb
  | EvFailure now => record_failure now cb
  | EvReset => reset cb
  end.

Definition cb_run : CircuitBreaker -> list cb_event -> CircuitBreaker := foldl cb_apply.

Record cb_inv (cb : CircuitBreaker) : Prop := {
  inv_failures : 0 <= failures cb;
  inv_successes : 0 <= successful_attempts cb;
  inv_closed : state cb <> OPEN -> failures cb < failure_threshold cb;
  inv_open : state cb = OPEN ->
    failure_threshold cb <= failures cb /\ is_Some (last_failure_time cb) /\ successful_attempts cb = 0;
  inv_half_open : state cb = HALF_OPEN ->
    successful_attempts cb < half_open_attempts cb /\ is_Some (last_failure_time cb);
}.

(** The five clauses on a record whose fields are explicit. *)
Ltac cb_inv_solve :=
  split; simpl; intros; split_and?; try done; try lia; try (by eexists).

Section Invariant.
Context (cb : CircuitBreaker)
  (Hthreshold : 0 < failure_threshold cb) (Hattempts : 0 < half_open_attempts cb).

Lemma is_closed_inv now : cb_inv cb -> cb_inv (snd (is_closed now cb)).
Proof.
  intros I. unfold is_closed. destruct (state cb) eqn:Es; [done| |done].
  destruct (timeout_elapsed now cb); [|done].
  destruct (inv_open _ I Es) as (? & ? & ?).
  cb_inv_solve.
Qed.

Lemma reset_inv : cb_inv (reset cb).
Proof. cb_inv_solve. Qed.

Lemma record_failure_inv now : cb_inv cb -> cb_inv (record_failure now cb).
Proof.
  intros I. pose proof (inv_failures _ I).
  unfold record_failure. destruct (failure_threshold cb <=? failures cb + 1) eqn:Et; zbool.
  - cb_inv_solve.
  - destruct (state cb) eqn:Es.
    + cb_inv_solve.
    + destruct (inv_open _ I Es). lia.
    + cb_inv_solve.
Qed.

Lemma record_success_inv : cb_inv cb -> cb_inv (record_success cb).
Proof.
  intros I. unfold record_success. pose proof (inv_successes _ I). pose proof (inv_failures _ I).
  destruct (state cb) eqn:Es; [|done|].
  - cb_inv_solve.
  - destruct (half_open_attempts cb <=? _) eqn:Eh; zbool; [apply reset_inv|].
    assert (failures cb < failure_threshold cb) by (apply (inv_closed _ I); congruence).
    destruct (inv_half_open _ I Es).
    cb_inv_solve.
Qed.
End Invariant.

Lemma cb_apply_params cb e :
  failure_threshold (cb_apply cb e) = failure_threshold cb /\
  recovery_timeout (cb_apply cb e) = recovery_timeout cb /\
  half_open_attempts (cb_apply cb e) = half_open_attempts cb.
Proof.
  destruct e; simpl; unfold is_closed, record_success; repeat case_match; by simpl.
Qed.

Lemma cb_apply_inv cb e :
  0 < failure_threshold cb -> 0 < half_open_attempts cb -> cb_inv cb -> cb_inv (cb_apply cb e).
Proof.
  intros. destruct e; simpl;
    auto using is_closed_inv, record_success_inv, record_failure_inv, reset_inv.
Qed.

Lemma cb_run_inv evs : forall cb,
  0 < failure_threshold cb -> 0 < half_open_attempts cb -> cb_inv cb -> cb_inv (cb_run cb evs).
Proof.
  induction evs as [|e evs IH]; intros cb ?? I; [done|].
  destruct (cb_apply_params cb e) as (Et & _ & Eh).
  apply IH; [by rewrite Et|by rewrite Eh|by apply cb_apply_inv].
Qed.

(** ** One task group of [batch_process_with_circuit_breaker] *)

Section Batch.
Context {I R E : Type}.
(** [isinstance(result, retry_exceptions)] for the caller's exceptions. *)
Context (retryable : E -> bool) (max_retries : nat).

Record round_state := mkRound {
  pending : list I;
  running : list I;
  completed : list (I * task_result R E);
  breaker : CircuitBreaker;
}.

Inductive round_step : round_state -> round_state -> Prop :=
  | step_start i p r c cb cb' now :
      is_closed now cb = (true, cb') ->
      round_step (mkRound (i :: p) r c cb) (mkRound p (r ++ [i]) c cb')
  | step_reject i p r c cb cb' now :
      is_closed now cb = (false, cb') ->
      round_step (mkRound (i :: p) r c cb) (mkRound p r (c ++ [(i, BreakerOpen)]) cb')
  | step_finish i p r1 r2 c cb now out :
      round_step (mkRound p (r1 ++ i :: r2) c cb)
        (mkRound p (r1 ++ r2) (c ++ [(i, fst (call_exit now out cb))]) (snd (call_exit now out cb))).

(** A whole task group: from the batch to all tasks completed. *)
Definition round_ends (batch : list I) (cb : CircuitBreaker)
    (done_ : list (I * task_result R E)) (cb' : CircuitBreaker) : Prop :=
  rtc round_step (mkRound batch [] [] cb) (mkRound [] [] done_ cb').

(** The [for task in asyncio.as_completed] loop over the finished tasks. *)
Definition is_retry (x : I * task_result R E) : bool :=
  match snd x with
  | Value _ => false
  | Failed e => retryable e
  | BreakerOpen => true
  end.

Fixpoint retry_batch (l : list (I * task_result R E)) : list I :=
  match l with
  | [] => []
  | x :: l => if is_retry x then fst x :: retry_batch l else retry_batch l
  end.

Fixpoint yielded (l : list (I * task_result R E)) : list (I * R) :=
  match l with
  | [] => []
  | (i, Value r) :: l => (i, r) :: yielded l
  | _ :: l => yielded l
  end.

Fixpoint unexpected (l : list (I * task_result R E)) : list (I * E) :=
  match l with
  | [] => []
  | (i, Failed e) :: l => if retryable e then unexpected l else (i, e) :: unexpected l
  | _ :: l => unexpected l
  end.

(** What one batch leaves behind: its yields, the items dropped on an
    unexpected error, and those given up after the last retry. *)
Record batch_result := mkBatch {
  b_yields : list (I * R);
  b_errors : list (I * E);
  b_given_up : list I;
  b_rounds : nat;
}.

Inductive run_batch : nat -> list I -> CircuitBreaker -> batch_result -> CircuitBreaker -> Prop :=
  | rb_empty n cb : run_batch n [] cb (mkBatch [] [] [] 0) cb
  | rb_done n batch cb d cb' :
      batch <> [] -> round_ends batch cb d cb' -> retry_batch d = [] ->
      run_batch n batch cb (mkBatch (yielded d) (unexpected d) [] 1) cb'
  | rb_give_up n batch cb d cb' :
      batch <> [] -> round_ends batch cb d cb' -> retry_batch d <> [] -> (max_retries <= n)%nat ->
      run_batch n batch cb (mkBatch (yielded d) (unexpected d) (retry_batch d) 1) cb'
  | rb_retry n batch cb d cb' res cb'' :
      batch <> [] -> round_ends batch cb d cb' -> retry_batch d <> [] -> (n < max_retries)%nat ->
      run_batch (S n) (retry_batch d) cb' res cb'' ->
      run_batch n batch cb
        (mkBatch (yielded d ++ b_yields res) (unexpected d ++ b_errors res)
           (b_given_up res) (S (b_rounds res))) cb''.

(** [data[i : i + batch_size]] for [i in range(0, len(data), batch_size)]. *)
Fixpoint chunks (fuel batch_size : nat) (data : list I) : list (list I) :=
  match fuel, data with
  | S fuel, _ :: _ => take batch_size data :: chunks fuel batch_size (drop batch_size data)
  | _, _ => []
  end.

Definition batches (batch_size : nat) (data : list I) : list (list I) :=
  chunks (length data) batch_size data.

Inductive run_batches : list (list I) -> CircuitBreaker -> list batch_result -> CircuitBreaker -> Prop :=
  | rbs_nil cb : run_batches [] cb [] cb
  | rbs_cons b bs cb res cb' rs cb'' :
      run_batch 0 b cb res cb' -> run_batches bs cb' rs cb'' ->
      run_batches (b :: bs) cb (res :: rs) cb''.

Definition batch_process_with_circuit_breaker (batch_size : nat) (data : list I)
    (cb : CircuitBreaker) (rs : list batch_result) (cb' : CircuitBreaker) : Prop :=
  run_batches (batches batch_size data) cb rs cb'.
End Batch.

(** ** Every item of a task group is accounted for *)

Section BatchFacts.
Context {I R E : Type} (retryable : E -> bool) (max_retries : nat).
Implicit Types (s : @round_state I R E) (d : list (I * task_result R E)).

Definition items s : list I := pending s ++ running s ++ (completed s).*1.

Lemma round_step_items s s' : round_step s s' -> items s ≡ₚ items s'.
Proof.
  unfold items. destruct 1; simpl; rewrite ?fmap_app; simpl.
  - by rewrite <- !app_assoc, Permutation_middle; simpl; rewrite Permutation_middle.
  - rewrite app_assoc, app_assoc, Permutation_cons_append. by rewrite <- !app_assoc.
  - apply Permutation_app_head. rewrite <- !app_assoc. apply Permutation_app_head.
    simpl. by rewrite Permutation_cons_append, <- app_assoc.
Qed.

Lemma round_items batch cb d cb' : @round_ends I R E batch cb d cb' -> batch ≡ₚ d.*1.
Proof.
  unfold round_ends. intros H.
  assert (items (mkRound batch [] [] cb) ≡ₚ items (mkRound (R:=R) (E:=E) [] [] d cb')) as Hp.
  { induction H as [|s1 s2 s3 Hs _ IH]; [done|]. by rewrite (round_step_items _ _ Hs). }
  unfold items in Hp. simpl in Hp. by rewrite app_nil_r in Hp.
Qed.

Lemma results_split d :
  d.*1 ≡ₚ (yielded d).*1 ++ (unexpected retryable d).*1 ++ retry_batch retryable d.
Proof.
  induction d as [|[i [r|e|]] d IH]; simpl; [done|by rewrite IH| |].
  - unfold is_retry. simpl. destruct (retryable e); simpl; rewrite IH; [|by rewrite Permutation_middle].
    rewrite app_assoc, Permutation_middle. by rewrite <- app_assoc.
  - rewrite IH, app_assoc, Permutation_middle. by rewrite <- app_assoc.
Qed.

Definition result_items (res : @batch_result I R E) : list I :=
  (b_yields res).*1 ++ (b_errors res).*1 ++ b_given_up res.

Lemma run_batch_items n batch cb res cb' :
  run_batch retryable max_retries n batch cb res cb' -> batch ≡ₚ result_items res.
Proof.
  unfold result_items.
  induction 1 as [|????? _ Hr He|????? _ Hr He _|??????? _ Hr _ _ _ IH]; simpl; [done|..];
    rewrite (round_items _ _ _ _ Hr), results_split, ?He; [done..|].
  rewrite IH, !fmap_app. solve_Permutation.
Qed.

Lemma run_batch_rounds n batch cb (res : @batch_result I R E) cb' :
  run_batch retryable max_retries n batch cb res cb' ->
  (b_rounds res <= S (max_retries - n))%nat.
Proof. induction 1; simpl; lia. Qed.

Lemma chunks_concat batch_size : forall fuel (data : list I),
  (0 < batch_size)%nat -> (length data <= fuel)%nat -> concat (chunks fuel batch_size data) = data.
Proof.
  induction fuel as [|fuel IH]; intros data Hb Hf; destruct data as [|x data]; simpl in *; try done; [lia|].
  rewrite IH; [|done|rewrite length_drop; simpl; lia].
  apply (take_drop batch_size (x :: data)).
Qed.

(** Termination of a task group: each step decreases [2 * pending + running]. *)
Definition round_measure s : nat := 2 * length (pending s) + length (running s).

Lemma round_step_decreases s s' : round_step s s' -> (round_measure s' < round_measure s)%nat.
Proof. unfold round_measure. destruct 1; simpl; rewrite ?length_app; simpl; lia. Qed.

Lemma round_progress (out : outcome E R) s :
  (pending s = [] /\ running s = []) \/ exists s', round_step s s'.
Proof.
  destruct s as [[|i p] r c cb].
  - destruct r as [|j r]; [by left|right].
    eexists. by apply (step_finish j [] [] r c cb 0 out).
  - right. destruct (is_closed 0 cb) as [[] cb'] eqn:Ec.
    + eexists. by apply (step_start i p r c cb cb' 0).
    + eexists. by apply (step_reject i p r c cb cb' 0).
Qed.

Lemma round_completes (out : outcome E R) s :
  exists d cb', rtc round_step s (mkRound [] [] d cb').
Proof.
  induction (well_founded_ltof _ round_measure s) as [s _ IH].
  destruct (round_progress out s) as [[Hp Hr]|[s' Hs]].
  - destruct s as [p r c cb]; simpl in *; subst. by do 2 eexists.
  - destruct (IH s' (round_step_decreases _ _ Hs)) as (d & cb' & Hd).
    exists d, cb'. by eapply rtc_l.
Qed.

Lemma run_batch_completes (out : outcome E R) k : forall n (batch : list I) cb,
  (max_retries - n <= k)%nat ->
  exists res cb', run_batch (R:=R) retryable max_retries n batch cb res cb'.
Proof.
  induction k as [|k IH]; intros n batch cb Hk;
    (destruct (decide (batch = [])) as [->|Hb]; [by do 2 eexists; constructor|]);
    destruct (round_completes out (mkRound batch [] [] cb)) as (d & cb' & Hd);
    (destruct (decide (retry_batch retryable d = [])) as [Hr|Hr];
      [by do 2 eexists; eapply rb_done|]).
  - do 2 eexists. eapply rb_give_up; [done..|lia].
  - destruct (decide (max_retries <= n)%nat); [by do 2 eexists; eapply rb_give_up|].
    destruct (IH (S n) (retry_batch retryable d) cb') as (res & cb'' & Hrun); [lia|].
    do 2 eexists. eapply rb_retry; [done..|lia|done].
Qed.

Lemma run_batches_completes (out : outcome E R) (bs : list (list I)) : forall cb,
  exists rs cb', run_batches (R:=R) retryable max_retries bs cb rs cb'.
Proof.
  induction bs as [|b bs IH]; intros cb; [by do 2 eexists; constructor|].
  destruct (run_batch_completes out max_retries 0 b cb) as (res & cb1 & H1); [lia|].
  destruct (IH cb1) as (rs & cb2 & H2).
  do 2 eexists. by econstructor.
Qed.

Lemma run_batches_items bs cb rs cb' :
  run_batches retryable max_retries bs cb rs cb' ->
  concat bs ≡ₚ concat (result_items <$> rs) /\ Forall (fun r => (b_rounds r <= S max_retries)%nat) rs.
Proof.
  induction 1 as [|b bs cb res cb1 rs cb2 H1 _ [IHp IHr]]; simpl; [done|].
  split; [|by constructor; [eapply Nat.le_trans; [eapply run_batch_rounds; eauto|lia]|]].
  by rewrite IHp, (run_batch_items _ _ _ _ _ H1).
Qed.
End BatchFacts.

(** ** Properties *)

(** In every state a breaker can reach, whatever the interleaving of
    admissions, successes, failures and resets: outside OPEN the failure count
    is below the threshold, OPEN means the threshold was reached and a failure
    time is set, and a HALF-OPEN breaker has not yet seen the successes that
    close it. *)
Theorem breaker_reachable_inv threshold timeout attempts (evs : list cb_event) :
  0 < threshold -> 0 < attempts -> cb_inv (cb_run (new_breaker threshold timeout attempts) evs).
Proof.
  intros. apply cb_run_inv; simpl; [done..|]. cb_inv_solve.
Qed.

Lemma breaker_reachable_inv_witness :
  state (cb_run (new_breaker 2 10 1) [EvFailure 5; EvFailure 6]) = OPEN /\
  cb_inv (cb_run (new_breaker 2 10 1) [EvFailure 5; EvFailure 6]).
Proof. split; [reflexivity|apply breaker_reachable_inv; lia]. Defined.

(** A run of admissions that the code rejects leaves the breaker unchanged. *)
Lemma open_rejects now t cb :
  state cb = OPEN -> last_failure_time cb = Some t -> now - t < recovery_timeout cb ->
  is_closed now cb = (false, cb).
Proof.
  intros Hs Hl Hn. unfold is_closed, timeout_elapsed. rewrite Hs, Hl.
  destruct (recovery_timeout cb <=? now - t) eqn:E; zbool; [lia|]. by rewrite andb_false_r.
Qed.

Lemma half_open_successes k : forall cb,
  state cb = HALF_OPEN -> 0 <= successful_attempts cb ->
  successful_attempts cb + Z.of_nat k < half_open_attempts cb ->
  cb_run cb (replicate k EvSuccess) =
    update cb HALF_OPEN (failures cb) (successful_attempts cb + Z.of_nat k) (last_failure_time cb).
Proof.
  induction k as [|k IH]; intros cb Hs H0 Hk; simpl.
  - rewrite Z.add_0_r. destruct cb; simpl in *. by rewrite Hs.
  - unfold record_success. rewrite Hs.
    destruct (half_open_attempts cb <=? _) eqn:E; zbool; [lia|].
    unfold cb_run in IH. rewrite IH; simpl; [|done|lia..].
    unfold update; simpl. f_equal. lia.
Qed.

(** The recovery cycle: an OPEN breaker rejects every call, without
    running it, until [recovery_timeout] has passed since the last failure;
    the first call after that is admitted and makes it HALF-OPEN; it then
    stays HALF-OPEN for fewer than [half_open_attempts] successes and is CLOSED
    with all counters reset at exactly that many. *)
Theorem breaker_recovery cb t now (k : nat) :
  state cb = OPEN -> last_failure_time cb = Some t -> t <> 0 ->
  0 < half_open_attempts cb -> recovery_timeout cb <= now - t ->
  (forall now', now' - t < recovery_timeout cb -> is_closed now' cb = (false, cb)) /\
  (exists cb1, is_closed now cb = (true, cb1) /\ state cb1 = HALF_OPEN /\
    (Z.of_nat k < half_open_attempts cb -> state (cb_run cb1 (replicate k EvSuccess)) = HALF_OPEN) /\
    (Z.of_nat k = half_open_attempts cb -> cb_run cb1 (replicate k EvSuccess) = reset cb)).
Proof.
  intros Hs Hl Ht Ha Hnow. split; [by intros; eapply open_rejects|].
  set (cb1 := update cb HALF_OPEN 0 0 (last_failure_time cb)).
  exists cb1. split_and!; [|done|..].
  - unfold is_closed, timeout_elapsed. rewrite Hs, Hl.
    apply Z.eqb_neq in Ht. apply Z.leb_le in Hnow. by rewrite Ht, Hnow; unfold cb1; rewrite Hl.
  - intros. by rewrite half_open_successes.
  - intros Hk. destruct k as [|k]; [lia|].
    replace (S k) with (k + 1)%nat by lia. unfold cb_run. rewrite replicate_add, foldl_app.
    fold (cb_run cb1 (replicate k EvSuccess)).
    rewrite (half_open_successes k cb1); simpl; [|done|lia|lia].
    unfold record_success; simpl.
    destruct (half_open_attempts cb <=? _) eqn:E; zbool; [done|lia].
Qed.

Lemma breaker_recovery_witness :
  exists cb1, is_closed 100 (mkCB 3 60 2 OPEN 3 0 (Some 40)) = (true, cb1) /\
    cb_run cb1 [EvSuccess; EvSuccess] = new_breaker 3 60 2.
Proof.
  destruct (breaker_recovery (mkCB 3 60 2 OPEN 3 0 (Some 40)) 40 100 2) as (_ & cb1 & H1 & _ & _ & H2);
    simpl; try lia; try reflexivity.
  exists cb1. split; [exact H1|exact (H2 eq_refl)].
Defined.

(** [C38] Whatever the scheduling of the tasks and their outcomes, the batch
    processor loses no item and repeats none: the items whose value is
    yielded, those dropped on an unexpected error and those given up after the
    retries are together the input, and no batch runs more than
    [max_retries + 1] task groups. *)
Theorem batch_process_accounts {I R E} (retryable : E -> bool) (max_retries batch_size : nat)
    (data : list I) cb (rs : list (@batch_result I R E)) cb' :
  (0 < batch_size)%nat ->
  batch_process_with_circuit_breaker retryable max_retries batch_size data cb rs cb' ->
  data ≡ₚ concat (result_items <$> rs) /\
  Forall (fun r => (b_rounds r <= S max_retries)%nat) rs.
Proof.
  intros Hb H. destruct (run_batches_items _ _ _ _ _ _ H) as [Hp Hr]. split; [|done].
  by rewrite <- Hp; unfold batches; rewrite chunks_concat.
Qed.

(** The batch processor ends: in a task group every step makes progress
    (no infinite schedule) and a group that is not finished can step, and from
    any input and breaker a complete run exists. *)
Theorem batch_process_terminates {I R E} (out : outcome E R) (retryable : E -> bool)
    (max_retries batch_size : nat) (data : list I) cb :
  (forall s : @round_state I R E, Acc (flip round_step) s) /\
  (forall s : @round_state I R E, (exists s', round_step s s') \/ (pending s = [] /\ running s = [])) /\
  exists rs cb', batch_process_with_circuit_breaker (R:=R) retryable max_retries batch_size data cb rs cb'.
Proof.
  split_and!.
  - intros s. induction (well_founded_ltof _ round_measure s) as [s _ IH].
    constructor. intros s' Hs. by apply IH, round_step_decreases.
  - intros s. destruct (round_progress out s); auto.
  - by apply run_batches_completes.
Qed.

(** One item whose first attempt fails with a retryable error and whose second
    attempt succeeds. *)
Lemma batch_process_accounts_witness :
  [7] ≡ₚ concat (result_items <$> [mkBatch (E:=unit) [(7, true)] [] [] 2]) /\
  Forall (fun r : @batch_result Z bool unit => (b_rounds r <= 2)%nat) [mkBatch [(7, true)] [] [] 2].
Proof.
  set (cb0 := new_breaker 5 10 1). set (cb1 := record_failure 3 cb0).
  apply (batch_process_accounts (fun _ => true) 1 1 [7] cb0 _ (record_success cb1)); [lia|].
  eapply rbs_cons; [|constructor].
  apply (rb_retry (fun _ => true) 1 0 [7] cb0 [(7, Failed tt)] cb1
           (mkBatch [(7, true)] [] [] 1)); [done| |done|lia|].
  - eapply rtc_l; [by apply (step_start 7 [] [] [] cb0 cb0 0)|].
    apply rtc_once, (step_finish 7 [] [] [] [] cb0 3 (Raise tt)).
  - apply (rb_done _ _ 1 [7] cb1 [(7, Value true)]); [done| |done].
    eapply rtc_l; [by apply (step_start 7 [] [] [] cb1 cb1 4)|].
    apply rtc_once, (step_finish 7 [] [] [] [] cb1 5 (Ret true)).
Defined.
