(* ===== verification/Retry.v ===== *)
(** * Retrying database operations (db/retry_utils.py)

    Exceptions are a graph in a heap: causes, contexts and group members may
    be shared and cyclic.  An operation is what its n-th call does.  The walk
    over the graph, the test for transient errors, the retry loop with its
    delays and the fallback from the replica to the primary. *)

From S2P Require Export PyStr PyList.
Local Open Scope string_scope.

(** An exception object: the classes the code asks about, its text and the
    exceptions it refers to. *)
Record exn := mkExn {
  is_connection_or_timeout : bool;  (* BrokenPipeError, ConnectionError, TimeoutError *)
  is_pool_timeout : bool;  (* SQLAlchemy's TimeoutError *)
  is_interface_error : bool;  (* SQLAlchemy's InterfaceError *)
  is_pending_rollback : bool;  (* PendingRollbackError *)
  is_dbapi_error : bool;  (* DBAPIError *)
  connection_invalidated : bool;
  is_asyncpg_gone : bool;  (* asyncpg's ConnectionDoesNotExistError, InternalClientError *)
  text : string;
  cause : option nat;
  context : option nat;
  grouped : list nat;
  orig : option nat;
}.

Definition option_list {A} (o : option A) : list A := match o with Some x => [x] | None => [] end.

(** What is pushed on the stack: the last one is popped first. *)
Definition walk_successors (e : exn) : list nat := (option_list (cause e) ++ option_list (context e) ++ grouped e)%list.
Definition retry_successors (e : exn) : list nat :=
  (walk_successors e ++ if is_dbapi_error e then option_list (orig e) else [])%list.

Definition RETRYABLE_DB_ERROR_MARKERS : list string :=
  ["broken pipe"; "connection reset by peer"; "connection does not exist"; "connection is closed";
   "connection was closed"; "underlying connection is closed"; "closed in the middle of operation";
   "server closed the connection unexpectedly"; "terminating connection due to administrator command";
   "another operation is in progress"; "cannot call transaction.commit()"; "cannot switch to state";
   "can't reconnect until invalid transaction is rolled back"; "too many open files";
   "unexpected connection_lost() call"; "conflict with recovery"; "canceling statement due to conflict with recovery";
   "queuepool limit"; "connection timed out"; "connectiondoesnotexist"].

(** What a run of the retry loop does. *)
Inductive event :=
  | Called (n : nat)  (* the [n]-th call of the operation *)
  | PrimaryCalled (n : nat)
  | Slept (delay : Z)
  | Fallback (e : nat).

(** The result of a loop: a value, the exception raised, or the [RuntimeError]
    after the loop. *)
Inductive retry_result (A : Type) :=
  | Value (a : A)
  | Raised (e : nat)
  | LoopExhausted.
Arguments Value {A} a.
Arguments Raised {A} e.
Arguments LoopExhausted {A}.

Section Heap.
Context (heap : list exn).

(** ** Walking the exceptions *)

(** A depth-first walk that visits each object once; [visit] may end it with a
    result.  The stack is a list with its top first. *)
Fixpoint walk {A} (fuel : nat) (successors : exn -> list nat) (visit : nat -> exn -> option A) (stack : list nat)
    (seen : list nat) : option (option A) :=
  match stack with
  | [] => Some None
  | i :: stack =>
      match fuel with
      | O => None
      | S fuel =>
          if memb i seen then walk fuel successors visit stack seen
          else match heap !! i with
               | None => walk fuel successors visit stack (i :: seen)
               | Some e =>
                   match visit i e with
                   | Some r => Some (Some r)
                   | None => walk fuel successors visit (reverse (successors e) ++ stack)%list (i :: seen)
                   end
               end
      end
  end.

(** Every reference of the heap, and the start. *)
Definition walk_fuel (successors : exn -> list nat) : nat := S (length (flat_map successors heap)).

Definition pool_exhausted (e : exn) : bool := is_pool_timeout e && contains "queuepool" (lower (text e)).

(** [is_sqlalchemy_pool_exhaustion_error]: the walk visits everything and
    remembers a hit. *)
Definition is_sqlalchemy_pool_exhaustion_error (i : nat) : bool :=
  match walk (walk_fuel walk_successors) walk_successors (fun _ e => if pool_exhausted e then Some tt else None) [i] [] with
  | Some (Some tt) => true
  | _ => false
  end.

Definition has_retryable_marker (e : exn) : bool :=
  existsb (fun m => contains m (lower (text e))) RETRYABLE_DB_ERROR_MARKERS.

(** The tests on one exception, in order; [None] goes on with the walk. *)
Definition retryable_visit (i : nat) (e : exn) : option bool :=
  if is_connection_or_timeout e then Some true
  else if is_pool_timeout e then Some (negb (is_sqlalchemy_pool_exhaustion_error i))
  else if is_interface_error e then Some true
  else if is_pending_rollback e then Some true
  else if is_dbapi_error e && connection_invalidated e then Some true
  else if is_asyncpg_gone e then Some true
  else if has_retryable_marker e then Some true
  else None.

Definition is_retryable_db_error (i : nat) : bool :=
  if is_sqlalchemy_pool_exhaustion_error i then false
  else match walk (walk_fuel retry_successors) retry_successors retryable_visit [i] [] with
       | Some (Some b) => b
       | _ => false
       end.

(** ** The retry loop *)

(** Delays are in any unit; the callbacks of a retry do not change its course.

    The loop from the given attempt with [attempts_left] attempts left, for an operation
    whose [n]-th call gives [op n]. *)
Fixpoint retry_loop {A} (call : nat -> event) (op : nat -> outcome nat A) (attempts_left attempt : nat) (delay : Z) :
    retry_result A * list event :=
  match attempts_left with
  | O => (LoopExhausted, [])
  | S attempts_left =>
      match op attempt with
      | Ret a => (Value a, [call attempt])
      | Raise e =>
          if negb (is_retryable_db_error e) || (attempts_left =? 0)%nat then (Raised e, [call attempt])
          else
            let '(r, t) := retry_loop call op attempts_left (S attempt) (delay * 2) in
            (r, call attempt :: Slept delay :: t)
      end
  end.

Definition run_db_operation_with_retry {A} (call : nat -> event) (op : nat -> outcome nat A) (max_attempts : nat)
    (initial_delay : Z) : retry_result A * list event :=
  retry_loop call op max_attempts 1 initial_delay.

Definition run_db_read_with_primary_fallback {A} (read primary : nat -> outcome nat A)
    (read_max_attempts primary_max_attempts : nat) (initial_delay : Z) : retry_result A * list event :=
  let '(r, t) := run_db_operation_with_retry Called read read_max_attempts initial_delay in
  match r with
  | Value a => (Value a, t)
  | LoopExhausted => (LoopExhausted, t)
  | Raised e =>
      if negb (is_retryable_db_error e) then (Raised e, t)
      else
        let '(r', t') := run_db_operation_with_retry PrimaryCalled primary primary_max_attempts initial_delay in
        (r', t ++ Fallback e :: t')%list
  end.

(** ** The walk visits exactly what is reachable *)

Definition refers (successors : exn -> list nat) (i j : nat) : Prop :=
  exists e, heap !! i = Some e /\ j ∈ successors e.
Definition reachable (successors : exn -> list nat) : nat -> nat -> Prop := rtc (refers successors).

(** References of the objects not seen yet. *)
Definition unseen (successors : exn -> list nat) (seen : list nat) : nat :=
  list_sum (imap (fun i e => if memb i seen then 0%nat else length (successors e)) heap).

Lemma list_sum_imap_le {A} (f g : nat -> A -> nat) l :
  (forall i x, f i x <= g i x)%nat -> (list_sum (imap f l) <= list_sum (imap g l))%nat.
Proof.
  revert f g. induction l as [|x l IH]; intros f g H; [done|]. cbn [imap list_sum foldr].
  specialize (IH (f ∘ S) (g ∘ S) (fun i y => H (S i) y)). specialize (H 0%nat x).
  unfold list_sum in IH. cbn. lia.
Qed.

Lemma unseen_visit successors seen i e : heap !! i = Some e -> i ∉ seen ->
  (length (successors e) + unseen successors (i :: seen) <= unseen successors seen)%nat.
Proof.
  unfold unseen. intros Hi Hn.
  assert (forall (l : list exn) f g, l !! i = Some e -> (forall j x, g j x <= f j x)%nat ->
    (g i e + length (successors e) <= f i e)%nat ->
    (length (successors e) + list_sum (imap g l) <= list_sum (imap f l))%nat) as H.
  { clear Hi Hn. induction i as [|i IH]; intros [|x l] f g Hl Hle He; try done; cbn [imap]; unfold list_sum in *; cbn.
    - injection Hl as ->. pose proof (list_sum_imap_le (g ∘ S) (f ∘ S) l (fun i y => Hle (S i) y)) as Hr.
      unfold list_sum in Hr. lia.
    - specialize (IH l (f ∘ S) (g ∘ S) Hl (fun i y => Hle (S i) y) He). specialize (Hle 0%nat x). lia. }
  apply H; [done| |].
  - intros j x. destruct (memb j seen) eqn:Es.
    + apply memb_true in Es. assert (memb j (i :: seen) = true) as -> by (apply memb_true; set_solver). lia.
    + destruct (memb j (i :: seen)); lia.
  - assert (memb i (i :: seen) = true) as -> by (apply memb_true; set_solver). by apply memb_false in Hn as ->.
Qed.

Lemma walk_total {A} successors (visit : nat -> exn -> option A) fuel : forall stack seen,
  (length stack + unseen successors seen <= fuel)%nat -> walk fuel successors visit stack seen <> None.
Proof.
  induction fuel as [|fuel IH]; intros [|i stack] seen Hf; cbn [walk]; try done; cbn [length] in Hf; [lia|].
  destruct (memb i seen) eqn:Es; [apply IH; lia|]. apply memb_false in Es.
  destruct (heap !! i) as [e|] eqn:Ei.
  - destruct (visit i e); [done|]. apply IH. rewrite length_app, length_reverse.
    pose proof (unseen_visit successors seen i e Ei Es). lia.
  - apply IH. assert (unseen successors (i :: seen) <= unseen successors seen)%nat; [|lia].
    apply list_sum_imap_le. intros j x. destruct (memb j seen) eqn:Ej.
    + apply memb_true in Ej. assert (memb j (i :: seen) = true) as -> by (apply memb_true; set_solver). lia.
    + destruct (memb j (i :: seen)); lia.
Qed.

(** The walk's result comes from a reachable object, and when it has none every
    reachable object was visited without one. *)
Lemma walk_sound {A} successors (visit : nat -> exn -> option A) fuel : forall stack seen r,
  walk fuel successors visit stack seen = Some (Some r) ->
  exists i j e, i ∈ stack /\ reachable successors i j /\ heap !! j = Some e /\ visit j e = Some r.
Proof.
  induction fuel as [|fuel IH]; intros [|i stack] seen r; cbn [walk]; try done.
  destruct (memb i seen); [|destruct (heap !! i) as [e|] eqn:Ei; [destruct (visit i e) eqn:Ev|]].
  - intros (a & j & e & Ha & H)%IH. exists a, j, e. split; [set_solver|done].
  - intros [= <-]. exists i, i, e. split_and!; [set_solver|apply rtc_refl|done..].
  - intros (a & j & e' & Ha & Hr & H)%IH. apply elem_of_app in Ha as [Ha|Ha].
    + exists i, j, e'. split_and!; [set_solver| |apply H..]. eapply rtc_l; [|exact Hr]. exists e.
      split; [done|]. by apply elem_of_reverse.
    + exists a, j, e'. split; [set_solver|done].
  - intros (a & j & e & Ha & H)%IH. exists a, j, e. split; [set_solver|done].
Qed.

Definition explored {A} (successors : exn -> list nat) (visit : nat -> exn -> option A) (seen stack : list nat) : Prop :=
  forall a e, a ∈ seen -> heap !! a = Some e -> visit a e = None /\ forall b, b ∈ successors e -> b ∈ seen \/ b ∈ stack.

Lemma walk_complete {A} successors (visit : nat -> exn -> option A) fuel : forall stack seen,
  explored successors visit seen stack -> walk fuel successors visit stack seen = Some None ->
  forall i j e, i ∈ seen \/ i ∈ stack -> reachable successors i j -> heap !! j = Some e -> visit j e = None.
Proof.
  induction fuel as [|fuel IH]; intros [|i stack] seen Hx; cbn [walk]; try done;
    try (intros _ a j e Ha Hr; assert (a ∈ seen) as Ha' by set_solver; clear Ha; revert Ha';
         induction Hr as [a|a b j [e' [He' Hb]] _ IHr]; intros Ha He;
         [by apply (Hx a e)|apply IHr; [|done]; destruct (proj2 (Hx a e' Ha He') b Hb); set_solver]).
  destruct (memb i seen) eqn:Es; [apply memb_true in Es|destruct (heap !! i) as [e0|] eqn:Ei; [destruct (visit i e0) eqn:Ev; [done|]|]];
    intros Hw a j e Ha.
  - eapply IH; [|exact Hw|set_solver]. intros b e' Hb He'. destruct (Hx b e' Hb He') as [H1 H2].
    split; [done|]. intros c Hc. destruct (H2 c Hc); set_solver.
  - eapply IH; [|exact Hw|set_solver]. intros b e' Hb He'. apply elem_of_cons in Hb as [->|Hb].
    + rewrite Ei in He'. injection He' as <-. split; [done|]. intros c Hc. right. apply elem_of_app. left. by apply elem_of_reverse.
    + destruct (Hx b e' Hb He') as [H1 H2]. split; [done|]. intros c Hc. destruct (H2 c Hc); set_solver.
  - eapply IH; [|exact Hw|set_solver]. intros b e' Hb He'. apply elem_of_cons in Hb as [->|Hb]; [by rewrite Ei in He'|].
    destruct (Hx b e' Hb He') as [H1 H2]. split; [done|]. intros c Hc. destruct (H2 c Hc); set_solver.
Qed.

Lemma unseen_all successors : unseen successors [] = length (flat_map successors heap).
Proof.
  unfold unseen. induction heap as [|e l IH]; [done|]. cbn [imap flat_map]. rewrite length_app, <- IH.
  unfold list_sum. cbn. done.
Qed.

(** From one object, with the fuel of the code's walks. *)
Lemma walk_from {A} successors (visit : nat -> exn -> option A) i :
  match walk (walk_fuel successors) successors visit [i] [] with
  | Some (Some r) => exists j e, reachable successors i j /\ heap !! j = Some e /\ visit j e = Some r
  | Some None => forall j e, reachable successors i j -> heap !! j = Some e -> visit j e = None
  | None => False
  end.
Proof.
  pose proof (walk_total successors visit (walk_fuel successors) [i] []) as Ht.
  pose proof (walk_complete successors visit (walk_fuel successors) [i] []) as Hc.
  pose proof (walk_sound successors visit (walk_fuel successors) [i] []) as Hs.
  destruct (walk _ _ _ _ _) as [[r|]|].
  - destruct (Hs r eq_refl) as (a & j & e & Ha & H). apply list_elem_of_singleton in Ha as ->. by exists j, e.
  - intros j e. apply Hc; [|done|set_solver]. intros a e' Ha. set_solver.
  - apply Ht; [|done]. rewrite unseen_all. unfold walk_fuel. cbn. lia.
Qed.

Lemma pool_exhaustion_exact i :
  is_sqlalchemy_pool_exhaustion_error i = true <->
  exists j e, reachable walk_successors i j /\ heap !! j = Some e /\ pool_exhausted e = true.
Proof.
  unfold is_sqlalchemy_pool_exhaustion_error.
  pose proof (walk_from walk_successors (fun _ e => if pool_exhausted e then Some tt else None) i) as H.
  destruct (walk _ _ _ _ _) as [[[]|]|]; [|split; [done|]|done].
  - split; [|done]. intros _. destruct H as (j & e & Hr & He & Hv). exists j, e. by destruct (pool_exhausted e).
  - intros (j & e & Hr & He & Hp). specialize (H j e Hr He). by rewrite Hp in H.
Qed.

(** An exception that is transient by itself. *)
Definition transient (e : exn) : bool :=
  is_connection_or_timeout e || is_pool_timeout e || is_interface_error e || is_pending_rollback e ||
  (is_dbapi_error e && connection_invalidated e) || is_asyncpg_gone e || has_retryable_marker e.

Lemma reachable_walk_retry i j : reachable walk_successors i j -> reachable retry_successors i j.
Proof.
  intros H. induction H as [|a b j [e [He Hb]] _ IH]; [apply rtc_refl|]. eapply rtc_l; [|exact IH].
  exists e. split; [done|]. unfold retry_successors. apply elem_of_app. by left.
Qed.

Lemma retryable_visit_true i e : retryable_visit i e = Some true -> transient e = true.
Proof. unfold retryable_visit, transient. repeat case_match; rewrite ?orb_true_r; done. Qed.

Lemma retryable_visit_transient i e :
  is_sqlalchemy_pool_exhaustion_error i = false -> retryable_visit i e = if transient e then Some true else None.
Proof.
  intros Hp. unfold retryable_visit, transient. rewrite Hp.
  destruct (is_connection_or_timeout e), (is_pool_timeout e), (is_interface_error e), (is_pending_rollback e),
    (is_dbapi_error e && connection_invalidated e), (is_asyncpg_gone e), (has_retryable_marker e); done.
Qed.

(** An error is retried only when no saturated connection pool is among
    its causes, contexts and group members and some exception it leads to is
    transient; when no saturated pool is reachable at all, that is exact.  The
    walks end on every graph of exceptions, cyclic ones included. *)
Theorem retryable_exact (i : nat) :
  (is_retryable_db_error i = true ->
    (forall j e, reachable walk_successors i j -> heap !! j = Some e -> pool_exhausted e = false) /\
    exists j e, reachable retry_successors i j /\ heap !! j = Some e /\ transient e = true) /\
  ((forall j e, reachable retry_successors i j -> heap !! j = Some e -> pool_exhausted e = false) ->
    (is_retryable_db_error i = true <->
     exists j e, reachable retry_successors i j /\ heap !! j = Some e /\ transient e = true)).
Proof.
  pose proof (pool_exhaustion_exact i) as Hpool. pose proof (walk_from retry_successors retryable_visit i) as Hw.
  unfold is_retryable_db_error. split.
  - destruct (is_sqlalchemy_pool_exhaustion_error i) eqn:Ep; [done|].
    destruct (walk _ _ _ _ _) as [[[]|]|]; try done. intros _. split.
    + intros j e Hr He. destruct (pool_exhausted e) eqn:Ee; [|done]. by assert (false = true) by (apply Hpool; eauto).
    + destruct Hw as (j & e & Hr & He & Hv). exists j, e. split_and!; try done. by eapply retryable_visit_true.
  - intros Hclean. assert (forall j, reachable retry_successors i j -> is_sqlalchemy_pool_exhaustion_error j = false) as Hj.
    { intros j Hr. destruct (is_sqlalchemy_pool_exhaustion_error j) eqn:E; [|done].
      apply pool_exhaustion_exact in E as (k & e & Hk & He & Hp).
      rewrite (Hclean k e) in Hp; [done| |done]. etrans; [exact Hr|]. by apply reachable_walk_retry. }
    rewrite (Hj i) by apply rtc_refl. destruct (walk _ _ _ _ _) as [[b|]|]; [| |done].
    + destruct Hw as (j & e & Hr & He & Hv). rewrite retryable_visit_transient in Hv by (by apply Hj).
      destruct (transient e) eqn:Et; [|done]. injection Hv as <-. split; [|done]. intros _. by exists j, e.
    + split; [done|]. intros (j & e & Hr & He & Ht). specialize (Hw j e Hr He).
      rewrite retryable_visit_transient, Ht in Hw by (by apply Hj). done.
Qed.

(** ** The loop *)

(** The calls from attempt [n] on, [k] of them, with doubling delays between. *)
Fixpoint attempts (call : nat -> event) (n k : nat) (delay : Z) : list event :=
  match k with
  | O => []
  | S O => [call n]
  | S k => call n :: Slept delay :: attempts call (S n) k (delay * 2)
  end.

(** How the loop ends with the [k]-th of the calls from [n] on. *)
Definition ends_with {A} (op : nat -> outcome nat A) (n k last : nat) (r : retry_result A) : Prop :=
  (forall m, (m < k)%nat -> exists e, op (n + m)%nat = Raise e /\ is_retryable_db_error e = true) /\
  match op (n + k)%nat with
  | Ret a => r = Value a
  | Raise e => r = Raised e /\ (is_retryable_db_error e = false \/ k = last)
  end.

Lemma retry_loop_spec {A} call (op : nat -> outcome nat A) left : forall n delay,
  exists k, (k <= left)%nat /\
    (retry_loop call op (S left) n delay).2 = attempts call n (S k) delay /\
    ends_with op n k left (retry_loop call op (S left) n delay).1.
Proof.
  induction left as [|left IH]; intros n delay; unfold ends_with.
  - exists 0%nat. cbn. rewrite Nat.add_0_r. destruct (op n) as [a|e] eqn:E.
    + split_and!; [lia|done|intros; lia|done].
    + rewrite orb_true_r. split_and!; [lia|done|intros; lia|done|by right].
  - remember (S left) as L. cbn [retry_loop]. subst L. destruct (op n) as [a|e] eqn:E.
    + exists 0%nat. rewrite Nat.add_0_r, E. split_and!; [lia|done|intros; lia|done].
    + destruct (is_retryable_db_error e) eqn:Er; cbn [negb orb].
      * change (S left =? 0)%nat with false. cbn iota.
        destruct (IH (S n) (delay * 2)%Z) as (k & Hk & Ht & Hb & He).
        destruct (retry_loop call op (S left) (S n) (delay * 2)) as [r t]. cbn [fst snd] in *. subst t.
        exists (S k). split; [lia|]. split; [done|]. rewrite <- Nat.add_succ_comm. split.
        -- intros [|m] Hm; [exists e; by rewrite Nat.add_0_r|]. rewrite <- Nat.add_succ_comm. apply Hb. lia.
        -- destruct (op (S n + k)%nat); [done|]. destruct He as [-> [?| ->]]; auto.
      * exists 0%nat. rewrite Nat.add_0_r, E. split_and!; [lia|done|intros; lia|done|by left].
Qed.

(** The retry loop with at least one attempt calls the operation once more
    after each transient error, waiting twice as long each time, up to the
    limit; it returns the first value or raises the last error, never the
    error after the loop.  A read falls back to the primary exactly when its
    last error is transient, with its own attempts. *)
Theorem retries_exact {A : Type} (read primary : nat -> outcome nat A) (rmax pmax : nat) (delay : Z) :
  exists k, (k <= rmax)%nat /\
    let read_run := run_db_operation_with_retry Called read (S rmax) delay in
    read_run.2 = attempts Called 1 (S k) delay /\ ends_with read 1 k rmax read_run.1 /\
    let both := run_db_read_with_primary_fallback read primary (S rmax) (S pmax) delay in
    match read_run.1 with
    | Raised e =>
        if is_retryable_db_error e
        then exists j, (j <= pmax)%nat /\
               both.2 = (attempts Called 1 (S k) delay ++ Fallback e :: attempts PrimaryCalled 1 (S j) delay)%list /\
               ends_with primary 1 j pmax both.1
        else both = read_run
    | Value a => both = read_run
    | LoopExhausted => False
    end.
Proof.
  unfold run_db_read_with_primary_fallback, run_db_operation_with_retry.
  destruct (retry_loop_spec Called read rmax 1 delay) as (k & Hk & Ht & Hb & He).
  exists k. split; [done|]. destruct (retry_loop Called read (S rmax) 1 delay) as [r t]. cbn [fst snd] in *. subst t.
  split; [done|]. split; [done|].
  destruct (read (1 + k)%nat) as [a|e]; [by subst r|]. destruct He as [-> He].
  destruct (is_retryable_db_error e) eqn:Er; [|done]. cbn [negb].
  destruct (retry_loop_spec PrimaryCalled primary pmax 1 delay) as (j & Hj & Ht & Hp).
  destruct (retry_loop PrimaryCalled primary (S pmax) 1 delay) as [r t]. cbn [fst snd] in *. subst t.
  by exists j.
Qed.
End Heap.

(** ** Instances at concrete inputs *)

Definition plain (msg : string) (c : option nat) : exn :=
  mkExn false false false false false false false msg c None [] None.
(** 0 and 1 refer to each other; 1 is a lost connection; 2 is an unrelated error. *)
Definition heap_example : list exn := [plain "query failed" (Some 1%nat); plain "Broken pipe" (Some 0%nat); plain "no such column" None].

Example retryable_example :
  map (is_retryable_db_error heap_example) [0; 1; 2]%nat = [true; true; false].
Proof. vm_compute. reflexivity. Qed.

Example fallback_example :
  run_db_read_with_primary_fallback heap_example (fun _ => Raise 0%nat) (fun n => if (n =? 2)%nat then Ret 7%nat else Raise 1%nat) 2 2 5 =
  (Value 7%nat, [Called 1; Slept 5; Called 2; Fallback 0; PrimaryCalled 1; Slept 5; PrimaryCalled 2]).
Proof. vm_compute. reflexivity. Qed.
