(* ===== verification/RedisWrapper.v ===== *)
(** * The Redis client (db/redis_database.py)

    Every Redis command of the server goes through [RedisWrapper]: the retry
    loop, the body made by [_create_method], which turns errors into a default
    reply, and a circuit breaker around it.  A command is a function of the
    server's state; a request may fail before it reaches the server, or after
    it took effect, when only the reply is lost, and other clients change the
    server's state before every request.  redis-py retries too
    ([retry_on_timeout] and [retry_on_error] of the connection), so one attempt of
    the loop may send the command several times.  Calls interleave where they are
    awaited: before the body the breaker is asked, after it the breaker is told. *)

From S2P Require Export Redis.
Local Open Scope string_scope.
Local Open Scope Z_scope.

(** ** Exceptions and replies *)

Inductive redis_exn :=
  | ConnectionError
  | TimeoutError
  | RuntimeError
  | OtherException  (* any other [Exception] *)
  | Cancelled.  (* [CancelledError], a [BaseException] that no handler here catches *)

(** [expected_exception] of the breaker, and the classes the retry loop catches. *)
Definition expected_exception (e : redis_exn) : bool :=
  match e with ConnectionError | TimeoutError | RuntimeError => true | _ => false end.

(** [except Exception] *)
Definition is_exception (e : redis_exn) : bool := match e with Cancelled => false | _ => true end.

(** A reply, as the Python value the client gives. *)
Inductive reply :=
  | RNone
  | RVal (v : value)
  | RSet (l : list value)
  | RTuple (l : list value).

Definition reply_or (default_return v : reply) : reply := match v with RNone => default_return | _ => v end.

(** ** The circuit breaker *)

Inductive CircuitBreakerState := CLOSED | OPEN | HALF_OPEN.

Definition state_value (s : CircuitBreakerState) : string :=
  match s with CLOSED => "closed" | OPEN => "open" | HALF_OPEN => "half_open" end.

Record RedisCircuitBreaker := mkBreaker {
  failure_threshold : Z;
  recovery_timeout : Z;
  failure_count : Z;
  last_failure_time : option Z;
  state : CircuitBreakerState;
}.

Definition redis_circuit_breaker : RedisCircuitBreaker := mkBreaker 5 60 0 None CLOSED.

Definition with_state (s : CircuitBreakerState) (cb : RedisCircuitBreaker) : RedisCircuitBreaker :=
  mkBreaker (failure_threshold cb) (recovery_timeout cb) (failure_count cb) (last_failure_time cb) s.

(** [0.0] as a time counts as none. *)
Definition should_attempt_reset (now : Z) (cb : RedisCircuitBreaker) : bool :=
  match last_failure_time cb with
  | Some t => if t =? 0 then true else recovery_timeout cb <? now - t
  | None => true
  end.

Definition on_success (cb : RedisCircuitBreaker) : RedisCircuitBreaker :=
  mkBreaker (failure_threshold cb) (recovery_timeout cb) 0 (last_failure_time cb) CLOSED.

Definition on_failure (now : Z) (cb : RedisCircuitBreaker) : RedisCircuitBreaker :=
  let n := failure_count cb + 1 in
  mkBreaker (failure_threshold cb) (recovery_timeout cb) n (Some now)
    (if failure_threshold cb <=? n then OPEN else state cb).

(** The wrapper of [call] up to the call of the function; [None] when the
    call is skipped. *)
Definition enter (now : Z) (cb : RedisCircuitBreaker) : option RedisCircuitBreaker :=
  match state cb with
  | OPEN => if should_attempt_reset now cb then Some (with_state HALF_OPEN cb) else None
  | _ => Some cb
  end.

(** From the function's result on. *)
Definition leave (now : Z) (result : outcome redis_exn reply) (cb : RedisCircuitBreaker) :
    outcome redis_exn reply * RedisCircuitBreaker :=
  match result with
  | Ret v => (Ret v, on_success cb)
  | Raise e =>
      if expected_exception e then (Ret RNone, on_failure now cb)
      else if is_exception e then (Ret RNone, cb)
      else (Raise e, cb)
  end.

(** ** The retry loop *)

(** What becomes of a request. *)
Inductive fate :=
  | Answered
  | ReplyLost (e : redis_exn)  (* the command was executed *)
  | NotSent (e : redis_exn).

Inductive retry_event :=
  | Attempted (n : nat)
  | Slept (delay : Z).

Section Client.
Context {R : Type}.

(** A command on the server: its effect and its reply. *)
Definition command := R -> R * reply.

(** One attempt of the loop: the executions whose reply redis-py did not get and
    that it repeated by itself, each with what other clients did before it; what
    they did before the last request, and the fate of that request. *)
Record exchange := mkExchange { unanswered : list (R -> R); meanwhile : R -> R; fate_of : fate }.

(** What other clients did in an attempt. *)
Definition actions (x : exchange) : list (R -> R) := (unanswered x ++ [meanwhile x])%list.

Definition send (cmd : command) (x : exchange) (r : R) : outcome redis_exn reply * R :=
  let r := meanwhile x (foldl (fun r o => (cmd (o r)).1) r (unanswered x)) in
  match fate_of x with
  | Answered => (Ret (cmd r).2, (cmd r).1)
  | ReplyLost e => (Raise e, (cmd r).1)
  | NotSent e => (Raise e, r)
  end.

(** [_execute_with_retry_async]: [tries] tells what happens in each attempt,
    [cancelled] whether the task is cancelled in the sleep after it.  Raising
    [last_exception] when it is [None] is a [TypeError]. *)
Fixpoint execute_from (delay : Z) (tries : nat -> exchange) (cancelled : nat -> bool) (cmd : command)
    (attempts_left attempt : nat) (last_exception : option redis_exn) (r : R) :
    outcome redis_exn reply * R * list retry_event :=
  match attempts_left with
  | O => (Raise (default OtherException last_exception), r, [])
  | S attempts_left =>
      match send cmd (tries attempt) r with
      | (Ret v, r') => (Ret v, r', [Attempted attempt])
      | (Raise e, r') =>
          if negb (expected_exception e) then (Raise e, r', [Attempted attempt])
          else if (attempts_left =? 0)%nat then (Raise e, r', [Attempted attempt])
          else if cancelled attempt then (Raise Cancelled, r', [Attempted attempt])
          else
            let '(res, r'', t) := execute_from delay tries cancelled cmd attempts_left (S attempt) (Some e) r' in
            (res, r'', Attempted attempt :: Slept (delay * 2 ^ Z.of_nat attempt) :: t)
      end
  end.

Definition execute_with_retry (redis_retry_attempts : nat) (redis_retry_delay : Z) (tries : nat -> exchange)
    (cancelled : nat -> bool) (cmd : command) (r : R) : outcome redis_exn reply * R * list retry_event :=
  execute_from redis_retry_delay tries cancelled cmd redis_retry_attempts 0 None r.

(** ** The methods *)

(** The body made by [_create_method], without the breaker. *)
Definition method_result (default_return : reply) (res : outcome redis_exn reply) : outcome redis_exn reply :=
  match res with
  | Ret v => Ret (reply_or default_return v)
  | Raise e => if is_exception e then Ret default_return else Raise e
  end.

(** The body of [ping].  It calls [_execute_with_retry_async] without the
    operation's name, a required parameter, so the call itself is a
    [TypeError] and no request is made. *)
Definition ping_execute : outcome redis_exn reply := Raise OtherException.
Definition ping_result : outcome redis_exn reply :=
  match ping_execute with
  | Ret v => Ret (RVal (VBool (match v with RVal (VBool b) => b | _ => false end)))
  | Raise e => if is_exception e then Ret (RVal (VBool false)) else Raise e
  end.

Definition ping (now now' : Z) (cb : RedisCircuitBreaker) : outcome redis_exn reply * RedisCircuitBreaker :=
  match enter now cb with
  | None => (Ret RNone, cb)
  | Some cb => leave now' ping_result cb
  end.

Definition create_method (attempts : nat) (delay : Z) (tries : nat -> exchange) (cancelled : nat -> bool)
    (default_return : reply) (cmd : command) (r : R) : outcome redis_exn reply * R :=
  let '(res, r', _) := execute_with_retry attempts delay tries cancelled cmd r in
  (method_result default_return res, r').

(** A call, from the breaker's test to its update. *)
Definition call (now now' : Z) (attempts : nat) (delay : Z) (tries : nat -> exchange) (cancelled : nat -> bool)
    (default_return : reply) (cmd : command) (r : R) (cb : RedisCircuitBreaker) :
    outcome redis_exn reply * R * RedisCircuitBreaker :=
  match enter now cb with
  | None => (Ret RNone, r, cb)
  | Some cb =>
      let '(res, r') := create_method attempts delay tries cancelled default_return cmd r in
      let '(res, cb) := leave now' res cb in
      (res, r', cb)
  end.
End Client.
Arguments exchange : clear implicits.

(** What each method passes as [default_return]; [ping], [lock], [pipeline]
    and [scan_iter] are not made by [_create_method]. *)
Definition default_returns : list (string * reply) :=
  [("get", RNone); ("mget", RVal (VList [])); ("getex", RNone); ("set", RVal (VBool false));
   ("setex", RVal (VBool false)); ("delete", RVal (VInt 0)); ("exists", RVal (VBool false)); ("hget", RNone);
   ("hset", RVal (VInt 0)); ("hsetnx", RVal (VBool false)); ("hincrby", RVal (VInt 0));
   ("hincrbyfloat", RVal (VFloat (S754_zero false))); ("hlen", RVal (VInt 0)); ("hgetall", RVal (VDict []));
   ("hmget", RVal (VList [])); ("hdel", RVal (VInt 0)); ("hscan", RTuple [VInt 0; VDict []]); ("zadd", RVal (VInt 0));
   ("zscore", RNone); ("zremrangebyscore", RVal (VInt 0)); ("zrevrangebyscore", RVal (VList []));
   ("zrem", RVal (VInt 0)); ("sadd", RVal (VInt 0)); ("sismember", RVal (VBool false)); ("srem", RVal (VInt 0));
   ("smembers", RSet []); ("scard", RVal (VInt 0)); ("lrange", RVal (VList [])); ("lpush", RVal (VInt 0));
   ("rpush", RVal (VInt 0)); ("ltrim", RVal (VBool false)); ("llen", RVal (VInt 0)); ("keys", RVal (VList []));
   ("expire", RVal (VBool false)); ("execute", RNone); ("incr", RVal (VInt 0)); ("incrby", RVal (VInt 0));
   ("watch", RNone); ("unwatch", RNone); ("info", RVal (VDict [])); ("type", RVal (VStr "none")); ("ttl", RVal (VInt (-2)));
   ("zcard", RVal (VInt 0)); ("zrange", RVal (VList [])); ("zrevrange", RVal (VList []));
   ("zremrangebyrank", RVal (VInt 0)); ("pfadd", RVal (VInt 0)); ("pfcount", RVal (VInt 0)); ("memory_usage", RNone);
   ("scan", RTuple [VInt 0; VList []])].

(** The arguments a method passes on: positional and by keyword. *)
Definition arguments := (list value * list (string * value))%type.

Definition hset_arguments (name : string) (key value' : value) (mapping : option (list (string * value))) : arguments :=
  match mapping with
  | Some ((_ :: _) as m) => ([VStr name], [("mapping", VDict m)])
  | _ => ([VStr name; key; value'], [])
  end.

(** The [match] and [count] of [scan], [hscan] and [scan_iter]: left out when falsy. *)
Definition scan_kwargs (match_ : option string) (count : option Z) : list (string * value) :=
  (match match_ with Some m => if str_empty m then [] else [("match", VStr m)] | None => [] end
   ++ match count with Some n => if n =? 0 then [] else [("count", VInt n)] | None => [] end)%list.

Definition hscan_arguments (name : string) (cursor : Z) (match_ : option string) (count : option Z) : arguments :=
  ([VStr name; VInt cursor], scan_kwargs match_ count).
Definition scan_arguments (cursor : Z) (match_ : option string) (count : option Z) : arguments :=
  ([VInt cursor], scan_kwargs match_ count).

Definition zrevrangebyscore_arguments (name : string) (max_score min_score : value) (start num : option Z)
    (withscores : bool) : arguments :=
  ([VStr name; max_score; min_score],
   (match start with Some z => [("start", VInt z)] | None => [] end
    ++ match num with Some z => [("num", VInt z)] | None => [] end
    ++ if withscores then [("withscores", VBool true)] else [])%list).

Definition info_arguments (section : option string) : arguments :=
  match section with Some s => if str_empty s then ([], []) else ([VStr s], []) | None => ([], []) end.

(** [_async_health_check], without the response time; [ping_reply] is what the
    call of [ping] gave. *)
Record health := mkHealth {
  status : string;
  circuit_breaker_state : string;
  reported_failure_count : Z;
}.

Definition reply_truthy (v : reply) : bool :=
  match v with
  | RNone => false
  | RVal v => truthy v
  | RSet l | RTuple l => match l with [] => false | _ => true end
  end.

Definition async_health_check (ping_reply : outcome redis_exn reply) (cb : RedisCircuitBreaker) : outcome redis_exn health :=
  let report s := mkHealth s (state_value (state cb)) (failure_count cb) in
  match ping_reply with
  | Ret v => Ret (report (if reply_truthy v then "healthy" else "unhealthy"))
  | Raise e => if is_exception e then Ret (report "error") else Raise e
  end.

(** [ensure_redis_available] of api/lifespan.py. *)
Definition ensure_redis_available (ping_reply : outcome redis_exn reply) : outcome redis_exn unit :=
  match ping_reply with
  | Ret _ => Ret tt
  | Raise e => if is_exception e then Raise RuntimeError else Raise e
  end.

(** [ready] of api/routers/stremio/core.py: the status code and the checks;
    [postgres] is what the query of the database gives. *)
Definition ready (ping_reply : outcome redis_exn reply) (postgres : outcome redis_exn unit) :
    outcome redis_exn (Z * list (string * string)) :=
  let check {A} (name : string) (res : outcome redis_exn A) : outcome redis_exn (bool * (string * string)) :=
    match res with
    | Ret _ => Ret (true, (name, "ok"))
    | Raise e => if is_exception e then Ret (false, (name, "unavailable")) else Raise e
    end in
  redis ← check "redis" ping_reply;
  db ← check "postgres" postgres;
  Ret (if redis.1 && db.1 then 200 else 503, [redis.2; db.2]).

(** ** One client for each event loop *)

(** [EventLoopAwareRedisClient._get_client] and [get_redis_async_client]: the
    clients by the id of their loop ([None]: no loop runs); [connect] makes a
    new one. *)
Definition get_client {C} (connect : unit -> C) (loop : option Z) (clients : gmap Z C) : C * gmap Z C :=
  let loop_id := default 0 loop in
  match clients !! loop_id with
  | Some c => (c, clients)
  | None => let c := connect tt in (c, <[loop_id := c]> clients)
  end.

(** ** Concurrent calls *)

(** The breaker, the number of calls in their body, and of calls skipped. *)
Record client_state := mkClient {
  breaker : RedisCircuitBreaker;
  in_flight : nat;
  skipped : nat;
}.

(** The result of a method's body or of [ping]'s, whatever happened to the requests. *)
Inductive body_result : outcome redis_exn reply -> Prop :=
  | body_method default_return res : body_result (method_result default_return res)
  | body_ping : body_result ping_result.

Inductive client_step : client_state -> client_state -> Prop :=
  | step_enter now cb cb' n k : enter now cb = Some cb' -> client_step (mkClient cb n k) (mkClient cb' (S n) k)
  | step_skip now cb n k : enter now cb = None -> client_step (mkClient cb n k) (mkClient cb n (S k))
  | step_leave now res out cb cb' n k :
      body_result res -> leave now res cb = (out, cb') -> client_step (mkClient cb (S n) k) (mkClient cb' n k).

(** ** The breaker *)

Lemma body_result_ret res : body_result res -> match res with Ret _ => True | Raise e => is_exception e = false end.
Proof. intros [d [v|e]|]; simpl; try done; by destruct (is_exception e) eqn:E. Qed.

(** What holds of the process's breaker and of the number of calls skipped. *)
Definition never_tripped (s : client_state) : Prop := breaker s = redis_circuit_breaker /\ skipped s = 0%nat.

Lemma client_step_never_tripped s s' : client_step s s' -> never_tripped s -> never_tripped s'.
Proof.
  unfold never_tripped. intros [now cb cb' n k He|now cb n k He|now res out cb cb' n k Hb Hl]; simpl; intros [-> ->].
  - by injection He as <-.
  - done.
  - pose proof (body_result_ret _ Hb) as Hr. unfold leave in Hl. destruct res as [v|e]; [by injection Hl as _ <-|].
    destruct e; try done. by injection Hl as _ <-.
Qed.

(** A bare function that keeps failing. *)
Definition failures (nows : list Z) (cb : RedisCircuitBreaker) : RedisCircuitBreaker :=
  foldl (fun cb now => (leave now (Raise ConnectionError) cb).2) cb nows.

Lemma failures_count nows : forall cb,
  failure_count (failures nows cb) = failure_count cb + Z.of_nat (length nows) /\
  failure_threshold (failures nows cb) = failure_threshold cb /\
  recovery_timeout (failures nows cb) = recovery_timeout cb.
Proof.
  induction nows as [|now nows IH]; intros cb; [cbn; lia|]. cbn [failures foldl length].
  change (foldl _ _ nows) with (failures nows (on_failure now cb)).
  destruct (IH (on_failure now cb)) as (-> & -> & ->). cbn [on_failure failure_count failure_threshold recovery_timeout]. lia.
Qed.

Lemma failures_skip nows last now cb :
  failure_threshold cb <= failure_count cb + Z.of_nat (S (length nows)) ->
  last <> 0 -> now - last <= recovery_timeout cb -> enter now (failures (nows ++ [last]) cb) = None.
Proof.
  intros Ht Hl Hn. unfold failures. rewrite foldl_app. change (foldl _ cb nows) with (failures nows cb).
  destruct (failures_count nows cb) as (H1 & H2 & H3).
  unfold enter. cbn [foldl leave expected_exception snd on_failure state]. rewrite H1, H2.
  destruct (_ <=? _) eqn:E; [|zbool; lia]. unfold should_attempt_reset. cbn. rewrite H3.
  destruct (last =? 0) eqn:E0; [zbool; lia|]. destruct (_ <? _) eqn:E1; [zbool; lia|done].
Qed.

Lemma reachable_never_tripped s n : rtc client_step (mkClient redis_circuit_breaker n 0) s -> never_tripped s.
Proof.
  intros Hs. assert (forall a b, rtc client_step a b -> never_tripped a -> never_tripped b) as H.
  { induction 1; eauto using client_step_never_tripped. }
  by apply (H _ _ Hs).
Qed.

(** The circuit breaker around the Redis client never opens.  Given any
    function that raises, the breaker does open after [failure_threshold]
    failures in a row and skips calls until [recovery_timeout] has passed; but
    whatever happens to the requests of the client's calls and however the
    calls interleave, the process's breaker stays in its initial state and no
    call is ever skipped, since each method turns its errors into a default
    reply before the breaker sees them. *)
Theorem breaker_never_opens (s : client_state) (n : nat) (cb : RedisCircuitBreaker) (nows : list Z) (last now : Z) :
  rtc client_step (mkClient redis_circuit_breaker n 0) s ->
  failure_threshold cb <= failure_count cb + Z.of_nat (S (length nows)) ->
  last <> 0 -> now - last <= recovery_timeout cb ->
  enter now (failures (nows ++ [last]) cb) = None /\
  breaker s = redis_circuit_breaker /\ skipped s = 0%nat /\ enter now (breaker s) = Some (breaker s).
Proof.
  intros Hs Ht Hl Hn. destruct (reachable_never_tripped _ _ Hs) as [Hb Hk].
  split; [by apply failures_skip|by rewrite Hb].
Qed.

(** Two calls at once, one of which fails; five bare failures. *)
Lemma breaker_never_opens_witness :
  enter 9 (failures ([1; 2; 3; 4] ++ [5]) redis_circuit_breaker) = None /\
  enter 9 redis_circuit_breaker = Some redis_circuit_breaker.
Proof.
  destruct (breaker_never_opens (mkClient redis_circuit_breaker 1 0) 0 redis_circuit_breaker [1; 2; 3; 4] 5 9)
    as (H1 & _ & _ & H2); [|done..|split; [exact H1|exact H2]].
  eapply rtc_l; [by eapply (step_enter 1)|]. eapply rtc_l; [by eapply (step_enter 2)|].
  apply rtc_once. eapply (step_leave 3 _ (Ret (RVal (VInt 0)))); [apply (body_method (RVal (VInt 0)) (Raise TimeoutError))|done].
Defined.

(** The checks that ask whether Redis is reachable always give the same
    answer, whatever the server does, at any point of any interleaving of
    calls: [ping] answers [False] without a request, so the start-up check
    passes, the readiness check says Redis is ok and depends on the database
    alone, and the health check says unhealthy with a closed breaker. *)
Theorem redis_checks_are_blind (s : client_state) (n : nat) (now now' : Z) (postgres : outcome redis_exn unit) :
  rtc client_step (mkClient redis_circuit_breaker n 0) s ->
  let pong := (ping now now' (breaker s)).1 in
  pong = Ret (RVal (VBool false)) /\
  ensure_redis_available pong = Ret tt /\
  (forall code checks, ready pong postgres = Ret (code, checks) ->
     dict_get "redis" checks = Some "ok" /\ (code = 200 <-> postgres = Ret tt)) /\
  async_health_check pong (breaker s) = Ret (mkHealth "unhealthy" "closed" 0).
Proof.
  intros Hs pong. destruct (reachable_never_tripped _ _ Hs) as [Hb _].
  assert (pong = Ret (RVal (VBool false))) as -> by (unfold pong; by rewrite Hb).
  split_and!; [done|done| |by rewrite Hb]. intros code checks. destruct postgres as [[]|e]; cbn.
  - by intros [= <- <-].
  - destruct (is_exception e); [|done]. cbn. by intros [= <- <-].
Qed.

(** The database is down too. *)
Lemma redis_checks_are_blind_witness :
  ready (ping 1 2 redis_circuit_breaker).1 (Raise ConnectionError) =
    Ret (503, [("redis", "ok"); ("postgres", "unavailable")]) /\
  ensure_redis_available (ping 1 2 redis_circuit_breaker).1 = Ret tt.
Proof.
  destruct (redis_checks_are_blind (mkClient redis_circuit_breaker 0 0) 0 1 2 (Raise ConnectionError)) as (_ & H & _);
    [apply rtc_refl|]. split; [reflexivity|exact H].
Defined.

(** ** The retries *)

Section Retries.
Context {R : Type}.
Implicit Types (cmd : @command R) (r : R).

Definition slept (t : list retry_event) : Z := foldr (fun e n => match e with Slept d => d + n | _ => n end) 0 t.
Definition attempts (t : list retry_event) : nat := foldr (fun e n => match e with Attempted _ => S n | _ => n end) 0%nat t.

Lemma execute_from_spec delay tries cancelled cmd left : forall attempt last r res r' t,
  execute_from delay tries cancelled cmd left attempt last r = (res, r', t) ->
  (attempts t <= left)%nat /\ ((0 < left)%nat -> (0 < attempts t)%nat) /\
  (slept t = delay * 2 ^ Z.of_nat attempt * (2 ^ (Z.of_nat (attempts t) - 1) - 1) \/ left = 0%nat).
Proof.
  induction left as [|left IH]; intros attempt last r res r' t; cbn [execute_from].
  { intros [= <- <- <-]. split_and!; cbn [attempts slept foldr]; [lia|lia|by right]. }
  destruct (send cmd (tries attempt) r) as [r1 r1'] eqn:Es.
  assert (forall w, (w, r1', [Attempted attempt]) = (res, r', t) ->
    (attempts t <= S left)%nat /\ ((0 < S left)%nat -> (0 < attempts t)%nat) /\
    (slept t = delay * 2 ^ Z.of_nat attempt * (2 ^ (Z.of_nat (attempts t) - 1) - 1) \/ S left = 0%nat)) as Hend.
  { intros w [= <- <- <-]. cbn [attempts slept foldr]. split_and!; [lia|lia|left; cbn; lia]. }
  destruct r1 as [v|e]; [apply Hend|].
  destruct (negb (expected_exception e)); [apply Hend|].
  destruct (left =? 0)%nat eqn:El; [apply Hend|].
  destruct (cancelled attempt); [apply Hend|].
  destruct (execute_from _ _ _ _ left (S attempt) (Some e) r1') as [[res1 r2] t1] eqn:Ee.
  apply Nat.eqb_neq in El. intros [= <- <- <-].
  apply IH in Ee as (Ha & Hp & Hs). clear IH Hend. cbn [attempts slept foldr].
  fold (attempts t1) (slept t1). split_and!; [lia|lia|].
  left. destruct Hs as [->|]; [|done]. specialize (Hp ltac:(lia)).
  replace (Z.of_nat (S attempt)) with (Z.of_nat attempt + 1) by lia.
  replace (Z.of_nat (S (attempts t1)) - 1) with ((Z.of_nat (attempts t1) - 1) + 1) by lia.
  rewrite !Z.pow_add_r by lia. ring.
Qed.

(** The retry loop of the client makes between one request and
    [redis_retry_attempts], and after [k] requests it has slept exactly the sum
    of the doubling delays between them, [delay * (2^(k-1) - 1)], hence at most
    [delay * (2^(redis_retry_attempts-1) - 1)]. *)
Theorem retry_bounds (redis_retry_attempts : nat) delay tries cancelled cmd r res r' t :
  (0 < redis_retry_attempts)%nat -> 0 <= delay ->
  execute_with_retry redis_retry_attempts delay tries cancelled cmd r = (res, r', t) ->
  (1 <= attempts t <= redis_retry_attempts)%nat /\
  slept t = delay * (2 ^ (Z.of_nat (attempts t) - 1) - 1) /\
  slept t <= delay * (2 ^ (Z.of_nat redis_retry_attempts - 1) - 1).
Proof.
  intros Hn Hd He. apply execute_from_spec in He as (Ha & Hp & Hs). specialize (Hp Hn).
  destruct Hs as [Hs|]; [|lia]. change (2 ^ Z.of_nat 0) with 1 in Hs. rewrite Z.mul_1_r in Hs.
  split_and!; [lia|lia|done|]. rewrite Hs. apply Z.mul_le_mono_nonneg_l; [done|].
  apply Z.sub_le_mono_r, Z.pow_le_mono_r; lia.
Qed.

(** *** The atomic call *)

(** Other clients' actions, one after the other. *)
Definition run (os : list (R -> R)) r : R := foldl (fun r o => o r) r os.

Lemma run_snoc os o r : run (os ++ [o]) r = o (run os r).
Proof. unfold run. by rewrite foldl_app. Qed.

(** What a caller of a command is promised, while other clients do [os]: the
    command is executed once between two of their actions and answered with its
    own reply, or with the default when the reply is [None]; or executed once and
    answered with the default, the reply being lost; or not executed and answered
    with the default; or the caller was cancelled. *)
Inductive atomic_call cmd (default_return : reply) (os : list (R -> R)) r : outcome redis_exn reply -> R -> Prop :=
  | atomic_done os1 os2 : os = (os1 ++ os2)%list ->
      atomic_call cmd default_return os r (Ret (reply_or default_return (cmd (run os1 r)).2)) (run os2 (cmd (run os1 r)).1)
  | atomic_unsure os1 os2 : os = (os1 ++ os2)%list ->
      atomic_call cmd default_return os r (Ret default_return) (run os2 (cmd (run os1 r)).1)
  | atomic_not_done : atomic_call cmd default_return os r (Ret default_return) (run os r)
  | atomic_cancelled os1 os2 : os = (os1 ++ os2)%list ->
      atomic_call cmd default_return os r (Raise Cancelled) (run os2 (cmd (run os1 r)).1)
  | atomic_cancelled_before : atomic_call cmd default_return os r (Raise Cancelled) (run os r).

Definition read_only cmd : Prop := forall r, (cmd r).1 = r.

(** After an execution and then [o], a second execution changes nothing and is
    answered like the first. *)
Definition repeatable cmd (o : R -> R) : Prop := forall r, cmd (o (cmd r).1) = (o (cmd r).1, (cmd r).2).

Lemma repeatable_run cmd o os r : Forall (repeatable cmd) os -> repeatable cmd o ->
  cmd (o (run os (cmd r).1)) = (o (run os (cmd r).1), (cmd r).2).
Proof.
  intros Hos Ho. cut (exists q, run os (cmd r).1 = (cmd q).1 /\ (cmd q).2 = (cmd r).2).
  { intros (q & -> & <-). apply Ho. }
  revert r. induction Hos as [|o' os Ho' Hos IH]; intros r; [by exists r|].
  change (run (o' :: os) (cmd r).1) with (run os (o' (cmd r).1)).
  destruct (IH (o' (cmd r).1)) as (q & E1 & E2). rewrite (Ho' r) in E1, E2. exists q. by rewrite <- E1, E2.
Qed.

(** Where a call stands: executed so far, with its reply, or not. *)
Definition stands cmd r (os : list (R -> R)) (o : option reply) (r' : R) : Prop :=
  match o with
  | None => r' = run os r
  | Some v => exists os1 os2, os = (os1 ++ os2)%list /\ r' = run os2 (cmd (run os1 r)).1 /\ v = (cmd (run os1 r)).2
  end.

Lemma stands_other cmd r os o r' x : stands cmd r os o r' -> stands cmd r (os ++ [x]) o (x r').
Proof.
  destruct o as [v|]; cbn; [|by intros ->; rewrite run_snoc].
  intros (os1 & os2 & -> & -> & ->). exists os1, (os2 ++ [x])%list. by rewrite <- app_assoc, run_snoc.
Qed.

Definition benign cmd (os : list (R -> R)) : Prop := read_only cmd \/ Forall (repeatable cmd) os.

Lemma stands_executed cmd r os o r' x : benign cmd (os ++ [x]) -> stands cmd r os o r' ->
  stands cmd r (os ++ [x]) (Some (cmd (x r')).2) (cmd (x r')).1.
Proof.
  assert (Hfirst : r' = run os r -> stands cmd r (os ++ [x]) (Some (cmd (x r')).2) (cmd (x r')).1).
  { intros ->. exists (os ++ [x])%list, []. by rewrite app_nil_r, run_snoc. }
  destruct o as [v|]; cbn [stands]; [|by intros _].
  intros Hb (os1 & os2 & -> & -> & ->). destruct Hb as [Hr|Hb].
  - apply Hfirst. unfold run. rewrite Hr. by rewrite foldl_app.
  - rewrite <- app_assoc in Hb. apply Forall_app in Hb as [_ [Hos Hx]%Forall_app]. rewrite Forall_singleton in Hx.
    rewrite (repeatable_run cmd x os2) by done. exists os1, (os2 ++ [x])%list. by rewrite <- app_assoc, run_snoc.
Qed.

Lemma stands_unanswered cmd r l : forall os o r', benign cmd (os ++ l) -> stands cmd r os o r' ->
  exists o', stands cmd r (os ++ l) o' (foldl (fun r o => (cmd (o r)).1) r' l).
Proof.
  induction l as [|x l IH]; intros os o r' Hb Hs; cbn [foldl]; [exists o; by rewrite app_nil_r|].
  rewrite (cons_middle x os l), app_assoc in Hb |- *. eapply IH; [done|]. eapply stands_executed; [|done].
  destruct Hb as [Hb|Hb]; [by left|right]. by apply Forall_app in Hb as [Hb _].
Qed.

Lemma send_stands cmd r os o r1 x res r' : benign cmd (os ++ actions x) -> stands cmd r os o r1 ->
  send cmd x r1 = (res, r') ->
  exists o', stands cmd r (os ++ actions x) o' r' /\ (forall v, res = Ret v -> o' = Some v).
Proof.
  unfold actions. rewrite app_assoc. intros Hb Hs. destruct (stands_unanswered cmd r (unanswered x) os o r1) as [o1 H1]; [|done|].
  { destruct Hb as [Hb|Hb]; [by left|right]. by apply Forall_app in Hb as [Hb _]. }
  unfold send. set (q := foldl _ r1 _) in *. destruct (fate_of x) as [|e|e]; intros [= <- <-].
  - eexists. split; [by eapply stands_executed|]. by intros v [= ->].
  - eexists. split; [by eapply stands_executed|done].
  - exists o1. split; [by apply stands_other|done].
Qed.

(** What other clients did in [k] attempts from one on. *)
Definition actions_from (tries : nat -> exchange R) (attempt k : nat) : list (R -> R) :=
  concat (map (fun i => actions (tries i)) (seq attempt k)).

Lemma execute_stands delay tries cancelled cmd left r :
  read_only cmd \/ (forall i, Forall (repeatable cmd) (actions (tries i))) ->
  forall attempt last os o r1 res r' t,
  read_only cmd \/ Forall (repeatable cmd) os -> stands cmd r os o r1 ->
  execute_from delay tries cancelled cmd left attempt last r1 = (res, r', t) ->
  exists k o', (k <= left)%nat /\ stands cmd r (os ++ actions_from tries attempt k) o' r' /\ (forall v, res = Ret v -> o' = Some v).
Proof.
  intros Ht. induction left as [|left IH]; intros attempt last os o r1 res r' t Hos Hs; cbn [execute_from].
  { intros [= <- <- <-]. exists 0%nat, o. rewrite app_nil_r. by split_and!. }
  destruct (send cmd (tries attempt) r1) as [res1 r2] eqn:Es.
  assert (Hb : benign cmd (os ++ actions (tries attempt))).
  { destruct Ht as [Ht|Ht], Hos as [Hos|Hos]; [by left..|]. right. by apply Forall_app. }
  destruct (send_stands _ _ _ _ _ _ _ _ Hb Hs Es) as (o' & H' & Hv).
  assert (Hend : forall w, w = res1 \/ is_ret w = false -> (w, r2, [Attempted attempt]) = (res, r', t) ->
    exists k o', (k <= S left)%nat /\ stands cmd r (os ++ actions_from tries attempt k) o' r' /\ (forall v, res = Ret v -> o' = Some v)).
  { intros w Hw [= <- <- <-]. exists 1%nat, o'. unfold actions_from. cbn [seq map concat]. rewrite app_nil_r.
    split_and!; [lia|done|]. intros v ->. destruct Hw as [Hw|]; [by apply Hv|done]. }
  destruct res1 as [v|e]; [apply Hend; by left|].
  destruct (negb (expected_exception e)); [apply Hend; by left|].
  destruct (left =? 0)%nat; [apply Hend; by left|]. destruct (cancelled attempt); [apply Hend; by right|]. clear Hend.
  destruct (execute_from _ _ _ _ left (S attempt) (Some e) r2) as [[res2 r3] t1] eqn:Ee. intros [= <- <- <-].
  destruct (IH (S attempt) (Some e) (os ++ actions (tries attempt))%list o' r2 res2 r3 t1) as (k & o2 & Hk & H2 & Hv2); [exact Hb|done|done|].
  exists (S k), o2. rewrite <- app_assoc in H2. by split_and!; [lia|..].
Qed.

(** What is left of an execution when its body is done. *)
Lemma stands_atomic cmd default_return os r o res r' : stands cmd r os o r' -> (forall v, res = Ret v -> o = Some v) ->
  atomic_call cmd default_return os r (method_result default_return res) r'.
Proof.
  intros Hs Hv. destruct res as [v|e]; cbn [method_result].
  - rewrite (Hv v eq_refl) in Hs. destruct Hs as (os1 & os2 & -> & -> & ->). by apply atomic_done.
  - destruct o as [v|]; [destruct Hs as (os1 & os2 & -> & -> & _)|cbn in Hs; subst r'];
      (destruct (is_exception e) eqn:Ee; [|destruct e; try done]).
    + by apply atomic_unsure.
    + by apply atomic_cancelled.
    + apply atomic_not_done.
    + apply atomic_cancelled_before.
Qed.

(** [C39] Refinement.  A call of the client, through the breaker in any state that
    calls can bring it to and through the retries, with any fate of every request
    and other clients at work before each, is an atomic call: the command takes
    effect once, between two of the other clients' actions, and is answered with
    the reply of that execution, or with the method's default when the reply is
    [None] or was lost; or it does not take effect and is answered with the
    default; no exception but a cancellation leaves the call; and the breaker is
    as it was.  This holds of the commands that only read, whatever the others do,
    and of those a repetition of which, after any action of the others, changes
    nothing and is answered alike. *)
Theorem client_refines_command (s : client_state) (calls : nat) now now' n delay tries cancelled default_return cmd r out r' cb'
    (Hs : rtc client_step (mkClient redis_circuit_breaker calls 0) s)
    (Hcmd : read_only cmd \/ (forall i, Forall (repeatable cmd) (actions (tries i))))
    (Hcall : call now now' n delay tries cancelled default_return cmd r (breaker s) = (out, r', cb')) :
  cb' = breaker s /\
  exists k, (k <= n)%nat /\ atomic_call cmd default_return (actions_from tries 0 k) r out r'.
Proof.
  destruct (reachable_never_tripped _ _ Hs) as [Hb _]. rewrite Hb in Hcall |- *. unfold call in Hcall.
  change (enter now redis_circuit_breaker) with (Some redis_circuit_breaker) in Hcall. cbn iota in Hcall.
  unfold create_method, execute_with_retry in Hcall.
  destruct (execute_from _ _ _ _ _ _ _ _) as [[res r1] t] eqn:E.
  apply (execute_stands _ _ _ _ _ r Hcmd _ _ [] None) in E as (k & o & Hk & Hst & Hv); [|by right|done].
  pose proof (stands_atomic _ default_return _ _ _ _ _ Hst Hv) as Ha.
  pose proof (body_result_ret _ (body_method default_return res)) as Hr.
  destruct (method_result default_return res) as [v|e] eqn:Em; cbn in Hcall.
  - injection Hcall as <- <- <-. split; [done|]. by exists k.
  - destruct e; try done. injection Hcall as <- <- <-. split; [done|]. by exists k.
Qed.
End Retries.

(** ** Which commands can be repeated *)

Definition reply_int (z : Z) : reply := RVal (VInt z).
Definition GET (now : Z) (k : string) : @command store :=
  fun s => (s, match kv_get now s k with Some (BText t) => RVal (VStr t) | _ => RNone end).
Definition SET (k : string) (v : blob) : @command store := fun s => (kv_set 0 k v None s, RVal (VBool true)).
Definition SADD (k x : string) : @command store :=
  fun s => (sadd k x s, reply_int (if set_has s k x then 0 else 1)).
Definition LTRIM (k : string) (n : nat) : @command store := fun s => (ltrim k n s, RVal (VBool true)).
Definition LPUSH (k x : string) : @command store :=
  fun s => (lpush k x s, reply_int (Z.of_nat (S (length (list_get s k))))).

Lemma gmap_store_eq (s s' : store) :
  st_kv s = st_kv s' -> st_hash s = st_hash s' -> st_list s = st_list s' -> st_set s = st_set s' -> s = s'.
Proof. destruct s, s'; simpl; by intros -> -> -> ->. Qed.

(** Actions that leave a key alone. *)
Definition leaves_key (k : string) (o : store -> store) : Prop := forall s, st_kv (o s) !! k = st_kv s !! k.
Definition leaves_list (k : string) (o : store -> store) : Prop := forall s, st_list (o s) !! k = st_list s !! k.

Lemma get_read_only now k : read_only (GET now k).
Proof. done. Qed.

Lemma set_repeatable k v o : leaves_key k o -> repeatable (SET k v) o.
Proof.
  intros Ho s. unfold SET. cbn [fst snd]. f_equal. apply gmap_store_eq; cbn; try done.
  apply insert_id. rewrite Ho. cbn. by rewrite lookup_insert_eq.
Qed.

Lemma ltrim_repeatable k n o : leaves_list k o -> repeatable (LTRIM k n) o.
Proof.
  intros Ho s. unfold LTRIM. cbn [fst snd]. f_equal.
  assert (Hk : st_list (o (ltrim k n s)) !! k = Some (take n (store_list s k))) by (rewrite Ho; cbn; by rewrite lookup_insert_eq).
  apply gmap_store_eq; try done. change (st_list (ltrim k n ?q)) with (<[k := take n (store_list q k)]> (st_list q)).
  apply insert_id. unfold store_list at 1. rewrite Hk. cbn [default Datatypes.id]. by rewrite take_take, Nat.min_id.
Qed.

(** Nothing else happens, and the replies of the first requests are lost. *)
Definition alone {R} (f : fate) : exchange R := mkExchange [] (fun r => r) f.
Definition first_lost {R} (n : nat) : exchange R := alone (match n with O => ReplyLost TimeoutError | _ => Answered end).

(** Commands that are not atomic.  A push whose first reply is lost is executed
    twice: one call adds two entries. *)
Example lpush_not_atomic :
  let '(out, s) := create_method 3 100 first_lost (fun _ => false) (RVal (VInt 0)) (LPUSH "k" "x") empty_store in
  out = Ret (reply_int 2) /\ list_get s "k" = ["x"; "x"].
Proof. by vm_compute. Qed.

(** A [SADD] adds its element once, but is answered by the repetition: 0, as if
    the element had been there. *)
Example sadd_answers_zero :
  let '(out, s) := create_method 3 100 first_lost (fun _ => false) (RVal (VInt 0)) (SADD "k" "x") empty_store in
  out = Ret (reply_int 0) /\ set_has s "k" "x" = true /\ set_has empty_store "k" "x" = false.
Proof. by vm_compute. Qed.

(** A [SET] whose first reply redis-py does not get and repeats, whose second is
    lost as well and whose third is answered, while another client pushes to a
    list and sets another key. *)
Definition busy_set (n : nat) : exchange store :=
  match n with
  | O => mkExchange [lpush "l" "y"] (kv_set 0 "other" (BText "w") None) (ReplyLost TimeoutError)
  | _ => mkExchange [] (lpush "l" "z") Answered
  end.

Lemma client_refines_command_witness :
  let '(out, s, cb) := call 1 2 3 100 busy_set (fun _ => false) (RVal (VBool false)) (SET "k" (BText "v")) empty_store
                         redis_circuit_breaker in
  (out = Ret (RVal (VBool true)) /\ kv_get 0 s "k" = Some (BText "v") /\ list_get s "l" = ["z"; "y"]) /\
  cb = redis_circuit_breaker /\
  exists k, (k <= 3)%nat /\ atomic_call (SET "k" (BText "v")) (RVal (VBool false)) (actions_from busy_set 0 k) empty_store out s.
Proof.
  destruct (call _ _ _ _ _ _ _ _ _ _) as [[out s] cb] eqn:E. split.
  { vm_compute in E. injection E as <- <- _. by vm_compute. }
  apply (client_refines_command (mkClient redis_circuit_breaker 0 0) 0 1 2 3 100 busy_set (fun _ => false) _ _ _ _ _ _
    (rtc_refl _ _)); [right|exact E].
  intros [|i]; repeat constructor; apply set_repeatable; intros w; cbn; try done. by rewrite lookup_insert_ne.
Defined.

(** Three requests in vain. *)
Lemma retry_bounds_witness :
  slept [Attempted 0; Slept 100; Attempted 1; Slept 200; Attempted 2] <= 100 * (2 ^ (3 - 1) - 1).
Proof.
  apply (retry_bounds 3 100 (fun _ => alone (NotSent ConnectionError)) (fun _ => false) (LTRIM "k" 1) empty_store
           (Raise ConnectionError) empty_store); [lia|lia|vm_compute; reflexivity].
Defined.
