(* ===== verification/ProfileCrypto.v ===== *)
(** * Secrets of a profile (utils/profile_crypto.py)

    A profile's configuration is a JSON object.  [extract_secrets] splits it
    into a clean part, stored as it is, and the secrets, stored encrypted;
    [merge_secrets] puts them together again.  Names have two spellings, a full
    name and an alias.  Masking for display is in ProfileMask. *)

From S2P Require Export PyVal PyList.
Local Open Scope string_scope.

Definition dict := list (string * value).

(** ** Tables *)

Definition provider_fields : list (string * string) := [("token", "tk"); ("password", "pw"); ("email", "em")].
Definition qb_fields : list (string * string) := [("qb_username", "qus"); ("qb_password", "qpw")].
Definition sabnzbd_fields : list (string * string) :=
  [("api_key", "ak"); ("webdav_username", "wus"); ("webdav_password", "wpw")].
Definition nzbget_fields : list (string * string) :=
  [("username", "un"); ("password", "pw"); ("webdav_username", "wus"); ("webdav_password", "wpw")].
Definition nzbdav_fields : list (string * string) :=
  [("api_key", "ak"); ("webdav_username", "wus"); ("webdav_password", "wpw")].

(** A nested configuration: its two names, the fields extracted from it, those
    merged back, and those masked. *)
Record section := mkSection {
  full_name : string;
  alias : string;
  fields : list (string * string);
  merged : list string;
  masked : list string;
}.

(** The sections of a provider, in the order of the code. *)
Definition provider_sections : list section :=
  [mkSection "qbittorrent_config" "qbc" qb_fields ["qb_username"; "qb_password"; "qus"; "qpw"] ["qb_password"; "qpw"];
   mkSection "nzbdav_config" "ndc" nzbdav_fields
     ["api_key"; "ak"; "webdav_username"; "wus"; "webdav_password"; "wpw"]
     ["api_key"; "ak"; "webdav_username"; "wus"; "webdav_password"; "wpw"];
   mkSection "sabnzbd_config" "sbc" sabnzbd_fields
     ["api_key"; "ak"; "webdav_username"; "wus"; "webdav_password"; "wpw"]
     ["api_key"; "ak"; "webdav_username"; "wus"; "webdav_password"; "wpw"];
   mkSection "nzbget_config" "ngc" nzbget_fields
     ["username"; "un"; "password"; "pw"; "webdav_username"; "wus"; "webdav_password"; "wpw"]
     ["username"; "un"; "password"; "pw"; "webdav_username"; "wus"; "webdav_password"; "wpw"]].

(** The external services at the top of a configuration. *)
Definition external_services : list section :=
  [mkSection "mediaflow_config" "mfc" [("api_password", "ap")] ["api_password"; "ap"] ["api_password"; "ap"];
   mkSection "rpdb_config" "rpc" [("api_key", "ak")] ["api_key"; "ak"] ["api_key"; "ak"];
   mkSection "mdblist_config" "mdb" [("api_key", "ak")] ["api_key"; "ak"] ["api_key"; "ak"]].

(** ** Extraction *)

(** [name in cfg and cfg[name]]: the value if so. *)
Definition present (name : string) (cfg : value) : outcome py_exn (option value) :=
  has ← py_contains name cfg;
  if has : bool then v ← py_getitem name cfg; Ret (if truthy v then Some v else None) else Ret None.

(** The loop over pairs of names: the full name first, the alias only if it is
    absent or falsy. *)
Fixpoint extract_pairs (pairs : list (string * string)) (cfg : value) (secrets : dict) : outcome py_exn (value * dict) :=
  match pairs with
  | [] => Ret (cfg, secrets)
  | (full, alias) :: pairs =>
      f ← present full cfg;
      match f with
      | Some v => cfg' ← py_delitem full cfg; extract_pairs pairs cfg' (dict_set full v secrets)
      | None =>
          a ← present alias cfg;
          match a with
          | Some v => cfg' ← py_delitem alias cfg; extract_pairs pairs cfg' (dict_set alias v secrets)
          | None => extract_pairs pairs cfg secrets
          end
      end
  end.

(** The name under which a section is present. *)
Definition section_key (s : section) (cfg : dict) : option string :=
  if dict_has (full_name s) cfg then Some (full_name s) else if dict_has (alias s) cfg then Some (alias s) else None.

(** One section of a provider, or one external service. *)
Definition extract_section (s : section) (st : dict * dict) : outcome py_exn (dict * dict) :=
  let '(cfg, secrets) := st in
  match section_key s cfg with
  | Some key =>
      let sub := default VNone (dict_get key cfg) in
      if truthy sub then
        '(sub', found) ← extract_pairs (fields s) sub [];
        Ret (dict_set key sub' cfg, match found with [] => secrets | _ => dict_set key (VDict found) secrets end)
      else Ret (cfg, secrets)
  | None => Ret (cfg, secrets)
  end.

Fixpoint extract_sections (l : list section) (st : dict * dict) : outcome py_exn (dict * dict) :=
  match l with
  | [] => Ret st
  | s :: l => st' ← extract_section s st; extract_sections l st'
  end.

(** Fields of a dictionary itself. *)
Definition extract_own (pairs : list (string * string)) (st : dict * dict) : outcome py_exn (dict * dict) :=
  '(cfg, secrets) ← extract_pairs pairs (VDict st.1) st.2;
  Ret (match cfg with VDict d => d | _ => st.1 end, secrets).

Definition extract_provider_secrets (provider : dict) (index : option nat) : outcome py_exn (dict * dict) :=
  st ← extract_own provider_fields (provider, []);
  '(provider', found) ← extract_sections provider_sections st;
  Ret (provider',
       match found, index with
       | _ :: _, Some i => dict_set "_index" (VInt (Z.of_nat i)) found
       | _, _ => found
       end).

(** The loop over the providers, from index [i]. *)
Fixpoint extract_providers (i : nat) (l : list value) : outcome py_exn (list value * list value) :=
  match l with
  | [] => Ret ([], [])
  | v :: l =>
      '(v', found) ← match v with
                     | VDict p => '(p', found) ← extract_provider_secrets p (Some i); Ret (VDict p', found)
                     | _ => Ret (v, [])
                     end;
      '(l', rest) ← extract_providers (S i) l;
      Ret (v' :: l', match found with [] => rest | _ => VDict found :: rest end)
  end.

(** The first of the two names that holds a list. *)
Definition list_key (cfg : dict) : option (string * list value) :=
  match dict_get "streaming_providers" cfg with
  | Some (VList l) => Some ("streaming_providers", l)
  | _ => match dict_get "sps" cfg with Some (VList l) => Some ("sps", l) | _ => None end
  end.

Definition extract_provider_list (st : dict * dict) : outcome py_exn (dict * dict) :=
  let '(cfg, secrets) := st in
  match list_key cfg with
  | Some (key, l) =>
      '(l', found) ← extract_providers 0 l;
      Ret (dict_set key (VList l') cfg, match found with [] => secrets | _ => dict_set key (VList found) secrets end)
  | None => Ret (cfg, secrets)
  end.

(** The first of the two names that holds a dictionary that is not empty. *)
Definition single_key (cfg : dict) : option (string * dict) :=
  match dict_get "streaming_provider" cfg with
  | Some (VDict ((_ :: _) as p)) => Some ("streaming_provider", p)
  | _ => match dict_get "sp" cfg with Some (VDict ((_ :: _) as p)) => Some ("sp", p) | _ => None end
  end.

Definition extract_single_provider (st : dict * dict) : outcome py_exn (dict * dict) :=
  let '(cfg, secrets) := st in
  match single_key cfg with
  | Some (key, p) =>
      '(p', found) ← extract_provider_secrets p None;
      Ret (dict_set key (VDict p') cfg, match found with [] => secrets | _ => dict_set key (VDict found) secrets end)
  | None => Ret (cfg, secrets)
  end.

Definition extract_secrets (config : dict) : outcome py_exn (dict * dict) :=
  st ← extract_provider_list (config, []);
  st ← extract_single_provider st;
  st ← extract_sections external_services st;
  extract_own [("api_password", "ap")] st.

(** ** Merging

    The secrets are what [extract_secrets] returned; other shapes are a
    [TypeError]. *)

(** [for field in names: if field in secrets: target[field] = secrets[field]] *)
Fixpoint set_fields (names : list string) (secrets target : value) : outcome py_exn value :=
  match names with
  | [] => Ret target
  | name :: names =>
      has ← py_contains name secrets;
      target' ← (if has : bool then v ← py_getitem name secrets; py_setitem name v target else Ret target);
      set_fields names secrets target'
  end.

(** The section under the name [key] of the secrets. *)
Definition merge_section_key (s : section) (key : string) (secrets cfg : dict) : outcome py_exn dict :=
  match dict_get key secrets with
  | None => Ret cfg
  | Some found =>
      let actual := if dict_has (alias s) cfg then alias s else full_name s in
      let sub := default (VDict []) (dict_get actual cfg) in
      sub' ← set_fields (merged s) found sub;
      Ret (dict_set actual sub' cfg)
  end.

Definition merge_section (s : section) (secrets cfg : dict) : outcome py_exn dict :=
  cfg' ← merge_section_key s (full_name s) secrets cfg;
  merge_section_key s (alias s) secrets cfg'.

Fixpoint merge_sections (l : list section) (secrets cfg : dict) : outcome py_exn dict :=
  match l with
  | [] => Ret cfg
  | s :: l => cfg' ← merge_section s secrets cfg; merge_sections l secrets cfg'
  end.

Definition set_own (names : list string) (secrets cfg : dict) : outcome py_exn dict :=
  v ← set_fields names (VDict secrets) (VDict cfg);
  Ret (match v with VDict d => d | _ => cfg end).

Definition merge_provider_secrets (provider provider_secrets : dict) : outcome py_exn dict :=
  p ← set_own ["token"; "password"; "email"; "tk"; "pw"; "em"] provider_secrets provider;
  merge_sections provider_sections provider_secrets p.

(** The loop over the secrets of the providers. *)
Fixpoint merge_provider_list (secrets : list value) (l : list value) : outcome py_exn (list value) :=
  match secrets with
  | [] => Ret l
  | VDict found :: secrets =>
      match default (VInt 0) (dict_get "_index" found) with
      | VInt idx =>
          if (idx <? Z.of_nat (length l))%Z then
            match l !! Z.to_nat (if (idx <? 0)%Z then Z.of_nat (length l) + idx else idx)%Z with
            | Some (VDict p) =>
                p' ← merge_provider_secrets p found;
                merge_provider_list secrets
                  (<[Z.to_nat (if (idx <? 0)%Z then Z.of_nat (length l) + idx else idx)%Z := VDict p']> l)
            | Some _ => Raise TypeError
            | None => Raise IndexError
            end
          else merge_provider_list secrets l
      | _ => Raise TypeError
      end
  | _ :: _ => Raise TypeError
  end.

(** The name in the configuration for a part found under [key] in the secrets. *)
Definition merge_key (full alias key : string) (cfg : dict) : string :=
  if dict_has alias cfg then alias else if dict_has full cfg then full else key.

(** The first of the two names that is in the secrets. *)
Definition secret_key (full alias : string) (secrets : dict) : option (string * value) :=
  match dict_get full secrets with
  | Some v => Some (full, v)
  | None => match dict_get alias secrets with Some v => Some (alias, v) | None => None end
  end.

Definition merge_providers (secrets cfg : dict) : outcome py_exn dict :=
  match secret_key "streaming_providers" "sps" secrets with
  | None => Ret cfg
  | Some (key, found) =>
      let key := merge_key "streaming_providers" "sps" key cfg in
      match found, default (VList []) (dict_get key cfg) with
      | VList found, VList l => l' ← merge_provider_list found l; Ret (dict_set key (VList l') cfg)
      | _, _ => Raise TypeError
      end
  end.

Definition merge_single_provider (secrets cfg : dict) : outcome py_exn dict :=
  match secret_key "streaming_provider" "sp" secrets with
  | None => Ret cfg
  | Some (key, found) =>
      let key := merge_key "streaming_provider" "sp" key cfg in
      match found, default (VDict []) (dict_get key cfg) with
      | VDict found, VDict p => p' ← merge_provider_secrets p found; Ret (dict_set key (VDict p') cfg)
      | _, _ => Raise TypeError
      end
  end.

Definition merge_external (s : section) (secrets cfg : dict) : outcome py_exn dict :=
  match secret_key (full_name s) (alias s) secrets with
  | None => Ret cfg
  | Some (key, found) =>
      let key := merge_key (full_name s) (alias s) key cfg in
      sub' ← set_fields (merged s) found (default (VDict []) (dict_get key cfg));
      Ret (dict_set key sub' cfg)
  end.

Fixpoint merge_externals (l : list section) (secrets cfg : dict) : outcome py_exn dict :=
  match l with
  | [] => Ret cfg
  | s :: l => cfg' ← merge_external s secrets cfg; merge_externals l secrets cfg'
  end.

Definition merge_api_password (secrets cfg : dict) : outcome py_exn dict :=
  Ret (match secret_key "api_password" "ap" secrets with
       | Some (_, v) => dict_set (if dict_has "ap" cfg then "ap" else "api_password") v cfg
       | None => cfg
       end).

Definition merge_secrets (config secrets : dict) : outcome py_exn dict :=
  c ← merge_providers secrets config;
  c ← merge_single_provider secrets c;
  c ← merge_externals external_services secrets c;
  merge_api_password secrets c.

(** ** Encryption

    [seal] is AES over the JSON text of the secrets, in base64; [unseal] its
    inverse, which raises on other texts. *)
Section Encryption.
Context (seal : value -> string) (unseal : string -> outcome py_exn value).

Definition encrypt_secrets (secrets : dict) : option string :=
  match secrets with [] => None | _ => Some (seal (VDict secrets)) end.

Definition decrypt_secrets (encrypted_secrets : option string) : outcome py_exn dict :=
  match encrypted_secrets with
  | None => Ret []
  | Some s =>
      if str_empty s then Ret []
      else v ← unseal s; match v with VDict d => Ret d | _ => Raise TypeError end
  end.

Definition get_full_config (config : option dict) (encrypted_secrets : option string) : outcome py_exn dict :=
  secrets ← decrypt_secrets encrypted_secrets;
  merge_secrets (default [] config) secrets.
End Encryption.

(** ** Extraction and merging are inverse

    A part of the extraction works on some keys only.  [part_ok] says so, and
    that merging what it extracted restores these keys; parts on disjoint keys
    compose. *)

Definition names_of (pairs : list (string * string)) : list string := (pairs.*1 ++ pairs.*2)%list.

(** Both dictionaries have the same values at the keys. *)
Definition agree (keys : list string) (d d' : dict) : Prop := forall k, k ∈ keys -> dict_get k d = dict_get k d'.

(** The dictionary is unchanged outside the keys. *)
Definition frame (keys : list string) (d d' : dict) : Prop := forall k, k ∉ keys -> dict_get k d = dict_get k d'.

Record part := mkPart {
  keys : list string;
  extract : dict * dict -> outcome py_exn (dict * dict);
  merge : dict -> dict -> outcome py_exn dict;
  valid : dict -> Prop;
}.

Record part_ok (P : part) : Prop := {
  valid_agree : forall d d', agree (keys P) d d' -> valid P d -> valid P d';
  extract_ok : forall d s d' s',
    uniq_keys d -> valid P d -> (forall k, k ∈ keys P -> dict_get k s = None) ->
    extract P (d, s) = Ret (d', s') ->
    uniq_keys d' /\ frame (keys P) d' d /\ frame (keys P) s' s /\
    forall q qs, agree (keys P) q d' -> agree (keys P) qs s' ->
      exists q', merge P qs q = Ret q' /\ frame (keys P) q' q /\
        forall k, k ∈ keys P -> option_Forall2 veq (dict_get k q') (dict_get k d);
}.

Definition no_part : part := mkPart [] (fun st => Ret st) (fun _ q => Ret q) (fun _ => True).
Definition part_app (P Q : part) : part :=
  mkPart (keys P ++ keys Q) (fun st => st' ← extract P st; extract Q st')
    (fun s d => d' ← merge P s d; merge Q s d') (fun d => valid P d /\ valid Q d).

Lemma no_part_ok : part_ok no_part.
Proof.
  split; [done|]. intros d s d' s' Hu _ _ [= <- <-]. split_and!; [done..|]. intros q qs _ _. exists q.
  split_and!; [done..|]. intros k Hk. by apply elem_of_nil in Hk.
Qed.

Lemma part_app_ok P Q : part_ok P -> part_ok Q -> keys P ## keys Q -> part_ok (part_app P Q).
Proof.
  intros [Va Ea] [Vb Eb] Hd.
  assert (forall k, k ∈ keys P -> k ∈ (keys P ++ keys Q)%list /\ k ∉ keys Q) as HP by set_solver.
  assert (forall k, k ∈ keys Q -> k ∈ (keys P ++ keys Q)%list /\ k ∉ keys P) as HQ by set_solver.
  assert (forall k, k ∉ (keys P ++ keys Q)%list -> k ∉ keys P /\ k ∉ keys Q) as HN by set_solver.
  clear Hd. split.
  { intros d d' Ha [H1 H2]. split; [eapply Va|eapply Vb]; eauto; intros k Hk; apply Ha; [by apply HP|by apply HQ]. }
  intros d s d2 s2 Hu [HvP HvQ] Hs H. cbn [part_app extract merge keys valid] in *.
  destruct (extract P (d, s)) as [[d1 s1]|] eqn:E1; [|done]. cbn [mbind outcome_bind] in H.
  destruct (Ea d s d1 s1) as (Hu1 & Hf1 & Hg1 & Hm1); [done..|intros k Hk; apply Hs; by apply HP|done|].
  destruct (Eb d1 s1 d2 s2) as (Hu2 & Hf2 & Hg2 & Hm2); [done| | |done|].
  { eapply Vb; [|exact HvQ]. intros k Hk. symmetry. apply Hf1. by apply HQ. }
  { intros k Hk. destruct (HQ k Hk) as [Hk1 Hk2]. rewrite Hg1 by done. by apply Hs. }
  split_and!; [done| | |].
  - intros k Hk. destruct (HN k Hk) as [Hk1 Hk2]. by rewrite Hf2, Hf1.
  - intros k Hk. destruct (HN k Hk) as [Hk1 Hk2]. by rewrite Hg2, Hg1.
  - intros q qs Hq Hqs. destruct (Hm1 q qs) as (q1 & -> & Fq1 & Gq1).
    { intros k Hk. destruct (HP k Hk). by rewrite Hq, Hf2. }
    { intros k Hk. destruct (HP k Hk). by rewrite Hqs, Hg2. }
    destruct (Hm2 q1 qs) as (q2 & E2 & Fq2 & Gq2).
    { intros k Hk. destruct (HQ k Hk). by rewrite Fq1, Hq. }
    { intros k Hk. apply Hqs. by apply HQ. }
    exists q2. split_and!; [done| |].
    + intros k Hk. destruct (HN k Hk). by rewrite Fq2, Fq1.
    + intros k Hk. apply elem_of_app in Hk as [Hk|Hk].
      * destruct (HP k Hk). rewrite Fq2 by done. by apply Gq1.
      * destruct (HQ k Hk). specialize (Gq2 k Hk). by rewrite Hf1 in Gq2.
Qed.

(** *** Fields *)

Lemma py_contains_dict k d : py_contains k (VDict d) = Ret (dict_has k d).
Proof. done. Qed.

Lemma present_dict k d :
  present k (VDict d) = Ret (match dict_get k d with Some v => if truthy v then Some v else None | None => None end).
Proof. unfold present. cbn. unfold dict_has. by destruct (dict_get k d). Qed.

(** What extraction from a dictionary does at a key: nothing, or the value moves to the secrets. *)
Definition moved (d s d' s' : dict) (k : string) : Prop :=
  (dict_get k d' = dict_get k d /\ dict_get k s' = dict_get k s) \/
  (exists v, truthy v = true /\ dict_get k d = Some v /\ dict_get k d' = None /\ dict_get k s' = Some v).

Lemma moved_trans d s d1 s1 d2 s2 k : moved d s d1 s1 k -> moved d1 s1 d2 s2 k -> moved d s d2 s2 k.
Proof.
  intros [[E1 F1]|(v & Hv & Hd & Hd1 & Hs1)] [[E2 F2]|(w & Hw & Gd & Gd1 & Gs1)].
  - left. by rewrite E2, F2.
  - right. exists w. by rewrite E1 in Gd.
  - right. exists v. by rewrite E2, F2.
  - by rewrite Hd1 in Gd.
Qed.

Lemma moved_one d s v k k' : uniq_keys d -> dict_get k d = Some v -> truthy v = true ->
  moved d s (dict_pop k d) (dict_set k v s) k'.
Proof.
  intros Hu Hv Ht. unfold moved. rewrite dict_get_pop, dict_get_set by done.
  destruct (String.eqb k' k) eqn:E; [|by left]. apply String.eqb_eq in E as ->. right. by exists v.
Qed.

Lemma extract_pairs_dict pairs : forall d s v' s',
  uniq_keys d -> extract_pairs pairs (VDict d) s = Ret (v', s') ->
  exists d', v' = VDict d' /\ uniq_keys d' /\ (forall k, moved d s d' s' k) /\
    (forall k, k ∉ names_of pairs -> dict_get k d' = dict_get k d /\ dict_get k s' = dict_get k s).
Proof.
  induction pairs as [|[full al] pairs IH]; intros d s v' s' Hu.
  { intros [= <- <-]. exists d. split_and!; [done..| |done]. intros k. by left. }
  assert (forall d1 s1, uniq_keys d1 -> (forall k, moved d s d1 s1 k) ->
    (forall k, k <> full -> k <> al -> dict_get k d1 = dict_get k d /\ dict_get k s1 = dict_get k s) ->
    extract_pairs pairs (VDict d1) s1 = Ret (v', s') ->
    exists d', v' = VDict d' /\ uniq_keys d' /\ (forall k, moved d s d' s' k) /\
      (forall k, k ∉ names_of ((full, al) :: pairs) -> dict_get k d' = dict_get k d /\ dict_get k s' = dict_get k s))
    as Hstep.
  { intros d1 s1 Hu1 Hm Hf H. destruct (IH d1 s1 v' s' Hu1 H) as (d' & -> & Hu' & Hm' & Hf').
    exists d'. split_and!; [done..| |].
    - intros k. eapply moved_trans; eauto.
    - intros k Hk. unfold names_of in Hk. cbn in Hk. destruct (Hf' k) as [-> ->]; [unfold names_of; set_solver|].
      apply Hf; set_solver. }
  assert (forall name v, name = full \/ name = al -> dict_get name d = Some v -> truthy v = true ->
    extract_pairs pairs (VDict (dict_pop name d)) (dict_set name v s) = Ret (v', s') ->
    exists d', v' = VDict d' /\ uniq_keys d' /\ (forall k, moved d s d' s' k) /\
      (forall k, k ∉ names_of ((full, al) :: pairs) -> dict_get k d' = dict_get k d /\ dict_get k s' = dict_get k s))
    as Htake.
  { intros name v Hn Hv Ht. apply Hstep; [by apply uniq_keys_pop|intros k; by apply moved_one|].
    intros k H1 H2. rewrite dict_get_pop, dict_get_set by done.
    destruct (String.eqb k name) eqn:E; [|done]. apply String.eqb_eq in E as ->. by destruct Hn as [-> | ->]. }
  cbn [extract_pairs]. rewrite !present_dict.
  assert (forall name v, dict_get name d = Some v -> py_delitem name (VDict d) = Ret (VDict (dict_pop name d))) as Hdel.
  { intros name v Hv. unfold py_delitem, dict_has. by rewrite Hv. }
  destruct (dict_get full d) as [v|] eqn:Ef; [destruct (truthy v) eqn:Et|]; cbn [mbind outcome_bind].
  1: rewrite (Hdel full v Ef); cbn [mbind outcome_bind]; apply Htake; auto.
  all: destruct (dict_get al d) as [w|] eqn:Ea; [destruct (truthy w) eqn:Ew|]; cbn [mbind outcome_bind].
  all: try (rewrite (Hdel al w Ea); cbn [mbind outcome_bind]; apply Htake; by auto).
  all: apply Hstep; [done|intros k; by left|done].
Qed.

(** Nothing is extracted from another value. *)
Lemma extract_pairs_other pairs v : forall s v' s',
  (forall d, v <> VDict d) -> extract_pairs pairs v s = Ret (v', s') -> v' = v /\ s' = s.
Proof.
  induction pairs as [|[full al] pairs IH]; intros s v' s' Hv; [by intros [= <- <-]|].
  cbn [extract_pairs].
  assert (forall k, present k v = Ret None \/ exists e, present k v = Raise e) as Hp.
  { intros k. unfold present. destruct v; cbn; try (by right; eexists); try (by destruct (Hv d)).
    - destruct (contains k s0); cbn; [right; by eexists|by left].
    - destruct (existsb _ l); cbn; [right; by eexists|by left]. }
  destruct (Hp full) as [->|[e ->]]; [|done]. cbn [mbind outcome_bind].
  destruct (Hp al) as [->|[e ->]]; [|done]. cbn [mbind outcome_bind]. by apply IH.
Qed.

Lemma set_fields_dict names : forall s t, exists t',
  set_fields names (VDict s) (VDict t) = Ret (VDict t') /\
  forall k, dict_get k t' =
    if memb k names then match dict_get k s with Some v => Some v | None => dict_get k t end else dict_get k t.
Proof.
  induction names as [|n names IH]; intros s t; [by exists t|]. cbn [set_fields]. rewrite py_contains_dict.
  cbn [mbind outcome_bind]. unfold dict_has, py_getitem.
  assert (forall k, memb k (n :: names) = String.eqb k n || memb k names) as Hm.
  { intros k. unfold memb. destruct (String.eqb k n) eqn:E.
    - apply String.eqb_eq in E as ->. apply bool_decide_eq_true. set_solver.
    - apply String.eqb_neq in E. apply bool_decide_ext. set_solver. }
  destruct (dict_get n s) as [v|] eqn:E; cbn [mbind outcome_bind py_setitem].
  - destruct (IH s (dict_set n v t)) as (t' & -> & Ht'). exists t'. split; [done|]. intros k. rewrite Ht', Hm, dict_get_set.
    destruct (String.eqb k n) eqn:Ek; [|done]. apply String.eqb_eq in Ek as ->. cbn. rewrite E. by destruct (memb n names).
  - destruct (IH s t) as (t' & -> & Ht'). exists t'. split; [done|]. intros k. rewrite Ht', Hm.
    destruct (String.eqb k n) eqn:Ek; [|done]. apply String.eqb_eq in Ek as ->. cbn. rewrite E. by destruct (memb n names).
Qed.

(** Fields that were extracted from an agreeing dictionary are set back. *)
Lemma set_fields_moved names pairs d s d' s' : (forall k, k ∈ names_of pairs -> k ∈ names) ->
  (forall k, k ∈ names_of pairs -> dict_get k s = None) ->
  (forall k, moved d s d' s' k) -> (forall k, k ∉ names_of pairs -> dict_get k d' = dict_get k d) ->
  forall q qs, agree names q d' -> agree names qs s' -> (forall k, k ∈ names -> k ∉ names_of pairs -> dict_get k qs = None) ->
  exists q', set_fields names (VDict qs) (VDict q) = Ret (VDict q') /\ frame names q' q /\ agree names q' d.
Proof.
  intros Hsub Hs Hm Hf q qs Hq Hqs Hn. destruct (set_fields_dict names qs q) as (q' & E & Hq'). exists q'.
  split_and!; [done| |]; intros k Hk; rewrite Hq'.
  - by apply memb_false in Hk as ->.
  - rewrite (proj2 (memb_true k names) Hk). destruct (decide (k ∈ names_of pairs)) as [Hp|Hp].
    + rewrite Hqs, Hq by done. destruct (Hm k) as [[-> ->]|(v & _ & -> & _ & ->)]; [by rewrite Hs|done].
    + rewrite (Hn k Hk Hp), Hq, Hf by done. done.
Qed.

Definition own_part (pairs : list (string * string)) (names : list string) : part :=
  mkPart names (extract_own pairs) (set_own names) (fun _ => True).

Lemma own_part_ok pairs names : (forall k, k ∈ names <-> k ∈ names_of pairs) -> part_ok (own_part pairs names).
Proof.
  intros Hn. split; [done|]. intros d s d' s' Hu _ Hs H. cbn in *. unfold extract_own in H. cbn [fst snd] in H.
  destruct (extract_pairs pairs (VDict d) s) as [[v' s1]|] eqn:E; [|done].
  destruct (extract_pairs_dict pairs d s v' s1 Hu E) as (d1 & -> & Hu1 & Hm & Hf). injection H as -> ->.
  split_and!; [done| | |].
  - intros k Hk. apply Hf. by rewrite <- Hn.
  - intros k Hk. apply Hf. by rewrite <- Hn.
  - intros q qs Hq Hqs.
    destruct (set_fields_moved names pairs d s d' s') with (q := q) (qs := qs) as (q' & E' & F & G); eauto.
    + intros k. by apply Hn.
    + intros k Hk. apply Hs. by apply Hn.
    + intros k Hk. by apply Hf.
    + intros k Hk Hk'. by apply Hn in Hk.
    + exists q'. unfold set_own. rewrite E'. split_and!; [done..|]. intros k Hk. by rewrite G.
Qed.

(** *** Sections *)

Definition other_name (full alias key : string) : string := if String.eqb key full then alias else full.

(** A dictionary has at most one of two names. *)
Definition single (full alias : string) (d : dict) : Prop := dict_get full d = None \/ dict_get alias d = None.

(** What a merging function does with what is found under one name. *)
Record merges (full alias : string) (mrg : dict -> dict -> outcome py_exn dict) (onto : value -> value -> outcome py_exn value) : Prop := {
  merge_nothing : forall qs q, dict_get full qs = None -> dict_get alias qs = None -> mrg qs q = Ret q;
  merge_found : forall qs q key found e, key ∈ [full; alias] ->
    dict_get key qs = Some found -> dict_get (other_name full alias key) qs = None ->
    dict_get key q = Some e -> dict_get (other_name full alias key) q = None ->
    mrg qs q = (e' ← onto found e; Ret (dict_set key e' q));
}.

Lemma other_cases full alias key : full <> alias -> key ∈ [full; alias] ->
  (key = full /\ other_name full alias key = alias) \/ (key = alias /\ other_name full alias key = full).
Proof.
  intros Hne Hk. unfold other_name. apply elem_of_cons in Hk as [->|Hk]; [left|right].
  - by rewrite String.eqb_refl.
  - apply list_elem_of_singleton in Hk as ->. destruct (String.eqb alias full) eqn:E; [|done].
    by apply String.eqb_eq in E.
Qed.

(** A part that extracts from the value under one name of two. *)
Lemma keyed_frame key v full alias d : key ∈ [full; alias] -> frame [full; alias] (dict_set key v d) d.
Proof.
  intros Hk k Hn. rewrite dict_get_set. destruct (String.eqb k key) eqn:E; [|done]. by apply String.eqb_eq in E as ->.
Qed.

(** The values [e'] and [found] come from extracting from [e]; merging gives [e] back. *)
Definition inverts (onto : value -> value -> outcome py_exn value) (e e' found : value) : Prop :=
  exists e'', onto found e' = Ret e'' /\ veq e'' e.

Lemma keyed_ok full alias mrg onto d s key e e' found : full <> alias ->
  merges full alias mrg onto -> uniq_keys d ->
  (forall k, k ∈ [full; alias] -> dict_get k s = None) ->
  key ∈ [full; alias] -> dict_get (other_name full alias key) d = None -> dict_get key d = Some e ->
  match found with Some f => inverts onto e e' f | None => veq e' e end ->
  let d' := dict_set key e' d in
  let s' := match found with Some f => dict_set key f s | None => s end in
  uniq_keys d' /\ frame [full; alias] d' d /\ frame [full; alias] s' s /\
  forall q qs, agree [full; alias] q d' -> agree [full; alias] qs s' ->
    exists q', mrg qs q = Ret q' /\ frame [full; alias] q' q /\
      forall k, k ∈ [full; alias] -> option_Forall2 veq (dict_get k q') (dict_get k d).
Proof.
  intros Hne [Hno Hfound] Hu Hs Hk Ho He Hinv d' s'.
  assert (other_name full alias key ∈ [full; alias]) as Hok.
  { destruct (other_cases full alias key Hne Hk) as [[_ ->]|[_ ->]]; set_solver. }
  assert (String.eqb (other_name full alias key) key = false) as Hoe.
  { apply String.eqb_neq. destruct (other_cases full alias key Hne Hk) as [[-> ->]|[-> ->]]; congruence. }
  assert (forall k, k ∈ [full; alias] -> k = key \/ k = other_name full alias key) as Hcase.
  { intros k Hk'. destruct (other_cases full alias key Hne Hk) as [[-> ->]|[-> ->]]; set_solver. }
  split_and!; [by apply uniq_keys_set|by apply keyed_frame|destruct found; [by apply keyed_frame|done]|].
  intros q qs Hq Hqs.
  assert (dict_get key q = Some e') as Hqk by (rewrite Hq by done; unfold d'; by rewrite dict_get_set, String.eqb_refl).
  assert (dict_get (other_name full alias key) q = None) as Hqo.
  { rewrite Hq by done. unfold d'. by rewrite dict_get_set, Hoe. }
  destruct found as [f|].
  - destruct Hinv as (e'' & Hon & Hv). exists (dict_set key e'' q). split_and!; [|by apply keyed_frame|].
    + rewrite (Hfound qs q key f e') by
        (try done; rewrite Hqs by done; unfold s'; rewrite dict_get_set, ?String.eqb_refl, ?Hoe; auto).
      by rewrite Hon.
    + intros k Hk'. rewrite dict_get_set. destruct (Hcase k Hk') as [->|E].
      * rewrite String.eqb_refl, He. by constructor.
      * rewrite E, Hoe, Hqo, Ho. constructor.
  - exists q. split_and!; [|done|].
    + apply Hno; (rewrite Hqs by set_solver; apply Hs; set_solver).
    + intros k Hk'. destruct (Hcase k Hk') as [->| ->]; [rewrite Hqk, He|rewrite Hqo, Ho]; by constructor.
Qed.

(** Nothing was extracted. *)
Lemma unkeyed_ok full alias mrg onto d s :
  merges full alias mrg onto -> uniq_keys d -> (forall k, k ∈ [full; alias] -> dict_get k s = None) ->
  uniq_keys d /\ frame [full; alias] d d /\ frame [full; alias] s s /\
  forall q qs, agree [full; alias] q d -> agree [full; alias] qs s ->
    exists q', mrg qs q = Ret q' /\ frame [full; alias] q' q /\
      forall k, k ∈ [full; alias] -> option_Forall2 veq (dict_get k q') (dict_get k d).
Proof.
  intros [Hno _] Hu Hs. split_and!; [done..|]. intros q qs Hq Hqs. exists q. split_and!; [|done|].
  - apply Hno; (rewrite Hqs by set_solver; apply Hs; set_solver).
  - intros k Hk. rewrite Hq by done. apply opt_veq_refl.
Qed.

Definition section_valid (s : section) (d : dict) : Prop :=
  single (full_name s) (alias s) d /\
  forall k sub, k ∈ [full_name s; alias s] -> dict_get k d = Some (VDict sub) -> uniq_keys sub.

(** The names in the tables are consistent. *)
Definition section_wf (s : section) : Prop :=
  full_name s <> alias s /\ forall k, k ∈ merged s <-> k ∈ names_of (fields s).

Definition section_part (mrg : section -> dict -> dict -> outcome py_exn dict) (s : section) : part :=
  mkPart [full_name s; alias s] (extract_section s) (mrg s) (section_valid s).

(** A sub-dictionary and what is extracted from it. *)
Lemma sub_inverts s sub e' found : section_wf s -> uniq_keys sub ->
  extract_pairs (fields s) (VDict sub) [] = Ret (e', found) ->
  inverts (set_fields (merged s)) (VDict sub) e' (VDict found) /\ (found = [] -> veq e' (VDict sub)).
Proof.
  intros [_ Hn] Hu E. destruct (extract_pairs_dict _ _ _ _ _ Hu E) as (d' & -> & Hu' & Hm & Hf). split.
  - destruct (set_fields_moved (merged s) (fields s) sub [] d' found) with (q := d') (qs := found) as (q' & E' & F & G);
      try done; try (intros k Hk; by apply Hn); [intros k Hk; by apply Hf|intros k Hk Hk'; by apply Hn in Hk|].
    exists (VDict q'). split; [done|]. constructor. intros k. destruct (decide (k ∈ merged s)) as [Hk|Hk].
    + by rewrite G.
    + rewrite F by done. destruct (Hf k) as [-> _]; [by rewrite <- Hn|done].
  - intros ->. constructor. intros k. destruct (Hm k) as [[-> _]|(v & _ & _ & _ & Hx)]; done.
Qed.

Lemma section_part_ok mrg s : section_wf s ->
  merges (full_name s) (alias s) (mrg s) (set_fields (merged s)) -> part_ok (section_part mrg s).
Proof.
  intros Hwf Hm. split; cbn [section_part keys extract merge valid].
  { intros d d' Ha [[H|H] Hsub]; (split; [unfold single|]).
    - left. rewrite <- Ha; [done|set_solver].
    - intros k sub Hk Hk'. apply (Hsub k); [done|]. by rewrite Ha.
    - right. rewrite <- Ha; [done|set_solver].
    - intros k sub Hk Hk'. apply (Hsub k); [done|]. by rewrite Ha. }
  intros d st d' st' Hu [Hsg Hsub] Hst H. unfold extract_section in H.
  destruct (section_key s d) as [key|] eqn:Ek; [|injection H as <- <-; by eapply unkeyed_ok].
  assert (key ∈ [full_name s; alias s] /\ (exists e, dict_get key d = Some e) /\
          dict_get (other_name (full_name s) (alias s) key) d = None) as (Hk & [e He] & Ho).
  { unfold section_key, dict_has in Ek. unfold other_name. destruct (dict_get (full_name s) d) as [e|] eqn:E1.
    - injection Ek as <-. rewrite String.eqb_refl. split_and!; [set_solver|by exists e|]. destruct Hsg; congruence.
    - destruct (dict_get (alias s) d) as [e|] eqn:E2; [|done]. injection Ek as <-.
      destruct (String.eqb (alias s) (full_name s)) eqn:E; [apply String.eqb_eq in E; congruence|].
      split_and!; [set_solver|by exists e|done]. }
  rewrite He in H. change (default VNone (Some e)) with e in H. destruct (truthy e) eqn:Et; [|injection H as <- <-; by eapply unkeyed_ok].
  destruct (extract_pairs (fields s) e []) as [[e' found]|] eqn:E; [|done]. injection H as <- <-.
  assert ((exists sub, e = VDict sub) \/ forall d1, e <> VDict d1) as [[sub ->]|Hnd].
  { destruct e; try (by right). left. by eexists. }
  - destruct (sub_inverts s sub e' found Hwf (Hsub key sub Hk He) E) as [Hi Hv].
    destruct found as [|kv found].
    + apply (keyed_ok _ _ _ _ d st key (VDict sub) e' None (proj1 Hwf) Hm); auto.
    + apply (keyed_ok _ _ _ _ d st key (VDict sub) e' (Some (VDict (kv :: found))) (proj1 Hwf) Hm); auto.
  - destruct (extract_pairs_other _ _ _ _ _ Hnd E) as [-> ->].
    apply (keyed_ok _ _ _ _ d st key e e None (proj1 Hwf) Hm); auto.
Qed.

Lemma merge_section_merges s : section_wf s ->
  merges (full_name s) (alias s) (merge_section s) (set_fields (merged s)).
Proof.
  intros [Hne _]. split; unfold merge_section, merge_section_key.
  - intros qs q H1 H2. rewrite H1. cbn. by rewrite H2.
  - intros qs q key found e Hk Hf Ho He Hoq.
    destruct (other_cases _ _ key Hne Hk) as [[-> E]|[-> E]]; rewrite E in Ho, Hoq.
    + rewrite Hf. unfold dict_has. rewrite Hoq, He. change (default (VDict []) (Some e)) with e.
      destruct (set_fields (merged s) found e); [|done]. cbn [mbind outcome_bind]. by rewrite Ho.
    + rewrite Ho. cbn [mbind outcome_bind]. rewrite Hf.
      assert (dict_has (alias s) q = true) as -> by (unfold dict_has; by rewrite He). by rewrite He.
Qed.

Lemma merge_external_merges s : section_wf s ->
  merges (full_name s) (alias s) (merge_external s) (set_fields (merged s)).
Proof.
  intros [Hne _]. split; unfold merge_external, secret_key, merge_key.
  - intros qs q H1 H2. by rewrite H1, H2.
  - intros qs q key found e Hk Hf Ho He Hoq.
    destruct (other_cases _ _ key Hne Hk) as [[-> E]|[-> E]]; rewrite E in Ho, Hoq.
    + rewrite Hf. unfold dict_has. by rewrite Hoq, !He.
    + rewrite Ho, Hf.
      assert (dict_has (alias s) q = true) as -> by (unfold dict_has; by rewrite He). by rewrite He.
Qed.

Definition sections_part (mrg : section -> dict -> dict -> outcome py_exn dict) (l : list section) : part :=
  foldr (fun s P => part_app (section_part mrg s) P) no_part l.

Lemma sections_part_extract mrg l : forall st, extract (sections_part mrg l) st = extract_sections l st.
Proof.
  induction l as [|s l IH]; intros st; [done|].
  cbn [sections_part foldr part_app extract extract_sections section_part].
  destruct (extract_section s st); [apply IH|done].
Qed.

Lemma sections_part_merge mrg l s d :
  merge (sections_part mrg l) s d = foldr (fun sec k d => d' ← mrg sec s d; k d') (fun d => Ret d) l d.
Proof.
  revert d. induction l as [|sec l IH]; intros d; [done|]. cbn [sections_part foldr part_app merge section_part].
  destruct (mrg sec s d); [apply IH|done].
Qed.

Lemma merge_sections_foldr l s d :
  merge_sections l s d = foldr (fun sec k d => d' ← merge_section sec s d; k d') (fun d => Ret d) l d.
Proof.
  revert d. induction l as [|sec l IH]; intros d; [done|]. cbn [foldr merge_sections].
  destruct (merge_section sec s d); [apply IH|done].
Qed.
Lemma merge_externals_foldr l s d :
  merge_externals l s d = foldr (fun sec k d => d' ← merge_external sec s d; k d') (fun d => Ret d) l d.
Proof.
  revert d. induction l as [|sec l IH]; intros d; [done|]. cbn [foldr merge_externals].
  destruct (merge_external sec s d); [apply IH|done].
Qed.

Lemma sections_part_valid mrg l d : Forall (fun s => section_valid s d) l -> valid (sections_part mrg l) d.
Proof. induction 1; cbn; auto. Qed.

Lemma nodup_disjoint (l l' : list string) : NoDup (l ++ l') -> l ## l'.
Proof. intros H. apply NoDup_app in H as (_ & H & _). intros k. apply H. Qed.

Lemma sections_part_ok mrg l : Forall section_wf l -> NoDup (keys (sections_part mrg l)) ->
  (forall s, section_wf s -> merges (full_name s) (alias s) (mrg s) (set_fields (merged s))) ->
  part_ok (sections_part mrg l).
Proof.
  intros Hwf Hnd Hm. induction l as [|s l IH]; [apply no_part_ok|]. apply Forall_cons in Hwf as [Hs Hl].
  apply part_app_ok; [by apply section_part_ok; auto| |by apply nodup_disjoint].
  apply IH; [done|]. by apply (NoDup_app [full_name s; alias s]) in Hnd as (_ & _ & ?).
Qed.

Ltac by_decide := refine (bool_decide_unpack _ _); vm_compute; exact I.

Lemma names_eq_decide (l : list string) pairs :
  bool_decide (Forall (fun k => k ∈ names_of pairs) l /\ Forall (fun k => k ∈ l) (names_of pairs)) = true ->
  forall k, k ∈ l <-> k ∈ names_of pairs.
Proof. intros [H1 H2]%bool_decide_eq_true k. rewrite !Forall_forall in H1, H2. split; auto. Qed.

Lemma provider_sections_wf : Forall section_wf provider_sections.
Proof. repeat (apply Forall_cons_2; [split; [done|by apply names_eq_decide]|]). by apply Forall_nil_2. Qed.
Lemma external_services_wf : Forall section_wf external_services.
Proof. repeat (apply Forall_cons_2; [split; [done|by apply names_eq_decide]|]). by apply Forall_nil_2. Qed.

(** *** A provider *)

Definition provider_names : list string := ["token"; "password"; "email"; "tk"; "pw"; "em"].
Definition provider_part : part :=
  part_app (own_part provider_fields provider_names) (sections_part merge_section provider_sections).

Lemma provider_part_ok : part_ok provider_part.
Proof.
  apply part_app_ok.
  - apply own_part_ok. by apply names_eq_decide.
  - apply sections_part_ok; [apply provider_sections_wf| |apply merge_section_merges].
    by_decide.
  - apply nodup_disjoint. by_decide.
Qed.

Lemma merge_provider_part f p : merge_provider_secrets p f = merge provider_part f p.
Proof.
  unfold merge_provider_secrets. cbn [provider_part part_app merge own_part]. fold provider_names.
  destruct (set_own provider_names f p); [|done]. cbn [mbind outcome_bind].
  by rewrite merge_sections_foldr, sections_part_merge.
Qed.

Lemma merge_provider_nothing p : merge_provider_secrets p [] = Ret p.
Proof. reflexivity. Qed.

Definition provider_valid (p : dict) : Prop :=
  uniq_keys p /\ Forall (fun s => section_valid s p) provider_sections.

Lemma provider_round p index p' found : provider_valid p -> extract_provider_secrets p index = Ret (p', found) ->
  (exists q, merge_provider_secrets p' found = Ret q /\ veq (VDict q) (VDict p)) /\
  (found = [] -> veq (VDict p') (VDict p)) /\
  (forall i, index = Some i -> found <> [] -> dict_get "_index" found = Some (VInt (Z.of_nat i))).
Proof.
  intros [Hu Hv] H. unfold extract_provider_secrets in H.
  assert (exists found0, extract provider_part (p, []) = Ret (p', found0) /\
    found = match found0, index with _ :: _, Some i => dict_set "_index" (VInt (Z.of_nat i)) found0 | _, _ => found0 end)
    as (found0 & E & ->).
  { cbn [provider_part part_app extract own_part].
    destruct (extract_own provider_fields (p, [])) as [st|]; [|done]. cbn [mbind outcome_bind] in *.
    rewrite sections_part_extract. destruct (extract_sections provider_sections st) as [[p1 f1]|]; [|done].
    injection H as <- <-. by exists f1. }
  destruct (extract_ok _ provider_part_ok p [] p' found0) as (_ & Hf & _ & Hm); [done| |done|done|].
  { split; [done|]. by apply sections_part_valid. }
  assert (exists q, merge_provider_secrets p'
      (match found0, index with _ :: _, Some i => dict_set "_index" (VInt (Z.of_nat i)) found0 | _, _ => found0 end) = Ret q /\
      veq (VDict q) (VDict p)) as Hq.
  { destruct (Hm p' (match found0, index with _ :: _, Some i => dict_set "_index" (VInt (Z.of_nat i)) found0 | _, _ => found0 end))
      as (q & Eq & Fq & Gq); [done| |].
    { intros k Hk. destruct found0 as [|kv f]; [done|]. destruct index as [i|]; [|done]. rewrite dict_get_set.
      destruct (String.eqb k "_index") eqn:E'; [|done]. apply String.eqb_eq in E' as ->. exfalso. revert Hk.
      change ("_index" ∉ keys provider_part). by_decide. }
    exists q. rewrite merge_provider_part. split; [done|]. constructor. intros k.
    destruct (decide (k ∈ keys provider_part)) as [Hk|Hk]; [by apply Gq|]. rewrite (Fq k Hk), (Hf k Hk). apply opt_veq_refl. }
  split_and!; [done| |].
  - intros Hn. destruct Hq as (q & Hq & Hv'). destruct found0 as [|kv f].
    + cbv iota in Hq. rewrite merge_provider_nothing in Hq. by injection Hq as ->.
    + destruct index; [by apply dict_set_nonempty in Hn|done].
  - intros i -> Hn. destruct found0 as [|kv f]; [done|]. rewrite dict_get_set. done.
Qed.

(** *** The list of providers *)

Definition providers_valid (l : list value) : Prop := forall p, VDict p ∈ l -> provider_valid p.

Lemma extract_providers_length l : forall i l' found, extract_providers i l = Ret (l', found) -> length l' = length l.
Proof.
  induction l as [|v l IH]; intros i l' found; cbn [extract_providers]; [by intros [= <- <-]|].
  destruct (match v with VDict p => _ | _ => _ end) as [[v' f]|]; [|done]. cbn [mbind outcome_bind].
  destruct (extract_providers (S i) l) as [[l1 rest]|] eqn:E; [|done]. intros [= <- _]. cbn. by rewrite (IH _ _ _ E).
Qed.

Lemma merge_provider_list_round l : forall pre l' found, providers_valid l ->
  extract_providers (length pre) l = Ret (l', found) ->
  exists r, merge_provider_list found (pre ++ l') = Ret (pre ++ r)%list /\ Forall2 veq r l.
Proof.
  induction l as [|v l IH]; intros pre l' found Hl; cbn [extract_providers].
  { intros [= <- <-]. exists []. by split. }
  destruct (match v with VDict p => _ | _ => _ end) as [[v' f]|] eqn:Ev; [|done]. cbn [mbind outcome_bind].
  destruct (extract_providers (S (length pre)) l) as [[l1 rest]|] eqn:E; [|done]. intros [= <- <-].
  assert (providers_valid l) as Hl' by (intros p Hp; apply Hl; by right).
  assert (forall v1, veq v1 v -> exists r, merge_provider_list rest (pre ++ v1 :: l1) = Ret (pre ++ r)%list /\ Forall2 veq r (v :: l)) as Hnext.
  { intros v1 Hv1. destruct (IH (pre ++ [v1])%list l1 rest Hl') as (r & Hr & HF).
    { rewrite length_app. cbn. by rewrite Nat.add_1_r. }
    exists (v1 :: r). rewrite <- !app_assoc in Hr. by split; [|constructor]. }
  destruct f as [|kv f].
  - apply Hnext. destruct v; try (injection Ev as <-; apply veq_refl).
    destruct (extract_provider_secrets d (Some (length pre))) as [[p' f']|] eqn:Ep; [|done]. injection Ev as <- ->.
    destruct (provider_round d (Some (length pre)) p' []) as (_ & H & _); [apply Hl; by left|done|by apply H].
  - destruct v; try done.
    destruct (extract_provider_secrets d (Some (length pre))) as [[p' f']|] eqn:Ep; [|done]. injection Ev as <- ->.
    destruct (provider_round d (Some (length pre)) p' (kv :: f)) as ((q & Hq & Hv) & _ & Hi); [apply Hl; by left|done|].
    cbn [merge_provider_list]. rewrite (Hi _ eq_refl) by done. cbn [default from_option].
    change (Datatypes.id (VInt (Z.of_nat (length pre)))) with (VInt (Z.of_nat (length pre))). cbv iota beta.
    rewrite length_app. cbn [length].
    destruct (Z.ltb_spec (Z.of_nat (length pre)) (Z.of_nat (length pre + S (length l1)))); [|lia].
    destruct (Z.ltb_spec (Z.of_nat (length pre)) 0); [lia|]. rewrite Nat2Z.id.
    rewrite list_lookup_middle by done. rewrite Hq. cbn [mbind outcome_bind].
    assert (<[length pre:=VDict q]> (pre ++ VDict p' :: l1) = (pre ++ VDict q :: l1))%list as ->.
    { rewrite insert_app_r_alt by lia. by rewrite Nat.sub_diag. }
    by apply Hnext.
Qed.

(** *** The configuration *)

Lemma keyed_lookup full alias key found qs q e : full <> alias -> key ∈ [full; alias] ->
  dict_get key qs = Some found -> dict_get (other_name full alias key) qs = None ->
  dict_get key q = Some e -> dict_get (other_name full alias key) q = None ->
  secret_key full alias qs = Some (key, found) /\ merge_key full alias key q = key.
Proof.
  intros Hne Hk Hf Ho He Hoq. unfold secret_key, merge_key, dict_has.
  destruct (other_cases full alias key Hne Hk) as [[-> E]|[-> E]]; rewrite E in Ho, Hoq.
  - by rewrite Hf, Hoq, He.
  - by rewrite Ho, Hf, He.
Qed.

Definition onto_list (found e : value) : outcome py_exn value :=
  match found, e with VList f, VList l => l' ← merge_provider_list f l; Ret (VList l') | _, _ => Raise TypeError end.
Definition onto_provider (found e : value) : outcome py_exn value :=
  match found, e with VDict f, VDict p => p' ← merge_provider_secrets p f; Ret (VDict p') | _, _ => Raise TypeError end.

Lemma merge_providers_merges : merges "streaming_providers" "sps" merge_providers onto_list.
Proof.
  split; unfold merge_providers.
  - intros qs q H1 H2. unfold secret_key. by rewrite H1, H2.
  - intros qs q key found e Hk Hf Ho He Hoq. destruct (keyed_lookup "streaming_providers" "sps" key found qs q e ltac:(discriminate) Hk Hf Ho He Hoq) as [-> ->].
    rewrite He. change (default (VList []) (Some e)) with e. unfold onto_list.
    destruct found, e; try done. by destruct (merge_provider_list l l0).
Qed.

Lemma merge_single_merges : merges "streaming_provider" "sp" merge_single_provider onto_provider.
Proof.
  split; unfold merge_single_provider.
  - intros qs q H1 H2. unfold secret_key. by rewrite H1, H2.
  - intros qs q key found e Hk Hf Ho He Hoq. destruct (keyed_lookup "streaming_provider" "sp" key found qs q e ltac:(discriminate) Hk Hf Ho He Hoq) as [-> ->].
    rewrite He. change (default (VDict []) (Some e)) with e. unfold onto_provider.
    destruct found, e; try done. by destruct (merge_provider_secrets d0 d).
Qed.

Definition provider_valid_value (v : value) : Prop :=
  match v with VDict p => provider_valid p | VList l => providers_valid l | _ => True end.

(** At most one of the names, and what is under it is well formed. *)
Definition keyed_valid (full alias : string) (d : dict) : Prop :=
  single full alias d /\ forall k e, k ∈ [full; alias] -> dict_get k d = Some e -> provider_valid_value e.

Lemma keyed_valid_agree full alias d d' : agree [full; alias] d d' -> keyed_valid full alias d -> keyed_valid full alias d'.
Proof.
  intros Ha [Hs Hv]. split.
  - destruct Hs as [H|H]; [left|right]; (rewrite <- Ha; [done|set_solver]).
  - intros k e Hk He. apply (Hv k); [done|]. by rewrite Ha.
Qed.

Lemma single_other full alias d key e : full <> alias -> single full alias d -> key ∈ [full; alias] ->
  dict_get key d = Some e -> dict_get (other_name full alias key) d = None.
Proof.
  intros Hne Hs Hk He. destruct (other_cases full alias key Hne Hk) as [[-> E]|[-> E]]; rewrite E; destruct Hs; congruence.
Qed.

Definition list_part : part :=
  mkPart ["streaming_providers"; "sps"] extract_provider_list merge_providers (keyed_valid "streaming_providers" "sps").

Lemma list_key_Some d key l : list_key d = Some (key, l) ->
  key ∈ ["streaming_providers"; "sps"] /\ dict_get key d = Some (VList l).
Proof.
  unfold list_key. destruct (dict_get "streaming_providers" d) as [[]|] eqn:E1.
  6: { intros [= <- <-]. split; [set_solver|done]. }
  all: destruct (dict_get "sps" d) as [[]|] eqn:E2; try done; intros [= <- <-]; (split; [set_solver|done]).
Qed.

Lemma list_part_ok : part_ok list_part.
Proof.
  split; cbn [list_part keys extract merge valid]; [apply keyed_valid_agree|].
  intros d s d' s' Hu [Hsg Hv] Hs H. unfold extract_provider_list in H.
  destruct (list_key d) as [[key l]|] eqn:Ek; [|injection H as <- <-; eapply unkeyed_ok; eauto using merge_providers_merges].
  destruct (list_key_Some _ _ _ Ek) as [Hk Hl].
  destruct (extract_providers 0 l) as [[l' found]|] eqn:E; [|done]. injection H as <- <-.
  destruct (merge_provider_list_round l [] l' found) as (r & Hr & HF); [exact (Hv key _ Hk Hl)|done|]. cbn in Hr.
  pose proof (single_other "streaming_providers" "sps" d key _ ltac:(discriminate) Hsg Hk Hl) as Ho.
  destruct found as [|f found].
  - apply (keyed_ok _ _ _ onto_list d s key (VList l) (VList l') None); auto using merge_providers_merges.
    cbn in Hr. injection Hr as ->. by constructor.
  - apply (keyed_ok _ _ _ onto_list d s key (VList l) (VList l') (Some (VList (f :: found)))); auto using merge_providers_merges.
    exists (VList r). split; [|by constructor]. unfold onto_list. by rewrite Hr.
Qed.

Definition single_part : part :=
  mkPart ["streaming_provider"; "sp"] extract_single_provider merge_single_provider (keyed_valid "streaming_provider" "sp").

Lemma single_key_Some d key p : single_key d = Some (key, p) ->
  key ∈ ["streaming_provider"; "sp"] /\ dict_get key d = Some (VDict p).
Proof.
  unfold single_key. destruct (dict_get "streaming_provider" d) as [[| | | | | |[]]|] eqn:E1.
  8: { intros [= <- <-]. split; [set_solver|done]. }
  all: destruct (dict_get "sp" d) as [[| | | | | |[]]|] eqn:E2; try done; intros [= <- <-]; (split; [set_solver|done]).
Qed.

Lemma single_part_ok : part_ok single_part.
Proof.
  split; cbn [single_part keys extract merge valid]; [apply keyed_valid_agree|].
  intros d s d' s' Hu [Hsg Hv] Hs H. unfold extract_single_provider in H.
  destruct (single_key d) as [[key p]|] eqn:Ek; [|injection H as <- <-; eapply unkeyed_ok; eauto using merge_single_merges].
  destruct (single_key_Some _ _ _ Ek) as [Hk Hl].
  destruct (extract_provider_secrets p None) as [[p' found]|] eqn:E; [|done]. injection H as <- <-.
  destruct (provider_round p None p' found (Hv key _ Hk Hl) E) as ((q & Hq & Hqv) & Hn & _).
  pose proof (single_other "streaming_provider" "sp" d key _ ltac:(discriminate) Hsg Hk Hl) as Ho.
  destruct found as [|f found].
  - apply (keyed_ok _ _ _ onto_provider d s key (VDict p) (VDict p') None); auto using merge_single_merges.
  - apply (keyed_ok _ _ _ onto_provider d s key (VDict p) (VDict p') (Some (VDict (f :: found)))); auto using merge_single_merges.
    exists (VDict q). split; [|done]. unfold onto_provider. by rewrite Hq.
Qed.

Definition api_password_part : part :=
  mkPart ["api_password"; "ap"] (extract_own [("api_password", "ap")]) merge_api_password (fun d => dict_get "ap" d = None).

Lemma api_password_part_ok : part_ok api_password_part.
Proof.
  split; cbn [api_password_part keys extract merge valid].
  { intros d d' Ha H. rewrite <- Ha; [done|set_solver]. }
  intros d s d' s' Hu Hap Hs H. unfold extract_own in H. cbn [fst snd] in H.
  destruct (extract_pairs [("api_password", "ap")] (VDict d) s) as [[v' s1]|] eqn:E; [|done].
  destruct (extract_pairs_dict _ d s v' s1 Hu E) as (d1 & -> & Hu1 & Hm & Hf). injection H as -> ->.
  split_and!; [done|intros k Hk; apply Hf; exact Hk..|]. intros q qs Hq Hqs.
  assert (dict_get "ap" q = None) as Hqa.
  { rewrite Hq by set_solver. destruct (Hm "ap") as [[-> _]|(v & _ & Hv & _)]; [done|congruence]. }
  assert (dict_get "ap" qs = None) as Hqsa.
  { rewrite Hqs by set_solver. destruct (Hm "ap") as [[_ ->]|(v & _ & Hv & _)]; [apply Hs; set_solver|congruence]. }
  eexists. split; [reflexivity|]. unfold secret_key. rewrite Hqsa. unfold dict_has. rewrite Hqa.
  destruct (Hm "api_password") as [[E1 E2]|(v & _ & Hv & Hd & Hs')].
  - assert (dict_get "api_password" qs = None) as ->.
    { rewrite Hqs, E2 by set_solver. apply Hs. set_solver. }
    split; [done|]. intros k Hk. apply elem_of_cons in Hk as [->|Hk]; [rewrite Hq, E1 by set_solver; apply opt_veq_refl|].
    apply list_elem_of_singleton in Hk as ->. rewrite Hqa, Hap. constructor.
  - assert (dict_get "api_password" qs = Some v) as -> by (rewrite Hqs; [done|set_solver]). split.
    + intros k Hk. rewrite dict_get_set. destruct (String.eqb k "api_password") eqn:Ek; [|done].
      apply String.eqb_eq in Ek as ->. set_solver.
    + intros k Hk. rewrite dict_get_set. apply elem_of_cons in Hk as [->|Hk]; [cbn; rewrite Hv; apply opt_veq_refl|].
      apply list_elem_of_singleton in Hk as ->. cbn. rewrite Hqa, Hap. constructor.
Qed.

Definition config_part : part :=
  part_app list_part (part_app single_part (part_app (sections_part merge_external external_services) api_password_part)).

Lemma config_part_ok : part_ok config_part.
Proof.
  apply part_app_ok; [apply list_part_ok| |apply nodup_disjoint; by_decide].
  apply part_app_ok; [apply single_part_ok| |apply nodup_disjoint; by_decide].
  apply part_app_ok; [|apply api_password_part_ok|apply nodup_disjoint; by_decide].
  apply sections_part_ok; [apply external_services_wf|by_decide|apply merge_external_merges].
Qed.

Lemma config_part_extract c : extract config_part (c, []) = extract_secrets c.
Proof.
  unfold extract_secrets. cbn [config_part part_app list_part single_part api_password_part extract].
  destruct (extract_provider_list (c, [])) as [st|]; [|done]. cbn [mbind outcome_bind].
  destruct (extract_single_provider st) as [st'|]; [|done]. cbn [mbind outcome_bind]. by rewrite sections_part_extract.
Qed.

Lemma config_part_merge s c : merge config_part s c = merge_secrets c s.
Proof.
  unfold merge_secrets. cbn [config_part part_app list_part single_part api_password_part merge].
  destruct (merge_providers s c) as [c1|]; [|done]. cbn [mbind outcome_bind].
  destruct (merge_single_provider s c1) as [c2|]; [|done]. cbn [mbind outcome_bind].
  by rewrite sections_part_merge, merge_externals_foldr.
Qed.

(** A configuration that names everything once: each section, each provider and
    the API password under one spelling (the password under its full name). *)
Definition well_spelled (c : dict) : Prop :=
  uniq_keys c /\
  keyed_valid "streaming_providers" "sps" c /\
  keyed_valid "streaming_provider" "sp" c /\
  Forall (fun s => section_valid s c) external_services /\
  dict_get "ap" c = None.

(** [C5] Round trip: what [extract_secrets] splits, [merge_secrets] puts
    together again.  For a configuration that names each provider entry, each
    section of a provider and each external service once, and its API password
    by the full name only ([well_spelled]), merging the clean configuration and
    the secrets succeeds and gives a dictionary equal to the original, at every
    level, whatever the number of providers and the types of the other values.
    A password under the short name comes back under the full one:
    [short_password_renamed]. *)
Theorem merge_extract (config clean secrets : dict) :
  well_spelled config -> extract_secrets config = Ret (clean, secrets) ->
  exists full, merge_secrets clean secrets = Ret full /\ veq (VDict full) (VDict config).
Proof.
  intros (Hu & Hl & Hs & He & Ha) H. rewrite <- config_part_extract in H.
  destruct (extract_ok _ config_part_ok config [] clean secrets) as (_ & Hf & _ & Hm); [done| |done|done|].
  { cbn [config_part part_app list_part single_part api_password_part valid]. auto using sections_part_valid. }
  destruct (Hm clean secrets) as (full & E & F & G); [done..|]. exists full. rewrite <- config_part_merge. split; [done|].
  constructor. intros k. destruct (decide (k ∈ keys config_part)) as [Hk|Hk]; [by apply G|].
  rewrite (F k Hk), (Hf k Hk). apply opt_veq_refl.
Qed.

Example short_password_renamed :
  ('(clean, secrets) ← extract_secrets [("ap", VStr "a1")]; merge_secrets clean secrets) = Ret [("api_password", VStr "a1")].
Proof. reflexivity. Qed.

Definition sample_config : dict :=
  [("sps", VList [VDict [("sv", VStr "p2p")];
                  VDict [("sv", VStr "nzbdav"); ("tk", VStr "t1"); ("ndc", VDict [("u", VStr "http://n"); ("ak", VStr "k1")])]]);
   ("mfc", VDict [("pu", VStr "http://m"); ("ap", VStr "m1")]); ("api_password", VStr "a1"); ("sr", VList [VStr "4k"; VNone])].

Lemma sample_well_spelled : well_spelled sample_config.
Proof.
  split_and!.
  - unfold uniq_keys. by_decide.
  - split; [by left|]. intros k e Hk. apply elem_of_cons in Hk as [->|Hk]; [done|]. apply list_elem_of_singleton in Hk as ->.
    intros [= <-]. intros p. rewrite !elem_of_cons. intros [[= ->]|[[= ->]|?%elem_of_nil]]; [| |done].
    + split; [unfold uniq_keys; by_decide|]. repeat (apply Forall_cons_2; [split; [by left|]|]); [..|by apply Forall_nil_2].
      all: intros k sub Hk; apply elem_of_cons in Hk as [->|Hk]; [done|]; by apply list_elem_of_singleton in Hk as ->.
    + split; [unfold uniq_keys; by_decide|]. repeat (apply Forall_cons_2; [split; [by left|]|]); [..|by apply Forall_nil_2].
      all: intros k sub Hk; apply elem_of_cons in Hk as [->|Hk]; [done|]; apply list_elem_of_singleton in Hk as ->; try done.
      intros [= <-]. unfold uniq_keys. by_decide.
  - split; [by left|]. intros k e Hk. apply elem_of_cons in Hk as [->|Hk]; [done|]. by apply list_elem_of_singleton in Hk as ->.
  - repeat (apply Forall_cons_2; [split; [by left|]|]); [..|by apply Forall_nil_2].
    all: intros k sub Hk; apply elem_of_cons in Hk as [->|Hk]; [done|]; apply list_elem_of_singleton in Hk as ->; try done.
    intros [= <-]. unfold uniq_keys. by_decide.
  - done.
Qed.

Lemma merge_extract_witness : exists clean secrets full,
  extract_secrets sample_config = Ret (clean, secrets) /\ merge_secrets clean secrets = Ret full /\
  veq (VDict full) (VDict sample_config).
Proof.
  do 2 eexists. destruct (merge_extract sample_config _ _ sample_well_spelled eq_refl) as (full & H1 & H2).
  exists full. split; [reflexivity|]. split; [exact H1|exact H2].
Defined.

(** ** Nothing secret stays in the clean part *)

(** The truthy values at the given names. *)
Definition secret_values (names : list string) (d : dict) : list value :=
  omap (fun n => match dict_get n d with Some v => if truthy v then Some v else None | None => None end) names.

Definition section_secrets (s : section) (d : dict) : list value :=
  flat_map (fun k => match dict_get k d with
                     | Some (VDict sub) => secret_values (names_of (fields s)) sub
                     | _ => []
                     end) [full_name s; alias s].

Definition provider_secrets (p : dict) : list value :=
  (secret_values provider_names p ++ flat_map (fun s => section_secrets s p) provider_sections)%list.

Definition value_secrets (v : value) : list value :=
  match v with
  | VDict p => provider_secrets p
  | VList l => flat_map (fun v => match v with VDict p => provider_secrets p | _ => [] end) l
  | _ => []
  end.

Definition list_secrets (v : value) : list value := match v with VList _ => value_secrets v | _ => [] end.
Definition dict_secrets (v : value) : list value := match v with VDict _ => value_secrets v | _ => [] end.

Definition keyed_secrets (sel : value -> list value) (full alias : string) (d : dict) : list value :=
  flat_map (fun k => match dict_get k d with Some v => sel v | None => [] end) [full; alias].

(** Every value at a place where the tables say that a secret is, under either name. *)
Definition config_secrets (c : dict) : list value :=
  (keyed_secrets list_secrets "streaming_providers" "sps" c ++ keyed_secrets dict_secrets "streaming_provider" "sp" c
   ++ flat_map (fun s => section_secrets s c) external_services ++ secret_values ["api_password"; "ap"] c)%list.

Definition spelled_once (pairs : list (string * string)) (d : dict) : Prop :=
  Forall (fun p => single p.1 p.2 d) pairs.

Lemma flat_map_nil {A B} (f : A -> list B) l : flat_map f l = [] <-> forall x, x ∈ l -> f x = [].
Proof.
  induction l as [|x l IH]; cbn; [set_solver|]. split.
  - intros [H1 H2]%app_eq_nil y [->|Hy]%elem_of_cons; [done|by apply IH].
  - intros H. rewrite H by set_solver. cbn. apply IH. set_solver.
Qed.

Lemma secret_values_nil names d :
  secret_values names d = [] <-> forall n v, n ∈ names -> dict_get n d = Some v -> truthy v = false.
Proof.
  unfold secret_values. induction names as [|n names IH]; cbn; [set_solver|]. split.
  - intros H m v [->|Hm]%elem_of_cons Hv.
    + rewrite Hv in H. by destruct (truthy v).
    + apply (proj1 IH) with m; [|done..]. destruct (dict_get n d) as [w|]; [destruct (truthy w)|]; done.
  - intros H. destruct (dict_get n d) as [v|] eqn:E; [rewrite (H n v) by (done || set_solver)|]; apply IH; set_solver.
Qed.

Lemma extract_pairs_hides pairs : forall d s v' s', uniq_keys d -> spelled_once pairs d ->
  extract_pairs pairs (VDict d) s = Ret (v', s') -> exists d', v' = VDict d' /\ secret_values (names_of pairs) d' = [].
Proof.
  intros d s v' s' Hu Hs H. destruct (extract_pairs_dict _ _ _ _ _ Hu H) as (d0 & -> & Hu0 & Hm & Hf).
  exists d0. split; [done|]. apply secret_values_nil. intros n v Hn Hv.
  destruct (truthy v) eqn:Et; [exfalso|done].
  revert d s Hu Hs H Hm Hf. induction pairs as [|[full al] pairs IH]; intros d s Hu Hs H Hm Hf; [by apply elem_of_nil in Hn|].
  apply Forall_cons in Hs as [Hsg Hs]. cbn [fst snd] in Hsg. cbn [extract_pairs] in H. rewrite !present_dict in H.
  assert (dict_get n d = Some v) as Hd.
  { destruct (Hm n) as [[<- _]|(w & _ & _ & Hn' & _)]; [done|congruence]. }
  assert (forall name w, dict_get name d = Some w -> py_delitem name (VDict d) = Ret (VDict (dict_pop name d))) as Hdel.
  { intros name w Hw. unfold py_delitem, dict_has. by rewrite Hw. }
  assert (forall name w, name = full \/ name = al -> dict_get name d = Some w -> truthy w = true ->
    extract_pairs pairs (VDict (dict_pop name d)) (dict_set name w s) = Ret (VDict d0, s') -> name = n -> False) as Htake.
  { intros name w Hn' Hw Ht He ->. destruct (extract_pairs_dict _ _ _ _ _ (uniq_keys_pop n d Hu) He) as (d1 & [= <-] & _ & Hm1 & _).
    destruct (Hm1 n) as [[E _]|(z & _ & E & _)]; rewrite dict_get_pop, String.eqb_refl in E by done; congruence. }
  assert (forall d1 s1, uniq_keys d1 -> spelled_once pairs d1 -> n ∈ names_of pairs ->
    extract_pairs pairs (VDict d1) s1 = Ret (VDict d0, s') -> False) as Hrest.
  { intros d1 s1 Hu1 Hs1 Hn1 He. destruct (extract_pairs_dict _ _ _ _ _ Hu1 He) as (d2 & [= <-] & _ & Hm1 & Hf1).
    by apply (IH Hn1 d1 s1). }
  assert (forall name, spelled_once pairs (dict_pop name d)) as Hsp.
  { intros name. eapply Forall_impl; [exact Hs|]. intros [f a] [E|E]; [left|right]; cbn in *; rewrite dict_get_pop by done;
      by destruct (String.eqb _ _). }
  assert (n = full \/ n = al \/ n ∈ names_of pairs) as Hcases.
  { unfold names_of in *. cbn in Hn. set_solver. }
  destruct (dict_get full d) as [w|] eqn:Ef; [destruct (truthy w) eqn:Ew|]; cbn [mbind outcome_bind] in H.
  - rewrite (Hdel full w Ef) in H. cbn [mbind outcome_bind] in H. destruct Hcases as [->|[->|Hn']].
    + eapply (Htake full w); eauto.
    + destruct Hsg; congruence.
    + eapply Hrest; [by apply uniq_keys_pop|apply Hsp|done|exact H].
  - destruct Hsg as [|Ea]; [congruence|]. rewrite Ea in H. cbn [mbind outcome_bind] in H.
    destruct Hcases as [->|[->|Hn']]; [congruence..|by eapply Hrest].
  - destruct (dict_get al d) as [z|] eqn:Ea; [destruct (truthy z) eqn:Ez|]; cbn [mbind outcome_bind] in H.
    + rewrite (Hdel al z Ea) in H. cbn [mbind outcome_bind] in H. destruct Hcases as [->|[->|Hn']]; [congruence|eapply (Htake al z); eauto|].
      eapply Hrest; [by apply uniq_keys_pop|apply Hsp|done|exact H].
    + destruct Hcases as [->|[->|Hn']]; [congruence..|by eapply Hrest].
    + destruct Hcases as [->|[->|Hn']]; [congruence..|by eapply Hrest].
Qed.

(** A part hides what it extracts. *)
Record part_hides (P : part) (once hidden : dict -> Prop) : Prop := {
  once_agree : forall d d', agree (keys P) d d' -> once d -> once d';
  hidden_agree : forall d d', agree (keys P) d d' -> hidden d -> hidden d';
  hides : forall d s d' s', uniq_keys d -> valid P d -> once d -> extract P (d, s) = Ret (d', s') ->
    uniq_keys d' /\ frame (keys P) d' d /\ hidden d';
}.

Lemma no_part_hides : part_hides no_part (fun _ => True) (fun _ => True).
Proof. split; [done..|]. by intros d s d' s' Hu _ _ [= <- <-]. Qed.

Lemma part_app_hides P Q o h o' h' : part_ok P -> part_ok Q -> keys P ## keys Q ->
  part_hides P o h -> part_hides Q o' h' ->
  part_hides (part_app P Q) (fun d => o d /\ o' d) (fun d => h d /\ h' d).
Proof.
  intros [VP _] [VQ _] Hd [OP HP EP] [OQ HQ EQ].
  assert (forall k, k ∈ keys P -> k ∈ (keys P ++ keys Q)%list /\ k ∉ keys Q) as KP by set_solver.
  assert (forall k, k ∈ keys Q -> k ∈ (keys P ++ keys Q)%list /\ k ∉ keys P) as KQ by set_solver.
  assert (forall k, k ∉ (keys P ++ keys Q)%list -> k ∉ keys P /\ k ∉ keys Q) as KN by set_solver.
  clear Hd. split; cbn [part_app keys valid extract].
  - intros d d' Ha [H1 H2]. split; [eapply OP|eapply OQ]; eauto; intros k Hk; apply Ha; [by apply KP|by apply KQ].
  - intros d d' Ha [H1 H2]. split; [eapply HP|eapply HQ]; eauto; intros k Hk; apply Ha; [by apply KP|by apply KQ].
  - intros d s d2 s2 Hu [HvP HvQ] [Ho1 Ho2] H.
    destruct (extract P (d, s)) as [[d1 s1]|] eqn:E1; [|done]. cbn [mbind outcome_bind] in H.
    destruct (EP d s d1 s1) as (Hu1 & F1 & H1); [done..|].
    assert (agree (keys Q) d d1) as Ha by (intros k Hk; symmetry; apply F1; by apply KQ).
    destruct (EQ d1 s1 d2 s2) as (Hu2 & F2 & H2); [done|by eapply VQ|by eapply OQ|done|].
    split_and!; [done| | |done].
    + intros k Hk. destruct (KN k Hk). by rewrite F2, F1.
    + eapply HP; [|exact H1]. intros k Hk. symmetry. apply F2. by apply KP.
Qed.

Lemma secret_values_agree names d d' : agree names d d' -> secret_values names d = secret_values names d'.
Proof.
  intros Ha. unfold secret_values. induction names as [|n names IH]; [done|]. cbn. rewrite (Ha n) by set_solver.
  rewrite IH; [done|]. intros k Hk. apply Ha. by right.
Qed.

Lemma own_part_hides pairs names : (forall k, k ∈ names <-> k ∈ names_of pairs) ->
  part_hides (own_part pairs names) (spelled_once pairs) (fun d => secret_values names d = []).
Proof.
  intros Hn. split; cbn [own_part keys extract].
  - intros d d' Ha H. unfold spelled_once in *. rewrite Forall_forall in *. intros p Hp.
    assert (p.1 ∈ names /\ p.2 ∈ names) as [H1 H2].
    { split; apply Hn; unfold names_of; rewrite elem_of_app, !list_elem_of_fmap; [left|right]; eauto. }
    destruct (H p Hp) as [E|E]; [left|right]; by rewrite <- Ha.
  - intros d d' Ha. by rewrite (secret_values_agree _ _ _ Ha).
  - intros d s d' s' Hu _ Ho H. unfold extract_own in H. cbn [fst snd] in H.
    destruct (extract_pairs pairs (VDict d) s) as [[v' s1]|] eqn:E; [|done].
    destruct (extract_pairs_dict _ _ _ _ _ Hu E) as (d1 & -> & Hu1 & _ & Hf). injection H as -> ->.
    destruct (extract_pairs_hides _ _ _ _ _ Hu Ho E) as (d1 & [= <-] & Hh). split_and!; [done| |].
    + intros k Hk. apply Hf. by rewrite <- Hn.
    + rewrite secret_values_nil in *. intros n v Hk. apply Hh. by apply Hn.
Qed.

Definition section_once (s : section) (d : dict) : Prop :=
  forall k sub, k ∈ [full_name s; alias s] -> dict_get k d = Some (VDict sub) -> spelled_once (fields s) sub.

Lemma falsy_dict sub : truthy (VDict sub) = false -> sub = [].
Proof. by destruct sub. Qed.

Lemma section_secrets_nil s d :
  section_secrets s d = [] <->
  forall k sub, k ∈ [full_name s; alias s] -> dict_get k d = Some (VDict sub) -> secret_values (names_of (fields s)) sub = [].
Proof.
  unfold section_secrets. rewrite flat_map_nil. split.
  - intros H k sub Hk E. specialize (H k Hk). by rewrite E in H.
  - intros H k Hk. destruct (dict_get k d) as [[]|] eqn:E; try done. by apply (H k).
Qed.

Lemma section_part_hides mrg s : section_wf s ->
  part_hides (section_part mrg s) (section_once s) (fun d => section_secrets s d = []).
Proof.
  intros [Hne Hwf]. split; cbn [section_part keys extract valid].
  - intros d d' Ha H k sub Hk E. apply (H k); [done|]. by rewrite Ha.
  - intros d d' Ha. rewrite !section_secrets_nil. intros H k sub Hk E. apply (H k); [done|]. by rewrite Ha.
  - intros d st d' st' Hu [Hsg Hsub] Ho H. unfold extract_section in H.
    assert (forall k e', k ∈ [full_name s; alias s] -> dict_get k d <> None ->
      (forall sub, e' = VDict sub -> secret_values (names_of (fields s)) sub = []) ->
      uniq_keys (dict_set k e' d) /\ frame [full_name s; alias s] (dict_set k e' d) d /\
      section_secrets s (dict_set k e' d) = []) as Hset.
    { intros k e' Hk Hd He. split_and!; [by apply uniq_keys_set|by apply keyed_frame|]. apply section_secrets_nil.
      intros k' sub Hk'. rewrite dict_get_set. destruct (String.eqb k' k) eqn:E; [intros [= ->]; by apply He|].
      apply String.eqb_neq in E. intros Hk''. exfalso. destruct Hsg; set_unfold; destruct_or!; congruence. }
    destruct (section_key s d) as [key|] eqn:Ek.
    + assert (key ∈ [full_name s; alias s] /\ exists e, dict_get key d = Some e) as (Hk & e & He).
      { unfold section_key, dict_has in Ek. destruct (dict_get (full_name s) d) as [e|] eqn:E1;
          [injection Ek as <-; split; [set_solver|by exists e]|].
        destruct (dict_get (alias s) d) as [e|] eqn:E2; [|done]. injection Ek as <-. split; [set_solver|by exists e]. }
      rewrite He in H. change (default VNone (Some e)) with e in H.
      assert (forall sub, dict_get key d = Some (VDict sub) -> uniq_keys sub) as Hus by (intros sub; by apply Hsub).
      destruct (truthy e) eqn:Et.
      * destruct (extract_pairs (fields s) e []) as [[e' found]|] eqn:E; [|done]. injection H as <- <-.
        apply Hset; [done|congruence|]. intros sub' ->.
        assert ((exists sub, e = VDict sub) \/ forall d1, e <> VDict d1) as [[sub ->]|Hnd].
        { destruct e; try (by right). left. by eexists. }
        -- destruct (extract_pairs_hides _ _ _ _ _ (Hus _ He) (Ho _ _ Hk He) E) as (d1 & [= ->] & Hh). exact Hh.
        -- destruct (extract_pairs_other _ _ _ _ _ Hnd E) as [<- _]. by destruct (Hnd sub').
      * injection H as <- <-. split_and!; [done..|]. apply section_secrets_nil. intros k sub Hk' E.
        assert (k = key) as -> by (destruct Hsg; set_unfold; destruct_or!; congruence).
        rewrite He in E. injection E as ->. apply falsy_dict in Et as ->. by apply secret_values_nil.
    + injection H as <- <-. split_and!; [done..|]. apply section_secrets_nil. intros k sub Hk' E.
      unfold section_key, dict_has in Ek. set_unfold in Hk'.
      destruct (dict_get (full_name s) d) eqn:E1; [done|]. destruct (dict_get (alias s) d) eqn:E2; [done|].
      destruct_or!; congruence.
Qed.

Lemma sections_part_hides mrg l : Forall section_wf l -> NoDup (keys (sections_part mrg l)) ->
  (forall s, section_wf s -> merges (full_name s) (alias s) (mrg s) (set_fields (merged s))) ->
  part_hides (sections_part mrg l) (fun d => Forall (fun s => section_once s d) l)
    (fun d => flat_map (fun s => section_secrets s d) l = []).
Proof.
  intros Hwf Hnd Hm. induction l as [|s l IH].
  { destruct no_part_hides as [H1 H2 H3]. split; [|done|].
    - intros d d' _ _. by apply Forall_nil_2.
    - intros d st d' s' Hu Hv _ E. by destruct (H3 d st d' s' Hu Hv I E) as (? & ? & _). }
  apply Forall_cons in Hwf as [Hs Hl]. assert (NoDup (keys (sections_part mrg l))) as Hnd'.
  { by apply (NoDup_app [full_name s; alias s]) in Hnd as (_ & _ & ?). }
  destruct (part_app_hides (section_part mrg s) (sections_part mrg l) _ _ _ _
    (section_part_ok mrg s Hs (Hm s Hs)) (sections_part_ok mrg l Hl Hnd' Hm) (nodup_disjoint _ _ Hnd)
    (section_part_hides mrg s Hs) (IH Hl Hnd')) as [H1 H2 H3]. split.
  - intros d d' Ha [A B]%Forall_cons. destruct (H1 d d' Ha (conj A B)). by apply Forall_cons_2.
  - intros d d' Ha [A B]%app_eq_nil. destruct (H2 d d' Ha (conj A B)) as [C D]. cbn [flat_map]. by rewrite C, D.
  - intros d st d' st' Hu Hv [A B]%Forall_cons E. destruct (H3 d st d' st' Hu Hv (conj A B) E) as (X & Y & C & D).
    split_and!; [done..|]. cbn [flat_map]. by rewrite C, D.
Qed.

Definition provider_once (p : dict) : Prop :=
  spelled_once provider_fields p /\ Forall (fun s => section_once s p) provider_sections.

Lemma provider_part_hides : part_hides provider_part provider_once (fun p => provider_secrets p = []).
Proof.
  destruct (part_app_hides _ _ _ _ _ _
    (own_part_ok provider_fields provider_names ltac:(by apply names_eq_decide))
    (sections_part_ok merge_section provider_sections provider_sections_wf ltac:(by_decide) merge_section_merges)
    ltac:(apply nodup_disjoint; by_decide)
    (own_part_hides provider_fields provider_names ltac:(by apply names_eq_decide))
    (sections_part_hides merge_section provider_sections provider_sections_wf ltac:(by_decide) merge_section_merges))
    as [H1 H2 H3]. split; [done| |].
  - intros d d' Ha [A B]%app_eq_nil. destruct (H2 d d' Ha (conj A B)) as [C D]. unfold provider_secrets. by rewrite C, D.
  - intros d st d' st' Hu Hv Ho E. destruct (H3 d st d' st' Hu Hv Ho E) as (X & Y & C & D).
    split_and!; [done..|]. unfold provider_secrets. by rewrite C, D.
Qed.

Lemma provider_hides p index p' found : provider_valid p -> provider_once p ->
  extract_provider_secrets p index = Ret (p', found) -> provider_secrets p' = [].
Proof.
  intros [Hu Hv] Ho H. unfold extract_provider_secrets in H.
  destruct (extract_own provider_fields (p, [])) as [st|] eqn:E; [|done]. cbn [mbind outcome_bind] in H.
  destruct (extract_sections provider_sections st) as [[p1 f1]|] eqn:E1; [|done]. injection H as <- _.
  apply (hides _ _ _ provider_part_hides p [] p1 f1); [done| |done|].
  - split; [done|]. by apply sections_part_valid.
  - cbn [provider_part part_app extract own_part]. unfold dict in *. rewrite E. cbn [mbind outcome_bind]. by rewrite sections_part_extract.
Qed.

Definition value_once (v : value) : Prop :=
  match v with
  | VDict p => provider_once p
  | VList l => forall p, VDict p ∈ l -> provider_once p
  | _ => True
  end.

Lemma extract_providers_hide l : forall i l' found,
  providers_valid l -> value_once (VList l) -> extract_providers i l = Ret (l', found) -> value_secrets (VList l') = [].
Proof.
  induction l as [|v l IH]; intros i l' found Hv Ho; cbn [extract_providers]; [by intros [= <- _]|].
  destruct (match v with VDict p => _ | _ => _ end) as [[v' f]|] eqn:Ev; [|done]. cbn [mbind outcome_bind].
  destruct (extract_providers (S i) l) as [[l1 rest]|] eqn:E; [|done]. intros [= <- _].
  change (value_secrets (VList (v' :: l1)))
    with ((match v' with VDict p => provider_secrets p | _ => [] end) ++ value_secrets (VList l1))%list.
  rewrite (IH (S i) l1 rest) by (done || (intros p Hp; (apply Hv || apply Ho); by right)).
  rewrite app_nil_r. destruct v; try (injection Ev as <- _; done).
  destruct (extract_provider_secrets d (Some i)) as [[p' f']|] eqn:Ep; [|done]. injection Ev as <- _.
  eapply provider_hides; [apply Hv; by left|apply Ho; by left|done].
Qed.

(** What is under one of two names, the other being absent. *)
Lemma keyed_hides full alias (sel : value -> list value) d key e' e : full <> alias ->
  keyed_valid full alias d -> key ∈ [full; alias] -> dict_get key d = Some e -> sel e' = [] ->
  keyed_secrets sel full alias (dict_set key e' d) = [].
Proof.
  intros Hne [Hs _] Hk He Hsel. apply flat_map_nil. intros k Hk'. rewrite dict_get_set.
  destruct (String.eqb k key) eqn:E; [done|]. apply String.eqb_neq in E.
  assert (dict_get k d = None) as ->; [|done]. destruct Hs; set_unfold; destruct_or!; congruence.
Qed.

Definition keyed_once (full alias : string) (d : dict) : Prop :=
  forall k e, k ∈ [full; alias] -> dict_get k d = Some e -> value_once e.

Definition keyed_hidden (sel : value -> list value) (full alias : string) (d : dict) : Prop :=
  keyed_secrets sel full alias d = [].

Lemma keyed_hidden_agree sel full alias d d' : agree [full; alias] d d' -> keyed_hidden sel full alias d -> keyed_hidden sel full alias d'.
Proof. unfold keyed_hidden, keyed_secrets. cbn. intros Ha. by rewrite !Ha by set_solver. Qed.
Lemma keyed_once_agree full alias d d' : agree [full; alias] d d' -> keyed_once full alias d -> keyed_once full alias d'.
Proof. intros Ha H k e Hk He. apply (H k); [done|]. by rewrite Ha. Qed.

Lemma list_part_hides : part_hides list_part (keyed_once "streaming_providers" "sps")
  (keyed_hidden list_secrets "streaming_providers" "sps").
Proof.
  split; cbn [list_part keys extract valid]; [apply keyed_once_agree|apply keyed_hidden_agree|].
  intros d s d' s' Hu Hv Ho H. unfold extract_provider_list in H. destruct (list_key d) as [[key l]|] eqn:Ek.
  - destruct (list_key_Some _ _ _ Ek) as [Hk Hl]. destruct (extract_providers 0 l) as [[l' found]|] eqn:E; [|done].
    injection H as <- _. split_and!; [by apply uniq_keys_set|by apply keyed_frame|].
    apply (keyed_hides _ _ list_secrets d key (VList l') (VList l)); [discriminate|done..|].
    eapply extract_providers_hide; [exact (proj2 Hv key _ Hk Hl)|exact (Ho key _ Hk Hl)|done].
  - injection H as <- _. split_and!; [done..|]. apply flat_map_nil. intros k Hk. unfold list_key in Ek.
    destruct (dict_get k d) as [[]|] eqn:Ekd; try done. exfalso. set_unfold in Hk. destruct Hk as [->|[->|[]]].
    + by rewrite Ekd in Ek.
    + rewrite Ekd in Ek. by destruct (dict_get "streaming_providers" d) as [[]|].
Qed.

Lemma single_part_hides : part_hides single_part (keyed_once "streaming_provider" "sp")
  (keyed_hidden dict_secrets "streaming_provider" "sp").
Proof.
  split; cbn [single_part keys extract valid]; [apply keyed_once_agree|apply keyed_hidden_agree|].
  intros d s d' s' Hu Hv Ho H. unfold extract_single_provider in H. destruct (single_key d) as [[key p]|] eqn:Ek.
  - destruct (single_key_Some _ _ _ Ek) as [Hk Hl]. destruct (extract_provider_secrets p None) as [[p' found]|] eqn:E; [|done].
    injection H as <- _. split_and!; [by apply uniq_keys_set|by apply keyed_frame|].
    apply (keyed_hides _ _ dict_secrets d key (VDict p') (VDict p)); [discriminate|done..|].
    eapply provider_hides; [exact (proj2 Hv key _ Hk Hl)|exact (Ho key _ Hk Hl)|done].
  - injection H as <- _. split_and!; [done..|]. apply flat_map_nil. intros k Hk. unfold single_key in Ek.
    destruct (dict_get k d) as [[| | | | | |[]]|] eqn:Ekd; try done. exfalso. set_unfold in Hk. destruct Hk as [->|[->|[]]].
    + by rewrite Ekd in Ek.
    + rewrite Ekd in Ek. by destruct (dict_get "streaming_provider" d) as [[| | | | | |[]]|].
Qed.

(** Each secret, too, is named once. *)
Definition secrets_spelled_once (c : dict) : Prop :=
  keyed_once "streaming_providers" "sps" c /\ keyed_once "streaming_provider" "sp" c /\
  Forall (fun s => section_once s c) external_services.

(** Nothing secret stays in the clean configuration: if each section and
    each secret is named once, then after [extract_secrets] no place at which a
    secret can be, in any provider or service and under either name, holds a
    value that is not empty. *)
Theorem extraction_complete (config clean secrets : dict) :
  well_spelled config -> secrets_spelled_once config -> extract_secrets config = Ret (clean, secrets) ->
  config_secrets clean = [].
Proof.
  intros (Hu & Hl & Hs & He & Ha) (Ol & Os & Oe) H. rewrite <- config_part_extract in H.
  assert (part_hides api_password_part (fun d => dict_get "ap" d = None) (fun d => secret_values ["api_password"; "ap"] d = [])) as Hap.
  { destruct (own_part_hides [("api_password", "ap")] ["api_password"; "ap"] ltac:(by apply names_eq_decide)) as [A B D].
    split; [intros d d' Hd Hd'; rewrite <- Hd; [done|set_solver]|done|].
    intros d s d' s' Hu' Hv Hd E. apply (D d s d' s'); [done..| |done]. apply Forall_cons_2; [by right|apply Forall_nil_2]. }
  pose proof (sections_part_hides merge_external external_services external_services_wf ltac:(by_decide) merge_external_merges) as Hex.
  pose proof (sections_part_ok merge_external external_services external_services_wf ltac:(by_decide) merge_external_merges) as Hexo.
  pose proof (part_app_hides _ _ _ _ _ _ Hexo api_password_part_ok ltac:(apply nodup_disjoint; by_decide) Hex Hap) as H1.
  pose proof (part_app_ok _ _ Hexo api_password_part_ok ltac:(apply nodup_disjoint; by_decide)) as O1.
  pose proof (part_app_hides _ _ _ _ _ _ single_part_ok O1 ltac:(apply nodup_disjoint; by_decide) single_part_hides H1) as H2.
  pose proof (part_app_ok _ _ single_part_ok O1 ltac:(apply nodup_disjoint; by_decide)) as O2.
  pose proof (part_app_hides _ _ _ _ _ _ list_part_ok O2 ltac:(apply nodup_disjoint; by_decide) list_part_hides H2) as H3.
  destruct (hides _ _ _ H3 config [] clean secrets) as (_ & _ & A & B & D & E); [done| |done|done|].
  { cbn [part_app list_part single_part api_password_part valid]. auto using sections_part_valid. }
  unfold config_secrets. cbv beta in A, B, D, E. unfold keyed_hidden in A, B. by rewrite A, B, D, E.
Qed.

Lemma sample_spelled_once : secrets_spelled_once sample_config.
Proof.
  split_and!.
  - intros k e Hk. set_unfold in Hk. destruct Hk as [->|[->|[]]]; [done|]. intros [= <-] p Hp. set_unfold in Hp.
    destruct Hp as [[= ->]|[[= ->]|[]]]; (split; [repeat (apply Forall_cons_2; [by (left + right)|]); by apply Forall_nil_2|]).
    all: repeat (apply Forall_cons_2; [|]); [..|by apply Forall_nil_2].
    all: intros k sub Hk; set_unfold in Hk; destruct Hk as [->|[->|[]]]; try done.
    intros [= <-]. repeat (apply Forall_cons_2; [by (left + right)|]); by apply Forall_nil_2.
  - intros k e Hk. set_unfold in Hk. by destruct Hk as [->|[->|[]]].
  - repeat (apply Forall_cons_2; [|]); [..|by apply Forall_nil_2].
    all: intros k sub Hk; set_unfold in Hk; destruct Hk as [->|[->|[]]]; try done.
    intros [= <-]. repeat (apply Forall_cons_2; [by (left + right)|]); by apply Forall_nil_2.
Qed.

Lemma extraction_complete_witness : exists clean secrets,
  extract_secrets sample_config = Ret (clean, secrets) /\ config_secrets clean = [] /\ config_secrets sample_config <> [].
Proof.
  do 2 eexists. split; [reflexivity|]. split; [|by vm_compute].
  exact (extraction_complete sample_config _ _ sample_well_spelled sample_spelled_once eq_refl).
Defined.
