(* ===== verification/ProfileMask.v ===== *)
(** * Masking of a profile's secrets (utils/profile_crypto.py,
    api/routers/user/profiles.py)

    What a client is shown ([mask_secrets_for_display]) and how the
    configuration it sends back is merged into the stored one
    ([unmask_config_update]). *)

From S2P Require Export ProfileCrypto.
Local Open Scope string_scope.

(** ** Masking *)

(** Eight bullets, in UTF-8. *)
Definition mask_pattern : value := VStr "••••••••".

Definition mask_value (v : value) : value := if truthy v then mask_pattern else VStr "".

Fixpoint mask_fields (names : list string) (cfg : value) : outcome py_exn value :=
  match names with
  | [] => Ret cfg
  | name :: names =>
      f ← present name cfg;
      cfg' ← match f with Some v => py_setitem name (mask_value v) cfg | None => Ret cfg end;
      mask_fields names cfg'
  end.

(** A section under one of its names. *)
Definition mask_key (names : list string) (key : string) (cfg : value) : outcome py_exn value :=
  f ← present key cfg;
  match f with
  | Some sub => sub' ← mask_fields names sub; py_setitem key sub' cfg
  | None => Ret cfg
  end.

Fixpoint mask_sections (l : list section) (cfg : value) : outcome py_exn value :=
  match l with
  | [] => Ret cfg
  | s :: l =>
      c ← mask_key (masked s) (full_name s) cfg;
      c ← mask_key (masked s) (alias s) c;
      mask_sections l c
  end.

Definition mask_provider (provider : value) : outcome py_exn value :=
  p ← mask_fields ["token"; "tk"; "password"; "pw"] provider;
  mask_sections provider_sections p.

Fixpoint mask_providers (l : list value) : outcome py_exn (list value) :=
  match l with
  | [] => Ret []
  | p :: l => p' ← mask_provider p; l' ← mask_providers l; Ret (p' :: l')
  end.

Definition mask_list_key (key : string) (cfg : value) : outcome py_exn value :=
  match cfg with
  | VDict d =>
      match dict_get key d with
      | Some (VList l) => l' ← mask_providers l; py_setitem key (VList l') cfg
      | _ => Ret cfg
      end
  | _ => Ret cfg
  end.

Definition mask_single_key (key : string) (cfg : value) : outcome py_exn value :=
  f ← present key cfg;
  match f with Some p => p' ← mask_provider p; py_setitem key p' cfg | None => Ret cfg end.

Definition mask_secrets_for_display (config : dict) : outcome py_exn value :=
  c ← mask_list_key "streaming_providers" (VDict config);
  c ← mask_list_key "sps" c;
  c ← mask_single_key "streaming_provider" c;
  c ← mask_single_key "sp" c;
  c ← mask_sections external_services c;
  mask_fields ["api_password"; "ap"] c.

(** ** Updating *)

Definition is_masked (v : value) : bool := match v with VStr s => String.eqb s "••••••••" | _ => false end.

Definition CLEAR_KEY_GROUPS : list (string * string) :=
  [("sp", "streaming_provider"); ("ic", "indexer_config"); ("st", "stream_template"); ("mfc", "mediaflow_config");
   ("rpc", "rpdb_config"); ("mdb", "mdblist_config"); ("tgc", "telegram_config")].

(** [CLEAR_KEY_ALIAS_MAP.get(key)] *)
Definition clear_group (key : string) : option (list string) :=
  match List.find (fun g => String.eqb key g.1 || String.eqb key g.2) CLEAR_KEY_GROUPS with
  | Some (a, b) => Some [a; b]
  | None => None
  end.

Definition should_clear (key : string) (v : value) : bool :=
  match v with
  | VNone => true
  | VDict [] => match clear_group key with Some _ => true | None => false end
  | _ => false
  end.

(** [deep_merge base overlay] *)
Fixpoint deep_merge (base : dict) (overlay : value) {struct overlay} : dict :=
  match overlay with
  | VDict d =>
      (fix go (d : dict) (result : dict) : dict :=
         match d with
         | [] => result
         | (key, v) :: d =>
             go d
               (if should_clear key v then
                  foldl (fun r k => dict_pop k r) result (default [key] (clear_group key))
                else
                  match dict_get key result, v with
                  | Some (VDict old), VDict _ => dict_set key (VDict (deep_merge old v)) result
                  | _, _ => dict_set key v result
                  end)
         end) d base
  | _ => base
  end.

Definition SECRET_KEYS : list string :=
  ["token"; "tk"; "password"; "pw"; "email"; "em"; "api_key"; "ak"; "api_password"; "ap"; "qb_username"; "qus";
   "qb_password"; "qpw"; "webdav_username"; "wus"; "webdav_password"; "wpw"; "username"; "un"].

(** [restore_masked_in_dict merged existing]; only a [VDict] has entries. *)
Fixpoint restore_masked_in_dict (merged : value) (existing : dict) {struct merged} : value :=
  match merged, existing with
  | VDict m, _ :: _ =>
      VDict
        ((fix go (m : dict) : dict :=
            match m with
            | [] => []
            | (key, v) :: m =>
                (key,
                 match v, dict_get key existing with
                 | VDict _, Some (VDict e) => restore_masked_in_dict v e
                 | VList l, Some (VList el) =>
                     VList
                       ((fix items (l el : list value) : list value :=
                           match l, el with
                           | x :: l, y :: el =>
                               match y with
                               | VDict e => restore_masked_in_dict x e
                               | _ => x
                               end :: items l el
                           | _, _ => l
                           end) l el)
                 | _, o => if memb key SECRET_KEYS && is_masked v then default VNone o else v
                 end) :: go m
            end) m)
  | _, _ => merged
  end.

Definition unmask_config_update (new_config existing_full_config : dict) : dict :=
  match new_config, existing_full_config with
  | [], _ => existing_full_config
  | _, [] => new_config
  | _, _ =>
      match restore_masked_in_dict (VDict (deep_merge existing_full_config (VDict new_config))) existing_full_config with
      | VDict d => d
      | _ => []
      end
  end.

(** ** A configuration that comes back as it was shown *)

Lemma Forall2_self {A} (R : A -> A -> Prop) l : (forall x, R x x) -> Forall2 R l l.
Proof. intros H. induction l; by constructor. Qed.

Set Warnings "-register-all".

(** The second value is the first with some values under secret names masked. *)
Inductive masked_of : value -> value -> Prop :=
  | mo_same v : masked_of v v
  | mo_list l l' : Forall2 item_masked l l' -> masked_of (VList l) (VList l')
  | mo_dict d d' : Forall2 entry_masked d d' -> masked_of (VDict d) (VDict d')
with entry_masked : string * value -> string * value -> Prop :=
  | em_inside k v v' : masked_of v v' -> entry_masked (k, v) (k, v')
  | em_here k v : k ∈ SECRET_KEYS -> entry_masked (k, v) (k, mask_pattern)
with item_masked : value -> value -> Prop :=
  | im_same v : item_masked v v
  | im_dict d v : masked_of (VDict d) v -> item_masked (VDict d) v.

Lemma masked_dict d v : masked_of (VDict d) v -> exists d', v = VDict d' /\ Forall2 entry_masked d d'.
Proof.
  intros H. inversion H as [| |? d' HF]; subst; [|by eexists].
  exists d. split; [done|]. apply Forall2_self. intros [k w]. apply em_inside, mo_same.
Qed.
Lemma masked_list l v : masked_of (VList l) v -> exists l', v = VList l' /\ Forall2 item_masked l l'.
Proof.
  intros H. inversion H as [|? l' HF|]; subst; [|by eexists].
  exists l. split; [done|]. apply Forall2_self, im_same.
Qed.
Lemma masked_leaf v m : match v with VList _ | VDict _ => False | _ => True end -> masked_of v m -> m = v.
Proof. intros Hv H. by inversion H; subst. Qed.

Lemma masked_of_trans v : forall v' v'', masked_of v v' -> masked_of v' v'' -> masked_of v v''.
Proof.
  induction v as [v Hv|l IH|d IH] using value_rect'; intros v' v'' H1 H2.
  - apply (masked_leaf v) in H1 as ->; done.
  - destruct (masked_list _ _ H1) as (l' & -> & F1). destruct (masked_list _ _ H2) as (l'' & -> & F2).
    constructor. clear H1 H2. revert l' l'' F1 F2. induction IH as [|v l Hv _ IHl]; intros l' l'' F1 F2.
    + apply Forall2_nil_inv_l in F1 as ->. by apply Forall2_nil_inv_l in F2 as ->.
    + apply Forall2_cons_inv_l in F1 as (v' & l1 & Hv1 & F1 & ->).
      apply Forall2_cons_inv_l in F2 as (v'' & l2 & Hv2 & F2 & ->). constructor; [|eauto].
      destruct Hv1 as [v|d v' Hm]; [done|]. constructor. destruct Hv2 as [v'|d' v'' Hm']; [done|eauto].
  - destruct (masked_dict _ _ H1) as (d' & -> & F1). destruct (masked_dict _ _ H2) as (d'' & -> & F2).
    constructor. clear H1 H2. revert d' d'' F1 F2. induction IH as [|kv d Hv _ IHd]; intros d' d'' F1 F2.
    + apply Forall2_nil_inv_l in F1 as ->. by apply Forall2_nil_inv_l in F2 as ->.
    + apply Forall2_cons_inv_l in F1 as (kv' & d1 & Hv1 & F1 & ->).
      apply Forall2_cons_inv_l in F2 as (kv'' & d2 & Hv2 & F2 & ->). constructor; [|eauto].
      inversion Hv1; subst; inversion Hv2; subst; cbn in Hv; try (constructor; eauto; done).
      match goal with H : masked_of mask_pattern _ |- _ => apply masked_leaf in H as ->; [|done] end. by constructor.
Qed.

(** *** Masking masks *)

Lemma masked_set d k v v' : dict_get k d = Some v -> (masked_of v v' \/ (k ∈ SECRET_KEYS /\ v' = mask_pattern)) ->
  masked_of (VDict d) (VDict (dict_set k v' d)).
Proof.
  intros Hk Hv. constructor. induction d as [|[k' w] d IH]; [done|]. cbn in Hk |- *.
  destruct (String.eqb k k') eqn:E.
  - apply String.eqb_eq in E as ->. injection Hk as ->. constructor.
    + destruct Hv as [Hv|[Hk ->]]; [by apply em_inside|by apply em_here].
    + apply Forall2_self. intros []. apply em_inside, mo_same.
  - constructor; [apply em_inside, mo_same|by apply IH].
Qed.

Lemma present_Some name v w : present name v = Ret (Some w) ->
  exists d, v = VDict d /\ dict_get name d = Some w /\ truthy w = true.
Proof.
  unfold present. destruct v; cbn; try done.
  - by destruct (contains name s).
  - by destruct (existsb _ l).
  - unfold dict_has. destruct (dict_get name d) as [x|] eqn:E; cbn; [|done].
    destruct (truthy x) eqn:Et; [|done]. intros [= ->]. by exists d.
Qed.

Lemma mask_fields_masked names : Forall (fun n => n ∈ SECRET_KEYS) names ->
  forall v v', mask_fields names v = Ret v' -> masked_of v v'.
Proof.
  induction 1 as [|n names Hn _ IH]; intros v v'; cbn [mask_fields]; [intros [= <-]; constructor|].
  destruct (present n v) as [[w|]|] eqn:Ep; cbn [mbind outcome_bind]; [|apply IH|done].
  destruct (present_Some _ _ _ Ep) as (d & -> & Hd & Ht). cbn [py_setitem]. cbn [mbind outcome_bind].
  intros H. eapply masked_of_trans; [|by apply IH]. apply masked_set with w; [done|]. right.
  unfold mask_value. by rewrite Ht.
Qed.

(** A value under one name is masked in place. *)
Lemma masked_under (f : value -> outcome py_exn value) key v v' :
  (forall w w', f w = Ret w' -> masked_of w w') ->
  (o ← present key v; match o with Some w => w' ← f w; py_setitem key w' v | None => Ret v end) = Ret v' ->
  masked_of v v'.
Proof.
  intros Hf. destruct (present key v) as [[w|]|] eqn:Ep; cbn [mbind outcome_bind]; [|intros [= <-]; constructor|done].
  destruct (present_Some _ _ _ Ep) as (d & -> & Hd & _). destruct (f w) as [w'|] eqn:E; [|done]. cbn.
  intros [= <-]. apply masked_set with w; [done|]. left. by apply Hf.
Qed.

Lemma mask_sections_masked l : Forall (fun s => Forall (fun n => n ∈ SECRET_KEYS) (masked s)) l ->
  forall v v', mask_sections l v = Ret v' -> masked_of v v'.
Proof.
  induction 1 as [|s l Hs _ IH]; intros v v'; cbn [mask_sections]; [intros [= <-]; constructor|].
  destruct (mask_key (masked s) (full_name s) v) as [v1|] eqn:E1; [|done]. cbn [mbind outcome_bind].
  destruct (mask_key (masked s) (alias s) v1) as [v2|] eqn:E2; [|done]. cbn [mbind outcome_bind]. intros H.
  eapply masked_of_trans; [eapply masked_under; [|exact E1]; by apply mask_fields_masked|].
  eapply masked_of_trans; [eapply masked_under; [|exact E2]; by apply mask_fields_masked|]. by apply IH.
Qed.

Lemma sections_secret : Forall (fun s => Forall (fun n => n ∈ SECRET_KEYS) (masked s)) provider_sections /\
  Forall (fun s => Forall (fun n => n ∈ SECRET_KEYS) (masked s)) external_services.
Proof. by_decide. Qed.

Lemma mask_provider_masked v v' : mask_provider v = Ret v' -> masked_of v v'.
Proof.
  unfold mask_provider. destruct (mask_fields _ v) as [v1|] eqn:E; [|done]. cbn [mbind outcome_bind]. intros H.
  eapply masked_of_trans; [eapply mask_fields_masked; [|exact E]; by_decide|].
  exact (mask_sections_masked _ (proj1 sections_secret) _ _ H).
Qed.

(** Only objects are masked. *)
Lemma is_dict v : (exists d, v = VDict d) \/ forall d, v <> VDict d.
Proof. destruct v; try (by right). left. by eexists. Qed.

Lemma present_other name v o : (forall d, v <> VDict d) -> present name v = Ret o -> o = None.
Proof. destruct o as [w|]; [|done]. intros Hn (d & -> & _)%present_Some. by destruct (Hn d). Qed.

Lemma mask_fields_other names v : forall v', (forall d, v <> VDict d) -> mask_fields names v = Ret v' -> v' = v.
Proof.
  induction names as [|n names IH]; intros v' Hn; cbn [mask_fields]; [by intros [= <-]|].
  destruct (present n v) as [o|] eqn:E; [|done]. apply present_other in E as ->; [|done]. by apply IH.
Qed.

Lemma mask_sections_other l v : forall v', (forall d, v <> VDict d) -> mask_sections l v = Ret v' -> v' = v.
Proof.
  induction l as [|s l IH]; intros v' Hn; cbn [mask_sections]; [by intros [= <-]|]. unfold mask_key.
  destruct (present (full_name s) v) as [o|] eqn:E; [|done]. apply present_other in E as ->; [|done]. cbn [mbind outcome_bind].
  destruct (present (alias s) v) as [o|] eqn:E; [|done]. apply present_other in E as ->; [|done]. by apply IH.
Qed.

Lemma mask_provider_other v v' : (forall d, v <> VDict d) -> mask_provider v = Ret v' -> v' = v.
Proof.
  intros Hn. unfold mask_provider. destruct (mask_fields _ v) as [v1|] eqn:E; [|done].
  apply mask_fields_other in E as ->; [|done]. by apply mask_sections_other.
Qed.

Lemma mask_list_key_masked key v v' : mask_list_key key v = Ret v' -> masked_of v v'.
Proof.
  unfold mask_list_key. destruct v; try (intros [= <-]; constructor).
  destruct (dict_get key d) as [[| | | | |l|]|] eqn:E; try (intros [= <-]; constructor).
  destruct (mask_providers l) as [l'|] eqn:El; [|done]. cbn. intros [= <-]. apply masked_set with (VList l); [done|].
  left. constructor. clear E. revert l' El. induction l as [|p l IH]; intros l'; cbn [mask_providers]; [by intros [= <-]|].
  destruct (mask_provider p) as [p'|] eqn:Ep; [|done]. cbn [mbind outcome_bind].
  destruct (mask_providers l) as [l1|]; [|done]. intros [= <-]. constructor; [|by apply IH].
  destruct (is_dict p) as [[pd ->]|Hn]; [constructor; by apply mask_provider_masked|].
  rewrite (mask_provider_other p p' Hn Ep). constructor.
Qed.

Lemma mask_secrets_masked c m : mask_secrets_for_display c = Ret m -> masked_of (VDict c) m.
Proof.
  unfold mask_secrets_for_display.
  destruct (mask_list_key "streaming_providers" (VDict c)) as [v1|] eqn:E1; [|done]. cbn [mbind outcome_bind].
  destruct (mask_list_key "sps" v1) as [v2|] eqn:E2; [|done]. cbn [mbind outcome_bind].
  destruct (mask_single_key "streaming_provider" v2) as [v3|] eqn:E3; [|done]. cbn [mbind outcome_bind].
  destruct (mask_single_key "sp" v3) as [v4|] eqn:E4; [|done]. cbn [mbind outcome_bind].
  destruct (mask_sections external_services v4) as [v5|] eqn:E5; [|done]. cbn [mbind outcome_bind]. intros E6.
  eapply masked_of_trans; [by eapply mask_list_key_masked|].
  eapply masked_of_trans; [by eapply mask_list_key_masked|].
  eapply masked_of_trans; [eapply masked_under, E3; apply mask_provider_masked|].
  eapply masked_of_trans; [eapply masked_under, E4; apply mask_provider_masked|].
  eapply masked_of_trans; [exact (mask_sections_masked _ (proj2 sections_secret) _ _ E5)|].
  eapply mask_fields_masked; [|done]. by_decide.
Qed.

(** *** Unmasking restores *)

(** Keys are distinct at every level. *)
Inductive uniq_value : value -> Prop :=
  | uv_leaf v : match v with VList _ | VDict _ => False | _ => True end -> uniq_value v
  | uv_list l : Forall uniq_value l -> uniq_value (VList l)
  | uv_dict d : uniq_keys d -> Forall (fun kv => uniq_value kv.2) d -> uniq_value (VDict d).

(** No [None], and no empty object under a clearable name, in nested objects. *)
Inductive nothing_cleared : value -> Prop :=
  | nc_other v : match v with VDict _ => False | _ => True end -> nothing_cleared v
  | nc_dict d : Forall (fun kv => should_clear kv.1 kv.2 = false /\ nothing_cleared kv.2) d -> nothing_cleared (VDict d).

Definition restore_entry (existing : dict) (kv : string * value) : string * value :=
  (kv.1,
   match kv.2, dict_get kv.1 existing with
   | VDict _ as v, Some (VDict e) => restore_masked_in_dict v e
   | VList l, Some (VList el) =>
       VList
         ((fix items (l el : list value) : list value :=
             match l, el with
             | x :: l, y :: el => match y with VDict e => restore_masked_in_dict x e | _ => x end :: items l el
             | _, _ => l
             end) l el)
   | v, o => if memb kv.1 SECRET_KEYS && is_masked v then default VNone o else v
   end).

Lemma restore_dict m e : e <> [] -> restore_masked_in_dict (VDict m) e = VDict (map (restore_entry e) m).
Proof.
  intros He. destruct e as [|kv e]; [done|]. cbn [restore_masked_in_dict]. f_equal.
  induction m as [|[k v] m IH]; [done|]. cbn [map]. f_equal; [|exact IH].
  unfold restore_entry. cbn [fst snd]. f_equal. destruct v; try reflexivity; by destruct (dict_get k (kv :: e)) as [[]|].
Qed.

Lemma is_masked_pattern : is_masked mask_pattern = true.
Proof. reflexivity. Qed.

Lemma dict_get_elem {A} k (v : A) d : uniq_keys d -> (k, v) ∈ d -> dict_get k d = Some v.
Proof.
  unfold uniq_keys. induction d as [|[k' v'] d IH]; intros Hu Hd; [by apply elem_of_nil in Hd|].
  apply NoDup_cons in Hu as [Hn Hu]. cbn. apply elem_of_cons in Hd as [[= -> ->]|Hd]; [by rewrite String.eqb_refl|].
  destruct (String.eqb k k') eqn:E; [|by apply IH]. apply String.eqb_eq in E as ->. exfalso. apply Hn.
  apply list_elem_of_fmap. by exists (k', v).
Qed.

(** Restoring undoes masking. *)
Lemma restore_masked_of v : uniq_value v -> forall m,
  masked_of v m ->
  match v with
  | VDict d => restore_masked_in_dict m d = v
  | VList l =>
      forall l', m = VList l' ->
      (fix items (l el : list value) : list value :=
         match l, el with
         | x :: l, y :: el => match y with VDict e => restore_masked_in_dict x e | _ => x end :: items l el
         | _, _ => l
         end) l' l = l
  | _ => True
  end.
Proof.
  induction v as [v Hv|l IH|d IH] using value_rect'; intros Hu m Hm; [by destruct v|..].
  - intros l' ->. destruct (masked_list _ _ Hm) as (l1 & [= <-] & HF). clear Hm.
    inversion Hu as [|? Hul|]; subst; [done|]. clear Hu. revert l' HF.
    induction IH as [|v l Hv _ IHl]; intros l' HF; [by apply Forall2_nil_inv_l in HF as ->|].
    apply Forall2_cons_inv_l in HF as (m & l2 & Hm & HF & ->). apply Forall_cons in Hul as [Huv Hul].
    f_equal; [|by apply IHl]. destruct Hm as [v|d m Hm]; [|by apply (Hv Huv m)].
    destruct (is_dict v) as [[d ->]|Hn]; [apply (Hv Huv); constructor|]. destruct v; try done. by destruct (Hn d).
  - destruct (masked_dict _ _ Hm) as (d' & -> & HF). clear Hm.
    inversion Hu as [? Hx| |? Hk Hud]; subst; [done|]. clear Hu.
    destruct (decide (d = [])) as [->|Hne]; [by apply Forall2_nil_inv_l in HF as ->|]. rewrite restore_dict by done. f_equal.
    assert (forall kv, kv ∈ d -> dict_get kv.1 d = Some kv.2) as Hget by (intros [k v]; by apply dict_get_elem).
    assert (forall d0 d1, Forall2 entry_masked d0 d1 -> (forall kv, kv ∈ d0 -> kv ∈ d) -> map (restore_entry d) d1 = d0) as Hall;
      [|by apply Hall]. clear d' HF. intros d0 d1 HF. induction HF as [|[k v] kv' d0 d1 He HF IHF]; intros Hin; [done|].
    cbn [map]. f_equal; [|apply IHF; intros kv Hkv; apply Hin; by right]. clear IHF HF.
    assert ((k, v) ∈ d) as Hd by (apply Hin; left). specialize (Hget _ Hd). cbn [fst snd] in Hget.
    rewrite Forall_forall in IH, Hud. specialize (IH _ Hd (Hud _ Hd)). cbn [snd] in IH.
    inversion He as [? ? m Hm|? ? Hs]; subst; unfold restore_entry; cbn [fst snd]; f_equal; rewrite Hget.
    + specialize (IH m Hm). destruct v as [| | | | |l|dv].
      6: { destruct (masked_list _ _ Hm) as (l' & -> & _). f_equal. by apply IH. }
      6: { destruct (masked_dict _ _ Hm) as (dm & -> & _). exact IH. }
      all: apply masked_leaf in Hm as ->; [|done]; by destruct (_ && _).
    + cbn. by rewrite (proj2 (memb_true k SECRET_KEYS) Hs).
Qed.

(** One step of [deep_merge]. *)
Definition merge_entry (result : dict) (kv : string * value) : dict :=
  if should_clear kv.1 kv.2 then foldl (fun r k => dict_pop k r) result (default [kv.1] (clear_group kv.1))
  else
    match dict_get kv.1 result, kv.2 with
    | Some (VDict old), VDict _ as v => dict_set kv.1 (VDict (deep_merge old v)) result
    | _, v => dict_set kv.1 v result
    end.

Lemma deep_merge_foldl base d : deep_merge base (VDict d) = foldl merge_entry base d.
Proof.
  cbn [deep_merge]. revert base. induction d as [|[k v] d IH]; intros base; [done|]. cbn [foldl]. rewrite <- IH.
  unfold merge_entry. cbn [fst snd]. f_equal. destruct (should_clear k v); [done|].
  destruct (dict_get k base) as [[]|]; try reflexivity; by destruct v.
Qed.

Lemma should_clear_masked k v v' : masked_of v v' -> should_clear k v = false -> should_clear k v' = false.
Proof.
  intros Hm. destruct v as [| | | | |l|d].
  6: { by destruct (masked_list _ _ Hm) as (l' & -> & _). }
  6: { destruct (masked_dict _ _ Hm) as (d' & -> & HF). destruct d as [|kv d]; [by apply Forall2_nil_inv_l in HF as ->|].
       by apply Forall2_cons_inv_l in HF as (kv' & d1 & _ & _ & ->). }
  all: apply masked_leaf in Hm as ->; done.
Qed.

Lemma dict_get_middle k (v : value) pre suf : k ∉ pre.*1 -> dict_get k (pre ++ (k, v) :: suf)%list = Some v.
Proof. intros Hn. rewrite dict_get_app. rewrite (proj2 (dict_get_None k pre) Hn). cbn. by rewrite String.eqb_refl. Qed.

Lemma dict_set_middle k (v v' : value) pre suf : k ∉ pre.*1 ->
  dict_set k v' (pre ++ (k, v) :: suf)%list = (pre ++ (k, v') :: suf)%list.
Proof.
  induction pre as [|[k0 v0] pre IH]; intros Hn; cbn; [by rewrite String.eqb_refl|]. cbn in Hn.
  destruct (String.eqb k k0) eqn:E; [apply String.eqb_eq in E; set_solver|]. f_equal. apply IH. set_solver.
Qed.

(** Merging what was masked onto the original gives what was masked. *)
Lemma deep_merge_masked v : uniq_value v -> nothing_cleared v -> forall d m,
  v = VDict d -> masked_of v (VDict m) -> deep_merge d (VDict m) = m.
Proof.
  induction v as [v Hv|l IH|d IH] using value_rect'; intros Hu Hc d0 m; [by intros ->|done|]. intros [= <-] Hm.
  destruct (masked_dict _ _ Hm) as (m' & [= <-] & HF). clear Hm.
  inversion Hu as [? Hx| |? Hk Hud]; subst; [done|]. inversion Hc as [? Hx|? Hcd]; subst; [done|]. clear Hu Hc.
  rewrite deep_merge_foldl.
  assert (forall pre dsuf msuf, Forall2 entry_masked dsuf msuf -> (pre.*1 ++ dsuf.*1)%list = d.*1 ->
    (forall kv, kv ∈ dsuf -> kv ∈ d) -> foldl merge_entry (pre ++ dsuf)%list msuf = (pre ++ msuf)%list) as Hall;
    [|by apply (Hall [] d m)].
  intros pre dsuf msuf HF'. revert pre. induction HF' as [|[k v] kv' dsuf msuf He _ IHF]; intros pre Hkeys Hin; [done|].
  cbn [foldl]. assert ((k, v) ∈ d) as Hd by (apply Hin; left).
  assert (k ∉ pre.*1) as Hn.
  { unfold uniq_keys in Hk. rewrite <- Hkeys in Hk. apply NoDup_app in Hk as (_ & Hk & _). intros Hp. apply (Hk k Hp). left. }
  rewrite Forall_forall in IH, Hud, Hcd. destruct (Hcd _ Hd) as [Hsc Hnc]. cbn [fst snd] in Hsc, Hnc.
  specialize (IH _ Hd (Hud _ Hd) Hnc). cbn [snd] in IH.
  assert (exists m', kv' = (k, m') /\ should_clear k m' = false /\
    (forall dv dm, v = VDict dv -> m' = VDict dm -> masked_of v m')) as (m' & -> & Hsm & Hmm).
  { inversion He as [? ? m' Hm|]; subst; eexists; (split_and!; [reflexivity|..]); try done.
    by eapply should_clear_masked. }
  assert (merge_entry (pre ++ (k, v) :: dsuf)%list (k, m') = ((pre ++ [(k, m')]) ++ dsuf)%list) as ->.
  { rewrite <- app_assoc. cbn [app]. unfold merge_entry. cbn [fst snd]. rewrite Hsm, dict_get_middle by done.
    destruct v as [| | | | | |dv]; try by apply dict_set_middle.
    destruct (is_dict m') as [[dm ->]|Hnd].
    - rewrite dict_set_middle by done. by rewrite (IH dv dm) by eauto.
    - destruct m'; try by apply dict_set_middle. by destruct (Hnd d0). }
  rewrite IHF.
  - by rewrite <- app_assoc.
  - rewrite <- Hkeys. rewrite fmap_app, <- app_assoc. done.
  - intros kv Hkv. apply Hin. by right.
Qed.

(** Round trip: a client that sends back what it was shown changes
    nothing.  For every configuration with distinct keys and no empty settings,
    unmasking the masked configuration against the stored one gives the stored
    one. *)
Theorem unmask_mask (config : dict) (shown : dict) :
  uniq_value (VDict config) -> nothing_cleared (VDict config) ->
  mask_secrets_for_display config = Ret (VDict shown) ->
  unmask_config_update shown config = config.
Proof.
  intros Hu Hc Hm%mask_secrets_masked. unfold unmask_config_update.
  destruct shown as [|kv shown]; [done|]. destruct config as [|kv' config].
  { destruct (masked_dict _ _ Hm) as (d' & [= <-] & HF). by apply Forall2_nil_inv_l in HF. }
  rewrite (deep_merge_masked _ Hu Hc _ _ eq_refl Hm). pose proof (restore_masked_of _ Hu _ Hm) as Hr.
  cbv beta iota in Hr. by rewrite Hr.
Qed.

Definition nested_sample : dict :=
  [("sps", VList [VDict [("sv", VStr "nzbdav"); ("tk", VStr "t1"); ("ndc", VDict [("u", VStr "http://n"); ("ak", VStr "k1")])]]);
   ("mfc", VDict [("pu", VStr "http://m"); ("ap", VStr "m1")])].

Ltac uniq_sample :=
  repeat first [apply uv_leaf; exact I | apply uv_list | apply uv_dict; [unfold uniq_keys; by_decide|]
               | apply Forall_cons_2 | apply Forall_nil_2].

Lemma unmask_mask_witness : exists shown,
  mask_secrets_for_display nested_sample = Ret (VDict shown) /\ shown <> nested_sample /\
  unmask_config_update shown nested_sample = nested_sample.
Proof.
  eexists. split; [reflexivity|]. split; [discriminate|].
  apply unmask_mask; [uniq_sample| |reflexivity].
  repeat first [apply nc_dict | apply nc_other; exact I | apply Forall_cons_2; [split; [reflexivity|]|] | apply Forall_nil_2].
Defined.

(** ** What is shown *)

Definition vget (k : string) (v : value) : option value := match v with VDict d => dict_get k d | _ => None end.

(** At these names there are only empty values and the mask. *)
Definition hides_names (names : list string) (v : value) : Prop :=
  forall n x, n ∈ names -> vget n v = Some x -> truthy x = true -> x = mask_pattern.

(** Under both names of each section, too. *)
Definition hides_sections (l : list section) (v : value) : Prop :=
  forall s k x, s ∈ l -> k ∈ [full_name s; alias s] -> vget k v = Some x -> hides_names (masked s) x.

Definition display_names : list string := ["token"; "tk"; "password"; "pw"].
Definition hides_provider (v : value) : Prop := hides_names display_names v /\ hides_sections provider_sections v.

Definition hides_config (v : value) : Prop :=
  (forall k l, k ∈ ["streaming_providers"; "sps"] -> vget k v = Some (VList l) -> Forall hides_provider l) /\
  (forall k x, k ∈ ["streaming_provider"; "sp"] -> vget k v = Some x -> hides_provider x) /\
  hides_sections external_services v /\
  hides_names ["api_password"; "ap"] v.

Definition same_except (names : list string) (v v' : value) : Prop := forall k, k ∉ names -> vget k v' = vget k v.

Lemma same_except_trans l l' v v' v'' : same_except l v v' -> same_except l' v' v'' -> same_except (l ++ l') v v''.
Proof. intros H H' k Hk. rewrite H', H by set_solver. done. Qed.

Lemma hides_falsy names v : truthy v = false -> hides_names names v.
Proof. intros Ht n x _. destruct v as [| | | | | |[]]; done. Qed.

Lemma mask_fields_spec names : forall v v', mask_fields names v = Ret v' -> hides_names names v' /\ same_except names v v'.
Proof.
  induction names as [|n names IH]; intros v v'; cbn [mask_fields].
  { intros [= <-]. split; [intros k x Hk; by apply elem_of_nil in Hk|done]. }
  destruct (present n v) as [o|] eqn:Ep; [|done]. cbn [mbind outcome_bind].
  assert (exists v1, match o with Some x => py_setitem n (mask_value x) v | None => Ret v end = Ret v1 /\
    (forall x, vget n v1 = Some x -> truthy x = true -> x = mask_pattern) /\ same_except [n] v v1) as (v1 & -> & Hn & Hs).
  { destruct o as [w|].
    - destruct (present_Some _ _ _ Ep) as (d & -> & Hd & Ht). eexists. split; [reflexivity|]. split.
      + intros x. cbn. rewrite dict_get_set, String.eqb_refl. unfold mask_value. rewrite Ht. by intros [= <-].
      + intros k Hk. cbn. rewrite dict_get_set. destruct (String.eqb k n) eqn:E; [|done].
        apply String.eqb_eq in E as ->. set_solver.
    - exists v. split; [done|]. split; [|done]. intros x Hx Ht. destruct v; try done. cbn in Hx.
      rewrite present_dict, Hx, Ht in Ep. done. }
  cbn [mbind outcome_bind]. intros (H1 & H2)%IH. split.
  - intros k x [->|Hk]%elem_of_cons Hx Ht; [|by eapply H1].
    destruct (decide (n ∈ names)) as [Hin|Hin]; [by eapply H1|]. rewrite H2 in Hx by done. by apply Hn.
  - intros k Hk. rewrite H2, Hs by set_solver. done.
Qed.

Lemma mask_under_spec (f : value -> outcome py_exn value) (post : value -> Prop) key v v' :
  (forall w w', f w = Ret w' -> post w') -> (forall w, truthy w = false -> post w) ->
  (o ← present key v; match o with Some w => w' ← f w; py_setitem key w' v | None => Ret v end) = Ret v' ->
  (forall x, vget key v' = Some x -> post x) /\ same_except [key] v v'.
Proof.
  intros Hf Hz. destruct (present key v) as [[w|]|] eqn:Ep; cbn [mbind outcome_bind]; [| |done].
  - destruct (present_Some _ _ _ Ep) as (d & -> & Hd & _). destruct (f w) as [w'|] eqn:E; [|done]. cbn. intros [= <-]. split.
    + intros x. cbn. rewrite dict_get_set, String.eqb_refl. intros [= <-]. by eapply Hf.
    + intros k Hk. cbn. rewrite dict_get_set. destruct (String.eqb k key) eqn:Ek; [|done].
      apply String.eqb_eq in Ek as ->. set_solver.
  - intros [= <-]. split; [|done]. intros x Hx. apply Hz. destruct v; try done. cbn in Hx.
    rewrite present_dict, Hx in Ep. by destruct (truthy x).
Qed.

Lemma mask_sections_spec l : forall v v', NoDup (flat_map (fun s => [full_name s; alias s]) l) ->
  mask_sections l v = Ret v' -> hides_sections l v' /\ same_except (flat_map (fun s => [full_name s; alias s]) l) v v'.
Proof.
  induction l as [|s l IH]; intros v v' Hnd; cbn [mask_sections].
  { intros [= <-]. split; [intros s k x Hs; by apply elem_of_nil in Hs|done]. }
  cbn [flat_map] in Hnd. apply NoDup_app in Hnd as (Hne & Hd & Hnd). apply NoDup_cons in Hne as [Hne _].
  destruct (mask_key (masked s) (full_name s) v) as [v1|] eqn:E1; [|done]. cbn [mbind outcome_bind].
  destruct (mask_key (masked s) (alias s) v1) as [v2|] eqn:E2; [|done]. cbn [mbind outcome_bind].
  intros (H3 & S3)%IH; [|done].
  destruct (mask_under_spec _ (hides_names (masked s)) _ _ _ (fun w w' H => proj1 (mask_fields_spec _ w w' H)) (hides_falsy _) E1) as [H1 S1].
  destruct (mask_under_spec _ (hides_names (masked s)) _ _ _ (fun w w' H => proj1 (mask_fields_spec _ w w' H)) (hides_falsy _) E2) as [H2 S2].
  split; [|exact (same_except_trans _ _ _ _ _ (same_except_trans _ _ _ _ _ S1 S2) S3)].
  intros s' k x [->|Hs]%elem_of_cons Hk Hx; [|by eapply H3]. rewrite S3 in Hx by (by apply Hd).
  apply elem_of_cons in Hk as [->|Hk]; [rewrite S2 in Hx by done; by apply H1|].
  apply list_elem_of_singleton in Hk as ->. by apply H2.
Qed.

Lemma mask_provider_spec v v' : mask_provider v = Ret v' -> hides_provider v'.
Proof.
  unfold mask_provider. fold display_names. destruct (mask_fields display_names v) as [v1|] eqn:E; [|done].
  cbn [mbind outcome_bind]. intros E1. destruct (mask_sections_spec provider_sections v1 v' ltac:(by_decide) E1) as [H1 S1].
  destruct (mask_fields_spec _ _ _ E) as [H0 _]. split; [|done]. intros n x Hn Hx. rewrite S1 in Hx; [by eapply H0|].
  assert (Forall (fun n => n ∉ flat_map (fun s => [full_name s; alias s]) provider_sections) display_names) as HF by by_decide.
  rewrite Forall_forall in HF. by apply HF.
Qed.

Lemma mask_list_key_spec key v v' : mask_list_key key v = Ret v' ->
  (forall l, vget key v' = Some (VList l) -> Forall hides_provider l) /\ same_except [key] v v'.
Proof.
  unfold mask_list_key. destruct v as [| | | | | |d]; try by intros [= <-].
  destruct (dict_get key d) as [[| | | | |l|]|] eqn:E; try (intros [= <-]; split; [cbn; rewrite E; done|done]).
  destruct (mask_providers l) as [l'|] eqn:El; [|done]. cbn. intros [= <-]. split.
  - intros l0. cbn. rewrite dict_get_set, String.eqb_refl. intros [= <-]. clear E. revert l' El.
    induction l as [|p l IH]; intros l'; cbn [mask_providers]; [by intros [= <-]|].
    destruct (mask_provider p) as [p'|] eqn:Ep; [|done]. cbn [mbind outcome_bind].
    destruct (mask_providers l) as [l1|]; [|done]. intros [= <-]. constructor; [by eapply mask_provider_spec|by apply IH].
  - intros k Hk. cbn. rewrite dict_get_set. destruct (String.eqb k key) eqn:Ek; [|done].
    apply String.eqb_eq in Ek as ->. set_solver.
Qed.

Lemma hides_provider_falsy v : truthy v = false -> hides_provider v.
Proof. intros Ht. split; [by apply hides_falsy|]. intros s k x _ _. destruct v as [| | | | | |[]]; done. Qed.

(** Masking hides every secret it knows of: in what a client is shown, at
    every place of a token, password or key, in each provider, under each
    section and service, and under either spelling even when both occur, there
    is the mask or an empty value. *)
Theorem mask_hides (config : dict) (shown : value) :
  mask_secrets_for_display config = Ret shown -> hides_config shown.
Proof.
  unfold mask_secrets_for_display.
  destruct (mask_list_key "streaming_providers" (VDict config)) as [v1|] eqn:E1; [|done]. cbn [mbind outcome_bind].
  destruct (mask_list_key "sps" v1) as [v2|] eqn:E2; [|done]. cbn [mbind outcome_bind].
  destruct (mask_single_key "streaming_provider" v2) as [v3|] eqn:E3; [|done]. cbn [mbind outcome_bind].
  destruct (mask_single_key "sp" v3) as [v4|] eqn:E4; [|done]. cbn [mbind outcome_bind].
  destruct (mask_sections external_services v4) as [v5|] eqn:E5; [|done]. cbn [mbind outcome_bind]. intros E6.
  destruct (mask_list_key_spec _ _ _ E1) as [H1 S1]. destruct (mask_list_key_spec _ _ _ E2) as [H2 S2].
  destruct (mask_under_spec _ hides_provider _ _ _ mask_provider_spec hides_provider_falsy E3) as [H3 S3].
  destruct (mask_under_spec _ hides_provider _ _ _ mask_provider_spec hides_provider_falsy E4) as [H4 S4].
  destruct (mask_sections_spec external_services v4 v5 ltac:(by_decide) E5) as [H5 S5]. destruct (mask_fields_spec _ _ _ E6) as [H6 S6].
  assert (forall k, k ∈ ["streaming_providers"; "sps"; "streaming_provider"; "sp"] ->
    k ∉ ["api_password"; "ap"] /\ k ∉ flat_map (fun s => [full_name s; alias s]) external_services) as Hk.
  { intros k Hk. assert (Forall (fun k => k ∉ ["api_password"; "ap"] /\
      k ∉ flat_map (fun s => [full_name s; alias s]) external_services) ["streaming_providers"; "sps"; "streaming_provider"; "sp"]) as HF
      by by_decide. rewrite Forall_forall in HF. by apply HF. }
  assert (forall k, k ∈ ["streaming_providers"; "sps"; "streaming_provider"; "sp"] -> vget k shown = vget k v4) as Hshown.
  { intros k Hin. destruct (Hk k Hin). by rewrite S6, S5. }
  split_and!; [..|done].
  - intros k l [->|[->|[]%elem_of_nil]%elem_of_cons]%elem_of_cons Hl; rewrite Hshown in Hl by set_solver.
    + rewrite S4, S3, S2 in Hl by by_decide. by apply H1.
    + rewrite S4, S3 in Hl by by_decide. by apply H2.
  - intros k x [->|[->|[]%elem_of_nil]%elem_of_cons]%elem_of_cons Hx; rewrite Hshown in Hx by set_solver.
    + rewrite S4 in Hx by by_decide. by apply H3.
    + by apply H4.
  - intros s k x Hs Hk' Hx. rewrite S6 in Hx; [by eapply H5|].
    assert (Forall (fun s => Forall (fun k => k ∉ ["api_password"; "ap"]) [full_name s; alias s]) external_services) as HF by by_decide.
    rewrite Forall_forall in HF. specialize (HF s Hs). rewrite Forall_forall in HF. by apply HF.
Qed.

Lemma mask_hides_witness : exists shown,
  mask_secrets_for_display nested_sample = Ret shown /\ hides_config shown.
Proof. eexists. split; [reflexivity|]. by apply (mask_hides nested_sample). Defined.

(** ** Removing a provider *)

(** Providers with a service and a token, under their short names. *)
Definition provider_of (p : string * string) : value := VDict [("sv", VStr p.1); ("tk", VStr p.2)].
Definition providers_config (l : list (string * string)) : dict := [("sps", VList (map provider_of l))].

(** A removed provider shifts the credentials of those after it: when the
    first of a list of providers is deleted in the client, which sends back the
    others with their tokens masked, each remaining provider is stored with the
    token of the provider before it, so a token goes to another service. *)
Theorem removal_shifts_tokens (p : string * string) (rest : list (string * string)) :
  rest <> [] ->
  unmask_config_update [("sps", VList (map (fun q => provider_of (q.1, "••••••••")) rest))] (providers_config (p :: rest)) =
    providers_config (zip rest.*1 (p.2 :: rest.*2)).
Proof.
  intros Hr. unfold unmask_config_update, providers_config. rewrite deep_merge_foldl. cbn [foldl].
  change (merge_entry _ _) with [("sps", VList (map (fun q : string * string => provider_of (q.1, "••••••••")) rest))].
  rewrite restore_dict by done. cbn [map]. unfold restore_entry at 1. cbn [fst snd dict_get String.eqb].
  do 2 f_equal. cbn. do 2 f_equal. clear Hr. revert p. induction rest as [|[s t] rest IH]; intros [s0 t0]; [done|].
  cbn [map]. rewrite IH. done.
Qed.

Lemma removal_shifts_tokens_witness :
  unmask_config_update (providers_config [("premiumize", "••••••••")])
    (providers_config [("realdebrid", "rd-secret"); ("premiumize", "pm-secret")]) =
  providers_config [("premiumize", "rd-secret")].
Proof. exact (removal_shifts_tokens ("realdebrid", "rd-secret") [("premiumize", "pm-secret")] ltac:(discriminate)). Defined.
