(* ===== verification/ProfileContext.v ===== *)
(** * A user's profile (utils/profile_context.py, db/models/users.py)

    The rows of the profile table, the configuration handed to [UserData], and
    [ProfileDataProvider]: a profile is read from a cache in Redis or from the
    database, its secrets are decrypted for the request.  The rows a query
    without an order gives come in any order. *)

From S2P Require Export ProfileCrypto Redis UserConfig.
Local Open Scope string_scope.
Local Open Scope Z_scope.

Record UserProfile := mkProfile {
  profile_id : Z;
  profile_uuid : string;
  owner_id : Z;
  profile_name : string;
  profile_config : dict;
  encrypted_secrets : option string;
  is_default : bool;
  updated_at : Z;  (* 0 before the first update *)
  created_at : Z;
}.

(** ** The configuration given to [UserData] *)

Definition STREAMING_PROVIDER_FIELD_ALIASES : list (string * string) :=
  [("token", "tk"); ("email", "em"); ("password", "pw"); ("url", "u"); ("qbittorrent_config", "qbc");
   ("sabnzbd_config", "sbc"); ("nzbget_config", "ngc"); ("nzbdav_config", "ndc"); ("easynews_config", "enc")].

(** [d.get(k)] *)
Definition get_or_none (k : string) (d : dict) : value := default VNone (dict_get k d).
(** [a or b] *)
Definition py_or (a b : value) : value := if truthy a then a else b.

Definition dict_provider_has_field (sp : dict) (field : string) : bool :=
  let alias := default field (dict_get field STREAMING_PROVIDER_FIELD_ALIASES) in
  truthy (py_or (get_or_none field sp) (get_or_none alias sp)).

Definition dict_provider_auth_satisfied (sp : dict) (service : string) : bool :=
  provider_auth_satisfied service (dict_provider_has_field sp).

Definition provider_service (sp : dict) : value := py_or (get_or_none "sv" sp) (get_or_none "service" sp).

(** Whether a provider is kept.  A service that is not a string is no key of
    the tables; a list or dictionary cannot be looked up in them. *)
Definition provider_kept (disabled : list string) (v : value) : outcome py_exn bool :=
  match v with
  | VDict sp =>
      let service := provider_service sp in
      if negb (truthy service) then Ret false
      else match service with
           | VStr s => Ret (negb (memb s disabled) && dict_provider_auth_satisfied sp s)
           | VList _ | VDict _ => Raise TypeError
           | _ => Ret (dict_provider_auth_satisfied sp "default")
           end
  | _ => Ret false
  end.

Fixpoint filter_providers (disabled : list string) (l : list value) : outcome py_exn (list value) :=
  match l with
  | [] => Ret []
  | v :: l =>
      k ← provider_kept disabled v;
      l' ← filter_providers disabled l;
      Ret (if k : bool then v :: l' else l')
  end.

(** One key of the loop over both names of the list. *)
Definition filter_providers_key (disabled : list string) (key : string) (c : dict) : outcome py_exn dict :=
  match dict_get key c with
  | Some (VList l) => l' ← filter_providers disabled l; Ret (dict_set key (VList l') c)
  | _ => Ret c
  end.

Definition filter_rpdb_key (key : string) (c : dict) : dict :=
  match dict_get key c with
  | Some (VDict d) => if truthy (get_or_none "ak" d) || truthy (get_or_none "api_key" d) then c else dict_pop key c
  | _ => c
  end.

Definition resolution_kept (r : value) : bool :=
  match r with VNone => true | VStr s => negb (str_empty (strip s)) | _ => false end.

Definition filter_resolutions_key (key : string) (c : dict) : dict :=
  match dict_get key c with
  | Some (VList l) => dict_set key (VList (List.filter resolution_kept l)) c
  | _ => c
  end.

Definition set_some (key : string) (v : option value) (c : dict) : dict :=
  match v with Some x => dict_set key x c | None => c end.

(** [build_user_data_from_config] up to the call of [UserData]. *)
Definition prepare_config (disabled : list string) (full_config : dict)
    (user_id profile_id user_uuid profile_uuid api_password : option value) : outcome py_exn dict :=
  let c := set_some "user_id" user_id full_config in
  let c := set_some "profile_id" profile_id c in
  let c := set_some "uuuid" user_uuid c in
  let c := set_some "puuid" profile_uuid c in
  let c := set_some "ap" api_password (set_some "api_password" api_password c) in
  c ← filter_providers_key disabled "streaming_providers" c;
  c ← filter_providers_key disabled "sps" c;
  let c := filter_rpdb_key "rpc" (filter_rpdb_key "rpdb_config" c) in
  Ret (filter_resolutions_key "sr" (filter_resolutions_key "selected_resolutions" c)).

(** How pydantic reads a field with an alias that may also be given by name:
    the alias comes first. *)
Definition field_value (name alias : string) (c : dict) : option value :=
  match dict_get alias c with Some v => Some v | None => dict_get name c end.

(** ** The provider of profile data *)

(** What [UserData.mediaflow_config] tells. *)
Record mediaflow := mkMediaflow {
  proxy_url : option string;
  mediaflow_api_password : option string;
  enable_web_playback : bool;
}.

Record CachedProfileData := mkCached {
  cached_profile_id : Z;
  cached_config : dict;
  cached_encrypted_secrets : option string;
  cached_updated_at : Z;
}.

Definition cached_of (p : UserProfile) : CachedProfileData :=
  mkCached (profile_id p) (profile_config p) (encrypted_secrets p) (updated_at p).

Definition option_str (o : option string) : value := match o with Some s => VStr s | None => VNone end.

(** [model_dump_json] and [model_validate_json]. *)
Definition dump_cached (c : CachedProfileData) : value :=
  VDict [("profile_id", VInt (cached_profile_id c)); ("config", VDict (cached_config c));
         ("encrypted_secrets", option_str (cached_encrypted_secrets c)); ("updated_at", VInt (cached_updated_at c))].

Definition load_cached (v : value) : option CachedProfileData :=
  match v with
  | VDict d =>
      match dict_get "profile_id" d, dict_get "config" d, get_or_none "encrypted_secrets" d, dict_get "updated_at" d with
      | Some (VInt i), Some (VDict c), VNone, Some (VInt t) => Some (mkCached i c None t)
      | Some (VInt i), Some (VDict c), VStr s, Some (VInt t) => Some (mkCached i c (Some s) t)
      | _, _, _, _ => None
      end
  | _ => None
  end.

Lemma load_dump c : load_cached (dump_cached c) = Some c.
Proof. by destruct c as [i d [s|] t]. Qed.

Definition CACHE_TTL : Z := 300.
Definition cache_key (user_id : Z) : string := "profile_enc:" +:+ str_of_int user_id.

Section Provider.
Context {R : Type} `{!Redis R}.
Context {U : Type} (UserData_of : dict -> outcome py_exn U) (no_data : U) (mediaflow_config : U -> option mediaflow).
Context (unseal : string -> outcome py_exn value).
Context (disabled_providers : list string).
(** The order in which the database returns rows. *)
Context (rows : list UserProfile -> list UserProfile) (rows_perm : forall l, rows l ≡ₚ l).

(** Microseconds since the epoch: TTLs are in seconds. *)
Definition seconds (n : Z) : Z := n * 1000000.

Definition build_user_data_from_config (full_config : dict)
    (user_id profile_id user_uuid profile_uuid api_password : option value) : outcome py_exn (U * dict) :=
  c ← prepare_config disabled_providers full_config user_id profile_id user_uuid profile_uuid api_password;
  u ← UserData_of c;
  Ret (u, c).

Record ProfileContext := mkContext {
  ctx_user_id : Z;
  ctx_profile_id : option Z;
  ctx_user_data : U;
  ctx_rpdb_api_key : option value;
  has_mediaflow_configured : bool;
  web_playback_enabled : bool;
}.

Definition empty_context (user_id : Z) : ProfileContext := mkContext user_id None no_data None false false.

Definition rpdb_key_in (section field : string) (c : dict) : option value :=
  match dict_get section c with
  | Some (VDict d) => match dict_get field d with Some k => if truthy k then Some k else None | None => None end
  | _ => None
  end.

Definition extract_rpdb_key (c : dict) : option value :=
  match rpdb_key_in "rpc" "ak" c with Some k => Some k | None => rpdb_key_in "rpdb_config" "api_key" c end.

Definition nonempty (o : option string) : bool := match o with Some s => negb (str_empty s) | None => false end.

Definition check_mediaflow_configured (u : U) : bool :=
  match mediaflow_config u with
  | Some m => nonempty (proxy_url m) && nonempty (mediaflow_api_password m)
  | None => false
  end.

Definition check_web_playback_enabled (u : U) : bool :=
  check_mediaflow_configured u && match mediaflow_config u with Some m => enable_web_playback m | None => false end.

Definition check_mediaflow_for_provider (u : U) (p : option StreamingProvider) : bool :=
  check_mediaflow_configured u && match p with Some p => use_mediaflow p | None => false end.

(** [get_full_config] and [build_user_data_from_config] are both guarded by [except Exception]. *)
Definition build_context_from_cached (user_id : Z) (cached : CachedProfileData) : ProfileContext :=
  match get_full_config unseal (Some (cached_config cached)) (cached_encrypted_secrets cached) with
  | Raise _ => empty_context user_id
  | Ret full_config =>
      match build_user_data_from_config full_config (Some (VInt user_id)) (Some (VInt (cached_profile_id cached)))
          None None None with
      | Raise _ => empty_context user_id
      | Ret (u, c) =>
          mkContext user_id (Some (cached_profile_id cached)) u (extract_rpdb_key c)
            (check_mediaflow_configured u) (check_web_playback_enabled u)
      end
  end.

(** [up]: whether Redis answers; the client gives its default otherwise. *)
Definition get_cached_profile (up : bool) (now user_id : Z) (r : R) : option CachedProfileData :=
  if up then match kv_get now r (cache_key user_id) with Some (BJson v) => load_cached v | _ => None end else None.

Definition cache_profile (up : bool) (now user_id : Z) (c : CachedProfileData) (r : R) : R :=
  if up then kv_set now (cache_key user_id) (BJson (dump_cached c)) (Some (seconds CACHE_TTL)) r else r.

Definition invalidate_cache (up : bool) (user_id : Z) (r : R) : R := if up then kv_del (cache_key user_id) r else r.

Definition first (l : list UserProfile) : option UserProfile := head (rows l).

Definition get_active_profile (user_id : Z) (db : list UserProfile) : option UserProfile :=
  match first (List.filter (fun p => (owner_id p =? user_id) && is_default p) db) with
  | Some p => Some p
  | None => first (List.filter (fun p => owner_id p =? user_id) db)
  end.

Definition get_profile_by_id (user_id pid : Z) (db : list UserProfile) : option UserProfile :=
  first (List.filter (fun p => (profile_id p =? pid) && (owner_id p =? user_id)) db).

(** [get_context] for the user's active profile. *)
Definition get_active_context (up : bool) (now user_id : Z) (db : list UserProfile) (r : R) : ProfileContext * R :=
  match get_cached_profile up now user_id r with
  | Some cached => (build_context_from_cached user_id cached, r)
  | None =>
      match get_active_profile user_id db with
      | None => (empty_context user_id, r)
      | Some p => (build_context_from_cached user_id (cached_of p), cache_profile up now user_id (cached_of p) r)
      end
  end.

Definition get_context (up : bool) (now user_id : Z) (pid : option Z) (db : list UserProfile) (r : R) : ProfileContext * R :=
  match pid with
  | Some pid =>
      match get_profile_by_id user_id pid db with
      | Some p => (build_context_from_cached user_id (cached_of p), r)
      | None => get_active_context up now user_id db r
      end
  | None => get_active_context up now user_id db r
  end.
End Provider.

(** ** Where the identity in [UserData] comes from *)

Lemma dict_get_pop_ne {A} k k' (d : list (string * A)) : k <> k' -> dict_get k (dict_pop k' d) = dict_get k d.
Proof.
  intros Hk. induction d as [|[k1 v] d IH]; cbn; [done|]. destruct (String.eqb k' k1) eqn:E.
  - apply String.eqb_eq in E as ->. by rewrite (proj2 (String.eqb_neq k k1) Hk).
  - cbn. destruct (String.eqb k k1); [done|exact IH].
Qed.

Lemma dict_get_set_ne {A} k k' (v : A) d : k <> k' -> dict_get k (dict_set k' v d) = dict_get k d.
Proof. intros Hk. by rewrite dict_get_set, (proj2 (String.eqb_neq k k') Hk). Qed.

Lemma set_some_ne k k' v c : k <> k' -> dict_get k (set_some k' v c) = dict_get k c.
Proof. intros Hk. destruct v; [by apply dict_get_set_ne|done]. Qed.

Lemma set_some_eq k v c : dict_get k (set_some k (Some v) c) = Some v.
Proof. cbn. by rewrite dict_get_set, String.eqb_refl. Qed.

Lemma filter_providers_key_ne disabled k key c c' : k <> key ->
  filter_providers_key disabled key c = Ret c' -> dict_get k c' = dict_get k c.
Proof.
  intros Hk. unfold filter_providers_key. repeat case_match; try congruence.
  destruct (filter_providers _ _); [|done]. intros [= <-]. by apply dict_get_set_ne.
Qed.

Lemma filter_rpdb_key_ne k key c : k <> key -> dict_get k (filter_rpdb_key key c) = dict_get k c.
Proof. intros Hk. unfold filter_rpdb_key. repeat case_match; try done. by apply dict_get_pop_ne. Qed.

Lemma filter_resolutions_key_ne k key c : k <> key -> dict_get k (filter_resolutions_key key c) = dict_get k c.
Proof. intros Hk. unfold filter_resolutions_key. repeat case_match; try done. by apply dict_get_set_ne. Qed.

Definition filtered_keys : list string :=
  ["streaming_providers"; "sps"; "rpdb_config"; "rpc"; "selected_resolutions"; "sr"].

(** The filters leave every other key as the identification made it. *)
Lemma prepare_config_get disabled c u p uu pu a c' k : k ∉ filtered_keys -> prepare_config disabled c u p uu pu a = Ret c' ->
  dict_get k c' = dict_get k (set_some "ap" a (set_some "api_password" a (set_some "puuid" pu
    (set_some "uuuid" uu (set_some "profile_id" p (set_some "user_id" u c)))))).
Proof.
  intros Hk. unfold prepare_config. destruct (filter_providers_key _ "streaming_providers" _) as [c1|] eqn:E1; [|done]. cbn.
  destruct (filter_providers_key _ "sps" _) as [c2|] eqn:E2; [|done]. cbn. intros [= <-].
  assert (forall key, key ∈ filtered_keys -> k <> key) as Hne by (intros key Hkey ->; done).
  rewrite !filter_resolutions_key_ne, !filter_rpdb_key_ne by (apply Hne; unfold filtered_keys; set_solver).
  rewrite (filter_providers_key_ne disabled k "sps" c1 c2); [|apply Hne; unfold filtered_keys; set_solver|exact E2].
  eapply filter_providers_key_ne; [|exact E1]. apply Hne. unfold filtered_keys. set_solver.
Qed.

(** The user that [UserData] names is the authenticated one only when the
    configuration has no [uid]: a user who stores that key in a profile is
    taken for the user it names, since pydantic prefers the alias to the name
    the server writes.  The same holds of [pid]. *)
Lemma config_names_the_user disabled c me profile c' :
  prepare_config disabled c (Some (VInt me)) (Some (VInt profile)) None None None = Ret c' ->
  field_value "user_id" "uid" c' = Some (default (VInt me) (dict_get "uid" c)) /\
  field_value "profile_id" "pid" c' = Some (default (VInt profile) (dict_get "pid" c)).
Proof.
  intros H. unfold field_value.
  rewrite !(prepare_config_get disabled c (Some (VInt me)) (Some (VInt profile)) None None None c') by
    first [exact H | unfold filtered_keys; set_solver].
  cbn [set_some]. rewrite !dict_get_set. cbn. by destruct (dict_get "uid" c), (dict_get "pid" c).
Qed.

Lemma config_names_the_user_witness : exists c',
  prepare_config [] [("uid", VInt 1); ("sr", VList [VStr " "; VNone])] (Some (VInt 42)) (Some (VInt 9)) None None None = Ret c' /\
  field_value "user_id" "uid" c' = Some (VInt 1) /\ field_value "profile_id" "pid" c' = Some (VInt 9).
Proof.
  eexists. split; [vm_compute; reflexivity|].
  apply (config_names_the_user [] [("uid", VInt 1); ("sr", VList [VStr " "; VNone])] 42 9). vm_compute. reflexivity.
Defined.
