(* ===== verification/UserSecrets.v ===== *)
(** * Secrets that stand for a user's configuration (utils/crypto.py)

    A URL carries either the encrypted configuration itself ([D-]) or the UUID
    of a stored profile ([U-]).  The URL-safe base64 coding, the caches of
    decrypted and of invalid secrets of one process, the resolution of a
    profile through Redis and the database, and the two entry points
    [process_user_data] and [decrypt_user_data].  Byte strings are strings. *)

From S2P Require Export ProfileContext.
Local Open Scope string_scope.
Local Open Scope Z_scope.

(** ** URL-safe base64 *)

Definition alphabet : string := "ABCDEFGHIJKLMNOPQRSTUVWXYZabcdefghijklmnopqrstuvwxyz0123456789-_".

Definition char_of (v : Z) : ascii := default "A"%char (String.get (Z.to_nat v) alphabet).

(** The value of a character after the translation of [-_] to [+/]; [None]
    outside the alphabet. *)
Definition value_of (c : ascii) : option Z :=
  if is_upper c then Some (code c - 65)
  else if is_lower c then Some (code c - 71)
  else if is_digit c then Some (code c + 4)
  else if Ascii.eqb c "-" || Ascii.eqb c "+" then Some 62
  else if Ascii.eqb c "_" || Ascii.eqb c "/" then Some 63
  else None.

(** [urlsafe_b64encode(data).rstrip(b"=")] *)
Fixpoint make_urlsafe (data : string) : string :=
  match data with
  | String a (String b (String c data)) =>
      String (char_of (code a / 4))
        (String (char_of (code a mod 4 * 16 + code b / 16))
          (String (char_of (code b mod 16 * 4 + code c / 64))
            (String (char_of (code c mod 64)) (make_urlsafe data))))
  | String a (String b "") =>
      String (char_of (code a / 4))
        (String (char_of (code a mod 4 * 16 + code b / 16)) (String (char_of (code b mod 16 * 4)) ""))
  | String a "" => String (char_of (code a / 4)) (String (char_of (code a mod 4 * 16)) "")
  | "" => ""
  end.

(** [binascii.a2b_base64], not strict: characters outside the alphabet are
    skipped, padding ends the input once a group is complete.  [pos] counts the
    characters of the group, [left] holds the bits not yet written. *)
Fixpoint b64decode (s : string) (pos : nat) (left : Z) (pads : nat) : outcome py_exn string :=
  match s with
  | "" => match pos with O => Ret "" | _ => Raise ValueError end
  | String c s =>
      if Ascii.eqb c "=" then
        if (2 <=? pos)%nat then
          if (4 <=? pos + S pads)%nat then Ret "" else b64decode s pos left (S pads)
        else b64decode s pos left pads
      else
        match value_of c with
        | None => b64decode s pos left pads
        | Some v =>
            match pos with
            | O => b64decode s 1 v 0
            | 1%nat => t ← b64decode s 2 (v mod 16) 0; Ret (String (of_code (left * 4 + v / 16)) t)
            | 2%nat => t ← b64decode s 3 (v mod 4) 0; Ret (String (of_code (left * 16 + v / 4)) t)
            | _ => t ← b64decode s 0 0 0; Ret (String (of_code (left * 64 + v)) t)
            end
        end
  end.

Fixpoint pad_of (n : nat) : string := match n with O => "" | S n => String "=" (pad_of n) end.

Definition from_urlsafe (urlsafe_str : string) : outcome py_exn string :=
  let padding_needed := (String.length urlsafe_str mod 4)%nat in
  let s := if (padding_needed =? 0)%nat then urlsafe_str else urlsafe_str +:+ pad_of (4 - padding_needed) in
  if str_all (fun c => code c <? 128) s then b64decode s 0 0 0 else Raise ValueError.

(** *** Decoding inverts encoding *)

Definition sextets : list Z := seqZ 0 64.

Lemma char_of_ok v : 0 <= v < 64 ->
  value_of (char_of v) = Some v /\ Ascii.eqb (char_of v) "=" = false /\ (code (char_of v) <? 128) = true.
Proof.
  intros Hv. assert (Forall (fun v => value_of (char_of v) = Some v /\ Ascii.eqb (char_of v) "=" = false /\
    (code (char_of v) <? 128) = true) sextets) as HF by by_decide.
  rewrite Forall_forall in HF. apply HF. apply elem_of_seqZ. lia.
Qed.

Lemma code_range c : 0 <= code c < 256.
Proof. unfold code. pose proof (N_ascii_bounded c). lia. Qed.

Lemma of_code_code c : of_code (code c) = c.
Proof. unfold of_code, code. rewrite N2Z.id. apply ascii_N_embedding. Qed.

Lemma b64_step (v : Z) s pos left pads : 0 <= v < 64 ->
  b64decode (String (char_of v) s) pos left pads =
  match pos with
  | O => b64decode s 1 v 0
  | 1%nat => t ← b64decode s 2 (v mod 16) 0; Ret (String (of_code (left * 4 + v / 16)) t)
  | 2%nat => t ← b64decode s 3 (v mod 4) 0; Ret (String (of_code (left * 16 + v / 4)) t)
  | _ => t ← b64decode s 0 0 0; Ret (String (of_code (left * 64 + v)) t)
  end.
Proof. intros Hv. destruct (char_of_ok v Hv) as (E1 & E2 & _). cbn [b64decode]. by rewrite E2, E1. Qed.

(** Three bytes at a time. *)
Lemma string_rect3 (P : string -> Prop) :
  P "" -> (forall a, P (String a "")) -> (forall a b, P (String a (String b ""))) ->
  (forall a b c s, P s -> P (String a (String b (String c s)))) -> forall s, P s.
Proof.
  intros H0 H1 H2 H3. fix IH 1. intros [|a [|b [|c s]]]; [done|apply H1|apply H2|apply H3, IH].
Qed.

(** The padding that [from_urlsafe] adds. *)
Definition padding (s : string) : string :=
  if (String.length s mod 4 =? 0)%nat then "" else pad_of (4 - String.length s mod 4).

Lemma padding_step a b c d s : padding (String a (String b (String c (String d s)))) = padding s.
Proof.
  unfold padding. cbn [String.length]. replace (S (S (S (S (String.length s))))) with (String.length s + 1 * 4)%nat by lia.
  by rewrite Nat.Div0.mod_add.
Qed.

Lemma byte_back c x : x = code c -> of_code x = c.
Proof. intros ->. apply of_code_code. Qed.

Ltac divmod := Z.div_mod_to_equations.

Lemma make_urlsafe_decodes data : b64decode (make_urlsafe data +:+ padding (make_urlsafe data)) 0 0 0 = Ret data.
Proof.
  induction data as [|a|a b|a b c s IH] using string_rect3; [done|..];
    pose proof (code_range a) as Ha; try pose proof (code_range b) as Hb; try pose proof (code_range c) as Hc.
  - cbn [make_urlsafe]. change (padding _) with "==". rewrite ?str_app_cons, ?str_app_nil, !b64_step by (divmod; lia).
    cbn -[Z.div Z.modulo of_code]. rewrite (byte_back a) by (divmod; lia). done.
  - cbn [make_urlsafe]. change (padding _) with "=". rewrite ?str_app_cons, ?str_app_nil, !b64_step by (divmod; lia).
    cbn -[Z.div Z.modulo of_code]. rewrite (byte_back a), (byte_back b) by (divmod; lia). done.
  - cbn [make_urlsafe]. rewrite padding_step, ?str_app_cons, !b64_step, IH by (divmod; lia).
    cbn -[Z.div Z.modulo of_code]. rewrite (byte_back a), (byte_back b), (byte_back c) by (divmod; lia). done.
Qed.

Lemma char_of_ascii v : 0 <= v < 64 -> (code (char_of v) <? 128) = true.
Proof. apply char_of_ok. Qed.

Lemma make_urlsafe_ascii data : str_all (fun c => code c <? 128) (make_urlsafe data) = true.
Proof.
  induction data as [|a|a b|a b c s IH] using string_rect3; [done|..];
    pose proof (code_range a) as Ha; try pose proof (code_range b) as Hb; try pose proof (code_range c) as Hc;
    cbn [make_urlsafe str_all]; rewrite ?IH, ?char_of_ascii by (divmod; lia); done.
Qed.

Lemma from_make_urlsafe data : from_urlsafe (make_urlsafe data) = Ret data.
Proof.
  unfold from_urlsafe. pose proof (make_urlsafe_decodes data) as H. unfold padding in H.
  destruct (_ =? 0)%nat.
  - rewrite str_app_nil_r in H. by rewrite make_urlsafe_ascii.
  - rewrite str_all_app, make_urlsafe_ascii. assert (forall n, str_all (fun c => code c <? 128) (pad_of n) = true) as ->; [|done].
    induction n as [|n IH]; [done|]. cbn [pad_of str_all]. by rewrite IH.
Qed.

(** ** Exceptions and settings *)

(** [UserFacingSecretError] is a [ValueError] with a message for the user;
    [ZlibError] is not a [ValueError]. *)
Inductive secret_exn :=
  | UserFacingSecretError (msg : string)
  | Exn (e : py_exn)
  | ZlibError.

Definition is_value_error (e : secret_exn) : bool :=
  match e with UserFacingSecretError _ | Exn ValueError => true | _ => false end.

Definition lift {A} (m : outcome py_exn A) : outcome secret_exn A :=
  match m with Ret a => Ret a | Raise e => Raise (Exn e) end.

Definition URL_EMBEDDED_USERDATA_MAX_LEN : nat := 2000.
Definition DIRECT_PREFIX : string := "D-".
Definition REDIS_LEGACY_PREFIX : string := "R-".
Definition UUID_PREFIX : string := "U-".
Definition UUID_CACHE_PREFIX : string := "user_profile:".
Definition UUID_CACHE_TTL : Z := 2592000.
Definition DECRYPT_CACHE_TTL_SECONDS : Z := 120.
Definition DECRYPT_CACHE_MAX_ENTRIES : nat := 2048.
Definition INVALID_SECRET_CACHE_TTL_SECONDS : Z := 300.
Definition INVALID_SECRET_CACHE_MAX_ENTRIES : nat := 4096.
Definition MAX_SECRET_STR_LENGTH : nat := 4096.
Definition CONFIG_TOO_LARGE_FOR_URL_MESSAGE : string :=
  "Your configuration is too large to embed in the install URL. " +:+
  "Sign in and save a profile (logged-in install), then use the install link that starts with U-.".
Definition DEPRECATED_REDIS_BACKED_SECRET_MESSAGE : string :=
  "This link used a removed configuration format that depended on server cache (R-). " +:+
  "Sign in, save your settings as a profile, and install using the profile link (starts with U-).".

Fixpoint repeat_char (n : nat) (c : ascii) : string := match n with O => "" | S n => String c (repeat_char n c) end.

(** [settings.secret_key.encode("utf-8").ljust(32)[:32]] *)
Definition aes_key (secret_key : string) : string :=
  str_take 32 (secret_key +:+ repeat_char (32 - String.length secret_key) " ").

(** ** The caches of a process

    Dictionaries in insertion order; times in microseconds of the clock. *)

Record CryptoUtils (U : Type) := mkCrypto {
  decrypted_cache : list (string * (Z * U));
  invalid_cache : list (string * Z);
}.
Arguments mkCrypto {U} _ _.
Arguments decrypted_cache {U} _.
Arguments invalid_cache {U} _.

(** Assignment into a dictionary kept to [limit] entries: the oldest goes. *)
Definition evict_oldest {A} (limit : nat) (d : list (string * A)) : list (string * A) :=
  if (limit <=? length d)%nat then tail d else d.

Record User := mkUser { user_id : Z; user_uuid : string }.

(** Where a request for a secret stands: the steps of [_resolve_uuid_profile]
    are separated by its awaits. *)
Inductive phase (U : Type) :=
  | Lookup (uuid : string)
  | Load (uuid : string)
  | Store (uuid : string) (cache_data : value) (result : outcome secret_exn U)
  | Finish (result : outcome secret_exn U)
  | Done (result : outcome secret_exn U).
Arguments Lookup {U} uuid.
Arguments Load {U} uuid.
Arguments Store {U} uuid cache_data result.
Arguments Finish {U} result.
Arguments Done {U} result.

(** [v is not None] of [d.get(k)] *)
Definition get_not_none (k : string) (d : dict) : option value :=
  match dict_get k d with Some VNone => None | o => o end.

Section Secrets.
Context {R : Type} `{!Redis R}.
Context {U : Type}.
(** The constructor of [UserData] and its default, [model_dump_json], [model_validate_json]. *)
Context (UserData_of : dict -> outcome py_exn U) (no_data : U).
Context (dump_json : U -> outcome py_exn string) (validate_json : string -> outcome py_exn U).
Context (unseal : string -> outcome py_exn value) (disabled_providers : list string).
(** SHA-256, zlib, AES in CBC mode and its padding. *)
Context (sha256 : string -> string).
Context (compress : string -> string) (decompress : string -> outcome secret_exn string).
Context (cbc_encrypt : string -> string -> string -> string).
Context (cbc_decrypt : string -> string -> string -> outcome secret_exn string).
Context (pad : string -> string) (unpad : string -> outcome secret_exn string).
Context (secret_key : string).
Context (rows : list UserProfile -> list UserProfile).

Local Notation Crypto := (CryptoUtils U).
Local Notation result := (outcome secret_exn U).
Local Notation build_user_data := (build_user_data_from_config UserData_of disabled_providers).

(** *** The cache of decrypted secrets *)

Definition get_cached_decrypted (now : Z) (secret_str : string) (c : Crypto) : option U * Crypto :=
  if str_empty secret_str then (None, c)
  else match dict_get secret_str (decrypted_cache c) with
       | None => (None, c)
       | Some (expires_at, u) =>
           if expires_at <=? now then (None, mkCrypto (dict_pop secret_str (decrypted_cache c)) (invalid_cache c))
           else (Some u, c)
       end.

Definition evict_expired_decrypted (now : Z) (d : list (string * (Z * U))) : list (string * (Z * U)) :=
  List.filter (fun kv => negb (kv.2.1 <=? now)) d.

Definition cache_decrypted (now : Z) (secret_str : string) (u : U) (c : Crypto) : Crypto :=
  if str_empty secret_str then c
  else
    let d := evict_oldest DECRYPT_CACHE_MAX_ENTRIES (evict_expired_decrypted now (decrypted_cache c)) in
    mkCrypto (dict_set secret_str (now + seconds DECRYPT_CACHE_TTL_SECONDS, u) d) (invalid_cache c).

Definition invalidate_decrypted_prefix (secret_prefix : string) (c : Crypto) : Crypto :=
  mkCrypto (List.filter (fun kv => negb (startswith secret_prefix kv.1)) (decrypted_cache c)) (invalid_cache c).

(** *** The cache of invalid secrets *)

Definition secret_digest (secret_str : string) : string := sha256 secret_str.

Definition evict_expired_invalid (now : Z) (d : list (string * Z)) : list (string * Z) :=
  List.filter (fun kv => negb (kv.2 <=? now)) d.

Definition is_known_invalid (now : Z) (secret_str : string) (c : Crypto) : bool * Crypto :=
  match dict_get (secret_digest secret_str) (invalid_cache c) with
  | None => (false, c)
  | Some expires_at =>
      if expires_at <=? now
      then (false, mkCrypto (decrypted_cache c) (dict_pop (secret_digest secret_str) (invalid_cache c)))
      else (true, c)
  end.

Definition mark_invalid (now : Z) (secret_str : string) (c : Crypto) : bool * Crypto :=
  let digest := secret_digest secret_str in
  let d := evict_expired_invalid now (invalid_cache c) in
  let already_known := dict_has digest d in
  let d := evict_oldest INVALID_SECRET_CACHE_MAX_ENTRIES d in
  (negb already_known,
   mkCrypto (decrypted_cache c) (dict_set digest (now + seconds INVALID_SECRET_CACHE_TTL_SECONDS) d)).

Definition clear_invalid (secret_str : string) (c : Crypto) : Crypto :=
  mkCrypto (decrypted_cache c) (dict_pop (secret_digest secret_str) (invalid_cache c)).

(** *** Encryption *)

(** [iv] is what [get_random_bytes(16)] gives. *)
Definition compress_and_encrypt (iv data : string) : string * string :=
  (iv, cbc_encrypt (aes_key secret_key) iv (pad (compress data))).

Definition decrypt_and_decompress (iv encrypted_data : string) : outcome secret_exn string :=
  decrypted_data ← cbc_decrypt (aes_key secret_key) iv encrypted_data;
  unpadded_data ← unpad decrypted_data;
  decompress unpadded_data.

Definition process_user_data (iv : string) (u : U) : outcome secret_exn string :=
  match dump_json u with
  | Raise _ => Raise (Exn ValueError)
  | Ret json_data =>
      let '(iv, encrypted_data) := compress_and_encrypt iv json_data in
      let urlsafe_data := make_urlsafe (iv +:+ encrypted_data) in
      if (String.length urlsafe_data <=? URL_EMBEDDED_USERDATA_MAX_LEN)%nat then Ret (DIRECT_PREFIX +:+ urlsafe_data)
      else Raise (UserFacingSecretError CONFIG_TOO_LARGE_FOR_URL_MESSAGE)
  end.

(** The [D-] branch of [decrypt_user_data]. *)
Definition decrypt_direct (data : string) : result :=
  final_data ← lift (from_urlsafe data);
  json_str ← decrypt_and_decompress (str_take 16 final_data) (str_drop 16 final_data);
  lift (validate_json json_str).

Definition decode_user_data (encoded : string) : outcome py_exn U :=
  match from_urlsafe encoded with
  | Raise _ => Raise ValueError
  | Ret json_str => match validate_json json_str with Ret u => Ret u | Raise _ => Raise ValueError end
  end.

Definition encode_user_data (u : U) : outcome py_exn string :=
  match dump_json u with Ret json_str => Ret (make_urlsafe json_str) | Raise _ => Raise ValueError end.

(** *** Profiles by UUID *)

Definition uuid_cache_key (profile_uuid : string) : string := UUID_CACHE_PREFIX +:+ profile_uuid.

Definition build_user_data_from_cached_uuid (cached_data : dict) : outcome py_exn U :=
  config ← match get_or_none "config" cached_data with
           | VDict c => Ret c
           | VNone => Ret []
           | _ => Raise AttributeError
           end;
  secrets ← match get_or_none "encrypted_secrets" cached_data with
            | VStr s => Ret (Some s)
            | VNone => Ret None
            | _ => Raise AttributeError
            end;
  full_config ← get_full_config unseal (Some config) secrets;
  fst <$> build_user_data full_config (get_not_none "user_id" cached_data) (get_not_none "profile_id" cached_data)
    (get_not_none "user_uuid" cached_data) (get_not_none "profile_uuid" cached_data)
    (get_not_none "api_password" cached_data).

(** [GETEX] refreshes the time to live. *)
Definition getex (up : bool) (now : Z) (key : string) (ex : Z) (r : R) : option blob * R :=
  if up then match kv_get now r key with
             | Some b => (Some b, kv_set now key b (Some (seconds ex)) r)
             | None => (None, r)
             end
  else (None, r).

(** The first part of [_resolve_uuid_profile]: an answer from Redis, if any. *)
Definition resolve_from_redis (up : bool) (now : Z) (profile_uuid : string) (r : R) : option U * R :=
  let '(cached, r) := getex up now (uuid_cache_key profile_uuid) UUID_CACHE_TTL r in
  (match cached with
   | Some (BJson (VDict d)) => match build_user_data_from_cached_uuid d with Ret u => Some u | Raise _ => None end
   | _ => None
   end, r).

Definition profile_cache_data (p : UserProfile) (u : User) (api_password : option value) : dict :=
  ([("config", VDict (profile_config p)); ("encrypted_secrets", option_str (encrypted_secrets p));
    ("user_id", VInt (user_id u)); ("profile_id", VInt (profile_id p));
    ("user_uuid", VStr (user_uuid u)); ("profile_uuid", VStr (profile_uuid p))]
   ++ match api_password with Some v => [("api_password", v)] | None => [] end)%list.

(** [full_config.get("api_password") or full_config.get("ap")], if truthy. *)
Definition config_api_password (full_config : dict) : option value :=
  let v := py_or (get_or_none "api_password" full_config) (get_or_none "ap" full_config) in
  if truthy v then Some v else None.

(** [_load_and_cache_uuid_profile] up to the write to Redis: what is written,
    and what is returned after it. *)
Definition load_uuid_profile (uuid : string) (db : list UserProfile) (users : list User) : outcome secret_exn (value * result) :=
  match head (rows (List.filter (fun p => String.eqb (profile_uuid p) uuid) db)) with
  | None => Raise (Exn ValueError)
  | Some p =>
      match List.find (fun u => user_id u =? owner_id p) users with
      | None => Raise (Exn ValueError)
      | Some u =>
          full_config ← lift (get_full_config unseal (Some (profile_config p)) (encrypted_secrets p));
          Ret (VDict (profile_cache_data p u (config_api_password full_config)),
               lift (fst <$> build_user_data full_config (Some (VInt (user_id u))) (Some (VInt (profile_id p)))
                               (Some (VStr (user_uuid u))) (Some (VStr (profile_uuid p))) None))
      end
  end.

Definition cache_uuid_profile (up : bool) (now : Z) (uuid : string) (cache_data : value) (r : R) : R :=
  if up then kv_set now (uuid_cache_key uuid) (BJson cache_data) (Some (seconds UUID_CACHE_TTL)) r else r.

Definition invalidate_uuid_cache (up : bool) (uuid : string) (c : Crypto) (r : R) : Crypto * R :=
  (invalidate_decrypted_prefix (UUID_PREFIX +:+ uuid) c, if up then kv_del (uuid_cache_key uuid) r else r).

Definition format_profile_uuid_secret (uuid : string) : string :=
  if str_empty uuid then "" else UUID_PREFIX +:+ uuid.

Definition prime_profile_uuid_cache (up : bool) (now : Z) (p : UserProfile) (u : User) (api_password : option string) (r : R) : R :=
  let api_password := match api_password with
                      | Some s => if str_empty s then None else Some (VStr s)
                      | None => None
                      end in
  cache_uuid_profile up now (profile_uuid p) (VDict (profile_cache_data p u api_password)) r.

(** *** [decrypt_user_data]

    From the request to the first await. *)
Definition decrypt_start (now : Z) (secret_str : string) (c : Crypto) : phase U * Crypto :=
  if str_empty secret_str then (Done (Ret no_data), c)
  else if (MAX_SECRET_STR_LENGTH <? String.length secret_str)%nat then
    (Done (Raise (Exn ValueError)), (mark_invalid now secret_str c).2)
  else
    let '(known_invalid, c) := is_known_invalid now secret_str c in
    if known_invalid then (Done (Raise (Exn ValueError)), c)
    else
      let '(cached, c) := get_cached_decrypted now secret_str c in
      match cached with
      | Some u => (Done (Ret u), c)
      | None =>
          if startswith REDIS_LEGACY_PREFIX secret_str then
            (Finish (Raise (UserFacingSecretError DEPRECATED_REDIS_BACKED_SECRET_MESSAGE)), c)
          else if startswith DIRECT_PREFIX secret_str then (Finish (decrypt_direct (str_drop 2 secret_str)), c)
          else if startswith UUID_PREFIX secret_str then
            let uuid := str_drop 2 secret_str in
            (if (String.length uuid <? 32)%nat then Finish (Raise (Exn ValueError)) else Lookup uuid, c)
          else (Finish (Raise (Exn ValueError)), c)
      end.

(** From the resolved data to the answer: [result] becomes the answer, the
    caches remember it. *)
Definition decrypt_finish (now : Z) (secret_str : string) (res : result) (c : Crypto) : result * Crypto :=
  match res with
  | Ret u => (Ret u, cache_decrypted now secret_str u (clear_invalid secret_str c))
  | Raise (UserFacingSecretError msg) => (Raise (UserFacingSecretError msg), c)
  | Raise e =>
      (Raise (Exn ValueError), if is_value_error e then (mark_invalid now secret_str c).2 else c)
  end.

(** *** Requests in flight *)

Record world := mkWorld {
  w_now : Z;
  w_db : list UserProfile;
  w_users : list User;
  w_redis : R;
  w_procs : list Crypto;
  w_reqs : list (nat * string * phase U);
}.

(** One step of a request: until its next await. *)
Definition advance_phase (up : bool) (w : world) (secret_str : string) (ph : phase U) (c : Crypto) : phase U * Crypto * R :=
  match ph with
  | Lookup uuid =>
      let '(cached, r) := resolve_from_redis up (w_now w) uuid (w_redis w) in
      (match cached with Some u => Finish (Ret u) | None => Load uuid end, c, r)
  | Load uuid =>
      (match load_uuid_profile uuid (w_db w) (w_users w) with
       | Ret (data, res) => Store uuid data res
       | Raise e => Finish (Raise e)
       end, c, w_redis w)
  | Store uuid data res => (Finish res, c, cache_uuid_profile up (w_now w) uuid data (w_redis w))
  | Finish res => let '(res, c) := decrypt_finish (w_now w) secret_str res c in (Done res, c, w_redis w)
  | Done res => (Done res, c, w_redis w)
  end.

Definition advance (up : bool) (j : nat) (w : world) : world :=
  match w_reqs w !! j with
  | Some (i, secret_str, ph) =>
      match w_procs w !! i with
      | Some c =>
          let '(ph, c, r) := advance_phase up w secret_str ph c in
          mkWorld (w_now w) (w_db w) (w_users w) r (<[i := c]> (w_procs w)) (<[j := (i, secret_str, ph)]> (w_reqs w))
      | None => w
      end
  | None => w
  end.

(** A request arrives at process [i]. *)
Definition request (i : nat) (secret_str : string) (w : world) : world :=
  match w_procs w !! i with
  | Some c =>
      let '(ph, c) := decrypt_start (w_now w) secret_str c in
      mkWorld (w_now w) (w_db w) (w_users w) (w_redis w) (<[i := c]> (w_procs w)) (w_reqs w ++ [(i, secret_str, ph)])%list
  | None => w
  end.

Definition invalidate (up : bool) (i : nat) (uuid : string) (w : world) : world :=
  match w_procs w !! i with
  | Some c =>
      let '(c, r) := invalidate_uuid_cache up uuid c (w_redis w) in
      mkWorld (w_now w) (w_db w) (w_users w) r (<[i := c]> (w_procs w)) (w_reqs w)
  | None => w
  end.

Definition prime (up : bool) (p : UserProfile) (u : User) (api_password : option string) (w : world) : world :=
  mkWorld (w_now w) (w_db w) (w_users w) (prime_profile_uuid_cache up (w_now w) p u api_password (w_redis w))
    (w_procs w) (w_reqs w).

Definition tick (d : Z) (w : world) : world :=
  mkWorld (w_now w + d) (w_db w) (w_users w) (w_redis w) (w_procs w) (w_reqs w).

Definition with_db (db : list UserProfile) (users : list User) (w : world) : world :=
  mkWorld (w_now w) db users (w_redis w) (w_procs w) (w_reqs w).

Inductive step : world -> world -> Prop :=
  | step_tick d w : 0 <= d -> step w (tick d w)
  | step_db db users w : step w (with_db db users w)
  | step_request i secret_str w : step w (request i secret_str w)
  | step_advance up j w : step w (advance up j w)
  | step_prime up p u api_password w : p ∈ w_db w -> step w (prime up p u api_password w)
  | step_invalidate up i uuid w : step w (invalidate up i uuid w).

(** ** Invariants of the steps

    [P] holds of every process's caches, [Q] of every request, [I] of the rest. *)

Section Invariant.
Context (I : world -> Prop) (P : Z -> Crypto -> Prop) (Q : string -> phase U -> Prop).

Definition holds (w : world) : Prop :=
  I w /\ Forall (P (w_now w)) (w_procs w) /\ Forall (fun rq => Q rq.1.2 rq.2) (w_reqs w).

Context (P_later : forall now now' c, now <= now' -> P now c -> P now' c).
Context (P_invalidate : forall now prefix c, P now c -> P now (invalidate_decrypted_prefix prefix c)).
Context (start_ok : forall now s c, P now c ->
  Q s (decrypt_start now s c).1 /\ P now (decrypt_start now s c).2).
Context (advance_ok : forall up w s ph c, I w -> P (w_now w) c -> Q s ph ->
  Q s (advance_phase up w s ph c).1.1 /\ P (w_now w) (advance_phase up w s ph c).1.2).

Lemma holds_step w w' : step w w' -> I w' -> holds w -> holds w'.
Proof.
  intros Hs HI' (HI & HP & HQ). split; [done|]. destruct Hs as [d w Hd|db users w|i s w|up j w|up p u a w Hp|up i uuid w].
  - split; [|done]. eapply Forall_impl; [exact HP|]. intros c. apply P_later. cbn. lia.
  - done.
  - unfold request in *. destruct (w_procs w !! i) as [c|] eqn:Ei; [|done].
    pose proof (proj1 (Forall_lookup _ _) HP _ _ Ei) as Hc. destruct (start_ok (w_now w) s c Hc) as [H1 H2].
    destruct (decrypt_start _ _ _) as [ph c']. cbn in *. split; [by apply Forall_insert|].
    apply Forall_app. split; [done|]. by apply Forall_singleton.
  - unfold advance in *. destruct (w_reqs w !! j) as [[[i s] ph]|] eqn:Ej; [|done].
    destruct (w_procs w !! i) as [c|] eqn:Ei; [|done].
    pose proof (proj1 (Forall_lookup _ _) HP _ _ Ei) as Hc. pose proof (proj1 (Forall_lookup _ _) HQ _ _ Ej) as Hq.
    destruct (advance_ok up w s ph c HI Hc Hq) as [H1 H2].
    destruct (advance_phase _ _ _ _ _) as [[ph' c'] r]. cbn in *. split; by apply Forall_insert.
  - done.
  - unfold invalidate in *. destruct (w_procs w !! i) as [c|] eqn:Ei; [|done].
    pose proof (proj1 (Forall_lookup _ _) HP _ _ Ei) as Hc. cbn in *. split; [|done].
    apply Forall_insert; [done|]. by apply P_invalidate.
Qed.
End Invariant.

Lemma holds_reachable P Q w w' :
  (forall now now' c, now <= now' -> P now c -> P now' c) ->
  (forall now prefix c, P now c -> P now (invalidate_decrypted_prefix prefix c)) ->
  (forall now s c, P now c -> Q s (decrypt_start now s c).1 /\ P now (decrypt_start now s c).2) ->
  (forall up w s ph c, P (w_now w) c -> Q s ph ->
     Q s (advance_phase up w s ph c).1.1 /\ P (w_now w) (advance_phase up w s ph c).1.2) ->
  rtc step w w' -> holds (fun _ => True) P Q w -> holds (fun _ => True) P Q w'.
Proof.
  intros H1 H2 H3 H4. induction 1 as [|w w1 w2 Hs _ IH]; [done|]. intros Hw. apply IH.
  eapply holds_step; try done. intros up w0 s ph c _. apply H4.
Qed.

(** Processes that have just started. *)
Definition started (n : nat) (now : Z) (db : list UserProfile) (users : list User) (r : R) : world :=
  mkWorld now db users r (replicate n (mkCrypto [] [])) [].

Definition reachable (w : world) : Prop := exists n now db users r, rtc step (started n now db users r) w.

(** *** The size of the caches and the lifetime of their entries *)

Record cache_ok (now : Z) (c : Crypto) : Prop := {
  decrypted_size : (length (decrypted_cache c) <= DECRYPT_CACHE_MAX_ENTRIES)%nat;
  invalid_size : (length (invalid_cache c) <= INVALID_SECRET_CACHE_MAX_ENTRIES)%nat;
  decrypted_age : Forall (fun kv => kv.2.1 <= now + seconds DECRYPT_CACHE_TTL_SECONDS) (decrypted_cache c);
  invalid_age : Forall (fun kv => kv.2 <= now + seconds INVALID_SECRET_CACHE_TTL_SECONDS) (invalid_cache c);
}.

Lemma dict_set_length {A} k (v : A) d : (length (dict_set k v d) <= S (length d))%nat.
Proof. induction d as [|[k' v'] d IH]; cbn; [lia|]. destruct (String.eqb k k'); cbn; lia. Qed.

Lemma filter_length_le {A} (f : A -> bool) l : (length (List.filter f l) <= length l)%nat.
Proof. induction l as [|x l IH]; cbn; [lia|]. destruct (f x); cbn; lia. Qed.

Lemma evict_oldest_length {A} n (d : list (string * A)) : (0 < n)%nat -> (length d <= n)%nat -> (S (length (evict_oldest n d)) <= n)%nat.
Proof.
  intros Hn Hd. unfold evict_oldest. destruct (n <=? length d)%nat eqn:E.
  - apply Nat.leb_le in E. destruct d; cbn in *; lia.
  - apply Nat.leb_gt in E. lia.
Qed.

Lemma Forall_filter_bool {A} (P : A -> Prop) f l : Forall P l -> Forall P (List.filter f l).
Proof. rewrite !Forall_forall. intros H x Hx. apply H. apply list_elem_of_In, filter_In in Hx as [Hx _]. by apply list_elem_of_In. Qed.

Lemma Forall_evict_oldest {A} (P : string * A -> Prop) n d : Forall P d -> Forall P (evict_oldest n d).
Proof. intros H. unfold evict_oldest. destruct (_ <=? _)%nat; [|done]. by inversion H. Qed.

Lemma Forall_dict_pop {A} (P : string * A -> Prop) k d : Forall P d -> Forall P (dict_pop k d).
Proof. induction 1 as [|[k' v] d Hx Hd IH]; cbn; [done|]. destruct (String.eqb k k'); [done|]. by constructor. Qed.

Lemma Forall_dict_set {A} (P : string * A -> Prop) k (v : A) d : P (k, v) -> Forall P d -> Forall P (dict_set k v d).
Proof.
  intros Hv. induction 1 as [|[k' v'] d Hx Hd IH]; cbn; [by constructor|].
  destruct (String.eqb k k') eqn:E; [|by constructor]. apply String.eqb_eq in E as ->. by constructor.
Qed.

Lemma dict_get_Forall {A} (P : string * A -> Prop) k v d : Forall P d -> dict_get k d = Some v -> P (k, v).
Proof.
  induction 1 as [|[k' v'] d Hx Hd IH]; cbn; [done|]. destruct (String.eqb k k') eqn:E; [|done].
  apply String.eqb_eq in E as ->. by intros [= ->].
Qed.

Lemma dict_pop_length {A} k (d : list (string * A)) : (length (dict_pop k d) <= length d)%nat.
Proof. induction d as [|[k' v] d IH]; cbn; [lia|]. destruct (String.eqb k k'); cbn; lia. Qed.

(** A dictionary within its limit whose entries satisfy [P]. *)
Definition bounded {A} (n : nat) (P : string * A -> Prop) (d : list (string * A)) : Prop :=
  Forall P d /\ (length d <= n)%nat.

Lemma bounded_pop {A} n (P : string * A -> Prop) k d : bounded n P d -> bounded n P (dict_pop k d).
Proof. intros [H1 H2]. split; [by apply Forall_dict_pop|]. pose proof (dict_pop_length k d). lia. Qed.

Lemma bounded_filter {A} n (P : string * A -> Prop) f d : bounded n P d -> bounded n P (List.filter f d).
Proof. intros [H1 H2]. split; [by apply Forall_filter_bool|]. pose proof (filter_length_le f d). lia. Qed.

Lemma bounded_set {A} n (P : string * A -> Prop) k v d : (0 < n)%nat -> P (k, v) -> bounded n P d ->
  bounded n P (dict_set k v (evict_oldest n d)).
Proof.
  intros Hn Hv [H1 H2]. split; [by apply Forall_dict_set; [|apply Forall_evict_oldest]|].
  pose proof (dict_set_length k v (evict_oldest n d)). pose proof (evict_oldest_length n d Hn H2). lia.
Qed.

(** Both caches within their limits, with entries that satisfy [A] and [B]. *)
Definition caches (A : string * (Z * U) -> Prop) (B : string * Z -> Prop) (c : Crypto) : Prop :=
  bounded DECRYPT_CACHE_MAX_ENTRIES A (decrypted_cache c) /\ bounded INVALID_SECRET_CACHE_MAX_ENTRIES B (invalid_cache c).

Lemma caches_impl (A A' : string * (Z * U) -> Prop) (B B' : string * Z -> Prop) c :
  (forall kv, A kv -> A' kv) -> (forall kv, B kv -> B' kv) -> caches A B c -> caches A' B' c.
Proof. intros HA HB [[H1 H2] [H3 H4]]. repeat split; try done; by eapply Forall_impl. Qed.

Lemma caches_invalidate A B prefix c : caches A B c -> caches A B (invalidate_decrypted_prefix prefix c).
Proof. intros [H1 H2]. split; [by apply bounded_filter|done]. Qed.

Lemma caches_mark A B now s c : B (secret_digest s, now + seconds INVALID_SECRET_CACHE_TTL_SECONDS) ->
  caches A B c -> caches A B (mark_invalid now s c).2.
Proof. intros HB [H1 H2]. split; [done|]. apply bounded_set; [unfold INVALID_SECRET_CACHE_MAX_ENTRIES; lia|done|by apply bounded_filter]. Qed.

Lemma caches_known A B now s c : caches A B c -> caches A B (is_known_invalid now s c).2.
Proof.
  intros [H1 H2]. unfold is_known_invalid. destruct (dict_get _ _) as [e|]; [|done].
  destruct (e <=? now); [|done]. split; [done|by apply bounded_pop].
Qed.

Lemma caches_get A B now s c : caches A B c -> caches A B (get_cached_decrypted now s c).2.
Proof.
  intros [H1 H2]. unfold get_cached_decrypted. destruct (str_empty s); [done|]. destruct (dict_get _ _) as [[e u]|]; [|done].
  destruct (e <=? now); [|done]. split; [by apply bounded_pop|done].
Qed.

Lemma caches_cache A B now s u c : A (s, (now + seconds DECRYPT_CACHE_TTL_SECONDS, u)) ->
  caches A B c -> caches A B (cache_decrypted now s u c).
Proof.
  intros HA [H1 H2]. unfold cache_decrypted. destruct (str_empty s); [done|]. split; [|done].
  apply bounded_set; [unfold DECRYPT_CACHE_MAX_ENTRIES; lia|done|by apply bounded_filter].
Qed.

Lemma caches_clear A B s c : caches A B c -> caches A B (clear_invalid s c).
Proof. intros [H1 H2]. split; [done|by apply bounded_pop]. Qed.

Lemma start_phase_cases now s c :
  (decrypt_start now s c).2 = c \/
  (MAX_SECRET_STR_LENGTH < String.length s)%nat /\ (decrypt_start now s c).2 = (mark_invalid now s c).2 \/
  (decrypt_start now s c).2 = (is_known_invalid now s c).2 \/
  (decrypt_start now s c).2 = (get_cached_decrypted now s (is_known_invalid now s c).2).2.
Proof.
  unfold decrypt_start. destruct (str_empty s); [by left|]. destruct (_ <? _)%nat eqn:El.
  { right; left. by apply Nat.ltb_lt in El. }
  destruct (is_known_invalid now s c) as [k c1]. destruct k; [right; right; by left|].
  right; right; right. cbn [snd]. destruct (get_cached_decrypted now s c1) as [[u|] c2]; [done|].
  repeat case_match; done.
Qed.

Lemma caches_start A B now s c :
  ((MAX_SECRET_STR_LENGTH < String.length s)%nat -> B (secret_digest s, now + seconds INVALID_SECRET_CACHE_TTL_SECONDS)) ->
  caches A B c -> caches A B (decrypt_start now s c).2.
Proof.
  intros HB Hc. destruct (start_phase_cases now s c) as [E|[ [Hl E] | [E|E] ] ]; rewrite E; [done|..];
    [by apply caches_mark, Hc; apply HB|by apply caches_known|by apply caches_get, caches_known].
Qed.

Lemma caches_advance A B up w s ph c :
  (forall u, ph = Finish (Ret u) -> A (s, (w_now w + seconds DECRYPT_CACHE_TTL_SECONDS, u))) ->
  (forall e, ph = Finish (Raise e) -> (forall m, e <> UserFacingSecretError m) -> is_value_error e = true ->
     B (secret_digest s, w_now w + seconds INVALID_SECRET_CACHE_TTL_SECONDS)) ->
  caches A B c -> caches A B (advance_phase up w s ph c).1.2.
Proof.
  intros HA HB Hc. destruct ph as [uuid|uuid|uuid d res|res|res]; cbn; try done.
  - by destruct (resolve_from_redis _ _ _ _).
  - destruct res as [u|[m|e|]]; cbn; [|done|..].
    + apply caches_cache; [by apply HA|by apply caches_clear].
    + destruct e; cbn; try done. apply caches_mark; [|done]. by eapply HB.
    + done.
Qed.

(** The caches with the lifetime of their entries. *)
Lemma caches_bounded_holds w : reachable w ->
  Forall (caches (fun kv => kv.2.1 <= w_now w + seconds DECRYPT_CACHE_TTL_SECONDS)
            (fun kv => kv.2 <= w_now w + seconds INVALID_SECRET_CACHE_TTL_SECONDS)) (w_procs w).
Proof.
  intros (n & now & db & users & r & Hr).
  set (A now := fun kv : string * (Z * U) => kv.2.1 <= now + seconds DECRYPT_CACHE_TTL_SECONDS).
  set (B now := fun kv : string * Z => kv.2 <= now + seconds INVALID_SECRET_CACHE_TTL_SECONDS).
  assert (holds (fun _ => True) (fun now => caches (A now) (B now)) (fun _ _ => True) w) as (_ & HP & _).
  { eapply holds_reachable; [..|exact Hr|].
    - intros t t' c Ht. apply caches_impl; unfold A, B; intros; lia.
    - intros. by apply caches_invalidate.
    - intros t s c Hc. split; [done|]. apply caches_start; [|done]. unfold B. cbn. lia.
    - intros up w0 s ph c Hc _. split; [done|]. apply caches_advance; [..|done]; unfold A, B; cbn; lia.
    - split; [done|]. split; [|by constructor]. cbn. apply Forall_replicate. repeat split; try constructor;
        unfold DECRYPT_CACHE_MAX_ENTRIES, INVALID_SECRET_CACHE_MAX_ENTRIES; cbn; lia. }
  exact HP.
Qed.

(** Whatever the requests, at most 2048 decrypted secrets and 4096 digests
    of invalid ones are kept, for at most 120 and 300 seconds. *)
Lemma caches_bounded w : reachable w -> Forall (cache_ok (w_now w)) (w_procs w).
Proof.
  intros Hr. eapply Forall_impl; [by apply caches_bounded_holds|]. intros c [[H1 H2] [H3 H4]]. by split.
Qed.

(** *** Encrypted configurations *)

(** What the caller sees of a result. *)
Definition visible (res : result) : result :=
  match res with
  | Raise (Exn _) | Raise ZlibError => Raise (Exn ValueError)
  | res => res
  end.

Lemma decrypt_finish_visible now s res c : (decrypt_finish now s res c).1 = visible res.
Proof. by destruct res as [u|[]]. Qed.

Definition is_direct (s : string) : Prop :=
  startswith DIRECT_PREFIX s = true /\ (String.length s <= MAX_SECRET_STR_LENGTH)%nat.

Definition direct (s : string) : result := decrypt_direct (str_drop 2 s).

Lemma startswith_head c p s : startswith (String c p) s = true -> exists t, s = String c t.
Proof. destruct s as [|d s]; cbn; [done|]. intros H. apply andb_true_iff in H as [H _]. apply Ascii.eqb_eq in H as ->. eauto. Qed.

Lemma direct_not_legacy s : startswith DIRECT_PREFIX s = true -> str_empty s = false /\ startswith REDIS_LEGACY_PREFIX s = false.
Proof. by intros [t ->]%startswith_head. Qed.

Definition direct_entry (kv : string * (Z * U)) : Prop := is_direct kv.1 -> direct kv.1 = Ret kv.2.2.
Definition direct_mark (kv : string * Z) : Prop :=
  forall s, is_direct s -> kv.1 = secret_digest s -> visible (direct s) = Raise (Exn ValueError).
Definition direct_phase (s : string) (ph : phase U) : Prop :=
  is_direct s ->
  match ph with Finish res => res = direct s | Done res => res = visible (direct s) | _ => False end.

Lemma direct_start now s c : caches direct_entry direct_mark c -> direct_phase s (decrypt_start now s c).1.
Proof.
  intros [ [HA _] [HB _] ] Hs. pose proof Hs as [Hp Hl]. destruct (direct_not_legacy s Hp) as [He HR].
  unfold decrypt_start. rewrite He, (proj2 (Nat.ltb_ge _ _) Hl), HR, Hp. unfold is_known_invalid.
  destruct (dict_get (secret_digest s) (invalid_cache c)) as [e|] eqn:Ei; [destruct (e <=? now)|].
  2: { cbn. symmetry. exact (dict_get_Forall direct_mark _ _ _ HB Ei s Hs eq_refl). }
  all: unfold get_cached_decrypted; rewrite He; cbn [decrypted_cache];
    destruct (dict_get s (decrypted_cache c)) as [[x u]|] eqn:Ed; [destruct (x <=? now)|]; cbn; try done.
  all: pose proof (dict_get_Forall direct_entry _ _ _ HA Ed Hs) as Hu; cbn in Hu; by rewrite Hu.
Qed.

Context (sha256_inj : forall s t, sha256 s = sha256 t -> s = t).

Lemma direct_holds w : reachable w -> holds (fun _ => True) (fun _ => caches direct_entry direct_mark) direct_phase w.
Proof.
  intros (n & now & db & users & r & Hr). eapply holds_reachable; [..|exact Hr|].
  - done.
  - intros. by apply caches_invalidate.
  - intros t s c Hc. split; [by apply direct_start|]. apply caches_start; [|done]. intros Hl s' [_ Hs'] Heq.
    apply sha256_inj in Heq as <-. cbn in *. lia.
  - intros up w0 s ph c Hc Hq. split.
    + intros Hs. specialize (Hq Hs). destruct ph as [| | |res|res]; try done. cbn.
      pose proof (decrypt_finish_visible (w_now w0) s res c) as Hv. destruct (decrypt_finish _ _ _ _). cbn in *. by rewrite Hv, Hq.
    + apply caches_advance; [..|done].
      * intros u -> Hs. symmetry. exact (Hq Hs).
      * intros e -> He _ s' Hs' Heq. apply sha256_inj in Heq as <-. rewrite <- (Hq Hs'). destruct e as [m|e|]; [by edestruct He|done..].
  - split; [done|]. split; [|by constructor]. cbn. apply Forall_replicate. repeat split; try constructor;
      unfold DECRYPT_CACHE_MAX_ENTRIES, INVALID_SECRET_CACHE_MAX_ENTRIES; cbn; lia.
Qed.

(** A request for an encrypted configuration is answered at its next step. *)
Lemma direct_answer w up i s c : reachable w -> is_direct s -> w_procs w !! i = Some c ->
  w_reqs (advance up (length (w_reqs w)) (request i s w)) !! length (w_reqs w) = Some (i, s, Done (visible (direct s))).
Proof.
  intros Hr Hs Hc.
  assert (reachable (advance up (length (w_reqs w)) (request i s w))) as Hr'.
  { destruct Hr as (n & now & db & users & r & Hr). exists n, now, db, users, r. eapply rtc_r; [eapply rtc_r; [exact Hr|]|]; constructor. }
  destruct (direct_holds w Hr) as (_ & HP & _). destruct (direct_holds _ Hr') as (_ & _ & HQ).
  pose proof (direct_start (w_now w) s c (proj1 (Forall_lookup _ _) HP _ _ Hc) Hs) as Hph.
  revert HQ. unfold request. rewrite Hc. destruct (decrypt_start _ _ _) as [ph c'] eqn:Es.
  unfold advance. cbn [w_reqs w_procs]. rewrite (lookup_app_r (w_reqs w)), Nat.sub_diag by lia. cbn [lookup list_lookup].
  rewrite list_lookup_insert_eq by by eapply lookup_lt_Some.
  destruct (advance_phase _ _ _ _ _) as [[ph' c''] r'] eqn:Ea. cbn [w_reqs]. intros HQ.
  rewrite list_lookup_insert_eq by (rewrite length_app; cbn; lia).
  assert (length (w_reqs w) < length (w_reqs w ++ [(i, s, ph)]))%nat as Hlt by (rewrite length_app; cbn; lia).
  pose proof (proj1 (Forall_lookup _ _) HQ (length (w_reqs w)) (i, s, ph') (list_lookup_insert_eq _ _ _ Hlt)) as Hq.
  specialize (Hq Hs). destruct ph as [| | |res|res]; try done; cbn in Ea.
  - destruct (decrypt_finish _ _ _ _). simplify_eq. cbn in Hq. by rewrite Hq.
  - simplify_eq. cbn in Hq. by rewrite Hq.
Qed.

Context (validate_dump : forall u s, dump_json u = Ret s -> validate_json s = Ret u).
Context (decompress_compress : forall s, decompress (compress s) = Ret s).
Context (unpad_pad : forall s, unpad (pad s) = Ret s) (pad_block : forall s, (String.length (pad s) mod 16 = 0)%nat).
Context (cbc_inverse : forall key iv s, String.length iv = 16%nat -> (String.length s mod 16 = 0)%nat ->
  cbc_decrypt key iv (cbc_encrypt key iv s) = Ret s).

Lemma direct_process iv u s : String.length iv = 16%nat -> process_user_data iv u = Ret s -> is_direct s /\ direct s = Ret u.
Proof.
  intros Hiv. unfold process_user_data. destruct (dump_json u) as [json|] eqn:Ej; [|done].
  unfold compress_and_encrypt. destruct (_ <=? _)%nat eqn:El; [|done]. intros [= <-]. apply Nat.leb_le in El. split.
  - split; [done|].
    change (String.length (DIRECT_PREFIX +:+ ?x)) with (2 + String.length x)%nat.
    unfold MAX_SECRET_STR_LENGTH, URL_EMBEDDED_USERDATA_MAX_LEN in *. lia.
  - unfold direct, decrypt_direct. change (str_drop 2 (DIRECT_PREFIX +:+ ?x)) with x. rewrite from_make_urlsafe.
    cbn [lift mbind outcome_bind].
    rewrite str_take_app, str_drop_app by done. clear El.
    unfold decrypt_and_decompress. rewrite cbc_inverse by done. cbn. rewrite unpad_pad. cbn. rewrite decompress_compress. cbn.
    by rewrite (validate_dump u).
Qed.

(** A configuration that [process_user_data] embeds in a URL is what
    [decrypt_user_data] answers for that URL, in every process and whatever it
    answered before; nothing is awaited. *)
Lemma process_decrypt w up i iv u s c :
  reachable w -> w_procs w !! i = Some c -> String.length iv = 16%nat -> process_user_data iv u = Ret s ->
  w_reqs (advance up (length (w_reqs w)) (request i s w)) !! length (w_reqs w) = Some (i, s, Done (Ret u)).
Proof.
  intros Hr Hc Hiv Hs. destruct (direct_process iv u s Hiv Hs) as [Hd Hu]. rewrite (direct_answer w up i s c) by done. by rewrite Hu.
Qed.

(** *** Revoking a profile's link *)

Definition uuid_secret (uuid : string) : string := UUID_PREFIX +:+ uuid.


(** No profile has the UUID, and Redis does not hold it. *)
Definition gone (uuid : string) (w : world) : Prop :=
  Forall (fun p => profile_uuid p <> uuid) (w_db w) /\
  (forall t, w_now w <= t -> kv_get t (w_redis w) (uuid_cache_key uuid) = None).

(** What [decrypt_user_data] may be doing for a secret when no data of the
    UUID is on its way. *)
Definition clean_phase (uuid s : string) (ph : phase U) : Prop :=
  match ph with
  | Lookup x | Load x => s = uuid_secret x
  | Store x _ _ => s = uuid_secret x /\ x <> uuid
  | Finish (Ret _) => s <> uuid_secret uuid
  | _ => True
  end.

Definition expires_by (limit : Z) (uuid : string) (kv : string * (Z * U)) : Prop :=
  kv.1 = uuid_secret uuid -> kv.2.1 <= limit.

Definition revoked (limit : Z) (uuid : string) (w : world) : Prop :=
  holds (gone uuid) (fun _ => caches (expires_by limit uuid) (fun _ => True)) (clean_phase uuid) w.

Lemma start_clean uuid now s c : clean_phase uuid s (decrypt_start now s c).1.
Proof.
  unfold decrypt_start. destruct (str_empty s) eqn:He; [done|]. destruct (_ <? _)%nat; [done|].
  destruct (is_known_invalid now s c) as [k c1]. destruct k; [done|].
  destruct (get_cached_decrypted now s c1) as [ [u|] c2]; [done|]. destruct (startswith REDIS_LEGACY_PREFIX s); [done|].
  destruct (startswith DIRECT_PREFIX s) eqn:ED.
  - cbn. destruct (decrypt_direct _); [|done]. intros ->. done.
  - destruct (startswith UUID_PREFIX s) eqn:EU; [|done]. cbn [fst]. destruct (String.length _ <? 32)%nat; [done|].
    cbn [clean_phase]. unfold UUID_PREFIX in EU.
    destruct s as [|a [|b s] ]; cbn [startswith] in EU; [done|by rewrite andb_false_r in EU|].
    apply andb_true_iff in EU as [Ea Eb]. apply andb_true_iff in Eb as [Eb _].
    apply Ascii.eqb_eq in Ea as <-. by apply Ascii.eqb_eq in Eb as <-.
Qed.

Lemma resolve_from_redis_gone up now uuid x (r : R) :
  (forall t, now <= t -> kv_get t r (uuid_cache_key uuid) = None) ->
  ((resolve_from_redis up now x r).1 <> None -> x <> uuid) /\
  (forall t, now <= t -> kv_get t (resolve_from_redis up now x r).2 (uuid_cache_key uuid) = None).
Proof.
  intros Hr. unfold resolve_from_redis, getex. destruct up; [|done].
  destruct (kv_get now r (uuid_cache_key x)) as [b|] eqn:Eg; [|done]. cbn.
  assert (x <> uuid) as Hx by (intros ->; rewrite Hr in Eg; [done|lia]).
  split; [done|]. intros t Ht. rewrite kv_get_set by done. destruct (String.eqb _ _) eqn:E; [|by apply Hr].
  apply String.eqb_eq in E. by apply str_app_inj_l in E.
Qed.

Lemma cache_uuid_gone up now uuid x v (r : R) : x <> uuid ->
  (forall t, now <= t -> kv_get t r (uuid_cache_key uuid) = None) ->
  forall t, now <= t -> kv_get t (cache_uuid_profile up now x v r) (uuid_cache_key uuid) = None.
Proof.
  intros Hx Hr t Ht. unfold cache_uuid_profile. destruct up; [|by apply Hr].
  rewrite kv_get_set by done. destruct (String.eqb _ _) eqn:E; [|by apply Hr]. apply String.eqb_eq in E. by apply str_app_inj_l in E.
Qed.

Context (rows_perm : forall l, rows l ≡ₚ l).

Lemma load_known uuid db users x : load_uuid_profile uuid db users = Ret x -> Forall (fun p => profile_uuid p <> uuid) db -> False.
Proof.
  unfold load_uuid_profile. intros H Hdb. destruct (head _) as [p|] eqn:Eh; [|done].
  assert (p ∈ List.filter (fun p => String.eqb (profile_uuid p) uuid) db) as Hp.
  { rewrite <- (rows_perm (List.filter _ db)). destruct (rows _); [done|]. cbn in Eh. simplify_eq. left. }
  apply list_elem_of_In, filter_In in Hp as [Hp E]. apply String.eqb_eq in E.
  rewrite Forall_forall in Hdb. eapply Hdb; [by apply list_elem_of_In|done].
Qed.

Lemma advance_clean up uuid w s ph c : gone uuid w -> clean_phase uuid s ph ->
  clean_phase uuid s (advance_phase up w s ph c).1.1 /\ gone uuid (mkWorld (w_now w) (w_db w) (w_users w)
    (advance_phase up w s ph c).2 (w_procs w) (w_reqs w)).
Proof.
  intros [Hdb Hr] Hph. destruct ph as [x|x|x d res|res|res]; cbn.
  - destruct (resolve_from_redis_gone up (w_now w) uuid x (w_redis w) Hr) as [H1 H2].
    destruct (resolve_from_redis _ _ _ _) as [ [u|] r]; cbn in *; (split; [|done]); [|done].
    intros E. rewrite Hph in E. apply str_app_inj_l in E. by apply H1 in E.
  - split; [|done]. destruct (load_uuid_profile _ _ _) as [ [d res]|e] eqn:El; cbn; [|done]. split; [done|].
    intros ->. by eapply load_known.
  - destruct Hph as [-> Hx]. split; [|split; [done|by apply cache_uuid_gone]].
    cbn. destruct res; [|done]. by intros E%str_app_inj_l.
  - by destruct (decrypt_finish _ _ _ _).
  - done.
Qed.

Lemma gone_step uuid w w' : step w w' -> Forall (fun p => profile_uuid p <> uuid) (w_db w') ->
  Forall (fun rq => clean_phase uuid rq.1.2 rq.2) (w_reqs w) -> gone uuid w -> gone uuid w'.
Proof.
  intros Hs Hdb' HQ Hg. pose proof Hg as [Hdb Hr].
  destruct Hs as [d w Hd|db users w|i s w|up j w|up p u a w Hp|up i x w].
  - split; [done|]. intros t Ht. apply Hr. cbn in Ht. lia.
  - done.
  - unfold request in *. destruct (w_procs w !! i); [|done]. by destruct (decrypt_start _ _ _).
  - unfold advance in *. destruct (w_reqs w !! j) as [ [[i s] ph]|] eqn:Ej; [|done]. destruct (w_procs w !! i) as [c|]; [|done].
    pose proof (proj1 (Forall_lookup _ _) HQ _ _ Ej) as Hq.
    destruct (advance_clean up uuid w s ph c Hg Hq) as [_ Hg']. by destruct (advance_phase _ _ _ _ _) as [[ph' c'] r].
  - split; [done|]. apply cache_uuid_gone; [|done]. rewrite Forall_forall in Hdb. by apply Hdb.
  - unfold invalidate in *. destruct (w_procs w !! i); [|done]. split; [done|]. cbn. destruct up; [|done]. intros t Ht.
    rewrite kv_get_del. destruct (String.eqb _ _); [done|by apply Hr].
Qed.

Lemma revoked_step limit uuid w w' : step w w' -> Forall (fun p => profile_uuid p <> uuid) (w_db w') ->
  revoked limit uuid w -> revoked limit uuid w'.
Proof.
  intros Hs Hdb Hw. pose proof Hw as (Hg & _ & HQ). revert Hw. apply holds_step; try done.
  - intros. by apply caches_invalidate.
  - intros now s c Hc. split; [apply start_clean|by apply caches_start].
  - intros up w0 s ph c Hg0 Hc Hq. split; [by apply advance_clean|]. apply caches_advance; [|done..].
    intros u -> E. cbn in E, Hq. by rewrite E in Hq.
  - by eapply gone_step.
Qed.

(** Steps in which no profile gets the UUID. *)
Definition steps_without (uuid : string) : world -> world -> Prop :=
  rtc (fun w w' => step w w' /\ Forall (fun p => profile_uuid p <> uuid) (w_db w')).

Lemma revoked_steps limit uuid w w' : steps_without uuid w w' -> revoked limit uuid w -> revoked limit uuid w'.
Proof. induction 1 as [|w w1 w2 [Hs Hdb] _ IH]; [done|]. intros Hw. apply IH. by eapply revoked_step. Qed.

Lemma invalidate_revokes i c uuid w : reachable w -> w_procs w !! i = Some c ->
  Forall (fun p => profile_uuid p <> uuid) (w_db w) -> Forall (fun rq => clean_phase uuid rq.1.2 rq.2) (w_reqs w) ->
  revoked (w_now w + seconds DECRYPT_CACHE_TTL_SECONDS) uuid (invalidate true i uuid w).
Proof.
  intros Hr Hi Hdb Hq. pose proof (caches_bounded_holds w Hr) as Hb. unfold invalidate. rewrite Hi. cbn. repeat split; try done.
  - intros t _. cbn. rewrite kv_get_del. by rewrite String.eqb_refl.
  - assert (Forall (caches (expires_by (w_now w + seconds DECRYPT_CACHE_TTL_SECONDS) uuid) (fun _ => True)) (w_procs w)) as HP.
    { eapply Forall_impl; [exact Hb|]. intros c'. apply caches_impl; [|done]. intros kv Hkv _. exact Hkv. }
    cbn. apply Forall_insert; [done|]. apply caches_invalidate. rewrite Forall_lookup in HP. by eapply HP.
Qed.

Lemma decrypt_start_uuid now uuid c :
  decrypt_start now (uuid_secret uuid) c =
  if (MAX_SECRET_STR_LENGTH <? String.length (uuid_secret uuid))%nat then
    (Done (Raise (Exn ValueError)), (mark_invalid now (uuid_secret uuid) c).2)
  else
    let '(known_invalid, c) := is_known_invalid now (uuid_secret uuid) c in
    if known_invalid then (Done (Raise (Exn ValueError)), c)
    else
      let '(cached, c) := get_cached_decrypted now (uuid_secret uuid) c in
      match cached with
      | Some u => (Done (Ret u), c)
      | None => (if (String.length uuid <? 32)%nat then Finish (Raise (Exn ValueError)) else Lookup uuid, c)
      end.
Proof. reflexivity. Qed.

(** A request that will not be answered with data. *)
Definition dead_phase (uuid : string) (ph : phase U) : Prop :=
  match ph with
  | Lookup x | Load x => x = uuid
  | Finish (Raise _) | Done (Raise _) => True
  | _ => False
  end.

Lemma start_dead limit uuid now c : limit <= now -> caches (expires_by limit uuid) (fun _ => True) c ->
  dead_phase uuid (decrypt_start now (uuid_secret uuid) c).1.
Proof.
  intros Hl Hc. rewrite decrypt_start_uuid.
  destruct (_ <? _)%nat; [done|]. pose proof (caches_known _ _ now (uuid_secret uuid) _ Hc) as Hc1.
  destruct (is_known_invalid _ _ c) as [k c1]. destruct k; [done|]. cbn [snd] in Hc1. destruct Hc1 as [ [HA _] _].
  unfold get_cached_decrypted. change (str_empty (uuid_secret uuid)) with false. cbv iota.
  destruct (dict_get (uuid_secret uuid) (decrypted_cache c1)) as [ [e u]|] eqn:Ed; [|by destruct (_ <? _)%nat].
  pose proof (dict_get_Forall _ _ _ _ HA Ed eq_refl) as He. cbn in He.
  rewrite (proj2 (Z.leb_le e now)) by lia. by destruct (_ <? _)%nat.
Qed.

Definition has_request (k i : nat) (s : string) (good : phase U -> Prop) (w : world) : Prop :=
  exists ph, w_reqs w !! k = Some (i, s, ph) /\ good ph.

Lemma dead_advance up uuid w s ph c : gone uuid w -> dead_phase uuid ph -> dead_phase uuid (advance_phase up w s ph c).1.1.
Proof.
  intros [Hdb Hr] Hph. destruct ph as [x|x|x d res|res|res]; cbn in *; try done.
  - subst x. destruct (resolve_from_redis_gone up (w_now w) uuid uuid (w_redis w) Hr) as [H1 _].
    destruct (resolve_from_redis _ _ _ _) as [ [u|] r]; cbn in *; [|done]. by destruct H1.
  - subst x. destruct (load_uuid_profile _ _ _) as [x|e] eqn:El; [|done]. exfalso. by eapply load_known.
  - by destruct res as [u|[]].
Qed.

Lemma dead_step uuid k i s w w' : step w w' -> gone uuid w ->
  has_request k i s (dead_phase uuid) w -> has_request k i s (dead_phase uuid) w'.
Proof.
  intros Hs Hg (ph & Hk & Hph). destruct Hs as [d w Hd|db users w|i' s' w|up j w|up p u a w Hp|up i' x w]; try by exists ph.
  - unfold request. destruct (w_procs w !! i'); [|by exists ph]. destruct (decrypt_start _ _ _). exists ph. split; [|done].
    cbn. by apply lookup_app_l_Some.
  - unfold advance. destruct (w_reqs w !! j) as [ [ [i' s'] ph']|] eqn:Ej; [|by exists ph].
    destruct (w_procs w !! i') as [c|]; [|by exists ph].
    pose proof (dead_advance up uuid w s ph c Hg Hph) as Hd.
    destruct (advance_phase up w s' ph' c) as [[ph1 c1] r1] eqn:Ea. destruct (decide (j = k)) as [->|Hjk].
    + rewrite Hk in Ej. simplify_eq. exists ph1. cbn. rewrite list_lookup_insert_eq by by eapply lookup_lt_Some.
      split; [done|]. by rewrite Ea in Hd.
    + exists ph. cbn. by rewrite list_lookup_insert_ne by done.
  - unfold invalidate. destruct (w_procs w !! i'); by exists ph.
Qed.

Lemma dead_steps limit uuid k i s w w' : steps_without uuid w w' -> revoked limit uuid w ->
  has_request k i s (dead_phase uuid) w -> has_request k i s (dead_phase uuid) w'.
Proof.
  induction 1 as [|w w1 w2 [Hs Hdb] _ IH]; [done|]. intros Hw Hd. apply IH; [by eapply revoked_step|].
  destruct Hw as [Hg _]. by eapply dead_step.
Qed.

(** [C8] Two minutes after a profile's UUID was changed and invalidated, no
    process answers a request for the old link with data, provided that none
    was on its way to the caches at that time. *)
Lemma revocation_within_two_minutes uuid i i' w w1 w2 :
  reachable w -> (i < length (w_procs w))%nat ->
  Forall (fun p => profile_uuid p <> uuid) (w_db w) -> Forall (fun rq => clean_phase uuid rq.1.2 rq.2) (w_reqs w) ->
  steps_without uuid (invalidate true i uuid w) w1 ->
  w_now w + seconds 120 <= w_now w1 -> (i' < length (w_procs w1))%nat ->
  steps_without uuid (request i' (uuid_secret uuid) w1) w2 ->
  forall u, w_reqs w2 !! length (w_reqs w1) <> Some (i', uuid_secret uuid, Done (Ret u)).
Proof.
  intros Hr [c Hi]%lookup_lt_is_Some Hdb Hq H1 Ht [c1 Ei]%lookup_lt_is_Some H2 u Hu.
  pose proof (invalidate_revokes i c uuid w Hr Hi Hdb Hq) as Hw. pose proof (revoked_steps _ _ _ _ H1 Hw) as Hw1.
  assert (revoked (w_now w + seconds 120) uuid (request i' (uuid_secret uuid) w1)) as Hw2.
  { eapply revoked_step; [constructor| |exact Hw1]. destruct Hw1 as [ [Hdb1 _] _]. unfold request. rewrite Ei.
    by destruct (decrypt_start _ _ _). }
  destruct Hw1 as (_ & HP & _). rewrite Forall_lookup in HP. pose proof (start_dead _ uuid _ c1 Ht (HP _ _ Ei)) as Hd.
  destruct (dead_steps _ uuid (length (w_reqs w1)) i' (uuid_secret uuid) _ _ H2 Hw2) as (ph & Hph & Hdead).
  { unfold request. rewrite Ei. destruct (decrypt_start _ _ _) as [ph c']. exists ph. split; [|done].
    cbn. by rewrite lookup_app_r, Nat.sub_diag by lia. }
  rewrite Hu in Hph. by simplify_eq.
Qed.

(** A request that had read the profile before the link was invalidated
    writes it back to Redis: for the next thirty days, and as long again after
    each use, a process without the link in its caches still answers it with
    the old data, whatever the database holds. *)
Lemma stale_link_survives w i i0 j k uuid d u u' db users t c :
  w_reqs w !! j = Some (i0, uuid_secret uuid, Store uuid (VDict d) (Ret u)) ->
  build_user_data_from_cached_uuid d = Ret u' ->
  (32 <= String.length uuid)%nat -> (String.length (uuid_secret uuid) <= MAX_SECRET_STR_LENGTH)%nat ->
  (i < length (w_procs w))%nat -> (i0 < length (w_procs w))%nat -> 0 <= t < seconds UUID_CACHE_TTL ->
  let w1 := tick t (with_db db users (advance true j (invalidate true i uuid w))) in
  let n := length (w_reqs w1) in
  w_procs w1 !! k = Some c ->
  dict_get (uuid_secret uuid) (decrypted_cache c) = None -> dict_get (secret_digest (uuid_secret uuid)) (invalid_cache c) = None ->
  w_reqs (advance true n (advance true n (request k (uuid_secret uuid) w1))) !! n = Some (k, uuid_secret uuid, Done (Ret u')).
Proof.
  intros Hj Hu' Hl1 Hl2 [ci Hi]%lookup_lt_is_Some Hi0 Ht w1 n Hk Hd Hdi.
  assert (kv_get (w_now w1) (w_redis w1) (uuid_cache_key uuid) = Some (BJson (VDict d))) as Hkv.
  { subst w1. unfold invalidate. rewrite Hi. unfold advance. cbn [w_reqs w_procs invalidate_uuid_cache]. rewrite Hj.
    destruct (_ !! i0) as [c0|] eqn:E0; [|apply lookup_ge_None in E0; rewrite length_insert in E0; lia].
    cbn. rewrite kv_get_set by lia. rewrite String.eqb_refl. destruct (_ <=? _) eqn:E; [|done]. apply Z.leb_le in E. lia. }
  assert (decrypt_start (w_now w1) (uuid_secret uuid) c = (Lookup uuid, c)) as Hs.
  { rewrite decrypt_start_uuid, (proj2 (Nat.ltb_ge _ _) Hl2). unfold is_known_invalid. rewrite Hdi.
    unfold get_cached_decrypted. change (str_empty (uuid_secret uuid)) with false. cbv iota. rewrite Hd.
    by rewrite (proj2 (Nat.ltb_ge _ _) Hl1). }
  assert (resolve_from_redis true (w_now w1) uuid (w_redis w1) =
    (Some u', kv_set (w_now w1) (uuid_cache_key uuid) (BJson (VDict d)) (Some (seconds UUID_CACHE_TTL)) (w_redis w1))) as Hres.
  { unfold resolve_from_redis, getex. rewrite Hkv. by rewrite Hu'. }
  clearbody w1. unfold request. rewrite Hk, Hs. unfold advance at 2. cbn [w_reqs w_procs].
  assert (n < length (w_reqs w1 ++ [(k, uuid_secret uuid, Lookup uuid)]))%nat as Hn by (rewrite length_app; cbn; lia).
  rewrite lookup_app_r, Nat.sub_diag by lia. cbn [lookup list_lookup].
  rewrite list_lookup_insert_eq by by eapply lookup_lt_Some. cbn [advance_phase w_now w_redis]. rewrite Hres.
  unfold advance. cbn [w_reqs w_procs]. rewrite list_lookup_insert_eq by done.
  rewrite list_lookup_insert_eq by (rewrite length_insert; by eapply lookup_lt_Some).
  cbn [advance_phase decrypt_finish w_reqs]. by rewrite list_lookup_insert_eq by (by rewrite length_insert).
Qed.

End Secrets.

(** ** The older functions of the module *)

Definition urlsafe_b64encode (data : string) : string := make_urlsafe data +:+ padding (make_urlsafe data).

Definition urlsafe_b64decode (s : string) : outcome py_exn string :=
  if str_all (fun c => code c <? 128) s then b64decode s 0 0 0 else Raise ValueError.

Lemma pad_of_ascii n : str_all (fun c => code c <? 128) (pad_of n) = true.
Proof. induction n as [|n IH]; [done|]. cbn [pad_of str_all]. by rewrite IH. Qed.

Lemma b64decode_encode data : urlsafe_b64decode (urlsafe_b64encode data) = Ret data.
Proof.
  unfold urlsafe_b64decode, urlsafe_b64encode. rewrite str_all_app, make_urlsafe_ascii.
  assert (str_all (fun c => code c <? 128) (padding (make_urlsafe data)) = true) as ->.
  { unfold padding. destruct (_ =? 0)%nat; [done|]. apply pad_of_ascii. }
  apply make_urlsafe_decodes.
Qed.

Definition NUL : ascii := of_code 0.

Section Legacy.
Context (sha256 : string -> string).
Context (compress : string -> string) (decompress : string -> outcome secret_exn string).
Context (cbc_encrypt : string -> string -> string -> string).
Context (cbc_decrypt : string -> string -> string -> outcome secret_exn string).
Context (pad : string -> string) (unpad : string -> outcome secret_exn string) (json_dumps : dict -> string).

Definition encrypt_text (iv text secret_key : string) : string :=
  let padded := text +:+ repeat_char (16 - String.length text mod 16) NUL in
  urlsafe_b64encode (compress (iv +:+ cbc_encrypt (aes_key secret_key) iv padded)).

Definition decrypt_text (secret_str secret_key : string) : outcome secret_exn string :=
  decoded_data ← lift (urlsafe_b64decode secret_str);
  encrypted_data ← decompress decoded_data;
  decrypted_data ← cbc_decrypt (aes_key secret_key) (str_take 16 encrypted_data) (str_drop 16 encrypted_data);
  Ret (rstrip_of (Ascii.eqb NUL) decrypted_data).

Definition get_text_hash (text : string) (full_hash : bool) : string :=
  if full_hash then sha256 text else str_take 10 (sha256 text).

(** [now]: [int(time.time())]. *)
Definition encrypt_data (iv secret_key : string) (data : dict) (expiration : option Z) (ip : option string) (now : Z) : string :=
  let data := match expiration with Some e => if e =? 0 then data else dict_set "exp" (VInt (now + e)) data | None => data end in
  let data := match ip with Some a => if str_empty a then data else dict_set "ip" (VStr a) data | None => data end in
  urlsafe_b64encode (iv +:+ cbc_encrypt (aes_key secret_key) iv (pad (json_dumps data))).

(** [ProfileCrypto._encrypt] and [_decrypt], whose errors are all [ValueError]. *)
Definition encrypt_profile_data (iv secret_key data : string) : string :=
  urlsafe_b64encode (iv +:+ cbc_encrypt (aes_key secret_key) iv (pad data)).

Definition decrypt_profile_data (secret_key encrypted_data : string) : outcome py_exn string :=
  match raw_data ← lift (urlsafe_b64decode encrypted_data);
        decrypted_data ← cbc_decrypt (aes_key secret_key) (str_take 16 raw_data) (str_drop 16 raw_data);
        unpad decrypted_data
  with
  | Ret data => Ret data
  | Raise _ => Raise ValueError
  end.

Context (decompress_compress : forall s, decompress (compress s) = Ret s).
Context (unpad_pad : forall s, unpad (pad s) = Ret s) (pad_block : forall s, (String.length (pad s) mod 16 = 0)%nat).
Context (cbc_inverse : forall key iv s, String.length iv = 16%nat -> (String.length s mod 16 = 0)%nat ->
  cbc_decrypt key iv (cbc_encrypt key iv s) = Ret s).

Lemma decrypt_profile_encrypted iv secret_key data : String.length iv = 16%nat ->
  decrypt_profile_data secret_key (encrypt_profile_data iv secret_key data) = Ret data.
Proof.
  intros Hiv. unfold decrypt_profile_data, encrypt_profile_data. rewrite b64decode_encode. cbn [lift mbind outcome_bind].
  rewrite str_take_app, str_drop_app, cbc_inverse by done. cbn [mbind outcome_bind]. by rewrite unpad_pad.
Qed.

Lemma repeat_char_length n c : String.length (repeat_char n c) = n.
Proof. induction n as [|n IH]; [done|]. cbn. by rewrite IH. Qed.

Lemma rstrip_repeat n : rstrip_of (Ascii.eqb NUL) (repeat_char n NUL) = "".
Proof. induction n as [|n IH]; [done|]. cbn [repeat_char rstrip_of]. by rewrite IH, Ascii.eqb_refl. Qed.

Lemma rstrip_padding n s : rstrip_of (Ascii.eqb NUL) s = s -> rstrip_of (Ascii.eqb NUL) (s +:+ repeat_char n NUL) = s.
Proof.
  induction s as [|c s IH]; [intros _; apply rstrip_repeat|]. rewrite str_app_cons. cbn [rstrip_of]. intros H.
  assert (rstrip_of (Ascii.eqb NUL) s = s) as Hs.
  { destruct (rstrip_of (Ascii.eqb NUL) s) eqn:E; [|by simplify_eq]. destruct (Ascii.eqb NUL c); [done|]. by simplify_eq. }
  rewrite IH by done. rewrite Hs in H. exact H.
Qed.

(** A text without NUL at its end survives. *)
Lemma decrypt_encrypt_text iv text secret_key : String.length iv = 16%nat -> rstrip_of (Ascii.eqb NUL) text = text ->
  decrypt_text (encrypt_text iv text secret_key) secret_key = Ret text.
Proof.
  intros Hiv Ht. unfold decrypt_text, encrypt_text. rewrite b64decode_encode. cbn [lift mbind outcome_bind].
  rewrite decompress_compress. cbn [mbind outcome_bind].
  set (padded := text +:+ _). rewrite str_take_app, str_drop_app by done. rewrite cbc_inverse; [|done|].
  - cbn [mbind outcome_bind]. unfold padded. by rewrite rstrip_padding.
  - unfold padded. rewrite str_length_app, repeat_char_length.
    pose proof (Nat.mod_upper_bound (String.length text) 16 ltac:(lia)).
    replace (String.length text + (16 - String.length text mod 16))%nat with ((String.length text / 16 + 1) * 16)%nat;
      [by rewrite Nat.Div0.mod_mul|].
    pose proof (Nat.div_mod_eq (String.length text) 16). lia.
Qed.
End Legacy.

(** ** Instances *)

(** A cipher that does nothing, with a padding that makes blocks of 16. *)
Fixpoint spread (s : string) : string :=
  match s with "" => "" | String c s => String c (repeat_char 15 " " +:+ spread s) end.
Fixpoint every_16th (n : nat) (s : string) : string :=
  match s, n with
  | "", _ => ""
  | String c s, O => String c (every_16th 15 s)
  | String _ s, S n => every_16th n s
  end.
Definition demo_unpad (s : string) : outcome secret_exn string := Ret (every_16th 0 s).

Lemma unspread s : every_16th 0 (spread s) = s.
Proof. induction s as [|c s IH]; [done|]. cbn [spread]. change (every_16th 0 _) with (String c (every_16th 0 (spread s))). by rewrite IH. Qed.

Lemma spread_block s : (String.length (spread s) mod 16 = 0)%nat.
Proof.
  induction s as [|c s IH]; [done|]. cbn [spread].
  change (String.length _) with (16 + String.length (spread s))%nat. rewrite Nat.add_comm.
  replace (String.length (spread s) + 16)%nat with (String.length (spread s) + 1 * 16)%nat by lia. by rewrite Nat.Div0.mod_add.
Qed.

(** The data of a user is the name of their profile. *)
Definition demo_data (d : dict) : outcome py_exn string := match dict_get "name" d with Some (VStr s) => Ret s | _ => Ret "" end.
Definition demo_unseal (s : string) : outcome py_exn value := Raise ValueError.
Definition demo_uuid : string := "01234567-89ab-cdef-0123-456789abcdef".
Definition demo_profile : UserProfile := mkProfile 7 demo_uuid 3 "Home" [("name", VStr "old")] None true 0 0.
Definition demo_iv : string := "0123456789abcdef".

Local Notation demo_request := (request "" Ret id Ret (fun _ _ s => Ret s) demo_unpad "key").
Local Notation demo_advance := (advance demo_data demo_unseal [] id id).
Local Notation demo_reachable := (reachable demo_data "" Ret demo_unseal [] id Ret (fun _ _ s => Ret s) demo_unpad "key" id).
Local Notation demo_start := (started (U := string) 2 0 [demo_profile] [mkUser 3 "me"] empty_store).

(** Process 1 has the link in its cache, process 0 has read the profile for it again. *)
Local Notation demo_cached := (demo_advance true 0 (demo_advance true 0 (demo_advance true 0 (demo_advance true 0
  (demo_request 1 (uuid_secret demo_uuid) demo_start))))).
Local Notation demo_reading := (demo_advance false 0 (demo_advance false 0 (demo_request 0 (uuid_secret demo_uuid) demo_start))).

Lemma demo_cached_reachable : demo_reachable demo_cached.
Proof.
  exists 2%nat, 0, [demo_profile], [mkUser 3 "me"], empty_store.
  repeat (eapply rtc_r; [|constructor]). apply rtc_refl.
Qed.

Lemma caches_bounded_witness : Forall (cache_ok 0) (w_procs demo_cached).
Proof. exact (caches_bounded demo_data "" Ret demo_unseal [] id Ret (fun _ _ s => Ret s) demo_unpad "key" id _ demo_cached_reachable). Defined.

Lemma process_decrypt_witness : exists s, process_user_data Ret id (fun _ _ s => s) spread "key" demo_iv "config" = Ret s /\
  w_reqs (demo_advance true 1 (demo_request 0 s demo_cached)) !! 1%nat = Some (0%nat, s, Done (Ret "config")).
Proof.
  eexists. split; [vm_compute; reflexivity|].
  apply (process_decrypt demo_data "" Ret Ret demo_unseal [] id id Ret (fun _ _ s => s) (fun _ _ s => Ret s) spread demo_unpad "key" id
    ltac:(done) ltac:(intros ? ? H; by injection H as ->) ltac:(done) ltac:(intros s; unfold demo_unpad; by rewrite unspread) spread_block ltac:(done)
    demo_cached true 0 demo_iv "config" _ (mkCrypto [] []) demo_cached_reachable); vm_compute; reflexivity.
Defined.

Lemma revocation_within_two_minutes_witness :
  let w1 := tick 120000000 (invalidate true 0 demo_uuid (with_db [] [] demo_cached)) in
  w_reqs (demo_request 1 (uuid_secret demo_uuid) w1) !! length (w_reqs w1) <>
  Some (1%nat, uuid_secret demo_uuid, Done (Ret "old")).
Proof.
  intros w1.
  assert (demo_reachable (with_db [] [] demo_cached)) as Hr.
  { destruct demo_cached_reachable as (n & now & db & users & r & H). exists n, now, db, users, r. eapply rtc_r; [exact H|constructor]. }
  apply (revocation_within_two_minutes demo_data "" Ret demo_unseal [] id Ret (fun _ _ s => Ret s) demo_unpad "key" id
    ltac:(done) demo_uuid 0 1 (with_db [] [] demo_cached) (tick 120000000 (invalidate true 0 demo_uuid (with_db [] [] demo_cached)))
    (demo_request 1 (uuid_secret demo_uuid) (tick 120000000 (invalidate true 0 demo_uuid (with_db [] [] demo_cached)))) Hr).
  - vm_compute. lia.
  - constructor.
  - repeat constructor.
  - eapply rtc_l; [|apply rtc_refl]. split; [constructor; lia|constructor].
  - vm_compute. done.
  - vm_compute. lia.
  - apply rtc_refl.
Defined.

Lemma stale_link_survives_witness :
  let w := tick 2500000000000 (with_db [] [] (demo_advance true 0 (invalidate true 0 demo_uuid demo_reading))) in
  demo_reachable demo_reading /\
  w_reqs (demo_advance true 1 (demo_advance true 1 (demo_request 1 (uuid_secret demo_uuid) w))) !! 1%nat =
  Some (1%nat, uuid_secret demo_uuid, Done (Ret "old")).
Proof.
  split.
  { exists 2%nat, 0, [demo_profile], [mkUser 3 "me"], empty_store. repeat (eapply rtc_r; [|constructor]). apply rtc_refl. }
  eapply (stale_link_survives demo_data "" Ret demo_unseal [] id Ret (fun _ _ s => Ret s) demo_unpad "key" id
    demo_reading 0 0 0 1 demo_uuid _ "old" "old" [] [] 2500000000000 (mkCrypto [] [])); first [vm_compute; reflexivity | vm_compute; lia | vm_compute; split; congruence].
Defined.
