(* ===== verification/Profiles.v ===== *)
(** * Profiles of a user (api/routers/user/profiles.py)

    The handlers that create, change and delete profiles, with their checks,
    on the table of profiles, Redis and the caches of the process.  Requests of
    the same process interleave between a handler's checks and its commit;
    [create_check] and [create_commit] are the two parts of a creation. *)

From S2P Require Export ProfileMask UserSecrets.
Local Open Scope string_scope.
Local Open Scope Z_scope.

(** ** Requests *)

Record ProfileCreate := mkCreate { new_name : string; new_config : dict; new_is_default : bool }.
Record ProfileUpdate := mkUpdate { set_name : option string; set_config : option dict; set_is_default : option bool }.

Inductive api_error :=
  | HTTPException (status : Z) (detail : string)
  | Uncaught (e : py_exn).

Definition catch {A} (m : outcome py_exn A) : outcome api_error A :=
  match m with Ret a => Ret a | Raise e => Raise (Uncaught e) end.

Definition STREAMING_PROVIDER_FIELD_LABELS : list (string * string) :=
  [("token", "API token"); ("email", "email"); ("password", "password"); ("url", "URL");
   ("qbittorrent_config", "qBittorrent configuration"); ("sabnzbd_config", "SABnzbd configuration");
   ("nzbget_config", "NZBGet configuration"); ("nzbdav_config", "NzbDAV configuration");
   ("easynews_config", "Easynews configuration")].

(** Iteration over a value: the keys of a dictionary, the characters of a string. *)
Fixpoint chars_of (s : string) : list value :=
  match s with "" => [] | String c s => VStr (String c "") :: chars_of s end.
Definition py_iter (v : value) : outcome py_exn (list value) :=
  match v with
  | VList l => Ret l
  | VDict d => Ret (map (fun kv => VStr kv.1) d)
  | VStr s => Ret (chars_of s)
  | _ => Raise TypeError
  end.

(** [a or b or []] of two keys. *)
Definition either_list (k1 k2 : string) (c : dict) : value :=
  py_or (py_or (get_or_none k1 c) (get_or_none k2 c)) (VList []).

(** [sp.get("en", True) if "en" in sp else sp.get("enabled", True)] *)
Definition provider_enabled (sp : dict) : value :=
  match dict_get "en" sp with Some v => v | None => default (VBool true) (dict_get "enabled" sp) end.

(** [service in disabled], which a list or dictionary cannot answer. *)
Definition service_disabled (disabled : list string) (service : value) : outcome py_exn bool :=
  match service with
  | VStr s => Ret (memb s disabled)
  | VList _ | VDict _ => Raise TypeError
  | _ => Ret false
  end.

(** The service as a key of the requirements; other keys have the default. *)
Definition service_key (service : value) : string := match service with VStr s => s | _ => "default" end.

Definition provider_has_credentials (sp : dict) (service : value) : bool :=
  dict_provider_auth_satisfied sp (service_key service).

Definition dict_provider_first_missing_field (sp : dict) (service : string) : option string :=
  provider_first_missing_field service (dict_provider_has_field sp).

(** ** Parsing of URLs: [urlparse(url).scheme] and [.hostname] *)

Definition scheme_char (c : ascii) : bool := is_alpha c || is_digit c || str_any (Ascii.eqb c) "+-.".
Definition control_or_space (c : ascii) : bool := in_range 0 32 c.
Definition unsafe_url_byte (c : ascii) : bool := str_any (Ascii.eqb c) (String (of_code 9) (String (of_code 10) (String (of_code 13) ""))).

(** The part before the first of the characters. *)
Fixpoint before (stop : ascii -> bool) (s : string) : string :=
  match s with "" => "" | String c s => if stop c then "" else String c (before stop s) end.
(** The part after the last [c], the whole string without one. *)
Definition after_last (c : ascii) (s : string) : string := List.last (split_char c s) "".

Definition url_scheme (url : string) : string * string :=
  match find_split ":" url with
  | Some (pre, rest) =>
      if match pre with String c _ => is_alpha c | "" => false end && str_all scheme_char pre
      then (lower pre, str_drop 1 rest) else ("", url)
  | None => ("", url)
  end.

Section Profiles.
Context {R : Type} `{!Redis R}.
Context {U : Type} (UserData_of : dict -> outcome py_exn U) (no_data : U) (mediaflow_config : U -> option mediaflow).
Context (seal : value -> string) (unseal : string -> outcome py_exn value).
Context (disabled_providers : list string) (max_streaming_providers_per_profile : Z) (nzbdav : NzbdavDefaults).
(** [StreamingProvider.model_validate], [None] if it raises; the check of an
    address in brackets; the outcome of the providers' own checks. *)
Context (provider_of : value -> option StreamingProvider) (bracketed_ok : string -> bool).
Context (credential_error : UserData -> value -> option string).
(** [str] of a value that is not a string. *)
Context (str_of_value : value -> string).
Context (rows : list UserProfile -> list UserProfile).

Definition py_str (v : value) : string := match v with VStr s => s | _ => str_of_value v end.

Definition bad_request {A} (detail : string) : outcome api_error A := Raise (HTTPException 400 detail).
Definition not_found {A} : outcome api_error A := Raise (HTTPException 404 "Profile not found").

(** *** Checks of a configuration *)

Definition incomplete_detail (sp : dict) (service : value) : string :=
  let provider_name := py_str (py_or (py_or (get_or_none "n" sp) (get_or_none "name" sp)) service) in
  match dict_provider_first_missing_field sp (service_key service) with
  | Some missing_field =>
      if str_empty missing_field then
        "Provider '" +:+ provider_name +:+ "' is missing required credentials. Please complete the configuration or remove the provider."
      else
        "Provider '" +:+ provider_name +:+ "' is missing required "
        +:+ default missing_field (dict_get missing_field STREAMING_PROVIDER_FIELD_LABELS)
        +:+ ". Please complete the configuration or remove the provider."
  | None =>
      "Provider '" +:+ provider_name +:+ "' is missing required credentials. Please complete the configuration or remove the provider."
  end.

Definition validate_provider_config (v : value) : outcome api_error unit :=
  match v with
  | VDict sp =>
      let service := provider_service sp in
      if negb (truthy service) then Ret tt
      else
        disabled ← catch (service_disabled disabled_providers service);
        if (disabled : bool) || negb (truthy (provider_enabled sp)) || provider_has_credentials sp service then Ret tt
        else bad_request (incomplete_detail sp service)
  | _ => Ret tt
  end.

Fixpoint validate_each (l : list value) : outcome api_error unit :=
  match l with [] => Ret tt | v :: l => validate_provider_config v ≫= fun _ => validate_each l end.

Definition validate_provider_configs (config : dict) : outcome api_error unit :=
  let providers_raw := either_list "streaming_providers" "sps" config in
  let too_many := match providers_raw with
                  | VList l => max_streaming_providers_per_profile <? Z.of_nat (length l)
                  | _ => false
                  end in
  if too_many then
    bad_request ("Maximum number of streaming providers (" +:+ str_of_int max_streaming_providers_per_profile
      +:+ ") reached. Remove an existing provider to continue.")
  else l ← catch (py_iter providers_raw); validate_each l.

(** [urlparse(url)]: its scheme, and whether it has a host. *)
Definition urlparse (url : string) : outcome py_exn (string * bool) :=
  let url := str_filter (fun c => negb (unsafe_url_byte c)) (lstrip_of control_or_space url) in
  let '(scheme, rest) := url_scheme url in
  if startswith "//" rest then
    let netloc := before (fun c => str_any (Ascii.eqb c) "/?#") (str_drop 2 rest) in
    let has_open := contains "[" netloc in
    let has_close := contains "]" netloc in
    if negb (Bool.eqb has_open has_close) then Raise ValueError
    else if has_open && negb (bracketed_ok netloc) then Raise ValueError
    else
      let hostinfo := after_last "@" netloc in
      let host := match find_split "[" hostinfo with
                  | Some (_, bracketed) => before (Ascii.eqb "]") (str_drop 1 bracketed)
                  | None => before (Ascii.eqb ":") hostinfo
                  end in
      Ret (scheme, negb (str_empty host))
  else Ret (scheme, false).

(** [(d.get(k1) or d.get(k2) or "").strip()]; other values have no [strip]. *)
Definition stripped (k1 k2 : string) (d : dict) : outcome py_exn string :=
  match py_or (py_or (get_or_none k1 d) (get_or_none k2 d)) (VStr "") with
  | VStr s => Ret (strip s)
  | _ => Raise AttributeError
  end.

Definition external_config (full alias : string) (config : dict) : option dict :=
  match py_or (get_or_none full config) (get_or_none alias config) with VDict d => Some d | _ => None end.

Definition validate_mediaflow (config : dict) : outcome api_error unit :=
  match external_config "mediaflow_config" "mfc" config with
  | None => Ret tt
  | Some mfc =>
      proxy_url ← catch (stripped "proxy_url" "pu" mfc);
      if str_empty proxy_url then bad_request "MediaFlow Proxy URL is required when MediaFlow is enabled."
      else
        '(scheme, has_host) ← catch (urlparse proxy_url);
        if negb (memb scheme ["http"; "https"]) || negb has_host
        then bad_request "MediaFlow Proxy URL must be a valid HTTP/HTTPS URL."
        else
          api_password ← catch (stripped "api_password" "ap" mfc);
          if str_empty api_password then bad_request "MediaFlow API password is required when MediaFlow is enabled." else Ret tt
  end.

Definition validate_api_key (full alias detail : string) (config : dict) : outcome api_error unit :=
  match external_config full alias config with
  | None => Ret tt
  | Some d => k ← catch (stripped "api_key" "ak" d); if str_empty k then bad_request detail else Ret tt
  end.

Definition validate_external_services (config : dict) : outcome api_error unit :=
  validate_mediaflow config ≫= fun _ =>
  validate_api_key "rpdb_config" "rpc" "RPDB API key is required when RPDB is enabled." config ≫= fun _ =>
  validate_api_key "mdblist_config" "mdb" "MDBList API key is required when MDBList is enabled." config.

Fixpoint providers_for_validation (l : list value) : outcome py_exn (list StreamingProvider) :=
  match l with
  | [] => Ret []
  | VDict p :: l =>
      let service := provider_service p in
      disabled ← if truthy service then service_disabled disabled_providers service else Ret true;
      ps ← providers_for_validation l;
      Ret (if disabled : bool then ps else match provider_of (VDict p) with Some sp => sp :: ps | None => ps end)
  | _ :: l => providers_for_validation l
  end.

Definition single_for_validation (sp_raw : value) : outcome py_exn (option StreamingProvider) :=
  match sp_raw with
  | VDict p =>
      let service := provider_service p in
      if truthy sp_raw && truthy service then
        disabled ← service_disabled disabled_providers service;
        Ret (if disabled : bool then None else provider_of sp_raw)
      else Ret None
  | _ => Ret None
  end.

Definition build_user_data_for_validation (config : dict) : outcome py_exn UserData :=
  l ← py_iter (either_list "streaming_providers" "sps" config);
  providers ← providers_for_validation l;
  sp ← single_for_validation (py_or (get_or_none "streaming_provider" config) (get_or_none "sp" config));
  let d := default_user_data in
  Ret (model_post_init
    (mkUserData providers sp (catalog_configs d) (selected_catalogs d) (selected_resolutions d) (max_size d) (min_size d)
       (max_streams_per_resolution d) (torrent_sorting_priority d) (language_sorting d) (quality_filter d) (hdr_filter d)
       (max_streams d) (provider_grouping d) (stream_name_filter_mode d) (stream_name_filter_patterns d)
       (stream_name_filter_use_regex d) (newznab_indexers d))).

(** The checks of a configuration about to be saved. *)
Definition validate_config (config : dict) : outcome api_error unit :=
  validate_provider_configs config ≫= fun _ =>
  validate_external_services config ≫= fun _ =>
  user_data ← catch (build_user_data_for_validation config);
  match get_active_providers nzbdav user_data with
  | [] => Ret tt
  | _ =>
      match credential_error user_data (py_or (get_or_none "mediaflow_config" config) (get_or_none "mfc" config)) with
      | Some message => bad_request message
      | None => Ret tt
      end
  end.

(** [X-API-Key], if there is one. *)
Definition with_api_key (api_password : option string) (config : dict) : dict :=
  match api_password with
  | Some k => if str_empty k then config else dict_set "ap" (VStr k) (dict_set "api_password" (VStr k) config)
  | None => config
  end.

(** *** The stored configuration *)

Definition with_config (p : UserProfile) (clean : dict) (secrets : option string) : UserProfile :=
  mkProfile (profile_id p) (profile_uuid p) (owner_id p) (profile_name p) clean secrets (is_default p) (updated_at p) (created_at p).
Definition with_default (b : bool) (p : UserProfile) : UserProfile :=
  mkProfile (profile_id p) (profile_uuid p) (owner_id p) (profile_name p) (profile_config p) (encrypted_secrets p) b
    (updated_at p) (created_at p).
Definition with_name (n : string) (p : UserProfile) : UserProfile :=
  mkProfile (profile_id p) (profile_uuid p) (owner_id p) n (profile_config p) (encrypted_secrets p) (is_default p)
    (updated_at p) (created_at p).
Definition with_uuid (u : string) (p : UserProfile) : UserProfile :=
  mkProfile (profile_id p) u (owner_id p) (profile_name p) (profile_config p) (encrypted_secrets p) (is_default p)
    (updated_at p) (created_at p).
Definition touched (now : Z) (p : UserProfile) : UserProfile :=
  mkProfile (profile_id p) (profile_uuid p) (owner_id p) (profile_name p) (profile_config p) (encrypted_secrets p)
    (is_default p) now (created_at p).

Definition save_profile_config (p : UserProfile) (config : dict) : outcome py_exn UserProfile :=
  '(clean_config, secrets) ← extract_secrets config;
  Ret (with_config p clean_config (encrypt_secrets seal secrets)).

(** Also the first part of [profile_to_response]: failures leave the stored configuration. *)
Definition get_full_config_of (p : UserProfile) : dict :=
  match encrypted_secrets p with
  | Some s =>
      if str_empty s then profile_config p
      else match secrets ← decrypt_secrets unseal (Some s); merge_secrets (profile_config p) secrets with
           | Ret config => config
           | Raise _ => profile_config p
           end
  | None => profile_config p
  end.

(** *** The table *)

Definition owned (uid : Z) (p : UserProfile) : bool := owner_id p =? uid.
Definition is_profile (pid : Z) (p : UserProfile) : bool := profile_id p =? pid.

(** [session.get] with the check of the owner. *)
Definition find_own (uid pid : Z) (db : list UserProfile) : option UserProfile :=
  match List.find (is_profile pid) db with
  | Some p => if owned uid p then Some p else None
  | None => None
  end.

Definition replace_profile (p : UserProfile) : list UserProfile -> list UserProfile :=
  map (fun q => if is_profile (profile_id p) q then p else q).

(** Unsets the user's defaults other than [pid]. *)
Definition unset_default (uid : Z) (pid : option Z) (now : Z) (q : UserProfile) : UserProfile :=
  if owned uid q && is_default q && negb (match pid with Some i => is_profile i q | None => false end)
  then touched now (with_default false q) else q.
Definition unset_defaults (uid : Z) (pid : option Z) (now : Z) : list UserProfile -> list UserProfile :=
  map (unset_default uid pid now).

(** *** Creation *)

(** Up to the commit: whether the profile becomes the default, and its configuration. *)
Definition create_check (uid : Z) (data : ProfileCreate) (api_password : option string) (db : list UserProfile) :
    outcome api_error (bool * dict) :=
  let count := length (List.filter (owned uid) db) in
  if (5 <=? count)%nat then
    bad_request "Maximum number of profiles (5) reached. Delete an existing profile to create a new one."
  else
    let should_set_default := new_is_default data || (count =? 0)%nat in
    let config := with_api_key api_password (new_config data) in
    validate_config config ≫= fun _ => Ret (should_set_default, config).

(** [pid], [uuid]: the key and UUID of the new row. *)
Definition create_commit (now uid pid : Z) (uuid name : string) (should_set_default : bool) (config : dict)
    (db : list UserProfile) : outcome api_error (UserProfile * list UserProfile) :=
  let db := if should_set_default then unset_defaults uid None now db else db in
  p ← catch (save_profile_config (mkProfile pid uuid uid name [] None should_set_default 0 now) config);
  Ret (p, (db ++ [p])%list).

Definition create_profile (now uid pid : Z) (uuid : string) (data : ProfileCreate) (api_password : option string)
    (db : list UserProfile) : outcome api_error (UserProfile * list UserProfile) :=
  '(should_set_default, config) ← create_check uid data api_password db;
  create_commit now uid pid uuid (new_name data) should_set_default config db.

(** *** Changes *)

Definition update_config (p : UserProfile) (data : ProfileUpdate) (api_password : option string) : outcome api_error (option dict) :=
  match set_config data with
  | None => Ret None
  | Some config =>
      let c := with_api_key api_password (unmask_config_update config (get_full_config_of p)) in
      validate_config c ≫= fun _ => Ret (Some c)
  end.

(** The rows after an update. *)
Definition update_rows (now uid pid : Z) (data : ProfileUpdate) (api_password : option string) (db : list UserProfile) :
    outcome api_error (UserProfile * list UserProfile) :=
  match find_own uid pid db with
  | None => not_found
  | Some p =>
      config ← update_config p data api_password;
      let q := match set_name data with Some n => with_name n p | None => p end in
      q ← match config with Some c => catch (save_profile_config q c) | None => Ret q end;
      let q := match set_is_default data with Some b => with_default b q | None => q end in
      let db := match set_is_default data with Some true => unset_defaults uid (Some pid) now db | _ => db end in
      let q := touched now q in
      Ret (q, replace_profile q db)
  end.

Definition delete_rows (now uid pid : Z) (db : list UserProfile) : outcome api_error (UserProfile * list UserProfile) :=
  match find_own uid pid db with
  | None => not_found
  | Some p =>
      if (length (List.filter (owned uid) db) <=? 1)%nat
      then bad_request "Cannot delete the only profile. Create another profile first."
      else
        let db := if is_default p
                  then match head (rows (List.filter (fun q => owned uid q && negb (is_profile pid q)) db)) with
                       | Some o => replace_profile (touched now (with_default true o)) db
                       | None => db
                       end
                  else db in
        Ret (p, List.filter (fun q => negb (is_profile pid q)) db)
  end.

Definition set_default_rows (now uid pid : Z) (db : list UserProfile) : outcome api_error (UserProfile * list UserProfile) :=
  match find_own uid pid db with
  | None => not_found
  | Some p =>
      let p := touched now (with_default true p) in
      Ret (p, replace_profile p (unset_defaults uid (Some pid) now db))
  end.

Definition reset_uuid_rows (now uid pid : Z) (uuid : string) (db : list UserProfile) :
    outcome api_error (UserProfile * list UserProfile) :=
  match find_own uid pid db with
  | None => not_found
  | Some p => let p := touched now (with_uuid uuid p) in Ret (p, replace_profile p db)
  end.

(** *** Handlers: the rows, Redis, and the caches of the process *)

Record app := mkApp { a_db : list UserProfile; a_redis : R; a_crypto : CryptoUtils U }.

Definition changed (db : list UserProfile) (a : app) : app := mkApp db (a_redis a) (a_crypto a).

(** [ProfileDataProvider.invalidate_cache] and [crypto_utils.invalidate_uuid_cache]. *)
Definition forget_user (up : bool) (uid : Z) (a : app) : app :=
  mkApp (a_db a) (invalidate_cache up uid (a_redis a)) (a_crypto a).
Definition forget_uuid (up : bool) (uuid : string) (a : app) : app :=
  let '(c, r) := invalidate_uuid_cache up uuid (a_crypto a) (a_redis a) in mkApp (a_db a) r c.

Definition after {A} (m : outcome api_error (A * list UserProfile)) (k : A -> app -> app) (a : app) : outcome api_error A * app :=
  match m with Ret (x, db) => (Ret x, k x (changed db a)) | Raise e => (Raise e, a) end.

Definition post_profile (now uid pid : Z) (uuid : string) (data : ProfileCreate) (api_password : option string) (a : app) :=
  after (create_profile now uid pid uuid data api_password (a_db a)) (fun _ a => a) a.

Definition update_profile (up : bool) (now uid pid : Z) (data : ProfileUpdate) (api_password : option string) (a : app) :=
  after (update_rows now uid pid data api_password (a_db a))
    (fun p a => forget_uuid up (profile_uuid p) (forget_user up uid a)) a.

Definition delete_profile (up : bool) (now uid pid : Z) (a : app) :=
  after (delete_rows now uid pid (a_db a)) (fun p a => forget_uuid up (profile_uuid p) (forget_user up uid a)) a.

Definition set_default_profile (up : bool) (now uid pid : Z) (a : app) :=
  after (set_default_rows now uid pid (a_db a)) (fun _ a => forget_user up uid a) a.

Definition reset_profile_uuid (up : bool) (now uid pid : Z) (uuid : string) (a : app) : outcome api_error UserProfile * app :=
  match find_own uid pid (a_db a) with
  | None => (not_found, a)
  | Some old =>
      after (reset_uuid_rows now uid pid uuid (a_db a)) (fun _ a => forget_user up uid (forget_uuid up (profile_uuid old) a)) a
  end.

Definition get_profile (uid pid : Z) (a : app) : outcome api_error UserProfile :=
  match find_own uid pid (a_db a) with Some p => Ret p | None => not_found end.

(** [ORDER BY is_default DESC, created_at] *)
Definition list_profiles (uid : Z) (a : app) : list UserProfile :=
  sort_by (by_key (fun p => (if is_default p then 0 else 1))) (sort_by (by_key created_at) (rows (List.filter (owned uid) (a_db a)))).

Definition default_profile (uid : Z) (a : app) : option UserProfile :=
  head (rows (List.filter (fun p => owned uid p && is_default p) (a_db a))).

(** [get_rpdb_api_key]: a section that is no dictionary counts as absent. *)
Definition rpdb_key_of (full_config : dict) : value :=
  let key_of section k1 k2 :=
    match get_or_none section full_config with
    | VDict ((_ :: _) as d) => py_or (get_or_none k1 d) (get_or_none k2 d)
    | _ => VNone
    end in
  let rpdb_api_key := key_of "rpc" "ak" "api_key" in
  if truthy rpdb_api_key then rpdb_api_key
  else match get_or_none "rpdb_config" full_config with
       | VDict ((_ :: _) as d) => py_or (get_or_none "api_key" d) (get_or_none "ak" d)
       | _ => rpdb_api_key
       end.

Definition get_rpdb_api_key (uid : Z) (a : app) : value :=
  match default_profile uid a with Some p => rpdb_key_of (get_full_config_of p) | None => VNone end.

(** *** Responses *)

Record ProfileResponse := mkResponse {
  response_id : Z; response_uuid : string; response_user : Z; response_name : string;
  response_config : value; response_default : bool; response_catalogs : Z;
}.

Fixpoint count_enabled (l : list value) : outcome py_exn Z :=
  match l with
  | [] => Ret 0
  | VDict c :: l => n ← count_enabled l; Ret (if truthy (default (VBool true) (dict_get "en" c)) then n + 1 else n)
  | _ :: _ => Raise AttributeError
  end.

Definition py_len (v : value) : outcome py_exn Z :=
  match v with
  | VList l => Ret (Z.of_nat (length l))
  | VDict d => Ret (Z.of_nat (length d))
  | VStr s => Ret (slen s)
  | _ => Raise TypeError
  end.

Definition count_enabled_catalogs (config : dict) : outcome py_exn Z :=
  let catalog_configs := either_list "cc" "catalog_configs" config in
  if truthy catalog_configs then l ← py_iter catalog_configs; count_enabled l
  else py_len (either_list "sc" "selected_catalogs" config).

Definition mask_sensitive_config (config : dict) : outcome py_exn value :=
  match config with [] => Ret (VDict []) | _ => mask_secrets_for_display config end.

Definition profile_to_response (p : UserProfile) (include_full_config : bool) : outcome py_exn ProfileResponse :=
  let config := get_full_config_of p in
  catalogs_count ← count_enabled_catalogs config;
  display_config ← if include_full_config then Ret (VDict config) else mask_sensitive_config config;
  Ret (mkResponse (profile_id p) (profile_uuid p) (owner_id p) (profile_name p) display_config (is_default p) catalogs_count).

(** ** The table of profiles *)

(** A handler of user [uid] that succeeded. *)
Inductive row_step (uid : Z) (db : list UserProfile) : list UserProfile -> Prop :=
  | row_create now pid uuid data api_password p db' :
      pid ∉ map profile_id db -> create_profile now uid pid uuid data api_password db = Ret (p, db') -> row_step uid db db'
  | row_update now pid data api_password p db' : update_rows now uid pid data api_password db = Ret (p, db') -> row_step uid db db'
  | row_delete now pid p db' : delete_rows now uid pid db = Ret (p, db') -> row_step uid db db'
  | row_set_default now pid p db' : set_default_rows now uid pid db = Ret (p, db') -> row_step uid db db'
  | row_reset now pid uuid p db' : reset_uuid_rows now uid pid uuid db = Ret (p, db') -> row_step uid db db'.

Definition profile_count (uid : Z) (db : list UserProfile) : nat := length (List.filter (owned uid) db).

(** Keys are unique, no user has more than five profiles or more than one default. *)
Record table_ok (db : list UserProfile) : Prop := {
  ids_unique : NoDup (map profile_id db);
  at_most_five : forall uid, (profile_count uid db <= 5)%nat;
  one_default : forall p q, p ∈ db -> q ∈ db -> owner_id p = owner_id q -> is_default p = true -> is_default q = true ->
    profile_id p = profile_id q;
}.

Lemma find_own_Some uid pid db p : find_own uid pid db = Some p -> p ∈ db /\ profile_id p = pid /\ owner_id p = uid.
Proof.
  unfold find_own. destruct (List.find _ _) as [q|] eqn:E; [|done]. destruct (owned uid q) eqn:Eo; [|done]. intros [= ->].
  apply List.find_some in E as [E1 E2]. apply list_elem_of_In in E1. unfold is_profile, owned in *. zbool. done.
Qed.

Lemma same_id db p q : NoDup (map profile_id db) -> p ∈ db -> q ∈ db -> profile_id p = profile_id q -> p = q.
Proof.
  induction db as [|r db IH]; intros Hn Hp Hq E; [by apply elem_of_nil in Hp|]. cbn in Hn. apply NoDup_cons in Hn as [Hr Hn].
  assert (forall x, x ∈ db -> profile_id r <> profile_id x) as Hx.
  { intros x Hx Heq. apply Hr. rewrite Heq. by apply list_elem_of_fmap_2. }
  apply elem_of_cons in Hp as [->|Hp]; apply elem_of_cons in Hq as [->|Hq]; [done|..|by apply IH]; by edestruct Hx.
Qed.

Lemma filter_map_same (f : UserProfile -> bool) g db : (forall x, x ∈ db -> f (g x) = f x) ->
  length (List.filter f (map g db)) = length (List.filter f db).
Proof.
  induction db as [|x db IH]; intros H; [done|]. cbn. rewrite H by left.
  assert (length (List.filter f (map g db)) = length (List.filter f db)) as IH' by (apply IH; intros; apply H; by right).
  destruct (f x); cbn; by rewrite IH'.
Qed.

Lemma filter_map_fixed (f : UserProfile -> bool) g db : (forall x, x ∈ db -> f (g x) = f x) ->
  (forall x, x ∈ db -> f x = true -> g x = x) -> List.filter f (map g db) = List.filter f db.
Proof.
  induction db as [|x db IH]; intros H1 H2; [done|]. cbn. rewrite H1 by left.
  assert (List.filter f (map g db) = List.filter f db) as IH' by (apply IH; intros; [apply H1|apply H2]; by try right).
  destruct (f x) eqn:E; [|done]. by rewrite IH', H2 by (done || left).
Qed.

(** Operations on rows that keep keys and owners. *)
Record keeps (g : UserProfile -> UserProfile) (db : list UserProfile) : Prop := {
  keeps_id : forall x, x ∈ db -> profile_id (g x) = profile_id x;
  keeps_owner : forall x, x ∈ db -> owner_id (g x) = owner_id x;
}.

Lemma keeps_ids g db : keeps g db -> map profile_id (map g db) = map profile_id db.
Proof. intros [H _]. rewrite map_map. apply map_ext_in. intros x Hx. apply H. by apply list_elem_of_In. Qed.

Lemma keeps_count g db uid : keeps g db -> profile_count uid (map g db) = profile_count uid db.
Proof. intros [_ H]. apply filter_map_same. intros x Hx. unfold owned. by rewrite H. Qed.

Lemma unset_keeps uid pid now db : keeps (unset_default uid pid now) db.
Proof. split; intros x _; unfold unset_default; by destruct (_ && _). Qed.

Lemma replace_keeps p q db : NoDup (map profile_id db) -> p ∈ db -> profile_id q = profile_id p -> owner_id q = owner_id p ->
  keeps (fun x => if is_profile (profile_id q) x then q else x) db.
Proof.
  intros Hn Hp Hi Ho. split; intros x Hx; destruct (is_profile _ x) eqn:E; unfold is_profile in E; zbool; try done.
  assert (x = p) as -> by (eapply same_id; [done..|congruence]). done.
Qed.

(** Rows after a map that keeps keys and owners, and sets no new default
    except that of [pid] when the user's others are unset. *)
Lemma table_ok_map g db : table_ok db -> keeps g db ->
  (forall x, x ∈ db -> is_default (g x) = true -> is_default x = true) -> table_ok (map g db).
Proof.
  intros [H1 H2 H3] Hk Hd. split.
  - by rewrite keeps_ids.
  - intros uid. rewrite keeps_count by done. apply H2.
  - intros p q (p' & -> & Hp)%list_elem_of_fmap (q' & -> & Hq)%list_elem_of_fmap. rewrite !(keeps_owner _ _ Hk), !(keeps_id _ _ Hk) by done.
    intros Ho Ep Eq. apply H3; auto.
Qed.

Lemma table_ok_sole_default uid pid g db : table_ok db -> keeps g db ->
  (forall x, x ∈ db -> owner_id x <> uid -> is_default (g x) = is_default x) ->
  (forall x, x ∈ db -> owner_id x = uid -> is_default (g x) = true -> profile_id x = pid) -> table_ok (map g db).
Proof.
  intros [H1 H2 H3] Hk Ho Hs. split.
  - by rewrite keeps_ids.
  - intros u. rewrite keeps_count by done. apply H2.
  - intros p q (p' & -> & Hp)%list_elem_of_fmap (q' & -> & Hq)%list_elem_of_fmap. rewrite !(keeps_owner _ _ Hk), !(keeps_id _ _ Hk) by done.
    intros E Ep Eq. destruct (decide (owner_id p' = uid)) as [Eu|Eu].
    + rewrite (Hs p'), (Hs q') by congruence. done.
    + rewrite Ho in Ep, Eq by congruence. by apply H3.
Qed.

Lemma filter_in (f : UserProfile -> bool) db x : x ∈ List.filter f db -> x ∈ db /\ f x = true.
Proof. intros [H E]%list_elem_of_In%filter_In. split; [by apply list_elem_of_In|done]. Qed.

Lemma filter_ids f db : NoDup (map profile_id db) -> NoDup (map profile_id (List.filter f db)).
Proof.
  induction db as [|x db IH]; [done|]. cbn. intros [Hx H]%NoDup_cons. destruct (f x); [|by apply IH].
  cbn. apply NoDup_cons. split; [|by apply IH]. intros (y & Hxy & Hy)%list_elem_of_fmap. apply Hx. rewrite Hxy.
  apply filter_in in Hy as [Hy _]. by apply list_elem_of_fmap_2.
Qed.

Lemma filter_count f uid db : (profile_count uid (List.filter f db) <= profile_count uid db)%nat.
Proof.
  unfold profile_count. induction db as [|x db IH]; [done|]. cbn. destruct (f x); cbn; destruct (owned uid x); cbn; lia.
Qed.

Lemma table_ok_filter f db : table_ok db -> table_ok (List.filter f db).
Proof.
  intros [H1 H2 H3]. split.
  - by apply filter_ids.
  - intros uid. pose proof (filter_count f uid db). specialize (H2 uid). lia.
  - intros p q [Hp _]%filter_in [Hq _]%filter_in. by apply H3.
Qed.

Lemma find_own_unset uid pid now db p : find_own uid pid db = Some p -> p ∈ unset_defaults uid (Some pid) now db.
Proof.
  intros (Hp & Hi & Ho)%find_own_Some. unfold unset_defaults. apply list_elem_of_fmap. exists p. split; [|done].
  unfold unset_default, is_profile. by rewrite Hi, Z.eqb_refl, andb_false_r.
Qed.

Lemma unset_ok uid pid now db : table_ok db -> table_ok (unset_defaults uid pid now db).
Proof.
  intros H. apply table_ok_map; [done|apply unset_keeps|]. intros x _. unfold unset_default. by destruct (_ && _).
Qed.

Lemma unset_spec uid pid now db x : x ∈ unset_defaults uid pid now db -> owner_id x = uid -> is_default x = true -> pid = Some (profile_id x).
Proof.
  intros (y & -> & Hy)%list_elem_of_fmap. unfold unset_default. destruct (_ && _) eqn:E; [done|]. intros Ho Hd. unfold owned in E.
  rewrite Ho, Z.eqb_refl, Hd in E. cbn in E. zbool. destruct pid as [i|]; [|done]. unfold is_profile in E. zbool. by rewrite E.
Qed.

Lemma replace_ok p q db : table_ok db -> p ∈ db -> profile_id q = profile_id p -> owner_id q = owner_id p ->
  (is_default q = true -> is_default p = true) -> table_ok (replace_profile q db).
Proof.
  intros Ht Hp Hi Ho Hd. pose proof Ht as [Hn _ _]. apply table_ok_map; [done|by eapply replace_keeps|].
  intros x Hx. destruct (is_profile _ x) eqn:E; [|done]. unfold is_profile in E. zbool. intros Hq.
  assert (x = p) as -> by (eapply same_id; [done..|congruence]). auto.
Qed.

Lemma replace_default_ok uid p q db : table_ok db -> p ∈ db -> profile_id q = profile_id p -> owner_id p = uid -> owner_id q = uid ->
  (forall x, x ∈ db -> owner_id x = uid -> is_default x = true -> profile_id x = profile_id p) -> table_ok (replace_profile q db).
Proof.
  intros Ht Hp Hi Ho Ho' Hs. pose proof Ht as [Hn _ _].
  apply (table_ok_sole_default uid (profile_id p)); [done|by eapply replace_keeps; [done..|congruence]| |].
  - intros x Hx Hne. destruct (is_profile _ x) eqn:E; [|done]. unfold is_profile in E. zbool.
    assert (x = p) as -> by (eapply same_id; [done..|congruence]). congruence.
  - intros x Hx Hx' Hd. destruct (is_profile _ x) eqn:E; [unfold is_profile in E; zbool; congruence|by apply Hs].
Qed.

Lemma save_fields p config q : save_profile_config p config = Ret q ->
  profile_id q = profile_id p /\ owner_id q = owner_id p /\ is_default q = is_default p /\ profile_uuid q = profile_uuid p.
Proof. unfold save_profile_config. destruct (extract_secrets config) as [[c s]|]; [|done]. by intros [= <-]. Qed.

Lemma create_inv now uid pid uuid data key db p db' : create_profile now uid pid uuid data key db = Ret (p, db') ->
  (profile_count uid db < 5)%nat /\ profile_id p = pid /\ owner_id p = uid /\
  db' = ((if is_default p then unset_defaults uid None now db else db) ++ [p])%list.
Proof.
  unfold create_profile, create_check. destruct (5 <=? _)%nat eqn:E; [done|]. apply Nat.leb_gt in E.
  destruct (validate_config _); [|done]. cbn [mbind outcome_bind]. unfold create_commit.
  destruct (save_profile_config _ _) as [q|] eqn:Es; [|done]. cbn. intros [= <- <-].
  apply save_fields in Es as (-> & -> & -> & _). done.
Qed.

Lemma append_ok db p : table_ok db -> profile_id p ∉ map profile_id db -> (profile_count (owner_id p) db < 5)%nat ->
  (is_default p = true -> forall x, x ∈ db -> owner_id x = owner_id p -> is_default x = false) -> table_ok (db ++ [p])%list.
Proof.
  intros [H1 H2 H3] Hf Hc Hd. split.
  - rewrite map_app. apply NoDup_app. split; [done|]. split; [|apply NoDup_singleton].
    intros i Hi Hi'. apply list_elem_of_singleton in Hi' as ->. done.
  - intros u. unfold profile_count. rewrite List.filter_app, length_app. cbn. specialize (H2 u). unfold profile_count in *.
    unfold owned at 2. destruct (owner_id p =? u) eqn:E; cbn; [|lia]. apply Z.eqb_eq in E as <-. lia.
  - intros a b Ha Hb Ho Da Db. rewrite elem_of_app, list_elem_of_singleton in Ha, Hb.
    destruct Ha as [Ha| ->], Hb as [Hb| ->]; [by apply H3|..|done].
    + rewrite (Hd Db a Ha Ho) in Da. done.
    + rewrite (Hd Da b Hb (eq_sym Ho)) in Db. done.
Qed.

Lemma unset_ids uid pid now db : map profile_id (unset_defaults uid pid now db) = map profile_id db.
Proof. apply keeps_ids, unset_keeps. Qed.

Lemma create_ok now uid pid uuid data key db p db' : table_ok db -> pid ∉ map profile_id db ->
  create_profile now uid pid uuid data key db = Ret (p, db') -> table_ok db'.
Proof.
  intros Ht Hf (Hc & Hi & Ho & ->)%create_inv. apply append_ok.
  - destruct (is_default p); [by apply unset_ok|done].
  - rewrite Hi. destruct (is_default p); by rewrite ?unset_ids.
  - rewrite Ho. destruct (is_default p); [|done]. unfold unset_defaults. by rewrite keeps_count by apply unset_keeps.
  - intros ->. intros x Hx Hox. destruct (is_default x) eqn:E; [|done].
    apply (unset_spec uid None now db) in Hx; [done|congruence|done].
Qed.

Lemma update_inv now uid pid data key db p db' : update_rows now uid pid data key db = Ret (p, db') ->
  exists old, find_own uid pid db = Some old /\ profile_id p = pid /\ owner_id p = uid /\ profile_uuid p = profile_uuid old /\
    is_default p = default (is_default old) (set_is_default data) /\
    db' = replace_profile p (match set_is_default data with Some true => unset_defaults uid (Some pid) now db | _ => db end).
Proof.
  unfold update_rows. destruct (find_own uid pid db) as [old|] eqn:Ef; [|done].
  destruct (find_own_Some _ _ _ _ Ef) as (_ & Hi & Ho). destruct (update_config _ _ _) as [config|]; [|done]. cbn [mbind outcome_bind].
  set (q := match set_name data with Some n => with_name n old | None => old end).
  assert (profile_id q = pid /\ owner_id q = uid /\ is_default q = is_default old /\ profile_uuid q = profile_uuid old) as Hq.
  { unfold q. by destruct (set_name data). }
  assert (forall q', (match config with Some c => catch (save_profile_config q c) | None => Ret q end : outcome api_error _) = Ret q' ->
    profile_id q' = pid /\ owner_id q' = uid /\ is_default q' = is_default old /\ profile_uuid q' = profile_uuid old) as Hq'.
  { intros q'. destruct config as [c|]; [|by intros [= <-]]. destruct (save_profile_config q c) as [q1|] eqn:Es; [|done].
    intros [= <-]. apply save_fields in Es as (-> & -> & -> & ->). done. }
  destruct (match config with Some c => _ | None => _ end) as [q'|]; [|done]. destruct (Hq' q' eq_refl) as (E1 & E2 & E3 & E4).
  cbn [mbind outcome_bind]. intros [= <- <-]. exists old. by destruct (set_is_default data) as [[]|].
Qed.

Lemma update_ok now uid pid data key db p db' : table_ok db -> update_rows now uid pid data key db = Ret (p, db') -> table_ok db'.
Proof.
  intros Ht (old & Hold & Hi & Ho & _ & Hd & ->)%update_inv. pose proof (find_own_Some _ _ _ _ Hold) as (Hin & Hoi & Hoo).
  destruct (set_is_default data) as [ []|]; cbn in Hd.
  - apply (replace_default_ok uid old); [by apply unset_ok|by apply find_own_unset|congruence..|].
    intros x Hx Hx1 Hx2. pose proof (unset_spec _ _ _ _ _ Hx Hx1 Hx2) as [= <-]. congruence.
  - apply (replace_ok old); congruence.
  - apply (replace_ok old); congruence.
Qed.

Lemma set_default_ok now uid pid db p db' : table_ok db -> set_default_rows now uid pid db = Ret (p, db') -> table_ok db'.
Proof.
  intros Ht. unfold set_default_rows. destruct (find_own uid pid db) as [old|] eqn:Ef; [|done]. intros [= <- <-].
  pose proof (find_own_Some _ _ _ _ Ef) as (Hin & Hoi & Hoo).
  apply (replace_default_ok uid old); [by apply unset_ok|by apply find_own_unset|done..|].
  intros x Hx Hx1 Hx2. pose proof (unset_spec _ _ _ _ _ Hx Hx1 Hx2) as [= <-]. congruence.
Qed.

Lemma reset_ok now uid pid uuid db p db' : table_ok db -> reset_uuid_rows now uid pid uuid db = Ret (p, db') -> table_ok db'.
Proof.
  intros Ht. unfold reset_uuid_rows. destruct (find_own uid pid db) as [old|] eqn:Ef; [|done]. intros [= <- <-].
  pose proof (find_own_Some _ _ _ _ Ef) as (Hin & Hoi & Hoo). by apply (replace_ok old).
Qed.

Context (rows_perm : forall l, rows l ≡ₚ l).

Lemma head_rows f db o : head (rows (List.filter f db)) = Some o -> o ∈ db /\ f o = true.
Proof.
  intros H. assert (o ∈ List.filter f db) as Ho.
  { rewrite <- (rows_perm (List.filter f db)). destruct (rows _); [done|]. cbn in H. simplify_eq. left. }
  apply list_elem_of_In, filter_In in Ho as [Ho E]. split; [by apply list_elem_of_In|done].
Qed.

(** What is left is what a promotion of another profile, if any, leaves. *)
Lemma delete_inv now uid pid db p db' : delete_rows now uid pid db = Ret (p, db') ->
  find_own uid pid db = Some p /\ (1 < profile_count uid db)%nat /\
  exists db1, db' = List.filter (fun q => negb (is_profile pid q)) db1 /\
    (db1 = db \/ exists o, o ∈ db /\ owner_id o = uid /\ profile_id o <> pid /\ is_default p = true /\
       db1 = replace_profile (touched now (with_default true o)) db).
Proof.
  unfold delete_rows. destruct (find_own uid pid db) as [old|] eqn:Ef; [|done]. destruct (_ <=? 1)%nat eqn:E; [done|].
  apply Nat.leb_gt in E. intros [= <- <-]. split_and!; [done..|]. eexists. split; [reflexivity|].
  destruct (is_default old) eqn:Ed; [|by left]. destruct (head _) as [o|] eqn:Eh; [|by left]. right. exists o.
  apply head_rows in Eh as [Ho Eo]. unfold owned, is_profile in Eo. zbool. done.
Qed.

Lemma delete_ok now uid pid db p db' : table_ok db -> delete_rows now uid pid db = Ret (p, db') -> table_ok db'.
Proof.
  intros Ht (Hf & _ & db1 & -> & [-> | (o & Ho & Hoo & Hop & Hd & ->)])%delete_inv; [by apply table_ok_filter|].
  pose proof (find_own_Some _ _ _ _ Hf) as (Hp & Hpi & Hpo). pose proof Ht as [Hn H2 H3].
  set (o' := touched now (with_default true o)).
  assert (keeps (fun x => if is_profile (profile_id o') x then o' else x) db) as Hk by by apply (replace_keeps o o').
  assert (forall q, q ∈ List.filter (fun q => negb (is_profile pid q)) (replace_profile o' db) -> owner_id q = uid ->
    is_default q = true -> profile_id q = profile_id o) as Hs.
  { intros q Hq Hqo Hqd. apply list_elem_of_In, filter_In in Hq as [Hq Hne]. apply list_elem_of_In in Hq.
    apply list_elem_of_fmap in Hq as (y & Ey & Hy). unfold is_profile in Hne, Ey. zbool.
    destruct (profile_id y =? profile_id o') eqn:E; [by rewrite Ey|]. subst q. rewrite <- Hpi in Hne.
    exfalso. apply Hne. apply H3; [done..|congruence|done|done]. }
  split.
  - apply filter_ids. unfold replace_profile. by rewrite keeps_ids.
  - intros u. specialize (H2 u). rewrite <- (keeps_count _ db u Hk) in H2.
    pose proof (filter_count (fun q => negb (is_profile pid q)) u (replace_profile o' db)). unfold replace_profile in *. lia.
  - intros a b Ha Hb Hab Da Db. destruct (decide (owner_id a = uid)) as [Eu|Eu]; [transitivity (profile_id o); [|symmetry]; apply Hs; congruence|].
    assert (forall x, x ∈ List.filter (fun q => negb (is_profile pid q)) (replace_profile o' db) -> owner_id x <> uid -> x ∈ db) as Hin.
    { intros x [Hx' _]%filter_in Hne. apply list_elem_of_fmap in Hx' as (y & -> & Hy). destruct (is_profile _ y); [done|exact Hy]. }
    apply H3; auto. apply Hin; congruence.
Qed.

Lemma step_ok uid db db' : row_step uid db db' -> table_ok db -> table_ok db'.
Proof.
  intros [] Ht; [by eapply create_ok|by eapply update_ok|by eapply delete_ok|by eapply set_default_ok|by eapply reset_ok].
Qed.

(** A table that the handlers, run one at a time, make from the empty one. *)
Inductive made : list UserProfile -> Prop :=
  | made_empty : made []
  | made_step uid db db' : made db -> row_step uid db db' -> made db'.

(** [C6] However the handlers are called, one after the other, no user gets
    more than five profiles or two defaults, and keys stay unique. *)
Lemma profiles_invariant db : made db -> table_ok db.
Proof.
  induction 1 as [|uid db db' _ IH Hs]; [|by eapply step_ok]. split; [by apply NoDup_nil|intros; cbn; lia|].
  intros p q Hp. by apply elem_of_nil in Hp.
Qed.

Definition others (uid : Z) : list UserProfile -> list UserProfile := List.filter (fun p => negb (owned uid p)).

Lemma others_map uid g db : keeps g db -> (forall x, x ∈ db -> owner_id x <> uid -> g x = x) -> others uid (map g db) = others uid db.
Proof.
  intros [_ Hk] H. apply filter_map_fixed; intros x Hx; unfold owned; [by rewrite Hk|]. intros E. zbool. by apply H.
Qed.

Lemma others_unset uid pid now db : others uid (unset_defaults uid pid now db) = others uid db.
Proof.
  apply others_map; [apply unset_keeps|]. intros x _ Hx. unfold unset_default, owned.
  by rewrite (proj2 (Z.eqb_neq _ _) Hx).
Qed.

Lemma others_replace uid p q db : NoDup (map profile_id db) -> p ∈ db -> profile_id q = profile_id p -> owner_id p = uid ->
  owner_id q = uid -> others uid (replace_profile q db) = others uid db.
Proof.
  intros Hn Hp Hi Ho Hq. apply others_map; [apply (replace_keeps p); [done..|congruence]|]. intros x Hx Hne.
  destruct (is_profile _ x) eqn:E; [|done]. unfold is_profile in E. zbool.
  assert (x = p) as -> by (eapply same_id; [done..|congruence]). done.
Qed.

Lemma filter_filter_same {A} (f g : A -> bool) l : (forall x, x ∈ l -> f x = true -> g x = true) ->
  List.filter f (List.filter g l) = List.filter f l.
Proof.
  induction l as [|x l IH]; intros H; [done|]. cbn. assert (List.filter f (List.filter g l) = List.filter f l) as IH'
    by (apply IH; intros y Hy; apply H; by right).
  destruct (g x) eqn:E; cbn; rewrite IH'; [done|]. destruct (f x) eqn:Ef; [|done]. rewrite H in E; [done|left|done].
Qed.

Lemma remove_count uid pid db : NoDup (map profile_id db) ->
  (profile_count uid db <= S (profile_count uid (List.filter (fun q => negb (is_profile pid q)) db)))%nat.
Proof.
  unfold profile_count. induction db as [|x db IH]; [cbn; lia|]. cbn. intros [Hx Hn]%NoDup_cons.
  unfold is_profile at 1. destruct (profile_id x =? pid) eqn:E; cbn.
  - assert (List.filter (fun q => negb (is_profile pid q)) db = db) as ->.
    { zbool. clear IH Hn. induction db as [|y db IH]; [done|]. cbn. cbn in Hx. apply not_elem_of_cons in Hx as [Hy Hx].
      unfold is_profile at 1. rewrite (proj2 (Z.eqb_neq _ _)) by congruence. cbn. by rewrite IH. }
    destruct (owned uid x); cbn; lia.
  - specialize (IH Hn). destruct (owned uid x); cbn; lia.
Qed.

(** [C7] A handler never touches another user's profiles: they keep their
    contents and their order.  No handler removes a user's last profile. *)
Lemma handlers_keep_to_the_user uid db db' : table_ok db -> row_step uid db db' ->
  others uid db' = others uid db /\ (profile_count uid db' = 0%nat -> profile_count uid db = 0%nat).
Proof.
  intros Ht Hs. pose proof Ht as [Hn _ _].
  assert (forall old q d, NoDup (map profile_id d) -> old ∈ d -> profile_id q = profile_id old -> owner_id old = uid -> owner_id q = uid ->
    others uid (replace_profile q d) = others uid d /\ profile_count uid (replace_profile q d) = profile_count uid d) as Hrep.
  { intros old q d Hd Hod Hi Ho Hq. split; [by eapply others_replace|]. apply keeps_count. eapply replace_keeps; [done..|congruence]. }
  destruct Hs as [now pid uuid data key p db' Hf H|now pid data key p db' H|now pid p db' H|now pid p db' H|now pid uuid p db' H].
  - apply create_inv in H as (_ & _ & Ho & ->). split.
    + unfold others. rewrite List.filter_app. cbn. unfold owned at 2. rewrite Ho, Z.eqb_refl. cbn. rewrite app_nil_r.
      destruct (is_default p); [apply others_unset|done].
    + unfold profile_count. rewrite List.filter_app, length_app. cbn. unfold owned at 2. rewrite Ho, Z.eqb_refl. cbn. lia.
  - pose proof (update_ok _ _ _ _ _ _ _ _ Ht H) as Ht'.
    apply update_inv in H as (old & Hold & Hi & Ho & _ & _ & ->). pose proof (find_own_Some _ _ _ _ Hold) as (Hin & Hoi & Hoo).
    destruct (set_is_default data) as [ []|]; [|by destruct (Hrep old p db) as [-> ->]; [..|congruence|done|done|]..].
    destruct (Hrep old p (unset_defaults uid (Some pid) now db)) as [-> ->];
      [by rewrite unset_ids|by apply find_own_unset|congruence|done..|].
    rewrite others_unset. unfold unset_defaults. by rewrite keeps_count by apply unset_keeps.
  - apply delete_inv in H as (Hold & Hc & db1 & -> & H). pose proof (find_own_Some _ _ _ _ Hold) as (Hin & Hoi & Hoo).
    assert (others uid db1 = others uid db) as Ho.
    { destruct H as [-> | (o & H1 & H2 & H3 & _ & ->)]; [done|]. by eapply (others_replace uid o). }
    split; [rewrite <- Ho; apply filter_filter_same|].
    { intros x Hx Ex. unfold is_profile. apply negb_true_iff, Z.eqb_neq. intros Exi.
      assert (x ∈ others uid db) as Hxo by (rewrite <- Ho; apply list_elem_of_In, filter_In; split; [by apply list_elem_of_In|done]).
      apply filter_in in Hxo as [Hxo _]. assert (x = p) as -> by (eapply same_id; [done..|congruence]).
      unfold owned in Ex. by rewrite Hoo, Z.eqb_refl in Ex. }
    assert (NoDup (map profile_id db1) /\ profile_count uid db1 = profile_count uid db) as [Hn1 Hc1].
    { destruct H as [-> | (o & H1 & H2 & H3 & _ & ->)]; [done|].
      assert (keeps (fun x => if is_profile (profile_id o) x then touched now (with_default true o) else x) db) as Hk
        by by apply (replace_keeps o (touched now (with_default true o))).
      split; [|by apply (keeps_count _ _ uid) in Hk]. apply keeps_ids in Hk. unfold replace_profile. cbn in *. by rewrite Hk. }
    pose proof (remove_count uid pid db1 Hn1). lia.
  - unfold set_default_rows in H. destruct (find_own uid pid db) as [old|] eqn:Hold; [|done]. injection H as <- <-.
    pose proof (find_own_Some _ _ _ _ Hold) as (Hin & Hoi & Hoo).
    destruct (Hrep old (touched now (with_default true old)) (unset_defaults uid (Some pid) now db)) as [-> ->];
      [by rewrite unset_ids|by apply find_own_unset|done..|].
    rewrite others_unset. unfold unset_defaults. by rewrite keeps_count by apply unset_keeps.
  - unfold reset_uuid_rows in H. destruct (find_own uid pid db) as [old|] eqn:Hold; [|done]. injection H as <- <-.
    pose proof (find_own_Some _ _ _ _ Hold) as (Hin & Hoi & Hoo). by destruct (Hrep old (touched now (with_uuid uuid old)) db) as [-> ->].
Qed.

(** ** The instance's API key *)

Lemma extract_list_ne k st st' : k <> "streaming_providers" -> k <> "sps" ->
  extract_provider_list st = Ret st' -> dict_get k st'.1 = dict_get k st.1.
Proof.
  destruct st as [c s]. intros H1 H2. unfold extract_provider_list. destruct (list_key c) as [[key l]|] eqn:E; [|by intros [= <-]].
  destruct (extract_providers 0 l) as [[l' found]|]; [|done]. cbn. intros [= <-]. cbn. apply dict_get_set_ne. intros ->.
  unfold list_key in E. repeat case_match; by simplify_eq.
Qed.

Lemma extract_single_ne k st st' : k <> "streaming_provider" -> k <> "sp" ->
  extract_single_provider st = Ret st' -> dict_get k st'.1 = dict_get k st.1.
Proof.
  destruct st as [c s]. intros H1 H2. unfold extract_single_provider. destruct (single_key c) as [[key l]|] eqn:E; [|by intros [= <-]].
  destruct (extract_provider_secrets l None) as [[l' found]|]; [|done]. cbn. intros [= <-]. cbn. apply dict_get_set_ne. intros ->.
  unfold single_key in E. repeat case_match; by simplify_eq.
Qed.

Lemma extract_section_ne k sec st st' : k <> full_name sec -> k <> alias sec ->
  extract_section sec st = Ret st' -> dict_get k st'.1 = dict_get k st.1.
Proof.
  destruct st as [c s]. intros H1 H2. unfold extract_section. destruct (section_key sec c) as [key|] eqn:E; [|by intros [= <-]].
  destruct (truthy _); [|by intros [= <-]]. destruct (extract_pairs _ _ _) as [[sub found]|]; [|done]. cbn. intros [= <-]. cbn.
  apply dict_get_set_ne. intros ->. unfold section_key in E. repeat case_match; by simplify_eq.
Qed.

Lemma extract_sections_ne k l : forall st st', Forall (fun sec => k <> full_name sec /\ k <> alias sec) l ->
  extract_sections l st = Ret st' -> dict_get k st'.1 = dict_get k st.1.
Proof.
  induction l as [|sec l IH]; intros st st' Hk; [by intros [= <-]|]. apply Forall_cons in Hk as [[H1 H2] Hk]. cbn.
  destruct (extract_section sec st) as [st1|] eqn:E; [|done]. cbn. intros H. rewrite (IH st1 st') by done.
  by eapply extract_section_ne.
Qed.

(** The extraction takes the key from one of the two places it was put. *)
Lemma extract_leaves_ap k config clean secrets : k <> "" ->
  extract_secrets (with_api_key (Some k) config) = Ret (clean, secrets) -> dict_get "ap" clean = Some (VStr k).
Proof.
  intros Hk. unfold extract_secrets. set (c := with_api_key (Some k) config).
  assert (dict_get "ap" c = Some (VStr k) /\ dict_get "api_password" c = Some (VStr k)) as [Ha Hp].
  { unfold c, with_api_key. destruct (str_empty k) eqn:E; [by destruct k|]. by rewrite !dict_get_set. }
  destruct (extract_provider_list _) as [st1|] eqn:E1; [|done]. cbn [mbind outcome_bind].
  destruct (extract_single_provider st1) as [st2|] eqn:E2; [|done]. cbn [mbind outcome_bind].
  destruct (extract_sections external_services st2) as [st3|] eqn:E3; [|done]. cbn [mbind outcome_bind].
  assert (forall x, x = "ap" \/ x = "api_password" -> dict_get x st3.1 = dict_get x c) as Hx.
  { intros x Hx. rewrite (extract_sections_ne x external_services st2 st3); [|repeat constructor; by destruct Hx as [-> | ->]|done].
    rewrite (extract_single_ne x st1 st2); [|by destruct Hx as [-> | ->]..|done].
    apply (extract_list_ne x (c, []) st1); [by destruct Hx as [-> | ->]..|done]. }
  unfold extract_own. cbn [extract_pairs]. pose proof (Hx "api_password" (or_intror eq_refl)) as Hxp. rewrite Hp in Hxp.
  rewrite (present_dict "api_password"), Hxp.
  assert (truthy (VStr k) = true) as -> by by destruct k. cbn [mbind outcome_bind].
  unfold py_delitem, dict_has. rewrite Hxp. cbn [mbind outcome_bind]. intros [= <- <-].
  rewrite dict_get_pop_ne by done. rewrite (Hx "ap") by by left. exact Ha.
Qed.

(** A profile saved by a request with the instance's API key holds that
    key in clear in its configuration column: the handlers put it under both
    spellings and the extraction of secrets removes one. *)
Lemma api_key_stored_in_clear now uid pid k db p db' : k <> "" ->
  (forall uuid data, create_profile now uid pid uuid data (Some k) db = Ret (p, db') ->
     dict_get "ap" (profile_config p) = Some (VStr k)) /\
  (forall data c, set_config data = Some c -> update_rows now uid pid data (Some k) db = Ret (p, db') ->
     dict_get "ap" (profile_config p) = Some (VStr k)).
Proof.
  intros Hk.
  assert (forall q c q', save_profile_config q (with_api_key (Some k) c) = Ret q' -> dict_get "ap" (profile_config q') = Some (VStr k)) as Hs.
  { intros q c q'. unfold save_profile_config. destruct (extract_secrets _) as [[clean secrets]|] eqn:E; [|done].
    intros [= <-]. by apply extract_leaves_ap in E. }
  split.
  - intros uuid data. unfold create_profile, create_check. destruct (5 <=? _)%nat; [done|].
    destruct (validate_config _); [|done]. cbn [mbind outcome_bind]. unfold create_commit.
    destruct (save_profile_config _ _) as [q|] eqn:E; [|done]. cbn. intros [= <- <-]. by eapply Hs.
  - intros data c Hc. unfold update_rows. destruct (find_own uid pid db) as [old|]; [|done]. unfold update_config. rewrite Hc.
    destruct (validate_config _); [|done]. cbn [mbind outcome_bind].
    destruct (save_profile_config _ _) as [q|] eqn:E; [|done]. cbn. intros [= <- <-]. apply Hs in E.
    by destruct (set_is_default data).
Qed.

(** ** Two creations at once *)

(** Two requests of a user with four profiles that both pass the check
    before either commits leave six: the limit of five is only checked on the
    count that was read. *)
Lemma concurrent_creations_exceed now now' uid pid pid' uuid uuid' data data' key key' db b c b' c' p db1 p' db2 :
  profile_count uid db = 4%nat ->
  create_check uid data key db = Ret (b, c) -> create_check uid data' key' db = Ret (b', c') ->
  create_commit now uid pid uuid (new_name data) b c db = Ret (p, db1) ->
  create_commit now' uid pid' uuid' (new_name data') b' c' db1 = Ret (p', db2) ->
  profile_count uid db2 = 6%nat.
Proof.
  intros H4 _ _ H1 H2.
  assert (forall now pid uuid name b c db p db', create_commit now uid pid uuid name b c db = Ret (p, db') ->
    profile_count uid db' = S (profile_count uid db)) as Hc.
  { clear. intros now pid uuid name b c db p db'. unfold create_commit. destruct (save_profile_config _ _) as [q|] eqn:E; [|done].
    apply save_fields in E as (_ & Ho & _ & _). cbn. intros [= <- <-]. cbn in Ho.
    unfold profile_count. rewrite List.filter_app, length_app. cbn. unfold owned at 2. rewrite Ho, Z.eqb_refl. cbn.
    destruct b; [|lia]. pose proof (keeps_count _ _ uid (unset_keeps uid None now db)) as Hk. unfold profile_count, unset_defaults in *. lia. }
  rewrite (Hc _ _ _ _ _ _ _ _ _ H2), (Hc _ _ _ _ _ _ _ _ _ H1). lia.
Qed.

(** ** What the user sees after a change *)

Local Notation active_context := (get_active_context UserData_of no_data mediaflow_config unseal disabled_providers rows).
Local Notation context_of := (build_context_from_cached UserData_of no_data mediaflow_config unseal disabled_providers).

(** The context of the active profile as the table has it. *)
Definition context_in (uid : Z) (db : list UserProfile) : ProfileContext (U := U) :=
  match get_active_profile rows uid db with Some p => context_of uid (cached_of p) | None => empty_context no_data uid end.

Lemma cache_key_not_uuid uid uuid : String.eqb (uuid_cache_key uuid) (cache_key uid) = false.
Proof. reflexivity. Qed.

Lemma forget_user_none uid t a : kv_get t (a_redis (forget_user true uid a)) (cache_key uid) = None.
Proof. cbn. by rewrite kv_get_del, String.eqb_refl. Qed.

Lemma forget_uuid_none t uuid uid a : kv_get t (a_redis a) (cache_key uid) = None ->
  kv_get t (a_redis (forget_uuid true uuid a)) (cache_key uid) = None.
Proof. intros H. cbn. by rewrite kv_get_del, cache_key_not_uuid. Qed.

Lemma uncached_context t uid db r : kv_get t r (cache_key uid) = None -> (active_context true t uid db r).1 = context_in uid db.
Proof.
  intros H. unfold get_active_context, get_cached_profile, context_in. rewrite H. by destruct (get_active_profile rows uid db).
Qed.

Definition seen (t uid : Z) (a : app) : ProfileContext (U := U) := (active_context true t uid (a_db a) (a_redis a)).1.

(** An update, a deletion, a new default and a new UUID are seen by the
    user's next request, and what is seen is the table's active profile. *)
Lemma changes_are_seen now uid pid p (a a' : app) t :
  (exists data key, update_profile true now uid pid data key a = (Ret p, a')) \/
  delete_profile true now uid pid a = (Ret p, a') \/
  set_default_profile true now uid pid a = (Ret p, a') \/
  (exists uuid, reset_profile_uuid true now uid pid uuid a = (Ret p, a')) ->
  seen t uid a' = context_in uid (a_db a').
Proof.
  assert (forall A (m : outcome api_error (A * list UserProfile)) k x,
    (forall y b, kv_get t (a_redis (k y b)) (cache_key uid) = None) -> after m k a = (Ret x, a') ->
    kv_get t (a_redis a') (cache_key uid) = None) as Hafter.
  { intros A m k x Hk. unfold after. destruct m as [[y db]|]; [|done]. intros [= <- <-]. apply Hk. }
  intros H. apply uncached_context. destruct H as [(data & key & H)|[H|[H|(uuid & H)]]].
  - eapply Hafter, H. intros y b. apply forget_uuid_none, forget_user_none.
  - eapply Hafter, H. intros y b. apply forget_uuid_none, forget_user_none.
  - eapply Hafter, H. intros y b. apply forget_user_none.
  - unfold reset_profile_uuid in H. destruct (find_own uid pid (a_db a)); [|done]. eapply Hafter, H. intros y b. apply forget_user_none.
Qed.

(** A profile created as the default is not: as long as the profile that
    was active before is cached (up to five minutes), the user goes on seeing
    that one, although it is no longer marked as the default. *)
Lemma new_default_not_seen now uid pid uuid data key p old (a a' : app) t :
  post_profile now uid pid uuid data key a = (Ret p, a') ->
  kv_get t (a_redis a) (cache_key uid) = Some (BJson (dump_cached (cached_of old))) ->
  new_is_default data = true ->
  is_default p = true /\ p ∈ a_db a' /\
  (forall q, q ∈ a_db a' -> owner_id q = uid -> is_default q = true -> q = p) /\
  seen t uid a' = context_of uid (cached_of old).
Proof.
  unfold post_profile, after. destruct (create_profile now uid pid uuid data key (a_db a)) as [[q db]|] eqn:E; [|done].
  intros [= <- <-] Hc Hd.
  assert (is_default q = true) as Hq.
  { revert E. unfold create_profile, create_check. rewrite Hd. destruct (5 <=? _)%nat; [done|]. destruct (validate_config _); [|done].
    cbn [mbind outcome_bind orb]. unfold create_commit. destruct (save_profile_config _ _) as [q'|] eqn:Es; [|done].
    apply save_fields in Es as (_ & _ & Hq & _). cbn in Hq. cbn. by intros [= <- _]. }
  apply create_inv in E as (_ & _ & Ho & ->). rewrite Hq. split_and!; [done|cbn; set_solver| |].
  - intros x Hx Hox Edx. cbn in Hx. rewrite elem_of_app, list_elem_of_singleton in Hx. destruct Hx as [Hx|]; [|done].
    by apply (unset_spec uid None now (a_db a)) in Hx.
  - unfold seen. cbn. unfold get_active_context, get_cached_profile. rewrite Hc, load_dump. done.
Qed.

End Profiles.

(** ** Instances *)

Definition demo_seal (v : value) : string := "sealed".
Definition demo_nzbdav : NzbdavDefaults := mkNzbdav None None.
Local Notation demo_create := (create_profile demo_seal [] 5 demo_nzbdav (fun _ => None) (fun _ => true) (fun _ _ => None) (fun _ => "?")).
Local Notation demo_check := (create_check [] 5 demo_nzbdav (fun _ => None) (fun _ => true) (fun _ _ => None) (fun _ => "?")).
Local Notation demo_commit := (create_commit demo_seal).
Local Notation demo_step := (row_step demo_seal demo_unseal [] 5 demo_nzbdav (fun _ => None) (fun _ => true) (fun _ _ => None) (fun _ => "?") id).
Local Notation demo_made := (made demo_seal demo_unseal [] 5 demo_nzbdav (fun _ => None) (fun _ => true) (fun _ _ => None) (fun _ => "?") id).

Definition demo_new (n : string) : ProfileCreate := mkCreate n [("sr", VList [VStr "4k"])] true.
Definition rows_of (m : outcome api_error (UserProfile * list UserProfile)) : list UserProfile :=
  match m with Ret (_, db) => db | Raise _ => [] end.
Definition first_row : UserProfile := mkProfile 1 "u1" 7 "A" [("sr", VList [VStr "4k"])] None true 0 0.

Definition demo_rows : list UserProfile :=
  rows_of (demo_create 3 8 2 "B" (demo_new "B") (Some "secret") [first_row]).

Lemma first_created : demo_create 0 7 1 "u1" (demo_new "A") None [] = Ret (first_row, [first_row]).
Proof. vm_compute. reflexivity. Qed.

Lemma demo_created uid pid n key (db : list UserProfile) : is_ret (demo_create 3 uid pid n (demo_new n) key db) = true ->
  exists p, demo_create 3 uid pid n (demo_new n) key db = Ret (p, rows_of (demo_create 3 uid pid n (demo_new n) key db)).
Proof. destruct (demo_create _ _ _ _ _ _ _) as [[p d]|]; [by exists p|done]. Qed.

Lemma demo_rows_made : demo_made demo_rows.
Proof.
  apply (made_step demo_seal demo_unseal [] 5 demo_nzbdav (fun _ => None) (fun _ => true) (fun _ _ => None) (fun _ => "?") id 8 [first_row]).
  - apply (made_step demo_seal demo_unseal [] 5 demo_nzbdav (fun _ => None) (fun _ => true) (fun _ _ => None) (fun _ => "?") id 7 []); [constructor|].
    eapply row_create; [|exact first_created]. apply not_elem_of_nil.
  - destruct (demo_created 8 2 "B" (Some "secret") [first_row]) as [p E]; [vm_compute; reflexivity|].
    eapply row_create; [|exact E]. by_decide.
Qed.

Lemma profiles_invariant_witness : demo_made demo_rows /\ table_ok demo_rows.
Proof.
  split; [exact demo_rows_made|].
  exact (profiles_invariant demo_seal demo_unseal [] 5 demo_nzbdav (fun _ => None) (fun _ => true) (fun _ _ => None) (fun _ => "?") id
    ltac:(done) demo_rows demo_rows_made).
Defined.

Lemma demo_rows_ok : table_ok demo_rows.
Proof.
  destruct (demo_created 8 2 "B" (Some "secret") [first_row]) as [p E]; [vm_compute; reflexivity|].
  eapply create_ok; [| |exact E]; [|by_decide]. eapply create_ok; [| |exact first_created]; [|by_decide].
  split; [by apply NoDup_nil|intros; cbn; lia|]. intros q q' Hq. by apply elem_of_nil in Hq.
Qed.

Lemma handlers_keep_to_the_user_witness : exists db', demo_step 8 demo_rows db' /\ others 8 db' = others 8 demo_rows.
Proof.
  eexists. assert (demo_step 8 demo_rows (rows_of (demo_create 3 8 5 "C" (demo_new "C") None demo_rows))) as Hs.
  { destruct (demo_created 8 5 "C" None demo_rows) as [p E]; [vm_compute; reflexivity|]. eapply row_create; [|exact E]. by_decide. }
  split; [exact Hs|].
  apply (handlers_keep_to_the_user demo_seal demo_unseal [] 5 demo_nzbdav (fun _ => None) (fun _ => true) (fun _ _ => None) (fun _ => "?") id
    ltac:(done) 8 demo_rows _ demo_rows_ok Hs).
Defined.

Lemma api_key_stored_in_clear_witness : exists p db,
  demo_create 3 8 5 "C" (demo_new "C") (Some "secret") demo_rows = Ret (p, db) /\ dict_get "ap" (profile_config p) = Some (VStr "secret").
Proof.
  destruct (demo_created 8 5 "C" (Some "secret") demo_rows) as [p E]; [vm_compute; reflexivity|]. eexists p, _. split; [exact E|].
  exact (proj1 (api_key_stored_in_clear demo_seal demo_unseal [] 5 demo_nzbdav (fun _ => None) (fun _ => true) (fun _ _ => None) (fun _ => "?")
    3 8 5 "secret" demo_rows p _ ltac:(done)) "C" (demo_new "C") E).
Defined.

Definition four_rows : list UserProfile :=
  map (fun i => mkProfile i (str_of_int i) 8 "P" [] None (i =? 1) 0 0) [1; 2; 3; 4].

Lemma concurrent_creations_exceed_witness : exists p db1 p' db2,
  demo_commit 0 8 5 "u5" "X" true [] four_rows = Ret (p, db1) /\ demo_commit 0 8 6 "u6" "Y" true [] db1 = Ret (p', db2) /\
  profile_count 8 db2 = 6%nat.
Proof.
  eexists _, _, _, _. split; [vm_compute; reflexivity|]. split; [vm_compute; reflexivity|].
  apply (concurrent_creations_exceed demo_seal [] 5 demo_nzbdav (fun _ => None) (fun _ => true) (fun _ _ => None) (fun _ => "?")
    0 0 8 5 6 "u5" "u6" (mkCreate "X" [] true) (mkCreate "Y" [] true) None None four_rows true [] true []
    (mkProfile 5 "u5" 8 "X" [] None true 0 0) (rows_of (demo_commit 0 8 5 "u5" "X" true [] four_rows)) (mkProfile 6 "u6" 8 "Y" [] None true 0 0));
    vm_compute; reflexivity.
Defined.

Definition demo_media (u : string) : option mediaflow := None.
Definition demo_app : app (R := store) (U := string) := mkApp four_rows empty_store (mkCrypto [] []).

Lemma changes_are_seen_witness :
  is_ret (set_default_profile true 5 8 3 demo_app).1 = true /\
  let a := (set_default_profile true 5 8 3 demo_app).2 in
  seen demo_data "" demo_media demo_unseal [] id 6 8 a = context_in demo_data "" demo_media demo_unseal [] id 8 (a_db a).
Proof.
  split; [vm_compute; reflexivity|]. intros a. destruct (set_default_profile true 5 8 3 demo_app) as [[p|e] b] eqn:E; [|vm_compute in E; discriminate].
  exact (changes_are_seen demo_data "" demo_media demo_seal demo_unseal [] 5 demo_nzbdav (fun _ => None) (fun _ => true) (fun _ _ => None) (fun _ => "?")
    id 5 8 3 p demo_app b 6 (or_intror (or_intror (or_introl E)))).
Defined.

(** The first profile is cached when a new default is created. *)
Definition demo_old : UserProfile := mkProfile 1 "1" 8 "P" [] None true 0 0.
Definition cached_app : app (R := store) (U := string) :=
  mkApp [demo_old] (cache_profile true 0 8 (cached_of demo_old) empty_store) (mkCrypto [] []).

Lemma new_default_not_seen_witness : exists p a,
  post_profile demo_seal [] 5 demo_nzbdav (fun _ => None) (fun _ => true) (fun _ _ => None) (fun _ => "?")
    3 8 2 "B" (demo_new "B") None cached_app = (Ret p, a) /\ is_default p = true /\
  seen demo_data "" demo_media demo_unseal [] id 61000000 8 a =
    build_context_from_cached demo_data "" demo_media demo_unseal [] 8 (cached_of demo_old).
Proof.
  destruct (demo_created 8 2 "B" None [demo_old]) as [p E]; [vm_compute; reflexivity|].
  assert (post_profile demo_seal [] 5 demo_nzbdav (fun _ => None) (fun _ => true) (fun _ _ => None) (fun _ => "?")
    3 8 2 "B" (demo_new "B") None cached_app = (Ret p, changed (rows_of (demo_create 3 8 2 "B" (demo_new "B") None [demo_old])) cached_app)) as Ep.
  { unfold post_profile, after. cbn [a_db cached_app]. by rewrite E. }
  destruct (new_default_not_seen demo_data "" demo_media demo_seal demo_unseal [] 5 demo_nzbdav (fun _ => None) (fun _ => true) (fun _ _ => None)
    (fun _ => "?") id ltac:(done) 3 8 2 "B" (demo_new "B") None p demo_old cached_app _ 61000000 Ep) as (H1 & _ & _ & H2);
    [vm_compute; reflexivity|reflexivity|]. eexists p, _. split; [exact Ep|]. split; [exact H1|exact H2].
Defined.
