(* ===== verification/Middleware.v ===== *)
(** * The HTTP middleware (api/middleware.py, api/app.py)

    The layers around the endpoints, from the outermost: request id, retry of
    transient database errors, logging, timing (which turns errors into
    responses), the user's data from the URL, the API key of private instances,
    rate limits, CORS.  A layer is a function on the application it wraps; the
    scope of a request is threaded with the state of the server, since layers
    write into it.  Exceptions are objects in the heap of [Retry]. *)

From S2P Require Import Retry.
From S2P Require Export UserSecrets.
Local Open Scope string_scope.
Local Open Scope Z_scope.

(** ** Requests and responses *)

Record request := mkRequest {
  method : string;
  path : string;
  headers : list (string * string);  (* names in lower case *)
  query_params : list (string * string);
  client_host : option string;
  is_disconnected : bool;
}.

Definition header (name : string) (req : request) : option string := dict_get name (headers req).

(** The functions that handle requests, with the attributes the decorators of
    utils/wrappers.py set. *)
Record endpoint := mkEndpoint {
  endpoint_name : string;
  auth_required : bool;
  exclude_rate_limit : bool;
  limit : option Z;
  window : option Z;
  rate_scope : option (option string);
}.

(** [rate_limit(limit, window, scope)] and the other decorators. *)
Definition rate_limit (l w : Z) (s : option string) (e : endpoint) : endpoint :=
  mkEndpoint (endpoint_name e) (auth_required e) (exclude_rate_limit e) (Some l) (Some w) (Some s).
Definition with_rate_limit_excluded (e : endpoint) : endpoint :=
  mkEndpoint (endpoint_name e) (auth_required e) true (limit e) (window e) (rate_scope e).
Definition with_auth_required (e : endpoint) : endpoint :=
  mkEndpoint (endpoint_name e) true (exclude_rate_limit e) (limit e) (window e) (rate_scope e).

(** A route: what [matches] gives for a full match of a method and a path. *)
Record route := mkRoute {
  route_methods : list string;  (* empty without a restriction *)
  full_match : string -> string -> option (list (string * string));
  route_endpoint : option endpoint;
}.

Inductive body := Json (v : value) | Text (s : string).
Record response := mkResponse { status_code : Z; content : body; response_headers : list (string * string) }.

Definition CORS_HEADERS : list (string * string) :=
  [("Access-Control-Allow-Origin", "*"); ("Access-Control-Allow-Headers", "*"); ("Access-Control-Allow-Methods", "*")].
Definition NO_CACHE_HEADERS : list (string * string) :=
  [("Cache-Control", "no-store, no-cache, must-revalidate, max-age=0"); ("Pragma", "no-cache"); ("Expires", "0")].

Definition add_headers (hs : list (string * string)) (r : response) : response :=
  mkResponse (status_code r) (content r) (dict_update (response_headers r) hs).

Definition API_PREFIX : string := "/api/v1/".
Definition is_api_path (req : request) : bool := startswith API_PREFIX (path req).

(** [error: true] under status 200: the envelope of API paths. *)
Definition api_error_content (detail : string) (status : Z) : value :=
  VDict [("error", VBool true); ("detail", VStr detail); ("status_code", VInt status)].

Definition get_client_ip (req : request) : string :=
  let forwarded := default "" (header "x-forwarded-for" req) in
  if negb (str_empty forwarded) then strip (default "" (head (split_char "," forwarded)))
  else
    let real := default "" (header "x-real-ip" req) in
    if negb (str_empty real) then real else default "127.0.0.1" (client_host req).

(** ** Exceptions of endpoints (api/exception_handlers.py) *)

Definition api_http_exception_handler (req : request) (status : Z) (detail : value) (hs : list (string * string)) : response :=
  if negb (is_api_path req) then mkResponse status (Json (VDict [("detail", detail)])) hs
  else mkResponse 200 (Json (VDict [("error", VBool true); ("detail", detail); ("status_code", VInt status)])) [].

Definition api_validation_exception_handler (req : request) (errors : value) : response :=
  if negb (is_api_path req) then mkResponse 422 (Json (VDict [("detail", errors)])) []
  else mkResponse 200 (Json (VDict [("error", VBool true); ("detail", VStr "Validation error"); ("status_code", VInt 422);
                                     ("errors", errors)])) [].

(** ** Settings *)

Record settings := mkSettings {
  addon_name : string;
  host_url : string;
  is_public_instance : bool;
  api_password : string;
  enable_rate_limit : bool;
}.

(** Exempt from the API key. *)
Definition EXEMPT_PATH_PREFIXES : list string :=
  ["/api/v1/instance/"; "/api/v1/integrations/simkl/callback"; "/api/v1/telegram/webhook"; "/api/v1/telegram/login";
   "/health"; "/ready"; "/docs"; "/redoc"; "/openapi.json"; "/favicon.ico"; "/static/"; "/app/"; "/app"; "/manifest.json";
   "/{secret_str}/"; "/streaming_provider/"; "/poster/"; "/torznab"].

Definition ROUTE_LOOKUP_CACHE_MAX_ENTRIES : nat := 4096.

(** What the layers write into the scope of a request. *)
Record scope (U : Type) := mkScope {
  sc_endpoint : option endpoint;
  path_params : list (string * string);
  sc_user : option U;
  sc_secret : option string;
}.
Arguments mkScope {U} _ _ _ _.
Arguments sc_endpoint {U} _.
Arguments path_params {U} _.
Arguments sc_user {U} _.
Arguments sc_secret {U} _.

Definition new_scope {U} : scope U := mkScope None [] None None.

(** [d.get(k)] as a condition. *)
Definition nonempty_get (k : string) (d : list (string * string)) : option string :=
  match dict_get k d with Some s => if str_empty s then None else Some s | None => None end.

(** The state of a server process: the cache of routes, the caches of secrets,
    Redis, the access log, and what the endpoints use. *)
Record log_entry := mkEntry { log_ip : string; log_method : string; log_path : string; log_status : Z }.

Record server (R U X : Type) := mkServer {
  route_lookup_cache : list (string * nat);
  sv_crypto : CryptoUtils U;
  sv_redis : R;
  access_log : list log_entry;  (* the latest first *)
  sv_state : X;
}.
Arguments mkServer {R U X} _ _ _ _ _.
Arguments access_log {R U X} _.
Arguments route_lookup_cache {R U X} _.
Arguments sv_crypto {R U X} _.
Arguments sv_redis {R U X} _.
Arguments sv_state {R U X} _.

Definition with_secrets {R U X} (c : CryptoUtils U) (r : R) (s : server R U X) : server R U X :=
  mkServer (route_lookup_cache s) c r (access_log s) (sv_state s).
Definition with_redis {R U X} (r : R) (s : server R U X) : server R U X :=
  mkServer (route_lookup_cache s) (sv_crypto s) r (access_log s) (sv_state s).
Definition logged {R U X} (e : log_entry) (s : server R U X) : server R U X :=
  mkServer (route_lookup_cache s) (sv_crypto s) (sv_redis s) (e :: access_log s) (sv_state s).

Section Middleware.
Context {R : Type} `{!Redis R}.
Context {U X : Type}.
Context (UserData_of : dict -> outcome py_exn U) (no_data : U).
Context (dump_json : U -> outcome py_exn string) (validate_json : string -> outcome py_exn U).
Context (unseal : string -> outcome py_exn value) (disabled_providers : list string).
Context (sha256 md5 : string -> string).
Context (compress : string -> string) (decompress : string -> outcome secret_exn string).
Context (cbc_encrypt : string -> string -> string -> string).
Context (cbc_decrypt : string -> string -> string -> outcome secret_exn string).
Context (pad : string -> string) (unpad : string -> outcome secret_exn string).
Context (secret_key : string) (iv : string).
Context (rows : list UserProfile -> list UserProfile).
(** What [UserData] tells the layers. *)
Context (data_password : U -> option string) (primary_provider : U -> option StreamingProvider).
Context (cfg : settings) (routes : list route).
(** The exceptions an endpoint may raise. *)
Context (heap : list exn) (is_statement_error : nat -> bool) (runtime_message : nat -> option string).
(** The clock, whether Redis answers, and the database, during the request. *)
Context (now : Z) (up : bool) (db : list UserProfile) (users : list User).

Local Notation server := (server R U X).
Local Notation scope := (scope U).

(** An application: what [call_next] runs. *)
Definition app : Type := request -> scope * server -> outcome nat response * (scope * server).

(** *** Routes *)

Definition route_cache_get (cache_key : string) (s : server) : option nat := dict_get cache_key (route_lookup_cache s).

Definition route_cache_set (cache_key : string) (i : nat) (s : server) : server :=
  if dict_has cache_key (route_lookup_cache s) then s
  else mkServer (dict_set cache_key i (evict_oldest ROUTE_LOOKUP_CACHE_MAX_ENTRIES (route_lookup_cache s)))
         (sv_crypto s) (sv_redis s) (access_log s) (sv_state s).

Definition route_cache_key (req : request) : string := method req +:+ ":" +:+ sha256 (path req).

Definition use_route (r : route) (params : list (string * string)) (sc : scope) : scope :=
  mkScope (route_endpoint r) params (sc_user sc) (sc_secret sc).

Definition allowed_method (req : request) (r : route) : bool :=
  match route_methods r with [] => true | ms => memb (method req) ms end.

(** The loop over the routes, from index [i]. *)
Fixpoint find_route (i : nat) (rs : list route) (req : request) : option (nat * route * list (string * string)) :=
  match rs with
  | [] => None
  | r :: rs =>
      if allowed_method req r then
        match full_match r (method req) (path req) with
        | Some params => Some (i, r, params)
        | None => find_route (S i) rs req
        end
      else find_route (S i) rs req
  end.

Definition search_routes (req : request) (sc : scope) (s : server) : option endpoint * (scope * server) :=
  match find_route 0 routes req with
  | Some (i, r, params) => (route_endpoint r, (use_route r params sc, route_cache_set (route_cache_key req) i s))
  | None => (None, (sc, s))
  end.

Definition find_route_handler (req : request) (sc : scope) (s : server) : option endpoint * (scope * server) :=
  match sc_endpoint sc with
  | Some e => (Some e, (sc, s))
  | None =>
      match route_cache_get (route_cache_key req) s with
      | Some i =>
          match routes !! i with
          | Some r =>
              match full_match r (method req) (path req) with
              | Some params => (route_endpoint r, (use_route r params sc, s))
              | None => search_routes req sc s
              end
          | None => search_routes req sc s
          end
      | None => search_routes req sc s
      end
  end.

(** *** The user's data *)

(** The steps of a request for a secret, without others in between. *)
Fixpoint run_phase (fuel : nat) (secret_str : string) (ph : phase U) (c : CryptoUtils U) (r : R) :
    outcome secret_exn U * CryptoUtils U * R :=
  match ph, fuel with
  | Done res, _ => (res, c, r)
  | _, O => (Raise (Exn ValueError), c, r)
  | _, S fuel =>
      let w := mkWorld now db users r [] [] in
      let '(ph, c, r) := advance_phase UserData_of unseal disabled_providers sha256 rows up w secret_str ph c in
      run_phase fuel secret_str ph c r
  end.

(** Lookup, load, store and finish: four steps are enough. *)
Definition decrypt_user_data (secret_str : string) (c : CryptoUtils U) (r : R) : outcome secret_exn U * CryptoUtils U * R :=
  let '(ph, c) := decrypt_start no_data validate_json sha256 decompress cbc_decrypt unpad secret_key now secret_str c in
  run_phase 4 secret_str ph c r.

(** The user's data and the secret that stands for it. *)
Definition resolve_user_data (req : request) (sc : scope) (s : server) : outcome secret_exn (U * option string) * server :=
  match nonempty_get "encoded_user_data" (headers req) with
  | Some encoded =>
      (user_data ← lift (decode_user_data validate_json encoded);
       secret_str ← process_user_data dump_json compress cbc_encrypt pad secret_key iv user_data;
       Ret (user_data, Some secret_str), s)
  | None =>
      let secret_str := match nonempty_get "secret_str" (path_params sc) with
                        | Some x => Some x
                        | None => dict_get "secret_str" (query_params req)
                        end in
      let '(res, c, r) := decrypt_user_data (default "" secret_str) (sv_crypto s) (sv_redis s) in
      ((fun u => (u, secret_str)) <$> res, with_secrets c r s)
  end.

Definition create_exception_stream (description exc_file_name : string) : value :=
  VDict [("name", VStr (addon_name cfg)); ("description", VStr description);
         ("url", VStr (host_url cfg +:+ "/static/exceptions/" +:+ exc_file_name));
         ("behaviorHints", VDict [("notWebReady", VBool true)])].

Definition newline : string := String (of_code 10) "".

Definition exception_streams (description : string) : response :=
  mkResponse 200 (Json (VDict [("streams", VList [create_exception_stream description "invalid_config.mp4"])])) CORS_HEADERS.

Definition is_get_streams (e : option endpoint) : bool :=
  match e with Some e => String.eqb (endpoint_name e) "get_streams" | None => false end.

Definition invalid_user_data (e : option endpoint) (err : secret_exn) : response :=
  let user_hint := match err with UserFacingSecretError msg => msg | _ => "" end in
  let base_invalid := "Invalid MediaFusion configuration." +:+ newline +:+
    "Delete the Invalid MediaFusion installed addon and reconfigure it." in
  let streams_msg := if str_empty user_hint then base_invalid else base_invalid +:+ newline +:+ newline +:+ user_hint in
  if is_get_streams e then exception_streams streams_msg
  else mkResponse 200 (Json (VDict [("status", VStr "error");
         ("message", VStr (if str_empty user_hint then "Invalid user data" else user_hint))])) [].

Definition unauthorized (req : request) (e : option endpoint) : response :=
  if is_get_streams e then
    exception_streams ("Unauthorized." +:+ newline +:+ "Invalid MediaFusion configuration." +:+ newline +:+
      "Delete the Invalid MediaFusion installed addon and reconfigure it.")
  else if is_api_path req then mkResponse 200 (Json (api_error_content "Unauthorized" 401)) NO_CACHE_HEADERS
  else mkResponse 401 (Json (VDict [("status", VStr "error"); ("message", VStr "Unauthorized")])) NO_CACHE_HEADERS.

Definition password_ok (e : option endpoint) (u : U) : bool :=
  is_public_instance cfg || negb (match e with Some e => auth_required e | None => false end)
  || bool_decide (data_password u = Some (api_password cfg)).

Definition UserDataMiddleware (call_next : app) : app := fun req '(sc, s) =>
  let '(e, (sc, s)) := find_route_handler req sc s in
  let '(res, s) := resolve_user_data req sc s in
  match res with
  | Raise err => (Ret (invalid_user_data e err), (sc, s))
  | Ret (user_data, secret_str) =>
      if password_ok e user_data
      then call_next req (mkScope (sc_endpoint sc) (path_params sc) (Some user_data) secret_str, s)
      else (Ret (unauthorized req e), (sc, s))
  end.

(** *** The API key of a private instance *)

Definition exempt_path (p : string) : bool :=
  existsb (fun prefix => startswith prefix p) EXEMPT_PATH_PREFIXES || String.eqb p "/".

Definition api_key_ok (req : request) : bool :=
  match header "x-api-key" req with
  | Some k => negb (str_empty k) && String.eqb k (api_password cfg)
  | None => false
  end.

Definition invalid_api_key (req : request) : response :=
  if is_api_path req then mkResponse 200 (Json (api_error_content "Invalid or missing API key" 401)) NO_CACHE_HEADERS
  else mkResponse 401 (Json (VDict [("detail", VStr "Invalid or missing API key")])) NO_CACHE_HEADERS.

Definition has_secret_param (sc : scope) : bool :=
  match nonempty_get "secret_str" (path_params sc) with Some _ => true | None => false end.

Definition APIKeyMiddleware (call_next : app) : app := fun req '(sc, s) =>
  if is_public_instance cfg || exempt_path (path req) || has_secret_param sc || api_key_ok req
  then call_next req (sc, s)
  else (Ret (invalid_api_key req), (sc, s)).

(** *** Rate limits *)

(** [INCR] of a counter, which a key that does not exist starts at 0, and
    [EXPIRE]; the new count. *)
Definition count_of (b : option blob) : Z := match b with Some (BJson (VInt n)) => n | _ => 0 end.
Definition incr_expire (t : Z) (key : string) (w : Z) (r : R) : Z * R :=
  let n := count_of (kv_get t r key) + 1 in (n, kv_set t key (BJson (VInt n)) (Some (seconds w)) r).

(** Without Redis every request is allowed. *)
Definition check_rate_limit_with_redis (available : bool) (t : Z) (key : string) (l w : Z) (r : R) : bool * R :=
  if available then let '(current_count, r) := incr_expire t key w r in (negb (l <? current_count), r) else (true, r).

Definition generate_identifier (ip : string) (u : U) : string :=
  let raw_identifier :=
    match primary_provider u with
    | Some p =>
        let profile := match token p with
                       | Some t => if str_empty t then email p else Some t
                       | None => email p
                       end in
        ip +:+ "-" +:+ default "None" profile
    | None => ip
    end in
  md5 raw_identifier.

Definition rate_key (req : request) (e : endpoint) (u : U) : string :=
  let scope_name := match rate_scope e with Some (Some n) => n | Some None => "None" | None => "default" end in
  "rate_limit:" +:+ generate_identifier (get_client_ip req) u +:+ ":" +:+ scope_name.

Definition rate_limited (req : request) : response :=
  if is_api_path req then mkResponse 200 (Json (api_error_content "Rate limit exceeded" 429)) NO_CACHE_HEADERS
  else mkResponse 429 (Text "Rate limit exceeded") NO_CACHE_HEADERS.

(** [request.user] is what [UserDataMiddleware] left in the scope. *)
Definition RateLimitMiddleware (call_next : app) : app := fun req '(sc, s) =>
  if negb (enable_rate_limit cfg) || negb (is_public_instance cfg) then call_next req (sc, s)
  else
    match sc_endpoint sc with
    | None => call_next req (sc, s)
    | Some e =>
        if exclude_rate_limit e then call_next req (sc, s)
        else
          let u := default no_data (sc_user sc) in
          let '(allowed, r) :=
            check_rate_limit_with_redis up now (rate_key req e u) (default 50 (limit e)) (default 60 (window e)) (sv_redis s) in
          let s := with_redis r s in
          if allowed : bool then call_next req (sc, s) else (Ret (rate_limited req), (sc, s))
    end.

Definition add_cors_header (call_next : app) : app := fun req st =>
  let '(res, st) := call_next req st in (add_headers CORS_HEADERS <$> res, st).

(** *** Timing: every exception becomes a response *)

Definition internal_error : string := "Internal Server Error. Check the server log & Create GitHub Issue".

Definition server_error (req : request) : response :=
  if is_api_path req then mkResponse 200 (Json (api_error_content internal_error 500)) NO_CACHE_HEADERS
  else mkResponse 500 (Text internal_error) NO_CACHE_HEADERS.

Definition overloaded : response :=
  mkResponse 503 (Json (api_error_content "Server is under high load, please retry in a moment." 503))
    (dict_set "Retry-After" "5" NO_CACHE_HEADERS).

Definition error_response (req : request) (e : nat) : response :=
  match runtime_message e with
  | Some msg =>
      if String.eqb msg "No response returned." && is_disconnected req then mkResponse 204 (Text "") []
      else server_error req
  | None => if is_sqlalchemy_pool_exhaustion_error heap e then overloaded else server_error req
  end.

(** [process_time]: the text of the header. *)
Definition TimingMiddleware (process_time : string) (call_next : app) : app := fun req st =>
  let '(res, st) := call_next req st in
  let response := match res with Ret r => r | Raise e => error_response req e end in
  (Ret (add_headers [("X-Process-Time", process_time)] response), st).

(** *** The access log *)

Definition mask_path (sc : scope) (p : string) : string :=
  let mask k p := match nonempty_get k (path_params sc) with Some x => replace x "*MASKED*" p | None => p end in
  mask "existing_secret_str" (mask "secret_str" p).

Definition SecureLoggingMiddleware (call_next : app) : app := fun req st =>
  let '(res, (sc, s)) := call_next req st in
  match res with
  | Ret r => (Ret r, (sc, logged (mkEntry (get_client_ip req) (method req) (mask_path sc (path req)) (status_code r)) s))
  | Raise e => (Raise e, (sc, s))
  end.

(** *** Retry of transient database errors *)

Definition MAX_ATTEMPTS : nat := 2.
Definition SAFE_METHODS : list string := ["GET"; "HEAD"].

(** An attempt, with [later] more to come. *)
Fixpoint attempt_loop (later : nat) (call_next : app) (req : request) (st : scope * server) : outcome nat response * (scope * server) :=
  let '(res, st) := call_next req st in
  match res with
  | Ret r => (Ret r, st)
  | Raise e =>
      if negb (is_statement_error e) || is_sqlalchemy_pool_exhaustion_error heap e then (Raise e, st)
      else match later with
           | S later => if is_retryable_db_error heap e then attempt_loop later call_next req st else (Raise e, st)
           | O => (Raise e, st)
           end
  end.

Definition TransientDatabaseRetryMiddleware (call_next : app) : app := fun req st =>
  if memb (upper (method req)) SAFE_METHODS then attempt_loop (MAX_ATTEMPTS - 1) call_next req st else call_next req st.

(** *** Request identifiers *)

(** [fresh]: the hexadecimal form of a new UUID. *)
Definition RequestIdMiddleware (fresh : string) (call_next : app) : app := fun req st =>
  let req_id := match nonempty_get "x-request-id" (headers req) with Some i => i | None => fresh end in
  let '(res, st) := call_next req st in (add_headers [("X-Request-Id", req_id)] <$> res, st).

(** [ProfilerMiddleware], with the request run under the profiler; [html] is
    its report, if the profiler is installed. *)
Definition ProfilerMiddleware (html : option string) (call_next : app) : app := fun req st =>
  if negb (bool_decide (dict_get "_profile" (query_params req) = Some "1")) then call_next req st
  else
    let api_key := match nonempty_get "x-api-key" (headers req) with
                   | Some k => k
                   | None => default "" (dict_get "api_password" (query_params req))
                   end in
    if negb (String.eqb api_key (api_password cfg)) then
      (Ret (mkResponse 403 (Json (VDict [("detail", VStr "Profiling requires admin API key via X-API-Key header.")])) []), st)
    else
      match html with
      | None => (Ret (mkResponse 501 (Json (VDict [("detail", VStr "pyinstrument not installed. Run: pip install pyinstrument")])) []), st)
      | Some html =>
          let '(res, st) := call_next req st in
          (match res with Ret _ => Ret (mkResponse 200 (Text html) NO_CACHE_HEADERS) | Raise e => Raise e end, st)
      end.

(** *** [create_app]: the stack around the router *)

Definition guarded (router : app) : app :=
  UserDataMiddleware (APIKeyMiddleware (RateLimitMiddleware (add_cors_header router))).

Definition create_app (process_time fresh : string) (router : app) : app :=
  RequestIdMiddleware fresh (TransientDatabaseRetryMiddleware (SecureLoggingMiddleware (TimingMiddleware process_time (guarded router)))).

(** ** Fuel *)

Definition steps_left (ph : phase U) : nat :=
  match ph with Lookup _ => 4 | Load _ => 3 | Store _ _ _ => 2 | Finish _ => 1 | Done _ => 0 end.

Lemma advance_decreases w secret_str ph c : steps_left ph <> 0%nat ->
  (steps_left (advance_phase UserData_of unseal disabled_providers sha256 rows up w secret_str ph c).1.1 < steps_left ph)%nat.
Proof.
  destruct ph; cbn; try lia.
  - destruct (resolve_from_redis _ _ _ _ _ _) as [[?|] ?]; cbn; lia.
  - destruct (load_uuid_profile _ _ _ _ _ _ _) as [[? ?]|]; cbn; lia.
  - destruct (decrypt_finish _ _ _ _ _). cbn. lia.
Qed.

(** With the steps left as fuel, more of it makes no difference. *)
Lemma run_phase_enough fuel : forall secret_str ph c r, (steps_left ph <= fuel)%nat ->
  run_phase fuel secret_str ph c r = run_phase (S fuel) secret_str ph c r.
Proof.
  induction fuel as [|fuel IH]; intros secret_str ph c r Hf.
  - by destruct ph; cbn in Hf; try lia.
  - destruct (decide (steps_left ph = 0%nat)) as [E|E]; [by destruct ph|].
    pose proof (advance_decreases (mkWorld now db users r [] []) secret_str ph c E) as Hd.
    destruct ph as [x|x|x d res|res|res]; try done.
    all: cbn [run_phase] in *; destruct (advance_phase _ _ _ _ _ _ _ _ _ _) as [[ph' c'] r'] eqn:Ea; cbn [fst] in Hd;
      apply IH; cbn in Hd, Hf |- *; lia.
Qed.

Lemma start_steps secret_str c :
  (steps_left (decrypt_start no_data validate_json sha256 decompress cbc_decrypt unpad secret_key now secret_str c).1 <= 4)%nat.
Proof. destruct (decrypt_start _ _ _ _ _ _ _ _ _ _).1; cbn; lia. Qed.

(** ** Errors are answered inside the retry *)

Lemma timing_returns process_time inner req st : exists r, (TimingMiddleware process_time inner req st).1 = Ret r.
Proof. unfold TimingMiddleware. destruct (inner req st) as [res st']. cbn. by eexists. Qed.

Lemma logging_returns inner req st r : (inner req st).1 = Ret r -> (SecureLoggingMiddleware inner req st).1 = Ret r.
Proof. unfold SecureLoggingMiddleware. destruct (inner req st) as [res [sc s]]. cbn. by intros ->. Qed.

(** The retry of transient database errors never retries: it wraps the
    layer that turns every exception into a response, so the application behaves
    as without it.  Around an application that raises such an error it would
    run a second attempt. *)
Lemma transient_retry_is_dead process_time fresh router req st :
  create_app process_time fresh router req st =
    RequestIdMiddleware fresh (SecureLoggingMiddleware (TimingMiddleware process_time (guarded router))) req st /\
  (forall inner e st1, memb (upper (method req)) SAFE_METHODS = true ->
     inner req st = (Raise e, st1) -> is_statement_error e = true -> is_retryable_db_error heap e = true ->
     TransientDatabaseRetryMiddleware inner req st = inner req st1).
Proof.
  split.
  - unfold create_app, RequestIdMiddleware. set (inner := SecureLoggingMiddleware _).
    assert (TransientDatabaseRetryMiddleware inner req st = inner req st) as ->; [|done].
    destruct (timing_returns process_time (guarded router) req st) as [r Hr].
    apply logging_returns in Hr. fold inner in Hr. unfold TransientDatabaseRetryMiddleware. destruct (memb _ _); [|done].
    cbn [attempt_loop Nat.sub MAX_ATTEMPTS]. destruct (inner req st) as [res st']. cbn in Hr. by subst res.
  - intros inner e st1 Hm H1 Hs Hr. unfold TransientDatabaseRetryMiddleware. rewrite Hm. cbn [attempt_loop Nat.sub MAX_ATTEMPTS].
    rewrite H1, Hs. assert (is_sqlalchemy_pool_exhaustion_error heap e = false) as Hp.
    { unfold is_retryable_db_error in Hr. by destruct (is_sqlalchemy_pool_exhaustion_error heap e). }
    rewrite Hp, Hr. cbn [negb orb]. destruct (inner req st1) as [[r|e'] st2]; [done|]. by destruct (_ || _).
Qed.

(** ** The gate of a private instance *)

(** What is answered does not depend on what is behind the layers. *)
Definition blocked (req : request) (st : scope * server) : Prop :=
  forall router router', guarded router req st = guarded router' req st.

Definition authorized (req : request) (st : scope * server) : Prop :=
  let '(e, (sc, s)) := find_route_handler req st.1 st.2 in
  exists u secret_str, (resolve_user_data req sc s).1 = Ret (u, secret_str) /\
    (match e with Some e => auth_required e | None => false end = true -> data_password u = Some (api_password cfg)) /\
    (exempt_path (path req) = true \/ has_secret_param sc = true \/ header "x-api-key" req = Some (api_password cfg)).

Lemma api_key_ok_iff req : api_password cfg <> "" -> api_key_ok req = true <-> header "x-api-key" req = Some (api_password cfg).
Proof.
  intros Hp. unfold api_key_ok. destruct (header _ req) as [k|]; [|done]. rewrite andb_true_iff, negb_true_iff, String.eqb_eq. split.
  - by intros [_ ->].
  - intros [= ->]. split; [|done]. by destruct (api_password cfg).
Qed.

(** [C16] On a private instance a request gets past the layers exactly when its
    configuration can be read, the configuration has the instance's password if
    the endpoint requires it, and the path is exempt, or has a secret, or the
    request has the instance's API key. *)
Lemma private_instance_gate req st : is_public_instance cfg = false -> api_password cfg <> "" ->
  ~ blocked req st <-> authorized req st.
Proof.
  intros Hpub Hpw. destruct st as [sc s].
  assert (forall router, guarded router req (sc, s) =
    let '(e, (sc1, s1)) := find_route_handler req sc s in
    let '(res, s2) := resolve_user_data req sc1 s1 in
    match res with
    | Raise err => (Ret (invalid_user_data e err), (sc1, s2))
    | Ret (u, secret_str) =>
        let sc2 := mkScope (sc_endpoint sc1) (path_params sc1) (Some u) secret_str in
        if password_ok e u then
          if exempt_path (path req) || has_secret_param sc1 || api_key_ok req then add_cors_header router req (sc2, s2)
          else (Ret (invalid_api_key req), (sc2, s2))
        else (Ret (unauthorized req e), (sc1, s2))
    end) as Hg.
  { intros router. unfold guarded, UserDataMiddleware. destruct (find_route_handler req sc s) as [e [sc1 s1]].
    destruct (resolve_user_data req sc1 s1) as [[[u secret_str]|err] s2]; [|done]. destruct (password_ok e u); [|done].
    unfold APIKeyMiddleware. rewrite Hpub. cbn [orb]. change (has_secret_param (mkScope _ (path_params sc1) _ _)) with (has_secret_param sc1).
    destruct (_ || _); [|done]. unfold RateLimitMiddleware. rewrite Hpub. cbn [negb]. by rewrite orb_true_r. }
  unfold authorized, blocked. cbn [fst snd]. destruct (find_route_handler req sc s) as [e [sc1 s1]] eqn:Ef.
  destruct (resolve_user_data req sc1 s1) as [[[u secret_str]|err] s2] eqn:Er; cbn [fst].
  2: { split; [|by intros (u & x & H & _)]. intros H. exfalso. apply H. intros r r'. by rewrite !Hg. }
  assert (password_ok e u = true <-> (match e with Some e => auth_required e | None => false end = true -> data_password u = Some (api_password cfg))) as Hpo.
  { unfold password_ok. rewrite Hpub. destruct (match e with Some e => auth_required e | None => false end); cbn; [|done].
    rewrite bool_decide_eq_true. naive_solver. }
  assert (exempt_path (path req) || has_secret_param sc1 || api_key_ok req = true <->
    (exempt_path (path req) = true \/ has_secret_param sc1 = true \/ header "x-api-key" req = Some (api_password cfg))) as Hk.
  { rewrite !orb_true_iff, api_key_ok_iff by done. tauto. }
  split.
  - intros H. exists u, secret_str. split; [done|]. rewrite <- Hpo, <- Hk.
    destruct (password_ok e u) eqn:E1; [|exfalso; apply H; intros r r'; by rewrite !Hg].
    destruct (_ || _) eqn:E2; [done|]. exfalso; apply H; intros r r'; by rewrite !Hg.
  - intros (u' & x & Heq & H1 & H2) HB. injection Heq as <- <-. apply Hpo in H1. apply Hk in H2.
    set (answer n := (fun _ st => (Ret (mkResponse n (Text "") []), st)) : app).
    specialize (HB (answer 1) (answer 2)). rewrite !Hg, H1, H2 in HB. 
    apply (f_equal (fun x => match x.1 with Ret r => status_code r | Raise _ => 0 end)) in HB. discriminate HB.
Qed.

(** ** The cache of routes *)

Context (sha256_inj : forall s t, sha256 s = sha256 t -> s = t).

Lemma before_colon m d m' d' : str_all (fun c => negb (Ascii.eqb c ":")) m = true -> str_all (fun c => negb (Ascii.eqb c ":")) m' = true ->
  m +:+ ":" +:+ d = m' +:+ ":" +:+ d' -> m = m' /\ d = d'.
Proof.
  revert m'. induction m as [|c m IH]; intros [|c' m']; cbn [str_all].
  - intros _ _ E. rewrite !str_app_cons, !str_app_nil in E. by injection E as ->.
  - intros _ H E. rewrite ?str_app_cons, ?str_app_nil in E. injection E as <- _. done.
  - intros H _ E. rewrite ?str_app_cons, ?str_app_nil in E. injection E as -> _. done.
  - intros [_ H1]%andb_true_iff [_ H2]%andb_true_iff E. rewrite !str_app_cons in E. injection E as -> E.
    by destruct (IH m' H1 H2 E) as [-> ->].
Qed.

(** HTTP methods are tokens: they have no colon. *)
Definition method_ok (m : string) : Prop := str_all (fun c => negb (Ascii.eqb c ":")) m = true.

Lemma find_route_same i rs req req' : method req = method req' -> path req = path req' -> find_route i rs req = find_route i rs req'.
Proof.
  intros Hm Hp. revert i. induction rs as [|r rs IH]; intros i; [done|]. cbn. unfold allowed_method. rewrite Hm, Hp, IH. done.
Qed.

Lemma find_route_Some req rs : forall i j r params, find_route i rs req = Some (j, r, params) ->
  exists k, j = (i + k)%nat /\ rs !! k = Some r /\ full_match r (method req) (path req) = Some params.
Proof.
  induction rs as [|x rs IH]; intros i j r params; [done|]. cbn [find_route].
  assert (find_route (S i) rs req = Some (j, r, params) ->
    exists k, j = (i + k)%nat /\ (x :: rs) !! k = Some r /\ full_match r (method req) (path req) = Some params) as Hnext.
  { intros (k & -> & H1 & H2)%IH. exists (S k). split; [lia|done]. }
  destruct (allowed_method req x); [|done]. destruct (full_match x _ _) as [ps|] eqn:E; [|done].
  intros [= <- <- <-]. exists 0%nat. split; [lia|done].
Qed.

(** Every entry is the first route that the search would find. *)
Definition route_entry (kv : string * nat) : Prop :=
  forall req, method_ok (method req) -> route_cache_key req = kv.1 -> exists r params, find_route 0 routes req = Some (kv.2, r, params).

Definition routes_ok (s : server) : Prop :=
  Forall route_entry (route_lookup_cache s) /\ (length (route_lookup_cache s) <= ROUTE_LOOKUP_CACHE_MAX_ENTRIES)%nat.

Lemma route_key_inj req req' : method_ok (method req) -> method_ok (method req') -> route_cache_key req = route_cache_key req' ->
  method req = method req' /\ path req = path req'.
Proof. intros H1 H2 E. destruct (before_colon _ _ _ _ H1 H2 E) as [Hm Hd]. by apply sha256_inj in Hd. Qed.

Lemma search_routes_ok req sc s : method_ok (method req) -> routes_ok s -> routes_ok (search_routes req sc s).2.2.
Proof.
  intros Hm [H1 H2]. unfold search_routes. destruct (find_route 0 routes req) as [[[i r] params]|] eqn:E; [|by split]. cbn.
  unfold route_cache_set. destruct (dict_has _ _); [by split|]. cbn. apply bounded_set; [unfold ROUTE_LOOKUP_CACHE_MAX_ENTRIES; lia| |by split].
  intros req' Hm' Hk. destruct (route_key_inj req' req Hm' Hm Hk) as [Em Ep]. exists r, params. by rewrite (find_route_same _ _ req' req).
Qed.

(** The cache of routes changes nothing but the time: whatever has been
    looked up before, a lookup gives the endpoint and the path parameters that
    the search in order gives, and the cache keeps at most 4096 routes. *)
Lemma route_cache_transparent req sc s : method_ok (method req) -> sc_endpoint sc = None -> routes_ok s ->
  let '(e, (sc', s')) := find_route_handler req sc s in
  e = (search_routes req sc s).1 /\ sc' = (search_routes req sc s).2.1 /\ routes_ok s' /\
  sv_crypto s' = sv_crypto s /\ sv_redis s' = sv_redis s.
Proof.
  intros Hm Hsc Hok. unfold find_route_handler. rewrite Hsc.
  assert (let '(e, (sc', s')) := search_routes req sc s in e = (search_routes req sc s).1 /\ sc' = (search_routes req sc s).2.1 /\
    routes_ok s' /\ sv_crypto s' = sv_crypto s /\ sv_redis s' = sv_redis s) as Hs.
  { pose proof (search_routes_ok req sc s Hm Hok) as Hok'. unfold search_routes in *. destruct (find_route 0 routes req) as [[[i r] ps]|]; [|done].
    cbn in *. split_and!; [done..| |]; unfold route_cache_set; by destruct (dict_has _ _). }
  unfold route_cache_get. destruct (dict_get (route_cache_key req) (route_lookup_cache s)) as [i|] eqn:Ec; [|done].
  destruct (routes !! i) as [r|] eqn:Er; [|done]. destruct (full_match r _ _) as [params|] eqn:Ef; [|done].
  destruct (dict_get_Forall _ _ _ _ (proj1 Hok) Ec req Hm eq_refl) as (r' & params' & Hfind).
  destruct (find_route_Some req routes 0 i r' params' Hfind) as (k & -> & Hk & Hp). cbn in Er, Hfind.
  rewrite Hk in Er. injection Er as ->. rewrite Hp in Ef. injection Ef as ->. unfold search_routes. rewrite Hfind. done.
Qed.

(** ** Rate limits *)

(** The answers to requests at the given times. *)
Fixpoint limited_run (key : string) (l w : Z) (times : list Z) (r : R) : list bool :=
  match times with
  | [] => []
  | t :: times => let '(allowed, r) := check_rate_limit_with_redis true t key l w r in allowed :: limited_run key l w times r
  end.

(** Each request comes less than a window after the one before it. *)
Fixpoint within_window (w t : Z) (times : list Z) : Prop :=
  match times with [] => True | t' :: times => t <= t' < t + seconds w /\ within_window w t' times end.

Lemma limited_run_from key l w times : forall n t r, within_window w t times ->
  (forall t', t <= t' < t + seconds w -> kv_get t' r key = Some (BJson (VInt n))) ->
  limited_run key l w times r = map (fun i => Z.of_nat i + n <=? l) (seq 1 (length times)).
Proof.
  induction times as [|t' times IH]; intros n t r Hw Hr; [done|]. destruct Hw as [Ht Hw].
  cbn [limited_run check_rate_limit_with_redis incr_expire length seq map]. unfold incr_expire. rewrite (Hr t' Ht).
  cbn [count_of]. rewrite (IH (n + 1) t'); [|done|].
  - f_equal; [rewrite Z.leb_antisym; do 2 f_equal; lia|]. rewrite <- (seq_shift (length times) 1), map_map. apply map_ext. intros i. f_equal. lia.
  - intros t'' Ht''. rewrite kv_get_set by lia. rewrite String.eqb_refl. by rewrite (proj2 (Z.leb_gt _ _)) by lia.
Qed.

(** The window of a rate limit never ends while requests keep coming: of
    requests that each follow the last within the window, exactly the first
    [limit] are ever allowed, however long they go on and however few fall in
    any one window. *)
Lemma rate_limit_never_resets key l w t times r : 0 < w -> kv_get t r key = None -> within_window w t times ->
  limited_run key l w (t :: times) r = map (fun i => Z.of_nat i <=? l) (seq 1 (S (length times))).
Proof.
  intros Hw Hr Ht. cbn [limited_run check_rate_limit_with_redis length seq map]. unfold incr_expire. rewrite Hr. cbn [count_of].
  rewrite (limited_run_from key l w times 1 t); [|done|].
  - f_equal; [rewrite Z.leb_antisym; do 2 f_equal; lia|]. rewrite <- (seq_shift (length times) 1), map_map. apply map_ext. intros i. f_equal. lia.
  - intros t' Ht'. rewrite kv_get_set by lia. rewrite String.eqb_refl. by rewrite (proj2 (Z.leb_gt _ _)) by lia.
Qed.

(** ** The access log *)

Definition no_star (s : string) : Prop := str_all (fun c => negb (Ascii.eqb c "*")) s = true.

Lemma startswith_app_star x u rest : no_star x -> startswith x (u +:+ String "*" rest) = true -> startswith x u = true.
Proof.
  unfold no_star. revert u. induction x as [|c x IH]; intros u; [by destruct u|]. cbn [str_all]. intros [Hc Hx]%andb_true_iff.
  destruct u as [|d u]; rewrite ?str_app_nil, ?str_app_cons; cbn [startswith]; intros [E1 E2]%andb_true_iff.
  - apply Ascii.eqb_eq in E1 as ->. done.
  - rewrite E1. by apply IH.
Qed.

Definition MASK : string := "*MASKED*".

(** Not a part of the mask itself. *)
Definition proper_secret (x : string) : Prop := no_star x /\ contains x "MASKED" = false /\ x <> "".

Lemma contains_mask x rest : proper_secret x -> contains x (MASK +:+ rest) = contains x rest.
Proof.
  intros (Hs & Hm & He). change (MASK +:+ rest) with (String "*" ("MASKED" +:+ String "*" rest)).
  destruct x as [|c x]; [done|].
  assert (forall t, startswith (String c x) (String "*" t) = false) as Hstar.
  { intros t. cbn. unfold no_star in Hs. cbn [str_all] in Hs. apply andb_true_iff in Hs as [Hs _]. by destruct (Ascii.eqb c "*"). }
  cbn [contains]. rewrite Hstar. cbn [orb].
  assert (forall u v, contains (String c x) (u +:+ v) = false -> startswith (String c x) v = false) as Hsuf.
  { induction u as [|d u IH]; intros v; rewrite ?str_app_nil, ?str_app_cons.
    - destruct v; cbn [contains]; intros H; [done|]. by apply orb_false_iff in H as [H _].
    - cbn [contains]. intros [_ H]%orb_false_iff. by apply IH. }
  assert (forall v, (exists u, "MASKED" = u +:+ v) -> startswith (String c x) (v +:+ String "*" rest) = false) as Hin.
  { intros v [u Hu]. destruct (startswith _ _) eqn:E; [|done]. apply startswith_app_star in E; [|done].
    rewrite Hu in Hm. apply Hsuf in Hm. congruence. }
  change ("MASKED" +:+ String "*" rest) with (String "M" ("ASKED" +:+ String "*" rest)) at 1. cbn [contains].
  pose proof (Hin "MASKED" ltac:(by exists "")) as H1. pose proof (Hin "ASKED" ltac:(by exists "M")) as H2.
  pose proof (Hin "SKED" ltac:(by exists "MA")) as H3. pose proof (Hin "KED" ltac:(by exists "MAS")) as H4.
  pose proof (Hin "ED" ltac:(by exists "MASK")) as H5. pose proof (Hin "D" ltac:(by exists "MASKE")) as H6.
  rewrite !str_app_cons, str_app_nil in *. cbn [contains]. rewrite H1, H2, H3, H4, H5, H6, Hstar. done.
Qed.

Lemma replace_startswith y x s : no_star x -> startswith x (replace_from y MASK 0 s) = true -> startswith x s = true.
Proof.
  unfold no_star. revert x. induction s as [|c s IH]; intros x Hx; [done|]. cbn [replace_from].
  destruct (startswith y (String c s)).
  - destruct x as [|d x]; [done|]. cbn [str_all] in Hx. apply andb_true_iff in Hx as [Hd _].
    change (MASK +:+ ?t) with (String "*" ("MASKED*" +:+ t)). cbn [startswith]. intros [E%Ascii.eqb_eq _]%andb_true_iff. by subst d.
  - destruct x as [|d x]; [done|]. cbn [startswith]. cbn [str_all] in Hx. apply andb_true_iff in Hx as [_ Hx].
    intros [E1 E2]%andb_true_iff. rewrite E1. by apply IH.
Qed.

(** Replacing keeps a secret out, and takes the one it replaces out. *)
Lemma replace_hides x y s : proper_secret x -> x = y \/ contains x s = false ->
  forall skip, contains x (replace_from y MASK skip s) = false.
Proof.
  intros Hx. pose proof Hx as (Hs & _ & He). induction s as [|c s IH]; intros Hy skip.
  - cbn. by destruct x.
  - assert (x = y \/ contains x s = false) as Hy'.
    { destruct Hy as [|Hy]; [by left|right]. cbn [contains] in Hy. by apply orb_false_iff in Hy as [_ Hy]. }
    cbn [replace_from]. destruct skip as [|skip]; [|by apply IH].
    destruct (startswith y (String c s)) eqn:E.
    + rewrite contains_mask by done. by apply IH.
    + cbn [contains]. rewrite IH by done. rewrite orb_false_r. destruct (startswith x _) eqn:E'; [|done].
      assert (startswith x (replace_from y MASK 0 (String c s)) = true) as H by (cbn [replace_from]; by rewrite E).
      apply replace_startswith in H; [|done]. destruct Hy as [-> | Hy]; [congruence|]. cbn [contains] in Hy.
      apply orb_false_iff in Hy as [Hy _]. congruence.
Qed.

(** [C17] The access log never shows the secret of a URL: the path of an entry
    does not contain either of the two secrets a route can have, wherever and
    however often they occur in it, unless one is a part of the mask. *)
Lemma access_log_hides_secrets inner req st r k x :
  let '(res, (sc, s)) := SecureLoggingMiddleware inner req st in
  res = Ret r -> k = "secret_str" \/ k = "existing_secret_str" -> dict_get k (path_params sc) = Some x -> proper_secret x ->
  exists entry log, access_log s = entry :: log /\ contains x (log_path entry) = false.
Proof.
  unfold SecureLoggingMiddleware. destruct (inner req st) as [[r'|e] [sc s]]; [|by intros]. intros _ Hk Hg Hx.
  eexists _, _. split; [reflexivity|]. cbn [log_path]. unfold mask_path.
  assert (nonempty_get k (path_params sc) = Some x) as Hn.
  { unfold nonempty_get. rewrite Hg. destruct Hx as (_ & _ & He). by destruct x. }
  assert (forall y p, contains x p = false -> nonempty_get "existing_secret_str" (path_params sc) = Some y -> contains x (replace y "*MASKED*" p) = false) as Hkeep.
  { intros y p Hp. unfold nonempty_get. destruct (dict_get "existing_secret_str" (path_params sc)) as [z|]; [|done].
    destruct (str_empty z) eqn:Ez; [done|]. intros [= <-]. unfold replace. rewrite Ez. apply (replace_hides x z p Hx (or_intror Hp) 0). }
  assert (forall p, contains x (replace x "*MASKED*" p) = false) as Hself.
  { intros p. unfold replace. destruct (str_empty x) eqn:Ez; [destruct Hx as (_ & _ & He); by destruct x|].
    apply (replace_hides x x p Hx (or_introl eq_refl) 0). }
  destruct Hk as [-> | ->]; rewrite Hn.
  - destruct (nonempty_get "existing_secret_str" _) as [y|] eqn:Ey; [by apply Hkeep|apply Hself].
  - apply Hself.
Qed.

End Middleware.

(** ** Instances *)

Definition demo_settings : settings := mkSettings "MediaFusion" "http://h" false "pw" true.
Definition demo_profiles : endpoint := mkEndpoint "list_profiles" false false None None None.
Definition demo_streams : endpoint := with_auth_required (rate_limit 20 3600 (Some "stream") (mkEndpoint "get_streams" false false None None None)).
Definition demo_routes : list route :=
  [mkRoute ["GET"] (fun _ p => if String.eqb p "/api/v1/profiles" then Some [] else None) (Some demo_profiles);
   mkRoute ["GET"] (fun _ p => if startswith "/U-" p then Some [("secret_str", "U-1")] else None) (Some demo_streams)].
Definition demo_server : server store string unit := mkServer [] (mkCrypto [] []) empty_store [] tt.
Definition demo_request (p : string) (hs : list (string * string)) : request := mkRequest "GET" p hs [] (Some "10.0.0.1") false.
Definition demo_heap : list exn := heap_example.
Definition no_provider (u : string) : option StreamingProvider := None.

Local Notation demo_guarded_args k := (k demo_data "" Ret Ret demo_unseal [] id id id Ret (fun _ _ s => s) (fun _ _ s => Ret s) spread demo_unpad
  "key" demo_iv id (fun u => Some u) no_provider demo_settings demo_routes).

(** A router whose first attempt fails with a retryable error: it counts the attempts. *)
Definition flaky : app (R := store) (U := string) (X := nat) := fun _ '(sc, s) =>
  (match sv_state s with O => Raise 0%nat | _ => Ret (mkResponse 200 (Text "ok") []) end,
   (sc, mkServer (route_lookup_cache s) (sv_crypto s) (sv_redis s) (access_log s) (S (sv_state s)))).
Definition flaky_server : server store string nat := mkServer [] (mkCrypto [] []) empty_store [] 0%nat.

(** With the API key the request gets to the endpoint, once; its error is
    answered with a status of 200 on an API path and 500 elsewhere. *)
Lemma transient_retry_is_dead_witness :
  let req := demo_request "/api/v1/profiles" [("x-api-key", "pw")] in
  let app := create_app demo_data "" Ret Ret demo_unseal [] id id id Ret (fun _ _ s => s) (fun _ _ s => Ret s) spread demo_unpad
    "key" demo_iv id (fun u => Some u) no_provider demo_settings demo_routes demo_heap (fun _ => true) (fun _ => None) 0 true [] [] "0.1" "id" flaky in
  (app req (new_scope, flaky_server)).1 =
    (RequestIdMiddleware "id" (SecureLoggingMiddleware (TimingMiddleware demo_heap (fun _ => None) "0.1"
       (demo_guarded_args (@guarded store _ string nat) 0 true [] [] flaky))) req (new_scope, flaky_server)).1 /\
  (TransientDatabaseRetryMiddleware demo_heap (fun _ => true) flaky req (new_scope, flaky_server)).1 = Ret (mkResponse 200 (Text "ok") []).
Proof.
  intros req app.
  destruct (transient_retry_is_dead demo_data "" Ret Ret demo_unseal [] id id id Ret (fun _ _ s => s) (fun _ _ s => Ret s) spread demo_unpad
    "key" demo_iv id (fun u => Some u) no_provider demo_settings demo_routes demo_heap (fun _ => true) (fun _ => None) 0 true [] [] "0.1" "id" flaky
    req (new_scope, flaky_server)) as [H1 H2].
  split; [unfold app; by rewrite H1|].
  rewrite (H2 flaky 0%nat (new_scope, mkServer [] (mkCrypto [] []) empty_store [] 1%nat)); [reflexivity..|vm_compute; reflexivity].
Defined.

Lemma private_instance_gate_witness :
  ~ demo_guarded_args (@blocked store _ string unit) 0 true [] [] (demo_request "/api/v1/profiles" [("x-api-key", "pw")]) (new_scope, demo_server).
Proof.
  apply (demo_guarded_args (@private_instance_gate store _ string unit) 0 true [] []
    (demo_request "/api/v1/profiles" [("x-api-key", "pw")]) (new_scope, demo_server)); [reflexivity|discriminate|].
  exists "", None. split; [reflexivity|]. split; [discriminate|]. by right; right.
Defined.

Lemma route_cache_transparent_witness :
  let req := demo_request "/api/v1/profiles" [] in
  let s := (search_routes id demo_routes req new_scope demo_server).2.2 in
  length (route_lookup_cache s) = 1%nat /\
  (find_route_handler id demo_routes req new_scope s).1 = Some demo_profiles.
Proof.
  intros req s. split; [vm_compute; reflexivity|].
  pose proof (route_cache_transparent id demo_routes (fun s t H => H) req new_scope s eq_refl eq_refl) as H.
  destruct (find_route_handler id demo_routes req new_scope s) as [e [sc' s']].
  assert (routes_ok id demo_routes s) as Hok.
  { apply search_routes_ok; [done|done|]. split; [constructor|vm_compute; lia]. }
  destruct (H Hok) as (He & _). cbn. rewrite He. vm_compute. reflexivity.
Defined.

(** Twenty streams an hour: a request every 59 minutes is refused from the
    twenty-first on. *)
Lemma rate_limit_never_resets_witness :
  let times := map (fun i => Z.of_nat i * seconds 3540) (seq 0 100) in
  within_window 3600 0 (tail times) /\ last (limited_run "k" 20 3600 times empty_store) = Some false.
Proof.
  intros times. assert (within_window 3600 0 (tail times)) as Hw by (vm_compute; repeat split; congruence). split; [exact Hw|].
  change times with (0 :: tail times). rewrite (rate_limit_never_resets "k" 20 3600 0 (tail times) empty_store); [|lia|done|exact Hw].
  vm_compute. reflexivity.
Defined.

Lemma access_log_hides_secrets_witness :
  let inner : app (R := store) (U := string) (X := unit) := fun _ '(sc, s) =>
    (Ret (mkResponse 200 (Text "") []), (mkScope None [("secret_str", "U-1")] None None, s)) in
  exists entry log, access_log (SecureLoggingMiddleware inner (demo_request "/U-1/stream/U-1.json" []) (new_scope, demo_server)).2.2 = entry :: log /\
    contains "U-1" (log_path entry) = false.
Proof.
  intros inner.
  exact (access_log_hides_secrets inner (demo_request "/U-1/stream/U-1.json" []) (new_scope, demo_server) (mkResponse 200 (Text "") []) "secret_str" "U-1"
    eq_refl (or_introl eq_refl) eq_refl ltac:(repeat split; discriminate)).
Defined.
