(* ===== verification/DebridClient.v ===== *)
(** * The base of the debrid clients

    workers/providers/debrid_client.py and workers/providers/exceptions.py:
    requests with one retry, the classification of failures, the session of an
    [async with], the waiting loop and the coding of OAuth codes.

    A client runs against any service: [serve h r] is what the request [r] gets
    after the events [h] (requests and pauses, newest first).  A method is a
    function of the state, the client's fields and the events so far; a failure
    keeps the state it was raised in.  [DebridClient] calls [_make_request]
    through [self], so a retry runs the override of the subclass once more:
    [make_request] ties the two classes together, with the calls that Python's
    recursion limit leaves as its fuel. *)

From S2P Require Export Effects PyJson PyList.
From S2P Require UserSecrets FileSelection.
Local Open Scope string_scope.
Local Open Scope Z_scope.

(** ** Exceptions *)

(** The exceptions that the code tells apart, with their text: those of the
    providers, of aiohttp and aiohttp_socks, of Python and any other. *)
Inductive error :=
  | ProviderException (message video_file_name : string) (retryable : bool)
  | ClientConnectorError (m : string)
  | ClientPayloadError (m : string)
  | ServerDisconnectedError (m : string)
  | ServerTimeoutError (m : string)
  | OtherConnectionError (m : string)
  | ContentTypeError (m : string)
  | OtherClientError (m : string)
  | TimeoutError (m : string)
  | ProxyError (m : string)
  | JSONDecodeError (m : string)
  | Python (e : py_exn)
  | OtherException (m : string).

Definition is_provider (e : error) : bool := match e with ProviderException _ _ _ => true | _ => false end.

(** [except (ValueError, ContentTypeError)] *)
Definition is_parse_error (e : error) : bool :=
  match e with JSONDecodeError _ | ContentTypeError _ | Python ValueError => true | _ => false end.

(** [except (ClientConnectorError, ClientPayloadError, ServerDisconnectedError)] *)
Definition is_retried (e : error) : bool :=
  match e with ClientConnectorError _ | ClientPayloadError _ | ServerDisconnectedError _ => true | _ => false end.

(** [isinstance(error, asyncio.TimeoutError)] *)
Definition is_timeout (e : error) : bool := match e with TimeoutError _ | ServerTimeoutError _ => true | _ => false end.

(** [isinstance(error, (ClientConnectorError, ClientConnectionError))] *)
Definition is_connection_error (e : error) : bool :=
  match e with
  | ClientConnectorError _ | ServerDisconnectedError _ | ServerTimeoutError _ | OtherConnectionError _ => true
  | _ => false
  end.

(** ** Requests and responses *)

(** The form, the bytes or the multipart fields (name, content, file name,
    content type) a request carries. *)
Inductive body :=
  | NoBody
  | Form (d : list (string * value))
  | Bytes (s : string)
  | Multipart (fields : list (string * string * option string * option string)).

(** The arguments of [_make_request]. *)
Record call := mkCall { method : string; url : string; data : body; json : option value;
  params : option (list (string * value)); is_return_none : bool; is_expected_to_fail : bool;
  is_http_response : bool; retry_count : Z }.

(** A call with the defaults. *)
Definition plain (m u : string) : call := mkCall m u NoBody None None false false false 0.

Record request := mkRequest { r_method : string; r_url : string; r_data : body; r_json : option value;
  r_params : option (list (string * value)); r_headers : list (string * string) }.

(** What aiohttp gives: [text] and [json_body] are what the methods [text] and
    [json] return or raise. *)
Record response := mkResponse { status : Z; content_type : string; text : outcome error string;
  json_body : outcome error value }.

(** What [_make_request] returns: data, or the response with its [body]. *)
Inductive reply :=
  | Data (v : value)
  | Response (r : response) (v : value).

Definition reply_value (r : reply) : value := match r with Data v | Response _ v => v end.

Inductive event :=
  | Sent (r : request)
  | Slept (milliseconds : Z).

(** The fields of a client, what has happened so far, and the stream being
    played with the database, which the selection of a file may update. *)
Record state := mkState { token : option string; is_private_token : bool; headers : list (string * string);
  session : bool; history : list event; world : FileSelection.World }.

Definition set_session (b : bool) (s : state) : state :=
  mkState (token s) (is_private_token s) (headers s) b (history s) (world s).
Definition record_event (e : event) (s : state) : state :=
  mkState (token s) (is_private_token s) (headers s) (session s) (e :: history s) (world s).
Definition set_headers (h : list (string * string)) (s : state) : state :=
  mkState (token s) (is_private_token s) h (session s) (history s) (world s).
Definition set_world (w : FileSelection.World) (s : state) : state :=
  mkState (token s) (is_private_token s) (headers s) (session s) (history s) w.
Definition set_private (b : bool) (s : state) : state :=
  mkState (token s) b (headers s) (session s) (history s) (world s).

(** ** Methods *)

Notation M := (Effects.M state error).

Definition lift_py {A} (o : outcome py_exn A) : M A :=
  fun s => (match o with Ret a => Ret a | Raise e => Raise (Python e) end, s).
Definition sleep (milliseconds : Z) : M unit := modify (record_event (Slept milliseconds)).

(** *** Costs

    [costs k z m Q E]: [m] sends at most [k] requests and pauses for at most
    [z] milliseconds, returns only values in [Q] and raises only errors in
    [E]. *)

(** Requests and pauses among the events. *)
Definition sent (h : list event) : nat := length (List.filter (fun e => match e with Sent _ => true | _ => false end) h).
Definition slept (h : list event) : Z := foldr (fun e n => match e with Slept z => z + n | _ => n end) 0 h.

Definition within (n : nat) (t : Z) (s : state) : Prop := (sent (history s) <= n)%nat /\ slept (history s) <= t.

Definition costs {A} (k : nat) (z : Z) (m : M A) (Q : A -> Prop) (E : error -> Prop) : Prop :=
  forall n t, triple (within n t) m (fun a s => Q a /\ within (k + n) (z + t) s)
                                    (fun e s => E e /\ within (k + n) (z + t) s).

Definition any {A} (a : A) : Prop := True.
Definition provider_error (e : error) : Prop := is_provider e = true.

Section Costs.
Context {A B : Type}.

Lemma costs_weaken k k' z z' (m : M A) (Q Q' : A -> Prop) (E E' : error -> Prop) :
  costs k z m Q E -> (k <= k')%nat -> z <= z' -> (forall a, Q a -> Q' a) -> (forall e, E e -> E' e) ->
  costs k' z' m Q' E'.
Proof.
  intros Hm Hk Hz HQ HE n t. eapply triple_conseq; [apply Hm|done|..]; unfold within; cbn; intuition (auto; lia).
Qed.

Lemma costs_ret k z (a : A) (Q : A -> Prop) E : 0 <= z -> Q a -> costs k z (mret a) Q E.
Proof. intros Hz Ha n t s Hs. split; [done|]. unfold within in *. cbn. lia. Qed.

Lemma costs_throw k z e (Q : A -> Prop) (E : error -> Prop) : 0 <= z -> E e -> costs k z (throw e) Q E.
Proof. intros Hz Ha n t s Hs. split; [done|]. unfold within in *. cbn. lia. Qed.

Lemma costs_lift k z (o : outcome error A) (Q : A -> Prop) (E : error -> Prop) : 0 <= z ->
  match o with Ret a => Q a | Raise e => E e end -> costs k z (lift o) Q E.
Proof. intros Hz Ha. destruct o; [by apply costs_ret|by apply costs_throw]. Qed.

Lemma costs_lift_any k z (o : outcome error A) : 0 <= z -> costs k z (lift o) any any.
Proof. intros Hz. apply costs_lift; [done|]. by destruct o. Qed.

Lemma costs_bind k1 z1 k2 z2 (m : M A) (f : A -> M B) Q1 Q E : 0 <= z2 ->
  costs k1 z1 m Q1 E -> (forall a, Q1 a -> costs k2 z2 (f a) Q E) -> costs (k1 + k2) (z1 + z2) (m ≫= f) Q E.
Proof.
  intros Hz Hm Hf n t. eapply triple_bind.
  - eapply triple_conseq; [apply (Hm n t)|done|intros a s H; exact H|]. unfold within. cbn. intuition lia.
  - intros a s [HQ Hs]. specialize (Hf a HQ (k1 + n)%nat (z1 + t) s Hs).
    destruct (f a s) as [[b|e] s']; unfold within in *; intuition lia.
Qed.

Lemma costs_catch k1 z1 k2 z2 (m : M A) p h Q (E1 E : error -> Prop) : 0 <= z2 ->
  costs k1 z1 m Q E1 -> (forall e, p e = true -> E1 e -> costs k2 z2 (h e) Q E) ->
  (forall e, p e = false -> E1 e -> E e) -> costs (k1 + k2) (z1 + z2) (catch m p h) Q E.
Proof.
  intros Hz Hm Hh Hn n t. eapply triple_catch with
    (R1 := fun e s => E1 e /\ within (k1 + n) (z1 + t) s).
  - eapply triple_conseq; [apply (Hm n t)|done| |done]. unfold within. cbn. intuition lia.
  - intros e Hp s [He Hs]. specialize (Hh e Hp He (k1 + n)%nat (z1 + t) s Hs).
    destruct (h e s) as [[b|e'] s']; unfold within in *; intuition lia.
  - unfold within. cbn. intros e s Hp [He Hs]. split; [by apply Hn|]. lia.
Qed.

Lemma costs_get k z (f : state -> M A) Q E : (forall s, costs k z (f s) Q E) -> costs k z (get ≫= f) Q E.
Proof. intros Hf n t s Hs. exact (Hf s n t s Hs). Qed.

Lemma costs_modify k z f E : 0 <= z -> (forall s, history (f s) = history s) -> costs k z (modify f) any E.
Proof. intros Hz Hf n t s Hs. split; [done|]. unfold within in *. cbn. rewrite Hf. lia. Qed.

Lemma costs_sleep k z E : costs k z (sleep z) any E.
Proof.
  intros n t s [H1 H2]. split; [done|]. split; [exact (Nat.le_trans _ _ _ H1 (Nat.le_add_l _ _))|].
  change (z + slept (history s) <= z + t). lia.
Qed.

Lemma costs_sent k z r E : 0 <= z -> costs (S k) z (modify (record_event (Sent r))) any E.
Proof.
  intros Hz n t s [H1 H2]. split; [done|]. split; [|change (slept (history s) <= z + t); lia].
  change (S (sent (history s)) <= S k + n)%nat. lia.
Qed.
End Costs.

Lemma costs_bind_any {A B} k1 z1 k2 z2 k z (m : M A) (f : A -> M B) : 0 <= z2 -> (k1 + k2 <= k)%nat -> z1 + z2 <= z ->
  costs k1 z1 m any any -> (forall a, costs k2 z2 (f a) any any) -> costs k z (m ≫= f) any any.
Proof.
  intros Hz Hk Hzz Hm Hf. eapply costs_weaken; [by apply (costs_bind k1 z1 k2 z2) with (Q1 := any) (Q := any) (E := any)|done..].
Qed.

(** ** [DebridClient] *)

(** What a subclass adds: its errors ([_handle_service_specific_errors]), and
    the override of [_make_request] as the arguments it passes to [super()]
    and what it makes of the result. *)
Class Provider := {
  handle_service_specific_errors : list (string * value) -> Z -> outcome error unit;
  prepare : state -> call -> call;
  finish : call -> reply -> outcome error reply }.

Section Client.
(** [str(error)] of Python's own exceptions, what building the connector gives,
    and the service. *)
Context (exn_text : py_exn -> string) (open_session : outcome error unit).
Context (serve : list event -> request -> outcome error response).

Definition str_error (e : error) : string :=
  match e with
  | ProviderException m _ _ | ClientConnectorError m | ClientPayloadError m | ServerDisconnectedError m
  | ServerTimeoutError m | OtherConnectionError m | ContentTypeError m | OtherClientError m | TimeoutError m
  | ProxyError m | JSONDecodeError m | OtherException m => m
  | Python e => exn_text e
  end.

Definition service_down : string := "debrid_service_down_error.mp4".
Definition api_error : string := "api_error.mp4".

(** [_handle_request_error]: the exception it raises. *)
Definition handle_request_error (e : error) : error :=
  let error_message := lower (str_error e) in
  if is_timeout e then ProviderException "Debrid service timed out." service_down true
  else match e with
  | ProxyError _ => ProviderException "Failed to connect to Debrid service." service_down true
  | ClientPayloadError _ =>
      ProviderException "Debrid service closed the connection unexpectedly." service_down true
  | _ =>
      if is_connection_error e then ProviderException "Failed to connect to Debrid service." service_down true
      else if existsb (fun t => contains t error_message)
                ["service unavailable"; "connection refused"; "temporarily unavailable"; "proxy error"]
      then ProviderException "Failed to connect to Debrid service." service_down false
      else ProviderException ("Request error: " +:+ str_error e) api_error false
  end.

(** [_maybe_raise_need_premium_for_subscription_api_message] *)
Definition maybe_raise_need_premium (error_dict : option (list (string * value))) : outcome error unit :=
  match error_dict with
  | None => Ret tt
  | Some d =>
      match dict_get "message" d with
      | Some (VStr raw) =>
          let text := strip raw in
          if negb (str_empty text) && contains "subscription" (lower text) && contains "api" (lower text)
          then Raise (ProviderException text "need_premium.mp4" false)
          else Ret tt
      | _ => Ret tt
      end
  end.

(** The body of an error response. *)
Definition error_content (r : response) : outcome error value :=
  let content_type := lower (content_type r) in
  if contains "application/json" content_type || contains "+json" content_type then
    match json_body r with
    | Raise e => if is_parse_error e then VStr <$> text r else Raise e
    | Ret v => Ret v
    end
  else VStr <$> text r.

Definition error_dict (content : value) : option (list (string * value)) :=
  match content with
  | VDict d => Some d
  | VStr s =>
      if str_empty (strip s) then None
      else match json_loads (strip s) with Ret (VDict d) => Some d | _ => None end
  | _ => None
  end.

(** A 403 without an error of the service. *)
Definition forbidden (d : option (list (string * value))) (content : value) : error :=
  let denied := ProviderException "Access forbidden" api_error false in
  match d with
  | Some d =>
      match dict_get "message" d with
      | Some (VStr m) => if str_empty (strip m) then denied else ProviderException (strip m) api_error false
      | _ => denied
      end
  | None =>
      match content with
      | VStr s => if str_empty (strip s) then denied else ProviderException (strip s) api_error false
      | _ => denied
      end
  end.

(** The exception for a status, once the service's errors are ruled out. *)
Definition status_error (st : Z) (d : option (list (string * value))) (content : value) : error :=
  if st =? 401 then ProviderException "Invalid token" "invalid_token.mp4" false
  else if st =? 429 then ProviderException "Too many requests" "too_many_requests.mp4" false
  else if st =? 403 then forbidden d content
  else if existsb (Z.eqb st) [500; 502; 503; 504]
  then ProviderException "Debrid service is down." service_down false
  else ProviderException ("API Error " +:+ str content) api_error false.

Section Requests.
Context `{Provider}.

(** [_check_response_status]; [raise_for_status] raises from 400 on. *)
Definition check_response_status (r : response) (expected_to_fail : bool) : outcome error unit :=
  if status r <? 400 then Ret tt
  else if expected_to_fail then Ret tt
  else
    content ← error_content r;
    let d := error_dict content in
    _ ← match d with Some d => handle_service_specific_errors d (status r) | None => Ret tt end;
    _ ← maybe_raise_need_premium d;
    Raise (status_error (status r) d content).

(** [_parse_response] *)
Definition parse_response (r : response) (return_none expected_to_fail http_response : bool) : outcome error reply :=
  if return_none then Ret (Data (VDict []))
  else
    match json_body r with
    | Ret v => Ret (if http_response then Response r v else Data v)
    | Raise e =>
        if is_parse_error e then
          response_text ← text r;
          if http_response then Ret (Response r (VStr response_text))
          else if expected_to_fail then Ret (Data (VStr response_text))
          else Raise
            match e with
            | JSONDecodeError _ =>
                ProviderException "Streaming provider returned invalid or incomplete data. Please try again."
                  service_down true
            | _ =>
                ProviderException ("Failed to parse response error: " +:+ str_error e +:+ ". " +:+
                  String (of_code 10) ("response: " +:+ response_text)) api_error false
            end
        else Raise e
    end.

(** [self.session] *)
Definition ensure_session : M unit :=
  s ← get;
  if session s then mret tt else _ ← lift open_session; modify (set_session true).

Definition request_of (c : call) (s : state) : request :=
  mkRequest (method c) (url c) (data c) (json c) (params c) (headers s).

Definition send (c : call) : M response :=
  _ ← ensure_session;
  s ← get;
  _ ← modify (record_event (Sent (request_of c s)));
  lift (serve (history s) (request_of c s)).

Definition retried (c : call) : call :=
  mkCall (method c) (url c) (data c) (json c) (params c) (is_return_none c) (is_expected_to_fail c)
    (is_http_response c) (retry_count c + 1).

(** The [try] block of [_make_request]. *)
Definition attempt (c : call) : M reply :=
  r ← send c;
  _ ← lift (check_response_status r (is_expected_to_fail c));
  lift (parse_response r (is_return_none c) (is_expected_to_fail c) (is_http_response c)).

(** [DebridClient._make_request]; [self] is [self._make_request]. *)
Definition base_request (self : call -> M reply) (c : call) : M reply :=
  catch (attempt c) (fun e => negb (is_provider e))
    (fun e => if is_retried e && (retry_count c <? 1) then self (retried c) else throw (handle_request_error e)).

(** The override of the subclass. *)
Definition override (super : call -> M reply) (c : call) : M reply :=
  s ← get;
  r ← super (prepare s c);
  lift (finish c r).

Definition recursion_error : error := OtherException "maximum recursion depth exceeded".

(** [self._make_request], with [depth] nested calls left. *)
Fixpoint make_request (depth : nat) (c : call) : M reply :=
  match depth with
  | O => throw recursion_error
  | S depth => override (base_request (make_request depth)) c
  end.
End Requests.

(** *** The session *)

Section Session.
Context (initialize_headers disable_access_token : M unit).

Definition close_session : M unit := modify (set_session false).

(** [__aenter__] *)
Definition aenter : M unit :=
  catch initialize_headers is_provider (fun e => _ ← close_session; throw e).

(** [close] *)
Definition close : M unit :=
  s ← get;
  _ ← match token s with
      | Some t =>
          if negb (str_empty t) && negb (is_private_token s)
          then catch disable_access_token is_provider (fun _ => mret tt) else mret tt
      | None => mret tt
      end;
  close_session.

(** [async with client: m] *)
Definition with_client {A} (m : M A) : M A := aenter ≫= fun _ => finally m close.
End Session.

(** *** Waiting *)

(** [_normalize_status] on [torrent_info.get("status")] or a target. *)
Definition normalize_status (v : option value) : string :=
  match v with
  | None | Some VNone => ""
  | Some v => lower (strip (str v))
  end.

Definition status_of (d : list (string * value)) : string := normalize_status (dict_get "status" d).

Definition not_reached (target_status : value) : error :=
  ProviderException ("Torrent did not reach " +:+ str target_status +:+ " status.") "torrent_not_downloaded.mp4" false.

(** [torrent_info.get('errorMessage', 'unknown error')] *)
Definition error_state (d : list (string * value)) : error :=
  ProviderException ("Torrent entered error state: " +:+
    str (default (VStr "unknown error") (dict_get "errorMessage" d))) "transfer_error.mp4" false.

Section Waiting.
Context (get_torrent_info : value -> M value) (should_retry_torrent_info_error : error -> bool).

(** The polls, of which [n] are left. *)
Fixpoint poll (torrent_id target_status : value) (retry_interval : Z) (n : nat) : M value :=
  match n with
  | O => throw (not_reached target_status)
  | S n =>
      let again (e : error) : M value :=
        match n with
        | O => throw e
        | S _ => _ ← sleep (1000 * retry_interval); poll torrent_id target_status retry_interval n
        end in
      r ← catch (v ← get_torrent_info torrent_id; mret (Some v)) (fun e => is_provider e && should_retry_torrent_info_error e)
            (fun _ => mret None);
      match r with
      | None => again (not_reached target_status)
      | Some (VDict d) =>
          if String.eqb (status_of d) (normalize_status (Some target_status)) then mret (VDict d)
          else if String.eqb (status_of d) "error" then throw (error_state d)
          else again (not_reached target_status)
      | Some _ => again (ProviderException "Torrent info response was invalid." "torrent_not_downloaded.mp4" false)
      end
  end.

(** [wait_for_status] *)
Definition wait_for_status (torrent_id target_status : value) (max_retries retry_interval : Z)
    (torrent_info : option value) : M value :=
  match torrent_info with
  | Some (VDict ((_ :: _) as d)) =>
      if String.eqb (status_of d) (normalize_status (Some target_status)) then mret (VDict d)
      else poll torrent_id target_status retry_interval (Z.to_nat max_retries)
  | _ => poll torrent_id target_status retry_interval (Z.to_nat max_retries)
  end.
End Waiting.

(** *** OAuth codes *)

(** Standard base64, from the URL-safe one by its two other characters. *)
Definition standard_char (c : ascii) : ascii :=
  if Ascii.eqb c "-" then "+" else if Ascii.eqb c "_" then "/" else c.
Definition b64encode (s : string) : string :=
  str_map standard_char (UserSecrets.make_urlsafe s) +:+ UserSecrets.padding (UserSecrets.make_urlsafe s).
Definition b64decode (s : string) : outcome py_exn string :=
  if str_all (fun c => code c <? 128) s
  then UserSecrets.b64decode (str_filter (fun c => negb (str_any (Ascii.eqb c) "-_")) s) 0 0 0
  else Raise ValueError.

(** Bytes that [bytes.decode] accepts as UTF-8, without surrogates and
    overlong forms; the string keeps the bytes. *)
Fixpoint utf8 (need : nat) (lo hi : Z) (s : string) : bool :=
  match s with
  | "" => match need with O => true | _ => false end
  | String c s =>
      match need with
      | S n => in_range lo hi c && utf8 n 128 191 s
      | O =>
          if code c <? 128 then utf8 0 128 191 s
          else if in_range 194 223 c then utf8 1 128 191 s
          else if code c =? 224 then utf8 2 160 191 s
          else if code c =? 237 then utf8 2 128 159 s
          else if in_range 225 239 c then utf8 2 128 191 s
          else if code c =? 240 then utf8 3 144 191 s
          else if in_range 241 243 c then utf8 3 128 191 s
          else if code c =? 244 then utf8 3 128 143 s
          else false
      end
  end.
Definition decode_utf8 (s : string) : outcome py_exn string := if utf8 0 128 191 s then Ret s else Raise ValueError.

Definition encode_token_data (code : string) : string := b64encode ("code:" +:+ code).

(** [decode_token_str]: [None] for a private token. *)
Definition decode_token_str (tok : string) : option string :=
  match (s ← b64decode tok; decode_utf8 s) with
  | Ret s => match split_char ":" s with [_; code] => Some code | _ => None end
  | Raise _ => None
  end.

(** ** Properties *)

(** *** Requests *)

Section RequestFacts.
Context `{Provider}.

Lemma handle_request_error_provider e : is_provider (handle_request_error e) = true.
Proof. unfold handle_request_error. destruct (is_timeout e); [done|]. destruct e; cbn; by repeat case_test. Qed.

Lemma send_costs c : costs 1 0 (send c) any any.
Proof.
  apply (costs_bind 0 0 1 0) with (Q1 := any); [lia| |].
  - apply costs_get. intros s. destruct (session s); [by apply costs_ret|].
    apply (costs_bind 0 0 0 0) with (Q1 := any); [lia| |intros; by apply costs_modify].
    apply costs_lift; [lia|]. by destruct open_session.
  - intros _ _. apply costs_get. intros s. apply (costs_bind 1 0 0 0) with (Q1 := any); [lia|by apply costs_sent|].
    intros _ _. apply costs_lift; [lia|]. by destruct (serve _ _).
Qed.

Lemma attempt_costs c : costs 1 0 (attempt c) any any.
Proof.
  apply (costs_bind 1 0 0 0) with (Q1 := any); [lia|apply send_costs|]. intros r _.
  apply (costs_bind 0 0 0 0) with (Q1 := any); [lia|apply costs_lift; [lia|by destruct (check_response_status _ _)]|].
  intros _ _. apply costs_lift; [lia|by destruct (parse_response _ _ _ _)].
Qed.

(** After the second attempt the method itself is not called again. *)
Lemma base_request_last self self' c s : 1 <= retry_count c -> base_request self c s = base_request self' c s.
Proof.
  intros Hc. unfold base_request, catch. destruct (Z.ltb_spec (retry_count c) 1); [lia|].
  destruct (attempt c s) as [[r|e] s']; [done|]. by rewrite andb_false_r.
Qed.

(** A call whose request is dropped is made again with the arguments the
    override has produced. *)
Lemma make_request_retried d c s e :
  let c1 := prepare s c in
  session s = true -> retry_count c1 < 1 -> serve (history s) (request_of c1 s) = Raise e -> is_retried e = true ->
  make_request (S d) c s =
  (r ← make_request d (retried c1); lift (finish c r)) (record_event (Sent (request_of c1 s)) s).
Proof.
  intros c1 Hs Hr He Hd. rewrite <- (Z.ltb_lt _ 1) in Hr.
  change (make_request (S d) c) with (override (base_request (make_request d)) c).
  unfold override, mbind, M_bind, get. cbn -[make_request]. fold c1.
  unfold base_request at 1, catch at 1, attempt at 1, send at 1, ensure_session at 1, mbind, M_bind, get, modify, lift at 1 2 3 4.
  cbn -[make_request]. rewrite Hs. cbn -[make_request]. rewrite He. destruct e; try done; cbn -[make_request]; by rewrite Hr.
Qed.

(** A request that is answered with JSON at once. *)
Lemma make_request_answered d c s r v :
  let c1 := prepare s c in
  open_session = Ret tt -> serve (history s) (request_of c1 s) = Ret r ->
  status r < 400 \/ is_expected_to_fail c1 = true -> json_body r = Ret v ->
  is_return_none c1 = false -> is_http_response c1 = false ->
  make_request (S d) c s = (finish c (Data v), record_event (Sent (request_of c1 s)) (set_session true s)).
Proof.
  intros c1 Ho Hr Hst Hj Hn Hh. cbn [make_request].
  assert (Hok : check_response_status r (is_expected_to_fail c1) = Ret tt).
  { unfold check_response_status. destruct (Z.ltb_spec (status r) 400); [done|]. destruct Hst as [|Hx]; [lia|]. by rewrite Hx. }
  unfold override, base_request, catch, attempt, send, ensure_session, mbind, M_bind, get, modify, lift, throw, mret, M_ret.
  fold c1. unfold request_of in *. destruct s as [t p h [] hist w]; cbn -[check_response_status parse_response finish prepare] in *;
    rewrite ?Ho; cbn -[check_response_status parse_response finish prepare];
    rewrite Hr, Hok; unfold parse_response; cbn -[finish]; by rewrite Hn, Hj, Hh.
Qed.

(** With the session open, an attempt sends exactly its request. *)
Lemma attempt_sent c s : session s = true ->
  (attempt c s).2 = record_event (Sent (request_of c s)) s.
Proof.
  intros Hs. unfold attempt, send, ensure_session, mbind, M_bind, get, modify, lift.
  cbn -[check_response_status parse_response]. rewrite Hs. cbn -[check_response_status parse_response].
  destruct (serve (history s) (request_of c s)) as [r|]; [|done].
  destruct (check_response_status r (is_expected_to_fail c)); [|done].
  by destruct (parse_response r (is_return_none c) (is_expected_to_fail c) (is_http_response c)).
Qed.

(** So does a call that is a retry already. *)
Lemma make_request_last_sent d c s : session s = true -> 1 <= retry_count (prepare s c) ->
  (make_request (S d) c s).2 = record_event (Sent (request_of (prepare s c) s)) s.
Proof.
  intros Hs Hc. cbn [make_request]. unfold override, mbind, M_bind, get, base_request, catch.
  pose proof (attempt_sent (prepare s c) s Hs) as Ha. destruct (attempt _ _) as [[r|e] s1]; cbn in Ha; subst s1; [done|].
  destruct (Z.ltb_spec (retry_count (prepare s c)) 1); [lia|]. rewrite andb_false_r. by destruct (negb (is_provider e)).
Qed.

(** The laws of a subclass whose override keeps the retry counter. *)
Context (Hprepare : forall s c, retry_count (prepare s c) = retry_count c).

(** A provider exception, or what the override raises when it unwraps an answer. *)
Definition request_error (e : error) : Prop := is_provider e = true \/ exists c r, finish c r = Raise e.

Lemma make_request_last d c s : 1 <= retry_count c -> make_request (S d) c s = make_request 1 c s.
Proof.
  intros Hc. cbn [make_request]. unfold override, mbind, M_bind, get.
  rewrite (base_request_last (make_request d) (make_request 0)); [done|by rewrite Hprepare].
Qed.

Lemma make_request_deep d c s : 0 <= retry_count c -> make_request (S (S d)) c s = make_request 2 c s.
Proof.
  intros Hc. change (make_request (S (S d)) c) with (override (base_request (make_request (S d))) c).
  change (make_request 2 c) with (override (base_request (make_request 1)) c).
  unfold override, mbind, M_bind, get, base_request, catch. destruct (attempt _ _) as [[r|e] s']; [done|].
  destruct (negb (is_provider e)); [|done]. destruct (_ && _); [|done].
  rewrite make_request_last; [done|]. cbn. rewrite Hprepare. lia.
Qed.

(** One level of [make_request]: one request and, for a first call, those of
    the retry. *)
Lemma override_costs self c k : 0 <= retry_count c ->
  (retry_count c < 1 -> forall c', 1 <= retry_count c' -> costs k 0 (self c') any request_error) ->
  costs (1 + k) 0 (override (base_request self) c) any request_error.
Proof.
  intros Hc Hself. apply costs_get. intros s.
  eapply (costs_weaken (1 + k + 0) _ (0 + 0)); [|lia|lia|done|done]. eapply costs_bind with (Q1 := any); [lia| |].
  - apply (costs_catch 1 0 k 0) with (E1 := any); [lia|apply attempt_costs| |].
    + intros e _ _. destruct (is_retried e && _) eqn:Er.
      * zbool. rewrite Hprepare in *. apply Hself; cbn; rewrite ?Hprepare; lia.
      * apply costs_throw; [lia|]. left. apply handle_request_error_provider.
    + intros e He _. left. by apply negb_false_iff.
  - intros r _. apply costs_lift; [lia|]. destruct (finish c r) eqn:Ef; [exact I|]. right. by eexists _, _.
Qed.

Lemma make_request_costs c : 0 <= retry_count c -> costs 2 0 (make_request 2 c) any request_error.
Proof.
  intros Hc. apply (override_costs (make_request 1) c 1); [done|]. intros _ c' Hc'.
  apply (override_costs (make_request 0) c' 0); lia.
Qed.

(** With an override that raises only provider exceptions. *)
Lemma make_request_costs_deep (Hfinish : forall c r e, finish c r = Raise e -> is_provider e = true) d c :
  0 <= retry_count c -> costs 2 0 (make_request (S (S d)) c) any provider_error.
Proof.
  intros Hc n t s Hs. rewrite make_request_deep by done. revert n t s Hs.
  eapply costs_weaken; [by apply make_request_costs|done..|]. intros e [He|(c' & r & He)]; [done|by eapply Hfinish].
Qed.
End RequestFacts.

(** [C21] A call of a client whose override keeps the retry counter ends: at most
    two requests are sent, and no more than two nested calls are made, however
    deep Python would let it recurse.  What it raises is a provider exception, or
    what the override's own last step raises, which unwraps the answer: nothing,
    except for StremThru, whose [response.get] is an AttributeError on an answer
    that is no dictionary. *)
Theorem make_request_ends `{Provider} (depth : nat) (c : call) (s : state)
    (Hprepare : forall s c, retry_count (prepare s c) = retry_count c) (Hcount : 0 <= retry_count c) :
  let '(r, s') := make_request (S (S depth)) c s in
  (r, s') = make_request 2 c s /\ (sent (history s') <= 2 + sent (history s))%nat /\
  match r with Ret _ => True | Raise e => is_provider e = true \/ exists c' v, finish c' v = Raise e end.
Proof.
  rewrite (make_request_deep Hprepare) by done.
  pose proof (make_request_costs Hprepare c Hcount _ _ s (conj (Nat.le_refl _) (Z.le_refl _))) as Hs.
  destruct (make_request 2 c s) as [[r|e] s']; destruct Hs as (HE & Hn & _); (split; [done|split; [exact Hn|]]); [exact I|exact HE].
Qed.

(** A status from 400 on raises, unless the caller expects failures. *)
Lemma failure_raises `{Provider} (r : response) : 400 <= status r -> is_ret (check_response_status r false) = false.
Proof.
  assert (Hb : forall A B (m : outcome error A) (f : A -> outcome error B), (forall a, is_ret (f a) = false) -> is_ret (m ≫= f) = false).
  { intros A B m f Hf. by destruct m; [apply Hf|]. }
  intros Hs. unfold check_response_status. destruct (Z.ltb_spec (status r) 400); [lia|].
  apply Hb. intros v. apply Hb. intros _. by apply Hb.
Qed.

(** *** Sessions *)

(** However the block of an [async with] ends, its session is closed: the
    headers may fail with a provider exception, the block and the revocation of
    the token may raise. *)
Theorem session_closed {A} (initialize_headers disable_access_token : M unit) (m : M A) (s : state)
    (Hinit : forall s e s', initialize_headers s = (Raise e, s') -> is_provider e = true)
    (Hdisable : forall s e s', disable_access_token s = (Raise e, s') -> is_provider e = true) :
  session (with_client initialize_headers disable_access_token m s).2 = false.
Proof.
  assert (Hclose : forall s, exists s', close disable_access_token s = (Ret tt, s') /\ session s' = false).
  { intros s1. unfold close, mbind, M_bind, get. destruct (token s1) as [t|]; [destruct (_ && _)|]; [|by eexists..].
    unfold catch. destruct (disable_access_token s1) as [[[]|e] s2] eqn:Ed; [by eexists|].
    rewrite (Hdisable _ _ _ Ed). by eexists. }
  unfold with_client, mbind, M_bind, aenter, catch. destruct (initialize_headers s) as [[[]|e] s1] eqn:Ei.
  - unfold finally, mbind, M_bind. destruct (m s1) as [[a|e] s2]; by destruct (Hclose s2) as (s3 & -> & ?).
  - by rewrite (Hinit _ _ _ Ei).
Qed.

Lemma bind_ret {A B} (m : M A) (f : A -> M B) s b s' : (m ≫= f) s = (Ret b, s') ->
  exists a s1, m s = (Ret a, s1) /\ f a s1 = (Ret b, s').
Proof. unfold mbind, M_bind. destruct (m s) as [[a|e] s1]; [by exists a, s1|done]. Qed.

(** What the block of an [async with] returned. *)
Lemma with_client_ret {A} init disable (m : M A) s a s' :
  with_client init disable m s = (Ret a, s') -> exists s1 s2, m s1 = (Ret a, s2).
Proof.
  intros (u & s1 & _ & H)%bind_ret. exists s1. unfold finally in H. destruct (m s1) as [[a'|e] s2].
  - apply bind_ret in H as (u' & s3 & _ & [= -> _]). by exists s2.
  - by apply bind_ret in H as (u' & s3 & _ & [=]).
Qed.

Lemma with_client_costs {A} init disable ki zi kd zd k z (m : M A) Q E : 0 <= zi -> 0 <= zd -> 0 <= z ->
  costs ki zi init any E -> costs kd zd disable any E -> costs k z m Q E ->
  costs (ki + (k + kd)) (zi + (z + zd)) (with_client init disable m) Q E.
Proof.
  intros Hzi Hzd Hz Hi Hd Hm.
  assert (Hc : costs kd zd (close disable) any E).
  { apply costs_get. intros s. eapply costs_weaken; [apply (costs_bind kd zd 0 0) with (Q1 := any)|lia|lia|done|done]; [lia| |].
    - destruct (token s) as [t|]; [destruct (_ && _)|]; [|by apply costs_ret..].
      eapply costs_weaken; [apply (costs_catch kd zd 0 0) with (E1 := E)|lia|lia|done|done]; [lia|done|intros; by apply costs_ret|done].
    - intros; by apply costs_modify. }
  apply costs_bind with (Q1 := any); [lia| |].
  - eapply costs_weaken; [apply (costs_catch ki zi 0 0) with (E1 := E)|lia|lia|done|done]; [lia|done| |done]. intros e _ He.
    apply (costs_bind 0 0 0 0) with (Q1 := any); [lia|by apply costs_modify|intros; by apply costs_throw].
  - intros _ _ n t s Hs. unfold finally. specialize (Hm n t s Hs).
    destruct (m s) as [[a|e] s1]; destruct Hm as [Ha Hw]; specialize (Hc _ _ s1 Hw);
      unfold mbind, M_bind; destruct (close disable s1) as [[u|e'] s2]; destruct Hc as [He Hw2];
      (split; [done|]); unfold within in *; cbn -[sent slept] in *; lia.
Qed.

(** *** Waiting *)

Section Polls.
Context (get_torrent_info : value -> M value) (should_retry : error -> bool).

Definition reached (target_status v : value) : Prop :=
  exists d, v = VDict d /\ status_of d = normalize_status (Some target_status).

Lemma poll_costs k torrent_id target interval n : 0 <= interval ->
  costs k 0 (get_torrent_info torrent_id) any provider_error ->
  costs (n * k) (1000 * interval * Z.of_nat (n - 1)) (poll get_torrent_info should_retry torrent_id target interval n)
    (reached target) provider_error.
Proof.
  intros Hi Hinfo. induction n as [|n IH]; [apply costs_throw; [lia|reflexivity]|]. cbn [poll].
  assert (Hagain : forall e, provider_error e ->
    costs (n * k) (1000 * interval * Z.of_nat n)
      match n with
      | O => throw e
      | S _ => sleep (1000 * interval) ≫= fun _ => poll get_torrent_info should_retry torrent_id target interval n
      end (reached target) provider_error).
  { intros e He. destruct n as [|n']; [apply costs_throw; [lia|exact He]|].
    eapply costs_weaken;
      [apply (costs_bind 0 (1000 * interval) (S n' * k) (1000 * interval * Z.of_nat (S n' - 1)) _ _ any);
         [nia|apply costs_sleep|intros ? _; exact IH]|lia|nia|done|done]. }
  replace (S n - 1)%nat with n by lia.
  eapply costs_weaken; [apply (costs_bind (k + 0 + 0) (0 + 0 + 0) (n * k) (1000 * interval * Z.of_nat n) _ _ any)|lia|lia|done|done];
    [nia| |].
  - apply costs_catch with (E1 := provider_error); [lia| |intros; by apply costs_ret|done].
    apply costs_bind with (Q1 := any); [lia|done|intros; by apply costs_ret].
  - intros r _. destruct r as [[]|]; try by apply Hagain.
    destruct (String.eqb_spec (status_of d) (normalize_status (Some target))); [apply costs_ret; [lia|by eexists]|].
    destruct (String.eqb _ "error"); [apply costs_throw; [lia|reflexivity]|by apply Hagain].
Qed.
End Polls.

Lemma wait_for_status_costs (get_torrent_info : value -> M value) (should_retry : error -> bool) (k : nat)
    (torrent_id target_status : value) (max_retries retry_interval : Z) (torrent_info : option value)
    (Hinfo : costs k 0 (get_torrent_info torrent_id) any provider_error) (Hinterval : 0 <= retry_interval) :
  costs (Z.to_nat max_retries * k) (1000 * retry_interval * Z.max 0 (max_retries - 1))
    (wait_for_status get_torrent_info should_retry torrent_id target_status max_retries retry_interval torrent_info)
    (reached target_status) provider_error.
Proof.
  assert (Hpoll : costs (Z.to_nat max_retries * k) (1000 * retry_interval * Z.max 0 (max_retries - 1))
    (poll get_torrent_info should_retry torrent_id target_status retry_interval (Z.to_nat max_retries))
    (reached target_status) provider_error).
  { eapply costs_weaken; [by apply poll_costs|lia| |done|done]. nia. }
  unfold wait_for_status. destruct torrent_info as [[]|]; try exact Hpoll. destruct d as [|kv d]; [exact Hpoll|].
  destruct (String.eqb_spec (status_of (kv :: d)) (normalize_status (Some target_status))); [|exact Hpoll].
  apply costs_ret; [nia|by eexists].
Qed.

(** [wait_for_status] returns only information with the status it waits
    for, raises only provider exceptions, asks at most [max_retries] times and
    pauses between the questions only: at most [max_retries - 1] pauses. *)
Theorem wait_for_status_bounded (get_torrent_info : value -> M value) (should_retry : error -> bool) (k : nat)
    (torrent_id target_status : value) (max_retries retry_interval : Z) (torrent_info : option value)
    (Hinfo : costs k 0 (get_torrent_info torrent_id) any provider_error) (Hinterval : 0 <= retry_interval) :
  costs (Z.to_nat max_retries * k) (1000 * retry_interval * Z.max 0 (max_retries - 1))
    (wait_for_status get_torrent_info should_retry torrent_id target_status max_retries retry_interval torrent_info)
    (reached target_status) provider_error.
Proof. by apply wait_for_status_costs. Qed.

(** The number of pauses. *)
Definition pauses (h : list event) : nat := length (List.filter (fun e => match e with Slept _ => true | _ => false end) h).

(** The information of a torrent that changes between the pauses. *)
Definition answers (get_torrent_info : M value) (f : nat -> list (string * value)) : Prop :=
  forall s, exists s', get_torrent_info s = (Ret (VDict (f (pauses (history s)))), s') /\
                       pauses (history s') = pauses (history s).

Definition undecided (target_status : value) (d : list (string * value)) : Prop :=
  status_of d <> normalize_status (Some target_status) /\ status_of d <> "error".

Lemma poll_first get_torrent_info should_retry torrent_id target interval f n :
  answers (get_torrent_info torrent_id) f ->
  forall j s, (j < n)%nat -> (forall i, (i < j)%nat -> undecided target (f (pauses (history s) + i)%nat)) ->
  let d := f (pauses (history s) + j)%nat in
  status_of d = normalize_status (Some target) ->
  exists s', poll get_torrent_info should_retry torrent_id target interval n s = (Ret (VDict d), s').
Proof.
  intros Hf. induction n as [|n IH]; intros j s Hj Hu d Hd; [lia|]. cbn [poll].
  destruct (Hf s) as (s1 & E1 & Hp1). unfold mbind, M_bind, catch. rewrite E1. cbn [mret M_ret].
  destruct j as [|j].
  - unfold d in *. rewrite Nat.add_0_r in *. rewrite <- Hd, String.eqb_refl. by eexists.
  - destruct (Hu 0%nat ltac:(lia)) as [H1 H2]. rewrite Nat.add_0_r in H1, H2.
    apply String.eqb_neq in H1, H2. rewrite H1, H2. destruct n as [|n]; [lia|].
    unfold sleep, modify. set (s2 := record_event (Slept (1000 * interval)) s1).
    assert (Hp2 : pauses (history s2) = S (pauses (history s))) by (rewrite <- Hp1; done).
    unfold d. destruct (IH j s2) as [s3 E3]; [lia|..].
    + intros i Hi. rewrite Hp2. replace (S (pauses (history s)) + i)%nat with (pauses (history s) + S i)%nat by lia.
      apply Hu. lia.
    + rewrite Hp2. replace (S (pauses (history s)) + j)%nat with (pauses (history s) + S j)%nat by lia. done.
    + rewrite E3, Hp2. exists s3. do 4 f_equal. lia.
Qed.

(** When the torrent reaches the status at one of the polls and fails at
    none before, [wait_for_status] returns what that poll saw. *)
Theorem wait_returns_first_reached (get_torrent_info : value -> M value) (should_retry : error -> bool)
    (torrent_id target_status : value) (max_retries retry_interval : Z) (f : nat -> list (string * value)) (j : nat)
    (s : state) (Hinfo : answers (get_torrent_info torrent_id) f) (Hj : Z.of_nat j < max_retries)
    (Hbefore : forall i, (i < j)%nat -> undecided target_status (f (pauses (history s) + i)%nat))
    (Hreached : status_of (f (pauses (history s) + j)%nat) = normalize_status (Some target_status)) :
  (wait_for_status get_torrent_info should_retry torrent_id target_status max_retries retry_interval None s).1 =
  Ret (VDict (f (pauses (history s) + j)%nat)).
Proof.
  destruct (poll_first get_torrent_info should_retry torrent_id target_status retry_interval f (Z.to_nat max_retries) Hinfo j s)
    as [s' E]; [lia|done..|].
  unfold wait_for_status. by rewrite E.
Qed.

(** *** OAuth codes *)

Lemma standard_char_value c : UserSecrets.value_of (standard_char c) = UserSecrets.value_of c /\
  Ascii.eqb (standard_char c) "=" = Ascii.eqb c "=".
Proof.
  unfold standard_char. destruct (Ascii.eqb_spec c "-") as [-> |]; [done|]. destruct (Ascii.eqb_spec c "_") as [-> |]; done.
Qed.

Lemma b64decode_standard s t : forall pos rest pads,
  UserSecrets.b64decode (str_map standard_char s +:+ t) pos rest pads = UserSecrets.b64decode (s +:+ t) pos rest pads.
Proof.
  induction s as [|c s IH]; intros pos rest pads; [done|]. cbn [str_map]. rewrite !str_app_cons.
  cbn [UserSecrets.b64decode]. destruct (standard_char_value c) as [-> ->].
  destruct (Ascii.eqb c "="); [by repeat case_test; rewrite ?IH|].
  destruct (UserSecrets.value_of c); [|by rewrite IH]. destruct pos as [|[|[|]]]; by rewrite ?IH.
Qed.

Lemma padding_all p s : p "="%char = true -> str_all p (UserSecrets.padding s) = true.
Proof.
  intros Hp. unfold UserSecrets.padding. destruct (_ =? 0)%nat; [done|].
  induction (4 - String.length s mod 4)%nat as [|n IH]; [done|]. cbn. by rewrite Hp.
Qed.

Lemma b64decode_b64encode s : b64decode (b64encode s) = Ret s.
Proof.
  unfold b64decode, b64encode.
  rewrite str_all_app, padding_all, str_all_map by done.
  rewrite (str_all_impl (fun c => code c <? 128)), andb_true_l; [| |apply UserSecrets.make_urlsafe_ascii].
  2: { intros c Hc. unfold standard_char. by repeat case_test. }
  rewrite str_filter_id, b64decode_standard; [apply UserSecrets.make_urlsafe_decodes|].
  rewrite str_all_app, padding_all, str_all_map, andb_true_r by done.
  apply (str_all_impl (fun c => code c <? 128)); [|apply UserSecrets.make_urlsafe_ascii].
  intros c _. unfold standard_char. destruct (Ascii.eqb_spec c "-") as [-> |H1]; [done|].
  destruct (Ascii.eqb_spec c "_") as [-> |H2]; [done|]. cbn. apply Ascii.eqb_neq in H1, H2. by rewrite H1, H2.
Qed.

(** The code of an OAuth token is read back, unless it has a colon: then
    the token is taken for a private one. *)
Theorem decode_encode_token (code : string) (Hutf8 : decode_utf8 code = Ret code) :
  decode_token_str (encode_token_data code) = if str_any (Ascii.eqb ":") code then None else Some code.
Proof.
  unfold decode_token_str, encode_token_data. rewrite b64decode_b64encode. cbn [mbind outcome_bind].
  assert (decode_utf8 ("code:" +:+ code) = Ret ("code:" +:+ code)) as ->.
  { unfold decode_utf8 in *. change (utf8 0 128 191 ("code:" +:+ code)) with (utf8 0 128 191 code). by destruct (utf8 _ _ _ code). }
  change (split_char ":" ("code:" +:+ code)) with ("code" :: split_char ":" code).
  destruct (str_any (Ascii.eqb ":") code) eqn:Ec.
  - apply split_char_some in Ec. destruct (split_char ":" code) as [|a [|b l]]; cbn in Ec; [lia..|done].
  - by rewrite split_char_none.
Qed.



End Client.

(** ** Examples *)

Definition example_state : state := mkState (Some "TOKEN") false [] true [] FileSelection.world_example.
Definition with_status (st : string) : list (string * value) := [("id", VStr "X"); ("status", VStr st)].

Lemma session_closed_witness :
  session (with_client (mret tt) (throw (ProviderException "Invalid token" "invalid_token.mp4" false))
             (throw (Python KeyError) : M unit) example_state).2 = false.
Proof.
  apply (session_closed (mret tt) (throw (ProviderException "Invalid token" "invalid_token.mp4" false))
    (throw (Python KeyError) : M unit) example_state).
  - intros s e s' [=].
  - intros s e s' [= <- _]. done.
Defined.

Lemma wait_for_status_bounded_witness :
  costs 0 20000 (wait_for_status (fun _ => mret (VDict (with_status "queued"))) (fun _ => false) (VStr "X")
    (VStr "downloaded") 5 5 None) (reached (VStr "downloaded")) provider_error.
Proof.
  apply (wait_for_status_bounded (fun _ => mret (VDict (with_status "queued"))) (fun _ => false) 0 (VStr "X")
    (VStr "downloaded") 5 5 None); [by apply costs_ret|lia].
Defined.

Lemma wait_returns_first_reached_witness :
  let f := fun n => with_status (if (n <? 2)%nat then "downloading" else " Downloaded") in
  (wait_for_status (fun _ s => (Ret (VDict (f (pauses (history s)))), s)) (fun _ => false) (VStr "X")
     (VStr "downloaded") 5 5 None example_state).1 = Ret (VDict (with_status " Downloaded")).
Proof.
  set (f := fun n => with_status (if (n <? 2)%nat then "downloading" else " Downloaded")).
  apply (wait_returns_first_reached (fun _ s => (Ret (VDict (f (pauses (history s)))), s)) (fun _ => false) (VStr "X")
     (VStr "downloaded") 5 5 f 2 example_state); [intros s; by eexists|lia| |done].
  intros i Hi. unfold f, undecided. destruct (Nat.ltb_spec (pauses (history example_state) + i) 2); [by split|].
  cbn in *. lia.
Defined.

Lemma decode_encode_token_witness :
  decode_token_str (encode_token_data "refresh:1") = None /\ decode_token_str (encode_token_data "AbC-09_~") = Some "AbC-09_~".
Proof.
  split; [exact (decode_encode_token "refresh:1" eq_refl)|exact (decode_encode_token "AbC-09_~" eq_refl)].
Defined.
