(* ===== verification/TelegramFileId.v ===== *)
(** * Document identifiers of Telegram files (utils/telegram_file_id.py)

    A [file_id] of the Bot API is base64 of a byte string whose runs of zeros are
    shortened; inside are the type, the data centre, perhaps a reference, the
    document's identifier and its access hash.  Bytes are characters. *)

From S2P Require Export DebridClient.
Local Open Scope string_scope.
Local Open Scope Z_scope.

(** ** Bytes *)

(** [struct]'s little endian: a byte string as a number, and a number in [n]
    bytes. *)
Fixpoint le (s : string) : Z := match s with "" => 0 | String c s => PyStr.code c + 256 * le s end.
Fixpoint le_bytes (n : nat) (z : Z) : string :=
  match n with O => "" | S n => String (of_code (z mod 256)) (le_bytes n (z / 256)) end.
(** A number of [w] bits with its sign. *)
Definition signed (w z : Z) : Z := if z <? 2 ^ (w - 1) then z else z - 2 ^ w.

Definition TYPE_ID_FILE_REFERENCE_FLAG : Z := Z.shiftl 1 25.

(** ** Decoding *)

(** [_decode_telegram_base64] *)
Definition decode_telegram_base64 (value : string) : outcome py_exn string :=
  let normalized := str_map standard_char value in
  let padding := 4 - slen normalized mod 4 in
  b64decode (if padding =? 4 then normalized else normalized +:+ UserSecrets.pad_of (Z.to_nat padding)).

Fixpoint zero_bytes (n : nat) : string := match n with O => "" | S n => String "000" (zero_bytes n) end.

(** [_rle_decode]: a zero and a count stand for that many zeros. *)
Fixpoint rle_decode (data : string) : string :=
  match data with
  | "" => ""
  | String "000" (String n data) => zero_bytes (Z.to_nat (PyStr.code n)) +:+ rle_decode data
  | String c data => String c (rle_decode data)
  end.

(** What is after the reference of a file, or [None] without its length. *)
Definition skip_reference (buf : string) : option string :=
  match buf with
  | "" => None
  | String ref_len_byte buf =>
      let n := PyStr.code ref_len_byte in
      let long := n =? 254 in
      let '(ref_len, buf) := if long then (le (str_take 3 buf), str_drop 3 buf) else (n, buf) in
      let buf := str_drop (Z.to_nat ref_len) buf in
      let padding := (1 + (if long then 3 else 0) + ref_len) mod 4 in
      Some (if padding =? 0 then buf else str_drop (Z.to_nat (4 - padding)) buf)
  end.

Definition extract_document_id_from_file_id (file_id : option string) : option Z :=
  match file_id with
  | None | Some "" => None
  | Some file_id =>
      match decode_telegram_base64 file_id with
      | Raise _ => None
      | Ret decoded =>
          let data := rle_decode decoded in
          if slen data <? 20 then None
          else
            let type_id_raw := signed 32 (le (str_take 4 data)) in
            let has_reference := negb (Z.land type_id_raw TYPE_ID_FILE_REFERENCE_FLAG =? 0) in
            let buf := str_drop 8 data in
            match (if has_reference then skip_reference buf else Some buf) with
            | None => None
            | Some remaining => if slen remaining <? 16 then None else Some (signed 64 (le (str_take 8 remaining)))
            end
      end
  end.

(** ** The format *)

(** Every way to shorten runs of zeros. *)
Inductive rle : string -> string -> Prop :=
  | rle_end : rle "" ""
  | rle_byte c data enc : c <> "000"%char -> rle data enc -> rle (String c data) (String c enc)
  | rle_zeros n data enc : (0 < n < 256)%nat -> rle data enc ->
      rle (zero_bytes n +:+ data) (String "000" (String (of_code (Z.of_nat n)) enc)).

(** A byte string with its length, padded to a multiple of four bytes. *)
Definition tl_bytes (ref : string) : string :=
  let head := if slen ref <? 254 then le_bytes 1 (slen ref) else String "254" (le_bytes 3 (slen ref)) in
  let n := (slen head + slen ref) mod 4 in
  head +:+ ref +:+ zero_bytes (Z.to_nat (if n =? 0 then 0 else 4 - n)).

(** A file with its type (and flags), data centre, reference if the type says
    so, document, access hash and what newer versions add. *)
Definition file_bytes (type_id dc_id : Z) (ref : string) (document_id access_hash : Z) (tail : string) : string :=
  le_bytes 4 type_id +:+ le_bytes 4 dc_id +:+
  (if Z.land type_id TYPE_ID_FILE_REFERENCE_FLAG =? 0 then "" else tl_bytes ref) +:+
  le_bytes 8 document_id +:+ le_bytes 8 access_hash +:+ tail.

Example a_file : extract_document_id_from_file_id (Some (UserSecrets.make_urlsafe
   (String "001" (String "000" (String "003" (String "002" (String "000" (String "003" (String "042" (String "000" (String "015" "")))))))))))
  = Some 42.
Proof. vm_compute. reflexivity. Qed.

(** ** Decoding inverts the format *)

Lemma code_of_code z : 0 <= z < 256 -> PyStr.code (of_code z) = z.
Proof.
  intros Hz. unfold PyStr.code, of_code. rewrite N_ascii_embedding; [lia|]. lia.
Qed.

Lemma str_length_map f s : String.length (str_map f s) = String.length s.
Proof. induction s as [|c s IH]; [done|]. cbn. by rewrite IH. Qed.

Lemma telegram_base64 enc : decode_telegram_base64 (UserSecrets.make_urlsafe enc) = Ret enc.
Proof.
  rewrite <- (b64decode_b64encode enc). unfold decode_telegram_base64, b64encode, UserSecrets.padding, slen.
  rewrite str_length_map. set (n := String.length _). destruct (Nat.eqb_spec (n mod 4) 0) as [E|E].
  - replace (Z.of_nat n mod 4) with 0 by (change 4 with (Z.of_nat 4); rewrite <- Nat2Z.inj_mod; lia). by rewrite str_app_nil_r.
  - pose proof (Nat.mod_upper_bound n 4 ltac:(lia)) as Hb.
    replace (Z.of_nat n mod 4) with (Z.of_nat (n mod 4)) by (rewrite Nat2Z.inj_mod; done).
    rewrite (proj2 (Z.eqb_neq _ 4)) by lia. do 3 f_equal. lia.
Qed.

Lemma rle_decode_byte c s : c <> "000"%char -> rle_decode (String c s) = String c (rle_decode s).
Proof. destruct c as [[] [] [] [] [] [] [] []]; done. Qed.

Lemma rle_decode_rle data enc : rle data enc -> rle_decode enc = data.
Proof.
  induction 1 as [|c data enc Hc _ IH|n data enc Hn _ IH]; [done| |].
  - by rewrite rle_decode_byte, IH.
  - cbn [rle_decode]. by rewrite code_of_code, Nat2Z.id, IH by lia.
Qed.

Lemma le_bytes_length n z : String.length (le_bytes n z) = n.
Proof. revert z. induction n as [|n IH]; intros z; [done|]. cbn. by rewrite IH. Qed.

Lemma le_le_bytes n z : le (le_bytes n z) = z mod 256 ^ Z.of_nat n.
Proof.
  revert z. induction n as [|n IH]; intros z; [by rewrite Z.mod_1_r|]. cbn [le_bytes le].
  rewrite code_of_code, IH by (apply Z.mod_pos_bound; lia). rewrite Nat2Z.inj_succ, Z.pow_succ_r by lia.
  rewrite Z.rem_mul_r by lia. done.
Qed.

Lemma signed_mod w z : 0 < w -> - 2 ^ (w - 1) <= z < 2 ^ (w - 1) -> signed w (z mod 2 ^ w) = z.
Proof.
  intros Hw Hz. assert (E : 2 ^ w = 2 * 2 ^ (w - 1)) by (rewrite <- Z.pow_succ_r by lia; f_equal; lia).
  unfold signed. destruct (Z.leb_spec 0 z).
  - rewrite Z.mod_small by lia. by rewrite (proj2 (Z.ltb_lt _ _)) by lia.
  - replace (z mod 2 ^ w) with (z + 2 ^ w) by (rewrite <- (Z.mod_add z 1), Z.mod_small by lia; lia).
    rewrite (proj2 (Z.ltb_ge _ _)) by lia. lia.
Qed.

Lemma zero_bytes_length n : String.length (zero_bytes n) = n.
Proof. induction n as [|n IH]; [done|]. cbn. by rewrite IH. Qed.

(** The padding that follows [n] bytes. *)
Lemma skip_padding n rest : 
  (if n mod 4 =? 0 then zero_bytes (Z.to_nat (if n mod 4 =? 0 then 0 else 4 - n mod 4)) +:+ rest
   else str_drop (Z.to_nat (4 - n mod 4)) (zero_bytes (Z.to_nat (if n mod 4 =? 0 then 0 else 4 - n mod 4)) +:+ rest)) = rest.
Proof. destruct (n mod 4 =? 0); [done|]. by rewrite str_drop_app by by rewrite zero_bytes_length. Qed.

Lemma skip_tl_bytes ref rest : slen ref < 2 ^ 24 -> skip_reference (tl_bytes ref +:+ rest) = Some rest.
Proof.
  intros Hr. unfold tl_bytes. assert (H0 : 0 <= slen ref) by (unfold slen; lia).
  destruct (Z.ltb_spec (slen ref) 254) as [H|H]; rewrite !str_app_assoc.
  - cbn [le_bytes]. rewrite str_app_cons. cbn [skip_reference]. rewrite str_app_nil, code_of_code by (apply Z.mod_pos_bound; lia).
    rewrite (Z.mod_small (slen ref) 256) by lia. rewrite (proj2 (Z.eqb_neq (slen ref) 254)) by lia.
    rewrite str_drop_app by (unfold slen; lia). f_equal.
    change (1 + 0 + slen ref) with (slen (String (of_code (slen ref mod 256)) "") + slen ref). apply skip_padding.
  - rewrite str_app_cons. cbn [skip_reference]. change (PyStr.code "254" =? 254) with true. cbn iota.
    rewrite str_take_app, str_drop_app by by rewrite le_bytes_length. rewrite le_le_bytes.
    change (256 ^ Z.of_nat 3) with (2 ^ 24). rewrite (Z.mod_small (slen ref) (2 ^ 24)) by lia. rewrite str_drop_app by (unfold slen; lia). f_equal.
    change (slen (String "254" (le_bytes 3 (slen ref)))) with 4. change (1 + 3 + slen ref) with (4 + slen ref). apply skip_padding.
Qed.

(** [C36] The document identifier of a file is read back: whatever the type, the
    data centre, the file reference, the access hash and the bytes that newer
    versions add, and however the runs of zeros are shortened. *)
Theorem document_id_roundtrip (type_id dc_id document_id access_hash : Z) (ref tail enc : string)
    (Htype : - 2 ^ 31 <= type_id < 2 ^ 31) (Hdoc : - 2 ^ 63 <= document_id < 2 ^ 63) (Href : slen ref < 2 ^ 24)
    (Henc : rle (file_bytes type_id dc_id ref document_id access_hash tail) enc) :
  extract_document_id_from_file_id (Some (UserSecrets.make_urlsafe enc)) = Some document_id.
Proof.
  set (body := le_bytes 8 document_id +:+ le_bytes 8 access_hash +:+ tail).
  set (reference := if Z.land type_id TYPE_ID_FILE_REFERENCE_FLAG =? 0 then "" else tl_bytes ref).
  assert (Hdata : rle_decode enc = le_bytes 4 type_id +:+ le_bytes 4 dc_id +:+ reference +:+ body) by by apply rle_decode_rle.
  assert (Hne : exists c s, UserSecrets.make_urlsafe enc = String c s).
  { destruct enc as [|a [|b [|c enc]]]; [done|by do 2 eexists..]. }
  pose proof (telegram_base64 enc) as Hd. unfold extract_document_id_from_file_id. destruct Hne as (c & s & E). rewrite E in Hd |- *.
  rewrite Hd. cbv zeta. rewrite Hdata. assert (Hbody : slen body = 16 + slen tail).
  { unfold body, slen. rewrite !str_length_app, !le_bytes_length. lia. }
  rewrite (proj2 (Z.ltb_ge _ 20)).
  2: { unfold slen in *. rewrite !str_length_app, !le_bytes_length. lia. }
  rewrite str_take_app by by rewrite le_bytes_length. rewrite le_le_bytes. change (256 ^ Z.of_nat 4) with (2 ^ 32).
  rewrite signed_mod by (cbn; lia). rewrite <- (str_app_assoc (le_bytes 4 type_id)), str_drop_app
    by by rewrite str_length_app, !le_bytes_length.
  assert (Hskip : (if negb (Z.land type_id TYPE_ID_FILE_REFERENCE_FLAG =? 0) then skip_reference (reference +:+ body)
                   else Some (reference +:+ body)) = Some body).
  { unfold reference. destruct (_ =? 0); [done|]. by apply skip_tl_bytes. }
  rewrite Hskip. rewrite (proj2 (Z.ltb_ge _ 16)) by (unfold slen in *; lia). unfold body.
  rewrite str_take_app by by rewrite le_bytes_length. rewrite le_le_bytes. change (256 ^ Z.of_nat 8) with (2 ^ 64).
  by rewrite signed_mod by (cbn; lia).
Qed.

Lemma document_id_roundtrip_witness :
  exists enc, rle (file_bytes (5 + 2 ^ 25) 2 "ref" 5372981976804366 (-7) "tail") enc /\
  extract_document_id_from_file_id (Some (UserSecrets.make_urlsafe enc)) = Some 5372981976804366.
Proof.
  assert (Hrle : forall data, exists enc, rle data enc).
  { induction data as [|c data [enc IH]]; [by exists ""; constructor|]. destruct (ascii_dec c "000") as [->|Hc].
    - exists (String "000" (String (of_code 1) enc)). apply (rle_zeros 1); [lia|exact IH].
    - exists (String c enc). by constructor. }
  destruct (Hrle (file_bytes (5 + 2 ^ 25) 2 "ref" 5372981976804366 (-7) "tail")) as [enc Henc].
  exists enc. split; [exact Henc|].
  apply (document_id_roundtrip (5 + 2 ^ 25) 2 5372981976804366 (-7) "ref" "tail"); [lia|lia|done|exact Henc].
Defined.
