(* ===== verification/Network.v ===== *)
(** * Client addresses and MediaFlow links (utils/network.py)

    The address a debrid service is given for a user and the links through a
    MediaFlow proxy.  The request to the proxy, [ipaddress], SHA-256 and the
    validity test of a bracketed host are parameters.  Times are seconds. *)

From S2P Require Export Redis Urls UserConfig.
From S2P Require Import DebridClient.
Local Open Scope string_scope.
Local Open Scope Z_scope.

Notation service_error := DebridClient.error.

Record MediaFlowConfig := mkMediaFlow {
  proxy_url : option string;
  api_password : option string;
  public_ip : option string;
}.

(** [proxy_url and api_password] *)
Definition mediaflow_set (mf : option MediaFlowConfig) : option (string * string * MediaFlowConfig) :=
  match mf with
  | Some c => match proxy_url c, api_password c with
              | Some (String _ _ as u), Some (String _ _ as p) => Some (u, p, c)
              | _, _ => None
              end
  | None => None
  end.

(** ** Addresses *)

(** What a request says of its client. *)
Record client_info := mkClient {
  x_forwarded_for : option string;
  x_real_ip : option string;
  client_host : option string;
}.

Definition get_client_ip (c : client_info) : string :=
  match x_forwarded_for c with
  | Some (String _ _ as f) => strip (List.hd "" (split_char "," f))
  | _ => match x_real_ip c with
         | Some (String _ _ as i) => i
         | _ => default "127.0.0.1" (client_host c)
         end
  end.

Section Network.
(** [ip_address(s).is_private]; [None] for its [ValueError]. *)
Context (ip_is_private : string -> option bool) (bracketed_ok : string -> bool) (sha256_hex : string -> string).

(** [re.match(r"\[(.*?)\]:(\d+)$", s)]: what is between the brackets.  The
    closing bracket is the first that digits and the end follow; a final
    newline may come after the digits. *)
Definition drop_newline (s : string) : string :=
  match str_rev s with String "010" r => str_rev r | _ => s end.
Fixpoint before_port (s : string) : option string :=
  match s with
  | "" => None
  | String c s' =>
      match (if Ascii.eqb c "]" then
               match s' with
               | String ":" port => if isdigit (drop_newline port) then Some "" else None
               | _ => None
               end
             else None) with
      | Some r => Some r
      | None => if Ascii.eqb c "010" then None else String c <$> before_port s'
      end
  end.
Definition ipv6_port_match (s : string) : option string :=
  match s with String "[" s' => before_port s' | _ => None end.

Definition ip_part (s : string) : string :=
  match ipv6_port_match s with
  | Some i => i
  | None =>
      if startswith "[" s && endswith "]" s then slice_inner s
      else if (length (split_char ":" s) =? 2)%nat then List.hd "" (split_char ":" s)
      else s
  end.

Definition is_private_ip (s : string) : bool :=
  if str_empty s then false else default false (ip_is_private (strip (ip_part s))).

Section State.
Context {R} `{Redis R} {X : Type}.

(** [response.json().get("ip")] of the proxy's [/proxy/ip]: [None] for any
    failure and for an answer without an address. *)
Context (ask_ip : string -> string -> X -> option string).

(** GETEX: the value, its life extended to [ex] seconds from now. *)
Definition getex (now : Z) (k : string) (ex : Z) (r : R) : option blob * R :=
  match kv_get now r k with Some v => (Some v, kv_set now k v (Some ex) r) | None => (None, r) end.

Definition text_of (b : option blob) : option string :=
  match b with Some (BText (String _ _ as s)) => Some s | _ => None end.

Definition mediaflow_ip_key (u p : string) : string := sha256_hex (u +:+ ":" +:+ p).

(** [get_mediaflow_proxy_public_ip]: [Raise tt] for any exception; [up] tells
    whether Redis answers. *)
Definition get_mediaflow_proxy_public_ip (now : Z) (up : bool) (u p : string) (c : MediaFlowConfig) (x : X) (r : R) :
    outcome unit (option string) * R :=
  match public_ip c with
  | Some (String _ _ as ip) => (Ret (Some ip), r)
  | _ =>
      match urlsplit bracketed_ok u with
      | Raise _ => (Raise tt, r)
      | Ret parsed =>
          if is_private_ip (netloc parsed) then (Ret None, r)
          else
            let k := mediaflow_ip_key u p in
            let '(cached, r) := if up then getex now k 300 r else (None, r) in
            match text_of cached with
            | Some ip => (Ret (Some ip), r)
            | None =>
                match urljoin_path bracketed_ok u "/proxy/ip", ask_ip u p x with
                | Ret _, Some (String _ _ as ip) =>
                    (Ret (Some ip), if up then kv_set now k (BText ip) (Some 300) r else r)
                | _, _ => (Raise tt, r)
                end
            end
      end
  end.

Definition mediaflow_ip_error : service_error :=
  DebridClient.ProviderException
    "Failed to get MediaFlow proxy public IP address. Please check your MediaFlow configuration."
    "mediaflow_ip_error.mp4" false.

(** [get_user_public_ip] with [fail_on_mediaflow_error]: [None] lets the
    service see the server's own address. *)
Definition get_user_public_ip (now : Z) (up : bool) (c : client_info) (mf : option MediaFlowConfig)
    (p : StreamingProvider) (respect_provider_mediaflow : bool) (x : X) (r : R) :
    outcome service_error (option string) * R :=
  let client := let ip := get_client_ip c in if is_private_ip ip then None else Some ip in
  match mediaflow_set mf with
  | Some (u, pw, cfg) =>
      if negb respect_provider_mediaflow || use_mediaflow p then
        match get_mediaflow_proxy_public_ip now up u pw cfg x r with
        | (Raise _, r) => (Raise mediaflow_ip_error, r)
        | (Ret (Some (String _ _ as ip)), r) => (Ret (Some ip), r)
        | (Ret _, r) => (Ret client, r)
        end
      else (Ret client, r)
  | None => (Ret client, r)
  end.
End State.

(** ** MediaFlow links *)

(** [encode_mediaflow_proxy_url] without encryption, for an endpoint that is a
    plain path. *)
Definition encode_mediaflow_proxy_url (mediaflow_proxy_url endpoint : string) (destination_url : option string)
    (query_params : list (string * string)) (response_headers : list (string * string)) : outcome py_exn string :=
  let params := match destination_url with Some d => dict_set "d" d query_params | None => query_params end in
  let params := dict_update params (map (fun kv => ("r_" +:+ kv.1, kv.2)) response_headers) in
  base ← urljoin_path bracketed_ok mediaflow_proxy_url endpoint;
  Ret (base +:+ "?" +:+ urlencode params).

(** [encode_mediaflow_acestream_url] *)
Definition encode_mediaflow_acestream_url (mediaflow_proxy_url : string) (content_id info_hash api_password : option string) :
    outcome py_exn string :=
  let query_params :=
    match content_id, info_hash with
    | Some (String _ _ as c), _ => Some [("id", c)]
    | _, Some (String _ _ as h) => Some [("infohash", h)]
    | _, _ => None
    end in
  match query_params with
  | None => Raise ValueError
  | Some d =>
      let d := match api_password with Some (String _ _ as p) => dict_set "api_password" p d | _ => d end in
      base ← urljoin_path bracketed_ok mediaflow_proxy_url "/proxy/acestream/stream";
      Ret (base +:+ "?" +:+ urlencode d)
  end.
End Network.

Example private_addresses :
  map ip_part ["10.0.0.1:80"; "[::1]:8000"; "[::1]"; "fe80::1"; "example.org"; "[a]:b]:9"; ""] =
  ["10.0.0.1"; "::1"; "::1"; "fe80::1"; "example.org"; "a]:b"; ""].
Proof. vm_compute. reflexivity. Qed.
