(* ===== verification/DebridProviders.v ===== *)
(** * The clients of the debrid services

    The classes that workers/providers/*/client.py derive from [DebridClient]:
    how each overrides [_make_request], and which exceptions it makes of the
    errors of its service.  Each is an instance of [DebridClient.Provider],
    given the address of the user.

    The overrides run again on a retry.  [retry_leaves_the_api],
    [retries_without_bound] and [retry_unwraps_twice] say what comes of it. *)

From S2P Require Export DebridClient.
From S2P Require FileSelection.
Local Open Scope string_scope.
Local Open Scope Z_scope.

(** ** Shared steps *)

(** [bool(s)] of an optional string. *)
Definition truthy_str (s : option string) : bool := match s with Some s => negb (str_empty s) | None => false end.

(** [params or {}] *)
Definition params_or_empty (c : call) : list (string * value) := default [] (params c).

(** The call with other [url] and [params]. *)
Definition with_url (u : string) (p : list (string * value)) (c : call) : call :=
  mkCall (method c) u (data c) (json c) (Some p) (is_return_none c) (is_expected_to_fail c) (is_http_response c)
    (retry_count c).
Definition with_data (b : body) (c : call) : call :=
  mkCall (method c) (url c) b (json c) (params c) (is_return_none c) (is_expected_to_fail c) (is_http_response c)
    (retry_count c).
Definition with_json (j : option value) (c : call) : call :=
  mkCall (method c) (url c) (data c) j (params c) (is_return_none c) (is_expected_to_fail c) (is_http_response c)
    (retry_count c).
Definition with_params (p : option (list (string * value))) (c : call) : call :=
  mkCall (method c) (url c) (data c) (json c) p (is_return_none c) (is_expected_to_fail c) (is_http_response c)
    (retry_count c).

(** [d["ip"] = user_ip] when there is one. *)
Definition set_ip (user_ip : option string) (d : list (string * value)) : list (string * value) :=
  match user_ip with Some ip => if str_empty ip then d else dict_set "ip" (VStr ip) d | None => d end.

Definition fail {A} (message video : string) : outcome error A := Raise (ProviderException message video false).

(** [match error: case "A" | "B": raise ...] over a table of codes. *)
Definition raise_for (code : option value) (table : list (list string * (string * string))) : outcome error unit :=
  match code with
  | Some (VStr s) =>
      match find (fun row => existsb (String.eqb s) row.1) table with
      | Some (_, (message, video)) => fail message video
      | None => Ret tt
      end
  | _ => Ret tt
  end.

(** ** Real-Debrid *)

Definition REALDEBRID_ERROR_CODE_MAP : list (Z * (string * string)) := [
  (-1, ("Real-Debrid internal error", "debrid_service_down_error.mp4"));
  (1, ("Real-Debrid missing parameter", "api_error.mp4"));
  (2, ("Real-Debrid bad parameter value", "transfer_error.mp4"));
  (3, ("Real-Debrid unknown method", "api_error.mp4"));
  (4, ("Real-Debrid method not allowed", "api_error.mp4"));
  (5, ("Real-Debrid slow down", "too_many_requests.mp4"));
  (6, ("Real-Debrid resource unreachable", "debrid_service_down_error.mp4"));
  (7, ("Real-Debrid resource not found", "torrent_not_downloaded.mp4"));
  (8, ("Real-Debrid bad token", "invalid_token.mp4"));
  (9, ("Real-Debrid permission denied", "invalid_token.mp4"));
  (10, ("Real-Debrid two-factor authentication needed", "invalid_token.mp4"));
  (11, ("Real-Debrid two-factor authentication pending", "invalid_token.mp4"));
  (12, ("Real-Debrid invalid login", "invalid_token.mp4"));
  (13, ("Real-Debrid invalid password", "invalid_token.mp4"));
  (14, ("Real-Debrid account locked", "invalid_token.mp4"));
  (15, ("Real-Debrid account not activated", "invalid_token.mp4"));
  (16, ("Real-Debrid unsupported hoster", "transfer_error.mp4"));
  (17, ("Real-Debrid hoster in maintenance", "debrid_service_down_error.mp4"));
  (18, ("Real-Debrid hoster limit reached", "exceed_remote_traffic_limit.mp4"));
  (19, ("Real-Debrid hoster temporarily unavailable", "debrid_service_down_error.mp4"));
  (20, ("Real-Debrid hoster not available for free users", "need_premium.mp4"));
  (21, ("Real-Debrid too many active downloads", "torrent_limit.mp4"));
  (22, ("Real-Debrid IP address not allowed", "ip_not_allowed.mp4"));
  (23, ("Real-Debrid traffic exhausted", "exceed_remote_traffic_limit.mp4"));
  (24, ("Real-Debrid file unavailable", "torrent_not_downloaded.mp4"));
  (25, ("Real-Debrid service unavailable", "debrid_service_down_error.mp4"));
  (26, ("Real-Debrid upload too big", "transfer_error.mp4"));
  (27, ("Real-Debrid upload error", "transfer_error.mp4"));
  (28, ("Real-Debrid file not allowed", "transfer_error.mp4"));
  (29, ("Real-Debrid torrent too big", "transfer_error.mp4"));
  (30, ("Real-Debrid torrent file invalid", "transfer_error.mp4"));
  (31, ("Real-Debrid action already done", "transfer_error.mp4"));
  (32, ("Real-Debrid image resolution error", "api_error.mp4"));
  (33, ("Real-Debrid torrent already active", "torrent_not_downloaded.mp4"));
  (34, ("Real-Debrid too many requests", "too_many_requests.mp4"));
  (35, ("Real-Debrid infringing file", "content_infringing.mp4"));
  (36, ("Real-Debrid fair usage limit reached", "exceed_remote_traffic_limit.mp4"));
  (37, ("Real-Debrid disabled endpoint", "api_error.mp4"))].

(** [a or b] of optional values. *)
Definition or_value (a b : option value) : option value :=
  match a with Some v => if truthy v then Some v else b | None => b end.

(** [_raise_mapped_error]; [int] of an infinite float raises. *)
Definition raise_mapped_error (error_data : list (string * value)) : outcome error unit :=
  match dict_get "error_code" error_data with
  | None | Some VNone => Ret tt
  | Some code =>
      match to_int code with
      | Raise TypeError | Raise ValueError => Ret tt
      | Raise e => Raise (Python e)
      | Ret z =>
          match find (fun row => row.1 =? z) REALDEBRID_ERROR_CODE_MAP with
          | None => Ret tt
          | Some (_, (message, video)) =>
              let message :=
                match or_value (dict_get "error_details" error_data) (dict_get "error" error_data) with
                | Some (VStr detail) =>
                    let detail := strip detail in
                    if negb (str_empty detail) && negb (contains (lower detail) (lower message))
                    then message +:+ ": " +:+ detail else message
                | _ => message
                end in
              fail message video
          end
      end
  end.

(** [data or {}] *)
Definition data_or_empty (b : body) : body :=
  match b with NoBody | Bytes "" => Form [] | b => b end.

Definition realdebrid_prepare (user_ip : option string) (c : call) : call :=
  if existsb (String.eqb (method c)) ["POST"; "PUT"] && truthy_str user_ip then
    match data_or_empty (data c) with
    | Form d => with_data (Form (set_ip user_ip d)) c
    | b => with_data b c
    end
  else c.

Definition realdebrid (user_ip : option string) : Provider := {|
  handle_service_specific_errors d _ := raise_mapped_error d;
  prepare _ c := realdebrid_prepare user_ip c;
  finish _ r := Ret r |}.

(** ** TorBox *)

Definition TORBOX_BASE_URL : string := "https://api.torbox.app/v1/api".

Definition torbox_errors (error_data : list (string * value)) : outcome error unit :=
  raise_for (dict_get "error" error_data) [
    (["BAD_TOKEN"; "AUTH_ERROR"; "OAUTH_VERIFICATION_ERROR"], ("Invalid Torbox token", "invalid_token.mp4"));
    (["DOWNLOAD_TOO_LARGE"], ("Download size too large for the user plan", "not_enough_space.mp4"));
    (["ACTIVE_LIMIT"; "MONTHLY_LIMIT"; "COOLDOWN_LIMIT"], ("Download limit exceeded", "daily_download_limit.mp4"));
    (["PLAN_RESTRICTED_FEATURE"],
      ("Need premium TorBox account to access this API feature", "need_premium.mp4"));
    (["DOWNLOAD_SERVER_ERROR"; "DATABASE_ERROR"], ("Torbox server error", "debrid_service_down_error.mp4"))].

Definition torbox : Provider := {|
  handle_service_specific_errors d _ := torbox_errors d;
  prepare _ c := with_url (TORBOX_BASE_URL +:+ url c) (params_or_empty c) c;
  finish _ r := Ret r |}.

(** ** AllDebrid *)

Definition ALLDEBRID_BASE_URL : string := "https://api.alldebrid.com/v4.1".

Definition alldebrid (user_ip : option string) : Provider := {|
  handle_service_specific_errors _ _ := Ret tt;
  prepare _ c := with_url (ALLDEBRID_BASE_URL +:+ url c)
                   (set_ip user_ip (dict_set "agent" (VStr "mediafusion") (params_or_empty c))) c;
  finish _ r := Ret r |}.

(** ** Debrider and EasyDebrid

    Their overrides take [retry_count] and [is_http_response] and do not pass
    them on. *)

Definition DEBRIDER_BASE_URL : string := "https://debrider.app/api/v1".
Definition EASYDEBRID_BASE_URL : string := "https://easydebrid.com/api/v1".

Definition without_count (base_url : string) (c : call) : call :=
  mkCall (method c) (base_url +:+ url c) (data c) (json c) (Some (params_or_empty c)) (is_return_none c)
    (is_expected_to_fail c) false 0.

Definition debrider : Provider := {|
  handle_service_specific_errors _ _ := Ret tt;
  prepare _ c := without_count DEBRIDER_BASE_URL c;
  finish _ r := Ret r |}.

Definition easydebrid : Provider := {|
  handle_service_specific_errors _ _ := Ret tt;
  prepare _ c := without_count EASYDEBRID_BASE_URL c;
  finish _ r := Ret r |}.

(** ** OffCloud *)

Definition OFFCLOUD_BASE_URL : string := "https://offcloud.com".

Definition offcloud_errors (error_data : list (string * value)) (status_code : Z) : outcome error unit :=
  let error_message := lower (str (default (VStr "") (dict_get "error" error_data))) in
  if contains "not premium" error_message || contains "premium required" error_message
  then fail "Need premium OffCloud account" "need_premium.mp4"
  else if status_code =? 403 then fail "Invalid OffCloud API key" "invalid_token.mp4"
  else if status_code =? 402 then fail "Need premium OffCloud account" "need_premium.mp4"
  else if status_code =? 429 then fail "OffCloud rate limit exceeded" "too_many_requests.mp4"
  else Ret tt.

Definition offcloud : Provider := {|
  handle_service_specific_errors d st := offcloud_errors d st;
  prepare s c := with_url (OFFCLOUD_BASE_URL +:+ url c)
                   (dict_set "key" (match token s with Some t => VStr t | None => VNone end) (params_or_empty c)) c;
  finish _ r := Ret r |}.

(** ** Debrid-Link *)

Definition debridlink_error (error_message : option value) : outcome error unit :=
  raise_for error_message [
    (["freeServerOverload"], ("Debrid-Link free servers are overloaded", "need_premium.mp4"));
    (["badToken"; "expired_token"], ("Invalid token", "invalid_token.mp4"));
    (["server_error"; "notDebrid"], ("Debrid-Link server error", "debrid_service_down_error.mp4"));
    (["maxLink"; "maxLinkHost"; "maxData"; "maxDataHost"; "maxTorrent"],
      ("Debrid-Link daily limit reached", "daily_download_limit.mp4"));
    (["disabledServerHost"], ("Debrid-Link Server / VPN are not allowed on this host", "ip_not_allowed.mp4"));
    (["floodDetected"], ("Debrid-Link flood detected", "too_many_requests.mp4"))].

(** The address goes into the first of [data], [json] and [params] that is not
    empty; the methods of the class pass dictionaries. *)
Definition debridlink_prepare (user_ip : option string) (c : call) : call :=
  if truthy_str user_ip then
    match data c, json c, params c with
    | Form ((_ :: _) as d), _, _ => with_data (Form (set_ip user_ip d)) c
    | _, Some (VDict ((_ :: _) as d)), _ => with_json (Some (VDict (set_ip user_ip d))) c
    | _, _, Some ((_ :: _) as d) => with_params (Some (set_ip user_ip d)) c
    | _, _, _ => c
    end
  else c.

Definition debridlink (user_ip : option string) : Provider := {|
  handle_service_specific_errors d _ := debridlink_error (dict_get "error" d);
  prepare _ c := debridlink_prepare user_ip c;
  finish _ r := Ret r |}.

(** ** Premiumize *)

Definition premiumize_errors (error_data : list (string * value)) : outcome error unit :=
  raise_for (dict_get "error" error_data) [
    (["invalid_grant"], ("That Premiumize login link expired or was already used. Open Configure and connect Premiumize again.",
       "api_error.mp4"));
    (["invalid_client"], ("Premiumize OAuth client credentials are invalid. Check Premiumize OAuth settings on the server.",
       "api_error.mp4"))].

Definition premiumize : Provider := {|
  handle_service_specific_errors d _ := premiumize_errors d;
  prepare s c :=
    with_params (Some (if is_private_token s
                       then dict_set "apikey" (match token s with Some t => VStr t | None => VNone end) (params_or_empty c)
                       else params_or_empty c)) c;
  finish _ r := Ret r |}.

(** ** StremThru

    [full_url] is [urljoin(self.BASE_URL, url)]. *)

Definition stremthru_errors (error_data : list (string * value)) : outcome error unit :=
  match dict_get "error" error_data with
  | Some e =>
      if truthy e then
        match e with
        | VDict d =>
            _ ← raise_for (dict_get "code" d) [
              (["FORBIDDEN"; "UNAUTHORIZED"], ("Invalid Token / Permission Denied", "invalid_token.mp4"));
              (["PAYMENT_REQUIRED"], ("Need to upgrade plan", "need_premium.mp4"));
              (["TOO_MANY_REQUESTS"], ("Too many requests", "too_many_requests.mp4"));
              (["UNAVAILABLE_FOR_LEGAL_REASONS"], ("Content marked as infringing", "content_infringing.mp4"));
              (["STORE_LIMIT_EXCEEDED"], ("Hit max limit", "exceed_remote_traffic_limit.mp4"))];
            fail ("StremThru Error: " +:+ str e) "api_error.mp4"
        | _ => Raise (Python AttributeError)
        end
      else fail ("StremThru Error: " +:+ str (VDict error_data)) "api_error.mp4"
  | None => fail ("StremThru Error: " +:+ str (VDict error_data)) "api_error.mp4"
  end.

(** [response.get("data")] *)
Definition unwrap_data (r : reply) : outcome error reply :=
  match r with
  | Data (VDict d) => Ret (Data (default VNone (dict_get "data" d)))
  | _ => Raise (Python AttributeError)
  end.

Definition stremthru (full_url : string -> string) : Provider := {|
  handle_service_specific_errors d _ := stremthru_errors d;
  prepare _ c := with_url (full_url (url c)) (params_or_empty c) c;
  finish c r := if is_http_response c || is_expected_to_fail c then Ret r else unwrap_data r |}.

(** ** Retries *)

Section Retries.
Context (exn_text : py_exn -> string) (open_session : outcome error unit).
Context (serve : list event -> request -> outcome error response).

Notation make_request p := (@make_request exn_text open_session serve p).

(** The services whose override puts the address of the API in front. *)
Inductive prefixing : string -> Provider -> Prop :=
  | prefix_torbox : prefixing TORBOX_BASE_URL torbox
  | prefix_alldebrid user_ip : prefixing ALLDEBRID_BASE_URL (alldebrid user_ip)
  | prefix_offcloud : prefixing OFFCLOUD_BASE_URL offcloud.

(** Those whose override changes its own result no further. *)
Inductive repeating : Provider -> Prop :=
  | repeat_realdebrid user_ip : repeating (realdebrid user_ip)
  | repeat_debridlink user_ip : repeating (debridlink user_ip)
  | repeat_premiumize : repeating premiumize.

Lemma prefixing_prepare base p s c : prefixing base p ->
  url (@prepare p s c) = base +:+ url c /\ retry_count (@prepare p s c) = retry_count c.
Proof. by destruct 1. Qed.

Lemma dict_set_set {A} k (v : A) d : dict_set k v (dict_set k v d) = dict_set k v d.
Proof.
  induction d as [|[k' v'] d IH]; cbn; [by rewrite String.eqb_refl|].
  destruct (String.eqb k k') eqn:E; cbn; rewrite E; [done|by rewrite IH].
Qed.

Lemma set_ip_set_ip ip d : set_ip ip (set_ip ip d) = set_ip ip d.
Proof. unfold set_ip. destruct ip as [ip|]; [|done]. destruct (str_empty ip); [done|]. apply dict_set_set. Qed.

Lemma dict_set_cons {A} k (v : A) x d : exists y d', dict_set k v (x :: d) = y :: d'.
Proof. destruct x as [k' v']. cbn. destruct (String.eqb k k'); by eexists _, _. Qed.

Lemma set_ip_cons ip x d : exists y d', set_ip ip (x :: d) = y :: d' /\ set_ip ip (y :: d') = y :: d'.
Proof.
  assert (exists y d', set_ip ip (x :: d) = y :: d') as (y & d' & E).
  { unfold set_ip. destruct ip as [ip|]; [|by eexists _, _]. destruct (str_empty ip); [by eexists _, _|].
    apply dict_set_cons. }
  exists y, d'. split; [done|]. rewrite <- E. apply set_ip_set_ip.
Qed.

Ltac set_ip_step ip :=
  match goal with
  | |- context [set_ip ip (?x :: ?l)] =>
      let E1 := fresh in let E2 := fresh in
      destruct (set_ip_cons ip x l) as (? & ? & E1 & E2); rewrite E1; cbn -[set_ip]; rewrite ?E2
  end.

Lemma realdebrid_repeats ip c : let c1 := realdebrid_prepare ip c in
  retry_count c1 = retry_count c /\ realdebrid_prepare ip (retried c1) = retried c1.
Proof.
  destruct c as [m u dt j ps b1 b2 b3 n]. unfold realdebrid_prepare. cbn -[set_ip].
  destruct (_ && _) eqn:E; cbn -[set_ip]; [|by rewrite E].
  destruct dt as [|d|[|a b]|f]; cbn -[set_ip]; rewrite E; cbn -[set_ip]; by rewrite ?set_ip_set_ip.
Qed.

Lemma debridlink_repeats ip c : let c1 := debridlink_prepare ip c in
  retry_count c1 = retry_count c /\ debridlink_prepare ip (retried c1) = retried c1.
Proof.
  destruct c as [m u dt j ps b1 b2 b3 n]. unfold debridlink_prepare. cbn -[set_ip].
  destruct (truthy_str ip) eqn:E; [|done].
  destruct dt as [|[|x d]| |]; cbn -[set_ip]; try (set_ip_step ip; done);
    (destruct j as [[| | | | | |[|x' d']]|]; cbn -[set_ip]; try (set_ip_step ip; done));
    (destruct ps as [[|x'' ps]|]; cbn -[set_ip]; try (set_ip_step ip; done)); done.
Qed.

Lemma repeating_prepare p s c : repeating p ->
  let c1 := @prepare p s c in
  retry_count c1 = retry_count c /\ forall s', token s' = token s -> is_private_token s' = is_private_token s ->
  @prepare p s' (retried c1) = retried c1.
Proof.
  destruct 1 as [ip|ip|]; cbn -[realdebrid_prepare debridlink_prepare].
  - destruct (realdebrid_repeats ip c). by split; [|intros].
  - destruct (debridlink_repeats ip c). by split; [|intros].
  - split; [done|]. intros s' -> ->. destruct (is_private_token s); [|done].
    unfold with_params, retried, params_or_empty. cbn. by rewrite dict_set_set.
Qed.

(** The first attempt of a call with an open session is dropped. *)
Definition dropped (p : Provider) (c : call) (s : state) : Prop :=
  session s = true /\ retry_count (@prepare p s c) < 1 /\
  exists e, serve (history s) (request_of (@prepare p s c) s) = Raise e /\ is_retried e = true.

Lemma dropped_history p c s d : dropped p c s ->
  (forall s', token s' = token s -> is_private_token s' = is_private_token s -> session s' = true ->
     0 <= retry_count (@prepare p s c) -> 1 <= retry_count (@prepare p s' (retried (@prepare p s c)))) ->
  0 <= retry_count (@prepare p s c) ->
  let c1 := @prepare p s c in
  let s1 := record_event (Sent (request_of c1 s)) s in
  history (make_request p (S (S d)) c s).2 =
  Sent (request_of (@prepare p s1 (retried c1)) s) :: Sent (request_of c1 s) :: history s.
Proof.
  intros (Hs & Hc & e & He & Hr) Hn Hc0 c1 s1.
  rewrite (@make_request_retried exn_text open_session serve p (S d) c s e Hs Hc He Hr).
  by rewrite bind_lift_state, make_request_last_sent; [|done|apply Hn].
Qed.

(** Real-Debrid, Debrid-Link and Premiumize: a request whose connection is
    lost is sent once more, the same. *)
Theorem retry_repeats_request (p : Provider) (c : call) (s : state) (depth : nat) (Hp : repeating p)
    (Hcount : retry_count c = 0) (Hdropped : dropped p c s) :
  let r := request_of (@prepare p s c) s in
  history (make_request p (S (S depth)) c s).2 = Sent r :: Sent r :: history s.
Proof.
  destruct (repeating_prepare p s c Hp) as [Hk Hi]. cbv zeta.
  rewrite dropped_history; [by rewrite Hi|done| |lia].
  intros s' Ht Hpr _ _. rewrite Hi by done. cbn. lia.
Qed.

(** TorBox, AllDebrid and OffCloud: a request whose connection is lost is
    sent once more, to the address of the API twice in front of the path. *)
Theorem retry_leaves_the_api (base_url : string) (p : Provider) (c : call) (s : state) (depth : nat)
    (Hp : prefixing base_url p) (Hcount : retry_count c = 0) (Hdropped : dropped p c s) :
  exists r1 r2, history (make_request p (S (S depth)) c s).2 = Sent r2 :: Sent r1 :: history s /\
    r_url r1 = base_url +:+ url c /\ r_url r2 = base_url +:+ base_url +:+ url c.
Proof.
  destruct (prefixing_prepare base_url p s c Hp) as [Hu Hk].
  rewrite dropped_history; [|done| |lia].
  - eexists _, _. split; [done|]. cbn. split; [done|].
    destruct (prefixing_prepare base_url p (record_event (Sent (request_of (@prepare p s c) s)) s)
                (retried (@prepare p s c)) Hp) as [Hu2 _]. rewrite Hu2. cbn. by rewrite Hu.
  - intros s' _ _ _ _. destruct (prefixing_prepare base_url p s' (retried (@prepare p s c)) Hp) as [_ Hk2].
    rewrite Hk2. cbn. lia.
Qed.

(** Debrider and EasyDebrid: while the service cannot be reached, a call is
    made again without end; only the depth of Python's stack limits the number
    of requests. *)
Theorem retries_without_bound (p : Provider) (c : call) (s : state) (depth : nat)
    (Hp : p = debrider \/ p = easydebrid) (Hs : session s = true)
    (Hdown : forall h r, exists e, serve h r = Raise e /\ is_retried e = true) :
  sent (history (make_request p depth c s).2) = (depth + sent (history s))%nat.
Proof.
  revert c s Hs. induction depth as [|d IH]; intros c s Hs; [done|].
  destruct (Hdown (history s) (request_of (@prepare p s c) s)) as (e & He & Hr).
  rewrite (@make_request_retried exn_text open_session serve p d c s e Hs); [|by destruct Hp as [-> | ->]|done..].
  rewrite bind_lift_state, IH by done. unfold sent. cbn. lia.
Qed.

(** StremThru: an answer that only a second request gets is unwrapped
    twice, so the caller sees the [data] inside the [data] of the answer. *)
Theorem retry_unwraps_twice (full_url : string -> string) (c : call) (s : state) (depth : nat)
    (r : response) (d : list (string * value)) (v : value)
    (Hplain : retry_count c = 0 /\ is_return_none c = false /\ is_expected_to_fail c = false /\ is_http_response c = false)
    (Hdropped : dropped (stremthru full_url) c s)
    (Hanswer : forall q, serve (Sent (request_of (@prepare (stremthru full_url) s c) s) :: history s) q = Ret r)
    (Hok : status r < 400) (Hjson : json_body r = Ret (VDict d)) (Hdata : dict_get "data" d = Some v) :
  (make_request (stremthru full_url) (S (S depth)) c s).1 =
  match v with
  | VDict d' => Ret (Data (default VNone (dict_get "data" d')))
  | _ => Raise (Python AttributeError)
  end.
Proof.
  destruct Hplain as (Hk & Hn & Hx & Hh). destruct Hdropped as (Hs & Hc & e & He & Hr).
  rewrite (@make_request_retried exn_text open_session serve (stremthru full_url) (S depth) c s e Hs Hc He Hr).
  set (c1 := @prepare (stremthru full_url) s c) in *. set (s1 := record_event (Sent (request_of c1 s)) s).
  assert (make_request (stremthru full_url) (S depth) (retried c1) s1 =
    (Ret (Data v), record_event (Sent (request_of (@prepare (stremthru full_url) s1 (retried c1)) s1)) s1)) as E.
  { cbn [DebridClient.make_request]. unfold override, base_request, catch, attempt, send, ensure_session, mbind, M_bind, get, modify, lift.
    cbn -[check_response_status parse_response]. rewrite Hs. cbn -[check_response_status parse_response].
    rewrite Hanswer. unfold check_response_status, parse_response. cbn.
    rewrite (proj2 (Z.ltb_lt _ _) Hok). cbn. rewrite Hn, Hjson, ?Hx, ?Hh. cbn. by rewrite ?Hx, ?Hh, ?Hdata. }
  unfold mbind, M_bind. rewrite E. cbn. rewrite Hx, Hh. by destruct v.
Qed.

End Retries.

(** ** Examples *)

Definition no_text (e : py_exn) : string := "".
Definition service_gone (h : list event) (r : request) : outcome error response :=
  Raise (ClientConnectorError "Cannot connect to host").
Definition open_client : state := mkState (Some "TOKEN") false [("Authorization", "Bearer TOKEN")] true [] FileSelection.world_example.

(** A service that drops the first request and then answers [r]. *)
Definition drops_once (r : response) (h : list event) (q : request) : outcome error response :=
  match h with [] => Raise (ServerDisconnectedError "Server disconnected") | _ => Ret r end.
Definition ok_json (v : value) : response := mkResponse 200 "application/json" (Ret "") (Ret v).

Example torbox_loses_the_list :
  let not_found := mkResponse 404 "application/json" (Ret "") (Ret (VDict [("detail", VStr "Not Found")])) in
  let c := mkCall "GET" "/torrents/mylist" NoBody None (Some [("bypass_cache", VStr "true")]) false true false 0 in
  let '(r, s) := @make_request no_text (Ret tt) (drops_once not_found) torbox 10 c open_client in
  r = Ret (Data (VDict [("detail", VStr "Not Found")])) /\
  map (fun e => match e with Sent q => r_url q | Slept _ => "" end) (history s) =
    ["https://api.torbox.app/v1/apihttps://api.torbox.app/v1/api/torrents/mylist";
     "https://api.torbox.app/v1/api/torrents/mylist"].
Proof. vm_compute. done. Qed.

(** Real-Debrid out of reach, and StremThru's answer a list. *)
Definition list_answer (h : list event) (r : request) : outcome error response := Ret (ok_json (VList [])).
Definition stremthru_example : Provider := stremthru (String.append "https://stremthru.example").

Lemma make_request_ends_witness :
  (let '(r, s) := @make_request no_text (Ret tt) service_gone (realdebrid (Some "1.2.3.4")) 7
                    (plain "POST" "https://api.real-debrid.com/rest/1.0/unrestrict/link") open_client in
   (r, s) = @make_request no_text (Ret tt) service_gone (realdebrid (Some "1.2.3.4")) 2
                    (plain "POST" "https://api.real-debrid.com/rest/1.0/unrestrict/link") open_client /\
   (sent (history s) <= 2 + 0)%nat /\
   match r with Ret _ => True | Raise e => is_provider e = true \/ exists c v, @finish (realdebrid (Some "1.2.3.4")) c v = Raise e end) /\
  (let '(r, s) := @make_request no_text (Ret tt) list_answer stremthru_example 7 (plain "GET" "/v0/store/magnets") open_client in
   (r, s) = @make_request no_text (Ret tt) list_answer stremthru_example 2 (plain "GET" "/v0/store/magnets") open_client /\
   (sent (history s) <= 2 + 0)%nat /\
   match r with Ret _ => True | Raise e => is_provider e = true \/ exists c v, @finish stremthru_example c v = Raise e end) /\
  (@make_request no_text (Ret tt) list_answer stremthru_example 7 (plain "GET" "/v0/store/magnets") open_client).1
    = Raise (Python AttributeError).
Proof.
  split; [|split; [|vm_compute; reflexivity]].
  - exact (@make_request_ends no_text (Ret tt) service_gone (realdebrid (Some "1.2.3.4")) 5
      (plain "POST" "https://api.real-debrid.com/rest/1.0/unrestrict/link") open_client
      (fun s c => proj1 (realdebrid_repeats (Some "1.2.3.4") c)) ltac:(done)).
  - exact (@make_request_ends no_text (Ret tt) list_answer stremthru_example 5
      (plain "GET" "/v0/store/magnets") open_client (fun s c => eq_refl) ltac:(done)).
Defined.

Lemma retry_repeats_request_witness :
  history (@make_request no_text (Ret tt) service_gone (debridlink None) 7
    (plain "GET" "https://debrid-link.com/api/v2/account/infos") open_client).2 =
  let r := mkRequest "GET" "https://debrid-link.com/api/v2/account/infos" NoBody None None
             [("Authorization", "Bearer TOKEN")] in [Sent r; Sent r].
Proof.
  apply (retry_repeats_request no_text (Ret tt) service_gone (debridlink None)
    (plain "GET" "https://debrid-link.com/api/v2/account/infos") open_client 5); [constructor|done|].
  split; [done|]. split; [done|]. by exists (ClientConnectorError "Cannot connect to host").
Defined.

Lemma retry_leaves_the_api_witness :
  exists r1 r2, history (@make_request no_text (Ret tt) service_gone torbox 7 (plain "GET" "/user/me") open_client).2 =
    [Sent r2; Sent r1] /\ r_url r1 = "https://api.torbox.app/v1/api/user/me" /\
    r_url r2 = "https://api.torbox.app/v1/apihttps://api.torbox.app/v1/api/user/me".
Proof.
  apply (retry_leaves_the_api no_text (Ret tt) service_gone TORBOX_BASE_URL torbox (plain "GET" "/user/me") open_client 5);
    [constructor|done|].
  split; [done|]. split; [done|]. by exists (ClientConnectorError "Cannot connect to host").
Defined.

Lemma retries_without_bound_witness :
  sent (history (@make_request no_text (Ret tt) service_gone debrider 40 (plain "GET" "/account") open_client).2) = 40%nat.
Proof.
  apply (retries_without_bound no_text (Ret tt) service_gone debrider (plain "GET" "/account") open_client 40);
    [by left|done|]. intros h r. by eexists.
Defined.

Lemma retry_unwraps_twice_witness :
  let answer := ok_json (VDict [("data", VDict [("items", VList [])])]) in
  (@make_request no_text (Ret tt) (drops_once answer) (stremthru (String.append "https://stremthru.example"))
     7 (plain "GET" "/v0/store/magnets") open_client).1 = Ret (Data VNone).
Proof.
  apply (retry_unwraps_twice no_text (Ret tt) (drops_once (ok_json (VDict [("data", VDict [("items", VList [])])])))
    (String.append "https://stremthru.example") (plain "GET" "/v0/store/magnets") open_client 5
    (ok_json (VDict [("data", VDict [("items", VList [])])])) [("data", VDict [("items", VList [])])]
    (VDict [("items", VList [])])); try done.
  split; [done|]. split; [done|]. by exists (ServerDisconnectedError "Server disconnected").
Defined.
