(* ===== verification/ProviderFlow.v ===== *)
(** * What the playback functions of the providers share

    The functions of workers/providers/*/utils.py handle answers of a service
    as Python values and let [select_file_index_from_torrent] of
    workers/providers/parser.py ([FileSelection]) choose among its files.  Here
    are those steps as methods of a client, and the lemmas on a request that
    is answered at once. *)

From S2P Require Export DebridProviders.
From S2P Require FileSelection.
Local Open Scope string_scope.
Local Open Scope Z_scope.

(** ** Values *)

Definition py {A} (o : outcome py_exn A) : outcome error A :=
  match o with Ret a => Ret a | Raise e => Raise (Python e) end.

(** [v.get(k)] and [v.get(k, default)] *)
Definition value_get (k : string) (v : value) : outcome error (option value) :=
  match v with VDict d => Ret (dict_get k d) | _ => Raise (Python AttributeError) end.
Definition value_get_or (k : string) (dflt v : value) : outcome error value := default dflt <$> value_get k v.

(** [v[k]] and [k in v] for a string [k] *)
Definition getitem (k : string) (v : value) : outcome error value := py (py_getitem k v).
Definition contains_key (k : string) (v : value) : outcome error bool := py (py_contains k v).

Definition str_chars (s : string) : list value :=
  (fix go s := match s with "" => [] | String c s => VStr (String c "") :: go s end) s.

(** The items of [for x in v]. *)
Definition iter_value (v : value) : outcome error (list value) :=
  match v with
  | VList l => Ret l
  | VDict d => Ret (map (fun kv => VStr kv.1) d)
  | VStr s => Ret (str_chars s)
  | _ => Raise (Python TypeError)
  end.

(** [v == s] for a string [s], and [v is True] *)
Definition is_str (s : string) (v : value) : bool := match v with VStr s' => String.eqb s s' | _ => false end.
Definition is_true (v : value) : bool := match v with VBool b => b | _ => false end.

(** [v == z] for an integer [z]. *)
Definition is_int (z : Z) (v : value) : bool :=
  match v with
  | VInt z' => z' =? z
  | VBool b => (if b then 1 else 0) =? z
  | VFloat f => match trunc f with Ret z' => (z' =? z) && f_eqb f (f_round z') | Raise _ => false end
  | _ => false
  end.

(** [a == b] *)
Fixpoint value_eqb (a b : value) : bool :=
  match a, b with
  | VNone, VNone => true
  | VStr s, VStr t => String.eqb s t
  | VList l, VList m =>
      (fix go l m := match l, m with
                     | [], [] => true
                     | x :: l, y :: m => value_eqb x y && go l m
                     | _, _ => false
                     end) l m
  | VDict d, VDict e =>
      (length d =? length e)%nat &&
      (fix go d := match d with
                   | [] => true
                   | (k, x) :: d => match dict_get k e with Some y => value_eqb x y | None => false end && go d
                   end) d
  | VFloat f, VFloat g => f_eqb f g
  | VInt z, _ => is_int z b
  | VBool x, _ => is_int (if x then 1 else 0) b
  | VFloat _, VInt z => is_int z a
  | VFloat _, VBool y => is_int (if y then 1 else 0) a
  | _, _ => false
  end.

(** [list.index(x)] *)
Fixpoint index_of_value (x : value) (l : list value) : option nat :=
  match l with
  | [] => None
  | y :: l => if value_eqb y x then Some O else S <$> index_of_value x l
  end.

(** [[x for x in l if test(x)]] *)
Fixpoint filter_outcome (test : value -> outcome error bool) (l : list value) : outcome error (list value) :=
  match l with
  | [] => Ret []
  | v :: l => b ← test v; r ← filter_outcome test l; Ret (if b : bool then v :: r else r)
  end.

(** [v[i]] for an index that is not negative. *)
Definition item_at (i : nat) (v : value) : outcome error value :=
  match v with
  | VList l => match l !! i with Some x => Ret x | None => Raise (Python IndexError) end
  | VDict _ => Raise (Python KeyError)
  | VStr s => match str_chars s !! i with Some x => Ret x | None => Raise (Python IndexError) end
  | _ => Raise (Python TypeError)
  end.

(** The first item that passes a test, which may raise. *)
Fixpoint find_item (test : value -> outcome error bool) (l : list value) : outcome error (option value) :=
  match l with
  | [] => Ret None
  | v :: l => b ← test v; if b : bool then Ret (Some v) else find_item test l
  end.

Fixpoint map_outcome {A B} (f : A -> outcome error B) (l : list A) : outcome error (list B) :=
  match l with
  | [] => Ret []
  | x :: l => y ← f x; r ← map_outcome f l; Ret (y :: r)
  end.

(** [asyncio.gather]: every method runs, then the first error is raised.  The
    methods run one after the other here. *)
Fixpoint run_all {A} (l : list (M A)) : state -> list (outcome error A) * state :=
  fun s => match l with
           | [] => ([], s)
           | m :: l => let '(o, s) := m s in let '(os, s) := run_all l s in (o :: os, s)
           end.
Definition gather {A} (l : list (M A)) : M (list A) :=
  fun s => let '(os, s) := run_all l s in (map_outcome id os, s).

Lemma find_item_spec test l r : find_item test l = Ret r ->
  match r with
  | Some v => v ∈ l /\ test v = Ret true
  | None => forall v, v ∈ l -> test v = Ret false
  end.
Proof.
  induction l as [|v l IH]; cbn [find_item]; [intros [= <-]; intros ? []%elem_of_nil|].
  destruct (test v) as [b|] eqn:Et; [cbn [mbind outcome_bind]|done]. destruct b.
  - intros [= <-]. split; [by left|done].
  - intros Hr%IH. destruct r as [v'|].
    + destruct Hr. split; [by right|done].
    + intros v' [-> | Hv]%elem_of_cons; [done|by apply Hr].
Qed.

Lemma map_outcome_Forall2 {A B} (f : A -> outcome error B) l l' :
  map_outcome f l = Ret l' <-> Forall2 (fun x y => f x = Ret y) l l'.
Proof.
  split.
  - revert l'. induction l as [|x l IH]; intros l'; cbn [map_outcome]; [by intros [= <-]|].
    destruct (f x) as [y|] eqn:Ef; [cbn [mbind outcome_bind]|done].
    destruct (map_outcome f l) as [r|]; [cbn [mbind outcome_bind]|done]. intros [= <-]. constructor; [done|by apply IH].
  - induction 1 as [|x y l l' Hx _ IH]; [done|]. cbn [map_outcome]. by rewrite Hx, IH.
Qed.

(** ** The file that is played *)

Section Select.
Context (parse_title : string -> FileSelection.ptt_result) (parse_date : string -> option string)
  (get_series_data_by_id : string -> option FileSelection.SeriesMetadata)
  (persists : FileSelection.saved_update -> bool) (annotation_lock_free : bool).

(** A file of the service's list.  Services give every file a name; without
    one this raises at once, the code only when it comes to that file. *)
Definition provider_file_of (name_key size_key : string) (v : value) : outcome error FileSelection.provider_file :=
  name ← getitem name_key v;
  match name, v with
  | VStr n, VDict d =>
      Ret (FileSelection.mkFile n (match dict_get size_key d with Some (VInt z) => Some z | _ => None end))
  | _, _ => Raise (Python TypeError)
  end.

Definition of_selection (e : FileSelection.selection_exn) : error :=
  match e with
  | FileSelection.ProviderException m v => ProviderException m v false
  | FileSelection.PythonError e => Python e
  | FileSelection.PersistError => OtherException "database"
  end.

(** [torrent_info.get(file_key)] when it is a list, else no files. *)
Definition files_of (file_key : string) (torrent_info : list (string * value)) : list value :=
  match dict_get file_key torrent_info with Some (VList l) => l | _ => [] end.

(** The selection, with its effect on the stream and the database. *)
Definition choose_file (files : list FileSelection.provider_file) (filename : option string) (season episode : option Z)
    (is_filename_trustable is_index_trustable : bool) : M nat :=
  fun s =>
    let '(o, w) := FileSelection.select_file_index_from_torrent parse_title parse_date get_series_data_by_id persists
                     annotation_lock_free files filename season episode None is_filename_trustable is_index_trustable
                     (world s) in
    (match o with Ret idx => Ret idx | Raise e => Raise (of_selection e) end, set_world w s).

Definition select_file_index_from_torrent (torrent_info : list (string * value)) (file_key name_key size_key : string)
    (filename : option string) (season episode : option Z) (is_filename_trustable is_index_trustable : bool) : M nat :=
  files ← lift (map_outcome (provider_file_of name_key size_key) (files_of file_key torrent_info));
  choose_file files filename season episode is_filename_trustable is_index_trustable.

Lemma map_outcome_lookup {A B} (f : A -> outcome error B) l l' i y :
  map_outcome f l = Ret l' -> l' !! i = Some y -> exists x, l !! i = Some x /\ f x = Ret y.
Proof.
  revert l' i. induction l as [|x l IH]; intros l' i; cbn [map_outcome]; [by intros [= <-]|].
  destruct (f x) as [y0|] eqn:Ef; [cbn [mbind outcome_bind]|done].
  destruct (map_outcome f l) as [r|] eqn:Er; [cbn [mbind outcome_bind]|done]. intros [= <-].
  destruct i as [|i]; cbn; [intros [= <-]; by exists x|by apply IH].
Qed.

(** The index is that of a file of the service's list, with the base name
    asked for or of a video; nothing is sent. *)
Lemma select_costs torrent_info file_key name_key size_key filename season episode trust itrust :
  costs 0 0 (select_file_index_from_torrent torrent_info file_key name_key size_key filename season episode trust itrust)
    (fun idx => exists v pf, files_of file_key torrent_info !! idx = Some v /\
       provider_file_of name_key size_key v = Ret pf /\ FileSelection.acceptable filename pf) any.
Proof.
  apply (costs_bind 0 0 0 0) with
    (Q1 := fun files => map_outcome (provider_file_of name_key size_key) (files_of file_key torrent_info) = Ret files);
    [lia|apply costs_lift; [lia|]|].
  { by destruct (map_outcome _ _). }
  intros files Hfiles n t s Hs. unfold choose_file.
  pose proof (fun idx => FileSelection.selected_index_in_list parse_title parse_date get_series_data_by_id persists
    annotation_lock_free files filename season episode None trust itrust (world s) idx) as Hv.
  destruct (FileSelection.select_file_index_from_torrent _ _ _ _ _ _ _ _ _ _ _ _ _) as [[idx|e] w]; [|by split].
  split; [|done]. destruct (Hv idx) as (pf & Hpf & Hacc); [by intros|done|].
  destruct (map_outcome_lookup _ _ _ _ _ Hfiles Hpf) as (v & Hv1 & Hv2). by exists v, pf.
Qed.
End Select.
