(* ===== verification/UsenetSelection.v ===== *)
(** * The file of a Usenet download

    workers/providers/usenet_file_selection.py: which file of a download is
    played, for all Usenet providers.  Title and date parsing ([PTT],
    [dateparser]) are parameters; a date that [dateparser] cannot read, or
    fails on, is [None]. *)

From S2P Require Export DebridClient.
From S2P Require Import EpisodeParser.
From S2P Require FileSelection.
Local Open Scope string_scope.
Local Open Scope Z_scope.

(** ** Extensions *)

Definition USENET_VIDEO_EXTENSIONS : list string := [".mkv"; ".mp4"; ".avi"; ".mov"; ".wmv"; ".webm"].

(** [is_usenet_video_basename] on a string, and on any value. *)
Definition is_video_name (name : string) : bool :=
  existsb (fun ext => endswith ext (lower name)) USENET_VIDEO_EXTENSIONS.
Definition is_usenet_video_basename (filename : value) : outcome py_exn bool :=
  match filename with
  | VStr s => Ret (is_video_name s)
  | v => if truthy v then Raise AttributeError else Ret (is_video_name "")
  end.

Definition normalize_extension_field (ext : option value) : string :=
  match ext with
  | None => ""
  | Some v =>
      if negb (truthy v) || str_empty (strip (str v)) then ""
      else let e := lower (strip (str v)) in if startswith "." e then e else "." +:+ e
  end.

(** [row.get(k) or ""] *)
Definition get_or_empty (k : string) (row : list (string * value)) : value :=
  match dict_get k row with Some v => if truthy v then v else VStr "" | None => VStr "" end.

Definition easynews_row_looks_like_video (row : list (string * value)) : outcome py_exn bool :=
  let dotted := normalize_extension_field (dict_get "extension" row) in
  if negb (str_empty dotted) && existsb (String.eqb dotted) USENET_VIDEO_EXTENSIONS then Ret true
  else is_usenet_video_basename (get_or_empty "filename" row).

Definition easynews_episode_match_text (row : list (string * value)) : value :=
  let filename := get_or_empty "filename" row in
  if truthy filename then filename else get_or_empty "subject" row.

(** ** What a label says *)

Section Labels.
Context (parse_title : string -> FileSelection.ptt_result) (parse_date : string -> option string).

(** [_normalize_calendar_date] of a string. *)
Definition normalize_calendar_date (value : option string) : option string :=
  match value with
  | None => None
  | Some value =>
      let s := strip value in
      if (10 <=? slen s) && Ascii.eqb (default " "%char (String.get 4 s)) "-"
         && Ascii.eqb (default " "%char (String.get 7 s)) "-"
      then Some (str_take 10 s) else parse_date s
  end.

Definition some_text (o : option string) : bool := match o with Some (String _ _) => true | _ => false end.

Definition extract_air_date_from_label (label : string) : option string :=
  let text := strip label in
  if str_empty text then None
  else
    let normalized := normalize_calendar_date (FileSelection.ptt_date (parse_title text)) in
    if some_text normalized then normalized
    else match search DATE_STR_REGEX (replace "\" "/" text) with
         | None => None
         | Some (_, c, _) => parse_date (group 0 c)
         end.

Definition usenet_label_matches_air_date (label air_date_iso : string) : bool :=
  match normalize_calendar_date (Some air_date_iso) with
  | Some (String _ _ as target) =>
      match extract_air_date_from_label label with
      | Some (String _ _ as extracted) => String.eqb extracted target
      | _ => false
      end
  | _ => false
  end.

Definition usenet_label_matches_season_episode (label : string) (season episode : Z) : outcome py_exn bool :=
  let text := strip label in
  if str_empty text then Ret false
  else
    let parsed := parse_title text in
    match FileSelection.ptt_seasons parsed, FileSelection.ptt_episodes parsed with
    | s :: _, e :: _ => Ret ((s =? season) && (e =? episode))
    | [], e :: _ => Ret (e =? episode)
    | _, [] =>
        r ← fallback_parse_season_episode text (Some season);
        match r with
        | (Some fs, Some fe) => Ret ((fs =? season) && (fe =? episode))
        | _ => Ret false
        end
    end.

(** ** The selection *)

Context {A : Type} (display_name : A -> value) (size_of : A -> value).

Definition no_video_in_usenet_list : error :=
  ProviderException "No video file found in this Usenet download (only non-video files present)."
    "no_video_file_found.mp4" false.

(** The first file with a video label that passes [test], from index [idx]. *)
Fixpoint first_video (test : string -> outcome py_exn bool) (idx : nat) (files : list A) : outcome py_exn (option nat) :=
  match files with
  | [] => Ret None
  | f :: files =>
      video ← is_usenet_video_basename (display_name f);
      match video, display_name f with
      | true, VStr label =>
          ok ← test label;
          if ok : bool then Ret (Some idx) else first_video test (S idx) files
      | _, _ => first_video test (S idx) files
      end
  end.

(** [ll == want or (match_path_suffix and ll.endswith(f"/{want}"))] *)
Definition name_matches (want : string) (match_path_suffix : bool) (label : string) : bool :=
  let ll := lower label in String.eqb ll want || (match_path_suffix && endswith ("/" +:+ want) ll).

(** The indices of the videos. *)
Fixpoint video_indices (idx : nat) (files : list A) : outcome py_exn (list (nat * A)) :=
  match files with
  | [] => Ret []
  | f :: files =>
      video ← is_usenet_video_basename (display_name f);
      l ← video_indices (S idx) files;
      Ret (if video : bool then (idx, f) :: l else l)
  end.

(** [_size] *)
Definition file_size (f : A) : outcome py_exn Z :=
  match to_int (size_of f) with
  | Raise TypeError | Raise ValueError => Ret 0
  | r => r
  end.

(** [max(l, key=_size)], with the best so far. *)
Fixpoint max_size (best : nat) (size : Z) (l : list (nat * A)) : outcome py_exn nat :=
  match l with
  | [] => Ret best
  | (i, f) :: l =>
      z ← file_size f;
      if size <? z then max_size i z l else max_size best size l
  end.

(** One of the loops, when its criterion is given. *)
Definition try_loop (given : bool) (test : string -> outcome py_exn bool) (files : list A) : outcome py_exn (option nat) :=
  if given then first_video test 0 files else Ret None.

(** [filename and filename.strip()] *)
Definition wanted (filename : option string) : option string :=
  match filename with
  | Some n => if str_empty (strip n) then None else Some (lower (strip n))
  | None => None
  end.

Definition name_test (filename : option string) (match_path_suffix : bool) (label : string) : bool :=
  match wanted filename with Some want => name_matches want match_path_suffix label | None => false end.
Definition episode_test (season episode : option Z) (label : string) : outcome py_exn bool :=
  match season, episode with
  | Some s, Some e => usenet_label_matches_season_episode label s e
  | _, _ => Ret false
  end.
Definition date_test (episode_air_date : option string) (label : string) : bool :=
  match episode_air_date with Some (String _ _ as day) => usenet_label_matches_air_date label day | _ => false end.

Definition of_py {X} (o : outcome py_exn X) : outcome error X :=
  match o with Ret x => Ret x | Raise e => Raise (Python e) end.

Definition select_usenet_file_index (files : list A) (filename : option string) (season episode : option Z)
    (match_path_suffix : bool) (episode_air_date : option string) : outcome error nat :=
  match files with
  | [] => Raise (Python ValueError)
  | _ =>
      by_name ← of_py (try_loop (negb (bool_decide (wanted filename = None)))
                         (fun l => Ret (name_test filename match_path_suffix l)) files);
      match by_name with Some idx => Ret idx | None =>
      by_episode ← of_py (try_loop (negb (bool_decide (season = None)) && negb (bool_decide (episode = None)))
                            (episode_test season episode) files);
      match by_episode with Some idx => Ret idx | None =>
      by_date ← of_py (try_loop (some_text episode_air_date) (fun l => Ret (date_test episode_air_date l)) files);
      match by_date with Some idx => Ret idx | None =>
      videos ← of_py (video_indices 0 files);
      match videos with
      | [] => Raise no_video_in_usenet_list
      | (i, f) :: l => of_py (z ← file_size f; max_size i z l)
      end
      end end end
  end.

(** The file itself, [None] for an empty list. *)
Definition select_usenet_file_dict (files : list A) (filename : option string) (season episode : option Z)
    (match_path_suffix : bool) (episode_air_date : option string) : outcome error (option A) :=
  match files with
  | [] => Ret None
  | _ => idx ← select_usenet_file_index files filename season episode match_path_suffix episode_air_date;
         match files !! idx with Some f => Ret (Some f) | None => Raise (Python IndexError) end
  end.

(** ** Properties *)

(** A file the selection may pick. *)
Definition video_file (f : A) (label : string) : Prop := display_name f = VStr label /\ is_video_name label = true.
Definition no_video_passes (test : string -> bool) (files : list A) : Prop :=
  forall f label, f ∈ files -> video_file f label -> test label = false.

Lemma video_basename v : is_usenet_video_basename v = Ret true <-> exists label, v = VStr label /\ is_video_name label = true.
Proof.
  split; [|by intros (label & -> & <-)].
  destruct v; unfold is_usenet_video_basename; try (destruct (truthy _); discriminate); [].
  intros [= E]. by eexists.
Qed.

Lemma first_video_spec test files : forall k r, first_video test k files = Ret r ->
  match r with
  | Some idx => exists i f label, idx = (k + i)%nat /\ files !! i = Some f /\ video_file f label /\ test label = Ret true
  | None => forall f label, f ∈ files -> video_file f label -> test label = Ret false
  end.
Proof.
  induction files as [|f files IH]; intros k r; cbn [first_video]; [intros [= <-]; intros ? ? []%elem_of_nil|].
  destruct (is_usenet_video_basename (display_name f)) as [video|] eqn:Ev; [cbn [mbind outcome_bind]|done].
  assert (Hskip : (forall label, video_file f label -> test label = Ret false) -> first_video test (S k) files = Ret r ->
    match r with
    | Some idx => exists i f0 label, idx = (k + i)%nat /\ (f :: files) !! i = Some f0 /\ video_file f0 label /\ test label = Ret true
    | None => forall f0 label, f0 ∈ f :: files -> video_file f0 label -> test label = Ret false
    end).
  { intros Hf Hr. specialize (IH _ _ Hr). destruct r as [idx|].
    - destruct IH as (i & f0 & label & -> & Hi & Hrest). exists (S i), f0, label. split; [lia|]. done.
    - intros f0 label [-> | Hin]%elem_of_cons; [apply Hf|by apply IH]. }
  destruct video.
  - apply video_basename in Ev as (label & Ed & El). rewrite Ed.
    destruct (test label) as [ok|] eqn:Et; [cbn [mbind outcome_bind]|done]. destruct ok.
    + intros [= <-]. exists 0%nat, f, label. by rewrite Nat.add_0_r.
    + apply Hskip. intros label' [El' _]. congruence.
  - apply Hskip. intros label [El Hl]. rewrite El in Ev. injection Ev. by rewrite Hl.
Qed.

Lemma video_indices_spec files : forall k l, video_indices k files = Ret l ->
  (forall i f, (i, f) ∈ l -> exists j label, i = (k + j)%nat /\ files !! j = Some f /\ video_file f label) /\
  (forall f label, f ∈ files -> video_file f label -> f ∈ l.*2).
Proof.
  induction files as [|f files IH]; intros k l; cbn [video_indices].
  { intros [= <-]. split; [intros ? ? []%elem_of_nil|intros ? ? []%elem_of_nil]. }
  destruct (is_usenet_video_basename (display_name f)) as [video|] eqn:Ev; [cbn [mbind outcome_bind]|done].
  destruct (video_indices (S k) files) as [l'|] eqn:El; [|done]. cbn [mbind outcome_bind].
  destruct (IH _ _ El) as [IH1 IH2].
  assert (H1 : forall i f0, (i, f0) ∈ l' -> exists j label, i = (k + j)%nat /\ (f :: files) !! j = Some f0 /\ video_file f0 label).
  { intros i f0 Hin. destruct (IH1 i f0 Hin) as (j & label & -> & Hj). exists (S j), label. by split; [lia|]. }
  destruct video; intros [= <-].
  - split.
    + intros i f0 [[= -> ->]|Hin]%elem_of_cons; [|by apply H1].
      apply video_basename in Ev as (label & Ed & Hl). exists 0%nat, label. by rewrite Nat.add_0_r.
    + intros f0 label [-> | Hin]%elem_of_cons Hl; cbn; [by left|right; by eapply IH2].
  - split; [done|]. intros f0 label [-> | Hin]%elem_of_cons Hl; [|by eapply IH2].
    destruct Hl as [Hl1 Hl2]. rewrite Hl1 in Ev. injection Ev. by rewrite Hl2.
Qed.

Lemma max_size_spec l : forall best z f0 idx, file_size f0 = Ret z -> max_size best z l = Ret idx ->
  exists f y, (idx, f) ∈ (best, f0) :: l /\ file_size f = Ret y /\
    forall i g, (i, g) ∈ (best, f0) :: l -> exists x, file_size g = Ret x /\ x <= y.
Proof.
  induction l as [|[i f] l IH]; intros best z f0 idx Hz; cbn [max_size].
  - intros [= <-]. exists f0, z. split; [by left|]. split; [done|].
    intros i g [[= -> ->]|[]%elem_of_nil]%elem_of_cons. exists z. by split; [|lia].
  - destruct (file_size f) as [z'|] eqn:Ef; [cbn [mbind outcome_bind]|done]. destruct (Z.ltb_spec z z'); intros Hr.
    + destruct (IH i z' f idx Ef Hr) as (g & y & Hin & Hy & Hmax). exists g, y. split; [by right|]. split; [done|].
      intros j g' [[= -> ->]|Hj]%elem_of_cons; [|by apply Hmax with j].
      exists z. split; [done|]. destruct (Hmax i f) as (x & Ex & ?); [by left|]. rewrite Ef in Ex. injection Ex. lia.
    + destruct (IH best z f0 idx Hz Hr) as (g & y & Hin & Hy & Hmax). exists g, y.
      split; [apply elem_of_cons in Hin as [->|Hin]; [by left|by right; right]|]. split; [done|].
      intros j g' [Hj|[Hj|Hj]%elem_of_cons]%elem_of_cons; [apply Hmax with j; rewrite Hj; by left| |apply Hmax with j; by right].
      injection Hj as -> ->. exists z'. split; [done|]. destruct (Hmax best f0) as (x & Ex & ?); [by left|].
      rewrite Hz in Ex. injection Ex. lia.
Qed.

Lemma of_py_ret {X} (o : outcome py_exn X) x : of_py o = Ret x -> o = Ret x.
Proof. by destruct o as [y|e]; [intros [= ->]|]. Qed.

(** What a loop says: the file it finds, or that no video passes. *)
Lemma try_loop_spec given test (b : string -> bool) files r :
  of_py (try_loop given test files) = Ret r -> (forall label, test label = Ret (b label) \/ is_ret (test label) = false) ->
  (given = false -> forall label, b label = false) ->
  match r with
  | Some idx => exists f label, files !! idx = Some f /\ video_file f label /\ b label = true
  | None => no_video_passes b files
  end.
Proof.
  intros Hr%of_py_ret Hb Hg. unfold try_loop in Hr. destruct given.
  - apply first_video_spec in Hr. destruct r as [idx|].
    + destruct Hr as (i & f & label & -> & Hi & Hv & Ht). exists f, label. repeat split; try done; try by apply Hv.
      destruct (Hb label) as [E|E]; rewrite Ht in E; [by injection E|done].
    + intros f label Hf Hv. specialize (Hr f label Hf Hv). destruct (Hb label) as [E|E]; rewrite Hr in E; [by injection E|done].
  - injection Hr as <-. intros f label _ _. by apply Hg.
Qed.

(** The outcome of the episode test as a boolean. *)
Definition is_episode (season episode : option Z) (label : string) : bool :=
  match episode_test season episode label with Ret b => b | Raise _ => false end.

(** The largest of the videos. *)
Definition is_largest (f : A) (files : list A) : Prop :=
  exists y, file_size f = Ret y /\
  forall g label, g ∈ files -> video_file g label -> exists x, file_size g = Ret x /\ x <= y.

(** The file selected is a video, and the criteria rank: it has the name
    asked for if a video has it; else it is the episode asked for if a video
    is; else it has the date; else it is a largest video. *)
Theorem usenet_file_selected (files : list A) (filename : option string) (season episode : option Z)
    (suffix : bool) (air_date : option string) (idx : nat)
    (Hidx : select_usenet_file_index files filename season episode suffix air_date = Ret idx) :
  exists f label, files !! idx = Some f /\ video_file f label /\
    (name_test filename suffix label = true \/ no_video_passes (name_test filename suffix) files /\
     (is_episode season episode label = true \/ no_video_passes (is_episode season episode) files /\
      (date_test air_date label = true \/ no_video_passes (date_test air_date) files /\ is_largest f files))).
Proof.
  unfold select_usenet_file_index in Hidx. destruct files as [|f0 files0]; [done|]. set (files := f0 :: files0) in *.
  destruct (of_py (try_loop (negb (bool_decide (wanted filename = None))) _ files)) as [r1|] eqn:E1; [cbn [mbind outcome_bind] in Hidx|done].
  apply (try_loop_spec _ _ (name_test filename suffix)) in E1; [|by left|].
  2: { intros Hg label. unfold name_test. apply negb_false_iff, bool_decide_eq_true in Hg. by rewrite Hg. }
  destruct r1 as [i|]; [injection Hidx as ->; destruct E1 as (f & label & ? & ? & ?); exists f, label; auto|].
  destruct (of_py (try_loop _ (episode_test season episode) files)) as [r2|] eqn:E2; [cbn [mbind outcome_bind] in Hidx|done].
  apply (try_loop_spec _ _ (is_episode season episode)) in E2.
  2: { intros label. unfold is_episode. destruct (episode_test season episode label); [by left|by right]. }
  2: { intros Hg label. unfold is_episode, episode_test. apply andb_false_iff in Hg as [Hg|Hg];
       apply negb_false_iff, bool_decide_eq_true in Hg; rewrite Hg; [done|by destruct season]. }
  destruct r2 as [i|]; [injection Hidx as ->; destruct E2 as (f & label & ? & ? & ?); exists f, label; auto 10|].
  destruct (of_py (try_loop (some_text air_date) _ files)) as [r3|] eqn:E3; [cbn [mbind outcome_bind] in Hidx|done].
  apply (try_loop_spec _ _ (date_test air_date)) in E3; [|by left|].
  2: { intros Hg label. by destruct air_date as [[|]|]. }
  destruct r3 as [i|]; [injection Hidx as ->; destruct E3 as (f & label & ? & ? & ?); exists f, label; auto 10|].
  destruct (of_py (video_indices 0 files)) as [videos|] eqn:E4; [cbn [mbind outcome_bind] in Hidx|done].
  apply of_py_ret, video_indices_spec in E4 as [Hin Hall]. destruct videos as [|[i f] l]; [done|].
  apply of_py_ret in Hidx. destruct (file_size f) as [z|] eqn:Ez; [cbn [mbind outcome_bind] in Hidx|done].
  destruct (max_size_spec l i z f idx Ez Hidx) as (g & y & Hg & Hy & Hmax).
  destruct (Hin idx g Hg) as (j & label & -> & Hj & Hv). exists g, label. split; [done|]. split; [done|].
  do 3 (right; split; [done|]). exists y. split; [done|]. intros g' label' Hg' Hv'.
  specialize (Hall g' label' Hg' Hv'). apply list_elem_of_fmap in Hall as ([k g''] & -> & Hk). by apply Hmax in Hk.
Qed.

(** A download without a video, whose labels are strings, is refused with
    its own message, whatever is asked for. *)
Theorem usenet_no_video (files : list A) (filename : option string) (season episode : option Z)
    (suffix : bool) (air_date : option string) (Hne : files <> [])
    (Hlabels : forall f, f ∈ files -> exists label, display_name f = VStr label /\ is_video_name label = false) :
  select_usenet_file_index files filename season episode suffix air_date = Raise no_video_in_usenet_list.
Proof.
  assert (Hf : forall test k, first_video test k files = Ret None).
  { clear Hne. induction files as [|f l IH]; intros test k; [done|]. cbn [first_video].
    destruct (Hlabels f) as (label & -> & Hl); [by left|]. cbn [is_usenet_video_basename mbind outcome_bind]. rewrite Hl. apply IH. intros g Hg. apply Hlabels. by right. }
  assert (Hv : forall k, video_indices k files = Ret []).
  { clear Hne Hf. induction files as [|f l IH]; intros k; [done|]. cbn [video_indices].
    destruct (Hlabels f) as (label & -> & Hl); [by left|]. cbn [is_usenet_video_basename]. rewrite Hl, IH; [done|].
    intros g Hg. apply Hlabels. by right. }
  assert (Ht : forall given test, of_py (try_loop given test files) = Ret None).
  { intros given test. unfold try_loop. rewrite Hf. by destruct given. }
  unfold select_usenet_file_index. destruct files as [|f0 l]; [done|]. rewrite !Ht. cbn [mbind outcome_bind].
  by rewrite ?Ht, ?Hv.
Qed.

End Labels.

(** ** Examples *)

Definition label_value (f : string * Z) : value := VStr f.1.
Definition size_value (f : string * Z) : value := VInt f.2.
Definition usenet_files : list (string * Z) :=
  [("par2/vol1.par2", 90); ("Show.S01E01.720p.mkv", 5); ("Show.S01E02.mkv", 7); ("Show.Special.mkv", 9)].
Definition select_usenet (filename : option string) (season episode : option Z) : outcome error nat :=
  select_usenet_file_index (fun _ => FileSelection.mkParsed [] [] None) (fun _ => None) label_value size_value usenet_files
    filename season episode false None.

Example usenet_criteria :
  select_usenet (Some "show.special.MKV ") (Some 1) (Some 2) = Ret 3%nat /\
  select_usenet (Some "missing.mkv") (Some 1) (Some 2) = Ret 2%nat /\
  select_usenet None (Some 4) (Some 4) = Ret 3%nat.
Proof. vm_compute. done. Qed.

Lemma usenet_file_selected_witness :
  exists f label, usenet_files !! 2%nat = Some f /\ video_file label_value f label /\
    (name_test (Some "missing.mkv") false label = true \/
     no_video_passes label_value (name_test (Some "missing.mkv") false) usenet_files /\
     (is_episode (fun _ => FileSelection.mkParsed [] [] None) (Some 1) (Some 2) label = true \/
      no_video_passes label_value (is_episode (fun _ => FileSelection.mkParsed [] [] None) (Some 1) (Some 2)) usenet_files /\
      (date_test (fun _ => FileSelection.mkParsed [] [] None) (fun _ => None) None label = true \/
       no_video_passes label_value (date_test (fun _ => FileSelection.mkParsed [] [] None) (fun _ => None) None) usenet_files /\
       is_largest label_value size_value f usenet_files))).
Proof.
  apply (usenet_file_selected (fun _ => FileSelection.mkParsed [] [] None) (fun _ => None) label_value size_value usenet_files
    (Some "missing.mkv") (Some 1) (Some 2) false None 2).
  vm_compute. reflexivity.
Defined.

Lemma usenet_no_video_witness :
  select_usenet_file_index (fun _ => FileSelection.mkParsed [] [] None) (fun _ => None) label_value size_value
    [("a.nfo", 3); ("b.par2", 4)] (Some "a.nfo") (Some 1) (Some 2) true None = Raise no_video_in_usenet_list.
Proof.
  apply (usenet_no_video (fun _ => FileSelection.mkParsed [] [] None) (fun _ => None) label_value size_value
    [("a.nfo", 3); ("b.par2", 4)]); [done|].
  intros f [-> | [-> | []%elem_of_nil]%elem_of_cons]%elem_of_cons; by eexists.
Defined.
