(* ===== verification/Torbox.v ===== *)
(** * TorBox

    workers/providers/torbox/client.py and workers/providers/torbox/utils.py:
    the methods of the client, and how a torrent or Usenet download is played,
    checked for in the cache, listed and deleted. *)

From S2P Require Export ProviderFlow UsenetSelection.
From S2P Require FileSelection.
Local Open Scope string_scope.
Local Open Scope Z_scope.

(** ** The client *)

Section Client.
Context (exn_text : py_exn -> string) (open_session : outcome error unit).
Context (serve : list event -> request -> outcome error response) (depth : nat).

#[local] Instance torbox_provider : Provider := torbox.

(** [self._make_request], as the value it returns. *)
Definition request_value (c : call) : M value :=
  r ← make_request exn_text open_session serve depth c; mret (reply_value r).

Definition initialize_headers : M unit :=
  s ← get;
  modify (set_headers [("Authorization", "Bearer " +:+ match token s with Some t => t | None => "None" end)]).
Definition disable_access_token : M unit := mret tt.

Definition is_plan_restricted_error (error_message : string) : bool :=
  let normalized := lower (strip error_message) in
  contains "plan_restricted_feature" normalized || contains "access this api feature" normalized.

(** [type(response).__name__] of a value that is neither dict, list nor str. *)
Definition type_name (v : value) : string :=
  match v with
  | VNone => "NoneType" | VBool _ => "bool" | VInt _ => "int" | VFloat _ => "float"
  | VStr _ => "str" | VList _ => "list" | VDict _ => "dict"
  end.

Definition as_data (l : list value) : list (string * value) := [("success", VBool true); ("data", VList l)].

(** [_normalize_response_dict] *)
Definition normalize_response_dict (response : value) (context : string) : outcome error (list (string * value)) :=
  match response with
  | VDict d => Ret d
  | VList l => Ret (as_data l)
  | VStr s =>
      let stripped := strip s in
      let normalized := lower stripped in
      let unexpected : outcome error (list (string * value)) :=
        fail ("Unexpected Torbox API response format while " +:+ context +:+ ": " +:+ str_take 200 stripped) "api_error.mp4" in
      if startswith "<!doctype html" normalized || startswith "<html" normalized then
        Raise (ProviderException ("Torbox API returned HTML instead of JSON while " +:+ context) service_down true)
      else if startswith "{" stripped || startswith "[" stripped then
        match json_loads stripped with
        | Ret (VDict d) => Ret d
        | Ret (VList l) => Ret (as_data l)
        | _ => unexpected
        end
      else unexpected
  | v => fail ("Unexpected Torbox API response type while " +:+ context +:+ ": " +:+ type_name v) "api_error.mp4"
  end.

Definition truthy_opt (v : option value) : bool := match v with Some v => truthy v | None => false end.

(** A call and its normalized answer. *)
Definition request_dict (c : call) (context : string) : M (list (string * value)) :=
  v ← request_value c; lift (normalize_response_dict v context).

Definition get_call (u : string) (p : list (string * value)) (expected_to_fail : bool) : call :=
  mkCall "GET" u NoBody None (Some p) false expected_to_fail false 0.
Definition post_call (u : string) (b : body) : call := mkCall "POST" u b None None false true false 0.
Definition control_call (u : string) (j : list (string * value)) : call :=
  mkCall "POST" u NoBody (Some (VDict j)) None false false false 0.

(** [if response.get("error"): ...; raise ProviderException(message)] *)
Definition raise_on_error (response : list (string * value)) (message : value -> string) :
    outcome error (list (string * value)) :=
  if truthy_opt (dict_get "error" response) then
    _ ← torbox_errors response;
    fail (message (VDict response)) "transfer_error.mp4"
  else Ret response.

Definition error_text (prefix : string) (response : value) : string :=
  match response with
  | VDict d => prefix +:+ str (default VNone (dict_get "error" d))
  | _ => prefix
  end.

Definition add_magnet_link (magnet_link : string) : M (list (string * value)) :=
  d ← request_dict (post_call "/torrents/createtorrent" (Form [("magnet", VStr magnet_link)])) "adding magnet link";
  lift (raise_on_error d (fun r => "Failed to add magnet link to Torbox " +:+ str r)).

Definition add_torrent_file (torrent_file : string) (torrent_name : option string) : M (list (string * value)) :=
  d ← request_dict (post_call "/torrents/createtorrent"
        (Multipart [("file", torrent_file, torrent_name, Some "application/x-bittorrent")])) "adding torrent file";
  lift (raise_on_error d (error_text "Failed to add torrent file to Torbox ")).

(** [response if response.get("success") else {"data": []}] *)
Definition success_or_empty (d : list (string * value)) : list (string * value) :=
  if truthy_opt (dict_get "success" d) then d else [("data", VList [])].

Definition get_user_torrent_list : M (list (string * value)) :=
  d ← request_dict (get_call "/torrents/mylist" [("bypass_cache", VStr "true")] true) "fetching torrent list";
  mret (success_or_empty d).

(** The items of [response.get("data", [])]. *)
Definition data_items (d : list (string * value)) : outcome error (list value) :=
  iter_value (default (VList []) (dict_get "data" d)).

(** The first item of the list that passes, else an empty dictionary. *)
Definition first_or_empty (test : value -> outcome error bool) (d : list (string * value)) : outcome error value :=
  items ← data_items d;
  r ← find_item test items;
  Ret (default (VDict []) r).

Definition get_torrent_info (magnet_id : string) : M value :=
  d ← get_user_torrent_list;
  lift (first_or_empty (fun t => is_str magnet_id <$> value_get_or "magnet" (VStr "") t) d).

Definition get_torrent_instant_availability (torrent_hashes : list string) : M value :=
  d ← request_dict (get_call "/torrents/checkcached" [("hash", VList (map VStr torrent_hashes)); ("format", VStr "object")] false)
        "checking torrent availability";
  mret (default (VList []) (dict_get "data" d)).

(** [str(torrent.get("hash", "")).lower() == str(info_hash).lower()] *)
Definition has_hash (info_hash : string) (t : value) : outcome error bool :=
  h ← value_get_or "hash" (VStr "") t; Ret (String.eqb (lower (str h)) (lower info_hash)).

Definition is_retryable (e : error) : bool := match e with ProviderException _ _ r => r | _ => false end.

(** An empty dictionary when the list cannot be read. *)
Definition get_available_torrent (info_hash : string) : M value :=
  r ← catch (d ← get_user_torrent_list; mret (Some d)) is_retryable (fun _ => mret None);
  match r with
  | None => mret (VDict [])
  | Some d => lift (first_or_empty (has_hash info_hash) d)
  end.

Definition need_premium : error :=
  ProviderException "Need premium TorBox account to access this API feature" "need_premium.mp4" false.

Definition get_queued_torrents : M (list (string * value)) :=
  r ← catch (v ← request_value (get_call "/queued/getqueued" [("type", VStr "torrent"); ("bypass_cache", VStr "true")] true);
             mret (Some v)) is_provider
        (fun e => match e with
                  | ProviderException m _ retryable =>
                      if retryable then mret None
                      else if is_plan_restricted_error m then throw need_premium else throw e
                  | e => throw e
                  end);
  match r with
  | None => mret [("data", VList [])]
  | Some v =>
      d ← lift (normalize_response_dict v "fetching queued torrents");
      _ ← lift (if default false (is_str "PLAN_RESTRICTED_FEATURE" <$> dict_get "error" d) then torbox_errors d else Ret tt);
      mret (success_or_empty d)
  end.

(** [user_ip] when it is given. *)
Definition ip_param (user_ip : option string) : list (string * value) :=
  match user_ip with Some ip => if str_empty ip then [] else [("user_ip", VStr ip)] | None => [] end.

Definition link_call (u id_key : string) (tok : option string) (id file_id : value) (user_ip : option string) : call :=
  get_call u ([("token", match tok with Some t => VStr t | None => VNone end); (id_key, id); ("file_id", file_id)]
              ++ ip_param user_ip) true.

(** The answer with a link, or the exception for it. *)
Definition link_or_error (video : string) (message : string) (d : list (string * value)) : outcome error (list (string * value)) :=
  if truthy_opt (dict_get "success" d) then Ret d
  else _ ← torbox_errors d; fail (message +:+ str (VDict d)) video.

Definition create_download_link (torrent_id file_id : value) (user_ip : option string) : M (list (string * value)) :=
  s ← get;
  d ← request_dict (link_call "/torrents/requestdl" "torrent_id" (token s) torrent_id file_id user_ip)
        "creating torrent download link";
  lift (link_or_error "transfer_error.mp4" "Failed to create download link from Torbox " d).

Definition delete_torrent (torrent_id : value) : M value :=
  request_value (control_call "/torrents/controltorrent" [("torrent_id", torrent_id); ("operation", VStr "delete")]).

Definition get_user_info : M value :=
  request_value (get_call "/user/me" [("settings", VStr "false")] false).

(** *** Usenet *)

Definition USENET_TRANSFER_ERROR_VIDEO : string := "usenet_transfer_error.mp4".

Definition add_usenet_download (nzb_content name : string) : M (list (string * value)) :=
  d ← request_dict (post_call "/usenet/createusenetdownload"
        (Multipart [("file", nzb_content, Some (name +:+ ".nzb"), Some "application/x-nzb")])) "adding usenet download";
  lift (raise_on_error d (error_text "Failed to add NZB to Torbox: ")).

Definition add_usenet_link (nzb_url : string) : M (list (string * value)) :=
  d ← request_dict (post_call "/usenet/createusenetdownload" (Form [("link", VStr nzb_url)])) "adding usenet link";
  lift (raise_on_error d (error_text "Failed to add NZB link to Torbox: ")).

Definition get_usenet_list : M (list (string * value)) :=
  d ← request_dict (get_call "/usenet/mylist" [("bypass_cache", VStr "true")] true) "fetching usenet list";
  mret (success_or_empty d).

Definition get_usenet_info (usenet_id : Z) : M value :=
  d ← get_usenet_list;
  lift (first_or_empty (fun u => (fun o => default false (is_int usenet_id <$> o)) <$> value_get "id" u) d).

Definition get_available_usenet (nzb_hash : string) : M value :=
  d ← get_usenet_list;
  lift (first_or_empty (fun u => (fun o => default false (is_str nzb_hash <$> o)) <$> value_get "hash" u) d).

Definition get_usenet_instant_availability (nzb_hashes : list value) : M value :=
  d ← request_dict (get_call "/usenet/checkcached" [("hash", VList nzb_hashes); ("format", VStr "object")] false)
        "checking usenet availability";
  mret (default (VDict []) (dict_get "data" d)).

Definition create_usenet_download_link (usenet_id file_id : value) (user_ip : option string) : M (list (string * value)) :=
  s ← get;
  d ← request_dict (link_call "/usenet/requestdl" "usenet_id" (token s) usenet_id file_id user_ip)
        "creating usenet download link";
  lift (link_or_error USENET_TRANSFER_ERROR_VIDEO "Failed to create Usenet download link from Torbox: " d).

Definition delete_usenet (usenet_id : value) : M value :=
  request_value (control_call "/usenet/controlusenetdownload" [("usenet_id", usenet_id); ("operation", VStr "delete")]).
End Client.

(** ** Playing, caching, deleting *)

Section Utils.
Context (exn_text : py_exn -> string) (open_session : outcome error unit).
Context (serve : list event -> request -> outcome error response) (depth : nat).
Context (parse_title : string -> FileSelection.ptt_result) (parse_date : string -> option string)
  (get_series_data_by_id : string -> option FileSelection.SeriesMetadata)
  (persists : FileSelection.saved_update -> bool) (annotation_lock_free : bool).

(** [async with Torbox(token=...) as torbox_client: m], in a client whose
    state holds the token. *)
Definition with_torbox {A} (m : M A) : M A := with_client initialize_headers disable_access_token m.

#[local] Notation get_available_torrent := (get_available_torrent exn_text open_session serve depth).
#[local] Notation get_queued_torrents := (get_queued_torrents exn_text open_session serve depth).
#[local] Notation create_download_link := (create_download_link exn_text open_session serve depth).
#[local] Notation get_user_torrent_list := (get_user_torrent_list exn_text open_session serve depth).
#[local] Notation delete_torrent := (delete_torrent exn_text open_session serve depth).
#[local] Notation get_available_usenet := (get_available_usenet exn_text open_session serve depth).
#[local] Notation create_usenet_download_link := (create_usenet_download_link exn_text open_session serve depth).
#[local] Notation get_usenet_list := (get_usenet_list exn_text open_session serve depth).
#[local] Notation delete_usenet := (delete_usenet exn_text open_session serve depth).

Definition not_downloaded : error :=
  ProviderException "Torrent did not reach downloaded status." "torrent_not_downloaded.mp4" false.

Definition files_missing : error :=
  ProviderException "Torrent files are not available yet." "torrent_not_downloaded.mp4" false.

(** The [id] of the file at an index. *)
Definition id_at (files : list value) (idx : nat) : outcome error value :=
  match files !! idx with Some f => getitem "id" f | None => Raise (Python IndexError) end.

(** [select_file_id_from_torrent] *)
Definition select_file_id_from_torrent (torrent_info : list (string * value)) (filename : option string)
    (season episode : option Z) : M value :=
  match dict_get "files" torrent_info with
  | Some (VList ((_ :: _) as files)) =>
      idx ← select_file_index_from_torrent parse_title parse_date get_series_data_by_id persists annotation_lock_free
              torrent_info "files" "short_name" "size" filename season episode true false;
      lift (id_at files idx)
  | _ => throw files_missing
  end.

(** The link to the selected file of a torrent. *)
Definition link_of_torrent (torrent_info : list (string * value)) (filename user_ip : option string)
    (season episode : option Z) : M value :=
  file_id ← select_file_id_from_torrent torrent_info filename season episode;
  torrent_id ← lift (getitem "id" (VDict torrent_info));
  response ← create_download_link torrent_id file_id user_ip;
  lift (getitem "data" (VDict response)).

(** The queued torrent with the hash, compared as it is. *)
Definition is_queued (info_hash : string) (t : value) : outcome error bool :=
  h ← value_get "hash" t; Ret (default false (is_str info_hash <$> h)).

(** The torrent is not in the account: [Some] link when TorBox has it cached. *)
Definition add_torrent (info_hash magnet_link : string) (torrent_file : option string) (filename user_ip : option string)
    (season episode : option Z) : M (option value) :=
  queued ← get_queued_torrents;
  found ← lift (items ← data_items queued; find_item (is_queued info_hash) items);
  match found with
  | Some _ => throw not_downloaded
  | None =>
      s ← get;
      response ← match torrent_file with
                 | Some ((String _ _) as f) =>
                     add_torrent_file exn_text open_session serve depth f
                       (Some (FileSelection.stream_name (FileSelection.stream (world s))))
                 | _ => add_magnet_link exn_text open_session serve depth magnet_link
                 end;
      cached ← lift (contains_key "Found Cached" (default (VStr "") (dict_get "detail" response)));
      if cached : bool then
        torrent ← get_available_torrent info_hash;
        match torrent with
        | VDict ((_ :: _) as d) => url ← link_of_torrent d filename user_ip season episode; mret (Some url)
        | v => if truthy v then throw (Python TypeError) else mret None
        end
      else mret None
  end.

(** [get_video_url_from_torbox] *)
Definition get_video_url_from_torbox (info_hash magnet_link : string) (torrent_file : option string)
    (filename user_ip : option string) (season episode : option Z) : M value :=
  url ← with_torbox (
    torrent ← get_available_torrent info_hash;
    match torrent with
    | VDict ((_ :: _) as d) =>
        finished ← lift (getitem "download_finished" (VDict d));
        ready ← (if is_true finished then present ← lift (getitem "download_present" (VDict d)); mret (is_true present)
                 else mret false);
        if ready : bool then url ← link_of_torrent d filename user_ip season episode; mret (Some url) else mret None
    | v => if truthy v then throw (Python TypeError)
           else add_torrent info_hash magnet_link torrent_file filename user_ip season episode
    end);
  match url with Some url => mret url | None => throw not_downloaded end.

(** *** Usenet *)

Definition usenet_not_downloaded : error :=
  ProviderException "Usenet download did not reach downloaded status." USENET_TRANSFER_ERROR_VIDEO false.
Definition no_usenet_files : error :=
  ProviderException "No files found in usenet download" "no_video_file_found.mp4" false.
Definition no_nzb_url : error :=
  ProviderException "No NZB URL available for this stream. Try importing the NZB from a Newznab indexer."
    USENET_TRANSFER_ERROR_VIDEO false.

Definition as_dict (v : value) : outcome error (list (string * value)) :=
  match v with VDict d => Ret d | _ => Raise (Python AttributeError) end.

(** [f.get("short_name") or f.get("name", "")] *)
Definition usenet_name (f : list (string * value)) : value :=
  match dict_get "short_name" f with
  | Some v => if truthy v then v else default (VStr "") (dict_get "name" f)
  | None => default (VStr "") (dict_get "name" f)
  end.
Definition usenet_size (f : list (string * value)) : value := default (VInt 0) (dict_get "size" f).

Definition select_file_id_from_usenet (usenet_info : list (string * value)) (filename : option string)
    (season episode : option Z) (episode_air_date : option string) : outcome error value :=
  items ← iter_value (default (VList []) (dict_get "files" usenet_info));
  files ← map_outcome as_dict items;
  match files with
  | [] => Raise no_usenet_files
  | _ =>
      idx ← select_usenet_file_index parse_title parse_date usenet_name usenet_size files filename season episode
              false episode_air_date;
      match files !! idx with Some f => getitem "id" (VDict f) | None => Raise (Python IndexError) end
  end.

Definition link_of_usenet (usenet_info : list (string * value)) (filename user_ip : option string)
    (season episode : option Z) (episode_air_date : option string) : M value :=
  file_id ← lift (select_file_id_from_usenet usenet_info filename season episode episode_air_date);
  usenet_id ← lift (getitem "id" (VDict usenet_info));
  response ← create_usenet_download_link usenet_id file_id user_ip;
  lift (getitem "data" (VDict response)).

(** [d.get(k) is True] *)
Definition get_true (k : string) (d : list (string * value)) : bool := default false (is_true <$> dict_get k d).

Definition get_video_url_from_usenet_torbox (nzb_hash : string) (nzb_url : option string)
    (filename user_ip : option string) (season episode : option Z) (episode_air_date : option string) : M value :=
  url ← with_torbox (
    usenet ← get_available_usenet nzb_hash;
    match usenet with
    | VDict ((_ :: _) as d) =>
        if get_true "download_finished" d && get_true "download_present" d
        then url ← link_of_usenet d filename user_ip season episode episode_air_date; mret (Some url)
        else mret None
    | v =>
        if truthy v then throw (Python AttributeError)
        else
          match nzb_url with
          | Some ((String _ _) as u) =>
              response ← add_usenet_link exn_text open_session serve depth u;
              cached ← lift (contains_key "Found Cached" (default (VStr "") (dict_get "detail" response)));
              if cached : bool then
                usenet ← get_available_usenet nzb_hash;
                match usenet with
                | VDict ((_ :: _) as d) =>
                    url ← link_of_usenet d filename user_ip season episode episode_air_date; mret (Some url)
                | v => if truthy v then throw (Python AttributeError) else mret None
                end
              else mret None
          | _ => throw no_nzb_url
          end
    end);
  match url with Some url => mret url | None => throw usenet_not_downloaded end.

(** *** Cache status *)

(** The fields of a stream that the check reads and writes. *)
Record cache_stream := mkCacheStream { key : option string; cached : bool }.

(** [divide_chunks]: the slices of [n] items. *)
Definition divide_chunks {A} (lst : list A) (n : nat) : list (list A) :=
  map (fun i => take n (drop (i * n) lst)) (seq 0 ((length lst + (n - 1)) / n)).

(** [stream.info_hash in data] *)
Definition in_data (data : value) (s : cache_stream) : outcome error cache_stream :=
  match key s with
  | Some k => b ← contains_key k data; Ret (mkCacheStream (key s) b)
  | None =>
      match data with
      | VDict _ => Ret (mkCacheStream (key s) false)
      | VList l => Ret (mkCacheStream (key s) (existsb (fun v => match v with VNone => true | _ => false end) l))
      | _ => Raise (Python TypeError)
      end
  end.

Definition or_none (v : value) : value := if truthy v then v else VList [].

(** [update_chunk_cache_status]: the streams with their new flags; a provider
    exception leaves them as they are. *)
Definition update_chunk_cache_status (available : list (option string) -> M value) (chunk : list cache_stream) :
    M (list cache_stream) :=
  catch (data ← available (map key chunk);
         if truthy data then lift (map_outcome (in_data data) chunk) else mret chunk)
    is_provider (fun _ => mret chunk).

Definition key_text (k : option string) : string := default "None" k.

(** The chunks are checked one after the other here; if one raises, what the
    others did to their streams is not described. *)
Definition update_torbox_cache_status (streams : list cache_stream) : M (list cache_stream) :=
  with_torbox (
    l ← gather (map (update_chunk_cache_status (fun ks =>
           get_torrent_instant_availability exn_text open_session serve depth (map key_text ks)))
         (divide_chunks streams 80));
    mret (concat l)).

Definition update_torbox_usenet_cache_status (streams : list cache_stream) : M (list cache_stream) :=
  with_torbox (
    l ← gather (map (update_chunk_cache_status (fun ks =>
           get_usenet_instant_availability exn_text open_session serve depth
             (map (fun k => match k with Some k => VStr k | None => VNone end) ks)))
         (divide_chunks streams 80));
    mret (concat l)).

(** *** Listing *)

(** The torrents of [response["data"]], none when it is empty. *)
Definition listed (d : list (string * value)) : outcome error (list value) :=
  if truthy_opt (dict_get "data" d) then data_items d else Ret [].

Definition fetch_downloaded_info_hashes_from_torbox : M (list value) :=
  catch (with_torbox (d ← get_user_torrent_list; lift (l ← listed d; map_outcome (getitem "hash") l)))
    is_provider (fun _ => mret []).

Definition fetch_downloaded_usenet_hashes_from_torbox : M (list value) :=
  catch (with_torbox (
    d ← get_usenet_list;
    lift (l ← listed d;
          hs ← map_outcome (fun u => value_get "hash" u) l;
          Ret (flat_map (fun h => match h with Some h => if truthy h then [h] else [] | None => [] end) hs))))
    is_provider (fun _ => mret []).

(** [v.lower()] *)
Definition lower_of (v : value) : outcome error string :=
  match v with VStr s => Ret (lower s) | _ => Raise (Python AttributeError) end.

Definition or_null (o : option value) : value := default VNone o.

Definition file_details (f : value) : outcome error value :=
  d ← as_dict f;
  Ret (VDict [("id", or_null (dict_get "id" d));
              ("path", default (default (VStr "") (dict_get "name" d)) (dict_get "short_name" d));
              ("size", default (VInt 0) (dict_get "size" d))]).

(** The details of one torrent, [None] when it is not a target. *)
Definition torrent_details (target_hashes : list string) (t : value) : outcome error (option value) :=
  d ← as_dict t;
  h ← lower_of (default (VStr "") (dict_get "hash" d));
  if negb (bool_decide (target_hashes = [])) && negb (existsb (String.eqb h) target_hashes) then Ret None
  else
    fs ← iter_value (default (VList []) (dict_get "files" d));
    files ← map_outcome file_details fs;
    Ret (Some (VDict [("id", or_null (dict_get "id" d)); ("hash", VStr h);
                      ("filename", default (VStr "") (dict_get "name" d));
                      ("size", default (VInt 0) (dict_get "size" d)); ("files", VList files)])).

Definition somes {A} (l : list (option A)) : list A := flat_map (fun o => match o with Some x => [x] | None => [] end) l.

Definition fetch_torrent_details_from_torbox (target_hashes : list string) : M (list value) :=
  let targets := map lower (List.filter (fun h => negb (str_empty h)) target_hashes) in
  catch (with_torbox (
    d ← get_user_torrent_list;
    lift (l ← listed d; r ← map_outcome (torrent_details targets) l; Ret (somes r))))
    is_provider (fun _ => mret []).

(** *** Deleting *)

Fixpoint for_each {A} (f : value -> M A) (l : list value) : M unit :=
  match l with [] => mret tt | v :: l => _ ← f v; for_each f l end.

Definition delete_all_torrents_from_torbox : M unit :=
  with_torbox (
    d ← get_user_torrent_list;
    l ← lift (listed d);
    for_each (fun t => i ← lift (value_get_or "id" (VStr "") t); delete_torrent i) l).

Definition delete_all_usenet_from_torbox : M unit :=
  with_torbox (
    d ← get_usenet_list;
    l ← lift (data_items d);
    for_each (fun t => i ← lift (value_get_or "id" (VInt 0) t); delete_usenet i) l).

(** [torrent.get("hash", "").lower() == info_hash.lower()] *)
Definition hash_is (info_hash : string) (t : value) : outcome error bool :=
  h ← value_get_or "hash" (VStr "") t; l ← lower_of h; Ret (String.eqb l (lower info_hash)).

(** Deletes the first item with the hash. *)
Definition delete_first (delete : value -> M value) (info_hash : string) (d : list (string * value)) : M bool :=
  found ← lift (items ← data_items d; find_item (hash_is info_hash) items);
  match found with
  | Some t => i ← lift (value_get "id" t); _ ← delete (or_null i); mret true
  | None => mret false
  end.

Definition delete_torrent_from_torbox (info_hash : string) : M bool :=
  catch (with_torbox (d ← get_user_torrent_list; delete_first delete_torrent info_hash d))
    is_provider (fun _ => mret false).

Definition delete_usenet_from_torbox (nzb_hash : string) : M bool :=
  catch (with_torbox (d ← get_usenet_list; delete_first delete_usenet nzb_hash d))
    is_provider (fun _ => mret false).

(** [None] when the token is accepted, else the message. *)
Definition validate_torbox_credentials : M (option string) :=
  catch (with_torbox (_ ← get_user_info exn_text open_session serve depth; mret None)) is_provider
    (fun e => match e with
              | ProviderException m _ _ => mret (Some ("Failed to validate TorBox credentials: " +:+ m))
              | e => throw e
              end).
End Utils.

(** ** Properties *)

Lemma divide_chunks_concat {A} (lst : list A) (n : nat) : (0 < n)%nat -> concat (divide_chunks lst n) = lst.
Proof.
  intros Hn. unfold divide_chunks.
  assert (Hc : forall k, concat (map (fun i => take n (drop (i * n) lst)) (seq 0 k)) = take (k * n) lst).
  { induction k as [|k IH]; [done|]. rewrite seq_S, map_app, concat_app, IH. cbn [map concat Nat.add].
    rewrite app_nil_r. replace (S k * n)%nat with (k * n + n)%nat by lia. by rewrite take_take_drop. }
  rewrite Hc. apply take_ge. pose proof (Nat.div_mod_eq (length lst + (n - 1)) n).
  pose proof (Nat.mod_upper_bound (length lst + (n - 1)) n ltac:(lia)). nia.
Qed.

Lemma divide_chunks_small {A} (lst : list A) (n : nat) chunk : chunk ∈ divide_chunks lst n -> (length chunk <= n)%nat.
Proof. unfold divide_chunks. intros (i & -> & _)%list_elem_of_fmap. rewrite length_take. lia. Qed.

Section Facts.
Context (exn_text : py_exn -> string) (open_session : outcome error unit).
Context (serve : list event -> request -> outcome error response) (depth : nat).
Context (parse_title : string -> FileSelection.ptt_result) (parse_date : string -> option string)
  (get_series_data_by_id : string -> option FileSelection.SeriesMetadata)
  (persists : FileSelection.saved_update -> bool) (annotation_lock_free : bool).

(** *** Costs *)

Lemma request_value_costs c : retry_count c = 0 ->
  costs 2 0 (request_value exn_text open_session serve (S (S depth)) c) any provider_error.
Proof.
  intros Hc. apply (costs_bind 2 0 0 0) with (Q1 := any); [lia| |intros; by apply costs_ret].
  apply make_request_costs_deep; [done|done|lia].
Qed.

Lemma normalize_provider v context : match normalize_response_dict v context with Ret _ => True | Raise e => provider_error e end.
Proof.
  unfold normalize_response_dict. destruct v; try done. destruct (_ || _); [done|]. destruct (_ || _); [|done].
  destruct (json_loads _) as [[]|]; done.
Qed.

Lemma raise_for_provider code table : match raise_for code table with Ret _ => True | Raise e => provider_error e end.
Proof. unfold raise_for. destruct code as [[]|]; try done. destruct (find _ table) as [[? []]|]; done. Qed.

Lemma request_dict_costs c context : retry_count c = 0 ->
  costs 2 0 (request_dict exn_text open_session serve (S (S depth)) c context) any provider_error.
Proof.
  intros Hc. apply (costs_bind 2 0 0 0) with (Q1 := any); [lia|by apply request_value_costs|].
  intros v _. apply costs_lift; [lia|]. pose proof (normalize_provider v context) as Hn. by destruct (normalize_response_dict _ _).
Qed.

Lemma get_user_torrent_list_costs :
  costs 2 0 (get_user_torrent_list exn_text open_session serve (S (S depth))) any provider_error.
Proof. apply (costs_bind 2 0 0 0) with (Q1 := any); [lia|by apply request_dict_costs|intros; by apply costs_ret]. Qed.

Lemma get_available_torrent_costs info_hash :
  costs 2 0 (get_available_torrent exn_text open_session serve (S (S depth)) info_hash) any any.
Proof.
  apply (costs_bind 2 0 0 0) with (Q1 := any); [lia| |].
  - apply (costs_catch 2 0 0 0) with (E1 := any); [lia| |intros; by apply costs_ret|done].
    apply (costs_bind 2 0 0 0) with (Q1 := any); [lia| |intros; by apply costs_ret].
    eapply costs_weaken; [apply get_user_torrent_list_costs|lia|lia|done|done].
  - intros [d|] _; [|by apply costs_ret]. by apply costs_lift_any.
Qed.

Lemma get_queued_torrents_costs :
  costs 2 0 (get_queued_torrents exn_text open_session serve (S (S depth))) any any.
Proof.
  apply (costs_bind 2 0 0 0) with (Q1 := any); [lia| |].
  - apply (costs_catch 2 0 0 0) with (E1 := any); [lia| | |done].
    + apply (costs_bind 2 0 0 0) with (Q1 := any); [lia| |intros; by apply costs_ret].
      eapply costs_weaken; [by apply request_value_costs|lia|lia|done|done].
    + intros e _ _. destruct e; try by apply costs_throw. destruct retryable; [by apply costs_ret|].
      destruct (is_plan_restricted_error _); by apply costs_throw.
  - intros [v|] _; [|by apply costs_ret]. apply (costs_bind 0 0 0 0) with (Q1 := any); [lia| |].
    + by apply costs_lift_any.
    + intros d _. apply (costs_bind 0 0 0 0) with (Q1 := any); [lia| |intros; by apply costs_ret].
      by apply costs_lift_any.
Qed.

Lemma lifted_costs {A B} (m : M A) (f : A -> outcome error B) k :
  costs k 0 m any provider_error -> costs k 0 (a ← m; lift (f a)) any any.
Proof.
  intros Hm. eapply costs_weaken; [apply (costs_bind k 0 0 0) with (Q1 := any) (Q := any) (E := any)| | | |];
    [lia| | |lia|lia|done|done].
  - eapply costs_weaken; [exact Hm|lia|lia|done|done].
  - intros a _. by apply costs_lift_any.
Qed.

Lemma link_of_torrent_costs d filename user_ip season episode :
  costs 2 0 (link_of_torrent exn_text open_session serve (S (S depth)) parse_title parse_date get_series_data_by_id
    persists annotation_lock_free d filename user_ip season episode) any any.
Proof.
  apply (costs_bind 0 0 2 0) with (Q1 := any); [lia| |].
  - unfold select_file_id_from_torrent. destruct (dict_get "files" d) as [[| | | | |[|f l]|]|]; try by apply costs_throw.
    apply (costs_bind 0 0 0 0) with (Q1 := any); [lia| |].
    + eapply costs_weaken; [apply select_costs|lia|lia|done|done].
    + intros i _. by apply costs_lift_any.
  - intros fid _. apply (costs_bind 0 0 2 0) with (Q1 := any); [lia| |].
    + by apply costs_lift_any.
    + intros tid _. apply (costs_bind 2 0 0 0) with (Q1 := any); [lia| |].
      * apply costs_get. intros s. apply lifted_costs. by apply request_dict_costs.
      * intros r _. by apply costs_lift_any.
Qed.

Lemma add_costs (torrent_file : option string) magnet_link name :
  costs 2 0 (match torrent_file with
             | Some ((String _ _) as f) => add_torrent_file exn_text open_session serve (S (S depth)) f name
             | _ => add_magnet_link exn_text open_session serve (S (S depth)) magnet_link
             end) any any.
Proof.
  assert (Hm : costs 2 0 (add_magnet_link exn_text open_session serve (S (S depth)) magnet_link) any any)
    by (apply lifted_costs; by apply request_dict_costs).
  destruct torrent_file as [[|c f]|]; [done| |done]. apply lifted_costs. by apply request_dict_costs.
Qed.

Lemma add_torrent_costs info_hash magnet_link torrent_file filename user_ip season episode :
  costs 8 0 (add_torrent exn_text open_session serve (S (S depth)) parse_title parse_date get_series_data_by_id
    persists annotation_lock_free info_hash magnet_link torrent_file filename user_ip season episode) any any.
Proof.
  apply (costs_bind 2 0 6 0) with (Q1 := any); [lia|apply get_queued_torrents_costs|]. intros queued _.
  apply (costs_bind 0 0 6 0) with (Q1 := any); [lia|by apply costs_lift_any|].
  intros [t|] _; [by apply costs_throw|]. apply costs_get. intros s.
  apply (costs_bind 2 0 4 0) with (Q1 := any); [lia|apply add_costs|]. intros response _.
  apply (costs_bind 0 0 4 0) with (Q1 := any); [lia|by apply costs_lift_any|].
  intros [] _; [|by apply costs_ret].
  apply (costs_bind 2 0 2 0) with (Q1 := any); [lia|apply get_available_torrent_costs|]. intros v _.
  assert (costs 2 0 (if truthy v then throw (Python TypeError) else mret None : M (option value)) any any) as Hv
    by (destruct (truthy v); [by apply costs_throw|by apply costs_ret]).
  destruct v as [| | | | | |[|kv d]]; try exact Hv.
  apply (costs_bind 2 0 0 0) with (Q1 := any); [lia|apply link_of_torrent_costs|intros; by apply costs_ret].
Qed.

(** Playing a torrent through TorBox sends at most ten requests and never
    pauses, whatever the service answers. *)
Theorem torbox_play_bounded (info_hash magnet_link : string) (torrent_file filename user_ip : option string)
    (season episode : option Z) :
  costs 10 0 (get_video_url_from_torbox exn_text open_session serve (S (S depth)) parse_title parse_date
    get_series_data_by_id persists annotation_lock_free info_hash magnet_link torrent_file filename user_ip season episode)
    any any.
Proof.
  apply (costs_bind 10 0 0 0) with (Q1 := any); [lia| |intros [u|] _; [by apply costs_ret|by apply costs_throw]].
  apply (with_client_costs _ _ 0 0 0 0 10 0); [lia|lia|lia|apply costs_get; intros; by apply costs_modify|by apply costs_ret|].
  apply (costs_bind 2 0 8 0) with (Q1 := any); [lia|apply get_available_torrent_costs|]. intros v _.
  assert (Hadd : costs 8 0 (if truthy v then throw (Python TypeError) else
    add_torrent exn_text open_session serve (S (S depth)) parse_title parse_date get_series_data_by_id
    persists annotation_lock_free info_hash magnet_link torrent_file filename user_ip season episode) any any)
    by (destruct (truthy v); [by apply costs_throw|apply add_torrent_costs]).
  destruct v as [| | | | | |[|kv d]]; try exact Hadd.
  apply (costs_bind 0 0 8 0) with (Q1 := any); [lia|by apply costs_lift_any|]. intros finished _.
  apply (costs_bind 0 0 8 0) with (Q1 := any); [lia| |].
  { destruct (is_true finished); [|by apply costs_ret].
    apply (costs_bind 0 0 0 0) with (Q1 := any); [lia|by apply costs_lift_any|intros; by apply costs_ret]. }
  intros [] _; [|by apply costs_ret].
  apply (costs_bind 2 0 6 0) with (Q1 := any); [lia|apply link_of_torrent_costs|intros; by apply costs_ret].
Qed.

(** *** A torrent that is ready is played *)

(** The service answers the call at once, with this JSON object. *)
Definition answered (c : call) (d : list (string * value)) (s : state) : Prop :=
  exists r, serve (history s) (request_of (@prepare torbox s c) s) = Ret r /\ status r < 400 /\ json_body r = Ret (VDict d).

(** The state after the call. *)
Definition after_call (c : call) (s : state) : state :=
  record_event (Sent (request_of (@prepare torbox s c) s)) (set_session true s).

Lemma request_dict_answered c context d s : open_session = Ret tt -> answered c d s ->
  is_return_none c = false -> is_http_response c = false ->
  request_dict exn_text open_session serve (S depth) c context s = (Ret d, after_call c s).
Proof.
  intros Ho (r & Hr & Hst & Hj) Hn Hh. unfold request_dict, request_value.
  pose proof (@make_request_answered exn_text open_session serve torbox depth c s r (VDict d) Ho Hr (or_introl Hst) Hj Hn Hh) as E.
  unfold mbind, M_bind. unfold torbox_provider. by rewrite E.
Qed.

Lemma first_found test l1 v l2 : Forall (fun u => test u = Ret false) l1 -> test v = Ret true ->
  find_item test (l1 ++ v :: l2) = Ret (Some v).
Proof. induction 1 as [|u l1 Hu _ IH]; intros Hv; cbn; [by rewrite Hv|]. rewrite Hu. by apply IH. Qed.
(** A working service: it lists these torrents, and gives the link [url i j] to
    the file [j] of the torrent [i]. *)
Definition mylist_call : call := get_call "/torrents/mylist" [("bypass_cache", VStr "true")] true.
Definition lists (torrents : list value) : Prop :=
  forall s, exists d, answered mylist_call d s /\ dict_get "success" d = Some (VBool true) /\
                      dict_get "data" d = Some (VList torrents).
Definition links (user_ip : option string) (url : value -> value -> value) : Prop :=
  forall i j s, exists d, answered (link_call "/torrents/requestdl" "torrent_id" (token s) i j user_ip) d s /\
                          dict_get "success" d = Some (VBool true) /\ dict_get "data" d = Some (url i j).

(** A torrent that TorBox has downloaded. *)
Definition ready (info_hash : string) (t : list (string * value)) (id : value) (files : list value) : Prop :=
  has_hash info_hash (VDict t) = Ret true /\ dict_get "download_finished" t = Some (VBool true) /\
  dict_get "download_present" t = Some (VBool true) /\ dict_get "id" t = Some id /\
  dict_get "files" t = Some (VList files).

Lemma get_user_torrent_list_answered torrents s : open_session = Ret tt -> lists torrents ->
  exists d, get_user_torrent_list exn_text open_session serve (S depth) s = (Ret d, after_call mylist_call s) /\
            dict_get "data" d = Some (VList torrents).
Proof.
  intros Ho Hl. destruct (Hl s) as (d & Ha & Hs & Hd). exists d. split; [|done].
  unfold get_user_torrent_list, mbind, M_bind. fold mylist_call.
  rewrite (request_dict_answered mylist_call _ d s Ho Ha) by done. unfold success_or_empty. by rewrite Hs.
Qed.

Lemma get_available_torrent_answered torrents l1 t l2 info_hash s : open_session = Ret tt -> lists torrents ->
  torrents = (l1 ++ VDict t :: l2)%list -> Forall (fun u => has_hash info_hash u = Ret false) l1 ->
  has_hash info_hash (VDict t) = Ret true ->
  get_available_torrent exn_text open_session serve (S depth) info_hash s = (Ret (VDict t), after_call mylist_call s).
Proof.
  intros Ho Hl -> Hl1 Ht. destruct (get_user_torrent_list_answered _ s Ho Hl) as (d & E & Hd).
  unfold get_available_torrent, catch, mbind, M_bind. rewrite E. cbn [mret M_ret].
  unfold lift, first_or_empty, data_items. rewrite Hd. cbn [from_option default iter_value mbind outcome_bind].
  unfold id. cbn [iter_value]. unfold mbind, outcome_bind. by rewrite (first_found _ l1 (VDict t) l2 Hl1 Ht).
Qed.

Lemma map_outcome_length {A B} (f : A -> outcome error B) l l' : map_outcome f l = Ret l' -> length l' = length l.
Proof.
  revert l'. induction l as [|x l IH]; intros l'; cbn [map_outcome]; [by intros [= <-]|].
  destruct (f x); [cbn [mbind outcome_bind]|done]. destruct (map_outcome f l) as [r|]; [|done].
  intros [= <-]. cbn. by rewrite (IH r).
Qed.

Lemma link_of_torrent_answered t id files pfs idx fid filename user_ip season episode url s :
  open_session = Ret tt -> links user_ip url -> dict_get "id" t = Some id -> dict_get "files" t = Some (VList files) ->
  map_outcome (provider_file_of "short_name" "size") files = Ret pfs ->
  (FileSelection.select_file_index_from_torrent parse_title parse_date get_series_data_by_id persists annotation_lock_free
     pfs filename season episode None true false (world s)).1 = Ret idx ->
  id_at files idx = Ret fid ->
  exists s', link_of_torrent exn_text open_session serve (S depth) parse_title parse_date get_series_data_by_id
    persists annotation_lock_free t filename user_ip season episode s = (Ret (url id fid), s') /\
    exists r, history s' = Sent r :: history s /\ r_method r = "GET" /\
              r_url r = "https://api.torbox.app/v1/api/torrents/requestdl".
Proof.
  intros Ho Hlinks Hid Hfiles Hpfs Hsel Hfid. unfold link_of_torrent, select_file_id_from_torrent. rewrite Hfiles.
  destruct files as [|f0 files0]; [by destruct idx|]. set (files := f0 :: files0) in *.
  unfold select_file_index_from_torrent, files_of. rewrite Hfiles. unfold mbind, M_bind, lift, choose_file. rewrite Hpfs.
  destruct (FileSelection.select_file_index_from_torrent _ _ _ _ _ pfs filename season episode None true false (world s))
    as [[i|e] w]; cbn [fst] in Hsel; [|done]. injection Hsel as ->. rewrite Hfid. unfold getitem. cbn [py py_getitem].
  rewrite Hid. set (s2 := set_world w s). destruct (Hlinks id fid s2) as (d & Ha & Hs & Hd).
  unfold create_download_link, mbind, M_bind, get. cbn [py].
  rewrite (request_dict_answered _ _ d s2 Ho Ha) by done. unfold lift, link_or_error. rewrite Hs. cbn [truthy_opt truthy].
  cbn [py_getitem]. rewrite Hd. eexists. split; [done|]. by eexists.
Qed.

(** A torrent that the account has downloaded is played: the link is to the
    file that the selection picks, and nothing is added or deleted: the service
    is only asked for the list and for the link. *)
Theorem torbox_plays_ready (info_hash magnet_link : string) (torrent_file filename user_ip : option string)
    (season episode : option Z) (s : state) (l1 l2 : list value) (t : list (string * value)) (id fid : value)
    (files : list value) (pfs : list FileSelection.provider_file) (idx : nat) (url : value -> value -> value)
    (Hopen : open_session = Ret tt) (Hlists : lists (l1 ++ VDict t :: l2)) (Hlinks : links user_ip url)
    (Hbefore : Forall (fun u => has_hash info_hash u = Ret false) l1) (Hready : ready info_hash t id files)
    (Hpfs : map_outcome (provider_file_of "short_name" "size") files = Ret pfs)
    (Hselect : (FileSelection.select_file_index_from_torrent parse_title parse_date get_series_data_by_id persists
                  annotation_lock_free pfs filename season episode None true false (world s)).1 = Ret idx)
    (Hfile : id_at files idx = Ret fid) :
  exists s' r1 r2,
  get_video_url_from_torbox exn_text open_session serve (S depth) parse_title parse_date get_series_data_by_id persists
    annotation_lock_free info_hash magnet_link torrent_file filename user_ip season episode s = (Ret (url id fid), s') /\
  history s' = Sent r2 :: Sent r1 :: history s /\
  r_method r1 = "GET" /\ r_url r1 = "https://api.torbox.app/v1/api/torrents/mylist" /\
  r_method r2 = "GET" /\ r_url r2 = "https://api.torbox.app/v1/api/torrents/requestdl".
Proof.
  destruct Hready as (Hhash & Hfin & Hpres & Hid & Hfiles). set (s1 := (initialize_headers s).2).
  assert (Hw : world (after_call mylist_call s1) = world s) by done.
  destruct (link_of_torrent_answered t id files pfs idx fid filename user_ip season episode url
              (after_call mylist_call s1)) as (s2 & E2 & r2 & Hh & Hm & Hu); try done; [].
  assert (t <> []) as Hne by (by intros ->).
  unfold get_video_url_from_torbox, with_torbox, with_client, aenter, catch, finally, mbind, M_bind.
  change (initialize_headers s) with (Ret tt : outcome error unit, s1). cbn [fst snd].
  rewrite (get_available_torrent_answered _ l1 t l2 info_hash s1 Hopen Hlists eq_refl Hbefore Hhash).
  destruct t as [|kv t]; [done|]. unfold lift, getitem. cbn [py py_getitem]. rewrite Hfin. cbn [is_true].
  rewrite Hpres. cbn [py is_true mret M_ret]. rewrite E2. cbn [mret M_ret].
  unfold close, mbind, M_bind, get. eexists _, _, r2.
  assert (Hc : history (set_session false s2) = Sent r2 :: history (after_call mylist_call s1)) by exact Hh.
  destruct (token s2) as [tk|]; [destruct (_ && _)|]; (split; [done|]; split; [exact Hc|done]).
Qed.
(** *** A lost connection *)

(** [c] with the address that the retry asks for. *)
Definition retry_of (c : call) (s : state) : call := retried (@prepare torbox s c).

(** When the connection is lost while the list is read, the retry asks a
    wrong address; whatever JSON object without success that answers is taken
    for an empty account, so a torrent of the account is not found. *)
Theorem lost_list_is_empty (info_hash : string) (s : state) (e : error) (r : response) (d : list (string * value))
    (Hopen : session s = true) (Hsession : open_session = Ret tt)
    (Hlost : serve (history s) (request_of (@prepare torbox s mylist_call) s) = Raise e) (He : is_retried e = true)
    (Hwrong : let s1 := record_event (Sent (request_of (@prepare torbox s mylist_call) s)) s in
              serve (history s1) (request_of (@prepare torbox s1 (retry_of mylist_call s)) s1) = Ret r)
    (Hjson : json_body r = Ret (VDict d)) (Hfail : truthy_opt (dict_get "success" d) = false) :
  (get_available_torrent exn_text open_session serve (S (S depth)) info_hash s).1 = Ret (VDict []).
Proof.
  set (s1 := record_event (Sent (request_of (@prepare torbox s mylist_call) s)) s) in *.
  pose proof (@make_request_retried exn_text open_session serve torbox (S depth) mylist_call s e Hopen eq_refl Hlost He) as E1.
  pose proof (@make_request_answered exn_text open_session serve torbox depth (retry_of mylist_call s) s1 r (VDict d) Hsession
    Hwrong (or_intror eq_refl) Hjson eq_refl eq_refl) as E2.
  unfold get_available_torrent, get_user_torrent_list, request_dict, request_value, catch. fold mylist_call.
  unfold mbind, M_bind in *. unfold torbox_provider. rewrite E1. fold (retry_of mylist_call s) s1. rewrite E2.
  unfold lift, success_or_empty. cbn -[dict_get truthy_opt]. by rewrite Hfail.
Qed.
End Facts.

(** *** Cache status *)

Lemma map_outcome_keys data chunk l : map_outcome (in_data data) chunk = Ret l -> map key l = map key chunk.
Proof.
  revert l. induction chunk as [|x chunk IH]; intros l; cbn [map_outcome]; [by intros [= <-]|].
  destruct (in_data data x) as [y|] eqn:Ey; [cbn [mbind outcome_bind]|done].
  destruct (map_outcome (in_data data) chunk) as [r|]; [cbn [mbind outcome_bind]|done]. intros [= <-]. cbn.
  rewrite (IH r) by done. f_equal. unfold in_data in Ey. destruct x as [[k|] c]; cbn in *.
  - destruct (contains_key k data); [cbn in Ey; by injection Ey as <-|done].
  - destruct data; try done; by injection Ey as <-.
Qed.

Lemma update_chunk_keys available chunk s l s' :
  update_chunk_cache_status available chunk s = (Ret l, s') -> map key l = map key chunk.
Proof.
  unfold update_chunk_cache_status, catch, mbind, M_bind. destruct (available (map key chunk) s) as [[data|e] s1].
  - destruct (truthy data); [|by intros [= <- _]]. unfold lift. destruct (map_outcome (in_data data) chunk) eqn:E.
    + intros [= <- _]. by eapply map_outcome_keys.
    + destruct (is_provider e); [by intros [= <- _]|done].
  - destruct (is_provider e); [by intros [= <- _]|done].
Qed.

Lemma gather_keys available chunks : forall s l s',
  gather (map (update_chunk_cache_status available) chunks) s = (Ret l, s') -> map key (concat l) = map key (concat chunks).
Proof.
  unfold gather, id. induction chunks as [|c chunks IH]; intros s l s'; cbn [map run_all]; [by intros [= <- _]|].
  destruct (update_chunk_cache_status available c s) as [o s1] eqn:Ec.
  destruct (run_all (map (update_chunk_cache_status available) chunks) s1) as [os s2] eqn:Er. cbn [map_outcome].
  destruct o as [l0|]; cbn [mbind outcome_bind]; [|by intros [=]].
  destruct (map_outcome (fun x => x) os) as [ls|] eqn:El; cbn [mbind outcome_bind]; [|by intros [=]]. intros [= <- _]. cbn.
  rewrite !map_app. rewrite (update_chunk_keys _ _ _ _ _ Ec). f_equal. apply (IH s1 ls s2). by rewrite Er, El.
Qed.

(** The check returns the streams in their order, with new flags. *)
Lemma cache_check_keeps_streams exn_text open_session serve depth streams s l s' :
  update_torbox_cache_status exn_text open_session serve depth streams s = (Ret l, s') -> map key l = map key streams.
Proof.
  intros (s1 & s2 & (ls & s3 & Eg & [= <- _])%bind_ret)%with_client_ret.
  apply gather_keys in Eg. by rewrite divide_chunks_concat in Eg by lia.
Qed.

(** ** Examples *)

Definition example_files : list value :=
  map (fun f => VDict [("id", VInt f.1); ("short_name", VStr f.2.1); ("size", VInt f.2.2)])
    [(10, ("readme.txt", 1)); (11, ("Show.E01.mkv", 5)); (12, ("Show.E02.mkv", 7))].
Definition example_torrent : list (string * value) :=
  [("id", VInt 77); ("hash", VStr "AB12"); ("download_finished", VBool true); ("download_present", VBool true);
   ("files", VList example_files)].
Definition example_account : list value := [VDict [("hash", VStr "ff"); ("id", VInt 1)]; VDict example_torrent].
Definition example_url (i j : value) : value := VStr ("https://cdn.example/" +:+ str i +:+ "/" +:+ str j).

(** A working service with that account; any other address is not found. *)
Definition example_service (h : list event) (r : request) : outcome error response :=
  if String.eqb (r_url r) "https://api.torbox.app/v1/api/torrents/mylist"
  then Ret (ok_json (VDict [("success", VBool true); ("data", VList example_account)]))
  else if String.eqb (r_url r) "https://api.torbox.app/v1/api/torrents/requestdl" then
    let p := default [] (r_params r) in
    Ret (ok_json (VDict [("success", VBool true);
      ("data", example_url (default VNone (dict_get "torrent_id" p)) (default VNone (dict_get "file_id" p)))]))
  else Ret (mkResponse 404 "application/json" (Ret "") (Ret (VDict [("detail", VStr "Not Found")]))).

(** The same service, when it drops the first connection. *)
Definition dropping_service (h : list event) (r : request) : outcome error response :=
  match h with [] => Raise (ServerDisconnectedError "Server disconnected") | _ => example_service h r end.

Definition play (service : list event -> request -> outcome error response) (info_hash : string) : outcome error value * state :=
  get_video_url_from_torbox no_text (Ret tt) service 8 FileSelection.ptt_example (fun _ => None) (fun _ => None)
    (fun _ => true) true info_hash "magnet:?xt=urn:btih:ab12" None (Some "Show.E02.mkv") None None None open_client.

Lemma torbox_plays_ready_witness :
  exists s r1 r2, play example_service "ab12" = (Ret (VStr "https://cdn.example/77/12"), s) /\
  history s = [Sent r2; Sent r1] /\ r_method r1 = "GET" /\ r_url r1 = "https://api.torbox.app/v1/api/torrents/mylist" /\
  r_method r2 = "GET" /\ r_url r2 = "https://api.torbox.app/v1/api/torrents/requestdl".
Proof.
  apply (torbox_plays_ready no_text (Ret tt) example_service 7 FileSelection.ptt_example (fun _ => None) (fun _ => None)
    (fun _ => true) true "ab12" "magnet:?xt=urn:btih:ab12" None (Some "Show.E02.mkv") None None None open_client
    [VDict [("hash", VStr "ff"); ("id", VInt 1)]] [] example_torrent (VInt 77) (VInt 12) example_files
    [FileSelection.mkFile "readme.txt" (Some 1); FileSelection.mkFile "Show.E01.mkv" (Some 5);
     FileSelection.mkFile "Show.E02.mkv" (Some 7)] 2 example_url); try done.
  - intros s. eexists. split; [eexists; split; [reflexivity|by split]|]. done.
  - intros i j s. eexists. split; [eexists; split; [reflexivity|by split]|]. done.
  - repeat constructor.
Defined.

Lemma lost_list_is_empty_witness :
  (get_available_torrent no_text (Ret tt) dropping_service 8 "ab12" open_client).1 = Ret (VDict []).
Proof.
  apply (lost_list_is_empty no_text (Ret tt) dropping_service 6 "ab12" open_client
    (ServerDisconnectedError "Server disconnected")
    (mkResponse 404 "application/json" (Ret "") (Ret (VDict [("detail", VStr "Not Found")])))
    [("detail", VStr "Not Found")]); done.
Defined.

(** After a lost connection the torrent is added once more, and not played. *)
Example lost_list_adds_again :
  let '(r, s) := play dropping_service "ab12" in
  r = Raise not_downloaded /\
  map (fun e => match e with Sent q => (r_method q, r_data q) | Slept _ => ("", NoBody) end) (history s) =
    [("POST", Form [("magnet", VStr "magnet:?xt=urn:btih:ab12")]); ("GET", NoBody); ("GET", NoBody); ("GET", NoBody)].
Proof. vm_compute. done. Qed.
