(* ===== verification/RealDebrid.v ===== *)
(** * Real-Debrid

    workers/providers/realdebrid/client.py and
    workers/providers/realdebrid/utils.py: the methods of the client, the
    paged list of torrents, and how a torrent is added and played. *)

From S2P Require Export ProviderFlow.
From S2P Require FileSelection.
Local Open Scope string_scope.
Local Open Scope Z_scope.

Definition BASE_URL : string := "https://api.real-debrid.com/rest/1.0".
Definition OAUTH_URL : string := "https://api.real-debrid.com/oauth/v2".
Definition OPENSOURCE_CLIENT_ID : string := "X245A4XAIBGVM".

(** *** Tokens *)

(** [f"{client_id}:{client_secret}:{code}"] in base64. *)
Definition encode_token_data (code : string) (client_id client_secret : option string) : string :=
  b64encode (default "None" client_id +:+ ":" +:+ default "None" client_secret +:+ ":" +:+ code).

Inductive token_data :=
  | PrivateToken (token : string)
  | OAuth (client_id client_secret code : string).

Definition decode_token_str (tok : string) : token_data :=
  match (s ← b64decode tok; decode_utf8 s) with
  | Ret s => match split_char ":" s with [i; c; code] => OAuth i c code | _ => PrivateToken tok end
  | Raise _ => PrivateToken tok
  end.

(** ** The client *)

Section Client.
Context (exn_text : py_exn -> string) (open_session : outcome error unit).
Context (serve : list event -> request -> outcome error response) (depth : nat) (user_ip : option string).

#[local] Instance realdebrid_provider : Provider := realdebrid user_ip.

Definition request_value (c : call) : M value :=
  r ← make_request exn_text open_session serve depth c; mret (reply_value r).

Definition post (u : string) (d : list (string * value)) : call := mkCall "POST" u (Form d) None None false false false 0.
Definition return_none (c : call) : call :=
  mkCall (method c) (url c) (data c) (json c) (params c) true (is_expected_to_fail c) (is_http_response c) (retry_count c).
Definition expected_to_fail (c : call) : call :=
  mkCall (method c) (url c) (data c) (json c) (params c) (is_return_none c) true (is_http_response c) (retry_count c).

Definition get_device_code : M value :=
  request_value (with_params (Some [("client_id", VStr OPENSOURCE_CLIENT_ID); ("new_credentials", VStr "yes")])
    (plain "GET" (OAUTH_URL +:+ "/device/code"))).

Definition get_token (client_id client_secret device_code : value) : M value :=
  request_value (post (OAUTH_URL +:+ "/token")
    [("client_id", client_id); ("client_secret", client_secret); ("code", device_code);
     ("grant_type", VStr "http://oauth.net/grant_type/device/1.0")]).

Definition bearer (v : value) : list (string * string) := [("Authorization", "Bearer " +:+ str v)].

Definition initialize_headers : M unit :=
  s ← get;
  match token s with
  | Some ((String _ _) as tok) =>
      match decode_token_str tok with
      | PrivateToken t => _ ← modify (set_headers (bearer (VStr t))); modify (set_private true)
      | OAuth i c code =>
          answer ← get_token (VStr i) (VStr c) (VStr code);
          access ← lift (getitem "access_token" answer);
          modify (set_headers (bearer access))
      end
  | _ => mret tt
  end.

(** The new token, or the answer that has none. *)
Definition authorize (device_code : value) : M (string + value) :=
  response ← request_value (expected_to_fail (with_params
    (Some [("client_id", VStr OPENSOURCE_CLIENT_ID); ("code", device_code)]) (plain "GET" (OAUTH_URL +:+ "/device/credentials"))));
  has_secret ← lift (contains_key "client_secret" response);
  if negb has_secret then mret (inr response)
  else
    client_id ← lift (getitem "client_id" response);
    client_secret ← lift (getitem "client_secret" response);
    answer ← get_token client_id client_secret device_code;
    has_access ← lift (contains_key "access_token" answer);
    if has_access : bool then
      refresh ← lift (getitem "refresh_token" answer);
      mret (inl (encode_token_data (str refresh) (Some (str client_id)) (Some (str client_secret))))
    else mret (inr answer).

Definition add_magnet_link (magnet_link : string) : M value :=
  request_value (post (BASE_URL +:+ "/torrents/addMagnet") [("magnet", VStr magnet_link)]).
Definition add_torrent_file (torrent_file : string) : M value :=
  request_value (with_data (Bytes torrent_file) (plain "PUT" (BASE_URL +:+ "/torrents/addTorrent"))).
Definition get_active_torrents : M value := request_value (plain "GET" (BASE_URL +:+ "/torrents/activeCount")).

(** [params or None]: the page and limit that are given. *)
Definition page_params (page limit : option Z) : option (list (string * value)) :=
  match ((match page with Some p => [("page", VInt p)] | None => [] end) ++
         (match limit with Some l => [("limit", VInt l)] | None => [] end))%list with
  | [] => None
  | ps => Some ps
  end.
Definition list_call (page limit : option Z) : call :=
  with_params (page_params page limit) (plain "GET" (BASE_URL +:+ "/torrents")).
Definition get_user_torrent_list (page limit : option Z) : M value := request_value (list_call page limit).

Definition get_user_downloads : M value := request_value (plain "GET" (BASE_URL +:+ "/downloads")).

Definition info_call (torrent_id : value) : call := plain "GET" (BASE_URL +:+ "/torrents/info/" +:+ str torrent_id).
Definition get_torrent_info (torrent_id : value) : M value := request_value (info_call torrent_id).

Definition disable_access_token : M unit :=
  _ ← request_value (return_none (expected_to_fail (plain "GET" (BASE_URL +:+ "/disable_access_token")))); mret tt.

Definition start_torrent_download (torrent_id file_ids : value) : M value :=
  request_value (return_none (post (BASE_URL +:+ "/torrents/selectFiles/" +:+ str torrent_id) [("files", file_ids)])).

(** The first torrent of the list with the hash. *)
Definition get_available_torrent (info_hash : string) : M (option value) :=
  available ← get_user_torrent_list None None;
  lift (l ← iter_value available; find_item (fun t => is_str info_hash <$> getitem "hash" t) l).

Definition link_call (link : value) : call := expected_to_fail (post (BASE_URL +:+ "/unrestrict/link") [("link", link)]).

Definition create_link (link : value) : M (list (string * value)) :=
  response ← request_value (link_call link);
  let failed : error := ProviderException ("Failed to create download link. response: " +:+ str response) api_error false in
  match response with
  | VDict d =>
      if dict_has "download" d then mret d
      else _ ← lift (raise_mapped_error d); throw failed
  | _ => throw failed
  end.

Definition delete_torrent (torrent_id : value) : M value :=
  request_value (return_none (plain "DELETE" (BASE_URL +:+ "/torrents/delete/" +:+ str torrent_id))).
Definition get_user_info : M value := request_value (plain "GET" (BASE_URL +:+ "/user")).

(** ** The list of torrents *)

Definition RD_TORRENT_LIST_PAGE_SIZE : Z := 100.
Definition RD_TORRENT_LIST_MAX_PAGES : nat := 100.

(** [str(torrent.get("id", ""))] *)
Definition id_text (t : value) : outcome error string := v ← value_get_or "id" (VStr "") t; Ret (str v).

(** The torrents of a page that are not among the seen ones, and the ids seen
    after it. *)
Fixpoint add_page (seen : list string) (page : list value) : outcome error (list value * list string) :=
  match page with
  | [] => Ret ([], seen)
  | t :: page =>
      i ← id_text t;
      if negb (str_empty i) && existsb (String.eqb i) seen then add_page seen page
      else
        r ← add_page (if str_empty i then seen else i :: seen) page;
        Ret (t :: r.1, r.2)
  end.

(** The pages from number [page] on, of which [n] are left. *)
Fixpoint read_pages (n : nat) (page : Z) (all : list value) (seen : list string) : M (list value) :=
  match n with
  | O => mret all
  | S n =>
      data ← get_user_torrent_list (Some page) (Some RD_TORRENT_LIST_PAGE_SIZE);
      if negb (truthy data) then mret all
      else
        match data with
        | VList l =>
            if (page =? 1) && (RD_TORRENT_LIST_PAGE_SIZE <? Z.of_nat (length l)) then mret l
            else
              r ← lift (add_page seen l);
              let '(new, seen) := r in
              let all := (all ++ new)%list in
              if bool_decide (new = []) || (Z.of_nat (length l) <? RD_TORRENT_LIST_PAGE_SIZE) then mret all
              else read_pages n (page + 1) all seen
        | _ => mret []
        end
  end.

(** [_get_all_torrents] *)
Definition get_all_torrents : M (list value) := read_pages RD_TORRENT_LIST_MAX_PAGES 1 [] [].
End Client.

(** ** Adding and playing *)

Section Utils.
Context (exn_text : py_exn -> string) (open_session : outcome error unit).
Context (serve : list event -> request -> outcome error response) (depth : nat) (user_ip : option string).
Context (parse_title : string -> FileSelection.ptt_result) (parse_date : string -> option string)
  (get_series_data_by_id : string -> option FileSelection.SeriesMetadata)
  (persists : FileSelection.saved_update -> bool) (annotation_lock_free : bool).

#[local] Notation get_torrent_info := (get_torrent_info exn_text open_session serve depth user_ip).
#[local] Notation get_active_torrents := (get_active_torrents exn_text open_session serve depth user_ip).
#[local] Notation add_magnet_link := (add_magnet_link exn_text open_session serve depth user_ip).
#[local] Notation add_torrent_file := (add_torrent_file exn_text open_session serve depth user_ip).
#[local] Notation delete_torrent := (delete_torrent exn_text open_session serve depth user_ip).
#[local] Notation start_torrent_download := (start_torrent_download exn_text open_session serve depth user_ip).
#[local] Notation get_available_torrent := (get_available_torrent exn_text open_session serve depth user_ip).
#[local] Notation create_link := (create_link exn_text open_session serve depth user_ip).
#[local] Notation get_user_torrent_list := (get_user_torrent_list exn_text open_session serve depth user_ip).
#[local] Notation get_all_torrents := (get_all_torrents exn_text open_session serve depth user_ip).

(** [async with RealDebrid(token=..., user_ip=...) as rd_client: m] *)
Definition with_realdebrid {A} (m : M A) : M A :=
  with_client (initialize_headers exn_text open_session serve depth user_ip)
    (disable_access_token exn_text open_session serve depth user_ip) m.

(** [wait_for_status] of a client that retries no failure. *)
Definition wait (torrent_id : value) (target_status : string) (max_retries retry_interval : Z) (info : option value) : M value :=
  wait_for_status get_torrent_info (fun _ => false) torrent_id (VStr target_status) max_retries retry_interval info.

Definition is_unknown_resource_error (e : error) : bool :=
  match e with
  | ProviderException m _ _ => contains "unknown_ressource" (lower m) || contains "resource not found" (lower m)
  | _ => false
  end.

Definition add_failed : error := ProviderException "Failed to add torrent to Real-Debrid" "transfer_error.mp4" false.

Definition extract_torrent_id_from_create_response (create_response : value) : outcome error string :=
  match create_response with
  | VDict d => match dict_get "id" d with Some v => if truthy v then Ret (str v) else Raise add_failed | None => Raise add_failed end
  | _ => Raise add_failed
  end.

(** *** Adding a torrent *)

Section Add.
Context (magnet_link : string) (torrent_file : option string).

Definition create_torrent : M string :=
  response ← match torrent_file with
             | Some ((String _ _) as f) => add_torrent_file f
             | _ => add_magnet_link magnet_link
             end;
  lift (extract_torrent_id_from_create_response response).

(** The attempts to read the torrent, of which [n] are left and this is number
    [k]: [None] when each finds it unknown. *)
Fixpoint info_attempts (torrent_id : string) (n : nat) (k : Z) : M (option value) :=
  match n with
  | O => mret None
  | S n =>
      r ← catch (v ← get_torrent_info (VStr torrent_id); mret (Some v)) is_unknown_resource_error (fun _ => mret None);
      match r, n with
      | Some v, _ => mret (Some v)
      | None, O => mret None
      | None, S _ => _ ← sleep (500 * k); info_attempts torrent_id n (k + 1)
      end
  end.

(** The attempts to create it, of which [n] are left. *)
Fixpoint create_attempts (n : nat) : M value :=
  match n with
  | O => throw (ProviderException "Failed to add magnet link to Real-Debrid" "transfer_error.mp4" false)
  | S n =>
      torrent_id ← create_torrent;
      r ← info_attempts torrent_id 3 1;
      match r, n with
      | Some v, _ => mret v
      | None, S _ => _ ← sleep 500; create_attempts n
      | None, O => throw (ProviderException "Failed to fetch torrent info from Real-Debrid" "transfer_error.mp4" false)
      end
  end.

(** [a == b] of values that may be missing. *)
Definition same_value (a b : option value) : bool :=
  value_eqb (default VNone a) (default VNone b).

Definition add_new_torrent (info_hash : string) : M value :=
  response ← get_active_torrents;
  match response with
  | VDict d =>
      if same_value (dict_get "limit" d) (dict_get "nb" d)
      then throw (ProviderException "Torrent limit reached. Please try again later." "torrent_limit.mp4" false)
      else
        active ← lift (contains_key info_hash
                   (match dict_get "list" d with Some v => if truthy v then v else VList [] | None => VList [] end));
        if active : bool
        then throw (ProviderException "Torrent is already being downloading" "torrent_not_downloaded.mp4" false)
        else create_attempts 2
  | _ => throw (ProviderException "Failed to fetch Real-Debrid active torrents" "api_error.mp4" false)
  end.
End Add.

(** *** The link *)

(** [file["selected"] == 1] *)
Definition is_selected (f : value) : outcome error bool := is_int 1 <$> getitem "selected" f.

(** The torrent is added once more with the selected file only. *)
Definition add_again (magnet_link : string) (torrent_info : value) (idx : nat) (max_retries retry_interval : Z) : M value :=
  old_id ← lift (getitem "id" torrent_info);
  _ ← delete_torrent old_id;
  create_response ← add_magnet_link magnet_link;
  torrent_id ← lift (extract_torrent_id_from_create_response create_response);
  info ← wait (VStr torrent_id) "waiting_files_selection" max_retries retry_interval None;
  new_id ← lift (getitem "id" info);
  file_id ← lift (files ← getitem "files" info; f ← item_at idx files; getitem "id" f);
  _ ← start_torrent_download new_id file_id;
  wait (VStr torrent_id) "downloaded" max_retries retry_interval None.

(** The torrent to take the link from, and the position of the link. *)
Definition link_position (magnet_link : string) (d : list (string * value)) (idx : nat) (max_retries retry_interval : Z) :
    M (value * nat) :=
  files ← lift (v ← getitem "files" (VDict d); iter_value v);
  relevant ← lift (item_at idx (VList files));
  selected ← lift (filter_outcome is_selected files);
  chosen ← lift (v ← value_get "selected" relevant; Ret (default false (is_int 1 <$> v)));
  complete ← (if negb chosen then mret false
              else n ← lift (links ← getitem "links" (VDict d); py (py_len links));
                   mret (Z.of_nat (length selected) =? n));
  if negb complete then
    info ← add_again magnet_link (VDict d) idx max_retries retry_interval;
    mret (info, O)
  else
    match index_of_value relevant selected with
    | Some i => mret (VDict d, i)
    | None => throw (Python ValueError)
    end.

Definition not_a_video (mime_type : string) : error :=
  ProviderException ("Requested file is not a video file, deleting torrent and retrying. " +:+ mime_type)
    "torrent_not_downloaded.mp4" false.

(** [str(response.get("mimeType") or "")] *)
Definition mime_of (response : list (string * value)) : string :=
  match dict_get "mimeType" response with Some v => if truthy v then str v else "" | None => "" end.

Definition create_download_link (magnet_link : string) (torrent_info : value) (filename : option string)
    (season episode : option Z) (max_retries retry_interval : Z) : M value :=
  match torrent_info with
  | VDict d =>
      idx ← select_file_index_from_torrent parse_title parse_date get_series_data_by_id persists annotation_lock_free
              d "files" "path" "bytes" filename season episode true true;
      r ← link_position magnet_link d idx max_retries retry_interval;
      let '(info, link_index) := r in
      link ← lift (links ← getitem "links" info; item_at link_index links);
      response ← create_link link;
      if startswith "video" (mime_of response) then mret (default VNone (dict_get "download" response))
      else throw (not_a_video (mime_of response))
  | _ => throw (Python AttributeError)
  end.

(** *** Playing *)

Definition failed_statuses : list string := ["magnet_error"; "error"; "virus"; "dead"].
Definition started_statuses : list string := ["queued"; "downloading"; "downloaded"].
Definition one_of (l : list string) (v : value) : bool := existsb (fun s => is_str s v) l.

(** A torrent that has not been started is, with all its files. *)
Definition start_if_needed (torrent_id status torrent_info : value) (max_retries retry_interval : Z) : M unit :=
  if one_of started_statuses status then mret tt
  else
    info ← wait torrent_id "waiting_files_selection" max_retries retry_interval (Some torrent_info);
    _ ← catch (new_id ← lift (getitem "id" info); start_torrent_download new_id (VStr "all")) is_provider
          (fun e => _ ← delete_torrent torrent_id;
                    throw (ProviderException ("Failed to start torrent download, " +:+ str_error exn_text e) "transfer_error.mp4" false));
    mret tt.

Definition get_video_url_from_realdebrid (info_hash magnet_link : string) (torrent_file filename : option string)
    (max_retries retry_interval : Z) (season episode : option Z) : M value :=
  with_realdebrid (
    available ← get_available_torrent info_hash;
    info ← match available with
           | Some v => if truthy v then mret v else add_new_torrent magnet_link torrent_file info_hash
           | None => add_new_torrent magnet_link torrent_file info_hash
           end;
    torrent_id ← lift (getitem "id" info);
    status ← lift (getitem "status" info);
    if one_of failed_statuses status then
      _ ← delete_torrent torrent_id;
      throw (ProviderException ("Torrent cannot be downloaded due to status: " +:+ str status) "transfer_error.mp4" false)
    else
      _ ← start_if_needed torrent_id status info max_retries retry_interval;
      info ← wait torrent_id "downloaded" max_retries retry_interval None;
      create_download_link magnet_link info filename season episode max_retries retry_interval).

(** *** The account *)

(** [[t["hash"] for t in torrents if t["status"] == "downloaded"]] *)
Fixpoint downloaded_hashes (l : list value) : outcome error (list value) :=
  match l with
  | [] => Ret []
  | t :: l =>
      st ← getitem "status" t;
      hs ← (if is_str "downloaded" st then h ← getitem "hash" t; Ret [h] else Ret []);
      r ← downloaded_hashes l;
      Ret (hs ++ r)%list
  end.

Definition fetch_downloaded_info_hashes_from_rd : M (list value) :=
  catch (with_realdebrid (l ← get_all_torrents; lift (downloaded_hashes l))) is_provider (fun _ => mret []).

(** [update_rd_cache_status]: the hashes of the streams with their flags; the
    streams keep their flags when the account has no torrent. *)
Definition update_rd_cache_status (streams : list (string * bool)) : M (list (string * bool)) :=
  catch (hashes ← fetch_downloaded_info_hashes_from_rd;
         mret (if bool_decide (length hashes = O) then streams
               else map (fun s => (s.1, existsb (is_str s.1) hashes)) streams))
    is_provider (fun _ => mret streams).

(** [torrent["hash"].lower()] *)
Definition lower_hash (t : value) : outcome error string :=
  h ← getitem "hash" t; match h with VStr s => Ret (lower s) | _ => Raise (Python AttributeError) end.

Definition delete_torrent_from_rd (info_hash : string) : M bool :=
  catch (with_realdebrid (
    torrents ← get_user_torrent_list None None;
    found ← lift (l ← iter_value torrents;
                  find_item (fun t => (fun h => String.eqb h (lower info_hash)) <$> lower_hash t) l);
    match found with
    | Some t => i ← lift (getitem "id" t); _ ← delete_torrent i; mret true
    | None => mret false
    end)) is_provider (fun _ => mret false).

(** A deletion whose failure [gather] returns instead of raising. *)
Definition try_delete (i : value) : M unit :=
  catch (_ ← delete_torrent i; mret tt) (fun _ => true) (fun _ => mret tt).

(** [delete_all_watchlist_rd]: the ids are read first; the deletions, of which
    three run at a time, run one after the other here. *)
Definition delete_all_watchlist_rd : M unit :=
  with_realdebrid (
    torrents ← get_user_torrent_list None None;
    ids ← lift (l ← iter_value torrents; map_outcome (getitem "id") l);
    _ ← gather (map try_delete ids);
    mret tt).

(** [None] when the token is accepted, else the message. *)
Definition validate_realdebrid_credentials : M (option string) :=
  catch (with_realdebrid (_ ← get_user_info exn_text open_session serve depth user_ip; mret None)) is_provider
    (fun e => match e with
              | ProviderException m _ _ => mret (Some ("Failed to verify RealDebrid credential, error: " +:+ m))
              | e => throw e
              end).
End Utils.

(** ** Properties *)

Section Paging.
Context (exn_text : py_exn -> string) (open_session : outcome error unit).
Context (serve : list event -> request -> outcome error response) (depth : nat) (user_ip : option string).

(** *** The list of torrents *)

(** The service answers the call at once, with this JSON. *)
Definition answered (c : call) (v : value) (s : state) : Prop :=
  exists r, serve (history s) (request_of (realdebrid_prepare user_ip c) s) = Ret r /\ status r < 400 /\ json_body r = Ret v.

Definition after_call (c : call) (s : state) : state :=
  record_event (Sent (request_of (realdebrid_prepare user_ip c) s)) (set_session true s).

Lemma request_value_answered c v s : open_session = Ret tt -> answered c v s ->
  is_return_none (realdebrid_prepare user_ip c) = false -> is_http_response (realdebrid_prepare user_ip c) = false ->
  request_value exn_text open_session serve (S depth) user_ip c s = (Ret v, after_call c s).
Proof.
  intros Ho (r & Hr & Hst & Hj) Hn Hh. unfold request_value.
  pose proof (@make_request_answered exn_text open_session serve (realdebrid user_ip) depth c s r v Ho Hr (or_introl Hst) Hj Hn Hh) as E.
  unfold mbind, M_bind. unfold realdebrid_provider. by rewrite E.
Qed.

Lemma add_page_fresh page : forall seen ids, map_outcome id_text page = Ret ids -> NoDup ids -> "" ∉ ids ->
  (forall i, i ∈ ids -> i ∉ seen) ->
  exists seen', add_page seen page = Ret (page, seen') /\ forall i, i ∈ seen' <-> i ∈ ids \/ i ∈ seen.
Proof.
  induction page as [|t page IH]; intros seen ids Hids Hnd Hne Hseen; apply map_outcome_Forall2 in Hids.
  - apply Forall2_nil_inv_l in Hids as ->. exists seen. split; [done|]. intros i. rewrite elem_of_nil. tauto.
  - apply Forall2_cons_inv_l in Hids as (i & ids' & Hi & Hids & ->). apply map_outcome_Forall2 in Hids.
    apply NoDup_cons in Hnd as [Hni Hnd]. apply not_elem_of_cons in Hne as [Hne1 Hne]. cbn [add_page]. rewrite Hi. cbn [mbind outcome_bind].
    assert (existsb (String.eqb i) seen = false) as ->.
    { apply not_true_iff_false. intros (j & Hj & <-%String.eqb_eq)%existsb_exists. apply (Hseen i); [by left|].
      by apply list_elem_of_In. }
    rewrite andb_false_r. destruct i as [|a i]; [done|]. cbn [str_empty].
    destruct (IH (String a i :: seen) ids' Hids Hnd Hne) as (seen' & E & Hs).
    { intros j Hj. apply not_elem_of_cons. split; [by intros ->|]. apply Hseen. by right. }
    exists seen'. rewrite E. split; [done|]. intros j. rewrite Hs, !elem_of_cons. tauto.
Qed.

(** The service gives the torrents in pages. *)
Definition page_of (l : list value) (k : nat) : list value := take 100 (drop (k * 100) l).
Definition serves_pages (l : list value) : Prop :=
  forall k s, answered (list_call (Some (Z.of_nat k + 1)) (Some RD_TORRENT_LIST_PAGE_SIZE)) (VList (page_of l k)) s.

Lemma read_pages_complete l ids n : open_session = Ret tt -> serves_pages l ->
  map_outcome id_text l = Ret ids -> NoDup ids -> "" ∉ ids ->
  forall k seen s, (length l <= (k + n) * 100)%nat -> (forall i, i ∈ seen -> i ∈ take (k * 100) ids) ->
  exists s', read_pages exn_text open_session serve (S depth) user_ip n (Z.of_nat k + 1) (take (k * 100) l) seen s = (Ret l, s') /\
    (sent (history s') <= n + sent (history s))%nat.
Proof.
  intros Ho Hpages Hids Hnd Hne. induction n as [|n IH]; intros k seen s Hlen Hseen; cbn [read_pages].
  { exists s. rewrite take_ge by lia. done. }
  pose proof (request_value_answered _ _ s Ho (Hpages k s) eq_refl eq_refl) as E.
  unfold get_user_torrent_list, mbind, M_bind at 1. rewrite E. set (s1 := after_call _ s).
  assert (Hs1 : sent (history s1) = S (sent (history s))) by done.
  assert (Hnext : (take (k * 100) l ++ page_of l k)%list = take (S k * 100) l).
  { unfold page_of. rewrite take_take_drop. f_equal. lia. }
  destruct (page_of l k) as [|t p] eqn:Ep.
  { exists s1. cbn [truthy negb]. rewrite app_nil_r in Hnext. split; [|lia]. rewrite Hnext, take_ge; [done|].
    assert (length (page_of l k) = 0%nat) as Hl by by rewrite Ep. unfold page_of in Hl.
    rewrite length_take, length_drop in Hl. lia. }
  cbn [truthy negb].
  assert (Hlp : (length (t :: p) <= 100)%nat) by (rewrite <- Ep; unfold page_of; rewrite length_take; lia).
  destruct (Z.ltb_spec RD_TORRENT_LIST_PAGE_SIZE (Z.of_nat (length (t :: p)))); [unfold RD_TORRENT_LIST_PAGE_SIZE in *; lia|].
  rewrite andb_false_r.
  assert (Hpids : map_outcome id_text (t :: p) = Ret (take 100 (drop (k * 100) ids))).
  { apply map_outcome_Forall2. rewrite <- Ep. unfold page_of. apply Forall2_take, Forall2_drop. by apply map_outcome_Forall2. }
  destruct (add_page_fresh (t :: p) seen _ Hpids) as (seen' & Ea & Hseen').
  { eapply sublist_NoDup; [exact Hnd|]. etrans; [apply sublist_take|apply sublist_drop]. }
  { intros Hin. apply Hne. eapply elem_of_sublist; [exact Hin|]. etrans; [apply sublist_take|apply sublist_drop]. }
  { intros i Hi Hin. apply Hseen in Hin. rewrite <- (take_drop (k * 100) ids) in Hnd. apply NoDup_app in Hnd as (_ & Hd & _).
    apply (Hd i Hin). eapply elem_of_sublist; [exact Hi|apply sublist_take]. }
  unfold mbind, M_bind, lift. rewrite Ea. cbv beta iota zeta. rewrite Hnext.
  assert (Hseen2 : forall i, i ∈ seen' -> i ∈ take (S k * 100) ids).
  { intros i [Hi|Hi]%Hseen'; replace (S k * 100)%nat with (k * 100 + 100)%nat by lia; rewrite <- take_take_drop, elem_of_app; [by right|].
    left. by apply Hseen. }
  destruct (Z.ltb_spec (Z.of_nat (length (t :: p))) RD_TORRENT_LIST_PAGE_SIZE).
  - exists s1. rewrite orb_true_r. split; [|lia]. rewrite take_ge; [done|].
    assert (length (page_of l k) < 100)%nat as Hl by (rewrite Ep; unfold RD_TORRENT_LIST_PAGE_SIZE in *; lia).
    unfold page_of in Hl. rewrite length_take, length_drop in Hl. lia.
  - rewrite bool_decide_eq_false_2 by done. cbn [orb].
    replace (Z.of_nat k + 1 + 1) with (Z.of_nat (S k) + 1) by lia.
    destruct (IH (S k) seen' s1) as (s2 & E2 & Hs2); [lia|done|]. exists s2. split; [exact E2|lia].
Qed.

(** An account of up to 10000 torrents with distinct ids is read
    completely and in order, in at most 100 requests. *)
Theorem get_all_torrents_complete (l : list value) (ids : list string) (s : state) (Hopen : open_session = Ret tt)
    (Hpages : serves_pages l) (Hids : map_outcome id_text l = Ret ids) (Hnd : NoDup ids) (Hne : "" ∉ ids)
    (Hlen : Z.of_nat (length l) <= 10000) :
  exists s', get_all_torrents exn_text open_session serve (S depth) user_ip s = (Ret l, s') /\
             (sent (history s') <= 100 + sent (history s))%nat.
Proof.
  apply (read_pages_complete l ids RD_TORRENT_LIST_MAX_PAGES Hopen Hpages Hids Hnd Hne 0 [] s); [|by intros i ?%elem_of_nil].
  change ((0 + RD_TORRENT_LIST_MAX_PAGES) * 100)%nat with (100 * 100)%nat. lia.
Qed.
End Paging.

Section Facts.
Context (exn_text : py_exn -> string) (open_session : outcome error unit).
Context (serve : list event -> request -> outcome error response) (depth : nat) (user_ip : option string).
Context (parse_title : string -> FileSelection.ptt_result) (parse_date : string -> option string)
  (get_series_data_by_id : string -> option FileSelection.SeriesMetadata)
  (persists : FileSelection.saved_update -> bool) (annotation_lock_free : bool).

#[local] Notation answered := (answered serve user_ip).
#[local] Notation after_call := (after_call user_ip).

(** *** Costs *)

Lemma rd_request_value_costs c : retry_count c = 0 ->
  costs 2 0 (request_value exn_text open_session serve (S (S depth)) user_ip c) any provider_error.
Proof.
  intros Hc. apply (costs_bind 2 0 0 0) with (Q1 := any); [lia| |intros; by apply costs_ret].
  apply make_request_costs_deep; [intros s' c'; apply realdebrid_repeats|done|lia].
Qed.

Lemma request_value_any c : retry_count c = 0 ->
  costs 2 0 (request_value exn_text open_session serve (S (S depth)) user_ip c) any any.
Proof. intros Hc. eapply costs_weaken; [by apply rd_request_value_costs|lia|lia|done|done]. Qed.

Lemma wait_costs torrent_id target n i info : 0 <= i ->
  costs (Z.to_nat n * 2) (1000 * i * Z.max 0 (n - 1))
    (wait exn_text open_session serve (S (S depth)) user_ip torrent_id target n i info) any any.
Proof.
  intros Hi. eapply costs_weaken; [apply wait_for_status_costs; [by apply rd_request_value_costs|done]|lia|lia|done|done].
Qed.

Lemma initialize_headers_costs : costs 2 0 (initialize_headers exn_text open_session serve (S (S depth)) user_ip) any any.
Proof.
  apply costs_get. intros s. destruct (token s) as [[|c t]|]; [by apply costs_ret| |by apply costs_ret].
  destruct (decode_token_str _).
  - apply (costs_bind 1 0 1 0) with (Q1 := any); [lia|by apply costs_modify|intros; by apply costs_modify].
  - apply (costs_bind 2 0 0 0) with (Q1 := any); [lia|by apply request_value_any|]. intros answer _.
    apply (costs_bind 0 0 0 0) with (Q1 := any); [lia|by apply costs_lift_any|intros; by apply costs_modify].
Qed.

Lemma disable_access_token_costs : costs 2 0 (disable_access_token exn_text open_session serve (S (S depth)) user_ip) any any.
Proof. apply (costs_bind 2 0 0 0) with (Q1 := any); [lia|by apply request_value_any|intros; by apply costs_ret]. Qed.

Lemma rd_get_available_torrent_costs info_hash :
  costs 2 0 (get_available_torrent exn_text open_session serve (S (S depth)) user_ip info_hash) any any.
Proof. apply (costs_bind 2 0 0 0) with (Q1 := any); [lia|by apply request_value_any|intros; by apply costs_lift_any]. Qed.

Lemma info_attempts_costs torrent_id n : forall k, 1 <= k ->
  costs (S n * 2) (250 * (Z.of_nat n * (2 * k + Z.of_nat n - 1)))
    (info_attempts exn_text open_session serve (S (S depth)) user_ip torrent_id (S n) k) any any.
Proof.
  assert (Hread : costs 2 0 (catch (v ← get_torrent_info exn_text open_session serve (S (S depth)) user_ip (VStr torrent_id);
    mret (Some v)) is_unknown_resource_error (fun _ => mret None)) any any).
  { apply (costs_catch 2 0 0 0) with (E1 := any); [lia| |intros; by apply costs_ret|done].
    apply (costs_bind_any 2 0 0 0); [lia..|by apply request_value_any|intros; by apply costs_ret]. }
  induction n as [|n IH]; intros k Hk.
  - apply (costs_bind_any 2 0 0 0); [lia..|exact Hread|]. intros [v|]; by apply costs_ret.
  - apply (costs_bind_any 2 0 (S n * 2) (250 * (Z.of_nat (S n) * (2 * k + Z.of_nat (S n) - 1)))); [nia|lia|lia|exact Hread|].
    intros [v|]; [apply costs_ret; [nia|done]|].
    apply (costs_bind_any 0 (500 * k) (S n * 2) (250 * (Z.of_nat n * (2 * (k + 1) + Z.of_nat n - 1))));
      [nia|lia|nia|apply costs_sleep|]. intros _. apply IH. lia.
Qed.

Lemma create_torrent_costs magnet_link torrent_file :
  costs 2 0 (create_torrent exn_text open_session serve (S (S depth)) user_ip magnet_link torrent_file) any any.
Proof.
  apply (costs_bind_any 2 0 0 0); [lia..| |intros; by apply costs_lift_any].
  destruct torrent_file as [[|c f]|]; by apply request_value_any.
Qed.

Lemma add_new_torrent_costs magnet_link torrent_file info_hash :
  costs 18 3500 (add_new_torrent exn_text open_session serve (S (S depth)) user_ip magnet_link torrent_file info_hash) any any.
Proof.
  apply (costs_bind_any 2 0 16 3500); [lia..|by apply request_value_any|]. intros [| | | | | |d]; try by apply costs_throw.
  destruct (same_value _ _); [by apply costs_throw|].
  apply (costs_bind_any 0 0 16 3500); [lia..|by apply costs_lift_any|]. intros []; [by apply costs_throw|].
  assert (Hi : forall t, costs 6 1500 (info_attempts exn_text open_session serve (S (S depth)) user_ip t 3 1) any any)
    by (intros t; exact (info_attempts_costs t 2 1 ltac:(lia))).
  cbn [create_attempts]. apply (costs_bind_any 2 0 14 3500); [lia..|apply create_torrent_costs|]. intros t1.
  apply (costs_bind_any 6 1500 8 2000); [lia..|apply Hi|]. intros [v|]; [by apply costs_ret|].
  apply (costs_bind_any 0 500 8 1500); [lia..|apply costs_sleep|]. intros _.
  apply (costs_bind_any 2 0 6 1500); [lia..|apply create_torrent_costs|]. intros t2.
  apply (costs_bind_any 6 1500 0 0); [lia..|apply Hi|]. intros [v|]; [by apply costs_ret|by apply costs_throw].
Qed.

(** The pauses of one [wait_for_status]. *)
Definition wait_time (n i : Z) : Z := 1000 * i * Z.max 0 (n - 1).

Lemma wait_time_nonneg n i : 0 <= i -> 0 <= wait_time n i.
Proof. unfold wait_time. nia. Qed.

Lemma add_again_costs magnet_link info idx n i : 0 <= i ->
  costs (6 + 4 * Z.to_nat n) (2 * wait_time n i)
    (add_again exn_text open_session serve (S (S depth)) user_ip magnet_link info idx n i) any any.
Proof.
  intros Hi. pose proof (wait_time_nonneg n i Hi) as Hw.
  apply (costs_bind_any 0 0 (6 + 4 * Z.to_nat n) (2 * wait_time n i)); [lia..|by apply costs_lift_any|]. intros old_id.
  apply (costs_bind_any 2 0 (4 + 4 * Z.to_nat n) (2 * wait_time n i)); [lia..|by apply request_value_any|]. intros _.
  apply (costs_bind_any 2 0 (2 + 4 * Z.to_nat n) (2 * wait_time n i)); [lia..|by apply request_value_any|]. intros r.
  apply (costs_bind_any 0 0 (2 + 4 * Z.to_nat n) (2 * wait_time n i)); [lia..|by apply costs_lift_any|]. intros t.
  apply (costs_bind_any (Z.to_nat n * 2) (wait_time n i) (2 + 2 * Z.to_nat n) (wait_time n i));
    [lia..|by apply wait_costs|]. intros inf.
  apply (costs_bind_any 0 0 (2 + 2 * Z.to_nat n) (wait_time n i)); [lia..|by apply costs_lift_any|]. intros new_id.
  apply (costs_bind_any 0 0 (2 + 2 * Z.to_nat n) (wait_time n i)); [lia..|by apply costs_lift_any|]. intros fid.
  apply (costs_bind_any 2 0 (Z.to_nat n * 2) (wait_time n i)); [lia..|by apply request_value_any|]. intros _.
  by apply wait_costs.
Qed.

Lemma link_position_costs magnet_link d idx n i : 0 <= i ->
  costs (6 + 4 * Z.to_nat n) (2 * wait_time n i)
    (link_position exn_text open_session serve (S (S depth)) user_ip magnet_link d idx n i) any any.
Proof.
  intros Hi. pose proof (wait_time_nonneg n i Hi) as Hw. unfold link_position.
  do 4 (apply (costs_bind_any 0 0 (6 + 4 * Z.to_nat n) (2 * wait_time n i)); [lia..|by apply costs_lift_any|]; intros ?).
  apply (costs_bind_any 0 0 (6 + 4 * Z.to_nat n) (2 * wait_time n i)); [lia..| |].
  { destruct (negb _); [by apply costs_ret|].
    apply (costs_bind_any 0 0 0 0); [lia..|by apply costs_lift_any|intros; by apply costs_ret]. }
  intros complete. destruct (negb complete).
  - apply (costs_bind_any (6 + 4 * Z.to_nat n) (2 * wait_time n i) 0 0); [lia..|by apply add_again_costs|intros; by apply costs_ret].
  - destruct (index_of_value _ _); [apply costs_ret; [lia|done]|apply costs_throw; [lia|done]].
Qed.

Lemma create_download_link_costs magnet_link info filename season episode n i : 0 <= i ->
  costs (8 + 4 * Z.to_nat n) (2 * wait_time n i)
    (create_download_link exn_text open_session serve (S (S depth)) user_ip parse_title parse_date get_series_data_by_id
       persists annotation_lock_free magnet_link info filename season episode n i) any any.
Proof.
  intros Hi. pose proof (wait_time_nonneg n i Hi) as Hw.
  destruct info as [| | | | | |d]; try (apply costs_throw; [lia|done]). unfold create_download_link.
  apply (costs_bind_any 0 0 (8 + 4 * Z.to_nat n) (2 * wait_time n i)); [lia..| |].
  { eapply costs_weaken; [apply select_costs|lia|lia|done|done]. }
  intros idx. apply (costs_bind_any (6 + 4 * Z.to_nat n) (2 * wait_time n i) 2 0); [lia..|by apply link_position_costs|].
  intros [inf j]. apply (costs_bind_any 0 0 2 0); [lia..|by apply costs_lift_any|]. intros link.
  apply (costs_bind_any 2 0 0 0); [lia..| |].
  - apply (costs_bind_any 2 0 0 0); [lia..|by apply request_value_any|]. intros [| | | | | |r]; try by apply costs_throw.
    destruct (dict_has _ _); [by apply costs_ret|].
    apply (costs_bind_any 0 0 0 0); [lia..|by apply costs_lift_any|intros; by apply costs_throw].
  - intros r. destruct (startswith _ _); [by apply costs_ret|by apply costs_throw].
Qed.

Lemma start_if_needed_costs torrent_id st info n i : 0 <= i ->
  costs (4 + 2 * Z.to_nat n) (wait_time n i)
    (start_if_needed exn_text open_session serve (S (S depth)) user_ip torrent_id st info n i) any any.
Proof.
  intros Hi. pose proof (wait_time_nonneg n i Hi) as Hw. unfold start_if_needed.
  destruct (one_of _ _); [by apply costs_ret|].
  apply (costs_bind_any (Z.to_nat n * 2) (wait_time n i) 4 0); [lia..|by apply wait_costs|]. intros inf.
  apply (costs_bind_any 4 0 0 0); [lia..| |intros; by apply costs_ret].
  apply (costs_catch 2 0 2 0) with (E1 := any); [lia| | |done].
  - apply (costs_bind_any 0 0 2 0); [lia..|by apply costs_lift_any|intros; by apply request_value_any].
  - intros e _ _. apply (costs_bind_any 2 0 0 0); [lia..|by apply request_value_any|intros; by apply costs_throw].
Qed.

(** Playing a torrent through Real-Debrid ends: with [n] retries at
    intervals of [i] seconds it sends at most [36 + 8 n] requests and pauses
    for at most [4 (n - 1) i + 3.5] seconds, whatever the service answers. *)
Theorem realdebrid_play_bounded (info_hash magnet_link : string) (torrent_file filename : option string)
    (n i : Z) (season episode : option Z) (Hi : 0 <= i) :
  costs (36 + 8 * Z.to_nat n) (4 * wait_time n i + 3500)
    (get_video_url_from_realdebrid exn_text open_session serve (S (S depth)) user_ip parse_title parse_date
       get_series_data_by_id persists annotation_lock_free info_hash magnet_link torrent_file filename n i season episode)
    any any.
Proof.
  pose proof (wait_time_nonneg n i Hi) as Hw.
  eapply costs_weaken; [apply (with_client_costs _ _ 2 0 2 0 (32 + 8 * Z.to_nat n) (4 * wait_time n i + 3500))|lia|lia|done|done];
    [lia..|apply initialize_headers_costs|apply disable_access_token_costs|].
  apply (costs_bind_any 2 0 (30 + 8 * Z.to_nat n) (4 * wait_time n i + 3500)); [lia..|apply rd_get_available_torrent_costs|].
  intros available. apply (costs_bind_any 18 3500 (12 + 8 * Z.to_nat n) (4 * wait_time n i)); [lia..| |].
  { destruct available as [v|]; [destruct (truthy v); [by apply costs_ret|]|]; apply add_new_torrent_costs. }
  intros info.
  apply (costs_bind_any 0 0 (12 + 8 * Z.to_nat n) (4 * wait_time n i)); [lia..|by apply costs_lift_any|]. intros torrent_id.
  apply (costs_bind_any 0 0 (12 + 8 * Z.to_nat n) (4 * wait_time n i)); [lia..|by apply costs_lift_any|]. intros st.
  destruct (one_of failed_statuses st).
  - apply (costs_bind_any 2 0 0 0); [lia..|by apply request_value_any|intros; by apply costs_throw].
  - apply (costs_bind_any (4 + 2 * Z.to_nat n) (wait_time n i) (8 + 6 * Z.to_nat n) (3 * wait_time n i));
      [lia..|by apply start_if_needed_costs|]. intros _.
    apply (costs_bind_any (Z.to_nat n * 2) (wait_time n i) (8 + 4 * Z.to_nat n) (2 * wait_time n i));
      [lia..|by apply wait_costs|]. intros inf. by apply create_download_link_costs.
Qed.

(** *** A torrent that is downloaded is played *)

(** A downloaded torrent: its files and links, and the positions of the file
    among all and among the selected files. *)
Record downloaded (d : list (string * value)) (files links : list value) (idx j : nat) (link : value) : Prop := {
  dl_status : status_of d = "downloaded";
  dl_files : dict_get "files" d = Some (VList files);
  dl_links : dict_get "links" d = Some (VList links);
  dl_file : exists f selected, files !! idx = Some (VDict f) /\ dict_get "selected" f = Some (VInt 1) /\
    filter_outcome is_selected files = Ret selected /\ length selected = length links /\
    index_of_value (VDict f) selected = Some j;
  dl_link : links !! j = Some link }.

Lemma select_runs d file_key name_key size_key filename season episode trust itrust pfs idx s :
  map_outcome (provider_file_of name_key size_key) (files_of file_key d) = Ret pfs ->
  (FileSelection.select_file_index_from_torrent parse_title parse_date get_series_data_by_id persists annotation_lock_free
     pfs filename season episode None trust itrust (world s)).1 = Ret idx ->
  exists w, select_file_index_from_torrent parse_title parse_date get_series_data_by_id persists annotation_lock_free
    d file_key name_key size_key filename season episode trust itrust s = (Ret idx, set_world w s).
Proof.
  intros Hp Hs. unfold select_file_index_from_torrent, mbind, M_bind, lift, choose_file. rewrite Hp.
  destruct (FileSelection.select_file_index_from_torrent _ _ _ _ _ pfs filename season episode None trust itrust (world s))
    as [[k|e] w]; cbn [fst] in Hs; [|done]. injection Hs as ->. by exists w.
Qed.

Lemma link_position_runs magnet_link d files links idx j link n i s : downloaded d files links idx j link ->
  link_position exn_text open_session serve (S depth) user_ip magnet_link d idx n i s = (Ret (VDict d, j), s).
Proof.
  intros [_ Hf Hl (f & selected & Hi & Hsel & Hfilter & Hlen & Hj) _]. unfold link_position, mbind, M_bind, lift, getitem.
  cbn [py_getitem]. rewrite Hf. cbn [py mbind outcome_bind iter_value item_at]. rewrite Hi, Hfilter. cbn [value_get]. rewrite Hsel.
  cbn. rewrite Hl. cbn. rewrite Hlen, Z.eqb_refl. cbn. by rewrite Hj.
Qed.

Lemma create_download_link_runs magnet_link d files links idx j link pfs filename season episode n i r s :
  open_session = Ret tt -> downloaded d files links idx j link ->
  map_outcome (provider_file_of "path" "bytes") files = Ret pfs ->
  (FileSelection.select_file_index_from_torrent parse_title parse_date get_series_data_by_id persists annotation_lock_free
     pfs filename season episode None true true (world s)).1 = Ret idx ->
  (forall s, answered (link_call link) (VDict r) s) -> dict_has "download" r = true -> startswith "video" (mime_of r) = true ->
  exists s', create_download_link exn_text open_session serve (S depth) user_ip parse_title parse_date get_series_data_by_id
    persists annotation_lock_free magnet_link (VDict d) filename season episode n i s =
    (Ret (default VNone (dict_get "download" r)), s') /\
    exists q, history s' = Sent q :: history s /\ r_method q = "POST" /\ r_url q = BASE_URL +:+ "/unrestrict/link" /\
              token s' = token s /\ is_private_token s' = is_private_token s.
Proof.
  intros Ho Hd Hp Hs Ha Hdl Hmime.
  destruct (select_runs d "files" "path" "bytes" filename season episode true true pfs idx s) as [w E1];
    [unfold files_of; by rewrite (dl_files _ _ _ _ _ _ Hd)|done|].
  unfold create_download_link, mbind, M_bind. rewrite E1, (link_position_runs _ _ _ _ _ _ _ _ _ _ Hd).
  unfold lift, getitem. cbn [py_getitem]. rewrite (dl_links _ _ _ _ _ _ Hd). cbn [py mbind outcome_bind item_at].
  rewrite (dl_link _ _ _ _ _ _ Hd). unfold create_link, mbind, M_bind.
  assert (Hflags : is_return_none (realdebrid_prepare user_ip (link_call link)) = false /\
    is_http_response (realdebrid_prepare user_ip (link_call link)) = false /\
    method (realdebrid_prepare user_ip (link_call link)) = "POST" /\
    url (realdebrid_prepare user_ip (link_call link)) = BASE_URL +:+ "/unrestrict/link").
  { unfold realdebrid_prepare, link_call. cbn. by destruct (truthy_str user_ip). }
  destruct Hflags as (H1 & H2 & H3 & H4).
  rewrite (request_value_answered _ _ _ _ _ _ _ _ Ho (Ha (set_world w s)) H1 H2), Hdl. cbn [mret M_ret]. rewrite Hmime.
  eexists. split; [done|]. eexists. by split.
Qed.

(** A torrent that the account has downloaded is played: the link is the one
    made from the torrent's link for the selected file, and the service is only
    asked for the list, the torrent and the link: nothing is added or deleted. *)
Theorem realdebrid_plays_downloaded (info_hash magnet_link tok : string) (torrent_file filename : option string)
    (n i : Z) (season episode : option Z) (s : state) (l1 l2 : list value) (t d : list (string * value)) (id : value)
    (files links : list value) (pfs : list FileSelection.provider_file) (idx j : nat) (link : value) (r : list (string * value))
    (Hopen : open_session = Ret tt) (Htok : token s = Some tok) (Hne : tok <> "")
    (Hprivate : decode_token_str tok = PrivateToken tok)
    (Hlist : forall s, answered (list_call None None) (VList (l1 ++ VDict t :: l2)) s)
    (Hbefore : Forall (fun u => (is_str info_hash <$> getitem "hash" u) = Ret false) l1)
    (Hhash : dict_get "hash" t = Some (VStr info_hash)) (Hid : dict_get "id" t = Some id)
    (Hstatus : dict_get "status" t = Some (VStr "downloaded"))
    (Hinfo : forall s, answered (info_call id) (VDict d) s) (Hd : downloaded d files links idx j link) (Hn : 0 < n)
    (Hpfs : map_outcome (provider_file_of "path" "bytes") files = Ret pfs)
    (Hselect : (FileSelection.select_file_index_from_torrent parse_title parse_date get_series_data_by_id persists
                  annotation_lock_free pfs filename season episode None true true (world s)).1 = Ret idx)
    (Hlink : forall s, answered (link_call link) (VDict r) s) (Hdownload : dict_has "download" r = true)
    (Hmime : startswith "video" (mime_of r) = true) :
  exists s' q1 q2 q3,
  get_video_url_from_realdebrid exn_text open_session serve (S depth) user_ip parse_title parse_date get_series_data_by_id
    persists annotation_lock_free info_hash magnet_link torrent_file filename n i season episode s =
    (Ret (default VNone (dict_get "download" r)), s') /\
  history s' = Sent q3 :: Sent q2 :: Sent q1 :: history s /\
  (r_method q1, r_url q1) = ("GET", BASE_URL +:+ "/torrents") /\
  (r_method q2, r_url q2) = ("GET", BASE_URL +:+ "/torrents/info/" +:+ str id) /\
  (r_method q3, r_url q3) = ("POST", BASE_URL +:+ "/unrestrict/link").
Proof.
  destruct tok as [|a tok]; [done|]. set (tk := String a tok) in *.
  set (s0 := set_private true (set_headers (bearer (VStr tk)) s)).
  assert (E0 : initialize_headers exn_text open_session serve (S depth) user_ip s = (Ret tt, s0)).
  { unfold initialize_headers, mbind, M_bind, get. rewrite Htok. unfold tk at 1. cbv beta iota. fold tk. by rewrite Hprivate. }
  set (s1 := after_call (list_call None None) s0). set (s2 := after_call (info_call id) s1).
  assert (E1 : get_available_torrent exn_text open_session serve (S depth) user_ip info_hash s0 = (Ret (Some (VDict t)), s1)).
  { unfold get_available_torrent, get_user_torrent_list, mbind, M_bind.
    rewrite (request_value_answered _ _ _ _ _ _ _ _ Hopen (Hlist s0) eq_refl eq_refl). unfold lift. cbn [iter_value mbind outcome_bind].
    assert (Hf : find_item (fun t => is_str info_hash <$> getitem "hash" t) (l1 ++ VDict t :: l2) = Ret (Some (VDict t))).
    { clear - Hbefore Hhash. induction Hbefore as [|u l Hu _ IH]; cbn [app find_item]; [|by rewrite Hu].
      unfold getitem. cbn [py_getitem]. rewrite Hhash. cbn. by rewrite String.eqb_refl. }
    by rewrite Hf. }
  assert (E2 : wait exn_text open_session serve (S depth) user_ip id "downloaded" n i None s1 = (Ret (VDict d), s2)).
  { unfold wait, wait_for_status. destruct (Z.to_nat n) as [|m] eqn:En; [lia|]. cbn [poll].
    unfold catch, mbind, M_bind, get_torrent_info. rewrite (request_value_answered _ _ _ _ _ _ _ _ Hopen (Hinfo s1) eq_refl eq_refl).
    cbn [mret M_ret]. by rewrite (dl_status _ _ _ _ _ _ Hd). }
  destruct (create_download_link_runs magnet_link d files links idx j link pfs filename season episode n i r s2)
    as (s3 & E3 & q3 & Hh & Hm3 & Hu3 & Ht3 & Hp3); try done; [].
  unfold get_video_url_from_realdebrid, with_realdebrid, with_client, aenter, catch, finally, mbind, M_bind.
  rewrite E0, E1. destruct t as [|kv t]; [done|]. cbn [truthy mret M_ret]. unfold lift, getitem. cbn [py_getitem].
  rewrite Hid. cbn [py]. rewrite Hstatus. cbn [py].
  change (one_of failed_statuses (VStr "downloaded")) with false. unfold start_if_needed.
  change (one_of started_statuses (VStr "downloaded")) with true. cbn [mret M_ret]. rewrite E2, E3.
  unfold close, mbind, M_bind, get. rewrite Ht3, Hp3. change (token s2) with (token s). change (is_private_token s2) with true.
  rewrite Htok, andb_false_r. cbn [mret M_ret]. eexists _, _, _, q3. split; [done|]. split; [exact Hh|].
  split; [done|]. split; [done|]. by rewrite Hm3, Hu3.
Qed.
End Facts.

(** ** Examples *)

Definition example_list : list value :=
  map (fun t => VDict [("id", VStr t.1); ("hash", VStr t.2); ("status", VStr "downloaded")])
    [("T1", "aa11"); ("T2", "ab12"); ("T3", "cc33")].
Definition example_files : list value :=
  map (fun f => VDict [("id", VInt f.1); ("path", VStr f.2.1); ("bytes", VInt f.2.2); ("selected", VInt (if f.1 =? 1 then 0 else 1))])
    [(1, ("/readme.txt", 1)); (2, ("/Show.E01.mkv", 5)); (3, ("/Show.E02.mkv", 7))].
Definition example_links : list value := [VStr "https://rd/d/E01"; VStr "https://rd/d/E02"].
Definition example_info : list (string * value) :=
  [("id", VStr "T2"); ("status", VStr "downloaded"); ("files", VList example_files); ("links", VList example_links)].
Definition example_link : list (string * value) :=
  [("download", VStr "https://cdn.example/E02.mkv"); ("mimeType", VStr "video/x-matroska")].

(** A service with that account; the list is given in pages when it is asked for
    one. *)
Definition example_service (h : list event) (r : request) : outcome error response :=
  if String.eqb (r_url r) (BASE_URL +:+ "/torrents") then
    match default [] (r_params r) with
    | ("page", VInt z) :: _ => Ret (ok_json (VList (page_of example_list (Z.to_nat (z - 1)))))
    | _ => Ret (ok_json (VList example_list))
    end
  else if String.eqb (r_url r) (BASE_URL +:+ "/torrents/info/T2") then Ret (ok_json (VDict example_info))
  else Ret (ok_json (VDict example_link)).

Definition private_client : state := mkState (Some "PRIVATETOKEN") false [] false [] FileSelection.world_example.

Lemma get_all_torrents_complete_witness :
  exists s', get_all_torrents no_text (Ret tt) example_service 3 None private_client = (Ret example_list, s') /\
             (sent (history s') <= 100 + 0)%nat.
Proof.
  apply (get_all_torrents_complete no_text (Ret tt) example_service 2 None example_list ["T1"; "T2"; "T3"] private_client);
    [done| |done|apply (bool_decide_unpack _); vm_compute; exact I|apply (bool_decide_unpack _); vm_compute; exact I|cbn; lia].
  intros k s. eexists. split; [reflexivity|]. split; [done|].
  change (r_params _) with (page_params (Some (Z.of_nat k + 1)) (Some RD_TORRENT_LIST_PAGE_SIZE)). cbn [default page_params app id].
  cbn. do 3 f_equal. lia.
Defined.

Lemma realdebrid_plays_downloaded_witness :
  exists s q1 q2 q3,
  get_video_url_from_realdebrid no_text (Ret tt) example_service 3 (Some "1.2.3.4") FileSelection.ptt_example (fun _ => None)
    (fun _ => None) (fun _ => true) true "ab12" "magnet:?xt=urn:btih:ab12" None (Some "Show.E02.mkv") 5 5 None None private_client =
    (Ret (VStr "https://cdn.example/E02.mkv"), s) /\
  history s = [Sent q3; Sent q2; Sent q1] /\
  (r_method q1, r_url q1) = ("GET", BASE_URL +:+ "/torrents") /\
  (r_method q2, r_url q2) = ("GET", BASE_URL +:+ "/torrents/info/" +:+ str (VStr "T2")) /\
  (r_method q3, r_url q3) = ("POST", BASE_URL +:+ "/unrestrict/link").
Proof.
  apply (realdebrid_plays_downloaded no_text (Ret tt) example_service 2 (Some "1.2.3.4") FileSelection.ptt_example (fun _ => None)
    (fun _ => None) (fun _ => true) true "ab12" "magnet:?xt=urn:btih:ab12" "PRIVATETOKEN" None (Some "Show.E02.mkv") 5 5 None None
    private_client [VDict [("id", VStr "T1"); ("hash", VStr "aa11"); ("status", VStr "downloaded")]]
    [VDict [("id", VStr "T3"); ("hash", VStr "cc33"); ("status", VStr "downloaded")]]
    [("id", VStr "T2"); ("hash", VStr "ab12"); ("status", VStr "downloaded")] example_info (VStr "T2") example_files
    example_links [FileSelection.mkFile "/readme.txt" (Some 1); FileSelection.mkFile "/Show.E01.mkv" (Some 5);
      FileSelection.mkFile "/Show.E02.mkv" (Some 7)] 2 1 (VStr "https://rd/d/E02") example_link); try done.
  - intros s. eexists. split; [reflexivity|by split].
  - repeat constructor.
  - intros s. eexists. split; [reflexivity|by split].
  - split; try done. eexists _, _. split; [reflexivity|]. split; [reflexivity|]. split; [reflexivity|]. by split.
  - intros s. eexists. split; [reflexivity|by split].
Defined.

Lemma realdebrid_play_bounded_witness :
  costs 76 83500 (get_video_url_from_realdebrid no_text (Ret tt) service_gone 2 None FileSelection.ptt_example (fun _ => None)
    (fun _ => None) (fun _ => true) true "ab12" "magnet:?xt=urn:btih:ab12" None None 5 5 None None) any any.
Proof.
  exact (realdebrid_play_bounded no_text (Ret tt) service_gone 0 None FileSelection.ptt_example (fun _ => None)
    (fun _ => None) (fun _ => true) true "ab12" "magnet:?xt=urn:btih:ab12" None None 5 5 None None ltac:(lia)).
Defined.

(** An answer to the token request that has no token leaves the session open:
    [__aenter__] closes it for provider exceptions only. *)
Example missing_token_leaks_session :
  let serve (h : list event) (r : request) := Ret (ok_json (VDict [("error", VStr "none")])) in
  let oauth := mkState (Some (encode_token_data "code" (Some "id") (Some "secret"))) false [] false [] FileSelection.world_example in
  let '(r, s) := with_realdebrid no_text (Ret tt) serve 3 None (mret tt : M unit) oauth in
  r = Raise (Python KeyError) /\ session s = true.
Proof. vm_compute. done. Qed.

(** An answer without counts is taken for an account at its limit. *)
Example empty_counts_are_a_limit :
  let serve (h : list event) (r : request) := Ret (ok_json (VDict [])) in
  (add_new_torrent no_text (Ret tt) serve 3 None "magnet:?" None "ab12" private_client).1 =
  Raise (ProviderException "Torrent limit reached. Please try again later." "torrent_limit.mp4" false).
Proof. vm_compute. done. Qed.
