(* ===== verification/Playback.v ===== *)
(** * Playing a stream (api/routers/streaming/playback.py)

    The torrent and Usenet routes as a machine: one step for each group of
    statements between two accesses to Redis, the database or a debrid service,
    so that requests can interleave (PlaybackRuns).  What differs between the
    routes is a record of operations, [route].  The flows of the debrid services
    are a parameter, as are the database, SHA-256 and the proxy.  Times are
    seconds. *)

From S2P Require Export Network CacheStatus NzbUrls Magnet.
From S2P Require Import DebridClient.
From S2P Require NzbStorage Retry.
Local Open Scope string_scope.
Local Open Scope Z_scope.

Definition URL_CACHE_EXP : Z := 3600.
Definition LOCK_TIMEOUT : Z := 60.

(** ** Failures and their videos *)

Inductive failure :=
  | HttpFailure (status : Z) (detail : string)
  | Failed (e : service_error).

Definition provider_exception (message video : string) : failure := Failed (ProviderException message video false).
Definition generic (m : string) : failure := Failed (OtherException m).
Definition redis_down : failure := generic "ConnectionError".

(** The file [handle_http_exception], [handle_provider_exception] and
    [handle_generic_exception] choose. *)
Definition exception_video (f : failure) : string :=
  match f with
  | HttpFailure _ detail => if contains "stream not found" (lower detail) then "stream_not_found.mp4" else "api_error.mp4"
  | Failed (ProviderException _ v _) => v
  | Failed _ => "api_error.mp4"
  end.

(** ** Requests, streams and answers *)

Record user := mkUser {
  user_data : UserData;
  mediaflow_config : option MediaFlowConfig;
  user_id : option Z;
  profile_id : option Z;
}.

Record request := mkRequest {
  secret_str : string;
  provider_name : string;
  ident : string;  (* the info hash or the guid *)
  season : option Z;
  episode : option Z;
  req_filename : option string;
  stremio : bool;  (* ?stremio=1 *)
  transcode : bool;
  client : client_info;
  by_user : user;
  lock_token : string;  (* the token of the request's lock *)
}.

Inductive answer :=
  | Redirect (status : Z) (location : string)
  | HttpError (status : Z) (detail : string)
  | Crash.

Record tracking := mkTracking {
  tr_ident : string;
  tr_meta_id : string;
  tr_season : option Z;
  tr_episode : option Z;
  tr_provider_name : string;
  tr_provider_service : string;
  tr_user_id : option Z;
  tr_profile_id : option Z;
  tr_stream_type : string;
}.

Definition CONTENT_TYPE_HEADERS_MAPPING : list (string * string) :=
  [(".mp4", "video/mp4"); (".mkv", "video/x-matroska"); (".avi", "video/x-msvideo"); (".webm", "video/webm");
   (".mov", "video/quicktime"); (".wmv", "video/x-ms-wmv"); (".flv", "video/x-flv"); (".m4v", "video/x-m4v");
   (".3gp", "video/3gpp"); (".3g2", "video/3gpp2"); (".mpg", "video/mpeg"); (".mpeg", "video/mpeg");
   (".ts", "video/mp2t"); (".m2ts", "video/mp2t"); (".mts", "video/mp2t"); (".vob", "video/x-ms-vob");
   (".ogv", "video/ogg"); (".divx", "video/divx"); (".m3u8", "application/x-mpegURL"); (".mpd", "application/dash+xml");
   (".f4v", "video/x-f4v"); (".rmvb", "application/vnd.rn-realmedia-vbr"); (".asf", "video/x-ms-asf")].

(** [basename] of a POSIX path. *)
Definition basename (s : string) : string := after_last "/" s.

Definition nonempty (s : option string) : option string := match s with Some "" => None | _ => s end.

(** [f"{x}"] of an optional value. *)
Definition show_str (s : option string) : string := default "None" s.
Definition show_int (z : option Z) : string := match z with Some z => str_of_int z | None => "None" end.

(** [get_episodes]: an episode without numbers matches files without numbers. *)
Definition get_episodes (season episode : option Z) (fs : list StreamFileData) : list StreamFileData :=
  List.filter (fun f => bool_decide (season_number f = season) && bool_decide (episode_number f = episode)) fs.

Definition files_of (s : StreamData) : list StreamFileData := default [] (files s).

(** The file name and the index that [get_or_create_video_url] asks for. *)
Definition torrent_file_choice (s : StreamData) (season episode : option Z) (filename : option string) :
    option string * Z :=
  let episodes := get_episodes season episode (files_of s) in
  let main_file := get_main_file (files_of s) in
  match nonempty filename with
  | None =>
      let chosen := match episodes with f :: _ => Some f | [] => main_file end in
      (basename <$> nonempty (Media.filename <$> chosen), default 0 (file_index <$> chosen))
  | Some n =>
      let episode_data := List.find (fun f => String.eqb (Media.filename f) n) episodes in
      (Some n, default 0 (file_index <$> or_else episode_data main_file))
  end.

(** The file name that [get_or_create_usenet_video_url] asks for. *)
Definition usenet_filename (s : StreamData) (season episode : option Z) (filename : option string) : option string :=
  let main_file := get_main_file (files_of s) in
  match nonempty filename with
  | None =>
      let episode_data :=
        match season, episode with
        | Some sn, Some ep => if (sn =? 0) || (ep =? 0) then None else get_file_for_episode sn ep (files_of s)
        | _, _ => None
        end in
      basename <$> nonempty (Media.filename <$> or_else episode_data main_file)
  | Some n => Some n
  end.

(** ** The cache of links *)

Section Cache.
Context {R} `{Redis R} (sha256_hex : string -> string).

Definition cache_key_of (prefix : string) (user_ip : option string) (q : request) : string :=
  prefix +:+ sha256_hex (show_str user_ip +:+ "_" +:+ secret_str q +:+ "_" +:+ ident q +:+ "_" +:+
                         show_int (season q) +:+ "_" +:+ show_int (episode q)).
Definition filename_key (k : string) : string := k +:+ ":filename".
Definition lock_key (k : string) : string := k +:+ "_locked".

(** [get_cached_stream_payload]: without the file name a plain GETEX, which
    gives nothing when Redis is down; with it a pipeline, which raises. *)
Definition get_cached_stream_payload (now : Z) (up : bool) (k : string) (include_filename : bool) (r : R) :
    outcome failure (option string * option string) * R :=
  if include_filename then
    if up then
      let '(u, r) := getex now k URL_CACHE_EXP r in
      let '(f, r) := getex now (filename_key k) URL_CACHE_EXP r in
      (Ret (text_of u, text_of f), r)
    else (Raise redis_down, r)
  else if up then let '(u, r) := getex now k URL_CACHE_EXP r in (Ret (text_of u, None), r)
  else (Ret (None, None), r).

(** [cache_stream_url] *)
Definition cache_stream_url (now : Z) (up : bool) (k video_url : string) (filename : option string) (r : R) :
    outcome failure unit * R :=
  if up then
    let r := kv_set now k (BText video_url) (Some URL_CACHE_EXP) r in
    (Ret tt, match nonempty filename with
             | Some f => kv_set now (filename_key k) (BText f) (Some URL_CACHE_EXP) r
             | None => r
             end)
  else (Raise redis_down, r).

(** [acquire_redis_lock] with [block=True], one attempt: [None] while somebody
    holds the lock.  [release_redis_lock]: a lock that is no longer the
    request's own stays. *)
Definition try_lock (now : Z) (k token : string) (r : R) : option R :=
  match kv_get now r k with None => Some (kv_set now k (BText token) (Some LOCK_TIMEOUT) r) | Some _ => None end.
Definition owned_by (token : string) (b : option blob) : bool :=
  match b with Some (BText t) => String.eqb t token | _ => false end.
Definition release_redis_lock (now : Z) (k token : string) (r : R) : R :=
  if owned_by token (kv_get now r k) then kv_del k r else r.
End Cache.

(** ** MediaFlow *)

Section Mediaflow.
Context (bracketed_ok : string -> bool).

(** The content type by the extension of the link, or else of the file name. *)
Definition content_type_headers (video_url : string) (filename : option string) (transcode : bool) : list (string * string) :=
  if transcode then []
  else
    let ext := splitext video_url in
    let ext := if str_empty ext then match nonempty filename with Some f => splitext f | None => ext end else ext in
    match dict_get ext CONTENT_TYPE_HEADERS_MAPPING with Some t => [("Content-Type", t)] | None => [] end.

Definition mediaflow_endpoint (transcode : bool) : string :=
  if transcode then "/proxy/transcode/playlist.m3u8" else "/proxy/stream".

(** [apply_mediaflow_proxy_if_needed], and what [get_cached_stream_url_and_redirect]
    does with a cached link. *)
Definition apply_mediaflow_proxy_if_needed (video_url : string) (u : user) (p : StreamingProvider)
    (respect_provider_mediaflow : bool) (filename : option string) (transcode : bool) : outcome failure string :=
  match mediaflow_set (mediaflow_config u) with
  | None => Ret video_url
  | Some (proxy, password, _) =>
      if respect_provider_mediaflow && negb (use_mediaflow p) then Ret video_url
      else
        match encode_mediaflow_proxy_url bracketed_ok proxy (mediaflow_endpoint transcode) (Some video_url)
                [("api_password", password)] (content_type_headers video_url filename transcode) with
        | Ret l => Ret l
        | Raise e => Raise (Failed (Python e))
        end
  end.

(** The redirect to a cached link: the condition is written the other way
    round there. *)
Definition cached_redirect (cached_url : string) (cached_filename : option string) (q : request)
    (p : StreamingProvider) (transcode : bool) : outcome failure answer :=
  let respect := stremio q in
  let filename := match nonempty (req_filename q) with Some f => Some f | None => cached_filename end in
  match mediaflow_set (mediaflow_config (by_user q)) with
  | Some (proxy, password, _) =>
      if negb respect || use_mediaflow p then
        match encode_mediaflow_proxy_url bracketed_ok proxy (mediaflow_endpoint transcode) (Some cached_url)
                [("api_password", password)] (content_type_headers cached_url filename transcode) with
        | Ret l => Ret (Redirect 302 l)
        | Raise e => Raise (Failed (Python e))
        end
      else Ret (Redirect 302 cached_url)
  | None => Ret (Redirect 302 cached_url)
  end.
End Mediaflow.

(** ** Routes *)

Record TorrentStream := mkTorrentStream {
  t_data : StreamData;
  t_announce_list : list string;
  t_meta_id : string;
}.

Record UsenetStream := mkUsenetStream { u_data : StreamData; u_meta_id : string }.

(** The keyword arguments of a torrent flow and of a Usenet flow. *)
Record torrent_args := mkTorrentArgs {
  ta_info_hash : string;
  ta_magnet_link : string;
  ta_provider : StreamingProvider;
  ta_filename : option string;
  ta_file_index : Z;
  ta_user_ip : option string;
  ta_season : option Z;
  ta_episode : option Z;
  ta_stream : TorrentStream;
}.

Record usenet_args := mkUsenetArgs {
  ua_nzb_hash : string;
  ua_nzb_url : string;
  ua_provider : StreamingProvider;
  ua_filename : option string;
  ua_user_ip : option string;
  ua_season : option Z;
  ua_episode : option Z;
  ua_stream : UsenetStream;
  ua_air_date : option string;
}.

(** What a playback route does in its own way. *)
Record route (R X : Type) := mkRoute {
  Stream : Type;
  key_prefix : string;
  stream_type : string;
  transcodes : bool;
  refuse : StreamingProvider -> option answer;
  fetch : Z -> bool -> request -> StreamingProvider -> R -> X -> outcome failure (Stream * bool);
  make_url : Z -> request -> StreamingProvider -> option string -> Stream -> X ->
             outcome failure (value * option string) * X;
  record_hash : Z -> bool -> request -> StreamingProvider -> R -> R;
  meta_of : Stream -> string;
}.
Arguments Stream {R X} r.
Arguments key_prefix {R X} r.
Arguments stream_type {R X} r.
Arguments transcodes {R X} r.
Arguments refuse {R X} r _.
Arguments fetch {R X} r _ _ _ _ _ _.
Arguments make_url {R X} r _ _ _ _ _ _.
Arguments record_hash {R X} r _ _ _ _ _.
Arguments meta_of {R X} r _.

Section Torrents.
Context {R} `{Redis R} {X : Type} (bracketed_ok : string -> bool)
  (magnet_from_string : string -> option (string * list string)).

(** The database: what the [n]-th read of a stream from the replica and from
    the primary gives, with the exceptions it may raise. *)
Context (heap : list Retry.exn) (postgres_read_uri : bool)
  (read_replica read_primary : X -> string -> nat -> outcome nat (option TorrentStream)).
(** [orjson.loads] and [TorrentStreamData.model_validate]; [None] when they raise. *)
Context (validate_stream : blob -> option TorrentStream).
(** The flows of the debrid services. *)
Context (get_video_url : string -> torrent_args -> X -> outcome service_error value * X).
Context (settings : cache_settings).

Definition TORRENT_SERVICES : list string :=
  ["alldebrid"; "debridlink"; "offcloud"; "pikpak"; "premiumize"; "qbittorrent"; "realdebrid"; "seedr"; "torbox";
   "stremthru"; "easydebrid"; "debrider"].

Definition LIVE_TORRENT_FALLBACK_CACHE_PREFIX : string := "live_torrent_fallback:".

Definition get_cached_live_torrent_fallback_stream (now : Z) (up : bool) (info_hash : string) (r : R) : option TorrentStream :=
  if up then
    match kv_get now r (LIVE_TORRENT_FALLBACK_CACHE_PREFIX +:+ lower info_hash) with
    | None | Some (BText "") => None
    | Some payload => validate_stream payload
    end
  else None.

Definition fetch_stream_or_404 (now : Z) (up : bool) (info_hash : string) (r : R) (x : X) :
    outcome failure (TorrentStream * bool) :=
  let result :=
    if postgres_read_uri
    then (Retry.run_db_read_with_primary_fallback heap (read_replica x info_hash) (read_primary x info_hash) 3 2 500).1
    else (Retry.run_db_operation_with_retry heap Retry.Called (read_replica x info_hash) 3 500).1 in
  match result with
  | Retry.Value (Some s) => Ret (s, false)
  | Retry.Value None =>
      match get_cached_live_torrent_fallback_stream now up info_hash r with
      | Some s => Ret (s, true)
      | None => Raise (HttpFailure 404 "Stream not found.")
      end
  | Retry.Raised _ => Raise (generic "database error")
  | Retry.LoopExhausted => Raise (generic "RuntimeError")
  end.

Definition get_or_create_video_url (info_hash : string) (q : request) (p : StreamingProvider) (user_ip : option string)
    (s : TorrentStream) (x : X) : outcome failure (value * option string) * X :=
  match convert_info_hash_to_magnet bracketed_ok magnet_from_string info_hash (t_announce_list s) with
  | Raise _ => (Raise (provider_exception ("Invalid torrent info hash: " +:+ info_hash) "transfer_error.mp4"), x)
  | Ret magnet_link =>
      let '(filename, file_index) := torrent_file_choice (t_data s) (season q) (episode q) (req_filename q) in
      if negb (memb (service p) TORRENT_SERVICES) then
        (Raise (provider_exception ("Provider " +:+ service p +:+ " does not support torrent playback") "provider_error.mp4"), x)
      else
        match get_video_url (service p)
                (mkTorrentArgs info_hash magnet_link p filename file_index user_ip (season q) (episode q) s) x with
        | (Ret v, x) => (Ret (v, filename), x)
        | (Raise e, x) => (Raise (Failed e), x)
        end
  end.

(** [info_hash = info_hash.lower()] *)
Definition lower_ident (q : request) : request :=
  mkRequest (secret_str q) (provider_name q) (lower (ident q)) (season q) (episode q) (req_filename q) (stremio q)
    (transcode q) (client q) (by_user q) (lock_token q).

(** [streaming_provider_endpoint], for a request with [lower_ident]. *)
Definition torrent_route : route R X := {|
  Stream := TorrentStream;
  key_prefix := "streaming_provider_";
  stream_type := "torrent";
  transcodes := true;
  refuse _ := None;
  fetch now up q _ r x := fetch_stream_or_404 now up (ident q) r x;
  make_url _ q p ip s x := get_or_create_video_url (ident q) q p ip s x;
  record_hash now up q p r := (store_cached_info_hashes settings up now p [ident q] None r).1;
  meta_of := t_meta_id;
|}.
End Torrents.

Section Usenet.
Context {R} `{Redis R} {X : Type} (bracketed_ok : string -> bool).
Context (read_usenet : X -> string -> outcome service_error (option UsenetStream)).
(** The air date of the episode in the catalog, as the database has it. *)
Context (episode_air_date : X -> string -> Z -> Z -> outcome service_error (option string)).
Context (get_video_url : string -> usenet_args -> X -> outcome service_error value * X).
Context (is_scrap_from_public : bool) (hmac_sha256 : string -> string -> string) (secret_key host_url : string)
  (nzb_download_url_expiry : Z).

Definition USENET_CAPABLE_PROVIDERS : list string :=
  ["torbox"; "debrider"; "sabnzbd"; "nzbget"; "nzbdav"; "easynews"; "stremio_nntp"].
Definition USENET_SERVICES : list string := ["torbox"; "debrider"; "sabnzbd"; "nzbget"; "nzbdav"; "easynews"].

(** [fetch_usenet_stream_or_404] and the test of the provider; the message of a
    mismatch is only logged. *)
Definition fetch_usenet_stream (guid : string) (q : request) (p : StreamingProvider) (x : X) :
    outcome failure (UsenetStream * bool) :=
  match read_usenet x guid with
  | Raise e => Raise (Failed e)
  | Ret None => Raise (HttpFailure 400 "Usenet stream not found.")
  | Ret (Some s) =>
      match is_usenet_stream_compatible bracketed_ok is_scrap_from_public (u_data s) (service p)
              (newznab_indexers (user_data (by_user q))) with
      | Raise e => Raise (Failed (Python e))
      | Ret (Some _) => Raise (provider_exception "Selected NZB source is incompatible with this Usenet provider." "provider_error.mp4")
      | Ret None => Ret (s, false)
      end
  end.

Definition resolve_usenet_episode_air_date_iso (guid : string) (season episode : option Z) (x : X) :
    outcome service_error (option string) :=
  match season, episode with Some s, Some e => episode_air_date x guid s e | _, _ => Ret None end.

Definition get_or_create_usenet_video_url (now : Z) (guid : string) (q : request) (p : StreamingProvider)
    (user_ip : option string) (s : UsenetStream) (x : X) : outcome failure (value * option string) * X :=
  match build_user_scoped_nzb_url bracketed_ok (u_data s) (newznab_indexers (user_data (by_user q))) with
  | Raise e => (Raise (Failed (Python e)), x)
  | Ret scoped =>
      let filename := usenet_filename (u_data s) (season q) (episode q) (req_filename q) in
      if negb (memb (service p) USENET_SERVICES) then
        (Raise (provider_exception ("Provider " +:+ service p +:+ " does not support Usenet") "provider_error.mp4"), x)
      else
        let nzb_url :=
          match nonempty scoped with
          | Some u => u
          | None => NzbStorage.generate_signed_nzb_url hmac_sha256 secret_key host_url nzb_download_url_expiry
                      (now * 1000000) guid None
          end in
        match resolve_usenet_episode_air_date_iso guid (season q) (episode q) x with
        | Raise e => (Raise (Failed e), x)
        | Ret air =>
            let s := mkUsenetStream (set_nzb_url (Some nzb_url) (u_data s)) (u_meta_id s) in
            match get_video_url (service p)
                    (mkUsenetArgs guid nzb_url p filename user_ip (season q) (episode q) s air) x with
            | (Ret v, x) => (Ret (v, filename), x)
            | (Raise e, x) => (Raise (Failed e), x)
            end
        end
  end.

(** [usenet_playback_endpoint] *)
Definition usenet_route : route R X := {|
  Stream := UsenetStream;
  key_prefix := "usenet_provider_";
  stream_type := "usenet";
  transcodes := false;
  refuse p := if memb (service p) USENET_CAPABLE_PROVIDERS then None
              else Some (HttpError 400 ("Provider " +:+ service p +:+ " does not support Usenet streams."));
  fetch _ _ q p _ x := fetch_usenet_stream (ident q) q p x;
  make_url now q p ip s x := get_or_create_usenet_video_url now (ident q) q p ip s x;
  record_hash _ _ _ _ r := r;
  meta_of := u_meta_id;
|}.
End Usenet.

(** ** The machine *)

Section Machine.
Context {R} `{Redis R} {X : Type} (rt : route R X).
Context (ip_is_private : string -> option bool) (bracketed_ok : string -> bool) (sha256_hex : string -> string)
  (ask_ip : string -> string -> X -> option string) (nzbdav : NzbdavDefaults) (host_url : string).

Record world := mkWorld {
  redis : R;
  ext : X;  (* the database and the services *)
  to_persist : list (Stream rt);  (* background tasks *)
  tracked : list tracking;
}.

(** Where a request is.  [held] is when the lock was taken. *)
Inductive pc :=
  | PStart
  | PCache (user_ip : option string)
  | PFetch (user_ip : option string)
  | PLock (user_ip : option string) (s : Stream rt)
  | PFlow (user_ip : option string) (s : Stream rt) (held : Z)
  | PStore (user_ip : option string) (s : Stream rt) (held : Z) (url : value) (filename : option string)
  | PUnlock (user_ip : option string) (held : Z) (a : answer)
  | PDone (a : answer).

Definition streaming_provider_of (q : request) : option StreamingProvider :=
  match get_provider_by_name nzbdav (provider_name q) (user_data (by_user q)) with
  | Some p => Some p
  | None => get_primary_provider nzbdav (user_data (by_user q))
  end.

Definition failed (f : failure) : answer := Redirect 307 (host_url +:+ "/static/exceptions/" +:+ exception_video f).
Definition key_of (user_ip : option string) (q : request) : string := cache_key_of sha256_hex (key_prefix rt) user_ip q.
Definition transcode_of (q : request) : bool := transcodes rt && transcode q.

Definition with_redis (r : R) (w : world) : world := mkWorld r (ext w) (to_persist w) (tracked w).
Definition with_ext (x : X) (w : world) : world := mkWorld (redis w) x (to_persist w) (tracked w).
Definition add_persist (s : Stream rt) (w : world) : world := mkWorld (redis w) (ext w) (to_persist w ++ [s])%list (tracked w).
Definition add_tracked (t : tracking) (w : world) : world := mkWorld (redis w) (ext w) (to_persist w) (tracked w ++ [t])%list.

Definition tracking_of (q : request) (p : StreamingProvider) (s : Stream rt) : tracking :=
  mkTracking (ident q) (meta_of rt s) (season q) (episode q) (provider_name q) (service p) (user_id (by_user q))
    (profile_id (by_user q)) (stream_type rt).

(** One step of a request at a time, Redis answering or not; [None] when it
    is done or waits for the lock. *)
Definition step (now : Z) (up : bool) (q : request) (c : pc) (w : world) : option (pc * world) :=
  match streaming_provider_of q with
  | None => match c with PStart => Some (PDone (HttpError 400 "No streaming provider set."), w) | _ => None end
  | Some p =>
      match c with
      | PStart =>
          match refuse rt p with
          | Some a => Some (PDone a, w)
          | None =>
              let '(ip, r) := get_user_public_ip ip_is_private bracketed_ok sha256_hex ask_ip now up (client q)
                                (mediaflow_config (by_user q)) p (stremio q) (ext w) (redis w) in
              Some (match ip with Ret ip => PCache ip | Raise e => PDone (failed (Failed e)) end, with_redis r w)
          end
      | PCache ip =>
          let k := key_of ip q in
          let '(cached, r) := get_cached_stream_payload now up k (bool_decide (req_filename q = None)) (redis w) in
          Some (match cached with
                | Raise f => PDone (failed f)
                | Ret (None, _) => PFetch ip
                | Ret (Some u, f) =>
                    match cached_redirect bracketed_ok u f q p (transcode_of q) with
                    | Ret a => PDone a
                    | Raise f => PDone (failed f)
                    end
                end, with_redis r w)
      | PFetch ip =>
          match fetch rt now up q p (redis w) (ext w) with
          | Raise f => Some (PDone (failed f), w)
          | Ret (s, recovered) => Some (PLock ip s, if recovered : bool then add_persist s w else w)
          end
      | PLock ip s =>
          if up then
            r ← try_lock now (lock_key (key_of ip q)) (lock_token q) (redis w);
            Some (PFlow ip s now, with_redis r w)
          else Some (PDone (failed redis_down), w)
      | PFlow ip s held =>
          let '(res, x) := make_url rt now q p ip s (ext w) in
          Some (match res with
                | Ret (v, f) => PStore ip s held v f
                | Raise f => PUnlock ip held (failed f)
                end, with_ext x w)
      | PStore ip s held v f =>
          let w := with_redis (record_hash rt now up q p (redis w)) w in
          match v with
          | VStr u =>
              let '(res, r) := cache_stream_url now up (key_of ip q) u f (redis w) in
              let w := with_redis r w in
              match res with
              | Raise f => Some (PUnlock ip held (failed f), w)
              | Ret _ =>
                  match apply_mediaflow_proxy_if_needed bracketed_ok u (by_user q) p (stremio q) f (transcode_of q) with
                  | Raise f => Some (PUnlock ip held (failed f), w)
                  | Ret l => Some (PUnlock ip held (Redirect 302 l), add_tracked (tracking_of q p s) w)
                  end
              end
          | _ => Some (PUnlock ip held (failed (Failed (Python AttributeError))), w)
          end
      | PUnlock ip held a =>
          if up then Some (PDone a, with_redis (release_redis_lock now (lock_key (key_of ip q)) (lock_token q) (redis w)) w)
          else Some (PDone Crash, w)
      | PDone _ => None
      end
  end.

(** [delete_all_watchlist] for the primary provider; [delete_all] is the
    provider's function. *)
Definition DELETE_ALL_WATCHLIST_SERVICES : list string :=
  ["alldebrid"; "debridlink"; "pikpak"; "premiumize"; "qbittorrent"; "realdebrid"; "seedr"; "offcloud"; "torbox"; "stremthru"].

Definition delete_all_watchlist (delete_all : string -> StreamingProvider -> option string -> X -> outcome service_error unit * X)
    (now : Z) (up : bool) (q : request) (w : world) : answer * world :=
  match get_primary_provider nzbdav (user_data (by_user q)) with
  | None => (HttpError 400 "No streaming provider set.", w)
  | Some p =>
      if negb (memb (service p) DELETE_ALL_WATCHLIST_SERVICES) then (HttpError 400 "Provider does not support this action.", w)
      else
        let '(ip, r) := get_user_public_ip ip_is_private bracketed_ok sha256_hex ask_ip now up (client q)
                          (mediaflow_config (by_user q)) p true (ext w) (redis w) in
        let w := with_redis r w in
        match ip with
        | Raise e => (failed (Failed e), w)
        | Ret ip =>
            let '(res, x) := delete_all (service p) p ip (ext w) in
            let w := with_ext x w in
            match res with
            | Ret _ => (Redirect 307 (host_url +:+ "/static/exceptions/watchlist_deleted.mp4"), w)
            | Raise e => (failed (Failed e), w)
            end
        end
  end.

(** A request alone, at these times; it stays where it is while it waits. *)
Fixpoint run_alone (ticks : list (Z * bool)) (q : request) (c : pc) (w : world) : pc * world :=
  match ticks with
  | [] => (c, w)
  | (now, up) :: ticks =>
      match step now up q c w with
      | Some (c, w) => run_alone ticks q c w
      | None => run_alone ticks q c w
      end
  end.
End Machine.

(** ** What a step does to the locks *)

(** What a route promises. *)
Class RouteLaws {R X} `{Redis R} (rt : route R X) : Prop := {
  refuse_400 p a : refuse rt p = Some a -> exists d, a = HttpError 400 d;
  url_filename now q p ip s x v f x' n :
    make_url rt now q p ip s x = (Ret (v, f), x') -> nonempty (req_filename q) = Some n -> f = Some n;
  record_kv now up q p r t k : kv_get t (record_hash rt now up q p r) k = kv_get t r k }.

#[export] Instance torrent_laws {R X} `{Redis R} ok mag heap uri rr rp val flow st :
  RouteLaws (torrent_route (R := R) (X := X) ok mag heap uri rr rp val flow st).
Proof.
  split; [done| |].
  - intros now q p ip s x v f x' n. cbn. unfold get_or_create_video_url, torrent_file_choice. destruct (convert_info_hash_to_magnet _ _ _ _); [|done].
    intros Hm Hn. rewrite Hn in Hm. destruct (negb _); [done|]. destruct (flow _ _ _) as [[?|?] ?]; [|done]. by injection Hm as _ <- _.
  - intros now up q p r t k. cbn. unfold store_cached_info_hashes.
    destruct (_ && _); [done|]. destruct up; [|done]. cbn. by rewrite kv_get_hset.
Qed.

#[export] Instance usenet_laws {R X} `{Redis R} ok ru air flow pub hm sk host ex :
  RouteLaws (usenet_route (R := R) (X := X) ok ru air flow pub hm sk host ex).
Proof.
  split; [| |done].
  - intros p a. cbn. destruct (memb _ _); [done|]. intros [= <-]. by eexists.
  - intros now q p ip s x v f x' n. cbn. unfold get_or_create_usenet_video_url, usenet_filename.
    destruct (build_user_scoped_nzb_url _ _ _); [|done]. intros Hm Hn. rewrite Hn in Hm. destruct (negb _); [done|].
    destruct (resolve_usenet_episode_air_date_iso _ _ _ _ _); [|done].
    destruct (flow _ _ _) as [[?|?] ?]; [|done]. by injection Hm as _ <- _.
Qed.

Lemma str_drop_app_le n (a b : string) : (n <= String.length a)%nat -> str_drop n (a +:+ b) = str_drop n a +:+ b.
Proof.
  revert n. induction a as [|c a IH]; intros [|n] Hn; cbn in Hn; try done; [lia|]. rewrite str_app_cons. cbn. apply IH. lia.
Qed.

(** A text that ends with enough hexadecimal digits is no lock key. *)
Lemma hex_end_not (a h c d : string) : str_all NzbStorage.is_hex h = true -> (String.length d <= String.length h)%nat ->
  str_all NzbStorage.is_hex d = false -> a +:+ h <> c +:+ d.
Proof.
  intros Hh Hl Hd E. assert (Hlen : (String.length a <= String.length c)%nat).
  { apply (f_equal String.length) in E. rewrite !str_length_app in E. lia. }
  apply (f_equal (str_drop (String.length a))) in E. rewrite str_drop_app, str_drop_app_le in E by done.
  rewrite E, str_all_app, Hd, andb_false_r in Hh. done.
Qed.

Lemma app_end_not (a b c d : string) : String.length b = 9%nat -> String.length d = 7%nat -> str_drop 2 b <> d -> a +:+ b <> c +:+ d.
Proof.
  intros Hb Hd Hne E. destruct b as [|x [|y b]]; [done..|]. cbn in Hb, Hne.
  change (String x (String y b)) with ((String x (String y "")) +:+ b) in E. rewrite <- str_app_assoc in E.
  assert (Hl : String.length (a +:+ String x (String y "")) = String.length c).
  { apply (f_equal String.length) in E. rewrite !str_length_app in E. rewrite str_length_app. cbn in *. lia. }
  apply (f_equal (str_drop (String.length c))) in E. rewrite <- Hl in E at 1. rewrite !str_drop_app in E by done.
  destruct b; done.
Qed.

Section Laws.
Context {R} `{Redis R} {X : Type} (rt : route R X) `{!RouteLaws rt}.
Context (ip_is_private : string -> option bool) (bracketed_ok : string -> bool) (sha256_hex : string -> string)
  (ask_ip : string -> string -> X -> option string) (nzbdav : NzbdavDefaults) (host_url : string).
(** SHA-256 digests are 64 hexadecimal digits. *)
Context (digest : forall s, str_all NzbStorage.is_hex (sha256_hex s) = true /\ String.length (sha256_hex s) = 64%nat).

Notation next := (step rt ip_is_private bracketed_ok sha256_hex ask_ip nzbdav host_url).
Notation run_alone := (run_alone rt ip_is_private bracketed_ok sha256_hex ask_ip nzbdav host_url).
Notation key_of := (key_of rt sha256_hex).
Notation failed := (failed host_url).

Definition is_lock (lk : string) : Prop := exists k, lk = lock_key k.

Lemma key_not_lock ip q lk : is_lock lk -> key_of ip q <> lk.
Proof.
  intros [k ->]. destruct (digest (show_str ip +:+ "_" +:+ secret_str q +:+ "_" +:+ ident q +:+ "_" +:+
    show_int (season q) +:+ "_" +:+ show_int (episode q))) as [H1 H2].
  apply hex_end_not; [done|rewrite H2; cbn; lia|done].
Qed.

Lemma filename_not_lock k lk : is_lock lk -> filename_key k <> lk.
Proof. intros [k' ->]. by apply app_end_not. Qed.

Lemma ip_key_not_lock u p lk : is_lock lk -> mediaflow_ip_key sha256_hex u p <> lk.
Proof.
  intros [k ->]. unfold mediaflow_ip_key. destruct (digest (u +:+ ":" +:+ p)) as [H1 H2].
  rewrite <- (str_app_nil (sha256_hex _)). apply hex_end_not; [done|rewrite H2; cbn; lia|done].
Qed.

(** Writes to other keys. *)
Lemma kv_set_other now t k v ex lk (r : R) : now <= t -> k <> lk -> kv_get t (kv_set now k v ex r) lk = kv_get t r lk.
Proof. intros Ht Hne. rewrite kv_get_set by done. by apply String.eqb_neq in Hne as ->. Qed.

Lemma getex_other now t k ex lk (r : R) : now <= t -> k <> lk -> kv_get t (getex now k ex r).2 lk = kv_get t r lk.
Proof. intros Ht Hne. unfold getex. destruct (kv_get now r k); [by apply kv_set_other|done]. Qed.

Lemma ip_locks now up cl mf p respect x (r : R) t lk : now <= t -> is_lock lk ->
  kv_get t (get_user_public_ip ip_is_private bracketed_ok sha256_hex ask_ip now up cl mf p respect x r).2 lk = kv_get t r lk.
Proof.
  intros Ht Hl. unfold get_user_public_ip. destruct (mediaflow_set mf) as [[[u pw] cfg]|]; [|done].
  destruct (_ || _); [|done].
  assert (Hg : kv_get t (get_mediaflow_proxy_public_ip ip_is_private bracketed_ok sha256_hex ask_ip now up u pw cfg x r).2 lk
               = kv_get t r lk).
  { unfold get_mediaflow_proxy_public_ip. pose proof (ip_key_not_lock u pw lk Hl) as Hk.
    pose proof (getex_other now t _ 300 lk r Ht Hk) as Hx.
    assert (Hrest : forall pr, kv_get t pr.2 lk = kv_get t r lk ->
      kv_get t (let '(cached, r) := pr in
        match text_of cached with
        | Some ip => (Ret (Some ip), r)
        | None =>
            match urljoin_path bracketed_ok u "/proxy/ip", ask_ip u pw x with
            | Ret _, Some (String _ _ as ip) =>
                (Ret (Some ip), if up then kv_set now (mediaflow_ip_key sha256_hex u pw) (BText ip) (Some 300) r else r)
            | _, _ => (Raise tt, r)
            end
        end : outcome unit (option string) * R).2 lk = kv_get t r lk).
    { intros [cached r0] Hp. cbn [snd] in Hp. destruct (text_of cached); [done|].
      destruct (urljoin_path _ _ _); [|done]. destruct (ask_ip u pw x) as [[|c ip]|]; [done| |done].
      destruct up; [|done]. cbn [snd]. by rewrite kv_set_other. }
    destruct (public_ip cfg) as [[|c ip]|]; [|done|];
      (destruct (urlsplit bracketed_ok u); [|done]; destruct (is_private_ip _ _); [done|]; apply Hrest; by destruct up). }
  destruct (get_mediaflow_proxy_public_ip _ _ _ _ _ _ _ _ _ _ _) as [[[[]|]|] r']; exact Hg.
Qed.

(** What a step leaves of a lock, at a later time. *)
Definition lock_after (now : Z) (up : bool) (q : request) (c : pc rt) (r : R) (lk : string) (t : Z) : option blob :=
  match c with
  | PLock _ ip _ =>
      if up && String.eqb (lock_key (key_of ip q)) lk
      then if now + LOCK_TIMEOUT <=? t then None else Some (BText (lock_token q))
      else kv_get t r lk
  | PUnlock _ ip _ _ =>
      if up && String.eqb (lock_key (key_of ip q)) lk && owned_by (lock_token q) (kv_get now r lk)
      then None else kv_get t r lk
  | _ => kv_get t r lk
  end.

Lemma payload_locks now up k include r t lk : now <= t -> is_lock lk -> k <> lk ->
  kv_get t (get_cached_stream_payload now up k include r).2 lk = kv_get t r lk.
Proof.
  intros Ht Hl Hk. unfold get_cached_stream_payload. pose proof (getex_other now t k URL_CACHE_EXP lk r Ht Hk) as H1.
  destruct include, up; try done; destruct (getex now k URL_CACHE_EXP r) as [u r1]; cbn [snd] in H1; [|exact H1].
  pose proof (getex_other now t (filename_key k) URL_CACHE_EXP lk r1 Ht (filename_not_lock _ _ Hl)) as H2.
  destruct (getex now (filename_key k) URL_CACHE_EXP r1) as [f r2]. cbn [snd] in *. congruence.
Qed.

Lemma cache_locks now up k u f r t lk : now <= t -> is_lock lk -> k <> lk ->
  kv_get t (cache_stream_url now up k u f r).2 lk = kv_get t r lk.
Proof.
  intros Ht Hl Hk. unfold cache_stream_url. destruct up; [|done]. cbn [snd].
  destruct (nonempty f); rewrite ?kv_set_other by (done || by apply filename_not_lock); done.
Qed.

Lemma release_locks now k token r lk t : now <= t ->
  kv_get t (release_redis_lock now k token r) lk
  = if String.eqb k lk && owned_by token (kv_get now r lk) then None else kv_get t r lk.
Proof.
  intros Ht. unfold release_redis_lock. destruct (String.eqb_spec k lk) as [->|Hne]; cbn [andb].
  - destruct (owned_by token _); [|done]. by rewrite kv_get_del, String.eqb_refl.
  - destruct (owned_by token _); [|done]. rewrite kv_get_del. by apply String.eqb_neq in Hne as ->.
Qed.

Lemma step_locks now up q c w c' w' lk t : next now up q c w = Some (c', w') -> is_lock lk -> now <= t ->
  kv_get t (redis rt w') lk = lock_after now up q c (redis rt w) lk t.
Proof.
  intros Hs Hl Ht. unfold step in Hs. destruct (streaming_provider_of nzbdav q) as [p|].
  2: { destruct c; try done. by injection Hs as _ <-. }
  destruct c as [|ip|ip|ip s|ip s held|ip s held v f|ip held a|a]; cbn [lock_after].
  - destruct (refuse rt p); [by injection Hs as _ <-|].
    pose proof (ip_locks now up (client q) (mediaflow_config (by_user q)) p (stremio q) (ext rt w) (redis rt w) t lk Ht Hl) as Hip.
    destruct (get_user_public_ip _ _ _ _ _ _ _ _ _ _ _ _) as [ip r]. by injection Hs as _ <-.
  - pose proof (payload_locks now up (key_of ip q) (bool_decide (req_filename q = None)) (redis rt w) t lk Ht Hl (key_not_lock ip q lk Hl)) as Hp.
    destruct (get_cached_stream_payload _ _ _ _ _) as [cached r]. by injection Hs as _ <-.
  - destruct (fetch rt _ _ _ _ _ _) as [[s recovered]|f]; [|by injection Hs as _ <-].
    injection Hs as _ <-. by destruct recovered.
  - destruct up; cbn [andb]; [|by injection Hs as _ <-]. unfold try_lock in Hs. set (k := lock_key _) in *.
    destruct (kv_get now (redis rt w) k) eqn:E; [done|]. injection Hs as _ <-. cbn [redis with_redis].
    rewrite kv_get_set by done. done.
  - destruct (make_url rt _ _ _ _ _ _) as [res x]. by injection Hs as _ <-.
  - assert (Hc : forall u, kv_get t (cache_stream_url now up (key_of ip q) u f (record_hash rt now up q p (redis rt w))).2 lk = kv_get t (redis rt w) lk).
    { intros u. rewrite cache_locks by (done || by apply key_not_lock). by rewrite record_kv. }
    destruct v as [| | | |u| |]; try (injection Hs as _ <-; cbn; by rewrite record_kv). specialize (Hc u). cbn [redis with_redis] in Hs.
    destruct (cache_stream_url _ _ _ _ _ _) as [res r]. destruct res as [[]|f']; [|by injection Hs as _ <-].
    destruct (apply_mediaflow_proxy_if_needed _ _ _ _ _ _ _); by injection Hs as _ <-.
  - destruct up; cbn [andb]; [|by injection Hs as _ <-]. injection Hs as _ <-. cbn [redis with_redis]. by apply release_locks.
  - done.
Qed.

(** ** A request alone is answered *)

Definition rank (c : pc rt) : nat :=
  match c with
  | PStart _ => 7 | PCache _ _ => 6 | PFetch _ _ => 5 | PLock _ _ _ => 4 | PFlow _ _ _ _ => 3 | PStore _ _ _ _ _ _ => 2
  | PUnlock _ _ _ _ => 1 | PDone _ _ => 0
  end%nat.

(** The lock a request holds, and since when. *)
Definition holding (c : pc rt) : option (option string * Z) :=
  match c with
  | PFlow _ ip _ held | PStore _ ip _ held _ _ | PUnlock _ ip held _ => Some (ip, held)
  | _ => None
  end.

(** A redirect to a video, to the video of an exception, or the error of a
    request without a usable provider. *)
Definition proper (a : answer) : Prop :=
  (exists l, a = Redirect 302 l) \/ (exists f, a = failed f) \/ (exists d, a = HttpError 400 d).

Definition answer_of (c : pc rt) : option answer := match c with PUnlock _ _ _ a | PDone _ a => Some a | _ => None end.

Record alone (now : Z) (q : request) (c : pc rt) (r : R) : Prop := {
  alone_locks ip t : now <= t -> kv_get t r (lock_key (key_of ip q)) =
    match holding c with
    | Some (ip0, held) => if String.eqb (lock_key (key_of ip0 q)) (lock_key (key_of ip q))
                          then if held + LOCK_TIMEOUT <=? t then None else Some (BText (lock_token q)) else None
    | None => None
    end;
  alone_answer a : answer_of c = Some a -> proper a;
  alone_provider : rank c = 7%nat \/ rank c = 0%nat \/ is_Some (streaming_provider_of nzbdav q) }.

Lemma proper_failed f : proper (failed f).
Proof. right. left. by exists f. Qed.
Lemma proper_redirect l : proper (Redirect 302 l).
Proof. left. by exists l. Qed.

Lemma cached_redirect_302 u f q p tr a : cached_redirect bracketed_ok u f q p tr = Ret a -> proper a.
Proof.
  unfold cached_redirect. destruct (mediaflow_set _) as [[[pr pw] cfg]|]; [|by intros [= <-]; apply proper_redirect].
  destruct (_ || _); [|by intros [= <-]; apply proper_redirect].
  destruct (encode_mediaflow_proxy_url _ _ _ _ _ _); [|done]. intros [= <-]. apply proper_redirect.
Qed.

Ltac finish := cbn; split; [lia|]; split; [first [done | by intros _ ? [= <-]; apply proper_failed | by auto | idtac]|by auto].

(** A step lowers the rank and keeps answers proper. *)
Lemma step_shape now up q c w c' w' : next now up q c w = Some (c', w') ->
  (forall a, answer_of c = Some a -> proper a) ->
  (rank c' < rank c)%nat /\ (up = true -> forall a, answer_of c' = Some a -> proper a) /\
  (rank c' = 0%nat \/ is_Some (streaming_provider_of nzbdav q)).
Proof.
  intros Hs Ha. unfold step in Hs. destruct (streaming_provider_of nzbdav q) as [p|].
  2: { destruct c; try done. injection Hs as <- _. cbn. split; [lia|]. split; [|by left].
       intros _ a [= <-]. right. right. by eexists. }
  assert (Hright : forall n : nat, n = 0%nat \/ is_Some (Some p)) by (intros n; right; by eexists).
  assert (Hfail : forall f, up = true -> forall a, answer_of (PDone rt (failed f)) = Some a -> proper a)
    by (intros f _ a [= <-]; apply proper_failed).
  destruct c as [|ip|ip|ip s|ip s held|ip s held v f|ip held a|a].
  - destruct (refuse rt p) as [a|] eqn:E.
    + injection Hs as <- _. cbn. split; [lia|]. split; [|done]. intros _ a' [= <-]. apply refuse_400 in E as [d ->].
      right. right. by exists d.
    + destruct (get_user_public_ip _ _ _ _ _ _ _ _ _ _ _ _) as [[ip|e] r]; injection Hs as <- _; finish.
  - destruct (get_cached_stream_payload _ _ _ _ _) as [[[[u|] f]|f] r]; injection Hs as <- _;
      [|finish..].
    destruct (cached_redirect _ _ _ _ _ _) as [a|f'] eqn:E; finish.
    intros _ a' [= <-]. by eapply cached_redirect_302.
  - destruct (fetch rt _ _ _ _ _ _) as [[s recovered]|f]; injection Hs as <- _; finish.
  - destruct up; [destruct (try_lock _ _ _ _) as [r|]; [|done]|]; injection Hs as <- _; finish.
  - destruct (make_url rt _ _ _ _ _ _) as [[[v f]|f] x]; injection Hs as <- _; finish.
  - destruct v as [| | | |u| |]; try (injection Hs as <- _; finish).
    destruct (cache_stream_url _ _ _ _ _ _) as [[[]|f'] r]; [|injection Hs as <- _; finish].
    destruct (apply_mediaflow_proxy_if_needed _ _ _ _ _ _ _) as [l|f']; injection Hs as <- _; finish.
    intros _ a [= <-]. apply proper_redirect.
  - destruct up; injection Hs as <- _; finish.
  - done.
Qed.

(** The lock comes from [PLock] and goes with [PUnlock]. *)
Lemma step_holding now up q c w c' w' : next now up q c w = Some (c', w') ->
  holding c' = match c with PLock _ ip _ => if up then Some (ip, now) else None | PUnlock _ _ _ _ => None | _ => holding c end.
Proof.
  intros Hs. assert (Hd : forall a, holding (PDone rt a) = None) by done. unfold step in Hs.
  destruct (streaming_provider_of nzbdav q) as [p|]; [|by destruct c; try done; injection Hs as <- _].
  destruct c as [|ip|ip|ip s|ip s held|ip s held v f|ip held a|a].
  - destruct (refuse rt p); [by injection Hs as <- _|].
    by destruct (get_user_public_ip _ _ _ _ _ _ _ _ _ _ _ _) as [[ip|e] r]; injection Hs as <- _.
  - destruct (get_cached_stream_payload _ _ _ _ _) as [[[[u|] f]|f] r]; injection Hs as <- _; [|done..].
    by destruct (cached_redirect _ _ _ _ _ _).
  - by destruct (fetch rt _ _ _ _ _ _) as [[s recovered]|f]; injection Hs as <- _.
  - destruct up; [destruct (try_lock _ _ _ _); [|done]|]; by injection Hs as <- _.
  - by destruct (make_url rt _ _ _ _ _ _) as [[[v f]|f] x]; injection Hs as <- _.
  - destruct v as [| | | |u| |]; try (by injection Hs as <- _).
    destruct (cache_stream_url _ _ _ _ _ _) as [[[]|f'] r]; [|by injection Hs as <- _].
    by destruct (apply_mediaflow_proxy_if_needed _ _ _ _ _ _ _); injection Hs as <- _.
  - destruct up; by injection Hs as <- _.
  - done.
Qed.

(** A step is blocked only at the lock. *)
Lemma step_moves now q c w : rank c = 7%nat \/ rank c = 0%nat \/ is_Some (streaming_provider_of nzbdav q) ->
  next now true q c w = None -> rank c = 0%nat \/
  exists ip s, c = PLock rt ip s /\ is_Some (kv_get now (redis rt w) (lock_key (key_of ip q))).
Proof.
  intros Hp. unfold step. destruct (streaming_provider_of nzbdav q) as [p|].
  2: { destruct Hp as [Hp|[Hp|[? Hp]]]; [|by left|done]. by destruct c. }
  destruct c as [|ip|ip|ip s|ip s held|ip s held v f|ip held a|a]; try done.
  - destruct (refuse rt p); [done|]. by destruct (get_user_public_ip _ _ _ _ _ _ _ _ _ _ _ _).
  - by destruct (get_cached_stream_payload _ _ _ _ _).
  - by destruct (fetch rt _ _ _ _ _ _) as [[s recovered]|f].
  - unfold try_lock. destruct (kv_get now _ _) eqn:E; [|done]. intros _. right. exists ip, s. by rewrite E.
  - by destruct (make_url rt _ _ _ _ _ _) as [[[v f]|f] x].
  - destruct v as [| | | |u| |]; try done. destruct (cache_stream_url _ _ _ _ _ _) as [[[]|f'] r]; [|done].
    by destruct (apply_mediaflow_proxy_if_needed _ _ _ _ _ _ _).
  - by left.
Qed.

Lemma alone_step now now' q c w : alone now q c (redis rt w) -> now <= now' -> rank c <> 0%nat ->
  exists c' w', next now' true q c w = Some (c', w') /\ alone now' q c' (redis rt w') /\ (rank c' < rank c)%nat.
Proof.
  intros [Hl Ha Hp] Hn Hr. destruct (next now' true q c w) as [[c' w']|] eqn:Es.
  - exists c', w'. split; [done|]. destruct (step_shape _ _ _ _ _ _ _ Es Ha) as (H1 & H2 & H3). split; [|done].
    split; [|by apply H2|by right]. pose proof (step_holding _ _ _ _ _ _ _ Es) as H4.
    intros ip t Ht. rewrite (step_locks _ _ _ _ _ _ _ _ t Es) by (done || by eexists). specialize (Hl ip).
    destruct c as [|ip0|ip0|ip0 s|ip0 s held|ip0 s held v f|ip0 held a|a]; cbn [lock_after]; rewrite ?H4 by done; cbn [holding andb] in *.
    1-3: by apply Hl; lia.
    + destruct (String.eqb _ _); [done|]. by apply Hl; lia.
    + by apply Hl; lia.
    + by apply Hl; lia.
    + rewrite !Hl by lia. destruct (String.eqb _ _); cbn [andb]; [|done].
      destruct (Z.leb_spec (held + LOCK_TIMEOUT) now'); cbn [owned_by].
      * by rewrite (proj2 (Z.leb_le (held + LOCK_TIMEOUT) t)) by lia.
      * by rewrite String.eqb_refl.
    + done.
  - destruct (step_moves now' q c w Hp Es) as [?|(ip & s & -> & [b Hb])]; [done|]. rewrite Hl in Hb by done. done.
Qed.

(** The times of the ticks do not go back. *)
Fixpoint from_time (now : Z) (ticks : list (Z * bool)) : Prop :=
  match ticks with [] => True | (t, up) :: ticks => now <= t /\ up = true /\ from_time t ticks end.
Fixpoint last_time (now : Z) (ticks : list (Z * bool)) : Z :=
  match ticks with [] => now | (t, _) :: ticks => last_time t ticks end.

Lemma last_time_ge now ticks : from_time now ticks -> now <= last_time now ticks.
Proof. revert now. induction ticks as [|[t up] ticks IH]; intros now; cbn; [lia|]. intros (H1 & _ & H2). apply IH in H2. lia. Qed.

Lemma alone_later now now' q c r : alone now q c r -> now <= now' -> alone now' q c r.
Proof. intros [H1 H2 H3] Hn. split; auto. intros ip t Ht. apply H1. lia. Qed.

Lemma run_alone_ends ticks : forall now q c w, alone now q c (redis rt w) -> from_time now ticks -> (rank c <= length ticks)%nat ->
  exists c' w', run_alone ticks q c w = (c', w') /\ alone (last_time now ticks) q c' (redis rt w') /\ rank c' = 0%nat.
Proof.
  induction ticks as [|[t up] ticks IH]; intros now q c w Ha Ht Hr; cbn [length] in Hr.
  - exists c, w. cbn. split; [done|]. split; [done|lia].
  - cbn [from_time] in Ht. destruct Ht as (Hn & -> & Ht). cbn [Playback.run_alone last_time].
    destruct (decide (rank c = 0%nat)) as [E|E].
    + assert (Hs : next t true q c w = None) by (destruct c; try done; unfold step; by destruct (streaming_provider_of nzbdav q)).
      rewrite Hs. apply (IH t); [by eapply alone_later|done|lia].
    + destruct (alone_step now t q c w Ha Hn E) as (c' & w' & -> & Ha' & Hr'). apply (IH t); [done|done|lia].
Qed.

(** [C30] A playback request is answered: while Redis answers and nobody else
    holds its lock, seven steps end with a redirect to the video, a redirect to
    the video of an exception, or error 400 for a request without a usable
    provider, whatever the database, the services and the proxy do; and the
    lock is free again. *)
Theorem playback_answers (q : request) (w : world rt) (now : Z) (ticks : list (Z * bool))
    (Hfree : forall ip t, now <= t -> kv_get t (redis rt w) (lock_key (key_of ip q)) = None)
    (Hticks : from_time now ticks) (Hlen : (7 <= length ticks)%nat) :
  exists a w', run_alone ticks q (PStart rt) w = (PDone rt a, w') /\ proper a /\
    forall ip t, last_time now ticks <= t -> kv_get t (redis rt w') (lock_key (key_of ip q)) = None.
Proof.
  destruct (run_alone_ends ticks now q (PStart rt) w) as (c' & w' & Hrun & [Hl Ha _] & Hr); [|done|done|].
  { split; [done|done|by left]. }
  destruct c' as [|ip|ip|ip s|ip s held|ip s held v f|ip held a|a]; try done.
  exists a, w'. split; [done|]. split; [by apply Ha|]. intros ip t Ht. by rewrite Hl.
Qed.

(** ** A link is served again from the cache *)

Section Replay.
Context (q : request) (p : StreamingProvider) (ip : option string) (horizon : Z).
Context (Hp : streaming_provider_of nzbdav q = Some p) (Hq : req_filename q <> Some "").
Let k := key_of ip q.

(** While the file name is cached, so is the link. *)
Definition coherent (now : Z) (r : R) : Prop :=
  forall t, now <= t -> text_of (kv_get t r (filename_key k)) <> None -> text_of (kv_get t r k) <> None.

(** The cache holds the link that a redirect came from. *)
Definition served (now : Z) (l : string) (r : R) : Prop :=
  exists u f, (forall t, now <= t < horizon ->
      kv_get t r k = Some (BText u) /\ (req_filename q = None -> text_of (kv_get t r (filename_key k)) = f)) /\
    cached_redirect bracketed_ok u (if bool_decide (req_filename q = None) then f else None) q p (transcode_of rt q)
    = Ret (Redirect 302 l).

Definition no_filename (now : Z) (r : R) : Prop := forall t, now <= t -> text_of (kv_get t r (filename_key k)) = None.

(** What the cache holds while a request that found nothing goes on. *)
Definition replay_inv (now : Z) (c : pc rt) (r : R) : Prop :=
  match c with
  | PStart _ | PCache _ _ => False
  | PFetch _ ip' | PLock _ ip' _ | PFlow _ ip' _ _ => ip' = ip /\ no_filename now r
  | PStore _ ip' _ _ _ f =>
      ip' = ip /\ no_filename now r /\ (forall n, nonempty (req_filename q) = Some n -> f = Some n)
  | PUnlock _ ip' _ a => ip' = ip /\ forall l, a = Redirect 302 l -> served now l r
  | PDone _ a => forall l, a = Redirect 302 l -> served now l r
  end.

Lemma key_not_filename : k <> filename_key k.
Proof. intros E. apply (f_equal String.length) in E. unfold filename_key in E. rewrite str_length_app in E. cbn in E. lia. Qed.

Lemma text_of_nonempty f : text_of (Some (BText f)) = nonempty (Some f).
Proof. by destruct f. Qed.

(** The redirect after a fresh link is the redirect to the cached one. *)
Lemma fresh_is_cached u f f' l :
  apply_mediaflow_proxy_if_needed bracketed_ok u (by_user q) p (stremio q) f (transcode_of rt q) = Ret l ->
  (forall n, nonempty (req_filename q) = Some n -> f = Some n) -> (req_filename q = None -> nonempty f' = nonempty f) ->
  cached_redirect bracketed_ok u f' q p (transcode_of rt q) = Ret (Redirect 302 l).
Proof.
  intros Ha Hn Hf. unfold apply_mediaflow_proxy_if_needed in Ha. unfold cached_redirect.
  destruct (mediaflow_set _) as [[[pr pw] cfg]|]; [|by injection Ha as ->].
  rewrite <- (negb_involutive (use_mediaflow p)) at 1. rewrite <- negb_andb.
  destruct (stremio q && negb (use_mediaflow p)); [by injection Ha as ->|]. cbn [negb].
  set (f'' := match nonempty (req_filename q) with Some n => Some n | None => f' end).
  assert (Hc : content_type_headers u f'' (transcode_of rt q) = content_type_headers u f (transcode_of rt q)).
  { unfold content_type_headers. destruct (transcode_of rt q); [done|]. assert (Hne : nonempty f'' = nonempty f).
    { unfold f''. destruct (req_filename q) as [[|c n]|]; [done|by rewrite (Hn _ eq_refl)|by apply Hf]. }
    by rewrite Hne. }
  rewrite Hc. clear Hc f''. destruct (encode_mediaflow_proxy_url _ _ _ _ _ _); [by injection Ha as ->|discriminate Ha].
Qed.

Lemma no_filename_later now now' r : no_filename now r -> now <= now' -> no_filename now' r.
Proof. intros Hf Hn t Ht. apply Hf. lia. Qed.
Lemma served_later now now' l r : served now l r -> now <= now' -> served now' l r.
Proof. intros (u & f & H1 & H2) Hn. exists u, f. split; [|done]. intros t Ht. apply H1. lia. Qed.

Lemma own_lock : is_lock (lock_key k).
Proof. exists k. reflexivity. Qed.

Lemma lock_key_others : String.eqb (lock_key k) k = false /\ String.eqb (lock_key k) (filename_key k) = false.
Proof.
  split; apply String.eqb_neq, not_eq_sym; [exact (key_not_lock ip q _ own_lock)|exact (filename_not_lock k _ own_lock)].
Qed.

Lemma released_kept now now' token l r : served now l r -> now <= now' -> served now' l (release_redis_lock now' (lock_key k) token r).
Proof.
  intros (u & f & H1 & H2) Hn. exists u, f. split; [|done]. intros t Ht. unfold release_redis_lock.
  destruct (owned_by _ _); [|apply H1; lia]. rewrite !kv_get_del.
  destruct lock_key_others as [-> ->]. apply H1. lia.
Qed.

Lemma text_of_dead t t' (r : R) k0 : t <= t' -> text_of (kv_get t r k0) = None -> text_of (kv_get t' r k0) = None.
Proof.
  intros Ht Hd. destruct (kv_get t' r k0) as [b|] eqn:E; [|done]. by rewrite (kv_get_earlier t t' k0 b r Ht E) in Hd.
Qed.

(** The link and the file name just cached. *)
Lemma cached_served now u f l (r : R) : no_filename now r -> horizon <= now + URL_CACHE_EXP ->
  (forall n, nonempty (req_filename q) = Some n -> f = Some n) ->
  apply_mediaflow_proxy_if_needed bracketed_ok u (by_user q) p (stremio q) f (transcode_of rt q) = Ret l ->
  served now l (cache_stream_url now true k u f r).2.
Proof.
  intros Hnf Hh Hn Ha. exists u, (nonempty f). split.
  - intros t Ht. cbn [cache_stream_url snd]. destruct (nonempty f) as [n|] eqn:Ef.
    + rewrite !kv_get_set by lia. rewrite (proj2 (String.eqb_neq (filename_key k) k)) by (intros E; by apply key_not_filename).
      rewrite !String.eqb_refl. rewrite (proj2 (Z.leb_gt (now + URL_CACHE_EXP) t)) by lia. split; [done|]. intros _.
      rewrite text_of_nonempty. by destruct f as [[|c f]|]; simplify_eq/=.
    + rewrite !kv_get_set by lia. rewrite (proj2 (String.eqb_neq k (filename_key k))) by apply key_not_filename.
      rewrite String.eqb_refl. rewrite (proj2 (Z.leb_gt (now + URL_CACHE_EXP) t)) by lia. split; [done|]. intros _. apply Hnf. lia.
  - apply (fresh_is_cached u f); [done|done|]. intros Hr. rewrite bool_decide_true by done. by destruct f as [[|]|].
Qed.

Lemma replay_step now now' c w c' w' : replay_inv now c (redis rt w) -> now <= now' -> horizon <= now + URL_CACHE_EXP ->
  next now' true q c w = Some (c', w') -> replay_inv now' c' (redis rt w').
Proof.
  intros Hi Hn Hh Hs. unfold step in Hs. rewrite Hp in Hs.
  assert (Hfail : forall f (r : R) l, failed f = Redirect 302 l -> served now' l r) by done.
  destruct c as [|ip'|ip'|ip' s|ip' s held|ip' s held v f|ip' held a|a]; cbn [replay_inv] in Hi; try done.
  - destruct Hi as [-> Hf]. destruct (fetch rt _ _ _ _ _ _) as [[s recovered]|f']; injection Hs as <- <-; [|done].
    split; [done|]. by destruct recovered; apply (no_filename_later now).
  - destruct Hi as [-> Hf]. unfold try_lock in Hs. destruct (kv_get now' _ _); [done|]. injection Hs as <- <-.
    split; [done|]. intros t Ht. cbn [redis with_redis].
    rewrite kv_set_other; [apply Hf; lia|lia|]. exact (not_eq_sym (filename_not_lock k _ own_lock)).
  - destruct Hi as [-> Hf]. destruct (make_url rt _ _ _ _ _ _) as [[[v f]|f] x] eqn:Em; injection Hs as <- <-.
    + split; [done|]. split; [by apply (no_filename_later now)|]. intros n. by apply (url_filename _ _ _ _ _ _ _ _ _ _ Em).
    + split; [done|]. intros l. apply Hfail.
  - destruct Hi as (-> & Hf & Hnm). destruct v as [| | | |u| |]; try (injection Hs as <- _; split; [done|]; intros ?; apply Hfail).
    cbn [redis with_redis cache_stream_url] in Hs.
    destruct (apply_mediaflow_proxy_if_needed _ _ _ _ _ _ _) as [l|f'] eqn:Ea; injection Hs as <- <-;
      (split; [done|]); intros l'; [|apply Hfail]. intros [= <-].
    apply (cached_served now' u f l (record_hash rt now' true q p (redis rt w))); [|lia|done|done].
    intros t Ht. rewrite record_kv. apply Hf. lia.
  - destruct Hi as [-> Ha]. injection Hs as <- <-. intros l ->. apply (released_kept now); [by apply Ha|done].
Qed.

Lemma replay_cache now now' w c' w' : coherent now (redis rt w) -> now <= now' -> horizon <= now + URL_CACHE_EXP ->
  next now' true q (PCache rt ip) w = Some (c', w') -> replay_inv now' c' (redis rt w').
Proof.
  intros Hc Hn Hh Hs. unfold step in Hs. rewrite Hp in Hs. fold k in Hs. unfold get_cached_stream_payload in Hs.
  assert (Hget : forall k0 (r : R), let r' := (getex now' k0 URL_CACHE_EXP r).2 in
     (getex now' k0 URL_CACHE_EXP r).1 = kv_get now' r k0 /\
     (forall v t, kv_get now' r k0 = Some v -> now' <= t < now' + URL_CACHE_EXP -> kv_get t r' k0 = Some v) /\
     (forall k1 t, k0 <> k1 -> now' <= t -> kv_get t r' k1 = kv_get t r k1) /\
     (kv_get now' r k0 = None -> r' = r)).
  { intros k0 r. unfold getex. destruct (kv_get now' r k0) as [b|] eqn:E; cbn [fst snd]; (split; [done|]); [|by auto].
    split; [|split; [|done]].
    - intros v t [= <-] Ht. rewrite kv_get_set, String.eqb_refl by lia. by rewrite (proj2 (Z.leb_gt _ _)) by lia.
    - intros k1 t Hne Ht. by apply kv_set_other. }
  pose proof key_not_filename as Hkf.
  destruct (Hget k (redis rt w)) as (G1 & G2 & G3 & G4). destruct (getex now' k URL_CACHE_EXP (redis rt w)) as [u r1]. cbn [fst snd] in *.
  subst u. destruct (bool_decide (req_filename q = None)) eqn:Eq.
  - destruct (Hget (filename_key k) r1) as (F1 & F2 & F3 & F4). destruct (getex now' (filename_key k) URL_CACHE_EXP r1) as [f r2].
    cbn [fst snd] in *. subst f. injection Hs as <- <-. cbn [redis with_redis].
    assert (Hff : kv_get now' r1 (filename_key k) = kv_get now' (redis rt w) (filename_key k)) by (apply G3; [done|lia]).
    destruct (text_of (kv_get now' (redis rt w) k)) as [u|] eqn:Eu.
    + destruct (cached_redirect _ _ _ _ _ _) as [a|f'] eqn:Ea; [|done]. intros l ->. exists u, (text_of (kv_get now' r1 (filename_key k))).
      rewrite Eq. split; [|done]. intros t Ht. split.
      * rewrite F3 by (done || lia). apply G2; [|lia]. destruct (kv_get now' (redis rt w) k) as [[[|c s]| |]|]; simplify_eq/=; done.
      * intros _. destruct (kv_get now' r1 (filename_key k)) as [b|] eqn:Eb; [by rewrite (F2 b) by (done || lia)|].
        rewrite F4 by done. apply (text_of_dead now'); [lia|]. by rewrite Eb.
    + split; [done|]. intros t Ht. assert (Hd : text_of (kv_get now' (redis rt w) (filename_key k)) = None).
      { destruct (text_of (kv_get now' (redis rt w) (filename_key k))) eqn:E; [|done]. exfalso. apply (Hc now'); [lia|by rewrite E|done]. }
      destruct (decide (kv_get now' r1 (filename_key k) = None)) as [E|E].
      * rewrite F4, G3 by done. by apply (text_of_dead now').
      * destruct (kv_get now' r1 (filename_key k)) as [b|] eqn:Eb; [|done]. rewrite <- Hff in Hd. cbn in Hd.
        destruct (kv_get t r2 (filename_key k)) as [b'|] eqn:Et; [|done]. apply (kv_get_earlier now') in Et; [|done].
        assert (Hb : kv_get now' r2 (filename_key k) = Some b).
        { apply F2; [done|]. unfold URL_CACHE_EXP. lia. }
        rewrite Hb in Et. injection Et as <-. exact Hd.
  - injection Hs as <- <-. cbn [redis with_redis]. destruct (text_of (kv_get now' (redis rt w) k)) as [u|] eqn:Eu.
    + destruct (cached_redirect _ _ _ _ _ _) as [a|f'] eqn:Ea; [|done]. intros l ->. exists u, None. rewrite Eq. split; [|done].
      intros t Ht. split; [|by intros E; rewrite E in Eq]. apply G2; [|lia].
      destruct (kv_get now' (redis rt w) k) as [[[|c s]| |]|]; simplify_eq/=; done.
    + split; [done|]. intros t Ht. rewrite G3 by done. apply (text_of_dead now'); [done|].
      destruct (text_of (kv_get now' (redis rt w) (filename_key k))) eqn:E; [|done]. exfalso. apply (Hc now'); [lia|by rewrite E|done].
Qed.

Lemma replay_inv_later now now' c r : replay_inv now c r -> now <= now' -> replay_inv now' c r.
Proof.
  intros Hi Hn. destruct c as [|ip'|ip'|ip' s|ip' s held|ip' s held v f|ip' held a|a]; cbn in *; try done.
  1-3: destruct Hi as [? ?]; split; [done|by eapply no_filename_later].
  - destruct Hi as (? & ? & ?). split; [done|]. split; [by eapply no_filename_later|done].
  - destruct Hi as [? Hi]. split; [done|]. intros l Hl. eapply served_later; [by apply Hi|done].
  - intros l Hl. eapply served_later; [by apply Hi|done].
Qed.

Lemma replay_run ticks : forall now c w c' w', replay_inv now c (redis rt w) -> horizon <= now + URL_CACHE_EXP ->
  from_time now ticks -> run_alone ticks q c w = (c', w') -> replay_inv (last_time now ticks) c' (redis rt w').
Proof.
  induction ticks as [|[t up] ticks IH]; intros now c w c' w' Hi Hh Ht Hr; [by injection Hr as <- <-|].
  cbn [from_time] in Ht. destruct Ht as (Hn & -> & Ht). cbn [Playback.run_alone] in Hr. cbn [last_time].
  destruct (next t true q c w) as [[c1 w1]|] eqn:Es.
  - eapply IH; [by eapply (replay_step now)|lia|done|exact Hr].
  - eapply IH; [by eapply replay_inv_later|lia|done|exact Hr].
Qed.

(** A request whose link is in the cache is answered with it in one step. *)
Lemma served_again now l w : served now l (redis rt w) -> now < horizon ->
  kv_get now (redis rt w) k <> Some (BText "") ->
  exists r, next now true q (PCache rt ip) w = Some (PDone rt (Redirect 302 l), with_redis rt r w).
Proof.
  intros (u & f & Hs & Hc) Hn Hu. destruct (Hs now) as [Hk Hf]; [lia|]. unfold step. rewrite Hp. fold k.
  unfold get_cached_stream_payload, getex. rewrite Hk in Hu |- *. assert (Ht : text_of (Some (BText u)) = Some u) by by destruct u.
  destruct (bool_decide (req_filename q = None)) eqn:Eq.
  - apply bool_decide_eq_true in Eq. specialize (Hf Eq).
    rewrite kv_set_other by (lia || apply key_not_filename).
    destruct (kv_get now (redis rt w) (filename_key k)) as [b|]; rewrite Ht, ?Hf; [|cbn in Hf; subst f; cbn [text_of]];
      rewrite Hc; by eexists.
  - rewrite Ht, Hc. by eexists.
Qed.
End Replay.

(** [C31] A link that was given out is given out again for an hour: when a
    request that sees the address [ip] was redirected to [l], the same request
    within [URL_CACHE_EXP] of its start is redirected to [l] too, in one step
    and without asking the database or the service.  The file name of the cache
    must not outlive the link, which [coherent] says, and the link must not be
    empty. *)
Theorem playback_replayed (q : request) (p : StreamingProvider) (ip : option string) (w w1 : world rt) (now t2 : Z)
    (ticks : list (Z * bool)) (l : string)
    (Hp : streaming_provider_of nzbdav q = Some p) (Hq : req_filename q <> Some "")
    (Hco : coherent q ip now (redis rt w)) (Hticks : from_time now ticks)
    (Hfirst : run_alone ticks q (PCache rt ip) w = (PDone rt (Redirect 302 l), w1))
    (Ht2 : last_time now ticks <= t2 < now + URL_CACHE_EXP)
    (Hne : kv_get t2 (redis rt w1) (key_of ip q) <> Some (BText "")) :
  exists r, next t2 true q (PCache rt ip) w1 = Some (PDone rt (Redirect 302 l), with_redis rt r w1).
Proof.
  destruct ticks as [|[t up] ticks]; [done|]. cbn [from_time] in Hticks. destruct Hticks as (Hn & -> & Hticks).
  cbn [Playback.run_alone] in Hfirst. cbn [last_time] in Ht2.
  destruct (next t true q (PCache rt ip) w) as [[c' w']|] eqn:Es.
  - pose proof (replay_cache q p ip (now + URL_CACHE_EXP) Hp now t w c' w' Hco Hn (Z.le_refl _) Es) as Hi.
    pose proof (replay_run q p ip (now + URL_CACHE_EXP) Hp Hq ticks t c' w' _ _ Hi ltac:(lia) Hticks Hfirst) as Hj.
    apply (served_again q p ip (now + URL_CACHE_EXP) Hp); [|lia|done].
    eapply served_later; [by apply Hj|lia].
  - exfalso. unfold step in Es. rewrite Hp in Es. by destruct (get_cached_stream_payload _ _ _ _ _).
Qed.
End Laws.
