(* ===== verification/PlaybackRuns.v ===== *)
(** * Playback requests at the same time
    (api/routers/streaming/playback.py, utils/lock.py)

    Any number of requests of one route take their steps in any order, while
    the services change and other code uses other keys of Redis.  Redis answers
    or not at each step. *)

From S2P Require Export Playback.
Local Open Scope string_scope.
Local Open Scope Z_scope.

Section Runs.
Context {R} `{Redis R} {X : Type} (rt : route R X) `{!RouteLaws rt}.
Context (ip_is_private : string -> option bool) (bracketed_ok : string -> bool) (sha256_hex : string -> string)
  (ask_ip : string -> string -> X -> option string) (nzbdav : NzbdavDefaults) (host_url : string).
Context (digest : forall s, str_all NzbStorage.is_hex (sha256_hex s) = true /\ String.length (sha256_hex s) = 64%nat).

Notation next := (step rt ip_is_private bracketed_ok sha256_hex ask_ip nzbdav host_url).
Notation lock_of ip q := (lock_key (key_of rt sha256_hex ip q)).

(** The requests, each with where it is; the rest of the server; the time. *)
Record config := mkConfig { clock : Z; requests : list (request * pc rt); server : world rt }.

Inductive moves : config -> config -> Prop :=
  | moves_request now now' up i q c c' rs w w' :
      rs !! i = Some (q, c) -> now <= now' -> next now' up q c w = Some (c', w') ->
      moves (mkConfig now rs w) (mkConfig now' (<[i := (q, c')]> rs) w')
  | moves_services now x rs w : moves (mkConfig now rs w) (mkConfig now rs (with_ext rt x w))
  | moves_others now r rs w :
      (forall lk t, is_lock lk -> now <= t -> kv_get t r lk = kv_get t (redis rt w) lk) ->
      moves (mkConfig now rs w) (mkConfig now rs (with_redis rt r w)).

(** All requests are new and have tokens of their own. *)
Definition initial (s : config) : Prop :=
  Forall (fun qc => qc.2 = PStart rt) (requests s) /\ NoDup (map (fun qc => lock_token qc.1) (requests s)).

(** A lock that has not expired is its holder's. *)
Definition locked (s : config) : Prop :=
  NoDup (map (fun qc => lock_token qc.1) (requests s)) /\
  forall i q c ip held, requests s !! i = Some (q, c) -> holding rt c = Some (ip, held) ->
    held <= clock s /\
    forall t, clock s <= t < held + LOCK_TIMEOUT -> kv_get t (redis rt (server s)) (lock_of ip q) = Some (BText (lock_token q)).

Lemma initial_locked s : initial s -> locked s.
Proof.
  intros [H1 H2]. split; [done|]. intros i q c ip held Hi Hh. rewrite Forall_lookup in H1.
  specialize (H1 i _ Hi). cbn in H1. by subst c.
Qed.

Lemma tokens_kept i q c c' rs : rs !! i = Some (q, c) ->
  map (fun qc => lock_token qc.1) (<[i := (q, c')]> rs) = map (fun qc : request * pc rt => lock_token qc.1) rs.
Proof.
  intros Hi. apply list_eq. intros j. rewrite !list_lookup_fmap. destruct (decide (j = i)) as [->|Hne].
  - rewrite list_lookup_insert_eq by (by eapply lookup_lt_Some). by rewrite Hi.
  - by rewrite list_lookup_insert_ne.
Qed.

Lemma token_differs i j q c q' c' rs : NoDup (map (fun qc : request * pc rt => lock_token qc.1) rs) ->
  rs !! i = Some (q, c) -> rs !! j = Some (q', c') -> i <> j -> lock_token q <> lock_token q'.
Proof.
  intros Hnd Hi Hj Hne E. apply Hne. eapply NoDup_lookup; [exact Hnd| |].
  - rewrite list_lookup_fmap, Hi. reflexivity.
  - rewrite list_lookup_fmap, Hj. cbn. by rewrite E.
Qed.

(** A step keeps a lock that another token holds. *)
Lemma step_keeps_lock now up q c w c' w' lk tk until : next now up q c w = Some (c', w') -> is_lock lk ->
  lock_token q <> tk -> (forall t, now <= t < until -> kv_get t (redis rt w) lk = Some (BText tk)) ->
  forall t, now <= t < until -> kv_get t (redis rt w') lk = Some (BText tk).
Proof.
  intros Hs Hl Hne Hk t Ht.
  rewrite (step_locks rt ip_is_private bracketed_ok sha256_hex ask_ip nzbdav host_url digest _ _ _ _ _ _ _ _ t Hs Hl) by lia.
  destruct c as [|ip|ip|ip s|ip s held|ip s held v f|ip held a|a]; cbn [lock_after]; try (by apply Hk).
  - destruct up; cbn [andb]; [|by apply Hk]. destruct (String.eqb_spec (lock_of ip q) lk) as [E|]; [|by apply Hk].
    exfalso. unfold step in Hs. destruct (streaming_provider_of nzbdav q); [|done]. unfold try_lock in Hs. rewrite E in Hs.
    by rewrite (Hk now) in Hs by lia.
  - rewrite (Hk now) by lia. cbn [owned_by]. rewrite (proj2 (String.eqb_neq tk (lock_token q))) by auto.
    rewrite andb_false_r. by apply Hk.
Qed.

Lemma moves_locked s s' : moves s s' -> locked s -> locked s'.
Proof.
  intros Hm [Hnd Hl]. destruct Hm as [now now' up i q c c' rs w w' Hi Hn Hs|now x rs w|now r rs w Hr]; cbn [clock requests server] in *.
  - split; [cbn; by rewrite (tokens_kept i q c)|]. cbn [clock requests server]. intros j q1 c1 ip held Hj Hh.
    destruct (decide (j = i)) as [->|Hne].
    + rewrite list_lookup_insert_eq in Hj by (by eapply lookup_lt_Some). injection Hj as <- <-.
      assert (Hlk : is_lock (lock_of ip q)) by by eexists.
      pose proof (fun t => step_locks rt ip_is_private bracketed_ok sha256_hex ask_ip nzbdav host_url digest _ _ _ _ _ _ _ _ t Hs Hlk) as Hst.
      assert (Hold : holding rt c = Some (ip, held) -> (forall t, lock_after rt sha256_hex now' up q c (redis rt w) (lock_of ip q) t = kv_get t (redis rt w) (lock_of ip q)) ->
                held <= now' /\ forall t, now' <= t < held + LOCK_TIMEOUT -> kv_get t (redis rt w') (lock_of ip q) = Some (BText (lock_token q))).
      { intros Ho Hsame. destruct (Hl i q c ip held Hi Ho) as [H1 H2]. split; [lia|]. intros t Ht.
        rewrite Hst by lia. rewrite Hsame. apply H2. lia. }
      pose proof (step_holding rt ip_is_private bracketed_ok sha256_hex ask_ip nzbdav host_url _ _ _ _ _ _ _ Hs) as Hsh.
      destruct c as [|ip'|ip'|ip' s|ip' s held'|ip' s held' v f|ip' held' a|a]; rewrite Hsh in Hh; try done; try (by apply Hold).
      destruct up; [|done]. injection Hh as <- <-. split; [lia|]. intros t Ht. rewrite Hst by lia. cbn [lock_after andb].
      rewrite String.eqb_refl. by rewrite (proj2 (Z.leb_gt _ _)) by lia.
    + rewrite list_lookup_insert_ne in Hj by done. destruct (Hl j q1 c1 ip held Hj Hh) as [H1 H2]. split; [lia|].
      eapply step_keeps_lock; [exact Hs|by eexists| |intros t Ht; apply H2; lia].
      by apply (token_differs i j q c q1 c1 rs).
  - by split.
  - split; [done|]. cbn [clock requests server redis with_redis]. intros j q1 c1 ip held Hj Hh.
    destruct (Hl j q1 c1 ip held Hj Hh) as [H1 H2]. split; [done|]. intros t Ht. rewrite Hr by (by eexists || lia). by apply H2.
Qed.

(** [C32] The flow of a debrid service runs in one request at a time: in every
    state that requests reach from new ones, in any order of their steps, two
    different requests do not both hold the lock of one link while neither lock
    has run out. *)
Theorem playback_mutual_exclusion (s0 s : config) (i j : nat) (q1 q2 : request) (c1 c2 : pc rt) (ip1 ip2 : option string)
    (h1 h2 : Z)
    (H0 : initial s0) (Hr : rtc moves s0 s) (Hij : i <> j)
    (Hi : requests s !! i = Some (q1, c1)) (Hj : requests s !! j = Some (q2, c2))
    (Hh1 : holding rt c1 = Some (ip1, h1)) (Hh2 : holding rt c2 = Some (ip2, h2))
    (Hsame : lock_of ip1 q1 = lock_of ip2 q2) :
  h1 + LOCK_TIMEOUT <= clock s \/ h2 + LOCK_TIMEOUT <= clock s.
Proof.
  assert (Hl : locked s).
  { apply initial_locked in H0. induction Hr as [|s0 s1 s2 Hm _ IH]; [done|]. apply IH; try done. by eapply moves_locked. }
  destruct Hl as [Hnd Hl]. destruct (Hl i q1 c1 ip1 h1 Hi Hh1) as [_ L1]. destruct (Hl j q2 c2 ip2 h2 Hj Hh2) as [_ L2].
  destruct (decide (h1 + LOCK_TIMEOUT <= clock s)); [by left|]. destruct (decide (h2 + LOCK_TIMEOUT <= clock s)); [by right|].
  exfalso. specialize (L1 (clock s) ltac:(lia)). specialize (L2 (clock s) ltac:(lia)). rewrite Hsame, L2 in L1.
  injection L1 as E. by apply (token_differs i j q1 c1 q2 c2 (requests s)).
Qed.

(** The steps of requests in a given order; a step that is blocked or goes
    back in time is left out. *)
Fixpoint schedule (l : list (nat * Z * bool)) (s : config) : config :=
  match l with
  | [] => s
  | (i, now, up) :: l =>
      match requests s !! i with
      | Some (q, c) =>
          if clock s <=? now then
            match next now up q c (server s) with
            | Some (c', w') => schedule l (mkConfig now (<[i := (q, c')]> (requests s)) w')
            | None => schedule l s
            end
          else schedule l s
      | None => schedule l s
      end
  end.

Lemma schedule_moves l : forall s, rtc moves s (schedule l s).
Proof.
  induction l as [|[[i now] up] l IH]; intros s; cbn [schedule]; [done|].
  destruct (requests s !! i) as [[q c]|] eqn:Ei; [|done]. destruct (Z.leb_spec (clock s) now); [|done].
  destruct (next now up q c (server s)) as [[c' w']|] eqn:Es; [|done].
  eapply rtc_l; [|apply IH]. destruct s as [t rs w]. by eapply moves_request.
Qed.
End Runs.

(** ** Examples and witnesses *)

(** A toy digest, and a server with one stream whose service counts its calls. *)
Fixpoint code_number (acc : Z) (s : string) : Z :=
  match s with "" => acc | String c s => code_number (256 * acc + code c) s end.
Definition toy_digest (s : string) : string := hex_digits 64 (code_number 0 s) "".

Lemma toy_digest_ok s : str_all NzbStorage.is_hex (toy_digest s) = true /\ String.length (toy_digest s) = 64%nat.
Proof. by apply hex_digits_all; [repeat constructor|]. Qed.

Definition toy_stream : TorrentStream :=
  mkTorrentStream (mkStream "Show.S01" (Some 9) None (Some "00443214c74254b635cf84653a56d7c675be77df") None None [] [] None None
    (Some [mkFile 0 "Show/readme.txt" 1 "other" None None; mkFile 1 "Show/E01.mkv" 5 "video" (Some 1) (Some 1);
           mkFile 2 "Show/E02.mkv" 4 "video" (Some 1) (Some 2)]) None None None None None [] [] false) ["udp://t.example:80"] "mf:7".

Definition toy_flow (svc : string) (a : torrent_args) (calls : nat) : outcome service_error value * nat :=
  (Ret (VStr ("https://cdn.example/" +:+ default "" (ta_filename a) +:+ "?n=" +:+ str_of_int (Z.of_nat calls))), S calls).

Definition toy_route : route store nat :=
  torrent_route (fun _ => true) (fun _ => None) [] false (fun _ h _ => Ret (if String.eqb h "00443214c74254b635cf84653a56d7c675be77df" then Some toy_stream else None))
    (fun _ _ _ => Ret None) (fun _ => None) toy_flow (mkCacheSettings true false false).

Definition toy_user : user :=
  mkUser (mkUserData [mkProvider "rd" "realdebrid" None None (Some "tok") None None [] false 0 true true] None [] [] RESOLUTIONS
    (FloatLimit (S754_infinity false)) 0 10 [] [] [] [] 25 Separate FilterDisabled [] false [])
    (Some (mkMediaFlow (Some "https://mf.example") (Some "pw") (Some "5.6.7.8"))) (Some 3) (Some 4).

Definition toy_request (tok : string) (ep : Z) : request :=
  lower_ident (mkRequest "D-abc" "rd" "00443214C74254B635CF84653A56D7C675BE77DF" (Some 1) (Some ep) None true false
    (mkClient None None (Some "1.2.3.4")) toy_user tok).

Definition toy_world : world toy_route := mkWorld toy_route empty_store 0%nat [] [].
Notation toy_next := (step toy_route (fun _ => Some false) (fun _ => true) toy_digest (fun _ _ _ => None) (mkNzbdav None None) "https://host.example").
Notation toy_run := (run_alone toy_route (fun _ => Some false) (fun _ => true) toy_digest (fun _ _ _ => None) (mkNzbdav None None) "https://host.example").
Notation toy_schedule := (schedule toy_route (fun _ => Some false) (fun _ => true) toy_digest (fun _ _ _ => None) (mkNzbdav None None) "https://host.example").

Definition toy_ticks (t : Z) : list (Z * bool) := map (fun i => (t + i, true)) (seqZ 0 7).
Definition toy_link : string :=
  "https://mf.example/proxy/stream?api_password=pw&d=https%3A%2F%2Fcdn.example%2FE02.mkv%3Fn%3D0".

(** What a request shows, without its route. *)
Definition done_with (c : pc toy_route) : option answer := match c with PDone _ a => Some a | _ => None end.
Definition answer_at (s : config toy_route) (i : nat) : option answer := (requests _ s !! i) ≫= fun qc => done_with qc.2.
Definition holding_at (s : config toy_route) (i : nat) : option (request * option (option string * Z)) :=
  (fun qc => (qc.1, holding _ qc.2)) <$> requests _ s !! i.

Lemma done_with_done c a : done_with c = Some a -> c = PDone _ a.
Proof. destruct c; try done. by intros [= ->]. Qed.

Lemma playback_answers_witness :
  exists a w', toy_run (toy_ticks 100) (toy_request "t1" 2) (PStart _) toy_world = (PDone _ a, w') /\
    proper "https://host.example" a /\
    forall ip t, 106 <= t -> kv_get t (redis _ w') (lock_key (key_of toy_route toy_digest ip (toy_request "t1" 2))) = None.
Proof.
  apply (playback_answers toy_route (fun _ => Some false) (fun _ => true) toy_digest (fun _ _ _ => None) (mkNzbdav None None)
    "https://host.example" toy_digest_ok (toy_request "t1" 2) toy_world 100 (toy_ticks 100)); [done|vm_compute; intuition discriminate|vm_compute; lia].
Defined.

Lemma empty_get t k : kv_get t empty_store k = None.
Proof. cbn. by rewrite lookup_empty. Qed.

Definition first_play : pc toy_route * world toy_route :=
  toy_run (toy_ticks 100) (toy_request "t1" 2) (PCache _ (Some "5.6.7.8")) toy_world.

Lemma first_plays : first_play.1 = PDone _ (Redirect 302 toy_link).
Proof. apply done_with_done. vm_compute. reflexivity. Qed.

Lemma playback_replayed_witness :
  first_play.1 = PDone _ (Redirect 302 toy_link) /\
  exists r, toy_next 3699 true (toy_request "t1" 2) (PCache _ (Some "5.6.7.8")) first_play.2
            = Some (PDone _ (Redirect 302 toy_link), with_redis _ r first_play.2).
Proof.
  split; [exact first_plays|].
  refine (playback_replayed toy_route (fun _ => Some false) (fun _ => true) toy_digest (fun _ _ _ => None) (mkNzbdav None None)
    "https://host.example" toy_digest_ok (toy_request "t1" 2)
    (mkProvider "rd" "realdebrid" None None (Some "tok") None None [] false 0 true true) (Some "5.6.7.8") toy_world first_play.2
    100 3699 (toy_ticks 100) toy_link _ _ _ _ _ _ _); [reflexivity|discriminate| | | | |].
  - intros t _ Hn. exfalso. apply Hn. cbn [redis toy_world]. by rewrite empty_get.
  - vm_compute. intuition discriminate.
  - rewrite <- first_plays. exact (surjective_pairing _).
  - vm_compute. intuition discriminate.
  - vm_compute. discriminate.
Defined.

(** Two requests for one link, the second of which takes the lock when the
    first one's has run out. *)
Definition two_requests : config toy_route :=
  mkConfig _ 0 [(toy_request "a" 2, PStart _); (toy_request "b" 2, PStart _)] toy_world.
Lemma two_requests_initial : initial _ two_requests.
Proof.
  split; [constructor; [reflexivity|constructor; [reflexivity|constructor]]|].
  change (NoDup ["a"; "b"]). by apply (bool_decide_unpack _).
Qed.

Definition late_order : list (nat * Z * bool) :=
  ((fun t => (0%nat, t, true)) <$> [1; 2; 3; 4]) ++ ((fun t => (1%nat, t, true)) <$> [61; 62; 63; 64]).

Lemma playback_mutual_exclusion_witness :
  exists c1 c2, requests _ (toy_schedule late_order two_requests) !! 0%nat = Some (toy_request "a" 2, c1) /\
    requests _ (toy_schedule late_order two_requests) !! 1%nat = Some (toy_request "b" 2, c2) /\
    holding _ c1 = Some (Some "5.6.7.8", 4) /\ holding _ c2 = Some (Some "5.6.7.8", 64) /\
    (4 + LOCK_TIMEOUT <= clock _ (toy_schedule late_order two_requests) \/
     64 + LOCK_TIMEOUT <= clock _ (toy_schedule late_order two_requests)).
Proof.
  assert (H1 : holding_at (toy_schedule late_order two_requests) 0 = Some (toy_request "a" 2, Some (Some "5.6.7.8", 4)))
    by (vm_compute; reflexivity).
  assert (H2 : holding_at (toy_schedule late_order two_requests) 1 = Some (toy_request "b" 2, Some (Some "5.6.7.8", 64)))
    by (vm_compute; reflexivity).
  unfold holding_at in H1, H2.
  destruct (requests _ _ !! 0%nat) as [[q1 c1]|] eqn:E1; [|discriminate H1].
  destruct (requests _ _ !! 1%nat) as [[q2 c2]|] eqn:E2; [|discriminate H2].
  injection H1 as -> H1. injection H2 as -> H2. exists c1, c2. split; [exact eq_refl|]. split; [exact eq_refl|].
  split; [exact H1|]. split; [exact H2|].
  refine (playback_mutual_exclusion toy_route (fun _ => Some false) (fun _ => true) toy_digest (fun _ _ _ => None) (mkNzbdav None None)
    "https://host.example" toy_digest_ok two_requests (toy_schedule late_order two_requests) 0 1 _ _ c1 c2 _ _ 4 64
    _ (schedule_moves _ _ _ _ _ _ _ _ _) _ E1 E2 H1 H2 eq_refl); [|discriminate].
  exact two_requests_initial.
Defined.

(** A request that waited for the lock does not look into the cache again: the
    service is asked twice, and the playback tracked twice. *)
Definition waiting_order : list (nat * Z * bool) :=
  ((fun i => (i, 1, true)) <$> [0; 1; 0; 1; 0; 1; 0; 1; 0; 0; 0]%nat) ++ ((fun t => (1%nat, t, true)) <$> [8; 9; 10; 11]).
Example waiter_asks_again :
  let s := toy_schedule waiting_order two_requests in
  (answer_at s 0 = Some (Redirect 302 toy_link)) /\ answer_at s 1 <> answer_at s 0 /\
  ext _ (server _ s) = 2%nat /\ length (tracked _ (server _ s)) = 2%nat.
Proof. vm_compute. repeat split; discriminate. Qed.

(** The key of the cache has neither the provider nor the file: a request for
    another provider of the profile, and one for another file of a torrent
    without episode numbers, get the link that is there. *)
Example key_without_provider :
  key_of toy_route toy_digest None (toy_request "a" 2)
  = key_of toy_route toy_digest None
      (mkRequest "D-abc" "tb" (ident (toy_request "a" 2)) (Some 1) (Some 2) (Some "Other.mkv") true false
         (mkClient None None None) toy_user "b").
Proof. reflexivity. Qed.

(** A film without a file name: the first file that has no episode numbers is
    played, not the largest video. *)
Example film_plays_first_file :
  torrent_file_choice (t_data toy_stream) None None None = (Some "readme.txt", 0) /\
  (Media.filename <$> get_main_file (files_of (t_data toy_stream))) = Some "Show/E01.mkv".
Proof. split; reflexivity. Qed.
