(* ===== verification/PlaybackService.v ===== *)
(** * What a playback request gets from its service
    (api/routers/streaming/playback.py with workers/providers/torbox/utils.py)

    A request alone whose link is not cached is answered with what the flow of
    its service gives, and leaves exactly the link and the record of playback
    that belong to it; and the torrent route with the TorBox flow in it. *)

From S2P Require Import DebridClient.
From S2P Require Export PlaybackRuns.
From S2P Require Torbox.
Local Open Scope string_scope.
Local Open Scope Z_scope.

Section Service.
Context {R} `{Redis R} {X : Type} (rt : route R X) `{!RouteLaws rt}.
Context (ip_is_private : string -> option bool) (bracketed_ok : string -> bool) (sha256_hex : string -> string)
  (ask_ip : string -> string -> X -> option string) (nzbdav : NzbdavDefaults) (host_url : string).
Context (digest : forall s, str_all NzbStorage.is_hex (sha256_hex s) = true /\ String.length (sha256_hex s) = 64%nat).

Notation next := (step rt ip_is_private bracketed_ok sha256_hex ask_ip nzbdav host_url).
Notation run := (run_alone rt ip_is_private bracketed_ok sha256_hex ask_ip nzbdav host_url).
Notation key_of := (key_of rt sha256_hex).
Notation own_lock ip q := (lock_key (key_of ip q)).

(** The link a flow's result is delivered as; what is not a text fails when it
    is stored. *)
Definition delivered (q : request) (p : StreamingProvider) (res : outcome failure (value * option string)) : outcome failure string :=
  match res with
  | Ret (VStr u, f) => apply_mediaflow_proxy_if_needed bracketed_ok u (by_user q) p (stremio q) f (transcode_of rt q)
  | Ret _ => Raise (Failed (Python AttributeError))
  | Raise f => Raise f
  end.

Definition answer_for (o : outcome failure string) : answer :=
  match o with Ret l => Redirect 302 l | Raise f => failed host_url f end.

(** The link that is cached, whether or not it can be delivered. *)
Definition link_of (res : outcome failure (value * option string)) : option string :=
  match res with Ret (VStr u, _) => nonempty (Some u) | _ => None end.

Section Alone.
Context (q : request) (p : StreamingProvider) (ip : option string) (Hp : streaming_provider_of nzbdav q = Some p).

Definition no_link (now : Z) (r : R) : Prop := forall t, now <= t -> text_of (kv_get t r (key_of ip q)) = None.

Lemma getex_no_link now k ex (r : R) : no_link now r -> no_link now (getex now k ex r).2.
Proof.
  intros Hn t Ht. unfold getex. destruct (kv_get now r k) as [b|] eqn:E; [|by apply Hn]. cbn [snd].
  rewrite kv_get_set by done. destruct (String.eqb_spec k (key_of ip q)) as [->|]; [|by apply Hn].
  destruct (_ <=? t); [done|]. rewrite <- E. by apply Hn, Z.le_refl.
Qed.

Lemma missed t w : no_link t (redis rt w) ->
  exists r, next t true q (PCache rt ip) w = Some (PFetch rt ip, with_redis rt r w) /\ no_link t r.
Proof.
  intros Hm. unfold step. rewrite Hp. unfold get_cached_stream_payload.
  pose proof (getex_no_link t (key_of ip q) URL_CACHE_EXP _ Hm) as H1.
  assert (Hu : text_of (getex t (key_of ip q) URL_CACHE_EXP (redis rt w)).1 = None).
  { unfold getex. rewrite <- (Hm t (Z.le_refl t)). by destruct (kv_get t _ _). }
  destruct (getex t (key_of ip q) URL_CACHE_EXP (redis rt w)) as [u r1]. cbn [fst snd] in *.
  destruct (bool_decide _).
  - pose proof (getex_no_link t (filename_key (key_of ip q)) URL_CACHE_EXP _ H1) as H2.
    destruct (getex t (filename_key (key_of ip q)) URL_CACHE_EXP r1) as [f r2]. rewrite Hu. by exists r2.
  - rewrite Hu. by exists r1.
Qed.

Lemma fetched t w s recovered : (forall r, fetch rt t true q p r (ext rt w) = Ret (s, recovered)) ->
  next t true q (PFetch rt ip) w = Some (PLock rt ip s, if recovered then add_persist rt s w else w).
Proof. intros Hf. unfold step. by rewrite Hp, Hf. Qed.

Lemma locked_free t w s : kv_get t (redis rt w) (own_lock ip q) = None -> no_link t (redis rt w) ->
  exists r, next t true q (PLock rt ip s) w = Some (PFlow rt ip s t, with_redis rt r w) /\ no_link t r.
Proof.
  intros Hl Hn. unfold step. rewrite Hp. unfold try_lock. rewrite Hl. eexists. split; [reflexivity|].
  intros t' Ht'. rewrite kv_set_other; [by apply Hn|done|].
  apply not_eq_sym. apply (key_not_lock rt sha256_hex digest). by eexists.
Qed.

Lemma flowed t w s held : let res := make_url rt t q p ip s (ext rt w) in
  next t true q (PFlow rt ip s held) w
  = Some (match res.1 with Ret (v, f) => PStore rt ip s held v f | Raise f => PUnlock rt ip held (failed host_url f) end, with_ext rt res.2 w).
Proof. cbv zeta. unfold step. rewrite Hp. by destruct (make_url rt _ _ _ _ _ _) as [[[v f]|f] x]. Qed.
Definition tracked_for (s : Stream rt) (o : outcome failure string) : list tracking :=
  match o with Ret _ => [tracking_of rt q p s] | Raise _ => [] end.

Lemma stored t w s held v f : no_link t (redis rt w) ->
  exists w', next t true q (PStore rt ip s held v f) w = Some (PUnlock rt ip held (answer_for (delivered q p (Ret (v, f)))), w') /\
    ext rt w' = ext rt w /\ to_persist rt w' = to_persist rt w /\
    tracked rt w' = (tracked rt w ++ tracked_for s (delivered q p (Ret (v, f))))%list /\
    forall t', t <= t' < t + URL_CACHE_EXP -> text_of (kv_get t' (redis rt w') (key_of ip q)) = link_of (Ret (v, f)).
Proof.
  intros Hn. unfold step. rewrite Hp. set (r := record_hash rt t true q p (redis rt w)).
  assert (Hr : no_link t r) by (intros t' Ht'; unfold r; rewrite record_kv; by apply Hn).
  destruct v as [| | | |u| |]; try (eexists; split; [reflexivity|]; cbn; rewrite app_nil_r; do 3 (split; [done|]);
    intros t' [Ht' _]; by apply Hr).
  cbn [redis with_redis cache_stream_url delivered]. set (r' := kv_set t (key_of ip q) _ _ r).
  assert (Hl : forall t', t <= t' < t + URL_CACHE_EXP ->
    text_of (kv_get t' (match nonempty f with Some f => kv_set t (filename_key (key_of ip q)) (BText f) (Some URL_CACHE_EXP) r' | None => r' end)
               (key_of ip q)) = link_of (Ret (VStr u, f))).
  { intros t' Ht'. assert (Hu : text_of (kv_get t' r' (key_of ip q)) = link_of (Ret (VStr u, f))).
    { unfold r'. rewrite kv_get_set, String.eqb_refl by lia. rewrite (proj2 (Z.leb_gt _ _)) by lia. by destruct u. }
    destruct (nonempty f); [|done]. rewrite kv_set_other; [done|lia|].
    apply not_eq_sym, (key_not_filename rt sha256_hex). }
  destruct (apply_mediaflow_proxy_if_needed _ _ _ _ _ _ _) as [l|f'].
  - eexists. split; [reflexivity|]. by split; [|split; [|split; [|exact Hl]]].
  - eexists. split; [reflexivity|]. cbn. rewrite app_nil_r. by split; [|split; [|split; [|exact Hl]]].
Qed.

Lemma unlocked t w held a :
  exists r, next t true q (PUnlock rt ip held a) w = Some (PDone rt a, with_redis rt r w) /\
    forall t', kv_get t' r (key_of ip q) = kv_get t' (redis rt w) (key_of ip q).
Proof.
  unfold step. rewrite Hp. eexists. split; [reflexivity|]. intros t'. unfold release_redis_lock. destruct (owned_by _ _); [|done].
  rewrite kv_get_del, (proj2 (String.eqb_neq _ _)); [done|]. apply not_eq_sym, (key_not_lock rt sha256_hex digest). by eexists.
Qed.

Lemma lock_untouched t w c c' w' : next t true q c w = Some (c', w') ->
  (c = PCache rt ip \/ c = PFetch rt ip) -> forall t', t <= t' -> kv_get t' (redis rt w') (own_lock ip q) = kv_get t' (redis rt w) (own_lock ip q).
Proof.
  intros Hs Hc t' Ht.
  rewrite (step_locks rt ip_is_private bracketed_ok sha256_hex ask_ip nzbdav host_url digest _ _ _ _ _ _ _ _ t' Hs) by (done || by eexists).
  by destruct Hc as [-> | ->].
Qed.
End Alone.

Notation at_times l := (map (fun t => (t, true)) l).

(** From the cache to the flow, and from the flow to the end. *)
Lemma until_flow q p ip (w : world rt) t1 t2 t3 s recovered ticks :
  streaming_provider_of nzbdav q = Some p -> t1 <= t2 -> t2 <= t3 ->
  text_of (kv_get t1 (redis rt w) (key_of ip q)) = None -> kv_get t1 (redis rt w) (own_lock ip q) = None ->
  (forall r, fetch rt t2 true q p r (ext rt w) = Ret (s, recovered)) ->
  exists w', run (at_times [t1; t2; t3] ++ ticks)%list q (PCache rt ip) w = run ticks q (PFlow rt ip s t3) w' /\
    ext rt w' = ext rt w /\ tracked rt w' = tracked rt w /\
    to_persist rt w' = (to_persist rt w ++ if recovered then [s] else [])%list /\ no_link q ip t3 (redis rt w').
Proof.
  intros Hp H12 H23 Hmissing Hfree Hfetch.
  assert (Hn : no_link q ip t1 (redis rt w)) by (intros t Ht; by apply (text_of_dead t1)).
  destruct (missed q p ip Hp t1 w Hn) as (r1 & E1 & Hn1).
  assert (Hl1 : forall t, t1 <= t -> kv_get t r1 (own_lock ip q) = None).
  { intros t Ht. pose proof (lock_untouched q ip t1 w _ _ _ E1 (or_introl eq_refl) t Ht) as Hk. cbn [redis with_redis] in Hk. rewrite Hk.
    apply eq_None_not_Some. intros [b Hb]. by rewrite (kv_get_earlier t1 t _ _ _ Ht Hb) in Hfree. }
  set (w1 := with_redis rt r1 w) in *. pose proof (fetched q p ip Hp t2 w1 s recovered Hfetch) as E2.
  set (w2 := if recovered then _ else w1) in *.
  assert (Hw2 : redis rt w2 = r1 /\ ext rt w2 = ext rt w /\ tracked rt w2 = tracked rt w) by (unfold w2; by destruct recovered).
  destruct Hw2 as (Hr2 & Hx2 & Hk2).
  destruct (locked_free q p ip Hp t3 w2 s) as (r3 & E3 & Hn3).
  { rewrite Hr2. apply Hl1. lia. }
  { rewrite Hr2. intros t Ht. apply Hn1. lia. }
  cbn [map app Playback.run_alone]. rewrite E1; cbn iota beta. rewrite E2, E3.
  eexists. split; [reflexivity|]. split; [exact Hx2|]. split; [exact Hk2|]. split; [|exact Hn3].
  cbn. unfold w2. destruct recovered; [done|by rewrite app_nil_r].
Qed.

Lemma after_flow q p ip (w : world rt) t3 t4 t5 t6 s res x : streaming_provider_of nzbdav q = Some p ->
  t3 <= t4 -> t4 <= t5 -> t5 <= t6 -> no_link q ip t3 (redis rt w) -> make_url rt t4 q p ip s (ext rt w) = (res, x) ->
  exists w', run (at_times [t4; t5; t6]) q (PFlow rt ip s t3) w = (PDone rt (answer_for (delivered q p res)), w') /\
    ext rt w' = x /\ tracked rt w' = (tracked rt w ++ tracked_for q p s (delivered q p res))%list /\
    to_persist rt w' = to_persist rt w /\
    forall t, t6 <= t < t5 + URL_CACHE_EXP -> text_of (kv_get t (redis rt w') (key_of ip q)) = link_of res.
Proof.
  intros Hp H34 H45 H56 Hn Hm. pose proof (flowed q p ip Hp t4 w s t3) as E4. cbv zeta in E4. rewrite Hm in E4. cbn [fst snd] in E4.
  set (w4 := with_ext rt x w) in *. cbn [map Playback.run_alone]. rewrite E4. destruct res as [[v f]|f].
  - destruct (stored q p ip Hp t5 w4 s t3 v f) as (w5 & E5 & Hx5 & Hp5 & Hk5 & Hl5); [intros t Ht; apply Hn; lia|].
    rewrite E5. destruct (unlocked q p ip Hp t6 w5 t3 (answer_for (delivered q p (Ret (v, f))))) as (r6 & E6 & Hl6). rewrite E6.
    eexists. split; [reflexivity|]. split; [exact Hx5|]. split; [exact Hk5|]. split; [exact Hp5|].
    intros t Ht. cbn [redis with_redis]. rewrite Hl6. apply Hl5. lia.
  - destruct (unlocked q p ip Hp t5 w4 t3 (failed host_url f)) as (r5 & E5 & Hl5). rewrite E5.
    assert (E6 : next t6 true q (PDone rt (failed host_url f)) (with_redis rt r5 w4) = None) by (unfold step; by rewrite Hp).
    rewrite E6. eexists. split; [reflexivity|]. cbn [delivered tracked_for link_of tracked with_redis]. rewrite app_nil_r.
    do 3 (split; [done|]). intros t Ht. cbn [redis]. rewrite Hl5. apply Hn. lia.
Qed.

(** [C33] A playback gives what its service gives: a request that does not find
    its link in the cache nor its lock taken, whose stream is found, is answered
    after six steps with the link of the flow, through MediaFlow where the
    configuration asks for it, or with the video of the flow's exception; the
    services are called once; the playback is recorded when, and only when, the
    answer is the link; and the link, but nothing on a failure, is cached for an
    hour. *)
Theorem playback_follows_service (q : request) (p : StreamingProvider) (ip : option string) (w : world rt)
    (t1 t2 t3 t4 t5 t6 : Z) (s : Stream rt) (recovered : bool)
    (Hp : streaming_provider_of nzbdav q = Some p)
    (Htimes : t1 <= t2 /\ t2 <= t3 /\ t3 <= t4 /\ t4 <= t5 /\ t5 <= t6)
    (Hmissing : text_of (kv_get t1 (redis rt w) (key_of ip q)) = None)
    (Hfree : kv_get t1 (redis rt w) (own_lock ip q) = None)
    (Hfetch : forall r, fetch rt t2 true q p r (ext rt w) = Ret (s, recovered)) :
  let res := make_url rt t4 q p ip s (ext rt w) in
  exists w', run (at_times [t1; t2; t3; t4; t5; t6]) q (PCache rt ip) w = (PDone rt (answer_for (delivered q p res.1)), w') /\
    ext rt w' = res.2 /\
    tracked rt w' = (tracked rt w ++ tracked_for q p s (delivered q p res.1))%list /\
    to_persist rt w' = (to_persist rt w ++ if recovered then [s] else [])%list /\
    forall t, t6 <= t < t5 + URL_CACHE_EXP -> text_of (kv_get t (redis rt w') (key_of ip q)) = link_of res.1.
Proof.
  cbv zeta. destruct Htimes as (H12 & H23 & H34 & H45 & H56).
  destruct (until_flow q p ip w t1 t2 t3 s recovered (at_times [t4; t5; t6]) Hp H12 H23 Hmissing Hfree Hfetch)
    as (w3 & E3 & Hx3 & Hk3 & Hp3 & Hn3).
  destruct (after_flow q p ip w3 t3 t4 t5 t6 s _ _ Hp H34 H45 H56 Hn3 (surjective_pairing _)) as (w6 & E6 & Hx6 & Hk6 & Hp6 & Hl6).
  rewrite Hx3 in E6, Hx6, Hk6, Hl6. exists w6. split; [etransitivity; [exact E3|exact E6]|].
  by rewrite Hx6, Hk6, Hk3, Hp6, Hp3.
Qed.
End Service.


(** ** The torrent route on TorBox *)

Section OnTorbox.
Context {R} `{Redis R}.
Context (exn_text : py_exn -> string) (open_session : outcome DebridClient.error unit)
  (serve : list event -> DebridClient.request -> outcome DebridClient.error response) (depth : nat)
  (parse_title : string -> FileSelection.ptt_result) (parse_date : string -> option string)
  (get_series_data_by_id : string -> option FileSelection.SeriesMetadata)
  (persists : FileSelection.saved_update -> bool) (annotation_lock_free : bool).
(** Fields of a stream that [TorrentStream] leaves out. *)
Context (torrent_file : TorrentStream -> option string) (blocked : TorrentStream -> bool).

(** What outlives a request: the requests sent to the services, the streams
    saved and the requests for annotation. *)
Record account := mkAccount {
  sent_events : list event; saves : list FileSelection.saved_update; annotated : list string }.

Definition selection_file (f : StreamFileData) : FileSelection.StreamFileData :=
  FileSelection.mkStreamFile (Z.to_nat (file_index f)) (Media.filename f) (file_size f) (file_type f) (season_number f) (episode_number f).
Definition selection_stream (s : TorrentStream) : FileSelection.TorrentStream :=
  FileSelection.mkStream (default "" (info_hash (t_data s))) (stream_name (t_data s)) (t_meta_id s) (blocked s)
    (size_or_0 (t_data s)) (map selection_file (files_of (t_data s))).

(** [Torbox(token=streaming_provider.token)] *)
Definition torbox_client (a : torrent_args) (x : account) : state :=
  mkState (token (ta_provider a)) false [] false (sent_events x) (FileSelection.mkWorld (selection_stream (ta_stream a)) (saves x) (annotated x)).

(** [GET_VIDEO_URL_FUNCTIONS] with the flow of TorBox; the other flows are
    [others]. *)
Context (others : string -> torrent_args -> account -> outcome service_error value * account).
Definition video_url_function (svc : string) (a : torrent_args) (x : account) : outcome service_error value * account :=
  if String.eqb svc "torbox" then
    let '(r, s) := Torbox.get_video_url_from_torbox exn_text open_session serve depth parse_title parse_date get_series_data_by_id
                     persists annotation_lock_free (ta_info_hash a) (ta_magnet_link a) (torrent_file (ta_stream a)) (ta_filename a)
                     (ta_user_ip a) (ta_season a) (ta_episode a) (torbox_client a x) in
    (r, mkAccount (history s) (FileSelection.saved (DebridClient.world s)) (FileSelection.annotations (DebridClient.world s)))
  else others svc a x.

Section Plays.
Context (ip_is_private : string -> option bool) (bracketed_ok : string -> bool) (sha256_hex : string -> string)
  (ask_ip : string -> string -> account -> option string) (nzbdav : NzbdavDefaults) (host_url : string).
Context (digest : forall s, str_all NzbStorage.is_hex (sha256_hex s) = true /\ String.length (sha256_hex s) = 64%nat).
Context (magnet_from_string : string -> option (string * list string)) (heap : list Retry.exn) (postgres_read_uri : bool)
  (read_replica read_primary : account -> string -> nat -> outcome nat (option TorrentStream))
  (validate_stream : blob -> option TorrentStream) (settings : cache_settings).

Definition torbox_route : route R account :=
  torrent_route bracketed_ok magnet_from_string heap postgres_read_uri read_replica read_primary validate_stream
    video_url_function settings.

(** The arguments a request calls its flow with. *)
Definition args_of (q : request) (p : StreamingProvider) (ip : option string) (s : TorrentStream) (magnet : string) : torrent_args :=
  let '(filename, file_index) := torrent_file_choice (t_data s) (season q) (episode q) (req_filename q) in
  mkTorrentArgs (ident q) magnet p filename file_index ip (season q) (episode q) s.

Notation play ticks q ip w := (run_alone torbox_route ip_is_private bracketed_ok sha256_hex ask_ip nzbdav host_url ticks q (PCache torbox_route ip) w).

(** The flow of a request for a torrent that the account has. *)
Lemma torbox_flow q p ip s magnet x d l1 l2 t id fid files pfs idx url :
  service p = "torbox" -> depth = S d -> open_session = Ret tt ->
  Torbox.lists serve (l1 ++ VDict t :: l2) -> Torbox.links serve ip url ->
  Forall (fun u => Torbox.has_hash (ident q) u = Ret false) l1 -> Torbox.ready (ident q) t id files ->
  ProviderFlow.map_outcome (ProviderFlow.provider_file_of "short_name" "size") files = Ret pfs ->
  (FileSelection.select_file_index_from_torrent parse_title parse_date get_series_data_by_id persists annotation_lock_free pfs
     (ta_filename (args_of q p ip s magnet)) (season q) (episode q) None true false
     (DebridClient.world (torbox_client (args_of q p ip s magnet) x))).1 = Ret idx ->
  Torbox.id_at files idx = Ret fid ->
  convert_info_hash_to_magnet bracketed_ok magnet_from_string (ident q) (t_announce_list s) = Ret magnet ->
  exists x' r1 r2,
    get_or_create_video_url bracketed_ok magnet_from_string video_url_function (ident q) q p ip s x
    = (Ret (url id fid, ta_filename (args_of q p ip s magnet)), x') /\
    sent_events x' = Sent r2 :: Sent r1 :: sent_events x /\
    r_method r1 = "GET" /\ r_url r1 = "https://api.torbox.app/v1/api/torrents/mylist" /\
    r_method r2 = "GET" /\ r_url r2 = "https://api.torbox.app/v1/api/torrents/requestdl".
Proof.
  intros Hs Hd Ho Hl Hk Hb Hr Hf Hsel Hid Hm. unfold get_or_create_video_url. rewrite Hm. unfold args_of in *.
  destruct (torrent_file_choice _ _ _ _) as [filename file_index]. rewrite Hs. cbn [negb memb ta_filename] in *.
  unfold video_url_function. rewrite String.eqb_refl. cbn [ta_info_hash ta_magnet_link ta_stream ta_filename ta_user_ip ta_season ta_episode].
  rewrite Hd.
  destruct (Torbox.torbox_plays_ready exn_text open_session serve d parse_title parse_date get_series_data_by_id persists
    annotation_lock_free (ident q) magnet (torrent_file s) filename ip (season q) (episode q) _ l1 l2 t id fid files pfs idx url
    Ho Hl Hk Hb Hr Hf Hsel Hid) as (s' & r1 & r2 & E & Hh & Hrest).
  rewrite E. eexists _, r1, r2. split; [reflexivity|]. by split.
Qed.

(** [C34] A torrent that the user's TorBox account has downloaded is played: a
    request for it that finds neither its link in the cache nor its lock taken
    is redirected to the link that TorBox gives for the file the selection
    picks, through MediaFlow where it is asked for; TorBox is asked for the
    list and for the link, and nothing is added to the account; the playback is
    recorded, and the link cached for an hour. *)
Theorem torbox_torrent_plays (q : request) (p : StreamingProvider) (ip : option string) (w : world torbox_route)
    (t1 t2 t3 t4 t5 t6 : Z) (s : TorrentStream) (recovered : bool) (magnet u link : string)
    (d idx : nat) (l1 l2 files : list value) (t : list (string * value)) (id fid : value)
    (pfs : list FileSelection.provider_file) (url : value -> value -> value)
    (Hp : streaming_provider_of nzbdav q = Some p) (Hservice : service p = "torbox")
    (Htimes : t1 <= t2 /\ t2 <= t3 /\ t3 <= t4 /\ t4 <= t5 /\ t5 <= t6)
    (Hmissing : text_of (kv_get t1 (redis torbox_route w) (key_of torbox_route sha256_hex ip q)) = None)
    (Hfree : kv_get t1 (redis torbox_route w) (lock_key (key_of torbox_route sha256_hex ip q)) = None)
    (Hfetch : forall r, fetch torbox_route t2 true q p r (ext torbox_route w) = Ret (s, recovered))
    (Hmagnet : convert_info_hash_to_magnet bracketed_ok magnet_from_string (ident q) (t_announce_list s) = Ret magnet)
    (Hdepth : depth = S d) (Hopen : open_session = Ret tt)
    (Hlists : Torbox.lists serve (l1 ++ VDict t :: l2)) (Hlinks : Torbox.links serve ip url)
    (Hbefore : Forall (fun u => Torbox.has_hash (ident q) u = Ret false) l1) (Hready : Torbox.ready (ident q) t id files)
    (Hpfs : ProviderFlow.map_outcome (ProviderFlow.provider_file_of "short_name" "size") files = Ret pfs)
    (Hselect : (FileSelection.select_file_index_from_torrent parse_title parse_date get_series_data_by_id persists
                  annotation_lock_free pfs (ta_filename (args_of q p ip s magnet)) (season q) (episode q) None true false
                  (DebridClient.world (torbox_client (args_of q p ip s magnet) (ext torbox_route w)))).1 = Ret idx)
    (Hfile : Torbox.id_at files idx = Ret fid) (Hurl : url id fid = VStr u)
    (Hlink : delivered torbox_route bracketed_ok q p (Ret (VStr u, ta_filename (args_of q p ip s magnet))) = Ret link) :
  exists w' r1 r2,
    play (map (fun t => (t, true)) [t1; t2; t3; t4; t5; t6]) q ip w = (PDone torbox_route (Redirect 302 link), w') /\
    sent_events (ext torbox_route w') = Sent r2 :: Sent r1 :: sent_events (ext torbox_route w) /\
    r_method r1 = "GET" /\ r_url r1 = "https://api.torbox.app/v1/api/torrents/mylist" /\
    r_method r2 = "GET" /\ r_url r2 = "https://api.torbox.app/v1/api/torrents/requestdl" /\
    tracked torbox_route w' = (tracked torbox_route w ++ [tracking_of torbox_route q p s])%list /\
    forall t, t6 <= t < t5 + URL_CACHE_EXP ->
      text_of (kv_get t (redis torbox_route w') (key_of torbox_route sha256_hex ip q)) = nonempty (Some u).
Proof.
  destruct Htimes as (H12 & H23 & H34 & H45 & H56).
  destruct (torbox_flow q p ip s magnet (ext torbox_route w) d l1 l2 t id fid files pfs idx url Hservice Hdepth Hopen Hlists Hlinks
    Hbefore Hready Hpfs Hselect Hfile Hmagnet) as (x' & r1 & r2 & Eflow & Hsent & Hm1 & Hu1 & Hm2 & Hu2).
  destruct (until_flow torbox_route ip_is_private bracketed_ok sha256_hex ask_ip nzbdav host_url digest q p ip w t1 t2 t3 s recovered
    (map (fun t => (t, true)) [t4; t5; t6]) Hp H12 H23 Hmissing Hfree Hfetch) as (w3 & E3 & Hx3 & Hk3 & Hp3 & Hn3).
  rewrite Hurl in Eflow. rewrite <- Hx3 in Eflow.
  destruct (after_flow torbox_route ip_is_private bracketed_ok sha256_hex ask_ip nzbdav host_url digest q p ip w3 t3 t4 t5 t6 s _ _
    Hp H34 H45 H56 Hn3 Eflow) as (w6 & E6 & Hx6 & Hk6 & Hp6 & Hl6).
  rewrite Hlink in E6, Hk6. exists w6, r1, r2. split; [etransitivity; [exact E3|exact E6]|].
  rewrite Hx6, Hk6, Hk3. do 6 (split; [assumption || reflexivity|]). exact Hl6.
Qed.
End Plays.
End OnTorbox.

(** ** Witnesses *)

Notation toy_key := (key_of toy_route toy_digest (Some "5.6.7.8") (toy_request "t1" 2)).
Definition toy_provider : StreamingProvider := mkProvider "rd" "realdebrid" None None (Some "tok") None None [] false 0 true true.
Definition toy_result : outcome failure (value * option string) * nat :=
  make_url toy_route 103 (toy_request "t1" 2) toy_provider (Some "5.6.7.8") toy_stream 0%nat.

Lemma playback_follows_service_witness :
  delivered toy_route (fun _ => true) (toy_request "t1" 2) toy_provider toy_result.1 = Ret toy_link /\
  exists w', toy_run (map (fun t => (t, true)) [100; 101; 102; 103; 104; 105]) (toy_request "t1" 2) (PCache _ (Some "5.6.7.8")) toy_world
      = (PDone _ (answer_for "https://host.example" (delivered toy_route (fun _ => true) (toy_request "t1" 2) toy_provider toy_result.1)), w') /\
    ext _ w' = toy_result.2 /\
    tracked _ w' = (tracked _ toy_world ++ tracked_for toy_route (toy_request "t1" 2) toy_provider toy_stream
                     (delivered toy_route (fun _ => true) (toy_request "t1" 2) toy_provider toy_result.1))%list /\
    to_persist _ w' = (to_persist _ toy_world ++ [])%list /\
    forall t, 105 <= t < 104 + URL_CACHE_EXP -> text_of (kv_get t (redis _ w') toy_key) = link_of toy_result.1.
Proof.
  split; [vm_compute; reflexivity|].
  exact (playback_follows_service toy_route (fun _ => Some false) (fun _ => true) toy_digest (fun _ _ _ => None) (mkNzbdav None None)
    "https://host.example" toy_digest_ok (toy_request "t1" 2) toy_provider (Some "5.6.7.8") toy_world 100 101 102 103 104 105
    toy_stream false eq_refl ltac:(lia) (f_equal text_of (empty_get _ _)) (empty_get _ _) (fun r => eq_refl)).
Defined.

(** A TorBox account with the toy stream's torrent. *)
Definition toy_hash : string := "00443214c74254b635cf84653a56d7c675be77df".
Definition toy_torrent : list (string * value) :=
  [("id", VInt 77); ("hash", VStr toy_hash); ("download_finished", VBool true); ("download_present", VBool true);
   ("files", VList Torbox.example_files)].
Definition toy_service (h : list event) (r : DebridClient.request) : outcome DebridClient.error response :=
  if String.eqb (r_url r) "https://api.torbox.app/v1/api/torrents/mylist"
  then Ret (DebridProviders.ok_json (VDict [("success", VBool true); ("data", VList [VDict toy_torrent])]))
  else if String.eqb (r_url r) "https://api.torbox.app/v1/api/torrents/requestdl" then
    let p := default [] (r_params r) in
    Ret (DebridProviders.ok_json (VDict [("success", VBool true);
      ("data", Torbox.example_url (default VNone (dict_get "torrent_id" p)) (default VNone (dict_get "file_id" p)))]))
  else Ret (mkResponse 404 "application/json" (Ret "") (Ret (VDict [("detail", VStr "Not Found")]))).

Definition torbox_user : user :=
  mkUser (mkUserData [mkProvider "tb" "torbox" None None (Some "tok") None None [] false 0 true true] None [] [] RESOLUTIONS
    (FloatLimit (S754_infinity false)) 0 10 [] [] [] [] 25 Separate FilterDisabled [] false []) None (Some 3) (Some 4).
Definition torbox_request : request :=
  mkRequest "D-abc" "tb" toy_hash (Some 1) (Some 2) (Some "Show.E02.mkv") true false (mkClient None None (Some "1.2.3.4")) torbox_user "t1".

Definition toy_torbox : route store account :=
  torbox_route DebridProviders.no_text (Ret tt) toy_service 8 FileSelection.ptt_example (fun _ => None) (fun _ => None) (fun _ => true) true
    (fun _ => None) (fun _ => false) (fun _ _ x => (Raise (Python KeyError), x)) (fun _ => true) (fun _ => None) [] false
    (fun _ h _ => Ret (if String.eqb h toy_hash then Some toy_stream else None)) (fun _ _ _ => Ret None) (fun _ => None)
    (mkCacheSettings true false false).
Definition torbox_world : world toy_torbox := mkWorld toy_torbox empty_store (mkAccount [] [] []) [] [].
Definition torbox_run : pc toy_torbox * world toy_torbox :=
  run_alone toy_torbox (fun _ => Some false) (fun _ => true) toy_digest (fun _ _ _ => None) (mkNzbdav None None) "https://host.example"
    (map (fun t => (t, true)) [100; 101; 102; 103; 104; 105]) torbox_request (PCache _ (Some "1.2.3.4")) torbox_world.
Definition toy_magnet : string := match convert_info_hash_to_magnet (fun _ => true) (fun _ => None) toy_hash (t_announce_list toy_stream) with Ret m => m | Raise _ => "" end.

Lemma torbox_torrent_plays_witness :
  exists w' r1 r2, torbox_run = (PDone _ (Redirect 302 "https://cdn.example/77/12"), w') /\
    sent_events (ext _ w') = [Sent r2; Sent r1] /\
    r_method r1 = "GET" /\ r_url r1 = "https://api.torbox.app/v1/api/torrents/mylist" /\
    r_method r2 = "GET" /\ r_url r2 = "https://api.torbox.app/v1/api/torrents/requestdl" /\
    tracked _ w' = [tracking_of toy_torbox torbox_request (mkProvider "tb" "torbox" None None (Some "tok") None None [] false 0 true true) toy_stream] /\
    forall t, 105 <= t < 104 + URL_CACHE_EXP ->
      text_of (kv_get t (redis _ w') (key_of toy_torbox toy_digest (Some "1.2.3.4") torbox_request)) = Some "https://cdn.example/77/12".
Proof.
  refine (torbox_torrent_plays DebridProviders.no_text (Ret tt) toy_service 8 FileSelection.ptt_example (fun _ => None) (fun _ => None)
    (fun _ => true) true (fun _ => None) (fun _ => false) (fun _ _ x => (Raise (Python KeyError), x)) (fun _ => Some false) (fun _ => true)
    toy_digest (fun _ _ _ => None) (mkNzbdav None None) "https://host.example" toy_digest_ok (fun _ => None) [] false
    (fun _ h _ => Ret (if String.eqb h toy_hash then Some toy_stream else None)) (fun _ _ _ => Ret None) (fun _ => None)
    (mkCacheSettings true false false) torbox_request
    (mkProvider "tb" "torbox" None None (Some "tok") None None [] false 0 true true) (Some "1.2.3.4") torbox_world
    100 101 102 103 104 105 toy_stream false toy_magnet "https://cdn.example/77/12" "https://cdn.example/77/12" 7 2 [] []
    Torbox.example_files toy_torrent (VInt 77) (VInt 12)
    [FileSelection.mkFile "readme.txt" (Some 1); FileSelection.mkFile "Show.E01.mkv" (Some 5); FileSelection.mkFile "Show.E02.mkv" (Some 7)]
    Torbox.example_url eq_refl eq_refl ltac:(lia) (f_equal text_of (empty_get _ _)) (empty_get _ _) (fun r => eq_refl)
    _ eq_refl eq_refl _ _ _ _ _ _ _ eq_refl _).
  - vm_compute. reflexivity.
  - intros s. eexists. split; [eexists; split; [reflexivity|by split]|]. split; reflexivity.
  - intros i j s. eexists. split; [eexists; split; [reflexivity|by split]|]. split; reflexivity.
  - constructor.
  - split; [vm_compute; reflexivity|]. repeat split.
  - vm_compute. reflexivity.
  - vm_compute. reflexivity.
  - vm_compute. reflexivity.
  - vm_compute. reflexivity.
Defined.
