(* ===== verification/TelegramPlayback.v ===== *)
(** * Playing Telegram streams (api/routers/streaming/playback.py)

    A Telegram video is played from a copy that the bot sends to the user, once
    for each user and stream: [_get_or_create_user_forward] as a machine whose
    steps are the accesses to the database, Redis and Telegram, and any number
    of such requests at once.  The users' Telegram accounts and the bot's name do
    not change meanwhile; what Telegram answers is a parameter.  A send is one that
    Telegram acknowledges: a message that is delivered although its answer is lost
    counts as failed here, and the writes to the table of copies after a send do
    not fail. *)

From S2P Require Import DebridClient.
From S2P Require Export Playback TelegramFileId.
Local Open Scope string_scope.
Local Open Scope Z_scope.

(** A row of TelegramUserForward, without its keys. *)
Record Forward := mkForward { fw_telegram_user : Z; forwarded_chat_id : string; forwarded_message_id : Z }.

(** ** The bot's name (utils/telegram_bot.py) *)

(** [get_mediaflow_bot_peer] on the configured name and what [getMe] says. *)
Definition at_name (n : string) : string := "@" +:+ n.
Definition some_id (id : option Z) : option string := match id with Some z => if z =? 0 then None else Some (str_of_int z) | None => None end.
Definition get_mediaflow_bot_peer (telegram_bot_username : option string) (bot_id : option Z) (resolved_username : option string) :
    option string :=
  let configured := lstrip_of (Ascii.eqb "@") (strip (default "" telegram_bot_username)) in
  match nonempty (Some configured) with
  | Some configured =>
      match nonempty resolved_username, some_id bot_id with
      | Some r, Some id => if String.eqb (lower configured) (lower r) then Some (at_name configured) else Some id
      | _, _ => Some (at_name configured)
      end
  | None =>
      match some_id bot_id with
      | Some id => Some id
      | None => at_name <$> nonempty resolved_username
      end
  end.

(** ** The copy of a video for a user *)

Definition should_refresh_user_forward (existing : Forward) (expected_forwarded_chat_id : string) (telegram_user_id : Z) : bool :=
  let own := str_of_int telegram_user_id in
  (String.eqb (forwarded_chat_id existing) own && negb (String.eqb expected_forwarded_chat_id own))
  || (startswith "@" expected_forwarded_chat_id && startswith "@" (forwarded_chat_id existing)
      && negb (String.eqb (forwarded_chat_id existing) expected_forwarded_chat_id)).

Record fwd_request := mkFwdRequest {
  fq_stream : Z; fq_file_id : string; fq_user : Z; fq_name : option string; fq_token : string }.
Definition fq_key (q : fwd_request) : Z * Z := (fq_stream q, fq_user q).

Inductive fwd_result :=
  | Forwarded (f : Forward)
  | NotForwarded (e : failure).

(** Where a request is; [tg] is the user's Telegram account, [chat] the chat
    that MediaFlow should use. *)
Inductive fpc :=
  | FUser
  | FLook (tg : Z) (chat : string)
  | FLock (tg : Z) (chat : string)
  | FCheck (tg : Z) (chat : string) (held : Z)
  | FSend (tg : Z) (chat : string) (held : Z)
  | FStore (tg : Z) (chat : string) (held : Z) (message_id : Z)
  | FRace (held : Z)
  | FUnlock (held : Z) (res : fwd_result)
  | FEnd (res : fwd_result).

Definition forward_lock (k : Z * Z) : string := "telegram_forward:" +:+ str_of_int k.1 +:+ ":" +:+ str_of_int k.2.
(** The UTF-8 bytes of the clapper board before the name. *)
Definition caption (name : option string) : option string :=
  (fun n => String "240" (String "159" (String "142" (String "172" (String " " n))))) <$> nonempty name.

Section Forwarding.
Context {R} `{Redis R} {X : Type}.
(** [User.telegram_user_id], the bot's peer, and sendVideo: the identifier of
    the message, or [None] when it failed. *)
Context (telegram_user_of : Z -> option string) (bot_peer : option string)
  (send_video_to_user : X -> Z -> string -> option string -> option Z * X).

Definition resolve_mediaflow_forward_chat_id (tg : Z) : string := default (str_of_int tg) (nonempty bot_peer).

Record fworld := mkFworld {
  f_redis : R; forwards : gmap (Z * Z) Forward; sent_videos : list (Z * Z); services : X }.
Definition with_f_redis (r : R) (w : fworld) : fworld := mkFworld r (forwards w) (sent_videos w) (services w).
Definition with_forwards (f : gmap (Z * Z) Forward) (w : fworld) : fworld := mkFworld (f_redis w) f (sent_videos w) (services w).

Definition fresh (f : Forward) (chat : string) (tg : Z) : bool := negb (should_refresh_user_forward f chat tg).
Definition cached_forward (q : fwd_request) (chat : string) (tg : Z) (w : fworld) : option Forward :=
  match forwards w !! fq_key q with Some f => if fresh f chat tg then Some f else None | None => None end.

Definition fwd_step (now : Z) (up : bool) (q : fwd_request) (c : fpc) (w : fworld) : option (fpc * fworld) :=
  match c with
  | FUser =>
      match nonempty (telegram_user_of (fq_user q)) with
      | None => Some (FEnd (NotForwarded (HttpFailure 400 "Link your Telegram account first. Send /login to the MediaFusion bot.")), w)
      | Some s =>
          match int_of_string s with
          | Raise e => Some (FEnd (NotForwarded (Failed (Python e))), w)
          | Ret tg => Some (FLook tg (resolve_mediaflow_forward_chat_id tg), w)
          end
      end
  | FLook tg chat => Some (match cached_forward q chat tg w with Some f => FEnd (Forwarded f) | None => FLock tg chat end, w)
  | FLock tg chat =>
      if up then r ← try_lock now (forward_lock (fq_key q)) (fq_token q) (f_redis w); Some (FCheck tg chat now, with_f_redis r w)
      else Some (FEnd (NotForwarded redis_down), w)
  | FCheck tg chat held =>
      match cached_forward q chat tg w with
      | Some f => Some (FUnlock held (Forwarded f), w)
      | None => Some (FSend tg chat held, with_forwards (delete (fq_key q) (forwards w)) w)
      end
  | FSend tg chat held =>
      let '(res, x) := send_video_to_user (services w) tg (fq_file_id q) (caption (fq_name q)) in
      match res with
      | Some m => Some (FStore tg chat held m, mkFworld (f_redis w) (forwards w) (fq_key q :: sent_videos w) x)
      | None => Some (FUnlock held (NotForwarded (HttpFailure 502
                  "Failed to send video to your Telegram. Make sure you've started the bot with /start.")),
                  mkFworld (f_redis w) (forwards w) (sent_videos w) x)
      end
  | FStore tg chat held m =>
      match forwards w !! fq_key q with
      | Some _ => Some (FRace held, w)
      | None => let f := mkForward tg chat m in Some (FUnlock held (Forwarded f), with_forwards (<[fq_key q := f]> (forwards w)) w)
      end
  | FRace held =>
      Some (FUnlock held (match forwards w !! fq_key q with Some f => Forwarded f | None => NotForwarded (generic "IntegrityError") end), w)
  | FUnlock held res =>
      if up then Some (FEnd res, with_f_redis (release_redis_lock now (forward_lock (fq_key q)) (fq_token q) (f_redis w)) w)
      else Some (FEnd (NotForwarded redis_down), w)
  | FEnd _ => None
  end.
End Forwarding.
Arguments mkFworld {R X} _ _ _ _.
Arguments f_redis {R X} _.
Arguments forwards {R X} _.
Arguments sent_videos {R X} _.
Arguments services {R X} _.

(** ** Requests at the same time *)

Definition holds (c : fpc) : option Z :=
  match c with FCheck _ _ h | FSend _ _ h | FStore _ _ h _ | FRace h | FUnlock h _ => Some h | _ => None end.

Section Runs.
Context {R} `{Redis R} {X : Type}.
Context (telegram_user_of : Z -> option string) (bot_peer : option string)
  (send_video_to_user : X -> Z -> string -> option string -> option Z * X).
Notation next := (fwd_step telegram_user_of bot_peer send_video_to_user).
Notation resolve := (resolve_mediaflow_forward_chat_id bot_peer).

Record fconfig := mkFConfig { f_clock : Z; f_requests : list (fwd_request * fpc); f_world : @fworld R X }.

(** Every request that holds its lock is done before it runs out. *)
Definition timely (now : Z) (rs : list (fwd_request * fpc)) : Prop :=
  Forall (fun qc => match holds qc.2 with Some h => now < h + LOCK_TIMEOUT | None => True end) rs.

Inductive fmoves : fconfig -> fconfig -> Prop :=
  | fmoves_request now now' up i q c c' rs w w' :
      rs !! i = Some (q, c) -> now <= now' -> timely now' rs -> next now' up q c w = Some (c', w') ->
      fmoves (mkFConfig now rs w) (mkFConfig now' (<[i := (q, c')]> rs) w')
  | fmoves_services now x rs w :
      fmoves (mkFConfig now rs w) (mkFConfig now rs (mkFworld (f_redis w) (forwards w) (sent_videos w) x))
  | fmoves_others now r rs w :
      (forall k t, now <= t -> kv_get t r (forward_lock k) = kv_get t (f_redis w) (forward_lock k)) ->
      fmoves (mkFConfig now rs w) (mkFConfig now rs (with_f_redis r w)).

(** New requests with tokens of their own, and nothing sent yet. *)
Definition f_initial (s : fconfig) : Prop :=
  Forall (fun qc => qc.2 = FUser) (f_requests s) /\ NoDup (map (fun qc => fq_token qc.1) (f_requests s)) /\ sent_videos (f_world s) = [].

(** A request knows its user's account and the bot's chat. *)
Definition knows (q : fwd_request) (tg : Z) (chat : string) : Prop :=
  exists s, telegram_user_of (fq_user q) = Some s /\ int_of_string s = Ret tg /\ chat = resolve tg.
Definition knowing (q : fwd_request) (c : fpc) : Prop :=
  match c with FLook tg chat | FLock tg chat | FCheck tg chat _ | FSend tg chat _ | FStore tg chat _ _ => knows q tg chat | _ => True end.

Lemma knows_same q q' tg chat tg' chat' : knows q tg chat -> knows q' tg' chat' -> fq_user q = fq_user q' -> tg = tg' /\ chat = chat'.
Proof. intros (s & Hs & Ht & ->) (s' & Hs' & Ht' & ->) E. rewrite <- E, Hs in Hs'. injection Hs' as <-. rewrite Ht in Ht'. by injection Ht' as <-. Qed.

(** A copy just made is not made again. *)
Lemma new_forward_fresh tg chat m : fresh (mkForward tg chat m) chat tg = true.
Proof.
  unfold fresh, should_refresh_user_forward. cbn. rewrite String.eqb_refl, andb_false_r, orb_false_r. by destruct (String.eqb chat _).
Qed.

Definition sends_of (k : Z * Z) (w : @fworld R X) : nat := length (List.filter (fun k' => bool_decide (k' = k)) (sent_videos w)).

(** What is true of the copy for a key.  [unsent]: nothing sent; [storing]: a
    request has sent the video and is to store the copy; [stored]. *)
Definition sending (c : fpc) : bool := match c with FSend _ _ _ => true | _ => false end.
Definition storing (c : fpc) : bool := match c with FStore _ _ _ _ => true | _ => false end.
Definition on (k : Z * Z) (p : fpc -> bool) (rs : list (fwd_request * fpc)) : Prop :=
  exists i q c, rs !! i = Some (q, c) /\ fq_key q = k /\ p c = true.
Definition stored_copy (k : Z * Z) (w : @fworld R X) : Prop :=
  exists f, forwards w !! k = Some f /\ forall q tg chat, knows q tg chat -> fq_user q = k.2 -> fresh f chat tg = true.

Record copies_ok (s : fconfig) (k : Z * Z) : Prop := {
  copy_state : (sends_of k (f_world s) = 0%nat /\ ~ on k storing (f_requests s)) \/
               (sends_of k (f_world s) = 1%nat /\ on k storing (f_requests s) /\ forwards (f_world s) !! k = None) \/
               (sends_of k (f_world s) = 1%nat /\ ~ on k storing (f_requests s) /\ ~ on k sending (f_requests s) /\ stored_copy k (f_world s));
  copy_absent : on k sending (f_requests s) -> forwards (f_world s) !! k = None }.

Record f_ok (s : fconfig) : Prop := {
  f_tokens : NoDup (map (fun qc => fq_token qc.1) (f_requests s));
  f_know i q c : f_requests s !! i = Some (q, c) -> knowing q c;
  f_locked i q c h : f_requests s !! i = Some (q, c) -> holds c = Some h ->
    h <= f_clock s /\ forall t, f_clock s <= t < h + LOCK_TIMEOUT ->
      kv_get t (f_redis (f_world s)) (forward_lock (fq_key q)) = Some (BText (fq_token q));
  f_copies k : copies_ok s k }.

(** Two requests do not hold the same lock. *)
Lemma holders_same s i j q q' c c' h h' : f_ok s -> timely (f_clock s) (f_requests s) ->
  f_requests s !! i = Some (q, c) -> f_requests s !! j = Some (q', c') -> holds c = Some h -> holds c' = Some h' ->
  fq_key q = fq_key q' -> i = j.
Proof.
  intros Hok Ht Hi Hj Hh Hh' Hk. unfold timely in Ht. rewrite Forall_lookup in Ht.
  pose proof (Ht _ _ Hi) as T1. pose proof (Ht _ _ Hj) as T2. cbn in T1, T2. rewrite Hh in T1. rewrite Hh' in T2.
  destruct (f_locked s Hok i q c h Hi Hh) as [_ L1]. destruct (f_locked s Hok j q' c' h' Hj Hh') as [_ L2].
  specialize (L1 (f_clock s) ltac:(lia)). specialize (L2 (f_clock s) ltac:(lia)). rewrite Hk, L2 in L1. injection L1 as E.
  eapply NoDup_lookup; [exact (f_tokens s Hok)| |]; rewrite list_lookup_fmap, ?Hi, ?Hj; cbn; [reflexivity|by rewrite E].
Qed.

(** What one step does. *)
Lemma fwd_step_knows now up q c w c' w' : next now up q c w = Some (c', w') -> knowing q c -> knowing q c'.
Proof.
  intros Hs Hk. destruct c as [|tg chat|tg chat|tg chat h|tg chat h|tg chat h m|h|h res|res]; cbn in Hs, Hk.
  - destruct (telegram_user_of (fq_user q)) as [u|] eqn:Eu; [|by injection Hs as <- _].
    destruct (nonempty (Some u)) as [v|] eqn:En; [|by injection Hs as <- _].
    assert (v = u) as -> by (destruct u; by simplify_eq/=).
    destruct (int_of_string u) eqn:Ei; injection Hs as <- _; [|done]. by exists u.
  - destruct (cached_forward _ _ _ _); by injection Hs as <- _.
  - destruct up; [destruct (try_lock _ _ _ _); [|done]|]; by injection Hs as <- _.
  - destruct (cached_forward _ _ _ _); by injection Hs as <- _.
  - destruct (send_video_to_user _ _ _ _) as [[m|] x]; by injection Hs as <- _.
  - destruct (forwards w !! _); by injection Hs as <- _.
  - by injection Hs as <- _.
  - destruct up; by injection Hs as <- _.
  - done.
Qed.

Lemma fwd_step_holds now up q c w c' w' : next now up q c w = Some (c', w') ->
  holds c' = match c with FLock _ _ => if up then Some now else None | FUnlock _ _ => None | _ => holds c end.
Proof.
  intros Hs. destruct c as [|tg chat|tg chat|tg chat h|tg chat h|tg chat h m|h|h res|res]; cbn in Hs.
  - destruct (nonempty _); [destruct (int_of_string _)|]; by injection Hs as <- _.
  - destruct (cached_forward _ _ _ _); by injection Hs as <- _.
  - destruct up; [destruct (try_lock _ _ _ _); [|done]|]; by injection Hs as <- _.
  - destruct (cached_forward _ _ _ _); by injection Hs as <- _.
  - destruct (send_video_to_user _ _ _ _) as [[m|] x]; by injection Hs as <- _.
  - destruct (forwards w !! _); by injection Hs as <- _.
  - by injection Hs as <- _.
  - destruct up; by injection Hs as <- _.
  - done.
Qed.

(** A step keeps a lock that another token holds. *)
Lemma fwd_step_keeps now up q c w c' w' lk tk until : next now up q c w = Some (c', w') -> fq_token q <> tk -> now < until ->
  (forall t, now <= t < until -> kv_get t (f_redis w) lk = Some (BText tk)) ->
  forall t, now <= t < until -> kv_get t (f_redis w') lk = Some (BText tk).
Proof.
  intros Hs Hne Hu Hk t Ht. assert (Hsame : f_redis w' = f_redis w -> kv_get t (f_redis w') lk = Some (BText tk)) by (intros ->; by apply Hk).
  destruct c as [|tg chat|tg chat|tg chat h|tg chat h|tg chat h m|h|h res|res]; cbn in Hs.
  - destruct (nonempty _); [destruct (int_of_string _)|]; injection Hs as _ <-; by apply Hsame.
  - destruct (cached_forward _ _ _ _); injection Hs as _ <-; by apply Hsame.
  - destruct up; [|injection Hs as _ <-; by apply Hsame]. unfold try_lock in Hs.
    destruct (kv_get now (f_redis w) (forward_lock (fq_key q))) eqn:E; [done|]. injection Hs as _ <-. cbn.
    rewrite kv_set_other; [by apply Hk|lia|]. intros El. rewrite El, (Hk now) in E by lia. done.
  - destruct (cached_forward _ _ _ _); injection Hs as _ <-; by apply Hsame.
  - destruct (send_video_to_user _ _ _ _) as [[m|] x]; injection Hs as _ <-; by apply Hsame.
  - destruct (forwards w !! _); injection Hs as _ <-; by apply Hsame.
  - injection Hs as _ <-; by apply Hsame.
  - destruct up; [|injection Hs as _ <-; by apply Hsame]. injection Hs as _ <-. cbn. rewrite release_locks by lia.
    rewrite (Hk now) by lia. cbn [owned_by]. rewrite (proj2 (String.eqb_neq tk _)) by congruence. rewrite andb_false_r. by apply Hk.
  - done.
Qed.

(** Only taking and giving back the lock change Redis. *)
Lemma fwd_step_redis now up q c w c' w' h : next now up q c w = Some (c', w') -> holds c = Some h -> is_Some (holds c') -> f_redis w' = f_redis w.
Proof.
  intros Hs Hh Hh'. destruct c as [|tg chat|tg chat|tg chat h0|tg chat h0|tg chat h0 m|h0|h0 res|res]; cbn in Hs, Hh; try done.
  - destruct (cached_forward _ _ _ _); by injection Hs as _ <-.
  - destruct (send_video_to_user _ _ _ _) as [[m|] x]; by injection Hs as _ <-.
  - destruct (forwards w !! _); by injection Hs as _ <-.
  - by injection Hs as _ <-.
  - destruct up; injection Hs as <- _; by destruct Hh'.
Qed.

Lemma fwd_tokens_kept i q c c' rs : rs !! i = Some (q, c) ->
  map (fun qc => fq_token qc.1) (<[i := (q, c')]> rs) = map (fun qc : fwd_request * fpc => fq_token qc.1) rs.
Proof.
  intros Hi. apply list_eq. intros j. rewrite !list_lookup_fmap. destruct (decide (j = i)) as [->|Hne].
  - rewrite list_lookup_insert_eq by (by eapply lookup_lt_Some). by rewrite Hi.
  - by rewrite list_lookup_insert_ne.
Qed.

(** The locks after a step of request [i]. *)
Lemma fwd_locked_step now now' up i q c c' rs w w' : f_ok (mkFConfig now rs w) -> now <= now' -> timely now' rs ->
  rs !! i = Some (q, c) -> next now' up q c w = Some (c', w') ->
  forall j q1 c1 h, <[i := (q, c')]> rs !! j = Some (q1, c1) -> holds c1 = Some h ->
    h <= now' /\ forall t, now' <= t < h + LOCK_TIMEOUT -> kv_get t (f_redis w') (forward_lock (fq_key q1)) = Some (BText (fq_token q1)).
Proof.
  intros Hok Hn Ht Hi Hs j q1 c1 h Hj Hh. pose proof (f_locked _ Hok) as Hl. cbn in Hl. unfold timely in Ht. rewrite Forall_lookup in Ht.
  destruct (decide (j = i)) as [->|Hne].
  - rewrite list_lookup_insert_eq in Hj by (by eapply lookup_lt_Some). injection Hj as <- <-.
    pose proof (fwd_step_holds _ _ _ _ _ _ _ Hs) as Hh'. rewrite Hh in Hh'. symmetry in Hh'.
    assert (Hkeep : forall h0, holds c = Some h0 -> is_Some (holds c') -> h0 <= now' /\ forall t, now' <= t < h0 + LOCK_TIMEOUT ->
              kv_get t (f_redis w') (forward_lock (fq_key q)) = Some (BText (fq_token q))).
    { intros h0 Hc Hc'. destruct (Hl i q c h0 Hi Hc) as [H1 H2]. split; [lia|]. intros t Ht'.
      rewrite (fwd_step_redis _ _ _ _ _ _ _ _ Hs Hc Hc'). apply H2. lia. }
    assert (Hc' : is_Some (holds c')) by by eexists.
    destruct c as [|tg chat|tg chat|tg chat h0|tg chat h0|tg chat h0 m|h0|h0 res|res]; cbn in Hh'; try done;
      try (injection Hh' as ->; by apply Hkeep).
    destruct up; [|done]. injection Hh' as <-. split; [lia|]. intros t Ht'. cbn in Hs. unfold try_lock in Hs.
    destruct (kv_get now' (f_redis w) _); [done|]. injection Hs as _ <-. cbn. rewrite kv_get_set, String.eqb_refl by lia.
    by rewrite (proj2 (Z.leb_gt _ _)) by lia.
  - rewrite list_lookup_insert_ne in Hj by done. destruct (Hl j q1 c1 h Hj Hh) as [H1 H2]. split; [lia|].
    pose proof (Ht _ _ Hj) as Hlive. cbn in Hlive. rewrite Hh in Hlive.
    eapply fwd_step_keeps; [exact Hs| |exact Hlive|intros t Ht'; apply H2; lia].
    intros E. apply Hne. symmetry. eapply NoDup_lookup; [exact (f_tokens _ Hok)| |]; cbn; rewrite list_lookup_fmap, ?Hi, ?Hj; cbn; [reflexivity|by rewrite E].
Qed.

(** *** The copies *)

Definition elsewhere (i : nat) (k : Z * Z) (p : fpc -> bool) (rs : list (fwd_request * fpc)) : Prop :=
  exists j q c, j <> i /\ rs !! j = Some (q, c) /\ fq_key q = k /\ p c = true.

Lemma on_split i q c k p rs : rs !! i = Some (q, c) -> on k p rs <-> (fq_key q = k /\ p c = true) \/ elsewhere i k p rs.
Proof.
  intros Hi. split.
  - intros (j & q1 & c1 & Hj & Hk & Hp). destruct (decide (j = i)) as [->|Hne].
    + rewrite Hi in Hj. injection Hj as <- <-. by left.
    + right. by exists j, q1, c1.
  - intros [[Hk Hp]|(j & q1 & c1 & _ & Hj & Hk & Hp)]; [by exists i, q, c|by exists j, q1, c1].
Qed.

Lemma elsewhere_insert i q c' k p rs : elsewhere i k p (<[i := (q, c')]> rs) <-> elsewhere i k p rs.
Proof. split; intros (j & q1 & c1 & Hne & Hj & Hp); exists j, q1, c1; split; try done; split; try done; [by rewrite list_lookup_insert_ne in Hj|by rewrite list_lookup_insert_ne]. Qed.

Lemma on_insert i q c c' k p rs : rs !! i = Some (q, c) ->
  on k p (<[i := (q, c')]> rs) <-> (fq_key q = k /\ p c' = true) \/ elsewhere i k p rs.
Proof.
  intros Hi. rewrite (on_split i q c' k p) by (apply list_lookup_insert_eq; by eapply lookup_lt_Some). by rewrite elsewhere_insert.
Qed.

Lemma on_unchanged i q c c' k p rs : rs !! i = Some (q, c) -> fq_key q <> k \/ p c' = p c ->
  on k p (<[i := (q, c')]> rs) <-> on k p rs.
Proof. intros Hi Hp. rewrite (on_insert i q c c' k p rs Hi), (on_split i q c k p rs Hi). destruct Hp as [Hp | ->]; tauto. Qed.

Lemma copies_same now now' i q c c' rs w w' k : copies_ok (mkFConfig now rs w) k -> rs !! i = Some (q, c) ->
  fq_key q <> k \/ (storing c' = storing c /\ sending c' = sending c) -> sent_videos w' = sent_videos w \/ sends_of k w' = sends_of k w ->
  forwards w' !! k = forwards w !! k -> copies_ok (mkFConfig now' (<[i := (q, c')]> rs) w') k.
Proof.
  intros [Hst Hab] Hi Hc Hse Hf. assert (Hn : sends_of k w' = sends_of k w) by (destruct Hse as [E|E]; [unfold sends_of; by rewrite E|done]).
  cbn in Hst, Hab. assert (Hs1 : on k storing (<[i := (q, c')]> rs) <-> on k storing rs) by (apply (on_unchanged i q c); tauto).
  assert (Hs2 : on k sending (<[i := (q, c')]> rs) <-> on k sending rs) by (apply (on_unchanged i q c); tauto).
  split; cbn; [|by rewrite Hs2, Hf]. unfold stored_copy in *. rewrite Hn, Hf, Hs1, Hs2. exact Hst.
Qed.

(** Nobody else sends or stores for the key of a request that holds its lock. *)
Lemma nobody_elsewhere now now' i q c h rs w p : f_ok (mkFConfig now rs w) -> now <= now' -> timely now' rs -> rs !! i = Some (q, c) ->
  holds c = Some h -> (forall c1, p c1 = true -> is_Some (holds c1)) -> ~ elsewhere i (fq_key q) p rs.
Proof.
  intros Hok Hn Ht Hi Hh Hp (j & q1 & c1 & Hne & Hj & Hk & Hp1). destruct (Hp c1 Hp1) as [h1 Hh1].
  apply Hne. eapply (holders_same (mkFConfig now rs w)); [exact Hok| |exact Hj|exact Hi|exact Hh1|exact Hh|done].
  cbn. unfold timely in *. eapply Forall_impl; [exact Ht|]. intros [q2 c2]. cbn. destruct (holds c2); [lia|done].
Qed.

Lemma storing_holds c : storing c = true -> is_Some (holds c).
Proof. by destruct c. Qed.
Lemma sending_holds c : sending c = true -> is_Some (holds c).
Proof. by destruct c. Qed.

Ltac nobody Hno := intros [[_ E]|E]; [discriminate E|destruct (Hno E)].

Lemma copies_step now now' up i q c c' rs w w' : f_ok (mkFConfig now rs w) -> now <= now' -> timely now' rs ->
  rs !! i = Some (q, c) -> next now' up q c w = Some (c', w') -> forall k, copies_ok (mkFConfig now' (<[i := (q, c')]> rs) w') k.
Proof.
  intros Hok Hn Ht Hi Hs k. pose proof (f_copies _ Hok k) as Hc. pose proof (f_know _ Hok i q c Hi) as Hk.
  pose proof (nobody_elsewhere now now' i q c) as Hno.
  assert (Hst : forall h, holds c = Some h -> ~ elsewhere i (fq_key q) storing rs) by (intros h Hh; by eapply Hno, storing_holds).
  assert (Hse : forall h, holds c = Some h -> ~ elsewhere i (fq_key q) sending rs) by (intros h Hh; by eapply Hno, sending_holds).
  assert (Hquiet : storing c' = storing c -> sending c' = sending c -> forwards w' = forwards w -> sent_videos w' = sent_videos w ->
    copies_ok (mkFConfig now' (<[i := (q, c')]> rs) w') k).
  { intros H1 H2 H3 H4. apply (copies_same now now' i q c c' rs w w' k Hc Hi); [by right|by left|by rewrite H3]. }
  destruct c as [|tg chat|tg chat|tg chat h|tg chat h|tg chat h m|h|h res|res]; cbn in Hs, Hk.
  - destruct (nonempty _); [destruct (int_of_string _)|]; injection Hs as <- <-; by apply Hquiet.
  - destruct (cached_forward _ _ _ _); injection Hs as <- <-; by apply Hquiet.
  - destruct up; [destruct (try_lock _ _ _ _); [|done]|]; injection Hs as <- <-; by apply Hquiet.
  - destruct (cached_forward _ _ _ _) as [f|] eqn:Ec; injection Hs as <- <-; [by apply Hquiet|].
    destruct (decide (fq_key q = k)) as [<-|Hne].
    2: { apply (copies_same now now' i q _ _ rs w _ k Hc Hi); [by left|by left|]. cbn. by rewrite lookup_delete_ne. }
    specialize (Hst h eq_refl). destruct Hc as [Hc _]. cbn in Hc. rewrite (on_split i q _ _ storing rs Hi) in Hc.
    split; cbn; [|intros _; apply lookup_delete_eq]. left. rewrite (on_insert i q _ _ _ storing rs Hi).
    destruct Hc as [[H1 H2]|[(_ & H2 & _)|(_ & _ & _ & f & Hf & Hfr)]]; [split; [done|by nobody Hst]|exfalso; revert H2; by nobody Hst|].
    exfalso. unfold cached_forward in Ec. rewrite Hf, (Hfr q tg chat Hk eq_refl) in Ec. done.
  - destruct (send_video_to_user _ _ _ _) as [[m|] x]; injection Hs as <- <-.
    all: destruct (decide (fq_key q = k)) as [<-|Hne].
    2: { apply (copies_same now now' i q _ _ rs w _ k Hc Hi); [by left| |done]. right. unfold sends_of. cbn. by rewrite bool_decide_eq_false_2. }
    3: { apply (copies_same now now' i q _ _ rs w _ k Hc Hi); [by left|by left|done]. }
    all: specialize (Hst h eq_refl); specialize (Hse h eq_refl); destruct Hc as [Hc Hab]; cbn in Hc, Hab;
      rewrite (on_split i q _ _ storing rs Hi), (on_split i q _ _ sending rs Hi) in Hc; rewrite (on_split i q _ _ sending rs Hi) in Hab;
      specialize (Hab (or_introl (conj eq_refl eq_refl)));
      destruct Hc as [[H1 H2]|[(_ & H2 & _)|(_ & _ & H3 & _)]]; [|exfalso; revert H2; by nobody Hst|destruct H3; by left].
    + split; cbn; [|done]. right. left. unfold sends_of in *. cbn. rewrite bool_decide_eq_true_2 by done. cbn. rewrite H1.
      split; [done|]. split; [|done]. rewrite (on_insert i q _ _ _ storing rs Hi). by left.
    + split; cbn; rewrite ?(on_insert i q _ _ _ storing rs Hi), ?(on_insert i q _ _ _ sending rs Hi); [left|by intros _].
      split; [done|by nobody Hst].
  - destruct (decide (fq_key q = k)) as [<-|Hne].
    2: { destruct (forwards w !! _); injection Hs as <- <-; apply (copies_same now now' i q _ _ rs w _ k Hc Hi); try (by left); [done|].
         cbn. by rewrite lookup_insert_ne. }
    specialize (Hst h eq_refl). specialize (Hse h eq_refl). destruct Hc as [Hc _]. cbn in Hc.
    rewrite (on_split i q _ _ storing rs Hi), (on_split i q _ _ sending rs Hi) in Hc.
    destruct Hc as [[_ H2]|[(H1 & _ & Hf)|(_ & H2 & _)]]; [destruct H2; by left| |destruct H2; by left].
    rewrite Hf in Hs. injection Hs as <- <-. split; cbn; rewrite ?(on_insert i q _ _ _ storing rs Hi), ?(on_insert i q _ _ _ sending rs Hi); [|intros H2; exfalso; revert H2; by nobody Hse].
    right. right. split; [done|]. split; [by nobody Hst|]. split; [by nobody Hse|]. eexists. split; [apply lookup_insert_eq|].
    intros q' tg' chat' Hk' Hu. destruct (knows_same _ _ _ _ _ _ Hk Hk' (eq_sym Hu)) as [<- <-]. apply new_forward_fresh.
  - injection Hs as <- <-; by apply Hquiet.
  - destruct up; injection Hs as <- <-; by apply Hquiet.
  - done.
Qed.

Lemma initial_f_ok s : f_initial s -> f_ok s.
Proof.
  intros (Hu & Ht & Hs). rewrite Forall_lookup in Hu.
  assert (Hc : forall i q c, f_requests s !! i = Some (q, c) -> c = FUser) by (intros i q c Hi; exact (Hu i _ Hi)).
  split; [done| | |].
  - intros i q c Hi. by rewrite (Hc _ _ _ Hi).
  - intros i q c h Hi Hh. by rewrite (Hc _ _ _ Hi) in Hh.
  - intros k. split.
    + left. split; [unfold sends_of; by rewrite Hs|]. intros (i & q & c & Hi & _ & Hp). by rewrite (Hc _ _ _ Hi) in Hp.
    + intros (i & q & c & Hi & _ & Hp). by rewrite (Hc _ _ _ Hi) in Hp.
Qed.

Lemma fmoves_f_ok s s' : fmoves s s' -> f_ok s -> f_ok s'.
Proof.
  intros Hm Hok. destruct Hm as [now now' up i q c c' rs w w' Hi Hn Ht Hs|now x rs w|now r rs w Hr].
  - split; cbn.
    + rewrite (fwd_tokens_kept i q c) by done. exact (f_tokens _ Hok).
    + intros j q1 c1 Hj. destruct (decide (j = i)) as [->|Hne].
      * rewrite list_lookup_insert_eq in Hj by (by eapply lookup_lt_Some). injection Hj as <- <-.
        eapply fwd_step_knows; [exact Hs|]. exact (f_know _ Hok i q c Hi).
      * rewrite list_lookup_insert_ne in Hj by done. exact (f_know _ Hok j q1 c1 Hj).
    + by eapply fwd_locked_step.
    + by eapply copies_step.
  - destruct Hok as [H1 H2 H3 H4]. split; try assumption. intros k. destruct (H4 k) as [H5 H6]. by split.
  - destruct Hok as [H1 H2 H3 H4]. split; try assumption.
    + intros j q c h Hj Hh. cbn in *. destruct (H3 j q c h Hj Hh) as [H5 H6]. split; [done|]. intros t Ht. rewrite Hr by lia. by apply H6.
    + intros k. destruct (H4 k) as [H5 H6]. by split.
Qed.

(** [C37] A Telegram video is sent to a user once: whatever requests for it
    there are and however their steps are interleaved, while each of them gives
    its lock back before it runs out, at most one send of the video to the user
    is acknowledged by Telegram, whether or not there was an older copy. *)
Theorem telegram_sent_once (s0 s : fconfig) (k : Z * Z) (H0 : f_initial s0) (Hr : rtc fmoves s0 s) :
  (sends_of k (f_world s) <= 1)%nat.
Proof.
  assert (Hok : f_ok s).
  { apply initial_f_ok in H0. induction Hr as [|s0 s1 s2 Hm _ IH]; [done|]. apply IH. by eapply fmoves_f_ok. }
  destruct (f_copies s Hok k) as [[[H1 _]|[[H1 _]|[H1 _]]] _]; lia.
Qed.

(** Steps in a given order, those that are blocked or late left out. *)
Definition in_time (now : Z) (c : fpc) : bool := match holds c with Some h => now <? h + LOCK_TIMEOUT | None => true end.
Fixpoint fschedule (l : list (nat * Z)) (s : fconfig) : fconfig :=
  match l with
  | [] => s
  | (i, now) :: l =>
      match f_requests s !! i with
      | Some (q, c) =>
          if (f_clock s <=? now) && forallb (fun qc => in_time now qc.2) (f_requests s) then
            match next now true q c (f_world s) with
            | Some (c', w') => fschedule l (mkFConfig now (<[i := (q, c')]> (f_requests s)) w')
            | None => fschedule l s
            end
          else fschedule l s
      | None => fschedule l s
      end
  end.

Lemma fschedule_moves l : forall s, rtc fmoves s (fschedule l s).
Proof.
  induction l as [|[i now] l IH]; intros s; cbn [fschedule]; [done|].
  destruct (f_requests s !! i) as [[q c]|] eqn:Ei; [|done]. destruct (_ && _) eqn:Eb; [|done].
  apply andb_true_iff in Eb as [Hn Ht]. apply Z.leb_le in Hn.
  destruct (next now true q c (f_world s)) as [[c' w']|] eqn:Es; [|done].
  eapply rtc_l; [|apply IH]. destruct s as [t rs w]. eapply fmoves_request; [exact Ei|exact Hn| |exact Es].
  apply Forall_forall. intros [q1 c1] Hin. rewrite forallb_forall in Ht. specialize (Ht (q1, c1) (proj1 (list_elem_of_In _ _) Hin)).
  cbn in Ht |- *. unfold in_time in Ht. destruct (holds c1); [by apply Z.ltb_lt|done].
Qed.
End Runs.

(** ** Links *)

(** [_splitparams], for a path with a slash. *)
Definition split_params (p : string) : string * string :=
  let last := after_last "/" p in
  let '(a, _, b) := Urls.partition ";" last in
  (str_take (String.length p - String.length last) p +:+ a, b).

(** The segments of a path without the dot segments. *)
Definition resolve_segment (acc : list string) (seg : string) : list string :=
  if String.eqb seg ".." then removelast acc else if String.eqb seg "." then acc else (acc ++ [seg])%list.
Definition resolve_path (p : string) : string :=
  let segments := split_char "/" p in
  let resolved := foldl resolve_segment [] segments in
  let resolved := if memb (List.last segments "") ["."; ".."] then (resolved ++ [""])%list else resolved in
  match PyStr.join "/" resolved with "" => "/" | r => r end.

Definition uses_params : list string :=
  [""; "ftp"; "hdl"; "prospero"; "http"; "https"; "shttp"; "rtsp"; "rtsps"; "rtspu"; "sip"; "sips"; "mms"; "sftp"; "tel"].

(** [urljoin(base, url)] for any [url] that starts with one slash. *)
Definition urljoin_absolute (bracketed_ok : string -> bool) (base url : string) : outcome py_exn string :=
  if str_empty base then Ret url
  else
    b ← urlsplit bracketed_ok base;
    if negb (memb (scheme b) uses_relative) then Ret url
    else
      let u := split_path (scheme b) (netloc b) (url_cleaned url) in
      let '(p, params) := if memb (scheme b) uses_params then split_params (path u) else (path u, "") in
      Ret (urlunsplit (mkUrl (scheme b) (netloc b) (resolve_path p +:+ with_part ";" params) (query u) (fragment u))).

(** A row of TelegramStream with its stream's name, and for each of the
    stream's files the media, season and episode it is linked to. *)
Record TelegramRow := mkTelegramRow {
  tg_id : Z; tg_chat_id : string; tg_message_id : Z; tg_file_id : option string; tg_document_id : option Z;
  tg_size : option Z; tg_file_name : option string; tg_name : option string;
  tg_files : list (list (Z * option Z * option Z)) }.

(** [TelegramStreamData.from_db]: the first link, and the first with a season. *)
Definition meta_id_of (files : list (list (Z * option Z * option Z))) : string :=
  match List.concat files with (m, _, _) :: _ => "mf:" +:+ str_of_int m | [] => "" end.
Definition episode_of (files : list (list (Z * option Z * option Z))) : option Z * option Z :=
  match List.find (fun l => match l with (_, Some _, _) => true | _ => false end) (List.concat files) with
  | Some (_, s, e) => (s, e)
  | None => (None, None)
  end.

Definition telegram_params (password : string) (forward : Forward) (s : TelegramRow) (transcode : bool) : list (string * string) :=
  let file_id := nonempty (tg_file_id s) in
  let document_id :=
    match tg_document_id s, file_id with
    | Some d, _ => Some d
    | None, Some f => extract_document_id_from_file_id (Some f)
    | None, None => None
    end in
  ([("api_password", password); ("chat_id", forwarded_chat_id forward)]
   ++ match document_id with Some d => [("document_id", str_of_int d)] | None => [] end
   ++ match file_id with Some f => [("file_id", f)] | None => [] end
   ++ match tg_size s with Some z => if z =? 0 then [] else [("file_size", str_of_int z)] | None => [] end
   ++ match document_id, file_id with None, None => [("message_id", str_of_int (forwarded_message_id forward))] | _, _ => [] end
   ++ (if transcode then [("transcode", "true")] else []))%list.

Definition build_mediaflow_telegram_url (bracketed_ok : string -> bool) (proxy_url password : string) (forward : Forward)
    (s : TelegramRow) (transcode : bool) : outcome py_exn string :=
  let endpoint := match nonempty (tg_file_name s) with
                  | Some n => "/proxy/telegram/stream/" +:+ n
                  | None => "/proxy/telegram/stream"
                  end in
  base ← urljoin_absolute bracketed_ok proxy_url endpoint;
  Ret (base +:+ "?" +:+ urlencode (telegram_params password forward s transcode)).

(** ** The routes *)

Section Routes.
Context {X : Type} (bracketed_ok : string -> bool) (read_stream : X -> string -> Z -> option TelegramRow)
  (read_stream_by_id : X -> Z -> option TelegramRow).

(** What a route does before the copy is asked for: an answer, or the stream,
    the user and the proxy. *)
Definition telegram_guards (u : user) (found : option TelegramRow) : outcome answer (TelegramRow * Z * string * string) :=
  match mediaflow_set (mediaflow_config u) with
  | None => Raise (HttpError 502 "MediaFlow Proxy with Telegram support is required to stream Telegram content. Configure MediaFlow in your profile settings with your Telegram session.")
  | Some (proxy, password, _) =>
      match found with
      | None => Raise (HttpError 404 "Telegram stream not found.")
      | Some s =>
          match nonempty (tg_file_id s), user_id u with
          | None, _ => Raise (HttpError 400 "Telegram stream has no file_id. Cannot forward to user.")
          | Some _, Some uid =>
              if uid =? 0 then Raise (HttpError 401 "Authentication required for Telegram streaming.") else Ret (s, uid, proxy, password)
          | Some _, None => Raise (HttpError 401 "Authentication required for Telegram streaming.")
          end
      end
  end.

(** [telegram_playback_endpoint] up to the copy. *)
Definition telegram_start (u : user) (chat_id : string) (message_id : Z) (token : string) (x : X) :
    outcome answer fwd_request :=
  g ← telegram_guards u (read_stream x chat_id message_id);
  let '(s, uid, _, _) := g in
  Ret (mkFwdRequest (tg_id s) (default "" (tg_file_id s)) uid (tg_name s) token).

(** The same by the stream's identifier: its stream was not loaded with it and
    the session is closed, so that reading its name raises. *)
Definition telegram_start_by_id (u : user) (telegram_stream_id : Z) (x : X) : outcome answer fwd_request :=
  _ ← telegram_guards u (read_stream_by_id x telegram_stream_id);
  Raise Crash.

(** [telegram_playback_endpoint] from the copy on. *)
Definition telegram_finish (u : user) (chat_id : string) (message_id : Z) (transcode : bool) (res : fwd_result) (x : X) :
    answer * list tracking :=
  match telegram_guards u (read_stream x chat_id message_id) with
  | Raise a => (a, [])
  | Ret (s, uid, proxy, password) =>
      match res with
      | NotForwarded (HttpFailure status detail) => (HttpError status detail, [])
      | NotForwarded (Failed _) => (Crash, [])
      | Forwarded f =>
          match build_mediaflow_telegram_url bracketed_ok proxy password f s transcode with
          | Raise _ => (Crash, [])
          | Ret l =>
              let '(season, episode) := episode_of (tg_files s) in
              (Redirect 302 l,
               [mkTracking (chat_id +:+ ":" +:+ str_of_int message_id) (meta_id_of (tg_files s)) season episode "telegram" "telegram"
                  (Some uid) (profile_id u) "telegram"])
          end
      end
  end.
End Routes.

(** ** Examples and witnesses *)

Definition clip : TelegramRow :=
  mkTelegramRow 4 "-100123" 55 (Some "BAADAgADKgADD") None (Some 1000) (Some "Film.2020.mkv") (Some "Film 2020") [[(9, None, None)]; [(9, Some 1, Some 2)]].
Definition their_copy : Forward := mkForward 777 "@mediafusion_bot" 31.

Example clip_link : build_mediaflow_telegram_url (fun _ => true) "https://mf.example/x" "pw" their_copy clip false =
  Ret "https://mf.example/proxy/telegram/stream/Film.2020.mkv?api_password=pw&chat_id=%40mediafusion_bot&file_id=BAADAgADKgADD&file_size=1000".
Proof. vm_compute. reflexivity. Qed.

(** The name of the file is not quoted: after a number sign everything, the
    password and the chat too, is a fragment, which is never sent. *)
Example number_sign_hides_the_query :
  match build_mediaflow_telegram_url (fun _ => true) "https://mf.example" "pw" their_copy
          (mkTelegramRow 4 "-100123" 55 (Some "BAADAgADKgADD") None (Some 1000) (Some "Show #3.mkv") None []) false with
  | Ret l => match urlsplit (fun _ => true) l with Ret u => Some (path u, query u) | Raise _ => None end
  | Raise _ => None
  end = Some ("/proxy/telegram/stream/Show ", "").
Proof. vm_compute. reflexivity. Qed.

(** A playback by the identifier of its stream always ends in a server error. *)
Lemma by_id_never_plays {X} (read_stream_by_id : X -> Z -> option TelegramRow) u id x :
  exists a, telegram_start_by_id read_stream_by_id u id x = Raise a /\ forall l, a <> Redirect 302 l.
Proof.
  unfold telegram_start_by_id, telegram_guards. destruct (mediaflow_set _) as [[[px pw] cfg]|]; [|by eexists].
  destruct (read_stream_by_id x id) as [row|]; [|by eexists]. destruct (nonempty _); [|by eexists].
  destruct (user_id u); [|by eexists]. destruct (_ =? 0); by eexists.
Qed.

(** Three requests for one video, a HEAD and two GETs. *)
Definition ask (token : string) : fwd_request := mkFwdRequest 4 "BAADAgADKgADD" 3 (Some "Film 2020") token.
Definition toy_send (n : nat) (tg : Z) (file_id : string) (c : option string) : option Z * nat := (Some (Z.of_nat n), S n).
Definition three_asks : fconfig (R := store) (X := nat) :=
  mkFConfig 0 [(ask "a", FUser); (ask "b", FUser); (ask "c", FUser)] (mkFworld empty_store ∅ [] 31%nat).
Definition their_account (uid : Z) : option string := if uid =? 3 then Some "777" else None.
Notation toy_forwarding := (fschedule their_account (Some "@mediafusion_bot") toy_send).
Definition mixed_order : list (nat * Z) :=
  [(0%nat, 1); (1%nat, 1); (0%nat, 2); (1%nat, 2); (2%nat, 2); (0%nat, 3); (1%nat, 4); (0%nat, 5); (2%nat, 5); (0%nat, 6); (0%nat, 7); (0%nat, 8); (1%nat, 9); (2%nat, 9); (1%nat, 10); (1%nat, 11); (2%nat, 12); (2%nat, 13); (2%nat, 14)].

Lemma three_asks_initial : f_initial three_asks.
Proof.
  split; [by repeat constructor|]. split; [|reflexivity]. change (NoDup ["a"; "b"; "c"]). by apply (bool_decide_unpack _).
Qed.

Example mixed_order_answers :
  let s := toy_forwarding mixed_order three_asks in
  map snd (f_requests s) = [FEnd (Forwarded their_copy); FEnd (Forwarded their_copy); FEnd (Forwarded their_copy)] /\
  sent_videos (f_world s) = [(4, 3)].
Proof. vm_compute. split; reflexivity. Qed.

Lemma telegram_sent_once_witness : (sends_of (4, 3)%Z (f_world (toy_forwarding mixed_order three_asks)) <= 1)%nat.
Proof.
  exact (telegram_sent_once their_account (Some "@mediafusion_bot") toy_send three_asks _ (4, 3) three_asks_initial
    (fschedule_moves _ _ _ _ _)).
Defined.

(** When Telegram answers after the lock has run out, as it may within the five
    minutes a request waits, another request sends the video again. *)
Example slow_answer_sends_twice :
  let step now q c w := default (c, w) (fwd_step their_account (Some "@mediafusion_bot") toy_send now true q c w) in
  let steps now q n c w := Nat.iter n (fun cw => step now q cw.1 cw.2) (c, w) in
  let w0 := f_world three_asks in
  let '(a1, w1) := steps 1 (ask "a") 5%nat FUser w0 in
  let '(b, w2) := steps 62 (ask "b") 8%nat FUser w1 in
  let '(a2, w3) := steps 63 (ask "a") 3%nat a1 w2 in
  b = FEnd (Forwarded (mkForward 777 "@mediafusion_bot" 32)) /\ a2 = b /\ length (sent_videos w3) = 2%nat.
Proof. vm_compute. repeat split. Qed.
