(* ===== verification/Session.v ===== *)
(** * Database sessions of a request (db/database.py)

    A request works on one [AsyncSession]: its statements see the session's own
    changes, a [commit] makes them permanent, and what was not committed when
    the request ends, or raises, is rolled back.  A table that a statement
    changes is changed at once: the flush that SQLAlchemy may defer comes before
    the next query, and an [IntegrityError] it raises ends the request.

    [eff P R m Q] is the logic of such code: whatever [m] does to the tables and
    whatever it commits is related by [R] to the tables it found. *)

From S2P Require Export Effects PyVal PyList.
Local Open Scope Z_scope.

Inductive error :=
  | HTTPException (status : Z) (detail : string)
  | IntegrityError
  | DataError
  | AdultContentNotAllowedError
  | Uncaught (e : py_exn).

Record session (D : Type) := mkSession { committed : D; working : D; outbox : list string }.
Arguments mkSession {D} _ _ _.
Arguments committed {D} _.
Arguments working {D} _.
Arguments outbox {D} _.

Notation tx D := (M (session D) error).

Section Session.
Context {D : Type}.
Implicit Types s : session D.

Definition query {A} (f : D -> A) : tx D A := fun s => (Ret (f (working s)), s).
Definition update (f : D -> D) : tx D unit :=
  fun s => (Ret tt, mkSession (committed s) (f (working s)) (outbox s)).
Definition commit : tx D unit := fun s => (Ret tt, mkSession (working s) (working s) (outbox s)).
(** A notification, sent outside of the transaction. *)
Definition notify (message : string) : tx D unit :=
  fun s => (Ret tt, mkSession (committed s) (working s) (message :: outbox s)).
Definition http {A} (status : Z) (detail : string) : tx D A := throw (HTTPException status detail).
(** [async with session.begin_nested(): m] *)
Definition begin_nested {A} (m : tx D A) : tx D A :=
  fun s => match m s with
           | (Raise e, s') => (Raise e, mkSession (committed s') (working s) (outbox s'))
           | r => r
           end.

(** A request: its answer, the tables it leaves and the notifications sent. *)
Definition run {A} (m : tx D A) (d : D) : outcome error A * D * list string :=
  let '(r, s) := m (mkSession d d []) in (r, committed s, outbox s).
Definition answer {A} (m : tx D A) (d : D) : outcome error A := (run m d).1.1.
Definition after {A} (m : tx D A) (d : D) : D := (run m d).1.2.

(** Running a program step by step. *)
Lemma bind_run {A B} (m : tx D A) (k : A -> tx D B) s a s' : m s = (Ret a, s') -> (m ≫= k) s = k a s'.
Proof. intros E. unfold mbind, M_bind. by rewrite E. Qed.

Lemma after_run {A} (m : tx D A) d r s : m (mkSession d d []) = (r, s) -> after m d = committed s.
Proof. intros E. unfold after, run. by rewrite E. Qed.

(** ** The logic of sessions *)

(** What was committed is related to the tables found. *)
Definition commits (R : relation D) s s' : Prop := committed s' = committed s \/ R (working s) (committed s').
Definition moves (R : relation D) s s' : Prop := R (working s) (working s') /\ commits R s s'.

(** A request that raises leaves what it has committed. *)
Definition eff {A} (P : D -> Prop) (R : relation D) (m : tx D A) (Q : A -> D -> Prop) : Prop :=
  forall s, P (working s) ->
    match m s with (Ret a, s') => moves R s s' /\ Q a (working s') | (Raise _, s') => commits R s s' end.

(** What a sub-program does, in any state and also when it raises. *)
Definition runs {A} (T : relation (session D)) (m : tx D A) : Prop := forall s, T s (m s).2.

(** Nothing is committed. *)
Definition silently (R : relation D) s s' : Prop := R (working s) (working s') /\ committed s' = committed s.

(** Sub-programs that may commit, and sub-programs that do not. *)
Notation keeps R := (runs (moves R)).
Notation quiet R := (runs (silently R)).

Section Rules.
Context {R : relation D} `{!PreOrder R}.

#[export] Instance moves_preorder : PreOrder (moves R).
Proof.
  split.
  - intros s. split; [reflexivity|by left].
  - intros s1 s2 s3 [H1 C1] [H2 C2]. split; [by transitivity (working s2)|].
    destruct C2 as [C2|C2]; [unfold commits; by rewrite C2|]. right. by transitivity (working s2).
Qed.

#[export] Instance silently_preorder : PreOrder (silently R).
Proof.
  split; [by intros s|]. intros s1 s2 s3 [H1 C1] [H2 C2]. split; [by transitivity (working s2)|by rewrite C2].
Qed.

Lemma quiet_keeps {A} (m : tx D A) : quiet R m -> keeps R m.
Proof. intros Hm s. destruct (Hm s) as [H1 H2]. split; [done|by left]. Qed.

Lemma moves_commits s1 s2 s3 : moves R s1 s2 -> commits R s2 s3 -> commits R s1 s3.
Proof.
  intros [H1 C1] [C2|C2]; [unfold commits; by rewrite C2|]. right. by transitivity (working s2).
Qed.

Lemma eff_return {A} (P : D -> Prop) (a : A) (Q : A -> D -> Prop) : (forall d, P d -> Q a d) -> eff P R (mret a) Q.
Proof. intros H s Hs. split; [reflexivity|]. by apply H. Qed.

Lemma eff_ret {A} (P : D -> Prop) (a : A) : eff P R (mret a) (fun b d => b = a /\ P d).
Proof. by apply eff_return. Qed.

Lemma eff_throw {A} (P : D -> Prop) e (Q : A -> D -> Prop) : eff P R (throw e) Q.
Proof. intros s Hs. by left. Qed.

Lemma eff_lift {A} (P : D -> Prop) (o : outcome error A) : eff P R (lift o) (fun a d => o = Ret a /\ P d).
Proof. intros s Hs. cbn. destruct o; [split; [reflexivity|done]|by left]. Qed.

Lemma eff_bind {A B} P (m : tx D A) (k : A -> tx D B) Q Q' :
  eff P R m Q -> (forall a, eff (Q a) R (k a) Q') -> eff P R (m ≫= k) Q'.
Proof.
  intros Hm Hk s Hs. specialize (Hm s Hs). unfold mbind, M_bind.
  destruct (m s) as [[a|e] s1]; [|done]. destruct Hm as [Hm HQ]. specialize (Hk a s1 HQ).
  destruct (k a s1) as [[b|e] s2]; [|by eapply moves_commits]. destruct Hk. split; [by transitivity s1|done].
Qed.

Lemma eff_assoc {A B C} P (m : tx D A) (f : A -> tx D B) (k : B -> tx D C) Q :
  eff P R ((m ≫= f) ≫= k) Q -> eff P R (m ≫= fun a => f a ≫= k) Q.
Proof.
  intros H s Hs. specialize (H s Hs). unfold mbind, M_bind in *. by destruct (m s) as [[a|e] s1].
Qed.

Lemma eff_conseq {A} (P P' : D -> Prop) (m : tx D A) (Q Q' : A -> D -> Prop) :
  eff P' R m Q' -> (forall d, P d -> P' d) -> (forall a d, Q' a d -> Q a d) -> eff P R m Q.
Proof.
  intros Hm HP HQ s Hs. specialize (Hm s (HP _ Hs)). destruct (m s) as [[a|e] s1]; [|done].
  destruct Hm. split; [done|by apply HQ].
Qed.

Lemma eff_pre {A} (P' P : D -> Prop) (m : tx D A) Q : eff P' R m Q -> (forall d, P d -> P' d) -> eff P R m Q.
Proof. intros Hm HP. by eapply eff_conseq. Qed.

Lemma eff_query {A} (P : D -> Prop) (f : D -> A) : eff P R (query f) (fun a d => a = f d /\ P d).
Proof. intros s Hs. by split; [reflexivity|]. Qed.

Lemma eff_look {A} (P : D -> Prop) (f : D -> A) : eff P R (query f) (fun _ => P).
Proof. intros s Hs. by split; [reflexivity|]. Qed.

Lemma eff_read {A} (P : D -> Prop) (f : D -> A) : eff P R (query f) (fun _ _ => True).
Proof. intros s Hs. by split; [reflexivity|]. Qed.

Lemma eff_update (P : D -> Prop) f : (forall d, P d -> R d (f d)) ->
  eff P R (update f) (fun _ d' => exists d, P d /\ d' = f d).
Proof. intros H s Hs. cbn. split; [split; [by apply H|by left]|]. by eexists. Qed.

Lemma eff_commit (P : D -> Prop) : eff P R commit (fun _ => P).
Proof. intros s Hs. cbn. split; [split; [reflexivity|by right]|done]. Qed.

Lemma eff_notify (P : D -> Prop) x : eff P R (notify x) (fun _ => P).
Proof. intros s Hs. cbn. split; [split; [reflexivity|by left]|done]. Qed.

(** A savepoint whose exceptions are handled. *)
Lemma eff_nested {A} P (m : tx D A) p h Q :
  eff P R m Q -> (forall e, eff P R (h e) Q) -> eff P R (catch (begin_nested m) p h) Q.
Proof.
  intros Hm Hh s Hs. specialize (Hm s Hs). unfold catch, begin_nested.
  destruct (m s) as [[a|e] s1]; [done|]. destruct (p e); [|done].
  set (s2 := mkSession _ _ _). assert (moves R s s2) as Hs2 by (split; [reflexivity|done]).
  specialize (Hh e s2 Hs). destruct (h e s2) as [[b|e'] s3]; [|by eapply moves_commits].
  destruct Hh. split; [by transitivity s2|done].
Qed.

(** An exception translated into another. *)
Lemma eff_translate {A} P (m : tx D A) p g Q : eff P R m Q -> eff P R (catch m p (fun e => throw (g e))) Q.
Proof. intros Hm s Hs. specialize (Hm s Hs). unfold catch. destruct (m s) as [[a|e] s1]; [done|]. by destruct (p e). Qed.

(** A sub-program with a relation of its own. *)
Lemma eff_call {A} (P : D -> Prop) (R' : relation D) (m : tx D A) :
  keeps R' m -> (forall d d', P d -> R' d d' -> R d d') ->
  eff P R m (fun _ d' => exists d, P d /\ R' d d').
Proof.
  intros Hm HR s Hs. destruct (Hm s) as [H1 H2].
  assert (Hc : commits R s (m s).2). { destruct H2; [by left|right; by apply HR]. }
  destruct (m s) as [[a|e] s1]; [|done]. split; [split; [by apply HR|done]|by exists (working s)].
Qed.

(** A sub-program that does not touch what [P] is about. *)
Lemma eff_frame {A} (P : D -> Prop) (R' : relation D) (m : tx D A) :
  keeps R' m -> (forall d d', R' d d' -> R d d') -> (forall d d', P d -> R' d d' -> P d') -> eff P R m (fun _ => P).
Proof.
  intros Hm HR HP. eapply eff_conseq; [eapply eff_call; [exact Hm|by eauto]|done|].
  intros _ d' (d & Hd & Hdd). by eapply HP.
Qed.

Lemma eff_case_bool {A} P (b : bool) (m1 m2 : tx D A) Q :
  (b = true -> eff P R m1 Q) -> (b = false -> eff P R m2 Q) -> eff P R (if b then m1 else m2) Q.
Proof. destruct b; auto. Qed.

Lemma eff_case_option {A B} P (o : option B) (m1 : B -> tx D A) m2 Q :
  (forall x, o = Some x -> eff P R (m1 x) Q) -> (o = None -> eff P R m2 Q) ->
  eff P R (match o with Some x => m1 x | None => m2 end) Q.
Proof. destruct o; auto. Qed.

Lemma eff_loop {A} (P : D -> Prop) (body : A -> tx D unit) l :
  (forall x, x ∈ l -> eff P R (body x) (fun _ => P)) -> eff P R (for_loop body l) (fun _ => P).
Proof.
  induction l as [|x l IH]; intros H.
  - by apply eff_return.
  - cbn [for_loop]. eapply eff_bind; [apply H; by left|]. intros []. apply IH. intros y Hy. apply H. by right.
Qed.

(** What a request leaves is related to what it found. *)
Lemma eff_after {A} (P : D -> Prop) (m : tx D A) Q d : P d -> eff P R m Q -> R d (after m d).
Proof.
  intros Hd Hm. unfold after, run. specialize (Hm (mkSession d d []) Hd).
  assert (Hc : commits R (mkSession d d []) (m (mkSession d d [])).2) by (destruct (m _) as [[]]; [by apply Hm|done]).
  destruct (m _) as [r s]. destruct Hc as [Hc|Hc]; cbn in *; [by rewrite Hc|done].
Qed.
End Rules.

(** An invariant as a relation. *)
Definition preserves (I : D -> Prop) : relation D := fun d d' => I d -> I d'.
#[export] Instance preserves_preorder I : PreOrder (preserves I).
Proof. split; unfold preserves; [by intros d|]. intros d1 d2 d3; tauto. Qed.

Definition both (R1 R2 : relation D) : relation D := fun d d' => R1 d d' /\ R2 d d'.
#[export] Instance both_preorder R1 R2 : PreOrder R1 -> PreOrder R2 -> PreOrder (both R1 R2).
Proof.
  intros ??. split; [by intros d; split|].
  intros d1 d2 d3 [H1 H2] [H3 H4]. split; by etransitivity.
Qed.
End Session.

(** *** Sub-programs

    [runs T m] follows the structure of [m]. *)
Notation keeps R := (runs (moves R)).
Notation quiet R := (runs (silently R)).

Section Runs.
Context {D : Type} {T : relation (session D)} `{!PreOrder T}.

Lemma runs_ret {A} (a : A) : runs T (mret a).
Proof. by intros s. Qed.
Lemma runs_throw {A} e : runs T (throw e : tx D A).
Proof. by intros s. Qed.
Lemma runs_lift {A} (o : outcome error A) : runs T (lift o).
Proof. by intros s. Qed.
Lemma runs_query {A} (f : D -> A) : runs T (query f).
Proof. by intros s. Qed.
Lemma runs_bind {A B} (m : tx D A) (k : A -> tx D B) : runs T m -> (forall a, runs T (k a)) -> runs T (m ≫= k).
Proof.
  intros Hm Hk s. specialize (Hm s). unfold mbind, M_bind. destruct (m s) as [[a|e] s1]; [|done].
  specialize (Hk a s1). by transitivity s1.
Qed.
Lemma runs_catch {A} (m : tx D A) p h : runs T m -> (forall e, runs T (h e)) -> runs T (catch m p h).
Proof.
  intros Hm Hh s. specialize (Hm s). unfold catch. destruct (m s) as [[a|e] s1]; [done|].
  destruct (p e); [|done]. specialize (Hh e s1). by transitivity s1.
Qed.
Lemma runs_loop {A} (body : A -> tx D unit) l : (forall x, runs T (body x)) -> runs T (for_loop body l).
Proof.
  intros H. induction l as [|x l IH]; [by apply runs_ret|]. cbn [for_loop].
  apply runs_bind; [apply H|]. by intros [].
Qed.
Lemma runs_bool {A} (b : bool) (m1 m2 : tx D A) : runs T m1 -> runs T m2 -> runs T (if b then m1 else m2).
Proof. by destruct b. Qed.
Lemma runs_option {A B} (o : option B) (m1 : B -> tx D A) m2 :
  (forall x, o = Some x -> runs T (m1 x)) -> runs T m2 -> runs T (match o with Some x => m1 x | None => m2 end).
Proof. destruct o; auto. Qed.
Lemma runs_list {A B} (l : list B) (m1 : B -> list B -> tx D A) m2 :
  (forall x l, runs T (m1 x l)) -> runs T m2 -> runs T (match l with x :: l => m1 x l | [] => m2 end).
Proof. by destruct l. Qed.
Lemma runs_decide {A} (P : Prop) `{!Decision P} (m1 m2 : tx D A) :
  runs T m1 -> runs T m2 -> runs T (if decide P then m1 else m2).
Proof. by destruct (decide P). Qed.
End Runs.

Section Keeps.
Context {D : Type} {R : relation D} `{!PreOrder R}.

Lemma keeps_update f : (forall d, R d (f d)) -> keeps R (update f).
Proof. intros H s. split; [apply H|by left]. Qed.
Lemma quiet_update f : (forall d, R d (f d)) -> quiet R (update f).
Proof. intros H s. by split; [apply H|]. Qed.
Lemma keeps_commit : keeps R commit.
Proof. intros s. split; [reflexivity|by right]. Qed.
Lemma keeps_notify x : keeps R (notify x).
Proof. intros s. split; [reflexivity|by left]. Qed.
Lemma keeps_nested {A} (m : tx D A) : keeps R m -> keeps R (begin_nested m).
Proof.
  intros Hm s. specialize (Hm s). unfold begin_nested. destruct (m s) as [[a|e] s1]; [done|].
  destruct Hm as [_ Hc]. split; [reflexivity|done].
Qed.
End Keeps.

Create HintDb keeps.
#[export] Hint Resolve runs_ret runs_throw runs_lift runs_query keeps_commit keeps_notify keeps_nested quiet_keeps : keeps.

(** A sub-program by its structure, calls by the hints. *)
Ltac keeps_step :=
  lazymatch goal with
  | |- runs _ (mbind _ _) => apply runs_bind; [|intros ?; cbv beta]
  | |- runs _ (catch _ _ _) => apply runs_catch; [|intros ?; cbv beta]
  | |- runs _ (for_loop _ _) => apply runs_loop; intros ?; cbv beta
  | |- runs _ (if decide _ then _ else _) => apply runs_decide
  | |- runs _ (match ?o with Some _ => _ | None => _ end) => apply runs_option; [intros ? ?|]
  | |- runs _ (match ?l with [] => _ | _ :: _ => _ end) => apply runs_list; [intros ??|]
  | |- runs _ (match ?x with (_, _) => _ end) => destruct x
  | |- runs _ (if ?b then _ else _) => apply runs_bool
  | |- runs _ (http _ _) => apply runs_throw
  | |- runs _ _ => solve [eauto with keeps typeclass_instances]
  end.
Ltac keeps := repeat keeps_step.

Create HintDb eff.
#[export] Hint Resolve eff_query eff_commit eff_notify eff_ret eff_lift : eff.

(** One statement of a handler, or a test on what it has read. *)
Ltac eff_step :=
  lazymatch goal with
  | |- eff _ _ (throw _) _ => apply eff_throw
  | |- eff _ _ (http _ _) _ => apply eff_throw
  | |- eff _ _ (if ?b then _ else _) _ => apply eff_case_bool; intros ?
  | |- eff _ _ (match ?o with Some _ => _ | None => _ end) _ => apply eff_case_option; intros ?
  | |- eff _ _ (mbind _ _) _ => eapply eff_bind; [solve [eauto with eff]|intros ?; cbv beta]
  end.
