(* ===== verification/Community.v ===== *)
(** * Roles, reputation and the tables of the community

    db/enums.py, api/rbac.py and api/routers/user/auth.py (who may call what),
    db/models/contributions.py and db/models/users.py (the rows),
    api/routers/admin/contribution_settings.py (the settings) and the part of
    the suggestion routers that every one of them repeats: reading the settings,
    the test for auto-approval, levels and points.

    [db] is what the handlers of MetadataSuggestions, EpisodeSuggestions,
    StreamSuggestions and Contributions read and change.  A row that SQLAlchemy
    finds by a unique name (a genre, a language) is its name. *)

From S2P Require Export Session.
Local Open Scope string_scope.
Local Open Scope Z_scope.

(** ** Roles (db/enums.py, api/rbac.py) *)

Inductive UserRole := USER | PAID_USER | MODERATOR | ADMIN.
#[export] Instance UserRole_eq_dec : EqDecision UserRole.
Proof. solve_decision. Defined.

Definition role_value (r : UserRole) : string :=
  match r with USER => "user" | PAID_USER => "paid_user" | MODERATOR => "moderator" | ADMIN => "admin" end.

Definition ROLE_HIERARCHY : list (UserRole * Z) := [(USER, 1); (PAID_USER, 2); (MODERATOR, 3); (ADMIN, 4)].

Fixpoint role_level (default : Z) (r : UserRole) (l : list (UserRole * Z)) : Z :=
  match l with
  | [] => default
  | (r', n) :: l => if decide (r = r') then n else role_level default r l
  end.

Definition has_minimum_role (role required_role : UserRole) : bool :=
  role_level 999 required_role ROLE_HIERARCHY <=? role_level 0 role ROLE_HIERARCHY.

Definition check_permission (role required_role : UserRole) : outcome error unit :=
  if has_minimum_role role required_role then Ret tt
  else Raise (HTTPException 403 ("Insufficient permissions. Required role: " +:+ role_value required_role)).

Definition is_admin (role : UserRole) : bool := has_minimum_role role ADMIN.
Definition is_moderator (role : UserRole) : bool := has_minimum_role role MODERATOR.
Definition is_paid_user (role : UserRole) : bool := has_minimum_role role PAID_USER.

Definition PERMISSION_ROLES : list (string * UserRole) :=
  [("view_dashboard", USER); ("manage_profiles", USER); ("view_watch_history", USER); ("view_downloads", USER);
   ("submit_contribution", USER); ("import_content", USER); ("manage_own_rss", USER);
   ("view_metrics", MODERATOR); ("block_torrent", MODERATOR); ("delete_torrent", MODERATOR);
   ("review_contributions", MODERATOR); ("run_scrapers", MODERATOR);
   ("manage_users", ADMIN); ("assign_roles", ADMIN); ("view_all_rss", ADMIN); ("manage_all_rss", ADMIN);
   ("system_config", ADMIN); ("manage_metadata", ADMIN); ("manage_torrent_streams", ADMIN); ("manage_tv_streams", ADMIN)].

Definition has_permission (role : UserRole) (permission : string) : bool :=
  match dict_get permission PERMISSION_ROLES with
  | Some required_role => has_minimum_role role required_role
  | None => false
  end.

Fixpoint check_permissions (role : UserRole) (permissions : list string) : outcome error unit :=
  match permissions with
  | [] => Ret tt
  | p :: l =>
      if has_permission role p then check_permissions role l
      else Raise (HTTPException 403 ("Missing permission: " +:+ p))
  end.

(** ** Rows *)

Record User := mkUser {
  user_id : Z; username : option string; role : UserRole; is_active : bool;
  contribution_points : Z; metadata_edits_approved : Z; stream_edits_approved : Z; contribution_level : string }.

Record ContributionSettings := mkSettings {
  auto_approval_threshold : Z; points_per_metadata_edit : Z; points_per_stream_edit : Z;
  points_for_rejection_penalty : Z; contributor_threshold : Z; trusted_threshold : Z; expert_threshold : Z;
  allow_auto_approval : bool; require_reason_for_edits : bool; max_pending_suggestions_per_user : Z;
  broken_report_threshold : Z; auto_block_on_broken_reports : bool }.

(** [ContributionSettings(id="default")] *)
Definition default_settings : ContributionSettings := mkSettings 25 5 3 (-2) 10 50 200 true false 20 3 false.

Inductive MediaType := MOVIE | SERIES | TV | EVENTS.
#[export] Instance MediaType_eq_dec : EqDecision MediaType.
Proof. solve_decision. Defined.

Record MediaRow := mkMedia {
  media_id : Z; media_type : MediaType; title : string; description : option string; year : option Z;
  runtime_minutes : option Z; nudity_status : string }.
Record ExternalID := mkExternalID { ext_media : Z; provider : string; external_id : string }.
Record MediaImage := mkImage { image_media : Z; image_provider : string; image_type : string; image_url : string; is_primary : bool }.
Record TVRow := mkTV { country : option string; tv_language : option string }.
Record CrewRow := mkCrew { crew_media : Z; crew_person : string; department : option string; job : option string }.

(** What describes the media: the media and the tables that point to them. *)
Record Catalogue := mkCatalogue {
  medias : gmap Z MediaRow; external_ids : list ExternalID; images : list MediaImage; tv_metadata : gmap Z TVRow;
  genre_links : list (Z * string); catalog_links : list (Z * string); certificate_links : list (Z * string);
  aka_titles : list (Z * string); media_cast : list (Z * string * Z); media_crew : list CrewRow;
  reference_names : list (string * string) }.

(** The rows of MetadataSuggestion, EpisodeSuggestion and StreamSuggestion;
    [sg_field] is the name of the field, or the type of a stream suggestion. *)
Record Suggestion := mkSuggestion {
  sg_id : string; sg_user : Z; sg_target : Z; sg_field : string;
  current_value : option string; suggested_value : option string; reason : option string;
  status : string; reviewed_by : option string; reviewed_at : option Z; review_notes : option string;
  created_at : Z; sg_updated_at : option Z }.
Record StreamSuggestion := mkStreamSuggestion {
  base : Suggestion; issue_triage_status : option string; issue_triage_note : option string }.

Record EpisodeRow := mkEpisode {
  episode_id : Z; episode_title : string; overview : option string; air_date : option (Z * Z * Z);
  episode_runtime : option Z; episode_updated_at : option Z }.

Record StreamRow := mkStream {
  stream_id : Z; stream_name : option string; resolution : option string; codec : option string; quality : option string;
  bit_depth : option string; source : option string; stream_active : bool; is_blocked : bool; is_public : bool;
  audio_formats : list string; channels : list string; hdr_formats : list string; languages : list string }.
Record StreamMediaLink := mkStreamLink { link_stream : Z; link_media : Z; link_file_index : option Z }.
Record StreamFile := mkStreamFile { file_id : Z; file_stream : Z; file_index : option Z }.
Record FileMediaLink := mkFileLink {
  fl_id : Z; fl_file : Z; fl_media : Z; season_number : option Z; episode_number : option Z; episode_end : option Z }.

(** The streams and what links them to the media; [next_id] is the sequence
    of the rows of FileMediaLink. *)
Record Library := mkLibrary {
  streams : gmap Z StreamRow; stream_links : list StreamMediaLink; stream_files : list StreamFile;
  file_links : list FileMediaLink; next_id : Z; library_names : list (string * string);
  typed_streams : list (string * string * string * Z) }.

Inductive ContributionStatus := C_PENDING | C_APPROVED | C_REJECTED.
#[export] Instance ContributionStatus_eq_dec : EqDecision ContributionStatus.
Proof. solve_decision. Defined.

Record Contribution := mkContribution {
  cn_id : string; cn_user : option Z; contribution_type : string; target_id : option string;
  cn_data : list (string * value); cn_status : ContributionStatus; cn_reviewed_by : option string;
  cn_reviewed_at : option Z; cn_review_notes : option string; admin_review_requested : bool;
  admin_review_requested_by : option string; admin_review_requested_at : option Z; admin_review_reason : option string;
  cn_created_at : Z }.

Record db := mkDb {
  settings_row : option ContributionSettings; users : gmap Z User; catalogue : Catalogue; library : Library;
  episodes : gmap Z EpisodeRow; metadata_suggestions : gmap string Suggestion;
  episode_suggestions : gmap string Suggestion; stream_suggestions : gmap string StreamSuggestion;
  contributions : gmap string Contribution }.

Definition set_settings x (d : db) := mkDb x (users d) (catalogue d) (library d) (episodes d) (metadata_suggestions d)
  (episode_suggestions d) (stream_suggestions d) (contributions d).
Definition set_users x (d : db) := mkDb (settings_row d) x (catalogue d) (library d) (episodes d) (metadata_suggestions d)
  (episode_suggestions d) (stream_suggestions d) (contributions d).
Definition set_catalogue x (d : db) := mkDb (settings_row d) (users d) x (library d) (episodes d) (metadata_suggestions d)
  (episode_suggestions d) (stream_suggestions d) (contributions d).
Definition set_library x (d : db) := mkDb (settings_row d) (users d) (catalogue d) x (episodes d) (metadata_suggestions d)
  (episode_suggestions d) (stream_suggestions d) (contributions d).
Definition set_episodes x (d : db) := mkDb (settings_row d) (users d) (catalogue d) (library d) x (metadata_suggestions d)
  (episode_suggestions d) (stream_suggestions d) (contributions d).
Definition set_metadata_suggestions x (d : db) := mkDb (settings_row d) (users d) (catalogue d) (library d) (episodes d) x
  (episode_suggestions d) (stream_suggestions d) (contributions d).
Definition set_episode_suggestions x (d : db) := mkDb (settings_row d) (users d) (catalogue d) (library d) (episodes d)
  (metadata_suggestions d) x (stream_suggestions d) (contributions d).
Definition set_stream_suggestions x (d : db) := mkDb (settings_row d) (users d) (catalogue d) (library d) (episodes d)
  (metadata_suggestions d) (episode_suggestions d) x (contributions d).
Definition set_contributions x (d : db) := mkDb (settings_row d) (users d) (catalogue d) (library d) (episodes d)
  (metadata_suggestions d) (episode_suggestions d) (stream_suggestions d) x.

(** The rows of a table a query selects. *)
Definition select {K A} `{Countable K} (p : A -> bool) (m : gmap K A) : list A := List.filter p (map_to_list m).*2.

Lemma select_elem {K A} `{Countable K} (p : A -> bool) (m : gmap K A) x :
  x ∈ select p m <-> (exists k, m !! k = Some x) /\ p x = true.
Proof.
  unfold select. rewrite filter_elem, list_elem_of_fmap. split; intros [H1 H2]; split; try done.
  - destruct H1 as ([k y] & -> & Hk). exists k. by apply elem_of_map_to_list.
  - destruct H1 as [k Hk]. exists (k, x). by rewrite elem_of_map_to_list.
Qed.

Lemma select_nil {K A} `{Countable K} (p : A -> bool) (m : gmap K A) k x :
  select p m = [] -> m !! k = Some x -> p x = false.
Proof.
  intros Hn Hk. destruct (p x) eqn:Ep; [|done]. exfalso. eapply (not_elem_of_nil x). rewrite <- Hn.
  apply select_elem. eauto.
Qed.

(** Inserting a row changes a count by what the row and its predecessor count. *)
Definition count_row {A} (p : A -> bool) (o : option A) : nat :=
  match o with Some x => if p x then 1%nat else 0%nat | None => 0%nat end.

Lemma select_delete_length {K A} `{Countable K} (p : A -> bool) (m : gmap K A) k :
  (length (select p (delete k m)) + count_row p (m !! k))%nat = length (select p m).
Proof.
  unfold select. destruct (m !! k) as [x|] eqn:E; cbn.
  - rewrite <- (insert_delete_id m k x E) at 2.
    rewrite (map_to_list_insert (delete k m) k x) by apply lookup_delete_eq.
    cbn. destruct (p x); cbn; lia.
  - rewrite delete_id by done. lia.
Qed.

Lemma select_insert_length {K A} `{Countable K} (p : A -> bool) (m : gmap K A) k x :
  (length (select p (<[k := x]> m)) + count_row p (m !! k))%nat = (length (select p m) + count_row p (Some x))%nat.
Proof.
  rewrite <- (select_delete_length p m k), <- (insert_delete_eq m k x). unfold select at 1.
  rewrite (map_to_list_insert (delete k m) k x) by apply lookup_delete_eq.
  cbn. fold (select p (delete k m)). unfold select. destruct (p x); cbn; lia.
Qed.

(** ** Changes of single tables *)

Definition with_medias x (c : Catalogue) := mkCatalogue x (external_ids c) (images c) (tv_metadata c) (genre_links
  c) (catalog_links c) (certificate_links c) (aka_titles c) (media_cast c) (media_crew c) (reference_names c).
Definition with_external_ids x (c : Catalogue) := mkCatalogue (medias c) x (images c) (tv_metadata c) (genre_links
  c) (catalog_links c) (certificate_links c) (aka_titles c) (media_cast c) (media_crew c) (reference_names c).
Definition with_images x (c : Catalogue) := mkCatalogue (medias c) (external_ids c) x (tv_metadata c) (genre_links
  c) (catalog_links c) (certificate_links c) (aka_titles c) (media_cast c) (media_crew c) (reference_names c).
Definition with_tv_metadata x (c : Catalogue) := mkCatalogue (medias c) (external_ids c) (images c) x (genre_links
  c) (catalog_links c) (certificate_links c) (aka_titles c) (media_cast c) (media_crew c) (reference_names c).
Definition with_genre_links x (c : Catalogue) := mkCatalogue (medias c) (external_ids c) (images c) (tv_metadata c)
  x (catalog_links c) (certificate_links c) (aka_titles c) (media_cast c) (media_crew c) (reference_names c).
Definition with_catalog_links x (c : Catalogue) := mkCatalogue (medias c) (external_ids c) (images c) (tv_metadata
  c) (genre_links c) x (certificate_links c) (aka_titles c) (media_cast c) (media_crew c) (reference_names c).
Definition with_certificate_links x (c : Catalogue) := mkCatalogue (medias c) (external_ids c) (images c)
  (tv_metadata c) (genre_links c) (catalog_links c) x (aka_titles c) (media_cast c) (media_crew c) (reference_names
  c).
Definition with_aka_titles x (c : Catalogue) := mkCatalogue (medias c) (external_ids c) (images c) (tv_metadata c)
  (genre_links c) (catalog_links c) (certificate_links c) x (media_cast c) (media_crew c) (reference_names c).
Definition with_media_cast x (c : Catalogue) := mkCatalogue (medias c) (external_ids c) (images c) (tv_metadata c)
  (genre_links c) (catalog_links c) (certificate_links c) (aka_titles c) x (media_crew c) (reference_names c).
Definition with_media_crew x (c : Catalogue) := mkCatalogue (medias c) (external_ids c) (images c) (tv_metadata c)
  (genre_links c) (catalog_links c) (certificate_links c) (aka_titles c) (media_cast c) x (reference_names c).
Definition with_reference_names x (c : Catalogue) := mkCatalogue (medias c) (external_ids c) (images c) (tv_metadata
  c) (genre_links c) (catalog_links c) (certificate_links c) (aka_titles c) (media_cast c) (media_crew c) x.
Definition with_streams x (l : Library) := mkLibrary x (stream_links l) (stream_files l) (file_links l) (next_id l)
  (library_names l) (typed_streams l).
Definition with_stream_links x (l : Library) := mkLibrary (streams l) x (stream_files l) (file_links l) (next_id l)
  (library_names l) (typed_streams l).
Definition with_file_links x (l : Library) := mkLibrary (streams l) (stream_links l) (stream_files l) x (next_id l)
  (library_names l) (typed_streams l).
Definition with_next_id x (l : Library) := mkLibrary (streams l) (stream_links l) (stream_files l) (file_links l) x
  (library_names l) (typed_streams l).
Definition with_library_names x (l : Library) := mkLibrary (streams l) (stream_links l) (stream_files l) (file_links
  l) (next_id l) x (typed_streams l).

Definition update_catalogue (f : Catalogue -> Catalogue) : tx db unit := update (fun d => set_catalogue (f (catalogue d)) d).
Definition update_library (f : Library -> Library) : tx db unit := update (fun d => set_library (f (library d)) d).

(** A value of an integer column: PostgreSQL's [integer] has 32 bits. *)
Definition int4 (o : option Z) : tx db unit :=
  match o with
  | Some z => if (- 2 ^ 31 <=? z) && (z <? 2 ^ 31) then mret tt else throw DataError
  | None => mret tt
  end.

(** ** Authentication and roles of a request (api/routers/user/auth.py) *)

(** The user of the token [require_auth] returns. *)
Definition require_auth (uid : Z) : tx db User :=
  u ← query (fun d => users d !! uid);
  match u with
  | Some u => if is_active u then mret u else http 401 "Authentication required"
  | None => http 401 "Authentication required"
  end.

Definition role_hierarchy : list (UserRole * Z) := [(USER, 1); (PAID_USER, 2); (MODERATOR, 3); (ADMIN, 4)].

Definition require_role (minimum_role : UserRole) (uid : Z) : tx db User :=
  user ← require_auth uid;
  if role_level 0 (role user) role_hierarchy <? role_level 999 minimum_role role_hierarchy
  then http 403 ("Insufficient permissions. Required role: " +:+ role_value minimum_role)
  else mret user.

(** ** Settings (api/routers/admin/contribution_settings.py) *)

(** [get_contribution_settings], [get_or_create_settings]: a missing row is
    created and committed at once. *)
Definition get_contribution_settings : tx db ContributionSettings :=
  row ← query settings_row;
  match row with
  | Some settings => mret settings
  | None =>
      _ ← update (set_settings (Some default_settings));
      _ ← commit;
      mret default_settings
  end.

Record ContributionSettingsUpdate := mkSettingsUpdate {
  new_auto_approval_threshold : option Z; new_points_per_metadata_edit : option Z; new_points_per_stream_edit : option Z;
  new_points_for_rejection_penalty : option Z; new_contributor_threshold : option Z; new_trusted_threshold : option Z;
  new_expert_threshold : option Z; new_allow_auto_approval : option bool; new_require_reason_for_edits : option bool;
  new_max_pending_suggestions_per_user : option Z }.

(** [Field(None, ge=lo, le=hi)] *)
Definition between (lo hi : Z) (o : option Z) : bool :=
  match o with Some z => (lo <=? z) && (z <=? hi) | None => true end.

Definition valid_update (u : ContributionSettingsUpdate) : bool :=
  between 0 1000 (new_auto_approval_threshold u) && between 0 100 (new_points_per_metadata_edit u) &&
  between 0 100 (new_points_per_stream_edit u) && between (-50) 0 (new_points_for_rejection_penalty u) &&
  between 0 500 (new_contributor_threshold u) && between 0 1000 (new_trusted_threshold u) &&
  between 0 5000 (new_expert_threshold u) && between 1 100 (new_max_pending_suggestions_per_user u).

Definition updated_settings (u : ContributionSettingsUpdate) (s : ContributionSettings) : ContributionSettings :=
  mkSettings (default (auto_approval_threshold s) (new_auto_approval_threshold u))
    (default (points_per_metadata_edit s) (new_points_per_metadata_edit u))
    (default (points_per_stream_edit s) (new_points_per_stream_edit u))
    (default (points_for_rejection_penalty s) (new_points_for_rejection_penalty u))
    (default (contributor_threshold s) (new_contributor_threshold u))
    (default (trusted_threshold s) (new_trusted_threshold u))
    (default (expert_threshold s) (new_expert_threshold u))
    (default (allow_auto_approval s) (new_allow_auto_approval u))
    (default (require_reason_for_edits s) (new_require_reason_for_edits u))
    (default (max_pending_suggestions_per_user s) (new_max_pending_suggestions_per_user u))
    (broken_report_threshold s) (auto_block_on_broken_reports s).

Definition update_contribution_settings (update_data : ContributionSettingsUpdate) (uid : Z) : tx db ContributionSettings :=
  _ ← require_role ADMIN uid;
  if negb (valid_update update_data) then http 422 "Validation error"
  else
    settings ← get_contribution_settings;
    let settings := updated_settings update_data settings in
    _ ← update (set_settings (Some settings));
    if trusted_threshold settings <=? contributor_threshold settings
    then http 400 "Contributor threshold must be less than trusted threshold"
    else if expert_threshold settings <=? trusted_threshold settings
    then http 400 "Trusted threshold must be less than expert threshold"
    else _ ← commit; mret settings.

Definition reset_contribution_settings (uid : Z) : tx db ContributionSettings :=
  _ ← require_role ADMIN uid;
  existing ← query settings_row;
  _ ← match existing with
      | Some _ => _ ← update (set_settings None); commit
      | None => mret tt
      end;
  _ ← update (set_settings (Some default_settings));
  _ ← commit;
  mret default_settings.

(** The rows of [get_contribution_levels]: name, least and greatest points, and
    whether the level approves its own suggestions. *)
Definition contribution_levels (settings : ContributionSettings) : list (string * Z * option Z * bool) :=
  [("new", 0, Some (contributor_threshold settings - 1), false);
   ("contributor", contributor_threshold settings, Some (trusted_threshold settings - 1), false);
   ("trusted", trusted_threshold settings, Some (expert_threshold settings - 1),
    allow_auto_approval settings && (auto_approval_threshold settings <=? trusted_threshold settings));
   ("expert", expert_threshold settings, None, allow_auto_approval settings)].

(** ** Reputation *)

Definition privileged (r : UserRole) : bool := memb r [MODERATOR; ADMIN].

Definition should_auto_approve (user : User) : tx db bool :=
  if privileged (role user) then mret true
  else
    settings ← get_contribution_settings;
    mret (allow_auto_approval settings && (auto_approval_threshold settings <=? contribution_points user)).

Definition calculate_contribution_level (points : Z) (settings : ContributionSettings) : string :=
  if expert_threshold settings <=? points then "expert"
  else if trusted_threshold settings <=? points then "trusted"
  else if contributor_threshold settings <=? points then "contributor"
  else "new".

Inductive edit_type := METADATA_EDIT | STREAM_EDIT.

Definition set_points (points : Z) (level : string) (u : User) : User :=
  mkUser (user_id u) (username u) (role u) (is_active u) points (metadata_edits_approved u) (stream_edits_approved u) level.
Definition count_edit (t : edit_type) (u : User) : User :=
  mkUser (user_id u) (username u) (role u) (is_active u) (contribution_points u)
    (metadata_edits_approved u + match t with METADATA_EDIT => 1 | STREAM_EDIT => 0 end)
    (stream_edits_approved u + match t with METADATA_EDIT => 0 | STREAM_EDIT => 1 end) (contribution_level u).

Definition awarded (settings : ContributionSettings) (points : Z) (t : edit_type) (u : User) : User :=
  let total := Z.max 0 (contribution_points u + points) in
  set_points total (calculate_contribution_level total settings) (count_edit t u).

Definition update_user (f : User -> User) (uid : Z) : tx db unit :=
  update (fun d => set_users (alter f uid (users d)) d).

Definition award_points (uid : Z) (points : Z) (t : edit_type) : tx db unit :=
  settings ← get_contribution_settings;
  update_user (awarded settings points t) uid.

(** ** Suggestions *)

Definition STATUS_PENDING := "pending".
Definition STATUS_APPROVED := "approved".
Definition STATUS_REJECTED := "rejected".
Definition STATUS_AUTO_APPROVED := "auto_approved".

Definition is_pending (s : Suggestion) : bool := String.eqb (status s) STATUS_PENDING.

Inductive action := APPROVE | REJECT.
#[export] Instance action_eq_dec : EqDecision action.
Proof. solve_decision. Defined.

(** The new row of a suggestion: reviewed by its author when it is approved at
    once. *)
Definition new_suggestion (id : string) (uid target : Z) (field : string) (current suggested reason : option string)
    (now : Z) (auto : bool) : Suggestion :=
  mkSuggestion id uid target field current suggested reason
    (if auto then STATUS_AUTO_APPROVED else STATUS_PENDING)
    (if auto then Some (str_of_int uid) else None) (if auto then Some now else None)
    (if auto then Some "Auto-approved based on user reputation" else None) now None.

(** What a review writes. *)
Definition reviewed (act : action) (reviewer : Z) (now : Z) (notes : option string) (s : Suggestion) : Suggestion :=
  mkSuggestion (sg_id s) (sg_user s) (sg_target s) (sg_field s) (current_value s) (suggested_value s) (reason s)
    (match act with APPROVE => STATUS_APPROVED | REJECT => STATUS_REJECTED end)
    (Some (str_of_int reviewer)) (Some now) notes (created_at s) (Some now).

Record bulk_result := mkBulk { n_approved : Z; n_rejected : Z; n_skipped : Z }.

(** *** Tables of suggestions *)

Inductive kind := KMetadata | KEpisode | KStream.
#[export] Instance kind_eq_dec : EqDecision kind.
Proof. solve_decision. Defined.

(** The suggestions of a kind. *)
Definition suggestions (k : kind) (d : db) : gmap string Suggestion :=
  match k with
  | KMetadata => metadata_suggestions d
  | KEpisode => episode_suggestions d
  | KStream => base <$> stream_suggestions d
  end.

Definition set_suggestions (k : kind) (f : gmap string Suggestion -> gmap string Suggestion) (d : db) : db :=
  match k with
  | KMetadata => set_metadata_suggestions (f (metadata_suggestions d)) d
  | KEpisode => set_episode_suggestions (f (episode_suggestions d)) d
  | KStream => d
  end.

Definition find_suggestion (k : kind) (id : string) : tx db (option Suggestion) := query (fun d => suggestions k d !! id).

(** [session.add(suggestion)] of a new row, and of one that is there. *)
Definition insert_suggestion (k : kind) (s : Suggestion) : tx db unit :=
  taken ← query (fun d => suggestions k d !! sg_id s);
  match taken with
  | Some _ => throw IntegrityError
  | None => update (set_suggestions k (insert (sg_id s) s))
  end.
Definition save_suggestion (k : kind) (id : string) (s : Suggestion) : tx db unit := update (set_suggestions k (insert id s)).

Definition pending_of (uid : Z) (s : Suggestion) : bool := (sg_user s =? uid) && is_pending s.
Definition same_pending (uid target : Z) (field : string) (s : Suggestion) : bool :=
  pending_of uid s && (sg_target s =? target) && String.eqb (sg_field s) field.

Definition check_pending_limit (k : kind) (uid : Z) : tx db bool :=
  settings ← get_contribution_settings;
  pending_count ← query (fun d => Z.of_nat (length (select (pending_of uid) (suggestions k d))));
  mret (max_pending_suggestions_per_user settings <=? pending_count).

(** The author's points after a decision; a penalty is an award of negative
    points. *)
Definition settle_author (settings : ContributionSettings) (uid : Z) (author : option User) (act : action) : tx db unit :=
  match author with
  | Some _ =>
      match act with
      | APPROVE => award_points uid (points_per_metadata_edit settings) METADATA_EDIT
      | REJECT =>
          if points_for_rejection_penalty settings <? 0
          then award_points uid (points_for_rejection_penalty settings) METADATA_EDIT
          else mret tt
      end
  | None => mret tt
  end.

Definition count_result (r : option action) (n : bulk_result) : bulk_result :=
  match r with
  | Some APPROVE => mkBulk (n_approved n + 1) (n_rejected n) (n_skipped n)
  | Some REJECT => mkBulk (n_approved n) (n_rejected n + 1) (n_skipped n)
  | None => mkBulk (n_approved n) (n_rejected n) (n_skipped n + 1)
  end.

(** The loop of the bulk reviews: what becomes of each suggestion, [None] when
    it is skipped. *)
Fixpoint bulk_loop (one : string -> tx db (option action)) (ids : list string) (n : bulk_result) : tx db bulk_result :=
  match ids with
  | [] => mret n
  | id :: ids => r ← one id; bulk_loop one ids (count_result r n)
  end.

(** [delete_suggestion] and [delete_episode_suggestion]. *)
Definition delete_suggestion_of (k : kind) (id : string) (uid : Z) : tx db unit :=
  _ ← require_auth uid;
  found ← find_suggestion k id;
  match found with
  | Some suggestion =>
      if negb (sg_user suggestion =? uid) then http 404 "Suggestion not found"
      else if negb (is_pending suggestion) then http 400 "Can only delete pending suggestions"
      else
        _ ← update (set_suggestions k (delete id));
        commit
  | None => http 404 "Suggestion not found"
  end.

(** ** Tables for the examples: an administrator, a moderator, a new user and a
    trusted one; a film with a stream, and a second stream *)

Definition sample_users : gmap Z User :=
  list_to_map [(1, mkUser 1 (Some "root") ADMIN true 0 0 0 "new"); (2, mkUser 2 (Some "mod") MODERATOR true 0 0 0 "new");
               (3, mkUser 3 (Some "ann") USER true 0 0 0 "new"); (4, mkUser 4 (Some "bob") USER true 30 6 0 "contributor")].
Definition sample_catalogue : Catalogue :=
  mkCatalogue (list_to_map [(10, mkMedia 10 MOVIE "Dune" None (Some 2021) (Some 155) "Unknown");
                            (11, mkMedia 11 SERIES "Silo" None (Some 2023) None "Unknown")])
    [mkExternalID 10 "imdb" "tt1160419"; mkExternalID 11 "imdb" "tt14688458"] [] ∅ [(10, "Drama")] [] [] [] [] [] [("genre", "Drama")].
Definition sample_stream (sid : Z) : StreamRow :=
  mkStream sid (Some "Dune 2021") (Some "1080p") None (Some "WEB-DL") None None true false true [] ["5.1"; "2.0"] [] [].
Definition sample_library : Library :=
  mkLibrary (list_to_map [(100, sample_stream 100); (101, sample_stream 101)])
    [mkStreamLink 100 10 None; mkStreamLink 101 11 None]
    [mkStreamFile 1000 100 (Some 0); mkStreamFile 1001 101 (Some 0)]
    [mkFileLink 1 1000 10 None None None; mkFileLink 2 1001 11 (Some 1) (Some 2) None] 3 [] [].
Definition sample_db : db := mkDb (Some default_settings) sample_users sample_catalogue sample_library ∅ ∅ ∅ ∅ ∅.
