(* ===== verification/CommunitySpec.v ===== *)
(** * What the community's handlers may do

    An abstract account of MetadataSuggestions, EpisodeSuggestions,
    StreamSuggestions and Contributions: [community_step] lists the changes of
    the tables that count, with who may make them and what they cost or earn.
    The handlers are shown to make only such steps, and what holds of every
    sequence of steps holds of every sequence of requests. *)

From S2P Require Export PyDate Community.
Local Open Scope string_scope.
Local Open Scope Z_scope.

Definition pending_count (k : kind) (uid : Z) (d : db) : Z := Z.of_nat (length (select (pending_of uid) (suggestions k d))).

(** No pending suggestion of the same user for the same field. *)
Definition slot_free (k : kind) (s : Suggestion) (d : db) : Prop :=
  forall id x, suggestions k d !! id = Some x ->
    sg_user x = sg_user s -> sg_target x = sg_target s -> sg_field x = sg_field s -> is_pending x = false.

Definition with_role (required : UserRole) (uid : Z) (d : db) : Prop :=
  exists u, users d !! uid = Some u /\ is_active u = true /\ has_minimum_role (role u) required = true.

(** A user whose suggestions need no review. *)
Definition trusted (uid : Z) (d : db) : Prop :=
  exists u st, users d !! uid = Some u /\ is_active u = true /\ settings_row d = Some st /\
    (privileged (role u) = true \/
     allow_auto_approval st = true /\ auto_approval_threshold st <= contribution_points u).

(** Points lost without a new level (stream suggestions). *)
Definition penalised (st : ContributionSettings) (u : User) : User :=
  set_points (Z.max 0 (contribution_points u + points_for_rejection_penalty st)) (contribution_level u) u.

Definition reward (k : kind) (st : ContributionSettings) : User -> User :=
  match k with
  | KStream => awarded st (points_per_stream_edit st) STREAM_EDIT
  | _ => awarded st (points_per_metadata_edit st) METADATA_EDIT
  end.
(** A penalty of zero points is none. *)
Definition penalty (k : kind) (st : ContributionSettings) (u : User) : User :=
  if points_for_rejection_penalty st <? 0 then
    match k with
    | KStream => penalised st u
    | _ => awarded st (points_for_rejection_penalty st) METADATA_EDIT u
    end
  else u.

(** A text that an episode's field takes. *)
Definition episode_value_ok (field v : string) : bool :=
  if String.eqb field "title" || String.eqb field "overview" then true
  else if String.eqb field "air_date" then str_empty v || is_ret (date_fromisoformat v)
  else if String.eqb field "runtime_minutes" then str_empty v || is_ret (int_of_string v)
  else false.

(** The change of an episode that cannot be made: the episode is gone, or its
    field does not take the text. *)
Definition episode_change_refused (d : db) (s : Suggestion) : Prop :=
  episodes d !! sg_target s = None \/ episode_value_ok (sg_field s) (default "" (suggested_value s)) = false.

(** What a decision does to the row of the author of [s]: an approval brings the
    points of an edit, a rejection the penalty.  There are two exceptions: the
    approval of a change that an episode refuses may bring nothing, and that of a
    suggestion for a stream that is gone may bring the penalty. *)
Inductive settlement (k : kind) (st : ContributionSettings) (d : db) (s : Suggestion) : action -> (User -> User) -> Prop :=
  | settle_approved : settlement k st d s APPROVE (reward k st)
  | settle_rejected : settlement k st d s REJECT (penalty k st)
  | settle_refused : k = KEpisode -> episode_change_refused d s -> settlement k st d s APPROVE (fun u => u)
  | settle_gone : k = KStream -> streams (library d) !! sg_target s = None -> settlement k st d s APPROVE (penalty k st).

(** Everything but the catalogue, the library, the episodes and the notes on
    issues is as it was. *)
Definition contents_change (d d' : db) : Prop :=
  settings_row d' = settings_row d /\ users d' = users d /\
  (forall k, suggestions k d' = suggestions k d) /\ contributions d' = contributions d.

(** The users and one table of suggestions changed, the contents as they are. *)
Definition same_rest (k : kind) (d d' : db) : Prop :=
  settings_row d' = settings_row d /\ contributions d' = contributions d /\
  (forall k', k' <> k -> suggestions k' d' = suggestions k' d).

Definition decided (s : Suggestion) (act : action) (reviewer : Z) (s' : Suggestion) : Prop :=
  exists now notes, s' = reviewed act reviewer now notes s.

(** The triage of an issue only shows in the time of the last change. *)
Definition touched (now : Z) (s : Suggestion) : Suggestion :=
  mkSuggestion (sg_id s) (sg_user s) (sg_target s) (sg_field s) (current_value s) (suggested_value s) (reason s)
    (status s) (reviewed_by s) (reviewed_at s) (review_notes s) (created_at s) (Some now).

(** Contributions that bring points when they are approved. *)
Definition POINT_ELIGIBLE_IMPORT_TYPES : list string := ["stream"; "torrent"; "telegram"; "youtube"; "nzb"; "http"; "acestream"].

Definition effective_settings (d : db) : ContributionSettings := default default_settings (settings_row d).

Definition ordered_thresholds (st : ContributionSettings) : Prop :=
  contributor_threshold st < trusted_threshold st < expert_threshold st.

Definition import_points (st : ContributionSettings) (c : Contribution) (us : gmap Z User) : gmap Z User :=
  match cn_user c with
  | Some uid =>
      if memb (contribution_type c) POINT_ELIGIBLE_IMPORT_TYPES
      then alter (awarded st (points_per_stream_edit st) STREAM_EDIT) uid us else us
  | None => us
  end.

Definition same_but_contributions (d d' : db) : Prop :=
  settings_row d' = settings_row d /\ (forall k, suggestions k d' = suggestions k d).

Inductive community_step : db -> db -> Prop :=
  | step_contents d d' : contents_change d d' -> community_step d d'
  | step_default_settings d : settings_row d = None -> community_step d (set_settings (Some default_settings) d)
  | step_settings d d' uid u :
      with_role ADMIN uid d -> valid_update u = true -> settings_row d' = Some (updated_settings u (effective_settings d)) ->
      ordered_thresholds (updated_settings u (effective_settings d)) ->
      users d' = users d -> (forall k, suggestions k d' = suggestions k d) -> contributions d' = contributions d ->
      community_step d d'
  | step_reset_settings d uid : with_role ADMIN uid d -> community_step d (set_settings None d)
  | step_submit k d d' s st :
      suggestions k d !! sg_id s = None -> is_pending s = true -> reviewed_by s = None ->
      settings_row d = Some st ->
      (k <> KStream -> pending_count k (sg_user s) d < max_pending_suggestions_per_user st /\ slot_free k s d) ->
      same_rest k d d' -> users d' = users d -> suggestions k d' = <[sg_id s := s]> (suggestions k d) ->
      community_step d d'
  | step_auto_approve k d d' s st :
      suggestions k d !! sg_id s = None -> status s = STATUS_AUTO_APPROVED -> reviewed_by s = Some (str_of_int (sg_user s)) ->
      settings_row d = Some st -> trusted (sg_user s) d ->
      same_rest k d d' -> users d' = alter (reward k st) (sg_user s) (users d) ->
      suggestions k d' = <[sg_id s := s]> (suggestions k d) ->
      community_step d d'
  | step_decide k d d' id s s' st act reviewer f :
      suggestions k d !! id = Some s -> is_pending s = true -> with_role MODERATOR reviewer d ->
      settings_row d = Some st -> settlement k st d s act f -> decided s act reviewer s' ->
      same_rest k d d' -> users d' = alter f (sg_user s) (users d) ->
      suggestions k d' = <[id := s']> (suggestions k d) ->
      community_step d d'
  | step_withdraw k d d' id s :
      suggestions k d !! id = Some s -> is_pending s = true ->
      same_rest k d d' -> users d' = users d -> suggestions k d' = delete id (suggestions k d) ->
      community_step d d'
  | step_triage d d' id s now reviewer :
      suggestions KStream d !! id = Some s -> with_role MODERATOR reviewer d ->
      same_rest KStream d d' -> users d' = users d -> suggestions KStream d' = <[id := touched now s]> (suggestions KStream d) ->
      community_step d d'
  | step_contribute d d' c :
      contributions d !! cn_id c = None -> cn_status c = C_PENDING -> cn_reviewed_by c = None ->
      same_but_contributions d d' -> users d' = users d -> contributions d' = <[cn_id c := c]> (contributions d) ->
      community_step d d'
  | step_contribute_approved d d' c uid :
      contributions d !! cn_id c = None -> cn_status c = C_APPROVED -> cn_reviewed_by c = Some "auto" ->
      (exists u, users d !! uid = Some u /\ is_active u = true /\
        (privileged (role u) = true \/ cn_user c = Some uid /\ contribution_type c ∈ ["torrent"; "stream"])) ->
      (cn_user c = None \/ cn_user c = Some uid) ->
      same_but_contributions d d' ->
      users d' = import_points (effective_settings d) c (users d) -> contributions d' = <[cn_id c := c]> (contributions d) ->
      community_step d d'
  | step_review_contribution d d' id c c' reviewer :
      contributions d !! id = Some c -> cn_status c = C_PENDING -> with_role MODERATOR reviewer d ->
      cn_id c' = cn_id c -> cn_user c' = cn_user c -> contribution_type c' = contribution_type c ->
      cn_reviewed_by c' = Some (str_of_int reviewer) -> same_but_contributions d d' ->
      users d' = (if decide (cn_status c' = C_APPROVED) then import_points (effective_settings d) c (users d) else users d) ->
      contributions d' = <[id := c']> (contributions d) ->
      community_step d d'
  | step_flag_contribution d d' id c c' reviewer :
      contributions d !! id = Some c -> cn_status c = C_APPROVED -> with_role MODERATOR reviewer d ->
      cn_id c' = cn_id c -> cn_user c' = cn_user c -> contribution_type c' = contribution_type c ->
      cn_status c' = C_APPROVED -> cn_reviewed_by c' = cn_reviewed_by c ->
      same_but_contributions d d' -> users d' = users d -> contributions d' = <[id := c']> (contributions d) ->
      community_step d d'
  | step_reject_approved d d' id c c' reviewer :
      contributions d !! id = Some c -> cn_status c = C_APPROVED -> with_role MODERATOR reviewer d ->
      cn_id c' = cn_id c -> cn_user c' = cn_user c -> contribution_type c' = contribution_type c ->
      cn_status c' = C_REJECTED -> cn_reviewed_by c' = Some (str_of_int reviewer) ->
      same_but_contributions d d' -> users d' = users d -> contributions d' = <[id := c']> (contributions d) ->
      community_step d d'
  | step_delete_contribution d d' id c uid :
      contributions d !! id = Some c ->
      with_role ADMIN uid d \/ (cn_user c = Some uid /\ cn_status c = C_PENDING) ->
      same_but_contributions d d' -> users d' = users d -> contributions d' = delete id (contributions d) ->
      community_step d d'.

Notation community_steps := (rtc community_step).
#[export] Instance community_steps_preorder : PreOrder community_steps.
Proof. apply _. Qed.

#[export] Instance contents_change_preorder : PreOrder contents_change.
Proof.
  split; [by intros d|]. intros d1 d2 d3 (A1 & A2 & A3 & A4) (B1 & B2 & B3 & B4).
  repeat split; [by rewrite B1|by rewrite B2| |by rewrite B4]. intros k. by rewrite B3.
Qed.

Lemma contents_steps d d' : contents_change d d' -> community_steps d d'.
Proof. intros H. by apply rtc_once, step_contents. Qed.

Lemma update_catalogue_contents f : quiet contents_change (update_catalogue f).
Proof. intros s. by split; [repeat split|]. Qed.

Lemma update_library_contents f : quiet contents_change (update_library f).
Proof. intros s. by split; [repeat split|]. Qed.

(** What the requests have in common. *)
Lemma require_auth_user uid (P : db -> Prop) :
  eff P community_steps (require_auth uid) (fun u d => P d /\ users d !! uid = Some u /\ is_active u = true).
Proof.
  unfold require_auth. eapply eff_bind; [apply eff_query|]. intros o. cbv beta.
  apply eff_case_option; [intros u ->|intros _; apply eff_throw].
  apply eff_case_bool; intros Ha; [|apply eff_throw].
  apply eff_return. by intros d [E H].
Qed.

Lemma require_role_user r uid (P : db -> Prop) :
  eff P community_steps (require_role r uid)
    (fun u d => P d /\ users d !! uid = Some u /\ is_active u = true /\ with_role r uid d).
Proof.
  unfold require_role. eapply eff_bind; [apply (require_auth_user uid P)|]. intros u. cbv beta.
  apply eff_case_bool; intros Hr; [apply eff_throw|].
  apply eff_return. intros d (HP & Hu & Ha). repeat split; [done..|]. exists u. repeat split; [done..|].
  unfold has_minimum_role. apply Z.leb_le. apply Z.ltb_ge in Hr. exact Hr.
Qed.

(** A condition on the tables that only looks at what a missing row of settings
    does not change. *)
Definition ignores_settings (P : db -> Prop) : Prop := forall d x, P d -> P (set_settings x d).

Lemma get_settings_eff (P : db -> Prop) : ignores_settings P ->
  eff P community_steps get_contribution_settings (fun st d => P d /\ settings_row d = Some st).
Proof.
  intros HP s Hs. unfold get_contribution_settings, mbind, M_bind, query. cbn.
  destruct (settings_row (working s)) as [st|] eqn:E; cbn.
  - by split; [reflexivity|].
  - assert (Hst : community_steps (working s) (set_settings (Some default_settings) (working s))).
    { by apply rtc_once, step_default_settings. }
    split; [by split; [|right]|]. split; [by apply HP|done].
Qed.

#[export] Hint Resolve update_catalogue_contents update_library_contents : keeps.

(** *** Points *)

Lemma with_role_alter r uid d f v us :
  (forall u, role (f u) = role u /\ is_active (f u) = is_active u) -> us = alter f v (users d) ->
  with_role r uid d -> with_role r uid (set_users us d).
Proof.
  intros Hf -> (u & Hu & Ha & Hr). destruct (decide (uid = v)) as [->|Hne].
  - exists (f u). cbn. rewrite lookup_alter_eq, Hu. destruct (Hf u) as [-> ->]. done.
  - exists u. cbn. by rewrite lookup_alter_ne.
Qed.

Lemma penalty_keeps_role k st u : role (penalty k st u) = role u /\ is_active (penalty k st u) = is_active u.
Proof. unfold penalty. destruct (_ <? 0); [|done]. by destruct k. Qed.

Lemma settlement_keeps_role k st d s act f u :
  settlement k st d s act f -> role (f u) = role u /\ is_active (f u) = is_active u.
Proof. destruct 1; [by destruct k|apply penalty_keeps_role|done|apply penalty_keeps_role]. Qed.

Lemma award_points_run uid points t s st : settings_row (working s) = Some st ->
  award_points uid points t s =
  (Ret tt, mkSession (committed s) (set_users (alter (awarded st points t) uid (users (working s))) (working s)) (outbox s)).
Proof.
  intros E. unfold award_points, get_contribution_settings, mbind, M_bind, query. cbn. by rewrite E.
Qed.

(** What a handler knows of its caller and of the settings. *)
Definition knows (reviewer : Z) (st : ContributionSettings) (d : db) : Prop :=
  with_role MODERATOR reviewer d /\ settings_row d = Some st.

Lemma knows_contents uid st d d' : knows uid st d -> contents_change d d' -> knows uid st d'.
Proof. intros [(u & Hu) Hst] (E1 & E2 & _). split; [exists u; by rewrite E2|by rewrite E1]. Qed.

Lemma knows_frame {A} uid st (m : tx db A) :
  keeps contents_change m -> eff (knows uid st) community_steps m (fun _ => knows uid st).
Proof.
  intros Hm. eapply eff_frame; [exact Hm|apply contents_steps|]. intros d d' Hd. by apply knows_contents.
Qed.

Lemma trusted_contents uid d d' : trusted uid d -> contents_change d d' -> trusted uid d'.
Proof. intros (u & st & Hu) (E1 & E2 & _). exists u, st. by rewrite E1, E2. Qed.

Lemma pending_count_contents k uid d d' : contents_change d d' -> pending_count k uid d' = pending_count k uid d.
Proof. intros (_ & _ & E & _). unfold pending_count. by rewrite E. Qed.

Lemma slot_free_contents k s d d' : slot_free k s d -> contents_change d d' -> slot_free k s d'.
Proof. intros H (_ & _ & E & _) id x. rewrite E. apply H. Qed.

(** The test for auto-approval, once the settings are there. *)
Lemma should_auto_approve_eff u uid st (P : db -> Prop) :
  (forall d, P d -> users d !! uid = Some u /\ is_active u = true /\ settings_row d = Some st) ->
  eff P community_steps (should_auto_approve u) (fun b d => P d /\ (b = true -> trusted uid d)).
Proof.
  intros HP. unfold should_auto_approve. apply eff_case_bool; intros Hr.
  - apply eff_return. intros d Hd. split; [done|]. intros _. destruct (HP d Hd) as (Hu & Ha & Hst).
    exists u, st. by auto.
  - intros s Hs. destruct (HP _ Hs) as (Hu & Ha & Hst). unfold get_contribution_settings, mbind, M_bind, query. cbn.
    rewrite Hst. cbn. split; [reflexivity|]. split; [done|]. intros Hb. exists u, st.
    apply andb_true_iff in Hb as [? ?%Z.leb_le]. repeat split; [done..|by right].
Qed.

Lemma require_role_gate r uid (P : db -> Prop) :
  eff P community_steps (require_role r uid) (fun _ => with_role r uid).
Proof. eapply eff_conseq; [apply (require_role_user r uid (fun _ => True))|done|]. by intros a d (_ & _ & _ & H). Qed.

Lemma settings_known uid :
  eff (with_role MODERATOR uid) community_steps get_contribution_settings (fun st => knows uid st).
Proof. apply get_settings_eff. by intros d x H. Qed.

(** ** The parts of the handlers of metadata and episode suggestions *)

Lemma set_suggestions_spec k f d : k <> KStream ->
  suggestions k (set_suggestions k f d) = f (suggestions k d) /\ same_rest k d (set_suggestions k f d) /\
  users (set_suggestions k f d) = users d.
Proof. intros Hk. destruct k; [| |done]; (repeat split); by intros []. Qed.

(** A pending suggestion that a moderator is about to decide; the row of its
    author has been read. *)
Definition deciding (k : kind) (id : string) (s : Suggestion) (author : option User) (uid : Z) (st : ContributionSettings)
    (d : db) : Prop :=
  suggestions k d !! id = Some s /\ is_pending s = true /\ users d !! sg_user s = author /\ knows uid st d.

Lemma deciding_contents k id s author uid st d d' :
  deciding k id s author uid st d -> contents_change d d' -> deciding k id s author uid st d'.
Proof.
  intros (H1 & H2 & H3 & H4) Hd. pose proof Hd as (_ & Eu & E & _).
  split; [by rewrite E|]. split; [done|]. split; [by rewrite Eu|]. by eapply knows_contents.
Qed.

Lemma deciding_frame {A} k id s author uid st (m : tx db A) :
  keeps contents_change m -> eff (deciding k id s author uid st) community_steps m (fun _ => deciding k id s author uid st).
Proof.
  intros Hm. eapply eff_frame; [exact Hm|apply contents_steps|]. intros d d' Hd. by apply deciding_contents.
Qed.

(** Reading the row of the author. *)
Lemma deciding_author k id s uid st (P : db -> Prop) :
  (forall d, P d -> suggestions k d !! id = Some s /\ is_pending s = true /\ knows uid st d) ->
  eff P community_steps (query (fun d => users d !! sg_user s)) (fun author => deciding k id s author uid st).
Proof.
  intros HP. eapply eff_conseq; [apply eff_query|done|]. intros author d [E Hd]. destruct (HP d Hd) as (H1 & H2 & H3).
  by split_and!.
Qed.

(** Code that changes the row of the author by [f], and nothing else. *)
Definition settles (st : ContributionSettings) (uid : Z) (author : option User) (f : User -> User) (m : tx db unit) : Prop :=
  forall w, settings_row (working w) = Some st -> users (working w) !! uid = author ->
    m w = (Ret tt, mkSession (committed w) (set_users (alter f uid (users (working w))) (working w)) (outbox w)).

Lemma settles_same st uid author f : (forall u, author = Some u -> f u = u) -> settles st uid author f (mret tt).
Proof.
  intros Hf w _ Hu. assert (alter f uid (users (working w)) = users (working w)) as ->.
  { apply map_eq. intros i. destruct (decide (i = uid)) as [->|Hi]; [|by rewrite lookup_alter_ne].
    rewrite lookup_alter_eq, Hu. destruct author as [u|]; [|done]. cbn. f_equal. by apply Hf. }
  by destruct w as [c [] o].
Qed.

Lemma settle_author_settles k st uid author act : k <> KStream ->
  settles st uid author (match act with APPROVE => reward k st | REJECT => penalty k st end) (settle_author st uid author act).
Proof.
  intros Hk. destruct author as [u|]; [|by apply settles_same]. unfold settle_author, penalty.
  destruct act; [|destruct (_ <? 0); [|by apply settles_same]]; intros w Hw _; rewrite (award_points_run _ _ _ _ _ Hw); by destruct k.
Qed.

(** Settling with the author and saving the reviewed row. *)
Lemma decide_row k st s id act author uid now notes f (m : tx db unit) (P : db -> Prop) : k <> KStream ->
  settles st (sg_user s) author f m ->
  (forall d, P d -> deciding k id s author uid st d /\ settlement k st d s act f) ->
  eff P community_steps
    (m ≫= fun _ => save_suggestion k id (reviewed act uid now notes s)) (fun _ => knows uid st).
Proof.
  intros Hk Hm HP w Hw. destruct (HP _ Hw) as [(Hid & Hp & Hu & Hr & Hst) Hf]. unfold mbind, M_bind. rewrite (Hm w Hst Hu).
  set (d := set_users (alter f (sg_user s) (users (working w))) (working w)).
  destruct (set_suggestions_spec k (insert id (reviewed act uid now notes s)) d Hk) as (Es & Er & Eu).
  assert (Ed : suggestions k d = suggestions k (working w)) by by destruct k.
  assert (Hkn : knows uid st d).
  { split; [|done]. eapply with_role_alter; [|done..]. intros u. by eapply settlement_keeps_role. }
  split.
  - split; [|by left]. apply rtc_once.
    apply (step_decide k _ _ id s (reviewed act uid now notes s) st act uid f);
      [done..|by eexists _, _| |by cbn; rewrite Eu|by cbn; rewrite <- Ed].
    destruct Er as (R1 & R2 & R3). split; [done|]. split; [done|]. intros k' Hk'. cbn. rewrite R3 by done. by destruct k'.
  - destruct Hkn as [(u & Hu') Hs]. destruct Er as (R1 & _). split; [exists u; cbn; by rewrite Eu|]. cbn. by rewrite R1.
Qed.

Lemma bulk_loop_steps (P : db -> Prop) one ids : forall n,
  (forall id, eff P community_steps (one id) (fun _ => P)) -> eff P community_steps (bulk_loop one ids n) (fun _ => P).
Proof.
  induction ids as [|id ids IH]; intros n H; cbn [bulk_loop]; [by apply eff_return|].
  eapply eff_bind; [apply H|]. intros r. by apply IH.
Qed.

Lemma delete_suggestion_steps k id uid : k <> KStream ->
  eff (fun _ => True) community_steps (delete_suggestion_of k id uid) (fun _ _ => True).
Proof.
  intros Hk. unfold delete_suggestion_of. eapply eff_bind; [apply require_auth_user|]. intros u. cbv beta.
  eapply eff_bind; [apply eff_query|]. intros found. cbv beta.
  apply eff_case_option; [intros s ->|intros _; apply eff_throw].
  apply eff_case_bool; intros Ho; [apply eff_throw|]. apply eff_case_bool; intros Hp; [apply eff_throw|].
  eapply eff_bind; [apply eff_update|intros []; eapply eff_conseq; [apply (eff_commit (fun _ => True))|done|done]].
  intros d [E _]. destruct (set_suggestions_spec k (delete id) d Hk) as (Es & Er & Eu).
  apply rtc_once, (step_withdraw k _ _ id s); [done|by apply negb_false_iff|done..].
Qed.

(** *** Creations *)

(** What is known once the checks are passed. *)
Definition may_create (k : kind) (u : User) (uid target : Z) (field : string) (st : ContributionSettings) (d : db) : Prop :=
  users d !! uid = Some u /\ is_active u = true /\ settings_row d = Some st /\
  pending_count k uid d < max_pending_suggestions_per_user st /\
  forall id x, suggestions k d !! id = Some x -> sg_user x = uid -> sg_target x = target -> sg_field x = field ->
    is_pending x = false.

Lemma may_create_contents k u uid target field st d d' :
  may_create k u uid target field st d -> contents_change d d' -> may_create k u uid target field st d'.
Proof.
  intros (H1 & H2 & H3 & H4 & H5) Hd. pose proof Hd as (E1 & E2 & E3 & _).
  unfold may_create. rewrite E1, E2, E3, (pending_count_contents _ _ d d' Hd). by repeat split.
Qed.

Lemma check_pending_limit_eff k uid st (P : db -> Prop) : (forall d, P d -> settings_row d = Some st) ->
  eff P community_steps (check_pending_limit k uid)
    (fun b d => P d /\ (b = false -> pending_count k uid d < max_pending_suggestions_per_user st)).
Proof.
  intros HP w Hw. unfold check_pending_limit, get_contribution_settings, mbind, M_bind, query. cbn. rewrite (HP _ Hw). cbn.
  split; [reflexivity|]. split; [done|]. intros Hb%Z.leb_gt. exact Hb.
Qed.

Lemma slot_none k uid target field d :
  select (same_pending uid target field) (suggestions k d) = [] ->
  forall id x, suggestions k d !! id = Some x -> sg_user x = uid -> sg_target x = target -> sg_field x = field ->
    is_pending x = false.
Proof.
  intros Hn id x Hx <- <- <-. pose proof (select_nil _ _ _ _ Hn Hx) as H. unfold same_pending, pending_of in H.
  by rewrite !Z.eqb_refl, String.eqb_refl, !andb_true_r in H.
Qed.

(** Crediting the author of a suggestion that was applied, and adding it. *)
Lemma record_suggestion k u st uid target field cur sug why now new_id applied : k <> KStream ->
  eff (fun d => may_create k u uid target field st d /\ (applied = true -> trusted uid d)) community_steps
    ((if applied : bool then award_points uid (points_per_metadata_edit st) METADATA_EDIT else mret tt) ≫= fun _ =>
     insert_suggestion k (new_suggestion new_id uid target field cur sug why now applied)) (fun _ _ => True).
Proof.
  intros Hk w [(Hu & Ha & Hst & Hc & Hf) Ht]. unfold mbind, M_bind.
  set (s := new_suggestion new_id uid target field cur sug why now applied).
  destruct applied.
  - rewrite (award_points_run _ _ _ _ st Hst).
    set (d := set_users _ (working w)). unfold insert_suggestion, mbind, M_bind, query. cbn -[suggestions].
    assert (Ed : suggestions k d = suggestions k (working w)) by by destruct k.
    destruct (suggestions k d !! new_id) eqn:E; [by left|]. rewrite Ed in E.
    destruct (set_suggestions_spec k (insert new_id s) d Hk) as (Es & (R1 & R2 & R3) & Eu).
    split; [|done]. split; [|by left]. apply rtc_once.
    apply (step_auto_approve k _ _ s st); [done..|by apply Ht| | |by cbn; rewrite <- Ed].
    + split; [done|]. split; [done|]. intros k' Hk'. cbn. rewrite R3 by done. by destruct k'.
    + cbn. rewrite Eu. by destruct k.
  - unfold insert_suggestion, mret, M_ret, mbind, M_bind, query. cbn -[suggestions].
    destruct (suggestions k (working w) !! new_id) eqn:E; [by left|].
    destruct (set_suggestions_spec k (insert new_id s) (working w) Hk) as (Es & Er & Eu).
    split; [|done]. split; [|by left]. apply rtc_once. by apply (step_submit k _ _ s st).
Qed.

(** From the test for auto-approval to the new row; [apply] is the change. *)
Lemma create_core {A} k u st uid target field cur sug why now new_id (apply_change : tx db bool) (rest : bool -> tx db A) :
  k <> KStream -> keeps contents_change apply_change ->
  (forall b, eff (fun _ => True) community_steps (rest b) (fun _ _ => True)) ->
  eff (may_create k u uid target field st) community_steps
    (can ← should_auto_approve u;
     applied ← (if can : bool then apply_change else mret false);
     _ ← (if applied : bool then award_points uid (points_per_metadata_edit st) METADATA_EDIT else mret tt);
     _ ← insert_suggestion k (new_suggestion new_id uid target field cur sug why now applied);
     rest applied) (fun _ _ => True).
Proof.
  intros Hk Happly Hrest. eapply eff_bind; [apply (should_auto_approve_eff u uid st); by intros d (H1 & H2 & H3 & _)|].
  intros can. cbv beta. eapply eff_bind with
    (Q := fun applied d => may_create k u uid target field st d /\ (applied = true -> trusted uid d)).
  { apply eff_case_bool; intros ->.
    - set (P0 := fun d => may_create k u uid target field st d /\ trusted uid d).
      eapply (eff_conseq _ P0 _ _ (fun _ => P0)); [eapply eff_frame; [apply Happly|apply contents_steps|]|..].
      + intros d d' [H1 H2] Hd. split; [by eapply may_create_contents|by eapply trusted_contents].
      + intros d [H1 H2]. split; [done|by apply H2].
      + by intros b d [H1 H2].
    - apply eff_return. intros d [H1 _]. by split. }
  intros applied. cbv beta. apply eff_assoc. eapply eff_bind; [by apply (record_suggestion k u)|]. intros []. apply Hrest.
Qed.
