(* ===== verification/CommunityInvariants.v ===== *)
(** * What the steps of the community preserve

    [step_table], [step_users], [step_settings_row] and [step_contributions]
    say what a step may do to one table; the invariants follow table by table. *)

From S2P Require Export CommunitySpec.
Local Open Scope string_scope.
Local Open Scope Z_scope.

(** The steps, with names for what they know. *)
Ltac step_cases :=
  destruct 1 as [d d' (C1 & C2 & C3 & C4)|d E|d d' uid u Hr Hu Es Ho E1 E2 E3|d uid Hr
    |k' d d' s st H1 H2 H3 H4 H5 (R1 & R2 & R3) H6 H7|k' d d' s st H1 H2 H3 H4 H5 (R1 & R2 & R3) H6 H7
    |k' d d' id s s' st act r f H1 H2 H3 H4 H5 H6 (R1 & R2 & R3) H7 H8|k' d d' id s H1 H2 (R1 & R2 & R3) H3 H4
    |d d' id s now r H1 H2 (R1 & R2 & R3) H3 H4
    |d d' c H1 H2 H3 [R1 R2] H4 H5|d d' c uid H1 H2 H3 H4 H5 [R1 R2] H6 H7|d d' id c c' r H1 H2 H3 H4 H5 H6 H7 [R1 R2] H8 H9
    |d d' id c c' r H1 H2 H3 H4 H5 H6 H7 H8 [R1 R2] H9 H10|d d' id c c' r H1 H2 H3 H4 H5 H6 H7 H8 [R1 R2] H9 H10
    |d d' id c uid H1 H2 [R1 R2] H3 H4].

(** ** The tables of suggestions *)

Inductive table_change (k : kind) (d : db) : gmap string Suggestion -> Prop :=
  | table_same : table_change k d (suggestions k d)
  | table_submitted s st :
      suggestions k d !! sg_id s = None -> is_pending s = true -> reviewed_by s = None -> settings_row d = Some st ->
      (k <> KStream -> pending_count k (sg_user s) d < max_pending_suggestions_per_user st /\ slot_free k s d) ->
      table_change k d (<[sg_id s := s]> (suggestions k d))
  | table_auto s :
      suggestions k d !! sg_id s = None -> status s = STATUS_AUTO_APPROVED -> reviewed_by s = Some (str_of_int (sg_user s)) ->
      trusted (sg_user s) d -> table_change k d (<[sg_id s := s]> (suggestions k d))
  | table_decided id s s' act reviewer :
      suggestions k d !! id = Some s -> is_pending s = true -> with_role MODERATOR reviewer d ->
      decided s act reviewer s' -> table_change k d (<[id := s']> (suggestions k d))
  | table_withdrawn id s :
      suggestions k d !! id = Some s -> is_pending s = true -> table_change k d (delete id (suggestions k d))
  | table_triaged id s now :
      k = KStream -> suggestions k d !! id = Some s -> table_change k d (<[id := touched now s]> (suggestions k d)).

Lemma table_kept k d m : m = suggestions k d -> table_change k d m.
Proof. intros ->. apply table_same. Qed.

Lemma table_other k k' d d' m : same_rest k' d d' -> k <> k' -> (k = k' -> m = suggestions k d') ->
  table_change k d (suggestions k d').
Proof. intros (_ & _ & H) Hk _. by apply table_kept, H. Qed.

Lemma step_table k d d' : community_step d d' -> table_change k d (suggestions k d').
Proof.
  step_cases;
    try (by apply table_kept; auto); try (by destruct k; apply table_kept).
  1-4: destruct (decide (k = k')) as [->|Hk]; [|by apply table_kept, R3].
  - rewrite H7. by eapply table_submitted.
  - rewrite H7. by eapply table_auto.
  - rewrite H8. by eapply table_decided.
  - rewrite H4. by eapply table_withdrawn.
  - destruct (decide (k = KStream)) as [->|Hk]; [|by apply table_kept, R3]. rewrite H4. by eapply table_triaged.
Qed.

(** ** Users and settings *)

(** A change of the points of one user. *)
Inductive points_change (st : ContributionSettings) : (User -> User) -> Prop :=
  | points_same : points_change st (fun u => u)
  | points_metadata : points_change st (awarded st (points_per_metadata_edit st) METADATA_EDIT)
  | points_stream : points_change st (awarded st (points_per_stream_edit st) STREAM_EDIT)
  | points_lost : points_for_rejection_penalty st < 0 ->
      points_change st (awarded st (points_for_rejection_penalty st) METADATA_EDIT)
  | points_penalty : points_for_rejection_penalty st < 0 -> points_change st (penalised st).

Lemma reward_change k st : points_change st (reward k st).
Proof. destruct k; constructor. Qed.

Lemma settlement_change k st d s act f : settlement k st d s act f ->
  exists f', points_change st f' /\ forall u, f u = f' u.
Proof.
  assert (Hp : exists f', points_change st f' /\ forall u, penalty k st u = f' u).
  { destruct (Z.ltb_spec (points_for_rejection_penalty st) 0) as [Hn|Hn].
    - exists (match k with KStream => penalised st | _ => awarded st (points_for_rejection_penalty st) METADATA_EDIT end).
      split; [by destruct k; constructor|]. intros u. unfold penalty. destruct (Z.ltb_spec (points_for_rejection_penalty st) 0); [|lia]. by destruct k.
    - exists (fun u => u). split; [constructor|]. intros u. unfold penalty. destruct (Z.ltb_spec (points_for_rejection_penalty st) 0); [lia|done]. }
  destruct 1; [|exact Hp| |exact Hp]; eexists; (split; [|done]); [apply reward_change|constructor].
Qed.

Lemma import_change st c us : exists uid f, points_change st f /\ import_points st c us = alter f uid us.
Proof.
  unfold import_points. destruct (cn_user c) as [uid|]; [destruct (memb _ _)|].
  - exists uid. eexists. split; [apply points_stream|done].
  - exists 0. eexists. split; [apply points_same|]. by rewrite alter_id.
  - exists 0. eexists. split; [apply points_same|]. by rewrite alter_id.
Qed.

Lemma no_change st (us : gmap Z User) : exists uid f, points_change st f /\ us = alter f uid us.
Proof. exists 0, (fun u => u). split; [constructor|]. by rewrite alter_id. Qed.

Lemma step_users d d' : community_step d d' ->
  exists uid f, points_change (effective_settings d) f /\ users d' = alter f uid (users d).
Proof.
  assert (Hst : forall st, settings_row d = Some st -> effective_settings d = st) by (intros st E; unfold effective_settings; by rewrite E).
  step_cases;
    try (match goal with E : users _ = users _ |- _ => rewrite E; apply no_change end); try apply no_change.
  - rewrite H6, (Hst _ H4). do 2 eexists. split; [apply reward_change|done].
  - rewrite H7, (Hst _ H4). destruct (settlement_change _ _ _ _ _ _ H5) as (f' & Hf & E). exists (sg_user s), f'.
    split; [done|]. apply map_eq. intros i. destruct (decide (i = sg_user s)) as [->|Hi]; [|by rewrite !lookup_alter_ne].
    rewrite !lookup_alter_eq. destruct (users d !! sg_user s) as [u|]; [|done]. exact (f_equal Some (E u)).
  - rewrite H6. apply import_change.
  - rewrite H8. destruct (decide _); [apply import_change|apply no_change].
Qed.

Lemma step_settings_row d d' : community_step d d' ->
  settings_row d' = settings_row d \/ settings_row d' = None \/ effective_settings d' = effective_settings d \/
  exists u, valid_update u = true /\ settings_row d' = Some (updated_settings u (effective_settings d)) /\
    ordered_thresholds (updated_settings u (effective_settings d)).
Proof.
  step_cases; try (by left).
  - right; right; left. unfold effective_settings. cbn. by rewrite E.
  - right; right; right. by exists u.
  - right. by left.
Qed.

(** ** Ranges of the settings *)

Record settings_ok (st : ContributionSettings) : Prop := {
  ok_threshold : 0 <= auto_approval_threshold st <= 1000;
  ok_metadata : 0 <= points_per_metadata_edit st <= 100;
  ok_stream : 0 <= points_per_stream_edit st <= 100;
  ok_penalty : -50 <= points_for_rejection_penalty st <= 0;
  ok_contributor : 0 <= contributor_threshold st <= 500;
  ok_trusted : 0 <= trusted_threshold st <= 1000;
  ok_expert : 0 <= expert_threshold st <= 5000;
  ok_ordered : ordered_thresholds st;
  ok_max : 1 <= max_pending_suggestions_per_user st <= 100 }.

Lemma default_settings_ok : settings_ok default_settings.
Proof. split; cbn; unfold ordered_thresholds; cbn; lia. Qed.

Lemma between_default lo hi o z : between lo hi o = true -> lo <= z <= hi -> lo <= default z o <= hi.
Proof. destruct o; cbn; lia. Qed.

Lemma updated_settings_ok u st : settings_ok st -> valid_update u = true -> ordered_thresholds (updated_settings u st) ->
  settings_ok (updated_settings u st).
Proof.
  intros [H1 H2 H3 H4 H5 H6 H7 H8 H9] Hv Ho. unfold valid_update in Hv.
  repeat (apply andb_true_iff in Hv as [Hv ?]). split; [..|exact Ho|]; by apply between_default.
Qed.

Definition settings_valid (d : db) : Prop := settings_ok (effective_settings d).

Lemma step_settings_valid d d' : community_step d d' -> settings_valid d -> settings_valid d'.
Proof.
  unfold settings_valid. intros [E|[E|[->|(u & Hu & E & Ho)]]]%step_settings_row H.
  - unfold effective_settings. by rewrite E.
  - unfold effective_settings. rewrite E. apply default_settings_ok.
  - done.
  - unfold effective_settings at 1. rewrite E. by apply updated_settings_ok.
Qed.

(** ** Roles and points *)

Definition rank (u : User) : UserRole * bool := (role u, is_active u).
Definition ranks (d : db) : gmap Z (UserRole * bool) := rank <$> users d.

Lemma points_change_rank st f u : points_change st f -> rank (f u) = rank u.
Proof. by destruct 1. Qed.

Lemma step_ranks d d' : community_step d d' -> ranks d' = ranks d.
Proof.
  intros (uid & f & Hf & E)%step_users. unfold ranks. rewrite E. apply map_eq. intros i. rewrite !lookup_fmap.
  destruct (decide (uid = i)) as [<-|Hne]; [rewrite lookup_alter_eq|by rewrite lookup_alter_ne].
  destruct (users d !! uid); [|done]. cbn. f_equal. by eapply points_change_rank.
Qed.

Lemma with_role_ranks r uid d d' : ranks d' = ranks d -> with_role r uid d -> with_role r uid d'.
Proof.
  unfold ranks. intros E (u & Hu & Ha & Hr). apply (f_equal (lookup uid)) in E. rewrite !lookup_fmap, Hu in E.
  destruct (users d' !! uid) as [u'|] eqn:Hu'; [|done]. injection E as E1 E2. exists u'. by rewrite E1, E2.
Qed.

(** Every point was earned by an approved edit, at most a hundred by each. *)
Definition points_ok (u : User) : Prop :=
  0 <= metadata_edits_approved u /\ 0 <= stream_edits_approved u /\
  0 <= contribution_points u <= 100 * (metadata_edits_approved u + stream_edits_approved u).
Definition users_ok (d : db) : Prop := map_Forall (fun _ u => points_ok u) (users d).

Lemma points_change_ok st f u : settings_ok st -> points_change st f -> points_ok u -> points_ok (f u).
Proof.
  intros [H1 H2 H3 H4 H5 H6 H7 H8 H9] Hf (P1 & P2 & P3).
  destruct Hf; unfold points_ok; cbn; lia.
Qed.

Lemma step_users_ok d d' : community_step d d' -> settings_valid d -> users_ok d -> users_ok d'.
Proof.
  intros (uid & f & Hf & E)%step_users Hs Hu i u. rewrite E.
  destruct (decide (uid = i)) as [<-|Hne]; [rewrite lookup_alter_eq|rewrite lookup_alter_ne by done; apply Hu].
  destruct (users d !! uid) as [v|] eqn:Ev; [|done]. intros [= <-]. eapply points_change_ok; [exact Hs|exact Hf|by eapply Hu].
Qed.

(** ** The rows of suggestions *)

(** The status of a row says who reviewed it. *)
Definition row_ok (d : db) (s : Suggestion) : Prop :=
  (status s = STATUS_PENDING /\ reviewed_by s = None) \/
  (status s = STATUS_AUTO_APPROVED /\ reviewed_by s = Some (str_of_int (sg_user s))) \/
  ((status s = STATUS_APPROVED \/ status s = STATUS_REJECTED) /\
   exists reviewer, reviewed_by s = Some (str_of_int reviewer) /\ with_role MODERATOR reviewer d).
Definition rows_ok (d : db) : Prop := forall k id s, suggestions k d !! id = Some s -> row_ok d s.

Lemma row_ok_ranks d d' s : ranks d' = ranks d -> row_ok d s -> row_ok d' s.
Proof.
  intros E [H|[H|(H & r & H1 & H2)]]; [by left|by right; left|]. right; right. split; [done|]. exists r. split; [done|].
  by eapply with_role_ranks.
Qed.

Lemma reviewed_row_ok d s act reviewer s' : decided s act reviewer s' -> with_role MODERATOR reviewer d -> row_ok d s'.
Proof.
  intros (now & notes & ->) Hr. right; right. split; [destruct act; [by left|by right]|]. by exists reviewer.
Qed.

(** A property of rows that new rows have and changed rows keep. *)
Lemma table_rows k d m (P : Suggestion -> Prop) :
  table_change k d m -> (forall id s, suggestions k d !! id = Some s -> P s) ->
  (forall s, is_pending s = true -> reviewed_by s = None -> P s) ->
  (forall s, status s = STATUS_AUTO_APPROVED -> reviewed_by s = Some (str_of_int (sg_user s)) -> P s) ->
  (forall s act reviewer s', with_role MODERATOR reviewer d -> decided s act reviewer s' -> P s') ->
  (forall s now, P s -> P (touched now s)) ->
  forall id s, m !! id = Some s -> P s.
Proof.
  intros Hm Hold Hnew Hauto Hdec Htri id x.
  destruct Hm as [|s st H1 H2 H3 H4 H5|s H1 H2 H3 H4|id' s s' act r H1 H2 H3 H4|id' s H1 H2|id' s now H1 H2];
    [apply Hold|..]; rewrite ?lookup_insert_Some, ?lookup_delete_Some.
  - intros [[_ <-]|[_ Hx]]; [by apply Hnew|by eapply Hold].
  - intros [[_ <-]|[_ Hx]]; [by apply Hauto|by eapply Hold].
  - intros [[_ <-]|[_ Hx]]; [by eapply Hdec|by eapply Hold].
  - intros [_ Hx]. by eapply Hold.
  - intros [[_ <-]|[_ Hx]]; [by eapply Htri, Hold|by eapply Hold].
Qed.

Lemma is_pending_status s : is_pending s = true <-> status s = STATUS_PENDING.
Proof. apply String.eqb_eq. Qed.

Lemma step_rows_ok d d' : community_step d d' -> rows_ok d -> rows_ok d'.
Proof.
  intros Hs H k id s Hk. apply (row_ok_ranks d); [by apply step_ranks|]. revert id s Hk.
  apply (table_rows k d); [by apply step_table|by apply H|..].
  - intros s Hp%is_pending_status Hr. by left.
  - intros s H1 H2. by right; left.
  - intros s act r s' Hr Hd. by eapply reviewed_row_ok.
  - done.
Qed.

(** *** Limits on pending suggestions *)

Definition limits_ok (d : db) : Prop := forall k uid, k <> KStream -> pending_count k uid d <= 100.
Definition slots_ok (d : db) : Prop := forall k id1 id2 s1 s2, k <> KStream ->
  suggestions k d !! id1 = Some s1 -> suggestions k d !! id2 = Some s2 -> is_pending s1 = true -> is_pending s2 = true ->
  sg_user s1 = sg_user s2 -> sg_target s1 = sg_target s2 -> sg_field s1 = sg_field s2 -> id1 = id2.

Lemma decided_not_pending s act reviewer s' : decided s act reviewer s' -> is_pending s' = false.
Proof. intros (now & notes & ->). by destruct act. Qed.

Lemma settings_valid_row d st : settings_valid d -> settings_row d = Some st -> settings_ok st.
Proof. unfold settings_valid, effective_settings. intros H E. by rewrite E in H. Qed.

Lemma step_limits_ok d d' : community_step d d' -> settings_valid d -> limits_ok d -> limits_ok d'.
Proof.
  intros Hs Hv H k uid Hk. specialize (H k uid Hk). unfold pending_count in *.
  destruct (step_table k d d' Hs) as [|s st H1 H2 H3 H4 H5|s H1 H2 H3 H4|id s s' act r H1 H2 H3 H4|id s H1 H2|id s now H1 H2];
    [done|..|done].
  - destruct (H5 Hk) as [Hc _]. pose proof (ok_max _ (settings_valid_row d st Hv H4)).
    pose proof (select_insert_length (pending_of uid) (suggestions k d) (sg_id s) s) as E. rewrite H1 in E. cbn in E.
    unfold pending_of at 3 in E. destruct (sg_user s =? uid) eqn:Eu; cbn in E.
    + apply Z.eqb_eq in Eu as <-. unfold pending_count in Hc. rewrite H2 in E. lia.
    + lia.
  - pose proof (select_insert_length (pending_of uid) (suggestions k d) (sg_id s) s) as E. rewrite H1 in E. cbn in E.
    assert (is_pending s = false) as Hp by (unfold is_pending; by rewrite H2). unfold pending_of at 3 in E.
    rewrite Hp, andb_false_r in E. lia.
  - pose proof (select_insert_length (pending_of uid) (suggestions k d) id s') as E. cbn in E.
    unfold pending_of at 4 in E. rewrite (decided_not_pending _ _ _ _ H4), andb_false_r in E. lia.
  - pose proof (select_delete_length (pending_of uid) (suggestions k d) id). lia.
Qed.

Lemma step_slots_ok d d' : community_step d d' -> slots_ok d -> slots_ok d'.
Proof.
  intros Hs H k id1 id2 s1 s2 Hk. specialize (H k).
  destruct (step_table k d d' Hs) as [|s st H1 H2 H3 H4 H5|s H1 H2 H3 H4|id s s' act r H1 H2 H3 H4|id s H1 H2|id s now H1 H2];
    [by apply H|..|done]; rewrite ?lookup_insert_Some, ?lookup_delete_Some.
  - destruct (H5 Hk) as [_ Hf]. intros [[<- <-]|[_ Hx]] [[<- <-]|[_ Hy]] P1 P2 U T F; [done|..|by eapply H].
    + by rewrite (Hf _ _ Hy) in P2.
    + by rewrite (Hf _ _ Hx) in P1.
  - assert (is_pending s = false) as Hp by (unfold is_pending; by rewrite H2).
    intros [[<- <-]|[_ Hx]] [[<- <-]|[_ Hy]] P1 P2; try (by rewrite Hp in P1) || by rewrite Hp in P2. by eapply H.
  - pose proof (decided_not_pending _ _ _ _ H4) as Hp.
    intros [[<- <-]|[_ Hx]] [[<- <-]|[_ Hy]] P1 P2; try (by rewrite Hp in P1) || by rewrite Hp in P2. by eapply H.
  - intros [_ Hx] [_ Hy]. by eapply H.
Qed.

(** ** Together *)

Record community_ok (d : db) : Prop := {
  c_settings : settings_valid d; c_users : users_ok d; c_rows : rows_ok d; c_limits : limits_ok d; c_slots : slots_ok d }.

Lemma steps_ok d d' : community_steps d d' -> community_ok d -> community_ok d'.
Proof.
  induction 1 as [|d d1 d2 Hs _ IH]; [done|]. intros [H1 H2 H3 H4 H5]. apply IH.
  split; [by eapply step_settings_valid|by eapply step_users_ok|by eapply step_rows_ok|by eapply step_limits_ok|by eapply step_slots_ok].
Qed.

Lemma steps_ranks d d' : community_steps d d' -> ranks d' = ranks d.
Proof. induction 1 as [|d d1 d2 Hs _ IH]; [done|]. rewrite IH. by apply step_ranks. Qed.

(** *** Decisions are final *)

(** The same decision, up to the time of the last change. *)
Definition same_decision (s s' : Suggestion) : Prop := exists t, s' = mkSuggestion (sg_id s) (sg_user s) (sg_target s) (sg_field s)
  (current_value s) (suggested_value s) (reason s) (status s) (reviewed_by s) (reviewed_at s) (review_notes s) (created_at s) t.

Lemma same_decision_refl s : same_decision s s.
Proof. exists (sg_updated_at s). by destruct s. Qed.

Lemma step_final k id s d d' : community_step d d' -> suggestions k d !! id = Some s -> is_pending s = false ->
  exists s', suggestions k d' !! id = Some s' /\ same_decision s s'.
Proof.
  intros Hs Hid Hp.
  assert (Hstay : forall (m : gmap string Suggestion) i x, suggestions k d !! i = x -> (x = None \/ exists y, x = Some y /\ is_pending y = true) ->
    (forall j, (j <> i :> string) -> m !! j = suggestions k d !! j) -> exists s', m !! id = Some s' /\ same_decision s s').
  { intros m i x Hi Hx Hm. exists s. split; [|apply same_decision_refl]. rewrite Hm; [done|]. intros ->.
    rewrite Hid in Hi. subst x. destruct Hx as [?|(y & [= <-] & Hy)]; [done|]. by rewrite Hp in Hy. }
  destruct (step_table k d d' Hs) as [|x st H1 H2 H3 H4 H5|x H1 H2 H3 H4|i x s' act r H1 H2 H3 H4|i x H1 H2|i x now H1 H2].
  - exists s. by split; [|apply same_decision_refl].
  - eapply Hstay; [exact H1|by left|]. intros j Hj. by rewrite lookup_insert_ne.
  - eapply Hstay; [exact H1|by left|]. intros j Hj. by rewrite lookup_insert_ne.
  - eapply Hstay; [exact H1|right; by eexists|]. intros j Hj. by rewrite lookup_insert_ne.
  - eapply Hstay; [exact H1|right; by eexists|]. intros j Hj. by rewrite lookup_delete_ne.
  - destruct (decide (i = id)) as [->|Hne].
    + rewrite Hid in H2. injection H2 as <-. exists (touched now s). rewrite lookup_insert_eq. split; [done|]. by eexists.
    + exists s. rewrite lookup_insert_ne by done. by split; [|apply same_decision_refl].
Qed.

Lemma steps_final k id d d' : community_steps d d' -> forall s, suggestions k d !! id = Some s -> is_pending s = false ->
  exists s', suggestions k d' !! id = Some s' /\ same_decision s s'.
Proof.
  induction 1 as [|d d1 d2 Hs _ IH]; intros s Hid Hp.
  - exists s. by split; [|apply same_decision_refl].
  - destruct (step_final k id s d d1 Hs Hid Hp) as (s1 & H1 & t1 & E1).
    destruct (IH s1 H1) as (s2 & H2 & t2 & E2); [by rewrite E1|]. exists s2. split; [done|]. exists t2. by rewrite E2, E1.
Qed.
