(* ===== verification/MetadataSuggestions.v ===== *)
(** * Suggestions for metadata (api/routers/content/suggestions.py)

    A user suggests a value for a field of a media.  Users with enough
    reputation, moderators and administrators change it at once, other
    suggestions wait for a moderator.  The handlers are transactions on the
    tables of Community; their answers are the row and what is shown of its
    author and reviewer. *)

From S2P Require Import Regex.
From S2P Require Export CommunitySpec.
Local Open Scope string_scope.
Local Open Scope Z_scope.

(** ** Values (the helper functions) *)

Definition EDITABLE_FIELDS : list string :=
  ["title"; "description"; "year"; "poster"; "background"; "runtime"; "genres"; "country"; "language"; "aka_titles"; "cast";
   "directors"; "writers"; "imdb_id"; "tmdb_id"; "tvdb_id"; "mal_id"; "kitsu_id"; "catalogs"; "parental_certificate";
   "nudity_status"].

Definition EXTERNAL_ID_FIELD_TO_PROVIDER : list (string * string) :=
  [("imdb_id", "imdb"); ("tmdb_id", "tmdb"); ("tvdb_id", "tvdb"); ("mal_id", "mal"); ("kitsu_id", "kitsu")].

(** utils/const.py; the names beyond ASCII are UTF-8. *)
Definition CERTIFICATION_MAPPING : list (string * list string) :=
  [
   ("All Ages",
    ["A.G."; "A/fig"; "A/i"; "A/i/fig"; "AA"; "Ai"; "AL"; "AL/Tous"; "ALL"; "Alla"; "ATP"; "Approved"; "Btl"; "E";
    "FAM"; "G"; "General"; "Genel İzleyici"; "Genel İzleyici Kitlesi"; "KT"; "L"; "Libre"; "Livre"; "Públicos";
    "Semua"; "SU"; "T"; "TE"; "Tous"; "Tous Publics"; "TP"; "U"; "UR"; "ZA"; "0"; "0+"; "3"; "4+"; "5"]);
   ("Children",
    ["6"; "6+"; "6A"; "7"; "7+"; "7-9 PG"; "7i"; "8"; "8+"; "9"; "9+"; "AP"; "Children"; "DA"; "I"; "K"; "KN"; "LH";
    "M/4"; "M/6"; "PG"; "PG8"; "TV-G"; "TV-Y"; "TV-Y7"; "TV-Y7-FV"; "P"]);
   ("Parental Guidance",
    ["10"; "10+"; "10-12 PG"; "10A"; "11"; "12"; "12+"; "12A"; "12PG"; "12i"; "B"; "BA"; "GY"; "M/12"; "N-7"; "P13";
    "PG-12"; "PG12"; "Public Averti"; "TV-PG"; "VM12"]);
   ("Teens",
    ["13"; "13+"; "14"; "14+"; "14A"; "15"; "15+"; "15A"; "15PG"; "16"; "16+"; "B15"; "C"; "GA"; "I.C.-14"; "IIA";
    "IIB"; "M"; "M/16"; "MA"; "MA 15+"; "N-13"; "N-16"; "NC16"; "PG-13"; "PG-15"; "R"; "R-12"; "R-13"; "R-15+";
    "R-16"; "RP13"; "RP16"; "SAM 13"; "SAM 16"; "TV-14"; "VM14"; "VM16"; "Y"]);
   ("Adults",
    ["18"; "18+"; "18A"; "18PA"; "18PL"; "18SG"; "18SX"; "18TC"; "A"; "Caution"; "D"; "I.M.-18"; "III"; "M/18";
    "M18"; "N-18"; "NC-17"; "R(A)"; "R-18"; "R18"; "RP18"; "SAM 18"; "TV-MA"; "VM18"; "Z"; "Unrated"]);
   ("Adults+",
    ["20"; "20+"; "21"; "21+"; "Banned"; "KK"; "R21"; "R21+"; "R-21"; "R-21+"; "R-21A"; "RC"; "X"; "X18"; "X 18+";
    "XX"; "XXX"])
  ].

Definition parse_list (v : string) : list string :=
  List.filter (fun part => negb (str_empty part)) (map strip (split_char "," v)).

Definition expand_parental_certificate_selection (v : string) : list string :=
  let normalized := strip v in
  if str_empty normalized then []
  else
    match dict_get normalized CERTIFICATION_MAPPING with
    | None => if str_any (Ascii.eqb ",") normalized then parse_list normalized else [normalized]
    | Some mapped => uniq (List.filter (fun name => negb (str_empty name)) (map strip mapped))
    end.

Definition digits : rx := Plus true (Chr is_digit).
Definition spaces : rx := Star true (Chr is_space).
Definition seqs (l : list rx) : rx := foldr Seq Eps l.

Definition RUNTIME_MINUTES_PATTERN : rx :=
  seqs [Bol; spaces;
        Opt (seqs [Grp 1 digits; spaces; lit_i "h"; Opt (Seq (lit_i "our") (Opt (lit_i "s")))]); spaces;
        Opt (seqs [Grp 2 digits; spaces; lit_i "m"; Opt (Seq (lit_i "in") (Opt (Seq (lit_i "ute") (Opt (lit_i "s")))))]);
        spaces; Eol].

(** [int(match.group(n) or 0)] *)
Definition group_int (n : nat) (c : captures) : outcome py_exn Z :=
  match capture n c with Some "" | None => Ret 0 | Some t => int_of_string t end.

Definition parse_runtime_minutes (v : string) : outcome py_exn (option Z) :=
  let normalized := lower (strip v) in
  if str_empty normalized then Ret None
  else if isdigit normalized then z ← int_of_string normalized; Ret (Some z)
  else
    match match_at RUNTIME_MINUTES_PATTERN None normalized with
    | Some (c, _) =>
        hours ← group_int 1 c;
        minutes ← group_int 2 c;
        Ret (if (hours =? 0) && (minutes =? 0) then None else Some (hours * 60 + minutes))
    | None =>
        match search (seqs [Grp 1 digits; spaces; lit "min"]) normalized with
        | Some (_, c, _) => z ← int_of_string (group 1 c); Ret (Some z)
        | None => Ret None
        end
    end.

Definition NUDITY_STATUSES : list string := ["None"; "Mild"; "Moderate"; "Severe"; "Unknown"; "Disable"].

(** ** External IDs *)

Definition prefixed_providers : list string := ["tmdb"; "tvdb"; "mal"; "kitsu"].

(** [x.split(":", 1)[1]] of a text with a colon. *)
Definition after_colon (s : string) : string := match split1 ":" s with [_; b] => b | _ => "" end.

Definition without_prefix (prov normalized : string) : string :=
  if memb prov prefixed_providers && startswith (prov +:+ ":") normalized then after_colon normalized else normalized.

Definition normalize_external_id_suggestion_value (prov suggested : string) : option string :=
  let normalized := strip suggested in
  if str_empty normalized then Some ""
  else if String.eqb prov "imdb" then (if startswith "tt" normalized then Some normalized else None)
  else Some (without_prefix prov normalized).

Definition has_id (prov id : string) (x : ExternalID) : bool := String.eqb (provider x) prov && String.eqb (external_id x) id.
Definition of_media (mid : Z) (prov : string) (x : ExternalID) : bool := (ext_media x =? mid) && String.eqb (provider x) prov.

(** db/crud/media.py *)
Definition format_external_id (prov id : string) : string :=
  if String.eqb prov "imdb" then (if startswith "tt" id then id else "tt" +:+ id) else prov +:+ ":" +:+ id.

(** The canonical ID of a media that is not in the cache. *)
Fixpoint first_priority (l : list string) (ids : list (string * string)) : option string :=
  match l with
  | [] => None
  | p :: l => match dict_get p ids with Some id => Some (format_external_id p id) | None => first_priority l ids end
  end.
Definition canonical_external_id (c : Catalogue) (mid : Z) : string :=
  match List.filter (fun x => ext_media x =? mid) (external_ids c) with
  | [] => "mf:" +:+ str_of_int mid
  | x :: l =>
      let ids := dict_update [] (map (fun y => (provider y, external_id y)) (x :: l)) in
      match first_priority ["imdb"; "imdb"; "mal"; "kitsu"; "anilist"; "tvdb"; "tmdb"] ids with
      | Some id => id
      | None => format_external_id (provider x) (external_id x)
      end
  end.

Definition quoted (s : string) : string := String double_quote (s +:+ String double_quote "").
Definition media_type_value (t : MediaType) : string :=
  match t with MOVIE => "movie" | SERIES => "series" | TV => "tv" | EVENTS => "events" end.

Definition format_conflicting_media_label (conflicting : option MediaRow) (conflict_media_id : Z) : string :=
  match conflicting with
  | None => "media #" +:+ str_of_int conflict_media_id
  | Some m =>
      let t := if str_empty (title m) then "Media #" +:+ str_of_int conflict_media_id else title m in
      let year_suffix := match year m with
                         | Some y => if y =? 0 then "" else " (" +:+ str_of_int y +:+ ")"
                         | None => ""
                         end in
      quoted (t +:+ year_suffix) +:+ " [" +:+ media_type_value (media_type m) +:+ ", media_id="
      +:+ str_of_int conflict_media_id +:+ "]"
  end.

Definition build_external_id_conflict_message (c : Catalogue) (prov normalized : string) (conflict_media_id : Z) : string :=
  let label := format_conflicting_media_label (medias c !! conflict_media_id) conflict_media_id in
  (if String.eqb prov "imdb" then "IMDb" else upper prov) +:+ " ID " +:+ quoted normalized +:+ " is already attached to "
  +:+ label +:+ " (canonical ID: " +:+ canonical_external_id c conflict_media_id
  +:+ "). If streams are linked to the wrong media, do not change media external IDs. Use Stream Link -> Replace Link to fix stream-media links.".

Definition external_id_conflict_message (c : Catalogue) (mid : Z) (field suggested : string) : option string :=
  match dict_get field EXTERNAL_ID_FIELD_TO_PROVIDER with
  | None => None
  | Some prov =>
      match normalize_external_id_suggestion_value prov suggested with
      | None =>
          if String.eqb prov "imdb"
          then Some ("Invalid IMDb ID " +:+ quoted (strip suggested) +:+ ". Use IMDb format like "
                     +:+ quoted "tt1234567" +:+ ". If streams are linked to the wrong media, use Stream Link -> Replace Link.")
          else None
      | Some "" => None
      | Some normalized =>
          match List.filter (has_id prov normalized) (external_ids c) with
          | [] => None
          | x :: _ =>
              if ext_media x =? mid then None
              else Some (build_external_id_conflict_message c prov normalized (ext_media x))
          end
      end
  end.

Definition get_external_id_conflict_message (mid : Z) (field suggested : string) : tx db (option string) :=
  query (fun d => external_id_conflict_message (catalogue d) mid field suggested).

(** [_set_external_id]: at most one ID of the provider stays with the media,
    and an ID of another media is not taken away from it. *)
Definition set_external_id (mid : Z) (prov v : string) : tx db bool :=
  let normalized := strip v in
  if String.eqb prov "imdb" && negb (str_empty normalized) && negb (startswith "tt" normalized) then mret false
  else
    let normalized := without_prefix prov normalized in
    if str_empty normalized then
      _ ← update_catalogue (fun c => with_external_ids (List.filter (fun x => negb (of_media mid prov x)) (external_ids c)) c);
      mret true
    else
      global_existing ← query (fun d => List.filter (has_id prov normalized) (external_ids (catalogue d)));
      match global_existing with
      | x :: _ =>
          if negb (ext_media x =? mid) then mret false
          else
            _ ← update_catalogue (fun c => with_external_ids
                  (List.filter (fun x => negb (of_media mid prov x) || String.eqb (external_id x) normalized) (external_ids c)) c);
            mret true
      | [] =>
          _ ← update_catalogue (fun c => with_external_ids
                (List.filter (fun x => negb (of_media mid prov x)) (external_ids c) ++ [mkExternalID mid (lower prov) normalized])%list c);
          mret true
      end.

(** ** The other tables *)

Definition set_media_image (mid : Z) (kind v : string) : tx db bool :=
  let normalized := strip v in
  let image_types := if String.eqb kind "background" then ["background"; "backdrop"] else [kind] in
  _ ← update_catalogue (fun c => with_images
        (List.filter (fun i => negb ((image_media i =? mid) && memb (image_type i) image_types)) (images c)) c);
  if str_empty normalized then mret true
  else
    _ ← update_catalogue (fun c => with_images (images c ++ [mkImage mid "user" kind normalized true])%list c);
    mret true.

(** [_get_or_create_genre] and its likes: the row with a unique name. *)
Definition get_or_create (table name : string) : tx db unit :=
  update_catalogue (fun c => if memb (table, name) (reference_names c) then c
                             else with_reference_names (reference_names c ++ [(table, name)])%list c).

(** A table of links from media to names. *)
Record link_table := mkLinkTable {
  rows_of : Catalogue -> list (Z * string); with_rows : list (Z * string) -> Catalogue -> Catalogue; names_table : string }.
Definition genre_table : link_table := mkLinkTable genre_links with_genre_links "genre".
Definition catalog_table : link_table := mkLinkTable catalog_links with_catalog_links "catalog".
Definition certificate_table : link_table := mkLinkTable certificate_links with_certificate_links "parental_certificate".

(** A link whose key exists already cannot be added. *)
Definition add_link (t : link_table) (mid : Z) (name : string) : tx db unit :=
  _ ← get_or_create (names_table t) name;
  exists_already ← query (fun d => memb (mid, name) (rows_of t (catalogue d)));
  if exists_already : bool then throw IntegrityError
  else update_catalogue (fun c => with_rows t (rows_of t c ++ [(mid, name)])%list c).

Definition replace_links (t : link_table) (mid : Z) (names : list string) : tx db unit :=
  _ ← update_catalogue (fun c => with_rows t (List.filter (fun l => negb (l.1 =? mid)) (rows_of t c)) c);
  for_loop (add_link t mid) names.

Definition replace_aka_titles (mid : Z) (titles : list string) : tx db unit :=
  update_catalogue (fun c => with_aka_titles
    (List.filter (fun l => negb (l.1 =? mid)) (aka_titles c) ++ map (pair mid) (uniq titles))%list c).

Fixpoint enumerate_from (i : Z) (l : list string) : list (string * Z) :=
  match l with [] => [] | x :: l => (x, i) :: enumerate_from (i + 1) l end.

Definition replace_cast (mid : Z) (names : list string) : tx db unit :=
  _ ← update_catalogue (fun c => with_media_cast (List.filter (fun l => negb (l.1.1 =? mid)) (media_cast c)) c);
  for_loop (fun '(name, index) =>
    _ ← get_or_create "person" name;
    update_catalogue (fun c => with_media_cast (media_cast c ++ [(mid, name, index)])%list c)) (enumerate_from 0 names).

Definition has_job (jobs : list string) (mid : Z) (r : CrewRow) : bool :=
  (crew_media r =? mid) && match job r with Some j => memb (lower j) jobs | None => false end.

Definition replace_crew (jobs : list string) (dept title : string) (mid : Z) (names : list string) : tx db unit :=
  _ ← update_catalogue (fun c => with_media_crew (List.filter (fun r => negb (has_job jobs mid r)) (media_crew c)) c);
  for_loop (fun name =>
    _ ← get_or_create "person" name;
    update_catalogue (fun c => with_media_crew (media_crew c ++ [mkCrew mid name (Some dept) (Some title)])%list c)) names.
Definition replace_directors : Z -> list string -> tx db unit := replace_crew ["director"] "Directing" "Director".
Definition replace_writers : Z -> list string -> tx db unit := replace_crew ["writer"; "screenplay"; "story"] "Writing" "Writer".

Definition update_media (f : MediaRow -> MediaRow) (mid : Z) : tx db unit :=
  update_catalogue (fun c => with_medias (alter f mid (medias c)) c).
Definition with_title x m := mkMedia (media_id m) (media_type m) x (description m) (year m) (runtime_minutes m) (nudity_status m).
Definition with_description x m := mkMedia (media_id m) (media_type m) (title m) x (year m) (runtime_minutes m) (nudity_status m).
Definition with_year x m := mkMedia (media_id m) (media_type m) (title m) (description m) x (runtime_minutes m) (nudity_status m).
Definition with_runtime x m := mkMedia (media_id m) (media_type m) (title m) (description m) (year m) x (nudity_status m).
Definition with_nudity x m := mkMedia (media_id m) (media_type m) (title m) (description m) (year m) (runtime_minutes m) x.

(** [x or None] *)
Definition or_none (s : string) : option string := if str_empty s then None else Some s.
(** [lift_py], for the exceptions of the language. *)
Definition python {A} (o : outcome py_exn A) : tx db A :=
  lift match o with Ret a => Ret a | Raise e => Raise (Uncaught e) end.

Definition update_tv (f : TVRow -> TVRow) (mid : Z) : tx db unit :=
  update_catalogue (fun c => with_tv_metadata (<[mid := f (default (mkTV None None) (tv_metadata c !! mid))]> (tv_metadata c)) c).

(** The body of the [try] of [apply_metadata_changes]. *)
Definition apply_field (meta : MediaRow) (field v : string) : tx db bool :=
  let mid := media_id meta in
  if String.eqb field "title" then _ ← update_media (with_title v) mid; mret true
  else if String.eqb field "description" then _ ← update_media (with_description (Some v)) mid; mret true
  else if String.eqb field "year" then
    y ← python (int_of_string v);
    _ ← int4 (Some y);
    _ ← update_media (with_year (Some y)) mid; mret true
  else if String.eqb field "poster" then set_media_image mid "poster" v
  else if String.eqb field "background" then set_media_image mid "background" v
  else if String.eqb field "runtime" then
    minutes ← python (parse_runtime_minutes v);
    if match minutes with None => negb (str_empty (strip v)) | Some _ => false end then mret false
    else _ ← int4 minutes; _ ← update_media (with_runtime minutes) mid; mret true
  else if String.eqb field "country" then
    if decide (media_type meta = TV)
    then _ ← update_tv (fun t => mkTV (or_none (strip v)) (tv_language t)) mid; mret true
    else mret false
  else if String.eqb field "language" then
    if decide (media_type meta = TV)
    then _ ← update_tv (fun t => mkTV (country t) (or_none (strip v))) mid; mret true
    else mret false
  else
    match dict_get field EXTERNAL_ID_FIELD_TO_PROVIDER with
    | Some prov => set_external_id mid prov v
    | None =>
        if String.eqb field "nudity_status" then
          let status := default "Unknown" (or_none (strip v)) in
          if memb status NUDITY_STATUSES then _ ← update_media (with_nudity status) mid; mret true else mret false
        else if String.eqb field "genres" then _ ← replace_links genre_table mid (parse_list v); mret true
        else if String.eqb field "catalogs" then _ ← replace_links catalog_table mid (parse_list v); mret true
        else if String.eqb field "aka_titles" then _ ← replace_aka_titles mid (parse_list v); mret true
        else if String.eqb field "cast" then _ ← replace_cast mid (parse_list v); mret true
        else if String.eqb field "directors" then _ ← replace_directors mid (parse_list v); mret true
        else if String.eqb field "writers" then _ ← replace_writers mid (parse_list v); mret true
        else if String.eqb field "parental_certificate"
        then _ ← replace_links certificate_table mid (expand_parental_certificate_selection v); mret true
        else mret false
    end.

(** [except (ValueError, TypeError)] *)
Definition value_or_type_error (e : error) : bool :=
  match e with Uncaught ValueError | Uncaught TypeError => true | _ => false end.

Definition apply_metadata_changes (meta : MediaRow) (field v : string) : tx db bool :=
  catch (apply_field meta field v) value_or_type_error (fun _ => mret false).

(** ** The handlers *)

Record SuggestionCreateRequest := mkCreateRequest {
  rq_field_name : string; rq_current_value : option string; rq_suggested_value : string; rq_reason : option string }.

Definition at_most (n : Z) (o : option string) : bool := match o with Some s => slen s <=? n | None => true end.

Definition valid_create_request (r : SuggestionCreateRequest) : bool :=
  memb (rq_field_name r) EDITABLE_FIELDS && (1 <=? slen (rq_suggested_value r)) && (slen (rq_suggested_value r) <=? 10000)
  && at_most 1000 (rq_reason r).

(** What an answer shows of a suggestion, without the media it is about. *)
Record SuggestionResponse := mkResponse {
  rs_row : Suggestion; rs_username : option string; rs_was_auto_approved : bool; rs_reviewer : option string;
  rs_level : option string; rs_points : option Z }.

(** A JSON answer with status 200 that says an error happened. *)
Inductive reply (A : Type) := Reply (a : A) | ApiError (detail : string) (status_code : Z).
Arguments Reply {A} a.
Arguments ApiError {A} detail status_code.

(** [get_username] *)
Definition get_username (uid : Z) : tx db (option string) := query (fun d => users d !! uid ≫= username).

Definition empty_text (o : option string) : bool := match o with Some s => str_empty s | None => true end.

Definition auto_approved (s : Suggestion) : bool := String.eqb (status s) STATUS_AUTO_APPROVED.

Definition limit_detail (settings : ContributionSettings) : string :=
  "You have reached the maximum number of pending suggestions ("
  +:+ str_of_int (max_pending_suggestions_per_user settings) +:+ ")".

Definition create_suggestion (new_id : string) (now mid : Z) (request : SuggestionCreateRequest) (uid : Z) :
    tx db (reply SuggestionResponse) :=
  current_user ← require_auth uid;
  if negb (valid_create_request request) then http 422 "Validation error"
  else
    settings ← get_contribution_settings;
    if require_reason_for_edits settings && empty_text (rq_reason request)
    then http 400 "A reason is required for edit suggestions"
    else
      meta ← query (fun d => medias (catalogue d) !! mid);
      match meta with
      | None => http 404 "Metadata not found"
      | Some meta =>
          conflict ← get_external_id_conflict_message mid (rq_field_name request) (rq_suggested_value request);
          match conflict with
          | Some message => mret (ApiError message 400)
          | None =>
              reached ← check_pending_limit KMetadata uid;
              if reached : bool then http 429 (limit_detail settings)
              else
                existing ← query (fun d => select (same_pending uid mid (rq_field_name request)) (suggestions KMetadata d));
                match existing with
                | _ :: _ => http 409 "You already have a pending suggestion for this field"
                | [] =>
                    can_auto_approve ← should_auto_approve current_user;
                    applied ← (if can_auto_approve : bool
                               then apply_metadata_changes meta (rq_field_name request) (rq_suggested_value request)
                               else mret false);
                    _ ← (if applied : bool then award_points uid (points_per_metadata_edit settings) METADATA_EDIT else mret tt);
                    let suggestion := new_suggestion new_id uid mid (rq_field_name request) (rq_current_value request)
                                        (Some (rq_suggested_value request)) (rq_reason request) now applied in
                    _ ← insert_suggestion KMetadata suggestion;
                    _ ← commit;
                    _ ← (if is_pending suggestion then notify (sg_id suggestion) else mret tt);
                    author ← query (fun d => users d !! uid);
                    mret (Reply (mkResponse suggestion (username current_user) (auto_approved suggestion)
                      (match reviewed_by suggestion with Some _ => username current_user | None => None end)
                      (contribution_level <$> author) (contribution_points <$> author)))
                end
          end
      end.

(** Applying a suggestion that a moderator approves; an answer if it cannot. *)
Definition approve_suggestion (s : Suggestion) : tx db (option (string * Z)) :=
  let v := default "" (suggested_value s) in
  conflict ← get_external_id_conflict_message (sg_target s) (sg_field s) v;
  match conflict with
  | Some message => mret (Some (message, 400))
  | None =>
      meta ← query (fun d => medias (catalogue d) !! sg_target s);
      match meta with
      | None => mret (Some ("Metadata not found for this suggestion", 404))
      | Some meta =>
          applied ← apply_metadata_changes meta (sg_field s) v;
          mret (if applied : bool then None
                else Some ("Failed to apply this metadata suggestion. Please verify the suggested value format and try again.", 400))
      end
  end.

Definition review_suggestion (now : Z) (id : string) (act : action) (notes : option string) (uid : Z) :
    tx db (reply SuggestionResponse) :=
  current_user ← require_role MODERATOR uid;
  if negb (at_most 1000 notes) then http 422 "Validation error"
  else
    settings ← get_contribution_settings;
    found ← find_suggestion KMetadata id;
    match found with
    | None => http 404 "Suggestion not found"
    | Some suggestion =>
        if negb (is_pending suggestion) then http 400 "Suggestion has already been reviewed"
        else
          author ← query (fun d => users d !! sg_user suggestion);
          failed ← (if decide (act = APPROVE) then approve_suggestion suggestion else mret None);
          match failed with
          | Some failure => mret (ApiError failure.1 failure.2)
          | None =>
              _ ← settle_author settings (sg_user suggestion) author act;
              let suggestion := reviewed act uid now notes suggestion in
              _ ← save_suggestion KMetadata id suggestion;
              _ ← commit;
              author ← query (fun d => users d !! sg_user suggestion);
              mret (Reply (mkResponse suggestion (author ≫= username) false (username current_user)
                (contribution_level <$> author) (contribution_points <$> author)))
          end
    end.

(** One suggestion of a bulk review: what becomes of it, [None] when skipped. *)
Definition bulk_review_one (settings : ContributionSettings) (now : Z) (act : action) (notes : option string) (uid : Z)
    (id : string) : tx db (option action) :=
  found ← find_suggestion KMetadata id;
  match found with
  | None => mret None
  | Some suggestion =>
      if negb (is_pending suggestion) then mret None
      else
        author ← query (fun d => users d !! sg_user suggestion);
        failed ← (if decide (act = APPROVE) then approve_suggestion suggestion else mret None);
        match failed with
        | Some _ => mret None
        | None =>
            _ ← settle_author settings (sg_user suggestion) author act;
            _ ← save_suggestion KMetadata id (reviewed act uid now notes suggestion);
            mret (Some act)
        end
  end.

Definition bulk_review_suggestions (now : Z) (ids : list string) (act : action) (notes : option string) (uid : Z) :
    tx db bulk_result :=
  _ ← require_role MODERATOR uid;
  settings ← get_contribution_settings;
  results ← bulk_loop (bulk_review_one settings now act notes uid) ids (mkBulk 0 0 0);
  _ ← commit;
  mret results.

Definition delete_suggestion : string -> Z -> tx db unit := delete_suggestion_of KMetadata.

(** *** Reading *)

Definition response_of (users : gmap Z User) (s : Suggestion) : SuggestionResponse :=
  let author := users !! sg_user s in
  mkResponse s (author ≫= username) (auto_approved s)
    (match reviewed_by s with
     | Some r => match int_of_string r with Ret z => users !! z ≫= username | Raise _ => None end
     | None => None
     end) (contribution_level <$> author) (contribution_points <$> author).

Definition get_suggestion (id : string) (uid : Z) : tx db SuggestionResponse :=
  current_user ← require_auth uid;
  found ← find_suggestion KMetadata id;
  match found with
  | None => http 404 "Suggestion not found"
  | Some s =>
      if negb (sg_user s =? uid) && negb (privileged (role current_user)) then http 403 "Access denied"
      else
        _ ← python (match reviewed_by s with Some r => int_of_string r | None => Ret 0 end);
        query (fun d => response_of (users d) s)
  end.

(** A page of the rows, with their number and whether more follow. *)
Definition page_of {A} (page page_size : Z) (l : list A) : list A :=
  take (Z.to_nat page_size) (drop (Z.to_nat ((page - 1) * page_size)) l).
Record listing := mkListing { items : list Suggestion; total : Z; has_more : bool }.

Definition paginate (page page_size : Z) (l : list Suggestion) : listing :=
  let items := page_of page page_size l in
  let total := Z.of_nat (length l) in
  mkListing items total ((page - 1) * page_size + Z.of_nat (length items) <? total).

(** Pending ones first, then the newest. *)
Definition pending_first (s : Suggestion) : list Z := [if is_pending s then 0 else 1; - created_at s].
Definition my_order (x y : Suggestion) : bool := tuple_leb (pending_first x) (pending_first y).
Definition with_status (o : option string) (s : Suggestion) : bool :=
  match o with Some st => String.eqb (status s) st | None => true end.

Definition list_my_suggestions (suggestion_status : option string) (page page_size uid : Z) : tx db listing :=
  _ ← require_auth uid;
  if negb ((1 <=? page) && (1 <=? page_size) && (page_size <=? 100)) then http 422 "Validation error"
  else query (fun d => paginate page page_size
         (sort_by my_order (select (fun s => (sg_user s =? uid) && with_status suggestion_status s) (metadata_suggestions d)))).

Definition count_status (p : Suggestion -> bool) (st : string) (d : db) : Z :=
  Z.of_nat (length (select (fun s => p s && String.eqb (status s) st) (metadata_suggestions d))).

Record SuggestionStats := mkStats {
  st_total : Z; st_pending : Z; st_approved : Z; st_auto_approved : Z; st_rejected : Z;
  user_pending : Z; user_approved : Z; user_auto_approved : Z; user_rejected : Z }.

(** The counts of [get_suggestion_stats], without those of the day. *)
Definition stats_of (moderator : bool) (uid : Z) (d : db) : SuggestionStats :=
  let all := fun _ : Suggestion => moderator in
  let mine := fun s => sg_user s =? uid in
  mkStats (if moderator then Z.of_nat (length (select (fun _ => true) (metadata_suggestions d))) else 0)
    (count_status all STATUS_PENDING d) (count_status all STATUS_APPROVED d)
    (count_status all STATUS_AUTO_APPROVED d) (count_status all STATUS_REJECTED d)
    (count_status mine STATUS_PENDING d) (count_status mine STATUS_APPROVED d)
    (count_status mine STATUS_AUTO_APPROVED d) (count_status mine STATUS_REJECTED d).

Definition get_suggestion_stats (uid : Z) : tx db SuggestionStats :=
  current_user ← require_auth uid;
  query (stats_of (privileged (role current_user)) uid).

Record UserContributionInfo := mkInfo {
  info_points : Z; info_level : string; can_auto_approve : bool; points_to_next_level : Z; next_level : option string }.

Definition contribution_info (settings : ContributionSettings) (user : User) (can_auto : bool) : UserContributionInfo :=
  let level := contribution_level user in
  let to threshold := Z.max 0 (threshold - contribution_points user) in
  let '(next, missing) :=
    if String.eqb level "new" then (Some "contributor", to (contributor_threshold settings))
    else if String.eqb level "contributor" then (Some "trusted", to (trusted_threshold settings))
    else if String.eqb level "trusted" then (Some "expert", to (expert_threshold settings))
    else (None, 0) in
  mkInfo (contribution_points user) level can_auto missing next.

Definition get_my_contribution_info (uid : Z) : tx db UserContributionInfo :=
  current_user ← require_auth uid;
  settings ← get_contribution_settings;
  can_auto ← should_auto_approve current_user;
  mret (contribution_info settings current_user can_auto).

(** ** The handlers make the steps of the community *)

Lemma apply_metadata_contents meta field v : keeps contents_change (apply_metadata_changes meta field v).
Proof.
  unfold apply_metadata_changes, apply_field, set_media_image, set_external_id, replace_links, replace_aka_titles, replace_cast,
    replace_directors, replace_writers, replace_crew, update_media, update_tv, add_link, get_or_create, python, int4.
  keeps.
Qed.

Lemma approve_contents s : keeps contents_change (approve_suggestion s).
Proof. unfold approve_suggestion, get_external_id_conflict_message. pose proof apply_metadata_contents. keeps. Qed.

(** Reading, approving and deciding, up to what follows. *)
Lemma review_core {A} st act uid now notes id s (k : tx db A) (on_failure : string * Z -> tx db A) (P : db -> Prop) Q :
  (forall d, P d -> suggestions KMetadata d !! id = Some s /\ is_pending s = true /\ knows uid st d) ->
  eff (knows uid st) community_steps k Q ->
  (forall x, eff (knows uid st) community_steps (on_failure x) Q) ->
  eff P community_steps
    (author ← query (fun d => users d !! sg_user s);
     failed ← (if decide (act = APPROVE) then approve_suggestion s else mret None);
     match failed with
     | Some x => on_failure x
     | None =>
         _ ← settle_author st (sg_user s) author act;
         _ ← save_suggestion KMetadata id (reviewed act uid now notes s);
         k
     end) Q.
Proof.
  intros HP Hk Hx. eapply eff_bind; [by apply deciding_author|]. intros author. cbv beta.
  eapply eff_bind.
  { apply deciding_frame. destruct (decide _); [apply approve_contents|apply runs_ret]. }
  intros [x|]; cbv beta iota.
  { eapply eff_conseq; [apply Hx| |done]. by intros d (_ & _ & _ & H). }
  apply eff_assoc. eapply eff_bind; [eapply decide_row; [done|by apply (settle_author_settles KMetadata)|]|by intros []].
  intros d Hd. split; [exact Hd|]. destruct act; constructor.
Qed.

Lemma review_suggestion_steps now id act notes uid :
  eff (fun _ => True) community_steps (review_suggestion now id act notes uid) (fun _ _ => True).
Proof.
  unfold review_suggestion. eapply eff_bind; [apply require_role_gate|]. intros u. cbv beta.
  apply eff_case_bool; intros _; [apply eff_throw|].
  eapply eff_bind; [apply settings_known|]. intros st. cbv beta.
  eapply eff_bind; [apply eff_query|]. intros found. cbv beta.
  apply eff_case_option; [intros s ->|intros _; apply eff_throw].
  apply eff_case_bool; intros Hp; [apply eff_throw|].
  apply (review_core st act uid now notes id s _ (fun x => mret (ApiError x.1 x.2))).
  - intros d [E Hd]. split; [done|]. split; [by apply negb_false_iff|done].
  - eapply eff_bind; [apply eff_commit|]. intros []. eapply eff_bind; [apply eff_query|]. intros a. by apply eff_return.
  - intros x. by apply eff_return.
Qed.

Lemma bulk_one_steps st now act notes uid id :
  eff (knows uid st) community_steps (bulk_review_one st now act notes uid id) (fun _ => knows uid st).
Proof.
  unfold bulk_review_one. eapply eff_bind; [apply eff_query|]. intros found. cbv beta.
  apply eff_case_option; [intros s ->|intros _; by apply eff_return; intros d [_ H]].
  apply eff_case_bool; intros Hp; [by apply eff_return; intros d [_ H]|].
  apply (review_core st act uid now notes id s _ (fun _ => mret None)).
  - intros d [E Hd]. split; [done|]. split; [by apply negb_false_iff|done].
  - by apply eff_return.
  - intros x. by apply eff_return.
Qed.

Lemma bulk_review_suggestions_steps now ids act notes uid :
  eff (fun _ => True) community_steps (bulk_review_suggestions now ids act notes uid) (fun _ _ => True).
Proof.
  unfold bulk_review_suggestions. eapply eff_bind; [apply require_role_gate|]. intros u. cbv beta.
  eapply eff_bind; [apply settings_known|]. intros st. cbv beta.
  eapply eff_bind; [apply bulk_loop_steps; intros id; apply bulk_one_steps|]. intros r. cbv beta.
  eapply eff_bind; [apply eff_commit|]. intros []. by apply eff_return.
Qed.

Lemma create_suggestion_steps new_id now mid request uid :
  eff (fun _ => True) community_steps (create_suggestion new_id now mid request uid) (fun _ _ => True).
Proof.
  unfold create_suggestion. eapply eff_bind; [apply (require_auth_user uid (fun _ => True))|]. intros u. cbv beta.
  apply eff_case_bool; intros _; [apply eff_throw|].
  eapply eff_bind; [apply get_settings_eff; by intros d x H|]. intros st. cbv beta.
  apply eff_case_bool; intros _; [apply eff_throw|].
  eapply eff_bind; [apply eff_query|]. intros meta. cbv beta.
  apply eff_case_option; [intros m ->|intros _; apply eff_throw].
  eapply eff_bind; [apply eff_query|]. intros conflict. cbv beta.
  apply eff_case_option; [intros message ->|intros ->]; [by apply eff_return|].
  eapply eff_bind; [apply (check_pending_limit_eff KMetadata uid st); tauto|]. intros reached. cbv beta.
  apply eff_case_bool; intros ->; [apply eff_throw|].
  eapply eff_bind; [apply eff_query|]. intros [|x l]; cbv beta iota; [|apply eff_throw].
  eapply eff_conseq; [apply (create_core KMetadata u st uid mid (rq_field_name request)); [done|apply apply_metadata_contents|]|..].
  - intros applied. eapply eff_bind; [apply eff_commit|]. intros []. eapply eff_bind.
    { apply eff_case_bool; intros _; [apply eff_notify|by apply eff_return]. }
    intros []. eapply eff_bind; [apply eff_query|]. intros a. by apply eff_return.
  - intros d (Hn & H & Hc). destruct H as (_ & _ & [_ [Hu Ha]] & Hst).
    repeat split; [done..|by apply Hc|]. by apply slot_none.
  - done.
Qed.
