(* ===== verification/EpisodeSuggestions.v ===== *)
(** * Suggestions for episodes (api/routers/content/episode_suggestions.py)

    The file repeats the helpers of suggestions.py (settings, levels, points)
    word for word; they are Community's here.  Unlike a suggestion for metadata,
    an episode's that cannot be applied is approved all the same. *)

From S2P Require Export PyDate MetadataSuggestions.
Local Open Scope string_scope.
Local Open Scope Z_scope.

Definition EPISODE_EDITABLE_FIELDS : list string := ["title"; "overview"; "air_date"; "runtime_minutes"].

Definition valid_episode_request (r : SuggestionCreateRequest) : bool :=
  memb (rq_field_name r) EPISODE_EDITABLE_FIELDS && (1 <=? slen (rq_suggested_value r))
  && (slen (rq_suggested_value r) <=? 10000) && at_most 1000 (rq_reason r).

Definition update_episode (f : EpisodeRow -> EpisodeRow) (eid : Z) : tx db unit :=
  update (fun d => set_episodes (alter f eid (episodes d)) d).

Definition with_episode_title x now e := mkEpisode (episode_id e) x (overview e) (air_date e) (episode_runtime e) (Some now).
Definition with_overview x now e := mkEpisode (episode_id e) (episode_title e) x (air_date e) (episode_runtime e) (Some now).
Definition with_air_date x now e := mkEpisode (episode_id e) (episode_title e) (overview e) x (episode_runtime e) (Some now).
Definition with_episode_runtime x now e := mkEpisode (episode_id e) (episode_title e) (overview e) (air_date e) x (Some now).

(** The body of the [try] of [apply_episode_changes]. *)
Definition apply_episode_field (now eid : Z) (field v : string) : tx db bool :=
  if String.eqb field "title" then _ ← update_episode (with_episode_title v now) eid; mret true
  else if String.eqb field "overview" then _ ← update_episode (with_overview (Some v) now) eid; mret true
  else if String.eqb field "air_date" then
    d ← (if str_empty v then mret None else d ← python (date_fromisoformat v); mret (Some d));
    _ ← update_episode (with_air_date d now) eid; mret true
  else if String.eqb field "runtime_minutes" then
    r ← (if str_empty v then mret None else z ← python (int_of_string v); mret (Some z));
    _ ← int4 r;
    _ ← update_episode (with_episode_runtime r now) eid; mret true
  else mret false.

Definition apply_episode_changes (now eid : Z) (field v : string) : tx db bool :=
  catch (apply_episode_field now eid field v) value_or_type_error (fun _ => mret false).

(** [format_suggestion_response], without what it shows of the episode. *)
Definition format_suggestion_response (s : Suggestion) : tx db SuggestionResponse :=
  _ ← python (match reviewed_by s with Some r => int_of_string r | None => Ret 0 end);
  query (fun d => response_of (users d) s).

Definition create_episode_suggestion (new_id : string) (now eid : Z) (request : SuggestionCreateRequest) (uid : Z) :
    tx db SuggestionResponse :=
  current_user ← require_auth uid;
  if negb (valid_episode_request request) then http 422 "Validation error"
  else
    settings ← get_contribution_settings;
    if require_reason_for_edits settings && empty_text (rq_reason request)
    then http 400 "A reason is required for edit suggestions"
    else
      episode ← query (fun d => episodes d !! eid);
      match episode with
      | None => http 404 "Episode not found"
      | Some _ =>
          reached ← check_pending_limit KEpisode uid;
          if reached : bool then http 429 (limit_detail settings)
          else
            existing ← query (fun d => select (same_pending uid eid (rq_field_name request)) (suggestions KEpisode d));
            match existing with
            | _ :: _ => http 409 "You already have a pending suggestion for this field"
            | [] =>
                can_auto_approve ← should_auto_approve current_user;
                applied ← (if can_auto_approve : bool
                           then apply_episode_changes now eid (rq_field_name request) (rq_suggested_value request)
                           else mret false);
                _ ← (if applied : bool then award_points uid (points_per_metadata_edit settings) METADATA_EDIT else mret tt);
                let suggestion := new_suggestion new_id uid eid (rq_field_name request) (rq_current_value request)
                                    (Some (rq_suggested_value request)) (rq_reason request) now applied in
                _ ← insert_suggestion KEpisode suggestion;
                _ ← commit;
                _ ← (if is_pending suggestion then notify (sg_id suggestion) else mret tt);
                format_suggestion_response suggestion
            end
      end.

(** The change of an approved suggestion, if its episode is still there. *)
Definition apply_to_episode (now : Z) (s : Suggestion) : tx db bool :=
  episode ← query (fun d => episodes d !! sg_target s);
  match episode with
  | Some _ => apply_episode_changes now (sg_target s) (sg_field s) (default "" (suggested_value s))
  | None => mret false
  end.

(** [credited]: whether an approved suggestion brings its points. *)
Definition settle_episode (settings : ContributionSettings) (uid : Z) (author : option User) (act : action) (credited : bool) :
    tx db unit :=
  match act with
  | APPROVE => if credited then settle_author settings uid author APPROVE else mret tt
  | REJECT => settle_author settings uid author REJECT
  end.

Definition review_episode_suggestion (now : Z) (id : string) (act : action) (notes : option string) (uid : Z) :
    tx db SuggestionResponse :=
  _ ← require_role MODERATOR uid;
  if negb (at_most 1000 notes) then http 422 "Validation error"
  else
    settings ← get_contribution_settings;
    found ← find_suggestion KEpisode id;
    match found with
    | None => http 404 "Suggestion not found"
    | Some suggestion =>
        if negb (is_pending suggestion) then http 400 "Suggestion has already been reviewed"
        else
          author ← query (fun d => users d !! sg_user suggestion);
          applied ← (if decide (act = APPROVE) then apply_to_episode now suggestion else mret false);
          _ ← settle_episode settings (sg_user suggestion) author act applied;
          _ ← save_suggestion KEpisode id (reviewed act uid now notes suggestion);
          _ ← commit;
          format_suggestion_response (reviewed act uid now notes suggestion)
    end.

Definition bulk_review_one_episode (settings : ContributionSettings) (now : Z) (act : action) (notes : option string)
    (uid : Z) (id : string) : tx db (option action) :=
  found ← find_suggestion KEpisode id;
  match found with
  | None => mret None
  | Some suggestion =>
      if negb (is_pending suggestion) then mret None
      else
        author ← query (fun d => users d !! sg_user suggestion);
        _ ← (if decide (act = APPROVE) then apply_to_episode now suggestion else mret false);
        _ ← settle_episode settings (sg_user suggestion) author act true;
        _ ← save_suggestion KEpisode id (reviewed act uid now notes suggestion);
        mret (Some act)
  end.

Definition bulk_review_episode_suggestions (now : Z) (ids : list string) (act : action) (notes : option string) (uid : Z) :
    tx db bulk_result :=
  _ ← require_role MODERATOR uid;
  settings ← get_contribution_settings;
  results ← bulk_loop (bulk_review_one_episode settings now act notes uid) ids (mkBulk 0 0 0);
  _ ← commit;
  mret results.

Definition get_episode_suggestion (id : string) (uid : Z) : tx db SuggestionResponse :=
  current_user ← require_auth uid;
  found ← find_suggestion KEpisode id;
  match found with
  | None => http 404 "Suggestion not found"
  | Some s =>
      if negb (sg_user s =? uid) && negb (privileged (role current_user)) then http 403 "Access denied"
      else format_suggestion_response s
  end.

Definition delete_episode_suggestion : string -> Z -> tx db unit := delete_suggestion_of KEpisode.

(** ** The handlers make the steps of the community *)

Lemma apply_episode_contents now eid field v : keeps contents_change (apply_episode_changes now eid field v).
Proof.
  assert (Hu : forall f e, keeps contents_change (update_episode f e)).
  { intros f e. apply keeps_update. intros d. by repeat split. }
  unfold apply_episode_changes, apply_episode_field, python, int4. keeps.
Qed.

Lemma apply_to_episode_contents now s : keeps contents_change (apply_to_episode now s).
Proof. unfold apply_to_episode. pose proof apply_episode_contents. keeps. Qed.

(** A change that is not applied is one the episode refuses. *)
Lemma applied_true (m : tx db unit) w b w' :
  (forall w e w', m w = (Raise e, w') -> value_or_type_error e = false) ->
  (catch (m ≫= fun _ => mret true) value_or_type_error (fun _ => mret false)) w = (Ret b, w') -> b = true.
Proof.
  intros Hm. unfold catch, mbind, M_bind. destruct (m w) as [[[]|e] w1] eqn:E; [by intros [= <- _]|].
  rewrite (Hm _ _ _ E). done.
Qed.

Lemma not_applied_refused now eid field v w w' :
  apply_episode_changes now eid field v w = (Ret false, w') -> episode_value_ok field v = false.
Proof.
  unfold apply_episode_changes, apply_episode_field, episode_value_ok.
  destruct (String.eqb field "title"); [by intros ?%applied_true|].
  destruct (String.eqb field "overview"); [by intros ?%applied_true|]. cbn [orb].
  destruct (String.eqb field "air_date").
  { destruct (str_empty v); [by intros ?%applied_true|]. cbn [orb]. destruct (date_fromisoformat v); [by intros ?%applied_true|done]. }
  destruct (String.eqb field "runtime_minutes"); [|done].
  assert (Hr : forall r, (catch (_ ← int4 r; _ ← update_episode (with_episode_runtime r now) eid; mret true)
    value_or_type_error (fun _ => mret false)) w = (Ret false, w') -> False).
  { intros [z|]; [|done]. unfold int4, catch, mbind, M_bind. by destruct (_ <=? z), (z <? _). }
  destruct (str_empty v); [by intros ?%Hr|]. cbn [orb]. destruct (int_of_string v); [by intros ?%Hr|done].
Qed.

Lemma apply_to_episode_eff now id s author uid st :
  eff (deciding KEpisode id s author uid st) community_steps (apply_to_episode now s)
    (fun applied d => deciding KEpisode id s author uid st d /\ (applied = false -> episode_change_refused d s)).
Proof.
  intros w Hw. pose proof (deciding_frame KEpisode id s author uid st _ (apply_to_episode_contents now s) w Hw) as H.
  destruct (apply_to_episode now s w) as [[b|e] w'] eqn:E; [|exact H]. destruct H as [Hs Hd]. split; [done|]. split; [done|].
  intros ->. unfold apply_to_episode, mbind, M_bind, query in E. cbn in E.
  destruct (episodes (working w) !! sg_target s) eqn:Ee; [right; by eapply not_applied_refused|].
  injection E as <-. by left.
Qed.

Definition episode_settlement (st : ContributionSettings) (act : action) (credited : bool) : User -> User :=
  match act with
  | APPROVE => if credited then reward KEpisode st else fun u => u
  | REJECT => penalty KEpisode st
  end.

Lemma settle_episode_settles st act uid author credited :
  settles st uid author (episode_settlement st act credited) (settle_episode st uid author act credited).
Proof.
  unfold settle_episode, episode_settlement.
  destruct act; [destruct credited; [by apply (settle_author_settles KEpisode st uid author APPROVE)|by apply settles_same]|].
  by apply (settle_author_settles KEpisode st uid author REJECT).
Qed.

Lemma review_episode_core {A} st act uid now notes id s (credited : bool -> bool) (k : tx db A) (P : db -> Prop) Q :
  (forall d, P d -> suggestions KEpisode d !! id = Some s /\ is_pending s = true /\ knows uid st d) ->
  (forall applied, credited applied = false -> applied = false) ->
  eff (knows uid st) community_steps k Q ->
  eff P community_steps
    (author ← query (fun d => users d !! sg_user s);
     applied ← (if decide (act = APPROVE) then apply_to_episode now s else mret false);
     _ ← settle_episode st (sg_user s) author act (credited applied);
     _ ← save_suggestion KEpisode id (reviewed act uid now notes s);
     k) Q.
Proof.
  intros HP Hc Hk. eapply eff_bind; [by apply deciding_author|]. intros author. cbv beta.
  eapply eff_bind with (Q := fun applied d => deciding KEpisode id s author uid st d /\
    (act = APPROVE -> applied = false -> episode_change_refused d s)).
  { destruct (decide _) as [_|Ha]; [|by apply eff_return].
    eapply eff_conseq; [apply apply_to_episode_eff|done|]. intros b d [H1 H2]. by split. }
  intros applied. cbv beta. apply eff_assoc.
  eapply eff_bind; [eapply decide_row; [done|apply settle_episode_settles|]|by intros []].
  intros d [Hd Hr]. split; [exact Hd|]. destruct act; [|constructor]. cbn.
  destruct (credited applied) eqn:Ec; [constructor|]. apply settle_refused; [done|]. by apply Hr, Hc.
Qed.

Lemma review_episode_suggestion_steps now id act notes uid :
  eff (fun _ => True) community_steps (review_episode_suggestion now id act notes uid) (fun _ _ => True).
Proof.
  unfold review_episode_suggestion. eapply eff_bind; [apply require_role_gate|]. intros u. cbv beta.
  apply eff_case_bool; intros _; [apply eff_throw|].
  eapply eff_bind; [apply settings_known|]. intros st. cbv beta.
  eapply eff_bind; [apply eff_query|]. intros found. cbv beta.
  apply eff_case_option; [intros s ->|intros _; apply eff_throw].
  apply eff_case_bool; intros Hp; [apply eff_throw|].
  apply (review_episode_core st act uid now notes id s (fun b => b)).
  - intros d [E Hd]. split; [done|]. split; [by apply negb_false_iff|done].
  - done.
  - eapply eff_bind; [apply eff_commit|]. intros []. unfold format_suggestion_response.
    eapply eff_bind; [apply eff_lift|]. intros z. apply eff_read.
Qed.

Lemma bulk_one_episode_steps st now act notes uid id :
  eff (knows uid st) community_steps (bulk_review_one_episode st now act notes uid id) (fun _ => knows uid st).
Proof.
  unfold bulk_review_one_episode. eapply eff_bind; [apply eff_query|]. intros found. cbv beta.
  apply eff_case_option; [intros s ->|intros _; by apply eff_return; intros d [_ H]].
  apply eff_case_bool; intros Hp; [by apply eff_return; intros d [_ H]|].
  apply (review_episode_core st act uid now notes id s (fun _ => true)).
  - intros d [E Hd]. split; [done|]. split; [by apply negb_false_iff|done].
  - done.
  - by apply eff_return.
Qed.

Lemma bulk_review_episode_suggestions_steps now ids act notes uid :
  eff (fun _ => True) community_steps (bulk_review_episode_suggestions now ids act notes uid) (fun _ _ => True).
Proof.
  unfold bulk_review_episode_suggestions. eapply eff_bind; [apply require_role_gate|]. intros u. cbv beta.
  eapply eff_bind; [apply settings_known|]. intros st. cbv beta.
  eapply eff_bind; [apply bulk_loop_steps; intros id; apply bulk_one_episode_steps|]. intros r. cbv beta.
  eapply eff_bind; [apply eff_commit|]. intros []. by apply eff_return.
Qed.

Lemma create_episode_suggestion_steps new_id now eid request uid :
  eff (fun _ => True) community_steps (create_episode_suggestion new_id now eid request uid) (fun _ _ => True).
Proof.
  unfold create_episode_suggestion. eapply eff_bind; [apply (require_auth_user uid (fun _ => True))|]. intros u. cbv beta.
  apply eff_case_bool; intros _; [apply eff_throw|].
  eapply eff_bind; [apply get_settings_eff; by intros d x H|]. intros st. cbv beta.
  apply eff_case_bool; intros _; [apply eff_throw|].
  eapply eff_bind; [apply eff_query|]. intros episode. cbv beta.
  apply eff_case_option; [intros m ->|intros _; apply eff_throw].
  eapply eff_bind; [apply (check_pending_limit_eff KEpisode uid st); tauto|]. intros reached. cbv beta.
  apply eff_case_bool; intros ->; [apply eff_throw|].
  eapply eff_bind; [apply eff_query|]. intros [|x l]; cbv beta iota; [|apply eff_throw].
  eapply eff_conseq; [apply (create_core KEpisode u st uid eid (rq_field_name request)); [done|apply apply_episode_contents|]|..].
  - intros applied. eapply eff_bind; [apply eff_commit|]. intros []. eapply eff_bind.
    { apply eff_case_bool; intros _; [apply eff_notify|by apply eff_return]. }
    intros []. unfold format_suggestion_response.
    eapply eff_bind; [apply eff_lift|]. intros z. apply eff_read.
  - intros d (Hn & H & Hc). destruct H as (_ & [_ [Hu Ha]] & Hst).
    repeat split; [done..|by apply Hc|]. by apply slot_none.
  - done.
Qed.
