(* ===== verification/StreamSuggestions.v ===== *)
(** * Suggestions for streams (api/routers/content/stream_suggestions.py)

    A user reports a stream as broken, corrects one of its fields or links it
    to another media.  Unlike the other suggestions, a stream's is decided first
    and applied afterwards: a change that fails, even half-way, is approved and
    rewarded all the same.

    Two things are parameters: [fetch_media] creates a media from the metadata
    of a provider (the network), [other_attribute] shows an attribute of a
    stream that is not a field of StreamRow.  A link payload is what
    [create_stream_suggestion] wrote; its values have the types of the request. *)

From S2P Require Export JsonDump MetadataSuggestions.
Local Open Scope string_scope.
Local Open Scope Z_scope.

Definition SUGGESTION_TYPES : list string :=
  ["report_broken"; "field_correction"; "language_add"; "language_remove"; "mark_duplicate"; "relink_media";
   "add_media_link"; "other"].
Definition LINK_TYPES : list string := ["relink_media"; "add_media_link"].
(** db/crud/stream_community.py *)
Definition ISSUE_SUGGESTION_TYPES : list string := ["report_broken"; "other"].

(** Where a stream is to be linked. *)
Record link_target := mkTarget {
  target_media_id : option Z; target_external_id : option string; target_media_type : option string;
  target_title : option string; tg_file_index : option Z; tg_season : option Z; tg_episode : option Z; tg_episode_end : option Z }.
Definition no_target : link_target := mkTarget None None None None None None None None.

(** ** External IDs (db/crud/media.py) *)

Definition parse_external_id (s : string) : option (string * string) :=
  if startswith "tt" s then Some ("imdb", s)
  else if startswith "mftmdb" s then Some ("tmdb", replace "mftmdb" "" s)
  else if startswith "mf:" s then Some ("mediafusion", str_drop 3 s)
  else match split1 ":" s with [a; b] => Some (lower a, b) | _ => None end.

Definition of_type (c : Catalogue) (t : option MediaType) (mid : Z) : bool :=
  match medias c !! mid with
  | Some m => match t with Some t => bool_decide (media_type m = t) | None => true end
  | None => false
  end.

(** The media [get_media_by_external_id] finds. *)
Definition media_with_id (c : Catalogue) (prov id : string) (t : option MediaType) : option Z :=
  match List.filter (fun x => has_id prov id x && of_type c t (ext_media x)) (external_ids c) with
  | x :: _ => Some (ext_media x)
  | [] => None
  end.

Definition get_media_by_external_id (c : Catalogue) (external_id : string) (t : option MediaType) : option Z :=
  let external_id := strip external_id in
  let by_provider prov id := if str_empty prov || str_empty id then None else media_with_id c prov id t in
  if str_empty external_id then None
  else if startswith "tt" external_id then by_provider "imdb" external_id
  else if startswith "mf:" external_id then
    match int_of_string (str_drop 3 external_id) with
    | Ret mid => if of_type c t mid then Some mid else None
    | Raise _ => None
    end
  else if startswith "mftmdb" external_id then by_provider "tmdb" (replace "mftmdb" "" external_id)
  else match split1 ":" external_id with [a; b] => by_provider (lower a) b | _ => None end.

Definition normalize_external_id_input (v : option string) : option string :=
  match v with
  | None => None
  | Some v =>
      let normalized := strip v in
      if str_empty normalized then None
      else if isdigit normalized then Some ("tmdb:" +:+ normalized)
      else
        match parse_external_id normalized with
        | Some (prov, id) =>
            if str_empty prov || str_empty id then Some normalized
            else if String.eqb prov "imdb" then Some (if startswith "tt" id then id else "tt" +:+ id)
            else if String.eqb prov "mediafusion" then Some ("mf:" +:+ id)
            else Some (prov +:+ ":" +:+ id)
        | None => Some normalized
        end
  end.

(** ** Payloads *)

Definition json_option {A} (f : A -> value) (o : option A) : value := match o with Some x => f x | None => VNone end.

Definition payload (t : link_target) : value :=
  VDict [("target_media_id", json_option VInt (target_media_id t)); ("target_external_id", json_option VStr (target_external_id t));
         ("target_media_type", json_option VStr (target_media_type t)); ("target_title", json_option VStr (target_title t));
         ("file_index", json_option VInt (tg_file_index t)); ("season_number", json_option VInt (tg_season t));
         ("episode_number", json_option VInt (tg_episode t)); ("episode_end", json_option VInt (tg_episode_end t))].

Definition get_int (k : string) (d : list (string * value)) : option Z :=
  match dict_get k d with Some (VInt z) => Some z | _ => None end.
Definition get_str (k : string) (d : list (string * value)) : option string :=
  match dict_get k d with Some (VStr s) => Some s | _ => None end.

Definition target_of (d : list (string * value)) : link_target :=
  mkTarget (get_int "target_media_id" d) (get_str "target_external_id" d) (get_str "target_media_type" d)
    (get_str "target_title" d) (get_int "file_index" d) (get_int "season_number" d) (get_int "episode_number" d)
    (get_int "episode_end" d).

(** The target a review reads from the suggested value. *)
Definition link_data (suggestion_type : string) (suggested : option string) : outcome error link_target :=
  match suggested with
  | Some text =>
      if memb suggestion_type LINK_TYPES && negb (str_empty text) then
        match json_loads text with
        | Ret (VDict d) => Ret (target_of d)
        | Ret _ => Raise (Uncaught AttributeError)
        | Raise _ => Ret no_target
        end
      else Ret no_target
  | None => Ret no_target
  end.

(** The type and the field of a stored suggestion type. *)
Definition split_type (stored : string) : string * option string :=
  match split1 ":" stored with [a; b] => (a, Some b) | _ => (stored, None) end.

Lemma link_data_payload t : encodable (payload t) -> forall ty, ty ∈ LINK_TYPES -> link_data ty (Some (json_dumps (payload t))) = Ret t.
Proof.
  intros He ty Hty. unfold link_data. rewrite (loads_dumps _ He).
  assert (memb ty LINK_TYPES = true) as -> by (set_unfold in Hty; by destruct Hty as [->|[->|[]]]).
  by destruct t as [[] [] [] [] [] [] [] []].
Qed.

(** ** Rows of the library *)

Definition update_stream (f : StreamRow -> StreamRow) (sid : Z) : tx db unit :=
  update_library (fun l => with_streams (alter f sid (streams l)) l).

Definition with_stream_name x s := mkStream (stream_id s) x (resolution s) (codec s) (quality s) (bit_depth s) (source s)
  (stream_active s) (is_blocked s) (is_public s) (audio_formats s) (channels s) (hdr_formats s) (languages s).
Definition with_resolution x s := mkStream (stream_id s) (stream_name s) x (codec s) (quality s) (bit_depth s) (source s)
  (stream_active s) (is_blocked s) (is_public s) (audio_formats s) (channels s) (hdr_formats s) (languages s).
Definition with_codec x s := mkStream (stream_id s) (stream_name s) (resolution s) x (quality s) (bit_depth s) (source s)
  (stream_active s) (is_blocked s) (is_public s) (audio_formats s) (channels s) (hdr_formats s) (languages s).
Definition with_quality x s := mkStream (stream_id s) (stream_name s) (resolution s) (codec s) x (bit_depth s) (source s)
  (stream_active s) (is_blocked s) (is_public s) (audio_formats s) (channels s) (hdr_formats s) (languages s).
Definition with_bit_depth x s := mkStream (stream_id s) (stream_name s) (resolution s) (codec s) (quality s) x (source s)
  (stream_active s) (is_blocked s) (is_public s) (audio_formats s) (channels s) (hdr_formats s) (languages s).
Definition with_source x s := mkStream (stream_id s) (stream_name s) (resolution s) (codec s) (quality s) (bit_depth s) x
  (stream_active s) (is_blocked s) (is_public s) (audio_formats s) (channels s) (hdr_formats s) (languages s).
Definition with_blocked x s := mkStream (stream_id s) (stream_name s) (resolution s) (codec s) (quality s) (bit_depth s) (source s)
  (stream_active s) x (is_public s) (audio_formats s) (channels s) (hdr_formats s) (languages s).
Definition with_visibility a p s := mkStream (stream_id s) (stream_name s) (resolution s) (codec s) (quality s) (bit_depth s)
  (source s) a (is_blocked s) p (audio_formats s) (channels s) (hdr_formats s) (languages s).
Definition with_audio_formats x s := mkStream (stream_id s) (stream_name s) (resolution s) (codec s) (quality s) (bit_depth s)
  (source s) (stream_active s) (is_blocked s) (is_public s) x (channels s) (hdr_formats s) (languages s).
Definition with_channels x s := mkStream (stream_id s) (stream_name s) (resolution s) (codec s) (quality s) (bit_depth s)
  (source s) (stream_active s) (is_blocked s) (is_public s) (audio_formats s) x (hdr_formats s) (languages s).
Definition with_hdr_formats x s := mkStream (stream_id s) (stream_name s) (resolution s) (codec s) (quality s) (bit_depth s)
  (source s) (stream_active s) (is_blocked s) (is_public s) (audio_formats s) (channels s) x (languages s).
Definition with_languages x s := mkStream (stream_id s) (stream_name s) (resolution s) (codec s) (quality s) (bit_depth s)
  (source s) (stream_active s) (is_blocked s) (is_public s) (audio_formats s) (channels s) (hdr_formats s) x.

(** *** Links of files: [UniqueConstraint(file_id, media_id, season_number,
    episode_number)], where NULLs are distinct *)

Definition same_number (a b : option Z) : bool := match a, b with Some x, Some y => x =? y | _, _ => false end.
Definition clashes (l x : FileMediaLink) : bool :=
  negb (fl_id x =? fl_id l) && (fl_file x =? fl_file l) && (fl_media x =? fl_media l)
  && same_number (season_number x) (season_number l) && same_number (episode_number x) (episode_number l).

Definition check_link (l : FileMediaLink) : tx db unit :=
  _ ← int4 (season_number l); _ ← int4 (episode_number l); _ ← int4 (episode_end l);
  clash ← query (fun d => existsb (clashes l) (file_links (library d)));
  if clash : bool then throw IntegrityError else mret tt.

Definition save_link (l : FileMediaLink) : tx db unit :=
  _ ← check_link l;
  update_library (fun b => with_file_links (map (fun x => if fl_id x =? fl_id l then l else x) (file_links b)) b).

Definition add_file_link (file mid : Z) (s e n : option Z) : tx db unit :=
  id ← query (fun d => next_id (library d));
  let l := mkFileLink id file mid s e n in
  _ ← check_link l;
  update_library (fun b => with_next_id (id + 1) (with_file_links (file_links b ++ [l])%list b)).

Definition links_of (b : Library) (file mid : Z) : list FileMediaLink :=
  List.filter (fun l => (fl_file l =? file) && (fl_media l =? mid)) (file_links b).

Definition has_index (idx : option Z) (o : option Z) : bool :=
  match idx with Some i => same_number o (Some i) | None => true end.
Definition files_of (b : Library) (sid : Z) (idx : option Z) : list StreamFile :=
  List.filter (fun f => (file_stream f =? sid) && has_index idx (file_index f)) (stream_files b).

(** An integer that a query compares with a column: the driver refuses what
    does not fit, and the transaction goes on. *)
Definition parameter (o : option Z) : tx db unit :=
  match o with
  | Some z => if (- 2 ^ 31 <=? z) && (z <? 2 ^ 31) then mret tt else throw (Uncaught OverflowError)
  | None => mret tt
  end.

(** The season and episode of one file of the stream.  SQLAlchemy writes
    changed rows before it deletes others. *)
Definition map_episode (sid mid : Z) (t : link_target) : tx db bool :=
  files ← query (fun d => files_of (library d) sid (tg_file_index t));
  match files with
  | [] => mret false
  | f :: _ =>
      found ← query (fun d => links_of (library d) (file_id f) mid);
      _ ← match found with
          | l :: duplicates =>
              _ ← save_link (mkFileLink (fl_id l) (fl_file l) (fl_media l) (tg_season t) (tg_episode t) (tg_episode_end t));
              update_library (fun b => with_file_links
                (List.filter (fun x => negb (memb (fl_id x) (map fl_id duplicates))) (file_links b)) b)
          | [] => add_file_link (file_id f) mid (tg_season t) (tg_episode t) (tg_episode_end t)
          end;
      mret true
  end.

Definition wants_episode (t : link_target) : bool :=
  match tg_file_index t with
  | Some _ => match tg_season t, tg_episode t, tg_episode_end t with None, None, None => false | _, _, _ => true end
  | None => false
  end.

(** *** Names: formats, channels and languages *)

Definition get_or_create_name (table name : string) : tx db unit :=
  update_library (fun l => if memb (table, name) (library_names l) then l
                           else with_library_names (library_names l ++ [(table, name)])%list l).

(** [for x in v] *)
Definition iterate (v : value) : outcome py_exn (list value) :=
  match v with
  | VList l => Ret l
  | VDict d => Ret (map (fun kv => VStr kv.1) d)
  | VStr s => Ret (map (fun c => VStr (String c "")) (String.list_ascii_of_string s))
  | _ => Raise TypeError
  end.

(** A collection of names of a stream. *)
Record name_field := mkNameField {
  names : StreamRow -> list string; with_names : list string -> StreamRow -> StreamRow; field_table : string }.
Definition audio_field := mkNameField audio_formats with_audio_formats "audio_format".
Definition channel_field := mkNameField channels with_channels "audio_channel".
Definition hdr_field := mkNameField hdr_formats with_hdr_formats "hdr_format".

(** Finding or creating a row by its name and appending it; appended twice it
    is linked once.  A query for something that is not a text is refused, a row
    without a name cannot be inserted. *)
Definition append_name (n : name_field) (sid : Z) (v : value) : tx db unit :=
  match v with
  | VStr name =>
      _ ← get_or_create_name (field_table n) name;
      update_stream (fun s => with_names n (if memb name (names n s) then names n s else names n s ++ [name])%list s) sid
  | VNone => throw IntegrityError
  | _ => throw (Uncaught TypeError)
  end.

(** The branches for audio formats, channels and HDR formats. *)
Definition replace_names (n : name_field) (sid : Z) (v : option string) : tx db unit :=
  match v with
  | None | Some "" => update_stream (with_names n []) sid
  | Some text =>
      match json_loads text with
      | Ret j =>
          _ ← update_stream (with_names n []) sid;
          l ← python (iterate j);
          for_loop (append_name n sid) l
      | Raise _ =>
          _ ← get_or_create_name (field_table n) text;
          update_stream (with_names n [text]) sid
      end
  end.

Definition add_language (sid : Z) (v : value) : tx db unit :=
  match v with
  | VStr name =>
      let name := strip name in
      if str_empty name then mret tt
      else
        _ ← get_or_create_name "language" name;
        linked ← query (fun d => match streams (library d) !! sid with Some s => memb name (languages s) | None => false end);
        if linked : bool then throw IntegrityError
        else update_stream (fun s => with_languages (languages s ++ [name])%list s) sid
  | _ => throw (Uncaught AttributeError)
  end.

Definition replace_languages (sid : Z) (v : option string) : tx db unit :=
  let parsed := match v with
                | None | Some "" => VList []
                | Some text => match json_loads text with
                               | Ret j => j
                               | Raise _ => VList (map (fun x => VStr (strip x)) (split_char "," text))
                               end
                end in
  _ ← update_stream (with_languages []) sid;
  l ← python (iterate parsed);
  for_loop (add_language sid) l.

(** ** [apply_stream_changes] *)

Definition set_link_number (field : string) (z : option Z) (l : FileMediaLink) : FileMediaLink :=
  if String.eqb field "season_number" then mkFileLink (fl_id l) (fl_file l) (fl_media l) z (episode_number l) (episode_end l)
  else if String.eqb field "episode_number" then mkFileLink (fl_id l) (fl_file l) (fl_media l) (season_number l) z (episode_end l)
  else mkFileLink (fl_id l) (fl_file l) (fl_media l) (season_number l) (episode_number l) z.

(** The field ["episode_link:<file>:<number>"]; a text that is no integer is
    answered like a link that is not there. *)
Definition correct_episode_link (field : string) (v : option string) : tx db bool :=
  match split_char ":" field with
  | [_; file; link_field] =>
      match int_of_string file with
      | Raise _ => mret false
      | Ret file =>
          found ← query (fun d => List.filter (fun l => fl_file l =? file) (file_links (library d)));
          match found with
          | l :: _ =>
              if memb link_field ["season_number"; "episode_number"; "episode_end"] then
                match (match v with None | Some "" => Ret None | Some t => z ← int_of_string t; Ret (Some z) end) with
                | Raise _ => mret false
                | Ret z => _ ← save_link (set_link_number link_field z l); mret true
                end
              else mret false
          | [] => mret false
          end
      end
  | _ => mret false
  end.

Definition correct_field (sid : Z) (field : string) (v : option string) : tx db bool :=
  let set f := _ ← update_stream f sid; mret true in
  if String.eqb field "name" then
    match v with Some _ => set (with_stream_name v) | None => throw IntegrityError end
  else if String.eqb field "resolution" then set (with_resolution v)
  else if String.eqb field "codec" then set (with_codec v)
  else if String.eqb field "quality" then set (with_quality v)
  else if String.eqb field "bit_depth" then set (with_bit_depth v)
  else if String.eqb field "source" then set (with_source v)
  else if String.eqb field "audio_formats" then _ ← replace_names audio_field sid v; mret true
  else if String.eqb field "channels" then _ ← replace_names channel_field sid v; mret true
  else if String.eqb field "hdr_formats" then _ ← replace_names hdr_field sid v; mret true
  else if String.eqb field "languages" then _ ← replace_languages sid v; mret true
  else if startswith "episode_link:" field then correct_episode_link field v
  else mret true.

(** The users whose report of the stream was approved. *)
Definition is_report (sid : Z) (s : Suggestion) : bool := (sg_target s =? sid) && String.eqb (sg_field s) "report_broken".
Definition approved (s : Suggestion) : bool := memb (status s) [STATUS_APPROVED; STATUS_AUTO_APPROVED].
Definition broken_reporters (sid : Z) (d : db) : list Z :=
  uniq (map sg_user (select (fun s => is_report sid s && approved s) (suggestions KStream d))).

Definition apply_report (sid : Z) : tx db bool :=
  settings ← query settings_row;
  match settings with
  | Some settings =>
      if auto_block_on_broken_reports settings then
        reporters ← query (broken_reporters sid);
        _ ← (if broken_report_threshold settings <=? Z.of_nat (length reporters) + 1
             then update_stream (with_blocked true) sid else mret tt);
        mret true
      else mret true
  | None => mret true
  end.

(** What a failed statement of the database leaves cannot be committed: such
    an error is caught, and comes back with the next statement. *)
Definition caught (e : error) : bool := match e with IntegrityError | DataError => false | _ => true end.

(** *** Links of streams *)

Definition media_type_named (s : string) : MediaType :=
  if String.eqb s "series" then SERIES else if String.eqb s "tv" then TV else MOVIE.

(** The first of two texts that is not empty. *)
Definition text_or (a b : option string) : option string := if empty_text a then b else a.
Definition truthy_id (o : option Z) : bool := match o with Some z => negb (z =? 0) | None => false end.

Definition file_links_of (b : Library) (file : Z) : list FileMediaLink := List.filter (fun l => fl_file l =? file) (file_links b).

Definition relink_file (mid : Z) (f : StreamFile) : tx db unit :=
  links ← query (fun d => file_links_of (library d) (file_id f));
  for_loop (fun l => if fl_media l =? mid then mret tt
                     else save_link (mkFileLink (fl_id l) (fl_file l) mid (season_number l) (episode_number l) (episode_end l))) links.

Definition relink_media (sid mid : Z) (t : link_target) : tx db bool :=
  _ ← parameter (tg_file_index t);
  _ ← update_library (fun b => with_stream_links
        (List.filter (fun l => negb ((link_stream l =? sid) && has_index (tg_file_index t) (link_file_index l))) (stream_links b)
         ++ [mkStreamLink sid mid (tg_file_index t)])%list b);
  files ← query (fun d => files_of (library d) sid (tg_file_index t));
  _ ← for_loop (relink_file mid) files;
  if wants_episode t then map_episode sid mid t else mret true.

Definition same_index (a b : option Z) : bool := bool_decide (a = b).

Definition add_media_link (sid mid : Z) (t : link_target) : tx db bool :=
  _ ← parameter (tg_file_index t);
  linked ← query (fun d => existsb (fun l => (link_stream l =? sid) && (link_media l =? mid)
                                             && same_index (link_file_index l) (tg_file_index t)) (stream_links (library d)));
  if linked : bool then mret true
  else
    _ ← update_library (fun b => with_stream_links (stream_links b ++ [mkStreamLink sid mid (tg_file_index t)])%list b);
    if wants_episode t then map_episode sid mid t else mret true.

(** ** Requests *)

Record StreamSuggestionCreateRequest := mkStreamRequest {
  rs_type : string; rs_field : option string; rs_current : option string; rs_suggested : option string;
  rs_reason : option string; rs_target : link_target }.

Definition valid_stream_request (r : StreamSuggestionCreateRequest) : bool :=
  memb (rs_type r) SUGGESTION_TYPES && at_most 1000 (rs_reason r)
  && match target_media_type (rs_target r) with Some t => memb t ["movie"; "series"; "tv"] | None => true end.

Definition is_link (r : StreamSuggestionCreateRequest) : bool := memb (rs_type r) LINK_TYPES.

Definition is_some {A} (o : option A) : bool := match o with Some _ => true | None => false end.

(** The first check that a request fails. *)
Definition request_error (r : StreamSuggestionCreateRequest) : option string :=
  let t := rs_target r in
  if String.eqb (rs_type r) "field_correction" && empty_text (rs_field r)
  then Some "field_name is required for field_correction suggestions"
  else if is_link r && negb (truthy_id (target_media_id t) || negb (empty_text (target_external_id t)))
  then Some "target_media_id or target_external_id is required for relink_media/add_media_link suggestions"
  else if negb (empty_text (target_external_id t)) && empty_text (target_media_type t)
  then Some "target_media_type is required when target_external_id is provided"
  else if (is_some (tg_season t) || is_some (tg_episode t) || is_some (tg_episode_end t)) && negb (is_some (tg_file_index t))
  then Some "file_index is required when season/episode mapping is provided"
  else if is_some (tg_episode_end t) && negb (is_some (tg_episode t))
  then Some "episode_number is required when episode_end is provided"
  else None.

Definition stored_type (r : StreamSuggestionCreateRequest) : string :=
  if String.eqb (rs_type r) "field_correction" && negb (empty_text (rs_field r))
  then "field_correction:" +:+ default "" (rs_field r) else rs_type r.
Definition stored_value (r : StreamSuggestionCreateRequest) : option string :=
  if is_link r then Some (json_dumps (payload (rs_target r))) else rs_suggested r.
Definition stored_triage (r : StreamSuggestionCreateRequest) : option string :=
  if memb (rs_type r) ISSUE_SUGGESTION_TYPES then Some "open" else None.

(** The suggestions that stand in the way of another one by the same user. *)
Definition duplicates (uid sid : Z) (ty : string) (s : Suggestion) : bool :=
  (sg_user s =? uid) && (sg_target s =? sid) && String.eqb (sg_field s) ty && (String.eqb ty "report_broken" || is_pending s).

Definition find_stream_suggestion (id : string) : tx db (option StreamSuggestion) := query (fun d => stream_suggestions d !! id).
Definition save_stream_suggestion (id : string) (s : StreamSuggestion) : tx db unit :=
  update (fun d => set_stream_suggestions (<[id := s]> (stream_suggestions d)) d).
Definition insert_stream_suggestion (s : StreamSuggestion) : tx db unit :=
  taken ← find_stream_suggestion (sg_id (base s));
  match taken with Some _ => throw IntegrityError | None => save_stream_suggestion (sg_id (base s)) s end.

Record StreamSuggestionResponse := mkStreamResponse {
  sr_row : StreamSuggestion; sr_username : option string; sr_stream_name : option string; sr_reviewer : option string;
  sr_level : option string; sr_points : option Z }.

(** [build_suggestion_response], without the media of the stream and the target. *)
Definition build_suggestion_response (s : StreamSuggestion) (reviewer : option string) : tx db StreamSuggestionResponse :=
  query (fun d =>
    let author := users d !! sg_user (base s) in
    mkStreamResponse s (author ≫= username) (streams (library d) !! sg_target (base s) ≫= stream_name) reviewer
      (contribution_level <$> author) (contribution_points <$> author)).

(** The author's points after a decision of a stream suggestion. *)
Definition reward_stream (settings : ContributionSettings) (uid : Z) (author : option User) : tx db unit :=
  match author with
  | Some _ => award_points uid (points_per_stream_edit settings) STREAM_EDIT
  | None => mret tt
  end.
Definition penalise_stream (settings : ContributionSettings) (uid : Z) (author : option User) : tx db unit :=
  match author with
  | Some _ => if points_for_rejection_penalty settings <? 0 then update_user (penalised settings) uid else mret tt
  | None => mret tt
  end.

Definition review_row (act : action) (reviewer now : Z) (notes : option string) (s : StreamSuggestion) : StreamSuggestion :=
  mkStreamSuggestion (reviewed act reviewer now notes (base s)) (issue_triage_status s) (issue_triage_note s).

Section Handlers.
Context (fetch_media : string -> string -> option string -> tx db (option Z)).
Context (other_attribute : StreamRow -> string -> outcome error (option string)).

Definition media_exists (mid : Z) : tx db (option Z) :=
  query (fun d => if of_type (catalogue d) None mid then Some mid else None).

Definition resolve_external (t : link_target) (title : option string) : tx db (option Z) :=
  match normalize_external_id_input (target_external_id t) with
  | None => mret None
  | Some ext =>
      if startswith "mf:" ext then
        match int_of_string (after_colon ext) with
        | Ret mid => media_exists mid
        | Raise _ => mret None
        end
      else
        let literal := default "movie" (text_or (target_media_type t) None) in
        found ← query (fun d => get_media_by_external_id (catalogue d) ext (Some (media_type_named literal)));
        match found with
        | Some mid => mret (Some mid)
        | None =>
            any ← query (fun d => get_media_by_external_id (catalogue d) ext None);
            match any with
            | Some mid => mret (Some mid)
            | None => fetch_media ext literal title
            end
        end
  end.

Definition resolve_target_media_id (t : link_target) (title : option string) : tx db (option Z) :=
  match target_media_id t with
  | Some mid => if mid =? 0 then resolve_external t title else media_exists mid
  | None => resolve_external t title
  end.

(** Linking to the media that the target stands for, if there is one. *)
Definition link_stream_to (link : Z -> Z -> link_target -> tx db bool) (stream : StreamRow) (t : link_target) : tx db bool :=
  resolved ← resolve_target_media_id t (text_or (target_title t) (stream_name stream));
  match resolved with
  | Some mid => if mid =? 0 then mret false else link (stream_id stream) mid t
  | None => mret false
  end.

Definition apply_change (stream : StreamRow) (ty : string) (field v : option string) (t : link_target) : tx db bool :=
  if String.eqb ty "relink_media" then link_stream_to relink_media stream t
  else if String.eqb ty "add_media_link" then link_stream_to add_media_link stream t
  else if String.eqb ty "report_broken" then apply_report (stream_id stream)
  else if String.eqb ty "field_correction" then
    match field with
    | Some name => if str_empty name then mret true else correct_field (stream_id stream) name v
    | None => mret true
    end
  else mret true.

Definition apply_stream_changes (stream : StreamRow) (ty : string) (field v : option string) (t : link_target) : tx db bool :=
  catch (apply_change stream ty field v t) caught (fun _ => mret false).

(** [getattr(stream, field_name)] as a text. *)
Definition json_names (l : list string) : string := json_dumps (VList (map VStr l)).
Definition attribute_text (s : StreamRow) (field : string) : outcome error (option string) :=
  if String.eqb field "name" then Ret (stream_name s)
  else if String.eqb field "resolution" then Ret (resolution s)
  else if String.eqb field "codec" then Ret (codec s)
  else if String.eqb field "quality" then Ret (quality s)
  else if String.eqb field "bit_depth" then Ret (bit_depth s)
  else if String.eqb field "source" then Ret (source s)
  else if String.eqb field "audio_formats" then Ret (Some (json_names (audio_formats s)))
  else if String.eqb field "channels" then Ret (Some (json_names (channels s)))
  else if String.eqb field "hdr_formats" then Ret (Some (json_names (hdr_formats s)))
  else if String.eqb field "languages" then Ret (Some (json_names (languages s)))
  else other_attribute s field.

Definition stored_current (r : StreamSuggestionCreateRequest) (s : StreamRow) : outcome error (option string) :=
  if empty_text (rs_current r) then
    match rs_field r with
    | Some field => if str_empty field then Ret (rs_current r)
                    else v ← attribute_text s field; Ret (match v with Some _ => v | None => rs_current r end)
    | None => Ret (rs_current r)
    end
  else Ret (rs_current r).

Definition create_stream_suggestion (new_id : string) (now sid : Z) (request : StreamSuggestionCreateRequest) (uid : Z) :
    tx db StreamSuggestionResponse :=
  current_user ← require_auth uid;
  if negb (valid_stream_request request) then http 422 "Validation error"
  else
    settings ← get_contribution_settings;
    match request_error request with
    | Some detail => http 400 detail
    | None =>
        stream ← query (fun d => streams (library d) !! sid);
        match stream with
        | None => http 404 "Stream not found"
        | Some stream =>
            existing ← query (fun d => select (duplicates uid sid (rs_type request)) (suggestions KStream d));
            match existing with
            | _ :: _ =>
                http 409 (if String.eqb (rs_type request) "report_broken" then "You have already reported this stream as broken"
                          else "You already have a pending suggestion of this type for this stream")
            | [] =>
                if String.eqb (rs_type request) "report_broken" && is_blocked stream
                then http 400 "This stream is already blocked"
                else
                  can_auto_approve ← should_auto_approve current_user;
                  current_value ← lift (stored_current request stream);
                  applied ← (if can_auto_approve : bool
                             then apply_stream_changes stream (rs_type request) (rs_field request) (rs_suggested request)
                                    (rs_target request)
                             else mret false);
                  _ ← (if applied : bool then award_points uid (points_per_stream_edit settings) STREAM_EDIT else mret tt);
                  let suggestion := mkStreamSuggestion
                    (new_suggestion new_id uid sid (stored_type request) current_value (stored_value request)
                       (rs_reason request) now applied) (stored_triage request) None in
                  _ ← insert_stream_suggestion suggestion;
                  _ ← commit;
                  _ ← (if is_pending (base suggestion) then notify new_id else mret tt);
                  build_suggestion_response suggestion
                    (if applied then username current_user else None)
            end
        end
    end.

(** The change of an approved suggestion. *)
Definition apply_suggestion (stream : StreamRow) (s : Suggestion) : tx db bool :=
  let '(ty, field) := split_type (sg_field s) in
  t ← lift (link_data ty (suggested_value s));
  apply_stream_changes stream ty field (suggested_value s) t.

Definition review_stream_suggestion (now : Z) (id : string) (act : action) (notes : option string) (uid : Z) :
    tx db StreamSuggestionResponse :=
  current_user ← require_role MODERATOR uid;
  if negb (at_most 500 notes) then http 422 "Validation error"
  else
    settings ← get_contribution_settings;
    found ← find_stream_suggestion id;
    match found with
    | None => http 404 "Suggestion not found"
    | Some suggestion =>
        if negb (is_pending (base suggestion)) then http 400 "Suggestion has already been reviewed"
        else
          stream ← query (fun d => streams (library d) !! sg_target (base suggestion));
          author ← query (fun d => users d !! sg_user (base suggestion));
          _ ← save_stream_suggestion id (review_row act uid now notes suggestion);
          _ ← match act with
              | APPROVE =>
                  _ ← match stream with
                      | Some stream => apply_suggestion stream (base suggestion)
                      | None => mret false
                      end;
                  reward_stream settings (sg_user (base suggestion)) author
              | REJECT => penalise_stream settings (sg_user (base suggestion)) author
              end;
          _ ← commit;
          build_suggestion_response (review_row act uid now notes suggestion) (username current_user)
    end.

(** A bulk approval of a suggestion whose stream is gone goes the way of a
    rejection. *)
Definition bulk_review_one_stream (settings : ContributionSettings) (now : Z) (act : action) (notes : option string)
    (uid : Z) (id : string) : tx db (option action) :=
  found ← find_stream_suggestion id;
  match found with
  | None => mret None
  | Some suggestion =>
      if negb (is_pending (base suggestion)) then mret None
      else
        stream ← query (fun d => streams (library d) !! sg_target (base suggestion));
        author ← query (fun d => users d !! sg_user (base suggestion));
        _ ← save_stream_suggestion id (review_row act uid now notes suggestion);
        match act, stream with
        | APPROVE, Some stream =>
            _ ← apply_suggestion stream (base suggestion);
            _ ← reward_stream settings (sg_user (base suggestion)) author;
            mret (Some APPROVE)
        | _, _ =>
            _ ← penalise_stream settings (sg_user (base suggestion)) author;
            mret (Some REJECT)
        end
  end.

Definition bulk_review_stream_suggestions (now : Z) (ids : list string) (act : action) (notes : option string) (uid : Z) :
    tx db bulk_result :=
  _ ← require_role MODERATOR uid;
  settings ← get_contribution_settings;
  results ← bulk_loop (bulk_review_one_stream settings now act notes uid) ids (mkBulk 0 0 0);
  _ ← commit;
  mret results.
End Handlers.

Definition delete_stream_suggestion (id : string) (uid : Z) : tx db unit :=
  _ ← require_auth uid;
  found ← find_stream_suggestion id;
  match found with
  | Some suggestion =>
      if negb (sg_user (base suggestion) =? uid) then http 404 "Suggestion not found"
      else if negb (is_pending (base suggestion)) then http 400 "Can only delete pending suggestions"
      else
        _ ← update (fun d => set_stream_suggestions (delete id (stream_suggestions d)) d);
        commit
  | None => http 404 "Suggestion not found"
  end.

Definition TRIAGE_STATUSES : list string := ["open"; "reviewed"; "dismissed"; "action_taken"].

Definition update_stream_issue_triage (now : Z) (id : string) (triage : string) (note : option string) (uid : Z) :
    tx db StreamSuggestionResponse :=
  _ ← require_role MODERATOR uid;
  if negb (memb triage TRIAGE_STATUSES && at_most 500 note) then http 422 "Validation error"
  else
    found ← find_stream_suggestion id;
    match found with
    | None => http 404 "Suggestion not found"
    | Some suggestion =>
        if negb (memb (split_type (sg_field (base suggestion))).1 ISSUE_SUGGESTION_TYPES)
        then http 400 "Issue triage applies only to report_broken and other suggestions"
        else
          let suggestion := mkStreamSuggestion (touched now (base suggestion)) (Some triage) note in
          _ ← save_stream_suggestion id suggestion;
          _ ← commit;
          build_suggestion_response suggestion None
    end.

(** ** Reading *)

Record BrokenReportStatus := mkBrokenStatus {
  br_blocked : bool; br_count : Z; br_threshold : Z; br_user_has_reported : bool; br_needed : Z }.

(** [fetch_stream_community_signals_batch]: the issues that are neither
    rejected nor dismissed. *)
Definition visible_issue (sid : Z) (s : StreamSuggestion) : bool :=
  (sg_target (base s) =? sid) && memb (sg_field (base s)) ISSUE_SUGGESTION_TYPES
  && negb (String.eqb (status (base s)) STATUS_REJECTED)
  && match issue_triage_status s with Some t => negb (String.eqb t "dismissed") | None => true end.
Definition issue_report_count (sid : Z) (d : db) : Z := Z.of_nat (length (select (visible_issue sid) (stream_suggestions d))).

Definition get_broken_report_status (sid uid : Z) : tx db BrokenReportStatus :=
  _ ← require_auth uid;
  stream ← query (fun d => streams (library d) !! sid);
  match stream with
  | None => http 404 "Stream not found"
  | Some stream =>
      settings ← get_contribution_settings;
      query (fun d =>
        let reporters := Z.of_nat (length (broken_reporters sid d)) in
        let mine := select (fun s => is_report sid s && (sg_user s =? uid)) (suggestions KStream d) in
        mkBrokenStatus (is_blocked stream) (issue_report_count sid d) (broken_report_threshold settings)
          (match mine with [] => false | _ => true end)
          (if auto_block_on_broken_reports settings && negb (is_blocked stream)
           then Z.max 0 (broken_report_threshold settings - reporters) else 0))
  end.

(** [get_stream_editable_fields]: the fields with the values they are shown
    with. *)
Definition shown_names (l : list string) : option string := match l with [] => None | _ => Some (json_names l) end.
Definition editable_fields (s : StreamRow) : list (string * option string) :=
  [("name", stream_name s); ("resolution", resolution s); ("quality", quality s); ("codec", codec s);
   ("bit_depth", bit_depth s); ("audio_formats", shown_names (audio_formats s)); ("channels", shown_names (channels s));
   ("hdr_formats", shown_names (hdr_formats s)); ("languages", shown_names (languages s)); ("source", source s)].

Definition get_stream_editable_fields (sid uid : Z) : tx db (list (string * option string)) :=
  _ ← require_auth uid;
  stream ← query (fun d => streams (library d) !! sid);
  match stream with Some s => mret (editable_fields s) | None => http 404 "Stream not found" end.

(** ** The handlers make the steps of the community *)

Lemma parameter_quiet o : quiet contents_change (parameter o).
Proof. unfold parameter. keeps. Qed.
Lemma int4_quiet o : quiet contents_change (int4 o).
Proof. unfold int4. keeps. Qed.
#[export] Hint Resolve parameter_quiet int4_quiet : keeps.

Lemma save_link_quiet l : quiet contents_change (save_link l).
Proof. unfold save_link, check_link. keeps. Qed.
Lemma add_file_link_quiet f m s e n : quiet contents_change (add_file_link f m s e n).
Proof. unfold add_file_link, check_link. keeps. Qed.
#[export] Hint Resolve save_link_quiet add_file_link_quiet : keeps.

Lemma map_episode_quiet sid mid t : quiet contents_change (map_episode sid mid t).
Proof. unfold map_episode. keeps. Qed.
#[export] Hint Resolve map_episode_quiet : keeps.

Lemma relink_media_quiet sid mid t : quiet contents_change (relink_media sid mid t).
Proof. unfold relink_media, relink_file. keeps. Qed.
Lemma add_media_link_quiet sid mid t : quiet contents_change (add_media_link sid mid t).
Proof. unfold add_media_link. keeps. Qed.

Lemma append_name_quiet n sid v : quiet contents_change (append_name n sid v).
Proof. unfold append_name, get_or_create_name, update_stream. destruct v; keeps. Qed.
Lemma add_language_quiet sid v : quiet contents_change (add_language sid v).
Proof. unfold add_language, get_or_create_name, update_stream. destruct v; keeps. Qed.
#[export] Hint Resolve append_name_quiet add_language_quiet : keeps.

Lemma replace_names_quiet n sid v : quiet contents_change (replace_names n sid v).
Proof.
  unfold replace_names, get_or_create_name, update_stream, python.
  destruct v as [[|c t]|]; [keeps| |keeps]. destruct (json_loads _); keeps.
Qed.
Lemma replace_languages_quiet sid v : quiet contents_change (replace_languages sid v).
Proof. unfold replace_languages, update_stream, python. keeps. Qed.
Lemma correct_episode_link_quiet field v : quiet contents_change (correct_episode_link field v).
Proof.
  unfold correct_episode_link. destruct (split_char _ _) as [|a [|b [|c [|]]]]; keeps.
  destruct (int_of_string b); keeps. all: destruct (match v with Some (String _ _) => _ | _ => _ end); keeps.
Qed.
#[export] Hint Resolve replace_names_quiet replace_languages_quiet correct_episode_link_quiet : keeps.

Lemma correct_field_quiet sid field v : quiet contents_change (correct_field sid field v).
Proof. unfold correct_field, update_stream. keeps. Qed.
Lemma apply_report_quiet sid : quiet contents_change (apply_report sid).
Proof. unfold apply_report, update_stream. keeps. Qed.
#[export] Hint Resolve relink_media_quiet add_media_link_quiet correct_field_quiet apply_report_quiet : keeps.

(** Code that changes the contents and then the row of the author by [f]. *)
Definition decides {A} (st : ContributionSettings) (uid : Z) (author : option User) (f : User -> User) (m : tx db A) : Prop :=
  forall w, settings_row (working w) = Some st -> users (working w) !! uid = author ->
    committed (m w).2 = committed w /\
    (is_ret (m w).1 = true -> contents_change (set_users (alter f uid (users (working w))) (working w)) (working (m w).2)).

Lemma decides_settles {A} st uid author f m (a : A) :
  settles st uid author f m -> decides st uid author f (m ≫= fun _ => mret a).
Proof. intros Hm w Hw Hu. unfold mbind, M_bind. by rewrite (Hm w Hw Hu). Qed.

Lemma settles_decides st uid author f m : settles st uid author f m -> decides st uid author f m.
Proof. intros Hm w Hw Hu. by rewrite (Hm w Hw Hu). Qed.

Lemma decides_after {A B} st uid author f (m : tx db A) (k : A -> tx db B) :
  quiet contents_change m -> (forall a, decides st uid author f (k a)) -> decides st uid author f (m ≫= k).
Proof.
  intros Hm Hk w Hw Hu. destruct (Hm w) as [Hc Hco]. unfold mbind, M_bind.
  destruct (m w) as [[a|e] w1]; cbn in Hc, Hco; [|done]. pose proof Hc as (E1 & E2 & E3 & E4).
  destruct (Hk a w1) as [Hco2 Hf]; [by rewrite E1|by rewrite E2|]. split; [by rewrite Hco2|].
  intros Hr. etransitivity; [|exact (Hf Hr)].
  split; [done|]. split; [cbn; by rewrite E2|]. split; [|done]. intros k'.
  assert (Hs : forall us d, suggestions k' (set_users us d) = suggestions k' d) by by destruct k'. by rewrite !Hs, E3.
Qed.

Lemma reward_stream_settles st uid author : settles st uid author (reward KStream st) (reward_stream st uid author).
Proof.
  destruct author as [u|]; [|by apply settles_same]. intros w Hw _.
  unfold reward_stream. by rewrite (award_points_run _ _ _ _ _ Hw).
Qed.

Lemma penalise_stream_settles st uid author : settles st uid author (penalty KStream st) (penalise_stream st uid author).
Proof.
  destruct author as [u|]; [|by apply settles_same]. unfold penalise_stream, penalty.
  destruct (_ <? 0); [|by apply settles_same]. done.
Qed.

Definition deciding_stream (id : string) (s : StreamSuggestion) (stream : option StreamRow) (author : option User) (uid : Z)
    (st : ContributionSettings) (d : db) : Prop :=
  stream_suggestions d !! id = Some s /\ is_pending (base s) = true /\ streams (library d) !! sg_target (base s) = stream /\
  users d !! sg_user (base s) = author /\ knows uid st d.

(** Reading the stream and the author of a suggestion. *)
Lemma deciding_stream_read {A} id s uid st (P : db -> Prop) (k : option StreamRow -> option User -> tx db A) Q :
  (forall d, P d -> stream_suggestions d !! id = Some s /\ is_pending (base s) = true /\ knows uid st d) ->
  (forall stream author, eff (deciding_stream id s stream author uid st) community_steps (k stream author) Q) ->
  eff P community_steps
    (stream ← query (fun d => streams (library d) !! sg_target (base s));
     author ← query (fun d => users d !! sg_user (base s)); k stream author) Q.
Proof.
  intros HP Hk. eapply eff_bind; [apply eff_query|]. intros stream. cbv beta.
  eapply eff_bind; [apply eff_query|]. intros author. cbv beta.
  eapply eff_pre; [apply Hk|]. intros d (Ha & Hs & Hd). destruct (HP d Hd) as (H1 & H2 & H3). by split_and!.
Qed.

(** Saving the decision, applying it and settling with the author. *)
Lemma decide_stream {A} st act uid now notes id s stream author f (m : tx db A) :
  decides st (sg_user (base s)) author f m ->
  (forall d, streams (library d) !! sg_target (base s) = stream -> settlement KStream st d (base s) act f) ->
  eff (deciding_stream id s stream author uid st) community_steps
    (save_stream_suggestion id (review_row act uid now notes s) ≫= fun _ => m) (fun _ => knows uid st).
Proof.
  intros Hm Hf w (Hid & Hp & Hstr & Hu & Hr & Hst). unfold save_stream_suggestion, update, mbind, M_bind.
  set (w1 := mkSession _ _ _). destruct (Hm w1 Hst Hu) as [Hco Hc].
  destruct (m w1) as [[a|e] w2]; cbn [snd] in Hco; [|by left]. specialize (Hc eq_refl). cbn [snd] in Hc.
  set (d1 := set_users _ _) in Hc. pose proof Hc as (E1 & E2 & E3 & E4).
  assert (Hk : knows uid st (working w2)).
  { apply (knows_contents _ _ d1); [|done]. split; [|done]. eapply (with_role_alter MODERATOR uid (working w1) f); [|done|done].
    intros u. eapply settlement_keeps_role, Hf, Hstr. }
  split; [|done]. split; [|by left]. transitivity d1; [|by apply contents_steps].
  apply rtc_once. apply (step_decide KStream _ _ id (base s) (reviewed act uid now notes (base s)) st act uid f);
    [|done|done|done|by apply Hf|by eexists _, _| |done|].
  - cbn. by rewrite lookup_fmap, Hid.
  - split; [done|]. split; [done|]. by intros [].
  - cbn. by rewrite fmap_insert.
Qed.

(** Inserting the row of a suggestion that was applied or waits. *)
Lemma record_stream_suggestion u st uid sid field cur sug why now new_id triage applied :
  eff (fun d => users d !! uid = Some u /\ settings_row d = Some st /\ (applied = true -> trusted uid d)) community_steps
    ((if applied : bool then award_points uid (points_per_stream_edit st) STREAM_EDIT else mret tt) ≫= fun _ =>
     insert_stream_suggestion (mkStreamSuggestion (new_suggestion new_id uid sid field cur sug why now applied) triage None))
    (fun _ _ => True).
Proof.
  intros w (Hu & Hst & Ht). unfold mbind, M_bind.
  set (s := new_suggestion new_id uid sid field cur sug why now applied).
  assert (Hrest : forall us x, same_rest KStream (working w) (set_stream_suggestions x (set_users us (working w)))).
  { intros us x. split; [done|]. split; [done|]. by intros []. }
  assert (Hnone : stream_suggestions (working w) !! new_id = None -> suggestions KStream (working w) !! sg_id s = None).
  { intros E. cbn. by rewrite lookup_fmap, E. }
  destruct applied.
  - rewrite (award_points_run _ _ _ _ st Hst). unfold insert_stream_suggestion, find_stream_suggestion, mbind, M_bind, query. cbn.
    destruct (stream_suggestions (working w) !! new_id) eqn:E; [by left|].
    split; [|done]. split; [|by left]. apply rtc_once. cbn.
    eapply (step_auto_approve KStream _ _ s st); [by apply Hnone|done|done|done|by apply Ht|apply Hrest|done|].
    cbn. by rewrite fmap_insert.
  - unfold insert_stream_suggestion, find_stream_suggestion, mret, M_ret, mbind, M_bind, query. cbn.
    destruct (stream_suggestions (working w) !! new_id) eqn:E; [by left|].
    split; [|done]. split; [|by left]. apply rtc_once. cbn.
    eapply (step_submit KStream _ _ s st); [by apply Hnone|done|done|done|done|split; [done|split; [done|by intros []]]|done|].
    cbn. by rewrite fmap_insert.
Qed.

Section Steps.
Context (fetch_media : string -> string -> option string -> tx db (option Z)).
Context (other_attribute : StreamRow -> string -> outcome error (option string)).
(** Creating a media changes nothing but the catalogue, and does not commit
    (db/database.py: CRUD helpers do not commit on their own). *)
Hypothesis fetch_media_quiet : forall ext ty title, quiet contents_change (fetch_media ext ty title).

Lemma apply_stream_changes_quiet stream ty field v t : quiet contents_change (apply_stream_changes fetch_media stream ty field v t).
Proof.
  unfold apply_stream_changes, apply_change, link_stream_to, resolve_target_media_id, resolve_external, media_exists.
  pose proof fetch_media_quiet. keeps.
  all: destruct (int_of_string _); keeps.
Qed.

Lemma apply_suggestion_quiet stream s : quiet contents_change (apply_suggestion fetch_media stream s).
Proof. unfold apply_suggestion. destruct (split_type _). pose proof apply_stream_changes_quiet. keeps. Qed.

Lemma build_response_eff (P : db -> Prop) s r : eff P community_steps (build_suggestion_response s r) (fun _ _ => True).
Proof. apply eff_read. Qed.

Lemma review_stream_suggestion_steps now id act notes uid :
  eff (fun _ => True) community_steps (review_stream_suggestion fetch_media now id act notes uid) (fun _ _ => True).
Proof.
  unfold review_stream_suggestion. eapply eff_bind; [apply require_role_gate|]. intros u. cbv beta.
  apply eff_case_bool; intros _; [apply eff_throw|].
  eapply eff_bind; [apply settings_known|]. intros st. cbv beta.
  eapply eff_bind; [apply eff_query|]. intros found. cbv beta.
  apply eff_case_option; [intros s ->|intros _; apply eff_throw].
  apply eff_case_bool; intros Hp; [apply eff_throw|].
  apply (deciding_stream_read id s uid st);
    [intros d [E Hd]; split; [done|]; split; [by apply negb_false_iff|done]|intros stream author].
  apply eff_assoc. eapply eff_bind.
  - destruct act; (eapply decide_stream; [|intros d _; constructor]); [|apply settles_decides, penalise_stream_settles].
    apply decides_after; [pose proof apply_suggestion_quiet; keeps|]. intros _. apply settles_decides, reward_stream_settles.
  - intros []. eapply eff_bind; [apply eff_commit|]. intros []. apply build_response_eff.
Qed.

Lemma bulk_one_stream_steps st now act notes uid id :
  eff (knows uid st) community_steps (bulk_review_one_stream fetch_media st now act notes uid id) (fun _ => knows uid st).
Proof.
  unfold bulk_review_one_stream. eapply eff_bind; [apply eff_query|]. intros found. cbv beta.
  apply eff_case_option; [intros s ->|intros _; by apply eff_return; intros d [_ H]].
  apply eff_case_bool; intros Hp; [by apply eff_return; intros d [_ H]|].
  apply (deciding_stream_read id s uid st);
    [intros d [E Hd]; split; [done|]; split; [by apply negb_false_iff|done]|intros stream author].
  destruct act; [destruct stream as [stream|]|].
  - eapply decide_stream; [|intros d _; constructor]. apply decides_after; [apply apply_suggestion_quiet|]. intros _.
    apply decides_settles, reward_stream_settles.
  - eapply decide_stream; [apply decides_settles, penalise_stream_settles|]. intros d Hd. by apply settle_gone.
  - eapply decide_stream; [by destruct stream; apply decides_settles, penalise_stream_settles|]. intros d _. constructor.
Qed.

Lemma bulk_review_stream_suggestions_steps now ids act notes uid :
  eff (fun _ => True) community_steps (bulk_review_stream_suggestions fetch_media now ids act notes uid) (fun _ _ => True).
Proof.
  unfold bulk_review_stream_suggestions. eapply eff_bind; [apply require_role_gate|]. intros u. cbv beta.
  eapply eff_bind; [apply settings_known|]. intros st. cbv beta.
  eapply eff_bind; [apply bulk_loop_steps; intros id; apply bulk_one_stream_steps|]. intros r. cbv beta.
  eapply eff_bind; [apply eff_commit|]. intros []. by apply eff_return.
Qed.

(** A user whose row and the settings are known. *)
Definition known_user (u : User) (uid : Z) (st : ContributionSettings) (d : db) : Prop :=
  users d !! uid = Some u /\ is_active u = true /\ settings_row d = Some st.

Lemma known_user_contents u uid st d d' : known_user u uid st d -> contents_change d d' -> known_user u uid st d'.
Proof. intros (H1 & H2 & H3) (E1 & E2 & _). unfold known_user. by rewrite E1, E2. Qed.

Lemma create_stream_suggestion_steps new_id now sid request uid :
  eff (fun _ => True) community_steps (create_stream_suggestion fetch_media other_attribute new_id now sid request uid)
    (fun _ _ => True).
Proof.
  unfold create_stream_suggestion. eapply eff_bind; [apply (require_auth_user uid (fun _ => True))|]. intros u. cbv beta.
  apply eff_case_bool; intros _; [apply eff_throw|].
  eapply eff_bind; [apply get_settings_eff; by intros d x H|]. intros st. cbv beta.
  apply eff_case_option; [intros detail _; apply eff_throw|intros _].
  apply (eff_pre (known_user u uid st)); [|by intros d ((_ & H1 & H2) & H3)].
  eapply eff_bind; [apply eff_look|]. intros stream. cbv beta.
  apply eff_case_option; [intros s ->|intros _; apply eff_throw].
  eapply eff_bind; [apply eff_look|]. intros [|x l]; cbv beta iota; [|apply eff_throw].
  apply eff_case_bool; intros _; [apply eff_throw|].
  eapply eff_bind; [by apply (should_auto_approve_eff u uid st)|]. intros can. cbv beta.
  eapply eff_bind; [apply eff_lift|]. intros cur. cbv beta.
  eapply eff_bind with (Q := fun applied d => known_user u uid st d /\ (applied = true -> trusted uid d)).
  { apply eff_case_bool; intros ->; [|apply eff_return; by intros d (_ & H & _)].
    set (P0 := fun d => known_user u uid st d /\ trusted uid d).
    eapply (eff_conseq _ P0 _ _ (fun _ => P0)); [eapply eff_frame; [apply quiet_keeps, apply_stream_changes_quiet|apply contents_steps|]|..].
    - intros d d' [H1 H2] Hd. split; [by eapply known_user_contents|by eapply trusted_contents].
    - intros d (_ & H1 & H2). split; [done|by apply H2].
    - by intros b d [H1 H2]. }
  intros applied. cbv beta. apply eff_assoc. eapply eff_bind.
  - eapply eff_pre; [apply (record_stream_suggestion u)|]. by intros d [(H1 & _ & H2) H3].
  - intros []. eapply eff_bind; [apply eff_commit|]. intros [].
    eapply eff_bind; [apply eff_case_bool; intros _; [apply eff_notify|by apply eff_return]|]. intros []. apply build_response_eff.
Qed.
End Steps.

Lemma delete_stream_suggestion_steps id uid :
  eff (fun _ => True) community_steps (delete_stream_suggestion id uid) (fun _ _ => True).
Proof.
  unfold delete_stream_suggestion. eapply eff_bind; [apply require_auth_user|]. intros u. cbv beta.
  eapply eff_bind; [apply eff_query|]. intros found. cbv beta.
  apply eff_case_option; [intros s ->|intros _; apply eff_throw].
  apply eff_case_bool; intros Ho; [apply eff_throw|]. apply eff_case_bool; intros Hp; [apply eff_throw|].
  eapply eff_bind; [apply eff_update|intros []; eapply eff_conseq; [apply (eff_commit (fun _ => True))|done|done]].
  intros d [E _]. apply rtc_once, (step_withdraw KStream _ _ id (base s)).
  - cbn. by rewrite lookup_fmap, <- E.
  - by apply negb_false_iff.
  - split; [done|]. split; [done|]. by intros [].
  - done.
  - cbn. by rewrite fmap_delete.
Qed.

Lemma update_stream_issue_triage_steps now id triage note uid :
  eff (fun _ => True) community_steps (update_stream_issue_triage now id triage note uid) (fun _ _ => True).
Proof.
  unfold update_stream_issue_triage. eapply eff_bind; [apply require_role_gate|]. intros u. cbv beta.
  apply eff_case_bool; intros _; [apply eff_throw|].
  eapply eff_bind; [apply eff_query|]. intros found. cbv beta.
  apply eff_case_option; [intros s ->|intros _; apply eff_throw].
  apply eff_case_bool; intros Ht; [apply eff_throw|].
  eapply eff_bind; [apply eff_update|intros []; eapply eff_bind; [apply eff_commit|intros []; apply build_response_eff]].
  intros d [E Hd]. apply rtc_once, (step_triage _ _ id (base s) now uid).
  - cbn. by rewrite lookup_fmap, <- E.
  - done.
  - split; [done|]. split; [done|]. by intros [].
  - done.
  - cbn. by rewrite fmap_insert.
Qed.

Lemma get_broken_report_status_steps sid uid :
  eff (fun _ => True) community_steps (get_broken_report_status sid uid) (fun _ _ => True).
Proof.
  unfold get_broken_report_status. eapply eff_bind; [apply (require_auth_user uid (fun _ => True))|]. intros u. cbv beta.
  eapply eff_bind; [apply eff_look|]. intros [s|]; cbv beta iota; [|apply eff_throw].
  eapply eff_bind; [apply get_settings_eff; by intros d x H|]. intros st. apply eff_read.
Qed.

(** ** What a review applies *)

Lemma link_data_other ty v : memb ty LINK_TYPES = false -> link_data ty v = Ret no_target.
Proof. intros H. unfold link_data. rewrite H. by destruct v. Qed.

Lemma apply_row fetch stream s ty field t : split_type (sg_field s) = (ty, field) -> link_data ty (suggested_value s) = Ret t ->
  apply_suggestion fetch stream s = apply_stream_changes fetch stream ty field (suggested_value s) t.
Proof. intros E1 E2. unfold apply_suggestion. rewrite E1, E2. reflexivity. Qed.

(** [C27] Reviewing is applying what was asked: for a request that the router
    accepts, the change that a moderator's approval makes from the stored row is
    the change that an immediate approval makes from the request, whatever the
    tables are. *)
Theorem review_applies_the_request fetch stream r new_id uid sid cur now auto :
  valid_stream_request r = true -> request_error r = None -> encodable (payload (rs_target r)) ->
  apply_suggestion fetch stream
    (new_suggestion new_id uid sid (stored_type r) cur (stored_value r) (rs_reason r) now auto) =
  apply_stream_changes fetch stream (rs_type r) (rs_field r) (rs_suggested r) (rs_target r).
Proof.
  intros Hv He Hp.
  unfold valid_stream_request in Hv. apply andb_true_iff in Hv as [[Ht _]%andb_true_iff _]. apply memb_true in Ht.
  unfold stored_type, stored_value, request_error, is_link in *.
  destruct r as [ty field c sug why t]. cbn [rs_type rs_field rs_suggested rs_target] in *.
  assert (Hother : forall ty0, memb ty0 LINK_TYPES = false -> split_type ty0 = (ty0, None) ->
    apply_suggestion fetch stream (new_suggestion new_id uid sid ty0 cur sug why now auto) =
    apply_stream_changes fetch stream ty0 None sug no_target).
  { intros ty0 H1 H2. exact (apply_row _ _ (new_suggestion _ _ _ ty0 _ sug _ _ _) _ _ _ H2 (link_data_other _ _ H1)). }
  assert (Hlink : forall ty0, ty0 ∈ LINK_TYPES -> split_type ty0 = (ty0, None) ->
    apply_suggestion fetch stream (new_suggestion new_id uid sid ty0 cur (Some (json_dumps (payload t))) why now auto) =
    apply_stream_changes fetch stream ty0 None (Some (json_dumps (payload t))) t).
  { intros ty0 H1 H2. exact (apply_row _ _ (new_suggestion _ _ _ ty0 _ (Some _) _ _ _) _ _ _ H2 (link_data_payload t Hp _ H1)). }
  set_unfold in Ht. destruct Ht as [->|[->|[->|[->|[->|[->|[->|[->|[]]]]]]]]].
  - exact (Hother "report_broken" eq_refl eq_refl).
  - destruct field as [[|x f]|]; [done| |done].
    exact (apply_row _ _ (new_suggestion _ _ _ ("field_correction:" +:+ String x f) _ sug _ _ _) "field_correction"
             (Some (String x f)) no_target eq_refl (link_data_other "field_correction" sug eq_refl)).
  - exact (Hother "language_add" eq_refl eq_refl).
  - exact (Hother "language_remove" eq_refl eq_refl).
  - exact (Hother "mark_duplicate" eq_refl eq_refl).
  - refine (Hlink "relink_media" _ eq_refl). by left.
  - refine (Hlink "add_media_link" _ eq_refl). by right; left.
  - exact (Hother "other" eq_refl eq_refl).
Qed.

Lemma review_applies_the_request_witness :
  let t := mkTarget (Some 11) None None None (Some 0) (Some 1) (Some 3) None in
  let r := mkStreamRequest "relink_media" None None None None t in
  apply_suggestion (fun _ _ _ => mret None) (sample_stream 100)
    (new_suggestion "s" 3 100 (stored_type r) None (stored_value r) None 0 false) =
  apply_stream_changes (fun _ _ _ => mret None) (sample_stream 100) "relink_media" None None t.
Proof.
  intros t r. apply (review_applies_the_request _ _ r); [reflexivity|reflexivity|].
  cbn. unfold uniq_keys. split; [|by repeat split; vm_compute]. cbn. repeat constructor; set_solver.
Defined.

(** *** Values that cannot be applied *)

Lemma replace_names_fails n sid text j e s : text <> "" -> json_loads text = Ret j -> iterate j = Raise e ->
  replace_names n sid (Some text) s =
  (Raise (Uncaught e), mkSession (committed s)
     (set_library (with_streams (alter (with_names n []) sid (streams (library (working s)))) (library (working s))) (working s))
     (outbox s)).
Proof. intros Ht Hj He. unfold replace_names. destruct text as [|c text]; [done|]. rewrite Hj. cbn. by rewrite He. Qed.

(** A single number is valid JSON, but no list of names: ["5.1"], one of the
    options of the editor. *)
Example channel_number : json_loads "5.1" = Ret (VFloat (match float_of_string "5.1" with Ret f => f | Raise _ => S754_nan end))
  /\ iterate (VFloat S754_nan) = Raise TypeError.
Proof. vm_compute. by split. Qed.

Section Failures.
Context (fetch : string -> string -> option string -> tx db (option Z)).
Context (d : db) (uid : Z) (moderator : User) (st : ContributionSettings).
Hypothesis moderator_there : users d !! uid = Some moderator.
Hypothesis moderator_active : is_active moderator = true.
Hypothesis moderator_role : has_minimum_role (role moderator) MODERATOR = true.
Hypothesis settings_there : settings_row d = Some st.

Lemma require_moderator_run s : users (working s) !! uid = Some moderator -> require_role MODERATOR uid s = (Ret moderator, s).
Proof.
  intros Hu. unfold require_role, require_auth, mbind, M_bind, query. cbn. rewrite Hu, moderator_active. cbn.
  unfold has_minimum_role in moderator_role. apply Z.leb_le in moderator_role.
  destruct (_ <? _) eqn:E; [|done]. apply Z.ltb_lt in E. revert moderator_role E. clear. destruct (role moderator); cbn; lia.
Qed.

(** [C28] A correction that cannot be applied is approved and rewarded: when a
    moderator approves a correction of the channels whose value is a JSON value
    that cannot be iterated (a number, true, false or null, unlike a list, a
    string or an object), the stream loses the channels it had, the suggestion is
    approved and its author gets the points. *)
Theorem failed_change_is_rewarded id s author stream text j e now notes :
  stream_suggestions d !! id = Some s -> is_pending (base s) = true -> sg_field (base s) = "field_correction:channels" ->
  suggested_value (base s) = Some text -> text <> "" -> json_loads text = Ret j -> iterate j = Raise e ->
  streams (library d) !! sg_target (base s) = Some stream -> stream_id stream = sg_target (base s) ->
  users d !! sg_user (base s) = Some author -> at_most 500 notes = true ->
  let d' := after (review_stream_suggestion fetch now id APPROVE notes uid) d in
  stream_suggestions d' !! id = Some (review_row APPROVE uid now notes s) /\
  users d' !! sg_user (base s) = Some (awarded st (points_per_stream_edit st) STREAM_EDIT author) /\
  streams (library d') !! sg_target (base s) = Some (with_channels [] stream).
Proof.
  intros Hid Hp Hf Hv Ht Hj He Hs Hsid Ha Hn.
  set (row := review_row APPROVE uid now notes s).
  set (d1 := set_stream_suggestions (<[id := row]> (stream_suggestions d)) d).
  set (d2 := set_library (with_streams (alter (with_channels []) (sg_target (base s)) (streams (library d))) (library d)) d1).
  set (d3 := set_users (alter (awarded st (points_per_stream_edit st) STREAM_EDIT) (sg_user (base s)) (users d)) d2).
  assert (E : apply_suggestion fetch stream (base s) (mkSession d d1 []) = (Ret false, mkSession d d2 [])).
  { rewrite (apply_row _ _ _ "field_correction" (Some "channels") no_target) by (by rewrite ?Hf, ?link_data_other).
    unfold apply_stream_changes, catch, apply_change. rewrite Hv. cbn -[replace_names].
    rewrite Hsid. unfold mbind, M_bind. by rewrite (replace_names_fails _ _ _ _ _ _ Ht Hj He). }
  assert (Hafter : after (review_stream_suggestion fetch now id APPROVE notes uid) d = d3).
  { eapply (after_run _ _ _ (mkSession d3 d3 [])). unfold review_stream_suggestion.
    erewrite bind_run by by apply require_moderator_run. rewrite Hn. cbn [negb].
    erewrite bind_run by (unfold get_contribution_settings, mbind, M_bind, query; cbn; by rewrite settings_there).
    erewrite bind_run by (unfold find_stream_suggestion, query; cbn; by rewrite Hid).
    cbv beta iota. rewrite Hp. cbn [negb].
    erewrite bind_run by (unfold query; cbn; by rewrite Hs). erewrite bind_run by (unfold query; cbn; by rewrite Ha).
    cbv beta iota. erewrite bind_run by reflexivity.
    rewrite (bind_run _ _ _ tt (mkSession d d3 [])); [reflexivity|]. erewrite bind_run by exact E.
    by apply (award_points_run _ _ _ (mkSession d d2 [])). }
  cbv zeta. rewrite Hafter. cbn. by rewrite lookup_insert_eq, !lookup_alter_eq, Ha, Hs.
Qed.
End Failures.

Lemma failed_change_is_rewarded_witness :
  let s := mkStreamSuggestion (new_suggestion "s1" 3 100 "field_correction:channels" None (Some "5.1") None 0 false) None None in
  let d := set_stream_suggestions {[ "s1" := s ]} sample_db in
  let d' := after (review_stream_suggestion (fun _ _ _ => mret None) 5 "s1" APPROVE None 2) d in
  stream_suggestions d' !! "s1" = Some (review_row APPROVE 2 5 None s) /\
  users d' !! 3 = Some (awarded default_settings 3 STREAM_EDIT (mkUser 3 (Some "ann") USER true 0 0 0 "new")) /\
  streams (library d') !! 100 = Some (with_channels [] (sample_stream 100)).
Proof.
  intros s d d'.
  apply (failed_change_is_rewarded (fun _ _ _ => mret None) d 2 (mkUser 2 (Some "mod") MODERATOR true 0 0 0 "new") default_settings
           eq_refl eq_refl eq_refl eq_refl "s1" s _ _ "5.1"
           (VFloat (match float_of_string "5.1" with Ret f => f | Raise _ => S754_nan end)) TypeError);
    try reflexivity. done.
Defined.

(** *** Values that can *)

Lemma append_names_run n sid (l : list string) : forall s st pre,
  (forall x y r, names n (with_names n x r) = x /\ with_names n x (with_names n y r) = with_names n x r) ->
  streams (library (working s)) !! sid = Some (with_names n pre st) -> NoDup (pre ++ l) ->
  exists s', for_loop (append_name n sid) (map VStr l) s = (Ret tt, s') /\
    streams (library (working s')) !! sid = Some (with_names n (pre ++ l)%list st) /\ committed s' = committed s.
Proof.
  induction l as [|x l IH]; intros s st pre Hn Hs Hd.
  - exists s. by rewrite app_nil_r.
  - assert (Hx : memb x pre = false).
    { apply memb_false. apply NoDup_app in Hd as (_ & Hd & _). intros Hx. apply (Hd x Hx). by left. }
    cbn [map for_loop append_name]. unfold get_or_create_name, update_stream, update_library, update, mbind, M_bind.
    set (s1 := mkSession _ _ (outbox (mkSession _ _ _))).
    destruct (IH s1 st (pre ++ [x])%list Hn) as (s' & E & H1 & H2).
    + cbn. assert (Hk : forall b : bool, streams (if b then library (working s) else
        with_library_names (library_names (library (working s)) ++ [(field_table n, x)])%list (library (working s))) !! sid
        = Some (with_names n pre st)) by (by intros []). rewrite lookup_alter_eq, Hk. cbn.
      destruct (Hn pre pre st) as [En _]. rewrite En, Hx. by destruct (Hn (pre ++ [x])%list pre st) as [_ ->].
    + by rewrite <- app_assoc.
    + exists s'. rewrite <- app_assoc in H1. by rewrite E.
Qed.

Lemma encodable_names l : encodable (VList (map VStr l)).
Proof. cbn. induction l as [|x l IH]; [done|]. by cbn. Qed.

(** Correcting the formats or channels of a stream with a list of
    different names, spelled as the editor spells them, gives the stream exactly
    these names in this order. *)
Theorem names_correction_exact n sid (l : list string) st s :
  n ∈ [audio_field; channel_field; hdr_field] -> NoDup l -> streams (library (working s)) !! sid = Some st ->
  exists s', replace_names n sid (Some (json_names l)) s = (Ret tt, s') /\
    streams (library (working s')) !! sid = Some (with_names n l st) /\ committed s' = committed s.
Proof.
  intros Hn Hl Hs.
  assert (Hlaws : forall x y r, names n (with_names n x r) = x /\ with_names n x (with_names n y r) = with_names n x r).
  { set_unfold in Hn. by destruct Hn as [->|[->|[->|[]]]]. }
  unfold replace_names. destruct (json_names l) as [|c t] eqn:E; [done|]. rewrite <- E. unfold json_names.
  rewrite (loads_dumps _ (encodable_names l)). unfold mbind at 1, M_bind.
  destruct (append_names_run n sid l (update_stream (with_names n []) sid s).2 st [] Hlaws) as (s' & E' & H1 & H2).
  - cbn. by rewrite lookup_alter_eq, Hs.
  - done.
  - exists s'. by rewrite <- E'.
Qed.

Lemma names_correction_exact_witness :
  let s := mkSession sample_db sample_db [] in
  exists s', replace_names channel_field 100 (Some (json_names ["7.1"; "2.0"])) s = (Ret tt, s') /\
    streams (library (working s')) !! 100 = Some (with_channels ["7.1"; "2.0"] (sample_stream 100)) /\ committed s' = sample_db.
Proof.
  intros s. apply (names_correction_exact channel_field 100 ["7.1"; "2.0"] (sample_stream 100) s).
  - by right; left.
  - repeat constructor; set_solver.
  - reflexivity.
Defined.
