(* ===== verification/Votes.v ===== *)
(** * Votes, ratings and likes (api/routers/content/voting.py,
    db/crud/contributions.py, db/crud/stream_community.py)

    A user votes a stream up or down, once for each stream, and likes or rates
    a media.  [vote_db] adds the two tables of votes to those of the community.
    A table is a map from its primary key; rows that a query selects come in no
    particular order.  The identifier of a new row ([uuid4]) is an argument. *)

From S2P Require Export StreamSuggestions PyFloat.
Local Open Scope string_scope.
Local Open Scope Z_scope.

(** ** Rows (db/models/contributions.py) *)

Record StreamVote := mkStreamVote {
  sv_id : string; sv_user : Z; sv_stream : Z; vote_type : string; quality_status : option string;
  comment : option string; sv_created_at : Z; sv_updated_at : option Z }.

(** [vote_type] is "like" unless somebody sets it. *)
Record MetadataVote := mkMetadataVote {
  mv_id : string; mv_user : Z; mv_media : Z; mv_type : string; mv_vote : option Z; mv_created_at : Z }.

Record vote_db := mkVoteDb {
  community : db; stream_votes : gmap string StreamVote; metadata_votes : gmap string MetadataVote }.

Definition set_stream_votes (v : gmap string StreamVote) (d : vote_db) : vote_db := mkVoteDb (community d) v (metadata_votes d).
Definition set_metadata_votes (v : gmap string MetadataVote) (d : vote_db) : vote_db := mkVoteDb (community d) (stream_votes d) v.
Definition set_community (c : db) (d : vote_db) : vote_db := mkVoteDb c (stream_votes d) (metadata_votes d).

Notation vtx := (tx vote_db).

(** The user of the token: required, or not. *)
Definition signed_in (uid : Z) : vtx User := d ← query community; lift (answer (require_auth uid) d).
Definition optional_auth (uid : option Z) : vtx (option Z) :=
  d ← query community;
  mret (uid ≫= fun u => match answer (require_auth u) d with Ret _ => Some u | Raise _ => None end).

(** ** Votes on streams (db/crud/contributions.py) *)

Definition vote_of (uid sid : Z) (v : StreamVote) : bool := (sv_user v =? uid) && (sv_stream v =? sid).

(** [result.first()] *)
Definition get_user_stream_vote (uid sid : Z) (d : vote_db) : option StreamVote := List.hd_error (select (vote_of uid sid) (stream_votes d)).

Definition int_vote_to_type (vote : Z) : string := if 0 <? vote then "up" else "down".
Definition vote_type_to_int (t : option string) : option Z :=
  match t with Some "up" => Some 1 | Some "down" => Some (-1) | _ => None end.

(** INSERT under the primary key and the unique user and stream. *)
Definition add_stream_vote (v : StreamVote) : vtx unit :=
  taken ← query (fun d => bool_decide (is_Some (stream_votes d !! sv_id v)) ||
                          bool_decide (is_Some (get_user_stream_vote (sv_user v) (sv_stream v) d)));
  if taken : bool then throw IntegrityError
  else update (fun d => set_stream_votes (<[sv_id v := v]> (stream_votes d)) d).

Definition vote_on_stream (uid sid vote : Z) (cmt quality : option string) (new_id : string) (now : Z) : vtx StreamVote :=
  let ty := int_vote_to_type vote in
  existing ← query (get_user_stream_vote uid sid);
  match existing with
  | Some e =>
      let new_comment := (if cmt is Some _ then cmt else comment e) in
      let new_quality := (if quality is Some _ then quality else quality_status e) in
      if negb (String.eqb (vote_type e) ty) || bool_decide (new_comment <> comment e) || bool_decide (new_quality <> quality_status e)
      then
        let e' := mkStreamVote (sv_id e) (sv_user e) (sv_stream e) ty new_quality new_comment (sv_created_at e) (Some now) in
        _ ← update (fun d => set_stream_votes (<[sv_id e := e']> (stream_votes d)) d);
        mret e'
      else mret e
  | None =>
      let v := mkStreamVote new_id uid sid ty quality cmt now None in
      _ ← add_stream_vote v;
      mret v
  end.

Definition remove_stream_vote (uid sid : Z) : vtx bool :=
  existing ← query (get_user_stream_vote uid sid);
  match existing with
  | None => mret false
  | Some e => _ ← update (fun d => set_stream_votes (delete (sv_id e) (stream_votes d)) d); mret true
  end.

Definition votes_typed (sid : Z) (ty : string) (v : StreamVote) : bool := (sv_stream v =? sid) && String.eqb (vote_type v) ty.
Record VoteCount := mkVoteCount { upvotes : Z; downvotes : Z; score : Z }.
Definition get_stream_vote_count (sid : Z) (d : vote_db) : VoteCount :=
  let up := Z.of_nat (length (select (votes_typed sid "up") (stream_votes d))) in
  let down := Z.of_nat (length (select (votes_typed sid "down") (stream_votes d))) in
  mkVoteCount up down (up - down).

(** ** Routes of stream votes (api/routers/content/voting.py) *)

Record StreamVoteRequest := mkVoteRequest {
  rq_vote : option Z; rq_vote_type : option string; rq_quality_status : option string; rq_comment : option string }.

(** The fields' bounds and [require_vote_or_type]. *)
Definition short (n : Z) (s : option string) : bool := match s with Some s => slen s <=? n | None => true end.
Definition valid_vote (r : StreamVoteRequest) : bool :=
  Community.between (-1) 1 (rq_vote r)
  && match rq_vote_type r with Some t => memb t ["up"; "down"] | None => true end
  && short 64 (rq_quality_status r) && short 500 (rq_comment r)
  && (bool_decide (is_Some (rq_vote r)) || bool_decide (is_Some (rq_vote_type r))).

Definition resolved_vote_int (r : StreamVoteRequest) : Z :=
  match rq_vote r with
  | Some v => v
  | None => if bool_decide (rq_vote_type r = Some "up") then 1 else -1
  end.

Record StreamVoteResponse := mkVoteResponse {
  rs_id : string; rs_stream : Z; rs_user : Z; rs_vote : Z; rs_vote_type : string; rs_quality : option string;
  rs_comment : option string; voted_at : Z }.

Definition vote_stream (uid sid : Z) (r : StreamVoteRequest) (new_id : string) (now : Z) : vtx StreamVoteResponse :=
  _ ← signed_in uid;
  if negb (valid_vote r) then http 422 "Validation error"
  else
    stream ← query (fun d => streams (library (community d)) !! sid);
    match stream with
    | None => http 404 "Stream not found"
    | Some _ =>
        let vi := resolved_vote_int r in
        row ← vote_on_stream uid sid vi (rq_comment r) (rq_quality_status r) new_id now;
        _ ← commit;
        mret (mkVoteResponse (sv_id row) (sv_stream row) (sv_user row) vi (int_vote_to_type vi) (quality_status row)
                (comment row) (default (sv_created_at row) (sv_updated_at row)))
    end.

Definition delete_stream_vote (uid sid : Z) : vtx unit :=
  _ ← signed_in uid;
  success ← remove_stream_vote uid sid;
  if success : bool then commit else http 404 "Vote not found".

Record StreamVoteSummary := mkVoteSummary {
  sm_stream : Z; sm_upvotes : Z; sm_downvotes : Z; sm_score : Z; score_percent : Z; sm_user_vote : option Z;
  sm_quality : option string; sm_comment : option string }.

(** [int(round(100 * up / total))].  The quotient is a double; with fewer than
    2^44 votes it is rounded as the exact quotient is. *)
Definition percent (up total : Z) : Z := if total =? 0 then 0 else round_half_even (100 * up) total.

Definition vote_summary (user : option Z) (sid : Z) (d : vote_db) : StreamVoteSummary :=
  let c := get_stream_vote_count sid d in
  let mine := user ≫= fun u => get_user_stream_vote u sid d in
  mkVoteSummary sid (upvotes c) (downvotes c) (score c) (percent (upvotes c) (upvotes c + downvotes c))
    (mine ≫= fun v => vote_type_to_int (Some (vote_type v))) (mine ≫= quality_status) (mine ≫= comment).

Definition get_stream_votes (user : option Z) (sid : Z) : vtx StreamVoteSummary :=
  user ← optional_auth user;
  query (vote_summary user sid).

Definition get_bulk_stream_votes (user : option Z) (ids : list Z) : vtx (gmap Z StreamVoteSummary) :=
  user ← optional_auth user;
  if 50 <? Z.of_nat (length ids) then http 400 "Maximum 50 streams per request"
  else query (fun d => foldl (fun m sid => <[sid := vote_summary user sid d]> m) ∅ ids).

(** ** Signals of a stream (db/crud/stream_community.py, stream_suggestions.py) *)

Record signals := mkSignals {
  issue_reports : Z; rating_up : Z; rating_down : Z; rating_score : Z; rating_total : Z }.
Definition empty_stream_signals_dict : signals := mkSignals 0 0 0 0 0.

(** [select(key, count(id)).group_by(key)] *)
Definition group_by {A K} `{EqDecision K} (key : A -> K) (l : list A) : list (K * Z) :=
  map (fun k => (k, Z.of_nat (length (List.filter (fun x => bool_decide (key x = k)) l)))) (uniq (map key l)).

(** The three loops over the rows of the two queries and over the result. *)
Definition count_issues (out : gmap Z signals) (row : Z * Z) : gmap Z signals :=
  alter (fun s => mkSignals row.2 (rating_up s) (rating_down s) (rating_score s) (rating_total s)) row.1 out.
Definition count_votes (out : gmap Z signals) (row : (Z * string) * Z) : gmap Z signals :=
  alter (fun s => if String.eqb row.1.2 "up" then mkSignals (issue_reports s) row.2 (rating_down s) (rating_score s) (rating_total s)
                  else if String.eqb row.1.2 "down" then mkSignals (issue_reports s) (rating_up s) row.2 (rating_score s) (rating_total s)
                  else s) row.1.1 out.
Definition sum_up (s : signals) : signals :=
  mkSignals (issue_reports s) (rating_up s) (rating_down s) (rating_up s - rating_down s) (rating_up s + rating_down s).

(** A report that is neither rejected nor dismissed. *)
Definition shown_issue (s : StreamSuggestion) : bool := visible_issue (sg_target (base s)) s.

Definition fetch_stream_community_signals_batch (stream_ids : list Z) (d : vote_db) : gmap Z signals :=
  let ids := uniq (List.filter (fun s => negb (s =? 0)) stream_ids) in
  let out := list_to_map (map (fun sid => (sid, empty_stream_signals_dict)) ids) in
  let issues := select (fun s => memb (sg_target (base s)) ids && shown_issue s) (stream_suggestions (community d)) in
  let out := foldl count_issues out (group_by (fun s => sg_target (base s)) issues) in
  let votes := select (fun v => memb (sv_stream v) ids) (stream_votes d) in
  let out := foldl count_votes out (group_by (fun v => (sv_stream v, vote_type v)) votes) in
  sum_up <$> out.

(** The UTF-8 bytes of an ellipsis. *)
Definition ellipsis : string := String "226" (String "128" (String "166" "")).
Definition shown_reason (max_len : Z) (r : string) : string :=
  let text := String.concat " " (split_ws r) in
  if max_len <? slen text then str_take (Z.to_nat (max_len - 1)) text +:+ ellipsis else text.

(** The five newest; which come first of those created at the same instant is
    the database's choice. *)
Definition fetch_recent_issue_reasons_for_stream (sid : Z) (d : vote_db) : list string :=
  let rows := select (fun s => visible_issue sid s && match reason (base s) with Some "" | None => false | Some _ => true end)
                (stream_suggestions (community d)) in
  let rows := take 5 (sort_by (by_key_desc (fun s => created_at (base s))) rows) in
  map (shown_reason 200) (omap (fun s => reason (base s)) rows).

Definition issue_of (uid sid : Z) (s : StreamSuggestion) : bool :=
  (sg_target (base s) =? sid) && (sg_user (base s) =? uid) && memb (sg_field (base s)) ISSUE_SUGGESTION_TYPES.
Definition some_row {A} (l : list A) : bool := match l with [] => false | _ => true end.

Record StreamSignalsResponse := mkSignalsResponse {
  sg_blocked : bool; sg_signals : signals; sg_auto_block : bool; sg_threshold : Z;
  user_has_issue_report : option bool; user_has_report_broken : option bool; sg_user_vote : option Z;
  recent_reasons : list string; legacy_approved_broken_reporters : Z; reports_needed_for_auto_block : Z }.

(** [get_contribution_settings], before anything else is changed. *)
Definition vote_settings : vtx ContributionSettings :=
  row ← query (fun d => settings_row (community d));
  match row with
  | Some settings => mret settings
  | None =>
      _ ← update (fun d => set_community (set_settings (Some default_settings) (community d)) d);
      _ ← commit;
      mret default_settings
  end.

Definition get_stream_signals (user : option Z) (sid : Z) : vtx StreamSignalsResponse :=
  user ← optional_auth user;
  stream ← query (fun d => streams (library (community d)) !! sid);
  match stream with
  | None => http 404 "Stream not found"
  | Some stream =>
      settings ← vote_settings;
      query (fun d =>
        let sig := default empty_stream_signals_dict (fetch_stream_community_signals_batch [sid] d !! sid) in
        let legacy := Z.of_nat (length (broken_reporters sid (community d))) in
        let reported p := u ← user; Some (some_row (select (fun s => issue_of u sid s && p s) (stream_suggestions (community d)))) in
        mkSignalsResponse (is_blocked stream) sig (auto_block_on_broken_reports settings) (broken_report_threshold settings)
          (reported (fun _ => true)) (reported (fun s => String.eqb (sg_field (base s)) "report_broken"))
          (user ≫= fun u => get_user_stream_vote u sid d ≫= fun v => vote_type_to_int (Some (vote_type v)))
          (fetch_recent_issue_reasons_for_stream sid d) legacy
          (if auto_block_on_broken_reports settings && negb (is_blocked stream)
           then Z.max 0 (broken_report_threshold settings - legacy) else 0))
  end.

Record StreamSignalsSummary := mkSignalsSummary { su_signals : signals; su_user_vote : option Z; su_reported : option bool }.

Definition post_bulk_stream_signals (user : option Z) (ids : list Z) : vtx (gmap Z StreamSignalsSummary) :=
  user ← optional_auth user;
  if 50 <? Z.of_nat (length ids) then http 400 "Maximum 50 streams per request"
  else
    query (fun d =>
      let sigs := fetch_stream_community_signals_batch ids d in
      let vote_by_stream (u : Z) :=
        foldl (fun m v => match vote_type_to_int (Some (vote_type v)) with Some i => <[sv_stream v := i]> m | None => m end)
          (∅ : gmap Z Z) (select (fun v => (sv_user v =? u) && memb (sv_stream v) ids) (stream_votes d)) in
      let reported (u : Z) := map (fun s => sg_target (base s))
        (select (fun s => (sg_user (base s) =? u) && memb (sg_target (base s)) ids && memb (sg_field (base s)) ISSUE_SUGGESTION_TYPES)
           (stream_suggestions (community d))) in
      foldl (fun m sid => <[sid := mkSignalsSummary (default empty_stream_signals_dict (sigs !! sid))
                                     (user ≫= fun u => vote_by_stream u !! sid) ((fun u => memb sid (reported u)) <$> user)]> m)
        ∅ ids).

(** ** Ratings and likes *)

Definition mvote_of (uid mid : Z) (v : MetadataVote) : bool := (mv_user v =? uid) && (mv_media v =? mid).
Definition get_metadata_vote (uid mid : Z) (d : vote_db) : option MetadataVote := List.hd_error (select (mvote_of uid mid) (metadata_votes d)).

Definition add_metadata_vote (v : MetadataVote) : vtx unit :=
  taken ← query (fun d => bool_decide (is_Some (metadata_votes d !! mv_id v)) ||
                          bool_decide (is_Some (get_metadata_vote (mv_user v) (mv_media v) d)));
  if taken : bool then throw IntegrityError
  else update (fun d => set_metadata_votes (<[mv_id v := v]> (metadata_votes d)) d).

(** The table has no column [voted_at]: SQLAlchemy refuses to compile the UPDATE. *)
Definition vote_on_metadata (uid mid vote : Z) (new_id : string) (now : Z) : vtx MetadataVote :=
  existing ← query (get_metadata_vote uid mid);
  match existing with
  | Some _ => throw (Uncaught AttributeError)
  | None =>
      let v := mkMetadataVote new_id uid mid "like" (Some vote) now in
      _ ← add_metadata_vote v;
      mret v
  end.

(** The answer needs [vote.voted_at], which no row has. *)
Definition rate_content (uid mid : Z) (rating : float) (new_id : string) (now : Z) : vtx unit :=
  _ ← signed_in uid;
  if negb (f_leb (f_round 1) rating && f_leb rating (f_round 10)) then http 422 "Validation error"
  else
    media ← query (fun d => medias (catalogue (community d)) !! mid);
    match media with
    | None => http 404 "Content not found"
    | Some _ =>
        match trunc rating with
        | Raise e => throw (Uncaught e)
        | Ret r =>
            _ ← vote_on_metadata uid mid r new_id now;
            _ ← commit;
            throw (Uncaught AttributeError)
        end
    end.

(** [get_mediafusion_rating] gives a row or [None], and neither can be
    subscripted. *)
Definition get_content_ratings (uid mid : Z) : vtx unit :=
  _ ← signed_in uid;
  throw (Uncaught TypeError).
Definition get_bulk_content_ratings (uid : Z) (ids : list Z) : vtx unit :=
  _ ← signed_in uid;
  if 100 <? Z.of_nat (length ids) then http 400 "Maximum 100 items per request"
  else match ids with [] => mret tt | _ => throw (Uncaught TypeError) end.

(** The identifier and the time of the like. *)
Definition like_content (uid mid : Z) (new_id : string) (now : Z) : vtx (string * Z) :=
  _ ← signed_in uid;
  media ← query (fun d => medias (catalogue (community d)) !! mid);
  match media with
  | None => http 404 "Content not found"
  | Some _ =>
      existing ← query (get_metadata_vote uid mid);
      match existing with
      | Some e => mret (mv_id e, mv_created_at e)
      | None =>
          _ ← add_metadata_vote (mkMetadataVote new_id uid mid "like" None now);
          _ ← commit;
          mret (new_id, now)
      end
  end.

Definition unlike_content (uid mid : Z) : vtx unit :=
  _ ← signed_in uid;
  like ← query (get_metadata_vote uid mid);
  match like with
  | None => http 404 "Like not found"
  | Some e => _ ← update (fun d => set_metadata_votes (delete (mv_id e) (metadata_votes d)) d); commit
  end.

(** The number of likes, and whether the user likes the media. *)
Definition get_content_likes (uid mid : Z) : vtx (Z * bool) :=
  _ ← signed_in uid;
  query (fun d => (Z.of_nat (length (select (fun v => (mv_media v =? mid) && String.eqb (mv_type v) "like") (metadata_votes d))),
                   bool_decide (is_Some (get_metadata_vote uid mid d)))).

(** ** One vote for each user and stream *)

Record votes_ok (d : vote_db) : Prop := {
  vote_ids k v : stream_votes d !! k = Some v -> sv_id v = k;
  one_vote k1 k2 v1 v2 : stream_votes d !! k1 = Some v1 -> stream_votes d !! k2 = Some v2 ->
    sv_user v1 = sv_user v2 -> sv_stream v1 = sv_stream v2 -> k1 = k2;
  vote_types k v : stream_votes d !! k = Some v -> vote_type v = "up" \/ vote_type v = "down" }.

Lemma vote_of_true uid sid v : vote_of uid sid v = true <-> sv_user v = uid /\ sv_stream v = sid.
Proof. unfold vote_of. rewrite andb_true_iff, !Z.eqb_eq. done. Qed.

Lemma my_vote d uid sid v : votes_ok d ->
  get_user_stream_vote uid sid d = Some v <-> (exists k, stream_votes d !! k = Some v) /\ sv_user v = uid /\ sv_stream v = sid.
Proof.
  intros Hok. unfold get_user_stream_vote. split.
  - intros Hv. assert (He : v ∈ select (vote_of uid sid) (stream_votes d)).
    { destruct (select _ _) as [|x l]; [done|]. injection Hv as ->. by left. }
    apply select_elem in He as [He Hp]. by apply vote_of_true in Hp.
  - intros [[k Hk] Hp]. apply vote_of_true in Hp. assert (He : v ∈ select (vote_of uid sid) (stream_votes d)) by (apply select_elem; eauto).
    destruct (select _ _) as [|x l] eqn:El; [by apply elem_of_nil in He|].
    assert (Hx : x ∈ select (vote_of uid sid) (stream_votes d)) by (rewrite El; by left).
    apply select_elem in Hx as [[k' Hk'] Hp']. apply vote_of_true in Hp as [? ?], Hp' as [? ?].
    assert (k = k') as <- by (eapply (one_vote d Hok); [exact Hk|exact Hk'|congruence|congruence]). cbn. congruence.
Qed.

Lemma no_vote d uid sid k v : get_user_stream_vote uid sid d = None -> stream_votes d !! k = Some v ->
  sv_user v = uid -> sv_stream v = sid -> False.
Proof.
  unfold get_user_stream_vote. intros Hn Hk Hu Hs. destruct (select (vote_of uid sid) (stream_votes d)) eqn:E; [|done].
  pose proof (select_nil _ _ _ _ E Hk) as Hf. by rewrite (proj2 (vote_of_true uid sid v)) in Hf.
Qed.

(** ** The opinions the table stands for *)

(** Who votes which stream up (true) or down. *)
Definition opinion (v : StreamVote) : (Z * Z) * bool := ((sv_user v, sv_stream v), String.eqb (vote_type v) "up").
Definition opinions (d : vote_db) : gmap (Z * Z) bool := list_to_map (map opinion (map_to_list (stream_votes d)).*2).

Lemma opinions_keys d : votes_ok d -> NoDup (map opinion (map_to_list (stream_votes d)).*2).*1.
Proof.
  intros Hok. pose proof (NoDup_fst_map_to_list (stream_votes d)) as Hnd.
  assert (Hall : forall k v, (k, v) ∈ map_to_list (stream_votes d) -> stream_votes d !! k = Some v)
    by (intros k v; apply elem_of_map_to_list).
  induction (map_to_list (stream_votes d)) as [|[k v] l IH]; [constructor|].
  cbn in *. apply NoDup_cons in Hnd as [Hni Hnd]. constructor; [|apply IH; [done|]; intros; apply Hall; by right].
  intros Hin. apply list_elem_of_fmap in Hin as ([p b] & Hp & Hin). cbn in Hp. subst p.
  apply list_elem_of_fmap in Hin as (v' & Hv & Hin). apply list_elem_of_fmap in Hin as ([k' v''] & -> & Hin). cbn in Hv.
  injection Hv as Hu Hs _. apply Hni. apply list_elem_of_fmap. exists (k', v''). split; [|done]. cbn.
  eapply (one_vote d Hok); [apply Hall; by left|apply Hall; right; exact Hin|done|done].
Qed.

Lemma opinions_lookup d uid sid : votes_ok d ->
  opinions d !! (uid, sid) = (fun v => String.eqb (vote_type v) "up") <$> get_user_stream_vote uid sid d.
Proof.
  intros Hok. unfold opinions. pose proof (opinions_keys d Hok) as Hnd.
  destruct (get_user_stream_vote uid sid d) as [v|] eqn:E; cbn.
  - apply (my_vote d uid sid v Hok) in E as [[k Hk] [Hu Hs]]. apply elem_of_list_to_map; [done|].
    apply list_elem_of_fmap. exists v. split; [unfold opinion; by rewrite Hu, Hs|].
    apply list_elem_of_fmap. exists (k, v). split; [done|]. by apply elem_of_map_to_list.
  - apply not_elem_of_list_to_map. intros Hin. apply list_elem_of_fmap in Hin as ([p b] & Hp & Hin). cbn in Hp. subst p.
    apply list_elem_of_fmap in Hin as (v & Hv & Hin). apply list_elem_of_fmap in Hin as ([k v'] & -> & Hin). cbn in Hv.
    apply elem_of_map_to_list in Hin. injection Hv as Hu Hs _. by eapply no_vote.
Qed.

Definition tally (sid : Z) (up : bool) (m : gmap (Z * Z) bool) : Z :=
  Z.of_nat (length (List.filter (fun e => (e.1.2 =? sid) && Bool.eqb e.2 up) (map_to_list m))).

Lemma filter_perm_length {A} (p : A -> bool) l l' : l ≡ₚ l' -> length (List.filter p l) = length (List.filter p l').
Proof. induction 1 as [|x l l' _ IH|x y l|l1 l2 l3 _ IH1 _ IH2]; cbn; [done|destruct (p x); cbn; lia|by destruct (p x), (p y)|lia]. Qed.

Lemma count_tally d sid : votes_ok d ->
  get_stream_vote_count sid d = mkVoteCount (tally sid true (opinions d)) (tally sid false (opinions d))
                                  (tally sid true (opinions d) - tally sid false (opinions d)).
Proof.
  intros Hok. assert (Hb : forall b : bool, Z.of_nat (length (select (votes_typed sid (if b then "up" else "down")) (stream_votes d)))
                                     = tally sid b (opinions d)).
  { intros b. unfold tally. f_equal. unfold opinions. rewrite (filter_perm_length _ _ _ (map_to_list_to_map _ (opinions_keys d Hok))).
    unfold select. assert (Ht : Forall (fun v => vote_type v = "up" \/ vote_type v = "down") (map_to_list (stream_votes d)).*2).
    { apply Forall_forall. intros v Hv. apply list_elem_of_fmap in Hv as ([k v'] & -> & Hv). apply elem_of_map_to_list in Hv.
      by eapply vote_types. }
    induction Ht as [|v l Hv _ IH]; [done|].
    assert (E : votes_typed sid (if b then "up" else "down") v = ((opinion v).1.2 =? sid) && Bool.eqb (opinion v).2 b).
    { unfold votes_typed, opinion. cbn. destruct (sv_stream v =? sid); [|done]. by destruct Hv as [-> | ->], b. }
    cbn [map List.filter]. rewrite E. destruct (_ && _); cbn; lia. }
  unfold get_stream_vote_count. by rewrite (Hb true), (Hb false).
Qed.

(** ** Requests *)

Inductive vote_request :=
  | Vote (uid sid : Z) (r : StreamVoteRequest) (new_id : string) (now : Z)
  | Unvote (uid sid : Z).

Definition serve_vote (d : vote_db) (q : vote_request) : vote_db :=
  match q with
  | Vote uid sid r new_id now => after (vote_stream uid sid r new_id now) d
  | Unvote uid sid => after (delete_stream_vote uid sid) d
  end.

(** What a request means: who is signed in may set or withdraw an opinion on a
    stream that exists. *)
Definition active (c : db) (uid : Z) : bool := match answer (require_auth uid) c with Ret _ => true | Raise _ => false end.
Definition may_vote (c : db) (uid sid : Z) (r : StreamVoteRequest) : bool :=
  active c uid && valid_vote r && bool_decide (is_Some (streams (library c) !! sid)).
Definition voice (c : db) (m : gmap (Z * Z) bool) (q : vote_request) : gmap (Z * Z) bool :=
  match q with
  | Vote uid sid r _ _ =>
      if may_vote c uid sid r then <[(uid, sid) := 0 <? resolved_vote_int r]> m else m
  | Unvote uid sid => if active c uid then delete (uid, sid) m else m
  end.

Lemma signed_in_run uid (s : session vote_db) : exists o,
  signed_in uid s = (o, s) /\ match o with Ret _ => active (community (working s)) uid = true | Raise _ => active (community (working s)) uid = false end.
Proof.
  exists (answer (require_auth uid) (community (working s))). split; [done|]. unfold active. by destruct (answer _ _).
Qed.

(** The row a vote leaves. *)
Lemma vote_on_stream_run uid sid vote cmt quality new_id now (s : session vote_db) :
  votes_ok (working s) -> stream_votes (working s) !! new_id = None ->
  exists v m, vote_on_stream uid sid vote cmt quality new_id now s
              = (Ret v, mkSession (committed s) (set_stream_votes m (working s)) (outbox s)) /\
    m = <[sv_id v := v]> (stream_votes (working s)) /\
    sv_user v = uid /\ sv_stream v = sid /\ vote_type v = int_vote_to_type vote /\
    match get_user_stream_vote uid sid (working s) with Some e => sv_id v = sv_id e | None => sv_id v = new_id end.
Proof.
  intros Hok Hf. destruct s as [c [cm sv mv] o]. cbn in Hf |- *. set (d := mkVoteDb cm sv mv) in *.
  unfold vote_on_stream, query, mbind, M_bind. cbn [working].
  destruct (get_user_stream_vote uid sid d) as [e|] eqn:E.
  - apply (my_vote d uid sid e Hok) in E as E'. destruct E' as [[k Hk] [Hu Hs]]. pose proof (vote_ids d Hok k e Hk) as Hid.
    destruct (_ || _) eqn:Ec; cbn; [by do 2 eexists|].
    exists e, sv. apply orb_false_iff in Ec as [Ec _]. apply orb_false_iff in Ec as [Ec _].
    apply negb_false_iff, String.eqb_eq in Ec. rewrite Hid, insert_id by done. by subst.
  - cbn. unfold add_stream_vote, query, update, throw, mbind, M_bind. cbn [working sv_id sv_user sv_stream]. rewrite E.
    change (stream_votes d) with sv. rewrite Hf. rewrite !bool_decide_eq_false_2 by by intros [? [=]].
    cbn. by do 2 eexists.
Qed.

(** The table with [v] in the place of its writer's earlier vote. *)
Lemma revoted_ok d v : votes_ok d -> (vote_type v = "up" \/ vote_type v = "down") ->
  match get_user_stream_vote (sv_user v) (sv_stream v) d with Some e => sv_id v = sv_id e | None => stream_votes d !! sv_id v = None end ->
  votes_ok (set_stream_votes (<[sv_id v := v]> (stream_votes d)) d) /\
  opinions (set_stream_votes (<[sv_id v := v]> (stream_votes d)) d)
  = <[(sv_user v, sv_stream v) := String.eqb (vote_type v) "up"]> (opinions d).
Proof.
  intros Hok Ht Hid. set (d' := set_stream_votes _ _).
  (** the only row of this user and stream, before and after *)
  assert (Hown : forall k w, stream_votes d !! k = Some w -> sv_user w = sv_user v -> sv_stream w = sv_stream v -> k = sv_id v).
  { intros k w Hk Hu Hs. destruct (get_user_stream_vote (sv_user v) (sv_stream v) d) as [e|] eqn:E.
    - apply (my_vote d _ _ e Hok) in E as [[ke Hke] [Hue Hse]]. rewrite Hid, (vote_ids d Hok _ _ Hke).
      eapply (one_vote d Hok); [exact Hk|exact Hke|congruence|congruence].
    - exfalso. by eapply no_vote. }
  assert (Hold : forall w, stream_votes d !! sv_id v = Some w -> sv_user w = sv_user v /\ sv_stream w = sv_stream v).
  { intros w Hw. destruct (get_user_stream_vote (sv_user v) (sv_stream v) d) as [e|] eqn:E; [|by rewrite Hid in Hw].
    apply (my_vote d _ _ e Hok) in E as [[ke Hke] [Hue Hse]]. rewrite Hid, (vote_ids d Hok _ _ Hke), Hke in Hw. by injection Hw as <-. }
  assert (Hok' : votes_ok d').
  { split; cbn.
    - intros k w [[<- <-]|[_ Hw]]%lookup_insert_Some; [done|by apply (vote_ids d Hok)].
    - intros k1 k2 v1 v2 [[<- <-]|[Hn1 H1]]%lookup_insert_Some [[<- <-]|[Hn2 H2]]%lookup_insert_Some Hu Hs; [done| | |].
      + symmetry. by apply (Hown k2 v2).
      + by apply (Hown k1 v1).
      + by apply (one_vote d Hok k1 k2 v1 v2).
    - intros k w [[<- <-]|[_ Hw]]%lookup_insert_Some; [done|by eapply (vote_types d Hok)]. }
  split; [done|]. apply map_eq. intros [u s]. rewrite (opinions_lookup d' u s Hok').
  destruct (decide ((u, s) = (sv_user v, sv_stream v))) as [E|Hne].
  - injection E as -> ->. rewrite lookup_insert_eq. rewrite (proj2 (my_vote d' _ _ v Hok')); [done|].
    split; [exists (sv_id v); cbn; by rewrite lookup_insert_eq|done].
  - rewrite lookup_insert_ne by congruence. rewrite (opinions_lookup d u s Hok). f_equal.
    apply option_eq. intros w. rewrite (my_vote d' u s w Hok'), (my_vote d u s w Hok). cbn.
    split; intros [[k Hk] [<- <-]]; (split; [|done]).
    + apply lookup_insert_Some in Hk as [[_ <-]|[_ Hk]]; [done|by exists k].
    + exists k. rewrite lookup_insert_ne; [done|]. intros <-. destruct (Hold w Hk) as [Hu Hs]. apply Hne. by rewrite Hu, Hs.
Qed.

Lemma removed_ok d e : votes_ok d -> (exists k, stream_votes d !! k = Some e) ->
  votes_ok (set_stream_votes (delete (sv_id e) (stream_votes d)) d) /\
  opinions (set_stream_votes (delete (sv_id e) (stream_votes d)) d) = delete (sv_user e, sv_stream e) (opinions d).
Proof.
  intros Hok [ke Hke]. pose proof (vote_ids d Hok _ _ Hke) as Hid. set (d' := set_stream_votes _ _).
  assert (Hok' : votes_ok d').
  { split; cbn.
    - intros k w [_ Hw]%lookup_delete_Some. by apply (vote_ids d Hok).
    - intros k1 k2 v1 v2 [_ H1]%lookup_delete_Some [_ H2]%lookup_delete_Some. by apply (one_vote d Hok).
    - intros k w [_ Hw]%lookup_delete_Some. by eapply (vote_types d Hok). }
  split; [done|]. apply map_eq. intros [u s]. rewrite (opinions_lookup d' u s Hok').
  destruct (decide ((u, s) = (sv_user e, sv_stream e))) as [E|Hne].
  - injection E as -> ->. rewrite lookup_delete_eq. destruct (get_user_stream_vote _ _ d') as [w|] eqn:Ew; [|done].
    apply (my_vote d' _ _ w Hok') in Ew as [[k Hk] [Hu Hs]]. cbn in Hk. apply lookup_delete_Some in Hk as [Hn Hk]. exfalso. apply Hn. rewrite Hid.
    by eapply (one_vote d Hok).
  - rewrite lookup_delete_ne by congruence. rewrite (opinions_lookup d u s Hok). f_equal.
    apply option_eq. intros w. rewrite (my_vote d' u s w Hok'), (my_vote d u s w Hok). cbn.
    split; intros [[k Hk] [<- <-]]; (split; [|done]).
    + apply lookup_delete_Some in Hk as [_ Hk]. by exists k.
    + exists k. rewrite lookup_delete_ne; [done|]. intros Hkk. rewrite Hid in Hkk. subst k. rewrite Hke in Hk. injection Hk as <-. by apply Hne.
Qed.

Definition new_ids (l : list vote_request) : list string := omap (fun q => match q with Vote _ _ _ i _ => Some i | Unvote _ _ => None end) l.

Lemma negate_type vote : String.eqb (int_vote_to_type vote) "up" = (0 <? vote).
Proof. unfold int_vote_to_type. by destruct (0 <? vote). Qed.

Lemma bind_fails {D A B} (m : tx D A) (k : A -> tx D B) s e s' : m s = (Raise e, s') -> (m ≫= k) s = (Raise e, s').
Proof. intros E. unfold mbind, M_bind. by rewrite E. Qed.

Lemma after_is {D A} (m : tx D A) d r s d' : m (mkSession d d []) = (r, s) -> committed s = d' -> after m d = d'.
Proof. intros E <-. by eapply after_run. Qed.

(** What a vote leaves of the tables. *)
Lemma vote_stream_after uid sid r new_id now d : votes_ok d -> stream_votes d !! new_id = None ->
  if may_vote (community d) uid sid r
  then exists v, after (vote_stream uid sid r new_id now) d = set_stream_votes (<[sv_id v := v]> (stream_votes d)) d /\
         sv_user v = uid /\ sv_stream v = sid /\ vote_type v = int_vote_to_type (resolved_vote_int r) /\
         match get_user_stream_vote uid sid d with Some e => sv_id v = sv_id e | None => sv_id v = new_id end
  else after (vote_stream uid sid r new_id now) d = d.
Proof.
  intros Hok Hf. unfold may_vote, vote_stream. set (s0 := mkSession d d []).
  destruct (signed_in_run uid s0) as (o & Es & Ho). destruct o as [u|e]; cbn in Ho; rewrite Ho; cbn [andb].
  2: { by erewrite after_run by (eapply bind_fails; exact Es). }
  assert (Hrun : forall A (k : User -> vtx A), after (signed_in uid ≫= k) d = after (k u) d).
  { intros A k. unfold after, run. fold s0. by rewrite (bind_run _ _ _ _ _ Es). }
  rewrite Hrun. destruct (valid_vote r); [|done]. cbn [negb andb].
  destruct (streams (library (community d)) !! sid) as [st|] eqn:E.
  - destruct (vote_on_stream_run uid sid (resolved_vote_int r) (rq_comment r) (rq_quality_status r) new_id now s0 Hok Hf)
      as (v & m & Ev & -> & Hv). rewrite bool_decide_eq_true_2 by done. exists v. split; [|exact Hv].
    eapply after_is; [fold s0; rewrite (bind_run _ _ s0 (Some st) s0) by (unfold query; cbn; by rewrite E);
      rewrite (bind_run _ _ _ _ _ Ev); reflexivity|reflexivity].
  - rewrite bool_decide_eq_false_2 by by intros [? [=]]. eapply after_is; [fold s0; rewrite (bind_run _ _ s0 None s0) by (unfold query; cbn; by rewrite E); reflexivity|reflexivity].
Qed.

Lemma delete_stream_vote_after uid sid d :
  after (delete_stream_vote uid sid) d
  = match get_user_stream_vote uid sid d with
    | Some e => if active (community d) uid then set_stream_votes (delete (sv_id e) (stream_votes d)) d else d
    | None => d
    end.
Proof.
  unfold delete_stream_vote. set (s0 := mkSession d d []). destruct (signed_in_run uid s0) as (o & Es & Ho).
  destruct o as [u|e]; cbn in Ho; rewrite Ho.
  - unfold after, run. fold s0. rewrite (bind_run _ _ _ _ _ Es). unfold remove_stream_vote, query, mbind, M_bind. cbn.
    by destruct (get_user_stream_vote uid sid d).
  - rewrite (after_run _ _ (Raise e) s0) by (eapply bind_fails; exact Es). by destruct (get_user_stream_vote uid sid d).
Qed.

Lemma serve_vote_step d q : votes_ok d ->
  (forall i, i ∈ new_ids [q] -> stream_votes d !! i = None) ->
  votes_ok (serve_vote d q) /\ community (serve_vote d q) = community d /\ opinions (serve_vote d q) = voice (community d) (opinions d) q /\
  forall i, i ∉ new_ids [q] -> stream_votes d !! i = None -> stream_votes (serve_vote d q) !! i = None.
Proof.
  intros Hok Hf. destruct q as [uid sid r new_id now|uid sid]; cbn [serve_vote voice].
  - specialize (Hf new_id ltac:(by left)). pose proof (vote_stream_after uid sid r new_id now d Hok Hf) as Ha.
    destruct (may_vote _ _ _ _); [|by rewrite Ha].
    destruct Ha as (v & -> & <- & <- & Ht & Hid). destruct (revoted_ok d v Hok) as [H1 H2].
    { rewrite Ht. unfold int_vote_to_type. destruct (0 <? _); auto. }
    { destruct (get_user_stream_vote _ _ d); [done|]. by rewrite Hid. }
    split; [done|]. split; [done|]. split; [by rewrite H2, Ht, negate_type|].
    intros i Hi Hn. cbn. rewrite lookup_insert_ne; [done|]. intros <-. destruct (get_user_stream_vote _ _ d) as [e|] eqn:E.
    + apply (my_vote d _ _ e Hok) in E as [[k Hk] _]. by rewrite Hid, (vote_ids d Hok _ _ Hk), Hk in Hn.
    + apply Hi. rewrite Hid. by left.
  - rewrite delete_stream_vote_after. destruct (get_user_stream_vote uid sid d) as [e|] eqn:E.
    + apply (my_vote d _ _ e Hok) in E as [He [<- <-]]. destruct (removed_ok d e Hok He) as [H1 H2].
      destruct (active _ _); [|done]. split; [done|]. split; [done|]. split; [done|]. intros i _ Hn. apply lookup_delete_None. by right.
    + split; [done|]. split; [done|]. split; [|done]. destruct (active _ _); [|done].
      rewrite delete_id; [done|]. by rewrite (opinions_lookup d uid sid Hok), E.
Qed.

(** [C35] The votes of streams are the users' last opinions: whatever requests
    to vote and to withdraw a vote are served, each user has at most one vote
    on a stream, the table stands for the map that the same requests make when
    each of them sets or deletes one opinion ([voice]), and the counts of a
    stream are the opinions on it.  The identifiers of new rows must be new. *)
Theorem votes_are_last_opinions (d : vote_db) (requests : list vote_request)
    (Hok : votes_ok d) (Hids : NoDup (new_ids requests)) (Hnew : forall i, i ∈ new_ids requests -> stream_votes d !! i = None) :
  let d' := foldl serve_vote d requests in
  let m := foldl (voice (community d)) (opinions d) requests in
  votes_ok d' /\ opinions d' = m /\
  forall sid, get_stream_vote_count sid d'
              = mkVoteCount (tally sid true m) (tally sid false m) (tally sid true m - tally sid false m).
Proof.
  cbv zeta. assert (H : votes_ok (foldl serve_vote d requests) /\
    opinions (foldl serve_vote d requests) = foldl (voice (community d)) (opinions d) requests).
  { revert d Hok Hnew. induction requests as [|q l IH]; intros d Hok Hnew; [done|]. cbn [foldl].
    assert (Happ : new_ids (q :: l) = (new_ids [q] ++ new_ids l)%list) by (destruct q; reflexivity). rewrite Happ in Hids, Hnew.
    apply NoDup_app in Hids as (_ & Hd & Hl).
    destruct (serve_vote_step d q Hok) as (H1 & H2 & H3 & H4).
    { intros i Hi. apply Hnew. apply elem_of_app. by left. }
    rewrite <- H3, <- H2. apply IH; [done|done|]. intros i Hi. apply H4; [intros Hq; by apply (Hd i)|].
    apply Hnew. apply elem_of_app. by right. }
  destruct H as [H1 H2]. split; [done|]. split; [done|]. intros sid. rewrite (count_tally _ sid H1). by rewrite H2.
Qed.

(** ** Signals *)

Lemma group_zero {A K} `{EqDecision K} (key : A -> K) (l : list A) k :
  memb k (uniq (map key l)) = false -> length (List.filter (fun x => bool_decide (key x = k)) l) = 0%nat.
Proof.
  intros Hk. apply memb_false in Hk. destruct (List.filter _ l) as [|x f] eqn:E; [done|]. exfalso. apply Hk, uniq_elem.
  assert (Hx : x ∈ List.filter (fun x => bool_decide (key x = k)) l) by (rewrite E; by left).
  apply filter_elem in Hx as [Hx Hkx]. apply bool_decide_eq_true in Hkx. subst k. by apply list_elem_of_fmap_2.
Qed.

Lemma memb_cons_ne {A} `{EqDecision A} (x y : A) l : y <> x -> memb x (y :: l) = memb x l.
Proof. intros Hn. apply bool_decide_ext. rewrite elem_of_cons. naive_solver. Qed.

(** The loops over grouped rows: each stream gets the count of its group. *)
Lemma issues_loop (cnt : Z -> Z) sid keys : forall out s, out !! sid = Some s ->
  foldl count_issues out (map (fun k => (k, cnt k)) keys) !! sid
  = Some (if memb sid keys then mkSignals (cnt sid) (rating_up s) (rating_down s) (rating_score s) (rating_total s) else s).
Proof.
  induction keys as [|k keys IH]; intros out s Hs; [done|]. cbn [map foldl].
  set (out' := count_issues out (k, cnt k)).
  assert (Ho : out' !! sid = Some (if decide (k = sid) then mkSignals (cnt sid) (rating_up s) (rating_down s) (rating_score s) (rating_total s) else s)).
  { unfold out', count_issues. cbn. destruct (decide (k = sid)) as [->|Hn]; [by rewrite lookup_alter_eq, Hs|by rewrite lookup_alter_ne]. }
  rewrite (IH _ _ Ho). f_equal. destruct (decide (k = sid)) as [->|Hn].
  - rewrite (proj2 (memb_true sid (sid :: keys))) by by left. by destruct (memb _ _).
  - by rewrite (memb_cons_ne _ _ _ Hn).
Qed.

Lemma votes_loop (cnt : Z * string -> Z) sid keys : forall out s, out !! sid = Some s ->
  exists s', foldl count_votes out (map (fun k => (k, cnt k)) keys) !! sid = Some s' /\
    issue_reports s' = issue_reports s /\
    rating_up s' = (if memb (sid, "up") keys then cnt (sid, "up") else rating_up s) /\
    rating_down s' = (if memb (sid, "down") keys then cnt (sid, "down") else rating_down s).
Proof.
  induction keys as [|[k ty] keys IH]; intros out s Hs; [by exists s|]. cbn [map foldl].
  set (out' := count_votes out ((k, ty), cnt (k, ty))).
  assert (Ho : exists s1, out' !! sid = Some s1 /\ issue_reports s1 = issue_reports s /\
    rating_up s1 = (if decide ((k, ty) = (sid, "up")) then cnt (sid, "up") else rating_up s) /\
    rating_down s1 = (if decide ((k, ty) = (sid, "down")) then cnt (sid, "down") else rating_down s)).
  { unfold out', count_votes. cbn [fst snd]. destruct (decide (k = sid)) as [->|Hn].
    - rewrite lookup_alter_eq, Hs. eexists. split; [done|].
      destruct (decide (ty = "up")) as [->|Hu]; [|destruct (decide (ty = "down")) as [->|Hd]]; cbn.
      + by rewrite decide_True, decide_False by done.
      + by rewrite decide_False, decide_True by done.
      + rewrite !decide_False by congruence. by rewrite (proj2 (String.eqb_neq ty _) Hu), (proj2 (String.eqb_neq ty _) Hd).
    - rewrite lookup_alter_ne by done. exists s. by rewrite !decide_False by congruence. }
  destruct Ho as (s1 & Hs1 & Hi & Hu & Hd). destruct (IH _ _ Hs1) as (s' & Hs' & Hi' & Hu' & Hd').
  exists s'. split; [done|]. split; [congruence|].
  assert (Hm : forall t, memb (sid, t) ((k, ty) :: keys) = if decide ((k, ty) = (sid, t)) then true else memb (sid, t) keys).
  { intros t. destruct (decide ((k, ty) = (sid, t))) as [E|Hn]; [rewrite E; apply memb_true; by left|by apply memb_cons_ne]. }
  rewrite !Hm, Hu', Hd', Hu, Hd.
  clear. split; [destruct (decide ((k, ty) = (sid, "up")))|destruct (decide ((k, ty) = (sid, "down")))]; by repeat case_match.
Qed.

Lemma list_filter_filter {A} (p q : A -> bool) l : List.filter p (List.filter q l) = List.filter (fun x => q x && p x) l.
Proof. induction l as [|x l IH]; [done|]. cbn. destruct (q x); cbn; by rewrite IH. Qed.

Lemma list_filter_ext {A} (p q : A -> bool) l : (forall x, p x = q x) -> List.filter p l = List.filter q l.
Proof. intros E. induction l as [|x l IH]; [done|]. cbn. by rewrite E, IH. Qed.

Notation group_size key k l := (Z.of_nat (length (List.filter (fun x => bool_decide (key x = k)) l))).

Lemma issues_grouped {A} (key : A -> Z) l out sid : out !! sid = Some empty_stream_signals_dict ->
  foldl count_issues out (group_by key l) !! sid = Some (mkSignals (group_size key sid l) 0 0 0 0).
Proof.
  intros Ho. unfold group_by. rewrite (issues_loop (fun k => group_size key k l) _ _ _ _ Ho). f_equal.
  destruct (memb sid _) eqn:E; [done|]. by rewrite (group_zero key l sid E).
Qed.

Lemma votes_grouped {A} (key : A -> Z * string) l out sid n : out !! sid = Some (mkSignals n 0 0 0 0) ->
  exists s', foldl count_votes out (group_by key l) !! sid = Some s' /\ issue_reports s' = n /\
    rating_up s' = group_size key (sid, "up") l /\ rating_down s' = group_size key (sid, "down") l.
Proof.
  intros Ho. destruct (votes_loop (fun k => group_size key k l) sid (uniq (map key l)) _ _ Ho) as (s' & Hs & Hi & Hu & Hd).
  exists s'. split; [exact Hs|]. split; [exact Hi|].
  rewrite Hu, Hd. clear. split; case_match eqn:E; (done || by rewrite (group_zero key l _ E)).
Qed.

(** The batch and the count of a single stream agree. *)
Lemma signals_agree d ids sid : sid ∈ ids -> sid <> 0 ->
  let c := get_stream_vote_count sid d in
  fetch_stream_community_signals_batch ids d !! sid
  = Some (mkSignals (issue_report_count sid (community d)) (upvotes c) (downvotes c) (score c) (upvotes c + downvotes c)).
Proof.
  intros Hin Hz. cbv zeta. unfold fetch_stream_community_signals_batch. set (ids' := uniq _).
  assert (Hm : memb sid ids' = true).
  { apply memb_true, uniq_elem, filter_elem. split; [done|]. by rewrite (proj2 (Z.eqb_neq sid 0)). }
  rewrite lookup_fmap.
  set (out := list_to_map _). assert (Ho : out !! sid = Some empty_stream_signals_dict).
  { apply elem_of_list_to_map.
    - rewrite <- list_fmap_compose. unfold compose. cbn. rewrite list_fmap_id. apply uniq_NoDup.
    - apply list_elem_of_fmap. exists sid. split; [done|by apply memb_true]. }
  pose proof (issues_grouped (fun s => sg_target (base s))
    (select (fun s => memb (sg_target (base s)) ids' && shown_issue s) (stream_suggestions (community d))) out sid Ho) as Hi.
  destruct (votes_grouped (fun v => (sv_stream v, vote_type v)) (select (fun v => memb (sv_stream v) ids') (stream_votes d)) _ _ _ Hi)
    as (s' & -> & Hr & Hu & Hd).
  assert (Hv : forall ty, group_size (fun v => (sv_stream v, vote_type v)) (sid, ty) (select (fun v => memb (sv_stream v) ids') (stream_votes d))
                          = Z.of_nat (length (select (votes_typed sid ty) (stream_votes d)))).
  { intros ty. unfold select. rewrite list_filter_filter. do 2 f_equal. apply list_filter_ext. intros v. unfold votes_typed.
    destruct (Z.eqb_spec (sv_stream v) sid) as [->|Hn].
    - rewrite Hm. cbn. destruct (String.eqb_spec (vote_type v) ty) as [->|Hn]; [by apply bool_decide_eq_true|].
      apply bool_decide_eq_false. congruence.
    - cbn. rewrite (bool_decide_eq_false_2 (_ = _)) by congruence. by rewrite andb_false_r. }
  rewrite Hv in Hu, Hd. cbn. unfold sum_up. rewrite Hr, Hu, Hd. do 2 f_equal.
  unfold issue_report_count, select. rewrite list_filter_filter. do 2 f_equal. apply list_filter_ext. intros v.
  unfold shown_issue. destruct (Z.eqb_spec (sg_target (base v)) sid) as [->|Hn].
  - rewrite Hm, bool_decide_eq_true_2 by done. cbn. by rewrite andb_true_r.
  - rewrite bool_decide_eq_false_2, andb_false_r by done. unfold visible_issue. by rewrite (proj2 (Z.eqb_neq _ _) Hn).
Qed.

Lemma percent_bounds u t : 0 <= u <= t -> 0 <= percent u t <= 100.
Proof.
  intros Hu. unfold percent. destruct (Z.eqb_spec t 0) as [|Hn]; [lia|]. unfold round_half_even.
  pose proof (Z.div_mod (100 * u) t Hn) as Hd. pose proof (Z.mod_pos_bound (100 * u) t ltac:(lia)) as Hm.
  set (q := 100 * u / t) in *. set (r := (100 * u) mod t) in *. clearbody q r. assert (Hq : 0 <= q <= 100) by nia.
  assert (Hl : q = 100 -> r = 0) by nia.
  destruct (Z.ltb_spec (2 * r) t); [lia|]. assert (q <> 100) by (intros E; specialize (Hl E); lia).
  destruct (_ <? _); [lia|]. destruct (Z.even _); lia.
Qed.

(** The share of the votes that are up is a percentage. *)
Lemma score_percent_bounds user sid d : 0 <= score_percent (vote_summary user sid d) <= 100.
Proof. apply percent_bounds. cbn. lia. Qed.

(** ** Examples *)

Definition sample_voter (i : Z) : User := mkUser i None USER true 0 0 0 "new".
Definition sample_community : db :=
  mkDb None (list_to_map [(1, sample_voter 1); (2, sample_voter 2)])
    (mkCatalogue {[5 := mkMedia 5 MOVIE "Film" None None None "unknown"]} [] [] ∅ [] [] [] [] [] [] [])
    (mkLibrary {[7 := mkStream 7 None None None None None None true false true [] [] [] []]} [] [] [] 1 [] [])
    ∅ ∅ ∅ ∅ ∅.
Definition sample_votes : vote_db := mkVoteDb sample_community ∅ ∅.
Definition thumb (up : bool) : StreamVoteRequest := mkVoteRequest None (Some (if up then "up" else "down")) None None.
Definition sample_requests : list vote_request :=
  [Vote 1 7 (thumb true) "a" 10; Vote 2 7 (thumb true) "b" 11; Vote 1 7 (thumb false) "c" 12; Vote 3 7 (thumb true) "d" 13;
   Vote 2 8 (thumb true) "e" 14].

Definition voted : vote_db := foldl serve_vote sample_votes sample_requests.

(** The second vote of user 1 replaces the first; strangers and votes on
    unknown streams are refused. *)
Example sample_count : get_stream_vote_count 7 voted = mkVoteCount 1 1 0 /\ opinions voted = <[(1, 7) := false]> {[(2, 7) := true]}.
Proof. split; vm_compute; reflexivity. Qed.

Lemma sample_votes_ok : votes_ok sample_votes.
Proof. split; by intros. Qed.

Lemma votes_are_last_opinions_witness :
  votes_ok voted /\ opinions voted = foldl (voice sample_community) ∅ sample_requests /\
  forall sid, get_stream_vote_count sid voted
    = mkVoteCount (tally sid true (foldl (voice sample_community) ∅ sample_requests))
        (tally sid false (foldl (voice sample_community) ∅ sample_requests))
        (tally sid true (foldl (voice sample_community) ∅ sample_requests) -
         tally sid false (foldl (voice sample_community) ∅ sample_requests)).
Proof.
  apply (votes_are_last_opinions sample_votes sample_requests sample_votes_ok); [|done].
  by apply (bool_decide_unpack _).
Defined.

(** A vote of 0, which the request allows, is stored as a vote down and
    answered as 0. *)
Example zero_votes_down :
  let q := mkVoteRequest (Some 0) None None None in
  (match answer (vote_stream 1 7 q "a" 10) sample_votes with Ret a => Some (rs_vote a, rs_vote_type a) | Raise _ => None end) = Some (0, "down")
  /\ downvotes (get_stream_vote_count 7 (after (vote_stream 1 7 q "a" 10) sample_votes)) = 1.
Proof. split; vm_compute; reflexivity. Qed.

(** A rating ends in a server error, but a first one is kept, and counts as a
    like; a second is lost. *)
Example rating_fails_and_likes :
  let d := after (rate_content 1 5 (f_round 8) "a" 10) sample_votes in
  answer (rate_content 1 5 (f_round 8) "a" 10) sample_votes = Raise (Uncaught AttributeError) /\
  answer (get_content_likes 1 5) d = Ret (1, true) /\
  after (rate_content 1 5 (f_round 3) "b" 11) d = d.
Proof. split; [|split]; vm_compute; reflexivity. Qed.

(** Nobody is ever rated by [rate_content], and nobody sees a rating. *)
Lemma ratings_always_fail uid mid rating new_id now d :
  (exists e, answer (rate_content uid mid rating new_id now) d = Raise e) /\
  (exists e, answer (get_content_ratings uid mid) d = Raise e).
Proof.
  split; unfold answer, run; set (s0 := mkSession d d []); destruct (signed_in_run uid s0) as ([u|e] & Es & Ho).
  - unfold rate_content. rewrite (bind_run _ _ _ _ _ Es). destruct (negb _); [by eexists|].
    unfold query, mbind, M_bind. cbn. destruct (_ !! mid); [|by eexists]. destruct (trunc rating); [|by eexists].
    destruct (vote_on_metadata _ _ _ _ _ _) as [[?|?] ?]; by eexists.
  - unfold rate_content. rewrite (bind_fails _ _ _ _ _ Es). by eexists.
  - unfold get_content_ratings. rewrite (bind_run _ _ _ _ _ Es). by eexists.
  - unfold get_content_ratings. rewrite (bind_fails _ _ _ _ _ Es). by eexists.
Qed.
