(* ===== verification/CommunityFrames.v ===== *)
(** * What an applied suggestion can reach

    A metadata suggestion changes the media it is about and no other; external
    IDs stay unique and are not taken away from another media.  A stream
    suggestion changes the stream it is about, with one exception: a correction
    of an episode link, which reaches the files of any stream. *)

From S2P Require Export EpisodeSuggestions StreamSuggestions.
Local Open Scope string_scope.
Local Open Scope Z_scope.

(** ** Lists *)

Lemma filter_kept {A} (p q : A -> bool) l : (forall x, p x = true -> q x = true) -> List.filter p (List.filter q l) = List.filter p l.
Proof.
  intros H. induction l as [|x l IH]; [done|]. cbn. destruct (q x) eqn:Eq; cbn.
  - by rewrite IH.
  - destruct (p x) eqn:Ep; [by rewrite (H x Ep) in Eq|done].
Qed.

Lemma filter_none {A} (p : A -> bool) l : (forall x, x ∈ l -> p x = false) -> List.filter p l = [].
Proof.
  induction l as [|x l IH]; [done|]. intros H. cbn. rewrite (H x) by by left. apply IH. intros y Hy. apply H. by right.
Qed.

Lemma filter_append {A} (p : A -> bool) l l' : (forall x, x ∈ l' -> p x = false) -> List.filter p (l ++ l')%list = List.filter p l.
Proof. intros H. by rewrite List.filter_app, (filter_none p l' H), app_nil_r. Qed.

(** ** Media *)

(** All that the catalogue says about a media. *)
Definition about (m : Z) (c : Catalogue) :=
  (medias c !! m, List.filter (fun x => ext_media x =? m) (external_ids c), List.filter (fun x => image_media x =? m) (images c),
   tv_metadata c !! m, List.filter (fun l => l.1 =? m) (genre_links c), List.filter (fun l => l.1 =? m) (catalog_links c),
   List.filter (fun l => l.1 =? m) (certificate_links c), List.filter (fun l => l.1 =? m) (aka_titles c),
   List.filter (fun l => l.1.1 =? m) (media_cast c), List.filter (fun r => crew_media r =? m) (media_crew c)).

Definition ids_unique (c : Catalogue) : Prop := NoDup (map (fun x => (provider x, external_id x)) (external_ids c)).

(** Only the media [mid] changes. *)
Definition only_media (mid : Z) (d d' : db) : Prop :=
  d' = set_catalogue (catalogue d') d /\ (forall m, m <> mid -> about m (catalogue d') = about m (catalogue d)) /\
  (ids_unique (catalogue d) -> ids_unique (catalogue d')).

#[export] Instance only_media_preorder mid : PreOrder (only_media mid).
Proof.
  split; [intros []; by split|]. intros d1 d2 d3 (E1 & A1 & U1) (E2 & A2 & U2). split; [|split].
  - rewrite E2 at 1. by rewrite E1.
  - intros m Hm. by rewrite A2, A1.
  - auto.
Qed.

Lemma update_only_media mid f :
  (forall c m, m <> mid -> about m (f c) = about m c) -> (forall c, ids_unique c -> ids_unique (f c)) ->
  quiet (only_media mid) (update_catalogue f).
Proof. intros Ha Hu s. split; [|done]. split; [done|]. split; [intros m Hm; by apply Ha|apply Hu]. Qed.

(** Rows of another media in a changed table. *)
Ltac other_rows :=
  intros c m Hm; unfold about; cbn;
  rewrite ?filter_append, ?filter_kept, ?lookup_alter_ne, ?lookup_insert_ne by
    first [done | intros ? ?; decompose_list_elem_of; subst; cbn; lia | cbn; intros; unfold has_job, of_media; lia];
  reflexivity.

Lemma get_or_create_only mid t n : quiet (only_media mid) (get_or_create t n).
Proof. apply update_only_media; intros c; by destruct (memb _ _). Qed.

Lemma update_media_only mid f : quiet (only_media mid) (update_media f mid).
Proof. apply update_only_media; [other_rows|done]. Qed.
Lemma update_tv_only mid f : quiet (only_media mid) (update_tv f mid).
Proof. apply update_only_media; [other_rows|done]. Qed.
#[export] Hint Resolve get_or_create_only update_media_only update_tv_only : keeps.

Lemma set_media_image_only mid k v : quiet (only_media mid) (set_media_image mid k v).
Proof.
  unfold set_media_image. apply runs_bind; [apply update_only_media; [other_rows|done]|]. intros [].
  destruct (str_empty _); [apply runs_ret|]. apply runs_bind; [apply update_only_media; [other_rows|done]|intros []; apply runs_ret].
Qed.

(** A table of links is read back as it was written and changes no other. *)
Definition link_table_ok (t : link_table) : Prop :=
  forall c l mid m, m <> mid ->
    (List.filter (fun x => x.1 =? m) l = List.filter (fun x => x.1 =? m) (rows_of t c)) -> about m (with_rows t l c) = about m c.

Lemma tables_ok : link_table_ok genre_table /\ link_table_ok catalog_table /\ link_table_ok certificate_table.
Proof. by repeat split; intros c l mid m _ E; unfold about; cbn in *; rewrite E. Qed.

Lemma with_rows_ids t l c : t ∈ [genre_table; catalog_table; certificate_table] -> external_ids (with_rows t l c) = external_ids c.
Proof. rewrite !elem_of_cons. by intros [->|[->|[->|?%elem_of_nil]]]. Qed.

Lemma replace_links_only t mid names : t ∈ [genre_table; catalog_table; certificate_table] ->
  quiet (only_media mid) (replace_links t mid names).
Proof.
  intros Ht. assert (Hok : link_table_ok t).
  { destruct tables_ok as (H1 & H2 & H3). revert Ht. rewrite !elem_of_cons. by intros [->|[->|[->|?%elem_of_nil]]]. }
  assert (Hu : forall l c, ids_unique c -> ids_unique (with_rows t l c)) by (intros l c; unfold ids_unique; by rewrite with_rows_ids).
  unfold replace_links, add_link. apply runs_bind; [apply update_only_media; [|by auto]|intros []].
  - intros c m Hm. apply (Hok _ _ mid m Hm). apply filter_kept. intros x. lia.
  - apply runs_loop. intros name. keeps. apply quiet_keeps || idtac.
    apply update_only_media; [|by auto]. intros c m Hm. apply (Hok _ _ mid m Hm). apply filter_append.
    intros x ->%list_elem_of_singleton. cbn. lia.
Qed.

Lemma replace_aka_titles_only mid titles : quiet (only_media mid) (replace_aka_titles mid titles).
Proof.
  apply update_only_media; [|done]. intros c m Hm. unfold about. cbn. rewrite filter_append, filter_kept; [done|intros x; lia|].
  intros x (y & -> & _)%list_elem_of_fmap. cbn. lia.
Qed.

Lemma replace_cast_only mid names : quiet (only_media mid) (replace_cast mid names).
Proof.
  unfold replace_cast. apply runs_bind; [apply update_only_media; [other_rows|done]|intros []].
  apply runs_loop. intros [name index]. apply runs_bind; [apply get_or_create_only|intros []].
  apply update_only_media; [other_rows|done].
Qed.

Lemma replace_crew_only jobs dept ttl mid names : quiet (only_media mid) (replace_crew jobs dept ttl mid names).
Proof.
  unfold replace_crew. apply runs_bind; [apply update_only_media; [|done]|intros []].
  - intros c m Hm. unfold about. cbn. rewrite filter_kept; [done|]. intros x Hx. unfold has_job.
    destruct (crew_media x =? mid) eqn:E; [lia|done].
  - apply runs_loop. intros name. apply runs_bind; [apply get_or_create_only|intros []].
    apply update_only_media; [other_rows|done].
Qed.
#[export] Hint Resolve set_media_image_only replace_aka_titles_only replace_cast_only : keeps.

(** *** External IDs *)

Definition known_providers : list string := map snd EXTERNAL_ID_FIELD_TO_PROVIDER.

Lemma filter_unique (q : ExternalID -> bool) c : ids_unique c -> ids_unique (with_external_ids (List.filter q (external_ids c)) c).
Proof.
  unfold ids_unique. cbn. induction (external_ids c) as [|x l IH]; [done|]. cbn. intros [Hn Hl]%NoDup_cons.
  destruct (q x); [|by apply IH]. cbn. apply NoDup_cons. split; [|by apply IH].
  intros (y & E & Hy)%list_elem_of_fmap. apply filter_elem in Hy as [Hy _]. apply Hn, list_elem_of_fmap. by exists y.
Qed.

Lemma set_external_id_only mid prov v : lower prov = prov -> quiet (only_media mid) (set_external_id mid prov v).
Proof.
  intros Hl. unfold set_external_id. destruct (_ && _); [apply runs_ret|]. set (id := without_prefix _ _). cbv zeta.
  destruct (str_empty id).
  { apply runs_bind; [|intros []; apply runs_ret]. apply update_only_media; [|apply filter_unique].
    intros c m Hm. unfold about. cbn. rewrite filter_kept; [done|]. intros x. unfold of_media. lia. }
  intros s. unfold mbind at 1, M_bind, query.
  destruct (List.filter (has_id prov id) (external_ids (catalogue (working s)))) as [|x l] eqn:E.
  - unfold update_catalogue, update, mbind, M_bind. cbn. rewrite Hl. split; [|done]. split; [done|]. split.
    + intros m Hm. unfold about. cbn. rewrite filter_append, filter_kept; [done|..].
      * intros x. unfold of_media. lia.
      * intros x ->%list_elem_of_singleton. cbn. lia.
    + intros Hu. unfold ids_unique. cbn. rewrite map_app. apply NoDup_app. split; [exact (filter_unique _ _ Hu)|].
      split; [|apply NoDup_singleton]. intros k (x & -> & Hx)%list_elem_of_fmap [= E1 E2]%list_elem_of_singleton.
      apply filter_elem in Hx as [Hx _]. apply (not_elem_of_nil x). rewrite <- E. apply filter_elem. split; [done|].
      unfold has_id. by rewrite E1, E2, !String.eqb_refl.
  - destruct (negb (ext_media x =? mid)); [by split|]. revert s E. intros s E.
    refine ((_ : quiet (only_media mid) _) s). apply runs_bind; [|intros []; apply runs_ret].
    apply update_only_media; [|intros c; apply filter_unique].
    intros c m Hm. unfold about. cbn. rewrite filter_kept; [done|]. intros y. unfold of_media. lia.
Qed.

Lemma provider_lower field prov : dict_get field EXTERNAL_ID_FIELD_TO_PROVIDER = Some prov -> lower prov = prov.
Proof.
  cbn [dict_get EXTERNAL_ID_FIELD_TO_PROVIDER]. repeat case_match; intros [= <-] || intros ?; done.
Qed.

Lemma int4_quiet_any {R : relation db} `{!PreOrder R} o : quiet R (int4 o).
Proof. unfold int4. keeps. Qed.
#[export] Hint Resolve int4_quiet_any : keeps.

Lemma apply_metadata_only meta field v : quiet (only_media (media_id meta)) (apply_metadata_changes meta field v).
Proof.
  unfold apply_metadata_changes, apply_field, python, replace_directors, replace_writers.
  pose proof replace_crew_only. 
  keeps; try (apply replace_links_only; set_solver). apply set_external_id_only. by eapply provider_lower.
Qed.

(** ** Streams *)

(** Of the streams and their media, only those of [sid] change. *)
Definition only_stream (sid : Z) (d d' : db) : Prop :=
  stream_files (library d') = stream_files (library d) /\ typed_streams (library d') = typed_streams (library d) /\
  forall other, other <> sid ->
    streams (library d') !! other = streams (library d) !! other /\
    List.filter (fun l => link_stream l =? other) (stream_links (library d')) =
    List.filter (fun l => link_stream l =? other) (stream_links (library d)).

#[export] Instance only_stream_preorder sid : PreOrder (only_stream sid).
Proof.
  split; [by intros d|]. intros d1 d2 d3 (A1 & A2 & A3) (B1 & B2 & B3). split; [by rewrite B1|]. split; [by rewrite B2|].
  intros o Ho. destruct (A3 o Ho) as [E1 E2], (B3 o Ho) as [E3 E4]. by rewrite E3, E4.
Qed.

(** A change of other tables of the library. *)
Lemma update_library_only sid f :
  (forall l, stream_files (f l) = stream_files l /\ typed_streams (f l) = typed_streams l /\ streams (f l) = streams l /\
             stream_links (f l) = stream_links l) -> quiet (only_stream sid) (update_library f).
Proof.
  intros H s. split; [|done]. destruct (H (library (working s))) as (H1 & H2 & H3 & H4).
  split; [done|]. split; [done|]. intros o Ho. cbn. by rewrite H3, H4.
Qed.

Lemma update_stream_only sid f : quiet (only_stream sid) (update_stream f sid).
Proof. intros s. split; [|done]. split; [done|]. split; [done|]. intros o Ho. cbn. by rewrite lookup_alter_ne. Qed.

Lemma update_links_only sid f :
  (forall l other, other <> sid -> List.filter (fun x => link_stream x =? other) (f l) =
                                   List.filter (fun x => link_stream x =? other) (stream_links l)) ->
  quiet (only_stream sid) (update_library (fun l => with_stream_links (f l) l)).
Proof. intros H s. split; [|done]. split; [done|]. split; [done|]. intros o Ho. cbn. by rewrite H. Qed.

Lemma get_or_create_name_only sid t n : quiet (only_stream sid) (get_or_create_name t n).
Proof. apply update_library_only. intros l. by destruct (memb _ _). Qed.
Lemma parameter_quiet_any {R : relation db} `{!PreOrder R} o : quiet R (parameter o).
Proof. unfold parameter. keeps. Qed.
#[export] Hint Resolve update_stream_only get_or_create_name_only parameter_quiet_any : keeps.

Lemma save_link_only sid l : quiet (only_stream sid) (save_link l).
Proof. unfold save_link, check_link. keeps; by apply update_library_only. Qed.
Lemma add_file_link_only sid f m s e n : quiet (only_stream sid) (add_file_link f m s e n).
Proof. unfold add_file_link, check_link. keeps; by apply update_library_only. Qed.
#[export] Hint Resolve save_link_only add_file_link_only : keeps.

Lemma map_episode_only sid mid t : quiet (only_stream sid) (map_episode sid mid t).
Proof. unfold map_episode. keeps; by apply update_library_only. Qed.
#[export] Hint Resolve map_episode_only : keeps.

Lemma relink_media_only sid mid t : quiet (only_stream sid) (relink_media sid mid t).
Proof.
  unfold relink_media, relink_file. keeps. apply update_links_only. intros l o Ho.
  rewrite filter_append; [apply filter_kept; intros x; lia|]. intros x ->%list_elem_of_singleton. cbn. lia.
Qed.
Lemma add_media_link_only sid mid t : quiet (only_stream sid) (add_media_link sid mid t).
Proof.
  unfold add_media_link. keeps. apply update_links_only. intros l o Ho.
  apply filter_append. intros x ->%list_elem_of_singleton. cbn. lia.
Qed.

Lemma replace_names_only n sid v : quiet (only_stream sid) (replace_names n sid v).
Proof.
  unfold replace_names, append_name, python. destruct v as [[|c t]|]; [keeps| |keeps].
  destruct (json_loads _); keeps. match goal with |- runs _ (match ?v with _ => _ end) => destruct v end; keeps.
Qed.
Lemma replace_languages_only sid v : quiet (only_stream sid) (replace_languages sid v).
Proof.
  unfold replace_languages, add_language, python. keeps.
  match goal with |- runs _ (match ?v with _ => _ end) => destruct v end; keeps.
Qed.
Lemma correct_episode_link_only sid field v : quiet (only_stream sid) (correct_episode_link field v).
Proof.
  unfold correct_episode_link. destruct (split_char _ _) as [|a [|b [|c [|]]]]; keeps.
  destruct (int_of_string b); keeps. all: destruct (match v with Some (String _ _) => _ | _ => _ end); keeps.
Qed.
#[export] Hint Resolve relink_media_only add_media_link_only replace_names_only replace_languages_only correct_episode_link_only : keeps.

Lemma correct_field_only sid field v : quiet (only_stream sid) (correct_field sid field v).
Proof. unfold correct_field. keeps. Qed.
Lemma apply_report_only sid : quiet (only_stream sid) (apply_report sid).
Proof. unfold apply_report. keeps. Qed.
#[export] Hint Resolve correct_field_only apply_report_only : keeps.

Lemma apply_stream_only fetch stream ty field v t :
  (forall ext ty title, quiet (only_stream (stream_id stream)) (fetch ext ty title)) ->
  quiet (only_stream (stream_id stream)) (apply_stream_changes fetch stream ty field v t).
Proof.
  intros Hf. unfold apply_stream_changes, apply_change, link_stream_to, resolve_target_media_id, resolve_external, media_exists.
  keeps. all: destruct (int_of_string _); keeps.
Qed.

(** *** Links of files *)

(** Corrections of other fields and reports leave them alone. *)
Definition same_file_links (d d' : db) : Prop := file_links (library d') = file_links (library d).
#[export] Instance same_file_links_preorder : PreOrder same_file_links.
Proof. split; [by intros d|]. intros d1 d2 d3 H1 H2. unfold same_file_links in *. by rewrite H2. Qed.

Lemma update_stream_file_links sid f : quiet same_file_links (update_stream f sid).
Proof. by intros s. Qed.
Lemma get_or_create_name_file_links t n : quiet same_file_links (get_or_create_name t n).
Proof. intros s. split; [|done]. unfold same_file_links. cbn. by destruct (memb _ _). Qed.
#[export] Hint Resolve update_stream_file_links get_or_create_name_file_links : keeps.

Lemma replace_names_file_links n sid v : quiet same_file_links (replace_names n sid v).
Proof.
  unfold replace_names, append_name, python. destruct v as [[|c t]|]; [keeps| |keeps].
  destruct (json_loads _); keeps. match goal with |- runs _ (match ?v with _ => _ end) => destruct v end; keeps.
Qed.
Lemma replace_languages_file_links sid v : quiet same_file_links (replace_languages sid v).
Proof.
  unfold replace_languages, add_language, python. keeps.
  match goal with |- runs _ (match ?v with _ => _ end) => destruct v end; keeps.
Qed.
#[export] Hint Resolve replace_names_file_links replace_languages_file_links : keeps.

Lemma correct_field_file_links sid field v : startswith "episode_link:" field = false ->
  quiet same_file_links (correct_field sid field v).
Proof. intros Hf. unfold correct_field. rewrite Hf. keeps. Qed.

(** ** The properties *)

(** Applying a metadata suggestion changes the catalogue's entries of its
    media only: what is said about every other media stays, the pairs of
    provider and ID stay unique (so no ID is taken from another media), nothing
    but the catalogue is touched and nothing is committed, also when it fails. *)
Theorem metadata_change_confined meta field v s :
  let s' := (apply_metadata_changes meta field v s).2 in
  committed s' = committed s /\ working s' = set_catalogue (catalogue (working s')) (working s) /\
  (forall m, m <> media_id meta -> about m (catalogue (working s')) = about m (catalogue (working s))) /\
  (ids_unique (catalogue (working s)) -> ids_unique (catalogue (working s'))).
Proof. destruct (apply_metadata_only meta field v s) as [(H1 & H2 & H3) H4]. done. Qed.

(** The ID of another film is not moved. *)
Lemma metadata_change_confined_witness :
  let meta := mkMedia 10 MOVIE "Dune" None (Some 2021) (Some 155) "Unknown" in
  let s' := (apply_metadata_changes meta "imdb_id" "tt14688458" (mkSession sample_db sample_db [])).2 in
  about 11 (catalogue (working s')) = about 11 sample_catalogue /\ ids_unique (catalogue (working s')).
Proof.
  intros meta s'.
  destruct (metadata_change_confined meta "imdb_id" "tt14688458" (mkSession sample_db sample_db [])) as (_ & _ & H1 & H2).
  split; [by apply H1|]. apply H2. repeat constructor; set_solver.
Defined.

(** [C29] Applying a stream suggestion changes the row and the media links of its
    stream only, and the numbers of a file's episode only when it links the
    stream or corrects an episode link. *)
Theorem stream_change_confined fetch stream ty field v t s :
  (forall ext ty title, quiet (only_stream (stream_id stream)) (fetch ext ty title)) ->
  let s' := (apply_stream_changes fetch stream ty field v t s).2 in
  (forall sid, sid <> stream_id stream -> streams (library (working s')) !! sid = streams (library (working s)) !! sid /\
     List.filter (fun l => link_stream l =? sid) (stream_links (library (working s'))) =
     List.filter (fun l => link_stream l =? sid) (stream_links (library (working s)))) /\
  (ty <> "relink_media" -> ty <> "add_media_link" -> startswith "episode_link:" (default "" field) = false ->
   file_links (library (working s')) = file_links (library (working s))).
Proof.
  intros Hf s'. split.
  - destruct (apply_stream_only fetch stream ty field v t Hf s) as [(_ & _ & H) _]. exact H.
  - intros H1 H2 Hfield.
    assert (H : quiet same_file_links (apply_stream_changes fetch stream ty field v t)); [|by destruct (H s)].
    unfold apply_stream_changes, apply_change. rewrite (proj2 (String.eqb_neq _ _) H1), (proj2 (String.eqb_neq _ _) H2).
    pose proof (correct_field_file_links (stream_id stream)) as Hc.
    apply runs_catch; [|intros e; apply runs_ret]. apply runs_bool; [|apply runs_bool; [|apply runs_ret]].
    + unfold apply_report. keeps.
    + destruct field as [name|]; [|apply runs_ret]. apply runs_bool; [apply runs_ret|by apply Hc].
Qed.

Lemma stream_change_confined_witness :
  let s' := (apply_stream_changes (fun _ _ _ => mret None) (sample_stream 100) "field_correction" (Some "channels") (Some "5.1")
               no_target (mkSession sample_db sample_db [])).2 in
  streams (library (working s')) !! 101 = Some (sample_stream 101) /\ file_links (library (working s')) = file_links sample_library.
Proof.
  intros s'.
  destruct (stream_change_confined (fun _ _ _ => mret None) (sample_stream 100) "field_correction" (Some "channels") (Some "5.1")
              no_target (mkSession sample_db sample_db [])) as [H1 H2].
  - intros ext ty title. apply runs_ret.
  - split; [by destruct (H1 101)|by apply H2].
Defined.

(** An episode link is corrected whatever stream its file belongs to: a
    suggestion for stream 100 renumbers the file of stream 101. *)
Example episode_link_of_another_stream :
  let s' := (apply_stream_changes (fun _ _ _ => mret None) (sample_stream 100) "field_correction"
               (Some "episode_link:1001:episode_number") (Some "7") no_target (mkSession sample_db sample_db [])).2 in
  file_links (library (working s')) = [mkFileLink 1 1000 10 None None None; mkFileLink 2 1001 11 (Some 1) (Some 7) None].
Proof. by vm_compute. Qed.
