(* ===== verification/Contributions.v ===== *)
(** * Contributions (api/routers/content/contributions.py)

    Imports and corrections that users submit, their review by moderators and
    the points they bring.  What imports a torrent, an NZB, a video or a link
    ([process_import]) is a parameter, like the text of an exception.  The
    media and the stream of a contribution are looked up by two functions that
    call each other; [limit] is CPython's recursion limit. *)

From S2P Require Export StreamSuggestions.
Local Open Scope string_scope.
Local Open Scope Z_scope.

Definition CONTRIBUTION_TYPES : list string :=
  ["metadata"; "stream"; "torrent"; "telegram"; "youtube"; "nzb"; "http"; "acestream"].
Definition PROCESSABLE_IMPORT_TYPES : list string := ["torrent"; "telegram"; "youtube"; "nzb"; "http"; "acestream"].

(** ** Names (api/routers/content/anonymous_utils.py) *)

Definition ANONYMOUS_FALLBACK_NAME := "Anonymous".
Definition ANONYMOUS_NAME_MAX_LENGTH := 32.

Definition is_alnum (c : ascii) : bool := is_alpha c || is_digit c.
(** [_ANONYMOUS_NAME_PATTERN.fullmatch] *)
Definition anonymous_name_pattern (s : string) : bool :=
  match s with
  | String c s => is_alnum c && str_all (fun c => is_alnum c || str_any (Ascii.eqb c) " ._-") s
  | "" => false
  end.

Definition normalize_anonymous_display_name (v : value) : outcome py_exn (option string) :=
  match v with
  | VNone => Ret None
  | VStr s =>
      let normalized := PyStr.join " " (split_ws (strip s)) in
      if str_empty normalized then Ret None
      else if ANONYMOUS_NAME_MAX_LENGTH <? slen normalized then Ret None
      else if negb (anonymous_name_pattern normalized) then Ret None
      else Ret (Some normalized)
  | _ => Raise AttributeError
  end.

Definition resolve_uploader_identity (user : option User) (is_anonymous : bool) (display_name : value) :
    outcome py_exn (string * option Z) :=
  if is_anonymous then
    custom_name ← normalize_anonymous_display_name display_name;
    Ret (default ANONYMOUS_FALLBACK_NAME custom_name, None)
  else
    Ret match user with
        | None => ("Deleted User", None)
        | Some u => (match username u with
                     | Some "" | None => "User #" +:+ str_of_int (user_id u)
                     | Some name => name
                     end, Some (user_id u))
        end.

(** [get_reviewer_name] *)
Definition reviewer_label (us : gmap Z User) (reviewed_by : option string) : option string :=
  match reviewed_by with
  | None | Some "" => None
  | Some r =>
      if String.eqb r "auto" then Some "Auto-approved"
      else
        match int_of_string r with
        | Raise _ => Some r
        | Ret z =>
            match us !! z with
            | Some u => if String.eqb (str_of_int z) r
                        then Some match username u with Some "" | None => "User #" +:+ str_of_int z | Some name => name end
                        else None
            | None => None
            end
        end
  end.

(** ** The media and the stream of a contribution *)

Definition text_field (k : string) (data : list (string * value)) : string :=
  match dict_get k data with Some v => if truthy v then strip (str v) else "" | None => "" end.

(** A lookup by primary key, or an error of the driver. *)
Definition fits (z : Z) : bool := (- 2 ^ 31 <=? z) && (z <? 2 ^ 31).

(** [get_media_by_external_id] outside of a [try]. *)
Definition external_lookup (d : db) (external_id : string) : outcome error (option Z) :=
  let s := strip external_id in
  match (if startswith "mf:" s then int_of_string (str_drop 3 s) else Raise ValueError) with
  | Ret z => if fits z then Ret (get_media_by_external_id (catalogue d) external_id None) else Raise DataError
  | Raise _ => Ret (get_media_by_external_id (catalogue d) external_id None)
  end.

Definition meta_candidates (c : Contribution) : list string :=
  uniq (List.filter (fun s => negb (str_empty s))
    (omap (fun v => match v with Some (VStr s) => Some (strip s) | _ => None end)
       [dict_get "mediafusion_id" (cn_data c); dict_get "meta_id" (cn_data c); VStr <$> target_id c])).

Fixpoint first_media (d : db) (candidates : list string) : outcome error (option Z) :=
  match candidates with
  | [] => Ret None
  | x :: l => m ← external_lookup d x; match m with Some mid => Ret (Some mid) | None => first_media d l end
  end.

(** [re.search(r"stream_id=(\d+)", review_notes)] *)
Fixpoint stream_marker (s : string) : option Z :=
  match s with
  | "" => None
  | String _ rest =>
      if startswith "stream_id=" s then
        match span_digits (str_drop 10 s) with
        | ("", _) => stream_marker rest
        | (digits, _) => match int_of_string digits with Ret z => Some z | Raise _ => None end
        end
      else stream_marker rest
  end.
Definition extract_stream_id (notes : option string) : option Z := notes ≫= stream_marker.

(** The stream of a type whose column has a value. *)
Definition typed_rows (d : db) (ty column v : string) : list Z :=
  omap (fun '(ty', column', v', sid) => if String.eqb ty' ty && String.eqb column' column && String.eqb v' v
                                        then Some sid else None) (typed_streams (library d)).
Definition typed_stream (d : db) (ty column v : string) : option Z := if str_empty v then None else head (typed_rows d ty column v).

Definition linked_to (d : db) (mid sid : Z) : bool :=
  existsb (fun l => (link_stream l =? sid) && (link_media l =? mid)) (stream_links (library d)).
Definition greatest (l : list Z) : option Z := head (sort_by (fun a b => b <=? a) l).

Definition existing_stream (d : db) (sid : option Z) : option Z :=
  sid ≫= fun sid => match streams (library d) !! sid with Some _ => Some sid | None => None end.

(** The stream named in the review notes. *)
Definition marked_stream (d : db) (c : Contribution) : outcome error (option Z) :=
  match extract_stream_id (cn_review_notes c) with
  | Some sid => if sid =? 0 then Ret None else if fits sid then Ret (existing_stream d (Some sid)) else Raise DataError
  | None => Ret None
  end.

(** [resolve_contribution_media_id] and [_resolve_stream_for_contribution]:
    the media asks for the stream, and the stream of an HTTP link for the media. *)
Fixpoint contribution_media (limit : nat) (d : db) (c : Contribution) : outcome error (option Z) :=
  match limit with
  | O => Raise (Uncaught RecursionError)
  | S limit =>
      m ← first_media d (meta_candidates c);
      match m with
      | Some mid => Ret (Some mid)
      | None =>
          stream ← contribution_stream limit d c;
          Ret (match stream with
               | Some sid => head (omap (fun l => if link_stream l =? sid then Some (link_media l) else None) (stream_links (library d)))
               | None => None
               end)
      end
  end
with contribution_stream (limit : nat) (d : db) (c : Contribution) : outcome error (option Z) :=
  match limit with
  | O => Raise (Uncaught RecursionError)
  | S limit =>
      marked ← marked_stream d c;
      match marked with
      | Some sid => Ret (Some sid)
      | None =>
          let data := cn_data c in
          let ty := contribution_type c in
          sid ← (if String.eqb ty "torrent" then Ret (typed_stream d "torrent" "info_hash" (lower (text_field "info_hash" data)))
                 else if String.eqb ty "nzb" then Ret (typed_stream d "nzb" "nzb_guid" (text_field "nzb_guid" data))
                 else if String.eqb ty "http" then
                   let url := text_field "url" data in
                   if str_empty url then Ret None
                   else
                     media ← contribution_media limit d c;
                     Ret (greatest (List.filter (fun sid => match media with Some mid => linked_to d mid sid | None => true end)
                                      (typed_rows d "http" "url" url)))
                 else if String.eqb ty "youtube" then Ret (typed_stream d "youtube" "video_id" (text_field "video_id" data))
                 else if String.eqb ty "acestream" then
                   match typed_stream d "acestream" "content_id" (lower (text_field "content_id" data)) with
                   | Some sid => Ret (Some sid)
                   | None => Ret (typed_stream d "acestream" "info_hash" (lower (text_field "info_hash" data)))
                   end
                 else if String.eqb ty "telegram" then
                   let unique := text_field "file_unique_id" data in
                   Ret (if str_empty unique then typed_stream d "telegram" "file_id" (text_field "file_id" data)
                        else typed_stream d "telegram" "file_unique_id" unique)
                 else Ret None);
          Ret (existing_stream d sid)
      end
  end.

(** ** Points *)

(** [get_contribution_settings] here leaves a new row uncommitted. *)
Definition flush_contribution_settings : tx db ContributionSettings :=
  row ← query settings_row;
  match row with
  | Some settings => mret settings
  | None => _ ← update (set_settings (Some default_settings)); mret default_settings
  end.

Definition award_import_approval_points (uid : option Z) (ty : string) : tx db bool :=
  match uid with
  | None => mret false
  | Some uid =>
      if negb (memb ty POINT_ELIGIBLE_IMPORT_TYPES) then mret false
      else
        user ← query (fun d => users d !! uid);
        match user with
        | None => mret false
        | Some _ =>
            settings ← flush_contribution_settings;
            _ ← update_user (awarded settings (points_per_stream_edit settings) STREAM_EDIT) uid;
            mret true
        end
  end.

(** ** Reviews *)

Definition status_text (st : ContributionStatus) : string :=
  match st with C_PENDING => "pending" | C_APPROVED => "approved" | C_REJECTED => "rejected" end.

Record import_result := mkImport { im_status : string; im_stream : option Z }.

Definition process_telegram_import (data : list (string * value)) : tx db import_result :=
  let given k := match dict_get k data with Some v => if truthy v then Some v else None | None => None end in
  let lookup column v :=
    match v with
    | VStr v => query (fun d => head (typed_rows d "telegram" column v))
    | _ => throw (Uncaught TypeError)
    end in
  found ← match given "file_unique_id", given "file_id" with
          | Some v, _ => lookup "file_unique_id" v
          | None, Some v => lookup "file_id" v
          | None, None => mret None
          end;
  stream ← query (fun d => found ≫= fun sid => streams (library d) !! sid);
  match stream with
  | None => mret (mkImport "error" None)
  | Some s =>
      _ ← (if is_public s then mret tt
           else update_stream (fun s => with_visibility (stream_active s) true s) (stream_id s));
      mret (mkImport "success" (Some (stream_id s)))
  end.

Definition append_review_note (existing : option string) (note : string) : string :=
  strip (default "" existing +:+ String (of_code 10) note).

Definition save_contribution (id : string) (c : Contribution) : tx db unit :=
  update (fun d => set_contributions (<[id := c]> (contributions d)) d).

Definition with_review (st : ContributionStatus) (reviewer : Z) (now : Z) (notes : option string)
    (data : list (string * value)) (c : Contribution) : Contribution :=
  mkContribution (cn_id c) (cn_user c) (contribution_type c) (target_id c) data st (Some (str_of_int reviewer)) (Some now)
    notes (admin_review_requested c) (admin_review_requested_by c) (admin_review_requested_at c) (admin_review_reason c)
    (cn_created_at c).

Definition is_adult (e : error) : bool := match e with AdultContentNotAllowedError => true | _ => false end.

Record ContributionResponse := mkContributionResponse {
  cr_row : Contribution; cr_username : option string; cr_media : option Z; cr_reviewer : option string }.

Section Reviews.
Context (limit : nat).
Context (process_import : string -> list (string * value) -> option User -> tx db import_result).
Context (error_text : error -> string).

Definition run_import (ty : string) : list (string * value) -> option User -> tx db import_result :=
  if String.eqb ty "telegram" then fun data _ => process_telegram_import data else process_import ty.

Definition import_notes (notes : option string) (r : import_result) : option string :=
  if String.eqb (im_status r) "success"
  then Some (append_review_note notes ("Import successful: stream_id="
         +:+ match im_stream r with Some sid => str_of_int sid | None => "None" end))
  else if String.eqb (im_status r) "exists" then Some (append_review_note notes "Content already exists in database")
  else notes.

Definition import_contribution (c : Contribution) (notes : option string) : tx db (option string) :=
  contributor ← query (fun d => cn_user c ≫= fun uid => users d !! uid);
  catch (r ← run_import (contribution_type c) (dict_set "is_public" (VBool true) (cn_data c)) contributor;
         mret (import_notes notes r))
    (fun e => caught e && negb (is_adult e))
    (fun e => mret (Some (append_review_note notes ("Import processing failed: " +:+ error_text e)))).

Definition apply_contribution_review (now : Z) (id : string) (c : Contribution) (st : ContributionStatus) (reviewer : Z)
    (notes : option string) : tx db unit :=
  if decide (st = C_APPROVED) then
    let processed := memb (contribution_type c) PROCESSABLE_IMPORT_TYPES in
    notes ← (if processed then import_contribution c notes else mret notes);
    let data := if processed then dict_set "is_public" (VBool true) (cn_data c) else cn_data c in
    _ ← save_contribution id (with_review C_APPROVED reviewer now notes data c);
    _ ← award_import_approval_points (cn_user c) (contribution_type c);
    mret tt
  else save_contribution id (with_review st reviewer now notes (cn_data c) c).

(** The answer: the row as it is now, and what is looked up for it. *)
Definition respond (c : Contribution) : tx db ContributionResponse :=
  d ← query (fun d => d);
  media ← lift (contribution_media limit d c);
  mret (mkContributionResponse c (cn_user c ≫= fun uid => users d !! uid ≫= username) media
    (reviewer_label (users d) (cn_reviewed_by c))).

Definition respond_row (id : string) : tx db ContributionResponse :=
  found ← query (fun d => contributions d !! id);
  match found with Some c => respond c | None => throw (Uncaught AttributeError) end.

Definition review_contribution (now : Z) (id : string) (st : ContributionStatus) (notes : option string) (uid : Z) :
    tx db ContributionResponse :=
  _ ← require_role MODERATOR uid;
  found ← query (fun d => contributions d !! id);
  match found with
  | None => http 404 "Contribution not found"
  | Some c =>
      if negb (bool_decide (cn_status c = C_PENDING)) then http 400 ("Contribution already reviewed with status: " +:+ status_text (cn_status c))
      else
        _ ← catch (apply_contribution_review now id c st uid notes) is_adult (fun e => http 400 (error_text e));
        _ ← commit;
        respond_row id
  end.

Definition bulk_review_one_contribution (now : Z) (st : ContributionStatus) (notes : option string) (uid : Z) (id : string) :
    tx db (option action) :=
  found ← query (fun d => contributions d !! id);
  match found with
  | None => mret None
  | Some c =>
      if negb (bool_decide (cn_status c = C_PENDING)) then mret None
      else catch (begin_nested (_ ← apply_contribution_review now id c st uid notes;
                                mret (Some (if decide (st = C_APPROVED) then APPROVE else REJECT))))
             is_adult (fun _ => mret None)
  end.

Record BulkReviewRequest := mkBulkReview {
  bk_action : action; bk_type : option string; bk_ids : option (list string); bk_notes : option string }.

Definition selected (r : BulkReviewRequest) (c : Contribution) : bool :=
  bool_decide (cn_status c = C_PENDING)
  && match bk_type r with Some ty => str_empty ty || String.eqb (contribution_type c) ty | None => true end
  && match bk_ids r with Some (x :: l) => memb (cn_id c) (x :: l) | _ => true end.

Definition oldest_first (x y : Contribution) : bool := cn_created_at x <=? cn_created_at y.

Definition bulk_review_contributions (now : Z) (r : BulkReviewRequest) (uid : Z) : tx db bulk_result :=
  _ ← require_role MODERATOR uid;
  if match bk_type r with Some ty => negb (memb ty CONTRIBUTION_TYPES) | None => false end then http 422 "Validation error"
  else
    rows ← query (fun d => sort_by oldest_first (select (selected r) (contributions d)));
    results ← bulk_loop (bulk_review_one_contribution now (match bk_action r with APPROVE => C_APPROVED | REJECT => C_REJECTED end)
                           (bk_notes r) uid) (map cn_id rows) (mkBulk 0 0 0);
    _ ← commit;
    mret results.

(** ** Submitting *)

Record ContributionCreate := mkCreate { ct_type : string; ct_target : option string; ct_data : list (string * value) }.

Definition is_anonymous (data : list (string * value)) : bool :=
  match dict_get "is_anonymous" data with Some (VBool true) => true | _ => false end.

(** Whether a new contribution is approved at once. *)
Definition approved_at_once (u : User) (r : ContributionCreate) : bool :=
  privileged (role u) || (negb (is_anonymous (ct_data r)) && is_active u && memb (ct_type r) ["torrent"; "stream"]).

Definition new_contribution (new_id : string) (now : Z) (u : User) (uid : Z) (r : ContributionCreate) : Contribution :=
  let auto := approved_at_once u r in
  mkContribution new_id (if is_anonymous (ct_data r) then None else Some uid) (ct_type r) (ct_target r) (ct_data r)
    (if auto then C_APPROVED else C_PENDING) (if auto then Some "auto" else None) (if auto then Some now else None)
    (if privileged (role u) then Some "Auto-approved: Privileged reviewer"
     else if auto then Some "Auto-approved: Active user content import" else None)
    false None None None now.

Definition insert_contribution (c : Contribution) : tx db unit :=
  taken ← query (fun d => contributions d !! cn_id c);
  match taken with Some _ => throw IntegrityError | None => save_contribution (cn_id c) c end.

(** The notification of a contribution that waits for a review. *)
Definition pending_notice (c : Contribution) (uploader : string) : string :=
  json_dumps (VDict [("contribution_id", VStr (cn_id c)); ("contribution_type", VStr (contribution_type c));
                     ("target_id", json_option VStr (target_id c)); ("uploader_name", VStr uploader); ("data", VDict (cn_data c))]).

Definition create_contribution (new_id : string) (now : Z) (r : ContributionCreate) (uid : Z) : tx db ContributionResponse :=
  user ← require_auth uid;
  if negb (memb (ct_type r) CONTRIBUTION_TYPES) then http 422 "Validation error"
  else
    let c := new_contribution new_id now user uid r in
    _ ← insert_contribution c;
    _ ← (if approved_at_once user r then award_import_approval_points (cn_user c) (contribution_type c) else mret false);
    _ ← commit;
    _ ← (if bool_decide (cn_status c = C_PENDING) then
           name ← python (resolve_uploader_identity (Some user) (is_anonymous (ct_data r))
                            (default VNone (dict_get "anonymous_display_name" (ct_data r))));
           notify (pending_notice c name.1)
         else mret tt);
    respond c.

(** ** Other requests *)

Definition delete_contribution (id : string) (uid : Z) : tx db unit :=
  user ← require_auth uid;
  found ← query (fun d => contributions d !! id);
  match found with
  | None => http 404 "Contribution not found"
  | Some c =>
      if negb (bool_decide (role user = ADMIN))
         && negb (bool_decide (cn_user c = Some uid) && bool_decide (cn_status c = C_PENDING))
      then http 403 "Cannot delete this contribution. Only pending contributions can be deleted by their owner."
      else
        _ ← update (fun d => set_contributions (delete id (contributions d)) d);
        commit
  end.

Definition flagged (uid now : Z) (why : option string) (c : Contribution) : Contribution :=
  mkContribution (cn_id c) (cn_user c) (contribution_type c) (target_id c) (cn_data c) (cn_status c) (cn_reviewed_by c)
    (cn_reviewed_at c) (cn_review_notes c) true (Some (str_of_int uid)) (Some now)
    (match why with Some "" | None => None | Some s => Some (strip s) end) (cn_created_at c).

Definition flag_contribution_for_admin_review (now : Z) (id : string) (why : option string) (uid : Z) : tx db ContributionResponse :=
  _ ← require_role MODERATOR uid;
  if negb (at_most 1000 why) then http 422 "Validation error"
  else
    found ← query (fun d => contributions d !! id);
    match found with
    | None => http 404 "Contribution not found"
    | Some c =>
        if negb (bool_decide (cn_status c = C_APPROVED)) then http 400 ("Only approved contributions can be flagged (current status: " +:+ status_text (cn_status c) +:+ ")")
        else
          _ ← save_contribution id (flagged uid now why c);
          _ ← commit;
          respond (flagged uid now why c)
    end.

Definition rollback_note (stream : option Z) : string :=
  match stream with
  | Some sid => "Moderation rejection rollback applied: stream_id=" +:+ str_of_int sid +:+ ", is_public=False, is_active=False."
  | None => "Moderation rejection rollback: no linked stream could be resolved."
  end.

Definition rejected (uid now : Z) (stream : option Z) (notes : option string) (c : Contribution) : Contribution :=
  let with_note := append_review_note (cn_review_notes c) (rollback_note stream) in
  mkContribution (cn_id c) (cn_user c) (contribution_type c) (target_id c) (cn_data c) C_REJECTED (Some (str_of_int uid))
    (Some now)
    (Some (match notes with Some "" | None => with_note | Some n => append_review_note (Some with_note) (strip n) end))
    false (admin_review_requested_by c) (admin_review_requested_at c) (admin_review_reason c) (cn_created_at c).

Definition reject_approved_contribution (now : Z) (id : string) (notes : option string) (uid : Z) : tx db ContributionResponse :=
  _ ← require_role MODERATOR uid;
  if negb (at_most 2000 notes) then http 422 "Validation error"
  else
    found ← query (fun d => contributions d !! id);
    match found with
    | None => http 404 "Contribution not found"
    | Some c =>
        if negb (bool_decide (cn_status c = C_APPROVED)) then http 400 ("Only approved contributions can be rejected (current status: " +:+ status_text (cn_status c) +:+ ")")
        else
          d ← query (fun d => d);
          stream ← lift (contribution_stream limit d c);
          _ ← match stream with Some sid => update_stream (with_visibility false false) sid | None => mret tt end;
          _ ← save_contribution id (rejected uid now stream notes c);
          _ ← commit;
          respond (rejected uid now stream notes c)
    end.

Definition get_contribution (id : string) (uid : Z) : tx db ContributionResponse :=
  user ← require_auth uid;
  found ← query (fun d => contributions d !! id);
  match found with
  | None => http 404 "Contribution not found"
  | Some c =>
      if negb (bool_decide (cn_user c = Some uid)) && negb (privileged (role user))
      then http 403 "Not authorized to view this contribution"
      else respond c
  end.
End Reviews.

(** *** Counts *)

Record ContributionStats := mkContributionStats {
  total_contributions : Z; cs_pending : Z; cs_approved : Z; cs_rejected : Z; by_type : list (string * Z) }.

Definition count_contributions (p : Contribution -> bool) (d : db) : Z := Z.of_nat (length (select p (contributions d))).
Definition count_stream_suggestions (p : Suggestion -> bool) (d : db) : Z := Z.of_nat (length (select p (suggestions KStream d))).

(** The counts over the rows of a user, or over all of them. *)
Definition contribution_stats (mine : Contribution -> bool) (own : Suggestion -> bool) (d : db) : ContributionStats :=
  let count st := count_contributions (fun c => mine c && bool_decide (cn_status c = st)) d in
  let streams l := count_stream_suggestions (fun s => own s && memb (status s) l) d in
  let stream_total := count_stream_suggestions own d in
  mkContributionStats (count_contributions mine d + stream_total) (count C_PENDING + streams ["pending"])
    (count C_APPROVED + streams ["approved"; "auto_approved"]) (count C_REJECTED + streams ["rejected"])
    (map (fun ty => (ty, count_contributions (fun c => mine c && String.eqb (contribution_type c) ty) d)) CONTRIBUTION_TYPES
     ++ [("stream_suggestions", stream_total)])%list.

Definition get_contribution_stats (uid : Z) : tx db ContributionStats :=
  _ ← require_auth uid;
  query (contribution_stats (fun c => bool_decide (cn_user c = Some uid)) (fun s => sg_user s =? uid)).
Definition get_all_contribution_stats (uid : Z) : tx db ContributionStats :=
  _ ← require_role MODERATOR uid;
  query (contribution_stats (fun _ => true) (fun _ => true)).

(** ** The handlers make the steps of the community *)

Lemma award_import_run c w : exists b o,
  (o = settings_row (working w) \/ settings_row (working w) = None /\ o = Some default_settings) /\
  award_import_approval_points (cn_user c) (contribution_type c) w =
  (Ret b, mkSession (committed w)
            (set_settings o (set_users (import_points (effective_settings (working w)) c (users (working w))) (working w)))
            (outbox w)).
Proof.
  unfold award_import_approval_points, import_points.
  assert (Hsame : forall us, us = users (working w) ->
    (Ret false, w) = (Ret false, mkSession (committed w) (set_settings (settings_row (working w)) (set_users us (working w))) (outbox w)) :> outcome error bool * session db).
  { intros us ->. by destruct w as [c0 [] o0]. }
  destruct (cn_user c) as [uid|]; [|by eexists false, _; split; [by left|apply Hsame]].
  destruct (memb (contribution_type c) POINT_ELIGIBLE_IMPORT_TYPES); cbn [negb];
    [|by eexists false, _; split; [by left|apply Hsame]].
  unfold mbind, M_bind, query. cbn.
  destruct (users (working w) !! uid) as [u|] eqn:Eu.
  - unfold flush_contribution_settings, mbind, M_bind, query, effective_settings. cbn.
    destruct (settings_row (working w)) as [st|] eqn:Es; cbn; eexists true, _.
    + by split; [left|].
    + by split; [right|].
  - eexists false, _. split; [by left|]. apply Hsame. apply map_eq. intros i.
    destruct (decide (uid = i)) as [<-|Hne]; [by rewrite lookup_alter_eq, Eu|by rewrite lookup_alter_ne].
Qed.

Lemma with_role_import r uid st c d us :
  us = import_points st c (users d) -> with_role r uid d -> with_role r uid (set_users us d).
Proof.
  intros -> Hr. unfold import_points. destruct (cn_user c) as [v|]; [destruct (memb _ _)|];
    [by apply (with_role_alter _ _ _ (awarded st (points_per_stream_edit st) STREAM_EDIT) v)|..];
    destruct Hr as (u & Hu); by exists u.
Qed.

(** A pending contribution that a moderator is about to decide. *)
Definition reviewing (id : string) (c : Contribution) (uid : Z) (d : db) : Prop :=
  contributions d !! id = Some c /\ cn_status c = C_PENDING /\ with_role MODERATOR uid d.

Lemma reviewing_contents id c uid d d' : reviewing id c uid d -> contents_change d d' -> reviewing id c uid d'.
Proof.
  intros (H1 & H2 & (u & H3)) (E1 & E2 & E3 & E4). unfold reviewing. rewrite E4.
  repeat split; [done..|]. exists u. by rewrite E2.
Qed.

(** A missing row of settings that is filled in. *)
Lemma default_settings_steps d o :
  o = settings_row d \/ settings_row d = None /\ o = Some default_settings -> community_steps d (set_settings o d).
Proof.
  intros [->|[E ->]]; [by destruct d|]. by apply rtc_once, step_default_settings.
Qed.

Lemma approve_row id c c' uid b :
  cn_id c' = cn_id c -> cn_user c' = cn_user c -> contribution_type c' = contribution_type c -> cn_status c' = C_APPROVED ->
  cn_reviewed_by c' = Some (str_of_int uid) ->
  eff (reviewing id c uid) community_steps
    (_ ← save_contribution id c';
     _ ← award_import_approval_points (cn_user c) (contribution_type c);
     mret (b : unit)) (fun _ => with_role MODERATOR uid).
Proof.
  intros H1 H2 H3 H4 H5 w (Hid & Hp & Hr). unfold save_contribution, update, mbind, M_bind.
  set (w1 := mkSession _ _ _). destruct (award_import_run c w1) as (x & o & Ho & ->). cbn [working w1] in Ho |- *.
  set (us := import_points _ _ _). set (d1 := set_users us _).
  assert (Hrole : with_role MODERATOR uid d1).
  { eapply with_role_import; [done|]. destruct Hr as (u & Hu). by exists u. }
  split; [|by destruct Hrole as (u & Hu); exists u]. split; [|by left]. cbn [working].
  transitivity d1; [|by apply default_settings_steps].
  apply rtc_once, (step_review_contribution _ _ id c c' uid); [done..| |done].
  by rewrite H4.
Qed.

Lemma save_contribution_step id c c' d :
  contributions d !! id = Some c -> same_but_contributions d (set_contributions (<[id := c']> (contributions d)) d).
Proof. intros _. split; [done|]. by intros []. Qed.

Lemma process_telegram_quiet data : quiet contents_change (process_telegram_import data).
Proof.
  unfold process_telegram_import, update_stream.
  apply runs_bind.
  - destruct (dict_get "file_unique_id" data) as [v|]; [destruct (truthy v); [destruct v; keeps|]|];
      (destruct (dict_get "file_id" data) as [v'|]; [destruct (truthy v'); [destruct v'; keeps|]|]); keeps.
  - intros found. keeps.
Qed.

Section Steps.
Context (limit : nat).
Context (process_import : string -> list (string * value) -> option User -> tx db import_result).
Context (error_text : error -> string).
(** An import changes the catalogue and the library, and leaves the commit to
    the router. *)
Hypothesis process_import_quiet : forall ty data u, quiet contents_change (process_import ty data u).

Lemma import_contribution_quiet c notes : quiet contents_change (import_contribution process_import error_text c notes).
Proof.
  unfold import_contribution, run_import. pose proof process_import_quiet. pose proof process_telegram_quiet.
  destruct (String.eqb _ "telegram"); keeps.
Qed.

Lemma apply_contribution_review_steps now id c st uid notes :
  eff (reviewing id c uid) community_steps (apply_contribution_review process_import error_text now id c st uid notes)
    (fun _ => with_role MODERATOR uid).
Proof.
  unfold apply_contribution_review. destruct (decide (st = C_APPROVED)) as [->|Hst].
  - eapply eff_bind.
    + eapply (eff_frame _ contents_change); [|apply contents_steps|intros d d' H Hd; by eapply reviewing_contents].
      apply quiet_keeps. pose proof import_contribution_quiet. keeps.
    + intros notes'. by apply approve_row.
  - eapply eff_conseq; [apply eff_update|done|].
    + intros d (Hid & Hp & Hr). apply rtc_once.
      eapply (step_review_contribution _ _ id c (with_review st uid now notes (cn_data c) c) uid);
        [done..|by eapply save_contribution_step| |done].
      cbn. by rewrite decide_False.
    + intros _ d' (d & (Hid & Hp & u & Hu) & ->). by exists u.
Qed.

Lemma respond_eff c (P : db -> Prop) : eff P community_steps (respond limit c) (fun _ _ => True).
Proof.
  unfold respond. eapply eff_bind; [apply eff_look|]. intros d. eapply eff_bind; [apply eff_lift|]. intros m. by apply eff_return.
Qed.

Lemma respond_row_eff id (P : db -> Prop) : eff P community_steps (respond_row limit id) (fun _ _ => True).
Proof.
  unfold respond_row. eapply eff_bind; [apply eff_look|]. intros [c|]; [apply respond_eff|apply eff_throw].
Qed.

Lemma review_contribution_steps now id st notes uid :
  eff (fun _ => True) community_steps (review_contribution limit process_import error_text now id st notes uid) (fun _ _ => True).
Proof.
  unfold review_contribution. eapply eff_bind; [apply require_role_gate|]. intros u. cbv beta.
  eapply eff_bind; [apply eff_query|]. intros found. cbv beta.
  apply eff_case_option; [intros c ->|intros _; apply eff_throw].
  apply eff_case_bool; intros Hp; [apply eff_throw|].
  apply negb_false_iff, bool_decide_eq_true in Hp.
  eapply eff_bind.
  - apply eff_translate. apply (eff_pre (reviewing id c uid)); [apply apply_contribution_review_steps|]. by intros d [E H].
  - intros []. eapply eff_bind; [apply eff_commit|]. intros []. apply respond_row_eff.
Qed.

Lemma bulk_one_contribution_steps now st notes uid id :
  eff (with_role MODERATOR uid) community_steps
    (bulk_review_one_contribution process_import error_text now st notes uid id) (fun _ => with_role MODERATOR uid).
Proof.
  unfold bulk_review_one_contribution. eapply eff_bind; [apply eff_query|]. intros found. cbv beta.
  apply eff_case_option; [intros c ->|intros _; by apply eff_return; intros d [_ H]].
  apply eff_case_bool; intros Hp; [by apply eff_return; intros d [_ H]|].
  apply negb_false_iff, bool_decide_eq_true in Hp.
  apply (eff_pre (reviewing id c uid)); [|by intros d [E H]].
  apply eff_nested.
  - eapply eff_bind; [apply apply_contribution_review_steps|]. intros []. by apply eff_return.
  - intros e. apply eff_return. by intros d (_ & _ & H).
Qed.

Lemma bulk_review_contributions_steps now r uid :
  eff (fun _ => True) community_steps (bulk_review_contributions process_import error_text now r uid) (fun _ _ => True).
Proof.
  unfold bulk_review_contributions. eapply eff_bind; [apply require_role_gate|]. intros u. cbv beta.
  apply eff_case_bool; intros _; [apply eff_throw|].
  eapply eff_bind; [apply eff_look|]. intros rows. cbv beta.
  eapply eff_bind; [apply bulk_loop_steps; intros id; apply bulk_one_contribution_steps|]. intros res. cbv beta.
  eapply eff_bind; [apply eff_commit|]. intros []. by apply eff_return.
Qed.

(** Inserting a contribution, and the points of one that is approved at once. *)
Lemma insert_and_award u new_id now r uid :
  let c := new_contribution new_id now u uid r in
  eff (fun d => users d !! uid = Some u /\ is_active u = true) community_steps
    (insert_contribution c ≫= fun _ =>
     if approved_at_once u r then award_import_approval_points (cn_user c) (contribution_type c) else mret false)
    (fun _ _ => True).
Proof.
  intros c w [Hu Ha]. unfold insert_contribution, save_contribution, update, mbind, M_bind, query. cbn [working].
  destruct (contributions (working w) !! cn_id c) eqn:E; [by left|].
  set (w1 := mkSession _ _ _). assert (Hs : same_but_contributions (working w) (working w1)) by (split; [done|by intros []]).
  destruct (approved_at_once u r) eqn:Eap.
  - destruct (award_import_run c w1) as (x & o & Ho & ->). split; [|done]. split; [|by left]. cbn [working w1] in Ho |- *.
    set (us := import_points _ _ _). set (d1 := set_users us _). transitivity d1; [|by apply default_settings_steps].
    apply rtc_once, (step_contribute_approved _ _ c uid); [done|..].
    + subst c. cbn. by rewrite Eap.
    + subst c. cbn. by rewrite Eap.
    + exists u. split; [done|]. split; [done|]. apply orb_true_iff in Eap as [Hp|Hp]; [by left|right].
      apply andb_true_iff in Hp as [[Hn _]%andb_true_iff Ht]. apply negb_true_iff in Hn. subst c. cbn. rewrite Hn.
      split; [done|]. by apply memb_true.
    + subst c. cbn. destruct (is_anonymous _); auto.
    + destruct Hs. split; [done|]. by intros [].
    + done.
    + done.
  - split; [|done]. split; [|by left]. apply rtc_once, (step_contribute _ _ c); [done|..|done|done|done];
      subst c; cbn; by rewrite Eap.
Qed.

Lemma create_contribution_steps new_id now r uid :
  eff (fun _ => True) community_steps (create_contribution limit new_id now r uid) (fun _ _ => True).
Proof.
  unfold create_contribution. eapply eff_bind; [apply (require_auth_user uid (fun _ => True))|]. intros u. cbv beta.
  apply eff_case_bool; intros _; [apply eff_throw|].
  apply eff_assoc. eapply eff_bind; [eapply eff_pre; [apply insert_and_award|]; by intros d (_ & H)|].
  intros b. cbv beta. eapply eff_bind; [apply eff_commit|]. intros [].
  eapply eff_bind with (Q := fun _ _ => True); [|intros []; apply respond_eff].
  apply eff_case_bool; intros _; [|by apply eff_return]. eapply eff_bind; [apply eff_lift|]. intros name.
  eapply eff_conseq; [apply (eff_notify (fun _ => True))|done|done].
Qed.

Lemma delete_contribution_steps id uid :
  eff (fun _ => True) community_steps (delete_contribution id uid) (fun _ _ => True).
Proof.
  unfold delete_contribution. eapply eff_bind; [apply (require_auth_user uid (fun _ => True))|]. intros u. cbv beta.
  eapply eff_bind; [apply eff_query|]. intros found. cbv beta.
  apply eff_case_option; [intros c ->|intros _; apply eff_throw].
  apply eff_case_bool; intros Hp; [apply eff_throw|].
  eapply eff_bind; [apply eff_update|intros []; eapply eff_conseq; [apply (eff_commit (fun _ => True))|done|done]].
  intros d (E & _ & Hu & Ha). apply rtc_once, (step_delete_contribution _ _ id c uid); [done|..|by split; [|intros []]|done|done].
  apply andb_false_iff in Hp as [Hp|Hp]; apply negb_false_iff in Hp; [left|right].
  - apply bool_decide_eq_true in Hp. exists u. split; [done|]. split; [done|]. by rewrite Hp.
  - apply andb_true_iff in Hp as [Hp1 Hp2]. by apply bool_decide_eq_true in Hp1, Hp2.
Qed.

Lemma flag_contribution_steps now id why uid :
  eff (fun _ => True) community_steps (flag_contribution_for_admin_review limit now id why uid) (fun _ _ => True).
Proof.
  unfold flag_contribution_for_admin_review. eapply eff_bind; [apply require_role_gate|]. intros u. cbv beta.
  apply eff_case_bool; intros _; [apply eff_throw|].
  eapply eff_bind; [apply eff_query|]. intros found. cbv beta.
  apply eff_case_option; [intros c ->|intros _; apply eff_throw].
  apply eff_case_bool; intros Hp; [apply eff_throw|]. apply negb_false_iff, bool_decide_eq_true in Hp.
  eapply eff_bind; [apply eff_update|intros []; eapply eff_bind; [apply eff_commit|intros []; apply respond_eff]].
  intros d [E Hr]. apply rtc_once, (step_flag_contribution _ _ id c (flagged uid now why c) uid);
    [done..|by eapply save_contribution_step|done|done].
Qed.

Lemma reject_approved_steps now id notes uid :
  eff (fun _ => True) community_steps (reject_approved_contribution limit now id notes uid) (fun _ _ => True).
Proof.
  unfold reject_approved_contribution. eapply eff_bind; [apply require_role_gate|]. intros u. cbv beta.
  apply eff_case_bool; intros _; [apply eff_throw|].
  eapply eff_bind; [apply eff_query|]. intros found. cbv beta.
  apply eff_case_option; [intros c ->|intros _; apply eff_throw].
  apply eff_case_bool; intros Hp; [apply eff_throw|]. apply negb_false_iff, bool_decide_eq_true in Hp.
  set (P := fun d => contributions d !! id = Some c /\ with_role MODERATOR uid d).
  apply (eff_pre P); [|by intros d [E H]].
  eapply eff_bind; [apply eff_look|]. intros d0. cbv beta.
  eapply eff_bind with (Q := fun _ => P); [eapply eff_conseq; [apply eff_lift|done|by intros a d [_ H]]|]. intros stream. cbv beta.
  eapply eff_bind with (Q := fun _ => P).
  { eapply (eff_frame _ contents_change); [|apply contents_steps|].
    - apply quiet_keeps. unfold update_stream. keeps.
    - intros d d' [H1 (v & H2)] (E1 & E2 & E3 & E4). split; [by rewrite E4|]. exists v. by rewrite E2. }
  intros []. eapply eff_bind; [apply eff_update|intros []; eapply eff_bind; [apply eff_commit|intros []; apply respond_eff]].
  intros d [E Hr]. apply rtc_once, (step_reject_approved _ _ id c (rejected uid now stream notes c) uid);
    [done..|by eapply save_contribution_step|done|done].
Qed.
End Steps.

(** ** Anonymous contributions *)

(** [C25] An anonymous contribution carries no trace of who sent it: two active
    users who both may approve contributions, or both may not, leave the same
    tables, send the same notifications and get the same answer. *)
Theorem anonymous_contribution_private limit new_id now r d uid1 uid2 u1 u2 :
  is_anonymous (ct_data r) = true -> users d !! uid1 = Some u1 -> users d !! uid2 = Some u2 ->
  is_active u1 = true -> is_active u2 = true -> privileged (role u1) = privileged (role u2) ->
  run (create_contribution limit new_id now r uid1) d = run (create_contribution limit new_id now r uid2) d.
Proof.
  intros Han H1 H2 A1 A2 Hp.
  assert (Hrun : forall uid u, users d !! uid = Some u -> is_active u = true ->
    require_auth uid (mkSession d d []) = (Ret u, mkSession d d [])).
  { intros uid u Hu Ha. unfold require_auth, mbind, M_bind, query. cbn. by rewrite Hu, Ha. }
  assert (Hc : new_contribution new_id now u1 uid1 r = new_contribution new_id now u2 uid2 r).
  { unfold new_contribution, approved_at_once. rewrite Han, Hp. cbn. by rewrite !orb_false_r. }
  assert (Happ : approved_at_once u1 r = approved_at_once u2 r).
  { unfold approved_at_once. rewrite Han, Hp. cbn. by rewrite !orb_false_r. }
  unfold run, create_contribution. erewrite !bind_run by by apply Hrun.
  rewrite Hc, Happ, Han. reflexivity.
Qed.

Lemma anonymous_contribution_private_witness :
  let r := mkCreate "torrent" None [("is_anonymous", VBool true); ("title", VStr "Dune")] in
  run (create_contribution 9 "c" 0 r 3) sample_db = run (create_contribution 9 "c" 0 r 4) sample_db.
Proof. intros r. by eapply (anonymous_contribution_private 9 "c" 0 r sample_db 3 4). Defined.

(** ** Lookups that do not end *)

(** An HTTP contribution whose media is not there: nothing but its link to look
    for. *)
Definition unresolved_link (d : db) (c : Contribution) : Prop :=
  contribution_type c = "http" /\ first_media d (meta_candidates c) = Ret None /\ marked_stream d c = Ret None /\
  text_field "url" (cn_data c) <> "".

Lemma unresolved_link_endless d c : unresolved_link d c -> forall limit,
  contribution_media limit d c = Raise (Uncaught RecursionError) /\ contribution_stream limit d c = Raise (Uncaught RecursionError).
Proof.
  intros (Ht & Hf & Hm & Hu). induction limit as [|limit [IH1 IH2]]; [done|].
  cbn [contribution_media contribution_stream]. rewrite Hf, Hm, Ht. cbn -[text_field]. rewrite IH2. split; [done|].
  destruct (text_field "url" (cn_data c)) as [|x t] eqn:E; [done|]. cbn [str_empty]. by rewrite IH1.
Qed.

(** Every other lookup ends within four calls. *)
Lemma lookup_ends d c limit : (4 <= limit)%nat -> contribution_media limit d c = Raise (Uncaught RecursionError) -> unresolved_link d c.
Proof.
  assert (Hext : forall x e, external_lookup d x = Raise e -> e = DataError).
  { intros x e. unfold external_lookup. destruct (if startswith _ _ then _ else _); [destruct (fits _)|]; by intros [=]. }
  assert (Hfirst : forall l e, first_media d l = Raise e -> e = DataError).
  { induction l as [|x l IH]; intros e; [done|]. cbn. destruct (external_lookup d x) as [[mid|]|e'] eqn:E; cbn.
    - done.
    - apply IH.
    - intros [= <-]. by eapply Hext. }
  assert (Hmark : forall c e, marked_stream d c = Raise e -> e = DataError).
  { clear c. intros c e. unfold marked_stream. destruct (extract_stream_id _) as [z|]; [destruct (z =? 0); [|destruct (fits z)]|]; by intros [=]. }
  intros Hl. do 4 (destruct limit as [|limit]; [lia|]). clear Hl.
  cbn [contribution_media contribution_stream].
  destruct (first_media d (meta_candidates c)) as [[mid|]|e] eqn:Ef; cbn -[text_field]; [done| |by intros [= ->]; apply Hfirst in Ef].
  destruct (marked_stream d c) as [[sid|]|e] eqn:Em; cbn -[text_field]; [done| |by intros [= ->]; apply Hmark in Em].
  repeat (match goal with |- context [String.eqb ?a ?b] => destruct (String.eqb a b) eqn:? end; [try done|]); try done.
  - destruct (text_field "url" (cn_data c)) eqn:Eu; [done|]. intros _. unfold unresolved_link. rewrite Eu.
    split_and!; [by apply String.eqb_eq|done..].
  - by destruct (typed_stream _ _ _ _).
Qed.

(** [C26] Looking up the media of a contribution ends within four calls, unless it
    is a link whose media is unknown: then the two lookups call each other until
    the recursion limit is reached, however high it is. *)
Theorem media_lookup_ends_iff limit d c : (4 <= limit)%nat ->
  contribution_media limit d c = Raise (Uncaught RecursionError) <-> unresolved_link d c.
Proof. intros Hl. split; [by apply lookup_ends|]. intros H. by apply unresolved_link_endless. Qed.

Definition sample_link : ContributionCreate :=
  mkCreate "http" (Some "tt9999999") [("url", VStr "https://example.com/film.mp4"); ("meta_id", VStr "tt9999999")].

Lemma media_lookup_ends_iff_witness :
  (4 <= 1000)%nat /\ contribution_media 1000 sample_db (new_contribution "c" 0 (mkUser 3 (Some "ann") USER true 0 0 0 "new") 3 sample_link) =
  Raise (Uncaught RecursionError).
Proof.
  split; [lia|]. apply media_lookup_ends_iff; [lia|]. unfold unresolved_link. split_and!; [reflexivity..|]. by vm_compute.
Defined.

(** Submitting such a link stores it, and answers with an error. *)
Example unresolved_link_unanswered :
  let '(answer, d, _) := run (create_contribution 1000 "c" 0 sample_link 3) sample_db in
  answer = Raise (Uncaught RecursionError) /\ (cn_status <$> contributions d !! "c") = Some C_PENDING.
Proof. by vm_compute. Qed.
