(* ===== verification/CommunityRuns.v ===== *)
(** * Runs of the community

    Every request a client can make of the handlers, served one after the
    other, is a sequence of steps of CommunitySpec ([serve_steps]); what the
    steps preserve holds after any requests.  Requests are whole transactions:
    their interleaving is left out. *)

From S2P Require Export CommunityInvariants EpisodeSuggestions Contributions.
Local Open Scope string_scope.
Local Open Scope Z_scope.

(** ** Settings *)

Lemma update_settings_steps u uid :
  eff (fun _ => True) community_steps (update_contribution_settings u uid) (fun _ _ => True).
Proof.
  unfold update_contribution_settings. eapply eff_bind; [apply require_role_gate|]. intros v. cbv beta.
  apply eff_case_bool; intros Hv; [apply eff_throw|]. apply negb_false_iff in Hv.
  intros w Hr. unfold get_contribution_settings, mbind, M_bind, query, update, commit, http, throw.
  assert (Hsteps : forall st, st = effective_settings (working w) -> ordered_thresholds (updated_settings u st) ->
    community_steps (working w) (set_settings (Some (updated_settings u st)) (working w))).
  { intros st -> Ho. apply rtc_once. by eapply (step_settings _ _ uid u); [..|intros []|]. }
  assert (Hdef : settings_row (working w) = None -> community_steps (working w) (set_settings (Some default_settings) (working w))).
  { intros E. by apply rtc_once, step_default_settings. }
  unfold effective_settings in Hsteps. destruct (settings_row (working w)) as [st|] eqn:E; cbn -[updated_settings].
  - destruct (_ <=? contributor_threshold (updated_settings u st)) eqn:E1; [by left|].
    destruct (_ <=? trusted_threshold (updated_settings u st)) eqn:E2; [by left|].
    split; [|done]. assert (ordered_thresholds (updated_settings u st)) as Ho by (unfold ordered_thresholds; lia).
    split; [|right]; by apply Hsteps.
  - destruct (_ <=? contributor_threshold (updated_settings u default_settings)) eqn:E1; [right; by apply Hdef|].
    destruct (_ <=? trusted_threshold (updated_settings u default_settings)) eqn:E2; [right; by apply Hdef|].
    split; [|done].
    assert (ordered_thresholds (updated_settings u default_settings)) as Ho by (unfold ordered_thresholds; lia).
    split; [|right]; by apply Hsteps.
Qed.

Lemma reset_settings_steps uid :
  eff (fun _ => True) community_steps (reset_contribution_settings uid) (fun _ _ => True).
Proof.
  unfold reset_contribution_settings. eapply eff_bind; [apply require_role_gate|]. intros v. cbv beta.
  intros w Hr. unfold mbind, M_bind, query, update, commit.
  assert (H1 : community_steps (working w) (set_settings None (working w))) by (by eapply rtc_once, step_reset_settings).
  assert (H2 : community_steps (working w) (set_settings (Some default_settings) (working w))).
  { etransitivity; [exact H1|]. by apply rtc_once, (step_default_settings (set_settings None (working w))). }
  destruct (settings_row (working w)) as [st|] eqn:E; cbn; (split; [|done]; split; [|right]); exact H2.
Qed.

Lemma get_my_contribution_info_steps uid :
  eff (fun _ => True) community_steps (get_my_contribution_info uid) (fun _ _ => True).
Proof.
  unfold get_my_contribution_info. eapply eff_bind; [apply (require_auth_user uid (fun _ => True))|]. intros u. cbv beta.
  eapply eff_bind; [apply get_settings_eff; by intros d x H|]. intros st. cbv beta.
  eapply eff_bind; [by apply (should_auto_approve_eff u uid st); intros d ((_ & H1 & H2) & H3)|]. intros b. by apply eff_return.
Qed.

(** ** Requests *)

Inductive request :=
  | UpdateSettings (u : ContributionSettingsUpdate) (uid : Z)
  | ResetSettings (uid : Z)
  | MyContributionInfo (uid : Z)
  | CreateSuggestion (new_id : string) (now mid : Z) (r : SuggestionCreateRequest) (uid : Z)
  | ReviewSuggestion (now : Z) (id : string) (act : action) (notes : option string) (uid : Z)
  | BulkReviewSuggestions (now : Z) (ids : list string) (act : action) (notes : option string) (uid : Z)
  | DeleteSuggestion (id : string) (uid : Z)
  | CreateEpisodeSuggestion (new_id : string) (now eid : Z) (r : SuggestionCreateRequest) (uid : Z)
  | ReviewEpisodeSuggestion (now : Z) (id : string) (act : action) (notes : option string) (uid : Z)
  | BulkReviewEpisodeSuggestions (now : Z) (ids : list string) (act : action) (notes : option string) (uid : Z)
  | DeleteEpisodeSuggestion (id : string) (uid : Z)
  | CreateStreamSuggestion (new_id : string) (now sid : Z) (r : StreamSuggestionCreateRequest) (uid : Z)
  | ReviewStreamSuggestion (now : Z) (id : string) (act : action) (notes : option string) (uid : Z)
  | BulkReviewStreamSuggestions (now : Z) (ids : list string) (act : action) (notes : option string) (uid : Z)
  | DeleteStreamSuggestion (id : string) (uid : Z)
  | TriageIssue (now : Z) (id triage : string) (note : option string) (uid : Z)
  | BrokenStatus (sid uid : Z)
  | CreateContribution (new_id : string) (now : Z) (r : ContributionCreate) (uid : Z)
  | ReviewContribution (now : Z) (id : string) (st : ContributionStatus) (notes : option string) (uid : Z)
  | BulkReviewContributions (now : Z) (r : BulkReviewRequest) (uid : Z)
  | FlagContribution (now : Z) (id : string) (why : option string) (uid : Z)
  | RejectApproved (now : Z) (id : string) (notes : option string) (uid : Z)
  | DeleteContribution (id : string) (uid : Z).

(** The code behind the handlers that is not modelled. *)
Record world := mkWorld {
  fetch_media : string -> string -> option string -> tx db (option Z);
  other_attribute : StreamRow -> string -> outcome error (option string);
  process_import : string -> list (string * value) -> option User -> tx db import_result;
  error_text : error -> string; recursion_limit : nat }.

(** It changes the catalogue and the library only, and does not commit. *)
Class QuietWorld (w : world) := {
  fetch_media_quiet ext ty title : quiet contents_change (fetch_media w ext ty title);
  process_import_quiet ty data u : quiet contents_change (process_import w ty data u) }.

Definition handle (w : world) (r : request) : db -> db :=
  match r with
  | UpdateSettings u uid => after (update_contribution_settings u uid)
  | ResetSettings uid => after (reset_contribution_settings uid)
  | MyContributionInfo uid => after (get_my_contribution_info uid)
  | CreateSuggestion new_id now mid r uid => after (create_suggestion new_id now mid r uid)
  | ReviewSuggestion now id act notes uid => after (review_suggestion now id act notes uid)
  | BulkReviewSuggestions now ids act notes uid => after (bulk_review_suggestions now ids act notes uid)
  | DeleteSuggestion id uid => after (delete_suggestion id uid)
  | CreateEpisodeSuggestion new_id now eid r uid => after (create_episode_suggestion new_id now eid r uid)
  | ReviewEpisodeSuggestion now id act notes uid => after (review_episode_suggestion now id act notes uid)
  | BulkReviewEpisodeSuggestions now ids act notes uid => after (bulk_review_episode_suggestions now ids act notes uid)
  | DeleteEpisodeSuggestion id uid => after (delete_episode_suggestion id uid)
  | CreateStreamSuggestion new_id now sid r uid =>
      after (create_stream_suggestion (fetch_media w) (other_attribute w) new_id now sid r uid)
  | ReviewStreamSuggestion now id act notes uid => after (review_stream_suggestion (fetch_media w) now id act notes uid)
  | BulkReviewStreamSuggestions now ids act notes uid => after (bulk_review_stream_suggestions (fetch_media w) now ids act notes uid)
  | DeleteStreamSuggestion id uid => after (delete_stream_suggestion id uid)
  | TriageIssue now id triage note uid => after (update_stream_issue_triage now id triage note uid)
  | BrokenStatus sid uid => after (get_broken_report_status sid uid)
  | CreateContribution new_id now r uid => after (create_contribution (recursion_limit w) new_id now r uid)
  | ReviewContribution now id st notes uid =>
      after (review_contribution (recursion_limit w) (process_import w) (error_text w) now id st notes uid)
  | BulkReviewContributions now r uid => after (bulk_review_contributions (process_import w) (error_text w) now r uid)
  | FlagContribution now id why uid => after (flag_contribution_for_admin_review (recursion_limit w) now id why uid)
  | RejectApproved now id notes uid => after (reject_approved_contribution (recursion_limit w) now id notes uid)
  | DeleteContribution id uid => after (delete_contribution id uid)
  end.

Definition serve (w : world) (rs : list request) (d : db) : db := foldl (fun d r => handle w r d) d rs.

Lemma handle_steps w `{!QuietWorld w} r d : community_steps d (handle w r d).
Proof.
  destruct r; cbn [handle]; eapply (eff_after (fun _ => True)); try done.
  - apply update_settings_steps.
  - apply reset_settings_steps.
  - apply get_my_contribution_info_steps.
  - apply create_suggestion_steps.
  - apply review_suggestion_steps.
  - apply bulk_review_suggestions_steps.
  - by apply delete_suggestion_steps.
  - apply create_episode_suggestion_steps.
  - apply review_episode_suggestion_steps.
  - apply bulk_review_episode_suggestions_steps.
  - by apply delete_suggestion_steps.
  - apply create_stream_suggestion_steps, fetch_media_quiet.
  - apply review_stream_suggestion_steps, fetch_media_quiet.
  - apply bulk_review_stream_suggestions_steps, fetch_media_quiet.
  - apply delete_stream_suggestion_steps.
  - apply update_stream_issue_triage_steps.
  - apply get_broken_report_status_steps.
  - apply create_contribution_steps.
  - apply review_contribution_steps, process_import_quiet.
  - apply bulk_review_contributions_steps, process_import_quiet.
  - apply flag_contribution_steps.
  - apply reject_approved_steps.
  - apply delete_contribution_steps.
Qed.

Lemma serve_steps w `{!QuietWorld w} rs : forall d, community_steps d (serve w rs d).
Proof.
  induction rs as [|r rs IH]; intros d; [done|]. cbn. etransitivity; [apply (handle_steps w r)|apply IH].
Qed.

(** ** What holds after any requests *)

(** [C22] Whatever requests are served in whatever order, the tables move by the
    steps of the community only.  The settings change by an administrator.  A
    suggestion is submitted pending (for metadata and episodes within the limit
    of the user and one per field; for streams without a limit), or approved at
    once with the points of an edit, for moderators, administrators and users
    with enough points.  A moderator decides what is pending, and the decision
    settles with the author: an approval brings the points of an edit, a
    rejection the penalty, with the two exceptions [settlement] names.  What is
    pending can be withdrawn.  A contribution is submitted pending, or approved
    at once with the points of an import: any active user's own torrents and
    streams, and everything of moderators and administrators; moderators review
    the pending ones, with these points, and flag or reject approved ones, with
    none; it is deleted by an administrator at any time and by its author while
    pending.  Beyond that only contents change (catalogue, library, episodes, the
    triage of issues) and a missing row of settings is made. *)
Theorem requests_refine_steps w `{!QuietWorld w} rs d : community_steps d (serve w rs d).
Proof. apply serve_steps, _. Qed.

(** A world in which nothing can be imported. *)
Definition no_imports : world :=
  mkWorld (fun _ _ _ => mret None) (fun _ _ => Ret None) (fun _ _ _ => mret (mkImport "error" None)) (fun _ => "error") 1000.
#[export] Instance no_imports_quiet : QuietWorld no_imports.
Proof. split; intros; apply runs_ret. Qed.

Definition sample_requests : list request :=
  [CreateSuggestion "s1" 0 10 (mkCreateRequest "title" None "Dune: Part One" None) 3;
   CreateStreamSuggestion "s2" 1 100 (mkStreamRequest "report_broken" None None None None no_target) 3;
   ReviewSuggestion 2 "s1" APPROVE None 2; ReviewStreamSuggestion 3 "s2" REJECT (Some "works") 2;
   CreateContribution "c1" 4 (mkCreate "torrent" None []) 3; RejectApproved 5 "c1" None 1;
   UpdateSettings (mkSettingsUpdate None None None None None None None (Some false) None None) 1;
   DeleteSuggestion "s1" 3].

Lemma requests_refine_steps_witness : community_steps sample_db (serve no_imports sample_requests sample_db).
Proof. apply (requests_refine_steps no_imports). Defined.

(** They did what they were sent for. *)
Example sample_requests_served :
  let d := serve no_imports sample_requests sample_db in
  (title <$> medias (catalogue d) !! 10) = Some "Dune: Part One" /\
  (status <$> suggestions KMetadata d !! "s1") = Some STATUS_APPROVED /\
  (status <$> suggestions KStream d !! "s2") = Some STATUS_REJECTED /\
  (cn_status <$> contributions d !! "c1") = Some C_REJECTED /\
  (allow_auto_approval <$> settings_row d) = Some false /\
  (contribution_points <$> users d !! 3) = Some 6.
Proof. by vm_compute. Qed.

(** [C23] The tables stay well formed under any requests: settings within their
    ranges with ordered levels; points between nothing and a hundred for each edit
    that the user's counters count (a rejection with a penalty counts one too,
    [rejection_counts_an_edit]); every suggestion with the reviewer its status
    calls for (a moderator for a decision, the author for an automatic approval,
    none while it waits); at most a hundred pending suggestions of a user for
    metadata and as many for episodes, one for each field.  Suggestions for
    streams have neither limit ([corrections_pile_up]). *)
Theorem community_stays_ok w `{!QuietWorld w} rs d : community_ok d -> community_ok (serve w rs d).
Proof. apply steps_ok, serve_steps, _. Qed.

Lemma sample_db_ok : community_ok sample_db.
Proof.
  split.
  - apply default_settings_ok.
  - intros i u Hu. change (users sample_db) with sample_users in Hu. unfold sample_users in Hu. apply elem_of_list_to_map_2 in Hu.
    set_unfold in Hu. destruct Hu as [[= -> ->]|[[= -> ->]|[[= -> ->]|[[= -> ->]|[]]]]]; unfold points_ok; cbn; lia.
  - intros k id s Hs. exfalso. destruct k; revert Hs; cbn; rewrite ?lookup_fmap, lookup_empty; done.
  - intros k uid Hk. unfold pending_count. destruct k; [done|done|done].
  - intros k id1 id2 s1 s2 Hk Hs. exfalso. destruct k; revert Hs; cbn; rewrite ?lookup_fmap, lookup_empty; done.
Qed.

Lemma community_stays_ok_witness : community_ok (serve no_imports sample_requests sample_db).
Proof. apply (community_stays_ok no_imports). apply sample_db_ok. Defined.

(** [C24] No request changes a role or deactivates a user, and a suggestion once
    decided or approved keeps its decision, its reviewer and its notes, whatever
    is requested afterwards. *)
Theorem decisions_are_final w `{!QuietWorld w} rs d :
  ranks (serve w rs d) = ranks d /\
  forall k id s, suggestions k d !! id = Some s -> is_pending s = false ->
    exists s', suggestions k (serve w rs d) !! id = Some s' /\ same_decision s s'.
Proof.
  split; [apply steps_ranks, serve_steps, _|]. intros k id s Hid Hp. eapply steps_final; [by apply serve_steps|done|done].
Qed.

Lemma decisions_are_final_witness :
  let s := new_suggestion "s9" 4 10 "title" None (Some "Dune") None 0 true in
  let d := set_metadata_suggestions {[ "s9" := s ]} sample_db in
  exists s', suggestions KMetadata (serve no_imports (DeleteSuggestion "s9" 4 :: sample_requests) d) !! "s9" = Some s' /\
    same_decision s s'.
Proof.
  intros s d. destruct (decisions_are_final no_imports (DeleteSuggestion "s9" 4 :: sample_requests) d) as [_ H].
  by apply (H KMetadata).
Defined.

(** *** Points without a review *)

(** Nine contributions that import nothing, approved at once for an active user,
    bring a new user past the threshold of automatic approval: the tenth request
    renames a film. *)
Example trust_without_review :
  let submit i := CreateContribution (str_of_int i) i (mkCreate "stream" None []) 3 in
  let d := serve no_imports (map submit (map Z.of_nat (seq 0 9)) ++
             [CreateSuggestion "s" 9 10 (mkCreateRequest "title" None "Spam" None) 3])%list sample_db in
  (contribution_points <$> users d !! 3) = Some 32 /\ (title <$> medias (catalogue d) !! 10) = Some "Spam" /\
  (status <$> suggestions KMetadata d !! "s") = Some STATUS_AUTO_APPROVED.
Proof. by vm_compute. Qed.

(** *** Penalties *)

(** A rejected suggestion counts as an approved edit of its author. *)
Example rejection_counts_an_edit :
  let d := serve no_imports [CreateSuggestion "s" 0 10 (mkCreateRequest "title" None "Dune!" None) 3;
                             ReviewSuggestion 1 "s" REJECT None 2] sample_db in
  (metadata_edits_approved <$> users d !! 3) = Some 1 /\ (contribution_points <$> users d !! 3) = Some 0.
Proof. by vm_compute. Qed.

(** *** Reports *)

(** With a threshold of three the second approved report blocks the stream: the
    report under review is counted twice. *)
Example second_report_blocks :
  let report id uid := CreateStreamSuggestion id 0 100 (mkStreamRequest "report_broken" None None None None no_target) uid in
  let d := set_settings (Some (mkSettings 1000 5 3 (-2) 10 50 200 true false 20 3 true)) sample_db in
  let d1 := serve no_imports [report "a" 3; ReviewStreamSuggestion 1 "a" APPROVE None 2] d in
  let d2 := serve no_imports [report "b" 4; ReviewStreamSuggestion 2 "b" APPROVE None 2] d1 in
  (is_blocked <$> streams (library d1) !! 100) = Some false /\ (is_blocked <$> streams (library d2) !! 100) = Some true.
Proof. by vm_compute. Qed.

(** *** The same correction again and again *)

(** The check for a pending correction of the same type looks for another type
    than the one that is stored. *)
Example corrections_pile_up :
  let correct id := CreateStreamSuggestion id 0 100
    (mkStreamRequest "field_correction" (Some "resolution") None (Some "4K") None no_target) 3 in
  pending_count KStream 3 (serve no_imports (map correct ["a"; "b"; "c"; "d"]) sample_db) = 4.
Proof. by vm_compute. Qed.
